(* ===== verification/_CoqProject ===== *)
-Q . S2P
Prelude.v
Links.v
Memops.v
Bitmap.v
Pmm.v
Heap.v
Thread.v
Sched.v
Checksum.v
Netdev.v
Ethernet.v
Arp.v
Ip.v
Transport.v
Icmp.v
Udp.v
Tcp.v
Socket.v
Dhcp.v
Stack.v
Polling.v
Vmm.v
Ports.v
Digits.v
Debug.v
Graphic.v
Shapes.v
Interrupts.v
Pci.v
E1000.v
E1000Rings.v
Timer.v
Keyboard.v
Buffers.v
Block.v
Ata.v
Fat16.v
FatTable.v
FatFiles.v
FatWrite.v
FatFormat.v
FatDemo.v
Acpi.v
Shell.v
ShellEditor.v
Reports.v
Text.v
Boot.v
BootSpec.v
