(* ===== verification/Prelude.v ===== *)
(** * CGOS: a verification of the kernel

    CGOS is a hobby kernel for x86-64 in C, booted by Limine: physical and virtual
    memory, a heap, preemptive threads with adaptive priorities, interrupts, timer and
    keyboard, a PCI bus with an e1000 card, a TCP/IP stack, an ATA disk with a FAT16
    file system, a screen, a debug console and a shell.  This library translates the
    C code of [src/src] into Rocq definitions and proves what the code does.

    ** The parts and how they interact

    [kmain] (Boot) initialises the parts in turn and starts the scheduler.  Pages come
    from one bitmap allocator (Bitmap, Pmm): the heap (Heap), the page tables (Vmm),
    the threads with their stacks (Thread) and the rings of the network card (E1000)
    are its clients.  The timer interrupt (Timer, Interrupts) drives the scheduler
    (Sched); the keyboard interrupt (Keyboard) fills a ring that the shell reads.
    The shell's thread (Shell) edits and runs commands, and polls the network: frames
    come from the card or the loopback device (Netdev) through Ethernet, Arp, Ip, Icmp,
    Udp, Tcp and Dhcp (Stack, Polling), over which Socket is a thin layer.  The file
    system (Fat16) uses the disk driver (Ata) one sector at a time (Block).  Everything
    reports on the screen (Graphic) or the console (Debug).

    ** Files and sources (paths under [src/src])

    - Prelude: tactics, machine words, lists and bytes.  Links: linked lists in a store.
    - Memops, Heap: [memory/memory.c].  Bitmap: [memory/bitmap_mem.c].
      Pmm: [memory/pmm.c].  Vmm: [memory/vmm.c].
    - Thread: [sched/thread.c].  Sched: [sched/scheduler.c], the tick counter of
      [timer/timer.c].  Timer: the rest of [timer/timer.c].
    - Interrupts: [gdt/gdt.c], [interrupt/interrupt.c], parts of their assembly.
    - Keyboard: [drivers/keyboard.c].  Ports: the port instructions of [pci/pci.h].
      Pci: [pci/pci.c].  E1000, E1000Rings: [drivers/e1000.c].
    - Checksum, Transport: the checksums of [network/ip.c], [icmp.c], [udp.c], [tcp.c];
      Buffers: the header fields byte by byte.  Netdev: [network/netdev.c], the table
      of [network/network.c].  Ethernet, Arp, Ip, Icmp, Udp, Tcp, Socket, Dhcp: the files
      of [network] with these names.  Stack: the input side of all of them and
      [network_init].  Polling: theorems on it.
    - Block: the interface of a disk.  Ata: [drivers/ata.c].  Fat16: [fs/fat16.c];
      FatTable, FatFiles, FatWrite, FatFormat, FatDemo: theorems on it.
    - Digits, Debug: [debug/debug.c].  Graphic: [graphic/graphic.c]; Shapes, Text:
      what is drawn and when it stays on the screen.
    - Acpi: [acpi/acpi.c].  Shell: [shell/shell.c]; ShellEditor: theorems on it.
      Reports: the functions of several files that print a state.
    - Boot: [main.c]; BootSpec: theorems on it.

    ** Conventions

    Definitions have the names of the C functions.  A word is a [Z] with its
    wrap-around written out ([u8], [u16], [u32], [u64], [i32]); an [int] that overflows,
    an access outside an array, through NULL or to freed memory, and a division by zero
    are [None], so an equation [f x = Some y] says that the code runs without undefined
    behaviour.  State is passed explicitly: the static variables of a file are the fields
    of a record.  Objects that are shared by pointers (heap headers, threads, page tables,
    packet buffers in memory) live in a store from addresses to contents; a pointer into
    a static array is its index.  Tests of NULL on arguments that every caller gives as
    the address of a static object are not branches of the model.

    ** What is not in the repository

    Hardware, boot loader and linker are parameters.  Classes state what the code
    relies on, with an instance that shows that it can hold:
    - [Ports.Ports]: the six port operations of any hardware; [Timer.BoardLaws] (the
      8259 and 8254 chips, instance [board]), [Keyboard.KeyboardLaws], [Pci.PciLaws]
      (instance [pci_bus]) and [Ata.AtaLaws] (instance [ata]) relate it to a state
      machine of the device.  The theorems about [kmain] assume none of them.
    - [E1000.Mmio] and [MmioLaws]: the registers of the card (instance [nic]).
    - [Netdev.Nic] and [NicLaws]: a network card for the stack; [E1000] implements it.
    - [Vmm.PageAllocator] and its laws; [Pmm] implements them.
    - [Block.BlockDevice] and [BlockLaws]: a disk for the file system; [Ata] implements
      them, and so does a disk in memory.
    The response of the boot loader and the addresses of the linker are the record
    [Boot.loader] and arguments ([bitmap_storage_address], [hhdm_offset], the stubs of
    the assembly files).

    ** What the theorems show

    - Memory: no page and no heap block is handed out twice, over
      all sequences of operations of a client; the allocator is first fit and complete;
      a mapping adds exactly the requested translation to those of the MMU.
    - Threads: the scheduler's queues stay well formed over all sequences of operations;
      yield, tick and sleep refine an abstract round robin.
    - Interrupts: each vector reaches its stub through the tables as the processor reads
      them; a page fault maps a device page or stops the machine.
    - Devices: the keyboard is a queue, the card two queues, the disk an array of sectors,
      each for any interleaving or timing that the device's documentation allows; the
      scan of the bus finds the functions that exist.
    - Network: checksums are those of the RFCs; options and addresses survive the round
      trip; the ARP cache and the sockets keep their invariants; a datagram and a ping
      to the host itself arrive; polling ends, except for the exchange of TCP resets,
      which does not.
    - Files: what is written is read back, other files are not changed; formatting makes
      a volume that mounts; deleting a file damages the directory.
    - Screen and console: formats are typed, numbers are exact, lines and circles are
      the nearest points to the ideal ones.
    - Shell: the editor refines one on lists.  Boot: the core of the kernel starts and
      the first thread is the shell, on any hardware and any large enough screen.
    Where the code does not do what it means to do, a theorem or an example shows it:
    the transmit ring that stops after a lap, the reserved region that is not reserved,
    the reset storm, the deleted file, the shifted exception frame, the quoted text of
    the shell and others.

    ** Fuel and bounds

    A loop that the code bounds is a recursion on that bound.  Others have fuel, with a
    theorem or lemma that it is enough: 48 frames and one more round for a poll of the
    loopback queue (its 16 packets, each answered at most twice), 65537 clusters for a
    chain of the allocation table, the size of a file in sectors and two more for its
    data, dx + dy + 1 points for a line and r + 2 for a circle, the number of threads
    and one more for the sleep queue, 64 digits for a number, the fuel of a ping by the
    ticks that pass.  The waits of the disk driver have the bound of the code (100000
    reads).  A loop that may not end in the code (the controller's full input buffer at
    reset and at the start of the keyboard driver, [timer_sleep_ms]) has its fuel as an
    argument; the theorems about it give enough fuel from what the hardware does.

    ** Not modelled

    - The context switch and the interrupt stubs in assembly, other than the stack frame
      that starts a thread, the frame that the common exception stub passes and the loads
      of the descriptor tables.
    - The boot loader protocol ([limine.h] is not in the repository), the linker script,
      the build files and scripts.
    - The bodies of callbacks given to the network: a call is an event of the result.
    - Messages that a component writes on the console by itself, other than those of the
      exception handlers, the reports and [kmain]; the loop of the shell prints two such
      lines.
    - The structures of [acpi.h] and constants that no code uses; [get_or_create_table]
      and [map_kernel_space] of [vmm.c], which nothing calls.
    - Interrupts between the statements of the file system, the network and the shell:
      they touch no state of these parts.  They are modelled where they do, in Sched,
      Timer and Keyboard. *)

From Stdlib Require Export ZArith Lia.
From stdpp Require Export base numbers list gmap sets fin_maps option.

#[global] Open Scope Z_scope.

(** ** Tactics *)

(** [zlia]: linear arithmetic with division and modulo by constants. *)
Ltac zlia := Z.to_euclidean_division_equations; lia.

(** Split boolean tests occurring in hypotheses and goal into arithmetic facts. *)
Ltac zbool :=
  repeat match goal with
  | H : _ && _ = true |- _ => apply andb_true_iff in H as [? ?]
  | H : _ || _ = false |- _ => apply orb_false_iff in H as [? ?]
  | H : negb _ = true |- _ => apply negb_true_iff in H
  | H : negb _ = false |- _ => apply negb_false_iff in H
  | H : (_ =? _) = true |- _ => apply Z.eqb_eq in H
  | H : (_ =? _) = false |- _ => apply Z.eqb_neq in H
  | H : (_ <? _) = true |- _ => apply Z.ltb_lt in H
  | H : (_ <? _) = false |- _ => apply Z.ltb_ge in H
  | H : (_ <=? _) = true |- _ => apply Z.leb_le in H
  | H : (_ <=? _) = false |- _ => apply Z.leb_gt in H
  | H : (_ >? _) = _ |- _ => rewrite Z.gtb_ltb in H
  | H : (_ >=? _) = _ |- _ => rewrite Z.geb_leb in H
  end.

(** Case split on the test of the first conditional of the goal. *)
Ltac zif :=
  match goal with
  | |- context [if ?b then _ else _] =>
      lazymatch type of b with bool => let E := fresh "E" in destruct b eqn:E; zbool end
  end.

(** Decide the integer comparisons of the goal. *)
Ltac zcases :=
  repeat match goal with
  | |- context [?a =? ?b] => destruct (Z.eqb_spec a b)
  | |- context [?a <? ?b] => destruct (Z.ltb_spec a b)
  | |- context [?a <=? ?b] => destruct (Z.leb_spec a b)
  end.

(** ** Ranges *)

(** [in_range a lo n]: the address [a] lies in [[lo, lo + n)]. *)
Definition in_range (a lo n : Z) : bool := (lo <=? a) && (a <? lo + n).

Lemma in_range_spec a lo n : reflect (lo <= a < lo + n) (in_range a lo n).
Proof. unfold in_range. apply iff_reflect. rewrite andb_true_iff, Z.leb_le, Z.ltb_lt. lia. Qed.

Ltac zinr :=
  repeat match goal with
  | |- context [in_range ?a ?lo ?n] => destruct (in_range_spec a lo n)
  end.

Lemma in_range_true a lo n : in_range a lo n = true <-> lo <= a < lo + n.
Proof. by destruct (in_range_spec a lo n). Qed.
Lemma in_range_false a lo n : in_range a lo n = false <-> ~ (lo <= a < lo + n).
Proof. by destruct (in_range_spec a lo n). Qed.

(** ** Machine words

    A C unsigned integer of width w is a [Z]; the conversions below are the
    wrap-around of the C conversions to [uint8_t], [uint16_t], [uint32_t] and
    [uint64_t] (also [size_t] and [uintptr_t], x86-64). *)

Definition u8 (x : Z) : Z := x mod 0x100.
Definition u16 (x : Z) : Z := x mod 0x10000.
Definition u32 (x : Z) : Z := x mod 0x100000000.
Definition u64 (x : Z) : Z := x mod 0x10000000000000000.
(** A C conversion to [int]. *)
Definition i32 (x : Z) : Z := (x + 0x80000000) mod 0x100000000 - 0x80000000.

Ltac word := unfold u8, u16, u32, u64 in *; zlia.

Lemma u8_small x : 0 <= x < 0x100 -> u8 x = x.
Proof. word. Qed.
Lemma u16_small x : 0 <= x < 0x10000 -> u16 x = x.
Proof. word. Qed.
Lemma u32_small x : 0 <= x < 0x100000000 -> u32 x = x.
Proof. word. Qed.
Lemma u64_small x : 0 <= x < 0x10000000000000000 -> u64 x = x.
Proof. word. Qed.
Lemma u8_range x : 0 <= u8 x < 0x100.
Proof. word. Qed.
Lemma u16_range x : 0 <= u16 x < 0x10000.
Proof. word. Qed.
Lemma u32_range x : 0 <= u32 x < 0x100000000.
Proof. word. Qed.
Lemma u64_range x : 0 <= u64 x < 0x10000000000000000.
Proof. word. Qed.

Create HintDb words.
Create Rewrite HintDb wordsimp.
#[export] Hint Rewrite u8_small u16_small u32_small u64_small using lia : wordsimp.
#[export] Hint Resolve u8_range u16_range u32_range u64_range : words.

(** Putting bits below bits that are shifted. *)
Lemma lor_add a n b : 0 <= n -> 0 <= b < 2 ^ n -> Z.lor (Z.shiftl a n) b = a * 2 ^ n + b.
Proof.
  intros Hn Hb. rewrite <- Z.shiftl_mul_pow2 by done.
  assert (Z.land (Z.shiftl a n) b = 0) as H0.
  { apply Z.bits_inj'. intros k Hk. rewrite Z.land_spec, Z.bits_0.
    destruct (Z.ltb_spec k n).
    - by rewrite Z.shiftl_spec_low.
    - rewrite <- (Z.mod_small b (2 ^ n)), (Z.mod_pow2_bits_high b n k) by lia. by rewrite andb_comm. }
  pose proof (Z.add_lor_land (Z.shiftl a n) b). lia.
Qed.

(** Bits of a byte and of a power of two. *)
Lemma u8_testbit x k : 0 <= k < 8 -> Z.testbit (u8 x) k = Z.testbit x k.
Proof. intros. unfold u8. change 0x100 with (2 ^ 8). apply Z.mod_pow2_bits_low; lia. Qed.
Lemma shiftl_1_testbit k j : 0 <= k -> Z.testbit (Z.shiftl 1 k) j = (j =? k).
Proof.
  intros Hk. rewrite Z.shiftl_1_l, Z.pow2_bits_eqb by done. apply Z.eqb_sym.
Qed.

(** ** Little-endian byte strings

    x86-64 stores integers least significant byte first; a byte is a [Z] in
    [0, 256). *)

Definition bytes (l : list Z) : Prop := Forall (fun b => 0 <= b < 0x100) l.

Fixpoint le_bytes (n : nat) (x : Z) : list Z :=
  match n with
  | O => []
  | S n' => x mod 0x100 :: le_bytes n' (x / 0x100)
  end.

Fixpoint le_val (l : list Z) : Z :=
  match l with
  | [] => 0
  | b :: l' => b + 0x100 * le_val l'
  end.

Lemma length_le_bytes n x : length (le_bytes n x) = n.
Proof. revert x; induction n; intros; simpl; [done | by rewrite IHn]. Qed.

Lemma le_bytes_bytes n x : bytes (le_bytes n x).
Proof. revert x; induction n; intros; constructor; [zlia | apply IHn]. Qed.

Lemma le_val_range l : bytes l -> 0 <= le_val l < 0x100 ^ Z.of_nat (length l).
Proof.
  induction 1 as [|b l Hb _ IH]; [done |].
  cbn [length le_val]. rewrite Nat2Z.inj_succ, Z.pow_succ_r by lia. lia.
Qed.

Lemma le_val_le_bytes n x : le_val (le_bytes n x) = x mod 0x100 ^ Z.of_nat n.
Proof.
  revert x; induction n as [|n IH]; intros x; [simpl; by rewrite Z.mod_1_r |].
  cbn [le_bytes le_val]. rewrite IH, Nat2Z.inj_succ, Z.pow_succ_r by lia.
  rewrite Z.rem_mul_r by lia. done.
Qed.

Lemma le_bytes_le_val l : bytes l -> le_bytes (length l) (le_val l) = l.
Proof.
  induction 1 as [|b l Hb _ IH]; [done |]. cbn [length le_val le_bytes].
  assert ((b + 0x100 * le_val l) mod 0x100 = b) as -> by zlia.
  assert ((b + 0x100 * le_val l) / 0x100 = le_val l) as -> by zlia.
  by rewrite IH.
Qed.

Lemma le_val_app l l' : le_val (l ++ l') = le_val l + 0x100 ^ Z.of_nat (length l) * le_val l'.
Proof.
  induction l as [|b l IH]; [cbn; lia |]. cbn [app le_val length]. rewrite IH, Nat2Z.inj_succ, Z.pow_succ_r by lia. lia.
Qed.
Lemma le_bytes_mod n x : le_bytes n (x mod 0x100 ^ Z.of_nat n) = le_bytes n x.
Proof.
  rewrite <- le_val_le_bytes. pose proof (le_bytes_le_val (le_bytes n x) (le_bytes_bytes n x)) as H. by rewrite length_le_bytes in H.
Qed.
Lemma le_bytes_add n m x : le_bytes (n + m) x = le_bytes n x ++ le_bytes m (x / 0x100 ^ Z.of_nat n).
Proof.
  revert x. induction n as [|n IH]; intros x; [by rewrite Z.div_1_r |]. cbn [Nat.add le_bytes app]. rewrite IH. do 3 f_equal.
  rewrite Nat2Z.inj_succ, Z.pow_succ_r, Z.div_div by lia. done.
Qed.

Lemma bytes_app l k : bytes (l ++ k) <-> bytes l /\ bytes k.
Proof. apply Forall_app. Qed.
Lemma bytes_rev l : bytes l -> bytes (rev l).
Proof. unfold bytes. rewrite !Forall_forall. intros H x Hx. by apply H, in_rev. Qed.
Lemma bytes_take n l : bytes l -> bytes (take n l).
Proof. apply Forall_take. Qed.
Lemma bytes_drop n l : bytes l -> bytes (drop n l).
Proof. apply Forall_drop. Qed.
Lemma bytes_replicate n b : 0 <= b < 0x100 -> bytes (replicate n b).
Proof. intros; by apply Forall_replicate. Qed.
#[export] Hint Resolve le_bytes_bytes bytes_rev bytes_take bytes_drop bytes_replicate : words.

(** Byte swaps, [__builtin_bswap16] and [__builtin_bswap32]: the bytes of the
    value in the opposite order. *)
Definition bswap16 (x : Z) : Z := le_val (rev (le_bytes 2 x)).
Definition bswap32 (x : Z) : Z := le_val (rev (le_bytes 4 x)).

Lemma rev_bswap n x :
  0 <= x < 0x100 ^ Z.of_nat n -> le_val (rev (le_bytes n (le_val (rev (le_bytes n x))))) = x.
Proof.
  intros Hx.
  assert (le_bytes n (le_val (rev (le_bytes n x))) = rev (le_bytes n x)) as ->.
  { pose proof (le_bytes_le_val (rev (le_bytes n x)) (bytes_rev _ (le_bytes_bytes n x))) as H.
    by rewrite length_rev, length_le_bytes in H. }
  rewrite rev_involutive, le_val_le_bytes. by apply Z.mod_small.
Qed.

Lemma bswap16_invol x : 0 <= x < 0x10000 -> bswap16 (bswap16 x) = x.
Proof. apply (rev_bswap 2). Qed.
Lemma bswap32_invol x : 0 <= x < 0x100000000 -> bswap32 (bswap32 x) = x.
Proof. apply (rev_bswap 4). Qed.
Lemma bswap16_range x : 0 <= bswap16 x < 0x10000.
Proof. apply (le_val_range (rev (le_bytes 2 x))); auto with words. Qed.
Lemma bswap32_range x : 0 <= bswap32 x < 0x100000000.
Proof. apply (le_val_range (rev (le_bytes 4 x))); auto with words. Qed.
#[export] Hint Resolve bswap16_range bswap32_range : words.

(** ** Step relations *)

(** A property preserved by every step holds in every reachable state. *)
Lemma rtc_invariant {A} (R : relation A) (I : A -> Prop) :
  (forall x y, R x y -> I x -> I y) -> forall x y, rtc R x y -> I x -> I y.
Proof. intros Hstep x y Hr. induction Hr; eauto. Qed.
