(* ===== verification/Links.v ===== *)
(** * Linked lists in a store

    The kernel threads its objects (heap headers, threads) on lists through
    [next] and [prev] fields.  [lk] gives the fields of the object at an
    address as a pair (prev, next), [None] where there is no object.  [dseg]
    relates a chain of such objects to the list of their addresses and [dll]
    adds the head and tail pointers; [sll] is the singly linked version. *)

From S2P Require Import Prelude.

Definition head_or (n : Z) (l : list Z) : Z := match l with [] => n | a :: _ => a end.
Fixpoint last_or (p : Z) (l : list Z) : Z := match l with [] => p | a :: l' => last_or a l' end.

Fixpoint dseg (lk : Z -> option (Z * Z)) (p : Z) (l : list Z) (n : Z) : Prop :=
  match l with
  | [] => True
  | a :: l' => lk a = Some (p, head_or n l') /\ dseg lk a l' n
  end.

Record dll (lk : Z -> option (Z * Z)) (h t : Z) (l : list Z) : Prop := {
  dll_seg : dseg lk 0 l 0;
  dll_head : h = head_or 0 l;
  dll_tail : t = last_or 0 l;
  dll_nodup : NoDup l;
  dll_nonnull : 0 ∉ l;
}.

Fixpoint sll (nx : Z -> option Z) (h : Z) (l : list Z) : Prop :=
  match l with
  | [] => h = 0
  | a :: l' => h = a /\ a <> 0 /\ exists n, nx a = Some n /\ sll nx n l'
  end.

(** ** Segments *)

Lemma head_or_app n l k : head_or n (l ++ k) = head_or (head_or n k) l.
Proof. by destruct l. Qed.
Lemma last_or_app p l k : last_or p (l ++ k) = last_or (last_or p l) k.
Proof. revert p; induction l; intros; simpl; auto. Qed.
Lemma last_or_nonempty p q l : l <> [] -> last_or p l = last_or q l.
Proof. by destruct l. Qed.

Lemma last_or_elem a l : last_or a l ∈ a :: l.
Proof.
  revert a; induction l as [|b l IH]; intros a; cbn; [left |]. right. apply IH.
Qed.
Lemma last_or_elem_ne p l : l <> [] -> last_or p l ∈ l.
Proof. destruct l as [|a l]; [done |]. intros _. apply (last_or_elem a l). Qed.

Lemma dseg_app lk p l k n :
  dseg lk p (l ++ k) n <-> dseg lk p l (head_or n k) /\ dseg lk (last_or p l) k n.
Proof.
  revert p. induction l as [|a l IH]; intros p; cbn; [tauto |].
  rewrite IH, head_or_app. tauto.
Qed.

Lemma dseg_ext lk lk' p l n :
  (forall a, a ∈ l -> lk' a = lk a) -> dseg lk p l n -> dseg lk' p l n.
Proof.
  revert p. induction l as [|a l IH]; intros p He; cbn; [done |].
  intros [Ha Hl]. split; [by rewrite He by set_solver | apply IH; [|done]].
  intros b Hb. apply He. set_solver.
Qed.

(** The next pointer of the last element of a segment. *)
Lemma dseg_relink_next lk lk' p l n n' :
  NoDup l ->
  (forall a, a ∈ l -> a <> last_or 0 l -> lk' a = lk a) ->
  (l <> [] -> forall q m, lk (last_or 0 l) = Some (q, m) -> lk' (last_or 0 l) = Some (q, n')) ->
  dseg lk p l n -> dseg lk' p l n'.
Proof.
  revert p. induction l as [|a l IH]; intros p Hnd He Hl; cbn; [done |].
  intros [Ha Hs]. inversion Hnd as [|? ? Hna Hnd']; subst.
  destruct l as [|b l]; cbn in *.
  - split; [|done]. by apply (Hl ltac:(done) p n).
  - split.
    + rewrite He; [done | left |]. intros ->. apply Hna, (last_or_elem b l).
    + apply (IH a Hnd'); [| |done].
      * intros c Hc Hn. apply He; [set_solver | done].
      * intros _ q m Hq. by eapply Hl.
Qed.

(** ** Doubly linked lists *)

Lemma dll_nil lk : dll lk 0 0 [].
Proof. split; simpl; try done; [constructor | set_solver]. Qed.

Lemma dll_ext lk lk' h t l : (forall a, a ∈ l -> lk' a = lk a) -> dll lk h t l -> dll lk' h t l.
Proof. intros He [Hs Hh Ht Hn H0]. split; try done. by apply (dseg_ext lk). Qed.

Lemma dll_in lk h t l a : dll lk h t l -> a ∈ l -> is_Some (lk a).
Proof.
  intros [Hs _ _ _ _]. revert Hs. generalize 0 at 1 as p.
  induction l as [|b l IH]; intros p Hs Ha; [set_solver |].
  destruct Hs as [Hb Hs]. apply elem_of_cons in Ha as [->|Ha]; eauto.
Qed.

(** Pushing [a] at the front: [a] points to the old head, whose [prev] becomes [a]. *)
Lemma dll_push lk lk' h t l a :
  dll lk h t l -> a ∉ l -> a <> 0 ->
  lk' a = Some (0, h) ->
  (forall b, b ∈ l -> lk' b = if b =? h then (fun pn => (a, snd pn)) <$> lk b else lk b) ->
  dll lk' a (if t =? 0 then a else t) (a :: l).
Proof.
  intros [Hs -> -> Hn H0] Ha Ha0 Hla Hl. split; cbn.
  - split; [done |]. destruct l as [|b l]; cbn in *; [done |]. destruct Hs as [Hb Hs].
    split; [rewrite Hl, Z.eqb_refl, Hb by set_solver; done |].
    apply (dseg_ext lk); [|done]. intros c Hc. rewrite Hl by set_solver.
    destruct (Z.eqb_spec c b) as [->|]; [|done]. inversion Hn; done.
  - done.
  - destruct l as [|b l]; cbn; [done |].
    destruct (Z.eqb_spec (last_or b l) 0) as [E|]; [|done].
    pose proof (last_or_elem b l). rewrite E in *. done.
  - by constructor.
  - set_solver.
Qed.

(** Appending [a] at the back: [a] points back to the old tail, whose [next] becomes [a]. *)
Lemma dll_append lk lk' h t l a :
  dll lk h t l -> a ∉ l -> a <> 0 ->
  lk' a = Some (t, 0) ->
  (forall b, b ∈ l -> lk' b = if b =? t then (fun pn => (fst pn, a)) <$> lk b else lk b) ->
  dll lk' (if t =? 0 then a else h) a (l ++ [a]).
Proof.
  intros [Hs -> -> Hn H0] Ha Ha0 Hla Hl. split.
  - apply dseg_app. split; cbn; [|done].
    apply (dseg_relink_next lk lk' 0 l 0); [done | | |done].
    + intros b Hb Hne. rewrite Hl by done. by destruct (Z.eqb_spec b (last_or 0 l)).
    + intros Hne q m Hq. rewrite Hl by (by apply last_or_elem_ne). rewrite Z.eqb_refl, Hq. done.
  - destruct l as [|b l]; cbn; [done |].
    destruct (Z.eqb_spec (last_or b l) 0) as [E|]; [|done].
    pose proof (last_or_elem b l). rewrite E in *. done.
  - by rewrite last_or_app.
  - apply list.NoDup_app. split_and!; [done | | apply NoDup_singleton]. set_solver.
  - set_solver.
Qed.

(** Popping the head: the [prev] field of the new head becomes 0. *)
Lemma dll_pop lk lk' h t a l :
  dll lk h t (a :: l) ->
  (forall b, b ∈ l -> lk' b = if b =? head_or 0 l then (fun pn => (0, snd pn)) <$> lk b else lk b) ->
  dll lk' (head_or 0 l) (if head_or 0 l =? 0 then 0 else t) l.
Proof.
  intros [Hs -> -> Hn H0] Hl. inversion Hn as [|? ? Ha Hn']; subst. destruct Hs as [Hla Hs].
  destruct l as [|b l]; cbn in *; [apply dll_nil |].
  destruct (Z.eqb_spec b 0) as [->|Hb]; [set_solver |].
  split; try done; [|set_solver]. cbn. destruct Hs as [Hlb Hs]. split.
  - rewrite Hl, Z.eqb_refl, Hlb by set_solver. done.
  - apply (dseg_ext lk); [|done]. intros c Hc. rewrite Hl by set_solver.
    destruct (Z.eqb_spec c b) as [->|]; [|done]. inversion Hn'; done.
Qed.

(** Unlinking [a]: its neighbours point to each other. *)
Lemma dll_remove lk lk' h t l1 a l2 :
  dll lk h t (l1 ++ a :: l2) ->
  (forall b, b ∈ l1 -> lk' b = if b =? last_or 0 l1 then (fun pn => (fst pn, head_or 0 l2)) <$> lk b else lk b) ->
  (forall b, b ∈ l2 -> lk' b = if b =? head_or 0 l2 then (fun pn => (last_or 0 l1, snd pn)) <$> lk b else lk b) ->
  dll lk' (if last_or 0 l1 =? 0 then head_or 0 l2 else h)
          (if head_or 0 l2 =? 0 then last_or 0 l1 else t) (l1 ++ l2).
Proof.
  intros [Hs -> -> Hn H0] H1 H2.
  apply dseg_app in Hs as [Hs1 [Hla Hs2]]. cbn in Hs1.
  apply list.NoDup_app in Hn as (Hn1 & Hd & Hn2'). inversion Hn2' as [|? ? Ha2 Hn2]; subst.
  split.
  - apply dseg_app. split.
    + eapply dseg_relink_next; [done | | |done].
      * intros b Hb Hne. rewrite H1 by done. by destruct (Z.eqb_spec b (last_or 0 l1)).
      * intros Hne q m Hq. rewrite H1 by (by apply last_or_elem_ne). rewrite Z.eqb_refl, Hq. done.
    + destruct l2 as [|b l2]; cbn in *; [done |]. destruct Hs2 as [Hlb Hs2]. split.
      * rewrite H2, Z.eqb_refl, Hlb by set_solver. done.
      * apply (dseg_ext lk); [|done]. intros c Hc. rewrite H2 by set_solver.
        destruct (Z.eqb_spec c b) as [->|]; [|done]. inversion Hn2; done.
  - destruct l1 as [|b l1]; cbn; [done |].
    destruct (Z.eqb_spec (last_or b l1) 0) as [E|]; [|done].
    pose proof (last_or_elem b l1). rewrite E in *. set_solver.
  - rewrite !last_or_app. destruct l2 as [|b l2]; cbn; [done |].
    destruct (Z.eqb_spec b 0) as [->|]; [set_solver | done].
  - apply list.NoDup_app. split_and!; [done | set_solver | done].
  - set_solver.
Qed.

(** The fields of a member of a list. *)
Lemma dll_member lk h t l1 a l2 :
  dll lk h t (l1 ++ a :: l2) -> lk a = Some (last_or 0 l1, head_or 0 l2).
Proof. intros [Hs _ _ _ _]. apply dseg_app in Hs as [_ [Ha _]]. done. Qed.

(** ** Singly linked lists *)

Lemma sll_ext nx nx' h l : (forall a, a ∈ l -> nx' a = nx a) -> sll nx h l -> sll nx' h l.
Proof.
  revert h. induction l as [|a l IH]; intros h He; cbn; [done |].
  intros (-> & H0 & n & Hn & Hs). split_and!; [done | done |]. exists n.
  split; [rewrite He by set_solver; done |]. apply IH; [|done]. intros b Hb. apply He. set_solver.
Qed.
Lemma sll_head nx h l : sll nx h l -> h = head_or 0 l.
Proof. destruct l; cbn; [done |]. by intros [-> _]. Qed.
Lemma sll_null nx h l : sll nx h l -> h = 0 -> l = [].
Proof. destruct l; cbn; [done |]. intros (-> & ? & _) ->. done. Qed.

(** Inserting [a] between [l1] and [l2]. *)
Lemma sll_insert nx nx' h l1 a l2 :
  sll nx h (l1 ++ l2) -> NoDup (l1 ++ l2) -> a ∉ l1 ++ l2 -> a <> 0 ->
  nx' a = Some (head_or 0 l2) ->
  (forall b, b ∈ l1 ++ l2 -> nx' b = if decide (l1 <> [] /\ b = last_or 0 l1) then Some a else nx b) ->
  sll nx' (head_or a l1) (l1 ++ a :: l2).
Proof.
  revert h. induction l1 as [|b l1 IH]; intros h Hs Hn Ha Ha0 Hna Hl; cbn in *.
  - split_and!; [done | done |]. exists (head_or 0 l2). split; [done |].
    assert (h = head_or 0 l2) as <- by (by eapply sll_head).
    eapply sll_ext; [|done]. intros b Hb. rewrite Hl by done.
    destruct (decide _) as [[? _]|]; done.
  - destruct Hs as (-> & Hb0 & n & Hnb & Hs). apply list.NoDup_cons in Hn as [Hbn Hn].
    split_and!; [done | done |]. rewrite Hl by left.
    destruct l1 as [|c l1]; cbn in *.
    + rewrite decide_True by done. exists a. split; [done |].
      split_and!; [done | done |]. exists (head_or 0 l2). split; [done |].
      rewrite <- (sll_head _ _ _ Hs). eapply sll_ext; [|done]. intros d Hd.
      rewrite Hl by (by right). rewrite decide_False; [done |]. intros [_ ->]. done.
    + assert (b <> last_or c l1) as Hne.
      { intros E. apply Hbn. rewrite E. apply (proj2 (elem_of_app (c :: l1) l2 _)). left. apply (last_or_elem c l1). }
      rewrite decide_False by tauto. exists n. split; [done |].
      assert (n = c) as -> by (by destruct Hs).
      apply (IH c); try done.
      * intros Hin. apply Ha. by right.
      * intros d Hd. rewrite Hl by (by right).
        destruct (decide (d = last_or c l1)) as [E|E].
        -- by rewrite !decide_True.
        -- rewrite !decide_False; [done | tauto | tauto].
Qed.

(** A duplicate-free list of keys of a store is no longer than the store. *)
Lemma length_keys {A} (m : gmap Z A) (l : list Z) :
  NoDup l -> (forall a, a ∈ l -> is_Some (m !! a)) -> (length l <= size m)%nat.
Proof.
  intros Hn Hs. rewrite <- (size_list_to_set (C := gset Z)) by done.
  rewrite <- size_dom. apply subseteq_size. intros a. rewrite elem_of_list_to_set, elem_of_dom. auto.
Qed.
