(* ===== verification/Memops.v ===== *)
(** * Memory primitives ([src/src/memory/memory.c], lines 31-97)

    [memcpy], [memset], [memmove] and [memcmp] over a byte-addressed memory.
    Each C loop is a [Fixpoint] over the number of remaining iterations; the
    loop counter is the explicit argument [i].  The functions that return
    their destination pointer return it beside the new memory. *)

From S2P Require Import Prelude.

(** A memory maps addresses to bytes. *)
Definition mem := Z -> Z.

Definition upd (m : mem) (a v : Z) : mem := fun x => if x =? a then v else m x.

(** ** The C functions *)

Fixpoint memcpy_loop (k : nat) (i dest src : Z) (m : mem) : mem :=
  match k with
  | O => m
  | S k' => memcpy_loop k' (i + 1) dest src (upd m (dest + i) (m (src + i)))
  end.

Definition memcpy (dest src n : Z) (m : mem) : Z * mem :=
  (dest, memcpy_loop (Z.to_nat n) 0 dest src m).

Fixpoint memset_loop (k : nat) (i dest val : Z) (m : mem) : mem :=
  match k with
  | O => m
  | S k' => memset_loop k' (i + 1) dest val (upd m (dest + i) val)
  end.

Definition memset (dest value count : Z) (m : mem) : Z * mem :=
  let val := u8 (Z.land value 0xFF) in
  (dest, memset_loop (Z.to_nat count) 0 dest val m).

(** The second loop of [memmove]: [i] runs from [n] down to 1. *)
Fixpoint memmove_down (i : nat) (dest src : Z) (m : mem) : mem :=
  match i with
  | O => m
  | S i' => memmove_down i' dest src (upd m (dest + Z.of_nat i') (m (src + Z.of_nat i')))
  end.

Definition memmove (dest src n : Z) (m : mem) : Z * mem :=
  if src >? dest then (dest, memcpy_loop (Z.to_nat n) 0 dest src m)
  else if src <? dest then (dest, memmove_down (Z.to_nat n) dest src m)
  else (dest, m).

Fixpoint memcmp_loop (k : nat) (i s1 s2 : Z) (m : mem) : Z :=
  match k with
  | O => 0
  | S k' =>
      if negb (m (s1 + i) =? m (s2 + i))
      then if m (s1 + i) <? m (s2 + i) then -1 else 1
      else memcmp_loop k' (i + 1) s1 s2 m
  end.

Definition memcmp (s1 s2 n : Z) (m : mem) : Z := memcmp_loop (Z.to_nat n) 0 s1 s2 m.

(** ** Properties *)

(** A forward copy is exact whenever no source byte is overwritten before it
    is read. *)
Lemma memcpy_loop_spec k i dest src m a :
  (dest <= src \/ src + i + Z.of_nat k <= dest + i) ->
  memcpy_loop k i dest src m a =
    if in_range a (dest + i) (Z.of_nat k) then m (src + (a - dest)) else m a.
Proof.
  revert i m; induction k as [|k IH]; intros i m Hov; cbn [memcpy_loop].
  { by zinr; [lia |]. }
  rewrite IH by lia. unfold upd. zinr; try lia;
    zcases; try lia; f_equal; lia.
Qed.

Lemma memset_loop_spec k i dest val m a :
  memset_loop k i dest val m a = if in_range a (dest + i) (Z.of_nat k) then val else m a.
Proof.
  revert i m; induction k as [|k IH]; intros i m; cbn [memset_loop].
  { by zinr; [lia |]. }
  rewrite IH. unfold upd. zinr; zcases; lia.
Qed.

Lemma memmove_down_spec k dest src m a :
  src <= dest ->
  memmove_down k dest src m a =
    if in_range a dest (Z.of_nat k) then m (src + (a - dest)) else m a.
Proof.
  intros Hle. revert m; induction k as [|k IH]; intros m; cbn [memmove_down].
  { by zinr; [lia |]. }
  rewrite IH. unfold upd. zinr; try lia;
    zcases; try lia; f_equal; lia.
Qed.

(** [memmove] moves the [n] bytes at [src] to [dest] as if through a
    temporary buffer, whatever the overlap of the two ranges (the direction of
    the copy is chosen by comparing the pointers), leaves every other byte
    unchanged, and returns [dest]. *)
Theorem memmove_spec dest src n m a :
  0 <= n ->
  fst (memmove dest src n m) = dest /\
  snd (memmove dest src n m) a =
    if in_range a dest n then m (src + (a - dest)) else m a.
Proof.
  intros Hn. unfold memmove. rewrite Z.gtb_ltb.
  destruct (Z.ltb_spec dest src); [|destruct (Z.ltb_spec src dest)]; cbn [fst snd].
  - rewrite memcpy_loop_spec, Z2Nat.id, Z.add_0_r by lia. done.
  - rewrite memmove_down_spec, Z2Nat.id by lia. done.
  - split; [done |]. zinr; [f_equal; lia | done].
Qed.

Lemma memmove_spec_witness :
  0 <= 3 /\ snd (memmove 11 10 3 (fun a => a)) 13 = 12.
Proof. split; [lia | exact (proj2 (memmove_spec 11 10 3 (fun a => a) 13 ltac:(lia)))]. Defined.

Lemma memcpy_spec dest src n m a :
  0 <= n -> dest <= src \/ src + n <= dest ->
  snd (memcpy dest src n m) a = if in_range a dest n then m (src + (a - dest)) else m a.
Proof.
  intros Hn Hov. unfold memcpy; cbn [snd].
  by rewrite memcpy_loop_spec, Z2Nat.id, Z.add_0_r by lia.
Qed.

Lemma memset_spec dest value n m a :
  0 <= n ->
  snd (memset dest value n m) a = if in_range a dest n then u8 (Z.land value 0xFF) else m a.
Proof.
  intros Hn. unfold memset; cbn [snd].
  by rewrite memset_loop_spec, Z2Nat.id, Z.add_0_r by lia.
Qed.

Lemma memcmp_loop_0 k i s1 s2 m :
  memcmp_loop k i s1 s2 m = 0 <->
  forall j, i <= j < i + Z.of_nat k -> m (s1 + j) = m (s2 + j).
Proof.
  revert i; induction k as [|k IH]; intros i; cbn [memcmp_loop].
  { split; [intros; lia | done]. }
  destruct (Z.eqb_spec (m (s1 + i)) (m (s2 + i))) as [Heq|Hne]; cbn [negb].
  - rewrite IH. split; intros H j Hj; [|apply H; lia].
    destruct (Z.eq_dec j i) as [->|]; [done | apply H; lia].
  - split.
    + destruct (_ <? _); discriminate.
    + intros H. by specialize (H i ltac:(lia)).
Qed.

(** [memcmp] is zero exactly on equal ranges. *)
Lemma memcmp_0 s1 s2 n m :
  0 <= n ->
  memcmp s1 s2 n m = 0 <-> forall j, 0 <= j < n -> m (s1 + j) = m (s2 + j).
Proof. intros Hn. unfold memcmp. by rewrite memcmp_loop_0, Z2Nat.id. Qed.
