(* ===== verification/Bitmap.v ===== *)
(** * The bitmap block allocator ([src/src/memory/bitmap_mem.c])

    One bit per 4 KiB block, set when the block is in use.  A C read or write
    of [bitmap[bit / 8]] outside the array is undefined behaviour: the
    operations return [option], [None] being an out-of-range access.  The
    theorems show that a well-formed manager never gets there.

    Pointers are addresses ([Z]), [NULL] is 0.  Every caller passes the address
    of a static manager, so the NULL tests on [manager] are not branches of the
    model. *)

From S2P Require Import Prelude.

Definition BITMAP_BLOCK_SIZE : Z := 4096.
Definition BITMAP_MAX_BLOCKS : Z := 32768.
Definition NULL : Z := 0.

(** [bitmap_memory_manager_t]; the storage the [bitmap] pointer designates is
    the field itself. *)
Record manager := Manager {
  bitmap : list Z;
  memory_base : Z;
  total_blocks : Z;
  free_blocks : Z;
  bitmap_size : Z;
}.

Definition set_bitmap (bm : list Z) (m : manager) : manager :=
  Manager bm (memory_base m) (total_blocks m) (free_blocks m) (bitmap_size m).
Definition set_free_blocks (n : Z) (m : manager) : manager :=
  Manager (bitmap m) (memory_base m) (total_blocks m) n (bitmap_size m).

(** ** Bit manipulation macros *)

Definition BITMAP_TEST_BIT (bm : list Z) (bit : Z) : option Z :=
  b ← bm !! Z.to_nat (bit / 8); Some (Z.land b (Z.shiftl 1 (bit mod 8))).

Definition BITMAP_SET_BIT (bm : list Z) (bit : Z) : option (list Z) :=
  b ← bm !! Z.to_nat (bit / 8);
  Some (<[Z.to_nat (bit / 8) := u8 (Z.lor b (Z.shiftl 1 (bit mod 8)))]> bm).

Definition BITMAP_CLEAR_BIT (bm : list Z) (bit : Z) : option (list Z) :=
  b ← bm !! Z.to_nat (bit / 8);
  Some (<[Z.to_nat (bit / 8) := u8 (Z.land b (Z.lnot (Z.shiftl 1 (bit mod 8))))]> bm).

Definition bitmap_test_bit (bm : list Z) (bit : Z) : option bool :=
  t ← BITMAP_TEST_BIT bm bit; Some (negb (t =? 0)).

(** ** Addresses and blocks *)

Definition bitmap_block_to_address (m : manager) (block : Z) : Z :=
  u64 (memory_base m + u64 (block * BITMAP_BLOCK_SIZE)).

Definition bitmap_address_to_block (m : manager) (address : Z) : Z :=
  u64 (address - memory_base m) / BITMAP_BLOCK_SIZE.

Definition bitmap_contains_address (m : manager) (address : Z) : bool :=
  let end_addr := u64 (memory_base m + u64 (total_blocks m * BITMAP_BLOCK_SIZE)) in
  (address >=? memory_base m) && (address <? end_addr).

Definition bitmap_get_free_blocks (m : manager) : Z := free_blocks m.

(** ** Operations *)

(** [bitmap_init]: [storage] is [None] for a NULL pointer.  The [memset] of
    [bitmap_size] bytes is out of range when the storage is shorter. *)
Definition bitmap_init (m : manager) (storage : option (list Z)) (base size : Z)
  : option (bool * manager) :=
  match storage with
  | None => Some (false, m)
  | Some st =>
      if size =? 0 then Some (false, m) else
      let total := size / BITMAP_BLOCK_SIZE in
      let total := if total >? BITMAP_MAX_BLOCKS then BITMAP_MAX_BLOCKS else total in
      let bsize := (total + 7) / 8 in
      if bsize <=? Z.of_nat (length st) then
        let st' := replicate (Z.to_nat bsize) 0 ++ drop (Z.to_nat bsize) st in
        Some (true, Manager st' base total total bsize)
      else None
  end.

Fixpoint alloc_block_loop (n : nat) (i : Z) (m : manager) : option (Z * manager) :=
  match n with
  | O => Some (NULL, m)
  | S n' =>
      t ← BITMAP_TEST_BIT (bitmap m) i;
      if t =? 0 then
        bm ← BITMAP_SET_BIT (bitmap m) i;
        let m' := set_free_blocks (u64 (free_blocks m - 1)) (set_bitmap bm m) in
        Some (bitmap_block_to_address m' i, m')
      else alloc_block_loop n' (i + 1) m
  end.

Definition bitmap_alloc_block (m : manager) : option (Z * manager) :=
  if free_blocks m =? 0 then Some (NULL, m)
  else alloc_block_loop (Z.to_nat (total_blocks m)) 0 m.

(** The inner loop of [bitmap_alloc_blocks]: mark [start + j], j = 0 .. count-1. *)
Fixpoint mark_loop (n : nat) (j start : Z) (bm : list Z) : option (list Z) :=
  match n with
  | O => Some bm
  | S n' => bm' ← BITMAP_SET_BIT bm (start + j); mark_loop n' (j + 1) start bm'
  end.

Fixpoint alloc_blocks_loop (n : nat) (i count start_block contiguous : Z) (m : manager)
  : option (Z * manager) :=
  match n with
  | O => Some (NULL, m)
  | S n' =>
      t ← BITMAP_TEST_BIT (bitmap m) i;
      if t =? 0 then
        let start_block := if contiguous =? 0 then i else start_block in
        let contiguous := contiguous + 1 in
        if contiguous =? count then
          bm ← mark_loop (Z.to_nat count) 0 start_block (bitmap m);
          let m' := set_free_blocks (u64 (free_blocks m - count)) (set_bitmap bm m) in
          Some (bitmap_block_to_address m' start_block, m')
        else alloc_blocks_loop n' (i + 1) count start_block contiguous m
      else alloc_blocks_loop n' (i + 1) count start_block 0 m
  end.

Definition bitmap_alloc_blocks (m : manager) (count : Z) : option (Z * manager) :=
  if (count =? 0) || (count >? free_blocks m) then Some (NULL, m)
  else if count =? 1 then bitmap_alloc_block m
  else alloc_blocks_loop (Z.to_nat (total_blocks m)) 0 count 0 0 m.

(** The body shared by [bitmap_free_block] and the loop of
    [bitmap_free_blocks]: clear the bit if it is set. *)
Definition free_one (m : manager) (block : Z) : option manager :=
  t ← BITMAP_TEST_BIT (bitmap m) block;
  if t =? 0 then Some m
  else
    bm ← BITMAP_CLEAR_BIT (bitmap m) block;
    Some (set_free_blocks (u64 (free_blocks m + 1)) (set_bitmap bm m)).

Definition bitmap_free_block (m : manager) (address : Z) : option manager :=
  if negb (bitmap_contains_address m address) then Some m
  else free_one m (bitmap_address_to_block m address).

Fixpoint free_loop (n : nat) (i start : Z) (m : manager) : option manager :=
  match n with
  | O => Some m
  | S n' => m' ← free_one m (start + i); free_loop n' (i + 1) start m'
  end.

Definition bitmap_free_blocks (m : manager) (address count : Z) : option manager :=
  if negb (bitmap_contains_address m address) || (count =? 0) then Some m
  else
    let start_block := bitmap_address_to_block m address in
    let max_blocks :=
      if u64 (start_block + count) >? total_blocks m
      then u64 (total_blocks m - start_block) else count in
    free_loop (Z.to_nat max_blocks) 0 start_block m.

(** ** The abstract view: which blocks are in use *)

Definition used (bm : list Z) (i : Z) : bool :=
  Z.testbit (default 0 (bm !! Z.to_nat (i / 8))) (i mod 8).

(** Number of free blocks among the first [n]. *)
Fixpoint count_free (f : Z -> bool) (n : nat) : Z :=
  match n with
  | O => 0
  | S n' => count_free f n' + (if f (Z.of_nat n') then 0 else 1)
  end.

(** [run_free f s c]: blocks s .. s+c-1 are free. *)
Definition run_free (f : Z -> bool) (s c : Z) : Prop := forall j, s <= j < s + c -> f j = false.

(** [first_run f n c s]: [s] is the lowest start of a run of [c] free blocks
    among the first [n]. *)
Definition first_run (f : Z -> bool) (n c s : Z) : Prop :=
  0 <= s /\ s + c <= n /\ run_free f s c /\ forall s', 0 <= s' < s -> ~ run_free f s' c.

(** The invariant of a manager. *)
Record wf (m : manager) : Prop := {
  wf_total : 0 <= total_blocks m <= BITMAP_MAX_BLOCKS;
  wf_size : bitmap_size m = (total_blocks m + 7) / 8;
  wf_len : bitmap_size m <= Z.of_nat (length (bitmap m));
  wf_free : free_blocks m = count_free (used (bitmap m)) (Z.to_nat (total_blocks m));
  wf_base : 0 < memory_base m;
  wf_end : memory_base m + total_blocks m * BITMAP_BLOCK_SIZE < 0x10000000000000000;
}.

(** Address of a block, without wrap-around. *)
Definition block_addr (m : manager) (i : Z) : Z := memory_base m + i * BITMAP_BLOCK_SIZE.

(** [same_region m m']: the two managers manage the same region. *)
Definition same_region (m m' : manager) : Prop :=
  memory_base m' = memory_base m /\ total_blocks m' = total_blocks m /\
  bitmap_size m' = bitmap_size m /\ length (bitmap m') = length (bitmap m).

#[export] Instance same_region_equiv : PreOrder same_region.
Proof. split; unfold same_region; [intros m | intros a b c]; intuition congruence. Qed.

(** *** Counting *)

Lemma count_free_range f n : 0 <= count_free f n <= Z.of_nat n.
Proof. induction n as [|n IH]; cbn [count_free]; [lia |]. destruct (f _); lia. Qed.

Lemma count_free_ext f g n :
  (forall j, 0 <= j < Z.of_nat n -> f j = g j) -> count_free f n = count_free g n.
Proof.
  induction n as [|n IH]; intros H; cbn [count_free]; [done |].
  rewrite IH by (intros; apply H; lia). by rewrite H by lia.
Qed.

Lemma count_free_upd f g n i :
  0 <= i < Z.of_nat n ->
  (forall j, 0 <= j < Z.of_nat n -> j <> i -> f j = g j) ->
  count_free g n = count_free f n + (if f i then 1 else 0) - (if g i then 1 else 0).
Proof.
  induction n as [|n IH]; intros Hi H; cbn [count_free]; [lia |].
  destruct (Z.eq_dec i (Z.of_nat n)) as [->|].
  - rewrite (count_free_ext g f n) by (intros; symmetry; apply H; lia).
    destruct (f _), (g _); lia.
  - rewrite IH by (try lia; intros; apply H; lia). rewrite (H (Z.of_nat n)) by lia. lia.
Qed.

Lemma count_free_run f n s c :
  0 <= s -> 0 <= c -> s + c <= Z.of_nat n -> run_free f s c -> c <= count_free f n.
Proof.
  revert c; induction n as [|n IH]; intros c Hs Hc Hle Hrun; cbn [count_free].
  { lia. }
  destruct (Z.eq_dec (s + c) (Z.of_nat (S n))); [destruct (Z.eq_dec c 0)|].
  - pose proof (count_free_range f n). destruct (f _); lia.
  - rewrite (Hrun (Z.of_nat n)) by lia.
    enough (c - 1 <= count_free f n) by lia. apply IH; try lia. intros j Hj. apply Hrun; lia.
  - enough (c <= count_free f n) by (destruct (f _); lia). apply IH; try lia; done.
Qed.

Lemma count_free_0 f n :
  count_free f n = 0 -> forall i, 0 <= i < Z.of_nat n -> f i = true.
Proof.
  induction n as [|n IH]; intros H i Hi; [lia |]. cbn [count_free] in H.
  pose proof (count_free_range f n).
  destruct (f (Z.of_nat n)) eqn:E; [|lia].
  destruct (Z.eq_dec i (Z.of_nat n)) as [->|]; [done | apply IH; lia].
Qed.

Lemma count_free_none f n :
  (forall j, 0 <= j < Z.of_nat n -> f j = false) -> count_free f n = Z.of_nat n.
Proof.
  induction n as [|n IH]; intros H; cbn [count_free]; [done |].
  rewrite IH by (intros; apply H; lia). rewrite H by lia. lia.
Qed.

(** *** Bits *)

Lemma test_zero b k : 0 <= k -> (Z.land b (Z.shiftl 1 k) =? 0) = negb (Z.testbit b k).
Proof.
  intros Hk. destruct (Z.eqb_spec (Z.land b (Z.shiftl 1 k)) 0) as [E|E].
  - apply (f_equal (fun z => Z.testbit z k)) in E.
    rewrite Z.land_spec, shiftl_1_testbit, Z.eqb_refl, andb_true_r, Z.bits_0 in E by done.
    by rewrite E.
  - destruct (Z.testbit b k) eqn:Hb; [done |]. exfalso; apply E.
    apply Z.bits_inj'; intros j Hj. rewrite Z.land_spec, shiftl_1_testbit, Z.bits_0 by done.
    destruct (Z.eqb_spec j k) as [->|]; [by rewrite Hb | apply andb_false_r].
Qed.

(** Byte and bit index determine the block. *)
Lemma block_index i j : 0 <= i -> 0 <= j -> i / 8 = j / 8 -> i mod 8 = j mod 8 -> i = j.
Proof. intros. zlia. Qed.

Lemma lookup_byte (bm : list Z) i :
  0 <= i < 8 * Z.of_nat (length bm) -> exists b, bm !! Z.to_nat (i / 8) = Some b.
Proof. intros H. apply lookup_lt_is_Some_2. zlia. Qed.

Lemma BITMAP_TEST_BIT_spec bm i :
  0 <= i < 8 * Z.of_nat (length bm) ->
  exists t, BITMAP_TEST_BIT bm i = Some t /\ (t =? 0) = negb (used bm i).
Proof.
  intros H. destruct (lookup_byte bm i H) as [b Hb]. unfold BITMAP_TEST_BIT, used.
  rewrite Hb. cbn. eexists; split; [done |]. apply test_zero. zlia.
Qed.

Lemma used_insert bm i b j (v : Z) :
  bm !! Z.to_nat (i / 8) = Some b -> 0 <= i -> 0 <= j ->
  used (<[Z.to_nat (i / 8) := v]> bm) j =
    if j / 8 =? i / 8 then Z.testbit v (j mod 8) else used bm j.
Proof.
  intros Hb Hi Hj. unfold used. destruct (Z.eqb_spec (j / 8) (i / 8)) as [->|Hne].
  - by rewrite list_lookup_insert_eq by (by eapply lookup_lt_Some).
  - rewrite list_lookup_insert_ne by (intros ?; apply Hne; zlia). done.
Qed.

Lemma BITMAP_SET_BIT_spec bm i :
  0 <= i < 8 * Z.of_nat (length bm) ->
  exists bm', BITMAP_SET_BIT bm i = Some bm' /\ length bm' = length bm /\
    forall j, 0 <= j -> used bm' j = (j =? i) || used bm j.
Proof.
  intros H. destruct (lookup_byte bm i H) as [b Hb]. unfold BITMAP_SET_BIT. rewrite Hb. cbn.
  eexists; split; [done |]. split; [by rewrite length_insert |]. intros j Hj.
  rewrite (used_insert _ _ _ _ _ Hb) by lia.
  destruct (Z.eqb_spec (j / 8) (i / 8)) as [E|]; [|by destruct (Z.eqb_spec j i); [subst |]].
  rewrite u8_testbit by zlia. rewrite Z.lor_spec, shiftl_1_testbit by zlia.
  unfold used. rewrite E, Hb. cbn. rewrite orb_comm. f_equal.
  destruct (Z.eqb_spec j i), (Z.eqb_spec (j mod 8) (i mod 8)); subst; try done.
  exfalso. eauto using block_index with lia.
Qed.

Lemma BITMAP_CLEAR_BIT_spec bm i :
  0 <= i < 8 * Z.of_nat (length bm) ->
  exists bm', BITMAP_CLEAR_BIT bm i = Some bm' /\ length bm' = length bm /\
    forall j, 0 <= j -> used bm' j = negb (j =? i) && used bm j.
Proof.
  intros H. destruct (lookup_byte bm i H) as [b Hb]. unfold BITMAP_CLEAR_BIT. rewrite Hb. cbn.
  eexists; split; [done |]. split; [by rewrite length_insert |]. intros j Hj.
  rewrite (used_insert _ _ _ _ _ Hb) by lia.
  destruct (Z.eqb_spec (j / 8) (i / 8)) as [E|]; [|by destruct (Z.eqb_spec j i); [subst |]].
  rewrite u8_testbit by zlia. rewrite Z.land_spec, Z.lnot_spec, shiftl_1_testbit by zlia.
  unfold used. rewrite E, Hb. cbn. rewrite andb_comm. f_equal. f_equal.
  destruct (Z.eqb_spec j i), (Z.eqb_spec (j mod 8) (i mod 8)); subst; try done.
  exfalso. eauto using block_index with lia.
Qed.

(** *** Marking a run *)

(** [marked m m' s c]: [m'] is [m] with the blocks s .. s+c-1, free in [m], in use. *)
Record marked (m m' : manager) (s c : Z) : Prop := {
  mk_region : same_region m m';
  mk_used : forall j, 0 <= j -> used (bitmap m') j = in_range j s c || used (bitmap m) j;
  mk_free : free_blocks m' = free_blocks m - c;
}.

(** [unmarked m m' s c]: [m'] is [m] with the blocks s .. s+c-1 free. *)
Record unmarked (m m' : manager) (s c : Z) : Prop := {
  um_region : same_region m m';
  um_used : forall j, 0 <= j -> used (bitmap m') j = negb (in_range j s c) && used (bitmap m) j;
}.

Lemma wf_index m i : wf m -> 0 <= i < total_blocks m -> 0 <= i < 8 * Z.of_nat (length (bitmap m)).
Proof. intros [] ?. zlia. Qed.

Lemma wf_free_range m : wf m -> 0 <= free_blocks m <= total_blocks m.
Proof.
  intros W. rewrite (wf_free _ W).
  pose proof (count_free_range (used (bitmap m)) (Z.to_nat (total_blocks m))).
  pose proof (wf_total _ W). lia.
Qed.

Lemma count_free_mark (k n : nat) f g s :
  0 <= s -> s + Z.of_nat k <= Z.of_nat n -> run_free f s (Z.of_nat k) ->
  (forall j, 0 <= j -> g j = in_range j s (Z.of_nat k) || f j) ->
  count_free g n = count_free f n - Z.of_nat k.
Proof.
  intros Hs. revert g; induction k as [|k IH]; intros g Hle Hrun Hg.
  { rewrite (count_free_ext g f n); [lia |].
    intros j Hj. rewrite Hg by lia. by zinr; [lia |]. }
  set (h := fun j => in_range j s (Z.of_nat k) || f j).
  assert (Hh : count_free h n = count_free f n - Z.of_nat k).
  { apply IH; [lia | intros j Hj; apply Hrun; lia | done]. }
  rewrite (count_free_upd h g n (s + Z.of_nat k)).
  - rewrite Hh, Hg by lia. unfold h. rewrite (Hrun (s + Z.of_nat k)) by lia. zinr; cbn; lia.
  - lia.
  - intros j Hj Hne. rewrite Hg by lia. unfold h. zinr; done || lia.
Qed.

Lemma marked_wf m m' s c :
  wf m -> 0 <= s -> 0 <= c -> s + c <= total_blocks m ->
  run_free (used (bitmap m)) s c -> marked m m' s c -> wf m'.
Proof.
  intros W Hs Hc Hle Hrun [(Hb & Ht & Hz & Hl) Hu Hf]. destruct W.
  split; rewrite ?Ht, ?Hb, ?Hz, ?Hl; try done.
  rewrite Hf, wf_free0.
  rewrite (count_free_mark (Z.to_nat c) (Z.to_nat (total_blocks m))
             (used (bitmap m)) (used (bitmap m')) s); rewrite ?Z2Nat.id by lia; lia || done.
Qed.

Lemma block_to_address m i :
  wf m -> 0 <= i < total_blocks m -> bitmap_block_to_address m i = block_addr m i.
Proof.
  intros [] Hi. unfold bitmap_block_to_address, block_addr, BITMAP_BLOCK_SIZE in *.
  rewrite !u64_small; [done | lia | rewrite u64_small; lia].
Qed.

Lemma mark_loop_spec n j start bm :
  0 <= j -> 0 <= start -> start + j + Z.of_nat n <= 8 * Z.of_nat (length bm) ->
  exists bm', mark_loop n j start bm = Some bm' /\ length bm' = length bm /\
    forall i, 0 <= i -> used bm' i = in_range i (start + j) (Z.of_nat n) || used bm i.
Proof.
  revert j bm; induction n as [|n IH]; intros j bm Hj Hs Hle; cbn [mark_loop].
  { exists bm. split; [done | split; [done |]]. intros i Hi. by zinr; [lia |]. }
  destruct (BITMAP_SET_BIT_spec bm (start + j)) as (bm1 & -> & Hl1 & Hu1); [lia |]. cbn.
  destruct (IH (j + 1) bm1) as (bm' & -> & Hl & Hu); [lia.. |].
  exists bm'. split; [done | split; [congruence |]]. intros i Hi.
  rewrite Hu, Hu1 by lia. zinr; zcases; try lia; done.
Qed.

(** *** Allocation *)

(** What an allocation of [count] blocks does: either nothing, when no run of
    [count] free blocks exists, or it marks the lowest such run and returns
    the address of its first block. *)
Definition alloc_spec (m : manager) (count : Z) (r : Z * manager) : Prop :=
  (fst r = NULL /\ snd r = m /\
   forall s, 0 <= s -> s + count <= total_blocks m -> ~ run_free (used (bitmap m)) s count)
  \/ (exists s, first_run (used (bitmap m)) (total_blocks m) count s /\
        fst r = block_addr m s /\ marked m (snd r) s count).

Lemma marked_intro m bm s c :
  length bm = length (bitmap m) -> 0 <= c <= free_blocks m -> free_blocks m <= 0x8000 ->
  (forall j, 0 <= j -> used bm j = in_range j s c || used (bitmap m) j) ->
  marked m (set_free_blocks (u64 (free_blocks m - c)) (set_bitmap bm m)) s c.
Proof.
  intros Hl Hc Hm Hu. split; cbn; [by split_and! | done | apply u64_small; lia].
Qed.

Lemma alloc_block_loop_spec n i m :
  wf m -> 0 <= i -> i + Z.of_nat n = total_blocks m ->
  (forall j, 0 <= j < i -> used (bitmap m) j = true) ->
  exists r, alloc_block_loop n i m = Some r /\ alloc_spec m 1 r.
Proof.
  intros W. revert i; induction n as [|n IH]; intros i Hi Hn Hused; cbn [alloc_block_loop].
  { eexists; split; [done |]. left; split_and!; [done | done |].
    intros s Hs Hle Hrun. specialize (Hused s ltac:(lia)). rewrite (Hrun s) in Hused; [done | lia]. }
  assert (Hidx := wf_index m i W ltac:(lia)).
  destruct (BITMAP_TEST_BIT_spec (bitmap m) i Hidx) as (t & -> & Ht). cbn. rewrite Ht.
  destruct (used (bitmap m) i) eqn:Hui; cbn [negb].
  { apply IH; [lia.. |]. intros j Hj. destruct (Z.eq_dec j i) as [->|]; [done | apply Hused; lia]. }
  destruct (BITMAP_SET_BIT_spec (bitmap m) i Hidx) as (bm & -> & Hl & Hu). cbn.
  eexists; split; [done |]. right. exists i. cbn [fst snd].
  assert (Hfree : 1 <= free_blocks m).
  { rewrite (wf_free _ W). apply (count_free_run _ _ i); try lia.
    intros j Hj. by replace j with i by lia. }
  pose proof (wf_free_range m W). pose proof (wf_total m W). unfold BITMAP_MAX_BLOCKS in *.
  split_and!.
  - split_and!; [lia | lia | intros j Hj; by replace j with i by lia |].
    intros s' Hs' Hr. specialize (Hused s' ltac:(lia)). rewrite (Hr s') in Hused; [done | lia].
  - by apply (block_to_address m i W); lia.
  - apply marked_intro; try lia. intros j Hj. rewrite Hu by lia.
    zinr; zcases; done || lia.
Qed.

Lemma bitmap_alloc_block_spec m :
  wf m -> exists r, bitmap_alloc_block m = Some r /\ alloc_spec m 1 r.
Proof.
  intros W. unfold bitmap_alloc_block. pose proof (wf_total m W).
  destruct (Z.eqb_spec (free_blocks m) 0) as [E|E].
  - eexists; split; [done |]. left; split_and!; [done | done |]. intros s Hs Hle Hrun.
    rewrite (wf_free _ W) in E.
    pose proof (count_free_0 _ _ E s ltac:(lia)) as Hu. rewrite (Hrun s) in Hu; [done | lia].
  - apply alloc_block_loop_spec; try done; try lia.
Qed.

(** Loop invariant of [alloc_blocks_loop] at index [i]: the last [c] blocks
    before [i] are free and preceded by a used block (or the start), and no run
    of [count] free blocks ends at or before [i]. *)
Record scanning (f : Z -> bool) (count i start c : Z) : Prop := {
  sc_c : 0 <= c < count /\ c <= i;
  sc_start : 0 < c -> start = i - c;
  sc_run : run_free f (i - c) c;
  sc_max : c < i -> f (i - c - 1) = true;
  sc_none : forall s, 0 <= s -> s + count <= i -> ~ run_free f s count;
}.

Lemma scanning_used f count i start c :
  scanning f count i start c -> f i = true -> scanning f count (i + 1) start 0.
Proof.
  intros [] Hi. split; try lia.
  - intros j Hj. lia.
  - intros _. by replace (i + 1 - 0 - 1) with i by lia.
  - intros s Hs Hle Hr. destruct (Z.eq_dec (s + count) (i + 1)).
    + rewrite (Hr i) in Hi; [done | lia].
    + eapply sc_none0; [| |exact Hr]; lia.
Qed.

Lemma run_free_snoc f i c : run_free f (i - c) c -> f i = false -> run_free f (i - c) (c + 1).
Proof. intros H Hi j Hj. destruct (Z.eq_dec j i) as [->|]; [done | apply H; lia]. Qed.

Lemma scanning_free f count i start c :
  scanning f count i start c -> f i = false -> c + 1 <> count ->
  scanning f count (i + 1) (if c =? 0 then i else start) (c + 1).
Proof.
  intros [] Hi Hne. split; try lia.
  - intros _. destruct (Z.eqb_spec c 0); lia.
  - replace (i + 1 - (c + 1)) with (i - c) by lia. by apply run_free_snoc.
  - intros H. replace (i + 1 - (c + 1) - 1) with (i - c - 1) by lia. apply sc_max0; lia.
  - intros s Hs Hle Hr. destruct (Z.eq_dec (s + count) (i + 1)) as [E|E].
    + rewrite (Hr (i - c - 1)) in sc_max0; [by specialize (sc_max0 ltac:(lia)) | lia].
    + eapply sc_none0; [| |exact Hr]; lia.
Qed.

Lemma scanning_done f n count i start c :
  scanning f count i start c -> f i = false -> c + 1 = count -> i < n ->
  first_run f n count (if c =? 0 then i else start).
Proof.
  intros [] Hi Hc Hn.
  assert (E : (if c =? 0 then i else start) = i - c) by (destruct (Z.eqb_spec c 0); lia).
  rewrite E. split_and!; try lia.
  - rewrite <- Hc. by apply run_free_snoc.
  - intros s' Hs' Hr. apply (sc_none0 s'); [lia | lia | done].
Qed.

Lemma alloc_blocks_loop_spec n i count start c m :
  wf m -> count <= free_blocks m -> i + Z.of_nat n = total_blocks m ->
  scanning (used (bitmap m)) count i start c ->
  exists r, alloc_blocks_loop n i count start c m = Some r /\ alloc_spec m count r.
Proof.
  intros W Hcount. revert i start c; induction n as [|n IH];
    intros i start c Hn Hsc; cbn [alloc_blocks_loop].
  { eexists; split; [done |]. left; split_and!; [done | done |].
    intros s Hs Hle. apply (sc_none _ _ _ _ _ Hsc); lia. }
  assert (Hidx := wf_index m i W ltac:(destruct Hsc; lia)).
  destruct (BITMAP_TEST_BIT_spec (bitmap m) i Hidx) as (t & -> & Ht). cbn. rewrite Ht.
  destruct (used (bitmap m) i) eqn:Hui; cbn [negb].
  { apply IH; [lia |]. by eapply scanning_used. }
  destruct (Z.eqb_spec (c + 1) count) as [E|E].
  2: { apply IH; [lia |]. by apply scanning_free. }
  pose proof (scanning_done _ (total_blocks m) _ _ _ _ Hsc Hui E ltac:(lia)) as Hfr.
  set (s := if c =? 0 then i else start) in *. clearbody s.
  destruct Hfr as (Hs & Hle & Hrun & Hfirst). destruct Hsc as [Hc _ _ _ _].
  pose proof (wf_index m (s + count - 1) W ltac:(lia)).
  destruct (mark_loop_spec (Z.to_nat count) 0 s (bitmap m)) as (bm & -> & Hl & Hu); [lia.. |]. cbn.
  eexists; split; [done |]. right; exists s. cbn [fst snd]. split_and!.
  - by split_and!.
  - apply (block_to_address m s W); lia.
  - pose proof (wf_free_range m W). pose proof (wf_total m W). unfold BITMAP_MAX_BLOCKS in *.
    apply marked_intro; try lia. intros j Hj. rewrite Hu, Z2Nat.id, Z.add_0_r by lia. done.
Qed.

Lemma alloc_spec_null m count m' : wf m -> alloc_spec m count (NULL, m') -> m' = m.
Proof.
  intros W [(_ & E & _)|(s & (Hs & _) & E & _)]; [done |]. cbn in E.
  pose proof (wf_base _ W). unfold block_addr, NULL, BITMAP_BLOCK_SIZE in *. lia.
Qed.

Lemma bitmap_alloc_blocks_ok m count :
  wf m -> 0 <= count ->
  exists a m', bitmap_alloc_blocks m count = Some (a, m') /\ wf m' /\
    if count =? 0 then a = NULL /\ m' = m
    else alloc_spec m count (a, m') /\
         (a = NULL <-> forall s, 0 <= s -> s + count <= total_blocks m ->
                                 ~ run_free (used (bitmap m)) s count).
Proof.
  intros W Hc. unfold bitmap_alloc_blocks. rewrite Z.gtb_ltb.
  destruct (Z.eqb_spec count 0) as [->|Hne]; cbn [orb].
  { by exists NULL, m. }
  assert (exists r, (if free_blocks m <? count then Some (NULL, m)
      else if count =? 1 then bitmap_alloc_block m
      else alloc_blocks_loop (Z.to_nat (total_blocks m)) 0 count 0 0 m) = Some r /\
      alloc_spec m count r) as ([a m'] & -> & Hspec).
  { destruct (Z.ltb_spec (free_blocks m) count) as [Hlt|Hge].
    - eexists; split; [done |]. left; split_and!; [done | done |]. intros s Hs Hle Hrun.
      rewrite (wf_free _ W) in Hlt.
      pose proof (count_free_run (used (bitmap m)) (Z.to_nat (total_blocks m)) s count).
      lia || (specialize (H Hs Hc ltac:(lia) Hrun); lia).
    - destruct (Z.eqb_spec count 1) as [->|]; [by apply bitmap_alloc_block_spec |].
      pose proof (wf_total m W).
      apply alloc_blocks_loop_spec; try done; try lia.
      split; try lia; intros ?; lia. }
  exists a, m'. split; [done |]. destruct Hspec as [(Ha & Hm & Hno)|(s & Hfr & Ha & Hmk)]; cbn in *.
  - subst. split; [done |]. split; [left; by split_and! | by split].
  - destruct Hfr as (Hs & Hle & Hrun & Hfirst).
    split; [by apply (marked_wf m m' s count)|]. split; [right; by exists s|].
    split; [|intros Hno; by destruct (Hno s Hs Hle)].
    intros ->. exfalso. pose proof (wf_base _ W). unfold block_addr, NULL, BITMAP_BLOCK_SIZE in *. lia.
Qed.

(** C2. [bitmap_alloc_blocks] is first fit, and complete: on a well-formed
    manager it never leaves the bitmap array; it returns NULL, changing
    nothing, exactly when [count] is 0 or no run of [count] consecutive free
    blocks exists, and otherwise marks the lowest such run, counts it off
    [free_blocks] and returns its address; the manager stays well-formed. *)
Theorem bitmap_alloc_blocks_spec m count :
  wf m -> 0 <= count ->
  exists a m', bitmap_alloc_blocks m count = Some (a, m') /\ wf m' /\
    if count =? 0 then a = NULL /\ m' = m
    else alloc_spec m count (a, m') /\
         (a = NULL <-> forall s, 0 <= s -> s + count <= total_blocks m ->
                                 ~ run_free (used (bitmap m)) s count).
Proof. apply bitmap_alloc_blocks_ok. Qed.

(** *** Freeing *)

Lemma count_free_unmark f g n i :
  0 <= i < Z.of_nat n -> (forall j, 0 <= j -> g j = negb (j =? i) && f j) ->
  count_free g n = count_free f n + (if f i then 1 else 0).
Proof.
  intros Hi Hg. rewrite (count_free_upd f g n i Hi).
  - rewrite Hg, Z.eqb_refl by lia. cbn. lia.
  - intros j Hj Hne. rewrite Hg by lia. by destruct (Z.eqb_spec j i).
Qed.

Lemma free_one_spec m b :
  wf m -> 0 <= b < total_blocks m ->
  exists m', free_one m b = Some m' /\ wf m' /\ unmarked m m' b 1.
Proof.
  intros W Hb. unfold free_one. assert (Hidx := wf_index m b W Hb).
  destruct (BITMAP_TEST_BIT_spec (bitmap m) b Hidx) as (t & -> & Ht). cbn. rewrite Ht.
  destruct (used (bitmap m) b) eqn:Hub; cbn [negb].
  - destruct (BITMAP_CLEAR_BIT_spec (bitmap m) b Hidx) as (bm & -> & Hl & Hu). cbn.
    pose proof (wf_free_range m W). pose proof (wf_total m W). unfold BITMAP_MAX_BLOCKS in *.
    pose proof (count_free_unmark (used (bitmap m)) (used bm) (Z.to_nat (total_blocks m)) b
                  ltac:(lia) Hu) as Hcnt. rewrite Hub in Hcnt.
    eexists; split; [done |]. split.
    + destruct W. split; cbn; try done; [by rewrite Hl |].
      rewrite u64_small by lia. lia.
    + split; cbn; [by split_and! |]. intros j Hj. rewrite Hu by lia. f_equal. f_equal.
      zinr; zcases; done || lia.
  - exists m. split; [done |]. split; [done |]. split; [done |]. intros j Hj.
    zinr; [|done]. replace j with b by lia. by rewrite Hub.
Qed.

Lemma unmarked_wf_index m m' s c : unmarked m m' s c -> total_blocks m' = total_blocks m.
Proof. by intros [(_ & H & _) _]. Qed.

Lemma free_loop_spec n i start m :
  wf m -> 0 <= i -> 0 <= start -> start + i + Z.of_nat n <= total_blocks m ->
  exists m', free_loop n i start m = Some m' /\ wf m' /\ unmarked m m' (start + i) (Z.of_nat n).
Proof.
  revert i m; induction n as [|n IH]; intros i m W Hi Hs Hle; cbn [free_loop].
  { exists m. split; [done | split; [done | split; [done |]]]. intros j Hj. by zinr; [lia |]. }
  destruct (free_one_spec m (start + i) W) as (m1 & -> & W1 & U1); [lia |]. cbn.
  pose proof (unmarked_wf_index _ _ _ _ U1).
  destruct (IH (i + 1) m1 W1) as (m' & -> & W' & [R' U']); [lia.. |].
  exists m'. split; [done | split; [done |]]. destruct U1 as [R1 U1]. split; [by etransitivity |].
  intros j Hj. rewrite U', U1 by lia. zinr; done || lia.
Qed.

Lemma contains_address_spec m a :
  wf m -> 0 <= a < 0x10000000000000000 ->
  bitmap_contains_address m a =
    in_range a (memory_base m) (total_blocks m * BITMAP_BLOCK_SIZE).
Proof.
  intros [] Ha. unfold bitmap_contains_address, in_range, BITMAP_BLOCK_SIZE in *.
  rewrite Z.geb_leb. rewrite !u64_small; [done | lia | rewrite u64_small; lia].
Qed.

Lemma address_to_block_spec m a :
  wf m -> in_range a (memory_base m) (total_blocks m * BITMAP_BLOCK_SIZE) = true ->
  0 <= a < 0x10000000000000000 ->
  bitmap_address_to_block m a = (a - memory_base m) / BITMAP_BLOCK_SIZE /\
  0 <= bitmap_address_to_block m a < total_blocks m.
Proof.
  intros [] Hin%in_range_true Ha. unfold bitmap_address_to_block.
  rewrite u64_small by (unfold BITMAP_BLOCK_SIZE in *; lia).
  split; [done |]. unfold BITMAP_BLOCK_SIZE in *. zlia.
Qed.

Lemma address_of_block m i :
  wf m -> 0 <= i < total_blocks m ->
  0 < block_addr m i < 0x10000000000000000 /\
  bitmap_contains_address m (block_addr m i) = true /\
  bitmap_address_to_block m (block_addr m i) = i.
Proof.
  intros W Hi. pose proof (wf_base _ W). pose proof (wf_end _ W).
  assert (Ha : 0 < block_addr m i < 0x10000000000000000)
    by (unfold block_addr, BITMAP_BLOCK_SIZE in *; lia).
  assert (Hin : in_range (block_addr m i) (memory_base m) (total_blocks m * BITMAP_BLOCK_SIZE) = true)
    by (unfold block_addr, BITMAP_BLOCK_SIZE in *; zinr; done || lia).
  split; [done |]. rewrite contains_address_spec by (done || lia). split; [done |].
  destruct (address_to_block_spec m _ W Hin) as [-> _]; [lia |].
  unfold block_addr, BITMAP_BLOCK_SIZE. zlia.
Qed.

Lemma bitmap_free_blocks_ok m address count :
  wf m -> 0 <= address < 0x10000000000000000 -> 0 <= count < 0x8000000000000000 ->
  exists m', bitmap_free_blocks m address count = Some m' /\ wf m' /\
    if bitmap_contains_address m address
    then let b := (address - memory_base m) / BITMAP_BLOCK_SIZE in
         0 <= b < total_blocks m /\ unmarked m m' b (Z.min count (total_blocks m - b))
    else m' = m.
Proof.
  intros W Ha Hc. unfold bitmap_free_blocks.
  rewrite contains_address_spec by done.
  destruct (in_range address _ _) eqn:Hin; cbn [negb orb].
  2: { by exists m. }
  destruct (address_to_block_spec m address W Hin Ha) as [Hb Hbr]. rewrite <- Hb.
  set (b := bitmap_address_to_block m address) in *. clearbody b.
  destruct (Z.eqb_spec count 0) as [->|Hne].
  { exists m. split; [done | split; [done | split; [done |]]]. split; [done |].
    intros j Hj. by zinr; [lia |]. }
  pose proof (wf_total m W). unfold BITMAP_MAX_BLOCKS in *. rewrite Z.gtb_ltb.
  rewrite !u64_small by lia.
  assert ((if total_blocks m <? b + count then total_blocks m - b else count) =
          Z.min count (total_blocks m - b)) as -> by (zcases; lia).
  destruct (free_loop_spec (Z.to_nat (Z.min count (total_blocks m - b))) 0 b m W)
    as (m' & -> & W' & U'); [lia.. |].
  exists m'. rewrite Z.add_0_r, Z2Nat.id in U' by lia. done.
Qed.

(** [bitmap_free_blocks] frees exactly the blocks it is asked to free: on a
    well-formed manager and any address it stays inside the bitmap, ignores an
    address outside the managed region, and otherwise clears the blocks from
    the one holding [address], [count] of them or up to the end of the region,
    whether they were in use or not, and keeps [free_blocks] equal to the
    number of clear bits. *)
Theorem bitmap_free_blocks_spec m address count :
  wf m -> 0 <= address < 0x10000000000000000 -> 0 <= count < 0x8000000000000000 ->
  exists m', bitmap_free_blocks m address count = Some m' /\ wf m' /\
    if bitmap_contains_address m address
    then let b := (address - memory_base m) / BITMAP_BLOCK_SIZE in
         0 <= b < total_blocks m /\ unmarked m m' b (Z.min count (total_blocks m - b))
    else m' = m.
Proof. apply bitmap_free_blocks_ok. Qed.

(** Freeing a run given by the address of its first block. *)
Lemma bitmap_free_blocks_run m s c :
  wf m -> 0 < c -> 0 <= s -> s + c <= total_blocks m ->
  exists m', bitmap_free_blocks m (block_addr m s) c = Some m' /\ wf m' /\ unmarked m m' s c.
Proof.
  intros W Hc Hs Hle. destruct (address_of_block m s W ltac:(lia)) as (Hr & Hin & _).
  pose proof (wf_total m W). unfold BITMAP_MAX_BLOCKS in *.
  destruct (bitmap_free_blocks_ok m (block_addr m s) c W) as (m' & Hfree & W' & Hm'); [lia.. |].
  rewrite Hin in Hm'. cbv zeta in Hm'.
  replace ((block_addr m s - memory_base m) / BITMAP_BLOCK_SIZE) with s in Hm'
    by (unfold block_addr, BITMAP_BLOCK_SIZE; zlia).
  rewrite Z.min_l in Hm' by lia. exists m'. by split_and!; [| |apply Hm'].
Qed.

Lemma bitmap_free_block_run m s :
  wf m -> 0 <= s < total_blocks m ->
  exists m', bitmap_free_block m (block_addr m s) = Some m' /\ wf m' /\ unmarked m m' s 1.
Proof.
  intros W Hs. destruct (address_of_block m s W Hs) as (_ & Hin & Hblk).
  unfold bitmap_free_block. rewrite Hin, Hblk. by apply free_one_spec.
Qed.

(** Allocating then freeing the same blocks restores the allocator: every
    bit and the free count are those before the allocation. *)
Theorem bitmap_alloc_free_roundtrip m count a m1 :
  wf m -> 0 < count -> bitmap_alloc_blocks m count = Some (a, m1) -> a <> NULL ->
  exists m2, bitmap_free_blocks m1 a count = Some m2 /\ wf m2 /\
    free_blocks m2 = free_blocks m /\
    forall j, 0 <= j -> used (bitmap m2) j = used (bitmap m) j.
Proof.
  intros W Hc Halloc Ha.
  destruct (bitmap_alloc_blocks_ok m count W ltac:(lia)) as (a' & m1' & Heq & W1 & Hspec).
  rewrite Halloc in Heq. simplify_eq. destruct (Z.eqb_spec count 0); [lia |].
  destruct Hspec as [[(E & _)|(s & (Hs & Hle & Hrun & _) & Ea & [R1 U1 F1])] _]; [done |].
  cbn in Ea, R1, U1, F1. destruct R1 as (Hb & Ht & Hz & Hl).
  assert (Eb : a' = block_addr m1' s) by (unfold block_addr in *; congruence).
  destruct (bitmap_free_blocks_run m1' s count W1) as (m2 & Hfree & W2 & [R2 U2]); [lia.. |].
  assert (Hsame : forall j, 0 <= j -> used (bitmap m2) j = used (bitmap m) j).
  { intros j Hj. rewrite U2, U1 by lia. zinr; [|done]. symmetry. apply Hrun. lia. }
  exists m2. split; [rewrite Eb; exact Hfree|]. split; [done |]. split; [|done].
  destruct R2 as (_ & Ht2 & _). rewrite (wf_free _ W2), (wf_free _ W), Ht2, Ht.
  apply count_free_ext. intros. apply Hsame. lia.
Qed.

(** ** Witnesses: a manager of ten blocks at 0x100000, blocks 0-2 and 5 in use *)

Definition demo : manager := Manager [39; 0] 0x100000 10 6 2.

Lemma demo_wf : wf demo.
Proof. split; vm_compute; done || (split; discriminate). Qed.

Lemma bitmap_alloc_blocks_spec_witness :
  (wf demo /\ 0 <= 3) /\
  exists a m', bitmap_alloc_blocks demo 3 = Some (a, m') /\ a = 0x106000.
Proof.
  split; [split; [exact demo_wf | lia] |].
  destruct (bitmap_alloc_blocks_spec demo 3 demo_wf ltac:(lia)) as (a & m' & H & _).
  exists a, m'. split; [exact H |]. vm_compute in H. congruence.
Defined.

Lemma bitmap_free_blocks_spec_witness :
  exists m', bitmap_free_blocks demo 0x101000 7 = Some m' /\ free_blocks m' = 9.
Proof.
  destruct (bitmap_free_blocks_spec demo 0x101000 7 demo_wf ltac:(lia) ltac:(lia)) as (m' & H & _).
  exists m'. split; [exact H |]. vm_compute in H. injection H as <-. reflexivity.
Defined.

Lemma bitmap_alloc_free_roundtrip_witness :
  exists m1 m2, bitmap_alloc_blocks demo 3 = Some (0x106000, m1) /\
    bitmap_free_blocks m1 0x106000 3 = Some m2 /\ free_blocks m2 = 6.
Proof.
  eexists. destruct (bitmap_alloc_free_roundtrip demo 3 0x106000 _ demo_wf ltac:(lia) eq_refl)
    as (m2 & H & _ & F & _); [discriminate |].
  exists m2. split; [reflexivity | split; [exact H | exact F]].
Defined.
