(* ===== verification/Pmm.v ===== *)
(** * Physical memory manager ([src/src/memory/pmm.c])

    The static variables of the file are the fields of [pmm].  The memory map
    is the boot loader's ([limine.h], not in the repository): an entry is its
    base, length and type, and the constant [LIMINE_MEMMAP_USABLE] and the
    address the linker gives to [bitmap_storage] are parameters of
    [physical_memory_init]. *)

From S2P Require Import Prelude Bitmap.

Record pmm := Pmm {
  phys_mem : manager;
  total_memory : Z;
  reserved_memory : Z;
  used_memory : Z;
}.

Definition set_phys (m : manager) (p : pmm) : pmm :=
  Pmm m (total_memory p) (reserved_memory p) (used_memory p).
Definition set_used (u : Z) (p : pmm) : pmm :=
  Pmm (phys_mem p) (total_memory p) (reserved_memory p) u.

(** [struct limine_memmap_entry] *)
Record memmap_entry := Entry { e_base : Z; e_length : Z; e_type : Z }.

(** ** Reserving a region *)

(** The loop of [physical_reserve_region] from [block], [n] iterations. *)
Fixpoint reserve_loop (n : nat) (block : Z) (m : manager) : option manager :=
  match n with
  | O => Some m
  | S n' =>
      let addr := bitmap_block_to_address m block in
      m1 ← bitmap_free_block m addr;
      '(_, m2) ← bitmap_alloc_block m1;
      reserve_loop n' (block + 1) m2
  end.

Definition physical_reserve_region (base size : Z) (p : pmm) : option (bool * pmm) :=
  let m := phys_mem p in
  let start_block := bitmap_address_to_block m base in
  let end_address := u64 (base + size - 1) in
  let end_block := bitmap_address_to_block m end_address in
  if start_block >=? total_blocks m then Some (false, p)
  else
    let end_block := if end_block >=? total_blocks m then total_blocks m - 1 else end_block in
    m' ← reserve_loop (Z.to_nat (end_block - start_block + 1)) start_block m;
    Some (true, set_phys m' p).

(** ** Initialisation *)

Section Init.
Variable LIMINE_MEMMAP_USABLE : Z.
Variable bitmap_storage_address : Z.

(** First loop: the totals, and the index and entry of the largest usable region. *)
Fixpoint scan_regions (i : nat) (entries : list memmap_entry) (total reserved : Z)
    (largest : option (nat * memmap_entry)) (largest_size : Z)
  : Z * Z * option (nat * memmap_entry) * Z :=
  match entries with
  | [] => (total, reserved, largest, largest_size)
  | entry :: rest =>
      if e_type entry =? LIMINE_MEMMAP_USABLE then
        let total := u64 (total + e_length entry) in
        if e_length entry >? largest_size
        then scan_regions (S i) rest total reserved (Some (i, entry)) (e_length entry)
        else scan_regions (S i) rest total reserved largest largest_size
      else scan_regions (S i) rest total (u64 (reserved + e_length entry)) largest largest_size
  end.

(** Second loop: reserve the unusable regions that touch the managed one. *)
Fixpoint reserve_regions (i : nat) (entries : list memmap_entry) (largest : nat) (p : pmm)
  : option pmm :=
  match entries with
  | [] => Some p
  | entry :: rest =>
      if Nat.eqb i largest then reserve_regions (S i) rest largest p
      else if e_type entry =? LIMINE_MEMMAP_USABLE then reserve_regions (S i) rest largest p
      else if bitmap_contains_address (phys_mem p) (e_base entry) ||
              bitmap_contains_address (phys_mem p) (u64 (e_base entry + e_length entry - 1))
      then '(_, p') ← physical_reserve_region (e_base entry) (e_length entry) p;
           reserve_regions (S i) rest largest p'
      else reserve_regions (S i) rest largest p
  end.

(** [sizeof(bitmap_storage)] *)
Definition BITMAP_STORAGE_SIZE : Z := BITMAP_MAX_BLOCKS / 8.

(** [physical_memory_init]; [memmap] is [None] for a NULL pointer.  The
    bitmap of [p] is the static array [bitmap_storage]. *)
Definition physical_memory_init (memmap : option (list memmap_entry)) (p : pmm)
  : option (bool * pmm) :=
  match memmap with
  | None => Some (false, p)
  | Some entries =>
      let '(total, reserved, largest, largest_size) :=
        scan_regions 0 entries (total_memory p) (reserved_memory p) None 0 in
      let p := Pmm (phys_mem p) total reserved (used_memory p) in
      match largest with
      | None => Some (false, p)
      | Some (li, region) =>
          '(ok, m) ← bitmap_init (phys_mem p) (Some (bitmap (phys_mem p)))
                       (e_base region) largest_size;
          if negb ok then Some (false, set_phys m p)
          else
            p ← reserve_regions 0 entries li (set_phys m p);
            '(_, p) ← physical_reserve_region bitmap_storage_address BITMAP_STORAGE_SIZE p;
            Some (true, p)
      end
  end.
End Init.

(** ** Page allocation *)

Definition physical_alloc_page (p : pmm) : option (Z * pmm) :=
  '(page, m) ← bitmap_alloc_block (phys_mem p);
  let p' := set_phys m p in
  if negb (page =? NULL)
  then Some (page, set_used (u64 (used_memory p' + BITMAP_BLOCK_SIZE)) p')
  else Some (page, p').

Definition physical_alloc_pages (count : Z) (p : pmm) : option (Z * pmm) :=
  '(pages, m) ← bitmap_alloc_blocks (phys_mem p) count;
  let p' := set_phys m p in
  if negb (pages =? NULL)
  then Some (pages, set_used (u64 (used_memory p' + u64 (count * BITMAP_BLOCK_SIZE))) p')
  else Some (pages, p').

Definition physical_free_page (page : Z) (p : pmm) : option pmm :=
  if bitmap_contains_address (phys_mem p) page then
    m ← bitmap_free_block (phys_mem p) page;
    let p' := set_phys m p in
    if used_memory p' >=? BITMAP_BLOCK_SIZE
    then Some (set_used (used_memory p' - BITMAP_BLOCK_SIZE) p')
    else Some p'
  else Some p.

Definition physical_free_pages (pages count : Z) (p : pmm) : option pmm :=
  if bitmap_contains_address (phys_mem p) pages then
    m ← bitmap_free_blocks (phys_mem p) pages count;
    let p' := set_phys m p in
    if used_memory p' >=? u64 (count * BITMAP_BLOCK_SIZE)
    then Some (set_used (used_memory p' - u64 (count * BITMAP_BLOCK_SIZE)) p')
    else Some p'
  else Some p.

Definition physical_get_total_memory (p : pmm) : Z := total_memory p.
Definition physical_get_used_memory (p : pmm) : Z := u64 (used_memory p + reserved_memory p).
Definition physical_get_free_memory (p : pmm) : Z :=
  u64 (bitmap_get_free_blocks (phys_mem p) * BITMAP_BLOCK_SIZE).

(** ** Safety of the clients of the allocator

    A client state is a memory manager and the list of live allocations
    (address and page count).  A client allocates any positive number of pages
    and frees, in any order, allocations it holds. *)

Inductive client_step : pmm * list (Z * Z) -> pmm * list (Z * Z) -> Prop :=
  | client_alloc p live count a p' :
      0 < count -> physical_alloc_pages count p = Some (a, p') -> a <> NULL ->
      client_step (p, live) (p', (a, count) :: live)
  | client_alloc_page p live a p' :
      physical_alloc_page p = Some (a, p') -> a <> NULL ->
      client_step (p, live) (p', (a, 1) :: live)
  | client_alloc_fail p live count p' :
      0 < count -> physical_alloc_pages count p = Some (NULL, p') ->
      client_step (p, live) (p', live)
  | client_free p live l1 l2 a count p' :
      live = l1 ++ (a, count) :: l2 -> physical_free_pages a count p = Some p' ->
      client_step (p, live) (p', l1 ++ l2)
  | client_free_page p live l1 l2 a p' :
      live = l1 ++ (a, 1) :: l2 -> physical_free_page a p = Some p' ->
      client_step (p, live) (p', l1 ++ l2).

(** Number of live allocations that contain the byte at [x]. *)
Fixpoint owners (live : list (Z * Z)) (x : Z) : Z :=
  match live with
  | [] => 0
  | r :: live' => Z.b2z (in_range x (fst r) (snd r * BITMAP_BLOCK_SIZE)) + owners live' x
  end.

(** Pages held by the live allocations. *)
Fixpoint pages_of (live : list (Z * Z)) : Z :=
  match live with [] => 0 | r :: live' => snd r + pages_of live' end.

Lemma owners_app l k x : owners (l ++ k) x = owners l x + owners k x.
Proof. induction l as [|r l IH]; cbn; [done | rewrite IH; lia]. Qed.
Lemma pages_of_app l k : pages_of (l ++ k) = pages_of l + pages_of k.
Proof. induction l as [|r l IH]; cbn; [done | rewrite IH; lia]. Qed.
Lemma owners_nonneg l x : 0 <= owners l x.
Proof. induction l as [|r l IH]; cbn; [done |]. destruct (in_range _ _ _); cbn; lia. Qed.

(** A live allocation is a run of blocks of the managed region. *)
Definition is_run (m : manager) (r : Z * Z) : Prop :=
  exists s, fst r = block_addr m s /\ 0 < snd r /\ 0 <= s /\ s + snd r <= total_blocks m.

Record client_inv (p0 p : pmm) (live : list (Z * Z)) : Prop := {
  ci_wf0 : wf (phys_mem p0);
  ci_wf : wf (phys_mem p);
  ci_region : same_region (phys_mem p0) (phys_mem p);
  ci_runs : Forall (is_run (phys_mem p0)) live;
  ci_used : forall j, 0 <= j < total_blocks (phys_mem p0) ->
    Z.b2z (used (bitmap (phys_mem p)) j) =
    Z.b2z (used (bitmap (phys_mem p0)) j) + owners live (block_addr (phys_mem p0) j);
  ci_free : free_blocks (phys_mem p) = free_blocks (phys_mem p0) - pages_of live;
  ci_stat : used_memory p = used_memory p0 + pages_of live * BITMAP_BLOCK_SIZE;
  ci_small : 0 <= used_memory p0 < 0x1000000000000;
}.

Lemma is_run_block m j s c :
  is_run m (block_addr m s, c) -> in_range (block_addr m j) (block_addr m s) (c * BITMAP_BLOCK_SIZE) = in_range j s c.
Proof.
  intros _. unfold block_addr, BITMAP_BLOCK_SIZE. zinr; done || lia.
Qed.

Lemma pages_nonneg m live : Forall (is_run m) live -> 0 <= pages_of live.
Proof. induction 1 as [|r l (s & _ & Hc & _) _ IH]; cbn; lia. Qed.

Lemma block_addr_region m m' i : same_region m m' -> block_addr m' i = block_addr m i.
Proof. intros (H & _). unfold block_addr. by rewrite H. Qed.

(** The two allocation entry points, as marking of a free run. *)
Lemma alloc_inv p0 p live count a m' :
  client_inv p0 p live -> 0 < count -> a <> NULL -> alloc_spec (phys_mem p) count (a, m') ->
  client_inv p0 (set_used (u64 (used_memory p + u64 (count * BITMAP_BLOCK_SIZE))) (set_phys m' p))
    ((a, count) :: live).
Proof.
  intros [W0 W R Hruns Hu Hf Hst Hsm] Hc Ha [(Hn & _)|(s & (Hs & Hle & Hrun & _) & Ea & M)]; [done |].
  cbn in Ea, M. assert (W' := marked_wf (phys_mem p) m' s count W Hs ltac:(lia) Hle Hrun M).
  destruct M as [R' U' F']. assert (Ht := R). destruct Ht as (_ & Ht & _).
  rewrite (block_addr_region _ _ s R) in Ea. subst a.
  assert (Hr : is_run (phys_mem p0) (block_addr (phys_mem p0) s, count))
    by (exists s; cbn; split_and!; lia || done).
  pose proof (wf_free_range _ W0). pose proof (wf_free_range _ W').
  pose proof (wf_total _ W0). unfold BITMAP_MAX_BLOCKS in *.
  pose proof (pages_nonneg _ _ Hruns).
  split; cbn; try done.
  - by etransitivity.
  - by constructor.
  - intros j Hj. rewrite is_run_block by done. rewrite U' by lia.
    destruct (in_range_spec j s count) as [Hin|]; cbn; [|rewrite Hu by lia; lia].
    specialize (Hu j Hj). rewrite (Hrun j Hin) in Hu.
    destruct (used (bitmap (phys_mem p0)) j); cbn in *;
      pose proof (owners_nonneg live (block_addr (phys_mem p0) j)); lia.
  - lia.
  - unfold BITMAP_BLOCK_SIZE in *. rewrite !u64_small; try rewrite u64_small; lia.
Qed.

Lemma client_inv_alloc p0 p live count a p' :
  client_inv p0 p live -> 0 < count -> physical_alloc_pages count p = Some (a, p') ->
  if a =? NULL then p' = p else client_inv p0 p' ((a, count) :: live).
Proof.
  intros I Hc Halloc. unfold physical_alloc_pages in Halloc.
  destruct (bitmap_alloc_blocks_ok (phys_mem p) count (ci_wf _ _ _ I) ltac:(lia))
    as (a' & m' & Heq & _ & Hspec). rewrite Heq in Halloc. cbn in Halloc.
  destruct (Z.eqb_spec count 0); [lia |]. destruct Hspec as [Hspec Hnull].
  destruct (Z.eqb_spec a' NULL) as [->|Hne]; cbn in Halloc; simplify_eq.
  - rewrite (alloc_spec_null _ _ _ (ci_wf _ _ _ I) Hspec). by destruct p.
  - destruct (Z.eqb_spec a NULL); [done |]. by apply alloc_inv.
Qed.

Lemma client_inv_alloc_page p0 p live a p' :
  client_inv p0 p live -> physical_alloc_page p = Some (a, p') ->
  if a =? NULL then p' = p else client_inv p0 p' ((a, 1) :: live).
Proof.
  intros I Halloc. unfold physical_alloc_page in Halloc.
  destruct (bitmap_alloc_block_spec (phys_mem p) (ci_wf _ _ _ I)) as ([a' m'] & Heq & Hspec).
  rewrite Heq in Halloc. cbn in Halloc.
  destruct (Z.eqb_spec a' NULL) as [->|Hne]; cbn in Halloc; simplify_eq.
  - rewrite (alloc_spec_null _ _ _ (ci_wf _ _ _ I) Hspec). by destruct p.
  - destruct (Z.eqb_spec a NULL); [done |].
    change BITMAP_BLOCK_SIZE with (u64 (1 * BITMAP_BLOCK_SIZE)). by apply alloc_inv.
Qed.

(** The two ways to free a live allocation, as unmarking its run. *)
Lemma free_inv p0 p l1 l2 s c m' :
  client_inv p0 p (l1 ++ (block_addr (phys_mem p0) s, c) :: l2) ->
  0 < c -> 0 <= s -> s + c <= total_blocks (phys_mem p0) ->
  wf m' -> unmarked (phys_mem p) m' s c ->
  client_inv p0 (set_used (used_memory p - c * BITMAP_BLOCK_SIZE) (set_phys m' p)) (l1 ++ l2).
Proof.
  intros [W0 W R Hruns Hu Hf Hst Hsm] Hc Hs Hle W' [R' U'].
  assert (Hown : forall j, s <= j < s + c ->
    used (bitmap (phys_mem p)) j = true /\ used (bitmap (phys_mem p0)) j = false /\
    owners (l1 ++ l2) (block_addr (phys_mem p0) j) = 0).
  { intros j Hj. specialize (Hu j ltac:(lia)). rewrite owners_app in *. cbn in Hu.
    rewrite is_run_block in Hu by (exists s; cbn; split_and!; lia || done).
    rewrite (proj2 (in_range_true j s c) Hj) in Hu. cbn in Hu.
    pose proof (owners_nonneg l1 (block_addr (phys_mem p0) j)).
    pose proof (owners_nonneg l2 (block_addr (phys_mem p0) j)).
    destruct (used (bitmap (phys_mem p)) j), (used (bitmap (phys_mem p0)) j); cbn in *; lia || done. }
  assert (Hp : pages_of (l1 ++ (block_addr (phys_mem p0) s, c) :: l2) = pages_of (l1 ++ l2) + c)
    by (rewrite !pages_of_app; cbn; lia).
  split; cbn; try done.
  - by etransitivity.
  - apply Forall_app in Hruns as [H1 H2]. apply Forall_app; split; [done | by inversion H2].
  - intros j Hj. rewrite U' by lia. destruct (in_range_spec j s c) as [Hin|Hout]; cbn.
    + destruct (Hown j Hin) as (_ & -> & ->). done.
    + rewrite Hu by lia. rewrite !owners_app. cbn.
      rewrite is_run_block by (exists s; cbn; split_and!; lia || done).
      rewrite (proj2 (in_range_false j s c) Hout). cbn. lia.
  - pose proof (count_free_mark (Z.to_nat c) (Z.to_nat (total_blocks m'))
      (used (bitmap m')) (used (bitmap (phys_mem p))) s) as Hcnt.
    destruct R as (_ & Ht & _), R' as (_ & Ht' & _).
    rewrite Z2Nat.id in Hcnt by lia.
    rewrite (wf_free _ W), (wf_free _ W'), Ht' in *. rewrite Hcnt in Hf; try lia.
    + intros j Hj. rewrite U' by lia. by rewrite (proj2 (in_range_true j s c) Hj).
    + intros j Hj. rewrite U' by lia. destruct (in_range_spec j s c) as [Hin|]; [|done].
      cbn. apply (Hown j Hin).
  - lia.
Qed.

Lemma live_run p0 p l1 l2 a c :
  client_inv p0 p (l1 ++ (a, c) :: l2) ->
  exists s, a = block_addr (phys_mem p) s /\ a = block_addr (phys_mem p0) s /\ 0 < c /\ 0 <= s /\
    s + c <= total_blocks (phys_mem p0) /\ total_blocks (phys_mem p) = total_blocks (phys_mem p0) /\
    bitmap_contains_address (phys_mem p) a = true /\ c <= 0x8000 /\
    c * BITMAP_BLOCK_SIZE <= used_memory p.
Proof.
  intros I. destruct (Forall_elt _ _ _ (ci_runs _ _ _ I)) as (s & Ea & Hc & Hs & Hle).
  cbn in Ea, Hc, Hle. pose proof (ci_region _ _ _ I) as R.
  assert (Ht := R). destruct Ht as (_ & Ht & _). assert (W := ci_wf _ _ _ I).
  pose proof (block_addr_region _ _ s R) as Eb.
  destruct (address_of_block (phys_mem p) s W ltac:(lia)) as (_ & Hin & _).
  pose proof (wf_total _ W). unfold BITMAP_MAX_BLOCKS in *.
  destruct (proj1 (Forall_app _ _ _) (ci_runs _ _ _ I)) as [H1%pages_nonneg H2].
  inversion H2 as [|? ? _ H3%pages_nonneg]; subst.
  pose proof (ci_stat _ _ _ I) as Hst. rewrite pages_of_app in Hst. cbn in Hst.
  pose proof (ci_small _ _ _ I). unfold BITMAP_BLOCK_SIZE in *.
  exists s. rewrite Eb in Hin |- *. split_and!; done || lia.
Qed.

Lemma client_inv_free p0 p l1 l2 a c p' :
  client_inv p0 p (l1 ++ (a, c) :: l2) -> physical_free_pages a c p = Some p' ->
  client_inv p0 p' (l1 ++ l2).
Proof.
  intros I Hfree. destruct (live_run _ _ _ _ _ _ I) as (s & Ea & Eb & Hc & Hs & Hle & Ht & Hin & Hc8 & Hge).
  destruct (bitmap_free_blocks_run (phys_mem p) s c (ci_wf _ _ _ I)) as (m' & Heq & W' & U); [lia.. |].
  unfold physical_free_pages in Hfree. rewrite Hin, Ea, Heq in Hfree. cbn in Hfree.
  unfold BITMAP_BLOCK_SIZE in *. rewrite Z.geb_leb, u64_small in Hfree by lia.
  destruct (Z.leb_spec (c * 4096) (used_memory p)); [|lia]. simplify_eq.
  rewrite Eb in I. by eapply free_inv.
Qed.

Lemma client_inv_free_page p0 p l1 l2 a p' :
  client_inv p0 p (l1 ++ (a, 1) :: l2) -> physical_free_page a p = Some p' ->
  client_inv p0 p' (l1 ++ l2).
Proof.
  intros I Hfree. destruct (live_run _ _ _ _ _ _ I) as (s & Ea & Eb & Hc & Hs & Hle & Ht & Hin & _ & Hge).
  destruct (bitmap_free_block_run (phys_mem p) s (ci_wf _ _ _ I)) as (m' & Heq & W' & U); [lia |].
  unfold physical_free_page in Hfree. rewrite Hin, Ea, Heq in Hfree. cbn in Hfree.
  rewrite Z.geb_leb in Hfree.
  destruct (Z.leb_spec BITMAP_BLOCK_SIZE (used_memory p)); [|lia]. simplify_eq.
  rewrite Eb in I. replace BITMAP_BLOCK_SIZE with (1 * BITMAP_BLOCK_SIZE) by done.
  by eapply free_inv.
Qed.

Lemma client_inv_step p0 c c' :
  client_step c c' -> client_inv p0 (fst c) (snd c) -> client_inv p0 (fst c') (snd c').
Proof.
  destruct 1 as [p live count a p' Hc Ha Hne|p live a p' Ha Hne|p live count p' Hc Ha
    |p live l1 l2 a count p' -> Hf|p live l1 l2 a p' -> Hf]; cbn [fst snd]; intros I.
  - pose proof (client_inv_alloc _ _ _ _ _ _ I Hc Ha) as H. by destruct (Z.eqb_spec a NULL).
  - pose proof (client_inv_alloc_page _ _ _ _ _ I Ha) as H. by destruct (Z.eqb_spec a NULL).
  - pose proof (client_inv_alloc _ _ _ _ _ _ I Hc Ha) as H. cbn in H. by subst.
  - by eapply client_inv_free.
  - by eapply client_inv_free_page.
Qed.

Lemma client_inv_init p :
  wf (phys_mem p) -> 0 <= used_memory p < 0x1000000000000 -> client_inv p p [].
Proof. intros W Hu. split; cbn; intros; try done; lia. Qed.

Lemma client_reachable p0 c :
  wf (phys_mem p0) -> 0 <= used_memory p0 < 0x1000000000000 ->
  rtc client_step (p0, []) c -> client_inv p0 (fst c) (snd c).
Proof.
  intros W Hu Hr.
  refine (rtc_invariant client_step (fun c => client_inv p0 (fst c) (snd c)) _ _ _ Hr _).
  - intros c1 c2. by apply client_inv_step.
  - by apply client_inv_init.
Qed.

(** C1. No double allocation.  From a well-formed manager, after any sequence
    of page allocations (single or multi-page, failed ones included) and frees
    of live allocations in any order, the manager is well-formed; a
    block of the region belongs to at most one live allocation; the blocks of a
    live allocation are in use now and were free at the start; every live
    allocation is a run of blocks of the region; and the statistics account for
    exactly the live pages. *)
Theorem pmm_no_double_allocation p0 p live :
  wf (phys_mem p0) -> 0 <= used_memory p0 < 0x1000000000000 ->
  rtc client_step (p0, []) (p, live) ->
  wf (phys_mem p) /\
  (forall j, 0 <= j < total_blocks (phys_mem p0) ->
     0 <= owners live (block_addr (phys_mem p0) j) <= 1 /\
     (owners live (block_addr (phys_mem p0) j) = 1 ->
        used (bitmap (phys_mem p)) j = true /\ used (bitmap (phys_mem p0)) j = false)) /\
  Forall (is_run (phys_mem p0)) live /\
  used_memory p = used_memory p0 + pages_of live * BITMAP_BLOCK_SIZE /\
  physical_get_free_memory p =
    (free_blocks (phys_mem p0) - pages_of live) * BITMAP_BLOCK_SIZE.
Proof.
  intros W Hu Hr. destruct (client_reachable _ _ W Hu Hr) as [_ W' R Hruns Hused Hf Hst _].
  cbn [fst snd] in *. split; [done |]. split; [|split; [done | split; [done |]]].
  - intros j Hj. specialize (Hused j Hj). pose proof (owners_nonneg live (block_addr (phys_mem p0) j)).
    destruct (used (bitmap (phys_mem p)) j), (used (bitmap (phys_mem p0)) j); cbn in *;
      split; try lia; intros; done || lia.
  - unfold physical_get_free_memory, bitmap_get_free_blocks.
    pose proof (wf_free_range _ W'). pose proof (wf_total _ W').
    unfold BITMAP_MAX_BLOCKS, BITMAP_BLOCK_SIZE in *. rewrite u64_small; lia.
Qed.

(** Facts for the clients of the allocator: totality and disjointness. *)

Lemma physical_alloc_pages_total p0 p live count :
  client_inv p0 p live -> 0 <= count ->
  exists a p', physical_alloc_pages count p = Some (a, p').
Proof.
  intros I Hc. destruct (bitmap_alloc_blocks_ok (phys_mem p) count (ci_wf _ _ _ I) Hc)
    as (a & m' & Heq & _). unfold physical_alloc_pages. rewrite Heq. cbn.
  destruct (a =? NULL); cbn; eauto.
Qed.

Lemma physical_free_pages_total p0 p l1 l2 a c :
  client_inv p0 p (l1 ++ (a, c) :: l2) -> exists p', physical_free_pages a c p = Some p'.
Proof.
  intros I. destruct (live_run _ _ _ _ _ _ I) as (s & Ea & _ & Hc & Hs & Hle & Ht & Hin & _).
  destruct (bitmap_free_blocks_run (phys_mem p) s c (ci_wf _ _ _ I)) as (m' & Heq & _); [lia.. |].
  unfold physical_free_pages. rewrite Hin, Ea, Heq. cbn. destruct (_ >=? _); eauto.
Qed.

Lemma b2z_range b : 0 <= Z.b2z b <= 1.
Proof. destruct b; cbn; lia. Qed.

Lemma owners_cons r live x :
  owners (r :: live) x = Z.b2z (in_range x (fst r) (snd r * BITMAP_BLOCK_SIZE)) + owners live x.
Proof. done. Qed.

Lemma owners_lookup live i r x :
  live !! i = Some r -> in_range x (fst r) (snd r * BITMAP_BLOCK_SIZE) = true ->
  1 <= owners live x.
Proof.
  revert i; induction live as [|q live IH]; intros [|i] Hi Hx; cbn in Hi; try done;
    rewrite owners_cons; pose proof (owners_nonneg live x).
  - injection Hi as ->. rewrite Hx. cbn [Z.b2z]. lia.
  - specialize (IH _ Hi Hx). pose proof (b2z_range (in_range x (fst q) (snd q * BITMAP_BLOCK_SIZE))). lia.
Qed.

Lemma owners_lookup_2 live i j r q x :
  (i < j)%nat -> live !! i = Some r -> live !! j = Some q ->
  in_range x (fst r) (snd r * BITMAP_BLOCK_SIZE) = true ->
  in_range x (fst q) (snd q * BITMAP_BLOCK_SIZE) = true ->
  2 <= owners live x.
Proof.
  revert i j; induction live as [|a live IH]; intros [|i] [|j] Hij Hi Hj Hr Hq; cbn in Hi, Hj;
    try done; try lia; rewrite owners_cons.
  - injection Hi as ->. rewrite Hr. pose proof (owners_lookup _ _ _ _ Hj Hq). cbn [Z.b2z]. lia.
  - specialize (IH i j ltac:(lia) Hi Hj Hr Hq).
    pose proof (b2z_range (in_range x (fst a) (snd a * BITMAP_BLOCK_SIZE))). lia.
Qed.

Lemma client_owners p0 p live j :
  client_inv p0 p live -> 0 <= j < total_blocks (phys_mem p0) ->
  owners live (block_addr (phys_mem p0) j) <= 1.
Proof.
  intros I Hj. pose proof (ci_used _ _ _ I j Hj) as Hu.
  destruct (used (bitmap (phys_mem p)) j), (used (bitmap (phys_mem p0)) j); cbn in *; lia.
Qed.

(** Two live allocations share no byte. *)
Lemma client_disjoint_lt p0 p live i j r q :
  client_inv p0 p live -> (i < j)%nat -> live !! i = Some r -> live !! j = Some q ->
  fst r + snd r * BITMAP_BLOCK_SIZE <= fst q \/ fst q + snd q * BITMAP_BLOCK_SIZE <= fst r.
Proof.
  intros I Hij Hi Hj. pose proof (ci_runs _ _ _ I) as Hruns.
  destruct (proj1 (Forall_lookup _ _) Hruns _ _ Hi) as (s1 & E1 & Hc1 & Hs1 & Hl1).
  destruct (proj1 (Forall_lookup _ _) Hruns _ _ Hj) as (s2 & E2 & Hc2 & Hs2 & Hl2).
  destruct r as [a1 c1], q as [a2 c2]. cbn in *.
  destruct (Z.le_gt_cases (s1 + c1) s2); [left; rewrite E1, E2; unfold block_addr, BITMAP_BLOCK_SIZE; lia|].
  destruct (Z.le_gt_cases (s2 + c2) s1); [right; rewrite E1, E2; unfold block_addr, BITMAP_BLOCK_SIZE; lia|].
  exfalso. pose proof (client_owners p0 p live (Z.max s1 s2) I ltac:(lia)).
  pose proof (owners_lookup_2 live i j _ _ (block_addr (phys_mem p0) (Z.max s1 s2)) Hij Hi Hj) as H2.
  cbn in H2. rewrite !in_range_true in H2. rewrite E1, E2 in H2.
  unfold block_addr, BITMAP_BLOCK_SIZE in *. lia.
Qed.

Lemma client_disjoint p0 p live i j r q :
  client_inv p0 p live -> i <> j -> live !! i = Some r -> live !! j = Some q ->
  fst r + snd r * BITMAP_BLOCK_SIZE <= fst q \/ fst q + snd q * BITMAP_BLOCK_SIZE <= fst r.
Proof.
  intros I Hij Hi Hj. destruct (Nat.lt_total i j) as [H|[H|H]]; [|done |].
  - by eapply client_disjoint_lt.
  - pose proof (client_disjoint_lt _ _ _ _ _ _ _ I H Hj Hi). tauto.
Qed.

(** Bounds of a live allocation. *)
Lemma client_bounds p0 p live a c :
  client_inv p0 p live -> (a, c) ∈ live ->
  0 < a /\ 0 < c <= 0x8000 /\ a + c * BITMAP_BLOCK_SIZE < 0x10000000000000000 /\
  memory_base (phys_mem p0) <= a /\
  a + c * BITMAP_BLOCK_SIZE <= memory_base (phys_mem p0) + total_blocks (phys_mem p0) * BITMAP_BLOCK_SIZE.
Proof.
  intros I (l1 & l2 & ->)%list_elem_of_split.
  destruct (live_run _ _ _ _ _ _ I) as (s & _ & Ea & Hc & Hs & Hle & _ & _ & Hc8 & _).
  pose proof (wf_base _ (ci_wf0 _ _ _ I)). pose proof (wf_end _ (ci_wf0 _ _ _ I)).
  unfold block_addr, BITMAP_BLOCK_SIZE in *. lia.
Qed.

(** The live pages are bounded by the size of the region. *)
Lemma client_pages p0 p live :
  client_inv p0 p live -> Z.of_nat (length live) <= pages_of live <= 0x8000.
Proof.
  intros I. pose proof (wf_free_range _ (ci_wf0 _ _ _ I)). pose proof (wf_free_range _ (ci_wf _ _ _ I)).
  pose proof (wf_total _ (ci_wf0 _ _ _ I)). pose proof (ci_free _ _ _ I).
  assert (Z.of_nat (length live) <= pages_of live).
  { pose proof (ci_runs _ _ _ I) as Hr. clear -Hr.
    induction Hr as [|r l (s & _ & Hc & _) _ IH]; cbn [length pages_of]; lia. }
  unfold BITMAP_MAX_BLOCKS in *. lia.
Qed.

Lemma physical_alloc_page_total p0 p live :
  client_inv p0 p live -> exists a p', physical_alloc_page p = Some (a, p').
Proof.
  intros I. destruct (bitmap_alloc_block_spec (phys_mem p) (ci_wf _ _ _ I)) as ([a m'] & Heq & _).
  unfold physical_alloc_page. rewrite Heq. cbn. destruct (a =? NULL); cbn; eauto.
Qed.

Lemma physical_free_page_total p0 p l1 l2 a :
  client_inv p0 p (l1 ++ (a, 1) :: l2) -> exists p', physical_free_page a p = Some p'.
Proof.
  intros I. destruct (live_run _ _ _ _ _ _ I) as (s & Ea & _ & Hc & Hs & Hle & Ht & Hin & _).
  destruct (bitmap_free_block_run (phys_mem p) s (ci_wf _ _ _ I)) as (m' & Heq & _); [lia |].
  unfold physical_free_page. rewrite Hin, Ea, Heq. cbn. destruct (_ >=? _); eauto.
Qed.

(** ** Initialisation and reserved regions *)

Lemma alloc_block_wf m :
  wf m -> exists a m', bitmap_alloc_block m = Some (a, m') /\ wf m' /\ same_region m m'.
Proof.
  intros W. destruct (bitmap_alloc_block_spec m W) as ([a m'] & -> & Hspec).
  exists a, m'. split; [done |]. destruct Hspec as [(_ & E & _)|(s & (Hs & Hle & Hrun & _) & _ & M)]; cbn in *.
  - by subst.
  - split; [by apply (marked_wf m m' s 1) | apply M].
Qed.

Lemma reserve_loop_wf n block m :
  wf m -> 0 <= block -> block + Z.of_nat n <= total_blocks m ->
  exists m', reserve_loop n block m = Some m' /\ wf m' /\ same_region m m'.
Proof.
  revert block m; induction n as [|n IH]; intros block m W Hb Hle; cbn [reserve_loop].
  { by exists m. }
  rewrite block_to_address by (done || lia).
  destruct (bitmap_free_block_run m block W) as (m1 & -> & W1 & [R1 _]); [lia |]. cbn.
  destruct (alloc_block_wf m1 W1) as (a & m2 & -> & W2 & R2). cbn.
  assert (R : same_region m m2) by (by etransitivity). assert (Ht := R). destruct Ht as (_ & Ht & _).
  destruct (IH (block + 1) m2 W2) as (m' & -> & W' & R'); [lia.. |].
  exists m'. split; [done | split; [done |]]. by etransitivity.
Qed.

Lemma reserve_region_wf base size p :
  wf (phys_mem p) ->
  exists ok p', physical_reserve_region base size p = Some (ok, p') /\
    wf (phys_mem p') /\ same_region (phys_mem p) (phys_mem p').
Proof.
  intros W. unfold physical_reserve_region. rewrite !Z.geb_leb.
  assert (Hnn : forall a, 0 <= bitmap_address_to_block (phys_mem p) a)
    by (intros a; unfold bitmap_address_to_block, BITMAP_BLOCK_SIZE; word).
  generalize (Hnn base), (Hnn (u64 (base + size - 1))).
  generalize (bitmap_address_to_block (phys_mem p) base) as sb.
  generalize (bitmap_address_to_block (phys_mem p) (u64 (base + size - 1))) as eb.
  intros eb sb Hsb Heb.
  pose proof (wf_total _ W).
  destruct (Z.leb_spec (total_blocks (phys_mem p)) sb); [by exists false, p|].
  match goal with |- context [reserve_loop (Z.to_nat (?e - sb + 1))] => set (eb' := e) end.
  assert (eb' <= total_blocks (phys_mem p) - 1) by (subst eb'; zcases; lia). clearbody eb'.
  destruct (reserve_loop_wf (Z.to_nat (eb' - sb + 1)) sb (phys_mem p) W) as (m' & -> & W' & R');
    [lia | lia |].
  cbn. by exists true, (set_phys m' p).
Qed.

(** The largest usable region: the first of the greatest length. *)
Lemma scan_regions_spec U i entries total reserved best bs :
  (match best with Some (_, e) => e_type e = U /\ e_length e = bs /\ 0 < bs | None => bs = 0 end) ->
  exists total' reserved' best' bs',
    scan_regions U i entries total reserved best bs = (total', reserved', best', bs') /\
    bs <= bs' /\ (forall e, e ∈ entries -> e_type e = U -> e_length e <= bs') /\
    match best' with
    | Some (k, e) => e_type e = U /\ e_length e = bs' /\ 0 < bs' /\
        (best' = best \/ (i <= k)%nat /\ entries !! (k - i)%nat = Some e)
    | None => bs' = 0 /\ best = None
    end.
Proof.
  revert i total reserved best bs; induction entries as [|e rest IH];
    intros i total reserved best bs Hbest; cbn [scan_regions].
  { exists total, reserved, best, bs. split; [done |]. split; [lia |].
    split; [intros e He; by apply elem_of_nil in He|].
    destruct best as [[k e]|]; [intuition | done]. }
  assert (Hskip : forall total reserved, exists total' reserved' best' bs',
    scan_regions U (S i) rest total reserved best bs = (total', reserved', best', bs') /\
    bs <= bs' /\ (forall e0, e0 ∈ rest -> e_type e0 = U -> e_length e0 <= bs') /\
    match best' with
    | Some (k, e0) => e_type e0 = U /\ e_length e0 = bs' /\ 0 < bs' /\
        (best' = best \/ (i <= k)%nat /\ (e :: rest) !! (k - i)%nat = Some e0)
    | None => bs' = 0 /\ best = None
    end).
  { intros tt rr. destruct (IH (S i) tt rr best bs Hbest) as (t' & r' & b' & bs' & -> & H1 & H2 & H3).
    exists t', r', b', bs'. split; [done |]. split; [done |]. split; [done |].
    destruct b' as [[k e0]|]; [|done]. destruct H3 as (? & ? & ? & [?|[Hk ?]]); split_and!; try done.
    - by left.
    - right. split; [lia |]. by replace (k - i)%nat with (S (k - S i)) by lia. }
  assert (0 <= bs) by (destruct best as [[]|]; lia).
  destruct (Z.eqb_spec (e_type e) U) as [Hu|Hu]; [destruct (Z.gtb_spec (e_length e) bs) as [Hl|Hl]|].
  - destruct (IH (S i) (u64 (total + e_length e)) reserved (Some (i, e)) (e_length e))
      as (t' & r' & b' & bs' & -> & H1 & H2 & H3); [split_and!; done || lia |].
    exists t', r', b', bs'. split; [done |]. split; [lia |].
    split; [intros e0 [->|?]%elem_of_cons; auto |].
    destruct b' as [[k e0]|]; [|by destruct H3].
    destruct H3 as (? & ? & ? & [?|[Hk ?]]); split_and!; try done; right.
    + simplify_eq. split; [lia |]. by rewrite Nat.sub_diag.
    + split; [lia |]. by replace (k - i)%nat with (S (k - S i)) by lia.
  - destruct (Hskip (u64 (total + e_length e)) reserved) as (t' & r' & b' & bs' & E & H1 & H2 & H3).
    exists t', r', b', bs'. split; [done | split; [done | split; [|done]]].
    intros e0 [->|?]%elem_of_cons ?; [lia | auto].
  - destruct (Hskip total (u64 (reserved + e_length e))) as (t' & r' & b' & bs' & E & H1 & H2 & H3).
    exists t', r', b', bs'. split; [done | split; [done | split; [|done]]].
    intros e0 [->|?]%elem_of_cons ?; [done | auto].
Qed.

Lemma reserve_regions_wf U i entries li p :
  wf (phys_mem p) ->
  exists p', reserve_regions U i entries li p = Some p' /\
    wf (phys_mem p') /\ same_region (phys_mem p) (phys_mem p').
Proof.
  revert i p; induction entries as [|e rest IH]; intros i p W; cbn [reserve_regions].
  { by exists p. }
  destruct (Nat.eqb i li); [by apply IH|]. destruct (_ =? U); [by apply IH|].
  destruct (_ || _); [|by apply IH].
  destruct (reserve_region_wf (e_base e) (e_length e) p W) as (ok & p1 & -> & W1 & R1). cbn.
  destruct (IH (S i) p1 W1) as (p' & -> & W' & R'). exists p'. split_and!; try done. by etransitivity.
Qed.

Lemma bitmap_init_wf m st base size :
  0 < base -> 0 < size -> base + size < 0x10000000000000000 -> length st = 4096%nat ->
  exists m', bitmap_init m (Some st) base size = Some (true, m') /\ wf m' /\
    memory_base m' = base /\
    total_blocks m' = Z.min (size / BITMAP_BLOCK_SIZE) BITMAP_MAX_BLOCKS /\
    length (bitmap m') = 4096%nat /\
    forall j, 0 <= j < total_blocks m' -> used (bitmap m') j = false.
Proof.
  intros Hb Hs Hend Hlen. unfold bitmap_init. destruct (Z.eqb_spec size 0); [lia |].
  rewrite Z.gtb_ltb.
  assert ((if BITMAP_MAX_BLOCKS <? size / BITMAP_BLOCK_SIZE then BITMAP_MAX_BLOCKS
           else size / BITMAP_BLOCK_SIZE) = Z.min (size / BITMAP_BLOCK_SIZE) BITMAP_MAX_BLOCKS)
    as -> by (zcases; lia).
  assert (Ht : 0 <= Z.min (size / BITMAP_BLOCK_SIZE) BITMAP_MAX_BLOCKS <= 0x8000 /\
    Z.min (size / BITMAP_BLOCK_SIZE) BITMAP_MAX_BLOCKS * 4096 <= size).
  { unfold BITMAP_BLOCK_SIZE, BITMAP_MAX_BLOCKS. split; zlia. }
  set (total := Z.min _ _) in *. clearbody total.
  set (bs := (total + 7) / 8). assert (Hbs : 0 <= bs <= 4096) by (subst bs; zlia).
  destruct (Z.leb_spec bs (Z.of_nat (length st))); [|lia]. cbv zeta.
  set (bm := replicate _ 0 ++ drop _ st).
  assert (Hbm : length bm = 4096%nat)
    by (unfold bm; rewrite length_app, length_replicate, length_drop; lia).
  assert (Hfree : forall j, 0 <= j < total -> used bm j = false).
  { intros j Hj. unfold used, bm. rewrite lookup_app_l by (rewrite length_replicate; subst bs; zlia).
    rewrite lookup_replicate_2 by (subst bs; zlia). cbn. apply Z.bits_0. }
  eexists; split; [done |]. split_and!; cbn [memory_base total_blocks bitmap]; try done.
  split; cbn [memory_base total_blocks bitmap free_blocks bitmap_size]; try done.
  - unfold BITMAP_MAX_BLOCKS. lia.
  - lia.
  - rewrite count_free_none by (intros; apply Hfree; lia). lia.
  - unfold BITMAP_BLOCK_SIZE. lia.
Qed.

(** C3. [physical_memory_init] takes the largest usable region.  When the
    memory map has a usable region of positive length (none at address 0, none
    reaching the end of the address space) it succeeds, without leaving the
    4 KiB bitmap array, and the manager is well-formed and manages the first
    min(length / 4096, 32768) pages of a usable region of maximal length; when
    it has none it fails. *)
Theorem physical_memory_init_spec U sa entries p :
  length (bitmap (phys_mem p)) = 4096%nat ->
  (forall e, e ∈ entries -> e_type e = U ->
     0 < e_base e /\ 0 <= e_length e /\ e_base e + e_length e < 0x10000000000000000) ->
  exists ok p', physical_memory_init U sa (Some entries) p = Some (ok, p') /\
    if ok then
      wf (phys_mem p') /\
      exists region, region ∈ entries /\ e_type region = U /\ 0 < e_length region /\
        (forall e, e ∈ entries -> e_type e = U -> e_length e <= e_length region) /\
        memory_base (phys_mem p') = e_base region /\
        total_blocks (phys_mem p') =
          Z.min (e_length region / BITMAP_BLOCK_SIZE) BITMAP_MAX_BLOCKS
    else forall e, e ∈ entries -> e_type e = U -> e_length e = 0.
Proof.
  intros Hlen Hent. unfold physical_memory_init.
  destruct (scan_regions_spec U 0 entries (total_memory p) (reserved_memory p) None 0 eq_refl)
    as (t & r & best & bs & -> & _ & Hmax & Hbest). cbn [phys_mem bitmap].
  destruct best as [[k region]|].
  2: { exists false. eexists; split; [done |]. intros e He Hu. destruct Hbest as [-> _].
       specialize (Hent e He Hu). specialize (Hmax e He Hu). lia. }
  destruct Hbest as (Hu & <- & Hpos & [?|[_ Hk]]); [done |].
  rewrite Nat.sub_0_r in Hk. assert (He : region ∈ entries) by by eapply list_elem_of_lookup_2.
  destruct (Hent region He Hu) as (Hb & Hl & Hend).
  destruct (bitmap_init_wf (phys_mem p) (bitmap (phys_mem p)) (e_base region) (e_length region))
    as (m & -> & W & Hbase & Htot & _); [done.. |]. cbn.
  destruct (reserve_regions_wf U 0 entries k (set_phys m (Pmm (phys_mem p) t r (used_memory p))) W)
    as (p1 & -> & W1 & R1). cbn.
  destruct (reserve_region_wf sa BITMAP_STORAGE_SIZE p1 W1) as (ok & p2 & -> & W2 & R2). cbn.
  exists true, p2. split; [done |]. split; [done |]. exists region.
  assert (R : same_region m (phys_mem p2)) by (by etransitivity).
  destruct R as (Rb & Rt & _). split_and!; try done; congruence.
Qed.

(** [physical_reserve_region] does not reserve the region.  Its loop frees
    block [b] and then calls [bitmap_alloc_block], which takes the first free
    block of the whole region: if any block below [b] is free, then after
    "reserving" the page of [b] the block [b] is free (even if it was in use
    before), the lowest free block [s] is lost instead, and [true] is
    returned. *)
Theorem physical_reserve_region_wrong_block p b s :
  wf (phys_mem p) -> 0 <= s < b -> b < total_blocks (phys_mem p) ->
  (forall j, 0 <= j < s -> used (bitmap (phys_mem p)) j = true) ->
  used (bitmap (phys_mem p)) s = false ->
  exists p', physical_reserve_region (block_addr (phys_mem p) b) BITMAP_BLOCK_SIZE p = Some (true, p') /\
    used (bitmap (phys_mem p')) b = false /\ used (bitmap (phys_mem p')) s = true.
Proof.
  intros W Hs Hb Hlow Hfree. unfold physical_reserve_region.
  destruct (address_of_block _ b W ltac:(lia)) as (Hr & Hin & ->).
  assert (Hend : bitmap_address_to_block (phys_mem p)
    (u64 (block_addr (phys_mem p) b + BITMAP_BLOCK_SIZE - 1)) = b).
  { pose proof (wf_end _ W). pose proof (wf_base _ W). unfold bitmap_address_to_block, block_addr, BITMAP_BLOCK_SIZE in *.
    rewrite !u64_small; [zlia | lia | rewrite u64_small; lia]. }
  rewrite Hend, !Z.geb_leb. destruct (Z.leb_spec (total_blocks (phys_mem p)) b); [lia |].
  replace (b - b + 1) with 1 by lia. change (Z.to_nat 1) with 1%nat. cbn [reserve_loop].
  rewrite block_to_address by (done || lia).
  destruct (bitmap_free_block_run _ b W) as (m1 & -> & W1 & [(_ & Rt & _) U1]); [lia |]. cbn.
  destruct (bitmap_alloc_block_spec m1 W1) as ([a m2] & -> & Hspec). cbn.
  eexists; split; [done |]. cbn [phys_mem set_phys].
  assert (Hf : used (bitmap m1) s = false) by (rewrite U1, Hfree by lia; apply andb_false_r).
  destruct Hspec as [(_ & _ & Hno)|(s' & (Hs' & Hle & Hrun & Hfirst) & _ & [_ U2 _])]; cbn in *.
  { exfalso. apply (Hno s); [lia | lia |]. intros j Hj. by replace j with s by lia. }
  assert (s' = s) as ->.
  { destruct (Z.lt_total s s') as [Hlt|[|Hgt]]; [|done|].
    - exfalso. apply (Hfirst s); [lia |]. intros j Hj. by replace j with s by lia.
    - specialize (Hrun s' ltac:(lia)). rewrite U1, Hlow in Hrun by lia.
      destruct (in_range_spec s' b 1); [lia | done]. }
  rewrite !U2, !U1 by lia. split; zinr; done || lia.
Qed.

(** ** Witnesses *)

Definition demo_pmm : pmm := Pmm demo 0xa000 0 0.

(** The manager after two pages, and after two pages and then one. *)
Definition demo_pmm2 : pmm :=
  Eval vm_compute in match physical_alloc_pages 2 demo_pmm with Some (_, p) => p | None => demo_pmm end.
Definition demo_pmm3 : pmm :=
  Eval vm_compute in match physical_alloc_page demo_pmm2 with Some (_, p) => p | None => demo_pmm end.

Lemma demo_trace :
  rtc client_step (demo_pmm, []) (demo_pmm3, [(0x106000, 1); (0x103000, 2)]).
Proof.
  eapply rtc_l; [apply (client_alloc demo_pmm [] 2 0x103000 demo_pmm2); [lia | vm_compute; reflexivity | discriminate] |].
  eapply rtc_l; [apply (client_alloc_page demo_pmm2 _ 0x106000 demo_pmm3); [vm_compute; reflexivity | discriminate] |].
  apply rtc_refl.
Qed.

Lemma pmm_no_double_allocation_witness :
  rtc client_step (demo_pmm, []) (demo_pmm3, [(0x106000, 1); (0x103000, 2)]) /\
  used (bitmap (phys_mem demo_pmm3)) 4 = true.
Proof.
  split; [exact demo_trace |].
  destruct (pmm_no_double_allocation demo_pmm _ _ demo_wf ltac:(cbn; lia) demo_trace) as (_ & H & _).
  exact (proj1 (proj2 (H 4 ltac:(cbn; lia)) eq_refl)).
Defined.

Definition demo_memmap : list memmap_entry :=
  [Entry 0x1000 0x9000 0; Entry 0x100000 0xa000 0; Entry 0x10a000 0x4000 2].

Lemma physical_memory_init_spec_witness :
  exists p', physical_memory_init 0 0xffffffff80010000 (Some demo_memmap)
      (Pmm (Manager (replicate 4096 0) 0 0 0 0) 0 0 0) = Some (true, p') /\
    memory_base (phys_mem p') = 0x100000 /\ wf (phys_mem p').
Proof.
  destruct (physical_memory_init_spec 0 0xffffffff80010000 demo_memmap
      (Pmm (Manager (replicate 4096 0) 0 0 0 0) 0 0 0)) as (ok & p' & H & Hp).
  - reflexivity.
  - intros e He _. unfold demo_memmap in He. rewrite !elem_of_cons in He.
    destruct He as [->|[->|[->|He]]]; cbn; [lia.. | by apply elem_of_nil in He].
  - vm_compute in H. injection H as <- <-. eexists; split; [reflexivity |].
    split; [reflexivity | exact (proj1 Hp)].
Defined.

Lemma physical_reserve_region_wrong_block_witness :
  exists p', physical_reserve_region 0x105000 4096 demo_pmm = Some (true, p') /\
    used (bitmap (phys_mem demo_pmm)) 5 = true /\ used (bitmap (phys_mem p')) 5 = false.
Proof.
  destruct (physical_reserve_region_wrong_block demo_pmm 5 3 demo_wf) as (p' & H & H5 & _).
  - lia.
  - cbn; lia.
  - intros j Hj. assert (j = 0 \/ j = 1 \/ j = 2) as [->|[->| ->]] by lia; reflexivity.
  - reflexivity.
  - exists p'. split; [exact H | split; [reflexivity | exact H5]].
Defined.
