(* ===== verification/Heap.v ===== *)
(** * Kernel heap ([src/src/memory/memory.c], malloc to kmalloc_aligned)

    Each allocation is a run of physical pages that starts with an
    [allocation_header_t]; the headers form a doubly linked list.  [headers]
    maps the address of a header to its content and [data] is the memory of the
    user areas.  Dereferencing an address that holds no header gives [None]
    (undefined behaviour of the C code). *)

From S2P Require Import Prelude Links Memops Bitmap Pmm.

Record allocation_header := Header {
  h_size : Z; h_magic : Z; h_next : Z; h_prev : Z }.

Definition ALLOCATION_MAGIC : Z := 0xDEADBEEF.
Definition MIN_ALLOCATION_SIZE : Z := 16.
(** [sizeof(allocation_header_t)]: 8 + 4 (padded to 8) + 8 + 8. *)
Definition HEADER_SIZE : Z := 32.
Definition SIZE_MAX : Z := 0xFFFFFFFFFFFFFFFF.

(** The static variables of the file, with the memory they manage. *)
Record heap := Heap {
  allocation_list : Z;
  total_allocated : Z;
  allocation_count : Z;
  headers : gmap Z allocation_header;
  data : mem;
  h_pmm : pmm;
}.

Definition set_h_pmm (p : pmm) (h : heap) : heap :=
  Heap (allocation_list h) (total_allocated h) (allocation_count h) (headers h) (data h) p.
Definition set_data (d : mem) (h : heap) : heap :=
  Heap (allocation_list h) (total_allocated h) (allocation_count h) (headers h) d (h_pmm h).
Definition set_headers (hs : gmap Z allocation_header) (h : heap) : heap :=
  Heap (allocation_list h) (total_allocated h) (allocation_count h) hs (data h) (h_pmm h).

(** A store through a header pointer. *)
Definition update (a : Z) (f : allocation_header -> allocation_header)
    (hs : gmap Z allocation_header) : option (gmap Z allocation_header) :=
  hd ← hs !! a; Some (<[a := f hd]> hs).

Definition set_next (n : Z) (hd : allocation_header) := Header (h_size hd) (h_magic hd) n (h_prev hd).
Definition set_prev (p : Z) (hd : allocation_header) := Header (h_size hd) (h_magic hd) (h_next hd) p.
Definition set_magic (m : Z) (hd : allocation_header) := Header (h_size hd) m (h_next hd) (h_prev hd).
Definition set_size (s : Z) (hd : allocation_header) := Header s (h_magic hd) (h_next hd) (h_prev hd).

Definition pages_needed (size : Z) : Z := u64 (size + HEADER_SIZE + 4095) / 4096.

Definition malloc (size : Z) (h : heap) : option (Z * heap) :=
  if size =? 0 then Some (NULL, h) else
  let size := if size <? MIN_ALLOCATION_SIZE then MIN_ALLOCATION_SIZE else size in
  let total_size := u64 (size + HEADER_SIZE) in
  let num_pages := pages_needed total_size in
  '(pages, p) ← physical_alloc_pages num_pages (h_pmm h);
  let h := set_h_pmm p h in
  if pages =? NULL then Some (NULL, h) else
  let hs := <[pages := Header size ALLOCATION_MAGIC (allocation_list h) NULL]> (headers h) in
  hs ← (if negb (allocation_list h =? NULL) then update (allocation_list h) (set_prev pages) hs
        else Some hs);
  Some (u64 (pages + HEADER_SIZE),
        Heap pages (u64 (total_allocated h + u64 (num_pages * 4096)))
          (u64 (allocation_count h + 1)) hs (data h) (h_pmm h)).

Definition free (ptr : Z) (h : heap) : option heap :=
  if ptr =? NULL then Some h else
  let header := u64 (ptr - HEADER_SIZE) in
  hd ← headers h !! header;
  if negb (h_magic hd =? ALLOCATION_MAGIC) then Some h else
  let total_size := u64 (h_size hd + HEADER_SIZE) in
  let num_pages := pages_needed total_size in
  '(lst, hs) ← (if negb (h_prev hd =? NULL)
                then hs ← update (h_prev hd) (set_next (h_next hd)) (headers h);
                     Some (allocation_list h, hs)
                else Some (h_next hd, headers h));
  hd ← hs !! header;
  hs ← (if negb (h_next hd =? NULL) then update (h_next hd) (set_prev (h_prev hd)) hs
        else Some hs);
  hs ← update header (set_magic 0) hs;
  p ← physical_free_pages header num_pages (h_pmm h);
  let total := total_allocated h in
  let count := allocation_count h in
  Some (Heap lst
          (if total >=? u64 (num_pages * 4096) then total - u64 (num_pages * 4096) else total)
          (if count >? 0 then count - 1 else count)
          hs (data h) p).

Definition calloc (nmemb size : Z) (h : heap) : option (Z * heap) :=
  if negb (nmemb =? 0) && (size >? SIZE_MAX / nmemb) then Some (NULL, h) else
  let total_size := u64 (nmemb * size) in
  '(ptr, h) ← malloc total_size h;
  if negb (ptr =? NULL)
  then Some (ptr, set_data (snd (memset ptr 0 total_size (data h))) h)
  else Some (ptr, h).

Definition realloc (ptr size : Z) (h : heap) : option (Z * heap) :=
  if ptr =? NULL then malloc size h else
  if size =? 0 then (h ← free ptr h; Some (NULL, h)) else
  let header := u64 (ptr - HEADER_SIZE) in
  hd ← headers h !! header;
  if negb (h_magic hd =? ALLOCATION_MAGIC) then Some (NULL, h) else
  let old_size := h_size hd in
  if size <=? old_size then
    hs ← update header (set_size size) (headers h);
    Some (ptr, set_headers hs h)
  else
    '(new_ptr, h) ← malloc size h;
    if new_ptr =? NULL then Some (NULL, h) else
    let h := set_data (snd (memcpy new_ptr ptr old_size (data h))) h in
    h ← free ptr h;
    Some (new_ptr, h).

Definition kmalloc (size : Z) (h : heap) : option (Z * heap) := malloc size h.
Definition kfree (ptr : Z) (h : heap) : option heap := free ptr h.
Definition kmalloc_aligned (size alignment : Z) (h : heap) : option (Z * heap) := malloc size h.

Definition malloc_get_total_allocated (h : heap) : Z := total_allocated h.
Definition malloc_get_free_memory (h : heap) : Z := physical_get_free_memory (h_pmm h).

(** ** Invariant

    [l] lists the headers in list order.  Each has the magic number, a size,
    and owns the pages [pages_needed] gives for that size; the pages are
    exactly the allocations the page allocator has handed out since [p0]. *)

Definition links (hs : gmap Z allocation_header) (a : Z) : option (Z * Z) :=
  (fun hd => (h_prev hd, h_next hd)) <$> hs !! a.

Definition size_at (hs : gmap Z allocation_header) (a : Z) : Z :=
  default 0 (h_size <$> hs !! a).

Definition pages_at (hs : gmap Z allocation_header) (a : Z) : Z :=
  pages_needed (u64 (size_at hs a + HEADER_SIZE)).

Definition valid_header (hd : allocation_header) : Prop :=
  h_magic hd = ALLOCATION_MAGIC /\ 0 < h_size hd < 0x10000000.

Definition block_of (hs : gmap Z allocation_header) (a : Z) : Z * Z := (a, pages_at hs a).

Record heap_inv (p0 : pmm) (l : list Z) (h : heap) : Prop := {
  hi_list : exists t, dll (links (headers h)) (allocation_list h) t l;
  hi_valid : forall a, a ∈ l -> exists hd, headers h !! a = Some hd /\ valid_header hd;
  hi_pages : client_inv p0 (h_pmm h) (block_of (headers h) <$> l);
  hi_count : allocation_count h = Z.of_nat (length l);
  hi_total : total_allocated h = pages_of (block_of (headers h) <$> l) * 4096;
}.

(** ** Lemmas *)

Lemma update_some a f hs hd : hs !! a = Some hd -> update a f hs = Some (<[a := f hd]> hs).
Proof. intros H. unfold update. by rewrite H. Qed.

Lemma links_insert hs a hd b :
  links (<[a := hd]> hs) b = if b =? a then Some (h_prev hd, h_next hd) else links hs b.
Proof.
  unfold links. destruct (Z.eqb_spec b a) as [->|]; [by rewrite lookup_insert_eq |].
  by rewrite lookup_insert_ne by done.
Qed.

Lemma size_at_insert hs a hd b :
  size_at (<[a := hd]> hs) b = if b =? a then h_size hd else size_at hs b.
Proof.
  unfold size_at. destruct (Z.eqb_spec b a) as [->|]; [by rewrite lookup_insert_eq |].
  by rewrite lookup_insert_ne by done.
Qed.

Lemma size_at_lookup hs a hd : hs !! a = Some hd -> size_at hs a = h_size hd.
Proof. intros H. unfold size_at. by rewrite H. Qed.

Lemma blocks_ext hs hs' (l : list Z) :
  (forall a, a ∈ l -> size_at hs' a = size_at hs a) -> block_of hs' <$> l = block_of hs <$> l.
Proof.
  intros H. apply list_fmap_ext. intros i a Ha. unfold block_of, pages_at.
  by rewrite H by (by eapply list_elem_of_lookup_2).
Qed.

(** The page count of an allocation: enough for the header and the data. *)
Lemma pages_needed_ok size :
  0 < size < 0x10000000000000000 - 4191 ->
  pages_needed (u64 (size + HEADER_SIZE)) = (size + 4159) / 4096 /\
  0 < (size + 4159) / 4096 /\ size + HEADER_SIZE <= (size + 4159) / 4096 * BITMAP_BLOCK_SIZE.
Proof. intros H. unfold pages_needed, HEADER_SIZE, BITMAP_BLOCK_SIZE. split; word. Qed.

Lemma block_in hs (l : list Z) a : a ∈ l -> (a, pages_at hs a) ∈ block_of hs <$> l.
Proof. intros H. apply list_elem_of_fmap. by exists a. Qed.

Lemma heap_inv_lookup p0 l h a :
  heap_inv p0 l h -> a ∈ l ->
  exists hd, headers h !! a = Some hd /\ h_magic hd = ALLOCATION_MAGIC /\
    0 < h_size hd < 0x10000000 /\ size_at (headers h) a = h_size hd /\
    0 < a /\ a + HEADER_SIZE + h_size hd < 0x10000000000000000.
Proof.
  intros I Ha. destruct (hi_valid _ _ _ I a Ha) as (hd & Hl & Hm & Hs).
  pose proof (client_bounds _ _ _ _ _ (hi_pages _ _ _ I) (block_in (headers h) l a Ha)) as Hb.
  exists hd. rewrite (size_at_lookup _ _ _ Hl). unfold pages_at in Hb.
  rewrite (size_at_lookup _ _ _ Hl) in Hb.
  destruct (pages_needed_ok (h_size hd) ltac:(lia)) as (E & _ & Hr). rewrite E in Hb.
  split_and!; try done; lia.
Qed.

(** Distinct headers of the list own disjoint pages, hence disjoint areas. *)
Lemma heap_disjoint p0 l h a b :
  heap_inv p0 l h -> a ∈ l -> b ∈ l -> a <> b ->
  a + HEADER_SIZE + size_at (headers h) a <= b \/ b + HEADER_SIZE + size_at (headers h) b <= a.
Proof.
  intros I Ha Hb Hne.
  destruct (heap_inv_lookup _ _ _ _ I Ha) as (hda & _ & _ & Hsa & Ea & _).
  destruct (heap_inv_lookup _ _ _ _ I Hb) as (hdb & _ & _ & Hsb & Eb & _).
  pose proof (pages_needed_ok (size_at (headers h) a) ltac:(lia)) as (Pa & _ & Ra).
  pose proof (pages_needed_ok (size_at (headers h) b) ltac:(lia)) as (Pb & _ & Rb).
  apply list_elem_of_lookup in Ha as (i & Hi). apply list_elem_of_lookup in Hb as (j & Hj).
  assert (i <> j) as Hij by congruence.
  pose proof (client_disjoint _ _ _ i j (block_of (headers h) a) (block_of (headers h) b)
    (hi_pages _ _ _ I) Hij) as Hd.
  rewrite !list_lookup_fmap, Hi, Hj in Hd. specialize (Hd eq_refl eq_refl).
  unfold block_of, pages_at in Hd. cbn [fst snd] in Hd. rewrite Pa, Pb in Hd. lia.
Qed.

Lemma heap_nodup p0 l h : heap_inv p0 l h -> NoDup l.
Proof. intros I. destruct (hi_list _ _ _ I) as (t & D). apply D. Qed.

(** Two headers of the same allocation, up to the links. *)
Definition same_alloc (hs hs' : gmap Z allocation_header) (b : Z) : Prop :=
  exists hd hd', hs !! b = Some hd /\ hs' !! b = Some hd' /\
    h_size hd' = h_size hd /\ h_magic hd' = h_magic hd.

Lemma same_alloc_size hs hs' b : same_alloc hs hs' b -> size_at hs' b = size_at hs b.
Proof. intros (hd & hd' & H1 & H2 & H3 & _). unfold size_at. by rewrite H1, H2. Qed.

Lemma same_alloc_valid hs hs' b :
  same_alloc hs hs' b -> (exists hd, hs !! b = Some hd /\ valid_header hd) ->
  exists hd, hs' !! b = Some hd /\ valid_header hd.
Proof.
  intros (hd & hd' & H1 & H2 & H3 & H4) (hd2 & Hl2 & Hv). simplify_eq.
  exists hd'. unfold valid_header in *. by rewrite H3, H4.
Qed.

Lemma links_some hs h t l b : dll (links hs) h t l -> b ∈ l -> exists hd, hs !! b = Some hd.
Proof.
  intros D Hb. destruct (dll_in _ _ _ _ _ D Hb) as (x & Hx). unfold links in Hx.
  destruct (hs !! b); [by eexists | done].
Qed.

(** ** malloc *)

(** The list update of [malloc]. *)
Lemma push_header hs lst t l a hd0 :
  dll (links hs) lst t l -> a ∉ l -> a <> 0 -> h_next hd0 = lst -> h_prev hd0 = 0 ->
  exists hs', (if negb (lst =? NULL) then update lst (set_prev a) (<[a := hd0]> hs)
               else Some (<[a := hd0]> hs)) = Some hs' /\
    (exists t', dll (links hs') a t' (a :: l)) /\ hs' !! a = Some hd0 /\
    forall b, b ∈ l -> same_alloc hs hs' b.
Proof.
  intros D Ha Ha0 Hn Hp. destruct (Z.eqb_spec lst NULL) as [E|E]; cbn [negb].
  - assert (l = []) as -> by (destruct D as [_ Dh _ _ D0], l; [done | cbn in *; set_solver]).
    eexists. split; [done |]. rewrite lookup_insert_eq. split_and!; [|done | set_solver].
    eexists. eapply dll_push; [done.. | |set_solver]. by rewrite links_insert, Z.eqb_refl, Hp, Hn.
  - assert (lst ∈ l) as Hin by (destruct D as [_ -> _ _ _], l; [done | left]).
    assert (lst <> a) as Hne by set_solver.
    destruct (links_some _ _ _ _ _ D Hin) as (hd1 & Hl1).
    rewrite (update_some _ _ _ hd1) by (by rewrite lookup_insert_ne by done).
    eexists. split; [done |]. rewrite lookup_insert_ne, lookup_insert_eq by done.
    split_and!; [|done |].
    + eexists. eapply dll_push; [done.. | |].
      * rewrite links_insert, links_insert, Z.eqb_refl, Hp, Hn.
        by destruct (Z.eqb_spec a lst).
      * intros b Hb. rewrite !links_insert. destruct (Z.eqb_spec b lst) as [->|].
        -- unfold links. by rewrite Hl1.
        -- by destruct (Z.eqb_spec b a) as [->|].
    + intros b Hb. destruct (links_some _ _ _ _ _ D Hb) as (hd & Hl).
      assert (b <> a) by set_solver. exists hd. destruct (decide (b = lst)) as [->|].
      * rewrite lookup_insert_eq. eexists. split_and!; try done; by simplify_eq.
      * rewrite !lookup_insert_ne by done. eauto.
Qed.

(** Pages fresh from the allocator are not those of a live header. *)
Lemma fresh_page p0 p hs l a c :
  client_inv p0 p ((a, c) :: (block_of hs <$> l)) -> a ∉ l.
Proof.
  intros I (i & Hi)%list_elem_of_lookup.
  assert (((a, c) :: (block_of hs <$> l)) !! S i = Some (block_of hs a)) as Hj
    by (change ((block_of hs <$> l) !! i = Some (block_of hs a)); by rewrite list_lookup_fmap, Hi).
  pose proof (client_disjoint _ _ _ 0%nat (S i) _ _ I ltac:(done) eq_refl Hj) as Hd.
  cbn [fst snd block_of] in Hd.
  pose proof (client_bounds _ _ _ a c I ltac:(left)).
  pose proof (client_bounds _ _ _ a (pages_at hs a) I
    ltac:(right; apply block_in; by eapply list_elem_of_lookup_2)).
  unfold BITMAP_BLOCK_SIZE in *. lia.
Qed.

Lemma malloc_ok p0 l h size :
  heap_inv p0 l h -> 0 < size < 0x10000000000000000 - 4191 ->
  exists ptr h', malloc size h = Some (ptr, h') /\ data h' = data h /\
    if ptr =? NULL then heap_inv p0 l h' /\ headers h' = headers h
    else exists a, ptr = a + HEADER_SIZE /\ (a ∉ l) /\ heap_inv p0 (a :: l) h' /\
      size_at (headers h') a = Z.max size MIN_ALLOCATION_SIZE /\
      forall b, b ∈ l -> size_at (headers h') b = size_at (headers h) b.
Proof.
  intros I Hsz. unfold malloc. destruct (Z.eqb_spec size 0); [lia |].
  assert ((if size <? MIN_ALLOCATION_SIZE then MIN_ALLOCATION_SIZE else size) =
    Z.max size MIN_ALLOCATION_SIZE) as -> by (unfold MIN_ALLOCATION_SIZE; zcases; lia).
  remember (Z.max size MIN_ALLOCATION_SIZE) as sz eqn:Esz.
  destruct (pages_needed_ok sz) as (Epg & Hpg & Hroom); [unfold MIN_ALLOCATION_SIZE in *; lia |].
  destruct (physical_alloc_pages_total p0 (h_pmm h) _ ((sz + 4159) / 4096) (hi_pages _ _ _ I))
    as (a & p' & Halloc); [lia |]. rewrite Epg, Halloc. cbn [mbind option_bind].
  pose proof (client_inv_alloc _ _ _ _ _ _ (hi_pages _ _ _ I) Hpg Halloc) as I'.
  destruct (Z.eqb_spec a NULL) as [->|Ha].
  { subst p'. exists NULL, (set_h_pmm (h_pmm h) h). by destruct h. }
  pose proof (fresh_page _ _ _ _ _ _ I') as Hna.
  destruct (client_bounds _ _ _ a ((sz + 4159) / 4096) I' ltac:(left)) as (Hpos & Hc8 & Hend & _).
  destruct (hi_list _ _ _ I) as (t & D).
  destruct (push_header (headers h) (allocation_list h) t l a
    (Header sz ALLOCATION_MAGIC (allocation_list h) NULL) D Hna Ha eq_refl eq_refl)
    as (hs & Ehs & D' & La & Hsame). cbn [set_h_pmm allocation_list headers]. rewrite Ehs.
  cbn [mbind option_bind]. exists (a + HEADER_SIZE). eexists. split.
  { rewrite u64_small by (unfold HEADER_SIZE, BITMAP_BLOCK_SIZE in *; lia). done. }
  split; [done |]. destruct (Z.eqb_spec (a + HEADER_SIZE) NULL);
    [unfold HEADER_SIZE, NULL in *; lia |].
  assert (Hsizes : forall b, b ∈ l -> size_at hs b = size_at (headers h) b)
    by (intros; by apply same_alloc_size, Hsame).
  assert (Hsa : size_at hs a = sz) by (unfold size_at; by rewrite La).
  exists a. split_and!; try done; cbn.
  assert (Hblk : block_of hs <$> (a :: l) = (a, (sz + 4159) / 4096) :: (block_of (headers h) <$> l)).
  { rewrite fmap_cons, (blocks_ext (headers h) hs l Hsizes). unfold block_of at 1, pages_at.
    by rewrite Hsa, Epg. }
  pose proof (client_pages _ _ _ I') as Hlim. cbn [length pages_of snd] in Hlim.
  rewrite length_fmap in Hlim. unfold BITMAP_BLOCK_SIZE, HEADER_SIZE, MIN_ALLOCATION_SIZE in *.
  split; cbn [headers allocation_list allocation_count total_allocated h_pmm]; [done | | by rewrite Hblk | |].
  - intros b [->|Hb]%elem_of_cons; [|by eapply same_alloc_valid, (hi_valid _ _ _ I b Hb); apply Hsame].
    eexists. split; [done |]. split; [done |]. cbn. lia.
  - rewrite (hi_count _ _ _ I), u64_small by lia. cbn [length]. lia.
  - rewrite Hblk. cbn [pages_of snd set_h_pmm total_allocated]. rewrite (hi_total _ _ _ I).
    rewrite u64_small; rewrite ?u64_small; lia.
Qed.

(** ** free *)

(** A store guarded by a NULL test. *)
Lemma upd_if hs p f :
  (p <> 0 -> exists hd, hs !! p = Some hd) ->
  exists hs', (if negb (p =? NULL) then update p f hs else Some hs) = Some hs' /\
    forall b, b <> 0 -> hs' !! b = if b =? p then f <$> hs !! b else hs !! b.
Proof.
  intros H. destruct (Z.eqb_spec p NULL) as [->|Hp]; cbn [negb].
  - exists hs. split; [done |]. intros b Hb. by destruct (Z.eqb_spec b NULL).
  - destruct (H Hp) as (hd & Hl). exists (<[p := f hd]> hs). split; [by apply update_some |].
    intros b Hb. destruct (Z.eqb_spec b p) as [->|].
    + by rewrite lookup_insert_eq, Hl.
    + by rewrite lookup_insert_ne by done.
Qed.

(** The list updates of [free]. *)
Lemma unlink_header hs lst t l1 a l2 hd :
  dll (links hs) lst t (l1 ++ a :: l2) -> hs !! a = Some hd ->
  exists lst' hs1 hs2,
    (if negb (h_prev hd =? NULL)
     then hs ← update (h_prev hd) (set_next (h_next hd)) hs; Some (lst, hs)
     else Some (h_next hd, hs)) = Some (lst', hs1) /\ hs1 !! a = Some hd /\
    (if negb (h_next hd =? NULL) then update (h_next hd) (set_prev (h_prev hd)) hs1
     else Some hs1) = Some hs2 /\ hs2 !! a = Some hd /\
    (exists t', dll (links (<[a := set_magic 0 hd]> hs2)) lst' t' (l1 ++ l2)) /\
    forall b, b ∈ l1 ++ l2 -> same_alloc hs (<[a := set_magic 0 hd]> hs2) b.
Proof.
  intros D Hl. assert (Hm := dll_member _ _ _ _ _ _ D). unfold links in Hm. rewrite Hl in Hm.
  injection Hm as Hp Hn. rewrite Hp, Hn.
  destruct (proj1 (list.NoDup_app _ _) (dll_nodup _ _ _ _ D)) as (Hn1 & Hd & Hn2).
  apply list.NoDup_cons in Hn2 as [Ha2 Hn2].
  assert (H0 := dll_nonnull _ _ _ _ D).
  assert (Ha1 : a ∉ l1) by set_solver. assert (Ha0 : a <> 0) by set_solver.
  assert (Hpin : last_or 0 l1 = 0 \/ last_or 0 l1 ∈ l1)
    by (destruct l1; [by left | right; by apply last_or_elem_ne]).
  assert (Hnin : head_or 0 l2 = 0 \/ head_or 0 l2 ∈ l2)
    by (destruct l2; [by left | right; left]).
  assert (Hpa : last_or 0 l1 <> a) by (destruct Hpin; set_solver).
  assert (Hna : head_or 0 l2 <> a) by (destruct Hnin; set_solver).
  assert (Hsome : forall b, b ∈ l1 ++ l2 -> exists hdb, hs !! b = Some hdb)
    by (intros b Hb; eapply links_some; [done | set_solver]).
  destruct (upd_if hs (last_or 0 l1) (set_next (head_or 0 l2))) as (hs1 & E1 & L1).
  { intros Hne. apply Hsome. destruct Hpin; [done | set_solver]. }
  destruct (upd_if hs1 (head_or 0 l2) (set_prev (last_or 0 l1))) as (hs2 & E2 & L2).
  { intros Hne. destruct Hnin as [|Hin]; [done |].
    destruct (Hsome (head_or 0 l2)) as (hdn & Hdn); [set_solver |].
    rewrite L1, Hdn by done. destruct (head_or 0 l2 =? _); eexists; reflexivity. }
  assert (L : forall b, b ∈ l1 ++ l2 -> <[a := set_magic 0 hd]> hs2 !! b =
    if b =? head_or 0 l2 then set_prev (last_or 0 l1) <$> hs !! b
    else if b =? last_or 0 l1 then set_next (head_or 0 l2) <$> hs !! b else hs !! b).
  { intros b Hb. assert (b <> 0) by set_solver. assert (b <> a) by set_solver.
    rewrite lookup_insert_ne, L2, L1 by done.
    destruct (Z.eqb_spec b (head_or 0 l2)) as [->|]; [|done].
    destruct (Z.eqb_spec (head_or 0 l2) (last_or 0 l1)) as [E|]; [|done].
    exfalso. destruct Hnin as [|Hnin]; [congruence |]. destruct Hpin as [|Hpin]; [congruence |].
    rewrite E in Hnin. apply (Hd _ Hpin). set_solver. }
  exists (if last_or 0 l1 =? 0 then head_or 0 l2 else lst), hs1, hs2. split_and!.
  - unfold NULL in *. destruct (last_or 0 l1 =? 0); cbn [negb] in *; [by simplify_eq |]. by rewrite E1.
  - rewrite L1 by done. destruct (Z.eqb_spec a (last_or 0 l1)); congruence.
  - done.
  - rewrite L2 by done. destruct (Z.eqb_spec a (head_or 0 l2)); [congruence |].
    rewrite L1 by done. destruct (Z.eqb_spec a (last_or 0 l1)); congruence.
  - eexists. eapply dll_remove; [done | |].
    + intros b Hb. assert (b <> head_or 0 l2 \/ l2 = []).
      { destruct l2; [by right | left]. cbn. intros ->. apply (Hd _ Hb). set_solver. }
      unfold links. rewrite L by set_solver.
      destruct (Z.eqb_spec b (head_or 0 l2)) as [E|].
      * destruct H as [ | -> ]; [done |]. cbn in E. exfalso. apply H0. rewrite <- E. apply elem_of_app. by left.
      * destruct (b =? last_or 0 l1); [|done]. by destruct (hs !! b).
    + intros b Hb. unfold links. rewrite L by set_solver.
      destruct (Z.eqb_spec b (head_or 0 l2)) as [E|]; [by destruct (hs !! b)|].
      destruct (Z.eqb_spec b (last_or 0 l1)) as [E|]; [|done].
      destruct Hpin as [E0|Hpin]; exfalso; [apply H0; rewrite <- E0, <- E; apply elem_of_app; right; by right |].
      apply (Hd _ Hpin). rewrite <- E. by right.
  - intros b Hb. destruct (Hsome b Hb) as (hdb & Hdb). unfold same_alloc. rewrite L, Hdb by done.
    destruct (b =? head_or 0 l2), (b =? last_or 0 l1); cbn; eexists _, _; split_and!; done.
Qed.

Lemma free_eq h t l1 a l2 hd :
  dll (links (headers h)) (allocation_list h) t (l1 ++ a :: l2) -> headers h !! a = Some hd ->
  h_magic hd = ALLOCATION_MAGIC -> 0 < a -> a + HEADER_SIZE < 0x10000000000000000 ->
  exists lst hs,
    (exists t', dll (links hs) lst t' (l1 ++ l2)) /\
    (forall b, b ∈ l1 ++ l2 -> same_alloc (headers h) hs b) /\
    hs !! a = Some (set_magic 0 hd) /\
    forall n, n = pages_needed (u64 (h_size hd + HEADER_SIZE)) ->
    free (a + HEADER_SIZE) h =
      p ← physical_free_pages a n (h_pmm h);
      Some (Heap lst
        (if total_allocated h >=? u64 (n * 4096) then total_allocated h - u64 (n * 4096)
         else total_allocated h)
        (if allocation_count h >? 0 then allocation_count h - 1 else allocation_count h)
        hs (data h) p).
Proof.
  intros D Hl Hm Hpos Hend.
  destruct (unlink_header _ _ _ _ _ _ _ D Hl) as (lst & hs1 & hs2 & E1 & La1 & E2 & La2 & D' & Hsame).
  exists lst, (<[a := set_magic 0 hd]> hs2). rewrite lookup_insert_eq. split_and!; try done.
  intros n ->. unfold free. destruct (Z.eqb_spec (a + HEADER_SIZE) NULL);
    [unfold HEADER_SIZE, NULL in *; lia |].
  rewrite u64_small by (unfold HEADER_SIZE in *; lia).
  replace (a + HEADER_SIZE - HEADER_SIZE) with a by lia.
  rewrite Hl. cbn [mbind option_bind]. rewrite Hm.
  change (negb (ALLOCATION_MAGIC =? ALLOCATION_MAGIC)) with false.
  cbv beta iota zeta. rewrite E1. cbn [mbind option_bind]. rewrite La1. cbn [mbind option_bind].
  rewrite E2. cbn [mbind option_bind]. by rewrite (update_some _ _ _ _ La2).
Qed.

Lemma free_ok p0 l1 a l2 h :
  heap_inv p0 (l1 ++ a :: l2) h ->
  exists h', free (a + HEADER_SIZE) h = Some h' /\ heap_inv p0 (l1 ++ l2) h' /\
    data h' = data h /\
    (exists hd, headers h' !! a = Some hd /\ h_magic hd = 0) /\
    forall b, b ∈ l1 ++ l2 -> size_at (headers h') b = size_at (headers h) b.
Proof.
  intros I. assert (Ha : a ∈ l1 ++ a :: l2) by set_solver.
  destruct (heap_inv_lookup _ _ _ _ I Ha) as (hd & Hl & Hm & Hs & Hsa & Hpos & Hend).
  destruct (hi_list _ _ _ I) as (t & D).
  destruct (pages_needed_ok (h_size hd) ltac:(lia)) as (Epg & Hpg & Hroom).
  pose proof (hi_pages _ _ _ I) as I0. rewrite fmap_app, fmap_cons in I0.
  unfold block_of at 2, pages_at in I0. rewrite Hsa, Epg in I0.
  destruct (physical_free_pages_total _ _ _ _ _ _ I0) as (p' & Hfree).
  pose proof (client_inv_free _ _ _ _ _ _ _ I0 Hfree) as I'.
  destruct (free_eq h t l1 a l2 hd D Hl Hm Hpos ltac:(lia)) as (lst & hs & D' & Hsame & La & E).
  rewrite (E _ (eq_sym Epg)), Hfree. cbn [mbind option_bind]. eexists. split; [done |].
  assert (Hsizes : forall b, b ∈ l1 ++ l2 ->
    size_at hs b = size_at (headers h) b)
    by (intros; by apply same_alloc_size, Hsame).
  split; [|split; [done | split; [|done]]].
  2: { by exists (set_magic 0 hd). }
  assert (Hblk := blocks_ext (headers h) _ (l1 ++ l2) Hsizes).
  pose proof (client_pages _ _ _ I0) as Hlim. pose proof (hi_total _ _ _ I) as Htot.
  rewrite fmap_app, fmap_cons in Htot. unfold block_of at 2, pages_at in Htot. rewrite Hsa, Epg in Htot.
  rewrite pages_of_app in Htot, Hlim. cbn [pages_of snd] in Htot, Hlim.
  pose proof (pages_nonneg _ _ (ci_runs _ _ _ I')) as Hnn. rewrite pages_of_app in Hnn.
  pose proof (hi_count _ _ _ I) as Hcnt. rewrite length_app in Hcnt. cbn [length] in Hcnt.
  split; cbn [headers allocation_list allocation_count total_allocated h_pmm]; [done | | | |].
  - intros b Hb. eapply same_alloc_valid; [by apply Hsame |]. apply (hi_valid _ _ _ I). set_solver.
  - by rewrite Hblk, fmap_app.
  - rewrite length_app, Z.gtb_ltb. zcases; lia.
  - rewrite Hblk, fmap_app, pages_of_app, Htot. rewrite Z.geb_leb, !u64_small by lia. zcases; lia.
Qed.

(** ** calloc and realloc *)

Lemma heap_inv_set_data p0 l h d : heap_inv p0 l h -> heap_inv p0 l (set_data d h).
Proof. intros []. by split. Qed.

(** Growing [realloc]: allocation, copy and release. *)
Lemma realloc_grow_ok p0 l1 a l2 h size :
  heap_inv p0 (l1 ++ a :: l2) h ->
  size_at (headers h) a < size < 0x10000000000000000 - 4191 ->
  exists q h', realloc (a + HEADER_SIZE) size h = Some (q, h') /\
    if q =? NULL then heap_inv p0 (l1 ++ a :: l2) h' /\ data h' = data h /\ headers h' = headers h
    else exists b, q = b + HEADER_SIZE /\ heap_inv p0 (b :: l1 ++ l2) h' /\
      size_at (headers h') b = Z.max size MIN_ALLOCATION_SIZE /\
      (forall c, c ∈ l1 ++ l2 -> size_at (headers h') c = size_at (headers h) c) /\
      forall x, data h' x = if in_range x q (size_at (headers h) a)
                            then data h (a + HEADER_SIZE + (x - q)) else data h x.
Proof.
  intros I Hsz. assert (Ha : a ∈ l1 ++ a :: l2) by set_solver.
  destruct (heap_inv_lookup _ _ _ _ I Ha) as (hd & Hl & Hm & Hs & Hsa & Hpos & Hend).
  destruct (malloc_ok _ _ _ size I) as (q & h1 & E1 & D1 & H1); [lia |].
  unfold realloc. destruct (Z.eqb_spec (a + HEADER_SIZE) NULL);
    [unfold HEADER_SIZE, NULL in *; lia |].
  destruct (Z.eqb_spec size 0); [lia |].
  rewrite u64_small by (unfold HEADER_SIZE in *; lia).
  replace (a + HEADER_SIZE - HEADER_SIZE) with a by lia.
  rewrite Hl. cbn [mbind option_bind]. rewrite Hm. change (negb (ALLOCATION_MAGIC =? ALLOCATION_MAGIC)) with false.
  cbv beta iota zeta. destruct (Z.leb_spec size (h_size hd)); [lia |].
  rewrite E1. cbn [mbind option_bind]. destruct (Z.eqb_spec q NULL) as [->|Hq].
  { destruct H1 as [I1 Hh1]. by exists NULL, h1. }
  destruct H1 as (b & -> & Hb & I1 & Hsb & Hsizes).
  apply (heap_inv_set_data _ _ _ (snd (memcpy (b + HEADER_SIZE) (a + HEADER_SIZE) (h_size hd) (data h1))))
    in I1 as I2. change (b :: l1 ++ a :: l2) with ((b :: l1) ++ a :: l2) in I2.
  destruct (free_ok _ _ _ _ _ I2) as (h3 & E3 & I3 & D3 & _ & Hsizes3). rewrite E3.
  cbn [mbind option_bind]. exists (b + HEADER_SIZE), h3. split; [done |].
  destruct (Z.eqb_spec (b + HEADER_SIZE) NULL); [done |]. exists b. split_and!; try done.
  - rewrite Hsizes3 by (left). done.
  - intros c Hc. rewrite Hsizes3 by (right; exact Hc). cbn. apply Hsizes. set_solver.
  - intros x. rewrite D3. cbn [set_data data]. rewrite memcpy_spec, D1, Hsa; [done | lia |].
    assert (a <> b) as Hab by (intros ->; done).
    assert (b ∈ b :: l1 ++ a :: l2) as Hbi by left.
    assert (a ∈ b :: l1 ++ a :: l2) as Hai by (right; done).
    pose proof (heap_disjoint _ _ _ b a I1 Hbi Hai ltac:(done)) as Hd.
    rewrite (Hsizes a Ha), Hsa in Hd. unfold HEADER_SIZE in *. lia.
Qed.

Lemma calloc_ok p0 l h nmemb size :
  heap_inv p0 l h -> 0 < nmemb -> 0 < size -> nmemb * size < 0x10000000000000000 - 4191 ->
  exists ptr h', calloc nmemb size h = Some (ptr, h') /\
    if ptr =? NULL then heap_inv p0 l h' /\ headers h' = headers h /\ data h' = data h
    else exists a, ptr = a + HEADER_SIZE /\ (a ∉ l) /\ heap_inv p0 (a :: l) h' /\
      size_at (headers h') a = Z.max (nmemb * size) MIN_ALLOCATION_SIZE /\
      (forall b, b ∈ l -> size_at (headers h') b = size_at (headers h) b) /\
      forall x, data h' x = if in_range x ptr (nmemb * size) then 0 else data h x.
Proof.
  intros I Hn Hs Hlim.
  destruct (malloc_ok _ _ _ (nmemb * size) I) as (q & h1 & E1 & D1 & H1); [lia |].
  unfold calloc. destruct (Z.eqb_spec nmemb 0); [lia |]. cbn [negb andb].
  rewrite Z.gtb_ltb. destruct (Z.ltb_spec (SIZE_MAX / nmemb) size) as [Hgt|_].
  { exfalso. apply Z.div_lt_upper_bound in Hgt || idtac.
    assert (SIZE_MAX < nmemb * (SIZE_MAX / nmemb + 1)) by (apply Z.mul_succ_div_gt; lia).
    unfold SIZE_MAX in *. nia. }
  rewrite u64_small by nia. rewrite E1. cbn [mbind option_bind].
  exists q. destruct (Z.eqb_spec q NULL) as [->|Hq]; cbn [negb].
  - exists h1. split; [done |]. tauto.
  - destruct H1 as (b & -> & Hb & I1 & Hsb & Hsizes). eexists. split; [done |].
    exists b. split_and!; try done; [by apply heap_inv_set_data |].
    intros x. cbn [set_data data]. rewrite memset_spec by nia. by rewrite D1.
Qed.

(** [calloc] returns NULL when the product overflows [size_t]. *)
Lemma calloc_overflow nmemb size h :
  0 < nmemb -> SIZE_MAX < nmemb * size -> calloc nmemb size h = Some (NULL, h).
Proof.
  intros Hn Hov. unfold calloc. destruct (Z.eqb_spec nmemb 0); [lia |]. cbn [negb andb].
  rewrite Z.gtb_ltb. destruct (Z.ltb_spec (SIZE_MAX / nmemb) size) as [|Hle]; [done |].
  pose proof (Z.mul_div_le SIZE_MAX nmemb Hn). nia.
Qed.

(** Freeing twice is freeing once: the header has lost its magic number. *)
Lemma double_free p0 l1 a l2 h :
  heap_inv p0 (l1 ++ a :: l2) h ->
  exists h', free (a + HEADER_SIZE) h = Some h' /\ free (a + HEADER_SIZE) h' = Some h'.
Proof.
  intros I. assert (Ha : a ∈ l1 ++ a :: l2) by set_solver.
  destruct (heap_inv_lookup _ _ _ _ I Ha) as (hd0 & _ & _ & Hs0 & _ & Hpos & Hend).
  destruct (free_ok _ _ _ _ _ I) as (h' & E & _ & _ & (hd & Hl & Hm) & _).
  exists h'. split; [done |]. unfold free.
  destruct (Z.eqb_spec (a + HEADER_SIZE) NULL); [done |].
  rewrite u64_small by (unfold HEADER_SIZE in *; lia).
  replace (a + HEADER_SIZE - HEADER_SIZE) with a by lia. rewrite Hl. cbn [mbind option_bind].
  by rewrite Hm.
Qed.

(** ** Clients of the heap

    The state is the heap and the live blocks of the client: pointer and
    requested size.  A client calls the four functions, and writes inside the
    areas it holds.  [realloc] is called to grow a block. *)

Definition size_ok (size : Z) : Prop := 0 < size < 0x10000000000000000 - 4191.
Definition area (r : Z * Z) (x : Z) : bool := in_range x (fst r) (snd r).

Inductive heap_step : heap * list (Z * Z) -> heap * list (Z * Z) -> Prop :=
  | step_malloc h live size ptr h' :
      size_ok size -> malloc size h = Some (ptr, h') ->
      heap_step (h, live) (h', if ptr =? NULL then live else (ptr, size) :: live)
  | step_calloc h live nmemb size ptr h' :
      0 < nmemb -> 0 < size -> size_ok (nmemb * size) -> calloc nmemb size h = Some (ptr, h') ->
      heap_step (h, live) (h', if ptr =? NULL then live else (ptr, nmemb * size) :: live)
  | step_free h l1 ptr size l2 h' :
      free ptr h = Some h' -> heap_step (h, l1 ++ (ptr, size) :: l2) (h', l1 ++ l2)
  | step_realloc h l1 ptr old l2 size q h' :
      Z.max old MIN_ALLOCATION_SIZE < size -> size_ok size -> realloc ptr size h = Some (q, h') ->
      heap_step (h, l1 ++ (ptr, old) :: l2)
        (h', if q =? NULL then l1 ++ (ptr, old) :: l2 else (q, size) :: l1 ++ l2)
  | step_write h live r d :
      r ∈ live -> (forall x, area r x = false -> d x = data h x) ->
      heap_step (h, live) (set_data d h, live).

(** A live block of the client is the user area of a header of the list. *)
Definition owns (hs : gmap Z allocation_header) (a : Z) (r : Z * Z) : Prop :=
  fst r = a + HEADER_SIZE /\ 0 < snd r /\ size_at hs a = Z.max (snd r) MIN_ALLOCATION_SIZE.

Definition client_heap (p0 : pmm) (c : heap * list (Z * Z)) : Prop :=
  exists l, heap_inv p0 l (fst c) /\ Forall2 (owns (headers (fst c))) l (snd c).

Lemma owns_ext hs hs' l live :
  (forall a, a ∈ l -> size_at hs' a = size_at hs a) ->
  Forall2 (owns hs) l live -> Forall2 (owns hs') l live.
Proof.
  intros He Hf. induction Hf as [|a r l live (H1 & H2 & H3) _ IH]; constructor.
  - split_and!; try done. rewrite He by left. done.
  - apply IH. intros b Hb. apply He. by right.
Qed.

Lemma owns_split hs l l1 r l2 :
  Forall2 (owns hs) l (l1 ++ r :: l2) ->
  exists k1 a k2, l = k1 ++ a :: k2 /\ owns hs a r /\ Forall2 (owns hs) (k1 ++ k2) (l1 ++ l2).
Proof.
  intros (k1 & k2' & H1 & H2 & ->)%Forall2_app_inv_r.
  apply Forall2_cons_inv_r in H2 as (a & k2 & Ha & H2 & ->).
  exists k1, a, k2. split_and!; try done. by apply Forall2_app.
Qed.

Lemma client_heap_step p0 c c' : heap_step c c' -> client_heap p0 c -> client_heap p0 c'.
Proof.
  destruct 1 as [h live size ptr h' Hs E|h live n size ptr h' Hn Hs Hns E|h l1 ptr size l2 h' E
    |h l1 ptr old l2 size q h' Hlt Hs E|h live r d Hr Hd]; intros (l & I & Hf); cbn [fst snd] in *.
  - destruct (malloc_ok _ _ _ size I Hs) as (ptr' & h'' & E' & D & H). rewrite E' in E. injection E as <- <-.
    destruct (Z.eqb_spec ptr' NULL) as [->|].
    { destruct H as [I' Hh]. exists l. cbn. by rewrite Hh. }
    destruct H as (a & -> & Ha & I' & Hsa & Hsz). exists (a :: l). split; [done |].
    constructor; [split_and!; cbn; [done | by destruct Hs | done] | by eapply owns_ext].
  - destruct (calloc_ok _ _ _ n size I Hn Hs ltac:(by destruct Hns)) as (ptr' & h'' & E' & H). rewrite E' in E. injection E as <- <-.
    destruct (Z.eqb_spec ptr' NULL) as [->|].
    { destruct H as (I' & Hh & _). exists l. cbn. by rewrite Hh. }
    destruct H as (a & -> & Ha & I' & Hsa & Hsz & _). exists (a :: l). split; [done |].
    constructor; [split_and!; cbn; [done | by destruct Hns | done] | by eapply owns_ext].
  - apply owns_split in Hf as (k1 & a & k2 & -> & (Ep & Hp & Hsz) & Hf). cbn in Ep. subst ptr.
    destruct (free_ok _ _ _ _ _ I) as (h'' & E' & I' & D & _ & Hsizes). rewrite E' in E. injection E as <-.
    exists (k1 ++ k2). split; [done |]. by eapply owns_ext.
  - assert (Hf0 := Hf). apply owns_split in Hf as (k1 & a & k2 & -> & (Ep & Hp & Hsz) & Hf).
    cbn in Ep, Hsz. subst ptr.
    destruct (realloc_grow_ok _ _ _ _ _ size I) as (q' & h'' & E' & H);
      [unfold size_ok in *; lia |]. rewrite E' in E. injection E as <- <-.
    destruct (Z.eqb_spec q' NULL) as [->|].
    { destruct H as (I' & _ & Hh). exists (k1 ++ a :: k2). cbn. by rewrite Hh. }
    destruct H as (b & -> & I' & Hsb & Hsizes & _). exists (b :: k1 ++ k2). split; [done |].
    constructor; [split_and!; cbn; [done | by destruct Hs | done] | by eapply owns_ext].
  - exists l. split; [by apply heap_inv_set_data | done].
Qed.

(** A reachable client state is one the invariant describes. *)
Lemma client_heap_reachable p0 hs d c :
  wf (phys_mem p0) -> 0 <= used_memory p0 < 0x1000000000000 ->
  rtc heap_step (Heap NULL 0 0 hs d p0, []) c -> client_heap p0 c.
Proof.
  intros W Hu Hr. refine (rtc_invariant heap_step (client_heap p0) _ _ _ Hr _).
  - intros c1 c2. apply client_heap_step.
  - exists []. split; [|constructor]. split; cbn; [| set_solver | by apply client_inv_init | done | done].
    exists 0. apply dll_nil.
Qed.

Lemma owns_lookup hs l live i r :
  Forall2 (owns hs) l live -> live !! i = Some r -> exists a, l !! i = Some a /\ owns hs a r.
Proof. intros Hf Hi. destruct (Forall2_lookup_r _ _ _ _ _ Hf Hi) as (a & ? & ?). eauto. Qed.


(** [realloc] to a larger size moves the block: it returns NULL and changes
    neither the list nor the data when the pages cannot be found, and otherwise
    the heap holds a new block with the old content, the old block being freed;
    the other blocks keep their sizes and every other byte its value. *)
Theorem realloc_grow_spec p0 l1 a l2 h size :
  heap_inv p0 (l1 ++ a :: l2) h ->
  size_at (headers h) a < size < 0x10000000000000000 - 4191 ->
  exists q h', realloc (a + HEADER_SIZE) size h = Some (q, h') /\
    if q =? NULL then heap_inv p0 (l1 ++ a :: l2) h' /\ data h' = data h /\ headers h' = headers h
    else exists b, q = b + HEADER_SIZE /\ heap_inv p0 (b :: l1 ++ l2) h' /\
      size_at (headers h') b = Z.max size MIN_ALLOCATION_SIZE /\
      (forall c, c ∈ l1 ++ l2 -> size_at (headers h') c = size_at (headers h) c) /\
      forall x, data h' x = if in_range x q (size_at (headers h) a)
                            then data h (a + HEADER_SIZE + (x - q)) else data h x.
Proof. apply realloc_grow_ok. Qed.

(** [calloc] returns NULL without any effect when the product overflows
    [size_t]; otherwise, unless the pages cannot be found, a fresh block whose
    [nmemb * size] bytes are zero, every other byte of memory and every other
    block being unchanged. *)
Theorem calloc_spec p0 l h nmemb size :
  heap_inv p0 l h -> 0 < nmemb -> 0 < size ->
  (SIZE_MAX < nmemb * size -> calloc nmemb size h = Some (NULL, h)) /\
  (nmemb * size < 0x10000000000000000 - 4191 ->
   exists ptr h', calloc nmemb size h = Some (ptr, h') /\
    if ptr =? NULL then heap_inv p0 l h' /\ headers h' = headers h /\ data h' = data h
    else exists a, ptr = a + HEADER_SIZE /\ (a ∉ l) /\ heap_inv p0 (a :: l) h' /\
      size_at (headers h') a = Z.max (nmemb * size) MIN_ALLOCATION_SIZE /\
      (forall b, b ∈ l -> size_at (headers h') b = size_at (headers h) b) /\
      forall x, data h' x = if in_range x ptr (nmemb * size) then 0 else data h x).
Proof.
  intros I Hn Hs. split; [by apply calloc_overflow |]. intros Hlim. by apply calloc_ok.
Qed.

(** A size near [SIZE_MAX] wraps around: for the 32 largest sizes [malloc]
    takes a single page and returns it as a block of the requested size. *)
Theorem malloc_size_overflow h size a p' :
  0x10000000000000000 - HEADER_SIZE <= size <= SIZE_MAX ->
  allocation_list h = NULL -> physical_alloc_pages 1 (h_pmm h) = Some (a, p') -> a <> NULL ->
  exists h', malloc size h = Some (u64 (a + HEADER_SIZE), h') /\ h_pmm h' = p' /\
    size_at (headers h') a = size.
Proof.
  intros Hs Hl Ha Hne. unfold malloc.
  assert (pages_needed (u64 (size + HEADER_SIZE)) = 1) as Hp
    by (unfold pages_needed, HEADER_SIZE, SIZE_MAX in *; word).
  destruct (Z.eqb_spec size 0); [unfold HEADER_SIZE in *; lia |].
  destruct (Z.ltb_spec size MIN_ALLOCATION_SIZE); [unfold HEADER_SIZE, MIN_ALLOCATION_SIZE in *; lia |].
  rewrite Hp, Ha. cbn [mbind option_bind]. destruct (Z.eqb_spec a NULL); [done |].
  cbn [set_h_pmm allocation_list]. rewrite Hl. cbn. eexists. split; [done |]. split; [done |].
  cbn. by rewrite size_at_insert, Z.eqb_refl.
Qed.

(** Shrinking with [realloc] leaks pages: the header keeps the new size
    only, so a later [free] clears the pages that size needs and the rest of the
    run stays marked in use, though no header of the list owns it. *)
Theorem realloc_shrink_leaks p0 l1 a l2 h size :
  heap_inv p0 (l1 ++ a :: l2) h -> 0 < size <= size_at (headers h) a ->
  exists h1 h2 s, realloc (a + HEADER_SIZE) size h = Some (a + HEADER_SIZE, h1) /\
    free (a + HEADER_SIZE) h1 = Some h2 /\ a = block_addr (phys_mem p0) s /\
    forall j, s <= j < s + (size_at (headers h) a + 4159) / 4096 ->
      used (bitmap (phys_mem (h_pmm h))) j = true /\
      used (bitmap (phys_mem (h_pmm h2))) j = (s + (size + 4159) / 4096 <=? j).
Proof.
  intros I Hsz. assert (Ha : a ∈ l1 ++ a :: l2) by set_solver.
  destruct (heap_inv_lookup _ _ _ _ I Ha) as (hd & Hl & Hm & Hs & Hsa & Hpos & Hend).
  destruct (hi_list _ _ _ I) as (t & D). rewrite Hsa in *.
  destruct (pages_needed_ok (h_size hd) ltac:(lia)) as (Epg & Hpg & _).
  destruct (pages_needed_ok size ltac:(lia)) as (Epg' & Hpg' & _).
  pose proof (hi_pages _ _ _ I) as I0. rewrite fmap_app, fmap_cons in I0.
  unfold block_of at 2, pages_at in I0. rewrite Hsa, Epg in I0.
  destruct (live_run _ _ _ _ _ _ I0) as (s & Es & Es0 & Hc & Hs0 & Hle & Ht & Hin & _).
  assert (Hc' : (size + 4159) / 4096 <= (h_size hd + 4159) / 4096) by (apply Z.div_le_mono; lia).
  destruct (bitmap_free_blocks_run (phys_mem (h_pmm h)) s ((size + 4159) / 4096) (ci_wf _ _ _ I0))
    as (m' & Hfree & _ & [_ U]); [lia.. |].
  set (h1 := set_headers (<[a := set_size size hd]> (headers h)) h).
  assert (D1 : dll (links (headers h1)) (allocation_list h1) t (l1 ++ a :: l2)).
  { eapply dll_ext; [|exact D]. intros b _. cbn [h1 set_headers headers]. rewrite links_insert.
    destruct (Z.eqb_spec b a) as [->|]; [|done]. unfold links. by rewrite Hl. }
  destruct (free_eq h1 t l1 a l2 (set_size size hd) D1) as (lst & hs & _ & _ & _ & E);
    [by apply lookup_insert_eq | done | done | lia |].
  exists h1. assert (exists p', physical_free_pages a ((size + 4159) / 4096) (h_pmm h) = Some p' /\
    phys_mem p' = m') as (p' & Hf & Hp').
  { unfold physical_free_pages. rewrite Hin, Es, Hfree. cbn [mbind option_bind].
    destruct (_ >=? _); by eexists. }
  eexists. exists s. split_and!.
  - unfold realloc. destruct (Z.eqb_spec (a + HEADER_SIZE) NULL);
      [unfold HEADER_SIZE, NULL in *; lia |].
    destruct (Z.eqb_spec size 0); [lia |]. rewrite u64_small by (unfold HEADER_SIZE in *; lia).
    replace (a + HEADER_SIZE - HEADER_SIZE) with a by lia. rewrite Hl. cbn [mbind option_bind].
    rewrite Hm. change (negb (ALLOCATION_MAGIC =? ALLOCATION_MAGIC)) with false.
    cbv beta iota zeta. destruct (Z.leb_spec size (h_size hd)); [|lia].
    by rewrite (update_some _ _ _ hd).
  - rewrite (E _ (eq_sym Epg')). cbn [h1 set_headers h_pmm]. rewrite Hf. done.
  - done.
  - intros j Hj. cbn [h_pmm]. rewrite Hp', U by lia.
    pose proof (ci_used _ _ _ I0 j ltac:(lia)) as Hu.
    pose proof (owners_lookup ((block_of (headers h) <$> l1) ++ (a, (h_size hd + 4159) / 4096)
      :: (block_of (headers h) <$> l2)) (length l1) (a, (h_size hd + 4159) / 4096)
      (block_addr (phys_mem p0) j)) as Ho.
    rewrite list_lookup_middle in Ho by (by rewrite length_fmap). specialize (Ho eq_refl).
    cbn [fst snd] in Ho. rewrite in_range_true in Ho.
    assert (used (bitmap (phys_mem (h_pmm h))) j = true) as Hj1.
    { destruct (used (bitmap (phys_mem (h_pmm h))) j); [done |].
      pose proof (b2z_range (used (bitmap (phys_mem p0)) j)). cbn [Z.b2z] in Hu.
      unfold block_addr, BITMAP_BLOCK_SIZE in *. lia. }
    split; [done |]. rewrite Hj1, andb_true_r.
    destruct (in_range_spec j s ((size + 4159) / 4096)), (Z.leb_spec (s + (size + 4159) / 4096) j);
      cbn; done || lia.
Qed.

(** ** Concrete instances *)

Definition demo_heap : heap := Heap NULL 0 0 ∅ (fun _ => 0) demo_pmm.

Definition demo_trace : option (heap * heap * heap * heap) :=
  '(_, h1) ← malloc 100 demo_heap;
  '(_, h2) ← malloc 5000 h1;
  '(_, h3) ← realloc 0x103020 200 h2;
  h4 ← free 0x106020 h3;
  Some (h1, h2, h3, h4).
Definition demo_states := Eval vm_compute in default (demo_heap, demo_heap, demo_heap, demo_heap) demo_trace.
Definition demo_heap1 : heap := Eval cbv in fst (fst (fst demo_states)).
Definition demo_heap2 : heap := Eval cbv in snd (fst (fst demo_states)).
Definition demo_heap3 : heap := Eval cbv in snd (fst demo_states).
Definition demo_heap4 : heap := Eval cbv in snd demo_states.

Definition demo_heap_big : heap :=
  Eval vm_compute in match malloc 5000 demo_heap with Some (_, h) => h | None => demo_heap end.

Lemma demo_malloc_inv size a h :
  size_ok size -> malloc size demo_heap = Some (a + HEADER_SIZE, h) ->
  (a + HEADER_SIZE =? NULL) = false -> heap_inv demo_pmm [a] h.
Proof.
  intros Hs E' Hn. destruct (malloc_ok demo_pmm [] demo_heap size) as (ptr & h' & E & _ & H); [|done|].
  - split; cbn; [exists 0; apply dll_nil | set_solver | | done | done].
    apply client_inv_init; [exact demo_wf | cbn; lia].
  - rewrite E' in E. injection E as <- <-. rewrite Hn in H. destruct H as (b & Eb & _ & H & _).
    by replace a with b by lia.
Qed.

Lemma demo_heap_inv : heap_inv demo_pmm [0x103000] demo_heap1.
Proof. apply (demo_malloc_inv 100); [unfold size_ok; lia | vm_compute; reflexivity | done]. Qed.
Lemma demo_heap_big_inv : heap_inv demo_pmm [0x103000] demo_heap_big.
Proof. apply (demo_malloc_inv 5000); [unfold size_ok; lia | vm_compute; reflexivity | done]. Qed.


Lemma realloc_grow_spec_witness :
  exists q h', realloc 0x103020 200 demo_heap1 = Some (q, h').
Proof.
  destruct (realloc_grow_spec demo_pmm [] 0x103000 [] demo_heap1 200 demo_heap_inv
    ltac:(vm_compute; split; reflexivity)) as (q & h' & E & _).
  exists q, h'. exact E.
Defined.

Lemma calloc_spec_witness :
  calloc 0x100000000 0x100000000 demo_heap1 = Some (NULL, demo_heap1) /\
  exists ptr h', calloc 3 8 demo_heap1 = Some (ptr, h').
Proof.
  split.
  - apply (calloc_spec demo_pmm [0x103000] demo_heap1 0x100000000 0x100000000 demo_heap_inv);
      vm_compute; reflexivity.
  - destruct (proj2 (calloc_spec demo_pmm [0x103000] demo_heap1 3 8 demo_heap_inv
      ltac:(lia) ltac:(lia)) ltac:(lia)) as (ptr & h' & E & _). exists ptr, h'. exact E.
Defined.

Lemma malloc_size_overflow_witness :
  exists h', malloc SIZE_MAX demo_heap = Some (0x103020, h') /\ size_at (headers h') 0x103000 = SIZE_MAX.
Proof.
  destruct (physical_alloc_pages 1 demo_pmm) as [[a p']|] eqn:E; [|vm_compute in E; discriminate E].
  assert (a = 0x103000) as -> by (vm_compute in E; congruence).
  destruct (malloc_size_overflow demo_heap SIZE_MAX 0x103000 p'
    ltac:(vm_compute; split; intros H; discriminate H) eq_refl E ltac:(discriminate))
    as (h' & H1 & _ & H2). exists h'. split; [exact H1 | exact H2].
Defined.

(** The block of 5000 bytes has two pages, 0x103000 and 0x104000; shrunk to 50
    bytes then freed, it leaves block 4 in use. *)
Lemma realloc_shrink_leaks_witness :
  exists h1 h2, realloc 0x103020 50 demo_heap_big = Some (0x103020, h1) /\
    free 0x103020 h1 = Some h2 /\ used (bitmap (phys_mem (h_pmm h2))) 4 = true.
Proof.
  destruct (realloc_shrink_leaks demo_pmm [] 0x103000 [] demo_heap_big 50 demo_heap_big_inv
    ltac:(vm_compute; split; [reflexivity | intros H; discriminate H]))
    as (h1 & h2 & s & E1 & E2 & E3 & H).
  assert (s = 3) as -> by (unfold block_addr, BITMAP_BLOCK_SIZE in E3; cbn in E3; lia).
  exists h1, h2. split; [exact E1 |]. split; [exact E2 |].
  rewrite (proj2 (H 4 ltac:(split; vm_compute; [discriminate | reflexivity]))). reflexivity.
Defined.
