(* ===== verification/Thread.v ===== *)
(** * Threads ([src/src/sched/thread.c], [thread.h])

    A [thread_t] is a record; the store maps the address of a thread to its
    record, and a dereference of an address with no thread is [None].
    [stack_words] is the memory of the kernel stacks, one 64-bit word per
    address.  The offset of the direct map ([hhdm_offset] of [vmm.c]) and the
    address of [thread_entry_wrapper] ([switch.s]) are parameters. *)

From stdpp Require Import strings.
From S2P Require Import Prelude Bitmap Pmm.
#[local] Open Scope Z_scope.

Inductive thread_state :=
  | THREAD_STATE_CREATED | THREAD_STATE_READY | THREAD_STATE_RUNNING
  | THREAD_STATE_BLOCKED | THREAD_STATE_SLEEPING | THREAD_STATE_TERMINATED.

#[export] Instance thread_state_eq_dec : EqDecision thread_state.
Proof. solve_decision. Defined.

Definition PRIORITY_REALTIME : Z := 0.
Definition PRIORITY_HIGH : Z := 1.
Definition PRIORITY_NORMAL : Z := 3.
Definition PRIORITY_LOW : Z := 5.
Definition PRIORITY_IDLE : Z := 6.
Definition PRIORITY_LEVELS : Z := 7.
Definition TIME_SLICE_BASE_MS : Z := 10.
Definition KERNEL_STACK_SIZE : Z := 8192.
Definition CPU_HISTORY_SAMPLES : Z := 8.
Definition PRIORITY_BOOST_THRESHOLD : Z := 30.
Definition PRIORITY_DEMOTE_THRESHOLD : Z := 80.
Definition MAX_THREADS : Z := 256.

Record thread := Thread {
  tid : Z;
  state : thread_state;
  kernel_stack_base : Z;
  kernel_stack_size : Z;
  rsp : Z;
  name : list Z;
  entry : Z;
  arg : Z;
  priority : Z;
  base_priority : Z;
  time_slice : Z;
  time_slice_length : Z;
  total_ticks : Z;
  cpu_usage_history : list Z;
  history_index : Z;
  avg_cpu_usage : Z;
  slice_start_ticks : Z;
  ticks_used_this_slice : Z;
  wake_time : Z;
  next : Z;
  prev : Z;
  exit_code : Z;
}.

(** Stores to the fields. *)
Definition set_state (v : thread_state) (th : thread) : thread := Thread (tid th) v
  (kernel_stack_base th) (kernel_stack_size th) (rsp th) (name th) (entry th) (arg th) (priority th)
  (base_priority th) (time_slice th) (time_slice_length th) (total_ticks th) (cpu_usage_history th)
  (history_index th) (avg_cpu_usage th) (slice_start_ticks th) (ticks_used_this_slice th) (wake_time
  th) (next th) (prev th) (exit_code th).
Definition set_kernel_stack_base (v : Z) (th : thread) : thread := Thread (tid th) (state th) v
  (kernel_stack_size th) (rsp th) (name th) (entry th) (arg th) (priority th) (base_priority th)
  (time_slice th) (time_slice_length th) (total_ticks th) (cpu_usage_history th) (history_index th)
  (avg_cpu_usage th) (slice_start_ticks th) (ticks_used_this_slice th) (wake_time th) (next th)
  (prev th) (exit_code th).
Definition set_kernel_stack_size (v : Z) (th : thread) : thread := Thread (tid th) (state th)
  (kernel_stack_base th) v (rsp th) (name th) (entry th) (arg th) (priority th) (base_priority th)
  (time_slice th) (time_slice_length th) (total_ticks th) (cpu_usage_history th) (history_index th)
  (avg_cpu_usage th) (slice_start_ticks th) (ticks_used_this_slice th) (wake_time th) (next th)
  (prev th) (exit_code th).
Definition set_rsp (v : Z) (th : thread) : thread := Thread (tid th) (state th) (kernel_stack_base
  th) (kernel_stack_size th) v (name th) (entry th) (arg th) (priority th) (base_priority th)
  (time_slice th) (time_slice_length th) (total_ticks th) (cpu_usage_history th) (history_index th)
  (avg_cpu_usage th) (slice_start_ticks th) (ticks_used_this_slice th) (wake_time th) (next th)
  (prev th) (exit_code th).
Definition set_name (v : list Z) (th : thread) : thread := Thread (tid th) (state th)
  (kernel_stack_base th) (kernel_stack_size th) (rsp th) v (entry th) (arg th) (priority th)
  (base_priority th) (time_slice th) (time_slice_length th) (total_ticks th) (cpu_usage_history th)
  (history_index th) (avg_cpu_usage th) (slice_start_ticks th) (ticks_used_this_slice th) (wake_time
  th) (next th) (prev th) (exit_code th).
Definition set_entry (v : Z) (th : thread) : thread := Thread (tid th) (state th) (kernel_stack_base
  th) (kernel_stack_size th) (rsp th) (name th) v (arg th) (priority th) (base_priority th)
  (time_slice th) (time_slice_length th) (total_ticks th) (cpu_usage_history th) (history_index th)
  (avg_cpu_usage th) (slice_start_ticks th) (ticks_used_this_slice th) (wake_time th) (next th)
  (prev th) (exit_code th).
Definition set_arg (v : Z) (th : thread) : thread := Thread (tid th) (state th) (kernel_stack_base
  th) (kernel_stack_size th) (rsp th) (name th) (entry th) v (priority th) (base_priority th)
  (time_slice th) (time_slice_length th) (total_ticks th) (cpu_usage_history th) (history_index th)
  (avg_cpu_usage th) (slice_start_ticks th) (ticks_used_this_slice th) (wake_time th) (next th)
  (prev th) (exit_code th).
Definition set_tid (v : Z) (th : thread) : thread := Thread v (state th) (kernel_stack_base th)
  (kernel_stack_size th) (rsp th) (name th) (entry th) (arg th) (priority th) (base_priority th)
  (time_slice th) (time_slice_length th) (total_ticks th) (cpu_usage_history th) (history_index th)
  (avg_cpu_usage th) (slice_start_ticks th) (ticks_used_this_slice th) (wake_time th) (next th)
  (prev th) (exit_code th).
Definition set_priority (v : Z) (th : thread) : thread := Thread (tid th) (state th)
  (kernel_stack_base th) (kernel_stack_size th) (rsp th) (name th) (entry th) (arg th) v
  (base_priority th) (time_slice th) (time_slice_length th) (total_ticks th) (cpu_usage_history th)
  (history_index th) (avg_cpu_usage th) (slice_start_ticks th) (ticks_used_this_slice th) (wake_time
  th) (next th) (prev th) (exit_code th).
Definition set_base_priority (v : Z) (th : thread) : thread := Thread (tid th) (state th)
  (kernel_stack_base th) (kernel_stack_size th) (rsp th) (name th) (entry th) (arg th) (priority th)
  v (time_slice th) (time_slice_length th) (total_ticks th) (cpu_usage_history th) (history_index
  th) (avg_cpu_usage th) (slice_start_ticks th) (ticks_used_this_slice th) (wake_time th) (next th)
  (prev th) (exit_code th).
Definition set_time_slice (v : Z) (th : thread) : thread := Thread (tid th) (state th)
  (kernel_stack_base th) (kernel_stack_size th) (rsp th) (name th) (entry th) (arg th) (priority th)
  (base_priority th) v (time_slice_length th) (total_ticks th) (cpu_usage_history th) (history_index
  th) (avg_cpu_usage th) (slice_start_ticks th) (ticks_used_this_slice th) (wake_time th) (next th)
  (prev th) (exit_code th).
Definition set_time_slice_length (v : Z) (th : thread) : thread := Thread (tid th) (state th)
  (kernel_stack_base th) (kernel_stack_size th) (rsp th) (name th) (entry th) (arg th) (priority th)
  (base_priority th) (time_slice th) v (total_ticks th) (cpu_usage_history th) (history_index th)
  (avg_cpu_usage th) (slice_start_ticks th) (ticks_used_this_slice th) (wake_time th) (next th)
  (prev th) (exit_code th).
Definition set_total_ticks (v : Z) (th : thread) : thread := Thread (tid th) (state th)
  (kernel_stack_base th) (kernel_stack_size th) (rsp th) (name th) (entry th) (arg th) (priority th)
  (base_priority th) (time_slice th) (time_slice_length th) v (cpu_usage_history th) (history_index
  th) (avg_cpu_usage th) (slice_start_ticks th) (ticks_used_this_slice th) (wake_time th) (next th)
  (prev th) (exit_code th).
Definition set_cpu_usage_history (v : list Z) (th : thread) : thread := Thread (tid th) (state th)
  (kernel_stack_base th) (kernel_stack_size th) (rsp th) (name th) (entry th) (arg th) (priority th)
  (base_priority th) (time_slice th) (time_slice_length th) (total_ticks th) v (history_index th)
  (avg_cpu_usage th) (slice_start_ticks th) (ticks_used_this_slice th) (wake_time th) (next th)
  (prev th) (exit_code th).
Definition set_history_index (v : Z) (th : thread) : thread := Thread (tid th) (state th)
  (kernel_stack_base th) (kernel_stack_size th) (rsp th) (name th) (entry th) (arg th) (priority th)
  (base_priority th) (time_slice th) (time_slice_length th) (total_ticks th) (cpu_usage_history th)
  v (avg_cpu_usage th) (slice_start_ticks th) (ticks_used_this_slice th) (wake_time th) (next th)
  (prev th) (exit_code th).
Definition set_avg_cpu_usage (v : Z) (th : thread) : thread := Thread (tid th) (state th)
  (kernel_stack_base th) (kernel_stack_size th) (rsp th) (name th) (entry th) (arg th) (priority th)
  (base_priority th) (time_slice th) (time_slice_length th) (total_ticks th) (cpu_usage_history th)
  (history_index th) v (slice_start_ticks th) (ticks_used_this_slice th) (wake_time th) (next th)
  (prev th) (exit_code th).
Definition set_slice_start_ticks (v : Z) (th : thread) : thread := Thread (tid th) (state th)
  (kernel_stack_base th) (kernel_stack_size th) (rsp th) (name th) (entry th) (arg th) (priority th)
  (base_priority th) (time_slice th) (time_slice_length th) (total_ticks th) (cpu_usage_history th)
  (history_index th) (avg_cpu_usage th) v (ticks_used_this_slice th) (wake_time th) (next th) (prev
  th) (exit_code th).
Definition set_ticks_used_this_slice (v : Z) (th : thread) : thread := Thread (tid th) (state th)
  (kernel_stack_base th) (kernel_stack_size th) (rsp th) (name th) (entry th) (arg th) (priority th)
  (base_priority th) (time_slice th) (time_slice_length th) (total_ticks th) (cpu_usage_history th)
  (history_index th) (avg_cpu_usage th) (slice_start_ticks th) v (wake_time th) (next th) (prev th)
  (exit_code th).
Definition set_wake_time (v : Z) (th : thread) : thread := Thread (tid th) (state th)
  (kernel_stack_base th) (kernel_stack_size th) (rsp th) (name th) (entry th) (arg th) (priority th)
  (base_priority th) (time_slice th) (time_slice_length th) (total_ticks th) (cpu_usage_history th)
  (history_index th) (avg_cpu_usage th) (slice_start_ticks th) (ticks_used_this_slice th) v (next
  th) (prev th) (exit_code th).
Definition set_next (v : Z) (th : thread) : thread := Thread (tid th) (state th) (kernel_stack_base
  th) (kernel_stack_size th) (rsp th) (name th) (entry th) (arg th) (priority th) (base_priority th)
  (time_slice th) (time_slice_length th) (total_ticks th) (cpu_usage_history th) (history_index th)
  (avg_cpu_usage th) (slice_start_ticks th) (ticks_used_this_slice th) (wake_time th) v (prev th)
  (exit_code th).
Definition set_prev (v : Z) (th : thread) : thread := Thread (tid th) (state th) (kernel_stack_base
  th) (kernel_stack_size th) (rsp th) (name th) (entry th) (arg th) (priority th) (base_priority th)
  (time_slice th) (time_slice_length th) (total_ticks th) (cpu_usage_history th) (history_index th)
  (avg_cpu_usage th) (slice_start_ticks th) (ticks_used_this_slice th) (wake_time th) (next th) v
  (exit_code th).

(** The thread after [memset(thread, 0, sizeof(thread_t))]. *)
Definition zero_thread : thread :=
  Thread 0 THREAD_STATE_CREATED 0 0 0 (replicate 32 0) 0 0 0 0 0 0 0 (replicate 8 0) 0 0 0 0 0 0 0 0.

(** The thread table and what thread creation works on. *)
Record thread_sys := ThreadSys {
  threads : gmap Z thread;
  all_threads : list Z;
  next_tid : Z;
  t_pmm : pmm;
  stack_words : Z -> Z;
}.

Definition set_threads (m : gmap Z thread) (y : thread_sys) : thread_sys :=
  ThreadSys m (all_threads y) (next_tid y) (t_pmm y) (stack_words y).
Definition set_t_pmm (p : pmm) (y : thread_sys) : thread_sys :=
  ThreadSys (threads y) (all_threads y) (next_tid y) p (stack_words y).

(** A store through a thread pointer. *)
Definition upd_thread (t : Z) (f : thread -> thread) (y : thread_sys) : option thread_sys :=
  th ← threads y !! t; Some (set_threads (<[t := f th]> (threads y)) y).

Definition calculate_time_slice (priority : Z) : Z :=
  u32 (TIME_SLICE_BASE_MS + (PRIORITY_LEVELS - priority) * 3).

(** [*(--stack) = v]: the new stack pointer and memory. *)
Definition push (v : Z) (st : Z * (Z -> Z)) : Z * (Z -> Z) :=
  let stack := u64 (fst st - 8) in
  (stack, fun x => if x =? stack then u64 v else snd st x).

Section Create.
Variable hhdm_offset : Z.
Variable thread_entry_wrapper : Z.

Definition PHYS_TO_HHDM (a : Z) : Z := u64 (a + hhdm_offset).

Definition thread_init_stack (t : Z) (y : thread_sys) : option thread_sys :=
  th ← threads y !! t;
  let stack := u64 (kernel_stack_base th + kernel_stack_size th) in
  let st := push thread_entry_wrapper (stack, stack_words y) in
  let st := push 0x202 st in
  let st := push 0 st in
  let st := push 0 st in
  let st := push 0 st in
  let st := push 0 st in
  let st := push 0 st in
  let st := push 0 st in
  Some (ThreadSys (<[t := set_rsp (fst st) th]> (threads y)) (all_threads y) (next_tid y) (t_pmm y) (snd st)).

(** The loop that copies the name: at most 31 characters, [nm] being the C
    string without its terminator; then the terminator is written. *)
Fixpoint copy_name (k : nat) (i : nat) (nm dst : list Z) : list Z :=
  match k with
  | O => <[i := 0]> dst
  | S k' =>
      match nm !! i with
      | None => <[i := 0]> dst
      | Some c => copy_name k' (S i) nm (<[i := c]> dst)
      end
  end.

(** The assignments to the fields of a new thread. *)
Definition init_thread (tid0 : Z) (nm : list Z) (entry arg stack priority : Z) (th : thread) : thread :=
  let th := set_tid tid0 th in
  let th := set_name (copy_name 31 0 nm (name th)) th in
  let th := set_arg arg (set_entry entry th) in
  let th := set_kernel_stack_base stack th in
  let th := set_kernel_stack_size KERNEL_STACK_SIZE th in
  let th := set_base_priority priority (set_priority priority th) in
  let th := set_time_slice_length (calculate_time_slice priority) th in
  let th := set_time_slice (time_slice_length th) th in
  let th := set_avg_cpu_usage 50 (set_history_index 0 th) in
  set_cpu_usage_history (replicate (Z.to_nat CPU_HISTORY_SAMPLES) 50) th.

(** First free slot of the thread table. *)
Fixpoint record_thread (t : Z) (tbl : list Z) : list Z :=
  match tbl with
  | [] => []
  | a :: tbl' => if a =? NULL then t :: tbl' else a :: record_thread t tbl'
  end.

(** A page that is freed again holds no thread. *)
Definition thread_create_priority (nm : list Z) (entry arg priority : Z) (y : thread_sys)
  : option (Z * thread_sys) :=
  let priority := if priority >=? PRIORITY_LEVELS then PRIORITY_NORMAL else priority in
  '(thread_page, p) ← physical_alloc_page (t_pmm y);
  let y := set_t_pmm p y in
  if thread_page =? NULL then Some (NULL, y) else
  let thread := PHYS_TO_HHDM thread_page in
  let y := set_threads (<[thread := zero_thread]> (threads y)) y in
  '(stack_pages, p) ← physical_alloc_pages (KERNEL_STACK_SIZE / 4096) (t_pmm y);
  let y := set_t_pmm p y in
  if stack_pages =? NULL then
    p ← physical_free_page thread_page (t_pmm y);
    Some (NULL, set_threads (delete thread (threads y)) (set_t_pmm p y))
  else
    let tid := next_tid y in
    let y := ThreadSys (threads y) (all_threads y) (u32 (next_tid y + 1)) (t_pmm y) (stack_words y) in
    y ← upd_thread thread (init_thread tid nm entry arg (PHYS_TO_HHDM stack_pages) priority) y;
    y ← thread_init_stack thread y;
    let y := ThreadSys (threads y) (record_thread thread (all_threads y)) (next_tid y)
               (t_pmm y) (stack_words y) in
    y ← upd_thread thread (set_state THREAD_STATE_CREATED) y;
    Some (thread, y).

Definition thread_create (nm : list Z) (entry arg : Z) (y : thread_sys) : option (Z * thread_sys) :=
  thread_create_priority nm entry arg PRIORITY_NORMAL y.
End Create.

Definition thread_set_priority (t priority : Z) (y : thread_sys) : option thread_sys :=
  if negb (t =? NULL) && (priority <? PRIORITY_LEVELS)
  then upd_thread t (fun th => set_time_slice_length (calculate_time_slice priority)
                                 (set_priority priority th)) y
  else Some y.

Fixpoint get_by_id_loop (tid0 : Z) (m : gmap Z thread) (tbl : list Z) : option Z :=
  match tbl with
  | [] => Some NULL
  | a :: tbl' =>
      if a =? NULL then get_by_id_loop tid0 m tbl' else
      th ← m !! a;
      if tid th =? tid0 then Some a else get_by_id_loop tid0 m tbl'
  end.

Definition thread_get_by_id (tid0 : Z) (y : thread_sys) : option Z :=
  get_by_id_loop tid0 (threads y) (all_threads y).

Definition thread_init (y : thread_sys) : thread_sys :=
  ThreadSys (threads y) (replicate (Z.to_nat MAX_THREADS) NULL) (next_tid y) (t_pmm y) (stack_words y).

#[global] Arguments copy_name : simpl never.

Definition thread_state_name (s : thread_state) : string :=
  match s with
  | THREAD_STATE_CREATED => "CREATED"
  | THREAD_STATE_READY => "READY"
  | THREAD_STATE_RUNNING => "RUNNING"
  | THREAD_STATE_BLOCKED => "BLOCKED"
  | THREAD_STATE_SLEEPING => "SLEEPING"
  | THREAD_STATE_TERMINATED => "TERMINATED"
  end.

Definition thread_priority_name (priority : Z) : string :=
  if priority =? 0 then "REALTIME" else
  if priority =? 1 then "HIGH" else
  if priority =? 2 then "ABOVE_NORMAL" else
  if priority =? 3 then "NORMAL" else
  if priority =? 4 then "BELOW_NORMAL" else
  if priority =? 5 then "LOW" else
  if priority =? 6 then "IDLE" else "UNKNOWN".

(** ** Properties *)

Lemma upd_thread_some t f y th :
  threads y !! t = Some th -> upd_thread t f y = Some (set_threads (<[t := f th]> (threads y)) y).
Proof. intros H. unfold upd_thread. by rewrite H. Qed.

(** The name field after the copy: the characters that fit, then a terminator. *)
Lemma copy_name_spec k i nm dst :
  (i + k < length dst)%nat ->
  length (copy_name k i nm dst) = length dst /\
  forall j, (j < i + Nat.min k (length nm - i))%nat -> (i <= length nm)%nat ->
    copy_name k i nm dst !! j = if decide (j < i)%nat then dst !! j else nm !! j.
Proof.
  revert i dst; induction k as [|k IH]; intros i dst Hlen; unfold copy_name; fold copy_name.
  - rewrite length_insert. split; [done |]. intros j Hj Hi.
    rewrite list_lookup_insert_ne by lia. by rewrite decide_True by lia.
  - destruct (nm !! i) as [c|] eqn:Hc.
    + destruct (IH (S i) (<[i:=c]> dst)) as [H1 H2]; [rewrite length_insert; lia |].
      rewrite length_insert in H1. split; [done |]. intros j Hj Hi.
      apply lookup_lt_Some in Hc as Hlt. rewrite H2 by lia.
      destruct (decide (j < S i)%nat), (decide (j < i)%nat); try lia; try done.
      * by rewrite list_lookup_insert_ne by lia.
      * assert (j = i) as -> by lia. by rewrite list_lookup_insert_eq by lia.
    + apply lookup_ge_None in Hc. rewrite length_insert. split; [done |]. intros j Hj Hi.
      rewrite list_lookup_insert_ne by lia. by rewrite decide_True by lia.
Qed.

(** The frame that [context_switch] pops for a fresh thread. *)
Definition initial_frame (wrapper top : Z) (m : Z -> Z) (x : Z) : Z :=
  if x =? top - 8 then u64 wrapper
  else if x =? top - 16 then 0x202
  else if existsb (Z.eqb x) [top - 24; top - 32; top - 40; top - 48; top - 56; top - 64] then 0
  else m x.

Lemma thread_init_stack_ok wrapper t th y :
  threads y !! t = Some th -> 0 <= kernel_stack_base th -> 64 <= kernel_stack_size th ->
  kernel_stack_base th + kernel_stack_size th < 0x10000000000000000 ->
  let top := kernel_stack_base th + kernel_stack_size th in
  exists w, thread_init_stack wrapper t y =
      Some (ThreadSys (<[t := set_rsp (top - 64) th]> (threads y)) (all_threads y) (next_tid y)
              (t_pmm y) w) /\
    forall x, w x = initial_frame wrapper top (stack_words y) x.
Proof.
  intros Hl H0 H1 H2 top. unfold thread_init_stack. rewrite Hl. cbn [mbind option_bind push fst snd].
  fold top.
  assert (forall k, 0 <= k <= 64 -> u64 (top - k) = top - k) as E
    by (intros; rewrite u64_small; subst top; lia).
  rewrite (u64_small top) by (subst top; lia).
  rewrite (E 8) by lia. replace (top - 8 - 8) with (top - 16) by lia.
  rewrite (E 16) by lia. replace (top - 16 - 8) with (top - 24) by lia.
  rewrite (E 24) by lia. replace (top - 24 - 8) with (top - 32) by lia.
  rewrite (E 32) by lia. replace (top - 32 - 8) with (top - 40) by lia.
  rewrite (E 40) by lia. replace (top - 40 - 8) with (top - 48) by lia.
  rewrite (E 48) by lia. replace (top - 48 - 8) with (top - 56) by lia.
  rewrite (E 56) by lia. replace (top - 56 - 8) with (top - 64) by lia.
  rewrite (E 64) by lia. eexists. split; [done |].
  intros x. unfold initial_frame. cbn [existsb].
  rewrite !(u64_small 0), (u64_small 0x202) by lia. zcases; cbn [orb]; lia || done.
Qed.

(** The table after recording: the first NULL slot holds the thread. *)
Lemma record_thread_spec t tbl :
  (NULL ∈ tbl -> exists l1 l2, tbl = l1 ++ NULL :: l2 /\ NULL ∉ l1 /\
     record_thread t tbl = l1 ++ t :: l2) /\
  (NULL ∉ tbl -> record_thread t tbl = tbl).
Proof.
  induction tbl as [|a tbl [IH1 IH2]]; cbn [record_thread]; split; intros H; [set_solver | done | |].
  - destruct (Z.eqb_spec a NULL) as [->|Hne].
    + exists [], tbl. split_and!; [done | set_solver | done].
    + destruct IH1 as (l1 & l2 & -> & Hn & ->); [set_solver |].
      exists (a :: l1), l2. split_and!; [done | set_solver | done].
  - destruct (Z.eqb_spec a NULL) as [->|Hne]; [set_solver |]. rewrite IH2; [done | set_solver].
Qed.

Lemma init_thread_fields id nm e a stk pr :
  let th := init_thread id nm e a stk pr zero_thread in
  tid th = id /\ name th = copy_name 31 0 nm (replicate 32 0) /\ entry th = e /\ arg th = a /\
  priority th = pr /\ kernel_stack_base th = stk /\ kernel_stack_size th = KERNEL_STACK_SIZE /\
  base_priority th = pr /\ time_slice_length th = calculate_time_slice pr /\
  time_slice th = calculate_time_slice pr /\ avg_cpu_usage th = 50 /\ history_index th = 0 /\
  cpu_usage_history th = replicate 8 50 /\ next th = 0 /\ prev th = 0 /\
  state th = THREAD_STATE_CREATED.
Proof. repeat split. Qed.

(** What [thread_create_priority] promises of a new thread. *)
Record fresh_thread (wrapper : Z) (nm : list Z) (e a prio : Z) (t : Z) (th : thread)
    (y y' : thread_sys) : Prop := {
  ft_lookup : threads y' = <[t := th]> (threads y);
  ft_state : state th = THREAD_STATE_CREATED;
  ft_tid : tid th = next_tid y /\ next_tid y' = u32 (next_tid y + 1);
  ft_entry : entry th = e /\ arg th = a;
  ft_priority : priority th = prio /\ base_priority th = prio;
  ft_slice : time_slice_length th = calculate_time_slice prio /\
             time_slice th = calculate_time_slice prio;
  ft_usage : avg_cpu_usage th = 50 /\ history_index th = 0 /\
             cpu_usage_history th = replicate 8 50;
  ft_name : name th = copy_name 31 0 nm (replicate 32 0);
  ft_unlinked : next th = 0 /\ prev th = 0;
  ft_stack : kernel_stack_size th = KERNEL_STACK_SIZE /\
             rsp th = kernel_stack_base th + KERNEL_STACK_SIZE - 64;
  ft_frame : forall x, stack_words y' x =
    initial_frame wrapper (kernel_stack_base th + KERNEL_STACK_SIZE) (stack_words y) x;
  ft_table : all_threads y' = record_thread t (all_threads y);
}.

(** No thread is added, and those whose pages are live are left. *)
Definition kept_threads (hhdm : Z) (live : list (Z * Z)) (m m' : gmap Z thread) : Prop :=
  (forall page c, (page, c) ∈ live -> m' !! (page + hhdm) = m !! (page + hhdm)) /\
  (forall u th, m' !! u = Some th -> m !! u = Some th).

Lemma thread_create_priority_ok hhdm wrapper nm e a prio y p0 live :
  client_inv p0 (t_pmm y) live -> 0 <= prio ->
  0 <= hhdm -> hhdm + memory_base (phys_mem p0) + total_blocks (phys_mem p0) * BITMAP_BLOCK_SIZE
    < 0x10000000000000000 ->
  exists t y', thread_create_priority hhdm wrapper nm e a prio y = Some (t, y') /\
    ((t = NULL /\ client_inv p0 (t_pmm y') live /\ all_threads y' = all_threads y /\
      next_tid y' = next_tid y /\ stack_words y' = stack_words y /\ kept_threads hhdm live (threads y) (threads y')) \/
     exists th page stk, t = page + hhdm /\ client_inv p0 (t_pmm y') ((stk, 2) :: (page, 1) :: live) /\
       kernel_stack_base th = stk + hhdm /\
       fresh_thread wrapper nm e a (if prio <? PRIORITY_LEVELS then prio else PRIORITY_NORMAL) t th y y').
Proof.
  intros I Hp Hh Hlim. unfold thread_create_priority.
  assert ((if prio >=? PRIORITY_LEVELS then PRIORITY_NORMAL else prio) =
    (if prio <? PRIORITY_LEVELS then prio else PRIORITY_NORMAL)) as ->
    by (rewrite Z.geb_leb; zcases; lia || done).
  generalize (if prio <? PRIORITY_LEVELS then prio else PRIORITY_NORMAL) as pr; intros pr.
  destruct (physical_alloc_page_total _ _ _ I) as (page & p1 & E1). rewrite E1.
  cbn [mbind option_bind]. pose proof (client_inv_alloc_page _ _ _ _ _ I E1) as I1.
  destruct (Z.eqb_spec page NULL) as [->|Hpage].
  { eexists _, _. split; [done |]. left. subst p1. by destruct y. }
  assert (forall page' c, (page', c) ∈ live -> page' <> page) as Hfresh.
  { intros page' c (i & Hi)%list_elem_of_lookup ->. pose proof (client_disjoint_lt _ _ _ 0 (S i) (page, 1) (page, c) I1 ltac:(lia) eq_refl Hi) as Hd.
    destruct (client_bounds _ _ _ page c I1) as (_ & Hc & _); [right; by eapply list_elem_of_lookup_2 |]. unfold BITMAP_BLOCK_SIZE in Hd. cbn in Hd. lia. }
  change (KERNEL_STACK_SIZE / 4096) with 2. cbn [t_pmm set_t_pmm set_threads].
  destruct (physical_alloc_pages_total _ _ _ 2 I1) as (stk & p2 & E2); [lia |]. rewrite E2.
  cbn [mbind option_bind]. pose proof (client_inv_alloc _ _ _ 2 _ _ I1 ltac:(lia) E2) as I2.
  destruct (Z.eqb_spec stk NULL) as [->|Hstk].
  { subst p2. cbn [t_pmm set_t_pmm set_threads].
    destruct (physical_free_page_total _ _ [] live page I1) as (p3 & E3). rewrite E3.
    cbn [mbind option_bind]. eexists _, _. split; [done |]. left.
    split_and!; try done; [by apply (client_inv_free_page p0 p1 [] live page p3) |].
    cbn [threads set_threads set_t_pmm]. unfold PHYS_TO_HHDM. destruct (client_bounds _ _ _ page 1 I1 ltac:(left)) as (Hg0 & _ & Hg1 & Hg2 & Hg3).
    rewrite u64_small by (unfold BITMAP_BLOCK_SIZE in *; lia). split.
    - intros page' c Hp'. specialize (Hfresh page' c Hp'). rewrite delete_insert_eq. apply lookup_delete_ne. lia.
    - intros u th Hu. rewrite delete_insert_eq in Hu. by apply lookup_delete_Some in Hu as [_ Hu]. }
  destruct (client_bounds _ _ _ stk 2 I2 ltac:(left)) as (Hs0 & _ & Hs1 & Hs2 & Hs3).
  destruct (client_bounds _ _ _ page 1 I2 ltac:(right; left)) as (Hg0 & _ & Hg1 & Hg2 & Hg3).
  pose proof (wf_base _ (ci_wf0 _ _ _ I)).
  unfold PHYS_TO_HHDM. rewrite !u64_small by (unfold BITMAP_BLOCK_SIZE in *; lia).
  erewrite upd_thread_some by (cbn; apply lookup_insert_eq). cbn [mbind option_bind].
  cbn [all_threads next_tid t_pmm stack_words threads set_threads set_t_pmm].
  destruct (init_thread_fields (next_tid y) nm e a (stk + hhdm) pr)
    as (F1 & F2 & F3 & F4 & F5 & F6 & F7 & F8 & F9 & F10 & F11 & F12 & F13 & F14 & F15 & F16).
  revert F1 F2 F3 F4 F5 F6 F7 F8 F9 F10 F11 F12 F13 F14 F15 F16.
  generalize (init_thread (next_tid y) nm e a (stk + hhdm) pr zero_thread) as th0. intros.
  match goal with |- context [thread_init_stack wrapper _ ?yy] => set (y1 := yy) end.
  assert (threads y1 !! (page + hhdm) = Some th0) as Hl1 by (cbn; apply lookup_insert_eq).
  destruct (thread_init_stack_ok wrapper (page + hhdm) th0 y1 Hl1) as (w & Ew & Hw);
    rewrite ?F6, ?F7; [lia | done | unfold BITMAP_BLOCK_SIZE, KERNEL_STACK_SIZE in *; lia |].
  rewrite Ew, F6, F7. rewrite F6, F7 in Hw. cbn [mbind option_bind].
  erewrite upd_thread_some by (cbn; apply lookup_insert_eq). cbn [mbind option_bind].
  eexists _, _. split; [done |]. right.
  eexists (set_state THREAD_STATE_CREATED (set_rsp (stk + hhdm + KERNEL_STACK_SIZE - 64) th0)), page, stk.
  split; [done |]. split; [exact I2 |]. split; [exact F6 |].
  subst y1. split; cbn [threads set_threads all_threads next_tid stack_words]; auto.
  - by rewrite !insert_insert_eq.
  - cbn [kernel_stack_base set_state set_rsp]. by rewrite F6.
  - cbn [kernel_stack_base set_state set_rsp]. by rewrite F6.
Qed.

(** [thread_create_priority] either fails, returning NULL: the pages are those
    before the call, the thread table, the identifiers and the threads unchanged; or
    returns a new thread in state CREATED on a fresh page, with the requested
    priority (NORMAL when out of range), its time slice and name, an 8 KiB stack
    on two fresh pages whose top holds the frame that the first context switch
    pops ([thread_entry_wrapper], RFLAGS 0x202, six zero registers) and no other
    word changed, recorded in the first free slot of the table. *)
Theorem thread_create_priority_spec hhdm wrapper nm e a prio y p0 live :
  client_inv p0 (t_pmm y) live -> 0 <= prio ->
  0 <= hhdm -> hhdm + memory_base (phys_mem p0) + total_blocks (phys_mem p0) * BITMAP_BLOCK_SIZE
    < 0x10000000000000000 ->
  exists t y', thread_create_priority hhdm wrapper nm e a prio y = Some (t, y') /\
    ((t = NULL /\ client_inv p0 (t_pmm y') live /\ all_threads y' = all_threads y /\
      next_tid y' = next_tid y /\ stack_words y' = stack_words y /\ kept_threads hhdm live (threads y) (threads y')) \/
     exists th page stk, t = page + hhdm /\ client_inv p0 (t_pmm y') ((stk, 2) :: (page, 1) :: live) /\
       kernel_stack_base th = stk + hhdm /\
       fresh_thread wrapper nm e a (if prio <? PRIORITY_LEVELS then prio else PRIORITY_NORMAL) t th y y').
Proof. apply thread_create_priority_ok. Qed.

Definition demo_sys : thread_sys :=
  ThreadSys ∅ (replicate 256 NULL) 1 demo_pmm (fun _ => 0).

Lemma thread_create_priority_spec_witness :
  exists t y', thread_create_priority 0xffff800000000000 0xffffffff80001000 [105; 100; 108; 101] 0x1000 0 6 demo_sys
    = Some (t, y') /\ t <> NULL /\ client_inv demo_pmm demo_pmm [].
Proof.
  assert (client_inv demo_pmm demo_pmm []) as I
    by (apply client_inv_init; [exact demo_wf | cbn; lia]).
  destruct (thread_create_priority_spec 0xffff800000000000 0xffffffff80001000 [105; 100; 108; 101] 0x1000 0 6
    demo_sys demo_pmm [] I ltac:(lia) ltac:(lia) ltac:(vm_compute; reflexivity)) as (t & y' & E & H).
  exists t, y'. split; [exact E |]. split; [|exact I].
  intros ->. vm_compute in E. discriminate E.
Defined.
