(* ===== verification/Sched.v ===== *)
(** * The scheduler ([src/src/sched/scheduler.c])

    The static variables of the file are the fields of [sched]; the threads
    live in the store of [Thread].  An access through NULL or outside the
    queue arrays is [None].  [context_switch] ([switch.s]) saves the stack pointer
    of one thread and resumes the other: the state after it is the one in which
    the resumed thread runs, so an operation ends there.  The timer's tick
    counter and the TSS stack pointer are fields of the state; [cli] and [sti]
    bracket every operation, which is therefore one step. *)

From stdpp Require Import sorting.
From S2P Require Import Prelude Links Bitmap Pmm Thread.

Record scheduler_stats := Stats {
  total_switches : Z;
  threads_ready : Z;
  threads_sleeping : Z;
  threads_blocked : Z;
  priority_boosts : Z;
  priority_demotions : Z;
  idle_ticks : Z;
}.

Record sched := Sched {
  sys : thread_sys;
  ready_queue_heads : list Z;
  ready_queue_tails : list Z;
  sleep_queue : Z;
  blocked_queue : Z;
  idle_thread : Z;
  current_thread : Z;
  stats : scheduler_stats;
  scheduler_running : bool;
  need_reschedule : bool;
  ticks : Z;
  tss_rsp0 : Z;
}.

Definition set_sys v s := Sched v (ready_queue_heads s) (ready_queue_tails s) (sleep_queue s)
  (blocked_queue s) (idle_thread s) (current_thread s) (stats s) (scheduler_running s)
  (need_reschedule s) (ticks s) (tss_rsp0 s).
Definition set_heads v s := Sched (sys s) v (ready_queue_tails s) (sleep_queue s)
  (blocked_queue s) (idle_thread s) (current_thread s) (stats s) (scheduler_running s)
  (need_reschedule s) (ticks s) (tss_rsp0 s).
Definition set_tails v s := Sched (sys s) (ready_queue_heads s) v (sleep_queue s)
  (blocked_queue s) (idle_thread s) (current_thread s) (stats s) (scheduler_running s)
  (need_reschedule s) (ticks s) (tss_rsp0 s).
Definition set_sleep_queue v s := Sched (sys s) (ready_queue_heads s) (ready_queue_tails s) v
  (blocked_queue s) (idle_thread s) (current_thread s) (stats s) (scheduler_running s)
  (need_reschedule s) (ticks s) (tss_rsp0 s).
Definition set_idle_thread v s := Sched (sys s) (ready_queue_heads s) (ready_queue_tails s)
  (sleep_queue s) (blocked_queue s) v (current_thread s) (stats s) (scheduler_running s)
  (need_reschedule s) (ticks s) (tss_rsp0 s).
Definition set_current_thread v s := Sched (sys s) (ready_queue_heads s) (ready_queue_tails s)
  (sleep_queue s) (blocked_queue s) (idle_thread s) v (stats s) (scheduler_running s)
  (need_reschedule s) (ticks s) (tss_rsp0 s).
Definition set_stats v s := Sched (sys s) (ready_queue_heads s) (ready_queue_tails s)
  (sleep_queue s) (blocked_queue s) (idle_thread s) (current_thread s) v (scheduler_running s)
  (need_reschedule s) (ticks s) (tss_rsp0 s).
Definition set_running v s := Sched (sys s) (ready_queue_heads s) (ready_queue_tails s)
  (sleep_queue s) (blocked_queue s) (idle_thread s) (current_thread s) (stats s) v
  (need_reschedule s) (ticks s) (tss_rsp0 s).
Definition set_need_reschedule v s := Sched (sys s) (ready_queue_heads s) (ready_queue_tails s)
  (sleep_queue s) (blocked_queue s) (idle_thread s) (current_thread s) (stats s)
  (scheduler_running s) v (ticks s) (tss_rsp0 s).
Definition set_ticks v s := Sched (sys s) (ready_queue_heads s) (ready_queue_tails s)
  (sleep_queue s) (blocked_queue s) (idle_thread s) (current_thread s) (stats s)
  (scheduler_running s) (need_reschedule s) v (tss_rsp0 s).
Definition gdt_set_kernel_stack v s := Sched (sys s) (ready_queue_heads s) (ready_queue_tails s)
  (sleep_queue s) (blocked_queue s) (idle_thread s) (current_thread s) (stats s)
  (scheduler_running s) (need_reschedule s) (ticks s) v.

(** Updates of the counters (all [uint32_t] but [idle_ticks]). *)
Definition add_ready d t := Stats (total_switches t) (u32 (threads_ready t + d)) (threads_sleeping t)
  (threads_blocked t) (priority_boosts t) (priority_demotions t) (idle_ticks t).
Definition add_sleeping d t := Stats (total_switches t) (threads_ready t) (u32 (threads_sleeping t + d))
  (threads_blocked t) (priority_boosts t) (priority_demotions t) (idle_ticks t).
Definition add_blocked d t := Stats (total_switches t) (threads_ready t) (threads_sleeping t)
  (u32 (threads_blocked t + d)) (priority_boosts t) (priority_demotions t) (idle_ticks t).
Definition add_boosts t := Stats (total_switches t) (threads_ready t) (threads_sleeping t)
  (threads_blocked t) (u32 (priority_boosts t + 1)) (priority_demotions t) (idle_ticks t).
Definition add_demotions t := Stats (total_switches t) (threads_ready t) (threads_sleeping t)
  (threads_blocked t) (priority_boosts t) (u32 (priority_demotions t + 1)) (idle_ticks t).
Definition add_idle_ticks t := Stats (total_switches t) (threads_ready t) (threads_sleeping t)
  (threads_blocked t) (priority_boosts t) (priority_demotions t) (u64 (idle_ticks t + 1)).
Definition add_switches t := Stats (u32 (total_switches t + 1)) (threads_ready t) (threads_sleeping t)
  (threads_blocked t) (priority_boosts t) (priority_demotions t) (idle_ticks t).

Definition upd_stats (f : scheduler_stats -> scheduler_stats) (s : sched) : sched :=
  set_stats (f (stats s)) s.

(** Loads and stores through thread pointers and queue arrays. *)
Definition load (t : Z) (s : sched) : option thread := threads (sys s) !! t.
Definition store (t : Z) (f : thread -> thread) (s : sched) : option sched :=
  y ← upd_thread t f (sys s); Some (set_sys y s).
Definition head_at (p : Z) (s : sched) : option Z := ready_queue_heads s !! Z.to_nat p.
Definition tail_at (p : Z) (s : sched) : option Z := ready_queue_tails s !! Z.to_nat p.
Definition set_head (p v : Z) (s : sched) : option sched :=
  _ ← head_at p s; Some (set_heads (<[Z.to_nat p := v]> (ready_queue_heads s)) s).
Definition set_tail (p v : Z) (s : sched) : option sched :=
  _ ← tail_at p s; Some (set_tails (<[Z.to_nat p := v]> (ready_queue_tails s)) s).

(** ** Queue operations *)

Definition enqueue_ready (t : Z) (s : sched) : option sched :=
  th ← load t s;
  let p := priority th in
  s ← store t (set_next NULL) s;
  tl ← tail_at p s;
  s ← store t (set_prev tl) s;
  s ← (if negb (tl =? NULL) then store tl (set_next t) s else set_head p t s);
  s ← set_tail p t s;
  s ← store t (set_state THREAD_STATE_READY) s;
  Some (upd_stats (add_ready 1) s).

Definition dequeue_ready (p : Z) (s : sched) : option (Z * sched) :=
  t ← head_at p s;
  if t =? NULL then Some (NULL, s) else
  th ← load t s;
  s ← set_head p (next th) s;
  h ← head_at p s;
  s ← (if negb (h =? NULL) then store h (set_prev NULL) s else set_tail p NULL s);
  s ← store t (set_next NULL) s;
  s ← store t (set_prev NULL) s;
  Some (t, upd_stats (add_ready (-1)) s).

Definition remove_from_ready (t : Z) (s : sched) : option sched :=
  th ← load t s;
  let p := priority th in
  s ← (if negb (prev th =? NULL) then store (prev th) (set_next (next th)) s
       else set_head p (next th) s);
  th ← load t s;
  s ← (if negb (next th =? NULL) then store (next th) (set_prev (prev th)) s
       else set_tail p (prev th) s);
  s ← store t (set_next NULL) s;
  s ← store t (set_prev NULL) s;
  Some (upd_stats (add_ready (-1)) s).

(** The loop of [enqueue_sleep]: the last thread before the insertion point. *)
Fixpoint sleep_position (fuel : nat) (prv wake : Z) (s : sched) : option Z :=
  match fuel with
  | O => None
  | S fuel' =>
      th ← load prv s;
      if next th =? NULL then Some prv else
      nth ← load (next th) s;
      if wake_time nth <=? wake then sleep_position fuel' (next th) wake s else Some prv
  end.

Definition enqueue_sleep (t : Z) (s : sched) : option sched :=
  s ← store t (set_state THREAD_STATE_SLEEPING) s;
  s ← store t (set_next NULL) s;
  th ← load t s;
  first ← (if sleep_queue s =? NULL then Some true
           else h ← load (sleep_queue s) s; Some (wake_time th <? wake_time h));
  s ← (if (first : bool) then
         s ← store t (set_next (sleep_queue s)) s;
         Some (set_sleep_queue t s)
       else
         prv ← sleep_position (S (size (threads (sys s)))) (sleep_queue s) (wake_time th) s;
         pth ← load prv s;
         s ← store t (set_next (next pth)) s;
         store prv (set_next t) s);
  Some (upd_stats (add_sleeping 1) s).

(** ** Adaptive priority *)

(** The sum of the samples, a [uint16_t]. *)
Fixpoint sum16 (sum : Z) (l : list Z) : Z :=
  match l with [] => sum | x :: l' => sum16 (u16 (sum + x)) l' end.

Definition update_cpu_usage (t usage : Z) (s : sched) : option sched :=
  th ← load t s;
  _ ← cpu_usage_history th !! Z.to_nat (history_index th);
  s ← store t (set_cpu_usage_history (<[Z.to_nat (history_index th) := usage]> (cpu_usage_history th))) s;
  s ← store t (set_history_index (u8 ((history_index th + 1) mod CPU_HISTORY_SAMPLES))) s;
  th ← load t s;
  store t (set_avg_cpu_usage (u8 (sum16 0 (cpu_usage_history th) / CPU_HISTORY_SAMPLES))) s.

Definition adjust_priority (t : Z) (s : sched) : option sched :=
  if t =? idle_thread s then Some s else
  th ← load t s;
  if base_priority th =? PRIORITY_REALTIME then Some s else
  let old_priority := priority th in
  s ← (if avg_cpu_usage th >? PRIORITY_DEMOTE_THRESHOLD then
         if priority th <? PRIORITY_LOW then
           s ← store t (set_priority (u8 (priority th + 1))) s;
           Some (upd_stats add_demotions s)
         else Some s
       else if avg_cpu_usage th <? PRIORITY_BOOST_THRESHOLD then
         if priority th >? base_priority th then
           s ← store t (set_priority (u8 (priority th - 1))) s;
           Some (upd_stats add_boosts s)
         else Some s
       else Some s);
  th ← load t s;
  if negb (priority th =? old_priority)
  then store t (set_time_slice_length (u32 (TIME_SLICE_BASE_MS + (PRIORITY_LEVELS - priority th) * 3))) s
  else Some s.

(** ** Core *)

Fixpoint pick_loop (n : nat) (p : Z) (s : sched) : option (Z * sched) :=
  match n with
  | O => Some (idle_thread s, s)
  | S n' =>
      h ← head_at p s;
      if negb (h =? NULL) then dequeue_ready p s else pick_loop n' (p + 1) s
  end.

Definition pick_next_thread (s : sched) : option (Z * sched) :=
  pick_loop (Z.to_nat PRIORITY_LEVELS) 0 s.

Fixpoint wake_loop (fuel : nat) (now : Z) (s : sched) : option sched :=
  match fuel with
  | O => None
  | S fuel' =>
      if sleep_queue s =? NULL then Some s else
      th ← load (sleep_queue s) s;
      if wake_time th <=? now then
        let t := sleep_queue s in
        let s := set_sleep_queue (next th) s in
        s ← store t (set_next NULL) s;
        let s := upd_stats (add_sleeping (-1)) s in
        s ← enqueue_ready t s;
        wake_loop fuel' now s
      else Some s
  end.

Definition wake_expired_sleepers (s : sched) : option sched :=
  wake_loop (S (size (threads (sys s)))) (ticks s) s.

Definition switch_to (t : Z) (s : sched) : option sched :=
  if t =? current_thread s then Some s else
  let s := set_current_thread t s in
  s ← store t (set_state THREAD_STATE_RUNNING) s;
  th ← load t s;
  let s := gdt_set_kernel_stack (u64 (kernel_stack_base th + kernel_stack_size th)) s in
  s ← store t (set_time_slice (time_slice_length th)) s;
  s ← store t (set_slice_start_ticks (ticks s)) s;
  s ← store t (set_ticks_used_this_slice 0) s;
  Some (upd_stats add_switches s).

Definition schedule (s : sched) : option sched :=
  '(t, s) ← pick_next_thread s;
  if negb (t =? current_thread s) then switch_to t s else Some s.

(** ** Public operations *)

Definition zero_stats : scheduler_stats := Stats 0 0 0 0 0 0 0.

Section Init.
Variables hhdm_offset thread_entry_wrapper idle_thread_entry : Z.

Definition scheduler_init (s : sched) : option sched :=
  let s := set_heads (replicate (Z.to_nat PRIORITY_LEVELS) NULL) s in
  let s := set_tails (replicate (Z.to_nat PRIORITY_LEVELS) NULL) s in
  let s := set_sleep_queue NULL s in
  let s := Sched (sys s) (ready_queue_heads s) (ready_queue_tails s) (sleep_queue s) NULL
             (idle_thread s) (current_thread s) zero_stats (scheduler_running s)
             (need_reschedule s) (ticks s) (tss_rsp0 s) in
  let s := set_sys (thread_init (sys s)) s in
  '(t, y) ← thread_create_priority hhdm_offset thread_entry_wrapper [105; 100; 108; 101]
              idle_thread_entry NULL PRIORITY_IDLE (sys s);
  let s := set_idle_thread t (set_sys y s) in
  if t =? NULL then Some s else store t (set_state THREAD_STATE_READY) s.
End Init.

Definition scheduler_add (t : Z) (s : sched) : option sched :=
  if t =? NULL then Some s else enqueue_ready t s.

Definition scheduler_remove (t : Z) (s : sched) : option sched :=
  if t =? NULL then Some s else
  th ← load t s;
  if decide (state th = THREAD_STATE_READY) then remove_from_ready t s else Some s.

Definition scheduler_tick (s : sched) : option sched :=
  if negb (scheduler_running s) || (current_thread s =? NULL) then Some s else
  let s := if current_thread s =? idle_thread s then upd_stats add_idle_ticks s else s in
  s ← wake_expired_sleepers s;
  let c := current_thread s in
  s ← store c (fun th => set_total_ticks (u64 (total_ticks th + 1)) th) s;
  s ← store c (fun th => set_ticks_used_this_slice (u64 (ticks_used_this_slice th + 1)) th) s;
  s ← store c (fun th => if time_slice th >? 0 then set_time_slice (time_slice th - 1) th else th) s;
  th ← load c s;
  if (time_slice th =? 0) && negb (c =? idle_thread s) then
    let slice_len := time_slice_length th in
    if slice_len =? 0 then None else
    let usage := u8 (u64 (ticks_used_this_slice th * 100) / slice_len) in
    let usage := if usage >? 100 then 100 else usage in
    s ← update_cpu_usage c usage s;
    s ← adjust_priority c s;
    s ← enqueue_ready c s;
    Some (set_need_reschedule true s)
  else Some s.

Definition scheduler_yield (s : sched) : option sched :=
  if negb (scheduler_running s) || (current_thread s =? NULL) then Some s else
  let s := set_need_reschedule false s in
  let c := current_thread s in
  th ← load c s;
  s ← (if negb (c =? idle_thread s) && (time_slice_length th >? 0) then
         let usage := u8 (u64 (ticks_used_this_slice th * 100) / time_slice_length th) in
         s ← update_cpu_usage c usage s;
         adjust_priority c s
       else Some s);
  th ← load c s;
  s ← (if decide (state th <> THREAD_STATE_TERMINATED) then enqueue_ready c s else Some s);
  schedule s.

Definition scheduler_block (t : Z) (s : sched) : option sched :=
  s ← store t (set_state THREAD_STATE_BLOCKED) s;
  let s := upd_stats (add_blocked 1) s in
  if t =? current_thread s then schedule s else Some s.

Definition scheduler_unblock (t : Z) (s : sched) : option sched :=
  th ← load t s;
  if decide (state th = THREAD_STATE_BLOCKED)
  then enqueue_ready t (upd_stats (add_blocked (-1)) s)
  else Some s.

Definition scheduler_sleep (t wake : Z) (s : sched) : option sched :=
  s ← store t (set_wake_time wake) s;
  s ← enqueue_sleep t s;
  if t =? current_thread s then schedule s else Some s.

Definition scheduler_start (s : sched) : option sched :=
  let s := set_running true s in
  '(first, s) ← pick_next_thread s;
  let first := if first =? NULL then idle_thread s else first in
  s ← store first (set_state THREAD_STATE_RUNNING) s;
  let s := set_current_thread first s in
  s ← store first (set_slice_start_ticks (ticks s)) s;
  th ← load first s;
  Some (gdt_set_kernel_stack (u64 (kernel_stack_base th + kernel_stack_size th)) s).

Definition scheduler_is_running (s : sched) : bool := scheduler_running s.
Definition scheduler_get_stats (s : sched) : scheduler_stats := stats s.
Definition thread_current (s : sched) : Z := current_thread s.

(** ** The thread calls that go through the scheduler ([thread.c]) *)

Definition thread_yield (s : sched) : option sched := scheduler_yield s.

(** [thread_exit]: the thread runs no more once it has yielded. *)
Definition thread_exit (s : sched) : option sched :=
  let t := thread_current s in
  if t =? NULL then Some s else
  s ← store t (set_state THREAD_STATE_TERMINATED) s;
  thread_yield s.

Definition thread_sleep_ms (ms : Z) (s : sched) : option sched :=
  let t := thread_current s in
  if t =? NULL then Some s else scheduler_sleep t (u64 (ticks s + ms)) s.

Definition thread_get_tid (s : sched) : option Z :=
  let curr := thread_current s in
  if curr =? NULL then Some 0 else th ← load curr s; Some (tid th).

Definition thread_set_current (t : Z) (s : sched) : option sched :=
  if t =? NULL then Some s else
  th ← load t s;
  Some (gdt_set_kernel_stack (u64 (kernel_stack_base th + kernel_stack_size th)) s).

(** ** The timer interrupt ([timer.c]), up to the acknowledgement of the PIC *)

Definition timer_irq_handler (s : sched) : option sched :=
  scheduler_tick (set_ticks (u64 (ticks s + 1)) s).

Definition timer_get_ticks (s : sched) : Z := ticks s.
Definition timer_get_seconds (s : sched) : Z := u32 (ticks s / 1000).

(** ** The queues as lists

    [queues m hs ts sq Q S]: in the store [m], the ready queue of priority [p]
    is the doubly linked list [Q p], whose members are READY with priority [p];
    the sleep queue is the list [S], sorted by wake time, of SLEEPING threads. *)

Definition tlinks (m : gmap Z thread) (t : Z) : option (Z * Z) :=
  (fun th => (prev th, next th)) <$> m !! t.
Definition tnext (m : gmap Z thread) (t : Z) : option Z := next <$> m !! t.
Definition wake_at (m : gmap Z thread) (t : Z) : Z := default 0 (wake_time <$> m !! t).

Record queues (m : gmap Z thread) (hs ts : list Z) (sq : Z) (Q : Z -> list Z) (S : list Z) : Prop := {
  q_null : m !! 0 = None;
  q_ready : forall p, 0 <= p < PRIORITY_LEVELS -> exists h t,
    hs !! Z.to_nat p = Some h /\ ts !! Z.to_nat p = Some t /\ dll (tlinks m) h t (Q p);
  q_member : forall p t, t ∈ Q p -> 0 <= p < PRIORITY_LEVELS /\
    exists th, m !! t = Some th /\ state th = THREAD_STATE_READY /\ priority th = p;
  q_sleep : sll (tnext m) sq S /\ NoDup S;
  q_smember : forall t, t ∈ S -> exists th, m !! t = Some th /\ state th = THREAD_STATE_SLEEPING;
  q_sorted : StronglySorted (fun a b => wake_at m a <= wake_at m b) S;
}.

Definition upd_queue (p : Z) (l : list Z) (Q : Z -> list Z) (q : Z) : list Z :=
  if q =? p then l else Q q.

Definition queued (Q : Z -> list Z) (S : list Z) (t : Z) : Prop := t ∈ S \/ exists p, t ∈ Q p.

Lemma sorted_ext (f g : Z -> Z) l :
  (forall a, a ∈ l -> g a = f a) ->
  StronglySorted (fun a b => f a <= f b) l -> StronglySorted (fun a b => g a <= g b) l.
Proof.
  intros He. induction 1 as [|a l Hs IH Ha]; constructor.
  - apply IH. intros b Hb. apply He. by right.
  - rewrite list.Forall_forall in *. intros b Hb. rewrite !He by (by left || by right). by apply Ha.
Qed.

(** Changes to threads that are neither ready nor sleeping. *)
Lemma queues_frame m m' hs ts sq Q S :
  queues m hs ts sq Q S -> m' !! 0 = None ->
  (forall u, queued Q S u -> m' !! u = m !! u) -> queues m' hs ts sq Q S.
Proof.
  intros [Q0 Q1 Q2 [Q3 Q3'] Q4 Q5] H0 Hf. split; [done | | | | |].
  - intros p Hp. destruct (Q1 p Hp) as (h & t & H1 & H2 & D). exists h, t. split_and!; try done.
    eapply dll_ext; [|done]. intros u Hu. unfold tlinks. rewrite Hf; [done | right; by exists p].
  - intros p u Hu. rewrite Hf by (right; by exists p). by apply Q2.
  - split; [|done]. eapply sll_ext; [|done]. intros u Hu. unfold tnext. by rewrite Hf by (by left).
  - intros u Hu. rewrite Hf by (by left). by apply Q4.
  - eapply sorted_ext; [|done]. intros a Ha. unfold wake_at. by rewrite Hf by (by left).
Qed.

Lemma queue_disjoint m hs ts sq Q S p q t :
  queues m hs ts sq Q S -> t ∈ Q p -> t ∈ Q q -> p = q.
Proof.
  intros W Hp Hq. destruct (q_member _ _ _ _ _ _ W _ _ Hp) as (_ & th & H1 & _ & H2).
  destruct (q_member _ _ _ _ _ _ W _ _ Hq) as (_ & th' & H3 & _ & H4). congruence.
Qed.
Lemma queue_not_sleeping m hs ts sq Q S p t :
  queues m hs ts sq Q S -> t ∈ Q p -> t ∈ S -> False.
Proof.
  intros W Hp Hs. destruct (q_member _ _ _ _ _ _ W _ _ Hp) as (_ & th & H1 & H2 & _).
  destruct (q_smember _ _ _ _ _ _ W _ Hs) as (th' & H3 & H4). congruence.
Qed.

(** A change confined to the queue of priority [p]: what is left to show. *)
Lemma queues_update m m' hs hs' ts ts' sq Q S p h t l :
  queues m hs ts sq Q S -> m' !! 0 = None -> 0 <= p < PRIORITY_LEVELS ->
  hs' = <[Z.to_nat p := h]> hs -> ts' = <[Z.to_nat p := t]> ts ->
  (forall u, (u ∈ S \/ exists q, q <> p /\ u ∈ Q q) -> m' !! u = m !! u) ->
  dll (tlinks m') h t l ->
  (forall u, u ∈ l -> exists th, m' !! u = Some th /\ state th = THREAD_STATE_READY /\ priority th = p) ->
  queues m' hs' ts' sq (upd_queue p l Q) S.
Proof.
  intros [Q0 Q1 Q2 [Q3 Q3'] Q4 Q5] H0 Hp -> -> Hf D Hl. split; [done | | | | |].
  - intros q Hq. unfold upd_queue. destruct (Z.eqb_spec q p) as [->|Hne].
    + destruct (Q1 p Hp) as (h0 & t0 & H1%lookup_lt_Some & H2%lookup_lt_Some & _).
      exists h, t. rewrite !list_lookup_insert_eq by done. done.
    + destruct (Q1 q Hq) as (h0 & t0 & H1 & H2 & D0). exists h0, t0.
      rewrite !list_lookup_insert_ne by lia. split_and!; try done.
      eapply dll_ext; [|done]. intros u Hu. unfold tlinks. by rewrite Hf by (right; by exists q).
  - intros q u. unfold upd_queue. destruct (Z.eqb_spec q p) as [->|Hne]; intros Hu; [by auto |].
    rewrite Hf by (right; by exists q). by apply Q2.
  - split; [|done]. eapply sll_ext; [|done]. intros u Hu. unfold tnext. by rewrite Hf by (by left).
  - intros u Hu. rewrite Hf by (by left). by apply Q4.
  - eapply sorted_ext; [|done]. intros a Ha. unfold wake_at. by rewrite Hf by (by left).
Qed.

(** ** The ready queues *)

Definition with_threads (m : gmap Z thread) (s : sched) : sched :=
  set_sys (set_threads m (sys s)) s.

Lemma store_some t f s th :
  load t s = Some th -> store t f s = Some (with_threads (<[t := f th]> (threads (sys s))) s).
Proof. intros H. unfold store. rewrite (upd_thread_some _ _ _ _ H). done. Qed.

Definition squeues (s : sched) (Q : Z -> list Z) (S : list Z) : Prop :=
  queues (threads (sys s)) (ready_queue_heads s) (ready_queue_tails s) (sleep_queue s) Q S.

(** The fields an operation on the ready queues leaves alone. *)
Record same_control (s s' : sched) : Prop := {
  sc_idle : idle_thread s' = idle_thread s;
  sc_current : current_thread s' = current_thread s;
  sc_running : scheduler_running s' = scheduler_running s;
  sc_ticks : ticks s' = ticks s;
  sc_table : all_threads (sys s') = all_threads (sys s);
}.

#[export] Instance same_control_po : PreOrder same_control.
Proof. split; [by split |]. intros a b c [] []. split; congruence. Qed.

(** A thread without its links. *)
Definition unlinked (th : thread) : thread := set_prev 0 (set_next 0 th).

Definition same_threads (s s' : sched) (u : Z) : Prop :=
  unlinked <$> load u s' = unlinked <$> load u s.

(** The state after [enqueue_ready], field by field. *)
Lemma enqueue_ready_eq s t th h tl :
  load 0 s = None -> load t s = Some th ->
  head_at (priority th) s = Some h -> tail_at (priority th) s = Some tl -> tl <> t -> (tl <> 0 -> is_Some (load tl s)) ->
  exists m, enqueue_ready t s =
      Some (upd_stats (add_ready 1) (with_threads m
        (set_tails (<[Z.to_nat (priority th) := t]> (ready_queue_tails s))
        (set_heads (<[Z.to_nat (priority th) := if tl =? 0 then t else h]> (ready_queue_heads s)) s)))) /\
    forall u, m !! u =
      if u =? t then Some (set_state THREAD_STATE_READY (set_prev tl (set_next 0 th)))
      else if u =? tl then set_next t <$> load u s else load u s.
Proof.
  destruct s as [[m tbl tid0 pm sw] hs ts sq bq idl cur st run nr tk tss].
  unfold enqueue_ready, store, load, upd_thread, head_at, tail_at, set_head, set_tail.
  cbn. intros H0 Hl Hh Ht Hne Hs. rewrite Hl. cbn. rewrite Ht. cbn.
  rewrite lookup_insert_eq. cbn. rewrite insert_insert_eq.
  destruct (Z.eqb_spec tl NULL) as [->|Hn]; cbn.
  - unfold head_at. cbn. rewrite Hh. cbn. unfold tail_at. cbn. rewrite Ht. cbn.
    rewrite lookup_insert_eq. cbn. rewrite insert_insert_eq. eexists. split; [done |].
    intros u. destruct (Z.eqb_spec u t) as [->|]; [by rewrite lookup_insert_eq |].
    rewrite lookup_insert_ne by done. destruct (Z.eqb_spec u NULL) as [->|]; [by rewrite (H0 : m !! NULL = None) | done].
  - destruct (Hs Hn) as (thl & Hthl). rewrite lookup_insert_ne, Hthl by done. cbn.
    unfold tail_at. cbn. rewrite Ht. cbn. rewrite lookup_insert_ne, lookup_insert_eq by done. cbn.
    destruct (Z.eqb_spec tl 0); [done |].
    rewrite (list_insert_id hs) by done. eexists. split; [done |].
    intros u. destruct (Z.eqb_spec u t) as [->|]; [by rewrite lookup_insert_eq |].
    rewrite lookup_insert_ne by done. destruct (Z.eqb_spec u tl) as [->|].
    + by rewrite lookup_insert_eq, Hthl.
    + by rewrite !lookup_insert_ne by done.
Qed.

Lemma tail_member m h t l : dll (tlinks m) h t l -> t <> 0 -> t ∈ l.
Proof. intros [_ _ -> _ _] H. destruct l; [done |]. apply last_or_elem_ne. done. Qed.
Lemma head_member m h t l : dll (tlinks m) h t l -> h <> 0 -> h ∈ l.
Proof. intros [_ -> _ _ _] H. destruct l; [done |]. left. Qed.

Lemma enqueue_ready_ok s Q S t th :
  squeues s Q S -> load t s = Some th -> ~ queued Q S t -> 0 <= priority th < PRIORITY_LEVELS ->
  exists s', enqueue_ready t s = Some s' /\
    squeues s' (upd_queue (priority th) (Q (priority th) ++ [t]) Q) S /\ same_control s s' /\
    stats s' = add_ready 1 (stats s) /\
    (exists th', load t s' = Some th' /\ unlinked th' = unlinked (set_state THREAD_STATE_READY th)) /\
    forall u, u <> t -> same_threads s s' u.
Proof.
  intros W Hl Hnq Hp. unfold squeues in W.
  destruct (q_ready _ _ _ _ _ _ W _ Hp) as (h & tl & Eh & Et & D).
  assert (H0 := q_null _ _ _ _ _ _ W).
  assert (t <> 0) as Ht0 by (intros ->; unfold load in Hl; by rewrite H0 in Hl).
  assert (Htl : tl <> 0 -> tl ∈ Q (priority th)) by (by eapply tail_member).
  assert (tl <> t) as Hne by (intros ->; apply Hnq; right; exists (priority th); auto).
  assert (Hsome : tl <> 0 -> is_Some (load tl s)).
  { intros Hn. destruct (q_member _ _ _ _ _ _ W _ _ (Htl Hn)) as (_ & thl & H & _). by exists thl. }
  destruct (enqueue_ready_eq s t th h tl H0 Hl Eh Et Hne Hsome) as (m & E & Hm).
  eexists. split; [exact E |]. cbn.
  split; [|split; [by split | split; [done |]]].
  - unfold squeues. cbn. eapply queues_update; try done.
    + rewrite Hm. destruct (Z.eqb_spec 0 t) as [<-|]; [done |].
      destruct (Z.eqb_spec 0 tl) as [<-|]; [unfold load; by rewrite H0 | exact H0].
    + intros u Hu. rewrite Hm. destruct (Z.eqb_spec u t) as [->|].
      { destruct Hnq. destruct Hu as [|(q & _ & ?)]; [by left | right; by exists q]. }
      destruct (Z.eqb_spec u tl) as [->|]; [|done].
      destruct (decide (tl = 0)) as [->|Hn]; [unfold load; by rewrite H0 |]. exfalso.
      specialize (Htl Hn). destruct Hu as [Hu|(q & Hq & Hu)].
      * by eapply queue_not_sleeping.
      * apply Hq. by eapply queue_disjoint.
    + eapply dll_append; [exact D | | done | |].
      * intros Hin. apply Hnq. right. by exists (priority th).
      * unfold tlinks. rewrite Hm, Z.eqb_refl. done.
      * intros u Hu. unfold tlinks. rewrite Hm. destruct (Z.eqb_spec u t) as [->|].
        { destruct Hnq. right. by exists (priority th). }
        destruct (Z.eqb_spec u tl) as [->|]; [|done]. unfold load. by destruct (threads (sys s) !! tl).
    + intros u [Hu|Hu%list_elem_of_singleton]%elem_of_app.
      * rewrite Hm. destruct (q_member _ _ _ _ _ _ W _ _ Hu) as (_ & thu & Hlu & Hst & Hpr).
        destruct (Z.eqb_spec u t) as [->|]; [destruct Hnq; right; by exists (priority th) |].
        unfold load. rewrite Hlu. destruct (u =? tl); eexists; (split; [reflexivity |]); done.
      * subst u. rewrite Hm, Z.eqb_refl. eexists. split; [done |]. done.
  - split.
    + unfold load. cbn. rewrite Hm, Z.eqb_refl. eexists. split; done.
    + intros u Hu. unfold same_threads, load. cbn. rewrite Hm. unfold load.
      destruct (Z.eqb_spec u t); [done |]. destruct (u =? tl); [|done].
      by destruct (threads (sys s) !! u).
Qed.

(** The state after [dequeue_ready] of a non-empty queue. *)
Lemma dequeue_ready_eq s p t th tl :
  load 0 s = None -> load t s = Some th -> t <> 0 ->
  head_at p s = Some t -> tail_at p s = Some tl -> next th <> t ->
  (next th <> 0 -> is_Some (load (next th) s)) ->
  exists m, dequeue_ready p s =
      Some (t, upd_stats (add_ready (-1)) (with_threads m
        (set_tails (<[Z.to_nat p := if next th =? 0 then 0 else tl]> (ready_queue_tails s))
        (set_heads (<[Z.to_nat p := next th]> (ready_queue_heads s)) s)))) /\
    forall u, m !! u =
      if u =? t then Some (unlinked th)
      else if u =? next th then set_prev 0 <$> load u s else load u s.
Proof.
  destruct s as [[m tbl tid0 pm sw] hs ts sq bq idl cur st run nr tk tss].
  unfold dequeue_ready, store, load, upd_thread, head_at, tail_at, set_head, set_tail.
  cbn. intros H0 Hl Ht0 Hh Ht Hne Hs. rewrite Hh. cbn.
  destruct (Z.eqb_spec t NULL); [done |]. rewrite Hl. cbn.
  unfold head_at. cbn. rewrite Hh. cbn.
  rewrite list_lookup_insert_eq by (by eapply lookup_lt_Some). cbn.
  destruct (Z.eqb_spec (next th) NULL) as [E|Hn]; cbn.
  - unfold tail_at. cbn. rewrite Ht. cbn. rewrite Hl. cbn. rewrite lookup_insert_eq. cbn.
    rewrite E. cbn. rewrite insert_insert_eq. eexists. split; [done |].
    intros u. destruct (Z.eqb_spec u t) as [->|]; [by rewrite lookup_insert_eq |].
    rewrite lookup_insert_ne by done.
    destruct (Z.eqb_spec u NULL) as [->|]; [by rewrite (H0 : m !! NULL = None) | done].
  - destruct (Hs Hn) as (thl & Hthl). rewrite Hthl. cbn.
    rewrite lookup_insert_ne, Hl by done. cbn. rewrite lookup_insert_eq. cbn.
    rewrite insert_insert_eq. destruct (Z.eqb_spec (next th) 0); [done |].
    rewrite (list_insert_id ts) by done. eexists. split; [done |].
    intros u. destruct (Z.eqb_spec u t) as [->|]; [by rewrite lookup_insert_eq |].
    rewrite lookup_insert_ne by done. destruct (Z.eqb_spec u (next th)) as [->|].
    + by rewrite lookup_insert_eq, Hthl.
    + by rewrite !lookup_insert_ne by done.
Qed.

Lemma squeues_some s Q S t : squeues s Q S -> queued Q S t -> is_Some (load t s).
Proof.
  intros W [H|(p & H)].
  - destruct (q_smember _ _ _ _ _ _ W _ H) as (th & E & _). by exists th.
  - destruct (q_member _ _ _ _ _ _ W _ _ H) as (_ & th & E & _). by exists th.
Qed.

Lemma dequeue_ready_nil s Q S p :
  squeues s Q S -> 0 <= p < PRIORITY_LEVELS -> Q p = [] -> head_at p s = Some NULL.
Proof.
  intros W Hp E. destruct (q_ready _ _ _ _ _ _ W _ Hp) as (h & tl & Eh & Et & D).
  rewrite E in D. destruct D as [_ -> _ _ _]. done.
Qed.

Lemma dequeue_ready_ok s Q S p t l :
  squeues s Q S -> 0 <= p < PRIORITY_LEVELS -> Q p = t :: l ->
  exists s' th, head_at p s = Some t /\ t <> NULL /\ dequeue_ready p s = Some (t, s') /\
    squeues s' (upd_queue p l Q) S /\ same_control s s' /\
    stats s' = add_ready (-1) (stats s) /\ load t s = Some th /\ load t s' = Some (unlinked th) /\
    forall u, u <> t -> same_threads s s' u.
Proof.
  intros W Hp EQ. destruct (q_ready _ _ _ _ _ _ W _ Hp) as (h & tl & Eh & Et & D).
  assert (H0 := q_null _ _ _ _ _ _ W). rewrite EQ in D.
  assert (h = t) as -> by (by destruct D).
  assert (Hin : t ∈ Q p) by (rewrite EQ; left).
  destruct (q_member _ _ _ _ _ _ W _ _ Hin) as (_ & th & Hl & Hst & Hpr).
  assert (t <> 0) as Ht0 by (intros ->; congruence).
  assert (Hn : next th = head_or 0 l).
  { pose proof (dll_member _ _ _ [] t l D) as Hm. unfold tlinks in Hm. rewrite Hl in Hm. cbn in Hm. congruence. }
  assert (Hnd := dll_nodup _ _ _ _ D). apply list.NoDup_cons in Hnd as [Hnt Hnd].
  assert (Hnin : next th <> 0 -> next th ∈ l) by (intros Hx; rewrite Hn in *; destruct l; [done | left]).
  destruct (dequeue_ready_eq s p t th tl H0 Hl Ht0 Eh Et) as (m & E & Hm).
  { intros E. apply Hnt. rewrite <- E. apply Hnin. by rewrite E. }
  { intros Hx. apply (squeues_some _ Q S); [done |]. right. exists p. rewrite EQ. right. auto. }
  exists (upd_stats (add_ready (-1)) (with_threads m
        (set_tails (<[Z.to_nat p := if next th =? 0 then 0 else tl]> (ready_queue_tails s))
        (set_heads (<[Z.to_nat p := next th]> (ready_queue_heads s)) s)))), th.
  split_and!; try done.
  - unfold squeues. cbn. rewrite Hn in Hm, Hnin |- *. eapply queues_update; try done.
    + rewrite Hm. destruct (Z.eqb_spec 0 t) as [<-|]; [done |].
      destruct (Z.eqb_spec 0 (head_or 0 l)); [unfold load; by rewrite H0 | exact H0].
    + intros u Hu. rewrite Hm. destruct (Z.eqb_spec u t) as [->|].
      { exfalso. destruct Hu as [|(q & Hq & ?)]; [by eapply queue_not_sleeping |].
        apply Hq. by eapply queue_disjoint. }
      destruct (Z.eqb_spec u (head_or 0 l)) as [->|]; [|done].
      destruct (decide (head_or 0 l = 0)) as [E0|Hx]; [rewrite E0; unfold load; by rewrite H0 |].
      exfalso. specialize (Hnin Hx). assert (head_or 0 l ∈ Q p) by (rewrite EQ; by right).
      destruct Hu as [Hu|(q & Hq & Hu)]; [by eapply queue_not_sleeping |].
      apply Hq. by eapply queue_disjoint.
    + eapply dll_pop; [exact D |]. intros u Hu. unfold tlinks. rewrite Hm.
      destruct (Z.eqb_spec u t) as [->|]; [done |].
      destruct (Z.eqb_spec u (head_or 0 l)) as [->|]; [|done].
      unfold load. by destruct (threads (sys s) !! head_or 0 l).
    + intros u Hu. assert (Hu' : u ∈ Q p) by (rewrite EQ; by right).
      destruct (q_member _ _ _ _ _ _ W _ _ Hu') as (_ & thu & Hlu & Hsu & Hpu).
      rewrite Hm. destruct (Z.eqb_spec u t) as [->|]; [done |].
      unfold load. rewrite Hlu. destruct (u =? head_or 0 l); eexists; (split; [reflexivity |]); done.
  - unfold load. cbn. by rewrite Hm, Z.eqb_refl.
  - intros u Hu. unfold same_threads, load. cbn. rewrite Hm. unfold load.
    destruct (Z.eqb_spec u t); [done |]. destruct (u =? next th); [|done].
    by destruct (threads (sys s) !! u).
Qed.

(** The abstract choice: the first thread of the first non-empty queue from
    [p], [n] queues being left to look at. *)
Fixpoint first_ready (n : nat) (p : Z) (Q : Z -> list Z) : option (Z * Z * list Z) :=
  match n with
  | O => None
  | S n' => match Q p with [] => first_ready n' (p + 1) Q | t :: l => Some (p, t, l) end
  end.

Lemma first_ready_spec n p Q :
  match first_ready n p Q with
  | Some (q, t, l) => p <= q < p + Z.of_nat n /\ Q q = t :: l /\ forall r, p <= r < q -> Q r = []
  | None => forall r, p <= r < p + Z.of_nat n -> Q r = []
  end.
Proof.
  revert p; induction n as [|n IH]; intros p; cbn [first_ready]; [lia |].
  destruct (Q p) as [|t l] eqn:E.
  - specialize (IH (p + 1)). destruct (first_ready n (p + 1) Q) as [[[q t] l]|].
    + destruct IH as (H1 & H2 & H3). split_and!; [lia | lia | done |].
      intros r Hr. destruct (decide (r = p)) as [->|]; [done |]. apply H3. lia.
    + intros r Hr. destruct (decide (r = p)) as [->|]; [done |]. apply IH. lia.
  - split_and!; [lia | lia | done |]. intros; lia.
Qed.

Lemma pick_loop_ok n p s Q S :
  squeues s Q S -> 0 <= p -> p + Z.of_nat n <= PRIORITY_LEVELS ->
  match first_ready n p Q with
  | None => pick_loop n p s = Some (idle_thread s, s)
  | Some (q, t, l) => exists s' th, pick_loop n p s = Some (t, s') /\
      squeues s' (upd_queue q l Q) S /\ same_control s s' /\
      stats s' = add_ready (-1) (stats s) /\ load t s = Some th /\ load t s' = Some (unlinked th) /\
      forall u, u <> t -> same_threads s s' u
  end.
Proof.
  intros W. revert p; induction n as [|n IH]; intros p Hp Hle; cbn [first_ready pick_loop]; [done |].
  destruct (Q p) as [|t l] eqn:E.
  - rewrite (dequeue_ready_nil s Q S p W ltac:(lia) E). cbn [mbind option_bind].
    change (negb (NULL =? NULL)) with false. cbv iota. apply IH; lia.
  - destruct (dequeue_ready_ok s Q S p t l W ltac:(lia) E)
      as (s' & th & Hh & Ht & Hd & Hrest). rewrite Hh. cbn [mbind option_bind].
    destruct (Z.eqb_spec t NULL); [done |]. cbn [negb]. by exists s', th.
Qed.

(** ** The sleep queue *)

(** Insertion after the threads that wake no later. *)
Fixpoint sleep_insert (wk : Z -> Z) (t : Z) (S : list Z) : list Z :=
  match S with
  | [] => [t]
  | a :: S' => if wk t <? wk a then t :: a :: S' else a :: sleep_insert wk t S'
  end.

Lemma sleep_insert_split wk t l1 l2 :
  (forall a, a ∈ l1 -> wk a <= wk t) -> (forall a, head l2 = Some a -> wk t < wk a) ->
  sleep_insert wk t (l1 ++ l2) = l1 ++ t :: l2.
Proof.
  intros H1 H2. induction l1 as [|a l1 IH]; cbn.
  - destruct l2 as [|b l2]; cbn; [done |]. specialize (H2 b eq_refl).
    by destruct (Z.ltb_spec (wk t) (wk b)); [|lia].
  - pose proof (H1 a ltac:(left)). destruct (Z.ltb_spec (wk t) (wk a)); [lia |].
    rewrite IH; [done |]. intros b Hb. apply H1. by right.
Qed.

Lemma sleep_insert_elem wk t S a : a ∈ sleep_insert wk t S <-> a = t \/ a ∈ S.
Proof.
  induction S as [|b S IH]; cbn; [set_solver |].
  destruct (wk t <? wk b); [set_solver |]. rewrite !elem_of_cons, IH. tauto.
Qed.

Lemma sleep_insert_sorted wk t S :
  StronglySorted (fun a b => wk a <= wk b) S ->
  StronglySorted (fun a b => wk a <= wk b) (sleep_insert wk t S).
Proof.
  induction 1 as [|b S Hs IH Hb]; cbn; [repeat constructor |].
  rewrite list.Forall_forall in Hb.
  destruct (Z.ltb_spec (wk t) (wk b)); constructor.
  - constructor; [done |]. by rewrite list.Forall_forall.
  - rewrite list.Forall_forall. intros a [->|Ha]%elem_of_cons; [lia |]. specialize (Hb a Ha). lia.
  - done.
  - rewrite list.Forall_forall. intros a [->|Ha]%sleep_insert_elem; [lia | by apply Hb].
Qed.

(** The position the loop of [enqueue_sleep] finds, from [prv] with [R] behind it. *)
Lemma sleep_position_spec fuel prv wake R s thp :
  load prv s = Some thp -> sll (tnext (threads (sys s))) (next thp) R -> (length R < fuel)%nat ->
  (forall a, a ∈ R -> is_Some (load a s)) ->
  exists l1 l2, R = l1 ++ l2 /\ sleep_position fuel prv wake s = Some (last_or prv l1) /\
    (forall a, a ∈ l1 -> wake_at (threads (sys s)) a <= wake) /\
    (forall a, head l2 = Some a -> wake < wake_at (threads (sys s)) a) /\
    exists thl, load (last_or prv l1) s = Some thl /\ next thl = head_or 0 l2.
Proof.
  revert prv R thp. induction fuel as [|fuel IH]; intros prv R thp Hl Hs Hf Hd; [lia |].
  unfold sleep_position; fold sleep_position. rewrite Hl. cbn [mbind option_bind].
  destruct R as [|a R]; cbn in Hs.
  - rewrite Hs. exists [], []. split_and!; try done; [set_solver | exists thp; split; [exact Hl | exact Hs]].
  - destruct Hs as (Ena & Ha0 & n & Hn & Hs). rewrite Ena. destruct (Z.eqb_spec a NULL); [done |].
    destruct (Hd a ltac:(left)) as (tha & Hla). rewrite Hla. cbn [mbind option_bind].
    assert (wake_at (threads (sys s)) a = wake_time tha) as Hw
      by (unfold wake_at; unfold load in Hla; by rewrite Hla).
    destruct (Z.leb_spec (wake_time tha) wake).
    + assert (n = next tha) as ->.
      { unfold tnext in Hn. unfold load in Hla. rewrite Hla in Hn. cbn in Hn. congruence. }
      destruct (IH a R tha Hla Hs) as (l1 & l2 & -> & E & H1 & H2 & H3);
        [cbn in Hf; lia | intros b Hb; apply Hd; by right |].
      exists (a :: l1), l2. split_and!; try done. intros b [->|Hb]%elem_of_cons; [lia | by apply H1].
    + exists [], (a :: R). split_and!; [done | done | set_solver | | exists thp; split; [exact Hl | exact Ena]]. cbn. intros b [= <-]. lia.
Qed.

Definition squeue_frame (s s' : sched) : Prop :=
  ready_queue_heads s' = ready_queue_heads s /\ ready_queue_tails s' = ready_queue_tails s.

(** The state after [enqueue_sleep]: [t] linked after [l1]. *)
#[local] Arguments sleep_position : simpl never.

Ltac run := unfold store, upd_thread, load, head_at, tail_at, set_head, set_tail; cbn.

Lemma enqueue_sleep_eq s t th S :
  load t s = Some th -> t <> 0 -> (t ∉ S) -> NoDup S ->
  (forall a, a ∈ S -> is_Some (load a s)) ->
  sll (tnext (threads (sys s))) (sleep_queue s) S ->
  exists l1 l2 m, S = l1 ++ l2 /\
    (forall a, a ∈ l1 -> wake_at (threads (sys s)) a <= wake_time th) /\
    (forall a, head l2 = Some a -> wake_time th < wake_at (threads (sys s)) a) /\
    enqueue_sleep t s = Some (upd_stats (add_sleeping 1)
      (with_threads m (set_sleep_queue (head_or t l1) s))) /\
    forall u, m !! u =
      if u =? t then Some (set_next (head_or 0 l2) (set_next 0 (set_state THREAD_STATE_SLEEPING th)))
      else if decide (l1 <> [] /\ u = last_or 0 l1) then set_next t <$> load u s else load u s.
Proof.
  intros Hl Ht0 Hnt Hnd Hsome Hs.
  destruct s as [[m tbl tid0 pm sw] hs ts sq bq idl cur st run nr tk tss].
  unfold load in *. cbn in *. unfold enqueue_sleep, store, upd_thread, load. cbn. rewrite Hl. cbn.
  rewrite lookup_insert_eq. cbn. rewrite insert_insert_eq.
  set (th1 := set_next NULL (set_state THREAD_STATE_SLEEPING th)).
  rewrite lookup_insert_eq. cbn. change (wake_time th1) with (wake_time th).
  destruct S as [|a S].
  { cbn in Hs. subst sq. exists [], []. change (NULL =? NULL) with true. run. rewrite ?lookup_insert_eq. run.
    rewrite insert_insert_eq. eexists. split_and!; try done; [set_solver |].
    intros u. destruct (Z.eqb_spec u t) as [->|]; [by rewrite lookup_insert_eq |].
    rewrite lookup_insert_ne by done. by rewrite decide_False by (intros [? _]; done). }
  cbn in Hs. destruct Hs as (-> & Ha0 & n & Hn & Hs). destruct (Z.eqb_spec a NULL); [done |].
  assert (t <> a) as Hta by (intros ->; apply Hnt; left).
  destruct (Hsome a ltac:(left)) as (tha & Hla).
  assert (wake_at m a = wake_time tha) as Hwa by (unfold wake_at; by rewrite Hla).
  unfold load. cbn. rewrite lookup_insert_ne, Hla by done. cbn.
  destruct (Z.ltb_spec (wake_time th) (wake_time tha)) as [Hlt|Hge].
  { exists [], (a :: S). run. rewrite ?lookup_insert_eq. run. rewrite insert_insert_eq.
    eexists. split_and!; try done; [set_solver | |].
    - cbn. intros b [= <-]. by rewrite Hwa.
    - intros u. destruct (Z.eqb_spec u t) as [->|]; [by rewrite lookup_insert_eq |].
      rewrite lookup_insert_ne by done. by rewrite decide_False by (intros [? _]; done). }
  apply list.NoDup_cons in Hnd as [HaS HndS].
  match goal with |- context [sleep_position _ _ _ ?ss] => set (s1 := ss) end.
  assert (Hother : forall b, b ∈ a :: S -> load b s1 = m !! b).
  { intros b Hb. unfold load. cbn. rewrite lookup_insert_ne; [done |]. intros ->. done. }
  assert (n = next tha) as -> by (unfold tnext in Hn; rewrite Hla in Hn; cbn in Hn; congruence).
  destruct (sleep_position_spec (Datatypes.S (size (<[t:=th1]> m))) a (wake_time th) S s1 tha)
    as (l1 & l2 & ES & Epos & H1 & H2 & thl & Hthl & Hnl).
  { rewrite Hother by left. done. }
  { eapply sll_ext; [|done]. intros b Hb. unfold tnext. pose proof (Hother b ltac:(by right)) as Hx.
    unfold load in Hx. by rewrite Hx. }
  { apply le_n_S, length_keys; [done |]. intros b Hb. pose proof (Hother b ltac:(by right)) as Hx.
    unfold load in Hx. cbn in Hx. rewrite Hx. apply Hsome. by right. }
  { intros b Hb. rewrite Hother by (by right). apply Hsome. by right. }
  rewrite Epos. cbn. exists (a :: l1), l2.
  assert (Hin : last_or a l1 ∈ a :: S).
  { rewrite ES. apply (proj2 (elem_of_app (a :: l1) l2 _)). left. apply last_or_elem. }
  assert (last_or a l1 <> t) as Hlt by (intros E; by rewrite E in Hin).
  rewrite (Hother _ Hin) in Hthl. run. rewrite lookup_insert_ne, Hthl by done. run.
  rewrite ?lookup_insert_eq. run. rewrite insert_insert_eq.
  rewrite lookup_insert_ne, Hthl by done. run.
  assert (Hwk : forall b, b ∈ a :: S -> wake_at (<[t:=th1]> m) b = wake_at m b).
  { intros b Hb. unfold wake_at. rewrite lookup_insert_ne; [done |]. intros ->. done. }
  eexists. split_and!; try done.
  - by rewrite ES.
  - intros b [->|Hb]%elem_of_cons; [lia |]. rewrite <- (Hwk b) by (rewrite ES; set_solver). by apply H1.
  - intros b Hb. rewrite <- (Hwk b); [by apply H2 |]. destruct l2; [done |]. cbn in Hb. injection Hb as ->.
    rewrite ES. set_solver.
  - intros u. rewrite Hnl. destruct (Z.eqb_spec u t) as [->|].
    + rewrite lookup_insert_ne by done. by rewrite lookup_insert_eq.
    + destruct (decide (u = last_or a l1)) as [->|].
      * rewrite lookup_insert_eq, decide_True by done. by rewrite Hthl.
      * rewrite !lookup_insert_ne by done. rewrite decide_False; [done |]. intros [_ E]. done.
Qed.

Lemma head_or_sleep_insert t l1 (l2 : list Z) : head_or t l1 = head_or 0 (l1 ++ t :: l2).
Proof. by destruct l1. Qed.

Lemma enqueue_sleep_ok s Q S t th :
  squeues s Q S -> load t s = Some th -> ~ queued Q S t ->
  exists s', enqueue_sleep t s = Some s' /\
    squeues s' Q (sleep_insert (wake_at (threads (sys s))) t S) /\ same_control s s' /\
    squeue_frame s s' /\ stats s' = add_sleeping 1 (stats s) /\
    (exists th', load t s' = Some th' /\
       unlinked th' = unlinked (set_state THREAD_STATE_SLEEPING th)) /\
    forall u, u <> t -> same_threads s s' u.
Proof.
  intros W Hl Hnq. assert (H0 := q_null _ _ _ _ _ _ W).
  assert (t <> 0) as Ht0 by (intros ->; unfold load in Hl; congruence).
  assert (Hnt : t ∉ S) by (intros H; apply Hnq; by left).
  destruct (q_sleep _ _ _ _ _ _ W) as [Hsl Hnd].
  destruct (enqueue_sleep_eq s t th S Hl Ht0 Hnt Hnd) as (l1 & l2 & m & ES & H1 & H2 & E & Hm);
    [intros a Ha; apply (squeues_some _ Q S); [done | by left] | done |].
  assert (Hwt : wake_at (threads (sys s)) t = wake_time th)
    by (unfold wake_at; unfold load in Hl; by rewrite Hl).
  rewrite ES, (sleep_insert_split _ t l1 l2); [| by rewrite Hwt..].
  assert (Hu : forall u, u <> t -> unlinked <$> m !! u = unlinked <$> threads (sys s) !! u).
  { intros u Hu. rewrite Hm. destruct (Z.eqb_spec u t); [done |].
    destruct (decide _); [|done]. unfold load. by destruct (threads (sys s) !! u). }
  assert (Hwk : forall u, u ∈ l1 ++ t :: l2 -> wake_at m u = wake_at (threads (sys s)) u).
  { intros u _. unfold wake_at. rewrite Hm. destruct (Z.eqb_spec u t) as [->|].
    - unfold load in Hl. by rewrite Hl.
    - destruct (decide _); [|done]. unfold load. by destruct (threads (sys s) !! u). }
  eexists. split; [exact E |]. split_and!; try done.
  2: { unfold load. cbn. rewrite Hm, Z.eqb_refl. eexists. split; done. }
  unfold squeues. cbn. destruct W as [_ Q1 Q2 _ Q4 Q5].
  assert (Hready : forall p u, u ∈ Q p -> m !! u = threads (sys s) !! u).
  { intros p u Hup. rewrite Hm. destruct (Z.eqb_spec u t) as [->|]; [destruct Hnq; right; by exists p |].
    destruct (decide _) as [[Hne ->]|]; [|done]. exfalso.
    destruct (Q2 _ _ Hup) as (_ & th1 & E1 & E2 & _).
    destruct (Q4 (last_or 0 l1)) as (th2 & E3 & E4); [|congruence].
    rewrite ES. apply elem_of_app. left. by apply last_or_elem_ne. }
  split.
  - rewrite Hm. destruct (Z.eqb_spec 0 t) as [<-|]; [done |].
    destruct (decide _); [unfold load; by rewrite H0 | exact H0].
  - intros p Hp. destruct (Q1 p Hp) as (h & tl & E1 & E2 & D). exists h, tl. split_and!; try done.
    eapply dll_ext; [|exact D]. intros u Hup. unfold tlinks. by rewrite (Hready p).
  - intros p u Hup. rewrite (Hready p) by done. by apply Q2.
  - rewrite ES in Hsl, Hnd, Hnt. split.
    + eapply sll_insert; [exact Hsl | done | done | done | |].
      * unfold tnext. rewrite Hm, Z.eqb_refl. done.
      * intros b Hb. unfold tnext. rewrite Hm. destruct (Z.eqb_spec b t) as [->|]; [done |].
        destruct (decide (l1 <> [] /\ b = last_or 0 l1)) as [[Hne ->]|]; [|done].
        destruct (Q4 (last_or 0 l1)) as (th2 & E3 & E4); [by rewrite ES |].
        unfold load. by rewrite E3.
    + rewrite list.NoDup_app in Hnd |- *. destruct Hnd as (Hn1 & Hd & Hn2).
      split_and!; [done | | constructor; [set_solver | done]].
      intros b Hb [->|Hb2]%elem_of_cons; [set_solver | by apply (Hd b)].
  - intros u Hup. destruct (decide (u = t)) as [->|Hne].
    { rewrite Hm, Z.eqb_refl. eexists. split; done. }
    destruct (Q4 u) as (thu & E1 & E2); [rewrite ES; set_solver |].
    specialize (Hu u Hne). rewrite E1 in Hu. destruct (m !! u) as [th'|]; [|done].
    apply (inj Some) in Hu. exists th'. split; [done |].
    change (state th') with (state (unlinked th')). by rewrite Hu.
  - eapply sorted_ext; [exact Hwk |]. rewrite <- (sleep_insert_split (wake_at (threads (sys s))) t l1 l2);
      [|by rewrite Hwt..]. apply sleep_insert_sorted. by rewrite <- ES.
Qed.

(** ** Waking *)

Definition prio_at (s : sched) (t : Z) : Z := default 0 (priority <$> load t s).

(** The ready queues after the threads of [l] have been appended in order. *)
Fixpoint enqueue_all (pr : Z -> Z) (l : list Z) (Q : Z -> list Z) : Z -> list Z :=
  match l with
  | [] => Q
  | t :: l' => enqueue_all pr l' (upd_queue (pr t) (Q (pr t) ++ [t]) Q)
  end.

(** The sleepers split at the first one that wakes later than [now]. *)
Fixpoint expired (wk : Z -> Z) (now : Z) (S : list Z) : list Z * list Z :=
  match S with
  | [] => ([], [])
  | t :: S' => if wk t <=? now then let '(a, b) := expired wk now S' in (t :: a, b) else ([], t :: S')
  end.

Lemma expired_ext wk wk' now S :
  (forall a, a ∈ S -> wk' a = wk a) -> expired wk' now S = expired wk now S.
Proof.
  induction S as [|t S IH]; intros He; cbn; [done |].
  rewrite He by left. rewrite IH; [done |]. intros a Ha. apply He. by right.
Qed.

Lemma enqueue_all_ext pr pr' l Q :
  (forall a, a ∈ l -> pr' a = pr a) -> enqueue_all pr' l Q = enqueue_all pr l Q.
Proof.
  revert Q. induction l as [|t l IH]; intros Q He; cbn; [done |].
  rewrite He by left. apply IH. intros a Ha. apply He. by right.
Qed.

Definition valid_priorities (s : sched) : Prop :=
  forall u th, load u s = Some th -> 0 <= priority th < PRIORITY_LEVELS.

Lemma same_priority s s' u : same_threads s s' u -> prio_at s' u = prio_at s u.
Proof.
  unfold same_threads, prio_at. intros H.
  destruct (load u s) as [a|], (load u s') as [b|]; cbn in *; try done.
  apply (inj Some) in H. change (priority b) with (priority (unlinked b)). by rewrite H.
Qed.

Lemma same_wake s s' u :
  same_threads s s' u -> wake_at (threads (sys s')) u = wake_at (threads (sys s)) u.
Proof.
  unfold same_threads, wake_at, load. intros H.
  destruct (threads (sys s) !! u) as [a|], (threads (sys s') !! u) as [b|]; cbn in *; try done.
  apply (inj Some) in H. change (wake_time b) with (wake_time (unlinked b)). by rewrite H.
Qed.

Lemma same_valid s s' t th th' :
  valid_priorities s -> load t s = Some th -> load t s' = Some th' -> priority th' = priority th ->
  (forall u, u <> t -> same_threads s s' u) -> valid_priorities s'.
Proof.
  intros V Hl Hl' Hp Hs u thu Hu. destruct (decide (u = t)) as [->|Hne].
  - rewrite Hl' in Hu. injection Hu as <-. rewrite Hp. by apply (V t).
  - specialize (Hs u Hne). unfold same_threads in Hs. rewrite Hu in Hs.
    destruct (load u s) as [a|] eqn:Ea; [|done]. cbn in Hs. apply (inj Some) in Hs.
    change (priority thu) with (priority (unlinked thu)). rewrite Hs. exact (V u a Ea).
Qed.

(** Popping the sleep queue: the first sleeper is in no queue any more. *)
Lemma pop_sleeper s Q S t th :
  squeues s Q (t :: S) -> load t s = Some th ->
  squeues (with_threads (<[t := set_next NULL th]> (threads (sys s))) (set_sleep_queue (next th) s)) Q S.
Proof.
  intros W Hl. unfold squeues. cbn. assert (W0 := W). destruct W as [Q0 Q1 Q2 [Q3 Q3'] Q4 Q5].
  unfold load in Hl. assert (t <> 0) by congruence.
  apply list.NoDup_cons in Q3' as [HtS Hnd].
  assert (Hsq : sll (tnext (threads (sys s))) (next th) S).
  { destruct Q3 as (_ & _ & n & Hn & Hs). unfold tnext in Hn. rewrite Hl in Hn. cbn in Hn. congruence. }
  assert (queues (threads (sys s)) (ready_queue_heads s) (ready_queue_tails s) (next th) Q S) as W1.
  { split; try done. - intros u Hu. apply Q4. by right. - by inversion Q5. }
  eapply queues_frame; [exact W1 | |].
  - by rewrite lookup_insert_ne by done.
  - intros u Hu. rewrite lookup_insert_ne; [done |]. intros <-. destruct Hu as [|(p & Hp)]; [done |].
    eapply queue_not_sleeping; [exact W0 | exact Hp | left].
Qed.

(** A thread that has become ready and is otherwise unchanged. *)
Definition became_ready (s s' : sched) (u : Z) : Prop :=
  exists a b, load u s = Some a /\ load u s' = Some b /\
    unlinked b = unlinked (set_state THREAD_STATE_READY a).

Lemma same_threads_load s s' u a :
  same_threads s s' u -> load u s' = Some a -> exists b, load u s = Some b /\ unlinked a = unlinked b.
Proof.
  unfold same_threads. intros H E. rewrite E in H. destruct (load u s) as [b|]; [|done].
  apply (inj Some) in H. by exists b.
Qed.

Lemma wake_loop_ok fuel now s Q S :
  squeues s Q S -> valid_priorities s -> (length S < fuel)%nat ->
  let '(woken, rest) := expired (wake_at (threads (sys s))) now S in
  exists s', wake_loop fuel now s = Some s' /\
    squeues s' (enqueue_all (prio_at s) woken Q) rest /\ same_control s s' /\ valid_priorities s' /\
    (forall u, u ∉ woken -> same_threads s s' u) /\
    (forall u, u ∈ woken -> became_ready s s' u).
Proof.
  revert s Q S. induction fuel as [|fuel IH]; intros s Q S W V Hf; [lia |].
  unfold wake_loop; fold wake_loop. destruct (q_sleep _ _ _ _ _ _ W) as [Hsl Hnd].
  destruct S as [|t S].
  { cbn in *. rewrite Hsl. cbn. exists s. split_and!; try done; set_solver. }
  assert (Esq : sleep_queue s = t) by (by destruct Hsl). assert (t <> 0) as Ht0 by (by destruct Hsl as (_ & ? & _)).
  rewrite Esq. destruct (Z.eqb_spec t NULL); [done |].
  destruct (squeues_some _ Q (t :: S) t W) as (th & Hl); [left; left |]. rewrite Hl. cbn [mbind option_bind expired].
  assert (Hwt : wake_at (threads (sys s)) t = wake_time th)
    by (unfold wake_at; unfold load in Hl; by rewrite Hl).
  rewrite Hwt. destruct (Z.leb_spec (wake_time th) now) as [Hle|Hgt].
  2: { exists s. split_and!; try done; set_solver. }
  pose proof (pop_sleeper _ _ _ _ _ W Hl) as W1.
  rewrite (store_some t _ _ th) by exact Hl. cbn [mbind option_bind].
  set (s1 := upd_stats (add_sleeping (-1)) (with_threads (<[t := set_next NULL th]> (threads (sys s))) (set_sleep_queue (next th) s))).
  change (upd_stats _ _) with s1.
  assert (Hl1 : load t s1 = Some (set_next NULL th)) by apply lookup_insert_eq.
  assert (HtS : t ∉ S) by (by apply list.NoDup_cons in Hnd as [? _]).
  assert (Hother : forall u, u <> t -> load u s1 = load u s)
    by (intros u Hu; unfold load; cbn; by rewrite lookup_insert_ne by done).
  destruct (enqueue_ready_ok s1 Q S t (set_next NULL th)) as (s2 & E2 & W2 & C2 & _ & (th2 & Hl2 & Hu2) & T2).
  { exact W1. } { done. }
  { intros [|(p & Hp)]; [done |]. eapply queue_not_sleeping; [exact W | exact Hp | left]. }
  { cbn. by apply (V t). }
  rewrite E2. cbn [mbind option_bind].
  assert (Hp2 : priority th2 = priority th).
  { change (priority th2) with (priority (unlinked th2)). by rewrite Hu2. }
  assert (T12 : forall u, u <> t -> same_threads s s2 u).
  { intros u Hu. unfold same_threads. rewrite <- (Hother u Hu). by apply T2. }
  assert (V2 : valid_priorities s2) by (by apply (same_valid s s2 t th th2)).
  specialize (IH s2 _ S W2 V2 ltac:(cbn in Hf; lia)). cbn [set_next priority] in IH.
  rewrite (expired_ext (wake_at (threads (sys s)))) in IH
    by (intros a Ha; apply same_wake, T12; by intros ->).
  destruct (expired (wake_at (threads (sys s))) now S) as [woken rest] eqn:Eexp.
  assert (Hwk : forall a, a ∈ woken -> a ∈ S).
  { clear -Eexp. revert woken rest Eexp. induction S as [|b S IH]; cbn; intros woken rest E.
    - injection E as <- <-. set_solver.
    - destruct (_ <=? _); [|injection E as <- <-; set_solver].
      destruct (expired _ now S) as [a c] eqn:Ea. injection E as <- <-.
      specialize (IH _ _ eq_refl). set_solver. }
  destruct IH as (s' & E' & W' & C' & V' & T' & P'). exists s'. rewrite E'.
  assert (Hpt : forall a, a <> t -> prio_at s2 a = prio_at s a) by (intros; by apply same_priority, T12).
  assert (Hpt2 : prio_at s2 t = prio_at s t) by (unfold prio_at; by rewrite Hl, Hl2; cbn; rewrite Hp2).
  assert (Hpall : forall a, prio_at s2 a = prio_at s a)
    by (intros a; destruct (decide (a = t)) as [->|]; auto).
  split_and!; try done.
  - rewrite (enqueue_all_ext (prio_at s)) in W' by (intros; apply Hpall).
    cbn [enqueue_all]. unfold prio_at at 2 3. rewrite Hl. exact W'.
  - etransitivity; [|exact C']. etransitivity; [|exact C2]. by split.
  - intros u Hu. unfold same_threads. rewrite (T' u) by set_solver. apply T12. set_solver.
  - intros u [->|Hu]%elem_of_cons.
    + assert (same_threads s2 s' t) as T by (apply T'; intros H; by apply HtS, Hwk).
      unfold same_threads in T. rewrite Hl2 in T. destruct (load t s') as [b|] eqn:Eb; [|done].
      apply (inj Some) in T. exists th, b. split_and!; try done. rewrite T, Hu2. done.
    + destruct (P' u Hu) as (a & b & Ha & Hb & Hab).
      destruct (same_threads_load s s2 u a) as (c & Hc & Hac); [|done|].
      { apply T12. intros ->. by apply HtS, Hwk. }
      exists c, b. split_and!; try done. rewrite Hab.
      change (set_state THREAD_STATE_READY (unlinked a) = set_state THREAD_STATE_READY (unlinked c)).
      by rewrite Hac.
Qed.

(** Evaluate a sequence of loads and stores at one thread. *)
Ltac settle Hl :=
  run; repeat (progress (rewrite ?Hl, ?lookup_insert_eq, ?insert_insert_eq; run)).

(** ** CPU accounting and priorities *)

Record thread_wf (th : thread) : Prop := {
  tw_priority : 0 <= priority th < PRIORITY_LEVELS;
  tw_base : 0 <= base_priority th < PRIORITY_LEVELS;
  tw_history : length (cpu_usage_history th) = Z.to_nat CPU_HISTORY_SAMPLES;
  tw_index : 0 <= history_index th < CPU_HISTORY_SAMPLES;
  tw_slice : time_slice_length th = calculate_time_slice (priority th);
}.

Definition threads_ok (s : sched) : Prop := forall u th, load u s = Some th -> thread_wf th.

Lemma threads_ok_valid s : threads_ok s -> valid_priorities s.
Proof. intros V u th Hu. apply (V u th Hu). Qed.

Lemma thread_wf_unlinked th th' : unlinked th' = unlinked th -> thread_wf th -> thread_wf th'.
Proof.
  intros E [H1 H2 H3 H4 H5]. split.
  - change (priority th') with (priority (unlinked th')). by rewrite E.
  - change (base_priority th') with (base_priority (unlinked th')). by rewrite E.
  - change (cpu_usage_history th') with (cpu_usage_history (unlinked th')). by rewrite E.
  - change (history_index th') with (history_index (unlinked th')). by rewrite E.
  - change (time_slice_length th') with (time_slice_length (unlinked th')).
    change (priority th') with (priority (unlinked th')). by rewrite E.
Qed.

Lemma threads_ok_same s s' t :
  threads_ok s -> (forall th', load t s' = Some th' -> thread_wf th') ->
  (forall u, u <> t -> same_threads s s' u) -> threads_ok s'.
Proof.
  intros V Ht Hs u thu Hu. destruct (decide (u = t)) as [->|Hne]; [by apply Ht |].
  specialize (Hs u Hne). unfold same_threads in Hs. rewrite Hu in Hs.
  destruct (load u s) as [a|] eqn:Ea; [|done]. cbn in Hs. apply (inj Some) in Hs.
  by apply (thread_wf_unlinked a), (V u).
Qed.

Definition with_usage (usage : Z) (th : thread) : thread :=
  let h := <[Z.to_nat (history_index th) := usage]> (cpu_usage_history th) in
  set_avg_cpu_usage (u8 (sum16 0 h / CPU_HISTORY_SAMPLES))
    (set_history_index ((history_index th + 1) mod CPU_HISTORY_SAMPLES)
      (set_cpu_usage_history h th)).

Lemma update_cpu_usage_ok s t th usage :
  load t s = Some th -> thread_wf th ->
  update_cpu_usage t usage s =
    Some (with_threads (<[t := with_usage usage th]> (threads (sys s))) s) /\
  thread_wf (with_usage usage th).
Proof.
  intros Hl [H1 H2 H3 H4 H5]. split.
  - destruct s as [[m tbl tid0 pm sw] hs ts sq bq idl cur st run0 nr tk tss].
    unfold update_cpu_usage, store, upd_thread, load in *. cbn in *. rewrite Hl. cbn.
    destruct (lookup_lt_is_Some_2 (cpu_usage_history th) (Z.to_nat (history_index th))) as (x & ->);
      [rewrite H3; unfold CPU_HISTORY_SAMPLES in *; lia |].
    settle Hl. unfold with_usage, CPU_HISTORY_SAMPLES in *.
    rewrite (u8_small ((history_index th + 1) mod 8)) by zlia. done.
  - split; cbn; try done.
    + by rewrite length_insert.
    + unfold CPU_HISTORY_SAMPLES. zlia.
Qed.

(** The priority [adjust_priority] gives a thread other than the idle one. *)
Definition adjusted_priority (th : thread) : Z :=
  if base_priority th =? PRIORITY_REALTIME then priority th
  else if avg_cpu_usage th >? PRIORITY_DEMOTE_THRESHOLD then
    if priority th <? PRIORITY_LOW then priority th + 1 else priority th
  else if avg_cpu_usage th <? PRIORITY_BOOST_THRESHOLD then
    if priority th >? base_priority th then priority th - 1 else priority th
  else priority th.

Definition with_priority (p : Z) (th : thread) : thread :=
  if p =? priority th then th
  else set_time_slice_length (calculate_time_slice p) (set_priority p th).

Lemma adjusted_priority_range th :
  thread_wf th -> 0 <= adjusted_priority th < PRIORITY_LEVELS.
Proof.
  intros [H1 H2 _ _ _]. unfold adjusted_priority, PRIORITY_LEVELS, PRIORITY_LOW in *.
  rewrite !Z.gtb_ltb. zcases; lia.
Qed.

Lemma with_priority_wf th p : thread_wf th -> 0 <= p < PRIORITY_LEVELS -> thread_wf (with_priority p th).
Proof.
  intros W Hp. unfold with_priority. destruct (p =? priority th); [done |].
  destruct W. split; cbn; done.
Qed.

Lemma adjust_priority_ok s t th :
  load t s = Some th -> thread_wf th -> t <> idle_thread s ->
  exists st, adjust_priority t s =
    Some (set_stats st (with_threads (<[t := with_priority (adjusted_priority th) th]> (threads (sys s))) s)).
Proof.
  intros Hl [H1 H2 H3 H4 H5] Hi. unfold adjust_priority. destruct (Z.eqb_spec t (idle_thread s)); [done |].
  rewrite Hl. cbn [mbind option_bind]. unfold adjusted_priority, with_priority.
  assert (Hid : with_threads (<[t := th]> (threads (sys s))) s = s).
  { unfold with_threads. rewrite insert_id by exact Hl. by destruct s as [[] ? ? ? ? ? ? ? ? ? ? ?]. }
  assert (Hss : forall s0, set_stats (stats s0) s0 = s0) by (by intros []).
  destruct (Z.eqb_spec (base_priority th) PRIORITY_REALTIME).
  { exists (stats s). rewrite Z.eqb_refl, Hid, Hss. done. }
  destruct (Z.gtb_spec (avg_cpu_usage th) PRIORITY_DEMOTE_THRESHOLD).
  - destruct (Z.ltb_spec (priority th) PRIORITY_LOW).
    + rewrite (store_some _ _ _ _ Hl). cbn [mbind option_bind]. unfold PRIORITY_LOW in *.
      rewrite u8_small by lia. unfold load at 1. cbn [upd_stats set_stats with_threads set_sys sys set_threads threads].
      rewrite lookup_insert_eq. cbn [mbind option_bind priority set_priority].
      destruct (Z.eqb_spec (priority th + 1) (priority th)); [lia |]. cbn [negb].
      erewrite store_some by (unfold load; cbn; apply lookup_insert_eq). eexists.
      cbn. rewrite insert_insert_eq. done.
    + exists (stats s). cbn [mbind option_bind]. rewrite Hl. cbn [mbind option_bind].
      rewrite !Z.eqb_refl, Hid, Hss. done.
  - destruct (Z.ltb_spec (avg_cpu_usage th) PRIORITY_BOOST_THRESHOLD).
    + destruct (Z.gtb_spec (priority th) (base_priority th)).
      * rewrite (store_some _ _ _ _ Hl). cbn [mbind option_bind]. unfold PRIORITY_LEVELS in *.
        rewrite u8_small by lia. unfold load at 1. cbn [upd_stats set_stats with_threads set_sys sys set_threads threads].
        rewrite lookup_insert_eq. cbn [mbind option_bind priority set_priority].
        destruct (Z.eqb_spec (priority th - 1) (priority th)); [lia |]. cbn [negb].
        erewrite store_some by (unfold load; cbn; apply lookup_insert_eq). eexists.
        cbn. rewrite insert_insert_eq. done.
      * exists (stats s). cbn [mbind option_bind]. rewrite Hl. cbn [mbind option_bind].
        rewrite !Z.eqb_refl, Hid, Hss. done.
    + exists (stats s). cbn [mbind option_bind]. rewrite Hl. cbn [mbind option_bind].
      rewrite !Z.eqb_refl, Hid, Hss. done.
Qed.

(** ** The system invariant *)

(** Ready and sleep queues as lists, threads well-formed, the idle thread
    present and awake, and the running thread in no queue. *)
Record sched_ok (s : sched) (Q : Z -> list Z) (S : list Z) : Prop := {
  so_queues : squeues s Q S;
  so_threads : threads_ok s;
  so_idle : is_Some (load (idle_thread s) s) /\ idle_thread s ∉ S;
  so_current : is_Some (load (current_thread s) s) /\ ~ queued Q S (current_thread s);
}.

(** Stores to a thread that is in no queue. *)
Lemma squeues_store s Q S t th th' :
  squeues s Q S -> load t s = Some th -> ~ queued Q S t ->
  squeues (with_threads (<[t := th']> (threads (sys s))) s) Q S.
Proof.
  intros W Hl Hn. unfold squeues. cbn. assert (H0 := q_null _ _ _ _ _ _ W).
  assert (t <> 0) by (intros ->; unfold load in Hl; congruence).
  eapply queues_frame; [exact W | by rewrite lookup_insert_ne by done |].
  intros u Hu. rewrite lookup_insert_ne; [done |]. by intros <-.
Qed.

(** What [switch_to] does to the thread it resumes. *)
Definition resumed (now : Z) (th : thread) : thread :=
  set_ticks_used_this_slice 0 (set_slice_start_ticks now
    (set_time_slice (time_slice_length th) (set_state THREAD_STATE_RUNNING th))).

Lemma switch_to_eq s t th :
  load t s = Some th ->
  switch_to t s =
    if t =? current_thread s then Some s
    else Some (upd_stats add_switches (with_threads (<[t := resumed (ticks s) th]> (threads (sys s)))
           (gdt_set_kernel_stack (u64 (kernel_stack_base th + kernel_stack_size th))
             (set_current_thread t s)))).
Proof.
  intros Hl. unfold switch_to. destruct (t =? current_thread s); [done |].
  destruct s as [[m tbl tid0 pm sw] hs ts sq bq idl cur st run0 nr tk tss].
  unfold store, upd_thread, load in *. cbn in *. settle Hl. done.
Qed.

(** The thread [schedule] selects, and the ready queues it leaves. *)
Definition selected (idle : Z) (Q : Z -> list Z) : Z * (Z -> list Z) :=
  match first_ready (Z.to_nat PRIORITY_LEVELS) 0 Q with
  | Some (q, t, l) => (t, upd_queue q l Q)
  | None => (idle, Q)
  end.

Lemma pick_next_ok s Q S :
  squeues s Q S -> threads_ok s -> is_Some (load (idle_thread s) s) -> idle_thread s ∉ S ->
  let '(t, Q') := selected (idle_thread s) Q in
  exists s1, pick_next_thread s = Some (t, s1) /\
    squeues s1 Q' S /\ same_control s s1 /\ is_Some (load t s1) /\ ~ queued Q' S t /\
    threads_ok s1 /\ (forall u, u <> t -> same_threads s s1 u) /\
    (forall u, is_Some (load u s) -> is_Some (load u s1)).
Proof.
  intros W V Hi HiS. unfold selected, pick_next_thread.
  pose proof (pick_loop_ok (Z.to_nat PRIORITY_LEVELS) 0 s Q S W ltac:(lia) ltac:(done)) as Hpick.
  pose proof (first_ready_spec (Z.to_nat PRIORITY_LEVELS) 0 Q) as Hfirst.
  destruct (first_ready (Z.to_nat PRIORITY_LEVELS) 0 Q) as [[[q t] l]|].
  - destruct Hpick as (s1 & th & E1 & W1 & C1 & _ & Hl & Hl1 & T1).
    destruct Hfirst as (Hq & EQ & _).
    exists s1. split_and!; try done.
    + intros [H|(p & H)].
      * apply (queue_not_sleeping _ _ _ _ Q S q t W); [rewrite EQ; left | exact H].
      * unfold upd_queue in H. destruct (Z.eqb_spec p q) as [Epq|Hne].
        -- destruct (q_ready _ _ _ _ _ _ W q ltac:(cbn in Hq; lia)) as (h & tl & _ & _ & D).
           apply dll_nodup in D. rewrite EQ in D. by apply list.NoDup_cons in D as [? _].
        -- apply Hne, (queue_disjoint _ _ _ _ Q S p q t W H). rewrite EQ. left.
    + eapply (threads_ok_same s s1 t); [done | | done]. intros th' Hl'.
      rewrite Hl1 in Hl'. injection Hl' as <-. apply (thread_wf_unlinked th); [done |]. by apply (V t).
    + intros u (thu & Hu). destruct (decide (u = t)) as [->|Hne]; [by eexists |].
      specialize (T1 u Hne). unfold same_threads in T1. rewrite Hu in T1.
      destruct (load u s1); [by eexists | done].
  - exists s. split_and!; try done.
    intros [H|(p & H)]; [done |]. destruct (q_member _ _ _ _ _ _ W _ _ H) as (Hp & _).
    rewrite Hfirst in H by (cbn in *; lia). set_solver.
Qed.

Lemma schedule_ok s Q S :
  squeues s Q S -> threads_ok s -> is_Some (load (idle_thread s) s) -> idle_thread s ∉ S ->
  is_Some (load (current_thread s) s) ->
  let '(t, Q') := selected (idle_thread s) Q in
  exists s', schedule s = Some s' /\ sched_ok s' Q' S /\ current_thread s' = t /\
    idle_thread s' = idle_thread s /\ scheduler_running s' = scheduler_running s /\
    ticks s' = ticks s /\
    (t <> current_thread s -> exists th, load t s' = Some th /\ state th = THREAD_STATE_RUNNING /\
       time_slice th = time_slice_length th /\ ticks_used_this_slice th = 0 /\
       tss_rsp0 s' = u64 (kernel_stack_base th + kernel_stack_size th)) /\
    (forall u, u <> t -> same_threads s s' u).
Proof.
  intros W V Hi HiS Hc. unfold schedule.
  pose proof (pick_next_ok s Q S W V Hi HiS) as Hpick.
  destruct (selected (idle_thread s) Q) as [t Q'].
  destruct Hpick as (s1 & E1 & W1 & C1 & (th & Hl1) & Hnq & V1 & T1 & D1).
  rewrite E1. cbn [mbind option_bind]. destruct C1 as [C1a C1b C1c C1d C1e].
  destruct (Z.eqb_spec t (current_thread s1)) as [Et|Hne]; cbn [negb].
  - exists s1. split_and!; try done; [|intros H; rewrite C1b in Et; done].
    split; [done | done | |].
    + rewrite C1a. split; [by apply D1 | done].
    + rewrite <- Et. split; [by eexists | done].
  - rewrite (switch_to_eq _ _ _ Hl1). destruct (Z.eqb_spec t (current_thread s1)); [done |].
    match goal with |- context [Some (upd_stats add_switches ?x)] =>
      set (s2 := upd_stats add_switches x) end.
    assert (Hload : forall u, load u s2 = if decide (u = t) then Some (resumed (ticks s1) th) else load u s1).
    { intros u. unfold load. cbn. destruct (decide (u = t)) as [->|]; [apply lookup_insert_eq |].
      by rewrite lookup_insert_ne by done. }
    exists s2. split_and!; try done.
    + split.
      * exact (squeues_store _ _ _ _ _ (resumed (ticks s1) th) W1 Hl1 Hnq).
      * intros u thu. rewrite Hload. destruct (decide (u = t)); [|by apply V1].
        intros [= <-]. pose proof (V1 _ _ Hl1) as [? ? ? ? ?]. split; cbn; done.
      * change (idle_thread s2) with (idle_thread s1). rewrite C1a, Hload. split; [|done].
        destruct (decide _); [by eexists | by apply D1].
      * change (current_thread s2) with t. split; [|done]. rewrite Hload, decide_True by done. by eexists.
    + intros _. exists (resumed (ticks s1) th). rewrite Hload, decide_True by done. done.
    + intros u Hu. unfold same_threads. rewrite Hload, decide_False by done. by apply T1.
Qed.

(** ** The operations *)

Lemma sched_running s Q S :
  sched_ok s Q S -> scheduler_running s = true ->
  negb (scheduler_running s) || (current_thread s =? NULL) = false /\
  exists th, load (current_thread s) s = Some th /\ thread_wf th.
Proof.
  intros [W V _ [(th & Hl) _]] ->. cbn [negb orb]. split; [|by exists th; split; [|apply (V _ _ Hl)]].
  destruct (Z.eqb_spec (current_thread s) NULL) as [E|]; [|done].
  unfold load in Hl. rewrite E in Hl. by rewrite (q_null _ _ _ _ _ _ W : _ !! NULL = None) in Hl.
Qed.

(** A store to the running thread that keeps it well-formed. *)
Lemma sched_ok_store s Q S th th' :
  sched_ok s Q S -> load (current_thread s) s = Some th -> thread_wf th' ->
  sched_ok (with_threads (<[current_thread s := th']> (threads (sys s))) s) Q S.
Proof.
  intros [W V [Hi HiS] [Hc Hn]] Hl Hw. split.
  - by eapply squeues_store.
  - intros u thu Hu. unfold load in Hu. cbn in Hu. apply lookup_insert_Some in Hu as [[_ <-]|[_ Hu]]; [done |].
    by apply (V u).
  - split; [|done]. unfold load. cbn. apply lookup_insert_is_Some'. by right.
  - split; [|done]. unfold load. cbn. apply lookup_insert_is_Some'. by left.
Qed.

Lemma sched_ok_stats s Q S st : sched_ok s Q S -> sched_ok (set_stats st s) Q S.
Proof. intros [W V Hi Hc]. by split. Qed.
Lemma sched_ok_resched s Q S b : sched_ok s Q S -> sched_ok (set_need_reschedule b s) Q S.
Proof. intros [W V Hi Hc]. by split. Qed.

(** The running thread after the accounting of [scheduler_yield]. *)
Definition yield_usage (th : thread) : Z :=
  u8 (u64 (ticks_used_this_slice th * 100) / time_slice_length th).
Definition accounted (usage : Z) (th : thread) : thread :=
  with_priority (adjusted_priority (with_usage usage th)) (with_usage usage th).
Definition yielded (s : sched) (th : thread) : thread :=
  if current_thread s =? idle_thread s then th else accounted (yield_usage th) th.

Lemma slice_positive th : thread_wf th -> 0 < time_slice_length th.
Proof.
  intros [H1 _ _ _ ->]. unfold calculate_time_slice, TIME_SLICE_BASE_MS, PRIORITY_LEVELS in *.
  rewrite u32_small; lia.
Qed.

Lemma accounted_wf usage th : thread_wf th -> thread_wf (with_usage usage th) -> thread_wf (accounted usage th).
Proof. intros H1 H2. apply with_priority_wf; [done | by apply adjusted_priority_range]. Qed.

Lemma accounting_ok s Q S th usage :
  sched_ok s Q S -> load (current_thread s) s = Some th -> current_thread s <> idle_thread s ->
  exists s1, (s0 ← update_cpu_usage (current_thread s) usage s; adjust_priority (current_thread s) s0) = Some s1 /\
    sched_ok s1 Q S /\ same_control s s1 /\ load (current_thread s) s1 = Some (accounted usage th) /\
    thread_wf (accounted usage th) /\ (forall u, u <> current_thread s -> same_threads s s1 u).
Proof.
  intros I Hl Hne. pose proof (so_threads _ _ _ I _ _ Hl) as Hw.
  destruct (update_cpu_usage_ok s _ th usage Hl Hw) as [E1 Hw1]. rewrite E1. cbn [mbind option_bind].
  pose proof (sched_ok_store _ _ _ th (with_usage usage th) I Hl Hw1) as I1.
  set (s1 := with_threads _ s) in *.
  assert (Hl1 : load (current_thread s) s1 = Some (with_usage usage th)) by apply lookup_insert_eq.
  destruct (adjust_priority_ok s1 (current_thread s) (with_usage usage th) Hl1 Hw1 Hne) as (st & E2).
  rewrite E2. eexists. split; [done |]. pose proof (accounted_wf usage th Hw Hw1) as Hw2. split_and!.
  - apply sched_ok_stats, (sched_ok_store s1 Q S (with_usage usage th)); done.
  - by split.
  - apply lookup_insert_eq.
  - done.
  - intros u Hu. unfold same_threads, load. cbn. by rewrite !lookup_insert_ne by done.
Qed.

Lemma enqueue_current_ok s Q S th :
  sched_ok s Q S -> load (current_thread s) s = Some th ->
  exists s1, enqueue_ready (current_thread s) s = Some s1 /\
    squeues s1 (upd_queue (priority th) (Q (priority th) ++ [current_thread s]) Q) S /\
    threads_ok s1 /\ same_control s s1 /\ is_Some (load (idle_thread s1) s1) /\
    is_Some (load (current_thread s1) s1) /\
    (exists th', load (current_thread s) s1 = Some th' /\
       unlinked th' = unlinked (set_state THREAD_STATE_READY th)) /\
    (forall u, u <> current_thread s -> same_threads s s1 u).
Proof.
  intros [W V [Hi HiS] [_ Hn]] Hl. pose proof (V _ _ Hl) as Hw.
  destruct (enqueue_ready_ok s Q S _ th W Hl Hn (tw_priority _ Hw))
    as (s1 & E & W1 & C1 & _ & (th' & Hl' & Hu') & T1).
  assert (Hw' : thread_wf th').
  { apply (thread_wf_unlinked (set_state THREAD_STATE_READY th)); [done |]. destruct Hw; split; done. }
  exists s1. split_and!; try done.
  - apply (threads_ok_same s s1 (current_thread s)); try done. intros th2 H2. congruence.
  - rewrite (sc_idle _ _ C1). destruct (decide (idle_thread s = current_thread s)) as [->|Hne]; [by eexists |].
    specialize (T1 _ Hne). unfold same_threads in T1. destruct Hi as (thi & Hi). rewrite Hi in T1.
    destruct (load (idle_thread s) s1); [by eexists | done].
  - rewrite (sc_current _ _ C1). by eexists.
  - by exists th'.
Qed.

Lemma scheduler_yield_ok s Q S th :
  sched_ok s Q S -> scheduler_running s = true -> load (current_thread s) s = Some th ->
  state th <> THREAD_STATE_TERMINATED ->
  let p := priority (yielded s th) in
  let '(t, Q') := selected (idle_thread s) (upd_queue p (Q p ++ [current_thread s]) Q) in
  exists s', scheduler_yield s = Some s' /\ sched_ok s' Q' S /\ current_thread s' = t /\
    scheduler_running s' = true /\ idle_thread s' = idle_thread s /\
    (t <> current_thread s -> exists tht, load t s' = Some tht /\ state tht = THREAD_STATE_RUNNING /\
       time_slice tht = time_slice_length tht /\ ticks_used_this_slice tht = 0 /\
       tss_rsp0 s' = u64 (kernel_stack_base tht + kernel_stack_size tht)).
Proof.
  intros I Hrun Hl Hst. destruct (sched_running _ _ _ I Hrun) as [Eg _].
  unfold scheduler_yield. rewrite Eg.
  apply (sched_ok_resched _ _ _ false) in I. set (s0 := set_need_reschedule false s) in *.
  change (load (current_thread s) s) with (load (current_thread s0) s0) in Hl.
  change (current_thread s) with (current_thread s0). change (idle_thread s) with (idle_thread s0).
  pose proof (so_threads _ _ _ I _ _ Hl) as Hw. cbv zeta. rewrite Hl. cbn [mbind option_bind].
  assert (exists s1, (if negb (current_thread s0 =? idle_thread s0) && (time_slice_length th >? 0)
     then s ← update_cpu_usage (current_thread s0) (u8 (u64 (ticks_used_this_slice th * 100) / time_slice_length th)) s0;
          adjust_priority (current_thread s0) s
     else Some s0) = Some s1 /\ sched_ok s1 Q S /\ same_control s0 s1 /\
     load (current_thread s0) s1 = Some (yielded s0 th) /\ state (yielded s0 th) = state th) as
     (s1 & E1 & I1 & C1 & Hl1 & Hst1).
  { unfold yielded. destruct (Z.eqb_spec (current_thread s0) (idle_thread s0)) as [Ei|Ei]; cbn [negb andb].
    - exists s0. done.
    - pose proof (slice_positive _ Hw). destruct (Z.gtb_spec (time_slice_length th) 0); [|lia].
      destruct (accounting_ok s0 Q S th (yield_usage th) I Hl Ei) as (s1 & E1 & I1 & C1 & Hl1 & _).
      exists s1. split_and!; try done.
      unfold accounted, with_priority. by destruct (adjusted_priority _ =? _). }
  unfold yielded in *. change (current_thread s =? idle_thread s) with (current_thread s0 =? idle_thread s0).
  rewrite E1. cbn [mbind option_bind]. rewrite Hl1. cbn [mbind option_bind].
  rewrite decide_True by (rewrite Hst1; exact Hst).
  rewrite <- (sc_current _ _ C1) in Hl1 |- *.
  destruct (enqueue_current_ok s1 Q S _ I1 Hl1) as (s2 & E2 & W2 & V2 & C2 & Hi2 & Hc2 & _).
  rewrite E2. cbn [mbind option_bind].
  pose proof (schedule_ok s2 _ S W2 V2 Hi2) as Hsch.
  rewrite (sc_idle _ _ C2), (sc_idle _ _ C1) in Hsch.
  specialize (Hsch (proj2 (so_idle _ _ _ I)) Hc2).
  destruct (selected _ _) as [t Q']. destruct Hsch as (s' & E' & I' & Ec & Ei & Er & _ & Hres & _).
  exists s'. rewrite E'. split_and!; try done.
  - rewrite Er, (sc_running _ _ C2), (sc_running _ _ C1). exact Hrun.
  - rewrite (sc_current _ _ C2) in Hres. exact Hres.
Qed.

(** Removing the running thread from the CPU: sleep, block and exit. *)
Lemma leave_ok s s1 Q S S1 :
  sched_ok s Q S -> scheduler_running s = true -> squeues s1 Q S1 -> threads_ok s1 ->
  same_control s s1 -> (forall u, is_Some (load u s) -> is_Some (load u s1)) ->
  idle_thread s ∉ S1 ->
  let '(t, Q') := selected (idle_thread s) Q in
  exists s', schedule s1 = Some s' /\ sched_ok s' Q' S1 /\ current_thread s' = t /\
    scheduler_running s' = true /\ idle_thread s' = idle_thread s /\
    (forall u, u <> t -> same_threads s1 s' u).
Proof.
  intros [W V [Hi HiS] [Hc Hn]] Hrun W1 V1 C1 HD Hidle.
  pose proof (schedule_ok s1 Q S1 W1 V1) as H. rewrite (sc_idle _ _ C1), (sc_current _ _ C1) in H.
  specialize (H (HD _ Hi) Hidle (HD _ Hc)).
  destruct (selected (idle_thread s) Q) as [t Q']. destruct H as (s' & E & I & Ec & Ei & Er & _ & _ & Ht).
  exists s'. split_and!; try done. by rewrite Er, (sc_running _ _ C1).
Qed.

Lemma scheduler_sleep_ok s Q S wake :
  sched_ok s Q S -> scheduler_running s = true -> current_thread s <> idle_thread s ->
  let c := current_thread s in
  let wk := fun u => if u =? c then wake else wake_at (threads (sys s)) u in
  let '(t, Q') := selected (idle_thread s) Q in
  exists s', scheduler_sleep c wake s = Some s' /\ sched_ok s' Q' (sleep_insert wk c S) /\
    current_thread s' = t /\ scheduler_running s' = true /\ idle_thread s' = idle_thread s.
Proof.
  intros I Hrun Hne. cbv zeta. destruct (sched_running _ _ _ I Hrun) as [_ (th & Hl & Hw)].
  unfold scheduler_sleep. rewrite (store_some _ _ _ _ Hl). cbn [mbind option_bind].
  assert (Hw' : thread_wf (set_wake_time wake th)) by (destruct Hw; split; done).
  pose proof (sched_ok_store _ _ _ th (set_wake_time wake th) I Hl Hw') as I0.
  set (s0 := with_threads _ s) in *.
  assert (Hl0 : load (current_thread s) s0 = Some (set_wake_time wake th)) by apply lookup_insert_eq.
  destruct (enqueue_sleep_ok s0 Q S (current_thread s) _ (so_queues _ _ _ I0) Hl0 (proj2 (so_current _ _ _ I0)))
    as (s1 & E1 & W1 & C1 & _ & _ & (th1 & Hl1 & Hu1) & T1).
  rewrite E1. cbn [mbind option_bind]. rewrite (sc_current _ _ C1).
  change (current_thread s0) with (current_thread s). rewrite Z.eqb_refl.
  assert (Hwk : forall u, wake_at (threads (sys s0)) u =
    if u =? current_thread s then wake else wake_at (threads (sys s)) u).
  { intros u. unfold wake_at. cbn. destruct (Z.eqb_spec u (current_thread s)) as [->|].
    - by rewrite lookup_insert_eq.
    - by rewrite lookup_insert_ne by done. }
  assert (Hins : forall wk wk' t l, (forall u, wk' u = wk u) -> sleep_insert wk' t l = sleep_insert wk t l).
  { intros wk wk' t l He. induction l as [|a l IH]; cbn; [done |]. by rewrite !He, IH. }
  rewrite (Hins (fun u => if u =? current_thread s then wake else wake_at (threads (sys s)) u)) in W1 by exact Hwk.
  pose proof (leave_ok s0 s1 Q S _ I0 Hrun W1) as H. change (idle_thread s0) with (idle_thread s) in H.
  destruct (selected (idle_thread s) Q) as [t Q'].
  destruct H as (s' & E & I' & Ec & Er & Ei & _); [| done | | | by exists s'].
  - apply (threads_ok_same s0 s1 (current_thread s)); [apply I0 | | done].
    intros th' E. rewrite Hl1 in E. injection E as <-.
    apply (thread_wf_unlinked (set_state THREAD_STATE_SLEEPING (set_wake_time wake th))); [done |].
    destruct Hw; split; done.
  - intros u Hu. destruct (decide (u = current_thread s)) as [->|Hx]; [by eexists |].
    specialize (T1 u Hx). unfold same_threads in T1. destruct Hu as (a & Ha). rewrite Ha in T1.
    destruct (load u s1); [by eexists | done].
  - rewrite sleep_insert_elem. intros [E|E]; [by apply Hne | by apply (proj2 (so_idle _ _ _ I))].
Qed.

Lemma scheduler_block_ok s Q S :
  sched_ok s Q S -> scheduler_running s = true ->
  let c := current_thread s in
  let '(t, Q') := selected (idle_thread s) Q in
  exists s', scheduler_block c s = Some s' /\ sched_ok s' Q' S /\ current_thread s' = t /\
    scheduler_running s' = true /\ idle_thread s' = idle_thread s /\
    (t <> c -> exists th, load c s' = Some th /\ state th = THREAD_STATE_BLOCKED).
Proof.
  intros I Hrun. cbv zeta. destruct (sched_running _ _ _ I Hrun) as [_ (th & Hl & Hw)].
  unfold scheduler_block. rewrite (store_some _ _ _ _ Hl). cbn [mbind option_bind].
  assert (Hw' : thread_wf (set_state THREAD_STATE_BLOCKED th)) by (destruct Hw; split; done).
  pose proof (sched_ok_store _ _ _ th (set_state THREAD_STATE_BLOCKED th) I Hl Hw') as I0.
  apply (sched_ok_stats _ _ _ (add_blocked 1 (stats s))) in I0.
  match type of I0 with sched_ok ?x _ _ => set (s0 := x) in * end.
  change (upd_stats _ _) with s0. cbv zeta.
  change (current_thread s =? current_thread s0) with (current_thread s =? current_thread s).
  rewrite Z.eqb_refl.
  assert (Hl0 : load (current_thread s) s0 = Some (set_state THREAD_STATE_BLOCKED th)) by apply lookup_insert_eq.
  pose proof (leave_ok s0 s0 Q S S I0 Hrun (so_queues _ _ _ I0) (so_threads _ _ _ I0) ltac:(done)
    ltac:(auto) (proj2 (so_idle _ _ _ I0))) as H.
  change (idle_thread s0) with (idle_thread s) in H.
  destruct (selected (idle_thread s) Q) as [t Q']. destruct H as (s' & E & I' & Ec & Er & Ei & Ht).
  exists s'. split_and!; try done. intros Hne. specialize (Ht (current_thread s) ltac:(done)).
  unfold same_threads in Ht. rewrite Hl0 in Ht. destruct (load (current_thread s) s') as [th'|]; [|done].
  cbn in Ht. apply (inj Some) in Ht. exists th'. split; [done |].
  change (state th') with (state (unlinked th')). by rewrite Ht.
Qed.

(** Making a thread ready: creation and wake-up by an event. *)
Lemma enqueue_other_ok s Q S t th :
  sched_ok s Q S -> load t s = Some th -> ~ queued Q S t -> t <> current_thread s ->
  exists s', enqueue_ready t s = Some s' /\
    sched_ok s' (upd_queue (priority th) (Q (priority th) ++ [t]) Q) S /\
    current_thread s' = current_thread s /\ scheduler_running s' = scheduler_running s /\
    idle_thread s' = idle_thread s.
Proof.
  intros [W V [Hi HiS] [Hc Hn]] Hl Hnq Hne. pose proof (V _ _ Hl) as Hw.
  destruct (enqueue_ready_ok s Q S t th W Hl Hnq (tw_priority _ Hw))
    as (s1 & E & W1 & [C1 C2 C3 C4 C5] & _ & (th' & Hl' & Hu') & T1).
  assert (HD : forall u, is_Some (load u s) -> is_Some (load u s1)).
  { intros u (a & Ha). destruct (decide (u = t)) as [->|Hx]; [by eexists |].
    specialize (T1 u Hx). unfold same_threads in T1. rewrite Ha in T1.
    destruct (load u s1); [by eexists | done]. }
  exists s1. split_and!; try done. split; try done.
  - apply (threads_ok_same s s1 t); try done. intros th2 H2.
    assert (th2 = th') as -> by congruence.
    apply (thread_wf_unlinked (set_state THREAD_STATE_READY th)); [done |]. destruct Hw; split; done.
  - rewrite C1. split; [by apply HD | done].
  - rewrite C2. split; [by apply HD |]. intros [H|(p & H)]; [apply Hn; by left |].
    unfold upd_queue in H. destruct (Z.eqb_spec p (priority th)) as [E2|]; [|apply Hn; right; by exists p].
    apply elem_of_app in H as [H|H%list_elem_of_singleton]; [apply Hn; right; by eexists | by apply Hne].
Qed.

(** ** The timer tick *)

(** The accounting of one tick. *)
Definition ticked (th : thread) : thread :=
  let th := set_total_ticks (u64 (total_ticks th + 1)) th in
  let th := set_ticks_used_this_slice (u64 (ticks_used_this_slice th + 1)) th in
  if time_slice th >? 0 then set_time_slice (time_slice th - 1) th else th.

(** The slice of a thread runs out at this tick. *)
Definition slice_expires (s : sched) (th : thread) : bool :=
  (time_slice th <=? 1) && negb (current_thread s =? idle_thread s).

Definition tick_usage (th : thread) : Z :=
  let usage := u8 (u64 (ticks_used_this_slice th * 100) / time_slice_length th) in
  if usage >? 100 then 100 else usage.

Lemma ticked_wf th : thread_wf th -> thread_wf (ticked th).
Proof. intros [? ? ? ? ?]. unfold ticked. cbn. destruct (_ >? _); split; done. Qed.

Lemma ticked_slice th :
  0 <= time_slice th -> (time_slice (ticked th) =? 0) = (time_slice th <=? 1).
Proof. intros H. unfold ticked. cbn. destruct (Z.gtb_spec (time_slice th) 0); cbn; zcases; lia. Qed.

Lemma wake_ok s Q S th :
  sched_ok s Q S -> load (current_thread s) s = Some th ->
  let '(woken, rest) := expired (wake_at (threads (sys s))) (ticks s) S in
  exists s1 th1, wake_expired_sleepers s = Some s1 /\
    sched_ok s1 (enqueue_all (prio_at s) woken Q) rest /\ same_control s s1 /\
    load (current_thread s) s1 = Some th1 /\ unlinked th1 = unlinked th.
Proof.
  intros [W V [Hi HiS] [Hc Hn]] Hl. unfold wake_expired_sleepers.
  destruct (q_sleep _ _ _ _ _ _ W) as [_ Hnd].
  pose proof (wake_loop_ok (Datatypes.S (size (threads (sys s)))) (ticks s) s Q S W (threads_ok_valid _ V)) as H.
  destruct (expired (wake_at (threads (sys s))) (ticks s) S) as [woken rest] eqn:Ee.
  destruct H as (s1 & E1 & W1 & C1 & V1 & T1 & P1).
  { apply le_n_S, length_keys; [done |]. intros u Hu. apply (squeues_some s Q S u W). by left. }
  assert (Hsub : (forall u, u ∈ woken -> u ∈ S) /\ (forall u, u ∈ rest -> u ∈ S)).
  { clear -Ee. revert woken rest Ee. induction S as [|b S IH]; cbn; intros woken rest E.
    - injection E as <- <-. set_solver.
    - destruct (_ <=? _); [|injection E as <- <-; set_solver].
      destruct (expired _ (ticks s) S) as [a c]. injection E as <- <-.
      destruct (IH _ _ eq_refl). set_solver. }
  destruct Hsub as [Hwk Hrest].
  assert (Hcw : current_thread s ∉ woken) by (intros H; apply Hn; left; by apply Hwk).
  assert (Tc := T1 _ Hcw). unfold same_threads in Tc. rewrite Hl in Tc.
  destruct (load (current_thread s) s1) as [th1|] eqn:Hl1; [|done]. apply (inj Some) in Tc.
  exists s1, th1. split_and!; try done. destruct C1 as [C1 C2 C3 C4 C5].
  assert (Hq : forall u, queued (enqueue_all (prio_at s) woken Q) rest u -> queued Q S u).
  { intros u [H|(p & H)]; [left; by apply Hrest |]. clear -H Hwk. revert Q H.
    induction woken as [|a l IH]; cbn; intros Q H; [right; by exists p |].
    destruct (IH ltac:(intros; apply Hwk; by right) _ H) as [|(q & Hq)]; [by left |].
    unfold upd_queue in Hq. destruct (Z.eqb_spec q (prio_at s a)); [|right; by exists q].
    apply elem_of_app in Hq as [|H1%list_elem_of_singleton]; [right; by eexists |].
    left. apply Hwk. subst u. left. }
  split; [done | | |].
  - intros u thu Hu. destruct (decide (u ∈ woken)) as [Hw|Hw].
    + destruct (P1 u Hw) as (a & b & Ha & Hb & Hab). assert (thu = b) as -> by congruence.
      apply (thread_wf_unlinked (set_state THREAD_STATE_READY a)); [done |].
      destruct (V u a Ha). split; done.
    + specialize (T1 u Hw). unfold same_threads in T1. rewrite Hu in T1.
      destruct (load u s) as [a|] eqn:Ea; [|done]. apply (inj Some) in T1.
      by apply (thread_wf_unlinked a), (V u).
  - rewrite C1. split; [|by intros H; apply HiS, Hrest].
    destruct Hi as (a & Ha). destruct (decide (idle_thread s ∈ woken)) as [Hw|Hw].
    + destruct (P1 _ Hw) as (? & b & _ & Hb & _). by exists b.
    + specialize (T1 _ Hw). unfold same_threads in T1. rewrite Ha in T1.
      destruct (load (idle_thread s) s1); [by eexists | done].
  - rewrite C2, Hl1. split; [by eexists |]. intros H. by apply Hn, Hq.
Qed.

Definition tick_priority (th : thread) : Z :=
  priority (accounted (tick_usage (ticked th)) (ticked th)).

Lemma tick_priority_unlinked th th' : unlinked th' = unlinked th -> tick_priority th' = tick_priority th.
Proof.
  assert (forall th, tick_priority th = tick_priority (unlinked th)) as H.
  { intros t. unfold tick_priority, tick_usage, ticked, accounted, with_priority, adjusted_priority. cbn.
    destruct (time_slice t >? 0); cbn; match goal with |- context [if ?b =? priority t then _ else _] => destruct (b =? priority t) end; done. }
  intros E. by rewrite (H th'), (H th), E.
Qed.

Lemma store_store t f g s th :
  load t s = Some th -> (s0 ← store t f s; store t g s0) = store t (fun th => g (f th)) s.
Proof.
  intros Hl. rewrite (store_some t f s th Hl). cbn [mbind option_bind].
  erewrite store_some by (unfold load; cbn; apply lookup_insert_eq).
  rewrite (store_some t _ s th Hl). cbn. unfold with_threads. cbn. by rewrite insert_insert_eq.
Qed.

(** The part of [scheduler_tick] after the sleepers have been woken. *)
Lemma tick_account_ok s Q S th :
  sched_ok s Q S -> load (current_thread s) s = Some th ->
  let s1 := with_threads (<[current_thread s := ticked th]> (threads (sys s))) s in
  sched_ok s1 Q S /\ load (current_thread s) s1 = Some (ticked th) /\
  (s0 ← store (current_thread s) (fun th => set_total_ticks (u64 (total_ticks th + 1)) th) s;
   s0 ← store (current_thread s) (fun th => set_ticks_used_this_slice (u64 (ticks_used_this_slice th + 1)) th) s0;
   store (current_thread s) (fun th => if time_slice th >? 0 then set_time_slice (time_slice th - 1) th else th) s0)
  = Some s1.
Proof.
  intros I Hl s1. pose proof (so_threads _ _ _ I _ _ Hl) as Hw. split_and!.
  - apply (sched_ok_store s Q S th); [done | done | by apply ticked_wf].
  - apply lookup_insert_eq.
  - rewrite (store_some _ _ s th Hl). cbn [mbind option_bind].
    erewrite (store_store _ _ _ _ _) by (unfold load; cbn; apply lookup_insert_eq).
    erewrite store_some by (unfold load; cbn; apply lookup_insert_eq).
    unfold with_threads. cbn. rewrite insert_insert_eq. done.
Qed.

Lemma scheduler_tick_ok s Q S th :
  sched_ok s Q S -> scheduler_running s = true -> load (current_thread s) s = Some th ->
  0 <= time_slice th ->
  let '(woken, rest) := expired (wake_at (threads (sys s))) (ticks s) S in
  let Q' := enqueue_all (prio_at s) woken Q in
  exists s', scheduler_tick s = Some s' /\ current_thread s' = current_thread s /\
    scheduler_running s' = true /\ idle_thread s' = idle_thread s /\
    if slice_expires s th
    then squeues s' (upd_queue (tick_priority th) (Q' (tick_priority th) ++ [current_thread s]) Q') rest /\
         need_reschedule s' = true
    else sched_ok s' Q' rest.
Proof.
  intros I Hrun Hl Hts. destruct (sched_running _ _ _ I Hrun) as [Eg _]. unfold scheduler_tick. rewrite Eg.
  set (s0 := if current_thread s =? idle_thread s then upd_stats add_idle_ticks s else s).
  assert (exists st, s0 = set_stats st s) as (st & Es0).
  { subst s0. destruct (current_thread s =? idle_thread s); [by eexists |]. exists (stats s). by destruct s. }
  clearbody s0. subst s0.
  apply (sched_ok_stats _ _ _ st) in I. set (s0 := set_stats st s) in *.
  change (load (current_thread s) s) with (load (current_thread s0) s0) in Hl.
  pose proof (wake_ok s0 Q S th I Hl) as Hwake.
  change (expired (wake_at (threads (sys s0))) (ticks s0) S) with (expired (wake_at (threads (sys s))) (ticks s) S) in Hwake.
  change (prio_at s0) with (prio_at s) in Hwake.
  destruct (expired (wake_at (threads (sys s))) (ticks s) S) as [woken rest].
  destruct Hwake as (s1 & th1 & E1 & I1 & C1 & Hl1 & Hu1). rewrite E1. cbn [mbind option_bind]. cbv zeta.
  rewrite <- (sc_current _ _ C1) in Hl1.
  destruct (tick_account_ok s1 _ _ th1 I1 Hl1) as (I2 & Hl2 & E2).
  set (s2 := with_threads _ s1) in *.
  destruct (store (current_thread s1) _ s1) as [sa|] eqn:Ea in E2 |- *; [|done]. cbn [mbind option_bind] in E2 |- *.
  destruct (store (current_thread s1) _ sa) as [sb|] eqn:Eb in E2 |- *; [|done]. cbn [mbind option_bind] in E2 |- *.
  rewrite E2. cbn [mbind option_bind]. rewrite Hl2. cbn [mbind option_bind].
  change (idle_thread s2) with (idle_thread s1).
  rewrite <- (tick_priority_unlinked th th1 Hu1).
  assert (time_slice th1 = time_slice th) as Ets by (change (time_slice (unlinked th1) = time_slice th); by rewrite Hu1).
  rewrite ticked_slice by lia. unfold slice_expires.
  rewrite <- Ets. change (current_thread s) with (current_thread s0). change (idle_thread s) with (idle_thread s0).
  rewrite <- (sc_current _ _ C1), <- (sc_idle _ _ C1).
  assert (Hrun2 : scheduler_running s1 = true) by (rewrite (sc_running _ _ C1); exact Hrun).
  destruct ((time_slice th1 <=? 1) && negb (current_thread s1 =? idle_thread s1)) eqn:Eexp.
  2: { exists s2. done. }
  zbool. pose proof (so_threads _ _ _ I2 _ _ Hl2) as Hw2. pose proof (slice_positive _ Hw2).
  destruct (Z.eqb_spec (time_slice_length (ticked th1)) 0); [lia |].
  change (if u8 _ >? 100 then 100 else u8 _) with (tick_usage (ticked th1)).
  destruct (accounting_ok s2 _ _ (ticked th1) (tick_usage (ticked th1)) I2 Hl2 ltac:(done))
    as (s3 & E3 & I3 & C3 & Hl3 & _).
  change (current_thread s2) with (current_thread s1) in *.
  destruct (update_cpu_usage (current_thread s1) _ s2) as [s2'|]; [|done]. cbn [mbind option_bind] in E3 |- *.
  rewrite E3. cbn [mbind option_bind].
  assert (Ec3 : current_thread s3 = current_thread s1) by apply C3. rewrite <- Ec3 in Hl3 |- *.
  destruct (enqueue_current_ok s3 _ _ _ I3 Hl3) as (s4 & E4 & W4 & _ & C4 & _). rewrite E4.
  cbn [mbind option_bind]. exists (set_need_reschedule true s4). split_and!; try done.
  - cbn. by rewrite (sc_current _ _ C4).
  - cbn. by rewrite (sc_running _ _ C4), (sc_running _ _ C3).
  - cbn. by rewrite (sc_idle _ _ C4), (sc_idle _ _ C3).
Qed.

(** ** Start *)

Lemma scheduler_start_ok s Q S :
  squeues s Q S -> threads_ok s -> is_Some (load (idle_thread s) s) -> idle_thread s ∉ S ->
  let '(t, Q') := selected (idle_thread s) Q in
  exists s' th, scheduler_start s = Some s' /\ sched_ok s' Q' S /\ scheduler_running s' = true /\
    current_thread s' = t /\ load t s' = Some th /\ state th = THREAD_STATE_RUNNING /\
    tss_rsp0 s' = u64 (kernel_stack_base th + kernel_stack_size th).
Proof.
  intros W V Hi HiS. unfold scheduler_start. set (s0 := set_running true s).
  pose proof (pick_next_ok s0 Q S W V Hi HiS) as Hpick. change (idle_thread s) with (idle_thread s0).
  destruct (selected (idle_thread s0) Q) as [t Q'].
  destruct Hpick as (s1 & E1 & W1 & C1 & (th & Hl1) & Hnq & V1 & T1 & D1).
  rewrite E1. cbn [mbind option_bind].
  assert (t <> NULL).
  { intros ->. pose proof (q_null _ _ _ _ _ _ W1) as H0. unfold load in Hl1. unfold NULL in Hl1. congruence. }
  destruct (Z.eqb_spec t NULL); [done |]. cbv zeta.
  rewrite (store_some _ _ _ _ Hl1). cbn [mbind option_bind].
  erewrite store_some by (unfold load; cbn; apply lookup_insert_eq). cbn [mbind option_bind].
  unfold load at 1. cbn [set_current_thread with_threads set_sys sys set_threads threads].
  rewrite insert_insert_eq, lookup_insert_eq. cbn [mbind option_bind].
  eexists _, _. split; [done |]. destruct C1 as [C1a C1b C1c C1d C1e].
  split_and!; try done; try apply lookup_insert_eq; try reflexivity; [].
  pose proof (V1 _ _ Hl1) as Hw. split.
  - eapply (squeues_store s1); done.
  - intros u thu Hu. unfold load in Hu. cbn in Hu. apply lookup_insert_Some in Hu as [[_ <-]|[_ Hu]]; [|by apply (V1 u)].
    destruct Hw; split; done.
  - cbn. rewrite C1a. split; [|done]. unfold load. cbn. apply lookup_insert_is_Some'. right. by apply D1.
  - cbn. split; [|done]. unfold load. cbn. apply lookup_insert_is_Some'. by left.
Qed.

(** ** Exit *)

Lemma thread_exit_ok s Q S :
  sched_ok s Q S -> scheduler_running s = true -> current_thread s <> idle_thread s ->
  let '(t, Q') := selected (idle_thread s) Q in
  exists s', thread_exit s = Some s' /\ sched_ok s' Q' S /\ current_thread s' = t /\
    scheduler_running s' = true /\ idle_thread s' = idle_thread s /\ t <> current_thread s.
Proof.
  intros I Hrun Hne. destruct (sched_running _ _ _ I Hrun) as [Eg (th & Hl & Hw)].
  unfold thread_exit, thread_current. rewrite Hrun in Eg. cbn [negb orb] in Eg. rewrite Eg.
  rewrite (store_some _ _ _ _ Hl). cbn [mbind option_bind].
  assert (Hw' : thread_wf (set_state THREAD_STATE_TERMINATED th)) by (destruct Hw; split; done).
  pose proof (sched_ok_store _ _ _ th (set_state THREAD_STATE_TERMINATED th) I Hl Hw') as I0.
  assert (Hst : state (set_state THREAD_STATE_TERMINATED th) = THREAD_STATE_TERMINATED) by done.
  revert I0 Hw' Hst. generalize (set_state THREAD_STATE_TERMINATED th) as th'. intros th' I0 Hw' Hst.
  set (s0 := with_threads _ s) in *. unfold thread_yield, scheduler_yield.
  change (scheduler_running s0) with (scheduler_running s). rewrite Hrun. cbn [negb orb].
  change (current_thread s0) with (current_thread s). rewrite Eg.
  apply (sched_ok_resched _ _ _ false) in I0. set (s1 := set_need_reschedule false s0) in *.
  assert (Hl1 : load (current_thread s1) s1 = Some th') by apply lookup_insert_eq.
  assert (Ec1 : current_thread s1 = current_thread s) by done.
  assert (Ei1 : idle_thread s1 = idle_thread s) by done.
  assert (Er1 : scheduler_running s1 = true) by exact Hrun.
  clearbody s1. rewrite <- Ec1, <- Ei1 in Hne |- *. clear Eg Hl Hw I s0.
  cbv zeta. rewrite Hl1. cbn [mbind option_bind].
  destruct (Z.eqb_spec (current_thread s1) (idle_thread s1)); [done |]. cbn [negb andb].
  pose proof (slice_positive _ Hw'). destruct (Z.gtb_spec (time_slice_length th') 0); [|lia].
  destruct (accounting_ok s1 Q S _ (yield_usage th') I0 Hl1 ltac:(done)) as (s2 & E2 & I2 & C2 & Hl2 & _).
  unfold yield_usage in E2 at 1. rewrite E2. cbn [mbind option_bind]. rewrite Hl2. cbn [mbind option_bind].
  assert (Est : state (accounted (yield_usage th') th') = THREAD_STATE_TERMINATED).
  { rewrite <- Hst. unfold accounted, with_priority. by destruct (adjusted_priority _ =? _). }
  rewrite decide_False by (rewrite Est; tauto). cbn [mbind option_bind].
  destruct I2 as [W2 V2 [Hi2 HiS2] [Hc2 Hn2]].
  pose proof (schedule_ok s2 Q S W2 V2 Hi2 HiS2 Hc2) as Hs.
  rewrite (sc_idle _ _ C2), (sc_current _ _ C2) in Hs. rewrite (sc_current _ _ C2) in Hn2.
  pose proof (first_ready_spec (Z.to_nat PRIORITY_LEVELS) 0 Q) as Hfirst. unfold selected in *.
  destruct (first_ready (Z.to_nat PRIORITY_LEVELS) 0 Q) as [[[q t] l]|];
    destruct Hs as (s' & E & I' & Ec & Ei & Er & _); exists s'; split_and!; try done;
    try (rewrite Er, (sc_running _ _ C2); exact Er1).
  intros ->. apply Hn2. right. exists q. destruct Hfirst as (_ & -> & _). left.
Qed.

(** ** Reachable states

    The steps of the kernel: a thread appears in the store (what
    [thread_create_priority] does), is added; the scheduler starts; the running
    thread yields, sleeps, blocks or exits; another thread is unblocked; the
    timer interrupts a thread whose slice does not run out. *)
Inductive sched_step : sched -> sched -> Prop :=
  | step_spawn s t th :
      t <> 0 -> load t s = None -> thread_wf th -> state th = THREAD_STATE_CREATED ->
      sched_step s (with_threads (<[t := th]> (threads (sys s))) s)
  | step_add s t th s' :
      load t s = Some th -> state th = THREAD_STATE_CREATED -> t <> current_thread s ->
      scheduler_add t s = Some s' -> sched_step s s'
  | step_start s s' :
      scheduler_running s = false -> scheduler_start s = Some s' -> sched_step s s'
  | step_yield s th s' :
      scheduler_running s = true -> load (current_thread s) s = Some th ->
      state th <> THREAD_STATE_TERMINATED -> thread_yield s = Some s' -> sched_step s s'
  | step_sleep s ms s' :
      scheduler_running s = true -> current_thread s <> idle_thread s ->
      thread_sleep_ms ms s = Some s' -> sched_step s s'
  | step_block s s' :
      scheduler_running s = true -> scheduler_block (current_thread s) s = Some s' -> sched_step s s'
  | step_unblock s t s' :
      t <> current_thread s -> scheduler_unblock t s = Some s' -> sched_step s s'
  | step_exit s s' :
      scheduler_running s = true -> current_thread s <> idle_thread s ->
      thread_exit s = Some s' -> sched_step s s'
  | step_irq s th s' :
      scheduler_running s = true -> load (current_thread s) s = Some th -> 0 <= time_slice th ->
      slice_expires s th = false -> timer_irq_handler s = Some s' -> sched_step s s'.

(** Before the start only the queues and the idle thread matter. *)
Definition kernel_ok (s : sched) : Prop :=
  exists Q S, (if scheduler_running s then sched_ok s Q S
    else squeues s Q S /\ threads_ok s /\ is_Some (load (idle_thread s) s) /\ idle_thread s ∉ S).

Lemma squeues_created s Q S t th :
  squeues s Q S -> load t s = Some th ->
  state th <> THREAD_STATE_READY -> state th <> THREAD_STATE_SLEEPING -> ~ queued Q S t.
Proof.
  intros W Hl H1 H2 [H|(p & H)].
  - destruct (q_smember _ _ _ _ _ _ W _ H) as (a & Ha & Hs). unfold load in Hl. congruence.
  - destruct (q_member _ _ _ _ _ _ W _ _ H) as (_ & a & Ha & Hs & _). unfold load in Hl. congruence.
Qed.

Lemma step_enqueue s t th s' :
  kernel_ok s -> load t s = Some th -> state th <> THREAD_STATE_READY -> state th <> THREAD_STATE_SLEEPING ->
  t <> current_thread s -> enqueue_ready t s = Some s' -> kernel_ok s'.
Proof.
  intros (Q & S & I) Hl H1 H2 Hc E. unfold kernel_ok. destruct (scheduler_running s) eqn:Er.
  - pose proof (squeues_created _ _ _ _ _ (so_queues _ _ _ I) Hl H1 H2) as Hn.
    destruct (enqueue_other_ok s Q S t th I Hl Hn Hc) as (s1 & E1 & I1 & _ & R1 & _).
    rewrite E in E1. injection E1 as <-. rewrite R1, Er. eauto.
  - destruct I as (W & V & Hi & HiS). pose proof (squeues_created _ _ _ _ _ W Hl H1 H2) as Hn.
    pose proof (V _ _ Hl) as Hw.
    destruct (enqueue_ready_ok s Q S t th W Hl Hn (tw_priority _ Hw))
      as (s1 & E1 & W1 & [C1 C2 C3 C4 C5] & _ & (th' & Hl' & Hu') & T1).
    rewrite E in E1. injection E1 as <-. rewrite C3, Er. eexists _, _. split_and!; [exact W1 | | | by rewrite C1].
    + apply (threads_ok_same s s' t); try done. intros th2 Hth2. assert (th2 = th') as -> by congruence.
      apply (thread_wf_unlinked (set_state THREAD_STATE_READY th)); [done |]. destruct Hw; split; done.
    + rewrite C1. destruct (decide (idle_thread s = t)) as [->|Hne]; [by eexists |].
      specialize (T1 _ Hne). unfold same_threads in T1. destruct Hi as (a & Ha). rewrite Ha in T1.
      destruct (load (idle_thread s) s'); [by eexists | done].
Qed.

Lemma step_insert s t th :
  kernel_ok s -> t <> 0 -> load t s = None -> thread_wf th ->
  kernel_ok (with_threads (<[t := th]> (threads (sys s))) s).
Proof.
  intros (Q & S & I) Ht Hn Hw. unfold kernel_ok. cbn [scheduler_running with_threads set_sys].
  assert (Hother : forall u, is_Some (load u s) -> load u (with_threads (<[t := th]> (threads (sys s))) s) = load u s).
  { intros u (a & Ha). unfold load. cbn. rewrite lookup_insert_ne; [done |]. intros ->. congruence. }
  assert (Hframe : squeues s Q S -> squeues (with_threads (<[t := th]> (threads (sys s))) s) Q S).
  { intros W. unfold squeues. cbn. eapply queues_frame; [exact W | |].
    - rewrite lookup_insert_ne by done. apply (q_null _ _ _ _ _ _ W).
    - intros u Hu. apply (Hother u). by eapply squeues_some. }
  assert (Hok : threads_ok s -> threads_ok (with_threads (<[t := th]> (threads (sys s))) s)).
  { intros V u a Ha. unfold load in Ha. cbn in Ha. apply lookup_insert_Some in Ha as [[_ <-]|[_ Ha]]; [done |].
    by apply (V u). }
  exists Q, S. destruct (scheduler_running s).
  - destruct I as [W V [Hi HiS] [Hc Hq]]. split; auto.
    + split; [|done]. change (idle_thread (with_threads _ s)) with (idle_thread s). by rewrite Hother.
    + split; [|done]. change (current_thread (with_threads _ s)) with (current_thread s). by rewrite Hother.
  - destruct I as (W & V & Hi & HiS). split_and!; auto.
    change (idle_thread (with_threads _ s)) with (idle_thread s). by rewrite Hother.
Qed.

Lemma kernel_running s : kernel_ok s -> scheduler_running s = true -> exists Q S, sched_ok s Q S.
Proof. intros (Q & S & I) E. rewrite E in I. eauto. Qed.
Lemma running_kernel s Q S : sched_ok s Q S -> scheduler_running s = true -> kernel_ok s.
Proof. intros I E. exists Q, S. by rewrite E. Qed.

Lemma sched_step_ok s s' : sched_step s s' -> kernel_ok s -> kernel_ok s'.
Proof.
  destruct 1 as [s t th Ht Hn Hw Hst|s t th s' Hl Hst Hne E|s s' Er E|s th s' Er Hl Hst E|s ms s' Er Hne E
    |s s' Er E|s t s' Hne E|s s' Er Hne E|s th s' Er Hl Hts Hexp E]; intros K.
  - by apply step_insert.
  - unfold scheduler_add in E. destruct (t =? NULL); [by injection E as <- |].
    by eapply step_enqueue; [done | done | rewrite Hst | rewrite Hst | done | done].
  - destruct K as (Q & S & I). rewrite Er in I. destruct I as (W & V & Hi & HiS).
    pose proof (scheduler_start_ok s Q S W V Hi HiS) as H. destruct (selected _ Q) as [t Q'].
    destruct H as (s1 & th & E1 & I1 & R1 & _). rewrite E in E1. injection E1 as <-.
    by eapply running_kernel.
  - destruct (kernel_running _ K Er) as (Q & S & I). pose proof (scheduler_yield_ok s Q S th I Er Hl Hst) as H.
    cbv zeta in H. destruct (selected _ _) as [t Q']. destruct H as (s1 & E1 & I1 & _ & R1 & _).
    unfold thread_yield in E. rewrite E in E1. injection E1 as <-. by eapply running_kernel.
  - destruct (kernel_running _ K Er) as (Q & S & I). unfold thread_sleep_ms, thread_current in E.
    destruct (current_thread s =? NULL); [by injection E as <- |].
    pose proof (scheduler_sleep_ok s Q S (u64 (ticks s + ms)) I Er Hne) as H.
    cbv zeta in H. destruct (selected _ _) as [t Q']. destruct H as (s1 & E1 & I1 & _ & R1 & _).
    rewrite E in E1. injection E1 as <-. by eapply running_kernel.
  - destruct (kernel_running _ K Er) as (Q & S & I). pose proof (scheduler_block_ok s Q S I Er) as H.
    cbv zeta in H. destruct (selected _ _) as [t Q']. destruct H as (s1 & E1 & I1 & _ & R1 & _).
    rewrite E in E1. injection E1 as <-. by eapply running_kernel.
  - unfold scheduler_unblock in E. destruct (load t s) as [th|] eqn:Hl; [|done]. cbn [mbind option_bind] in E.
    destruct (decide (state th = THREAD_STATE_BLOCKED)) as [Hst|]; [|by injection E as <-].
    eapply (step_enqueue (upd_stats (add_blocked (-1)) s)); [ | exact Hl | by rewrite Hst | by rewrite Hst | done | done].
    destruct K as (Q & S & I). exists Q, S. cbn. destruct (scheduler_running s); [|done].
    by apply (sched_ok_stats _ _ _ (add_blocked (-1) (stats s))) in I.
  - destruct (kernel_running _ K Er) as (Q & S & I). pose proof (thread_exit_ok s Q S I Er Hne) as H.
    destruct (selected _ _) as [t Q']. destruct H as (s1 & E1 & I1 & _ & R1 & _).
    rewrite E in E1. injection E1 as <-. by eapply running_kernel.
  - destruct (kernel_running _ K Er) as (Q & S & I). unfold timer_irq_handler in E.
    assert (I0 : sched_ok (set_ticks (u64 (ticks s + 1)) s) Q S) by (destruct I as [W V Hi Hc]; by split).
    pose proof (scheduler_tick_ok _ Q S th I0 Er Hl Hts) as H.
    destruct (expired _ _ S) as [woken rest]. cbv zeta in H.
    destruct H as (s1 & E1 & _ & R1 & _ & H). change (slice_expires _ th) with (slice_expires s th) in H.
    rewrite Hexp in H. rewrite E in E1. injection E1 as <-. by eapply running_kernel.
Qed.

(** The state [scheduler_init] leaves: empty queues and the idle thread. *)
Lemma squeues_empty m at0 nt pm sw st bq idl cur run nr tk tss :
  m !! 0 = None ->
  squeues (Sched (ThreadSys m at0 nt pm sw) (replicate 7 NULL) (replicate 7 NULL) NULL bq idl cur st run nr tk tss)
    (fun _ => []) [].
Proof.
  intros H0. unfold squeues. cbn [sys threads ready_queue_heads ready_queue_tails sleep_queue].
  split; [done | | set_solver | | set_solver | constructor].
  - intros p Hp. exists 0, 0. unfold PRIORITY_LEVELS in Hp.
    rewrite !lookup_replicate_2 by lia. split_and!; try done. apply dll_nil.
  - split; [done | constructor].
Qed.

Lemma scheduler_init_ok hhdm wrapper entry s p0 live :
  threads (sys s) = ∅ -> scheduler_running s = false ->
  client_inv p0 (t_pmm (sys s)) live ->
  0 <= hhdm -> hhdm + memory_base (phys_mem p0) + total_blocks (phys_mem p0) * BITMAP_BLOCK_SIZE
    < 0x10000000000000000 ->
  exists s', scheduler_init hhdm wrapper entry s = Some s' /\
    scheduler_running s' = false /\ current_thread s' = current_thread s /\
    (idle_thread s' = NULL /\ client_inv p0 (t_pmm (sys s')) live \/
     squeues s' (fun _ => []) [] /\ threads_ok s' /\ stats s' = zero_stats /\
     exists th, load (idle_thread s') s' = Some th /\ state th = THREAD_STATE_READY /\
       priority th = PRIORITY_IDLE /\
       exists page stk, idle_thread s' = page + hhdm /\ client_inv p0 (t_pmm (sys s')) ((stk, 2) :: (page, 1) :: live)).
Proof.
  intros Hm Hrun I Hh Hlim. unfold scheduler_init.
  destruct s as [[m tbl tid0 pm sw] hs ts sq bq idl cur st run0 nr tk tss].
  cbn in Hm, Hrun, I. subst m run0.
  cbn [set_heads set_tails set_sleep_queue set_sys sys ready_queue_heads ready_queue_tails sleep_queue
    idle_thread current_thread scheduler_running need_reschedule ticks tss_rsp0 stats blocked_queue].
  set (y := thread_init _).
  destruct (thread_create_priority_ok hhdm wrapper [105; 100; 108; 101] entry NULL PRIORITY_IDLE y p0 live I
    ltac:(done) Hh Hlim) as (t & y' & E & H).
  rewrite E. cbn [mbind option_bind].
  destruct H as [(-> & I' & _)|(th & page & stk & -> & I' & _ & F)].
  { change (NULL =? NULL) with true. cbv iota. eexists. split; [done |]. split_and!; try done. by left. }
  pose proof (client_bounds _ _ _ page 1 I' ltac:(right; left)) as (Hp & _).
  destruct (Z.eqb_spec (page + hhdm) NULL); [unfold NULL in *; lia |].
  destruct F as [F1 F2 F3 F4 F5 F6 F7 F8 F9 F10 F11 F12]. cbn [threads y thread_init] in F1.
  erewrite store_some by (unfold load; cbn; rewrite F1; apply lookup_insert_eq).
  eexists. split; [done |]. split; [done |]. split; [done |]. right.
  unfold load. cbn. rewrite F1. cbn. rewrite insert_insert_eq.
  change (if (6 <? 7) then _ else _) with PRIORITY_IDLE in F5, F6.
  change (PRIORITY_IDLE <? PRIORITY_LEVELS) with true in *. cbv iota in *. split_and!.
  - apply squeues_empty. by rewrite lookup_insert_ne by lia.
  - intros u thu Hu. unfold load in Hu. cbn in Hu.
    apply lookup_insert_Some in Hu as [[_ <-]|[_ Hu]]; [|by rewrite lookup_empty in Hu].
    destruct F5 as [F5 F5'], F6 as [F6 F6'], F7 as (F7 & F7' & F7'').
    split; cbn; rewrite ?F5, ?F5', ?F6, ?F7', ?F7''; done.
  - done.
  - eexists. rewrite lookup_insert_eq. split; [done |]. split; [done |]. split; [apply F5 |]. by exists page, stk.
Qed.

(** ** Theorems *)

(** C5. Scheduler invariant.  From the state [scheduler_init] leaves, whatever
    sequence of thread creations, additions, start, yields, sleeps, blocks,
    unblocks, exits and timer interrupts inside a time slice happens: every
    ready queue is a doubly linked list without repetition of READY threads
    of its priority, the sleep queue a list of SLEEPING threads sorted by wake
    time, no thread is in two queues, the links never leave the thread store, and
    once the scheduler runs the running thread exists and is in no queue. *)
Theorem scheduler_invariant hhdm wrapper entry s0 s1 s p0 live :
  threads (sys s0) = ∅ -> scheduler_running s0 = false -> client_inv p0 (t_pmm (sys s0)) live ->
  0 <= hhdm -> hhdm + memory_base (phys_mem p0) + total_blocks (phys_mem p0) * BITMAP_BLOCK_SIZE
    < 0x10000000000000000 ->
  scheduler_init hhdm wrapper entry s0 = Some s1 -> idle_thread s1 <> NULL ->
  rtc sched_step s1 s ->
  exists Q S, squeues s Q S /\ threads_ok s /\ NoDup S /\ (forall p, NoDup (Q p)) /\
    (forall p q t, t ∈ Q p -> t ∈ Q q -> p = q) /\ (forall p t, t ∈ Q p -> t ∈ S -> False) /\
    (scheduler_running s = true ->
       is_Some (load (current_thread s) s) /\ ~ queued Q S (current_thread s)).
Proof.
  intros Hm Hr I Hh Hlim Hinit Hidle Hsteps.
  destruct (scheduler_init_ok hhdm wrapper entry s0 p0 live Hm Hr I Hh Hlim)
    as (s1' & E & Hr1 & _ & H). rewrite Hinit in E. injection E as <-.
  destruct H as [[? _]|(W & V & _ & th & Hl & _)]; [done |].
  assert (K1 : kernel_ok s1).
  { exists (fun _ => []), []. rewrite Hr1. split_and!; [done | done | by eexists | set_solver]. }
  destruct (rtc_invariant sched_step kernel_ok sched_step_ok _ _ Hsteps K1) as (Q & S & K).
  assert (squeues s Q S /\ threads_ok s /\ (scheduler_running s = true ->
    is_Some (load (current_thread s) s) /\ ~ queued Q S (current_thread s))) as (W' & V' & Hc).
  { destruct (scheduler_running s); [destruct K; auto | by destruct K as (? & ? & _)]. }
  exists Q, S. split_and!; try done.
  - exact (proj2 (q_sleep _ _ _ _ _ _ W')).
  - intros p. destruct (Q p) as [|a l] eqn:E; [constructor |].
    destruct (q_member _ _ _ _ _ _ W' p a) as [Hp _]; [rewrite E; left |].
    destruct (q_ready _ _ _ _ _ _ W' p Hp) as (h & tl & _ & _ & D). rewrite <- E. apply D.
  - intros p q t Hp Hq. by eapply queue_disjoint.
  - intros p t Hp Hs. by eapply queue_not_sleeping.
Qed.


(** C7. One timer tick wakes exactly the sleepers whose time has come, in wake
    order, each at the tail of its priority's ready queue, and the running thread
    goes on running.  When its slice runs out (and it is not the idle thread),
    the tick also appends the thread that is still running to a ready queue. *)
Theorem scheduler_tick_spec s Q S th :
  sched_ok s Q S -> scheduler_running s = true -> load (current_thread s) s = Some th ->
  0 <= time_slice th ->
  let '(woken, rest) := expired (wake_at (threads (sys s))) (ticks s) S in
  let Q' := enqueue_all (prio_at s) woken Q in
  exists s', scheduler_tick s = Some s' /\ current_thread s' = current_thread s /\
    scheduler_running s' = true /\ idle_thread s' = idle_thread s /\
    if slice_expires s th
    then squeues s' (upd_queue (tick_priority th) (Q' (tick_priority th) ++ [current_thread s]) Q') rest /\
         need_reschedule s' = true
    else sched_ok s' Q' rest.
Proof. apply scheduler_tick_ok. Qed.

(** [scheduler_sleep] of the running thread puts it in the sleep queue after
    every thread that wakes no later, and the CPU goes to the head of the first
    non-empty ready queue, or to the idle thread when there is none. *)
Theorem scheduler_sleep_spec s Q S wake :
  sched_ok s Q S -> scheduler_running s = true -> current_thread s <> idle_thread s ->
  let c := current_thread s in
  let wk := fun u => if u =? c then wake else wake_at (threads (sys s)) u in
  let '(t, Q') := selected (idle_thread s) Q in
  exists s', scheduler_sleep c wake s = Some s' /\ sched_ok s' Q' (sleep_insert wk c S) /\
    current_thread s' = t /\ scheduler_running s' = true /\ idle_thread s' = idle_thread s.
Proof. apply scheduler_sleep_ok. Qed.

Lemma sum16_sum l k :
  0 <= k -> Forall (fun x => 0 <= x <= 0xFF) l -> k + 0xFF * Z.of_nat (length l) < 0x10000 ->
  sum16 k l = k + foldr Z.add 0 l.
Proof.
  revert k. induction l as [|x l IH]; intros k Hk Hl Hb; cbn [sum16 foldr]; [lia |].
  apply list.Forall_cons in Hl as [Hx Hl]. cbn [length] in Hb. rewrite u16_small by lia.
  rewrite IH by (done || lia). lia.
Qed.

Lemma foldr_add_bounds l : Forall (fun x => 0 <= x <= 0xFF) l -> 0 <= foldr Z.add 0 l <= 0xFF * Z.of_nat (length l).
Proof. induction 1 as [|x l Hx _ IH]; cbn [foldr length]; lia. Qed.

(** Priority adaptation: the average is the mean of the last eight usage
    samples (no overflow of the 16-bit sum), the priority moves by at most one
    level, away from 0 only above 80 % and not beyond LOW, back only below 30 %
    and not above the base priority, never for a real-time thread, and the
    time slice stays the one of the priority. *)
Theorem priority_adaptation_spec th usage :
  thread_wf th -> 0 <= usage <= 0xFF -> Forall (fun x => 0 <= x <= 0xFF) (cpu_usage_history th) ->
  let th' := accounted usage th in
  let h := <[Z.to_nat (history_index th) := usage]> (cpu_usage_history th) in
  thread_wf th' /\ cpu_usage_history th' = h /\ avg_cpu_usage th' = foldr Z.add 0 h / 8 /\
  Z.abs (priority th' - priority th) <= 1 /\
  (priority th' > priority th -> avg_cpu_usage th' > 80 /\ priority th' <= PRIORITY_LOW) /\
  (priority th' < priority th -> avg_cpu_usage th' < 30 /\ base_priority th <= priority th') /\
  (base_priority th = PRIORITY_REALTIME -> priority th' = priority th).
Proof.
  intros W Hu Hh th' h.
  assert (Hw : thread_wf (with_usage usage th)).
  { destruct W. split; cbn; try done; [by rewrite length_insert | unfold CPU_HISTORY_SAMPLES; zlia]. }
  assert (Hf : Forall (fun x => 0 <= x <= 0xFF) h) by (by apply Forall_insert).
  assert (Hlen : length h = 8%nat) by (subst h; rewrite length_insert; apply W).
  pose proof (foldr_add_bounds h Hf) as Hs. rewrite Hlen in Hs.
  assert (Havg : avg_cpu_usage (with_usage usage th) = foldr Z.add 0 h / 8).
  { cbn. fold h. rewrite sum16_sum by (done || rewrite ?Hlen; lia). unfold CPU_HISTORY_SAMPLES.
    rewrite Z.add_0_l. apply u8_small. zlia. }
  pose proof (accounted_wf usage th W Hw) as Hw'.
  assert (Hp : priority th' = adjusted_priority (with_usage usage th) /\
    avg_cpu_usage th' = avg_cpu_usage (with_usage usage th) /\ cpu_usage_history th' = h).
  { subst th'. unfold accounted, with_priority.
    destruct (Z.eqb_spec (adjusted_priority (with_usage usage th)) (priority (with_usage usage th))); done. }
  destruct Hp as (Hp & Ha & Hc). rewrite Ha, Havg, Hp. split; [done |]. split; [done |]. split; [done |].
  unfold adjusted_priority. rewrite Havg. change (priority (with_usage usage th)) with (priority th).
  change (base_priority (with_usage usage th)) with (base_priority th).
  destruct W as [W1 W2 _ _ _].
  unfold PRIORITY_REALTIME, PRIORITY_DEMOTE_THRESHOLD, PRIORITY_BOOST_THRESHOLD, PRIORITY_LOW, PRIORITY_LEVELS in *.
  rewrite !Z.gtb_ltb. zcases; lia.
Qed.

(** [thread_set_priority] on a queued thread, then [scheduler_remove]: the
    queue of the new priority is emptied, whatever it holds, and the thread
    stays at the head of its old queue. *)
Theorem set_priority_then_remove s Q S p t p' y :
  squeues s Q S -> 0 <= p < PRIORITY_LEVELS -> Q p = [t] -> 0 <= p' < PRIORITY_LEVELS -> p' <> p ->
  thread_set_priority t p' (sys s) = Some y ->
  exists s', scheduler_remove t (set_sys y s) = Some s' /\
    head_at p s' = Some t /\ head_at p' s' = Some NULL /\ tail_at p' s' = Some NULL.
Proof.
  intros W Hp EQ Hp' Hne E.
  destruct (q_ready _ _ _ _ _ _ W p Hp) as (h & tl & Eh & Et & D). rewrite EQ in D.
  destruct (q_ready _ _ _ _ _ _ W p' Hp') as (h' & tl' & Eh' & Et' & _).
  destruct (q_member _ _ _ _ _ _ W p t) as (_ & th & Hl & Hst & _); [rewrite EQ; left |].
  assert (t <> 0) as Ht by (intros ->; pose proof (q_null _ _ _ _ _ _ W); congruence).
  assert (prev th = 0 /\ next th = 0) as [Hpr Hnx].
  { pose proof (dll_member _ _ _ [] t [] D) as Hm. unfold tlinks in Hm. rewrite Hl in Hm. cbn in Hm.
    split; congruence. }
  assert (h = t) as -> by (by destruct D).
  unfold thread_set_priority in E. destruct (Z.eqb_spec t NULL); [done |].
  unfold PRIORITY_LEVELS in *. destruct (Z.ltb_spec p' 7); [|lia]. cbn [negb andb] in E.
  rewrite (upd_thread_some _ _ _ _ Hl) in E. injection E as <-.
  destruct s as [[m tbl tid0 pm sw] hs ts sq bq idl cur st run0 nr tk tss].
  unfold scheduler_remove, remove_from_ready. cbn in *. destruct (Z.eqb_spec t NULL); [done |].
  run. rewrite lookup_insert_eq. run. rewrite decide_True by exact Hst.
  run. rewrite ?lookup_insert_eq. run. rewrite Hpr. run. unfold head_at. run. rewrite Eh'. run.
  rewrite ?lookup_insert_eq. run. rewrite Hnx. run. unfold tail_at. run. rewrite Et'. run.
  rewrite ?lookup_insert_eq. run. rewrite ?lookup_insert_eq. run.
  eexists. split; [done |]. unfold head_at, tail_at. run.
  rewrite list_lookup_insert_ne by lia.
  rewrite !list_lookup_insert_eq by (by eapply lookup_lt_Some). by rewrite ?Hpr, ?Hnx.
Qed.

(** A thread that is the tail of its ready queue and is enqueued again
    becomes its own successor and predecessor: the queue is a cycle.  The tick
    at which a slice runs out leaves the running thread in that position, and
    both the next tick and [scheduler_yield] enqueue it again. *)
Theorem enqueue_twice_self_loop s Q S p l t :
  squeues s Q S -> Q p = l ++ [t] ->
  exists s' th, enqueue_ready t s = Some s' /\ load t s' = Some th /\
    next th = t /\ prev th = t /\ tail_at p s' = Some t.
Proof.
  intros W EQ. destruct (q_member _ _ _ _ _ _ W p t) as (Hp & th & Hl & _ & Hpr); [rewrite EQ; set_solver |].
  destruct (q_ready _ _ _ _ _ _ W p Hp) as (h & tl & Eh & Et & D). rewrite EQ in D.
  assert (t <> 0) as Ht by (intros ->; pose proof (q_null _ _ _ _ _ _ W); congruence).
  assert (tl = t) as -> by (destruct D as [_ _ -> _ _]; by rewrite last_or_app).
  destruct s as [[m tbl tid0 pm sw] hs ts sq bq idl cur st run0 nr tk tss].
  unfold enqueue_ready. cbn in *. run. rewrite Hl. run. rewrite Hpr. unfold tail_at. run.
  rewrite Et. run. rewrite ?lookup_insert_eq. run.
  destruct (Z.eqb_spec t NULL); [done |]. run. rewrite ?lookup_insert_eq. run.
  unfold tail_at. run. rewrite Et. run. rewrite ?lookup_insert_eq. run.
  eexists _, _. split; [done |]. run. rewrite lookup_insert_eq. split; [done |].
  split; [done |]. split; [done |]. unfold tail_at. run.
  rewrite list_lookup_insert_eq by (by eapply lookup_lt_Some). done.
Qed.

(** ** Concrete instances *)

Definition demo_thread (slice : Z) : thread :=
  set_time_slice slice (init_thread 2 [65] 0x1000 0 0x300000 PRIORITY_NORMAL zero_thread).

Lemma demo_thread_wf slice : thread_wf (demo_thread slice).
Proof. split; cbn; done. Qed.

Definition demo_s0 : sched :=
  Sched (ThreadSys ∅ [] 1 demo_pmm (fun _ => 0)) [] [] 0 0 0 0 zero_stats false false 0 0.
Definition run_or (s : sched) (o : option sched) : sched := default s o.
Definition demo_s1 : sched := run_or demo_s0 (scheduler_init 0 0xffffffff80001000 0x1000 demo_s0).
Definition demo_s2 : sched := with_threads (<[0x200000 := demo_thread 1]> (threads (sys demo_s1))) demo_s1.
Definition demo_s3 : sched := with_threads (<[0x201000 := demo_thread 22]> (threads (sys demo_s2))) demo_s2.
Definition demo_s4 : sched := run_or demo_s0 (scheduler_add 0x200000 demo_s3).
Definition demo_s5 : sched := run_or demo_s0 (scheduler_add 0x201000 demo_s4).
(** A runs with one tick left, B is ready. *)
Definition demo_s6 : sched := run_or demo_s0 (scheduler_start demo_s5).
Definition demo_s7 : sched := run_or demo_s0 (scheduler_yield demo_s6).
Definition demo_s8 : sched := run_or demo_s0 (timer_irq_handler demo_s7).
Definition demo_s9 : sched := run_or demo_s0 (thread_sleep_ms 5 demo_s8).

Definition demo_th6 : thread := default zero_thread (load 0x200000 demo_s6).
Definition demo_th7 : thread := default zero_thread (load 0x201000 demo_s7).
(** After the tick at which its slice ran out, A yields. *)
Definition demo_tick6 : sched := run_or demo_s0 (scheduler_tick demo_s6).
Definition demo_yield6 : sched := run_or demo_s0 (scheduler_yield demo_tick6).
#[global] Opaque demo_s1 demo_s2 demo_s3 demo_s4 demo_s5 demo_s6 demo_s7 demo_s8 demo_s9
  demo_tick6 demo_yield6 demo_th6 demo_th7.

Lemma demo_init : scheduler_init 0 0xffffffff80001000 0x1000 demo_s0 = Some demo_s1.
Proof. vm_compute. reflexivity. Qed.

Lemma demo_steps5 : rtc sched_step demo_s1 demo_s5.
Proof.
  eapply rtc_l; [apply (step_spawn demo_s1 0x200000 (demo_thread 1));
    [done | vm_compute; reflexivity | apply demo_thread_wf | done] |].
  eapply rtc_l; [apply (step_spawn demo_s2 0x201000 (demo_thread 22));
    [done | vm_compute; reflexivity | apply demo_thread_wf | done] |].
  eapply rtc_l; [apply (step_add demo_s3 0x200000 (demo_thread 1) demo_s4);
    [vm_compute; reflexivity | done | vm_compute; discriminate | vm_compute; reflexivity] |].
  eapply rtc_l; [apply (step_add demo_s4 0x201000 (demo_thread 22) demo_s5);
    [vm_compute; reflexivity | done | vm_compute; discriminate | vm_compute; reflexivity] |].
  apply rtc_refl.
Qed.

Lemma demo_step_start : sched_step demo_s5 demo_s6.
Proof. apply step_start; vm_compute; reflexivity. Qed.

Lemma demo_steps9 : rtc sched_step demo_s6 demo_s9.
Proof.
  eapply rtc_l; [apply (step_yield demo_s6 demo_th6 demo_s7);
    [vm_compute; reflexivity | vm_compute; reflexivity | vm_compute; discriminate | vm_compute; reflexivity] |].
  eapply rtc_l; [apply (step_irq demo_s7 demo_th7 demo_s8);
    [vm_compute; reflexivity | vm_compute; reflexivity | vm_compute; discriminate
    | vm_compute; reflexivity | vm_compute; reflexivity] |].
  eapply rtc_l; [apply (step_sleep demo_s8 5 demo_s9);
    [vm_compute; reflexivity | vm_compute; discriminate | vm_compute; reflexivity] |].
  apply rtc_refl.
Qed.

Lemma demo_client : client_inv demo_pmm demo_pmm [].
Proof. apply client_inv_init; [exact demo_wf | cbn; lia]. Qed.

Lemma scheduler_invariant_witness :
  rtc sched_step demo_s1 demo_s9 /\ current_thread demo_s9 = 0x200000 /\
  exists Q S, squeues demo_s9 Q S /\ ~ queued Q S 0x200000.
Proof.
  assert (rtc sched_step demo_s1 demo_s9) as Hr.
  { transitivity demo_s5; [exact demo_steps5 | eapply rtc_l; [exact demo_step_start | exact demo_steps9]]. }
  assert (current_thread demo_s9 = 0x200000) as Hc by (vm_compute; reflexivity).
  destruct (scheduler_invariant 0 0xffffffff80001000 0x1000 demo_s0 demo_s1 demo_s9 demo_pmm []
    eq_refl eq_refl demo_client ltac:(lia) ltac:(vm_compute; reflexivity) demo_init
    ltac:(vm_compute; discriminate) Hr) as (Q & S & W & _ & _ & _ & _ & _ & H).
  split; [exact Hr |]. split; [exact Hc |]. exists Q, S. split; [exact W |].
  rewrite <- Hc. apply H. vm_compute. reflexivity.
Defined.

Lemma demo_kernel1 : kernel_ok demo_s1.
Proof.
  destruct (scheduler_init_ok 0 0xffffffff80001000 0x1000 demo_s0 demo_pmm [] eq_refl eq_refl demo_client
    ltac:(lia) ltac:(vm_compute; reflexivity)) as (s & E & Er & _ & H).
  rewrite demo_init in E. apply (inj Some) in E. subst s.
  destruct H as [[H _]|(W & V & _ & th & Hl & _)]; [exfalso; revert H; vm_compute; discriminate |].
  exists (fun _ => []), []. rewrite Er. split; [exact W |]. split; [exact V |].
  split; [exists th; exact Hl | apply not_elem_of_nil].
Qed.

Lemma demo_ok6 : exists Q S, sched_ok demo_s6 Q S.
Proof.
  apply kernel_running; [|vm_compute; reflexivity].
  apply (sched_step_ok demo_s5); [exact demo_step_start |].
  apply (rtc_invariant sched_step kernel_ok sched_step_ok _ _ demo_steps5 demo_kernel1).
Qed.


(** The slice of A runs out: it is left running and queued. *)
Lemma scheduler_tick_spec_witness :
  slice_expires demo_s6 demo_th6 = true /\
  exists Q S s', scheduler_tick demo_s6 = Some s' /\ squeues s' Q S /\ queued Q S (current_thread s').
Proof.
  assert (slice_expires demo_s6 demo_th6 = true) as Hx by (vm_compute; reflexivity).
  split; [exact Hx |]. destruct demo_ok6 as (Q & S & I).
  pose proof (scheduler_tick_spec demo_s6 Q S demo_th6 I ltac:(vm_compute; reflexivity)
    ltac:(vm_compute; reflexivity) ltac:(vm_compute; discriminate)) as H.
  destruct (expired _ _ S) as [woken rest] in H. cbv zeta in H.
  destruct H as (s' & E & Ec & _ & _ & H). rewrite Hx in H. destruct H as [W _].
  eexists _, rest, s'. split; [exact E |]. split; [exact W |]. right. exists (tick_priority demo_th6).
  unfold upd_queue. rewrite Z.eqb_refl, Ec. apply elem_of_app. right. apply list_elem_of_singleton. reflexivity.
Defined.

Lemma scheduler_sleep_spec_witness :
  exists Q S s', scheduler_sleep 0x200000 5 demo_s6 = Some s' /\ sched_ok s' Q S.
Proof.
  destruct demo_ok6 as (Q & S & I).
  pose proof (scheduler_sleep_spec demo_s6 Q S 5 I ltac:(vm_compute; reflexivity)
    ltac:(vm_compute; discriminate)) as H.
  cbv zeta in H. destruct (selected _ _) as [t Q'] in H. destruct H as (s' & E & I' & _).
  assert (current_thread demo_s6 = 0x200000) as Ec by (vm_compute; reflexivity).
  eexists Q', _, s'. rewrite <- Ec. split; [exact E | exact I'].
Defined.

Lemma priority_adaptation_spec_witness :
  thread_wf (demo_thread 22) /\ priority (accounted 100 (demo_thread 22)) = 3.
Proof.
  split; [apply demo_thread_wf |].
  destruct (priority_adaptation_spec (demo_thread 22) 100 (demo_thread_wf 22) ltac:(lia)
    ltac:(repeat constructor; lia)) as (_ & _ & Ha & _ & H1 & H2 & _).
  assert (avg_cpu_usage (accounted 100 (demo_thread 22)) = 56) as Ea by (rewrite Ha; vm_compute; reflexivity).
  change (priority (demo_thread 22)) with 3 in H1, H2.
  destruct (Z.lt_trichotomy (priority (accounted 100 (demo_thread 22))) 3) as [H|[H|H]];
    [apply H2 in H; lia | exact H | specialize (H1 ltac:(lia)); lia].
Defined.

(** The queue of priority 3 is then a cycle on A. *)
Lemma enqueue_twice_self_loop_witness :
  scheduler_tick demo_s6 = Some demo_tick6 /\
  (exists s' th, enqueue_ready 0x200000 demo_tick6 = Some s' /\
     load 0x200000 s' = Some th /\ next th = 0x200000) /\
  scheduler_yield demo_tick6 = Some demo_yield6 /\
  head_at 3 demo_yield6 = Some 0x200000 /\ next <$> load 0x200000 demo_yield6 = Some 0x200000.
Proof.
  assert (scheduler_tick demo_s6 = Some demo_tick6) as Et by (vm_compute; reflexivity).
  split; [exact Et |]. split; [|split; [vm_compute; reflexivity | split; vm_compute; reflexivity]].
  destruct demo_ok6 as (Q & S & I).
  pose proof (scheduler_tick_ok demo_s6 Q S demo_th6 I ltac:(vm_compute; reflexivity)
    ltac:(vm_compute; reflexivity) ltac:(vm_compute; discriminate)) as H.
  destruct (expired _ _ S) as [woken rest] in H. cbv zeta in H.
  destruct H as (s' & E & _ & _ & _ & H). rewrite Et in E. apply (inj Some) in E. subst s'.
  assert (slice_expires demo_s6 demo_th6 = true) as Hx by (vm_compute; reflexivity).
  rewrite Hx in H. destruct H as [W _].
  assert (current_thread demo_s6 = 0x200000) as Ec by (vm_compute; reflexivity). rewrite Ec in W.
  destruct (enqueue_twice_self_loop demo_tick6 _ rest (tick_priority demo_th6) _ 0x200000 W
    ltac:(unfold upd_queue; rewrite Z.eqb_refl; reflexivity)) as (s' & th & E1 & E2 & E3 & _).
  exists s', th. split; [exact E1 |]. split; [exact E2 | exact E3].
Defined.

Lemma demo_queues3 : squeues demo_s3 (fun _ => []) [].
Proof.
  split; [vm_compute; reflexivity | | set_solver | | set_solver | constructor].
  - intros p Hp. unfold PRIORITY_LEVELS in Hp. exists 0, 0.
    change (ready_queue_heads demo_s3) with (replicate 7 0).
    change (ready_queue_tails demo_s3) with (replicate 7 0).
    rewrite !lookup_replicate_2 by lia. split_and!; try done. apply dll_nil.
  - split; [vm_compute; reflexivity | constructor].
Qed.

Definition demo_repri : thread_sys :=
  default (sys demo_s4) (thread_set_priority 0x200000 1 (sys demo_s4)).

Lemma set_priority_then_remove_witness :
  thread_set_priority 0x200000 1 (sys demo_s4) = Some demo_repri /\
  exists s', scheduler_remove 0x200000 (set_sys demo_repri demo_s4) = Some s' /\
    head_at 3 s' = Some 0x200000.
Proof.
  assert (thread_set_priority 0x200000 1 (sys demo_s4) = Some demo_repri) as Ey by (vm_compute; reflexivity).
  split; [exact Ey |].
  destruct (enqueue_ready_ok demo_s3 _ _ 0x200000 (demo_thread 1) demo_queues3) as (s & E & W & _);
    [vm_compute; reflexivity | intros [H|(p & H)]; exact (not_elem_of_nil _ H) | vm_compute; split; [discriminate | reflexivity] |].
  assert (scheduler_add 0x200000 demo_s3 = Some demo_s4) as E4 by (vm_compute; reflexivity).
  change (scheduler_add 0x200000 demo_s3) with (enqueue_ready 0x200000 demo_s3) in E4.
  rewrite E4 in E. apply (inj Some) in E. subst s.
  destruct (set_priority_then_remove demo_s4 _ [] 3 0x200000 1 demo_repri W
    ltac:(unfold PRIORITY_LEVELS; lia) eq_refl ltac:(unfold PRIORITY_LEVELS; lia) ltac:(lia) Ey)
    as (s' & E1 & E2 & _).
  exists s'. split; [exact E1 | exact E2].
Defined.
