(* ===== verification/Checksum.v ===== *)
(** * Internet checksums and packet buffers

    The checksum functions of [ip.c], [icmp.c], [udp.c] and [tcp.c] share their
    loops; they are modelled here over packet buffers, lists of bytes, together
    with the field accessors of the packed header structures.  A field is read
    at its offset in little-endian order, as the processor does; the protocol
    code swaps the bytes itself. *)

From S2P Require Import Prelude.

(** ** Field accessors *)

Definition get8 (buf : list Z) (o : nat) : Z := default 0 (buf !! o).
Definition get16 (buf : list Z) (o : nat) : Z := le_val (take 2 (drop o buf)).
Definition get32 (buf : list Z) (o : nat) : Z := le_val (take 4 (drop o buf)).
Definition getn (n : nat) (buf : list Z) (o : nat) : list Z := take n (drop o buf).

(** Overwriting the bytes from offset [o]. *)
Definition put (o : nat) (l buf : list Z) : list Z := take o buf ++ l ++ drop (o + length l) buf.
Definition put16 (o : nat) (x : Z) (buf : list Z) : list Z := put o (le_bytes 2 x) buf.

(** ** The loops *)

(** Sum of [k] 16-bit words from word [i], in a [uint32_t]. *)
Fixpoint sum_words (k : nat) (i : nat) (buf : list Z) (sum : Z) : Z :=
  match k with
  | O => sum
  | S k' => sum_words k' (S i) buf (u32 (sum + get16 buf (2 * i)))
  end.

(** [while (sum >> 16) sum = (sum & 0xFFFF) + (sum >> 16)], at most [fuel]
    iterations; [fold_carry_spec] shows that three reach the exit. *)
Fixpoint fold_carry (fuel : nat) (sum : Z) : Z :=
  match fuel with
  | O => sum
  | S f => if Z.shiftr sum 16 =? 0 then sum
           else fold_carry f (u32 (Z.land sum 0xFFFF + Z.shiftr sum 16))
  end.

(** [return ~sum] as a [uint16_t]. *)
Definition complement (sum : Z) : Z := u16 (Z.lnot (fold_carry 3 sum)).

Definition IP_HEADER_LEN : Z := 20.

Definition ip_checksum (header : list Z) : Z :=
  complement (sum_words (Z.to_nat (IP_HEADER_LEN / 2)) 0 header 0).

Definition icmp_checksum (header : list Z) (len : Z) : Z :=
  let sum := sum_words (Z.to_nat (len / 2)) 0 header 0 in
  let sum := if Z.land len 1 =? 0 then sum
             else u32 (sum + Z.shiftl (get8 header (Z.to_nat (len - 1))) 8) in
  complement sum.

Definition ip_validate_checksum (header : list Z) : bool :=
  get16 header 10 =? ip_checksum (put16 10 0 header).

(** ** RFC 1071

    [be_sum]: the sum of the big-endian 16-bit words, a last odd byte being
    padded with a zero byte.  A packet verifies when the one's complement sum,
    checksum included, is 0xFFFF. *)

Fixpoint be_sum (l : list Z) : Z :=
  match l with
  | a :: b :: l' => 256 * a + b + be_sum l'
  | [a] => 256 * a
  | [] => 0
  end.

Fixpoint le_sum (l : list Z) : Z :=
  match l with
  | a :: b :: l' => a + 256 * b + le_sum l'
  | [a] => a
  | [] => 0
  end.

Definition rfc1071_verifies (l : list Z) : Prop := fold_carry 3 (be_sum l) = 0xFFFF.

(** Induction by pairs. *)
Lemma pair_ind (P : list Z -> Prop) :
  P [] -> (forall a, P [a]) -> (forall a b l, P l -> P (a :: b :: l)) -> forall l, P l.
Proof.
  intros H0 H1 H2. assert (forall l, P l /\ forall a, P (a :: l)) as H; [|intros l; apply H].
  induction l as [|a l [IH1 IH2]]; split; auto.
Qed.

Lemma le_sum_bounds l : bytes l -> 0 <= le_sum l <= 0x10000 * Z.of_nat (length l).
Proof.
  induction l as [|a|a b l IH] using pair_ind; intros H; cbn [le_sum length]; [lia | |].
  - inversion H; subst. lia.
  - inversion H as [|? ? Ha H']; subst. inversion H' as [|? ? Hb H'']; subst. specialize (IH H''). lia.
Qed.

Lemma be_sum_bounds l : bytes l -> 0 <= be_sum l <= 0x10000 * Z.of_nat (length l).
Proof.
  induction l as [|a|a b l IH] using pair_ind; intros H; cbn [be_sum length]; [lia | |].
  - inversion H; subst. lia.
  - inversion H as [|? ? Ha H']; subst. inversion H' as [|? ? Hb H'']; subst. specialize (IH H''). lia.
Qed.

(** Byte order does not matter modulo 65535. *)
Lemma be_le_sum l : (be_sum l - 256 * le_sum l) mod 0xFFFF = 0.
Proof.
  induction l as [|a|a b l IH] using pair_ind; cbn [be_sum le_sum]; [done | zlia |].
  replace (256 * a + b + be_sum l - 256 * (a + 256 * b + le_sum l))
    with (be_sum l - 256 * le_sum l + (- b) * 0xFFFF) by lia.
  by rewrite Z.mod_add.
Qed.

Lemma be_sum_0 l : bytes l -> be_sum l = 0 <-> le_sum l = 0.
Proof.
  induction l as [|a|a b l IH] using pair_ind; intros H; cbn [be_sum le_sum]; [done | |].
  - inversion H; subst. lia.
  - inversion H as [|? ? Ha H']; subst. inversion H' as [|? ? Hb H'']; subst. specialize (IH H'').
    pose proof (le_sum_bounds l H''). pose proof (be_sum_bounds l H''). lia.
Qed.

(** Carry folding: three iterations reach a 16-bit value, congruent modulo
    65535 to the sum, and zero only when the sum is. *)
Lemma fold_step s :
  0 <= s < 0x100000000 -> u32 (Z.land s 0xFFFF + Z.shiftr s 16) = s mod 0x10000 + s / 0x10000.
Proof.
  intros H. change 0xFFFF with (Z.ones 16). rewrite Z.land_ones by lia. rewrite Z.shiftr_div_pow2 by lia.
  change (2 ^ 16) with 0x10000. rewrite u32_small; zlia.
Qed.

Lemma shiftr16_0 s : 0 <= s -> (Z.shiftr s 16 =? 0) = (s <? 0x10000).
Proof.
  intros H. rewrite Z.shiftr_div_pow2 by lia. change (2 ^ 16) with 0x10000. zcases; zlia.
Qed.

Lemma fold_carry_step f s :
  0 <= s < 0x100000000 ->
  fold_carry (S f) s = if s <? 0x10000 then s else fold_carry f (s mod 0x10000 + s / 0x10000).
Proof. intros H. cbn [fold_carry]. rewrite shiftr16_0, fold_step by lia. done. Qed.

Lemma fold_carry_spec s :
  0 <= s < 0x100000000 ->
  0 <= fold_carry 3 s < 0x10000 /\ fold_carry 3 s mod 0xFFFF = s mod 0xFFFF /\
  (fold_carry 3 s = 0 <-> s = 0).
Proof.
  intros H. rewrite fold_carry_step by done. destruct (Z.ltb_spec s 0x10000); [lia |].
  set (s1 := s mod 0x10000 + s / 0x10000).
  assert (0 < s1 <= 0x1FFFE /\ s1 mod 0xFFFF = s mod 0xFFFF) as [H1 E1] by (subst s1; split; zlia).
  clearbody s1. rewrite fold_carry_step by lia. destruct (Z.ltb_spec s1 0x10000); [lia |].
  set (s2 := s1 mod 0x10000 + s1 / 0x10000).
  assert (0 < s2 < 0x10000 /\ s2 mod 0xFFFF = s1 mod 0xFFFF) as [H3 E2] by (subst s2; split; zlia).
  clearbody s2. rewrite fold_carry_step by lia. destruct (Z.ltb_spec s2 0x10000); lia.
Qed.

Lemma complement_eq s : 0 <= s < 0x100000000 -> complement s = 0xFFFF - fold_carry 3 s.
Proof.
  intros H. unfold complement. destruct (fold_carry_spec s H) as (Hr & _).
  generalize dependent (fold_carry 3 s). intros r Hr. unfold Z.lnot. word.
Qed.

(** The word loop computes [le_sum]. *)
Lemma get16_pair (a b : Z) l : get16 (a :: b :: l) 0 = a + 256 * b.
Proof. unfold get16. change (take 2 (drop 0 (a :: b :: l))) with [a; b]. cbn [le_val]. lia. Qed.

Lemma get16_drop buf i : get16 buf (2 * S i) = get16 (drop 2 buf) (2 * i).
Proof. unfold get16. rewrite drop_drop. f_equal. f_equal. f_equal. lia. Qed.

Lemma sum_words_shift k i buf s : sum_words k (S i) buf s = sum_words k i (drop 2 buf) s.
Proof.
  revert i s. induction k as [|k IH]; intros i s; cbn [sum_words]; [done |].
  rewrite IH, get16_drop. done.
Qed.

Lemma sum_words_le k buf s :
  bytes buf -> (2 * k <= length buf)%nat -> 0 <= s -> s + 0x10000 * Z.of_nat (2 * k) < 0x100000000 ->
  sum_words k 0 buf s = s + le_sum (take (2 * k) buf).
Proof.
  revert buf s. induction k as [|k IH]; intros buf s Hb Hl Hs Hlim.
  { change (take (2 * 0) buf) with (@nil Z). cbn [sum_words le_sum]. lia. }
  destruct buf as [|a [|b l]]; cbn [length] in Hl; [lia | lia |].
  inversion Hb as [|? ? Ha Hb']; subst. inversion Hb' as [|? ? Hb1 Hb'']; subst.
  cbn [sum_words]. rewrite sum_words_shift. change (2 * 0)%nat with 0%nat.
  rewrite get16_pair. change (drop 2 (a :: b :: l)) with l. rewrite u32_small by lia.
  rewrite IH by (done || lia). replace (2 * S k)%nat with (S (S (2 * k))) by lia.
  change (take (S (S (2 * k))) (a :: b :: l)) with (a :: b :: take (2 * k) l). cbn [le_sum]. lia.
Qed.

Lemma sum_words_ext k buf buf' s :
  take (2 * k) buf = take (2 * k) buf' -> sum_words k 0 buf s = sum_words k 0 buf' s.
Proof.
  revert buf buf' s. induction k as [|k IH]; intros buf buf' s H; [done |].
  cbn [sum_words]. rewrite !sum_words_shift.
  assert (get16 buf (2 * 0) = get16 buf' (2 * 0)) as ->.
  { unfold get16. rewrite !drop_0. apply (f_equal (take 2)) in H.
    rewrite !take_take in H. replace (2 `min` (2 * S k))%nat with 2%nat in H by lia. by rewrite H. }
  apply IH. apply (f_equal (drop 2)) in H. rewrite !skipn_firstn_comm in H.
  by replace (2 * S k - 2)%nat with (2 * k)%nat in H by lia.
Qed.

Lemma le_sum_app l k : Nat.Even (length l) -> le_sum (l ++ k) = le_sum l + le_sum k.
Proof.
  induction l as [|a|a b l IH] using pair_ind; intros [n Hn]; cbn in *; [done | lia |].
  rewrite IH; [lia |]. exists (n - 1)%nat. lia.
Qed.

Lemma be_sum_app l k : Nat.Even (length l) -> be_sum (l ++ k) = be_sum l + be_sum k.
Proof.
  induction l as [|a|a b l IH] using pair_ind; intros [n Hn]; cbn in *; [done | lia |].
  rewrite IH; [lia |]. exists (n - 1)%nat. lia.
Qed.

(** The core of RFC 1071: storing the complement of the sum makes the packet
    verify, in whichever byte order it is summed. *)
Lemma complement_verifies l1 l2 s :
  bytes (l1 ++ l2) -> Nat.Even (length l1) -> Z.of_nat (length (l1 ++ l2)) <= 0x1000 ->
  s = le_sum (l1 ++ l2) ->
  rfc1071_verifies (l1 ++ le_bytes 2 (complement s) ++ l2).
Proof.
  intros Hb He Hlen ->. unfold rfc1071_verifies.
  apply bytes_app in Hb as [Hb1 Hb2].
  rewrite be_sum_app by done. rewrite length_app in Hlen.
  pose proof (be_sum_bounds l1 Hb1). pose proof (be_sum_bounds l2 Hb2).
  pose proof (le_sum_bounds l1 Hb1). pose proof (le_sum_bounds l2 Hb2).
  rewrite le_sum_app by done. set (S := le_sum l1 + le_sum l2).
  assert (0 <= S < 0x100000000) as HS by (subst S; lia).
  rewrite complement_eq by done. destruct (fold_carry_spec S HS) as (Hr & Hmod & Hr0).
  set (r := fold_carry 3 S) in *. clearbody r.
  assert (be_sum (le_bytes 2 (0xFFFF - r) ++ l2) =
    256 * ((0xFFFF - r) mod 256) + (0xFFFF - r) / 256 mod 256 + be_sum l2) as -> by done.
  assert (Hb12 : (be_sum l1 + be_sum l2 - 256 * S) mod 0xFFFF = 0).
  { pose proof (be_le_sum l1). pose proof (be_le_sum l2). subst S.
    generalize dependent (be_sum l1). generalize dependent (be_sum l2).
    generalize dependent (le_sum l1). generalize dependent (le_sum l2). intros. zlia. }
  set (B := be_sum l1 + be_sum l2) in *.
  set (t := be_sum l1 + (256 * ((0xFFFF - r) mod 256) + (0xFFFF - r) / 256 mod 256 + be_sum l2)).
  assert (Ht : t = B + (256 * ((0xFFFF - r) mod 256) + (0xFFFF - r) / 256)) by (subst t B; zlia).
  assert (Ht0 : 0 <= t < 0x100000000) by (subst t; zlia).
  assert (HB : 0 <= B) by (subst B; lia).
  assert (HB0 : B = 0 <-> S = 0).
  { subst B S. pose proof (be_sum_0 l1 Hb1). pose proof (be_sum_0 l2 Hb2). lia. }
  destruct (fold_carry_spec t Ht0) as (Hf & Hfm & Hf0).
  assert (Htm : t mod 0xFFFF = 0).
  { rewrite Ht. clearbody B S. clear - Hmod Hb12 Hr. zlia. }
  assert (Htp : 0 < t).
  { destruct (Z.eq_dec r 0xFFFF) as [->|]; [|rewrite Ht; zlia].
    rewrite Ht. change ((0xFFFF - 0xFFFF) mod 256) with 0. change ((0xFFFF - 0xFFFF) / 256) with 0. lia. }
  rewrite Htm in Hfm. zlia.
Qed.

(** ** The checksum functions *)

Lemma bytes_zero2 : bytes [0; 0].
Proof. repeat constructor; lia. Qed.

Lemma put_split o l l1 c l2 :
  length l1 = o -> length c = length l -> put o l (l1 ++ c ++ l2) = l1 ++ l ++ l2.
Proof.
  intros H1 H2. unfold put. rewrite take_app_length', drop_app_ge by lia.
  replace (o + length l - length l1)%nat with (length c) by lia.
  by rewrite drop_app_length.
Qed.

Lemma get16_split o l1 c l2 : length l1 = o -> length c = 2%nat -> get16 (l1 ++ c ++ l2) o = le_val c.
Proof.
  intros <- H2. unfold get16. rewrite drop_app_length. by rewrite take_app_length'.
Qed.

(** The checksum of a message with a zero checksum field, even length. *)
Lemma sum_even l1 l2 :
  bytes (l1 ++ l2) -> Nat.Even (length l1) -> Nat.Even (length l2) ->
  Z.of_nat (length (l1 ++ l2)) <= 0x1000 ->
  sum_words (length (l1 ++ [0; 0] ++ l2) / 2) 0 (l1 ++ [0; 0] ++ l2) 0 = le_sum (l1 ++ l2).
Proof.
  intros Hb He1 He2 Hl. apply bytes_app in Hb as [Hb1 Hb2]. rewrite !length_app in *. cbn [length].
  destruct He1 as [n1 E1], He2 as [n2 E2].
  assert ((length l1 + (2 + length l2)) / 2 = n1 + 1 + n2)%nat as ->.
  { rewrite E1, E2. replace (2 * n1 + (2 + 2 * n2))%nat with ((n1 + 1 + n2) * 2)%nat by lia. by apply Nat.div_mul. }
  rewrite sum_words_le; [| | rewrite !length_app; cbn [length]; lia | lia | lia].
  - rewrite take_ge by (rewrite !length_app; cbn [length]; lia).
    rewrite le_sum_app by (by exists n1). rewrite (le_sum_app [0; 0]) by (by exists 1%nat).
    rewrite le_sum_app by (by exists n1). change (le_sum [0; 0]) with 0. lia.
  - by repeat (apply bytes_app; split); try apply bytes_zero2.
Qed.

(** C9. The IP header checksum is that of RFC 1071 and round-trips: a 20-byte
    header whose checksum field is set to [ip_checksum] of the header with a
    zero field verifies by the RFC (the one's complement sum of its big-endian
    words is 0xFFFF), and [ip_validate_checksum] accepts it. *)
Theorem ip_checksum_rfc1071 l1 c l2 :
  bytes (l1 ++ l2) -> length l1 = 10%nat -> length c = 2%nat -> length l2 = 8%nat ->
  let h := put16 10 (ip_checksum (put16 10 0 (l1 ++ c ++ l2))) (l1 ++ c ++ l2) in
  rfc1071_verifies h /\ ip_validate_checksum h = true.
Proof.
  intros Hb H1 Hc H2 h.
  assert (E0 : put16 10 0 (l1 ++ c ++ l2) = l1 ++ [0; 0] ++ l2) by (by apply put_split).
  assert (Ec : ip_checksum (l1 ++ [0; 0] ++ l2) = complement (le_sum (l1 ++ l2))).
  { unfold ip_checksum. f_equal. rewrite <- (sum_even l1 l2); [| done | by exists 5%nat | by exists 4%nat |
      rewrite length_app; lia].
    f_equal. rewrite !length_app, H1, H2. done. }
  assert (Eh : h = l1 ++ le_bytes 2 (complement (le_sum (l1 ++ l2))) ++ l2).
  { subst h. rewrite E0, Ec. by apply put_split. }
  rewrite Eh. split.
  - apply complement_verifies; [done | by exists 5%nat | rewrite length_app; lia | done].
  - unfold ip_validate_checksum. rewrite get16_split by (done || apply length_le_bytes).
    unfold put16 at 1. rewrite put_split by (done || by rewrite length_le_bytes).
    change (le_bytes 2 0) with [0; 0]. rewrite Ec. apply Z.eqb_eq.
    rewrite le_val_le_bytes. change (0x100 ^ Z.of_nat 2) with 0x10000.
    apply Z.mod_small. apply u16_range.
Qed.

(** An ICMP message: type and code, checksum field, the rest. *)
Lemma icmp_checksum_even l1 l2 :
  bytes (l1 ++ l2) -> length l1 = 2%nat -> Nat.Even (length l2) -> Z.of_nat (length l2) <= 0xF00 ->
  let len := Z.of_nat (4 + length l2) in
  icmp_checksum (l1 ++ [0; 0] ++ l2) len = complement (le_sum (l1 ++ l2)).
Proof.
  intros Hb H1 [n Hn] Hl len. unfold icmp_checksum.
  assert (len = Z.of_nat (2 + n) * 2) as E by (subst len; lia).
  assert (Z.land len 1 = 0) as ->.
  { change 1 with (Z.ones 1). rewrite Z.land_ones by lia. rewrite E. change (2 ^ 1) with 2. by apply Z.mod_mul. }
  rewrite Z.eqb_refl. f_equal. rewrite E, Z.div_mul by lia. rewrite Nat2Z.id.
  rewrite <- (sum_even l1 l2); [| done | by exists 1%nat | by exists n | rewrite length_app; lia].
  f_equal. rewrite !length_app, H1, Hn. cbn [length].
  replace (2 + (2 + 2 * n))%nat with ((2 + n) * 2)%nat by lia. by rewrite Nat.div_mul.
Qed.

Lemma icmp_checksum_odd l1 l2 b :
  bytes (l1 ++ l2) -> 0 <= b < 0x100 -> length l1 = 2%nat -> Nat.Even (length l2) -> Z.of_nat (length l2) <= 0xF00 ->
  let len := Z.of_nat (5 + length l2) in
  icmp_checksum (l1 ++ [0; 0] ++ l2 ++ [b]) len = complement (le_sum (l1 ++ l2) + 256 * b).
Proof.
  intros Hb Hbb H1 [n Hn] Hl len. unfold icmp_checksum.
  assert (len = 1 + Z.of_nat (2 + n) * 2) as E by (subst len; lia).
  assert (Z.land len 1 = 1) as ->.
  { change 1 with (Z.ones 1) at 1. rewrite Z.land_ones by lia. rewrite E. change (2 ^ 1) with 2. zlia. }
  change (1 =? 0) with false. cbv iota.
  assert (len / 2 = Z.of_nat (2 + n)) as -> by (rewrite E; zlia). rewrite Nat2Z.id.
  assert (Es : sum_words (2 + n) 0 (l1 ++ [0; 0] ++ l2 ++ [b]) 0 = le_sum (l1 ++ l2)).
  { rewrite <- (sum_even l1 l2); [| done | by exists 1%nat | by exists n | rewrite length_app; lia].
    rewrite !length_app, H1, Hn. cbn [length].
    replace (2 + (2 + 2 * n))%nat with ((2 + n) * 2)%nat by lia. rewrite Nat.div_mul by lia.
    apply sum_words_ext. replace (l1 ++ [0; 0] ++ l2 ++ [b]) with ((l1 ++ [0; 0] ++ l2) ++ [b]) by (by rewrite <- !app_assoc).
    rewrite take_app_le; [done |]. rewrite !length_app, H1, Hn. cbn [length]. lia. }
  rewrite Es.
  assert (get8 (l1 ++ [0; 0] ++ l2 ++ [b]) (Z.to_nat (len - 1)) = b) as ->.
  { unfold get8. replace (l1 ++ [0; 0] ++ l2 ++ [b]) with ((l1 ++ [0; 0] ++ l2) ++ [b]) by (by rewrite <- !app_assoc).
    rewrite list_lookup_middle; [done |]. rewrite !length_app, H1. cbn [length]. lia. }
  rewrite Z.shiftl_mul_pow2 by lia. change (2 ^ 8) with 256.
  pose proof (le_sum_bounds (l1 ++ l2) Hb). rewrite length_app in *.
  rewrite u32_small by lia. by rewrite (Z.mul_comm b).
Qed.

(** ICMP checksums of even-length messages are those of RFC 1071; of
    odd-length messages they are not, the last byte being added as the high byte
    of a little-endian word: unless that byte is zero, no receiver that follows
    the RFC accepts the message. *)
Theorem icmp_checksum_parity l1 l2 b :
  bytes (l1 ++ l2) -> 0 < b < 0x100 -> length l1 = 2%nat -> Nat.Even (length l2) ->
  Z.of_nat (length l2) <= 0xF00 ->
  rfc1071_verifies (l1 ++ le_bytes 2 (icmp_checksum (l1 ++ [0; 0] ++ l2) (Z.of_nat (4 + length l2))) ++ l2) /\
  ~ rfc1071_verifies (l1 ++ le_bytes 2 (icmp_checksum (l1 ++ [0; 0] ++ l2 ++ [b])
      (Z.of_nat (5 + length l2))) ++ l2 ++ [b]).
Proof.
  intros Hb Hbb H1 H2 Hl. split.
  - rewrite icmp_checksum_even by done.
    apply complement_verifies; [done | by exists 1%nat | rewrite length_app; lia | done].
  - rewrite icmp_checksum_odd by (done || lia). intros Hv. unfold rfc1071_verifies in Hv.
    apply bytes_app in Hb as [Hb1 Hb2].
    pose proof (be_sum_bounds l1 Hb1). pose proof (be_sum_bounds l2 Hb2).
    pose proof (le_sum_bounds l1 Hb1). pose proof (le_sum_bounds l2 Hb2).
    rewrite be_sum_app in Hv by (by exists 1%nat).
    rewrite le_sum_app in Hv by (by exists 1%nat).
    set (S := le_sum l1 + le_sum l2) in *.
    assert (0 <= S + 256 * b < 0x100000000) as HS by (subst S; lia).
    rewrite complement_eq in Hv by done. destruct (fold_carry_spec _ HS) as (Hr & Hmod & _).
    set (r := fold_carry 3 (S + 256 * b)) in *. clearbody r.
    assert (be_sum (le_bytes 2 (0xFFFF - r) ++ l2 ++ [b]) =
      256 * ((0xFFFF - r) mod 256) + (0xFFFF - r) / 256 mod 256 + be_sum (l2 ++ [b])) as Ebe by done.
    rewrite Ebe, be_sum_app in Hv by done. cbn [be_sum] in Hv.
    assert (Hb12 : (be_sum l1 + be_sum l2 - 256 * S) mod 0xFFFF = 0).
    { pose proof (be_le_sum l1). pose proof (be_le_sum l2). subst S. clear - H3 H4 H5 H6.
      generalize dependent (be_sum l1). generalize dependent (be_sum l2).
      generalize dependent (le_sum l1). generalize dependent (le_sum l2). intros. zlia. }
    set (t := be_sum l1 + (256 * ((0xFFFF - r) mod 256) + (0xFFFF - r) / 256 mod 256 + (be_sum l2 + 256 * b))) in *.
    assert (Ht : t = be_sum l1 + be_sum l2 + 256 * b + (256 * ((0xFFFF - r) mod 256) + (0xFFFF - r) / 256))
      by (subst t; zlia).
    assert (Ht0 : 0 <= t < 0x100000000) by (subst t; zlia).
    destruct (fold_carry_spec t Ht0) as (_ & Hfm & _). rewrite Hv in Hfm.
    change (0xFFFF mod 0xFFFF) with 0 in Hfm. rewrite Ht in Hfm.
    generalize dependent (be_sum l1 + be_sum l2). intros B. intros. clear - Hmod Hb12 Hfm Hr Hbb.
    clearbody S. zlia.
Qed.

Definition demo_header1 : list Z := [0x45; 0; 0; 84; 0; 1; 0x40; 0; 64; 1].
Definition demo_header2 : list Z := [10; 0; 2; 15; 10; 0; 2; 2].

Lemma ip_checksum_rfc1071_witness :
  ip_validate_checksum (put16 10 (ip_checksum (put16 10 0 (demo_header1 ++ [0; 0] ++ demo_header2)))
    (demo_header1 ++ [0; 0] ++ demo_header2)) = true.
Proof.
  apply (ip_checksum_rfc1071 demo_header1 [0; 0] demo_header2); try reflexivity.
  repeat constructor; vm_compute; discriminate.
Defined.

Lemma icmp_checksum_parity_witness :
  icmp_checksum ([8; 0] ++ [0; 0] ++ [1; 2; 3; 4] ++ [5]) 9 = complement (le_sum [8; 0; 1; 2; 3; 4] + 256 * 5) /\
  ~ rfc1071_verifies ([8; 0] ++ le_bytes 2 (icmp_checksum ([8; 0] ++ [0; 0] ++ [1; 2; 3; 4] ++ [5]) 9) ++ [1; 2; 3; 4] ++ [5]).
Proof.
  split; [vm_compute; reflexivity |].
  apply (icmp_checksum_parity [8; 0] [1; 2; 3; 4] 5); try reflexivity; [|split; reflexivity|exists 2%nat; reflexivity|].
  - repeat constructor; vm_compute; discriminate.
  - vm_compute. discriminate.
Defined.
