(* ===== verification/Netdev.v ===== *)
(** * Network devices

    [netdev.c] (registration, the loopback device and its packet queue) and the
    device table of [network.c].  The state [dev] holds the static array of
    interfaces of [netdev_register], the table of interface pointers of
    [network.c], the loopback queue and the network card.  A pointer to an
    interface is its index in the static array ([None] is NULL), a buffer with
    its length is a list of bytes ([None] is NULL).

    The network card is the interface [Nic]: what [e1000.c] provides to the
    devices.  The file E1000 implements it. *)

From S2P Require Import Prelude Checksum.

(** ** Constants ([network.h]) *)

Definition MAX_NETWORK_INTERFACES : Z := 4.
Definition ETHERNET_FRAME_SIZE : Z := 1518.
Definition NET_SUCCESS : Z := 0.
Definition NET_ERROR : Z := -1.
Definition NET_TIMEOUT : Z := -2.
Definition NET_BUFFER_FULL : Z := -3.
Definition NET_INVALID_PARAM : Z := -4.

(** ** The network card as the stack sees it

    [e1000_send_packet card data] and [e1000_receive_packet card max_len], which
    also returns the bytes it stores at the start of the buffer. *)

Class Nic (nic : Type) : Type := {
  e1000_send_packet : nic -> option (list Z) -> Z * nic;
  e1000_receive_packet : nic -> Z -> Z * list Z * nic
}.

(** What the stack relies on: a positive result is the number of bytes stored,
    which fit in the buffer; otherwise nothing is stored. *)
Class NicLaws (nic : Type) `{Nic nic} : Prop := {
  nic_receive_len c n r l c' :
    0 <= n -> e1000_receive_packet c n = (r, l, c') ->
    Z.of_nat (length l) <= n /\ (0 < r -> r = Z.of_nat (length l)) /\ (r <= 0 -> l = [])
}.

(** ** Data *)

(** The driver functions an interface can point to. *)
Inductive driver := Loopback | Ethernet | E1000.

Record iface := Iface {
  mac_address : list Z;
  ip_address : Z;
  subnet_mask : Z;
  gateway : Z;
  active : bool;
  name : list Z;
  send_packet : option driver;
  receive_packet : option driver
}.

#[export] Instance iface_inhabited : Inhabited iface :=
  populate (Iface (replicate 6 0) 0 0 0 false (replicate 16 0) None None).

Definition set_active (b : bool) (i : iface) : iface :=
  Iface (mac_address i) (ip_address i) (subnet_mask i) (gateway i) b (name i) (send_packet i) (receive_packet i).
Definition set_mac_address (m : list Z) (i : iface) : iface :=
  Iface m (ip_address i) (subnet_mask i) (gateway i) (active i) (name i) (send_packet i) (receive_packet i).
Definition set_addresses (ip mask gw : Z) (i : iface) : iface :=
  Iface (mac_address i) ip mask gw (active i) (name i) (send_packet i) (receive_packet i).

Definition MAX_PACKET_QUEUE : Z := 16.

Record packet_queue := Queue {
  packets : list (list Z);
  lengths : list Z;
  head : Z;
  tail : Z;
  count : Z
}.

(** [static packet_queue_t loopback_queue = {0}] *)
Definition loopback_queue0 : packet_queue :=
  Queue (replicate 16 (replicate 1518 0)) (replicate 16 0) 0 0 0.

Record dev {nic : Type} := Dev {
  nd_interfaces : list iface;
  nd_count : Z;
  interfaces : list (option nat);
  interface_count : Z;
  loopback_queue : packet_queue;
  card : nic
}.
Arguments dev : clear implicits.

(** ** String functions *)

(** [netdev_strcmp]; a string ends at its first zero byte or at the end of the list. *)
Fixpoint netdev_strcmp (s1 s2 : list Z) : Z :=
  match s1 with
  | [] => 0 - hd 0 s2
  | c :: s1' => if negb (c =? 0) && (c =? hd 0 s2) then netdev_strcmp s1' (tl s2) else c - hd 0 s2
  end.

(** [netdev_strncpy dest src n]: the [n] bytes written to [dest]. *)
Fixpoint strncpy_loop (k : nat) (src : list Z) : list Z :=
  match k with
  | O => []
  | S k' => if hd 0 src =? 0 then [] else hd 0 src :: strncpy_loop k' (tl src)
  end.

Definition netdev_strncpy (src : list Z) (n : nat) : list Z :=
  let l := strncpy_loop (n - 1) src in l ++ replicate (n - length l) 0.

(** ** The loopback device *)

Definition loopback_send (q : packet_queue) (data : option (list Z)) : Z * packet_queue :=
  match data with
  | None => (NET_INVALID_PARAM, q)
  | Some data =>
      let len := Z.of_nat (length data) in
      if (len =? 0) || (ETHERNET_FRAME_SIZE <? len) then (NET_INVALID_PARAM, q)
      else if MAX_PACKET_QUEUE <=? count q then (NET_BUFFER_FULL, q)
      else
        let index := Z.to_nat (tail q) in
        (NET_SUCCESS,
         Queue (alter (put 0 data) index (packets q)) (<[index := len]> (lengths q))
               (head q) ((tail q + 1) mod MAX_PACKET_QUEUE) (count q + 1))
  end.

(** Returns the result, the bytes stored in the buffer, and the queue. *)
Definition loopback_receive (q : packet_queue) (max_len : Z) : Z * list Z * packet_queue :=
  if max_len =? 0 then (NET_INVALID_PARAM, [], q)
  else if count q =? 0 then (0, [], q)
  else
    let index := Z.to_nat (head q) in
    let len := default 0 (lengths q !! index) in
    if max_len <? len then (NET_ERROR, [], q)
    else (len, take (Z.to_nat len) (default [] (packets q !! index)),
          Queue (packets q) (lengths q) ((head q + 1) mod MAX_PACKET_QUEUE) (tail q) (count q - 1)).

Definition loopback_reset (q : packet_queue) : packet_queue := Queue (packets q) (lengths q) 0 0 0.

Section devices.
Context {nic : Type} {NIC : Nic nic}.
Implicit Types d : dev nic.

Definition set_queue (q : packet_queue) d : dev nic :=
  Dev nic (nd_interfaces d) (nd_count d) (interfaces d) (interface_count d) q (card d).
Definition set_card (c : nic) d : dev nic :=
  Dev nic (nd_interfaces d) (nd_count d) (interfaces d) (interface_count d) (loopback_queue d) c.

(** The interface a pointer denotes, and updating it. *)
Definition get_if d (p : nat) : iface := nd_interfaces d !!! p.
Definition upd_if (f : iface -> iface) (p : nat) d : dev nic :=
  Dev nic (alter f p (nd_interfaces d)) (nd_count d) (interfaces d) (interface_count d) (loopback_queue d) (card d).

Definition loopback_start d : Z * dev nic := (NET_SUCCESS, d).
Definition loopback_stop d : Z * dev nic := (NET_SUCCESS, set_queue (loopback_reset (loopback_queue d)) d).
Definition loopback_init_dev d : Z * dev nic := (NET_SUCCESS, set_queue (loopback_reset (loopback_queue d)) d).

Definition loopback_set_mac (p : nat) (mac : option (list Z)) d : dev nic :=
  match mac with Some m => upd_if (set_mac_address (take 6 m)) p d | None => d end.
(** The bytes [loopback_get_mac] stores, when the destination is not NULL. *)
Definition loopback_get_mac d (p : nat) : list Z := mac_address (get_if d p).

(** ** The Ethernet device *)

Definition ethernet_send (c : nic) (data : option (list Z)) : Z * nic := e1000_send_packet c data.
Definition ethernet_receive (c : nic) (max_len : Z) : Z * list Z * nic := e1000_receive_packet c max_len.
Definition ethernet_start d : Z * dev nic := (0, d).
Definition ethernet_stop (p : option nat) d : Z * dev nic :=
  match p with Some i => (0, upd_if (set_active false) i d) | None => (0, d) end.
Definition ethernet_init_dev (p : option nat) d : Z * dev nic :=
  match p with Some i => (NET_SUCCESS, upd_if (set_active true) i d) | None => (NET_INVALID_PARAM, d) end.

(** ** Operation tables *)

Record netdev_ops := Ops {
  op_init : option (nat -> dev nic -> Z * dev nic);
  op_start : option (nat -> dev nic -> Z * dev nic);
  op_stop : option (nat -> dev nic -> Z * dev nic);
  op_send : option driver;
  op_receive : option driver
}.

Definition loopback_ops : netdev_ops :=
  Ops (Some (fun _ => loopback_init_dev)) (Some (fun _ => loopback_start)) (Some (fun _ => loopback_stop))
      (Some Loopback) (Some Loopback).
Definition ethernet_ops : netdev_ops :=
  Ops (Some (fun p => ethernet_init_dev (Some p))) (Some (fun _ => ethernet_start))
      (Some (fun p => ethernet_stop (Some p))) (Some Ethernet) (Some Ethernet).
Definition e1000_netdev_ops : netdev_ops := Ops None None None (Some E1000) (Some E1000).

(** ** [network.c]: the device table *)

Definition network_register_interface (p : option nat) d : Z * dev nic :=
  match p with
  | None => (NET_ERROR, d)
  | Some i =>
      if MAX_NETWORK_INTERFACES <=? interface_count d then (NET_ERROR, d)
      else (NET_SUCCESS,
            upd_if (set_active true) i
              (Dev nic (nd_interfaces d) (nd_count d) (<[Z.to_nat (interface_count d) := Some i]> (interfaces d))
                   (interface_count d + 1) (loopback_queue d) (card d)))
  end.

Definition network_get_interface d (index : Z) : option nat :=
  if (index <? 0) || (interface_count d <=? index) then None
  else default None (interfaces d !! Z.to_nat index).

(** The call through [iface->send_packet]. *)
Definition call_send (f : driver) (data : list Z) d : Z * dev nic :=
  match f with
  | Loopback => let '(r, q) := loopback_send (loopback_queue d) (Some data) in (r, set_queue q d)
  | Ethernet => let '(r, c) := ethernet_send (card d) (Some data) in (r, set_card c d)
  | E1000 => let '(r, c) := e1000_send_packet (card d) (Some data) in (r, set_card c d)
  end.

Definition call_receive (f : driver) (max_len : Z) d : Z * list Z * dev nic :=
  match f with
  | Loopback => let '(r, l, q) := loopback_receive (loopback_queue d) max_len in (r, l, set_queue q d)
  | Ethernet => let '(r, l, c) := ethernet_receive (card d) max_len in (r, l, set_card c d)
  | E1000 => let '(r, l, c) := e1000_receive_packet (card d) max_len in (r, l, set_card c d)
  end.

Definition network_send_raw (p : option nat) (data : option (list Z)) d : Z * dev nic :=
  match p, data with
  | Some i, Some l =>
      if (Z.of_nat (length l) =? 0) || negb (active (get_if d i)) then (NET_INVALID_PARAM, d)
      else match send_packet (get_if d i) with
           | Some f => (NET_SUCCESS, (call_send f l d).2)
           | None => (NET_ERROR, d)
           end
  | _, _ => (NET_INVALID_PARAM, d)
  end.

Definition network_receive_raw (p : option nat) (max_len : Z) d : Z * list Z * dev nic :=
  match p with
  | Some i =>
      if (max_len =? 0) || negb (active (get_if d i)) then (NET_INVALID_PARAM, [], d)
      else match receive_packet (get_if d i) with
           | Some f => call_receive f max_len d
           | None => (NET_ERROR, [], d)
           end
  | None => (NET_INVALID_PARAM, [], d)
  end.

(** The loop over [interfaces[0 .. interface_count)] that returns the first
    active interface whose record satisfies [test]. *)
Fixpoint find_if (test : iface -> bool) (k : nat) (i : nat) d : option nat :=
  match k with
  | O => None
  | S k' =>
      match default None (interfaces d !! i) with
      | Some p => if active (get_if d p) && test (get_if d p) then Some p else find_if test k' (S i) d
      | None => find_if test k' (S i) d
      end
  end.

Definition network_find_interface_by_ip (ip : Z) d : option nat :=
  find_if (fun f => ip_address f =? ip) (Z.to_nat (interface_count d)) 0 d.

Definition network_find_route (dest_ip : Z) d : option nat :=
  match find_if (fun f => Z.land (ip_address f) (subnet_mask f) =? Z.land dest_ip (subnet_mask f))
                (Z.to_nat (interface_count d)) 0 d with
  | Some p => Some p
  | None => find_if (fun _ => true) (Z.to_nat (interface_count d)) 0 d
  end.

(** ** Registration *)

Definition netdev_register (nm : option (list Z)) (ops : option netdev_ops) (mac_addr : option (list Z))
    (ip netmask gw : Z) d : Z * dev nic :=
  match nm, ops with
  | Some nm, Some ops =>
      if MAX_NETWORK_INTERFACES <=? nd_count d then (NET_ERROR, d)
      else
        let p := Z.to_nat (nd_count d) in
        let cnt := nd_count d + 1 in
        let mac := match mac_addr with
                   | Some m => take 6 m
                   | None => [0x02; 0; 0; 0; 0; u8 cnt]
                   end in
        let i := Iface mac ip netmask gw false
                   (netdev_strncpy nm 15 ++ [0]) (op_send ops) (op_receive ops) in
        let d := Dev nic (<[p := i]> (nd_interfaces d)) cnt (interfaces d) (interface_count d)
                     (loopback_queue d) (card d) in
        let d := match op_init ops with Some f => (f p d).2 | None => d end in
        let d := (network_register_interface (Some p) d).2 in
        let d := match op_start ops with Some f => (f p d).2 | None => d end in
        (NET_SUCCESS, d)
  | _, _ => (NET_INVALID_PARAM, d)
  end.

Fixpoint get_by_name_loop (k : nat) (i : Z) (nm : list Z) d : option nat :=
  match k with
  | O => None
  | S k' =>
      match network_get_interface d i with
      | Some p => if netdev_strcmp (name (get_if d p)) nm =? 0 then Some p
                  else get_by_name_loop k' (i + 1) nm d
      | None => get_by_name_loop k' (i + 1) nm d
      end
  end.

Definition netdev_get_by_name (nm : option (list Z)) d : option nat :=
  match nm with
  | None => None
  | Some nm => get_by_name_loop (Z.to_nat MAX_NETWORK_INTERFACES) 0 nm d
  end.

(** "lo", "eth0" *)
Definition loopback_name : list Z := [108; 111].
Definition ethernet_name : list Z := [101; 116; 104; 48].

Definition loopback_init d : Z * dev nic :=
  netdev_register (Some loopback_name) (Some loopback_ops) (Some [0; 0; 0; 0; 0; 1]) 0x7F000001 0xFF000000 0x7F000001 d.

Definition e1000_register_netdev (e1000_initialized : bool) (mac : list Z) d : Z * dev nic :=
  if negb e1000_initialized then (-1, d)
  else netdev_register (Some ethernet_name) (Some e1000_netdev_ops) (Some mac) 0 0 0 d.

(** [e1000_init] probes the hardware: its result and the MAC address it reads
    are arguments. *)
Definition ethernet_init (e1000_init_result : Z) (mac : list Z) d : Z * dev nic :=
  if e1000_init_result =? 0 then e1000_register_netdev true mac d
  else netdev_register (Some ethernet_name) (Some ethernet_ops) (Some [0x02; 0; 0; 0x12; 0x34; 0x56]) 0 0 0 d.

(** The state of the static variables before [network_init]. *)
Definition dev0 (c : nic) : dev nic :=
  Dev nic (replicate 4 inhabitant) 0 (replicate 4 None) 0 loopback_queue0 c.

End devices.

(** ** The loopback queue is a bounded FIFO *)

Record queue_ok (q : packet_queue) : Prop := {
  qo_packets : length (packets q) = 16%nat;
  qo_packet : forall k p, packets q !! k = Some p -> length p = Z.to_nat ETHERNET_FRAME_SIZE;
  qo_lengths : length (lengths q) = 16%nat;
  qo_length : forall k n, lengths q !! k = Some n -> 0 <= n <= ETHERNET_FRAME_SIZE;
  qo_head : 0 <= head q < 16;
  qo_count : 0 <= count q <= 16;
  qo_tail : tail q = (head q + count q) mod 16
}.

(** The frame in slot [i], and the frames queued, oldest first. *)
Definition slot_frame (q : packet_queue) (i : nat) : list Z :=
  take (Z.to_nat (lengths q !!! i)) (packets q !!! i).
Definition frames (q : packet_queue) : list (list Z) :=
  map (fun k => slot_frame q (Z.to_nat ((head q + Z.of_nat k) mod 16))) (seq 0 (Z.to_nat (count q))).

(** The specification: a queue of at most 16 frames. *)
Definition fifo_send (l : list (list Z)) (data : option (list Z)) : Z * list (list Z) :=
  match data with
  | None => (NET_INVALID_PARAM, l)
  | Some f =>
      if decide (0 < Z.of_nat (length f) <= ETHERNET_FRAME_SIZE) then
        if decide (length l < 16)%nat then (NET_SUCCESS, l ++ [f]) else (NET_BUFFER_FULL, l)
      else (NET_INVALID_PARAM, l)
  end.

Definition fifo_receive (l : list (list Z)) (max_len : Z) : Z * list Z * list (list Z) :=
  if decide (max_len = 0) then (NET_INVALID_PARAM, [], l)
  else match l with
       | [] => (0, [], [])
       | f :: l' => if decide (Z.of_nat (length f) <= max_len) then (Z.of_nat (length f), f, l')
                    else (NET_ERROR, [], l)
       end.

Lemma slot_nat (x : Z) : (Z.to_nat (x mod 16) < 16)%nat.
Proof. zlia. Qed.

Lemma length_frames q : length (frames q) = Z.to_nat (count q).
Proof. unfold frames. by rewrite length_map, length_seq. Qed.

Lemma length_put o l buf : (o + length l <= length buf)%nat -> length (put o l buf) = length buf.
Proof. intros H. unfold put. rewrite !length_app, length_take, length_drop. lia. Qed.

Lemma take_put l buf : (length l <= length buf)%nat -> take (length l) (put 0 l buf) = l.
Proof. intros H. unfold put. change (take 0 buf) with (@nil Z). rewrite app_nil_l. by apply take_app_length. Qed.

Lemma slot_packet q i : queue_ok q -> (i < 16)%nat -> length (packets q !!! i) = 1518%nat.
Proof.
  intros H Hi. destruct (lookup_lt_is_Some_2 (packets q) i) as [p Hp]; [rewrite (qo_packets q H); lia |].
  rewrite (list_lookup_total_correct _ _ _ Hp). by rewrite (qo_packet q H i p Hp).
Qed.

Lemma slot_length q i : queue_ok q -> (i < 16)%nat -> 0 <= lengths q !!! i <= 1518.
Proof.
  intros H Hi. destruct (lookup_lt_is_Some_2 (lengths q) i) as [n Hn]; [rewrite (qo_lengths q H); lia |].
  rewrite (list_lookup_total_correct _ _ _ Hn). by apply (qo_length q H i n Hn).
Qed.

Lemma length_slot_frame q i :
  queue_ok q -> (i < 16)%nat -> Z.of_nat (length (slot_frame q i)) = lengths q !!! i.
Proof.
  intros H Hi. unfold slot_frame. rewrite length_take, (slot_packet q i H Hi).
  pose proof (slot_length q i H Hi). lia.
Qed.

Lemma loopback_send_refines q data :
  queue_ok q ->
  queue_ok (loopback_send q data).2 /\
  fifo_send (frames q) data = ((loopback_send q data).1, frames (loopback_send q data).2).
Proof.
  intros H. destruct data as [f|]; [|done]. cbn [loopback_send fifo_send].
  rewrite length_frames. pose proof (qo_count q H) as Hc. pose proof (qo_head q H) as Hh.
  destruct (decide (0 < Z.of_nat (length f) <= ETHERNET_FRAME_SIZE)) as [Hf|Hf].
  2: { destruct ((Z.of_nat (length f) =? 0) || (ETHERNET_FRAME_SIZE <? Z.of_nat (length f))) eqn:E; [done |].
       zbool. lia. }
  destruct ((Z.of_nat (length f) =? 0) || (ETHERNET_FRAME_SIZE <? Z.of_nat (length f))) eqn:E.
  { apply orb_true_iff in E as [E|E]; zbool; lia. }
  clear E. destruct (Z.leb_spec MAX_PACKET_QUEUE (count q)) as [Hfull|Hfull];
    unfold MAX_PACKET_QUEUE in Hfull; [rewrite decide_False by lia; by split |].
  rewrite decide_True by lia. cbn [fst snd]. pose proof (qo_tail q H) as Ht.
  set (t := Z.to_nat (tail q)). assert (Ht16 : (t < 16)%nat) by (subst t; rewrite Ht; apply slot_nat).
  assert (Hf2 : (length f <= 1518)%nat) by (unfold ETHERNET_FRAME_SIZE in Hf; lia).
  pose proof (slot_packet q t H Ht16) as Hlp.
  split.
  - split; cbn [packets lengths head tail count]; rewrite ?length_alter, ?length_insert;
      [apply (qo_packets q H) | | apply (qo_lengths q H) | | done | lia |].
    + intros k p Hp. destruct (decide (k = t)) as [->|Hk].
      * rewrite list_lookup_alter_eq in Hp. apply fmap_Some in Hp as (p0 & E0 & ->).
        rewrite (list_lookup_total_correct _ _ _ E0) in Hlp.
        rewrite length_put; [done | lia].
      * rewrite list_lookup_alter_ne in Hp by done. by apply (qo_packet q H k).
    + intros k n Hn. apply list_lookup_insert_Some in Hn as [(_ & <- & _)|(_ & Hn)]; [lia |].
      by apply (qo_length q H k).
    + rewrite Ht. unfold MAX_PACKET_QUEUE. zlia.
  - f_equal. unfold frames at 2. cbn [head count packets lengths].
    replace (Z.to_nat (count q + 1)) with (Z.to_nat (count q) + 1)%nat by lia.
    rewrite seq_app, map_app. cbn [map seq]. f_equal.
    + unfold frames. apply map_ext_in. intros k Hk%in_seq. unfold slot_frame. cbn [packets lengths].
      assert (Z.to_nat ((head q + Z.of_nat k) mod 16) <> t) as Hne by (subst t; rewrite Ht; zlia).
      rewrite list_lookup_total_insert_ne by done. by rewrite list_lookup_total_alter_ne by done.
    + f_equal. unfold slot_frame. cbn [packets lengths].
      assert (Z.to_nat ((head q + Z.of_nat (0 + Z.to_nat (count q))) mod 16) = t) as -> by (subst t; rewrite Ht; zlia).
      rewrite list_lookup_total_insert_eq by (rewrite (qo_lengths q H); lia).
      rewrite list_lookup_total_alter_eq by (rewrite (qo_packets q H); lia).
      rewrite Nat2Z.id. symmetry. apply take_put. lia.
Qed.

Lemma loopback_receive_refines q n :
  queue_ok q ->
  queue_ok (loopback_receive q n).2 /\
  fifo_receive (frames q) n = ((loopback_receive q n).1, frames (loopback_receive q n).2).
Proof.
  intros H. pose proof (qo_count q H) as Hc. pose proof (qo_head q H) as Hh.
  unfold loopback_receive, fifo_receive. destruct (Z.eqb_spec n 0) as [->|Hn]; [by split |].
  rewrite decide_False by done.
  destruct (Z.eqb_spec (count q) 0) as [E0|E0].
  { split; [exact H |]. cbn [fst snd]. assert (frames q = []) as -> by (unfold frames; by rewrite E0). done. }
  set (h := Z.to_nat (head q)). assert (Hh16 : (h < 16)%nat) by lia.
  assert (Ef : frames q = slot_frame q h :: map (fun k => slot_frame q (Z.to_nat ((head q + Z.of_nat k) mod 16))) (seq 1 (Z.to_nat (count q - 1)))).
  { unfold frames. replace (Z.to_nat (count q)) with (S (Z.to_nat (count q - 1))) by lia.
    cbn [seq map]. do 2 f_equal. subst h. zlia. }
  rewrite Ef. pose proof (length_slot_frame q h H Hh16) as Hlf.
  assert (default 0 (lengths q !! h) = lengths q !!! h) as ->.
  { rewrite (list_lookup_lookup_total_lt (lengths q)); [done | rewrite (qo_lengths q H); lia]. }
  assert (take (Z.to_nat (lengths q !!! h)) (default [] (packets q !! h)) = slot_frame q h) as ->.
  { rewrite (list_lookup_lookup_total_lt (packets q)); [done | rewrite (qo_packets q H); lia]. }
  destruct (Z.ltb_spec n (lengths q !!! h)) as [Hlt|Hge].
  { rewrite decide_False by lia. split; [exact H |]. cbn [fst snd]. by rewrite <- Ef. }
  rewrite decide_True by lia. cbn [fst snd]. split.
  - split; cbn [packets lengths head tail count]; try apply H; unfold MAX_PACKET_QUEUE; [zlia | zlia |].
    rewrite (qo_tail q H). zlia.
  - rewrite Hlf. f_equal. unfold frames. cbn [head count]. rewrite <- seq_shift, map_map.
    apply map_ext. intros k. unfold slot_frame. cbn [packets lengths]. unfold MAX_PACKET_QUEUE.
    assert (Z.to_nat ((head q + Z.of_nat (S k)) mod 16) = Z.to_nat (((head q + 1) mod 16 + Z.of_nat k) mod 16)) as -> by zlia.
    done.
Qed.

Lemma loopback_reset_ok q : queue_ok q -> queue_ok (loopback_reset q) /\ frames (loopback_reset q) = [].
Proof. intros H. split; [|done]. split; cbn; try apply H; try lia. done. Qed.

Lemma loopback_queue0_ok : queue_ok loopback_queue0.
Proof.
  split; cbn [packets lengths head tail count loopback_queue0];
    [done | | done | | done | done | done].
  - intros k p [-> _]%lookup_replicate. apply length_replicate.
  - intros k n [-> _]%lookup_replicate. done.
Qed.

(** The loopback device is a bounded FIFO: in a well-formed queue (the
    initial one is) [loopback_send] and [loopback_receive] behave, results and
    errors included, as the specification [fifo_send] and [fifo_receive] on the
    list of queued frames - up to 16 frames, delivered whole and in order, a
    full queue and an invalid length refused without change, a frame too large
    for the receiver's buffer left at the head - and keep the queue
    well-formed; stopping or initialising the device empties it. *)
Theorem loopback_fifo q data n :
  queue_ok q ->
  (queue_ok (loopback_send q data).2 /\
   fifo_send (frames q) data = ((loopback_send q data).1, frames (loopback_send q data).2)) /\
  (queue_ok (loopback_receive q n).2 /\
   fifo_receive (frames q) n = ((loopback_receive q n).1, frames (loopback_receive q n).2)) /\
  (queue_ok (loopback_reset q) /\ frames (loopback_reset q) = []).
Proof.
  intros H. split; [by apply loopback_send_refines |].
  split; [by apply loopback_receive_refines | by apply loopback_reset_ok].
Qed.

Lemma loopback_fifo_witness :
  queue_ok loopback_queue0 /\
  fifo_send (frames loopback_queue0) (Some [1; 2; 3]) =
    ((loopback_send loopback_queue0 (Some [1; 2; 3])).1, frames (loopback_send loopback_queue0 (Some [1; 2; 3])).2).
Proof.
  split; [apply loopback_queue0_ok |].
  apply (loopback_fifo loopback_queue0 (Some [1; 2; 3]) 0). apply loopback_queue0_ok.
Defined.

(** ** The device table *)

Section tables.
Context {nic : Type} {NIC : Nic nic}.
Implicit Types d : dev nic.

(** The table is in order: both arrays have four slots, the first [nd_count] of
    them are the registered interfaces, in order of registration. *)
Record dev_ok d : Prop := {
  do_interfaces : length (nd_interfaces d) = 4%nat;
  do_table : length (interfaces d) = 4%nat;
  do_count : 0 <= nd_count d <= 4;
  do_same : interface_count d = nd_count d;
  do_entry : forall k, (k < Z.to_nat (nd_count d))%nat -> interfaces d !! k = Some (Some k);
  do_queue : queue_ok (loopback_queue d)
}.

(** The registered interfaces, in table order. *)
Definition registered d : list nat := omap id (take (Z.to_nat (interface_count d)) (interfaces d)).

(** [p] is the first element of [l] with property [P]. *)
Definition first_such (P : nat -> Prop) (l : list nat) (p : nat) : Prop :=
  exists l1 l2, l = l1 ++ p :: l2 /\ P p /\ Forall (fun x => ~ P x) l1.

Lemma find_if_spec test k i d :
  match find_if test k i d with
  | Some p => first_such (fun x => active (get_if d x) && test (get_if d x) = true) (omap id (take k (drop i (interfaces d)))) p
  | None => Forall (fun x => active (get_if d x) && test (get_if d x) = false) (omap id (take k (drop i (interfaces d))))
  end.
Proof.
  revert i. induction k as [|k IH]; intros i; cbn [find_if]; [constructor |].
  destruct (interfaces d !! i) as [o|] eqn:E; cbn [default].
  2: { specialize (IH (S i)). assert (interfaces d !! S i = None) as E'.
       { apply lookup_ge_None in E. apply lookup_ge_None. lia. }
       rewrite drop_ge in * by (apply lookup_ge_None in E; lia).
       cbn [default]. change (from_option id None (@None (option nat))) with (@None nat).
       cbv iota. by rewrite take_nil in *. }
  change (from_option id None (Some o)) with o.
  rewrite (drop_S _ _ _ E), firstn_cons. specialize (IH (S i)).
  destruct o as [p|]; cbn [omap list_omap id]; [|exact IH].
  destruct (active (get_if d p) && test (get_if d p)) eqn:Et.
  - exists [], (omap id (take k (drop (S i) (interfaces d)))). split; [done |]. split; [done | constructor].
  - destruct (find_if test k (S i) d) as [r|].
    + destruct IH as (l1 & l2 & -> & Hp & Hl1). exists (p :: l1), l2. split; [done |]. split; [done |].
      constructor; [by rewrite Et | done].
    + by constructor.
Qed.

Definition on_link d (ip : Z) (p : nat) : Prop :=
  active (get_if d p) = true /\
  Z.land (ip_address (get_if d p)) (subnet_mask (get_if d p)) = Z.land ip (subnet_mask (get_if d p)).

Lemma first_such_iff (P Q : nat -> Prop) l p : (forall x, P x <-> Q x) -> first_such P l p -> first_such Q l p.
Proof.
  intros HPQ (l1 & l2 & E & Hp & Hl). exists l1, l2. split; [done |]. split; [by apply HPQ |].
  eapply list.Forall_impl; [exact Hl |]. intros x Hx HQ. by apply Hx, HPQ.
Qed.

Lemma find_if_ext test1 test2 k i d1 d2 :
  interfaces d1 = interfaces d2 ->
  (forall p, active (get_if d1 p) = active (get_if d2 p)) ->
  (forall p, test1 (get_if d1 p) = test2 (get_if d2 p)) ->
  find_if test1 k i d1 = find_if test2 k i d2.
Proof.
  intros Ht Ha Hte. revert i. induction k as [|k IH]; intros i; cbn [find_if]; [done |].
  rewrite Ht. destruct (default None (interfaces d2 !! i)) as [p|]; [|done]. by rewrite Ha, Hte, IH.
Qed.

Lemma get_if_upd_eq f p d : (p < length (nd_interfaces d))%nat -> get_if (upd_if f p d) p = f (get_if d p).
Proof. intros Hp. unfold get_if, upd_if. cbn [nd_interfaces]. by apply list_lookup_total_alter_eq. Qed.
Lemma get_if_upd_ne f p q d : p <> q -> get_if (upd_if f p d) q = get_if d q.
Proof. intros Hp. unfold get_if, upd_if. cbn [nd_interfaces]. by apply list_lookup_total_alter_ne. Qed.
Lemma get_if_upd {B} (g : iface -> B) f p q d : (forall i, g (f i) = g i) -> g (get_if (upd_if f p d) q) = g (get_if d q).
Proof.
  intros Hg. unfold get_if, upd_if. cbn [nd_interfaces]. rewrite list_lookup_total_alter.
  case_decide as Hc; [|done]. destruct Hc as [-> _]. apply Hg.
Qed.

(** Routing: [network_find_route] returns the first registered active
    interface on the subnet of the destination; when there is none, the first
    active interface; NULL only when no registered interface is active.  The
    gateway of an interface plays no part: changing it changes no route. *)
Theorem network_find_route_spec d ip :
  match network_find_route ip d with
  | Some p => first_such (on_link d ip) (registered d) p \/
              (Forall (fun x => ~ on_link d ip x) (registered d) /\
               first_such (fun x => active (get_if d x) = true) (registered d) p)
  | None => Forall (fun x => active (get_if d x) = false) (registered d)
  end /\
  (forall p gw, network_find_route ip
     (upd_if (fun i => set_addresses (ip_address i) (subnet_mask i) gw i) p d) = network_find_route ip d).
Proof.
  split.
  - unfold network_find_route, registered. set (n := Z.to_nat (interface_count d)).
    pose proof (find_if_spec (fun f => Z.land (ip_address f) (subnet_mask f) =? Z.land ip (subnet_mask f)) n 0 d) as H1.
    pose proof (find_if_spec (fun _ => true) n 0 d) as H2. cbv beta in H1, H2.
    rewrite drop_0 in H1, H2.
    destruct (find_if _ n 0 d) as [p|] eqn:E1.
    + left. eapply first_such_iff, H1. intros x. cbv beta. unfold on_link. by rewrite andb_true_iff, Z.eqb_eq.
    + destruct (find_if (fun _ => true) n 0 d) as [p|].
      * right. split.
        -- eapply list.Forall_impl; [exact H1 |]. intros x Hx [Ha Hb]. apply andb_false_iff in Hx as [Hx|Hx]; zbool; congruence.
        -- eapply first_such_iff, H2. intros x. cbv beta. by rewrite andb_true_r.
      * eapply list.Forall_impl; [exact H2 |]. intros x Hx. cbv beta in Hx. by rewrite andb_true_r in Hx.
  - intros p gw. unfold network_find_route. cbn [interface_count upd_if].
    rewrite (find_if_ext (fun f => Z.land (ip_address f) (subnet_mask f) =? Z.land ip (subnet_mask f))
      (fun f => Z.land (ip_address f) (subnet_mask f) =? Z.land ip (subnet_mask f)) _ _ _ d);
      [| done | intros q; by apply (get_if_upd active) |
       intros q; by apply (get_if_upd (fun f => Z.land (ip_address f) (subnet_mask f) =? Z.land ip (subnet_mask f)))].
    by rewrite (find_if_ext (fun _ => true) (fun _ => true) _ _ _ d);
      [| done | intros q; by apply (get_if_upd active) |].
Qed.

(** ** Registration *)

Definition c_string (nm : list Z) : Prop := Forall (fun c => 0 < c < 256) nm.

Lemma strncpy_loop_all nm k : c_string nm -> (length nm <= k)%nat -> strncpy_loop k nm = nm.
Proof.
  intros H. revert k. induction H as [|c nm Hc _ IH]; intros [|k] Hk; cbn [length] in Hk; try lia; [done | done |].
  cbn [strncpy_loop hd tl]. destruct (Z.eqb_spec c 0); [lia |]. rewrite IH by lia. done.
Qed.

Lemma strcmp_pad nm k : c_string nm -> netdev_strcmp (nm ++ replicate (S k) 0) nm = 0.
Proof.
  induction 1 as [|c nm Hc _ IH]; [done |]. cbn [app netdev_strcmp hd tl].
  rewrite Z.eqb_refl. destruct (Z.eqb_spec c 0); [lia |]. exact IH.
Qed.

Lemma name_matches nm : c_string nm -> (length nm <= 14)%nat -> netdev_strcmp (netdev_strncpy nm 15 ++ [0]) nm = 0.
Proof.
  intros H Hl. unfold netdev_strncpy. rewrite strncpy_loop_all by (done || lia). cbv zeta.
  rewrite <- app_assoc. change [0] with (replicate 1 0). rewrite <- replicate_add, Nat.add_comm.
  change (1 + (15 - length nm))%nat with (S (15 - length nm)). by apply strcmp_pad.
Qed.

Lemma get_interface_ok d i :
  dev_ok d -> network_get_interface d i = if (0 <=? i) && (i <? nd_count d) then Some (Z.to_nat i) else None.
Proof.
  intros H. unfold network_get_interface. rewrite (do_same d H).
  pose proof (do_count d H). destruct (Z.leb_spec 0 i), (Z.ltb_spec i (nd_count d)), (Z.ltb_spec i 0), (Z.leb_spec (nd_count d) i);
    try lia; cbn [orb andb]; try done.
  rewrite (do_entry d H) by lia. done.
Qed.

(** [get_by_name_loop] on two tables that agree on the names of the first [n]. *)
Lemma get_by_name_agree d d' nm n k i :
  dev_ok d -> dev_ok d' -> nd_count d = n -> nd_count d' = n + 1 ->
  (forall p, (p < Z.to_nat n)%nat -> name (get_if d' p) = name (get_if d p)) ->
  netdev_strcmp (name (get_if d' (Z.to_nat n))) nm = 0 ->
  0 <= i <= n -> n < i + Z.of_nat k ->
  get_by_name_loop k i nm d' =
    match get_by_name_loop k i nm d with Some p => Some p | None => Some (Z.to_nat n) end.
Proof.
  intros H H' Hn Hn' Hsame Hnew. revert i. induction k as [|k IH]; intros i Hi Hk; [lia |].
  cbn [get_by_name_loop]. rewrite !get_interface_ok by done. rewrite Hn, Hn'.
  destruct (Z.leb_spec 0 i), (Z.ltb_spec i (n + 1)), (Z.ltb_spec i n); try lia; cbn [andb].
  - rewrite Hsame by lia. destruct (netdev_strcmp _ nm =? 0); [done |]. apply IH; lia.
  - assert (i = n) as -> by lia. rewrite Hnew. cbn [Z.eqb].
    assert (forall k i, n <= i -> get_by_name_loop k i nm d = None) as ->; [|done|lia].
    clear -H Hn. intros k. induction k as [|k IH]; intros i Hi; cbn [get_by_name_loop]; [done |].
    rewrite get_interface_ok by done. rewrite Hn. destruct (Z.ltb_spec i n); [lia |]. rewrite andb_false_r. apply IH. lia.
Qed.

Lemma registered_ok d : dev_ok d -> registered d = seq 0 (Z.to_nat (nd_count d)).
Proof.
  intros H. unfold registered. rewrite (do_same d H).
  assert (take (Z.to_nat (nd_count d)) (interfaces d) = map Some (seq 0 (Z.to_nat (nd_count d)))) as ->.
  { apply list_eq. intros i. destruct (decide (i < Z.to_nat (nd_count d))%nat) as [Hi|Hi].
    - rewrite lookup_take_lt by done. rewrite (do_entry d H) by done.
      change (map Some (seq 0 (Z.to_nat (nd_count d)))) with (Some <$> seq 0 (Z.to_nat (nd_count d))).
      rewrite list_lookup_fmap, lookup_seq_lt by done. done.
    - rewrite lookup_ge_None_2 by (rewrite length_take; lia).
      symmetry. apply lookup_ge_None_2. rewrite length_map, length_seq. lia. }
  induction (seq 0 (Z.to_nat (nd_count d))) as [|x l IH]; [done |]. cbn [map omap list_omap id]. by rewrite <- IH at 2.
Qed.

(** The three operation tables of [netdev.c] and [e1000.c]. *)
Definition kernel_ops (ops : netdev_ops (nic := nic)) : Prop := In ops [loopback_ops; ethernet_ops; e1000_netdev_ops].

(** What the initialisation of a device does to the state. *)
Definition inits (p : nat) (d d' : dev nic) : Prop :=
  nd_count d' = nd_count d /\ interfaces d' = interfaces d /\ interface_count d' = interface_count d /\
  length (nd_interfaces d') = length (nd_interfaces d) /\
  (queue_ok (loopback_queue d) -> queue_ok (loopback_queue d')) /\
  (forall q, q <> p -> get_if d' q = get_if d q) /\
  (exists b, get_if d' p = set_active b (get_if d p)).

Lemma inits_refl p d : inits p d d.
Proof. unfold inits. split_and!; try done. exists (active (get_if d p)). by destruct (get_if d p). Qed.

Lemma kernel_init ops p d :
  kernel_ops ops -> (p < length (nd_interfaces d))%nat ->
  inits p d match op_init ops with Some f => (f p d).2 | None => d end.
Proof.
  intros Hk Hp. destruct Hk as [<-|[<-|[<-|[]]]]; cbn; [| |apply inits_refl].
  - unfold inits, set_queue, get_if; cbn. split_and!; try done; [apply loopback_reset_ok |].
    exists (active (nd_interfaces d !!! p)). by destruct (nd_interfaces d !!! p).
  - unfold inits. split_and!; cbn; rewrite ?length_alter; try done.
    + intros q Hq. by apply get_if_upd_ne.
    + exists true. by apply get_if_upd_eq.
Qed.

Lemma kernel_start ops p d : kernel_ops ops -> match op_start ops with Some f => (f p d).2 | None => d end = d.
Proof. intros [<-|[<-|[<-|[]]]]; done. Qed.

(** The state in which the devices are initialised and then entered in the table. *)
Definition stored (i : iface) d : dev nic :=
  Dev nic (<[Z.to_nat (nd_count d) := i]> (nd_interfaces d)) (nd_count d + 1) (interfaces d) (interface_count d)
      (loopback_queue d) (card d).

Lemma register_after_init d d1 i :
  dev_ok d -> nd_count d < 4 -> inits (Z.to_nat (nd_count d)) (stored i d) d1 ->
  let p := Z.to_nat (nd_count d) in
  let d' := (network_register_interface (Some p) d1).2 in
  dev_ok d' /\ nd_count d' = nd_count d + 1 /\ get_if d' p = set_active true i /\
  (forall q, q <> p -> get_if d' q = get_if d q).
Proof.
  intros H Hc (E1 & E2 & E3 & E4 & E5 & E6 & b & E7) p d'. cbn [nd_count interfaces interface_count nd_interfaces stored] in *.
  pose proof (do_count d H). fold p in E6, E7.
  assert (Hd' : d' = upd_if (set_active true) p
      (Dev nic (nd_interfaces d1) (nd_count d1) (<[Z.to_nat (interface_count d1) := Some p]> (interfaces d1))
           (interface_count d1 + 1) (loopback_queue d1) (card d1))).
  { subst d'. cbn [network_register_interface]. unfold MAX_NETWORK_INTERFACES.
    destruct (Z.leb_spec 4 (interface_count d1)); [rewrite E3, (do_same d H) in *; lia | done]. }
  rewrite length_insert, (do_interfaces d H) in E4.
  assert (Hp4 : (p < 4)%nat) by (subst p; lia).
  rewrite Hd'. rewrite E2, E3, (do_same d H) in *. split_and!.
  - split; cbn [nd_interfaces nd_count interfaces interface_count loopback_queue upd_if];
      rewrite ?length_alter, ?length_insert; try apply H; [lia | lia | lia | |].
    + intros k Hk. rewrite E1 in Hk. destruct (decide (k = p)) as [->|Hne].
      * subst p. apply list_lookup_insert_eq. rewrite (do_table d H). lia.
      * rewrite list_lookup_insert_ne by (subst p; done). apply (do_entry d H). subst p. lia.
    + apply E5, (do_queue d H).
  - exact E1.
  - rewrite get_if_upd_eq by (cbn [nd_interfaces]; lia).
    change (get_if (Dev nic (nd_interfaces d1) _ _ _ _ _) p) with (get_if d1 p). rewrite E7.
    unfold get_if at 1; cbn [nd_interfaces stored]. fold p. rewrite list_lookup_total_insert_eq by (rewrite (do_interfaces d H); lia).
    done.
  - intros q Hq. rewrite get_if_upd_ne by done.
    change (get_if (Dev nic (nd_interfaces d1) _ _ _ _ _) q) with (get_if d1 q). rewrite E6 by done.
    unfold get_if; cbn [nd_interfaces stored]. fold p. by rewrite list_lookup_total_insert_ne.
Qed.

(** Registration: with a free slot, [netdev_register] stores the interface
    with the given addresses, marks it active, enters it last in the table and
    changes no other interface; [netdev_get_by_name] then finds the new
    interface by its name, unless an earlier one has the same name, which it
    still returns.  With all four slots taken it returns [NET_ERROR] and
    changes nothing. *)
Theorem netdev_register_spec d nm ops mac ip mask gw :
  dev_ok d -> c_string nm -> Z.of_nat (length nm) <= 14 -> kernel_ops ops ->
  let '(r, d') := netdev_register (Some nm) (Some ops) (Some mac) ip mask gw d in
  if nd_count d <? 4 then
    let p := Z.to_nat (nd_count d) in
    r = NET_SUCCESS /\ dev_ok d' /\ registered d' = registered d ++ [p] /\
    get_if d' p = Iface (take 6 mac) ip mask gw true (netdev_strncpy nm 15 ++ [0]) (op_send ops) (op_receive ops) /\
    (forall q, q <> p -> get_if d' q = get_if d q) /\
    netdev_get_by_name (Some nm) d' =
      match netdev_get_by_name (Some nm) d with Some q => Some q | None => Some p end
  else r = NET_ERROR /\ d' = d.
Proof.
  intros H Hnm Hlen Hk. pose proof (do_count d H) as Hc. cbn [netdev_register].
  unfold MAX_NETWORK_INTERFACES. rewrite Z.leb_antisym. destruct (Z.ltb_spec (nd_count d) 4) as [Hlt|Hge]; cbn [negb]; [|done].
  cbv zeta. rewrite kernel_start by done.
  set (i := Iface (take 6 mac) ip mask gw false _ _ _). fold (stored i d).
  pose proof (kernel_init ops (Z.to_nat (nd_count d)) (stored i d) Hk) as Hi.
  cbn [nd_interfaces stored] in Hi. rewrite length_insert, (do_interfaces d H) in Hi. specialize (Hi ltac:(lia)).
  destruct (register_after_init d _ i H Hlt Hi) as (H' & Hn & Hp & Hq).
  set (d' := (network_register_interface _ _).2) in *.
  split; [done |]. split; [done |]. split.
  { rewrite !registered_ok by done. rewrite Hn. replace (Z.to_nat (nd_count d + 1)) with (Z.to_nat (nd_count d) + 1)%nat by lia.
    by rewrite seq_app. }
  split; [exact Hp |]. split; [exact Hq |].
  unfold netdev_get_by_name. apply get_by_name_agree; try done; unfold MAX_NETWORK_INTERFACES; try lia.
  - intros q Hq'. by rewrite Hq by lia.
  - rewrite Hp. apply name_matches; [done | lia].
Qed.

End tables.

(** A card for the examples: no frame ever arrives, everything sent is kept. *)
Definition wire : Type := list (list Z).
Definition wire_nic : Nic wire :=
  {| e1000_send_packet c data := match data with Some l => (Z.of_nat (length l), c ++ [l]) | None => (-1, c) end;
     e1000_receive_packet c n := (0, [], c) |}.

Lemma dev0_ok {nic : Type} (c : nic) : dev_ok (dev0 c).
Proof.
  split; cbn [nd_interfaces nd_count interfaces interface_count loopback_queue dev0]; try done; [lia |].
  apply loopback_queue0_ok.
Qed.

Lemma netdev_register_spec_witness :
  let r := netdev_register (Some loopback_name) (Some loopback_ops) (Some [0; 0; 0; 0; 0; 1])
    0x7F000001 0xFF000000 0x7F000001 (dev0 (nic := wire) []) in
  r.1 = NET_SUCCESS /\ netdev_get_by_name (Some loopback_name) r.2 = Some 0%nat.
Proof.
  pose proof (netdev_register_spec (dev0 (nic := wire) []) loopback_name loopback_ops [0; 0; 0; 0; 0; 1] 0x7F000001 0xFF000000 0x7F000001
    (dev0_ok (nic := wire) []) ltac:(repeat constructor; lia) ltac:(cbn; lia) (or_introl eq_refl)) as H.
  destruct (netdev_register _ _ _ _ _ _ _) as [r d']. change (nd_count (dev0 (nic := wire) []) <? 4) with true in H.
  destruct H as (Hr & _ & _ & _ & _ & Hn). split; [exact Hr |]. exact Hn.
Defined.
