(* ===== verification/Ethernet.v ===== *)
(** * Ethernet frames

    [ethernet.c] except [ethernet_process_frame], which dispatches to the
    protocols and is in the file Stack.  A frame buffer is the list of the 1514
    bytes of an [ethernet_frame_t]: destination 0, source 6, type 12, payload 14. *)

From S2P Require Import Prelude Checksum Netdev.

Definition ETH_ALEN : nat := 6.
Definition ETH_HLEN : Z := 14.
Definition ETH_ZLEN : Z := 60.
Definition ETH_FRAME_LEN : Z := 1514.
Definition ETH_TYPE_IP : Z := 0x0800.
Definition ETH_TYPE_ARP : Z := 0x0806.

Definition broadcast_mac : list Z := [0xFF; 0xFF; 0xFF; 0xFF; 0xFF; 0xFF].

(** A 16-bit or 32-bit field stored in network byte order. *)
Definition be16 (x : Z) : list Z := le_bytes 2 (bswap16 x).
Definition be32 (x : Z) : list Z := le_bytes 4 (bswap32 x).

Definition ethernet_is_broadcast (mac : list Z) : bool := bool_decide (take ETH_ALEN mac = broadcast_mac).

Definition ethernet_set_multicast (ip : Z) : list Z :=
  [0x01; 0x00; 0x5E; Z.land (Z.shiftr ip 16) 0x7F; Z.land (Z.shiftr ip 8) 0xFF; Z.land ip 0xFF].

Section ethernet.
Context {nic : Type} {NIC : Nic nic}.

Definition ethernet_send_frame (p : option nat) (dest_mac : option (list Z)) (ethertype : Z)
    (payload : option (list Z)) (d : dev nic) : Z * dev nic :=
  match p, dest_mac, payload with
  | Some i, Some dm, Some pl =>
      let payload_len := Z.of_nat (length pl) in
      if payload_len =? 0 then (NET_INVALID_PARAM, d)
      else if ETH_FRAME_LEN - ETH_HLEN <? payload_len then (NET_ERROR, d)
      else
        let frame := take ETH_ALEN dm ++ take ETH_ALEN (mac_address (get_if d i)) ++ be16 ethertype ++ pl in
        let frame_len := ETH_HLEN + payload_len in
        let frame := if frame_len <? ETH_ZLEN
                     then frame ++ replicate (Z.to_nat (ETH_ZLEN - frame_len)) 0 else frame in
        network_send_raw (Some i) (Some frame) d
  | _, _, _ => (NET_INVALID_PARAM, d)
  end.

(** Result, frame buffer and state after the call. *)
Definition ethernet_receive_frame (p : option nat) (frame : list Z) (d : dev nic) : Z * list Z * dev nic :=
  match p with
  | None => (NET_INVALID_PARAM, frame, d)
  | Some i =>
      let '(result, l, d) := network_receive_raw (Some i) ETH_FRAME_LEN d in
      let frame := put 0 l frame in
      if result <=? 0 then (result, frame, d)
      else (result, put16 12 (bswap16 (get16 frame 12)) frame, d)
  end.

End ethernet.

(** ** Lemmas on packet fields *)

Lemma length_be16 x : length (be16 x) = 2%nat.
Proof. apply length_le_bytes. Qed.
Lemma length_be32 x : length (be32 x) = 4%nat.
Proof. apply length_le_bytes. Qed.

Lemma le_val_le_bytes_small n x : 0 <= x < 0x100 ^ Z.of_nat n -> le_val (le_bytes n x) = x.
Proof. intros H. rewrite le_val_le_bytes. by apply Z.mod_small. Qed.

Lemma le_val_be16 x : 0 <= x < 0x10000 -> bswap16 (le_val (be16 x)) = x.
Proof.
  intros H. unfold be16. rewrite le_val_le_bytes_small by (apply bswap16_range). by apply bswap16_invol.
Qed.
Lemma le_val_be32 x : 0 <= x < 0x100000000 -> bswap32 (le_val (be32 x)) = x.
Proof.
  intros H. unfold be32. rewrite le_val_le_bytes_small by (apply bswap32_range). by apply bswap32_invol.
Qed.

(** Reading a field of a buffer that is a concatenation. *)
Lemma getn_skip n o l l' : (length l <= o)%nat -> getn n (l ++ l') o = getn n l' (o - length l).
Proof. intros H. unfold getn. by rewrite drop_app_ge. Qed.
Lemma getn_here n l l' : length l = n -> getn n (l ++ l') 0 = l.
Proof. intros <-. unfold getn. rewrite drop_0. apply take_app_length. Qed.
Lemma get16_getn l o : get16 l o = le_val (getn 2 l o).
Proof. done. Qed.
Lemma get32_getn l o : get32 l o = le_val (getn 4 l o).
Proof. done. Qed.
Lemma get8_skip o l l' : (length l <= o)%nat -> get8 (l ++ l') o = get8 l' (o - length l).
Proof. intros H. unfold get8. by rewrite lookup_app_r. Qed.

(** Evaluate the lengths of the parts of a buffer, with those in the context. *)
Ltac lens :=
  repeat match goal with
  | |- context [length (be16 ?x)] => rewrite (length_be16 x)
  | |- context [length (be32 ?x)] => rewrite (length_be32 x)
  | |- context [length (le_bytes ?n ?x)] => rewrite (length_le_bytes n x)
  | H : length ?x = _ |- context [length ?x] => rewrite H
  end; cbn [length].

(** Read a field of a concatenated buffer: skip the parts before it. *)
Ltac rdfield :=
  rewrite ?get16_getn, ?get32_getn;
  repeat first
    [ rewrite getn_here by (lens; reflexivity)
    | rewrite getn_skip by (lens; lia); lens; cbn [Nat.sub] ].

Lemma be16_bytes x : bytes (be16 x).
Proof. apply le_bytes_bytes. Qed.
Lemma be32_bytes x : bytes (be32 x).
Proof. apply le_bytes_bytes. Qed.
#[export] Hint Resolve be16_bytes be32_bytes : words.

(** ** What is sent *)

(** The frame on the wire: header, payload, padding to 60 bytes. *)
Definition eth_frame (dm sm : list Z) (ethertype : Z) (pl : list Z) : list Z :=
  take 6 dm ++ take 6 sm ++ be16 ethertype ++ pl ++ replicate (46 - length pl) 0.

Lemma drop_eth_frame dm sm et pl :
  length dm = 6%nat -> length sm = 6%nat ->
  drop 14 (eth_frame dm sm et pl) = pl ++ replicate (46 - length pl) 0.
Proof.
  intros Hd Hs. unfold eth_frame.
  rewrite !(take_ge _ 6) by lia. rewrite (drop_app_ge dm) by lia. rewrite (drop_app_ge sm) by lia.
  rewrite (drop_app_ge (be16 et)) by (rewrite length_be16; lia). rewrite length_be16, Hd, Hs. done.
Qed.

Section sending.
Context {nic : Type} {NIC : Nic nic}.

(** An interface that can send through the driver function [f]. *)
Definition can_send (d : dev nic) (p : nat) (f : driver) : Prop :=
  active (get_if d p) = true /\ send_packet (get_if d p) = Some f.

Lemma network_send_raw_ok d p f l :
  can_send d p f -> (0 < length l)%nat -> network_send_raw (Some p) (Some l) d = (NET_SUCCESS, (call_send f l d).2).
Proof.
  intros [Ha Hf] Hl. unfold network_send_raw. rewrite Ha, Hf. destruct (Z.eqb_spec (Z.of_nat (length l)) 0); [lia | done].
Qed.

Lemma ethernet_send_frame_ok d p f dm et pl :
  can_send d p f -> 0 < Z.of_nat (length pl) <= 1500 ->
  ethernet_send_frame (Some p) (Some dm) et (Some pl) d =
    (NET_SUCCESS, (call_send f (eth_frame dm (mac_address (get_if d p)) et pl) d).2).
Proof.
  intros Hs Hl. unfold ethernet_send_frame. cbv zeta.
  destruct (Z.eqb_spec (Z.of_nat (length pl)) 0); [lia |].
  unfold ETH_FRAME_LEN, ETH_HLEN, ETH_ZLEN, ETH_ALEN.
  destruct (Z.ltb_spec (1514 - 14) (Z.of_nat (length pl))); [lia |].
  rewrite (network_send_raw_ok d p f); [| done |].
  2: { zcases; rewrite !length_app, ?length_be16, ?length_replicate; lia. }
  unfold eth_frame. do 4 f_equal. destruct (Z.ltb_spec (14 + Z.of_nat (length pl)) 60).
  - rewrite <- !app_assoc. do 5 f_equal. lia.
  - replace (46 - length pl)%nat with 0%nat by lia. cbn [replicate]. by rewrite app_nil_r.
Qed.

(** Sending changes no interface record and no table. *)
Definition same_ifs (d d' : dev nic) : Prop :=
  nd_interfaces d' = nd_interfaces d /\ nd_count d' = nd_count d /\
  interfaces d' = interfaces d /\ interface_count d' = interface_count d.

Lemma call_send_ifs f l d : same_ifs d (call_send f l d).2.
Proof. unfold call_send, same_ifs. destruct f; by case_match. Qed.

Lemma network_send_raw_ifs p l d : same_ifs d (network_send_raw p l d).2.
Proof.
  unfold network_send_raw. destruct p as [i|], l as [l|]; try done.
  case_match; [done |]. destruct (send_packet (get_if d i)); [|done]. apply call_send_ifs.
Qed.

Lemma ethernet_send_frame_ifs p dm et pl d : same_ifs d (ethernet_send_frame p dm et pl d).2.
Proof.
  unfold ethernet_send_frame. destruct p, dm, pl; try done. cbv zeta.
  case_match; [done |]. case_match; [done |]. apply network_send_raw_ifs.
Qed.

Lemma same_ifs_refl d : same_ifs d d.
Proof. done. Qed.
Lemma same_ifs_trans d1 d2 d3 : same_ifs d1 d2 -> same_ifs d2 d3 -> same_ifs d1 d3.
Proof. unfold same_ifs. naive_solver congruence. Qed.
Lemma same_ifs_get d d' p : same_ifs d d' -> get_if d' p = get_if d p.
Proof. intros (E & _). unfold get_if. by rewrite E. Qed.

End sending.
