(* ===== verification/Arp.v ===== *)
(** * The ARP cache and protocol

    [arp.c].  An ARP packet is a buffer with the fields of [arp_header_t]:
    hardware type 0, protocol type 2, lengths 4 and 5, operation 6, sender MAC 8,
    sender IP 14, target MAC 18, target IP 24.  [now] is the value of
    [timer_get_ticks].  [arp_print_table] is in the file Reports. *)

From S2P Require Import Prelude Checksum Netdev Ethernet.

Definition ARP_HARDWARE_ETHERNET : Z := 1.
Definition ARP_PROTOCOL_IP : Z := 0x0800.
Definition ARP_REQUEST : Z := 1.
Definition ARP_REPLY : Z := 2.
Definition ARP_TABLE_SIZE : nat := 128.

Record arp_entry := ArpEntry {
  e_ip_address : Z;
  e_mac_address : list Z;
  e_timestamp : Z;
  e_valid : bool
}.

#[export] Instance arp_entry_inhabited : Inhabited arp_entry := populate (ArpEntry 0 (replicate 6 0) 0 false).

Record arp := Arp { arp_table : list arp_entry; arp_table_entries : Z }.

Definition arp_get_time (now : Z) : Z := u32 now.

Definition arp_init : Z * arp := (NET_SUCCESS, Arp (replicate ARP_TABLE_SIZE inhabitant) 0).

Definition arp_packet (op : Z) (sender_mac : list Z) (sender_ip : Z) (target_mac : list Z) (target_ip : Z) : list Z :=
  be16 ARP_HARDWARE_ETHERNET ++ be16 ARP_PROTOCOL_IP ++ [6; 4] ++ be16 op ++
  take 6 sender_mac ++ be32 sender_ip ++ take 6 target_mac ++ be32 target_ip.

Section arp.
Context {nic : Type} {NIC : Nic nic}.

Definition arp_send_request (p : option nat) (target_ip : Z) (d : dev nic) : Z * dev nic :=
  match p with
  | None => (NET_INVALID_PARAM, d)
  | Some i =>
      ethernet_send_frame (Some i) (Some broadcast_mac) ETH_TYPE_ARP
        (Some (arp_packet ARP_REQUEST (mac_address (get_if d i)) (ip_address (get_if d i)) (replicate 6 0) target_ip)) d
  end.

Definition arp_send_reply (p : option nat) (target_ip : Z) (target_mac : option (list Z)) (d : dev nic) : Z * dev nic :=
  match p, target_mac with
  | Some i, Some m =>
      ethernet_send_frame (Some i) (Some m) ETH_TYPE_ARP
        (Some (arp_packet ARP_REPLY (mac_address (get_if d i)) (ip_address (get_if d i)) m target_ip)) d
  | _, _ => (NET_INVALID_PARAM, d)
  end.

End arp.

(** The first valid entry for [ip], from index [i]. *)
Fixpoint arp_find (l : list arp_entry) (i : nat) (ip : Z) : option nat :=
  match l with
  | [] => None
  | e :: l' => if e_valid e && (e_ip_address e =? ip) then Some i else arp_find l' (S i) ip
  end.

(** [arp_lookup]: [buf] is [mac_address != NULL]; the MAC stored there when the
    result is true. *)
Definition arp_lookup (t : arp) (ip : Z) (buf : bool) : option (list Z) :=
  if negb buf then None
  else match arp_find (arp_table t) 0 ip with
       | Some i => Some (e_mac_address (arp_table t !!! i))
       | None => None
       end.

Fixpoint slot_loop (l : list arp_entry) (i slot oldest_time : Z) : Z :=
  match l with
  | [] => slot
  | e :: l' =>
      if negb (e_valid e) then i
      else if e_timestamp e <? oldest_time then slot_loop l' (i + 1) i (e_timestamp e)
      else slot_loop l' (i + 1) slot oldest_time
  end.

Definition arp_add_entry (now : Z) (t : arp) (ip : Z) (mac : option (list Z)) : Z * arp :=
  match mac with
  | None => (NET_INVALID_PARAM, t)
  | Some m =>
      let slot := slot_loop (arp_table t) 0 (-1) (arp_get_time now) in
      if slot =? -1 then (NET_ERROR, t)
      else
        (NET_SUCCESS,
         Arp (<[Z.to_nat slot := ArpEntry ip (take 6 m) (arp_get_time now) true]> (arp_table t))
             (if arp_table_entries t <=? slot then slot + 1 else arp_table_entries t))
  end.

Definition arp_update_entry (now : Z) (t : arp) (ip : Z) (mac : option (list Z)) : arp :=
  match mac with
  | None => t
  | Some m =>
      match arp_find (arp_table t) 0 ip with
      | Some i =>
          Arp (alter (fun e => ArpEntry (e_ip_address e) (take 6 m) (arp_get_time now) (e_valid e)) i (arp_table t))
              (arp_table_entries t)
      | None => (arp_add_entry now t ip mac).2
      end
  end.

Section process.
Context {nic : Type} {NIC : Nic nic}.

Definition arp_process_packet (now : Z) (p : option nat) (arp_hdr : option (list Z)) (t : arp) (d : dev nic) : arp * dev nic :=
  match p, arp_hdr with
  | Some i, Some h =>
      let operation := bswap16 (get16 h 6) in
      let sender_ip := bswap32 (get32 h 14) in
      let target_ip := bswap32 (get32 h 24) in
      let t := arp_update_entry now t sender_ip (Some (getn 6 h 8)) in
      if (target_ip =? ip_address (get_if d i)) && (operation =? ARP_REQUEST)
      then (t, (arp_send_reply (Some i) sender_ip (Some (getn 6 h 8)) d).2)
      else (t, d)
  | _, _ => (t, d)
  end.

End process.

(** ** The cache *)

(** At most one valid entry per address. *)
Definition arp_ok (t : arp) : Prop :=
  length (arp_table t) = ARP_TABLE_SIZE /\
  forall i j e f, arp_table t !! i = Some e -> arp_table t !! j = Some f ->
    e_valid e = true -> e_valid f = true -> e_ip_address e = e_ip_address f -> i = j.

Definition holds (e : arp_entry) (ip : Z) : Prop := e_valid e = true /\ e_ip_address e = ip.

Lemma arp_find_spec l k ip :
  match arp_find l k ip with
  | Some i => exists j e, i = (k + j)%nat /\ l !! j = Some e /\ holds e ip
  | None => forall j e, l !! j = Some e -> ~ holds e ip
  end.
Proof.
  revert k. induction l as [|e l IH]; intros k; cbn [arp_find]; [done |].
  destruct (e_valid e && (e_ip_address e =? ip)) eqn:E.
  - zbool. exists 0%nat, e. split; [lia |]. split; [done |]. by split.
  - specialize (IH (S k)). destruct (arp_find l (S k) ip) as [i|].
    + destruct IH as (j & f & -> & Hl & Hf). exists (S j), f. split; [lia |]. by split.
    + intros [|j] f Hf [H1 H2]; [|by apply (IH j f Hf)].
      cbn in Hf. injection Hf as <-. rewrite H1, H2, Z.eqb_refl in E. done.
Qed.

Lemma arp_lookup_Some t ip m :
  arp_ok t ->
  arp_lookup t ip true = Some m <->
  exists i e, arp_table t !! i = Some e /\ holds e ip /\ e_mac_address e = m.
Proof.
  intros [_ Hu]. unfold arp_lookup. cbn [negb]. pose proof (arp_find_spec (arp_table t) 0 ip) as H.
  destruct (arp_find (arp_table t) 0 ip) as [i|].
  - destruct H as (j & e & -> & Hl & He). rewrite Nat.add_0_l, (list_lookup_total_correct _ _ _ Hl).
    split; [intros [= <-]; by exists j, e |].
    intros (i & f & Hf & [Hv Hip] & <-). destruct He as [Hv' Hip'].
    assert (j = i) as -> by (eapply Hu; [exact Hl | exact Hf | done | done | congruence]). congruence.
  - split; [done |]. intros (i & f & Hf & Hh & _). by destruct (H i f Hf).
Qed.

Lemma arp_lookup_None t ip :
  arp_lookup t ip true = None <-> forall i e, arp_table t !! i = Some e -> ~ holds e ip.
Proof.
  unfold arp_lookup. cbn [negb]. pose proof (arp_find_spec (arp_table t) 0 ip) as H.
  destruct (arp_find (arp_table t) 0 ip) as [i|].
  - destruct H as (j & e & -> & Hl & He). split; [done |]. intros Hn. by destruct (Hn j e Hl).
  - done.
Qed.

(** Two tables that hold the same for [ip] give the same answer. *)
Lemma arp_lookup_ext t t' ip :
  arp_ok t -> arp_ok t' ->
  (forall i e, holds e ip -> arp_table t !! i = Some e <-> arp_table t' !! i = Some e) ->
  arp_lookup t' ip true = arp_lookup t ip true.
Proof.
  intros H H' Hext. destruct (arp_lookup t ip true) as [m|] eqn:E.
  - apply arp_lookup_Some in E as (i & e & Hl & Hh & Hm); [|done].
    apply arp_lookup_Some; [done |]. exists i, e. split; [by apply Hext | done].
  - apply arp_lookup_None. intros i e Hl Hh. eapply arp_lookup_None; [exact E | by apply Hext | done].
Qed.

(** The slot chosen for a new entry: the first invalid one, else the oldest. *)
Lemma slot_loop_spec l i slot old :
  (slot = -1 \/ 0 <= slot < i) -> 0 <= i ->
  let s := slot_loop l i slot old in
  (exists k e, s = i + Z.of_nat k /\ l !! k = Some e /\ e_valid e = false) \/
  (Forall (fun e => e_valid e = true) l /\
   ((s = slot /\ Forall (fun e => old <= e_timestamp e) l) \/
    (exists k e, s = i + Z.of_nat k /\ l !! k = Some e /\ e_timestamp e < old /\
       Forall (fun f => e_timestamp e <= e_timestamp f) l))).
Proof.
  revert i slot old. induction l as [|e l IH]; intros i slot old Hs Hi; cbn [slot_loop].
  { right. split; [constructor |]. left. by split. }
  destruct (e_valid e) eqn:Ev; cbn [negb].
  2: { left. exists 0%nat, e. split; [lia | by split]. }
  destruct (Z.ltb_spec (e_timestamp e) old) as [Hlt|Hge].
  - specialize (IH (i + 1) i (e_timestamp e) ltac:(lia) ltac:(lia)).
    destruct IH as [(k & f & -> & Hk & Hf)|(Hv & [(-> & Hall)|(k & f & -> & Hk & Hlt' & Hall)])].
    + left. exists (S k), f. split; [lia | by split].
    + right. split; [by constructor |]. right. exists 0%nat, e. split; [lia |]. split; [done |]. split; [done |].
      constructor; [lia | done].
    + right. split; [by constructor |]. right. exists (S k), f. split; [lia |]. split; [done |]. split; [lia |].
      constructor; [lia | done].
  - specialize (IH (i + 1) slot old ltac:(lia) ltac:(lia)).
    destruct IH as [(k & f & -> & Hk & Hf)|(Hv & [(-> & Hall)|(k & f & -> & Hk & Hlt' & Hall)])].
    + left. exists (S k), f. split; [lia | by split].
    + right. split; [by constructor |]. left. split; [done |]. by constructor.
    + right. split; [by constructor |]. right. exists (S k), f. split; [lia |]. split; [done |]. split; [done |].
      constructor; [lia | done].
Qed.

Definition new_entry (now ip : Z) (m : list Z) : arp_entry := ArpEntry ip (take 6 m) (arp_get_time now) true.

(** Replacing one entry by an entry for an address that is cached nowhere else. *)
Lemma arp_replace t n s e ip m now :
  arp_ok t -> arp_table t !! s = Some e ->
  (forall i f, arp_table t !! i = Some f -> holds f ip -> i = s) ->
  let t' := Arp (<[s := new_entry now ip m]> (arp_table t)) n in
  arp_ok t' /\ arp_lookup t' ip true = Some (take 6 m) /\
  (forall ip', ip' <> ip -> ~ holds e ip' -> arp_lookup t' ip' true = arp_lookup t ip' true).
Proof.
  intros Hok Hs Huniq t'. pose proof Hok as [Hlen Hu].
  assert (Hs' : (s < length (arp_table t))%nat) by (by eapply lookup_lt_Some).
  assert (Hok' : arp_ok t').
  { split; [cbn; by rewrite length_insert |]. cbn [arp_table t'].
    intros i j f g [(-> & <- & _)|[Hi Hf]]%list_lookup_insert_Some [(-> & <- & _)|[Hj Hg]]%list_lookup_insert_Some Hvf Hvg Hip; try done.
    - cbn in Hip. symmetry. eapply Huniq; [exact Hg | by split].
    - cbn in Hip. eapply Huniq; [exact Hf | by split].
    - by eapply (Hu i j f g). }
  split; [exact Hok' |]. split.
  - apply arp_lookup_Some; [done |]. exists s, (new_entry now ip m). split; [by apply list_lookup_insert_eq |]. done.
  - intros ip' Hne He. apply arp_lookup_ext; [done | done |]. intros i f Hf. cbn [arp_table t'].
    destruct (decide (i = s)) as [->|Hi]; [|by rewrite list_lookup_insert_ne].
    rewrite list_lookup_insert_eq by done. split.
    + intros Hf'. rewrite Hs in Hf'. injection Hf' as ->. done.
    + intros [= <-]. destruct Hf as [_ Hf]. cbn in Hf. congruence.
Qed.

Lemma arp_update_spec now t ip m :
  arp_ok t ->
  let t' := arp_update_entry now t ip (Some m) in
  arp_ok t' /\
  match arp_lookup t ip true with
  | Some _ =>
      arp_lookup t' ip true = Some (take 6 m) /\
      (forall ip', ip' <> ip -> arp_lookup t' ip' true = arp_lookup t ip' true)
  | None =>
      (exists s e, arp_table t !! s = Some e /\
         arp_table t' = <[s := new_entry now ip m]> (arp_table t) /\
         arp_lookup t' ip true = Some (take 6 m) /\
         (forall ip', ip' <> ip -> ~ holds e ip' -> arp_lookup t' ip' true = arp_lookup t ip' true) /\
         (e_valid e = true -> e_timestamp e < arp_get_time now /\
            Forall (fun f => e_valid f = true /\ e_timestamp e <= e_timestamp f) (arp_table t))) \/
      (Forall (fun f => e_valid f = true /\ arp_get_time now <= e_timestamp f) (arp_table t) /\ t' = t)
  end.
Proof.
  intros Hok. unfold arp_update_entry. pose proof (arp_find_spec (arp_table t) 0 ip) as Hf.
  unfold arp_lookup at 1. cbn [negb]. destruct (arp_find (arp_table t) 0 ip) as [i|].
  - destruct Hf as (j & e & -> & Hl & [Hv Hip]). rewrite Nat.add_0_l.
    assert (alter (fun e => ArpEntry (e_ip_address e) (take 6 m) (arp_get_time now) (e_valid e)) j (arp_table t) =
      <[j := new_entry now ip m]> (arp_table t)) as ->.
    { apply list_eq. intros k. destruct (decide (k = j)) as [->|Hk].
      - rewrite list_lookup_alter_eq, Hl, list_lookup_insert_eq by (by eapply lookup_lt_Some).
        unfold new_entry. cbn. by rewrite Hv, Hip.
      - by rewrite list_lookup_alter_ne, list_lookup_insert_ne by done. }
    destruct (arp_replace t (arp_table_entries t) j e ip m now Hok Hl) as (H1 & H2 & H3).
    { intros k f Hk [Hv' Hip']. eapply (proj2 Hok k j f e); try done. congruence. }
    split; [exact H1 |]. split; [exact H2 |]. intros ip' Hne. apply H3; [done |]. intros [_ Hx]. congruence.
  - assert (Hnone : arp_lookup t ip true = None) by (by apply arp_lookup_None).
    cbn [arp_add_entry]. pose proof (slot_loop_spec (arp_table t) 0 (-1) (arp_get_time now) ltac:(lia) ltac:(lia)) as Hs.
    cbv zeta in Hs. set (s := slot_loop _ _ _ _) in *. clearbody s.
    assert (Hput : forall k e, s = 0 + Z.of_nat k -> arp_table t !! k = Some e ->
      (e_valid e = true -> e_timestamp e < arp_get_time now /\
        Forall (fun f => e_valid f = true /\ e_timestamp e <= e_timestamp f) (arp_table t)) ->
      let t' := (if s =? -1 then (NET_ERROR, t) else (NET_SUCCESS,
         Arp (<[Z.to_nat s := new_entry now ip m]> (arp_table t))
             (if arp_table_entries t <=? s then s + 1 else arp_table_entries t))).2 in
      arp_ok t' /\ ((exists s e, arp_table t !! s = Some e /\
         arp_table t' = <[s := new_entry now ip m]> (arp_table t) /\
         arp_lookup t' ip true = Some (take 6 m) /\
         (forall ip', ip' <> ip -> ~ holds e ip' -> arp_lookup t' ip' true = arp_lookup t ip' true) /\
         (e_valid e = true -> e_timestamp e < arp_get_time now /\
            Forall (fun f => e_valid f = true /\ e_timestamp e <= e_timestamp f) (arp_table t))) \/
      (Forall (fun f => e_valid f = true /\ arp_get_time now <= e_timestamp f) (arp_table t) /\ t' = t))).
    { intros k e -> Hk He. destruct (Z.eqb_spec (0 + Z.of_nat k) (-1)); [lia |]. cbn [snd].
      replace (Z.to_nat (0 + Z.of_nat k)) with k by lia.
      destruct (arp_replace t (if arp_table_entries t <=? 0 + Z.of_nat k then 0 + Z.of_nat k + 1 else arp_table_entries t) k e ip m now Hok Hk) as (H1 & H2 & H3).
      { intros i f Hi Hh. by destruct (Hf i f Hi). }
      split; [exact H1 |]. left. exists k, e. by split_and!. }
    destruct Hs as [(k & e & E & Hk & Hv)|(Hv & [(E & Hall)|(k & e & E & Hk & Hlt & Hall)])].
    + apply (Hput k e E Hk). by rewrite Hv.
    + rewrite E. cbn [Z.eqb snd]. split; [done |]. right. split; [|done]. by apply Forall_and.
    + apply (Hput k e E Hk). intros _. split; [done |]. by apply Forall_and.
Qed.

Lemma arp_update_ok now t ip m : arp_ok t -> arp_ok (arp_update_entry now t ip (Some m)).
Proof. intros H. apply (arp_update_spec now t ip m H). Qed.

(** C8. The ARP cache.  It never holds two valid entries for an address.  After
    an update for an address already cached, a lookup of it gives the new MAC
    and every other lookup is unchanged.  For a new address, either the entry
    goes to an invalid slot, or to the slot of the oldest entry, which is older
    than the current time - the address is then resolved to the new MAC, and no
    other address is affected but the one evicted - or, when every entry is valid
    and none is older than the current tick, the update is dropped. *)
Theorem arp_cache_spec now t ip m :
  arp_ok t ->
  let t' := arp_update_entry now t ip (Some m) in
  arp_ok t' /\
  match arp_lookup t ip true with
  | Some _ =>
      arp_lookup t' ip true = Some (take 6 m) /\
      (forall ip', ip' <> ip -> arp_lookup t' ip' true = arp_lookup t ip' true)
  | None =>
      (exists s e, arp_table t !! s = Some e /\
         arp_table t' = <[s := new_entry now ip m]> (arp_table t) /\
         arp_lookup t' ip true = Some (take 6 m) /\
         (forall ip', ip' <> ip -> ~ holds e ip' -> arp_lookup t' ip' true = arp_lookup t ip' true) /\
         (e_valid e = true -> e_timestamp e < arp_get_time now /\
            Forall (fun f => e_valid f = true /\ e_timestamp e <= e_timestamp f) (arp_table t))) \/
      (Forall (fun f => e_valid f = true /\ arp_get_time now <= e_timestamp f) (arp_table t) /\ t' = t)
  end.
Proof. apply arp_update_spec. Qed.

Lemma arp_init_ok : arp_ok arp_init.2.
Proof.
  split; [done |]. cbn [arp_init arp_table snd]. intros i j e f [-> _]%lookup_replicate _ Hv. done.
Qed.

Lemma arp_cache_spec_witness :
  arp_lookup (arp_update_entry 7 arp_init.2 0x0A000202 (Some [1; 2; 3; 4; 5; 6])) 0x0A000202 true = Some [1; 2; 3; 4; 5; 6].
Proof.
  pose proof (arp_cache_spec 7 arp_init.2 0x0A000202 [1; 2; 3; 4; 5; 6] arp_init_ok) as [_ H].
  assert (E : arp_lookup arp_init.2 0x0A000202 true = None) by (vm_compute; reflexivity).
  rewrite E in H. destruct H as [(s & e & _ & _ & H & _)|[H _]]; [exact H |].
  exfalso. inversion H as [|x l [Hx _] Hl Heq]. discriminate.
Defined.

(** ** The protocol *)

Lemma length_arp_packet op sm sip tm tip :
  length sm = 6%nat -> length tm = 6%nat -> length (arp_packet op sm sip tm tip) = 28%nat.
Proof.
  intros H1 H2. unfold arp_packet. rewrite !length_app, !length_be16, !length_be32, !length_take, H1, H2. done.
Qed.

(** The fields [arp_process_packet] reads of a packet built by [arp_packet]. *)
Lemma arp_packet_fields op sm sip tm tip rest :
  length sm = 6%nat -> length tm = 6%nat -> 0 <= op < 0x10000 -> 0 <= sip < 0x100000000 -> 0 <= tip < 0x100000000 ->
  let h := arp_packet op sm sip tm tip ++ rest in
  bswap16 (get16 h 6) = op /\ bswap32 (get32 h 14) = sip /\ bswap32 (get32 h 24) = tip /\ getn 6 h 8 = sm.
Proof.
  intros H1 H2 Hop Hs Ht h. subst h. unfold arp_packet. rewrite !(take_ge _ 6) by lia. rewrite <- !app_assoc.
  split_and!.
  - rdfield. by apply le_val_be16.
  - rdfield. by apply le_val_be32.
  - rdfield. by apply le_val_be32.
  - rdfield. done.
Qed.

(** A table that takes a new entry: a free slot, or one older than now, or the
    address is cached already. *)
Definition has_room (now : Z) (t : arp) (ip : Z) : Prop :=
  (exists m, arp_lookup t ip true = Some m) \/
  Exists (fun e => e_valid e = false \/ e_timestamp e < arp_get_time now) (arp_table t).

Lemma arp_update_resolves now t ip m :
  arp_ok t -> has_room now t ip -> length m = 6%nat -> arp_lookup (arp_update_entry now t ip (Some m)) ip true = Some m.
Proof.
  intros Hok Hroom Hm. unfold arp_update_entry. pose proof (arp_find_spec (arp_table t) 0 ip) as Hf.
  destruct (arp_find (arp_table t) 0 ip) as [i|] eqn:Ef.
  - destruct Hf as (j & e & -> & Hl & [Hv Hip]). rewrite Nat.add_0_l in *.
    unfold arp_lookup. cbn [negb arp_table].
    assert (He : forall l k q, arp_find l k ip = Some q -> forall g, (forall e, e_valid (g e) = e_valid e /\ e_ip_address (g e) = e_ip_address e) ->
      arp_find (alter g j l) k ip = Some q).
    { clear. intros l. revert j. induction l as [|e l IH]; intros j k q Hq g Hg; [done |].
      destruct j; cbn in *; [by destruct (Hg e) as [-> ->] |]. case_match; [done |]. by apply IH. }
    rewrite (He _ _ _ Ef) by done. rewrite list_lookup_total_alter_eq by (by eapply lookup_lt_Some).
    cbn. by rewrite take_ge by lia.
  - assert (Hnone : arp_lookup t ip true = None) by (by apply arp_lookup_None).
    destruct Hroom as [[m' E]|Hroom]; [congruence |].
    cbn [arp_add_entry]. pose proof (slot_loop_spec (arp_table t) 0 (-1) (arp_get_time now) ltac:(lia) ltac:(lia)) as Hs.
    cbv zeta in Hs. set (s := slot_loop _ _ _ _) in *. clearbody s.
    assert (exists k e, s = Z.of_nat k /\ arp_table t !! k = Some e) as (k & e & -> & Hk).
    { destruct Hs as [(k & e & -> & Hk & _)|(Hv & [(-> & Hall)|(k & e & -> & Hk & _)])];
        [by exists k, e | | by exists k, e]. exfalso.
      apply list.Exists_exists in Hroom as (x & Hx & Hx').
      rewrite list.Forall_forall in Hv, Hall. specialize (Hv x Hx). specialize (Hall x Hx). cbv beta in *.
      destruct Hx' as [Hx'|Hx']; [congruence | lia]. }
    destruct (Z.eqb_spec (Z.of_nat k) (-1)); [lia |]. cbn [snd]. rewrite Nat2Z.id.
    destruct (arp_replace t (if arp_table_entries t <=? Z.of_nat k then Z.of_nat k + 1 else arp_table_entries t) k e ip m now Hok Hk) as (_ & H2 & _).
    { intros i f Hi Hh. by destruct (Hf i f Hi). }
    unfold new_entry in H2. rewrite H2. by rewrite take_ge by lia.
Qed.

Section exchange.
Context {nic : Type} {NIC : Nic nic}.

(** A host: its interface [p], sending through [f], with its addresses. *)
Definition host (d : dev nic) (p : nat) (f : driver) (mac : list Z) (ip : Z) : Prop :=
  can_send d p f /\ mac_address (get_if d p) = mac /\ length mac = 6%nat /\
  ip_address (get_if d p) = ip /\ 0 <= ip < 0x100000000.

(** ARP resolution between two hosts.  The request of A is broadcast; B,
    on its payload (with the padding and whatever follows in its frame buffer),
    caches A and answers it alone with its MAC; A, on the payload of the
    answer, caches B and sends nothing.  When both caches have room each host
    then resolves the other's address to its MAC. *)
Theorem arp_exchange dA pA fA macA ipA tA nowA dB pB fB macB ipB tB nowB rest rest' :
  host dA pA fA macA ipA -> host dB pB fB macB ipB ->
  let request := eth_frame broadcast_mac macA ETH_TYPE_ARP (arp_packet ARP_REQUEST macA ipA (replicate 6 0) ipB) in
  let reply := eth_frame macA macB ETH_TYPE_ARP (arp_packet ARP_REPLY macB ipB macA ipA) in
  let tA' := arp_update_entry nowA tA ipB (Some macB) in
  let tB' := arp_update_entry nowB tB ipA (Some macA) in
  arp_send_request (Some pA) ipB dA = (NET_SUCCESS, (call_send fA request dA).2) /\
  arp_process_packet nowB (Some pB) (Some (drop 14 request ++ rest)) tB dB = (tB', (call_send fB reply dB).2) /\
  arp_process_packet nowA (Some pA) (Some (drop 14 reply ++ rest')) tA dA = (tA', dA) /\
  (arp_ok tA -> has_room nowA tA ipB -> arp_lookup tA' ipB true = Some macB) /\
  (arp_ok tB -> has_room nowB tB ipA -> arp_lookup tB' ipA true = Some macA).
Proof.
  intros (HsA & EmA & HmA & EiA & HiA) (HsB & EmB & HmB & EiB & HiB) request reply tA' tB'.
  assert (Hlq : length (arp_packet ARP_REQUEST macA ipA (replicate 6 0) ipB) = 28%nat) by (by apply length_arp_packet).
  assert (Hlr : length (arp_packet ARP_REPLY macB ipB macA ipA) = 28%nat) by (by apply length_arp_packet).
  assert (Hr1 : 0 <= ARP_REQUEST < 0x10000) by done. assert (Hr2 : 0 <= ARP_REPLY < 0x10000) by done.
  split; [|split; [|split; [|split]]].
  - unfold arp_send_request. rewrite EmA, EiA. erewrite ethernet_send_frame_ok; [| exact HsA | rewrite Hlq; lia].
    by rewrite EmA.
  - unfold request. rewrite drop_eth_frame by done. rewrite <- app_assoc.
    destruct (arp_packet_fields ARP_REQUEST macA ipA (replicate 6 0) ipB
      (replicate (46 - length (arp_packet ARP_REQUEST macA ipA (replicate 6 0) ipB)) 0 ++ rest)) as (F1 & F2 & F3 & F4); try done.
    unfold arp_process_packet. rewrite F1, F2, F3, F4, EiB, !Z.eqb_refl. cbn [andb]. f_equal.
    unfold arp_send_reply. erewrite ethernet_send_frame_ok; [| exact HsB |]; rewrite EmB, EiB; [done | rewrite Hlr; lia].
  - unfold reply. rewrite drop_eth_frame by done. rewrite <- app_assoc.
    destruct (arp_packet_fields ARP_REPLY macB ipB macA ipA
      (replicate (46 - length (arp_packet ARP_REPLY macB ipB macA ipA)) 0 ++ rest')) as (F1 & F2 & F3 & F4); try done.
    unfold arp_process_packet. rewrite F1, F2, F3, F4, andb_comm. done.
  - intros Hok Hroom. by apply arp_update_resolves.
  - intros Hok Hroom. by apply arp_update_resolves.
Qed.

End exchange.

Definition demo_host (mac : list Z) (ip : Z) : dev wire :=
  Dev wire (<[0%nat := Iface mac ip 0xFFFFFF00 0 true (replicate 16 0) (Some Ethernet) (Some Ethernet)]> (replicate 4 inhabitant))
      1 (<[0%nat := Some 0%nat]> (replicate 4 None)) 1 loopback_queue0 [].

Lemma demo_host_ok mac ip : length mac = 6%nat -> 0 <= ip < 0x100000000 -> host (demo_host mac ip) 0 Ethernet mac ip.
Proof. intros Hm Hi. by repeat (split; try done). Qed.

Lemma arp_exchange_witness :
  arp_lookup (arp_update_entry 5 arp_init.2 0x0A000202 (Some [2; 0; 0; 0; 0; 9])) 0x0A000202 true = Some [2; 0; 0; 0; 0; 9].
Proof.
  apply (arp_exchange (NIC := wire_nic) (demo_host [2; 0; 0; 0; 0; 1] 0x0A000201) 0 Ethernet [2; 0; 0; 0; 0; 1] 0x0A000201 arp_init.2 5
    (demo_host [2; 0; 0; 0; 0; 9] 0x0A000202) 0 Ethernet [2; 0; 0; 0; 0; 9] 0x0A000202 arp_init.2 6 [] []);
    [apply demo_host_ok; [reflexivity | lia] | apply demo_host_ok; [reflexivity | lia] | apply arp_init_ok |].
  right. apply Exists_cons_hd. left. reflexivity.
Defined.
