(* ===== verification/Ip.v ===== *)
(** * IP: sending and addresses

    [ip.c] except [ip_process_packet] (file Stack) and the checksum (file
    Checksum).  The state of the lower layers is [net]: the devices, the ARP
    cache and the identification counter.  A packet is a buffer with the header
    in its first 20 bytes: version 0, length 2, identification 4, fragment 6,
    TTL 8, protocol 9, checksum 10, source 12, destination 16. *)

From S2P Require Import Prelude Checksum Netdev Ethernet Arp.

Definition IP_VERSION_4 : Z := 4.
Definition IP_PACKET_SIZE : Z := 1500.
Definition IP_PROTOCOL_ICMP : Z := 1.
Definition IP_PROTOCOL_TCP : Z := 6.
Definition IP_PROTOCOL_UDP : Z := 17.
Definition IP_FLAG_DONT_FRAGMENT : Z := 0x4000.

Record net {nic : Type} := Net {
  n_dev : dev nic;
  n_arp : arp;
  ip_identification : Z
}.
Arguments net : clear implicits.

(** The header [ip_send_packet] builds, checksum included. *)
Definition ip_header (id len protocol src dest : Z) : list Z :=
  let header := [Z.lor (Z.shiftl IP_VERSION_4 4) (IP_HEADER_LEN / 4); 0] ++ be16 (u16 (IP_HEADER_LEN + len)) ++ be16 id ++
    be16 IP_FLAG_DONT_FRAGMENT ++ [64; protocol] ++ [0; 0] ++ be32 src ++ be32 dest in
  put16 10 (ip_checksum header) header.

Section ip.
Context {nic : Type} {NIC : Nic nic}.
Implicit Types n : net nic.

Definition ip_init n : Z * net nic := (NET_SUCCESS, Net nic (n_dev n) (n_arp n) 1).

Definition ip_send_packet (p : option nat) (dest_ip protocol : Z) (payload : option (list Z)) n : Z * net nic :=
  match p, payload with
  | Some i, Some pl =>
      let payload_len := Z.of_nat (length pl) in
      if payload_len =? 0 then (NET_INVALID_PARAM, n)
      else if IP_PACKET_SIZE - IP_HEADER_LEN <? payload_len then (NET_ERROR, n)
      else
        let packet := ip_header (ip_identification n) payload_len protocol (ip_address (get_if (n_dev n) i)) dest_ip ++ pl in
        let id := u16 (ip_identification n + 1) in
        if dest_ip =? 0xFFFFFFFF then
          let '(r, d) := ethernet_send_frame (Some i) (Some (replicate 6 0xFF)) ETH_TYPE_IP (Some packet) (n_dev n) in
          (r, Net nic d (n_arp n) id)
        else
          match arp_lookup (n_arp n) dest_ip true with
          | None => (NET_TIMEOUT, Net nic (arp_send_request (Some i) dest_ip (n_dev n)).2 (n_arp n) id)
          | Some dest_mac =>
              let '(r, d) := ethernet_send_frame (Some i) (Some dest_mac) ETH_TYPE_IP (Some packet) (n_dev n) in
              (r, Net nic d (n_arp n) id)
          end
  | _, _ => (NET_INVALID_PARAM, n)
  end.

Definition ip_is_local n (p : option nat) (ip_addr : Z) : bool :=
  match p with
  | None => false
  | Some i => let f := get_if (n_dev n) i in
              Z.land (ip_address f) (subnet_mask f) =? Z.land ip_addr (subnet_mask f)
  end.

End ip.

(** ** Dotted addresses

    Characters are their ASCII codes; a string ends at a zero or at the end of
    the list. *)

(** The octet loop of [ip_str_to_addr] and [inet_addr]: [None] when it returns
    from its body. *)
Fixpoint octet_loop (s octets : list Z) (octet_idx : nat) (current : Z) : option (list Z * nat * Z) :=
  match s with
  | [] => Some (octets, octet_idx, current)
  | c :: s' =>
      if (c =? 0) || (4 <=? octet_idx)%nat then Some (octets, octet_idx, current)
      else if (48 <=? c) && (c <=? 57) then
        let current := u32 (current * 10 + (c - 48)) in
        if 255 <? current then None else octet_loop s' octets octet_idx current
      else if c =? 46 then octet_loop s' (<[octet_idx := current]> octets) (S octet_idx) 0
      else None
  end.

(** [(o0 << 24) | (o1 << 16) | (o2 << 8) | o3] *)
Definition combine (o0 o1 o2 o3 : Z) : Z :=
  u32 (Z.lor (Z.lor (Z.lor (Z.shiftl o0 24) (Z.shiftl o1 16)) (Z.shiftl o2 8)) o3).

(** The part after the loop, [None] for an invalid number of octets. *)
Definition octets_addr (r : option (list Z * nat * Z)) : option Z :=
  match r with
  | None => None
  | Some (octets, idx, current) =>
      let octets := if (idx <? 4)%nat then <[idx := current]> octets else octets in
      if negb (idx =? 3)%nat then None
      else Some (combine (octets !!! 0%nat) (octets !!! 1%nat) (octets !!! 2%nat) (octets !!! 3%nat))
  end.

Definition ip_str_to_addr (ip_str : option (list Z)) : Z :=
  match ip_str with
  | None => 0
  | Some s => default 0 (octets_addr (octet_loop s [0; 0; 0; 0] 0 0))
  end.

Definition octet_str (val : Z) : list Z :=
  if 100 <=? val then [48 + val / 100; 48 + (val mod 100) / 10; 48 + (val mod 100) mod 10]
  else if 10 <=? val then [48 + val / 10; 48 + val mod 10]
  else [48 + val].

(** The characters [ip_addr_to_str] writes, without the final zero. *)
Definition ip_addr_to_str (a : Z) : list Z :=
  octet_str (Z.land (Z.shiftr a 24) 0xFF) ++ [46] ++ octet_str (Z.land (Z.shiftr a 16) 0xFF) ++ [46] ++
  octet_str (Z.land (Z.shiftr a 8) 0xFF) ++ [46] ++ octet_str (Z.land a 0xFF).

(** [socket.c]: byte order and the text functions. *)
Definition htons (x : Z) : Z := bswap16 x.
Definition ntohs (x : Z) : Z := bswap16 x.
Definition htonl (x : Z) : Z := bswap32 x.
Definition ntohl (x : Z) : Z := bswap32 x.

Definition inet_addr (cp : option (list Z)) : Z :=
  match cp with
  | None => 0xFFFFFFFF
  | Some s => match octets_addr (octet_loop s [0; 0; 0; 0] 0 0) with
              | Some a => htonl a
              | None => 0xFFFFFFFF
              end
  end.

Definition inet_ntoa (addr : Z) : list Z := ip_addr_to_str (ntohl addr).

(** ** Round trips *)

Definition octet (x : Z) : Prop := 0 <= x < 0x100.

Lemma shiftl_mul x n k : 0 <= n -> 2 ^ n = k -> Z.shiftl x n = x * k.
Proof. intros Hn <-. by apply Z.shiftl_mul_pow2. Qed.

Lemma combine_eq o0 o1 o2 o3 :
  octet o0 -> octet o1 -> octet o2 -> octet o3 ->
  combine o0 o1 o2 o3 = o0 * 0x1000000 + o1 * 0x10000 + o2 * 0x100 + o3.
Proof.
  unfold octet. intros H0 H1 H2 H3. unfold combine.
  remember (o0 * 0x1000000 + o1 * 0x10000 + o2 * 0x100 + o3) as r eqn:Er.
  rewrite (shiftl_mul o1 16 0x10000), (shiftl_mul o2 8 0x100) by done.
  rewrite (lor_add o0 24) by (change (2 ^ 24) with 0x1000000; lia). change (2 ^ 24) with 0x1000000.
  replace (o0 * 0x1000000 + o1 * 0x10000) with (Z.shiftl (o0 * 0x100 + o1) 16)
    by (rewrite (shiftl_mul _ 16 0x10000) by done; lia).
  rewrite lor_add by (change (2 ^ 16) with 0x10000; lia). change (2 ^ 16) with 0x10000.
  replace ((o0 * 0x100 + o1) * 0x10000 + o2 * 0x100) with (Z.shiftl (o0 * 0x10000 + o1 * 0x100 + o2) 8)
    by (rewrite (shiftl_mul _ 8 0x100) by done; lia).
  rewrite lor_add by (change (2 ^ 8) with 0x100; lia). change (2 ^ 8) with 0x100. rewrite u32_small; lia.
Qed.

Lemma land_255 x : Z.land x 0xFF = x mod 0x100.
Proof. change 0xFF with (Z.ones 8). by rewrite Z.land_ones by lia. Qed.

(** The four octets of an address put together give it back. *)
Lemma octets_combine a :
  0 <= a < 0x100000000 ->
  combine (Z.land (Z.shiftr a 24) 0xFF) (Z.land (Z.shiftr a 16) 0xFF) (Z.land (Z.shiftr a 8) 0xFF) (Z.land a 0xFF) = a.
Proof.
  intros Ha. rewrite !land_255, !Z.shiftr_div_pow2 by lia.
  change (2 ^ 24) with 0x1000000. change (2 ^ 16) with 0x10000. change (2 ^ 8) with 0x100.
  rewrite combine_eq by (unfold octet; zlia). zlia.
Qed.

Lemma octet_loop_digit d s o i cur :
  (i < 4)%nat -> 0 <= d <= 9 -> 0 <= cur -> cur * 10 + d <= 255 ->
  octet_loop (48 + d :: s) o i cur = octet_loop s o i (cur * 10 + d).
Proof.
  intros Hi Hd Hc Hle. cbn [octet_loop].
  destruct (Z.eqb_spec (48 + d) 0); [lia |]. rewrite (proj2 (Nat.leb_gt 4 i)) by lia. cbn [orb].
  destruct (Z.leb_spec 48 (48 + d)), (Z.leb_spec (48 + d) 57); try lia. cbn [andb].
  replace (48 + d - 48) with d by lia. rewrite u32_small by lia. destruct (Z.ltb_spec 255 (cur * 10 + d)); [lia | done].
Qed.

(** Parsing a printed octet. *)
Lemma octet_loop_octet v s o i :
  (i < 4)%nat -> octet v -> octet_loop (octet_str v ++ s) o i 0 = octet_loop s o i v.
Proof.
  unfold octet. intros Hi Hv. unfold octet_str. zcases; cbn [app];
    repeat rewrite octet_loop_digit by (done || zlia); f_equal; zlia.
Qed.

Lemma octet_loop_dot s o i cur :
  (i < 4)%nat -> octet_loop (46 :: s) o i cur = octet_loop s (<[i := cur]> o) (S i) 0.
Proof. intros Hi. cbn [octet_loop Z.eqb Z.leb]. rewrite (proj2 (Nat.leb_gt 4 i)) by lia. done. Qed.

Lemma octet_land x : octet (Z.land x 0xFF).
Proof. unfold octet. rewrite land_255. zlia. Qed.

Lemma parse_printed a :
  0 <= a < 0x100000000 -> octets_addr (octet_loop (ip_addr_to_str a) [0; 0; 0; 0] 0 0) = Some a.
Proof.
  intros Ha. unfold ip_addr_to_str.
  rewrite octet_loop_octet by (apply octet_land || lia). cbn [app]. rewrite octet_loop_dot by lia.
  rewrite octet_loop_octet by (apply octet_land || lia). cbn [app]. rewrite octet_loop_dot by lia.
  rewrite octet_loop_octet by (apply octet_land || lia). cbn [app]. rewrite octet_loop_dot by lia.
  rewrite <- (app_nil_r (octet_str (Z.land a 0xFF))).
  rewrite octet_loop_octet by (apply octet_land || lia).
  unfold octet_loop, octets_addr. cbn -[combine Z.land Z.shiftr]. f_equal. by apply octets_combine.
Qed.

(** Printing an address and parsing the text gives the address back, in
    host order through [ip_addr_to_str] and [ip_str_to_addr] and in network
    order through [inet_ntoa] and [inet_addr]; the text takes at most 15
    characters, which fit with the final zero in the 16-byte buffer of
    [inet_ntoa]. *)
Theorem ip_addr_roundtrip a :
  0 <= a < 0x100000000 ->
  ip_str_to_addr (Some (ip_addr_to_str a)) = a /\
  inet_addr (Some (inet_ntoa a)) = a /\
  Z.of_nat (length (inet_ntoa a)) <= 15.
Proof.
  intros Ha. split; [|split].
  - unfold ip_str_to_addr. by rewrite parse_printed.
  - unfold inet_addr, inet_ntoa. rewrite parse_printed by apply bswap32_range. by apply bswap32_invol.
  - unfold inet_ntoa, ip_addr_to_str.
    assert (Hl : forall v, (length (octet_str v) <= 3)%nat) by (intros v; unfold octet_str; zcases; cbn; lia).
    rewrite !length_app. cbn [length].
    pose proof (Hl (Z.land (Z.shiftr (ntohl a) 24) 0xFF)). pose proof (Hl (Z.land (Z.shiftr (ntohl a) 16) 0xFF)).
    pose proof (Hl (Z.land (Z.shiftr (ntohl a) 8) 0xFF)). pose proof (Hl (Z.land (ntohl a) 0xFF)). lia.
Qed.

Lemma ip_addr_roundtrip_witness :
  ip_addr_to_str 0xC0A80164 = [49; 57; 50; 46; 49; 54; 56; 46; 49; 46; 49; 48; 48] /\
  ip_str_to_addr (Some (ip_addr_to_str 0xC0A80164)) = 0xC0A80164.
Proof. split; [vm_compute; reflexivity | apply (ip_addr_roundtrip 0xC0A80164); lia]. Defined.

(** ** The header *)

Definition ip_head1 (id len protocol : Z) : list Z :=
  [0x45; 0] ++ be16 (u16 (IP_HEADER_LEN + len)) ++ be16 id ++ be16 IP_FLAG_DONT_FRAGMENT ++ [64; protocol].
Definition ip_head2 (src dest : Z) : list Z := be32 src ++ be32 dest.

Lemma length_ip_head1 id len protocol : length (ip_head1 id len protocol) = 10%nat.
Proof. unfold ip_head1. rewrite !length_app, !length_be16. done. Qed.
Lemma length_ip_head2 src dest : length (ip_head2 src dest) = 8%nat.
Proof. unfold ip_head2. by rewrite length_app, !length_be32. Qed.

Lemma ip_header_eq id len protocol src dest :
  let c := ip_checksum (ip_head1 id len protocol ++ [0; 0] ++ ip_head2 src dest) in
  ip_header id len protocol src dest = ip_head1 id len protocol ++ le_bytes 2 c ++ ip_head2 src dest.
Proof.
  cbv zeta. unfold ip_header.
  assert (E : [Z.lor (Z.shiftl IP_VERSION_4 4) (IP_HEADER_LEN / 4); 0] ++ be16 (u16 (IP_HEADER_LEN + len)) ++ be16 id ++
    be16 IP_FLAG_DONT_FRAGMENT ++ [64; protocol] ++ [0; 0] ++ be32 src ++ be32 dest =
    ip_head1 id len protocol ++ [0; 0] ++ ip_head2 src dest) by (unfold ip_head1, ip_head2; by rewrite <- !app_assoc).
  rewrite E. unfold put16. apply put_split; [apply length_ip_head1 | by rewrite length_le_bytes].
Qed.

Lemma length_ip_header id len protocol src dest : length (ip_header id len protocol src dest) = 20%nat.
Proof. rewrite ip_header_eq, !length_app, length_ip_head1, length_le_bytes, length_ip_head2. done. Qed.

(** A header whose checksum field holds [ip_checksum] validates, whatever follows it. *)
Lemma ip_validate_split l1 l2 rest :
  length l1 = 10%nat -> length l2 = 8%nat ->
  ip_validate_checksum (l1 ++ le_bytes 2 (ip_checksum (l1 ++ [0; 0] ++ l2)) ++ l2 ++ rest) = true.
Proof.
  intros H1 H2. unfold ip_validate_checksum.
  rewrite get16_split by (done || apply length_le_bytes). unfold put16.
  rewrite put_split by (done || by rewrite !length_le_bytes). change (le_bytes 2 0) with [0; 0].
  apply Z.eqb_eq.
  assert (ip_checksum (l1 ++ [0; 0] ++ l2 ++ rest) = ip_checksum (l1 ++ [0; 0] ++ l2)) as ->.
  { unfold ip_checksum. f_equal. apply sum_words_ext.
    replace (l1 ++ [0; 0] ++ l2 ++ rest) with ((l1 ++ [0; 0] ++ l2) ++ rest) by (by rewrite <- !app_assoc).
    apply take_app_le. rewrite !length_app, H1, H2. vm_compute. reflexivity. }
  rewrite le_val_le_bytes. change (0x100 ^ Z.of_nat 2) with 0x10000. apply Z.mod_small. apply u16_range.
Qed.

Lemma get8_here b l : get8 (b :: l) 0 = b.
Proof. done. Qed.

(** The fields of a packet with this header, read as [ip_process_packet] does. *)
Lemma ip_header_fields id len protocol src dest pl :
  0 <= src < 0x100000000 -> 0 <= dest < 0x100000000 ->
  let packet := ip_header id len protocol src dest ++ pl in
  Z.land (Z.shiftr (get8 packet 0) 4) 0x0F = IP_VERSION_4 /\
  ip_validate_checksum packet = true /\
  get8 packet 9 = protocol /\
  bswap32 (get32 packet 12) = src /\ bswap32 (get32 packet 16) = dest /\
  drop 20 packet = pl.
Proof.
  intros Hs Hd packet. subst packet.
  assert (Hl := length_ip_header id len protocol src dest).
  split; [|split; [|split; [|split; [|split]]]].
  - rewrite ip_header_eq. done.
  - rewrite ip_header_eq. rewrite <- !app_assoc. apply ip_validate_split; [apply length_ip_head1 | apply length_ip_head2].
  - rewrite ip_header_eq. rewrite <- !app_assoc. unfold ip_head1. rewrite <- !app_assoc.
    rewrite !get8_skip by (lens; lia). lens. done.
  - rewrite ip_header_eq. rewrite <- !app_assoc. assert (H1 := length_ip_head1 id len protocol).
    unfold ip_head2. rewrite <- !app_assoc. rdfield. by apply le_val_be32.
  - rewrite ip_header_eq. rewrite <- !app_assoc. assert (H1 := length_ip_head1 id len protocol).
    unfold ip_head2. rewrite <- !app_assoc. rdfield. by apply le_val_be32.
  - rewrite drop_app_ge by lia. rewrite Hl. done.
Qed.

(** ** Sending *)

Section sending.
Context {nic : Type} {NIC : Nic nic}.
Implicit Types n : net nic.

(** The MAC address a packet for [dest] is sent to. *)
Definition resolve n (dest : Z) : option (list Z) :=
  if dest =? 0xFFFFFFFF then Some (replicate 6 0xFF) else arp_lookup (n_arp n) dest true.

(** The state after a frame has been sent through [f]. *)
Definition sent (f : driver) (frame : list Z) n : net nic :=
  Net nic (call_send f frame (n_dev n)).2 (n_arp n) (u16 (ip_identification n + 1)).

(** The Ethernet frame of an IP packet from interface [p]. *)
Definition ip_frame n (p : nat) (dm : list Z) (dest protocol : Z) (pl : list Z) : list Z :=
  let i := get_if (n_dev n) p in
  eth_frame dm (mac_address i) ETH_TYPE_IP
    (ip_header (ip_identification n) (Z.of_nat (length pl)) protocol (ip_address i) dest ++ pl).

Lemma ip_send_resolved n p f dest protocol pl dm :
  can_send (n_dev n) p f -> 0 < Z.of_nat (length pl) <= 1480 -> resolve n dest = Some dm ->
  ip_send_packet (Some p) dest protocol (Some pl) n = (NET_SUCCESS, sent f (ip_frame n p dm dest protocol pl) n).
Proof.
  intros Hs Hl Hr. unfold ip_send_packet, resolve in *. cbv zeta.
  destruct (Z.eqb_spec (Z.of_nat (length pl)) 0); [lia |].
  unfold IP_PACKET_SIZE, IP_HEADER_LEN. destruct (Z.ltb_spec (1500 - 20) (Z.of_nat (length pl))); [lia |].
  set (packet := ip_header _ _ _ _ _ ++ pl).
  assert (0 < Z.of_nat (length packet) <= 1500) by (subst packet; rewrite length_app, length_ip_header; lia).
  destruct (dest =? 0xFFFFFFFF).
  - injection Hr as <-. by rewrite (ethernet_send_frame_ok _ p f).
  - rewrite Hr. by rewrite (ethernet_send_frame_ok _ p f).
Qed.

Lemma ip_send_unresolved n p dest protocol pl :
  0 < Z.of_nat (length pl) <= 1480 -> resolve n dest = None ->
  ip_send_packet (Some p) dest protocol (Some pl) n =
    (NET_TIMEOUT, Net nic (arp_send_request (Some p) dest (n_dev n)).2 (n_arp n) (u16 (ip_identification n + 1))).
Proof.
  intros Hl Hr. unfold ip_send_packet, resolve in *. cbv zeta.
  destruct (Z.eqb_spec (Z.of_nat (length pl)) 0); [lia |].
  unfold IP_PACKET_SIZE, IP_HEADER_LEN. destruct (Z.ltb_spec (1500 - 20) (Z.of_nat (length pl))); [lia |].
  destruct (dest =? 0xFFFFFFFF); [done |]. by rewrite Hr.
Qed.

Lemma ip_send_ifs p dest protocol pl n : same_ifs (n_dev n) (n_dev (ip_send_packet p dest protocol pl n).2).
Proof.
  unfold ip_send_packet. destruct p as [i|], pl as [pl|]; try done. cbv zeta.
  case_match; [done |]. case_match; [done |]. case_match.
  - match goal with |- context [ethernet_send_frame ?a ?b ?c ?e ?g] =>
      pose proof (ethernet_send_frame_ifs a b c e g) as H'; destruct (ethernet_send_frame a b c e g) end. exact H'.
  - case_match.
    + match goal with |- context [ethernet_send_frame ?a ?b ?c ?e ?g] =>
        pose proof (ethernet_send_frame_ifs a b c e g) as H'; destruct (ethernet_send_frame a b c e g) end. exact H'.
    + apply ethernet_send_frame_ifs.
Qed.

(** After a frame has been sent, addresses, routes and resolutions are the same. *)
Lemma sent_ifs f l n : same_ifs (n_dev n) (n_dev (sent f l n)).
Proof. apply call_send_ifs. Qed.
Lemma sent_get_if f l n p : get_if (n_dev (sent f l n)) p = get_if (n_dev n) p.
Proof. apply same_ifs_get, sent_ifs. Qed.
Lemma sent_can_send f l n p g : can_send (n_dev n) p g -> can_send (n_dev (sent f l n)) p g.
Proof. unfold can_send. by rewrite sent_get_if. Qed.
Lemma sent_resolve f l n dest : resolve (sent f l n) dest = resolve n dest.
Proof. done. Qed.
Lemma sent_route f l n ip : network_find_route ip (n_dev (sent f l n)) = network_find_route ip (n_dev n).
Proof.
  destruct (sent_ifs f l n) as (E1 & E2 & E3 & E4). unfold network_find_route. rewrite E4.
  rewrite (find_if_ext _ (fun f => Z.land (ip_address f) (subnet_mask f) =? Z.land ip (subnet_mask f)) _ _ _ (n_dev n));
    [| done | intros p; by rewrite sent_get_if | intros p; by rewrite sent_get_if].
  by rewrite (find_if_ext (fun _ => true) (fun _ => true) _ _ _ (n_dev n)); [| done | intros p; by rewrite sent_get_if |].
Qed.

(** Sending an IP packet.  A payload of 1 to 1480 bytes for an address that
    is the broadcast address or in the ARP cache goes out in one frame to the
    resolved MAC, whose header passes the receiver's checks and carries the
    protocol and the two addresses, followed by the payload.  For an unresolved
    address an ARP request is sent instead: the packet is dropped, nothing
    queued, and the result is [NET_TIMEOUT].  Either way the identification
    advances by one.  Longer and empty payloads are refused without change. *)
Theorem ip_send_packet_spec n p f dest protocol pl :
  can_send (n_dev n) p f -> 0 <= dest < 0x100000000 -> 0 <= ip_address (get_if (n_dev n) p) < 0x100000000 ->
  let len := Z.of_nat (length pl) in
  let r := ip_send_packet (Some p) dest protocol (Some pl) n in
  if decide (0 < len <= 1480) then
    match resolve n dest with
    | Some dm =>
        r = (NET_SUCCESS, sent f (ip_frame n p dm dest protocol pl) n) /\
        exists h, ip_frame n p dm dest protocol pl =
                    eth_frame dm (mac_address (get_if (n_dev n) p)) ETH_TYPE_IP (h ++ pl) /\
          length h = 20%nat /\ Z.land (Z.shiftr (get8 h 0) 4) 0x0F = IP_VERSION_4 /\ ip_validate_checksum h = true /\
          get8 h 9 = protocol /\ bswap32 (get32 h 12) = ip_address (get_if (n_dev n) p) /\ bswap32 (get32 h 16) = dest
    | None =>
        r = (NET_TIMEOUT, Net nic (arp_send_request (Some p) dest (n_dev n)).2 (n_arp n) (u16 (ip_identification n + 1)))
    end
  else r = (if len =? 0 then NET_INVALID_PARAM else NET_ERROR, n).
Proof.
  intros Hs Hd Hip len r. destruct (decide _) as [Hl|Hl].
  - destruct (resolve n dest) as [dm|] eqn:Er; [|by apply ip_send_unresolved].
    split; [by apply ip_send_resolved |].
    eexists. split; [reflexivity |]. split; [apply length_ip_header |].
    pose proof (ip_header_fields (ip_identification n) len protocol (ip_address (get_if (n_dev n) p)) dest [] Hip Hd) as F.
    cbv zeta in F. rewrite app_nil_r in F. destruct F as (F1 & F2 & F3 & F4 & F5 & _). done.
  - unfold r, ip_send_packet. cbv zeta. fold len. destruct (Z.eqb_spec len 0); [done |].
    unfold IP_PACKET_SIZE, IP_HEADER_LEN. destruct (Z.ltb_spec (1500 - 20) len); [done | lia].
Qed.

End sending.

Definition demo_net (mac : list Z) (ip : Z) : net wire := Net wire (demo_host mac ip) arp_init.2 1.

Lemma ip_send_packet_spec_witness :
  (ip_send_packet (NIC := wire_nic) (Some 0%nat) 0x0A000202 IP_PROTOCOL_UDP (Some [1; 2; 3; 4]) (demo_net [2; 0; 0; 0; 0; 1] 0x0A000201)).1
    = NET_TIMEOUT /\
  can_send (demo_host [2; 0; 0; 0; 0; 1] 0x0A000201) 0 Ethernet.
Proof.
  assert (Hs : can_send (demo_host [2; 0; 0; 0; 0; 1] 0x0A000201) 0 Ethernet) by (split; reflexivity).
  split; [|exact Hs].
  pose proof (ip_send_packet_spec (NIC := wire_nic) (demo_net [2; 0; 0; 0; 0; 1] 0x0A000201) 0 Ethernet 0x0A000202
    IP_PROTOCOL_UDP [1; 2; 3; 4] Hs ltac:(lia) ltac:(cbn; lia)) as H.
  rewrite decide_True in H by (cbn [length]; lia).
  assert (E : resolve (demo_net [2; 0; 0; 0; 0; 1] 0x0A000201) 0x0A000202 = None) by (vm_compute; reflexivity).
  rewrite E in H. rewrite H. reflexivity.
Defined.
