(* ===== verification/Transport.v ===== *)
(** * The transport checksum

    [udp_checksum] and [tcp_checksum] are the same code up to the protocol
    number: [transport_checksum].  The theorem compares it with RFC 768 and
    RFC 793. *)

From S2P Require Import Prelude Checksum Netdev Ethernet Ip.

Definition transport_checksum (protocol : Z) (header : list Z) (src_ip dest_ip len : Z) : Z :=
  let sum := u32 (Z.land (Z.shiftr src_ip 16) 0xFFFF) in
  let sum := u32 (sum + Z.land src_ip 0xFFFF) in
  let sum := u32 (sum + Z.land (Z.shiftr dest_ip 16) 0xFFFF) in
  let sum := u32 (sum + Z.land dest_ip 0xFFFF) in
  let sum := u32 (sum + bswap16 protocol) in
  let sum := u32 (sum + bswap16 (u16 len)) in
  let sum := sum_words (Z.to_nat (len / 2)) 0 header sum in
  let sum := if Z.land len 1 =? 0 then sum
             else u32 (sum + Z.shiftl (get8 header (Z.to_nat (len - 1))) 8) in
  complement sum.

Definition udp_checksum : list Z -> Z -> Z -> Z -> Z := transport_checksum IP_PROTOCOL_UDP.
Definition tcp_checksum : list Z -> Z -> Z -> Z -> Z := transport_checksum IP_PROTOCOL_TCP.

(** ** When a message verifies *)

(** Storing the complement of any sum [s] makes the message verify exactly when
    [s] is congruent to its little-endian sum modulo 65535. *)
Lemma verifies_iff l1 l2 s :
  bytes (l1 ++ l2) -> Nat.Even (length l1) -> Z.of_nat (length (l1 ++ l2)) <= 0x1000 ->
  0 <= s < 0x100000000 -> 0 < le_sum (l1 ++ l2) ->
  rfc1071_verifies (l1 ++ le_bytes 2 (complement s) ++ l2) <-> (s - le_sum (l1 ++ l2)) mod 0xFFFF = 0.
Proof.
  intros Hb He Hlen Hs Hpos. unfold rfc1071_verifies. apply bytes_app in Hb as [Hb1 Hb2].
  rewrite be_sum_app by done. rewrite length_app in Hlen. rewrite le_sum_app in * by done.
  pose proof (be_sum_bounds l1 Hb1). pose proof (be_sum_bounds l2 Hb2).
  pose proof (le_sum_bounds l1 Hb1). pose proof (le_sum_bounds l2 Hb2).
  rewrite complement_eq by done. destruct (fold_carry_spec s Hs) as (Hr & Hmod & Hr0).
  set (r := fold_carry 3 s) in *. clearbody r.
  assert (be_sum (le_bytes 2 (0xFFFF - r) ++ l2) =
    256 * ((0xFFFF - r) mod 256) + (0xFFFF - r) / 256 mod 256 + be_sum l2) as -> by done.
  assert (Hb12 : (be_sum l1 + be_sum l2 - 256 * (le_sum l1 + le_sum l2)) mod 0xFFFF = 0).
  { pose proof (be_le_sum l1). pose proof (be_le_sum l2). clear - H3 H4.
    generalize dependent (be_sum l1). generalize dependent (be_sum l2).
    generalize dependent (le_sum l1). generalize dependent (le_sum l2). intros. zlia. }
  assert (HB0 : be_sum l1 + be_sum l2 <> 0).
  { pose proof (be_sum_0 l1 Hb1). pose proof (be_sum_0 l2 Hb2). lia. }
  set (S := le_sum l1 + le_sum l2) in *. set (B := be_sum l1 + be_sum l2) in *.
  set (t := be_sum l1 + (256 * ((0xFFFF - r) mod 256) + (0xFFFF - r) / 256 mod 256 + be_sum l2)).
  assert (Ht : t = B + (256 * ((0xFFFF - r) mod 256) + (0xFFFF - r) / 256)) by (subst t B; zlia).
  assert (Ht0 : 0 < t < 0x100000000) by (subst t B; zlia).
  destruct (fold_carry_spec t ltac:(lia)) as (Hf & Hfm & Hf0).
  assert (Hv : fold_carry 3 t = 0xFFFF <-> t mod 0xFFFF = 0) by (split; intros E; zlia).
  rewrite Hv, Ht. clearbody B S. clear - Hmod Hb12 Hr. split; intros E; zlia.
Qed.

(** ** The pseudo-header *)

(** The words the RFCs add for the addresses, the protocol and the length. *)
Definition pseudo_header (protocol src_ip dest_ip len : Z) : list Z :=
  be32 src_ip ++ be32 dest_ip ++ [0; protocol] ++ be16 len.

(** The sum of the four 16-bit halves of the addresses, in host order. *)
Definition address_words (src_ip dest_ip : Z) : Z :=
  src_ip / 0x10000 + src_ip mod 0x10000 + dest_ip / 0x10000 + dest_ip mod 0x10000.

Lemma le_sum_be16 x : 0 <= x < 0x10000 -> le_sum (be16 x) = bswap16 x.
Proof.
  intros Hx. unfold be16, bswap16. cbn [le_bytes rev app le_sum le_val]. zlia.
Qed.

Lemma bswap16_mod x : 0 <= x < 0x10000 -> (bswap16 x - 256 * x) mod 0xFFFF = 0.
Proof. intros Hx. unfold bswap16. cbn [le_bytes rev app le_val]. zlia. Qed.

Lemma le_sum_be32 x : 0 <= x < 0x100000000 -> (le_sum (be32 x) - 256 * (x / 0x10000 + x mod 0x10000)) mod 0xFFFF = 0.
Proof. intros Hx. unfold be32, bswap32. cbn [le_bytes rev app le_sum le_val]. zlia. Qed.

Lemma land_ffff x : Z.land x 0xFFFF = x mod 0x10000.
Proof. change 0xFFFF with (Z.ones 16). by rewrite Z.land_ones by lia. Qed.

Lemma transport_checksum_even protocol l1 l2 src dest :
  bytes (l1 ++ l2) -> Nat.Even (length l1) -> Nat.Even (length l2) -> Z.of_nat (length (l1 ++ l2)) <= 0x800 ->
  0 <= src < 0x100000000 -> 0 <= dest < 0x100000000 ->
  let len := Z.of_nat (length (l1 ++ [0; 0] ++ l2)) in
  transport_checksum protocol (l1 ++ [0; 0] ++ l2) src dest len =
    complement (address_words src dest + bswap16 protocol + bswap16 len + le_sum (l1 ++ l2)).
Proof.
  intros Hb [n1 E1] [n2 E2] Hl Hs Hd len. unfold transport_checksum.
  assert (El : len = Z.of_nat (n1 + 1 + n2) * 2) by (subst len; rewrite !length_app; cbn [length]; lia).
  rewrite length_app in Hl.
  assert (Z.land len 1 = 0) as ->.
  { change 1 with (Z.ones 1). rewrite Z.land_ones by lia. rewrite El. change (2 ^ 1) with 2. by apply Z.mod_mul. }
  rewrite Z.eqb_refl. f_equal. rewrite (u16_small len) by lia.
  rewrite !land_ffff, !Z.shiftr_div_pow2 by lia. change (2 ^ 16) with 0x10000.
  pose proof (bswap16_range protocol). pose proof (bswap16_range len).
  assert (src / 0x10000 mod 0x10000 = src / 0x10000) as -> by zlia.
  assert (dest / 0x10000 mod 0x10000 = dest / 0x10000) as -> by zlia.
  rewrite (u32_small (src / 0x10000)), (u32_small (_ + src mod _)), (u32_small (_ + dest / _)),
    (u32_small (_ + dest mod _)), (u32_small (_ + bswap16 protocol)), (u32_small (_ + bswap16 len)) by zlia.
  rewrite El, Z.div_mul by lia. rewrite Nat2Z.id. fold len. rewrite <- El.
  apply bytes_app in Hb as [Hb1 Hb2].
  rewrite sum_words_le; [| | rewrite !length_app; cbn [length]; lia | zlia | zlia].
  2: { by repeat (apply bytes_app; split); try apply bytes_zero2. }
  rewrite take_ge by (rewrite !length_app; cbn [length]; lia).
  rewrite le_sum_app by (by exists n1). rewrite (le_sum_app [0; 0]) by (by exists 1%nat).
  rewrite le_sum_app by (by exists n1). change (le_sum [0; 0]) with 0. unfold address_words. lia.
Qed.

(** The UDP and TCP checksum against the RFCs: the checksum computed for a
    message of even length makes it verify, with its pseudo-header, exactly
    when 257 divides the sum of the halves of the two addresses.  The code adds
    those words in host order to words read in the order of the wire, so for
    other addresses every receiver that checks the sum rejects the message. *)
Theorem transport_checksum_rfc protocol l1 l2 src dest :
  protocol = IP_PROTOCOL_UDP \/ protocol = IP_PROTOCOL_TCP ->
  bytes (l1 ++ l2) -> Nat.Even (length l1) -> Nat.Even (length l2) -> Z.of_nat (length (l1 ++ l2)) <= 0x800 ->
  0 <= src < 0x100000000 -> 0 <= dest < 0x100000000 ->
  let len := Z.of_nat (length (l1 ++ [0; 0] ++ l2)) in
  let c := transport_checksum protocol (l1 ++ [0; 0] ++ l2) src dest len in
  rfc1071_verifies (pseudo_header protocol src dest len ++ l1 ++ le_bytes 2 c ++ l2) <->
    address_words src dest mod 257 = 0.
Proof.
  intros Hp Hb He1 He2 Hl Hs Hd len c.
  assert (Hproto : 0 <= protocol < 256) by (destruct Hp as [-> | ->]; done).
  assert (Hlen : 0 <= len < 0x10000) by (subst len; rewrite !length_app in *; cbn [length]; lia).
  assert (Ec : c = complement (address_words src dest + bswap16 protocol + bswap16 len + le_sum (l1 ++ l2)))
    by (by apply transport_checksum_even).
  clearbody c. clearbody len. rewrite Ec.
  assert (Eps : length (pseudo_header protocol src dest len) = 12%nat).
  { unfold pseudo_header. rewrite !length_app, !length_be32, length_be16. done. }
  rewrite (app_assoc (pseudo_header _ _ _ _)).
  assert (Els : le_sum ((pseudo_header protocol src dest len ++ l1) ++ l2) =
     le_sum (be32 src) + le_sum (be32 dest) + 256 * protocol + bswap16 len + le_sum (l1 ++ l2)).
  { rewrite <- app_assoc. rewrite le_sum_app by (rewrite Eps; by exists 6%nat). unfold pseudo_header.
    rewrite le_sum_app by (rewrite length_be32; by exists 2%nat).
    rewrite le_sum_app by (rewrite length_be32; by exists 2%nat).
    rewrite (le_sum_app [0; protocol]) by (by exists 1%nat). rewrite le_sum_be16 by done. cbn [le_sum]. lia. }
  assert (Hb' : bytes ((pseudo_header protocol src dest len ++ l1) ++ l2)).
  { rewrite <- app_assoc. apply bytes_app. split; [|done]. unfold pseudo_header.
    repeat (apply bytes_app; split); auto with words. repeat constructor; lia. }
  pose proof (le_sum_bounds (l1 ++ l2) Hb). pose proof (le_sum_bounds _ (be32_bytes src)).
  pose proof (le_sum_bounds _ (be32_bytes dest)). rewrite length_be32 in *.
  pose proof (bswap16_range len). pose proof (bswap16_range protocol).
  assert (Haw : 0 <= address_words src dest < 0x40000) by (clear - Hs Hd; unfold address_words; zlia).
  assert (Eproto : bswap16 protocol = 256 * protocol).
  { unfold bswap16. cbn [le_bytes rev app le_val]. zlia. }
  rewrite verifies_iff; [| done | | | lia |].
  - rewrite Els, Eproto. pose proof (le_sum_be32 src Hs) as H4. pose proof (le_sum_be32 dest Hd) as H5.
    unfold address_words. set (P := src / 0x10000 + src mod 0x10000) in *. set (Q := dest / 0x10000 + dest mod 0x10000) in *.
    replace (P + dest / 0x10000 + dest mod 0x10000) with (P + Q) by lia.
    clearbody P Q. clear - H4 H5. generalize dependent (le_sum (be32 src)). generalize dependent (le_sum (be32 dest)).
    generalize dependent (le_sum (l1 ++ l2)). generalize dependent (bswap16 len). intros. split; intros E; zlia.
  - rewrite length_app, Eps. destruct He1 as [n E]. exists (6 + n)%nat. lia.
  - rewrite !length_app, Eps in *. lia.
  - rewrite Els. destruct Hp as [-> | ->]; unfold IP_PROTOCOL_UDP, IP_PROTOCOL_TCP in *; lia.
Qed.

Lemma transport_checksum_rfc_witness :
  ~ rfc1071_verifies (pseudo_header IP_PROTOCOL_UDP 0x0A000201 0x0A000202 10 ++ [0; 68; 0; 67; 0; 10] ++
      le_bytes 2 (transport_checksum IP_PROTOCOL_UDP ([0; 68; 0; 67; 0; 10] ++ [0; 0] ++ [1; 2]) 0x0A000201 0x0A000202 10) ++ [1; 2]).
Proof.
  rewrite (transport_checksum_rfc IP_PROTOCOL_UDP [0; 68; 0; 67; 0; 10] [1; 2] 0x0A000201 0x0A000202);
    [ vm_compute; discriminate | by left | | by exists 3%nat | by exists 1%nat | vm_compute; discriminate | lia | lia].
  repeat constructor; vm_compute; discriminate.
Defined.
