(* ===== verification/Icmp.v ===== *)
(** * ICMP

    [icmp.c] except [icmp_ping], which polls the whole stack (file Stack).  A
    packet is a buffer: type 0, code 1, checksum 2, identifier 4, sequence 6,
    data 8.  [now] is the value of [timer_get_ticks]. *)

From S2P Require Import Prelude Checksum Netdev Ethernet Arp Ip Transport.

Definition ICMP_ECHO_REPLY : Z := 0.
Definition ICMP_DEST_UNREACHABLE : Z := 3.
Definition ICMP_ECHO_REQUEST : Z := 8.
Definition ICMP_PROTOCOL_UNREACHABLE : Z := 2.
Definition ICMP_HEADER_LEN : Z := 8.
Definition ICMP_MAX_DATA : Z := 1472.

(** The static variables of [icmp.c]. *)
Record icmp := Icmp {
  ping_reply_received : bool;
  ping_reply_src_ip : Z;
  ping_reply_seq : Z;
  ping_send_time : Z;
  ping_reply_time : Z
}.

Definition icmp_init (s : icmp) : Z * icmp :=
  (NET_SUCCESS, Icmp false (ping_reply_src_ip s) (ping_reply_seq s) (ping_send_time s) (ping_reply_time s)).

(** The packet with header bytes [type], [code], the four bytes [rest] and the
    data, its checksum filled in. *)
Definition icmp_packet (type code : Z) (rest data : list Z) : list Z :=
  let packet := [type; code] ++ [0; 0] ++ rest ++ data in
  put16 2 (icmp_checksum packet (ICMP_HEADER_LEN + Z.of_nat (length data))) packet.

(** The data copied from the caller: none for NULL, at most 1472 bytes. *)
Definition icmp_data (data : option (list Z)) : list Z :=
  match data with Some l => take (Z.to_nat ICMP_MAX_DATA) l | None => [] end.

Section icmp.
Context {nic : Type} {NIC : Nic nic}.
Implicit Types n : net nic.

Definition icmp_send_echo_request (p : option nat) (dest_ip identifier sequence : Z) (data : option (list Z)) n : Z * net nic :=
  match p with
  | None => (NET_INVALID_PARAM, n)
  | Some i => ip_send_packet (Some i) dest_ip IP_PROTOCOL_ICMP
      (Some (icmp_packet ICMP_ECHO_REQUEST 0 (be16 identifier ++ be16 sequence) (icmp_data data))) n
  end.

Definition icmp_send_echo_reply (p : option nat) (dest_ip identifier sequence : Z) (data : option (list Z)) n : Z * net nic :=
  match p with
  | None => (NET_INVALID_PARAM, n)
  | Some i => ip_send_packet (Some i) dest_ip IP_PROTOCOL_ICMP
      (Some (icmp_packet ICMP_ECHO_REPLY 0 (be16 identifier ++ be16 sequence) (icmp_data data))) n
  end.

Definition icmp_send_dest_unreachable (p : option nat) (dest_ip code : Z) (original_packet : option (list Z)) n : Z * net nic :=
  match p, original_packet with
  | Some i, Some o => ip_send_packet (Some i) dest_ip IP_PROTOCOL_ICMP
      (Some (icmp_packet ICMP_DEST_UNREACHABLE code [0; 0; 0; 0] (take (Z.to_nat ICMP_MAX_DATA) o))) n
  | _, _ => (NET_INVALID_PARAM, n)
  end.

(** The states after the call, and the packet buffer, whose checksum field is
    left at zero. *)
Definition icmp_process_packet (now : Z) (p : option nat) (src_ip : Z) (packet : option (list Z)) (s : icmp) n
    : icmp * net nic * option (list Z) :=
  match p, packet with
  | Some i, Some pk =>
      let original_checksum := get16 pk 2 in
      let pk := put16 2 0 pk in
      if negb (original_checksum =? icmp_checksum pk ICMP_HEADER_LEN) then (s, n, Some pk)
      else if get8 pk 0 =? ICMP_ECHO_REQUEST then
        let identifier := bswap16 (get16 pk 4) in
        let sequence := bswap16 (get16 pk 6) in
        (s, (icmp_send_echo_reply (Some i) src_ip identifier sequence (Some []) n).2, Some pk)
      else if get8 pk 0 =? ICMP_ECHO_REPLY then
        (Icmp true src_ip (bswap16 (get16 pk 6)) (ping_send_time s) now, n, Some pk)
      else (s, n, Some pk)
  | _, _ => (s, n, packet)
  end.

End icmp.

(** ** Packets *)

Lemma icmp_packet_eq type code rest data :
  let c := icmp_checksum ([type; code] ++ [0; 0] ++ rest ++ data) (ICMP_HEADER_LEN + Z.of_nat (length data)) in
  icmp_packet type code rest data = [type; code] ++ le_bytes 2 c ++ rest ++ data.
Proof. cbv zeta. unfold icmp_packet. by apply put_split. Qed.

Lemma length_icmp_packet type code rest data :
  length rest = 4%nat -> length (icmp_packet type code rest data) = (8 + length data)%nat.
Proof. intros H. rewrite icmp_packet_eq, !length_app, length_le_bytes, H. done. Qed.

Lemma get16_put16 l1 x l2 o : length l1 = o -> 0 <= x < 0x10000 -> get16 (l1 ++ le_bytes 2 x ++ l2) o = x.
Proof.
  intros H Hx. rewrite get16_split by (done || apply length_le_bytes).
  by apply (le_val_le_bytes_small 2).
Qed.

(** The buffer [icmp_process_packet] works on after clearing the checksum. *)
Lemma icmp_cleared type code c rest data :
  put16 2 0 ([type; code] ++ le_bytes 2 c ++ rest ++ data) = [type; code] ++ [0; 0] ++ rest ++ data.
Proof. unfold put16. rewrite put_split by (done || by rewrite !length_le_bytes). done. Qed.

(** The checksum over the header alone does not see the data. *)
Lemma icmp_checksum_header type code rest data :
  length rest = 4%nat ->
  icmp_checksum ([type; code] ++ [0; 0] ++ rest ++ data) ICMP_HEADER_LEN =
  icmp_checksum ([type; code] ++ [0; 0] ++ rest) ICMP_HEADER_LEN.
Proof.
  intros H. unfold icmp_checksum. change (Z.land ICMP_HEADER_LEN 1 =? 0) with true. cbv iota zeta. f_equal.
  apply sum_words_ext.
  replace ([type; code] ++ [0; 0] ++ rest ++ data) with (([type; code] ++ [0; 0] ++ rest) ++ data) by (by rewrite <- !app_assoc).
  apply take_app_le. rewrite !length_app, H. vm_compute. reflexivity.
Qed.

Lemma icmp_checksum_range l len : 0 <= icmp_checksum l len < 0x10000.
Proof. unfold icmp_checksum, complement. apply u16_range. Qed.

Lemma icmp_data_short data : icmp_data (Some data) = take 1472 data.
Proof. done. Qed.

Section echo.
Context {nic : Type} {NIC : Nic nic}.
Implicit Types n : net nic.

(** Processing a packet whose checksum field is right for the header alone. *)
Lemma icmp_process_short now i src type code rest data s n :
  length rest = 4%nat ->
  let pk := [type; code] ++ le_bytes 2 (icmp_checksum ([type; code] ++ [0; 0] ++ rest) ICMP_HEADER_LEN) ++ rest ++ data in
  icmp_process_packet now (Some i) src (Some pk) s n =
    let pk' := [type; code] ++ [0; 0] ++ rest ++ data in
    if type =? ICMP_ECHO_REQUEST then
      (s, (icmp_send_echo_reply (Some i) src (bswap16 (get16 pk' 4)) (bswap16 (get16 pk' 6)) (Some []) n).2, Some pk')
    else if type =? ICMP_ECHO_REPLY then (Icmp true src (bswap16 (get16 pk' 6)) (ping_send_time s) now, n, Some pk')
    else (s, n, Some pk').
Proof.
  intros Hr. cbv zeta. unfold icmp_process_packet. rewrite icmp_cleared.
  rewrite get16_put16 by (done || apply icmp_checksum_range).
  rewrite icmp_checksum_header by done. rewrite Z.eqb_refl. cbn [negb].
  change (get8 ([type; code] ++ [0; 0] ++ rest ++ data) 0) with type. done.
Qed.

(** Ping without data between two hosts.  A host that receives the echo
    request answers the sender with an echo reply of the same identifier and
    sequence number; the reply makes the other host record the sender, the
    sequence number and the time of reception, which is what [icmp_ping] waits
    for.  What follows the eight bytes of the message in the frame buffer
    (padding) plays no part. *)
Theorem icmp_ping_exchange nowB pB srcA id seq padding sB nB nowA pA srcB padding' sA nA :
  0 <= id < 0x10000 -> 0 <= seq < 0x10000 ->
  let request := icmp_packet ICMP_ECHO_REQUEST 0 (be16 id ++ be16 seq) [] in
  let reply := icmp_packet ICMP_ECHO_REPLY 0 (be16 id ++ be16 seq) [] in
  icmp_send_echo_request (Some pA) srcB id seq None nA = ip_send_packet (Some pA) srcB IP_PROTOCOL_ICMP (Some request) nA /\
  (icmp_process_packet nowB (Some pB) srcA (Some (request ++ padding)) sB nB).1 =
    (sB, (ip_send_packet (Some pB) srcA IP_PROTOCOL_ICMP (Some reply) nB).2) /\
  (icmp_process_packet nowA (Some pA) srcB (Some (reply ++ padding')) sA nA).1 =
    (Icmp true srcB seq (ping_send_time sA) nowA, nA).
Proof.
  intros Hid Hseq request reply.
  assert (Hrest : length (be16 id ++ be16 seq) = 4%nat) by (by rewrite length_app, !length_be16).
  assert (Hf : forall type data, let pk' := [type; 0] ++ [0; 0] ++ (be16 id ++ be16 seq) ++ data in
    bswap16 (get16 pk' 4) = id /\ bswap16 (get16 pk' 6) = seq).
  { intros type data pk'. subst pk'. rewrite <- !app_assoc. split; rdfield; by apply le_val_be16. }
  assert (Hpk : forall type padding, icmp_packet type 0 (be16 id ++ be16 seq) [] ++ padding =
    [type; 0] ++ le_bytes 2 (icmp_checksum ([type; 0] ++ [0; 0] ++ be16 id ++ be16 seq) ICMP_HEADER_LEN) ++
      (be16 id ++ be16 seq) ++ padding).
  { intros type padding0. rewrite icmp_packet_eq. cbn [length]. rewrite app_nil_r.
    replace (ICMP_HEADER_LEN + Z.of_nat 0) with ICMP_HEADER_LEN by lia. by rewrite <- !app_assoc. }
  split; [done |]. split.
  - unfold request. rewrite Hpk. rewrite icmp_process_short by done.
    destruct (Hf ICMP_ECHO_REQUEST padding) as [E1 E2]. cbv zeta in E1, E2.
    change (ICMP_ECHO_REQUEST =? ICMP_ECHO_REQUEST) with true. cbv iota zeta. by rewrite E1, E2.
  - unfold reply. rewrite Hpk. rewrite icmp_process_short by done.
    destruct (Hf ICMP_ECHO_REPLY padding') as [E1 E2]. cbv zeta in E1, E2.
    change (ICMP_ECHO_REPLY =? ICMP_ECHO_REQUEST) with false. change (ICMP_ECHO_REPLY =? ICMP_ECHO_REPLY) with true.
    cbv iota zeta. by rewrite E2.
Qed.

(** Messages with data are lost.  [icmp_process_packet] checks the checksum
    over the eight header bytes only: a message that carries an even number of
    data bytes, built by this stack or by any RFC 792 sender with the checksum
    over the whole message, is dropped without effect unless 65535 divides the
    sum of its data words.  Ping programs that send data get no answer. *)
Theorem icmp_data_dropped now i src type code rest data s n :
  bytes ([type; code] ++ rest ++ data) -> length rest = 4%nat -> Nat.Even (length data) ->
  Z.of_nat (length data) <= ICMP_MAX_DATA -> le_sum data mod 0xFFFF <> 0 ->
  let pk := icmp_packet type code rest data in
  rfc1071_verifies pk /\
  icmp_process_packet now (Some i) src (Some pk) s n = (s, n, Some (put16 2 0 pk)).
Proof.
  intros Hb Hr [k He] Hl Hd pk. subst pk.
  assert (Hev : Nat.Even (length (rest ++ data))) by (exists (2 + k)%nat; rewrite length_app; lia).
  unfold ICMP_MAX_DATA in Hl.
  assert (Ec : icmp_checksum ([type; code] ++ [0; 0] ++ rest ++ data) (ICMP_HEADER_LEN + Z.of_nat (length data)) =
    complement (le_sum ([type; code] ++ rest ++ data))).
  { rewrite <- icmp_checksum_even; try done; [| rewrite length_app; lia].
    f_equal. rewrite length_app, Hr. unfold ICMP_HEADER_LEN. lia. }
  rewrite icmp_packet_eq. cbv zeta. rewrite Ec. split.
  { apply complement_verifies; [done | by exists 1%nat | rewrite !length_app, Hr; cbn [length]; lia | done]. }
  unfold icmp_process_packet. rewrite icmp_cleared.
  apply bytes_app in Hb as [Hb1 Hb2]. pose proof Hb2 as Hb3. apply bytes_app in Hb3 as [Hb3 Hb4].
  assert (Hcr : forall x, 0 <= complement x < 0x10000) by (intros x; apply u16_range).
  rewrite get16_put16 by done. rewrite icmp_checksum_header by done.
  assert (Eh : icmp_checksum ([type; code] ++ [0; 0] ++ rest) ICMP_HEADER_LEN = complement (le_sum ([type; code] ++ rest))).
  { rewrite <- icmp_checksum_even; [by rewrite Hr | apply bytes_app; by split | done | exists 2%nat; lia | lia]. }
  rewrite Eh. destruct (Z.eqb_spec (complement (le_sum ([type; code] ++ rest ++ data))) (complement (le_sum ([type; code] ++ rest))))
    as [E|E]; [|done]. exfalso. apply Hd.
  rewrite (app_assoc [type; code]) in E. rewrite (le_sum_app ([type; code] ++ rest)) in E
    by (rewrite length_app, Hr; by exists 3%nat).
  assert (Hb5 : bytes ([type; code] ++ rest)) by (apply bytes_app; by split).
  pose proof (le_sum_bounds _ Hb5) as B1. pose proof (le_sum_bounds _ Hb4) as B2.
  rewrite length_app, Hr in B1. cbn [length Nat.add] in B1.
  rewrite !complement_eq in E by lia.
  destruct (fold_carry_spec (le_sum ([type; code] ++ rest) + le_sum data) ltac:(lia)) as (_ & M1 & _).
  destruct (fold_carry_spec (le_sum ([type; code] ++ rest)) ltac:(lia)) as (_ & M2 & _).
  assert (Ef : fold_carry 3 (le_sum ([type; code] ++ rest) + le_sum data) = fold_carry 3 (le_sum ([type; code] ++ rest))) by lia.
  rewrite Ef, M2 in M1. clear - M1. zlia.
Qed.

End echo.

Lemma icmp_ping_exchange_witness :
  (icmp_process_packet (NIC := wire_nic) 9 (Some 0%nat) 0x0A000202
     (Some (icmp_packet ICMP_ECHO_REPLY 0 (be16 77 ++ be16 3) [] ++ [0; 0])) (Icmp false 0 0 5 0)
     (demo_net [2; 0; 0; 0; 0; 1] 0x0A000201)).1 =
  (Icmp true 0x0A000202 3 5 9, demo_net [2; 0; 0; 0; 0; 1] 0x0A000201).
Proof.
  apply (icmp_ping_exchange (NIC := wire_nic) 0 0 0 77 3 [] (Icmp false 0 0 0 0) (demo_net [2; 0; 0; 0; 0; 9] 0x0A000202)
    9 0 0x0A000202 [0; 0] (Icmp false 0 0 5 0) (demo_net [2; 0; 0; 0; 0; 1] 0x0A000201)); lia.
Defined.

Lemma icmp_data_dropped_witness :
  icmp_process_packet (NIC := wire_nic) 9 (Some 0%nat) 0x0A000202
     (Some (icmp_packet ICMP_ECHO_REQUEST 0 [0; 1; 0; 2] [97; 98; 99; 100])) (Icmp false 0 0 5 0)
     (demo_net [2; 0; 0; 0; 0; 1] 0x0A000201) =
  (Icmp false 0 0 5 0, demo_net [2; 0; 0; 0; 0; 1] 0x0A000201,
   Some (put16 2 0 (icmp_packet ICMP_ECHO_REQUEST 0 [0; 1; 0; 2] [97; 98; 99; 100]))).
Proof.
  apply (icmp_data_dropped (NIC := wire_nic) 9 0 0x0A000202 ICMP_ECHO_REQUEST 0 [0; 1; 0; 2] [97; 98; 99; 100]);
    [ repeat constructor; vm_compute; discriminate | reflexivity | by exists 2%nat | vm_compute; discriminate | vm_compute; discriminate].
Defined.
