(* ===== verification/Udp.v ===== *)
(** * UDP: sockets and sending

    [udp.c] except [udp_process_packet], which hands packets to the DHCP client
    too (file Stack).  A socket pointer is the index in the static array; a
    callback is a number given by whoever sets it. *)

From S2P Require Import Prelude Checksum Netdev Ethernet Arp Ip Transport.

Definition UDP_HEADER_LEN : Z := 8.
Definition UDP_MAX_PAYLOAD : Z := IP_PACKET_SIZE - IP_HEADER_LEN - UDP_HEADER_LEN.
Definition MAX_SOCKETS : Z := 64.

Record udp_socket := UdpSocket {
  us_local_port : Z;
  us_remote_ip : Z;
  us_remote_port : Z;
  us_bound : bool;
  us_connected : bool;
  us_receive_callback : option nat
}.

Definition udp_socket0 : udp_socket := UdpSocket 0 0 0 false false None.
#[export] Instance udp_socket_inhabited : Inhabited udp_socket := populate udp_socket0.

Record udp := Udp { udp_sockets : list udp_socket; socket_count : Z }.

Definition udp_init : Z * udp := (NET_SUCCESS, Udp (replicate (Z.to_nat MAX_SOCKETS) udp_socket0) 0).

Definition upd_udp (f : udp_socket -> udp_socket) (i : nat) (u : udp) : udp :=
  Udp (alter f i (udp_sockets u)) (socket_count u).

Definition udp_create_socket (u : udp) : option nat * udp :=
  if MAX_SOCKETS <=? socket_count u then (None, u)
  else let i := Z.to_nat (socket_count u) in
       (Some i, Udp (<[i := udp_socket0]> (udp_sockets u)) (socket_count u + 1)).

(** The test of the loop in [udp_bind]. *)
Definition port_used (u : udp) (port : Z) : bool :=
  existsb (fun s => us_bound s && (us_local_port s =? port)) (udp_sockets u).

Definition udp_bind (socket : option nat) (port : Z) (u : udp) : Z * udp :=
  match socket with
  | None => (NET_INVALID_PARAM, u)
  | Some i =>
      if port =? 0 then (NET_INVALID_PARAM, u)
      else if port_used u port then (NET_ERROR, u)
      else (NET_SUCCESS, upd_udp (fun s => UdpSocket port (us_remote_ip s) (us_remote_port s) true (us_connected s) (us_receive_callback s)) i u)
  end.

Definition udp_connect (socket : option nat) (remote_ip remote_port : Z) (u : udp) : Z * udp :=
  match socket with
  | None => (NET_INVALID_PARAM, u)
  | Some i =>
      if (remote_ip =? 0) || (remote_port =? 0) then (NET_INVALID_PARAM, u)
      else (NET_SUCCESS, upd_udp (fun s => UdpSocket (us_local_port s) remote_ip remote_port (us_bound s) true (us_receive_callback s)) i u)
  end.

Definition udp_close (socket : option nat) (u : udp) : udp :=
  match socket with Some i => upd_udp (fun _ => udp_socket0) i u | None => u end.

(** The socket a datagram for [port] is delivered to: the first bound one. *)
Fixpoint udp_find (l : list udp_socket) (i : nat) (port : Z) : option nat :=
  match l with
  | [] => None
  | s :: l' => if us_bound s && (us_local_port s =? port) then Some i else udp_find l' (S i) port
  end.

(** The datagram: header with the checksum, and payload. *)
Definition udp_datagram (src_ip dest_ip src_port dest_port : Z) (payload : list Z) : list Z :=
  let len := UDP_HEADER_LEN + Z.of_nat (length payload) in
  let packet := be16 src_port ++ be16 dest_port ++ be16 (u16 len) ++ [0; 0] ++ payload in
  put16 6 (udp_checksum packet src_ip dest_ip len) packet.

Section udp.
Context {nic : Type} {NIC : Nic nic}.
Implicit Types n : net nic.

Definition udp_send_packet (p : option nat) (dest_ip src_port dest_port : Z) (payload : option (list Z)) n : Z * net nic :=
  match p, payload with
  | Some i, Some pl =>
      if Z.of_nat (length pl) =? 0 then (NET_INVALID_PARAM, n)
      else if UDP_MAX_PAYLOAD <? Z.of_nat (length pl) then (NET_ERROR, n)
      else ip_send_packet (Some i) dest_ip IP_PROTOCOL_UDP
             (Some (udp_datagram (ip_address (get_if (n_dev n) i)) dest_ip src_port dest_port pl)) n
  | _, _ => (NET_INVALID_PARAM, n)
  end.

Definition udp_sendto (socket : option nat) (data : option (list Z)) (dest_ip dest_port : Z) (u : udp) n : Z * net nic :=
  match socket, data with
  | Some i, Some l =>
      if (Z.of_nat (length l) =? 0) || (dest_ip =? 0) || (dest_port =? 0) || negb (us_bound (udp_sockets u !!! i))
      then (NET_INVALID_PARAM, n)
      else match network_find_route dest_ip (n_dev n) with
           | None => (NET_ERROR, n)
           | Some p => udp_send_packet (Some p) dest_ip (us_local_port (udp_sockets u !!! i)) dest_port (Some l) n
           end
  | _, _ => (NET_INVALID_PARAM, n)
  end.

Definition udp_send (socket : option nat) (data : option (list Z)) (u : udp) n : Z * net nic :=
  match socket, data with
  | Some i, Some l =>
      let s := udp_sockets u !!! i in
      if (Z.of_nat (length l) =? 0) || negb (us_connected s) then (NET_INVALID_PARAM, n)
      else udp_sendto socket data (us_remote_ip s) (us_remote_port s) u n
  | _, _ => (NET_INVALID_PARAM, n)
  end.

End udp.

(** ** Datagrams *)

Lemma udp_datagram_eq src dest sp dp pl :
  exists c, 0 <= c < 0x10000 /\
  udp_datagram src dest sp dp pl =
    (be16 sp ++ be16 dp ++ be16 (u16 (UDP_HEADER_LEN + Z.of_nat (length pl)))) ++ le_bytes 2 c ++ pl.
Proof.
  unfold udp_datagram. cbv zeta. eexists. split; [|].
  2: { rewrite (app_assoc (be16 dp)), (app_assoc (be16 sp)). apply put_split; [|by rewrite length_le_bytes].
       rewrite !length_app, !length_be16. done. }
  unfold udp_checksum, transport_checksum, complement. apply u16_range.
Qed.

Lemma length_udp_datagram src dest sp dp pl : length (udp_datagram src dest sp dp pl) = (8 + length pl)%nat.
Proof.
  destruct (udp_datagram_eq src dest sp dp pl) as (c & _ & ->).
  rewrite !length_app, !length_be16, length_le_bytes. lia.
Qed.

(** The fields the receiver reads, whatever follows the datagram. *)
Lemma udp_datagram_fields src dest sp dp pl rest :
  0 <= sp < 0x10000 -> 0 <= dp < 0x10000 -> Z.of_nat (length pl) <= UDP_MAX_PAYLOAD ->
  let pk := udp_datagram src dest sp dp pl ++ rest in
  bswap16 (get16 pk 0) = sp /\ bswap16 (get16 pk 2) = dp /\
  bswap16 (get16 pk 4) = UDP_HEADER_LEN + Z.of_nat (length pl) /\
  take (length pl) (drop 8 pk) = pl.
Proof.
  intros Hs Hd Hl pk. subst pk. destruct (udp_datagram_eq src dest sp dp pl) as (c & Hc & ->).
  unfold UDP_MAX_PAYLOAD, IP_PACKET_SIZE, IP_HEADER_LEN in Hl. unfold UDP_HEADER_LEN in *.
  rewrite <- !app_assoc. split; [|split; [|split]].
  - rdfield. by apply le_val_be16.
  - rdfield. by apply le_val_be16.
  - rdfield. rewrite le_val_be16 by apply u16_range. apply u16_small. lia.
  - rewrite (drop_app_ge (be16 sp)) by (lens; lia). rewrite (drop_app_ge (be16 dp)) by (lens; lia).
    rewrite (drop_app_ge (be16 (u16 _))) by (lens; lia). rewrite (drop_app_ge (le_bytes 2 c)) by (lens; lia).
    lens. rewrite drop_0. apply take_app_length.
Qed.

(** ** Sockets *)

(** The socket table: bound sockets have distinct non-zero ports, and slots not
    yet handed out are not bound. *)
Record udp_ok (u : udp) : Prop := {
  uo_length : length (udp_sockets u) = 64%nat;
  uo_count : 0 <= socket_count u <= MAX_SOCKETS;
  uo_ports : forall i j s t, udp_sockets u !! i = Some s -> udp_sockets u !! j = Some t ->
    us_bound s = true -> us_bound t = true -> us_local_port s = us_local_port t -> i = j;
  uo_nonzero : forall i s, udp_sockets u !! i = Some s -> us_bound s = true -> us_local_port s <> 0;
  uo_fresh : forall i s, udp_sockets u !! i = Some s -> socket_count u <= Z.of_nat i -> us_bound s = false
}.

(** The operations of a client on sockets it was given. *)
Inductive udp_step : udp -> udp -> Prop :=
| step_create u : udp_step u (udp_create_socket u).2
| step_bind u i port : Z.of_nat i < socket_count u -> udp_step u (udp_bind (Some i) port u).2
| step_connect u i ip port : Z.of_nat i < socket_count u -> udp_step u (udp_connect (Some i) ip port u).2
| step_close u i : Z.of_nat i < socket_count u -> udp_step u (udp_close (Some i) u).

Lemma port_used_false u port i s :
  port_used u port = false -> udp_sockets u !! i = Some s -> us_bound s = true -> us_local_port s <> port.
Proof.
  intros H Hi Hb E. assert (port_used u port = true); [|congruence].
  apply existsb_exists. exists s. split; [apply list_elem_of_In; by eapply list_elem_of_lookup_2 |].
  by rewrite Hb, E, Z.eqb_refl.
Qed.

Lemma lookup_alter_Some {A} (f : A -> A) (l : list A) i j y :
  alter f i l !! j = Some y -> (j = i /\ exists x, l !! i = Some x /\ y = f x) \/ (j <> i /\ l !! j = Some y).
Proof.
  destruct (decide (i = j)) as [->|Hne].
  - rewrite list_lookup_alter_eq. intros (x & Hx & ->)%fmap_Some. left. split; [done |]. by exists x.
  - rewrite list_lookup_alter_ne by done. intros H. right. split; [congruence | done].
Qed.

(** Overwriting a socket keeps the table in order when the new one is not bound,
    or keeps its port, or has an unused port. *)
Lemma upd_udp_ok u f i :
  udp_ok u -> Z.of_nat i < socket_count u ->
  (forall s, udp_sockets u !! i = Some s -> us_bound (f s) = true ->
     us_local_port (f s) <> 0 /\
     (forall j t, udp_sockets u !! j = Some t -> us_bound t = true -> j <> i -> us_local_port (f s) <> us_local_port t)) ->
  udp_ok (upd_udp f i u).
Proof.
  intros H Hi Hf. split; cbn [udp_sockets socket_count upd_udp].
  - rewrite length_alter. apply (uo_length u H).
  - apply (uo_count u H).
  - intros j k s t [[-> (s0 & Hs & ->)]|[Hj Hs]]%lookup_alter_Some [[-> (t0 & Ht & ->)]|[Hk Ht]]%lookup_alter_Some Hbs Hbt E; try done.
    + exfalso. destruct (Hf s0 Hs Hbs) as [_ Hd]. by apply (Hd k t).
    + exfalso. destruct (Hf t0 Ht Hbt) as [_ Hd]. by apply (Hd j s).
    + by apply (uo_ports u H j k s t).
  - intros j s [[-> (s0 & Hs & ->)]|[Hj Hs]]%lookup_alter_Some Hb; [by apply (Hf s0 Hs Hb) | by apply (uo_nonzero u H j s)].
  - intros j s [[-> (s0 & Hs & ->)]|[Hj Hs]]%lookup_alter_Some Hc; [lia | by apply (uo_fresh u H j s)].
Qed.

Lemma udp_step_ok u u' : udp_step u u' -> udp_ok u -> udp_ok u' /\ socket_count u <= socket_count u'.
Proof.
  intros Hstep H. destruct Hstep as [u | u i port Hi | u i ip port Hi | u i Hi].
  - unfold udp_create_socket. destruct (Z.leb_spec MAX_SOCKETS (socket_count u)) as [Hc|Hc]; cbn [snd socket_count];
      [by split |]. pose proof (uo_count u H). split; [|lia].
    split; cbn [udp_sockets socket_count].
    + rewrite length_insert. apply (uo_length u H).
    + lia.
    + intros j k s t [(<- & <- & _)|[Hj Hs]]%list_lookup_insert_Some [(<- & <- & _)|[Hk Ht]]%list_lookup_insert_Some Hbs Hbt E; try done.
      by apply (uo_ports u H j k s t).
    + intros j s [(<- & <- & _)|[Hj Hs]]%list_lookup_insert_Some Hb; [done | by apply (uo_nonzero u H j s)].
    + intros j s [(<- & <- & _)|[Hj Hs]]%list_lookup_insert_Some Hc'; [done | apply (uo_fresh u H j s); [done | lia]].
  - cbn [udp_bind]. destruct (Z.eqb_spec port 0); [by split |].
    destruct (port_used u port) eqn:Ep; [by split |]. split; [|done]. apply upd_udp_ok; [done | done |].
    intros s Hs _. cbn. split; [done |]. intros j t Ht Hb _. by apply not_eq_sym, (port_used_false u port j t).
  - cbn [udp_connect]. destruct ((ip =? 0) || (port =? 0)); [by split |]. split; [|done].
    apply upd_udp_ok; [done | done |]. intros s Hs Hb. cbn in *. split; [by apply (uo_nonzero u H i s) |].
    intros j t Ht Hbt Hne E. apply Hne. by apply (uo_ports u H j i t s).
  - cbn [udp_close]. split; [|done]. by apply upd_udp_ok.
Qed.

Lemma udp_init_ok : udp_ok udp_init.2.
Proof.
  split; cbn [udp_init snd udp_sockets socket_count]; [done | done | | |].
  - intros i j s t [-> _]%lookup_replicate _ Hb. done.
  - intros i s [-> _]%lookup_replicate Hb. done.
  - intros i s [-> _]%lookup_replicate _. done.
Qed.

Lemma udp_find_spec l k port :
  match udp_find l k port with
  | Some i => exists j s, i = (k + j)%nat /\ l !! j = Some s /\ us_bound s = true /\ us_local_port s = port
  | None => forall j s, l !! j = Some s -> us_bound s = true -> us_local_port s <> port
  end.
Proof.
  revert k. induction l as [|s l IH]; intros k; cbn [udp_find]; [done |].
  destruct (us_bound s && (us_local_port s =? port)) eqn:E.
  - zbool. exists 0%nat, s. split_and!; [lia | done | done | done].
  - specialize (IH (S k)). destruct (udp_find l (S k) port) as [i|].
    + destruct IH as (j & t & -> & Hl & Ht). exists (S j), t. split; [lia |]. by split.
    + intros [|j] t Ht Hb; [|by apply (IH j t)]. cbn in Ht. injection Ht as <-.
      rewrite Hb in E. cbn in E. by apply Z.eqb_neq.
Qed.



Lemma udp_send_packet_ok {nic : Type} {NIC : Nic nic} p f dm dest sp dp pl (n : net nic) :
  can_send (n_dev n) p f -> resolve n dest = Some dm -> 0 < Z.of_nat (length pl) <= UDP_MAX_PAYLOAD ->
  udp_send_packet (Some p) dest sp dp (Some pl) n =
    (NET_SUCCESS, sent f (ip_frame n p dm dest IP_PROTOCOL_UDP
       (udp_datagram (ip_address (get_if (n_dev n) p)) dest sp dp pl)) n).
Proof.
  intros Hs Hr Hl. unfold udp_send_packet. destruct (Z.eqb_spec (Z.of_nat (length pl)) 0); [lia |].
  destruct (Z.ltb_spec UDP_MAX_PAYLOAD (Z.of_nat (length pl))); [lia |].
  apply ip_send_resolved; [done | | done]. rewrite length_udp_datagram.
  unfold UDP_MAX_PAYLOAD, IP_PACKET_SIZE, IP_HEADER_LEN, UDP_HEADER_LEN in *. lia.
Qed.
