(* ===== verification/Tcp.v ===== *)
(** * TCP

    [tcp.c].  A segment is a buffer: source port 0, destination port 2, sequence
    4, acknowledgement 8, data offset 12, flags 13, window 14, checksum 16,
    urgent 18, data 20.  A connection pointer is the index in the static array.
    A callback is a number given by whoever sets it; a call to it is an [event]
    of the result, and what the callback does is not part of the model. *)

From S2P Require Import Prelude Checksum Netdev Ethernet Arp Ip Transport.

Definition TCP_HEADER_LEN : Z := 20.
Definition TCP_MAX_PAYLOAD : Z := IP_PACKET_SIZE - IP_HEADER_LEN - TCP_HEADER_LEN.
Definition TCP_WINDOW_SIZE : Z := 65535.
Definition MAX_CONNECTIONS : Z := 32.
Definition TCP_FLAG_FIN : Z := 0x01.
Definition TCP_FLAG_SYN : Z := 0x02.
Definition TCP_FLAG_RST : Z := 0x04.
Definition TCP_FLAG_PSH : Z := 0x08.
Definition TCP_FLAG_ACK : Z := 0x10.

Inductive tcp_state :=
  TCP_CLOSED | TCP_LISTEN | TCP_SYN_SENT | TCP_SYN_RECEIVED | TCP_ESTABLISHED | TCP_FIN_WAIT_1 |
  TCP_FIN_WAIT_2 | TCP_CLOSE_WAIT | TCP_CLOSING | TCP_LAST_ACK | TCP_TIME_WAIT.

#[export] Instance tcp_state_eq_dec : EqDecision tcp_state.
Proof. solve_decision. Defined.

Record connection := Conn {
  c_local_ip : Z;
  c_local_port : Z;
  c_remote_ip : Z;
  c_remote_port : Z;
  c_state : tcp_state;
  c_seq_num : Z;
  c_ack_num : Z;
  c_window_size : Z;
  c_active : bool;
  c_on_connect : option nat;
  c_on_data : option nat;
  c_on_close : option nat
}.

Definition connection0 : connection := Conn 0 0 0 0 TCP_CLOSED 0 0 TCP_WINDOW_SIZE false None None None.
#[export] Instance connection_inhabited : Inhabited connection := populate connection0.

Record tcp := Tcp {
  connections : list connection;
  connection_count : Z;
  tcp_sequence_number : Z
}.

Inductive event :=
  | on_connect (callback conn : nat)
  | on_data (callback conn : nat) (data : list Z)
  | on_close (callback conn : nat).

(** Setters of the fields the code assigns. *)
Definition set_state (st : tcp_state) (c : connection) : connection :=
  Conn (c_local_ip c) (c_local_port c) (c_remote_ip c) (c_remote_port c) st (c_seq_num c) (c_ack_num c)
       (c_window_size c) (c_active c) (c_on_connect c) (c_on_data c) (c_on_close c).
Definition set_seq (x : Z) (c : connection) : connection :=
  Conn (c_local_ip c) (c_local_port c) (c_remote_ip c) (c_remote_port c) (c_state c) x (c_ack_num c)
       (c_window_size c) (c_active c) (c_on_connect c) (c_on_data c) (c_on_close c).
Definition set_ack (x : Z) (c : connection) : connection :=
  Conn (c_local_ip c) (c_local_port c) (c_remote_ip c) (c_remote_port c) (c_state c) (c_seq_num c) x
       (c_window_size c) (c_active c) (c_on_connect c) (c_on_data c) (c_on_close c).
Definition set_local (ip port : Z) (c : connection) : connection :=
  Conn ip port (c_remote_ip c) (c_remote_port c) (c_state c) (c_seq_num c) (c_ack_num c)
       (c_window_size c) (c_active c) (c_on_connect c) (c_on_data c) (c_on_close c).
Definition set_remote (ip port : Z) (c : connection) : connection :=
  Conn (c_local_ip c) (c_local_port c) ip port (c_state c) (c_seq_num c) (c_ack_num c)
       (c_window_size c) (c_active c) (c_on_connect c) (c_on_data c) (c_on_close c).
Definition set_conn_active (b : bool) (c : connection) : connection :=
  Conn (c_local_ip c) (c_local_port c) (c_remote_ip c) (c_remote_port c) (c_state c) (c_seq_num c) (c_ack_num c)
       (c_window_size c) b (c_on_connect c) (c_on_data c) (c_on_close c).

Definition get_conn (t : tcp) (i : nat) : connection := connections t !!! i.
Definition upd_conn (f : connection -> connection) (i : nat) (t : tcp) : tcp :=
  Tcp (alter f i (connections t)) (connection_count t) (tcp_sequence_number t).

(** [tcp_sequence_number++] *)
Definition bump_sequence (t : tcp) : tcp :=
  Tcp (connections t) (connection_count t) (u32 (tcp_sequence_number t + 1)).

Definition tcp_init (t : tcp) : Z * tcp :=
  (NET_SUCCESS, Tcp (replicate (Z.to_nat MAX_CONNECTIONS) connection0) 0 (tcp_sequence_number t)).

(** The static variables before [tcp_init]. *)
Definition tcp0 : tcp :=
  Tcp (replicate (Z.to_nat MAX_CONNECTIONS) (Conn 0 0 0 0 TCP_CLOSED 0 0 0 false None None None)) 0 1000.

(** The segment [tcp_send_packet] builds, checksum included. *)
Definition tcp_segment (src_ip dest_ip src_port dest_port seq ack flags : Z) (payload : list Z) : list Z :=
  let packet := be16 src_port ++ be16 dest_port ++ be32 seq ++ be32 ack ++
    [Z.shiftl (TCP_HEADER_LEN / 4) 4; flags] ++ be16 TCP_WINDOW_SIZE ++ [0; 0] ++ [0; 0] ++ payload in
  put16 16 (tcp_checksum packet src_ip dest_ip (TCP_HEADER_LEN + Z.of_nat (length payload))) packet.

Section tcp.
Context {nic : Type} {NIC : Nic nic}.
Implicit Types n : net nic.

Definition tcp_send_packet (p : option nat) (dest_ip src_port dest_port seq ack flags : Z) (payload : option (list Z)) n : Z * net nic :=
  match p with
  | None => (NET_INVALID_PARAM, n)
  | Some i =>
      let pl := default [] payload in
      if TCP_MAX_PAYLOAD <? Z.of_nat (length pl) then (NET_ERROR, n)
      else ip_send_packet (Some i) dest_ip IP_PROTOCOL_TCP
             (Some (tcp_segment (ip_address (get_if (n_dev n) i)) dest_ip src_port dest_port seq ack flags pl)) n
  end.

(** ** Receiving *)

(** The first connection, from index [i], that satisfies [test]. *)
Fixpoint find_conn (test : connection -> bool) (l : list connection) (i : nat) : option nat :=
  match l with
  | [] => None
  | c :: l' => if test c then Some i else find_conn test l' (S i)
  end.

Definition matches (src_ip dest_ip src_port dest_port : Z) (c : connection) : bool :=
  c_active c && (c_local_ip c =? dest_ip) && (c_local_port c =? dest_port) &&
  (c_remote_ip c =? src_ip) && (c_remote_port c =? src_port).

Definition listens (dest_ip dest_port : Z) (c : connection) : bool :=
  c_active c && (c_local_ip c =? dest_ip) && (c_local_port c =? dest_port) && bool_decide (c_state c = TCP_LISTEN).

Definition has_flag (flags f : Z) : bool := negb (Z.land flags f =? 0).

(** The connection the segment is for, and the table, in which a listening
    connection that takes a SYN has recorded the peer. *)
Definition tcp_lookup (src_ip dest_ip src_port dest_port flags : Z) (t : tcp) : option nat * tcp :=
  match find_conn (matches src_ip dest_ip src_port dest_port) (connections t) 0 with
  | Some i => (Some i, t)
  | None =>
      if has_flag flags TCP_FLAG_SYN && negb (has_flag flags TCP_FLAG_ACK) then
        match find_conn (listens dest_ip dest_port) (connections t) 0 with
        | Some i => (Some i, upd_conn (set_remote src_ip src_port) i t)
        | None => (None, t)
        end
      else (None, t)
  end.

(** The call of a callback that may be NULL. *)
Definition call (cb : option nat) (e : nat -> event) : list event :=
  match cb with Some f => [e f] | None => [] end.

(** The case [TCP_ESTABLISHED]: data, then close. *)
Definition established_data (p : nat) (src_ip src_port dest_port seq_num flags : Z) (payload : list Z) (i : nat) (t : tcp) n
    : tcp * net nic * list event :=
  if has_flag flags TCP_FLAG_PSH then
    let data_len := TCP_HEADER_LEN in
    let ev := call (c_on_data (get_conn t i)) (fun f => on_data f i (take (Z.to_nat data_len) payload)) in
    let t := upd_conn (set_ack (u32 (seq_num + data_len))) i t in
    (t, (tcp_send_packet (Some p) src_ip dest_port src_port (c_seq_num (get_conn t i)) (c_ack_num (get_conn t i)) TCP_FLAG_ACK None n).2, ev)
  else (t, n, []).

Definition established_fin (p : nat) (src_ip src_port dest_port seq_num flags : Z) (i : nat) (t : tcp) n
    : tcp * net nic * list event :=
  if has_flag flags TCP_FLAG_FIN then
    let t := upd_conn (set_ack (u32 (seq_num + 1))) i t in
    let n := (tcp_send_packet (Some p) src_ip dest_port src_port (c_seq_num (get_conn t i)) (c_ack_num (get_conn t i)) TCP_FLAG_ACK None n).2 in
    (upd_conn (set_state TCP_CLOSE_WAIT) i t, n, call (c_on_close (get_conn t i)) (fun f => on_close f i))
  else (t, n, []).

(** The switch on the state of the connection found. *)
Definition tcp_dispatch (p : nat) (src_ip src_port dest_port seq_num flags : Z) (payload : list Z) (i : nat) (t : tcp) n
    : tcp * net nic * list event :=
  match c_state (get_conn t i) with
  | TCP_LISTEN =>
      if has_flag flags TCP_FLAG_SYN then
        let t := upd_conn (set_ack (u32 (seq_num + 1))) i t in
        let t := bump_sequence (upd_conn (set_seq (tcp_sequence_number t)) i t) in
        let n := (tcp_send_packet (Some p) src_ip dest_port src_port (c_seq_num (get_conn t i)) (c_ack_num (get_conn t i))
                    (Z.lor TCP_FLAG_SYN TCP_FLAG_ACK) None n).2 in
        (upd_conn (set_state TCP_SYN_RECEIVED) i t, n, [])
      else (t, n, [])
  | TCP_SYN_SENT =>
      if Z.land flags (Z.lor TCP_FLAG_SYN TCP_FLAG_ACK) =? Z.lor TCP_FLAG_SYN TCP_FLAG_ACK then
        let t := upd_conn (set_ack (u32 (seq_num + 1))) i t in
        let n := (tcp_send_packet (Some p) src_ip dest_port src_port (u32 (c_seq_num (get_conn t i) + 1)) (c_ack_num (get_conn t i))
                    TCP_FLAG_ACK None n).2 in
        (upd_conn (set_state TCP_ESTABLISHED) i t, n, call (c_on_connect (get_conn t i)) (fun f => on_connect f i))
      else (t, n, [])
  | TCP_SYN_RECEIVED =>
      if has_flag flags TCP_FLAG_ACK then
        (upd_conn (set_state TCP_ESTABLISHED) i t, n, call (c_on_connect (get_conn t i)) (fun f => on_connect f i))
      else (t, n, [])
  | TCP_ESTABLISHED =>
      let '(t, n, ev) := established_data p src_ip src_port dest_port seq_num flags payload i t n in
      let '(t, n, ev') := established_fin p src_ip src_port dest_port seq_num flags i t n in
      (t, n, ev ++ ev')
  | _ => (t, n, [])
  end.

Definition tcp_process_packet (p : option nat) (src_ip dest_ip : Z) (packet : option (list Z)) (t : tcp) n
    : tcp * net nic * list event :=
  match p, packet with
  | Some p, Some pk =>
      let src_port := bswap16 (get16 pk 0) in
      let dest_port := bswap16 (get16 pk 2) in
      let seq_num := bswap32 (get32 pk 4) in
      let flags := get8 pk 13 in
      match tcp_lookup src_ip dest_ip src_port dest_port flags t with
      | (None, t) =>
          (t, (tcp_send_packet (Some p) src_ip dest_port src_port 0 (u32 (seq_num + 1)) (Z.lor TCP_FLAG_RST TCP_FLAG_ACK) None n).2, [])
      | (Some i, t) => tcp_dispatch p src_ip src_port dest_port seq_num flags (drop 20 pk) i t n
      end
  | _, _ => (t, n, [])
  end.

(** ** Connections *)

Definition tcp_create_connection (t : tcp) : option nat * tcp :=
  if MAX_CONNECTIONS <=? connection_count t then (None, t)
  else
    let i := Z.to_nat (connection_count t) in
    (Some i,
     Tcp (<[i := Conn 0 0 0 0 TCP_CLOSED (tcp_sequence_number t) 0 TCP_WINDOW_SIZE true None None None]> (connections t))
         (connection_count t + 1) (u32 (tcp_sequence_number t + 1))).

Definition tcp_connect (conn : option nat) (remote_ip remote_port : Z) (t : tcp) n : Z * tcp * net nic :=
  match conn with
  | None => (NET_INVALID_PARAM, t, n)
  | Some i =>
      if (remote_ip =? 0) || (remote_port =? 0) then (NET_INVALID_PARAM, t, n)
      else match network_find_route remote_ip (n_dev n) with
           | None => (NET_ERROR, t, n)
           | Some p =>
               let t := upd_conn (fun c => set_state TCP_SYN_SENT (set_remote remote_ip remote_port
                          (set_local (ip_address (get_if (n_dev n) p)) (32768 + tcp_sequence_number t mod 32768) c))) i t in
               let '(r, n) := tcp_send_packet (Some p) remote_ip (c_local_port (get_conn t i)) remote_port
                                (c_seq_num (get_conn t i)) 0 TCP_FLAG_SYN None n in
               (r, t, n)
           end
  end.

Definition tcp_listen (port : Z) (t : tcp) : Z * tcp :=
  match tcp_create_connection t with
  | (None, t) => (NET_ERROR, t)
  | (Some i, t) => (NET_SUCCESS, upd_conn (fun c => set_state TCP_LISTEN (set_local (c_local_ip c) port c)) i t)
  end.

Definition tcp_send (conn : option nat) (data : option (list Z)) (t : tcp) n : Z * tcp * net nic :=
  match conn, data with
  | Some i, Some l =>
      let c := get_conn t i in
      if (Z.of_nat (length l) =? 0) || negb (bool_decide (c_state c = TCP_ESTABLISHED)) then (NET_INVALID_PARAM, t, n)
      else match network_find_route (c_remote_ip c) (n_dev n) with
           | None => (NET_ERROR, t, n)
           | Some p =>
               let '(result, n) := tcp_send_packet (Some p) (c_remote_ip c) (c_local_port c) (c_remote_port c)
                                     (c_seq_num c) (c_ack_num c) (Z.lor TCP_FLAG_PSH TCP_FLAG_ACK) (Some l) n in
               if result =? NET_SUCCESS
               then (result, upd_conn (fun c => set_seq (u32 (c_seq_num c + Z.of_nat (length l))) c) i t, n)
               else (result, t, n)
           end
  | _, _ => (NET_INVALID_PARAM, t, n)
  end.

Definition tcp_close (conn : option nat) (t : tcp) n : tcp * net nic :=
  match conn with
  | None => (t, n)
  | Some i =>
      let c := get_conn t i in
      if bool_decide (c_state c = TCP_CLOSED) then (t, n)
      else
        let '(t, n) :=
          match network_find_route (c_remote_ip c) (n_dev n) with
          | Some p =>
              if bool_decide (c_state c = TCP_ESTABLISHED) then
                let n := (tcp_send_packet (Some p) (c_remote_ip c) (c_local_port c) (c_remote_port c)
                            (c_seq_num c) (c_ack_num c) (Z.lor TCP_FLAG_FIN TCP_FLAG_ACK) None n).2 in
                (upd_conn (set_state TCP_FIN_WAIT_1) i t, n)
              else (t, n)
          | None => (t, n)
          end in
        (upd_conn (fun c => set_state TCP_CLOSED (set_conn_active false c)) i t, n)
  end.

End tcp.

(** ** Segments *)

Lemma tcp_segment_eq src dest sp dp seq ack flags pl :
  exists c, 0 <= c < 0x10000 /\ tcp_segment src dest sp dp seq ack flags pl =
    (be16 sp ++ be16 dp ++ be32 seq ++ be32 ack ++ [0x50; flags] ++ be16 TCP_WINDOW_SIZE) ++ le_bytes 2 c ++ [0; 0] ++ pl.
Proof.
  unfold tcp_segment. cbv zeta. eexists. split.
  2: { rewrite (app_assoc [_; flags]), (app_assoc (be32 ack)), (app_assoc (be32 seq)), (app_assoc (be16 dp)), (app_assoc (be16 sp)).
       change (Z.shiftl (TCP_HEADER_LEN / 4) 4) with 0x50.
       apply put_split; [|by rewrite length_le_bytes]. by rewrite !length_app, !length_be16, !length_be32. }
  unfold tcp_checksum, transport_checksum, complement. apply u16_range.
Qed.

Lemma length_tcp_segment src dest sp dp seq ack flags pl :
  length (tcp_segment src dest sp dp seq ack flags pl) = (20 + length pl)%nat.
Proof.
  destruct (tcp_segment_eq src dest sp dp seq ack flags pl) as (c & _ & ->).
  rewrite !length_app, !length_be16, !length_be32, length_le_bytes. cbn [length]. lia.
Qed.

(** The fields the receiver reads, whatever follows the segment. *)
Lemma tcp_segment_fields src dest sp dp seq ack flags pl rest :
  0 <= sp < 0x10000 -> 0 <= dp < 0x10000 -> 0 <= seq < 0x100000000 ->
  let pk := tcp_segment src dest sp dp seq ack flags pl ++ rest in
  bswap16 (get16 pk 0) = sp /\ bswap16 (get16 pk 2) = dp /\ bswap32 (get32 pk 4) = seq /\
  get8 pk 13 = flags /\ drop 20 pk = pl ++ rest.
Proof.
  intros Hs Hd Hq pk. subst pk. destruct (tcp_segment_eq src dest sp dp seq ack flags pl) as (c & Hc & ->).
  rewrite <- !app_assoc. split; [|split; [|split; [|split]]].
  - rdfield. by apply le_val_be16.
  - rdfield. by apply le_val_be16.
  - rdfield. by apply le_val_be32.
  - rewrite !get8_skip by (lens; lia). lens. done.
  - rewrite (drop_app_ge (be16 sp)) by (lens; lia). rewrite (drop_app_ge (be16 dp)) by (lens; lia).
    rewrite (drop_app_ge (be32 seq)) by (lens; lia). rewrite (drop_app_ge (be32 ack)) by (lens; lia).
    rewrite (drop_app_ge [0x50; flags]) by (lens; lia). rewrite (drop_app_ge (be16 TCP_WINDOW_SIZE)) by (lens; lia).
    rewrite (drop_app_ge (le_bytes 2 c)) by (lens; lia). rewrite (drop_app_ge [0; 0]) by (lens; lia). lens. done.
Qed.

(** ** Lookups *)

Lemma find_conn_spec test l k :
  match find_conn test l k with
  | Some i => exists j c, i = (k + j)%nat /\ l !! j = Some c /\ test c = true
  | None => forall j c, l !! j = Some c -> test c = false
  end.
Proof.
  revert k. induction l as [|c l IH]; intros k; cbn [find_conn]; [done |].
  destruct (test c) eqn:E; [exists 0%nat, c; split; [lia | done] |].
  specialize (IH (S k)). destruct (find_conn test l (S k)) as [i|].
  - destruct IH as (j & d & -> & Hl & Hd). exists (S j), d. split; [lia |]. by split.
  - intros [|j] d Hd; [|by apply (IH j d)]. cbn in Hd. by injection Hd as <-.
Qed.

Lemma find_conn_unique test l i c :
  l !! i = Some c -> test c = true -> (forall j d, l !! j = Some d -> test d = true -> j = i) ->
  find_conn test l 0 = Some i.
Proof.
  intros Hi Hc Hu. pose proof (find_conn_spec test l 0) as H. destruct (find_conn test l 0) as [k|].
  - destruct H as (j & d & -> & Hj & Hd). f_equal. by apply (Hu j d).
  - by rewrite (H i c Hi) in Hc.
Qed.

Lemma get_upd_eq f i t : (i < length (connections t))%nat -> get_conn (upd_conn f i t) i = f (get_conn t i).
Proof. intros H. unfold get_conn, upd_conn. cbn [connections]. by apply list_lookup_total_alter_eq. Qed.
Lemma length_upd f i t : length (connections (upd_conn f i t)) = length (connections t).
Proof. unfold upd_conn. cbn [connections]. apply length_alter. Qed.

(** ** Reachable states *)

Definition simple_state (st : tcp_state) : Prop :=
  In st [TCP_CLOSED; TCP_LISTEN; TCP_SYN_SENT; TCP_ESTABLISHED; TCP_CLOSE_WAIT].

Definition conn_ok (c : connection) : Prop :=
  simple_state (c_state c) /\ (c_state c = TCP_LISTEN -> c_local_ip c = 0).

Definition tcp_ok (t : tcp) : Prop :=
  length (connections t) = 32%nat /\ 0 <= connection_count t <= MAX_CONNECTIONS /\
  Forall conn_ok (connections t).

Section reachable.
Context {nic : Type} {NIC : Nic nic}.
Implicit Types n : net nic.

(** What a client and the network can do: connections are used through the
    pointers [tcp_create_connection] returned, which excludes those that
    [tcp_listen] keeps; segments arrive for a non-zero address. *)
Inductive tcp_step : tcp -> tcp -> Prop :=
| ts_create t : tcp_step t (tcp_create_connection t).2
| ts_connect t n i ip port : c_state (get_conn t i) <> TCP_LISTEN -> tcp_step t (tcp_connect (Some i) ip port t n).1.2
| ts_listen t port : tcp_step t (tcp_listen port t).2
| ts_send t n i data : tcp_step t (tcp_send (Some i) data t n).1.2
| ts_close t n i : tcp_step t (tcp_close (Some i) t n).1
| ts_receive t n p src dest pk : dest <> 0 -> tcp_step t (tcp_process_packet p src dest pk t n).1.1.

Lemma upd_ok f i t : tcp_ok t -> conn_ok (f (get_conn t i)) -> tcp_ok (upd_conn f i t).
Proof.
  intros (Hl & Hc & Hf) Hg. split; [by rewrite length_upd |]. split; [done |].
  apply list.Forall_lookup. intros j c Hj. unfold upd_conn in Hj. cbn [connections] in Hj.
  destruct (decide (i = j)) as [->|Hne].
  - rewrite list_lookup_alter_eq in Hj. apply fmap_Some in Hj as (d & Hd & ->).
    unfold get_conn in Hg. by rewrite (list_lookup_total_correct _ _ _ Hd) in Hg.
  - rewrite list_lookup_alter_ne in Hj by done. eapply list.Forall_lookup_1; eauto.
Qed.

Lemma get_ok t i : tcp_ok t -> conn_ok (get_conn t i).
Proof.
  intros (Hl & Hc & Hf). unfold get_conn. destruct (connections t !! i) as [c|] eqn:E.
  - rewrite (list_lookup_total_correct _ _ _ E). eapply list.Forall_lookup_1; eauto.
  - rewrite list_lookup_total_alt, E. cbn. split; [by left | done].
Qed.

(** Updates that keep the state and the local address. *)
Lemma same_ok f i t :
  (forall c, c_state (f c) = c_state c /\ c_local_ip (f c) = c_local_ip c) -> tcp_ok t -> tcp_ok (upd_conn f i t).
Proof.
  intros Hf H. apply upd_ok; [done |]. destruct (Hf (get_conn t i)) as [E1 E2].
  unfold conn_ok. rewrite E1, E2. by apply get_ok.
Qed.

Lemma state_ok st f i t :
  simple_state st -> st <> TCP_LISTEN -> (forall c, c_state (f c) = st) -> tcp_ok t -> tcp_ok (upd_conn f i t).
Proof.
  intros Hs Hne Hf H. apply upd_ok; [done |]. unfold conn_ok. rewrite Hf. by split.
Qed.

(** A listening connection is found for no address but zero. *)
Lemma lookup_ok src dest sp dp flags t :
  tcp_ok t -> dest <> 0 ->
  (tcp_lookup src dest sp dp flags t).2 = t /\
  (forall i, (tcp_lookup src dest sp dp flags t).1 = Some i -> c_state (get_conn t i) <> TCP_LISTEN /\
     find_conn (matches src dest sp dp) (connections t) 0 = Some i).
Proof.
  intros (Hl & Hc & Hf) Hd. unfold tcp_lookup.
  pose proof (find_conn_spec (matches src dest sp dp) (connections t) 0) as H1.
  destruct (find_conn (matches src dest sp dp) (connections t) 0) as [i|].
  - split; [done |]. intros j [= <-]. split; [|done]. destruct H1 as (k & c & -> & Hk & Hm).
    rewrite Nat.add_0_l. unfold get_conn. rewrite (list_lookup_total_correct _ _ _ Hk). intros El.
    unfold matches in Hm. zbool. destruct (list.Forall_lookup_1 _ _ _ _ Hf Hk) as [_ H']. specialize (H' El). congruence.
  - destruct (has_flag flags TCP_FLAG_SYN && negb (has_flag flags TCP_FLAG_ACK)); [|done].
    pose proof (find_conn_spec (listens dest dp) (connections t) 0) as H2.
    destruct (find_conn (listens dest dp) (connections t) 0) as [i|]; [|done].
    exfalso. destruct H2 as (k & c & -> & Hk & Hm). unfold listens in Hm.
    apply andb_true_iff in Hm as [Hm Hs%bool_decide_eq_true]. zbool.
    destruct (list.Forall_lookup_1 _ _ _ _ Hf Hk) as [_ H']. specialize (H' Hs). congruence.
Qed.

Lemma dispatch_ok p src sp dp seq flags pl i t n :
  tcp_ok t -> c_state (get_conn t i) <> TCP_LISTEN -> tcp_ok (tcp_dispatch p src sp dp seq flags pl i t n).1.1.
Proof.
  intros H Hne. unfold tcp_dispatch.
  pose proof (get_ok t i H) as [Hs _].
  destruct (c_state (get_conn t i)) eqn:E; try done.
  - destruct (_ =? _); [|done]. cbn [fst]. apply (state_ok TCP_ESTABLISHED); [cbn; tauto | done | done |]. by apply same_ok.
  - exfalso. clear - Hs. cbn in Hs. naive_solver.
  - unfold established_data, established_fin. destruct (has_flag flags TCP_FLAG_PSH), (has_flag flags TCP_FLAG_FIN); cbn [fst]; try done.
    + apply (state_ok TCP_CLOSE_WAIT); [cbn; tauto | done | done |]. apply same_ok; [done |]. by apply same_ok.
    + by apply same_ok.
    + apply (state_ok TCP_CLOSE_WAIT); [cbn; tauto | done | done |]. by apply same_ok.
Qed.

Lemma create_ok t : tcp_ok t -> tcp_ok (tcp_create_connection t).2.
Proof.
  intros (Hl & Hc & Hf). unfold tcp_create_connection. destruct (Z.leb_spec MAX_CONNECTIONS (connection_count t)); [done |].
  split; cbn [snd connections connection_count]; [by rewrite length_insert |]. split; [lia |].
  apply list.Forall_insert; [done |]. split; [by left | done].
Qed.

Lemma tcp_step_ok t t' : tcp_step t t' -> tcp_ok t -> tcp_ok t' /\ connection_count t <= connection_count t'.
Proof.
  intros Hstep H. destruct Hstep as [t | t n i ip port Hne | t port | t n i data | t n i | t n p src dest pk Hd].
  - split; [by apply create_ok |]. unfold tcp_create_connection. case_match; cbn; lia.
  - cbn [tcp_connect]. case_match; [by split |]. destruct (network_find_route _ _) as [p|]; [|by split].
    case_match. cbn [fst snd]. split; [|done]. by apply (state_ok TCP_SYN_SENT); [cbn; tauto | | |].
  - unfold tcp_listen. pose proof (create_ok t H) as H'. unfold tcp_create_connection in *.
    destruct (Z.leb_spec MAX_CONNECTIONS (connection_count t)) as [Hc|Hc]; [by split |]. cbn [fst snd] in *. split; [|cbn; lia].
    apply upd_ok; [done |]. destruct H as (Hl & Hcc & Hf).
    unfold get_conn. cbn [connections]. rewrite list_lookup_total_insert_eq by (unfold MAX_CONNECTIONS in *; lia).
    split; [cbn; tauto | done].
  - unfold tcp_send. destruct data as [l|]; [|by split]. cbv zeta. case_match; [by split |].
    destruct (network_find_route _ _) as [p|]; [|by split]. case_match. case_match; cbn [fst snd]; split; try done.
    by apply same_ok.
  - unfold tcp_close. case_match; [by split |].
    destruct (network_find_route _ _) as [p|]; [|split; [|done]; by apply (state_ok TCP_CLOSED); [cbn; tauto | | |]].
    destruct (bool_decide (c_state (get_conn t i) = TCP_ESTABLISHED)); cbn [fst]; (split; [|cbn; lia]).
    + assert (E : forall t : tcp, upd_conn (λ c : connection, set_state TCP_CLOSED (set_conn_active false c)) i (upd_conn (set_state TCP_FIN_WAIT_1) i t) =
        upd_conn (λ c : connection, set_state TCP_CLOSED (set_conn_active false c)) i t).
      { intros t'. unfold upd_conn. cbn [connections connection_count tcp_sequence_number]. f_equal.
        apply list_eq. intros j. destruct (decide (i = j)) as [->|Hne];
          [rewrite !list_lookup_alter_eq | by rewrite !list_lookup_alter_ne by done].
        by destruct (connections t' !! j). }
      rewrite E. by apply (state_ok TCP_CLOSED); [cbn; tauto | | |].
    + by apply (state_ok TCP_CLOSED); [cbn; tauto | | |].
  - unfold tcp_process_packet. destruct p as [p|], pk as [pk|]; try (by split). cbv zeta.
    match goal with |- context [tcp_lookup ?a ?b ?c ?d ?e t] => destruct (lookup_ok a b c d e t H Hd) as [E1 E2];
      destruct (tcp_lookup a b c d e t) as [[i|] t1] end; cbn [fst snd] in *; subst t1; [|by split].
    destruct (E2 i eq_refl) as [E3 _]. split; [by apply dispatch_ok |].
    clear. unfold tcp_dispatch, established_data, established_fin. repeat case_match; simplify_eq; cbn; lia.
Qed.

Lemma tcp_init_ok t : tcp_ok (tcp_init t).2.
Proof. split; [done |]. split; [cbn; unfold MAX_CONNECTIONS; lia |]. apply list.Forall_replicate. split; [by left | done]. Qed.

(** TCP states.  After initialisation and any sequence of client calls and
    of segments for non-zero addresses: every connection is in one of the states
    CLOSED, LISTEN, SYN_SENT, ESTABLISHED and CLOSE_WAIT, so a passive open never
    completes; the listening connections keep the local address 0, so a SYN that
    matches no open connection is never taken by a listener but answered with a
    reset, the table unchanged; and the connection counter never decreases, so
    that after 32 creations no connection can be made again. *)
Theorem tcp_listener_unreachable t0 t :
  rtc tcp_step (tcp_init t0).2 t ->
  Forall (fun c => simple_state (c_state c)) (connections t) /\
  (forall p src dest sp dp seq ack flags pl rest n,
     dest <> 0 -> 0 <= sp < 0x10000 -> 0 <= dp < 0x10000 -> 0 <= seq < 0x100000000 ->
     has_flag flags TCP_FLAG_SYN = true ->
     (forall i c, connections t !! i = Some c -> matches src dest sp dp c = false) ->
     tcp_process_packet (Some p) src dest (Some (tcp_segment src dest sp dp seq ack flags pl ++ rest)) t n =
       (t, (tcp_send_packet (Some p) src dp sp 0 (u32 (seq + 1)) (Z.lor TCP_FLAG_RST TCP_FLAG_ACK) None n).2, [])) /\
  (forall t', connection_count t = MAX_CONNECTIONS -> rtc tcp_step t t' -> tcp_create_connection t' = (None, t')).
Proof.
  intros Hr. assert (H : tcp_ok t).
  { eapply (rtc_invariant tcp_step tcp_ok); [|exact Hr | apply tcp_init_ok]. intros x y Hxy Hx. by apply (tcp_step_ok x y). }
  split; [|split].
  - destruct H as (_ & _ & Hf). eapply list.Forall_impl; [exact Hf |]. by intros c [Hc _].
  - intros p src dest sp dp seq ack flags pl rest n Hd Hsp Hdp Hseq Hsyn Hm. unfold tcp_process_packet.
    destruct (tcp_segment_fields src dest sp dp seq ack flags pl rest Hsp Hdp Hseq) as (F1 & F2 & F3 & F4 & F5).
    rewrite F1, F2, F3, F4. destruct (lookup_ok src dest sp dp flags t H Hd) as [E1 E2].
    destruct (tcp_lookup src dest sp dp flags t) as [[i|] t1]; cbn [fst snd] in *; subst t1; [|done].
    exfalso. destruct (E2 i eq_refl) as [_ Ef].
    pose proof (find_conn_spec (matches src dest sp dp) (connections t) 0) as Hs. rewrite Ef in Hs.
    destruct Hs as (j & c & _ & Hj & Hc). by rewrite (Hm j c Hj) in Hc.
  - intros t' Hc Hr'. assert (Hi : tcp_ok t' /\ MAX_CONNECTIONS <= connection_count t').
    { eapply (rtc_invariant tcp_step (fun v => tcp_ok v /\ MAX_CONNECTIONS <= connection_count v)); [|exact Hr' | split; [done | lia]].
      intros x y Hxy [Hx Hxc]. destruct (tcp_step_ok x y Hxy Hx). split; [done | lia]. }
    unfold tcp_create_connection. destruct (Z.leb_spec MAX_CONNECTIONS (connection_count t')); [done | lia].
Qed.

End reachable.

(** ** Active open *)

Section active_open.
Context {nic : Type} {NIC : Nic nic}.
Implicit Types n : net nic.

(** The frame of a segment of connection data, and the state after it is sent. *)
Definition tcp_sent (p : nat) (f : driver) (dm : list Z) (dest sp dp seq ack flags : Z) (pl : list Z) n : net nic :=
  sent f (ip_frame n p dm dest IP_PROTOCOL_TCP
            (tcp_segment (ip_address (get_if (n_dev n) p)) dest sp dp seq ack flags pl)) n.

Lemma tcp_send_packet_ok p f dm dest sp dp seq ack flags pl n :
  can_send (n_dev n) p f -> resolve n dest = Some dm -> Z.of_nat (length (default [] pl)) <= TCP_MAX_PAYLOAD ->
  tcp_send_packet (Some p) dest sp dp seq ack flags pl n =
    (NET_SUCCESS, tcp_sent p f dm dest sp dp seq ack flags (default [] pl) n).
Proof.
  intros Hs Hr Hl. unfold tcp_send_packet. cbv zeta.
  destruct (Z.ltb_spec TCP_MAX_PAYLOAD (Z.of_nat (length (default [] pl)))); [lia |].
  apply ip_send_resolved; [done | | done]. rewrite length_tcp_segment.
  unfold TCP_MAX_PAYLOAD, IP_PACKET_SIZE, IP_HEADER_LEN, TCP_HEADER_LEN in *. lia.
Qed.

(** The connection after [tcp_connect], after the SYN-ACK, after data. *)
Definition conn_syn (ip lport rip rport isn : Z) : connection :=
  Conn ip lport rip rport TCP_SYN_SENT isn 0 TCP_WINDOW_SIZE true None None None.
Definition conn_open (ip lport rip rport seq ack : Z) : connection :=
  Conn ip lport rip rport TCP_ESTABLISHED seq ack TCP_WINDOW_SIZE true None None None.

Lemma create_get t :
  tcp_ok t -> connection_count t < MAX_CONNECTIONS ->
  exists t1, tcp_create_connection t = (Some (Z.to_nat (connection_count t)), t1) /\ tcp_ok t1 /\
    get_conn t1 (Z.to_nat (connection_count t)) =
      Conn 0 0 0 0 TCP_CLOSED (tcp_sequence_number t) 0 TCP_WINDOW_SIZE true None None None /\
    (forall j, j <> Z.to_nat (connection_count t) -> connections t1 !! j = connections t !! j) /\
    tcp_sequence_number t1 = u32 (tcp_sequence_number t + 1).
Proof.
  intros H Hc. pose proof (create_ok t H) as H'. destruct H as (Hl & Hcc & Hf).
  unfold tcp_create_connection in *. destruct (Z.leb_spec MAX_CONNECTIONS (connection_count t)); [lia |].
  eexists. split; [reflexivity |]. split; [exact H' |]. split; [|split; [|done]].
  - unfold get_conn. cbn [connections]. apply list_lookup_total_insert_eq. unfold MAX_CONNECTIONS in *. lia.
  - intros j Hj. cbn [connections]. by apply list_lookup_insert_ne.
Qed.

Lemma lookup_upd_ne f i j t : j <> i -> connections (upd_conn f i t) !! j = connections t !! j.
Proof. intros H. unfold upd_conn. cbn [connections]. by apply list_lookup_alter_ne. Qed.

Lemma lookup_get t i : (i < length (connections t))%nat -> connections t !! i = Some (get_conn t i).
Proof. intros H. unfold get_conn. by apply list_lookup_lookup_total_lt. Qed.

Lemma ephemeral_range t : 32768 <= 32768 + tcp_sequence_number t mod 32768 < 0x10000.
Proof. zlia. Qed.

(** The active open, segment by segment.  On a fresh connection
    [tcp_connect] sends the SYN with the initial sequence number to the resolved
    host.  The SYN-ACK of that host - no other connection having the same four
    addresses - is answered with an ACK of its sequence number plus one and
    opens the connection.  [tcp_send] then sends the data in one segment with
    PSH and ACK.  The SYN is not counted in the connection's sequence number: the
    data segment starts at the initial sequence number, one less than what the
    ACK announced, so that its first byte stands where the peer has already
    acknowledged the SYN. *)
Theorem tcp_active_open t n p f dm rip rport synack_seq synack_ack data rest :
  tcp_ok t -> connection_count t < MAX_CONNECTIONS ->
  network_find_route rip (n_dev n) = Some p -> can_send (n_dev n) p f -> resolve n rip = Some dm ->
  0 < rip -> 0 < rport < 0x10000 -> 0 <= synack_seq < 0x100000000 ->
  0 < Z.of_nat (length data) <= TCP_MAX_PAYLOAD ->
  let i := Z.to_nat (connection_count t) in
  let ip := ip_address (get_if (n_dev n) p) in
  let isn := tcp_sequence_number t in
  let lport := 32768 + u32 (isn + 1) mod 32768 in
  (forall j c, connections t !! j = Some c -> j <> i -> matches rip ip rport lport c = false) ->
  exists t1 t2 t3 t4 n2 n3 n4,
    tcp_create_connection t = (Some i, t1) /\
    tcp_connect (Some i) rip rport t1 n = (NET_SUCCESS, t2, n2) /\
    n2 = tcp_sent p f dm rip lport rport isn 0 TCP_FLAG_SYN [] n /\
    get_conn t2 i = conn_syn ip lport rip rport isn /\
    tcp_process_packet (Some p) rip ip
      (Some (tcp_segment rip ip rport lport synack_seq synack_ack (Z.lor TCP_FLAG_SYN TCP_FLAG_ACK) [] ++ rest)) t2 n2 = (t3, n3, []) /\
    n3 = tcp_sent p f dm rip lport rport (u32 (isn + 1)) (u32 (synack_seq + 1)) TCP_FLAG_ACK [] n2 /\
    get_conn t3 i = conn_open ip lport rip rport isn (u32 (synack_seq + 1)) /\
    tcp_send (Some i) (Some data) t3 n3 = (NET_SUCCESS, t4, n4) /\
    n4 = tcp_sent p f dm rip lport rport isn (u32 (synack_seq + 1)) (Z.lor TCP_FLAG_PSH TCP_FLAG_ACK) data n3 /\
    get_conn t4 i = conn_open ip lport rip rport (u32 (isn + Z.of_nat (length data))) (u32 (synack_seq + 1)).
Proof.
  intros Hok Hc Hroute Hs Hres Hrip Hrp Hseq Hlen i ip isn lport Huniq.
  destruct (create_get t Hok Hc) as (t1 & E1 & Hok1 & G1 & L1 & S1). fold i isn in E1, G1, L1, S1.
  set (t2 := upd_conn (fun c => set_state TCP_SYN_SENT (set_remote rip rport (set_local ip lport c))) i t1).
  assert (Hi1 : (i < length (connections t1))%nat) by (destruct Hok1 as (-> & _); destruct Hok as (_ & ? & _); unfold MAX_CONNECTIONS in *; lia).
  assert (G2 : get_conn t2 i = conn_syn ip lport rip rport isn) by (unfold t2; rewrite get_upd_eq, G1 by done; done).
  assert (Hi2 : (i < length (connections t2))%nat) by (unfold t2; by rewrite length_upd).
  set (n2 := tcp_sent p f dm rip lport rport isn 0 TCP_FLAG_SYN [] n).
  set (t3 := upd_conn (set_state TCP_ESTABLISHED) i (upd_conn (set_ack (u32 (synack_seq + 1))) i t2)).
  assert (G3 : get_conn t3 i = conn_open ip lport rip rport isn (u32 (synack_seq + 1))).
  { unfold t3. rewrite !get_upd_eq, G2 by (rewrite ?length_upd; done). done. }
  set (n3 := tcp_sent p f dm rip lport rport (u32 (isn + 1)) (u32 (synack_seq + 1)) TCP_FLAG_ACK [] n2).
  assert (Hs2 : can_send (n_dev n2) p f) by (by apply sent_can_send).
  assert (Hs3 : can_send (n_dev n3) p f) by (by apply sent_can_send).
  assert (Hlp : 0 <= lport < 0x10000) by (subst lport; zlia).
  set (t4 := upd_conn (fun c => set_seq (u32 (c_seq_num c + Z.of_nat (length data))) c) i t3).
  set (n4 := tcp_sent p f dm rip lport rport isn (u32 (synack_seq + 1)) (Z.lor TCP_FLAG_PSH TCP_FLAG_ACK) data n3).
  exists t1, t2, t3, t4, n2, n3, n4.
  split; [done |]. split; [|split; [done |]]; [|split; [done |]]; [|split; [|split; [done |]]]; [| |split; [done |]];
    [| |split; [|split; [done |]]].
  - unfold tcp_connect. destruct (Z.eqb_spec rip 0), (Z.eqb_spec rport 0); try lia. cbn [orb].
    rewrite Hroute, S1. fold ip lport t2. cbv zeta. rewrite G2. cbn [c_local_port c_seq_num conn_syn].
    by rewrite (tcp_send_packet_ok p f dm) by done.
  - unfold tcp_process_packet.
    destruct (tcp_segment_fields rip ip rport lport synack_seq synack_ack (Z.lor TCP_FLAG_SYN TCP_FLAG_ACK) [] rest
      ltac:(lia) Hlp Hseq) as (F1 & F2 & F3 & F4 & F5). rewrite F1, F2, F3, F4. cbv zeta.
    unfold tcp_lookup. rewrite (find_conn_unique _ _ i (get_conn t2 i)).
    + unfold tcp_dispatch. rewrite G2. cbn [c_state conn_syn]. change (Z.land _ _ =? _) with true. cbv iota zeta.
      rewrite get_upd_eq, G2 by done. cbn [conn_syn set_ack c_seq_num c_ack_num c_on_connect call].
      rewrite (tcp_send_packet_ok p f dm) by done. done.
    + by apply lookup_get.
    + rewrite G2. unfold matches. cbn [c_active c_local_ip c_local_port c_remote_ip c_remote_port conn_syn]. by rewrite !Z.eqb_refl.
    + intros j d Hj Hm. destruct (decide (j = i)) as [|Hne]; [done |]. exfalso.
      unfold t2 in Hj. rewrite lookup_upd_ne in Hj by done. rewrite L1 in Hj by done.
      by rewrite (Huniq j d Hj Hne) in Hm.
  - unfold tcp_send. cbv zeta. rewrite G3. cbn [c_state c_remote_ip c_local_port c_remote_port c_seq_num c_ack_num conn_open].
    destruct (Z.eqb_spec (Z.of_nat (length data)) 0); [lia |]. rewrite bool_decide_eq_true_2 by done. cbn [negb orb].
    unfold n3, n2 at 1, tcp_sent. rewrite !sent_route, Hroute.
    fold (tcp_sent p f dm rip lport rport isn 0 TCP_FLAG_SYN [] n). fold n2.
    fold (tcp_sent p f dm rip lport rport (u32 (isn + 1)) (u32 (synack_seq + 1)) TCP_FLAG_ACK [] n2). fold n3.
    by rewrite (tcp_send_packet_ok p f dm) by (done || cbn; lia).
  - unfold t4. rewrite get_upd_eq, G3 by (unfold t3; by rewrite !length_upd). done.
Qed.

End active_open.

(** The peer of the example, already in the ARP cache. *)
Definition demo_net_peer : net wire :=
  Net wire (demo_host [2; 0; 0; 0; 0; 1] 0x0A000201) (arp_update_entry 1 arp_init.2 0x0A000202 (Some [2; 0; 0; 0; 0; 9])) 1.

Lemma tcp_active_open_witness :
  let t := (tcp_init tcp0).2 in
  exists t1 t2 n2, tcp_create_connection t = (Some 0%nat, t1) /\
    tcp_connect (NIC := wire_nic) (Some 0%nat) 0x0A000202 80 t1 demo_net_peer = (NET_SUCCESS, t2, n2) /\
    get_conn t2 0 = conn_syn 0x0A000201 33769 0x0A000202 80 1000.
Proof.
  destruct (tcp_active_open (NIC := wire_nic) (tcp_init tcp0).2 demo_net_peer 0 Ethernet [2; 0; 0; 0; 0; 9] 0x0A000202 80 5 0 [7] [])
    as (t1 & t2 & t3 & t4 & n2 & n3 & n4 & H1 & H2 & _ & H3 & _);
    [ apply tcp_init_ok | reflexivity | vm_compute; reflexivity | split; reflexivity | vm_compute; reflexivity | lia | lia | lia
    | vm_compute; split; [reflexivity | discriminate] | |].
  - intros j c Hj Hne. cbn [tcp_init snd connections] in Hj. apply lookup_replicate in Hj as [-> _]. reflexivity.
  - exists t1, t2, n2. split; [exact H1 |]. split; [exact H2 |]. exact H3.
Defined.

Lemma tcp_listener_unreachable_witness :
  let t := (tcp_listen 80 (tcp_init tcp0).2).2 in
  Forall (fun c => simple_state (c_state c)) (connections t) /\ get_conn t 0 = Conn 0 80 0 0 TCP_LISTEN 1000 0 TCP_WINDOW_SIZE true None None None.
Proof.
  split; [|vm_compute; reflexivity].
  apply (tcp_listener_unreachable (NIC := wire_nic) tcp0). eapply rtc_l; [apply (ts_listen _ 80) | apply rtc_refl].
Defined.
