(* ===== verification/Socket.v ===== *)
(** * The socket interface

    [socket.c]: file descriptors over the UDP sockets and TCP connections.  An
    address is the pair of its port and IP fields, in network byte order
    ([None] is NULL); the family field is not read by the code.  The byte-order
    and text functions of [socket.c] are in the file Ip. *)

From S2P Require Import Prelude Checksum Netdev Ethernet Arp Ip Transport Udp Tcp.

Definition SOCK_STREAM : Z := 1.
Definition SOCK_DGRAM : Z := 2.
Definition AF_INET : Z := 2.
Definition sizeof_sockaddr_in : Z := 16.

Record sock := Sock {
  s_type : Z;
  s_protocol : Z;
  s_bound : bool;
  s_connected : bool;
  s_listening : bool;
  s_bound_port : Z;
  s_impl : option nat
}.

(** A socket filled with zeros. *)
Definition sock0 : sock := Sock 0 0 false false false 0 None.
#[export] Instance sock_inhabited : Inhabited sock := populate sock0.

Record sys {nic : Type} := Sys {
  sockets : list sock;
  socket_used : list bool;
  y_udp : udp;
  y_tcp : tcp;
  y_net : net nic
}.
Arguments sys : clear implicits.

Section socket.
Context {nic : Type} {NIC : Nic nic}.
Implicit Types y : sys nic.

Definition set_udp (u : udp) y : sys nic := Sys nic (sockets y) (socket_used y) u (y_tcp y) (y_net y).
Definition set_tcp (t : tcp) y : sys nic := Sys nic (sockets y) (socket_used y) (y_udp y) t (y_net y).
Definition set_net (n : net nic) y : sys nic := Sys nic (sockets y) (socket_used y) (y_udp y) (y_tcp y) n.
Definition upd_sock (f : sock -> sock) (fd : nat) y : sys nic :=
  Sys nic (alter f fd (sockets y)) (socket_used y) (y_udp y) (y_tcp y) (y_net y).

(** The lowest free descriptor. *)
Fixpoint free_fd (used : list bool) (i : nat) : option nat :=
  match used with
  | [] => None
  | b :: used' => if negb b then Some i else free_fd used' (S i)
  end.

Definition allocate_socket_fd y : option nat * sys nic :=
  match free_fd (socket_used y) 0 with
  | Some i => (Some i, Sys nic (sockets y) (<[i := true]> (socket_used y)) (y_udp y) (y_tcp y) (y_net y))
  | None => (None, y)
  end.

Definition free_socket_fd (sockfd : Z) y : sys nic :=
  if (0 <=? sockfd) && (sockfd <? MAX_SOCKETS) then
    Sys nic (<[Z.to_nat sockfd := sock0]> (sockets y)) (<[Z.to_nat sockfd := false]> (socket_used y))
        (y_udp y) (y_tcp y) (y_net y)
  else y.

Definition get_socket (sockfd : Z) y : option nat :=
  if (sockfd <? 0) || (MAX_SOCKETS <=? sockfd) || negb (default false (socket_used y !! Z.to_nat sockfd)) then None
  else Some (Z.to_nat sockfd).

Definition set_impl (x : option nat) (s : sock) : sock :=
  Sock (s_type s) (s_protocol s) (s_bound s) (s_connected s) (s_listening s) (s_bound_port s) x.

Definition socket_create (domain type protocol : Z) y : Z * sys nic :=
  if negb (domain =? AF_INET) then (-1, y)
  else match allocate_socket_fd y with
       | (None, y) => (-1, y)
       | (Some fd, y) =>
           let y := upd_sock (fun s => Sock type protocol false false false (s_bound_port s) (s_impl s)) fd y in
           if type =? SOCK_DGRAM then
             let '(u, st) := udp_create_socket (y_udp y) in
             let y := upd_sock (set_impl u) fd (set_udp st y) in
             match u with None => (-1, free_socket_fd (Z.of_nat fd) y) | Some _ => (Z.of_nat fd, y) end
           else if type =? SOCK_STREAM then
             let '(c, st) := tcp_create_connection (y_tcp y) in
             let y := upd_sock (set_impl c) fd (set_tcp st y) in
             match c with None => (-1, free_socket_fd (Z.of_nat fd) y) | Some _ => (Z.of_nat fd, y) end
           else (-1, free_socket_fd (Z.of_nat fd) y)
       end.

(** The guard shared by the calls that take an address: the comparison of an
    [int] with [sizeof] is unsigned. *)
Definition addrlen_short (addrlen : Z) : bool := u64 addrlen <? sizeof_sockaddr_in.

Definition socket_bind (sockfd : Z) (addr : option (Z * Z)) (addrlen : Z) y : Z * sys nic :=
  match get_socket sockfd y, addr with
  | Some fd, Some (sin_port, sin_addr) =>
      if addrlen_short addrlen then (-1, y)
      else
        let port := ntohs sin_port in
        let s := sockets y !!! fd in
        if s_type s =? SOCK_DGRAM then
          let '(r, u) := udp_bind (s_impl s) port (y_udp y) in
          let y := set_udp u y in
          if r =? NET_SUCCESS then
            (0, upd_sock (fun s => Sock (s_type s) (s_protocol s) true (s_connected s) (s_listening s) (s_bound_port s) (s_impl s)) fd y)
          else (-1, y)
        else if s_type s =? SOCK_STREAM then
          (0, upd_sock (fun s => Sock (s_type s) (s_protocol s) true (s_connected s) (s_listening s) port (s_impl s)) fd y)
        else (-1, y)
  | _, _ => (-1, y)
  end.

Definition socket_listen (sockfd : Z) y : Z * sys nic :=
  match get_socket sockfd y with
  | None => (-1, y)
  | Some fd =>
      let s := sockets y !!! fd in
      if negb (s_type s =? SOCK_STREAM) || negb (s_bound s) then (-1, y)
      else
        let '(r, t) := tcp_listen (s_bound_port s) (y_tcp y) in
        let y := set_tcp t y in
        if r =? NET_SUCCESS then
          (0, upd_sock (fun s => Sock (s_type s) (s_protocol s) (s_bound s) (s_connected s) true (s_bound_port s) (s_impl s)) fd y)
        else (-1, y)
  end.

(** Not implemented in the source: every path fails. *)
Definition socket_accept (sockfd : Z) y : Z :=
  match get_socket sockfd y with
  | None => -1
  | Some fd =>
      let s := sockets y !!! fd in
      if negb (s_type s =? SOCK_STREAM) || negb (s_listening s) then -1 else -1
  end.

Definition socket_connect (sockfd : Z) (addr : option (Z * Z)) (addrlen : Z) y : Z * sys nic :=
  match get_socket sockfd y, addr with
  | Some fd, Some (sin_port, sin_addr) =>
      if addrlen_short addrlen then (-1, y)
      else
        let ip := ntohl sin_addr in
        let port := ntohs sin_port in
        let s := sockets y !!! fd in
        let connected y := upd_sock (fun s => Sock (s_type s) (s_protocol s) (s_bound s) true (s_listening s) (s_bound_port s) (s_impl s)) fd y in
        if s_type s =? SOCK_DGRAM then
          let '(r, u) := udp_connect (s_impl s) ip port (y_udp y) in
          let y := set_udp u y in
          if r =? NET_SUCCESS then (0, connected y) else (-1, y)
        else if s_type s =? SOCK_STREAM then
          let '(r, t, n) := tcp_connect (s_impl s) ip port (y_tcp y) (y_net y) in
          let y := set_net n (set_tcp t y) in
          if r =? NET_SUCCESS then (0, connected y) else (-1, y)
        else (-1, y)
  | _, _ => (-1, y)
  end.

Definition socket_send (sockfd : Z) (buf : option (list Z)) y : Z * sys nic :=
  match get_socket sockfd y, buf with
  | Some fd, Some l =>
      let s := sockets y !!! fd in
      if Z.of_nat (length l) =? 0 then (-1, y)
      else if (s_type s =? SOCK_DGRAM) && s_connected s then
        let '(r, n) := udp_send (s_impl s) (Some l) (y_udp y) (y_net y) in (r, set_net n y)
      else if (s_type s =? SOCK_STREAM) && s_connected s then
        let '(r, t, n) := tcp_send (s_impl s) (Some l) (y_tcp y) (y_net y) in (r, set_net n (set_tcp t y))
      else (-1, y)
  | _, _ => (-1, y)
  end.

(** [buf_ok]: the buffer is not NULL and its length not zero. *)
Definition socket_recv (sockfd : Z) (buf_ok : bool) y : Z :=
  match get_socket sockfd y with
  | Some fd =>
      let s := sockets y !!! fd in
      if negb buf_ok then -1
      else if (s_type s =? SOCK_STREAM) && s_connected s && bool_decide (is_Some (s_impl s)) then 0
      else -1
  | None => -1
  end.

Definition socket_sendto (sockfd : Z) (buf : option (list Z)) (dest_addr : option (Z * Z)) (addrlen : Z) y : Z * sys nic :=
  match get_socket sockfd y, buf, dest_addr with
  | Some fd, Some l, Some (sin_port, sin_addr) =>
      let s := sockets y !!! fd in
      if (Z.of_nat (length l) =? 0) || (addrlen <? sizeof_sockaddr_in) then (-1, y)
      else if negb (s_type s =? SOCK_DGRAM) then (-1, y)
      else
        let '(r, n) := udp_sendto (s_impl s) (Some l) (ntohl sin_addr) (ntohs sin_port) (y_udp y) (y_net y) in
        (r, set_net n y)
  | _, _, _ => (-1, y)
  end.

Definition socket_recvfrom (sockfd : Z) (buf_ok : bool) y : Z :=
  match get_socket sockfd y with
  | None => -1
  | Some fd =>
      if negb buf_ok then -1
      else if negb (s_type (sockets y !!! fd) =? SOCK_DGRAM) then -1 else -1
  end.

Definition socket_close (sockfd : Z) y : Z * sys nic :=
  match get_socket sockfd y with
  | None => (-1, y)
  | Some fd =>
      let s := sockets y !!! fd in
      let y :=
        if s_type s =? SOCK_DGRAM then set_udp (udp_close (s_impl s) (y_udp y)) y
        else if s_type s =? SOCK_STREAM then
          let '(t, n) := tcp_close (s_impl s) (y_tcp y) (y_net y) in set_net n (set_tcp t y)
        else y in
      (0, free_socket_fd sockfd y)
  end.

(** ** Descriptors *)

Definition sys_ok y : Prop :=
  length (sockets y) = 64%nat /\ length (socket_used y) = 64%nat /\
  (forall i s, sockets y !! i = Some s -> socket_used y !! i = Some false -> s = sock0).

Lemma free_fd_spec used k :
  match free_fd used k with
  | Some i => exists j, i = (k + j)%nat /\ used !! j = Some false /\ Forall (fun b => b = true) (take j used)
  | None => Forall (fun b => b = true) used
  end.
Proof.
  revert k. induction used as [|b used IH]; intros k; cbn [free_fd]; [done |].
  destruct b; cbn [negb]; [|exists 0%nat; split; [lia | done]].
  specialize (IH (S k)). destruct (free_fd used (S k)) as [i|]; [|by constructor].
  destruct IH as (j & -> & Hl & Hf). exists (S j). split; [lia |]. split; [done |]. by constructor.
Qed.

Lemma alter_known {A} (f : A -> A) (l : list A) i x : l !! i = Some x -> alter f i l = <[i := f x]> l.
Proof.
  intros H. apply list_eq. intros j. destruct (decide (i = j)) as [->|Hne].
  - rewrite list_lookup_alter_eq, list_lookup_insert_eq, H by (by eapply lookup_lt_Some). done.
  - by rewrite list_lookup_alter_ne, list_lookup_insert_ne by done.
Qed.

(** Allocation followed by the release of the descriptor restores the tables. *)
Lemma release_insert y fd s :
  sys_ok y -> socket_used y !! fd = Some false ->
  <[fd := false]> (<[fd := true]> (socket_used y)) = socket_used y /\
  <[fd := sock0]> (<[fd := s]> (sockets y)) = sockets y.
Proof.
  intros (Hl & Hu & Hz) Hf. split; rewrite list_insert_insert_eq; apply list_insert_id; [done |].
  destruct (lookup_lt_is_Some_2 (sockets y) fd) as [s0 Hs]; [apply lookup_lt_Some in Hf; lia |].
  by rewrite Hs, (Hz fd s0 Hs Hf).
Qed.

Lemma allocated_ok y fd s u t n :
  sys_ok y -> sys_ok (Sys nic (<[fd := s]> (sockets y)) (<[fd := true]> (socket_used y)) u t n).
Proof.
  intros (Hl & Hu & Hz). split; [cbn; by rewrite length_insert |]. split; [cbn; by rewrite length_insert |].
  cbn [sockets socket_used]. intros i s' Hs Hf.
  destruct (decide (fd = i)) as [->|Hne].
  - apply list_lookup_insert_Some in Hf as [(_ & ? & _)|[? _]]; done.
  - rewrite list_lookup_insert_ne in Hs by done. rewrite list_lookup_insert_ne in Hf by done. by apply (Hz i).
Qed.

Lemma free_fd_value y (fd : nat) :
  (fd < 64)%nat -> free_socket_fd (Z.of_nat fd) y =
    Sys nic (<[fd := sock0]> (sockets y)) (<[fd := false]> (socket_used y)) (y_udp y) (y_tcp y) (y_net y).
Proof.
  intros H. unfold free_socket_fd, MAX_SOCKETS. destruct (Z.leb_spec 0 (Z.of_nat fd)), (Z.ltb_spec (Z.of_nat fd) 64); try lia.
  cbn [andb]. by rewrite Nat2Z.id.
Qed.

Lemma get_socket_used y (fd : nat) :
  (fd < 64)%nat -> socket_used y !! fd = Some true -> get_socket (Z.of_nat fd) y = Some fd.
Proof.
  intros H Hu. unfold get_socket, MAX_SOCKETS. rewrite Nat2Z.id, Hu.
  destruct (Z.ltb_spec (Z.of_nat fd) 0), (Z.leb_spec 64 (Z.of_nat fd)); try lia. done.
Qed.

(** What closing does to the tables of descriptors. *)
Lemma socket_close_tables y (fd : nat) :
  (fd < 64)%nat -> socket_used y !! fd = Some true ->
  let c := socket_close (Z.of_nat fd) y in
  c.1 = 0 /\ socket_used c.2 = <[fd := false]> (socket_used y) /\ sockets c.2 = <[fd := sock0]> (sockets y).
Proof.
  intros H Hu. unfold socket_close. rewrite get_socket_used by done. cbn [fst snd]. split; [done |].
  rewrite free_fd_value by done. cbn [sockets socket_used].
  destruct (s_type (sockets y !!! fd) =? SOCK_DGRAM); [done |].
  destruct (s_type (sockets y !!! fd) =? SOCK_STREAM); [|done]. by destruct (tcp_close _ _ _).
Qed.

(** Socket descriptors.  [socket_create] returns the lowest free descriptor
    and a fresh UDP socket or TCP connection for it, or -1 with every descriptor
    as before; [socket_close] of a descriptor in use frees it.  The protocol
    tables are never given back: once 64 UDP sockets (32 TCP connections) have
    been created, creation fails whatever has been closed. *)
Theorem socket_create_close_spec y type protocol :
  sys_ok y -> type = SOCK_DGRAM \/ type = SOCK_STREAM ->
  0 <= socket_count (y_udp y) -> 0 <= connection_count (y_tcp y) ->
  let r := socket_create AF_INET type protocol y in
  sys_ok r.2 /\
  match free_fd (socket_used y) 0 with
  | None => r = (-1, y)
  | Some fd =>
      if (if type =? SOCK_DGRAM then socket_count (y_udp y) <? MAX_SOCKETS else connection_count (y_tcp y) <? MAX_CONNECTIONS) then
        r.1 = Z.of_nat fd /\ get_socket r.1 r.2 = Some fd /\
        (forall g, g <> fd -> socket_used r.2 !! g = socket_used y !! g) /\
        (exists i, sockets r.2 !! fd = Some (Sock type protocol false false false 0 (Some i)) /\
           (type = SOCK_DGRAM -> y_udp r.2 = (udp_create_socket (y_udp y)).2 /\ Some i = (udp_create_socket (y_udp y)).1) /\
           (type = SOCK_STREAM -> y_tcp r.2 = (tcp_create_connection (y_tcp y)).2 /\ Some i = (tcp_create_connection (y_tcp y)).1)) /\
        (let c := socket_close r.1 r.2 in c.1 = 0 /\ socket_used c.2 = socket_used y /\ sockets c.2 = sockets y)
      else r.1 = -1 /\ socket_used r.2 = socket_used y /\ sockets r.2 = sockets y
  end.
Proof.
  intros Hok Ht Hc1 Hc2 r. pose proof Hok as (Hl & Hu & Hz).
  pose proof (free_fd_spec (socket_used y) 0) as Hfree. unfold r, socket_create, allocate_socket_fd.
  change (negb (AF_INET =? AF_INET)) with false. cbv iota.
  destruct (free_fd (socket_used y) 0) as [k|]; [|by split].
  destruct Hfree as (fd & -> & Hfd & _). rewrite Nat.add_0_l.
  pose proof (lookup_lt_Some _ _ _ Hfd) as Hlt. rewrite Hu in Hlt.
  assert (Hs : sockets y !! fd = Some sock0).
  { destruct (lookup_lt_is_Some_2 (sockets y) fd) as [s0 Hs]; [lia |]. by rewrite Hs, (Hz fd s0 Hs Hfd). }
  assert (Hup : forall f u t n, upd_sock f fd (Sys nic (<[fd := u]> (sockets y)) (<[fd := true]> (socket_used y)) t n (y_net y)) =
    Sys nic (<[fd := f u]> (sockets y)) (<[fd := true]> (socket_used y)) t n (y_net y)).
  { intros f u t n. unfold upd_sock. cbn [sockets socket_used y_udp y_tcp y_net].
    rewrite (alter_known f _ fd u) by (apply list_lookup_insert_eq; lia). by rewrite list_insert_insert_eq. }
  assert (Hup0 : forall f, upd_sock f fd (Sys nic (sockets y) (<[fd := true]> (socket_used y)) (y_udp y) (y_tcp y) (y_net y)) =
    Sys nic (<[fd := f sock0]> (sockets y)) (<[fd := true]> (socket_used y)) (y_udp y) (y_tcp y) (y_net y)).
  { intros f. unfold upd_sock. cbn [sockets socket_used y_udp y_tcp y_net]. by rewrite (alter_known f _ fd sock0). }
  rewrite Hup0. cbn [s_bound_port s_impl sock0].
  destruct Ht as [-> | ->]; [change (SOCK_DGRAM =? SOCK_DGRAM) with true |
    change (SOCK_STREAM =? SOCK_DGRAM) with false; change (SOCK_STREAM =? SOCK_STREAM) with true]; cbv iota zeta;
    [unfold udp_create_socket, set_udp; cbn [y_udp sockets socket_used y_tcp y_net];
       rewrite Z.ltb_antisym; destruct (Z.leb_spec MAX_SOCKETS (socket_count (y_udp y))) as [Hfull|Hroom] |
     unfold tcp_create_connection, set_tcp; cbn [y_tcp sockets socket_used y_udp y_net];
       rewrite Z.ltb_antisym; destruct (Z.leb_spec MAX_CONNECTIONS (connection_count (y_tcp y))) as [Hfull|Hroom]];
    cbn [negb]; rewrite Hup; cbv iota; cbn [set_impl s_type s_protocol s_bound s_connected s_listening s_bound_port].
  all: try (rewrite free_fd_value by done; cbn [sockets socket_used fst snd y_udp y_tcp y_net];
    match goal with |- context [<[?k := sock0]> (<[?k := ?s]> _)] => destruct (release_insert y k s Hok Hfd) as [-> ->] end;
    by split).
  all: cbn [fst snd]; split; [by apply allocated_ok |]; split; [done |]; split;
    [apply get_socket_used; [done | cbn [socket_used]; apply list_lookup_insert_eq; lia] |]; split;
    [intros g Hg; cbn [socket_used]; by apply list_lookup_insert_ne |]; split.
  all: try (eexists; split; [cbn [sockets]; apply list_lookup_insert_eq; lia | by split]).
  all: match goal with |- context [socket_close _ ?z] => destruct (socket_close_tables z fd Hlt) as (E1 & E2 & E3);
         [cbn [socket_used]; apply list_lookup_insert_eq; lia |] end; cbn zeta; rewrite E2, E3; split; [done |];
    cbn [sockets socket_used]; match goal with |- context [<[?k := sock0]> (<[?k := ?s]> _)] => by apply (release_insert y k s Hok Hfd) end.
Qed.

End socket.

Definition demo_sys : sys wire :=
  Sys wire (replicate 64 sock0) (replicate 64 false) udp_init.2 (tcp_init tcp0).2 demo_net_peer.

Lemma demo_sys_ok : sys_ok demo_sys.
Proof. split; [done |]. split; [done |]. intros i s [-> _]%lookup_replicate _. done. Qed.

Lemma socket_create_close_spec_witness :
  let r := socket_create AF_INET SOCK_DGRAM 0 demo_sys in
  r.1 = 0 /\ socket_used (socket_close (NIC := wire_nic) r.1 r.2).2 = socket_used demo_sys.
Proof.
  destruct (socket_create_close_spec (NIC := wire_nic) demo_sys SOCK_DGRAM 0 demo_sys_ok (or_introl eq_refl)) as [_ H];
    [vm_compute; discriminate | vm_compute; discriminate |].
  change (free_fd (socket_used demo_sys) 0) with (Some 0%nat) in H.
  change (if SOCK_DGRAM =? SOCK_DGRAM then _ else _) with true in H. cbv iota in H.
  destruct H as (H1 & _ & _ & _ & _ & H2 & _). split; [exact H1 | exact H2].
Defined.
