(* ===== verification/Dhcp.v ===== *)
(** * The DHCP client

    [dhcp.c].  A packet is a buffer: op 0, xid 4, flags 10, ciaddr 12, yiaddr 16,
    siaddr 20, giaddr 24, chaddr 28, sname 44, file 108, magic 236, options 240
    (312 bytes).  A client pointer is the index in the static array.  [now] is
    the value of [timer_get_seconds]. *)

From S2P Require Import Prelude Checksum Netdev Ethernet Arp Ip Transport Udp.

Definition DHCP_DISCOVER : Z := 1.
Definition DHCP_OFFER : Z := 2.
Definition DHCP_REQUEST : Z := 3.
Definition DHCP_ACK : Z := 5.
Definition DHCP_NAK : Z := 6.
Definition DHCP_RELEASE : Z := 7.
Definition DHCP_OPTION_PAD : Z := 0.
Definition DHCP_OPTION_SUBNET_MASK : Z := 1.
Definition DHCP_OPTION_ROUTER : Z := 3.
Definition DHCP_OPTION_DNS_SERVER : Z := 6.
Definition DHCP_OPTION_DOMAIN_NAME : Z := 15.
Definition DHCP_OPTION_BROADCAST_ADDR : Z := 28.
Definition DHCP_OPTION_REQUESTED_IP : Z := 50.
Definition DHCP_OPTION_LEASE_TIME : Z := 51.
Definition DHCP_OPTION_MSG_TYPE : Z := 53.
Definition DHCP_OPTION_SERVER_ID : Z := 54.
Definition DHCP_OPTION_PARAM_REQUEST : Z := 55.
Definition DHCP_OPTION_RENEWAL_TIME : Z := 58.
Definition DHCP_OPTION_REBINDING_TIME : Z := 59.
Definition DHCP_OPTION_CLIENT_ID : Z := 61.
Definition DHCP_OPTION_END : Z := 255.
Definition DHCP_MAGIC_COOKIE : Z := 0x63825363.
Definition DHCP_OPTIONS_SIZE : Z := 312.

Inductive dhcp_state :=
  DHCP_STATE_INIT | DHCP_STATE_SELECTING | DHCP_STATE_REQUESTING | DHCP_STATE_BOUND |
  DHCP_STATE_RENEWING | DHCP_STATE_REBINDING | DHCP_STATE_INIT_REBOOT.

Record dhcp_client := Client {
  k_iface : option nat;
  k_state : dhcp_state;
  k_transaction_id : Z;
  k_server_ip : Z;
  k_offered_ip : Z;
  k_subnet_mask : Z;
  k_gateway : Z;
  k_dns_server : Z;
  k_lease_time : Z;
  k_renewal_time : Z;
  k_rebinding_time : Z;
  k_lease_start_time : Z;
  k_active : bool
}.

Definition dhcp_client0 : dhcp_client := Client None DHCP_STATE_INIT 0 0 0 0 0 0 0 0 0 0 false.
#[export] Instance dhcp_client_inhabited : Inhabited dhcp_client := populate dhcp_client0.

Record dhcp := Dhcp {
  dhcp_clients : list dhcp_client;
  dhcp_client_count : Z;
  dhcp_xid_counter : Z
}.

(** The static variables at boot. *)
Definition dhcp0 : dhcp := Dhcp (replicate (Z.to_nat MAX_NETWORK_INTERFACES) dhcp_client0) 0 1.

(** Setters of the fields the code assigns. *)
Definition k_set_state (st : dhcp_state) (k : dhcp_client) : dhcp_client :=
  Client (k_iface k) st (k_transaction_id k) (k_server_ip k) (k_offered_ip k) (k_subnet_mask k) (k_gateway k) (k_dns_server k)
    (k_lease_time k) (k_renewal_time k) (k_rebinding_time k) (k_lease_start_time k) (k_active k).
Definition k_set_xid (x : Z) (k : dhcp_client) : dhcp_client :=
  Client (k_iface k) (k_state k) x (k_server_ip k) (k_offered_ip k) (k_subnet_mask k) (k_gateway k) (k_dns_server k)
    (k_lease_time k) (k_renewal_time k) (k_rebinding_time k) (k_lease_start_time k) (k_active k).
Definition k_set_server (x : Z) (k : dhcp_client) : dhcp_client :=
  Client (k_iface k) (k_state k) (k_transaction_id k) x (k_offered_ip k) (k_subnet_mask k) (k_gateway k) (k_dns_server k)
    (k_lease_time k) (k_renewal_time k) (k_rebinding_time k) (k_lease_start_time k) (k_active k).
Definition k_set_offered (x : Z) (k : dhcp_client) : dhcp_client :=
  Client (k_iface k) (k_state k) (k_transaction_id k) (k_server_ip k) x (k_subnet_mask k) (k_gateway k) (k_dns_server k)
    (k_lease_time k) (k_renewal_time k) (k_rebinding_time k) (k_lease_start_time k) (k_active k).
Definition k_set_mask (x : Z) (k : dhcp_client) : dhcp_client :=
  Client (k_iface k) (k_state k) (k_transaction_id k) (k_server_ip k) (k_offered_ip k) x (k_gateway k) (k_dns_server k)
    (k_lease_time k) (k_renewal_time k) (k_rebinding_time k) (k_lease_start_time k) (k_active k).
Definition k_set_gateway (x : Z) (k : dhcp_client) : dhcp_client :=
  Client (k_iface k) (k_state k) (k_transaction_id k) (k_server_ip k) (k_offered_ip k) (k_subnet_mask k) x (k_dns_server k)
    (k_lease_time k) (k_renewal_time k) (k_rebinding_time k) (k_lease_start_time k) (k_active k).
Definition k_set_dns (x : Z) (k : dhcp_client) : dhcp_client :=
  Client (k_iface k) (k_state k) (k_transaction_id k) (k_server_ip k) (k_offered_ip k) (k_subnet_mask k) (k_gateway k) x
    (k_lease_time k) (k_renewal_time k) (k_rebinding_time k) (k_lease_start_time k) (k_active k).
Definition k_set_lease (x : Z) (k : dhcp_client) : dhcp_client :=
  Client (k_iface k) (k_state k) (k_transaction_id k) (k_server_ip k) (k_offered_ip k) (k_subnet_mask k) (k_gateway k) (k_dns_server k)
    x (k_renewal_time k) (k_rebinding_time k) (k_lease_start_time k) (k_active k).
Definition k_set_renewal (x : Z) (k : dhcp_client) : dhcp_client :=
  Client (k_iface k) (k_state k) (k_transaction_id k) (k_server_ip k) (k_offered_ip k) (k_subnet_mask k) (k_gateway k) (k_dns_server k)
    (k_lease_time k) x (k_rebinding_time k) (k_lease_start_time k) (k_active k).
Definition k_set_rebinding (x : Z) (k : dhcp_client) : dhcp_client :=
  Client (k_iface k) (k_state k) (k_transaction_id k) (k_server_ip k) (k_offered_ip k) (k_subnet_mask k) (k_gateway k) (k_dns_server k)
    (k_lease_time k) (k_renewal_time k) x (k_lease_start_time k) (k_active k).
Definition k_set_start (x : Z) (b : bool) (k : dhcp_client) : dhcp_client :=
  Client (k_iface k) (k_state k) (k_transaction_id k) (k_server_ip k) (k_offered_ip k) (k_subnet_mask k) (k_gateway k) (k_dns_server k)
    (k_lease_time k) (k_renewal_time k) (k_rebinding_time k) x b.
Definition k_set_active (b : bool) (k : dhcp_client) : dhcp_client := k_set_start (k_lease_start_time k) b k.

Definition get_client (h : dhcp) (c : nat) : dhcp_client := dhcp_clients h !!! c.
Definition upd_client (f : dhcp_client -> dhcp_client) (c : nat) (h : dhcp) : dhcp :=
  Dhcp (alter f c (dhcp_clients h)) (dhcp_client_count h) (dhcp_xid_counter h).

Definition dhcp_generate_xid (h : dhcp) : Z * dhcp :=
  (dhcp_xid_counter h, Dhcp (dhcp_clients h) (dhcp_client_count h) (u32 (dhcp_xid_counter h + 1))).

Fixpoint get_client_loop (l : list dhcp_client) (i : nat) (p : option nat) : option nat :=
  match l with
  | [] => None
  | k :: l' => if bool_decide (k_iface k = p) then Some i else get_client_loop l' (S i) p
  end.

Definition dhcp_get_client (p : option nat) (h : dhcp) : option nat :=
  get_client_loop (take (Z.to_nat (dhcp_client_count h)) (dhcp_clients h)) 0 p.

Definition dhcp_client_init (p : option nat) (h : dhcp) : Z * dhcp :=
  match p with
  | None => (-1, h)
  | Some i =>
      if MAX_NETWORK_INTERFACES <=? dhcp_client_count h then (-1, h)
      else
        let c := Z.to_nat (dhcp_client_count h) in
        let '(xid, h) := dhcp_generate_xid h in
        (0, Dhcp (<[c := Client (Some i) DHCP_STATE_INIT xid 0 0 0 0 0 0 0 0 0 false]> (dhcp_clients h))
                 (dhcp_client_count h + 1) (dhcp_xid_counter h))
  end.

(** ** Options *)

(** The options array and the offset after the call, with the result; [data] is
    [None] for NULL. *)
Definition dhcp_add_option (options : list Z) (offset : Z) (type len : Z) (data : option (list Z)) : Z * list Z * Z :=
  if 312 <=? offset + 2 + len then (-1, options, offset)
  else
    let options := put (Z.to_nat offset) [type; len] options in
    let offset := offset + 2 in
    match data with
    | Some l => if 0 <? len then (0, put (Z.to_nat offset) (take (Z.to_nat len) l) options, offset + len)
                else (0, options, offset)
    | None => (0, options, offset)
    end.

(** The value of a 4-byte option at index [i]. *)
Definition option32 (options : list Z) (i : nat) : Z :=
  combine (get8 options i) (get8 options (i + 1)) (get8 options (i + 2)) (get8 options (i + 3)).

(** The switch of [dhcp_parse_options] on the option at index [i]. *)
Definition parse_option (type len : Z) (options : list Z) (i : nat) (r : dhcp_client * Z) : dhcp_client * Z :=
  let '(k, msg_type) := r in
  if type =? DHCP_OPTION_MSG_TYPE then if len =? 1 then (k, get8 options i) else r
  else if type =? DHCP_OPTION_SUBNET_MASK then if len =? 4 then (k_set_mask (option32 options i) k, msg_type) else r
  else if type =? DHCP_OPTION_ROUTER then if 4 <=? len then (k_set_gateway (option32 options i) k, msg_type) else r
  else if type =? DHCP_OPTION_DNS_SERVER then if 4 <=? len then (k_set_dns (option32 options i) k, msg_type) else r
  else if type =? DHCP_OPTION_LEASE_TIME then if len =? 4 then (k_set_lease (option32 options i) k, msg_type) else r
  else if type =? DHCP_OPTION_SERVER_ID then if len =? 4 then (k_set_server (option32 options i) k, msg_type) else r
  else if type =? DHCP_OPTION_RENEWAL_TIME then if len =? 4 then (k_set_renewal (option32 options i) k, msg_type) else r
  else if type =? DHCP_OPTION_REBINDING_TIME then if len =? 4 then (k_set_rebinding (option32 options i) k, msg_type) else r
  else r.

(** The [while] loop; every iteration advances [i], so [len] iterations are
    enough. *)
Fixpoint parse_loop (fuel : nat) (options : list Z) (len : Z) (i : Z) (r : dhcp_client * Z) : dhcp_client * Z :=
  match fuel with
  | O => r
  | S f =>
      if len <=? i then r
      else
        let option_type := get8 options (Z.to_nat i) in
        let i := i + 1 in
        if option_type =? DHCP_OPTION_PAD then parse_loop f options len i r
        else if option_type =? DHCP_OPTION_END then r
        else if len <=? i then r
        else
          let option_len := get8 options (Z.to_nat i) in
          let i := i + 1 in
          if len <? i + option_len then r
          else parse_loop f options len (i + option_len) (parse_option option_type option_len options (Z.to_nat i) r)
  end.

Definition dhcp_parse_options (options : list Z) (len : Z) (k : dhcp_client) : dhcp_client * Z :=
  parse_loop (Z.to_nat len) options len 0 (k, 0).

(** ** Messages *)

(** The 240 bytes before the options. *)
Definition dhcp_header (xid flags ciaddr : Z) (mac : list Z) : list Z :=
  [1; 1; 6; 0] ++ le_bytes 4 (htonl xid) ++ [0; 0] ++ le_bytes 2 flags ++ le_bytes 4 ciaddr ++ replicate 12 0 ++
  take 6 mac ++ replicate 10 0 ++ replicate 64 0 ++ replicate 128 0 ++ le_bytes 4 (htonl DHCP_MAGIC_COOKIE).

(** A sequence of calls of [dhcp_add_option] on the zeroed array. *)
Definition add_options (l : list (Z * Z * option (list Z))) : list Z * Z :=
  fold_left (fun '(o, off) '(t, len, d) => let '(_, o, off) := dhcp_add_option o off t len d in (o, off))
            l (replicate 312 0, 0).

(** The first [packet_size] bytes of the packet. *)
Definition dhcp_packet (header : list Z) (options : list (Z * Z * option (list Z))) : list Z :=
  let '(o, opt_offset) := add_options options in
  take (Z.to_nat (240 + opt_offset + 1)) (header ++ o).

Definition client_id (mac : list Z) : list Z := 1 :: take 6 mac.

Definition param_list : list Z :=
  [DHCP_OPTION_SUBNET_MASK; DHCP_OPTION_ROUTER; DHCP_OPTION_DNS_SERVER; DHCP_OPTION_DOMAIN_NAME; DHCP_OPTION_BROADCAST_ADDR].

Definition discover_packet (xid : Z) (mac : list Z) : list Z :=
  dhcp_packet (dhcp_header xid (htons 0x8000) 0 mac)
    [(DHCP_OPTION_MSG_TYPE, 1, Some [DHCP_DISCOVER]); (DHCP_OPTION_PARAM_REQUEST, 5, Some param_list);
     (DHCP_OPTION_CLIENT_ID, 7, Some (client_id mac)); (DHCP_OPTION_END, 0, None)].

Definition request_packet (xid : Z) (mac : list Z) (offered_ip server_ip : Z) : list Z :=
  dhcp_packet (dhcp_header xid (htons 0x8000) 0 mac)
    [(DHCP_OPTION_MSG_TYPE, 1, Some [DHCP_REQUEST]); (DHCP_OPTION_REQUESTED_IP, 4, Some (be32 offered_ip));
     (DHCP_OPTION_SERVER_ID, 4, Some (be32 server_ip)); (DHCP_OPTION_CLIENT_ID, 7, Some (client_id mac));
     (DHCP_OPTION_END, 0, None)].

Definition release_packet (xid : Z) (mac : list Z) (ip server_ip : Z) : list Z :=
  dhcp_packet (dhcp_header xid 0 (htonl ip) mac)
    [(DHCP_OPTION_MSG_TYPE, 1, Some [DHCP_RELEASE]); (DHCP_OPTION_SERVER_ID, 4, Some (be32 server_ip));
     (DHCP_OPTION_END, 0, None)].

Section dhcp.
Context {nic : Type} {NIC : Nic nic}.
Implicit Types n : net nic.

Definition set_dev (d : dev nic) n : net nic := Net nic d (n_arp n) (ip_identification n).

(** ** The operations *)

Definition dhcp_client_discover (c : option nat) (h : dhcp) n : Z * dhcp * net nic :=
  match c with
  | None => (-1, h, n)
  | Some c =>
      let k := get_client h c in
      match k_iface k with
      | None => (-1, h, n)
      | Some p =>
          let '(result, n) := udp_send_packet (Some p) 0xFFFFFFFF 68 67
            (Some (discover_packet (k_transaction_id k) (mac_address (get_if (n_dev n) p)))) n in
          if result <? 0 then (-1, h, n) else (0, upd_client (k_set_state DHCP_STATE_SELECTING) c h, n)
      end
  end.

Definition dhcp_client_request (c : option nat) (h : dhcp) n : Z * dhcp * net nic :=
  match c with
  | None => (-1, h, n)
  | Some c =>
      let k := get_client h c in
      match k_iface k with
      | None => (-1, h, n)
      | Some p =>
          if k_offered_ip k =? 0 then (-1, h, n)
          else
            let '(result, n) := udp_send_packet (Some p) 0xFFFFFFFF 68 67
              (Some (request_packet (k_transaction_id k) (mac_address (get_if (n_dev n) p)) (k_offered_ip k) (k_server_ip k))) n in
            if result <? 0 then (-1, h, n) else (0, upd_client (k_set_state DHCP_STATE_REQUESTING) c h, n)
      end
  end.

(** The configuration of the interface from an accepted lease. *)
Definition apply_lease (k : dhcp_client) n : net nic :=
  match k_iface k with
  | Some p => set_dev (upd_if (set_addresses (k_offered_ip k) (k_subnet_mask k) (k_gateway k)) p (n_dev n)) n
  | None => n
  end.

(** The default renewal and rebinding times. *)
Definition default_times (k : dhcp_client) : dhcp_client :=
  let k := if k_renewal_time k =? 0 then k_set_renewal (k_lease_time k / 2) k else k in
  if k_rebinding_time k =? 0 then k_set_rebinding (u32 (k_lease_time k * 7) / 8) k else k.

Definition dhcp_client_process_packet (now : Z) (c : option nat) (packet : option (list Z)) (packet_len : Z) (h : dhcp) n
    : dhcp * net nic :=
  match c, packet with
  | Some c, Some pk =>
      if packet_len <? 240 then (h, n)
      else if negb (ntohl (get32 pk 236) =? 0x63825363) then (h, n)
      else if negb (ntohl (get32 pk 4) =? k_transaction_id (get_client h c)) then (h, n)
      else
        let '(k, msg_type) := dhcp_parse_options (drop 240 pk) 312 (get_client h c) in
        let h := upd_client (fun _ => k) c h in
        let offered_ip := ntohl (get32 pk 16) in
        match k_state k with
        | DHCP_STATE_SELECTING =>
            if msg_type =? DHCP_OFFER then
              let h := upd_client (k_set_offered offered_ip) c h in
              let '(_, h, n) := dhcp_client_request (Some c) h n in (h, n)
            else (h, n)
        | DHCP_STATE_REQUESTING =>
            if msg_type =? DHCP_ACK then
              (upd_client (fun k => default_times (k_set_start now true (k_set_state DHCP_STATE_BOUND k))) c h, apply_lease k n)
            else if msg_type =? DHCP_NAK then
              (upd_client (fun k => k_set_server 0 (k_set_offered 0 (k_set_state DHCP_STATE_INIT k))) c h, n)
            else (h, n)
        | _ => (h, n)
        end
  | _, _ => (h, n)
  end.

Definition dhcp_client_start (c : option nat) (h : dhcp) n : Z * dhcp * net nic :=
  match c with
  | None => (-1, h, n)
  | Some c =>
      let h := upd_client (k_set_state DHCP_STATE_INIT) c h in
      let '(xid, h) := dhcp_generate_xid h in
      dhcp_client_discover (Some c) (upd_client (k_set_xid xid) c h) n
  end.

Definition dhcp_client_release (c : option nat) (h : dhcp) n : Z * dhcp * net nic :=
  match c with
  | None => (-1, h, n)
  | Some c =>
      let k := get_client h c in
      if negb (k_active k) then (-1, h, n)
      else match k_iface k with
           | None => (-1, h, n)
           | Some p =>
               let f := get_if (n_dev n) p in
               let n := (udp_send_packet (Some p) (k_server_ip k) 68 67
                 (Some (release_packet (k_transaction_id k) (mac_address f) (ip_address f) (k_server_ip k))) n).2 in
               (0, upd_client (fun k => k_set_active false (k_set_state DHCP_STATE_INIT k)) c h,
                set_dev (upd_if (set_addresses 0 0 0) p (n_dev n)) n)
           end
  end.

Definition dhcp_client_update (now : Z) (c : option nat) (h : dhcp) n : dhcp * net nic :=
  match c with
  | None => (h, n)
  | Some c =>
      let k := get_client h c in
      if negb (k_active k) then (h, n)
      else
        let elapsed := u32 (now - k_lease_start_time k) in
        match k_state k with
        | DHCP_STATE_BOUND =>
            if k_renewal_time k <=? elapsed then
              let '(_, h, n) := dhcp_client_request (Some c) (upd_client (k_set_state DHCP_STATE_RENEWING) c h) n in (h, n)
            else (h, n)
        | DHCP_STATE_RENEWING =>
            if k_rebinding_time k <=? elapsed then
              let '(_, h, n) := dhcp_client_request (Some c) (upd_client (k_set_state DHCP_STATE_REBINDING) c h) n in (h, n)
            else (h, n)
        | DHCP_STATE_REBINDING =>
            if k_lease_time k <=? elapsed then
              let h := upd_client (fun k => k_set_active false (k_set_state DHCP_STATE_INIT k)) c h in
              let n := match k_iface k with
                       | Some p => set_dev (upd_if (fun f => set_addresses 0 (subnet_mask f) (gateway f) f) p (n_dev n)) n
                       | None => n
                       end in
              let '(_, h, n) := dhcp_client_start (Some c) h n in (h, n)
            else (h, n)
        | _ => (h, n)
        end
  end.

(** The functions of debug builds. *)
Definition dhcp_simulate_offer (c : option nat) (offered_ip server_ip : Z) (h : dhcp) n : Z * dhcp * net nic :=
  match c with
  | None => (-1, h, n)
  | Some c =>
      dhcp_client_request (Some c)
        (upd_client (fun k => k_set_lease 3600 (k_set_dns 0x08080808 (k_set_gateway (Z.lor (Z.land offered_ip 0xFFFFFF00) 0x01)
           (k_set_mask 0xFFFFFF00 (k_set_server server_ip (k_set_offered offered_ip k)))))) c h) n
  end.

Definition dhcp_simulate_ack (now : Z) (c : option nat) (h : dhcp) n : Z * dhcp * net nic :=
  match c with
  | None => (-1, h, n)
  | Some c =>
      if k_offered_ip (get_client h c) =? 0 then (-1, h, n)
      else (0, upd_client (fun k => k_set_start now true (k_set_state DHCP_STATE_BOUND k)) c h, apply_lease (get_client h c) n)
  end.

End dhcp.

(** ** Options: encoding and parsing *)

(** An option the encoder and the parser agree on: a type other than PAD and
    END, at most 255 bytes of data. *)
Definition valid_option (o : Z * list Z) : Prop :=
  0 < o.1 < 255 /\ Z.of_nat (length o.2) <= 255.

(** The encoding of a list of options, and what the client learns from it. *)
Definition encode (l : list (Z * list Z)) : list Z :=
  concat (map (fun '(t, d) => t :: Z.of_nat (length d) :: d) l).
Definition learn (l : list (Z * list Z)) (r : dhcp_client * Z) : dhcp_client * Z :=
  fold_left (fun r '(t, d) => parse_option t (Z.of_nat (length d)) d 0 r) l r.

Lemma get8_middle pre b l : get8 (pre ++ b :: l) (length pre) = b.
Proof. unfold get8. by rewrite list_lookup_middle. Qed.

Lemma get8_inside pre d post j : (j < length d)%nat -> get8 (pre ++ d ++ post) (length pre + j) = get8 d j.
Proof.
  intros Hj. unfold get8. rewrite lookup_app_r by lia. replace (length pre + j - length pre)%nat with j by lia.
  by rewrite lookup_app_l by lia.
Qed.

Lemma option32_inside pre d post : (4 <= length d)%nat -> option32 (pre ++ d ++ post) (length pre) = option32 d 0.
Proof.
  intros H. unfold option32. rewrite !get8_inside by lia.
  by rewrite <- (get8_inside pre d post 0), Nat.add_0_r by lia.
Qed.

(** The switch looks only at the data of the option. *)
Lemma parse_option_inside t pre d post r :
  parse_option t (Z.of_nat (length d)) (pre ++ d ++ post) (length pre) r = parse_option t (Z.of_nat (length d)) d 0 r.
Proof.
  destruct r as [k m]. unfold parse_option.
  assert (H8 : Z.of_nat (length d) = 1 -> get8 (pre ++ d ++ post) (length pre) = get8 d 0).
  { intros H. by rewrite <- (get8_inside pre d post 0), Nat.add_0_r by lia. }
  assert (H4 : Z.of_nat (length d) = 4 -> option32 (pre ++ d ++ post) (length pre) = option32 d 0)
    by (intros; apply option32_inside; lia).
  assert (H4' : 4 <= Z.of_nat (length d) -> option32 (pre ++ d ++ post) (length pre) = option32 d 0)
    by (intros; apply option32_inside; lia).
  repeat case_match; zbool; try done; rewrite ?H8, ?H4, ?H4' by done; done.
Qed.

Lemma parse_encoded l rest len :
  Forall valid_option l ->
  forall pre fuel r, Z.of_nat (length pre + length (encode l)) < len -> (Z.to_nat (len - Z.of_nat (length pre)) <= fuel)%nat ->
  parse_loop fuel (pre ++ encode l ++ 255 :: rest) len (Z.of_nat (length pre)) r = learn l r.
Proof.
  induction 1 as [|[t d] l [Ht Hd] _ IH]; intros pre fuel r Hlen Hfuel.
  - cbn [encode map concat learn fold_left app length] in *. destruct fuel as [|f]; [lia |]. cbn [parse_loop].
    destruct (Z.leb_spec len (Z.of_nat (length pre))); [lia |]. rewrite Nat2Z.id, get8_middle.
    done.
  - cbn [fst snd] in *. change (encode ((t, d) :: l)) with ((t :: Z.of_nat (length d) :: d) ++ encode l) in *.
    rewrite length_app in Hlen. cbn [length] in Hlen.
    destruct fuel as [|f]; [lia |]. cbn [parse_loop].
    destruct (Z.leb_spec len (Z.of_nat (length pre))); [lia |]. rewrite Nat2Z.id. cbn [app]. rewrite get8_middle.
    unfold DHCP_OPTION_PAD, DHCP_OPTION_END. destruct (Z.eqb_spec t 0), (Z.eqb_spec t 255); try lia.
    destruct (Z.leb_spec len (Z.of_nat (length pre) + 1)); [lia |].
    replace (Z.to_nat (Z.of_nat (length pre) + 1)) with (length (pre ++ [t])) by (rewrite length_app; cbn [length]; lia).
    assert (get8 (pre ++ t :: Z.of_nat (length d) :: (d ++ encode l) ++ 255 :: rest) (length (pre ++ [t])) = Z.of_nat (length d)) as ->.
    { replace (pre ++ t :: Z.of_nat (length d) :: (d ++ encode l) ++ 255 :: rest) with
        ((pre ++ [t]) ++ Z.of_nat (length d) :: (d ++ encode l) ++ 255 :: rest) by (by rewrite <- app_assoc).
      apply get8_middle. }
    destruct (Z.ltb_spec len (Z.of_nat (length pre) + 1 + 1 + Z.of_nat (length d))); [lia |].
    set (pre2 := pre ++ [t; Z.of_nat (length d)]).
    assert (Epre : Z.of_nat (length pre) + 1 + 1 = Z.of_nat (length pre2)) by (subst pre2; rewrite length_app; cbn [length]; lia).
    rewrite Epre, Nat2Z.id.
    replace (pre ++ t :: Z.of_nat (length d) :: (d ++ encode l) ++ 255 :: rest) with (pre2 ++ d ++ encode l ++ 255 :: rest)
      by (subst pre2; rewrite <- !app_assoc; done).
    rewrite parse_option_inside.
    replace (pre2 ++ d ++ encode l ++ 255 :: rest) with ((pre2 ++ d) ++ encode l ++ 255 :: rest) by (by rewrite <- app_assoc).
    replace (Z.of_nat (length pre2) + Z.of_nat (length d)) with (Z.of_nat (length (pre2 ++ d))) by (rewrite length_app; lia).
    rewrite IH; [done | |]; subst pre2; rewrite !length_app; cbn [length]; lia.
Qed.

(** What [dhcp_add_option] appends: the offset counts the bytes written. *)
Lemma add_option_ok enc t d :
  Z.of_nat (length enc + 2 + length d) < 312 ->
  dhcp_add_option (enc ++ replicate (312 - length enc) 0) (Z.of_nat (length enc)) t (Z.of_nat (length d)) (Some d) =
  (0, (enc ++ t :: Z.of_nat (length d) :: d) ++ replicate (312 - length (enc ++ t :: Z.of_nat (length d) :: d)) 0,
   Z.of_nat (length (enc ++ t :: Z.of_nat (length d) :: d))).
Proof.
  intros H. unfold dhcp_add_option. destruct (Z.leb_spec 312 (Z.of_nat (length enc) + 2 + Z.of_nat (length d))); [lia |].
  rewrite !Nat2Z.id, (take_ge d) by lia. rewrite length_app. cbn [length].
  assert (E1 : put (length enc) [t; Z.of_nat (length d)] (enc ++ replicate (312 - length enc) 0) =
     (enc ++ [t; Z.of_nat (length d)]) ++ replicate (310 - length enc) 0).
  { unfold put. rewrite take_app_length, drop_app_ge by lia. rewrite <- app_assoc. cbn [length]. do 2 f_equal.
    rewrite drop_replicate. f_equal. lia. }
  rewrite E1. destruct (Z.ltb_spec 0 (Z.of_nat (length d))) as [Hd|Hd].
  - replace (Z.to_nat (Z.of_nat (length enc) + 2)) with (length (enc ++ [t; Z.of_nat (length d)])) by (rewrite length_app; cbn [length]; lia).
    unfold put. rewrite take_app_length, drop_app_ge by lia. f_equal; [|lia]. f_equal.
    rewrite <- !app_assoc. cbn [app]. do 4 f_equal. rewrite drop_replicate. rewrite length_app; cbn [length]. f_equal. lia.
  - destruct d; cbn [length] in *; [|lia]. f_equal; [|lia]. do 3 f_equal. lia.
Qed.

Definition option_args (l : list (Z * list Z)) : list (Z * Z * option (list Z)) :=
  map (fun '(t, d) => (t, Z.of_nat (length d), Some d)) l ++ [(DHCP_OPTION_END, 0, None)].

Lemma add_options_ok l :
  Z.of_nat (length (encode l)) + 2 < 312 ->
  add_options (option_args l) = (encode l ++ [255; 0] ++ replicate (310 - length (encode l)) 0, Z.of_nat (length (encode l)) + 2).
Proof.
  intros H. unfold add_options, option_args. rewrite fold_left_app.
  set (F := fun '(o, off) '(t, len, d) => let '(_, o, off) := dhcp_add_option o off t len d in (o, off)).
  assert (E : forall l enc, Z.of_nat (length enc + length (encode l)) + 2 < 312 ->
    fold_left F (map (fun '(t, d) => (t, Z.of_nat (length d), Some d)) l) (enc ++ replicate (312 - length enc) 0, Z.of_nat (length enc)) =
    ((enc ++ encode l) ++ replicate (312 - length (enc ++ encode l)) 0, Z.of_nat (length (enc ++ encode l)))).
  { clear. induction l as [|[t d] l IH]; intros enc Hl; [cbn [map fold_left encode concat]; by rewrite app_nil_r |].
    change (encode ((t, d) :: l)) with ((t :: Z.of_nat (length d) :: d) ++ encode l) in *.
    rewrite length_app in Hl. cbn [length] in Hl. cbn [map fold_left]. unfold F at 2.
    rewrite add_option_ok by lia. rewrite IH by (rewrite length_app; cbn [length]; lia). by rewrite <- !app_assoc. }
  change (replicate 312 0, 0) with ([] ++ replicate (312 - length (@nil Z)) 0, Z.of_nat (length (@nil Z))).
  rewrite E by (cbn [length]; lia). cbn [app fold_left]. unfold F, dhcp_add_option.
  destruct (Z.leb_spec 312 (Z.of_nat (length (encode l)) + 2 + 0)); [lia |].
  f_equal. unfold put. rewrite Nat2Z.id, take_app_length, drop_app_ge by lia. f_equal. cbn [length app]. do 2 f_equal.
  rewrite drop_replicate. f_equal. lia.
Qed.

(** C11. DHCP options round-trip.  Options added one after the other with
    [dhcp_add_option], closed by END, fill the array with their encoding, all of
    them within its 312 bytes, and [dhcp_parse_options] reads from it exactly
    what each of them says, in order; the same holds of any message with this
    encoding, whatever follows the END option. *)
Theorem dhcp_options_roundtrip l k :
  Forall valid_option l -> Z.of_nat (length (encode l)) + 2 < DHCP_OPTIONS_SIZE ->
  let '(options, offset) := add_options (option_args l) in
  options = encode l ++ [255; 0] ++ replicate (310 - length (encode l)) 0 /\
  offset = Z.of_nat (length (encode l)) + 2 /\ length options = 312%nat /\
  dhcp_parse_options options 312 k = learn l (k, 0) /\
  (forall rest, dhcp_parse_options (encode l ++ 255 :: rest) 312 k = learn l (k, 0)).
Proof.
  unfold DHCP_OPTIONS_SIZE. intros Hv Hl. rewrite add_options_ok by done. split; [done |]. split; [done |].
  assert (Hp : forall rest, dhcp_parse_options (encode l ++ 255 :: rest) 312 k = learn l (k, 0)).
  { intros rest. apply (parse_encoded l rest 312 Hv []); cbn [length]; lia. }
  split; [rewrite !length_app, length_replicate; cbn [length]; lia |]. split; [apply (Hp (0 :: _)) | apply Hp].
Qed.

Lemma dhcp_options_roundtrip_witness :
  (dhcp_parse_options (encode [(53, [2]); (1, [255; 255; 255; 0])] ++ 255 :: [9; 9]) 312 dhcp_client0).2 = 2 /\
  k_subnet_mask (dhcp_parse_options (encode [(53, [2]); (1, [255; 255; 255; 0])] ++ 255 :: [9; 9]) 312 dhcp_client0).1 = 0xFFFFFF00.
Proof.
  pose proof (dhcp_options_roundtrip [(53, [2]); (1, [255; 255; 255; 0])] dhcp_client0
    ltac:(repeat constructor; cbn; lia) ltac:(vm_compute; reflexivity)) as H.
  destruct (add_options _) as [o off]. destruct H as (_ & _ & _ & _ & H). rewrite (H [9; 9]). split; vm_compute; reflexivity.
Defined.

(** ** Messages *)

Lemma add_options_offset l o off : 0 <= off < 312 -> (forall t len d, In (t, len, d) l -> 0 <= len) ->
  0 <= (fold_left (fun '(o, off) '(t, len, d) => let '(_, o, off) := dhcp_add_option o off t len d in (o, off)) l (o, off)).2 < 312.
Proof.
  revert o off. induction l as [|[[t len] d] l IH]; intros o off Hoff Hl; [done |]. cbn [fold_left].
  assert (0 <= len) by (eapply Hl; by left).
  assert (Ho : 0 <= (dhcp_add_option o off t len d).2 < 312).
  { unfold dhcp_add_option. destruct (Z.leb_spec 312 (off + 2 + len)); [done |].
    destruct d; [destruct (0 <? len)|]; cbn [snd]; lia. }
  destruct (dhcp_add_option o off t len d) as [[r o'] off']. apply IH; [done |]. intros ? ? ? Hin. eapply Hl. by right.
Qed.

(** Every message fits in one datagram. *)
Lemma dhcp_packet_length header l :
  (0 < length header)%nat -> (forall t len d, In (t, len, d) l -> 0 <= len) ->
  0 < Z.of_nat (length (dhcp_packet header l)) <= UDP_MAX_PAYLOAD.
Proof.
  intros Hh Hl. unfold dhcp_packet. pose proof (add_options_offset l (replicate 312 0) 0 ltac:(lia) Hl) as Ho.
  fold (add_options l) in Ho. destruct (add_options l) as [o off]. cbn [snd] in Ho.
  rewrite length_take, length_app. unfold UDP_MAX_PAYLOAD, IP_PACKET_SIZE, IP_HEADER_LEN, UDP_HEADER_LEN. lia.
Qed.

Lemma dhcp_header_length xid flags ciaddr mac : (0 < length (dhcp_header xid flags ciaddr mac))%nat.
Proof. unfold dhcp_header. cbn [app length]. lia. Qed.

(** A 4-byte option holding [x] in network order is read as [x]. *)
Lemma be32_rev x : be32 x = rev (le_bytes 4 x).
Proof.
  unfold be32, bswap32. rewrite <- (le_bytes_le_val (rev (le_bytes 4 x))) at 2 by (auto with words).
  by rewrite length_rev, length_le_bytes.
Qed.

Lemma option32_be32 x : 0 <= x < 0x100000000 -> option32 (be32 x) 0 = x.
Proof.
  intros Hx. rewrite be32_rev. unfold option32. cbn [le_bytes rev app Nat.add].
  change (get8 [?a; ?b; ?c; ?d] 0) with a. unfold get8. cbn [lookup list_lookup from_option default id].
  rewrite combine_eq by (unfold octet; zlia). zlia.
Qed.

(** The options of a server's answer. *)
Definition server_options (msg server mask gw lease : Z) : list (Z * list Z) :=
  [(DHCP_OPTION_MSG_TYPE, [msg]); (DHCP_OPTION_SERVER_ID, be32 server); (DHCP_OPTION_SUBNET_MASK, be32 mask);
   (DHCP_OPTION_ROUTER, be32 gw); (DHCP_OPTION_LEASE_TIME, be32 lease)].

Definition word32 (x : Z) : Prop := 0 <= x < 0x100000000.

Lemma learn_server msg server mask gw lease k :
  word32 server -> word32 mask -> word32 gw -> word32 lease ->
  learn (server_options msg server mask gw lease) (k, 0) =
    (k_set_lease lease (k_set_gateway gw (k_set_mask mask (k_set_server server k))), msg).
Proof.
  intros H1 H2 H3 H4. unfold learn, server_options. cbn [fold_left]. rewrite !length_be32.
  unfold parse_option. cbn [length Z.of_nat Pos.of_succ_nat Pos.succ]. cbn -[option32 be32 get8].
  rewrite !option32_be32 by done. done.
Qed.

Lemma server_options_valid msg server mask gw lease :
  Forall valid_option (server_options msg server mask gw lease) /\
  Z.of_nat (length (encode (server_options msg server mask gw lease))) = 27.
Proof.
  split.
  - repeat constructor; cbn [fst snd]; rewrite ?length_be32; cbn; lia.
  - unfold encode, server_options. cbn [map concat app length]. rewrite !length_app. cbn [length].
    rewrite !length_app, !length_be32. cbn [length]. rewrite ?length_app, ?length_be32. reflexivity.
Qed.

(** A server's message: the fields the client reads, and its options. *)
Definition server_message (pk : list Z) (xid yiaddr : Z) (l : list (Z * list Z)) : Prop :=
  ntohl (get32 pk 236) = DHCP_MAGIC_COOKIE /\ ntohl (get32 pk 4) = xid /\ ntohl (get32 pk 16) = yiaddr /\
  exists rest, drop 240 pk = encode l ++ 255 :: rest.

Lemma get_upd_client f c h : (c < length (dhcp_clients h))%nat -> get_client (upd_client f c h) c = f (get_client h c).
Proof. intros H. unfold get_client, upd_client. cbn [dhcp_clients]. by apply list_lookup_total_alter_eq. Qed.
Lemma length_upd_client f c h : length (dhcp_clients (upd_client f c h)) = length (dhcp_clients h).
Proof. unfold upd_client. cbn. apply length_alter. Qed.

(** Evaluate the setters on a client given by its fields. *)
Ltac client_cbv :=
  cbv [k_set_state k_set_xid k_set_server k_set_offered k_set_mask k_set_gateway k_set_dns k_set_lease k_set_renewal
       k_set_rebinding k_set_start k_set_active k_iface k_state k_transaction_id k_server_ip k_offered_ip k_subnet_mask
       k_gateway k_dns_server k_lease_time k_renewal_time k_rebinding_time k_lease_start_time k_active].

Section lease.
Context {nic : Type} {NIC : Nic nic}.
Implicit Types n : net nic.

(** The state after a broadcast of a DHCP message from interface [p]. *)
Definition dhcp_sent (p : nat) (f : driver) (packet : list Z) n : net nic :=
  sent f (ip_frame n p (replicate 6 0xFF) 0xFFFFFFFF IP_PROTOCOL_UDP
            (udp_datagram (ip_address (get_if (n_dev n) p)) 0xFFFFFFFF 68 67 packet)) n.

Lemma discover_ok c h n p f :
  k_iface (get_client h c) = Some p -> can_send (n_dev n) p f ->
  dhcp_client_discover (Some c) h n =
    (0, upd_client (k_set_state DHCP_STATE_SELECTING) c h,
     dhcp_sent p f (discover_packet (k_transaction_id (get_client h c)) (mac_address (get_if (n_dev n) p))) n).
Proof.
  intros Hp Hs. unfold dhcp_client_discover. cbv zeta. rewrite Hp.
  rewrite (udp_send_packet_ok p f (replicate 6 0xFF)); [done | done | done |].
  apply dhcp_packet_length; [apply dhcp_header_length |]. cbn. intros t len d Hin.
  repeat (destruct Hin as [[= <- <- <-]|Hin]; [lia |]). done.
Qed.

Lemma request_ok c h n p f :
  k_iface (get_client h c) = Some p -> k_offered_ip (get_client h c) <> 0 -> can_send (n_dev n) p f ->
  dhcp_client_request (Some c) h n =
    (0, upd_client (k_set_state DHCP_STATE_REQUESTING) c h,
     dhcp_sent p f (request_packet (k_transaction_id (get_client h c)) (mac_address (get_if (n_dev n) p))
       (k_offered_ip (get_client h c)) (k_server_ip (get_client h c))) n).
Proof.
  intros Hp Ho Hs. unfold dhcp_client_request. cbv zeta. rewrite Hp. destruct (Z.eqb_spec (k_offered_ip (get_client h c)) 0); [done |].
  rewrite (udp_send_packet_ok p f (replicate 6 0xFF)); [done | done | done |].
  apply dhcp_packet_length; [apply dhcp_header_length |]. cbn. intros t len d Hin.
  repeat (destruct Hin as [[= <- <- <-]|Hin]; [lia |]). done.
Qed.

(** A message that passes the checks: the client with what it says, and its type. *)
Lemma process_message now c pk len h n xid yiaddr msg server mask gw lease :
  240 <= len -> server_message pk xid yiaddr (server_options msg server mask gw lease) ->
  word32 server -> word32 mask -> word32 gw -> word32 lease ->
  k_transaction_id (get_client h c) = xid -> (c < length (dhcp_clients h))%nat ->
  let k := k_set_lease lease (k_set_gateway gw (k_set_mask mask (k_set_server server (get_client h c)))) in
  let h' := upd_client (fun _ => k) c h in
  dhcp_client_process_packet now (Some c) (Some pk) len h n =
    match k_state k with
    | DHCP_STATE_SELECTING =>
        if msg =? DHCP_OFFER then
          let '(_, h', n) := dhcp_client_request (Some c) (upd_client (k_set_offered yiaddr) c h') n in (h', n)
        else (h', n)
    | DHCP_STATE_REQUESTING =>
        if msg =? DHCP_ACK then
          (upd_client (fun k => default_times (k_set_start now true (k_set_state DHCP_STATE_BOUND k))) c h', apply_lease k n)
        else if msg =? DHCP_NAK then
          (upd_client (fun k => k_set_server 0 (k_set_offered 0 (k_set_state DHCP_STATE_INIT k))) c h', n)
        else (h', n)
    | _ => (h', n)
    end.
Proof.
  intros Hlen (E1 & E2 & E3 & rest & E4) H1 H2 H3 H4 Hx Hc k h'. unfold dhcp_client_process_packet.
  destruct (Z.ltb_spec len 240); [lia |]. rewrite E1, E2, E3, E4, Hx.
  change (DHCP_MAGIC_COOKIE =? 0x63825363) with true. rewrite Z.eqb_refl. cbn [negb].
  destruct (server_options_valid msg server mask gw lease) as [Hv Hl].
  pose proof (parse_encoded _ rest 312 Hv [] (Z.to_nat 312) (get_client h c, 0)) as Hparse.
  cbn [app length] in Hparse. unfold dhcp_parse_options. change (Z.of_nat 0) with 0 in Hparse.
  rewrite Hparse by lia. rewrite learn_server by done. done.
Qed.


(** Leases are never given up.  When a bound client reaches its renewal time
    [dhcp_client_update] sends the REQUEST, but [dhcp_client_request] replaces
    the state RENEWING by REQUESTING, in which no later update does anything:
    without an answer to this one message the client never rebinds and never
    expires, and the interface keeps its address for ever. *)
Theorem dhcp_renewal_stuck now c h n p f :
  (c < length (dhcp_clients h))%nat -> k_iface (get_client h c) = Some p -> can_send (n_dev n) p f ->
  k_active (get_client h c) = true -> k_state (get_client h c) = DHCP_STATE_BOUND -> k_offered_ip (get_client h c) <> 0 ->
  k_renewal_time (get_client h c) <= u32 (now - k_lease_start_time (get_client h c)) ->
  let '(h', n') := dhcp_client_update now (Some c) h n in
  k_state (get_client h' c) = DHCP_STATE_REQUESTING /\
  n' = dhcp_sent p f (request_packet (k_transaction_id (get_client h c)) (mac_address (get_if (n_dev n) p))
         (k_offered_ip (get_client h c)) (k_server_ip (get_client h c))) n /\
  get_if (n_dev n') p = get_if (n_dev n) p /\
  (forall later, dhcp_client_update later (Some c) h' n' = (h', n')).
Proof.
  intros Hc Hp Hs Ha Hst Ho Ht. unfold dhcp_client_update at 1. rewrite Ha, Hst. cbn [negb].
  destruct (Z.leb_spec (k_renewal_time (get_client h c)) (u32 (now - k_lease_start_time (get_client h c)))); [|lia].
  set (hr := upd_client (k_set_state DHCP_STATE_RENEWING) c h).
  assert (Gr : get_client hr c = k_set_state DHCP_STATE_RENEWING (get_client h c)) by (unfold hr; by rewrite get_upd_client).
  rewrite (request_ok c hr n p f); [| by rewrite Gr | by rewrite Gr | done].
  assert (G' : get_client (upd_client (k_set_state DHCP_STATE_REQUESTING) c hr) c = k_set_state DHCP_STATE_REQUESTING (get_client h c)).
  { rewrite get_upd_client by (unfold hr; by rewrite length_upd_client). by rewrite Gr. }
  split; [by rewrite G' |]. split; [by rewrite Gr |]. split; [apply sent_get_if |].
  intros later. unfold dhcp_client_update. rewrite G'. cbn [k_set_state k_active k_state]. by rewrite Ha.
Qed.

End lease.

Definition demo_reply (xid yiaddr : Z) (l : list (Z * list Z)) : list Z :=
  [2; 1; 6; 0] ++ be32 xid ++ replicate 8 0 ++ be32 yiaddr ++ replicate 216 0 ++ be32 DHCP_MAGIC_COOKIE ++ encode l ++ [255].

Definition demo_dhcp : dhcp := (dhcp_client_init (Some 0%nat) dhcp0).2.
Definition demo_offer : list Z := demo_reply 2 0x0A00020F (server_options DHCP_OFFER 0x0A000202 0xFFFFFF00 0x0A000202 86400).
Definition demo_ack : list Z := demo_reply 2 0x0A00020F (server_options DHCP_ACK 0x0A000202 0xFFFFFF00 0x0A000202 86400).
Definition demo_client_net : net wire := Net wire (demo_host [2; 0; 0; 0; 0; 1] 0) arp_init.2 1.

Lemma demo_offer_ok : server_message demo_offer 2 0x0A00020F (server_options DHCP_OFFER 0x0A000202 0xFFFFFF00 0x0A000202 86400).
Proof.
  split; [vm_compute; reflexivity |]. split; [vm_compute; reflexivity |]. split; [vm_compute; reflexivity |].
  exists []. vm_compute. reflexivity.
Qed.
Lemma demo_ack_ok : server_message demo_ack 2 0x0A00020F (server_options DHCP_ACK 0x0A000202 0xFFFFFF00 0x0A000202 86400).
Proof.
  split; [vm_compute; reflexivity |]. split; [vm_compute; reflexivity |]. split; [vm_compute; reflexivity |].
  exists []. vm_compute. reflexivity.
Qed.


Lemma dhcp_renewal_stuck_witness :
  let h := upd_client (fun _ => Client (Some 0%nat) DHCP_STATE_BOUND 2 0x0A000202 0x0A00020F 0xFFFFFF00 0 0 100 50 87 0 true) 0 demo_dhcp in
  k_state (get_client (dhcp_client_update (NIC := wire_nic) 60 (Some 0%nat) h demo_client_net).1 0) = DHCP_STATE_REQUESTING.
Proof.
  intros h.
  pose proof (dhcp_renewal_stuck (NIC := wire_nic) 60 0 h demo_client_net 0 Ethernet ltac:(vm_compute; lia) eq_refl
    (conj eq_refl eq_refl) eq_refl eq_refl ltac:(vm_compute; discriminate) ltac:(vm_compute; discriminate)) as H.
  destruct (dhcp_client_update _ _ _ _). apply H.
Defined.
