(* ===== verification/Stack.v ===== *)
(** * Receiving: the network stack as a whole

    The input side of the stack, which calls every protocol: [udp_process_packet]
    ([udp.c]), [ip_process_packet] ([ip.c]), [ethernet_process_frame]
    ([ethernet.c]), [network_process_packets] and [network_init] ([network.c]),
    and [icmp_ping] ([icmp.c]), which polls it.  The state [stack] is that of all
    the protocols.  The calls of the callbacks a client registered are the events
    returned; the code of the callbacks is not part of the model.

    The frame buffer of [network_process_packets] is threaded through the calls:
    a protocol reads it to its end, past the frame received, and the ICMP code
    clears a field of it.  Time is the sequence [ticks] of values that
    [timer_get_ticks] returns; [k] is the position in it, which advances with
    every frame processed and every poll. *)

From S2P Require Import Prelude Checksum Netdev Ethernet Arp Ip Transport Icmp Udp Tcp Dhcp.

Record stack {nic : Type} := Stack {
  st_net : net nic;
  st_icmp : icmp;
  st_udp : udp;
  st_tcp : tcp;
  st_dhcp : dhcp
}.
Arguments stack : clear implicits.

Inductive stack_event :=
| udp_received (callback socket : nat) (data : list Z) (len src_ip src_port : Z)
| tcp_event (e : event).

Record ping_result := Ping {
  sent_count : Z;
  received_count : Z;
  min_time : Z;
  max_time : Z;
  total_time : Z
}.

Section stack.
Context {nic : Type} {NIC : Nic nic}.
Implicit Types (st : stack nic) (d : dev nic).

Definition set_net (n : net nic) st : stack nic := Stack nic n (st_icmp st) (st_udp st) (st_tcp st) (st_dhcp st).
Definition set_stack_dev (d : dev nic) st : stack nic :=
  set_net (Net nic d (n_arp (st_net st)) (ip_identification (st_net st))) st.

(** [udp_process_packet]; the data of an event is the buffer from the payload
    on, of which the callback is told that [len] bytes are the payload. *)
Definition udp_process_packet (now : Z) (p : option nat) (src_ip : Z) (packet : option (list Z)) st
    : stack nic * list stack_event :=
  match p, packet with
  | Some p, Some pk =>
      let src_port := bswap16 (get16 pk 0) in
      let dest_port := bswap16 (get16 pk 2) in
      let length := bswap16 (get16 pk 4) in
      if length <? UDP_HEADER_LEN then (st, [])
      else
        let payload_len := length - UDP_HEADER_LEN in
        if (dest_port =? 68) && (src_port =? 67) then
          match dhcp_get_client (Some p) (st_dhcp st) with
          | Some c =>
              let '(h, n) := dhcp_client_process_packet now (Some c) (Some (drop 8 pk)) payload_len (st_dhcp st) (st_net st) in
              (Stack nic n (st_icmp st) (st_udp st) (st_tcp st) h, [])
          | None => (st, [])
          end
        else
          match udp_find (udp_sockets (st_udp st)) 0 dest_port with
          | Some i =>
              match us_receive_callback (udp_sockets (st_udp st) !!! i) with
              | Some f => (st, [udp_received f i (drop 8 pk) payload_len src_ip src_port])
              | None => (st, [])
              end
          | None => (st, [])
          end
  | _, _ => (st, [])
  end.

(** The test on the destination address in [ip_process_packet]. *)
Definition ip_accepts (i : iface) (dest_ip : Z) : bool :=
  (dest_ip =? ip_address i) || (dest_ip =? 0xFFFFFFFF) || (ip_address i =? 0) ||
  (negb (subnet_mask i =? 0) && (Z.lor dest_ip (subnet_mask i) =? 0xFFFFFFFF)).

(** State, events, and the packet buffer after the call. *)
Definition ip_process_packet (now : Z) (p : option nat) (packet : option (list Z)) st
    : stack nic * list stack_event * option (list Z) :=
  match p, packet with
  | Some p, Some pk =>
      let version := Z.land (Z.shiftr (get8 pk 0) 4) 0x0F in
      if negb (version =? IP_VERSION_4) then (st, [], Some pk)
      else if negb (ip_validate_checksum pk) then (st, [], Some pk)
      else
        let src_ip := bswap32 (get32 pk 12) in
        let dest_ip := bswap32 (get32 pk 16) in
        if negb (ip_accepts (get_if (n_dev (st_net st)) p) dest_ip) then (st, [], Some pk)
        else if get8 pk 9 =? IP_PROTOCOL_ICMP then
          let '(s, n, pl) := icmp_process_packet now (Some p) src_ip (Some (drop 20 pk)) (st_icmp st) (st_net st) in
          (Stack nic n s (st_udp st) (st_tcp st) (st_dhcp st), [], Some (take 20 pk ++ default [] pl))
        else if get8 pk 9 =? IP_PROTOCOL_UDP then
          let '(st, ev) := udp_process_packet now (Some p) src_ip (Some (drop 20 pk)) st in (st, ev, Some pk)
        else if get8 pk 9 =? IP_PROTOCOL_TCP then
          let '(t, n, ev) := tcp_process_packet (Some p) src_ip dest_ip (Some (drop 20 pk)) (st_tcp st) (st_net st) in
          (Stack nic n (st_icmp st) (st_udp st) t (st_dhcp st), map tcp_event ev, Some pk)
        else
          (set_net (icmp_send_dest_unreachable (Some p) src_ip ICMP_PROTOCOL_UNREACHABLE (Some (take 28 pk)) (st_net st)).2 st,
           [], Some pk)
  | _, _ => (st, [], packet)
  end.

(** The ethertype is in host order here: [ethernet_receive_frame] swapped it. *)
Definition ethernet_process_frame (now : Z) (p : option nat) (frame : option (list Z)) st
    : stack nic * list stack_event * option (list Z) :=
  match p, frame with
  | Some p, Some fr =>
      let for_us := bool_decide (take ETH_ALEN fr = take ETH_ALEN (mac_address (get_if (n_dev (st_net st)) p))) in
      let broadcast := ethernet_is_broadcast (take ETH_ALEN fr) in
      if negb for_us && negb broadcast then (st, [], Some fr)
      else if get16 fr 12 =? ETH_TYPE_ARP then
        let '(t, d) := arp_process_packet now (Some p) (Some (drop 14 fr)) (n_arp (st_net st)) (n_dev (st_net st)) in
        (set_net (Net nic d t (ip_identification (st_net st))) st, [], Some fr)
      else if get16 fr 12 =? ETH_TYPE_IP then
        let '(st, ev, pk) := ip_process_packet now (Some p) (Some (drop 14 fr)) st in
        (st, ev, Some (take 14 fr ++ default [] pk))
      else (st, [], Some fr)
  | _, _ => (st, [], frame)
  end.

(** ** Polling *)

(** The state of [network_process_packets]: the stack, the events so far, the
    frame buffer and the position in time. *)
Record poll := Poll { pl_stack : stack nic; pl_events : list stack_event; pl_frame : list Z; pl_time : nat }.

(** [while (ethernet_receive_frame(iface, &frame) > 0) ethernet_process_frame(iface, &frame);]
    [None] when the fuel does not suffice. *)
Fixpoint receive_loop (fuel : nat) (ticks : nat -> Z) (p : nat) (s : poll) : option poll :=
  match fuel with
  | O => None
  | S fuel' =>
      let '(result, frame, d) := ethernet_receive_frame (Some p) (pl_frame s) (n_dev (st_net (pl_stack s))) in
      let st := set_stack_dev d (pl_stack s) in
      if result <=? 0 then Some (Poll st (pl_events s) frame (pl_time s))
      else
        let '(st, ev, frame) := ethernet_process_frame (ticks (pl_time s)) (Some p) (Some frame) st in
        receive_loop fuel' ticks p (Poll st (pl_events s ++ ev) (default [] frame) (S (pl_time s)))
  end.

(** The loop over the interfaces [i, i + 1, .. i + k - 1]. *)
Fixpoint interface_loop (fuel : nat) (ticks : nat -> Z) (k i : nat) (s : poll) : option poll :=
  match k with
  | O => Some s
  | S k' =>
      match default None (interfaces (n_dev (st_net (pl_stack s))) !! i) with
      | None => interface_loop fuel ticks k' (S i) s
      | Some p =>
          if negb (active (get_if (n_dev (st_net (pl_stack s))) p)) then interface_loop fuel ticks k' (S i) s
          else s ← receive_loop fuel ticks p s; interface_loop fuel ticks k' (S i) s
      end
  end.

(** The contents of the frame buffer at the start, not initialised by the code,
    are the argument [frame]. *)
Definition network_process_packets (fuel : nat) (ticks : nat -> Z) (frame : list Z) (k : nat) st : option poll :=
  interface_loop fuel ticks (Z.to_nat (interface_count (n_dev (st_net st)))) 0 (Poll st [] frame k).

(** ** Initialisation *)

Definition network_init (e1000_init_result : Z) (mac : list Z) st : Z * stack nic :=
  let d := n_dev (st_net st) in
  let d := Dev nic (nd_interfaces d) (nd_count d) (replicate 4 None) 0 (loopback_queue d) (card d) in
  let '(r, a) := arp_init in
  if negb (r =? NET_SUCCESS) then (NET_ERROR, set_net (Net nic d a (ip_identification (st_net st))) st) else
  let '(r, n) := ip_init (Net nic d a (ip_identification (st_net st))) in
  if negb (r =? NET_SUCCESS) then (NET_ERROR, set_net n st) else
  let '(r, u) := udp_init in
  let st := Stack nic n (st_icmp st) u (st_tcp st) (st_dhcp st) in
  if negb (r =? NET_SUCCESS) then (NET_ERROR, st) else
  let '(r, t) := tcp_init (st_tcp st) in
  let st := Stack nic n (st_icmp st) u t (st_dhcp st) in
  if negb (r =? NET_SUCCESS) then (NET_ERROR, st) else
  let '(r, s) := icmp_init (st_icmp st) in
  let st := Stack nic n s u t (st_dhcp st) in
  if negb (r =? NET_SUCCESS) then (NET_ERROR, st) else
  let '(r, d) := loopback_init (n_dev n) in
  let st := set_stack_dev d st in
  if negb (r =? NET_SUCCESS) then (NET_ERROR, st) else
  let '(_, d) := ethernet_init e1000_init_result mac d in
  (NET_SUCCESS, set_stack_dev d st).

(** ** Ping *)

(** [while (!ping_reply_received && timer_get_ticks() < timeout)
       network_process_packets();] *)
Fixpoint reply_loop (fuel : nat) (ticks : nat -> Z) (timeout : Z) (s : poll) : option poll :=
  match fuel with
  | O => None
  | S fuel' =>
      if ping_reply_received (st_icmp (pl_stack s)) then Some s
      else if negb (ticks (pl_time s) <? timeout) then Some (Poll (pl_stack s) (pl_events s) (pl_frame s) (S (pl_time s)))
      else
        s' ← network_process_packets fuel ticks (pl_frame s) (S (pl_time s)) (pl_stack s);
        reply_loop fuel' ticks timeout (Poll (pl_stack s') (pl_events s ++ pl_events s') (pl_frame s') (pl_time s'))
  end.

(** [while (timer_get_ticks() < delay_end) network_process_packets();] *)
Fixpoint delay_loop (fuel : nat) (ticks : nat -> Z) (delay_end : Z) (s : poll) : option poll :=
  match fuel with
  | O => None
  | S fuel' =>
      if negb (ticks (pl_time s) <? delay_end) then Some (Poll (pl_stack s) (pl_events s) (pl_frame s) (S (pl_time s)))
      else
        s' ← network_process_packets fuel ticks (pl_frame s) (S (pl_time s)) (pl_stack s);
        delay_loop fuel' ticks delay_end (Poll (pl_stack s') (pl_events s ++ pl_events s') (pl_frame s') (pl_time s'))
  end.

Definition set_icmp (s : icmp) st : stack nic := Stack nic (st_net st) s (st_udp st) (st_tcp st) (st_dhcp st).
Definition set_poll (f : stack nic -> stack nic) (s : poll) : poll :=
  Poll (f (pl_stack s)) (pl_events s) (pl_frame s) (pl_time s).
Definition tick (s : poll) : poll := Poll (pl_stack s) (pl_events s) (pl_frame s) (S (pl_time s)).

(** The statistics after a reply. *)
Definition count_reply (dest_ip : Z) (i : icmp) (r : ping_result) : ping_result :=
  if ping_reply_received i && (ping_reply_src_ip i =? dest_ip) then
    let rtt := u32 (ping_reply_time i - ping_send_time i) in
    Ping (sent_count r) (received_count r + 1)
      (if rtt <? min_time r then rtt else min_time r)
      (if max_time r <? rtt then rtt else max_time r)
      (u32 (total_time r + rtt))
  else r.

(** The body of the loop for request [i]; [last] is [i == count - 1]. *)
Definition ping_once (fuel : nat) (ticks : nat -> Z) (p : nat) (dest_ip identifier i : Z) (last : bool) (r : ping_result) (s : poll)
    : option (ping_result * poll) :=
  let now := ticks (pl_time s) in
  let s := tick (set_poll (fun st => let c := st_icmp st in
    set_icmp (Icmp false (ping_reply_src_ip c) (ping_reply_seq c) now (ping_reply_time c)) st) s) in
  let '(ret, n) := icmp_send_echo_request (Some p) dest_ip identifier (u16 i) None (st_net (pl_stack s)) in
  let s := set_poll (set_net n) s in
  if negb (ret =? NET_SUCCESS) then Some (r, s)
  else
    let r := Ping (sent_count r + 1) (received_count r) (min_time r) (max_time r) (total_time r) in
    s ← reply_loop fuel ticks (u64 (now + 1000)) s;
    let r := count_reply dest_ip (st_icmp (pl_stack s)) r in
    if last then Some (r, s)
    else
      let delay_end := u64 (ticks (pl_time s) + 500) in
      s ← delay_loop fuel ticks delay_end (tick s);
      Some (r, s).

Fixpoint ping_loop (n : nat) (fuel : nat) (ticks : nat -> Z) (p : nat) (dest_ip identifier i count : Z) (r : ping_result) (s : poll)
    : option (ping_result * poll) :=
  match n with
  | O => Some (r, s)
  | S n' =>
      '(r, s) ← ping_once fuel ticks p dest_ip identifier i (negb (i <? count - 1)) r s;
      ping_loop n' fuel ticks p dest_ip identifier (i + 1) count r s
  end.

(** [icmp_ping]: the result, the statistics when [result] is not NULL ([buf])
    and the state. *)
Definition icmp_ping (fuel : nat) (ticks : nat -> Z) (p : option nat) (dest_ip count : Z) (buf : bool) (s : poll)
    : option (Z * option ping_result * poll) :=
  match p with
  | Some p =>
      if negb buf then Some (NET_INVALID_PARAM, None, s)
      else
        let identifier := Z.land (ticks (pl_time s)) 0xFFFF in
        '(r, s) ← ping_loop (Z.to_nat count) fuel ticks p dest_ip identifier 0 count (Ping 0 0 0xFFFFFFFF 0 0) (tick s);
        Some (NET_SUCCESS, Some r, s)
  | None => Some (NET_INVALID_PARAM, None, s)
  end.

End stack.

(** ** Frames on the loopback interface *)

(** The buffer after [ethernet_receive_frame], which swaps the ethertype. *)
Definition eth_buffer (dm sm : list Z) (ethertype : Z) (rest : list Z) : list Z :=
  dm ++ sm ++ le_bytes 2 ethertype ++ rest.

Lemma swap_ethertype dm sm et pl rest :
  length dm = 6%nat -> length sm = 6%nat -> 0 <= et < 0x10000 ->
  let fr := eth_frame dm sm et pl ++ rest in
  put16 12 (bswap16 (get16 fr 12)) fr = eth_buffer dm sm et (pl ++ replicate (46 - length pl) 0 ++ rest).
Proof.
  intros Hd Hs He fr. subst fr. unfold eth_frame, eth_buffer. rewrite !(take_ge _ 6) by lia. rewrite <- !app_assoc.
  rewrite (app_assoc dm). rewrite get16_split by (rewrite ?length_app, ?length_be16; lia).
  rewrite le_val_be16 by done. unfold put16.
  rewrite put_split by (rewrite ?length_app, ?length_be16, ?length_le_bytes; lia). by rewrite <- app_assoc.
Qed.

Lemma eth_buffer_fields dm sm et rest :
  length dm = 6%nat -> length sm = 6%nat -> 0 <= et < 0x10000 ->
  take 6 (eth_buffer dm sm et rest) = dm /\ get16 (eth_buffer dm sm et rest) 12 = et /\
  drop 14 (eth_buffer dm sm et rest) = rest /\ take 14 (eth_buffer dm sm et rest) = dm ++ sm ++ le_bytes 2 et.
Proof.
  intros Hd Hs He. unfold eth_buffer. split_and!.
  - by apply take_app_length'.
  - rewrite (app_assoc dm). rewrite get16_split by (rewrite ?length_app, ?length_le_bytes; lia).
    by apply (le_val_le_bytes_small 2).
  - rewrite !app_assoc. apply drop_app_length'. rewrite !length_app, length_le_bytes. lia.
  - rewrite !app_assoc. apply take_app_length'. rewrite !length_app, length_le_bytes. lia.
Qed.

Lemma length_eth_frame dm sm et pl :
  length dm = 6%nat -> length sm = 6%nat -> length (eth_frame dm sm et pl) = Nat.max 60 (14 + length pl).
Proof.
  intros Hd Hs. unfold eth_frame. rewrite !length_app, !length_take, length_be16, length_replicate. lia.
Qed.

Section loopback.
Context {nic : Type} {NIC : Nic nic}.
Implicit Types (st : stack nic) (d : dev nic) (s : poll (nic := nic)).

(** Interface [p] is a loopback device. *)
Record lo_dev d (p : nat) : Prop := {
  ld_send : can_send d p Loopback;
  ld_receive : receive_packet (get_if d p) = Some Loopback;
  ld_queue : queue_ok (loopback_queue d)
}.

(** The frames waiting in it. *)
Definition queued d : list (list Z) := frames (loopback_queue d).
Definition pending st : list (list Z) := queued (n_dev (st_net st)).

(** A card that has nothing to deliver. *)
Definition quiet d : Prop := forall n, e1000_receive_packet (card d) n = (0, [], card d).

Lemma set_queue_ifs q d : same_ifs d (set_queue q d).
Proof. done. Qed.

Lemma lo_dev_set_queue q d p : queue_ok q -> lo_dev d p -> lo_dev (set_queue q d) p.
Proof. intros Hq [H1 H2 H3]. by split. Qed.

Lemma lo_dev_ifs d d' p : same_ifs d d' -> queue_ok (loopback_queue d') -> lo_dev d p -> lo_dev d' p.
Proof.
  intros E Hq [[H1 H2] H3 _]. split; [|by rewrite (same_ifs_get d d') |done]. unfold can_send. by rewrite (same_ifs_get d d').
Qed.

Lemma put_0 l buf : put 0 l buf = l ++ drop (length l) buf.
Proof. done. Qed.

(** Receiving on the loopback interface takes the oldest frame. *)
Lemma lo_receive d p f l frame :
  lo_dev d p -> queued d = f :: l -> (0 < length f <= 1514)%nat ->
  exists q, queue_ok q /\ frames q = l /\
    ethernet_receive_frame (Some p) frame d =
      let fr := f ++ drop (length f) frame in
      (Z.of_nat (length f), put16 12 (bswap16 (get16 fr 12)) fr, set_queue q d).
Proof.
  intros [[Ha _] Hr Hq] Hf Hl. unfold queued in Hf.
  destruct (loopback_receive_refines (loopback_queue d) ETH_FRAME_LEN Hq) as [Hq' E].
  rewrite Hf in E. unfold fifo_receive in E. rewrite decide_False in E by done. cbv iota in E.
  rewrite decide_True in E by (unfold ETH_FRAME_LEN; lia).
  unfold ethernet_receive_frame, network_receive_raw. change (ETH_FRAME_LEN =? 0) with false. rewrite Ha, Hr. cbn [orb negb call_receive].
  destruct (loopback_receive (loopback_queue d) ETH_FRAME_LEN) as [[r b] q]. cbn [fst snd] in *.
  injection E as <- <- E. exists q. split; [done |]. split; [done |]. rewrite put_0.
  destruct (Z.leb_spec (Z.of_nat (length f)) 0); [lia | done].
Qed.

(** With nothing in it, receiving does nothing. *)
Lemma lo_receive_empty d p frame :
  lo_dev d p -> queued d = [] -> ethernet_receive_frame (Some p) frame d = (0, frame, d).
Proof.
  intros [[Ha _] Hr Hq] Hf. unfold queued in Hf.
  assert (count (loopback_queue d) = 0) as E0.
  { pose proof (length_frames (loopback_queue d)) as E. rewrite Hf in E. cbn in E. pose proof (qo_count _ Hq). lia. }
  unfold ethernet_receive_frame, network_receive_raw. change (ETH_FRAME_LEN =? 0) with false. rewrite Ha, Hr. cbn [orb negb call_receive].
  unfold loopback_receive. change (ETH_FRAME_LEN =? 0) with false. rewrite E0. cbn. by destruct d.
Qed.

(** Sending appends to the queue. *)
Lemma lo_send d f :
  queue_ok (loopback_queue d) -> (0 < length f <= 1514)%nat -> (length (queued d) < 16)%nat ->
  exists q, queue_ok q /\ frames q = queued d ++ [f] /\ (call_send Loopback f d).2 = set_queue q d.
Proof.
  intros Hq Hl Hc. destruct (loopback_send_refines (loopback_queue d) (Some f) Hq) as [Hq' E].
  unfold queued in Hc. unfold fifo_send in E.
  rewrite decide_True in E by (unfold ETHERNET_FRAME_SIZE; lia). rewrite decide_True in E by done.
  unfold call_send. destruct (loopback_send (loopback_queue d) (Some f)) as [r q]. cbn [fst snd] in *.
  injection E as <- E. by exists q.
Qed.

(** An interface that is not a loopback device has nothing to deliver. *)
Lemma other_receive d q frame :
  quiet d -> receive_packet (get_if d q) <> Some Loopback ->
  exists r, r <= 0 /\ ethernet_receive_frame (Some q) frame d = (r, frame, d).
Proof.
  intros Hq Hr. unfold ethernet_receive_frame, network_receive_raw. change (ETH_FRAME_LEN =? 0) with false. cbn [orb].
  destruct (active (get_if d q)); cbn [negb]; [|by exists NET_INVALID_PARAM].
  destruct (receive_packet (get_if d q)) as [[| |]|]; [done | | | by exists NET_ERROR]; exists 0; (split; [done |]);
    cbn [call_receive]; unfold ethernet_receive; rewrite Hq; cbn; by destruct d.
Qed.

Lemma receive_loop_other fuel ticks q s :
  quiet (n_dev (st_net (pl_stack s))) -> receive_packet (get_if (n_dev (st_net (pl_stack s))) q) <> Some Loopback ->
  receive_loop (S fuel) ticks q s = Some s.
Proof.
  intros Hq Hr. cbn [receive_loop]. destruct (other_receive _ q (pl_frame s) Hq Hr) as (r & Hr0 & ->).
  destruct (Z.leb_spec r 0); [|lia]. by destruct s as [[[? ? ?] ? ? ? ?] ? ? ?].
Qed.

Lemma receive_loop_empty fuel ticks p s :
  lo_dev (n_dev (st_net (pl_stack s))) p -> pending (pl_stack s) = [] -> receive_loop (S fuel) ticks p s = Some s.
Proof.
  intros Hd Hp. cbn [receive_loop]. rewrite lo_receive_empty by done. cbn. by destruct s as [[[? ? ?] ? ? ? ?] ? ? ?].
Qed.

(** [p] is the loopback interface of the table, the others are not. *)
Record lo_table d (p : nat) (k i : nat) : Prop := {
  lt_in : exists a, (i <= a < i + k)%nat /\ interfaces d !! a = Some (Some p);
  lt_other : forall a q, interfaces d !! a = Some (Some q) -> q <> p -> receive_packet (get_if d q) <> Some Loopback
}.

Lemma interface_loop_idle fuel ticks k i s p :
  lo_dev (n_dev (st_net (pl_stack s))) p -> pending (pl_stack s) = [] -> quiet (n_dev (st_net (pl_stack s))) ->
  (forall a q, interfaces (n_dev (st_net (pl_stack s))) !! a = Some (Some q) -> q <> p ->
     receive_packet (get_if (n_dev (st_net (pl_stack s))) q) <> Some Loopback) ->
  interface_loop (S fuel) ticks k i s = Some s.
Proof.
  intros Hd Hp Hq Ho. revert i. induction k as [|k IH]; intros i; [done |]. cbn [interface_loop].
  destruct (interfaces (n_dev (st_net (pl_stack s))) !! i) as [[q|]|] eqn:E; cbn [default from_option id]; try apply IH.
  destruct (negb (active (get_if (n_dev (st_net (pl_stack s))) q))); [apply IH |].
  destruct (decide (q = p)) as [->|Hne].
  - rewrite receive_loop_empty by done. apply IH.
  - rewrite receive_loop_other by (done || by eapply Ho). apply IH.
Qed.

(** The table of interfaces, their receive functions and the card are the same. *)
Definition same_table d d' : Prop :=
  interfaces d' = interfaces d /\ interface_count d' = interface_count d /\ card d' = card d /\
  forall q, receive_packet (get_if d' q) = receive_packet (get_if d q).

Lemma same_table_trans d1 d2 d3 : same_table d1 d2 -> same_table d2 d3 -> same_table d1 d3.
Proof. intros (A1 & A2 & A3 & A4) (B1 & B2 & B3 & B4). split_and!; [congruence | congruence | congruence |]. intros q. by rewrite B4. Qed.

(** Polling is the loop on the loopback interface, when that empties it. *)
Lemma interface_loop_drains fuel ticks p s s' k i :
  lo_dev (n_dev (st_net (pl_stack s))) p -> quiet (n_dev (st_net (pl_stack s))) ->
  lo_table (n_dev (st_net (pl_stack s))) p k i ->
  receive_loop (S fuel) ticks p s = Some s' ->
  lo_dev (n_dev (st_net (pl_stack s'))) p -> pending (pl_stack s') = [] -> quiet (n_dev (st_net (pl_stack s'))) ->
  same_table (n_dev (st_net (pl_stack s))) (n_dev (st_net (pl_stack s'))) ->
  interface_loop (S fuel) ticks k i s = Some s'.
Proof.
  intros Hd Hq Ht Hr Hd' Hp' Hq' Hs'. revert i Ht. induction k as [|k IH]; intros i [(a & Ha & Hia) Ho]; [lia |].
  cbn [interface_loop].
  assert (Hrest : i <> a -> lo_table (n_dev (st_net (pl_stack s))) p k (S i)) by (intros Hne; split; [exists a; split; [lia | done] | done]).
  assert (Hidle : interface_loop (S fuel) ticks k (S i) s' = Some s').
  { apply (interface_loop_idle _ _ _ _ _ p); try done. intros b q Hb Hne.
    destruct Hs' as (Ei & _ & _ & Er). rewrite Er. rewrite Ei in Hb. by eapply Ho. }
  destruct (interfaces (n_dev (st_net (pl_stack s))) !! i) as [[q|]|] eqn:E; cbn [default from_option id].
  2, 3: apply IH, Hrest; intros ->; congruence.
  destruct (decide (q = p)) as [->|Hne].
  - destruct (ld_send _ _ Hd) as [-> _]. cbn [negb]. rewrite Hr. exact Hidle.
  - assert (i <> a) as Hia' by (intros ->; congruence).
    destruct (negb (active (get_if (n_dev (st_net (pl_stack s))) q))); [by apply IH, Hrest |].
    rewrite receive_loop_other by (done || by eapply Ho). by apply IH, Hrest.
Qed.

(** One turn of the loop, on an Ethernet frame. *)
Lemma receive_loop_step fuel ticks p s dm sm et pl l :
  lo_dev (n_dev (st_net (pl_stack s))) p -> pending (pl_stack s) = eth_frame dm sm et pl :: l ->
  length dm = 6%nat -> length sm = 6%nat -> 0 <= et < 0x10000 -> (length pl <= 1500)%nat ->
  exists q rest, queue_ok q /\ frames q = l /\
    receive_loop (S fuel) ticks p s =
      let '(st, ev, frame) := ethernet_process_frame (ticks (pl_time s)) (Some p) (Some (eth_buffer dm sm et (pl ++ rest)))
                                (set_stack_dev (set_queue q (n_dev (st_net (pl_stack s)))) (pl_stack s)) in
      receive_loop fuel ticks p (Poll st (pl_events s ++ ev) (default [] frame) (S (pl_time s))).
Proof.
  intros Hd Hp Hdm Hsm Het Hpl. cbn [receive_loop]. unfold pending in Hp.
  pose proof (length_eth_frame dm sm et pl Hdm Hsm) as Hlf.
  destruct (lo_receive _ p _ l (pl_frame s) Hd Hp ltac:(lia)) as (q & Hq & Hfr & ->). cbv zeta.
  rewrite swap_ethertype by done.
  exists q, (replicate (46 - length pl) 0 ++ drop (length (eth_frame dm sm et pl)) (pl_frame s)). split; [done |]. split; [done |].
  destruct (Z.leb_spec (Z.of_nat (length (eth_frame dm sm et pl))) 0); [lia | done].
Qed.

End loopback.

(** ** Delivery *)

Section delivery.
Context {nic : Type} {NIC : Nic nic}.
Implicit Types (st : stack nic) (d : dev nic) (n : net nic).

Lemma process_for_us dm mac :
  length dm = 6%nat -> length mac = 6%nat -> dm = mac \/ dm = broadcast_mac ->
  negb (bool_decide (dm = take 6 mac)) && negb (ethernet_is_broadcast dm) = false.
Proof.
  intros Hd Hm H. unfold ethernet_is_broadcast, ETH_ALEN. rewrite !take_ge by lia.
  destruct H as [-> | ->]; [by rewrite bool_decide_true |]. rewrite (bool_decide_true (broadcast_mac = broadcast_mac)) by done.
  by rewrite andb_false_r.
Qed.

Lemma process_ip_frame now p dm sm mac rest st :
  mac_address (get_if (n_dev (st_net st)) p) = mac -> length mac = 6%nat -> length dm = 6%nat -> length sm = 6%nat ->
  dm = mac \/ dm = broadcast_mac ->
  ethernet_process_frame now (Some p) (Some (eth_buffer dm sm ETH_TYPE_IP rest)) st =
    let '(st, ev, pk) := ip_process_packet now (Some p) (Some rest) st in
    (st, ev, Some ((dm ++ sm ++ le_bytes 2 ETH_TYPE_IP) ++ default [] pk)).
Proof.
  intros Em Hm Hd Hs Hu. destruct (eth_buffer_fields dm sm ETH_TYPE_IP rest Hd Hs ltac:(done)) as (E1 & E2 & E3 & E4).
  unfold ethernet_process_frame, ETH_ALEN. rewrite E1, E2, E3, E4, Em.
  rewrite (process_for_us dm mac) by done. done.
Qed.

Lemma process_arp_frame now p dm sm mac rest st :
  mac_address (get_if (n_dev (st_net st)) p) = mac -> length mac = 6%nat -> length dm = 6%nat -> length sm = 6%nat ->
  dm = mac \/ dm = broadcast_mac ->
  ethernet_process_frame now (Some p) (Some (eth_buffer dm sm ETH_TYPE_ARP rest)) st =
    let '(t, d) := arp_process_packet now (Some p) (Some rest) (n_arp (st_net st)) (n_dev (st_net st)) in
    (set_net (Net nic d t (ip_identification (st_net st))) st, [], Some (eth_buffer dm sm ETH_TYPE_ARP rest)).
Proof.
  intros Em Hm Hd Hs Hu. destruct (eth_buffer_fields dm sm ETH_TYPE_ARP rest Hd Hs ltac:(done)) as (E1 & E2 & E3 & E4).
  unfold ethernet_process_frame, ETH_ALEN. rewrite E1, E2, E3, Em.
  rewrite (process_for_us dm mac) by done. done.
Qed.

(** A UDP datagram in an IP packet for the address of the interface reaches
    the socket bound to its port. *)
Lemma process_udp now p id src sp dp data rest st j cb :
  let ip := ip_address (get_if (n_dev (st_net st)) p) in
  0 <= src < 0x100000000 -> 0 <= ip < 0x100000000 -> 0 <= sp < 0x10000 -> 0 <= dp < 0x10000 -> ~ (dp = 68 /\ sp = 67) ->
  Z.of_nat (length data) <= UDP_MAX_PAYLOAD ->
  udp_find (udp_sockets (st_udp st)) 0 dp = Some j -> us_receive_callback (udp_sockets (st_udp st) !!! j) = Some cb ->
  let pk := ip_header id (Z.of_nat (length (udp_datagram src ip sp dp data))) IP_PROTOCOL_UDP src ip ++
            udp_datagram src ip sp dp data ++ rest in
  ip_process_packet now (Some p) (Some pk) st =
    (st, [udp_received cb j (drop 8 (udp_datagram src ip sp dp data ++ rest)) (Z.of_nat (length data)) src sp], Some pk).
Proof.
  intros ip Hsrc Hip Hsp Hdp Hport Hl Hj Hcb pk. unfold ip_process_packet. subst pk.
  destruct (ip_header_fields id (Z.of_nat (length (udp_datagram src ip sp dp data))) IP_PROTOCOL_UDP src ip
    (udp_datagram src ip sp dp data ++ rest) Hsrc Hip) as (F1 & F2 & F3 & F4 & F5 & F6).
  rewrite F1, F2, F3, F4, F5, F6. rewrite Z.eqb_refl. cbn [negb].
  assert (ip_accepts (get_if (n_dev (st_net st)) p) ip = true) as -> by (unfold ip_accepts; subst ip; by rewrite Z.eqb_refl).
  cbn [negb]. change (IP_PROTOCOL_UDP =? IP_PROTOCOL_ICMP) with false. change (IP_PROTOCOL_UDP =? IP_PROTOCOL_UDP) with true. cbv iota.
  unfold udp_process_packet.
  destruct (udp_datagram_fields src ip sp dp data rest Hsp Hdp Hl) as (G1 & G2 & G3 & G4).
  rewrite G1, G2, G3. cbv zeta. destruct (Z.ltb_spec (UDP_HEADER_LEN + Z.of_nat (length data)) UDP_HEADER_LEN); [lia |].
  destruct ((dp =? 68) && (sp =? 67)) eqn:E; [exfalso; zbool; lia |]. rewrite Hj, Hcb.
  by replace (UDP_HEADER_LEN + Z.of_nat (length data) - UDP_HEADER_LEN) with (Z.of_nat (length data)) by lia.
Qed.

(** A stack at rest, with a loopback interface. *)
Record lo_ready st (p : nat) (mac : list Z) (ip : Z) : Prop := {
  lr_dev : lo_dev (n_dev (st_net st)) p;
  lr_host : host (n_dev (st_net st)) p Loopback mac ip;
  lr_table : lo_table (n_dev (st_net st)) p (Z.to_nat (interface_count (n_dev (st_net st)))) 0;
  lr_quiet : quiet (n_dev (st_net st));
  lr_pending : pending st = [];
  lr_route : network_find_route ip (n_dev (st_net st)) = Some p;
  lr_ip : ip <> 0 /\ ip <> 0xFFFFFFFF;
  lr_arp : arp_ok (n_arp (st_net st))
}.

(** The MAC addresses of the interface and of the cache have six bytes. *)
Record lo_net (p : nat) n : Prop := {
  ln_dev : lo_dev (n_dev n) p;
  ln_mac : length (mac_address (get_if (n_dev n) p)) = 6%nat;
  ln_arp : Forall (fun e => length (e_mac_address e) = 6%nat) (arp_table (n_arp n))
}.

Lemma route_same_ifs d d' ip : same_ifs d d' -> network_find_route ip d' = network_find_route ip d.
Proof.
  intros Hs. pose proof (same_ifs_get d d') as G. destruct Hs as (E1 & E2 & E3 & E4). unfold network_find_route. rewrite E4.
  rewrite (find_if_ext _ (fun f => Z.land (ip_address f) (subnet_mask f) =? Z.land ip (subnet_mask f)) _ _ _ d);
    [| done | intros q; by rewrite G | intros q; by rewrite G].
  by rewrite (find_if_ext (fun _ => true) (fun _ => true) _ _ _ d); [| done | intros q; by rewrite G |].
Qed.

(** Rest is kept when only the queue, the ARP cache and the counter change. *)
Lemma lo_ready_queue st p mac ip q t id :
  lo_ready st p mac ip -> queue_ok q -> frames q = [] -> arp_ok t ->
  lo_ready (set_net (Net nic (set_queue q (n_dev (st_net st))) t id) st) p mac ip.
Proof.
  intros [H1 H2 H3 H4 H5 H6 H7 H8] Hq Hf Ht.
  split; cbn [set_net st_net n_dev n_arp]; [by apply lo_dev_set_queue | exact H2 | | | | | | ].
  - destruct H3 as [Ha Ho]. by split.
  - exact H4.
  - exact Hf.
  - by rewrite <- H6; apply route_same_ifs.
  - exact H7.
  - exact Ht.
Qed.

Lemma poll_drains fuel ticks frame k st0 st p mac ip s' q0 t0 id0 q t id :
  lo_ready st p mac ip -> st0 = set_net (Net nic (set_queue q0 (n_dev (st_net st))) t0 id0) st -> queue_ok q0 ->
  receive_loop (S fuel) ticks p (Poll st0 [] frame k) = Some s' ->
  pl_stack s' = set_net (Net nic (set_queue q (n_dev (st_net st))) t id) st -> queue_ok q -> frames q = [] -> arp_ok t ->
  network_process_packets (S fuel) ticks frame k st0 = Some s'.
Proof.
  intros H -> Hq0 Hr Es Hq Hf Ht. pose proof (lo_ready_queue st p mac ip q t id H Hq Hf Ht) as H'.
  destruct H as [H1 H2 H3 H4 H5 H6 H7 H8]. unfold network_process_packets.
  apply (interface_loop_drains fuel ticks p); cbn [pl_stack]; rewrite ?Es;
    [by apply lo_dev_set_queue | exact H4 | | exact Hr | apply H' | apply H' | exact H4 | done].
  destruct H3 as [Ha Ho]. by split.
Qed.

End delivery.

Section end_to_end.
Context {nic : Type} {NIC : Nic nic}.
Implicit Types (st : stack nic) (d : dev nic) (n : net nic).

Lemma udp_sendto_eq i data ip dp st p mac :
  lo_ready st p mac ip -> us_bound (udp_sockets (st_udp st) !!! i) = true -> dp <> 0 -> (0 < length data)%nat ->
  udp_sendto (Some i) (Some data) ip dp (st_udp st) (st_net st) =
    udp_send_packet (Some p) ip (us_local_port (udp_sockets (st_udp st) !!! i)) dp (Some data) (st_net st).
Proof.
  intros H Hb Hd Hl. unfold udp_sendto. destruct (lr_ip _ _ _ _ H) as [Hip _].
  destruct (Z.eqb_spec (Z.of_nat (length data)) 0); [lia |]. destruct (Z.eqb_spec ip 0); [done |].
  destruct (Z.eqb_spec dp 0); [done |]. rewrite Hb. cbn [orb negb]. by rewrite (lr_route _ _ _ _ H).
Qed.

(** A frame for the interface itself, through its queue. *)
Lemma sent_lo st p mac ip f :
  lo_ready st p mac ip -> (0 < length f <= 1514)%nat ->
  exists q, queue_ok q /\ frames q = [f] /\
    sent Loopback f (st_net st) = Net nic (set_queue q (n_dev (st_net st))) (n_arp (st_net st)) (u16 (ip_identification (st_net st) + 1)).
Proof.
  intros H Hl. pose proof (lr_pending _ _ _ _ H) as Hp. unfold pending in Hp.
  destruct (lo_send (n_dev (st_net st)) f) as (q & Hq & Hf & E); [apply (lr_dev _ _ _ _ H) | done | rewrite Hp; cbn; lia |].
  exists q. split; [done |]. rewrite Hp in Hf. split; [done |]. unfold sent. by rewrite E.
Qed.

(** The datagram sent to the interface's own address when it is resolved. *)
Lemma udp_sent_lo i data dp st p mac ip :
  lo_ready st p mac ip -> us_bound (udp_sockets (st_udp st) !!! i) = true -> dp <> 0 ->
  0 < Z.of_nat (length data) <= UDP_MAX_PAYLOAD -> arp_lookup (n_arp (st_net st)) ip true = Some mac ->
  let dg := udp_datagram ip ip (us_local_port (udp_sockets (st_udp st) !!! i)) dp data in
  exists q, queue_ok q /\
    frames q = [eth_frame mac mac ETH_TYPE_IP (ip_header (ip_identification (st_net st)) (Z.of_nat (length dg)) IP_PROTOCOL_UDP ip ip ++ dg)] /\
    udp_sendto (Some i) (Some data) ip dp (st_udp st) (st_net st) =
      (NET_SUCCESS, Net nic (set_queue q (n_dev (st_net st))) (n_arp (st_net st)) (u16 (ip_identification (st_net st) + 1))).
Proof.
  intros H Hb Hd Hl Ha dg. rewrite (udp_sendto_eq i data ip dp st p mac) by (done || lia).
  destruct (lr_host _ _ _ _ H) as (Hs & Em & Hm & Ei & Hi).
  assert (Er : resolve (st_net st) ip = Some mac).
  { unfold resolve. destruct (Z.eqb_spec ip 0xFFFFFFFF); [by destruct (lr_ip _ _ _ _ H) | done]. }
  rewrite (udp_send_packet_ok p Loopback mac) by done.
  unfold ip_frame. rewrite Ei, Em. fold dg. destruct (sent_lo st p mac ip (eth_frame mac mac ETH_TYPE_IP
    (ip_header (ip_identification (st_net st)) (Z.of_nat (length dg)) IP_PROTOCOL_UDP ip ip ++ dg)) H) as (q & Hq & Hf & E).
  { rewrite length_eth_frame by done. rewrite length_app, length_ip_header. subst dg. rewrite length_udp_datagram.
    unfold UDP_MAX_PAYLOAD, IP_PACKET_SIZE, IP_HEADER_LEN, UDP_HEADER_LEN in Hl. lia. }
  exists q. split; [done |]. split; [done |]. by rewrite E.
Qed.

(** A round of polling that delivers it. *)
Lemma poll_delivers fuel ticks frame k st p mac ip sp dp data q id0 id j cb :
  let dg := udp_datagram ip ip sp dp data in
  lo_ready st p mac ip -> queue_ok q ->
  frames q = [eth_frame mac mac ETH_TYPE_IP (ip_header id0 (Z.of_nat (length dg)) IP_PROTOCOL_UDP ip ip ++ dg)] ->
  0 <= sp < 0x10000 -> 0 <= dp < 0x10000 -> ~ (dp = 68 /\ sp = 67) -> Z.of_nat (length data) <= UDP_MAX_PAYLOAD ->
  udp_find (udp_sockets (st_udp st)) 0 dp = Some j -> us_receive_callback (udp_sockets (st_udp st) !!! j) = Some cb ->
  exists st2 buf frame',
    network_process_packets (S (S fuel)) ticks frame k
      (set_net (Net nic (set_queue q (n_dev (st_net st))) (n_arp (st_net st)) id) st) =
      Some (Poll st2 [udp_received cb j buf (Z.of_nat (length data)) ip sp] frame' (S k)) /\
    take (length data) buf = data /\
    lo_ready st2 p mac ip /\ exists q', st2 = set_net (Net nic (set_queue q' (n_dev (st_net st))) (n_arp (st_net st)) id) st.
Proof.
  intros dg H Hq Hf Hsp Hdp Hport Hl Hj Hcb. set (st0 := set_net _ st).
  destruct (lr_host _ _ _ _ H) as (Hs & Em & Hm & Ei & Hi).
  assert (Hlen : (length (ip_header id0 (Z.of_nat (length dg)) IP_PROTOCOL_UDP ip ip ++ dg) <= 1500)%nat).
  { rewrite length_app, length_ip_header. subst dg. rewrite length_udp_datagram.
    unfold UDP_MAX_PAYLOAD, IP_PACKET_SIZE, IP_HEADER_LEN, UDP_HEADER_LEN in Hl. lia. }
  destruct (receive_loop_step (S fuel) ticks p (Poll st0 [] frame k) mac mac ETH_TYPE_IP
    (ip_header id0 (Z.of_nat (length dg)) IP_PROTOCOL_UDP ip ip ++ dg) []) as (q' & rest & Hq' & Hf' & E); try done.
  { cbn. apply lo_dev_set_queue; [done | apply H]. }
  set (st2 := set_stack_dev (set_queue q' (n_dev (st_net (pl_stack (Poll st0 [] frame k))))) (pl_stack (Poll st0 [] frame k))) in E.
  cbn [pl_time pl_events] in E. cbn in Hi.
  rewrite (process_ip_frame (ticks k) p mac mac mac) in E by (done || by left).
  rewrite <- app_assoc in E.
  assert (Ei2 : ip_address (get_if (n_dev (st_net st2)) p) = ip) by done.
  pose proof (process_udp (ticks k) p id0 ip sp dp data rest st2 j cb) as P. cbv zeta in P. rewrite Ei2 in P. fold dg in P.
  specialize (P Hi Hi Hsp Hdp Hport Hl Hj Hcb). rewrite P in E. clear P.
  assert (E2 : st2 = set_net (Net nic (set_queue q' (n_dev (st_net st))) (n_arp (st_net st)) id) st) by done.
  clearbody st2. eexists st2, _, _. split; [|split; [|split; [|by exists q']]].
  - eapply (poll_drains (S fuel) ticks frame k st0 st p mac ip _ q _ id q' _ id); try done; [| by apply H ].
    rewrite E. apply (receive_loop_empty fuel ticks p); cbn [pl_stack]; rewrite E2; [apply lo_dev_set_queue; [done | apply H] | exact Hf'].
  - destruct (udp_datagram_fields ip ip sp dp data rest Hsp Hdp Hl) as (_ & _ & _ & G). exact G.
  - rewrite E2. apply lo_ready_queue; [done | done | done | apply H].
Qed.
End end_to_end.

Section resolution.
Context {nic : Type} {NIC : Nic nic}.
Implicit Types (st : stack nic) (d : dev nic) (n : net nic).

(** Processing an ARP packet of the interface itself. *)
Lemma process_own_arp now p op tm mac ip rest t d :
  mac_address (get_if d p) = mac -> ip_address (get_if d p) = ip -> length mac = 6%nat -> length tm = 6%nat ->
  0 <= op < 0x10000 -> 0 <= ip < 0x100000000 ->
  arp_process_packet now (Some p) (Some (arp_packet op mac ip tm ip ++ rest)) t d =
    (arp_update_entry now t ip (Some mac),
     if op =? ARP_REQUEST then (arp_send_reply (Some p) ip (Some mac) d).2 else d).
Proof.
  intros Em Ei Hm Htm Hop Hip. destruct (arp_packet_fields op mac ip tm ip rest) as (F1 & F2 & F3 & F4); try done.
  unfold arp_process_packet. rewrite F1, F2, F3, F4, Ei, Z.eqb_refl. cbn [andb]. by destruct (op =? ARP_REQUEST).
Qed.

(** One turn of the loop on an ARP packet of the interface itself. *)
Lemma receive_own_arp fuel ticks p mac ip dm op tm st0 frame k st q id t :
  lo_ready st p mac ip -> st0 = set_net (Net nic (set_queue q (n_dev (st_net st))) t id) st ->
  queue_ok q -> frames q = [eth_frame dm mac ETH_TYPE_ARP (arp_packet op mac ip tm ip)] ->
  length dm = 6%nat -> dm = mac \/ dm = broadcast_mac -> length tm = 6%nat -> 0 <= op < 0x10000 ->
  exists q' frame', queue_ok q' /\
    frames q' = (if op =? ARP_REQUEST then [eth_frame mac mac ETH_TYPE_ARP (arp_packet ARP_REPLY mac ip mac ip)] else []) /\
    receive_loop (S fuel) ticks p (Poll st0 [] frame k) =
      receive_loop fuel ticks p
        (Poll (set_net (Net nic (set_queue q' (n_dev (st_net st))) (arp_update_entry (ticks k) t ip (Some mac)) id) st) [] frame' (S k)).
Proof.
  intros H -> Hq Hf Hdm Hu Htm Hop. destruct (lr_host _ _ _ _ H) as (Hs & Em & Hm & Ei & Hi).
  set (st0 := set_net _ st). assert (Hl : length (arp_packet op mac ip tm ip) = 28%nat) by (by apply length_arp_packet).
  assert (Hl2 : length (arp_packet ARP_REPLY mac ip mac ip) = 28%nat) by (by apply length_arp_packet).
  destruct (receive_loop_step fuel ticks p (Poll st0 [] frame k) dm mac ETH_TYPE_ARP (arp_packet op mac ip tm ip) [])
    as (q1 & rest & Hq1 & Hf1 & E); try done; [| lia |].
  { cbn. apply lo_dev_set_queue; [done | apply H]. }
  rewrite (process_arp_frame _ p dm mac mac) in E by done.
  cbn [pl_stack pl_time pl_events] in E. rewrite (process_own_arp (ticks k) p op tm mac ip) in E by done.
  destruct (op =? ARP_REQUEST).
  - set (d1 := n_dev (st_net (set_stack_dev (set_queue q1 (n_dev (st_net st0))) st0))) in E.
    assert (Hs1 : can_send d1 p Loopback) by exact Hs.
    unfold arp_send_reply in E. rewrite (ethernet_send_frame_ok d1 p Loopback) in E; [| exact Hs1 |].
    2: { replace (mac_address (get_if d1 p)) with mac by done. replace (ip_address (get_if d1 p)) with ip by done. lia. }
    replace (mac_address (get_if d1 p)) with mac in E by done. replace (ip_address (get_if d1 p)) with ip in E by done.
    destruct (lo_send d1 (eth_frame mac mac ETH_TYPE_ARP (arp_packet ARP_REPLY mac ip mac ip))) as (q2 & Hq2 & Hf2 & E2);
      [exact Hq1 | rewrite length_eth_frame by done; lia | unfold queued, d1; cbn; rewrite Hf1; cbn; lia |].
    cbn [snd] in E. rewrite E2 in E. unfold queued in Hf2. change (loopback_queue d1) with q1 in Hf2. rewrite Hf1 in Hf2.
    eexists q2, _. split; [done |]. split; [done |]. exact E.
  - eexists q1, _. split; [done |]. split; [done |]. exact E.
Qed.

(** Sending to the interface's own address when it is not resolved yet: the
    datagram is lost, and the polling that follows resolves the address. *)
Lemma loopback_resolves fuel ticks frame k st p mac ip i data dp :
  lo_ready st p mac ip -> us_bound (udp_sockets (st_udp st) !!! i) = true -> dp <> 0 ->
  0 < Z.of_nat (length data) <= UDP_MAX_PAYLOAD -> arp_lookup (n_arp (st_net st)) ip true = None ->
  has_room (ticks k) (n_arp (st_net st)) ip ->
  exists n1 st2 frame',
    udp_sendto (Some i) (Some data) ip dp (st_udp st) (st_net st) = (NET_TIMEOUT, n1) /\
    network_process_packets (S (S (S fuel))) ticks frame k (set_net n1 st) = Some (Poll st2 [] frame' (S (S k))) /\
    lo_ready st2 p mac ip /\ arp_lookup (n_arp (st_net st2)) ip true = Some mac /\ st_udp st2 = st_udp st.
Proof.
  intros H Hb Hd Hl Ha Hroom. destruct (lr_host _ _ _ _ H) as (Hs & Em & Hm & Ei & Hi).
  assert (Er : resolve (st_net st) ip = None).
  { unfold resolve. destruct (Z.eqb_spec ip 0xFFFFFFFF); [by destruct (lr_ip _ _ _ _ H) | done]. }
  set (n := st_net st) in *. set (d := n_dev n) in *. set (id := u16 (ip_identification n + 1)).
  set (request := eth_frame broadcast_mac mac ETH_TYPE_ARP (arp_packet ARP_REQUEST mac ip (replicate 6 0) ip)).
  assert (Hlr : length (arp_packet ARP_REQUEST mac ip (replicate 6 0) ip) = 28%nat) by (by apply length_arp_packet).
  destruct (lo_send d request) as (q & Hq & Hf & Eq);
    [apply (lr_dev _ _ _ _ H) | unfold request; rewrite length_eth_frame by done; lia
    | pose proof (lr_pending _ _ _ _ H) as Hp; unfold pending in Hp; fold n d in Hp; rewrite Hp; cbn; lia |].
  pose proof (lr_pending _ _ _ _ H) as Hp. unfold pending in Hp. fold n d in Hp. rewrite Hp in Hf. cbn [app] in Hf.
  assert (Esend : udp_sendto (Some i) (Some data) ip dp (st_udp st) n = (NET_TIMEOUT, Net nic (set_queue q d) (n_arp n) id)).
  { unfold n. rewrite (udp_sendto_eq i data ip dp st p mac) by (done || lia). fold n. unfold udp_send_packet.
    destruct (Z.eqb_spec (Z.of_nat (length data)) 0); [lia |].
    destruct (Z.ltb_spec UDP_MAX_PAYLOAD (Z.of_nat (length data))); [lia |].
    rewrite ip_send_unresolved; [| rewrite length_udp_datagram; unfold UDP_MAX_PAYLOAD, IP_PACKET_SIZE, IP_HEADER_LEN, UDP_HEADER_LEN in Hl; lia | done].
    unfold arp_send_request. fold d. rewrite Em, Ei.
    rewrite (ethernet_send_frame_ok d p Loopback) by (done || lia). rewrite Em. fold request. cbn [snd]. by rewrite Eq. }
  set (t := n_arp n) in *. set (t1 := arp_update_entry (ticks k) t ip (Some mac)). set (t2 := arp_update_entry (ticks (S k)) t1 ip (Some mac)).
  assert (Hok : arp_ok t) by apply H.
  assert (Hok1 : arp_ok t1) by (by apply arp_update_ok). assert (Hok2 : arp_ok t2) by (by apply arp_update_ok).
  assert (Hr1 : arp_lookup t1 ip true = Some mac) by (by apply arp_update_resolves).
  assert (Hr2 : arp_lookup t2 ip true = Some mac) by (apply arp_update_resolves; [done | left; by exists mac | done]).
  set (st1 := set_net (Net nic (set_queue q d) t id) st).
  destruct (receive_own_arp (S (S fuel)) ticks p mac ip broadcast_mac ARP_REQUEST (replicate 6 0) st1 frame k st q id t H) as
    (q2 & frame2 & Hq2 & Hf2 & E2); try done; [by right |].
  destruct (receive_own_arp (S fuel) ticks p mac ip mac ARP_REPLY mac (set_net (Net nic (set_queue q2 d) t1 id) st) frame2 (S k) st q2 id t1 H) as
    (q3 & frame3 & Hq3 & Hf3 & E3); try done; [by left |].
  change (ARP_REPLY =? ARP_REQUEST) with false in Hf3. cbv iota in Hf3.
  eexists _, (set_net (Net nic (set_queue q3 d) t2 id) st), frame3. split; [exact Esend |].
  assert (Hrdy : lo_ready (set_net (Net nic (set_queue q3 d) t2 id) st) p mac ip) by (by apply lo_ready_queue).
  split; [|by split].
  eapply (poll_drains (S (S fuel)) ticks frame k st1 st p mac ip _ q t id q3 t2 id); try done.
  etransitivity; [exact E2 |]. etransitivity; [exact E3 |].
  apply (receive_loop_empty fuel ticks p); apply Hrdy.
Qed.

(** C13. Delivery through the whole stack.  Take a stack at rest whose loopback
    interface has address [ip], a bound socket [i] and a socket [j] bound to the
    port [dp] with a callback.  When the ARP cache resolves [ip], sending 1 to
    1472 bytes from [i] to [ip] and [dp] and polling once calls the callback of
    [j], and nothing else, with exactly the bytes sent and the address and port
    of the sender, and leaves the stack at rest.  When it does not, the first
    datagram is lost - the send returns [NET_TIMEOUT] - but polling then runs
    the ARP exchange of the host with itself and leaves a stack at rest that
    resolves [ip], where the first case applies. *)
Theorem udp_loopback_delivery fuel ticks frame k st p mac ip i j cb sp dp data :
  lo_ready st p mac ip ->
  us_bound (udp_sockets (st_udp st) !!! i) = true -> us_local_port (udp_sockets (st_udp st) !!! i) = sp ->
  udp_find (udp_sockets (st_udp st)) 0 dp = Some j -> us_receive_callback (udp_sockets (st_udp st) !!! j) = Some cb ->
  0 <= sp < 0x10000 -> 0 < dp < 0x10000 -> ~ (dp = 68 /\ sp = 67) -> 0 < Z.of_nat (length data) <= UDP_MAX_PAYLOAD ->
  has_room (ticks k) (n_arp (st_net st)) ip -> (3 <= fuel)%nat ->
  match arp_lookup (n_arp (st_net st)) ip true with
  | Some m =>
      m = mac ->
      exists n1 st2 buf frame',
        udp_sendto (Some i) (Some data) ip dp (st_udp st) (st_net st) = (NET_SUCCESS, n1) /\
        network_process_packets fuel ticks frame k (set_net n1 st) =
          Some (Poll st2 [udp_received cb j buf (Z.of_nat (length data)) ip sp] frame' (S k)) /\
        take (length data) buf = data /\ lo_ready st2 p mac ip
  | None =>
      exists n1 st2 frame',
        udp_sendto (Some i) (Some data) ip dp (st_udp st) (st_net st) = (NET_TIMEOUT, n1) /\
        network_process_packets fuel ticks frame k (set_net n1 st) = Some (Poll st2 [] frame' (S (S k))) /\
        lo_ready st2 p mac ip /\ arp_lookup (n_arp (st_net st2)) ip true = Some mac /\ st_udp st2 = st_udp st
  end.
Proof.
  intros H Hb Esp Hj Hcb Hsp Hdp Hport Hl Hroom Hfuel.
  destruct fuel as [|[|[|fuel]]]; try lia. destruct (arp_lookup (n_arp (st_net st)) ip true) as [m|] eqn:Ea.
  - intros ->. destruct (udp_sent_lo i data dp st p mac ip) as (q & Hq & Hf & E); try done; [lia |].
    rewrite Esp in Hf. edestruct (poll_delivers (S fuel) ticks frame k st p mac ip sp dp data q) as (st2 & buf & frame' & E1 & E2 & E3 & _);
      [exact H | exact Hq | exact Hf | done | lia | done | lia | exact Hj | exact Hcb |].
    eexists _, st2, buf, frame'. split; [exact E |]. split; [exact E1 |]. by split.
  - by apply loopback_resolves; [| | lia | | |].
Qed.

End resolution.

(** ** Initialisation *)

Section boot.
Context {nic : Type} {NIC : Nic nic}.

(** The static variables at boot, with a card in state [c]. *)
Definition stack0 (c : nic) : stack nic :=
  Stack nic (Net nic (dev0 c) arp_init.2 0) (Icmp false 0 0 0 0) (Udp (replicate 64 udp_socket0) 0) tcp0 dhcp0.

Definition lo_iface : iface :=
  Iface [0; 0; 0; 0; 0; 1] 0x7F000001 0xFF000000 0x7F000001 true (loopback_name ++ replicate 14 0) (Some Loopback) (Some Loopback).
Definition eth_iface (found : bool) (mac : list Z) : iface :=
  Iface (if found then take 6 mac else [0x02; 0; 0; 0x12; 0x34; 0x56]) 0 0 0 true (ethernet_name ++ replicate 12 0)
    (Some (if found then E1000 else Ethernet)) (Some (if found then E1000 else Ethernet)).

Definition booted_dev (c : nic) (found : bool) (mac : list Z) : dev nic :=
  Dev nic [lo_iface; eth_iface found mac; inhabitant; inhabitant] 2 [Some 0%nat; Some 1%nat; None; None] 2 loopback_queue0 c.

Lemma network_init_eq (c : nic) r mac :
  network_init r mac (stack0 c) =
    (NET_SUCCESS, Stack nic (Net nic (booted_dev c (r =? 0) mac) arp_init.2 1) (Icmp false 0 0 0 0) udp_init.2 (tcp_init tcp0).2 dhcp0).
Proof.
  unfold network_init, ethernet_init. destruct (r =? 0); reflexivity.
Qed.

Lemma booted_ready (c : nic) found mac t id i u tc dh :
  quiet (dev0 c) -> arp_ok t ->
  lo_ready (Stack nic (Net nic (booted_dev c found mac) t id) i u tc dh) 0 [0; 0; 0; 0; 0; 1] 0x7F000001.
Proof.
  intros Hq Ht. split; cbn [st_net n_dev n_arp]; [split; [by split | done | apply loopback_queue0_ok] | | | exact Hq | done | done | done | exact Ht].
  - by repeat (split; try done).
  - split; [exists 0%nat; split; [cbn; lia | done] |].
    intros [|[|[|[|a]]]] q Ha Hne; cbn in Ha; simplify_eq; try done. cbn. by destruct found.
Qed.

Lemma booted_lo_net (c : nic) found mac id : lo_net 0 (Net nic (booted_dev c found mac) arp_init.2 id).
Proof. split; [split; [by split | done | apply loopback_queue0_ok] | done |]. apply Forall_replicate. done. Qed.

(** Boot.  [network_init] on the initial static variables succeeds whether
    or not the card is found, registers [lo] and [eth0] in this order, and leaves
    the stack at rest on [lo] with address 127.0.0.1 - the state from which the
    properties of this file start -, with no socket and no connection.  A packet
    for 127.x.x.x goes to [lo]; before an address is configured any other is
    sent on [eth0], whose empty mask makes every address local. *)
Theorem network_init_spec (c : nic) r mac ip :
  quiet (dev0 c) -> 0 <= ip < 0x100000000 ->
  exists st, network_init r mac (stack0 c) = (NET_SUCCESS, st) /\
  lo_ready st 0 [0; 0; 0; 0; 0; 1] 0x7F000001 /\ lo_net 0 (st_net st) /\
  (forall i, network_get_interface (n_dev (st_net st)) i = if i =? 0 then Some 0%nat else if i =? 1 then Some 1%nat else None) /\
  mac_address (get_if (n_dev (st_net st)) 1) = (if r =? 0 then take 6 mac else [0x02; 0; 0; 0x12; 0x34; 0x56]) /\
  network_find_route ip (n_dev (st_net st)) = Some (if Z.shiftr ip 24 =? 127 then 0%nat else 1%nat) /\
  udp_ok (st_udp st) /\ socket_count (st_udp st) = 0 /\ tcp_ok (st_tcp st) /\ connection_count (st_tcp st) = 0.
Proof.
  intros Hq Hip. eexists. split; [apply network_init_eq |].
  cbn [st_net n_dev st_udp st_tcp].
  assert (Hroute : forall ip, network_find_route ip (booted_dev c (r =? 0) mac) =
    Some (if Z.land 0x7F000001 0xFF000000 =? Z.land ip 0xFF000000 then 0%nat else 1%nat)).
  { intros ip'. unfold network_find_route, booted_dev. cbn -[Z.land Z.eqb Z.to_nat]. change (Z.to_nat 2) with 2%nat.
    cbn -[Z.land Z.eqb]. destruct (Z.land 0x7F000001 0xFF000000 =? Z.land ip' 0xFF000000); [done |]. by rewrite !Z.land_0_r. }
  split_and!.
  - apply booted_ready; [done | apply arp_init_ok].
  - apply booted_lo_net.
  - intros i. unfold network_get_interface. cbn [interface_count interfaces booted_dev].
    destruct (Z.eqb_spec i 0) as [->|]; [done |]. destruct (Z.eqb_spec i 1) as [->|]; [done |].
    destruct (Z.ltb_spec i 0); [done |]. destruct (Z.leb_spec 2 i); [done | lia].
  - done.
  - rewrite Hroute. do 2 f_equal.
    assert (E : Z.land ip 0xFF000000 = Z.shiftl (Z.shiftr ip 24) 24).
    { apply Z.bits_inj'. intros k Hk. rewrite Z.land_spec, Z.shiftl_spec by lia.
      change 0xFF000000 with (Z.shiftl (Z.ones 8) 24). rewrite Z.shiftl_spec by lia.
      destruct (Z.ltb_spec k 24).
      - rewrite !(Z.testbit_neg_r _ (k - 24)) by lia. apply andb_false_r.
      - rewrite Z.shiftr_spec by lia. replace (k - 24 + 24) with k by lia.
        destruct (Z.ltb_spec k 32).
        + rewrite Z.ones_spec_low by lia. apply andb_true_r.
        + rewrite Z.ones_spec_high by lia. rewrite andb_false_r. symmetry.
          rewrite <- (Z.mod_small ip (2 ^ 32)) by lia. apply Z.mod_pow2_bits_high. lia. }
    rewrite E. change (Z.land 0x7F000001 0xFF000000) with (Z.shiftl 127 24). rewrite !Z.shiftl_mul_pow2 by lia.
    destruct (Z.eqb_spec (Z.shiftr ip 24) 127) as [->|Hne]; [by rewrite Z.eqb_refl |].
    destruct (Z.eqb_spec (127 * 2 ^ 24) (Z.shiftr ip 24 * 2 ^ 24)); [lia | done].
  - apply udp_init_ok.
  - done.
  - apply tcp_init_ok.
  - done.
Qed.

End boot.

(** ** Witnesses: the booted stack with a card that receives nothing *)

Definition demo_stack (t : arp) (u : udp) : stack wire :=
  Stack wire (Net wire (booted_dev [] true [2; 0; 0; 0; 0; 1]) t 1) (Icmp false 0 0 0 0) u (tcp_init tcp0).2 dhcp0.

(** The loopback address is cached. *)
Definition demo_cache : arp := arp_update_entry 5 arp_init.2 0x7F000001 (Some [0; 0; 0; 0; 0; 1]).

(** Socket 0 on port 5000, socket 1 on port 7777 with callback 9. *)
Definition demo_sockets : udp :=
  Udp (UdpSocket 5000 0 0 true false None :: UdpSocket 7777 0 0 true false (Some 9%nat) :: replicate 62 udp_socket0) 2.

Lemma wire_quiet : quiet (NIC := wire_nic) (dev0 (nic := wire) []).
Proof. done. Qed.

Lemma demo_ready t u : arp_ok t -> lo_ready (NIC := wire_nic) (demo_stack t u) 0 [0; 0; 0; 0; 0; 1] 0x7F000001.
Proof. intros Ht. by apply booted_ready. Qed.

Lemma demo_cache_ok : arp_ok demo_cache.
Proof. apply arp_update_ok, arp_init_ok. Qed.

Lemma udp_loopback_delivery_witness :
  exists n1 st2 buf frame',
    udp_sendto (NIC := wire_nic) (Some 0%nat) (Some [104; 105]) 0x7F000001 7777 demo_sockets (st_net (demo_stack demo_cache demo_sockets)) = (NET_SUCCESS, n1) /\
    network_process_packets (NIC := wire_nic) 3 Z.of_nat [] 6 (set_net n1 (demo_stack demo_cache demo_sockets)) =
      Some (Poll st2 [udp_received 9 1 buf 2 0x7F000001 5000] frame' 7) /\ take 2 buf = [104; 105].
Proof.
  pose proof (udp_loopback_delivery (NIC := wire_nic) 3 Z.of_nat [] 6 (demo_stack demo_cache demo_sockets) 0 [0; 0; 0; 0; 0; 1] 0x7F000001
    0 1 9 5000 7777 [104; 105] (demo_ready _ _ demo_cache_ok) eq_refl eq_refl eq_refl eq_refl ltac:(lia) ltac:(lia) ltac:(lia)
    ltac:(vm_compute; split; [reflexivity | discriminate])) as H.
  assert (E : arp_lookup (n_arp (st_net (demo_stack demo_cache demo_sockets))) 0x7F000001 true = Some [0; 0; 0; 0; 0; 1])
    by (vm_compute; reflexivity).
  rewrite E in H. destruct (H (or_introl (ex_intro _ _ E)) ltac:(lia) eq_refl) as (n1 & st2 & buf & frame' & H1 & H2 & H3 & _).
  exists n1, st2, buf, frame'. split; [exact H1 |]. split; [exact H2 | exact H3].
Defined.

Lemma network_init_spec_witness :
  exists st, network_init (nic := wire) 0 [2; 0; 0; 0; 0; 1] (stack0 []) = (NET_SUCCESS, st) /\
    lo_ready (NIC := wire_nic) st 0 [0; 0; 0; 0; 0; 1] 0x7F000001.
Proof.
  destruct (network_init_spec (NIC := wire_nic) [] 0 [2; 0; 0; 0; 0; 1] 0x0A000202 wire_quiet ltac:(lia)) as (st & H1 & H2 & _).
  exists st. split; [exact H1 | exact H2].
Defined.
