(* ===== verification/Polling.v ===== *)
(** * Polling: termination, the reset storm, ping

    Properties of [network_process_packets] and [icmp_ping] (file Stack) on the
    loopback interface: what a received frame makes the stack send, so that
    polling terminates; the exchange of TCP resets, where it does not; and the
    requests and answers of [icmp_ping]. *)

From S2P Require Import Prelude Checksum Netdev Ethernet Arp Ip Transport Icmp Udp Tcp Dhcp Stack.

(** ** Termination of the polling loop *)

Lemma get8_drop a l o : get8 (drop a l) o = get8 l (a + o).
Proof. unfold get8. by rewrite lookup_drop. Qed.
Lemma get16_drop_plus a l o : get16 (drop a l) o = get16 l (a + o).
Proof. unfold get16. by rewrite drop_drop. Qed.
Lemma get8_app_l l l' o : (o < length l)%nat -> get8 (l ++ l') o = get8 l o.
Proof. intros H. unfold get8. by rewrite lookup_app_l. Qed.
Lemma get16_app_l l l' o : (o + 2 <= length l)%nat -> get16 (l ++ l') o = get16 l o.
Proof. intros H. unfold get16. rewrite drop_app_le by lia. by rewrite take_app_le by (rewrite length_drop; lia). Qed.
Lemma getn_length n l o : (o + n <= length l)%nat -> length (getn n l o) = n.
Proof. intros H. unfold getn. rewrite length_take, length_drop. lia. Qed.

(** How many frames a frame received on the loopback interface can give rise
    to, itself included: an ARP request is answered by an ARP reply; an echo
    request, a DHCP offer and a packet of an unknown protocol are answered by a
    message or, when its destination is not resolved, by an ARP request. *)
Definition weight (f : list Z) : nat :=
  let et := bswap16 (get16 f 12) in
  if et =? ETH_TYPE_ARP then (if bswap16 (get16 f 20) =? ARP_REQUEST then 2%nat else 1%nat)
  else if et =? ETH_TYPE_IP then
    let protocol := get8 f 23 in
    if protocol =? IP_PROTOCOL_ICMP then (if get8 f 34 =? ICMP_ECHO_REQUEST then 3%nat else 1%nat)
    else if protocol =? IP_PROTOCOL_UDP then
      (if (bswap16 (get16 f 36) =? 68) && (bswap16 (get16 f 34) =? 67) then 3%nat else 1%nat)
    else 3%nat
  else 1%nat.

Definition is_tcp (f : list Z) : bool := (bswap16 (get16 f 12) =? ETH_TYPE_IP) && (get8 f 23 =? IP_PROTOCOL_TCP).

(** A frame of the size the Ethernet layer sends, without a TCP segment. *)
Definition tame (f : list Z) : Prop := (60 <= length f <= 1514)%nat /\ is_tcp f = false.

Definition total_weight (l : list (list Z)) : nat := foldr (fun f n => weight f + n)%nat 0%nat l.

Lemma total_weight_app l f : total_weight (l ++ [f]) = (total_weight l + weight f)%nat.
Proof. induction l as [|g l IH]; cbn [app total_weight foldr]; [lia |]. fold (total_weight (l ++ [f])) (total_weight l). lia. Qed.

Lemma weight_bounds f : (1 <= weight f <= 3)%nat.
Proof. unfold weight. repeat case_match; lia. Qed.

Lemma total_weight_le l : (total_weight l <= 3 * length l)%nat.
Proof.
  induction l as [|f l IH]; cbn [total_weight foldr length]; [lia |]. fold (total_weight l). pose proof (weight_bounds f). lia.
Qed.

Lemma eth_frame_type dm sm et pl :
  length dm = 6%nat -> length sm = 6%nat -> 0 <= et < 0x10000 -> bswap16 (get16 (eth_frame dm sm et pl) 12) = et.
Proof.
  intros Hd Hs He. unfold eth_frame. rewrite !(take_ge _ 6) by lia. rewrite (app_assoc dm).
  rewrite get16_split by (rewrite ?length_app, ?length_be16; lia). by apply le_val_be16.
Qed.

(** The weight of an IP frame, from the protocol and the payload. *)
Lemma ip_frame_fields dm sm id len protocol src dest pl :
  length dm = 6%nat -> length sm = 6%nat ->
  let f := eth_frame dm sm ETH_TYPE_IP (ip_header id len protocol src dest ++ pl) in
  bswap16 (get16 f 12) = ETH_TYPE_IP /\ get8 f 23 = protocol /\ exists rest, drop 34 f = pl ++ rest.
Proof.
  intros Hd Hs f. subst f. split; [by apply eth_frame_type |].
  pose proof (drop_eth_frame dm sm ETH_TYPE_IP (ip_header id len protocol src dest ++ pl) Hd Hs) as E.
  split.
  - change 23%nat with (14 + 9)%nat. rewrite <- get8_drop, E, get8_app_l, get8_app_l by (rewrite ?length_app, length_ip_header; lia).
    rewrite ip_header_eq. unfold ip_head1. rewrite <- !app_assoc. rewrite !get8_skip by (lens; lia). by lens.
  - change 34%nat with (14 + 20)%nat. rewrite <- drop_drop, E, <- app_assoc.
    rewrite drop_app_ge by (rewrite length_ip_header; lia). rewrite length_ip_header. by eexists.
Qed.

Lemma weight_icmp dm sm id len src dest type code rest data :
  length dm = 6%nat -> length sm = 6%nat -> type <> ICMP_ECHO_REQUEST ->
  let f := eth_frame dm sm ETH_TYPE_IP (ip_header id len IP_PROTOCOL_ICMP src dest ++ icmp_packet type code rest data) in
  weight f = 1%nat /\ is_tcp f = false.
Proof.
  intros Hd Hs Ht f. destruct (ip_frame_fields dm sm id len IP_PROTOCOL_ICMP src dest (icmp_packet type code rest data) Hd Hs)
    as (E1 & E2 & r & E3). fold f in E1, E2, E3. unfold weight, is_tcp. rewrite E1, E2.
  change 34%nat with (34 + 0)%nat. rewrite <- get8_drop, E3. rewrite icmp_packet_eq. cbn.
  destruct (Z.eqb_spec type ICMP_ECHO_REQUEST); done.
Qed.

Lemma weight_udp dm sm id len src' src dest sp dp data :
  length dm = 6%nat -> length sm = 6%nat -> 0 <= sp < 0x10000 -> 0 <= dp < 0x10000 -> sp <> 67 -> Z.of_nat (length data) <= UDP_MAX_PAYLOAD ->
  let f := eth_frame dm sm ETH_TYPE_IP (ip_header id len IP_PROTOCOL_UDP src' dest ++ udp_datagram src dest sp dp data) in
  weight f = 1%nat /\ is_tcp f = false.
Proof.
  intros Hd Hs Hsp Hdp Hne Hl f. destruct (ip_frame_fields dm sm id len IP_PROTOCOL_UDP src' dest (udp_datagram src dest sp dp data) Hd Hs)
    as (E1 & E2 & r & E3). fold f in E1, E2, E3. unfold weight, is_tcp. rewrite E1, E2.
  change (get16 f 34) with (get16 f (34 + 0)). change (get16 f 36) with (get16 f (34 + 2)). rewrite <- !get16_drop_plus, E3.
  destruct (udp_datagram_fields src dest sp dp data r Hsp Hdp Hl) as (-> & -> & _).
  destruct (Z.eqb_spec sp 67); [done |]. rewrite andb_false_r. done.
Qed.

Lemma weight_arp dm sm op sm' sip tm tip :
  length dm = 6%nat -> length sm = 6%nat -> length sm' = 6%nat -> length tm = 6%nat -> 0 <= op < 0x10000 ->
  let f := eth_frame dm sm ETH_TYPE_ARP (arp_packet op sm' sip tm tip) in
  weight f = (if op =? ARP_REQUEST then 2%nat else 1%nat) /\ is_tcp f = false.
Proof.
  intros Hd Hs Hs' Ht Hop f. unfold weight, is_tcp.
  assert (E1 : bswap16 (get16 f 12) = ETH_TYPE_ARP) by (by apply eth_frame_type). rewrite E1.
  change 20%nat with (14 + 6)%nat. rewrite <- get16_drop_plus. unfold f. rewrite drop_eth_frame by done.
  unfold arp_packet. rewrite <- !app_assoc.
  assert (forall r, bswap16 (get16 (be16 ARP_HARDWARE_ETHERNET ++ be16 ARP_PROTOCOL_IP ++ [6; 4] ++ be16 op ++ r) 6) = op) as ->;
    [|done]. intros r. rdfield. by apply le_val_be16.
Qed.

Section effects.
Context {nic : Type} {NIC : Nic nic}.
Implicit Types (st : stack nic) (d : dev nic) (n : net nic).

(** From [n] to [n'] at most one frame is queued, of weight at most [w]. *)
Definition emits (w p : nat) n n' : Prop :=
  lo_net p n' /\ same_table (n_dev n) (n_dev n') /\
  (queued (n_dev n') = queued (n_dev n) \/
   exists g, tame g /\ (weight g <= w)%nat /\ queued (n_dev n') = queued (n_dev n) ++ [g]).

Lemma emits_refl w p n : lo_net p n -> emits w p n n.
Proof. intros H. split; [done |]. split; [done | by left]. Qed.

Lemma emits_mono w w' p n n' : (w <= w')%nat -> emits w p n n' -> emits w' p n n'.
Proof. intros Hw (H & Hs & [E|(g & Hg & Hwg & E)]); (split; [done |]); (split; [done |]); [by left | right; exists g; split_and!; [done | lia | done]]. Qed.

Lemma eth_emits w p n dm et pl t id :
  lo_net p n -> length dm = 6%nat -> Forall (fun e => length (e_mac_address e) = 6%nat) (arp_table t) ->
  (forall f, f = eth_frame dm (mac_address (get_if (n_dev n) p)) et pl -> (weight f <= w)%nat /\ is_tcp f = false) ->
  emits w p n (Net nic (ethernet_send_frame (Some p) (Some dm) et (Some pl) (n_dev n)).2 t id).
Proof.
  intros [Hd Hm Ha] Hdm Ht Hf.
  assert (Hnone : emits w p n (Net nic (n_dev n) t id)) by (split; [by split |]; split; [done | by left]).
  destruct (decide (0 < Z.of_nat (length pl) <= 1500)) as [Hl|Hl].
  2: { unfold ethernet_send_frame. cbv zeta. destruct (Z.eqb_spec (Z.of_nat (length pl)) 0); [apply Hnone |].
       unfold ETH_FRAME_LEN, ETH_HLEN. destruct (Z.ltb_spec (1514 - 14) (Z.of_nat (length pl))); [apply Hnone | lia]. }
  rewrite (ethernet_send_frame_ok (n_dev n) p Loopback) by (done || apply Hd).
  set (f := eth_frame _ _ _ _). destruct (Hf f eq_refl) as [Hw Htcp]. clear Hf.
  assert (Hlf : (60 <= length f <= 1514)%nat) by (subst f; rewrite length_eth_frame by done; lia). cbn [snd].
  destruct (decide (length (queued (n_dev n)) < 16)%nat) as [Hq|Hq].
  - destruct (lo_send (n_dev n) f) as (q & Hq' & Hfr & E); [apply Hd | lia | done |]. rewrite E. split; [split | split; [done |]].
    + by apply lo_dev_set_queue.
    + exact Hm.
    + exact Ht.
    + right. exists f. split_and!; [by split | done | done].
  - destruct (loopback_send_refines (loopback_queue (n_dev n)) (Some f) (ld_queue _ _ Hd)) as [Hq' E].
    unfold queued in Hq. unfold fifo_send in E. rewrite decide_True in E by (unfold ETHERNET_FRAME_SIZE; lia).
    rewrite decide_False in E by done. unfold call_send.
    destruct (loopback_send (loopback_queue (n_dev n)) (Some f)) as [r q]. cbn [fst snd] in *. injection E as <- E.
    split; [split; [by apply lo_dev_set_queue | exact Hm | exact Ht] |]. split; [done |]. left. symmetry. exact E.
Qed.

Lemma arp_find_mac l ip i :
  Forall (fun e => length (e_mac_address e) = 6%nat) l -> arp_find l 0 ip = Some i -> length (e_mac_address (l !!! i)) = 6%nat.
Proof.
  intros H E. pose proof (arp_find_spec l 0 ip) as Hs. rewrite E in Hs. destruct Hs as (j & e & -> & Hj & _).
  rewrite Nat.add_0_l. rewrite (list_lookup_total_correct _ _ _ Hj). by apply (Forall_lookup_1 _ _ _ _ H Hj).
Qed.

Lemma ip_emits w p n dest protocol pl :
  lo_net p n -> (2 <= w)%nat ->
  (forall dm sm id src f, length dm = 6%nat -> length sm = 6%nat ->
     f = eth_frame dm sm ETH_TYPE_IP (ip_header id (Z.of_nat (length pl)) protocol src dest ++ pl) ->
     (weight f <= w)%nat /\ is_tcp f = false) ->
  emits w p n (ip_send_packet (Some p) dest protocol (Some pl) n).2.
Proof.
  intros H Hw Hf. unfold ip_send_packet. cbv zeta. destruct (Z.of_nat (length pl) =? 0); [by apply emits_refl |].
  destruct (IP_PACKET_SIZE - IP_HEADER_LEN <? Z.of_nat (length pl)); [by apply emits_refl |].
  set (packet := ip_header _ _ _ _ _ ++ pl).
  assert (Hfr : forall dm, length dm = 6%nat -> emits w p n
    (Net nic (ethernet_send_frame (Some p) (Some dm) ETH_TYPE_IP (Some packet) (n_dev n)).2 (n_arp n) (u16 (ip_identification n + 1)))).
  { intros dm Hdm. apply eth_emits; [done | done | apply H |]. intros f ->. eapply Hf; [exact Hdm | apply H | done]. }
  destruct (dest =? 0xFFFFFFFF).
  - specialize (Hfr (replicate 6 0xFF) eq_refl).
    destruct (ethernet_send_frame (Some p) (Some (replicate 6 0xFF)) ETH_TYPE_IP (Some packet) (n_dev n)). exact Hfr.
  - unfold arp_lookup. cbn [negb]. destruct (arp_find (arp_table (n_arp n)) 0 dest) as [i|] eqn:E.
    + specialize (Hfr _ (arp_find_mac _ _ _ (ln_arp _ _ H) E)).
      destruct (ethernet_send_frame (Some p) (Some (e_mac_address (arp_table (n_arp n) !!! i))) ETH_TYPE_IP (Some packet) (n_dev n)). exact Hfr.
    + unfold arp_send_request. apply eth_emits; [done | done | apply H |]. intros f ->.
      destruct (weight_arp broadcast_mac (mac_address (get_if (n_dev n) p)) ARP_REQUEST (mac_address (get_if (n_dev n) p))
        (ip_address (get_if (n_dev n) p)) (replicate 6 0) dest) as [E1 E2]; try done; [apply H | apply H |].
      split; [|exact E2]. etransitivity; [|exact Hw]. apply Nat.eq_le_incl. exact E1.
Qed.

Lemma icmp_emits p n dest type code rest data :
  lo_net p n -> type <> ICMP_ECHO_REQUEST ->
  emits 2 p n (ip_send_packet (Some p) dest IP_PROTOCOL_ICMP (Some (icmp_packet type code rest data)) n).2.
Proof.
  intros H Ht. apply ip_emits; [done | done |]. intros dm sm id src f Hd Hs ->.
  destruct (weight_icmp dm sm id (Z.of_nat (length (icmp_packet type code rest data))) src dest type code rest data Hd Hs Ht) as [E1 E2].
  cbv zeta in *. split; [lia | done].
Qed.

Lemma udp_emits p n dest sp dp data :
  lo_net p n -> 0 <= sp < 0x10000 -> 0 <= dp < 0x10000 -> sp <> 67 ->
  emits 2 p n (udp_send_packet (Some p) dest sp dp (Some data) n).2.
Proof.
  intros H Hsp Hdp Hne. unfold udp_send_packet. destruct (Z.of_nat (length data) =? 0); [by apply emits_refl |].
  destruct (Z.ltb_spec UDP_MAX_PAYLOAD (Z.of_nat (length data))); [by apply emits_refl |].
  set (src := ip_address _). apply ip_emits; [done | done |]. intros dm sm id src' f Hd Hs ->.
  destruct (weight_udp dm sm id (Z.of_nat (length (udp_datagram src dest sp dp data))) src' src dest sp dp data) as [E1 E2]; try done.
  cbv zeta in *. split; [lia | done].
Qed.

Lemma arp_add_macs now t ip m :
  Forall (fun e => length (e_mac_address e) = 6%nat) (arp_table t) -> length m = 6%nat ->
  Forall (fun e => length (e_mac_address e) = 6%nat) (arp_table (arp_update_entry now t ip (Some m))).
Proof.
  intros H Hm. assert (Ht : length (take 6 m) = 6%nat) by (rewrite length_take; lia).
  unfold arp_update_entry. destruct (arp_find (arp_table t) 0 ip) as [i|]; cbn [arp_table].
  - apply Forall_alter; [done |]. intros e _ _. exact Ht.
  - cbn [arp_add_entry]. destruct (_ =? -1); [done |]. cbn [snd arp_table]. by apply Forall_insert.
Qed.

Lemma arp_emits now p h n w :
  lo_net p n -> (30 <= length h)%nat -> (if bswap16 (get16 h 6) =? ARP_REQUEST then 1%nat else 0%nat) = w ->
  let '(t, d) := arp_process_packet now (Some p) (Some h) (n_arp n) (n_dev n) in
  emits w p n (Net nic d t (ip_identification n)).
Proof.
  intros H Hl Hw. unfold arp_process_packet.
  assert (Hm : length (getn 6 h 8) = 6%nat) by (apply getn_length; lia).
  pose proof (arp_add_macs now (n_arp n) (bswap32 (get32 h 14)) (getn 6 h 8) (ln_arp _ _ H) Hm) as Ht.
  destruct ((bswap32 (get32 h 24) =? ip_address (get_if (n_dev n) p)) && (bswap16 (get16 h 6) =? ARP_REQUEST)) eqn:E.
  - apply andb_true_iff in E as [_ E]. rewrite E in Hw. subst w. unfold arp_send_reply.
    apply eth_emits; [done | done | exact Ht |]. intros f ->.
    destruct (weight_arp (getn 6 h 8) (mac_address (get_if (n_dev n) p)) ARP_REPLY (mac_address (get_if (n_dev n) p))
      (ip_address (get_if (n_dev n) p)) (getn 6 h 8) (bswap32 (get32 h 14))) as [E1 E2]; try done; [apply H | apply H |].
    cbv zeta in *. split; [|exact E2]. by rewrite E1.
  - split; [destruct H; by split |]. split; [done | by left].
Qed.

Lemma icmp_process_emits now p src pk s n :
  lo_net p n ->
  emits (if get8 pk 0 =? ICMP_ECHO_REQUEST then 2%nat else 0%nat) p n (icmp_process_packet now (Some p) src (Some pk) s n).1.2.
Proof.
  intros H. unfold icmp_process_packet. cbv zeta.
  assert (E : get8 (put16 2 0 pk) 0 = get8 pk 0 \/ pk = []).
  { destruct pk as [|b pk]; [by right | left]. done. }
  destruct (negb _); [by apply emits_refl |].
  destruct E as [-> | ->]; [|by apply emits_refl].
  destruct (get8 pk 0 =? ICMP_ECHO_REQUEST) eqn:E1.
  - cbn [fst snd]. unfold icmp_send_echo_reply. by apply icmp_emits.
  - destruct (get8 (put16 2 0 pk) 0 =? ICMP_ECHO_REPLY), (get8 pk 0 =? ICMP_ECHO_REPLY); by apply emits_refl.
Qed.

Lemma parse_iface fuel options len i r : k_iface (parse_loop fuel options len i r).1 = k_iface r.1.
Proof.
  revert i r. induction fuel as [|f IH]; intros i r; [done |]. cbn [parse_loop]. cbv zeta.
  repeat (case_match; [by rewrite ?IH |]). rewrite IH. unfold parse_option. destruct r as [k m]. by repeat case_match.
Qed.

Lemma get_client_spec p h c : dhcp_get_client p h = Some c -> k_iface (get_client h c) = p.
Proof.
  assert (G : forall l i, get_client_loop l i p = Some c -> exists j k, c = (i + j)%nat /\ l !! j = Some k /\ k_iface k = p).
  { induction l as [|k l IH]; intros i; cbn [get_client_loop]; [done |].
    destruct (bool_decide (k_iface k = p)) eqn:E.
    - intros [= <-]. exists 0%nat, k. split_and!; [lia | done | by apply bool_decide_eq_true_1 in E].
    - intros (j & k' & -> & Hj & Hk)%IH. exists (S j), k'. split_and!; [lia | done | done]. }
  unfold dhcp_get_client. intros (j & k & -> & Hj & <-)%G. rewrite Nat.add_0_l. unfold get_client.
  apply lookup_take_Some in Hj as [Hj _]. by rewrite (list_lookup_total_correct _ _ _ Hj).
Qed.

Lemma upd_client_iface f c h p :
  (forall k, k_iface (f k) = k_iface k \/ k_iface (f k) = p) -> k_iface (get_client h c) = p -> k_iface (get_client (upd_client f c h) c) = p.
Proof.
  intros Hf Hc. unfold get_client, upd_client in *. cbn [dhcp_clients]. rewrite list_lookup_total_alt in *.
  rewrite list_lookup_alter_eq. destruct (dhcp_clients h !! c) as [k|]; cbn in *; [|done].
  destruct (Hf k) as [-> | ->]; done.
Qed.

Lemma lease_lo_net p k n : lo_net p n -> lo_net p (apply_lease k n) /\ same_table (n_dev n) (n_dev (apply_lease k n)).
Proof.
  intros H. unfold apply_lease. destruct (k_iface k) as [q|]; [|done].
  set (g := set_addresses _ _ _).
  assert (G : forall p, mac_address (get_if (upd_if g q (n_dev n)) p) = mac_address (get_if (n_dev n) p) /\
              active (get_if (upd_if g q (n_dev n)) p) = active (get_if (n_dev n) p) /\
              send_packet (get_if (upd_if g q (n_dev n)) p) = send_packet (get_if (n_dev n) p) /\
              receive_packet (get_if (upd_if g q (n_dev n)) p) = receive_packet (get_if (n_dev n) p)).
  { clear H p. intros p. unfold get_if, upd_if. cbn [nd_interfaces]. rewrite !list_lookup_total_alt. destruct (decide (q = p)) as [->|Hne].
    - rewrite list_lookup_alter_eq. by destruct (nd_interfaces (n_dev n) !! p).
    - by rewrite list_lookup_alter_ne. }
  split; [|split_and!; try done; intros x; apply (G x)].
  destruct (G p) as (G1 & G2 & G3 & G4). destruct H as [[[H1 H2] H3 H4] H5 H6].
  split; [split; [split |  |] |  |]; cbn [set_dev n_dev n_arp]; rewrite ?G1, ?G2, ?G3, ?G4; done.
Qed.

Lemma dhcp_emits now c pk len h n p :
  lo_net p n -> k_iface (get_client h c) = Some p ->
  emits 2 p n (dhcp_client_process_packet now (Some c) (Some pk) len h n).2.
Proof.
  intros H Hc. unfold dhcp_client_process_packet. destruct (len <? 240); [by apply emits_refl |].
  destruct (negb _); [by apply emits_refl |]. destruct (negb _); [by apply emits_refl |].
  pose proof (parse_iface (Z.to_nat 312) (drop 240 pk) 312 0 (get_client h c, 0)) as Hi.
  unfold dhcp_parse_options. destruct (parse_loop _ _ _ _ _) as [k m]. cbn [fst] in Hi. rewrite Hc in Hi.
  assert (Hc1 : k_iface (get_client (upd_client (fun _ => k) c h) c) = Some p) by (apply upd_client_iface; [by right | done]).
  destruct (k_state k); try by apply emits_refl.
  - destruct (m =? DHCP_OFFER); [|by apply emits_refl].
    set (h1 := upd_client (k_set_offered _) c _).
    assert (Hc2 : k_iface (get_client h1 c) = Some p) by (apply upd_client_iface; [by left | done]).
    unfold dhcp_client_request. rewrite Hc2. destruct (_ =? 0); [by apply emits_refl |].
    set (data := request_packet _ _ _ _).
    pose proof (udp_emits p n 0xFFFFFFFF 68 67 data H ltac:(done) ltac:(done) ltac:(done)) as E.
    destruct (udp_send_packet (Some p) 0xFFFFFFFF 68 67 (Some data) n) as [r n']. by destruct (r <? 0).
  - destruct (m =? DHCP_ACK); [| destruct (m =? DHCP_NAK); by apply emits_refl].
    destruct (lease_lo_net p k n H). split; [done |]. split; [done |]. left. unfold apply_lease. by destruct (k_iface k).
Qed.

Lemma udp_process_emits now p src pk st :
  lo_net p (st_net st) ->
  emits (if (bswap16 (get16 pk 2) =? 68) && (bswap16 (get16 pk 0) =? 67) then 2%nat else 0%nat) p (st_net st)
    (st_net (udp_process_packet now (Some p) src (Some pk) st).1).
Proof.
  intros H. unfold udp_process_packet. destruct (_ <? _); [by apply emits_refl |].
  destruct ((bswap16 (get16 pk 2) =? 68) && (bswap16 (get16 pk 0) =? 67)).
  - destruct (dhcp_get_client (Some p) (st_dhcp st)) as [c|] eqn:E; [|by apply emits_refl].
    pose proof (dhcp_emits now c (drop 8 pk) (bswap16 (get16 pk 4) - UDP_HEADER_LEN) (st_dhcp st) (st_net st) p H (get_client_spec _ _ _ E)) as G.
    by destruct (dhcp_client_process_packet _ _ _ _ _ _).
  - destruct (udp_find _ _ _) as [i|]; [|by apply emits_refl]. destruct (us_receive_callback _); by apply emits_refl.
Qed.

(** What an IP packet makes the stack send, from the fields of the packet. *)
Lemma ip_process_emits now p pk st :
  lo_net p (st_net st) -> get8 pk 9 <> IP_PROTOCOL_TCP ->
  emits (if get8 pk 9 =? IP_PROTOCOL_ICMP then (if get8 pk 20 =? ICMP_ECHO_REQUEST then 2%nat else 0%nat)
         else if get8 pk 9 =? IP_PROTOCOL_UDP then
           (if (bswap16 (get16 pk 22) =? 68) && (bswap16 (get16 pk 20) =? 67) then 2%nat else 0%nat)
         else 2%nat) p (st_net st)
    (st_net (ip_process_packet now (Some p) (Some pk) st).1.1).
Proof.
  intros H Ht. unfold ip_process_packet. cbv zeta. destruct (negb _); [by apply emits_refl |]. destruct (negb _); [by apply emits_refl |].
  destruct (negb _); [by apply emits_refl |].
  destruct (get8 pk 9 =? IP_PROTOCOL_ICMP).
  - pose proof (icmp_process_emits now p (bswap32 (get32 pk 12)) (drop 20 pk) (st_icmp st) (st_net st) H) as E.
    rewrite get8_drop in E. change (20 + 0)%nat with 20%nat in E.
    destruct (icmp_process_packet _ _ _ _ _ _) as [[s n] pl]. exact E.
  - destruct (get8 pk 9 =? IP_PROTOCOL_UDP).
    + pose proof (udp_process_emits now p (bswap32 (get32 pk 12)) (drop 20 pk) st H) as E.
      rewrite !get16_drop_plus in E. change (20 + 0)%nat with 20%nat in E. change (20 + 2)%nat with 22%nat in E.
      destruct (udp_process_packet _ _ _ _ _) as [st' ev]. exact E.
    + destruct (Z.eqb_spec (get8 pk 9) IP_PROTOCOL_TCP); [done |]. cbn [fst snd set_net st_net].
      unfold icmp_send_dest_unreachable. by apply icmp_emits.
Qed.

Lemma drop_put o l buf : (o + length l <= length buf)%nat -> drop (o + length l) (put o l buf) = drop (o + length l) buf.
Proof.
  intros H. unfold put. rewrite app_assoc. apply drop_app_length'. rewrite length_app, length_take. lia.
Qed.
Lemma get16_put o x buf : (o + 2 <= length buf)%nat -> 0 <= x < 0x10000 -> get16 (put16 o x buf) o = x.
Proof.
  intros H Hx. unfold put16, put. rewrite get16_split; [by apply (le_val_le_bytes_small 2) | rewrite length_take; lia | apply length_le_bytes].
Qed.

(** A frame makes the stack send less than itself. *)
Lemma frame_emits now p f rest st :
  lo_net p (st_net st) -> tame f ->
  emits (weight f - 1) p (st_net st)
    (st_net (ethernet_process_frame now (Some p) (Some (put16 12 (bswap16 (get16 (f ++ rest) 12)) (f ++ rest))) st).1.1).
Proof.
  intros H [Hl Ht]. set (fr := put16 12 _ _).
  assert (E1 : get16 fr 12 = bswap16 (get16 f 12)).
  { unfold fr. rewrite get16_put; [| rewrite length_app; lia | apply bswap16_range]. by rewrite get16_app_l by lia. }
  assert (E2 : drop 14 fr = drop 14 f ++ rest).
  { unfold fr, put16. change 14%nat with (12 + length (le_bytes 2 (bswap16 (get16 (f ++ rest) 12))))%nat.
    rewrite drop_put by (rewrite length_app, length_le_bytes; lia). rewrite length_le_bytes. by rewrite drop_app_le by lia. }
  assert (Hd : (46 <= length (drop 14 f))%nat) by (rewrite length_drop; lia).
  unfold ethernet_process_frame. rewrite E1, E2. clearbody fr. clear E1 E2.
  destruct (negb _ && negb _); [by apply emits_refl |].
  unfold weight. unfold is_tcp in Ht. destruct (bswap16 (get16 f 12) =? ETH_TYPE_ARP).
  - pose proof (arp_emits now p (drop 14 f ++ rest) (st_net st) _ H ltac:(rewrite length_app; lia) eq_refl) as E.
    destruct (arp_process_packet _ _ _ _ _) as [t d]. cbn [fst snd set_net st_net].
    rewrite get16_app_l in E by lia. rewrite get16_drop_plus in E. change (14 + 6)%nat with 20%nat in E.
    by destruct (bswap16 (get16 f 20) =? ARP_REQUEST).
  - destruct (bswap16 (get16 f 12) =? ETH_TYPE_IP); [|by apply emits_refl].
    pose proof (ip_process_emits now p (drop 14 f ++ rest) st H) as E.
    rewrite !get8_app_l, !get16_app_l, !get8_drop, !get16_drop_plus in E by lia.
    change (14 + 9)%nat with 23%nat in E. change (14 + 20)%nat with 34%nat in E. change (14 + 22)%nat with 36%nat in E.
    cbn [andb] in Ht. specialize (E (proj1 (Z.eqb_neq _ _) Ht)).
    destruct (ip_process_packet _ _ _ _) as [[st' ev] pk]. cbn [fst snd] in *. repeat case_match; exact E.
Qed.

Lemma receive_loop_terminates fuel ticks p s :
  lo_net p (st_net (pl_stack s)) -> Forall tame (pending (pl_stack s)) -> (total_weight (pending (pl_stack s)) < fuel)%nat ->
  exists s', receive_loop fuel ticks p s = Some s' /\ pending (pl_stack s') = [] /\ lo_net p (st_net (pl_stack s')) /\
    same_table (n_dev (st_net (pl_stack s))) (n_dev (st_net (pl_stack s'))) /\
    (pl_time s <= pl_time s' <= pl_time s + total_weight (pending (pl_stack s)))%nat.
Proof.
  revert s. induction fuel as [|fuel IH]; intros s H Ht Hw; [lia |].
  destruct (pending (pl_stack s)) as [|f l] eqn:Ep.
  { exists s. rewrite (receive_loop_empty fuel ticks p s (ln_dev _ _ H) Ep). cbn [total_weight foldr]. split_and!; try done; lia. }
  inversion Ht as [|f' l' Hf Hl E]; subst. cbn [receive_loop].
  destruct (lo_receive (n_dev (st_net (pl_stack s))) p f l (pl_frame s) (ln_dev _ _ H) Ep) as (q & Hq & Hfr & ->); [destruct Hf; lia |].
  cbv beta iota zeta. destruct (Z.leb_spec (Z.of_nat (length f)) 0); [destruct Hf; lia |].
  set (st1 := set_stack_dev _ _).
  assert (H1 : lo_net p (st_net st1)) by (destruct H as [H1 H2 H3]; split; [by apply lo_dev_set_queue | done | done]).
  pose proof (frame_emits (ticks (pl_time s)) p f (drop (length f) (pl_frame s)) st1 H1 Hf) as E.
  destruct (ethernet_process_frame _ _ _ st1) as [[st2 ev] fr2]. cbn [fst snd] in E. destruct E as (H2 & Hs2 & E).
  assert (Ep1 : queued (n_dev (st_net st1)) = l) by done. rewrite Ep1 in E. clear Ep1. pose proof (weight_bounds f) as Hwf.
  cbn [total_weight foldr] in Hw |- *. fold (total_weight l) in *.
  assert (Hp2 : Forall tame (pending st2) /\ (total_weight (pending st2) < weight f + total_weight l)%nat).
  { unfold pending. destruct E as [-> | (g & Hg & Hwg & ->)]; [split; [done | lia] |].
    rewrite total_weight_app. split; [|lia]. apply Forall_app. by split; [|constructor]. }
  destruct Hp2 as [Hp2 Hw2]. destruct (IH (Poll st2 (pl_events s ++ ev) (default [] fr2) (S (pl_time s)))) as (s' & E1 & E2 & E3 & E4 & E5);
    cbn [pl_stack pl_time] in *; [done | done | lia |].
  exists s'. split_and!; [exact E1 | done | done | | lia | lia].
  eapply same_table_trans; [|exact E4]. exact Hs2.
Qed.


End effects.

(** ** The reset storm *)

Section storm.
Context {nic : Type} {NIC : Nic nic}.
Implicit Types (st : stack nic) (d : dev nic) (n : net nic).

(** The frame of a segment from the interface to itself. *)
Definition own_segment (mac : list Z) (ip id sp dp seq ack flags : Z) (pl : list Z) : list Z :=
  let sg := tcp_segment ip ip sp dp seq ack flags pl in
  eth_frame mac mac ETH_TYPE_IP (ip_header id (Z.of_nat (length sg)) IP_PROTOCOL_TCP ip ip ++ sg).

(** The segment is for no connection and no listener. *)
Definition unmatched (t : tcp) (ip sp dp flags : Z) : Prop := tcp_lookup ip ip sp dp flags t = (None, t).

Definition RST_ACK : Z := Z.lor TCP_FLAG_RST TCP_FLAG_ACK.

(** An unmatched segment is answered by a reset with the ports exchanged. *)
Lemma reset_answered now p id sp dp seq ack flags pl rest ip st :
  ip_address (get_if (n_dev (st_net st)) p) = ip -> 0 <= ip < 0x100000000 ->
  0 <= sp < 0x10000 -> 0 <= dp < 0x10000 -> 0 <= seq < 0x100000000 -> unmatched (st_tcp st) ip sp dp flags ->
  let sg := tcp_segment ip ip sp dp seq ack flags pl in
  let pk := ip_header id (Z.of_nat (length sg)) IP_PROTOCOL_TCP ip ip ++ sg ++ rest in
  ip_process_packet now (Some p) (Some pk) st =
    (set_net (tcp_send_packet (Some p) ip dp sp 0 (u32 (seq + 1)) RST_ACK None (st_net st)).2 st, [], Some pk).
Proof.
  intros Ei Hip Hsp Hdp Hseq Hun sg pk. unfold ip_process_packet. subst pk.
  destruct (ip_header_fields id (Z.of_nat (length sg)) IP_PROTOCOL_TCP ip ip (sg ++ rest) Hip Hip) as (F1 & F2 & F3 & F4 & F5 & F6).
  rewrite F1, F2, F3, F4, F5, F6, Z.eqb_refl. cbn [negb].
  assert (ip_accepts (get_if (n_dev (st_net st)) p) ip = true) as -> by (unfold ip_accepts; by rewrite Ei, Z.eqb_refl).
  cbn [negb]. change (IP_PROTOCOL_TCP =? IP_PROTOCOL_ICMP) with false. change (IP_PROTOCOL_TCP =? IP_PROTOCOL_UDP) with false.
  change (IP_PROTOCOL_TCP =? IP_PROTOCOL_TCP) with true. cbv iota. unfold tcp_process_packet.
  destruct (tcp_segment_fields ip ip sp dp seq ack flags pl rest Hsp Hdp Hseq) as (G1 & G2 & G3 & G4 & _).
  fold sg in G1, G2, G3, G4. rewrite G1, G2, G3, G4. cbv zeta. unfold unmatched in Hun. rewrite Hun. done.
Qed.

(** One turn of the storm. *)
Lemma storm_step fuel ticks p mac ip st q id0 id sp dp seq ack flags pl frame k :
  lo_ready st p mac ip -> arp_lookup (n_arp (st_net st)) ip true = Some mac ->
  queue_ok q -> frames q = [own_segment mac ip id0 sp dp seq ack flags pl] ->
  0 <= sp < 0x10000 -> 0 <= dp < 0x10000 -> 0 <= seq < 0x100000000 -> (length pl <= 1460)%nat ->
  unmatched (st_tcp st) ip sp dp flags ->
  exists q' frame', queue_ok q' /\ frames q' = [own_segment mac ip id dp sp 0 (u32 (seq + 1)) RST_ACK []] /\
    receive_loop (S fuel) ticks p (Poll (set_net (Net nic (set_queue q (n_dev (st_net st))) (n_arp (st_net st)) id) st) [] frame k) =
    receive_loop fuel ticks p
      (Poll (set_net (Net nic (set_queue q' (n_dev (st_net st))) (n_arp (st_net st)) (u16 (id + 1))) st) [] frame' (S k)).
Proof.
  intros H Ha Hq Hf Hsp Hdp Hseq Hl Hun. destruct (lr_host _ _ _ _ H) as (Hs & Em & Hm & Ei & Hi).
  set (st0 := set_net _ st). unfold own_segment in Hf. cbv zeta in Hf.
  destruct (receive_loop_step fuel ticks p (Poll st0 [] frame k) mac mac ETH_TYPE_IP _ []
    ltac:(cbn; apply lo_dev_set_queue; [done | apply H]) Hf) as (q1 & rest & Hq1 & Hf1 & E); try done.
  { rewrite length_app, length_ip_header, length_tcp_segment. lia. }
  rewrite (process_ip_frame _ p mac mac mac) in E by (done || by left). rewrite <- app_assoc in E.
  cbn [pl_stack pl_time pl_events] in E. set (st1 := set_stack_dev _ st0) in E.
  rewrite (reset_answered (ticks k) p id0 sp dp seq ack flags pl rest ip st1) in E by done.
  assert (Er : resolve (st_net st1) ip = Some mac).
  { unfold resolve. destruct (Z.eqb_spec ip 0xFFFFFFFF); [by destruct (lr_ip _ _ _ _ H) | exact Ha]. }
  assert (Hs1 : can_send (n_dev (st_net st1)) p Loopback) by exact Hs.
  rewrite (tcp_send_packet_ok p Loopback mac) in E by (done || by vm_compute).
  assert (Ef : tcp_sent p Loopback mac ip dp sp 0 (u32 (seq + 1)) RST_ACK [] (st_net st1) =
    sent Loopback (own_segment mac ip id dp sp 0 (u32 (seq + 1)) RST_ACK []) (st_net st1)).
  { unfold tcp_sent, ip_frame, own_segment.
    replace (ip_address (get_if (n_dev (st_net st1)) p)) with ip by done.
    replace (mac_address (get_if (n_dev (st_net st1)) p)) with mac by done. done. }
  destruct (lo_send (n_dev (st_net st1)) (own_segment mac ip id dp sp 0 (u32 (seq + 1)) RST_ACK [])) as (q2 & Hq2 & Hf2 & E2).
  - exact Hq1.
  - unfold own_segment. rewrite length_eth_frame by done. rewrite length_app, length_ip_header, length_tcp_segment. cbn [length]. lia.
  - unfold queued. change (loopback_queue (n_dev (st_net st1))) with q1. rewrite Hf1. cbn. lia.
  - unfold queued in Hf2. change (loopback_queue (n_dev (st_net st1))) with q1 in Hf2. rewrite Hf1 in Hf2.
    eexists q2, _. split; [done |]. split; [done |]. rewrite E. cbn [snd default from_option]. rewrite Ef. unfold sent. rewrite E2. reflexivity.
Qed.

Lemma storm_forever fuel : forall ticks p mac ip st q id0 id sp dp seq ack flags pl frame k,
  lo_ready st p mac ip -> arp_lookup (n_arp (st_net st)) ip true = Some mac ->
  queue_ok q -> frames q = [own_segment mac ip id0 sp dp seq ack flags pl] ->
  0 <= sp < 0x10000 -> 0 <= dp < 0x10000 -> 0 <= seq < 0x100000000 -> (length pl <= 1460)%nat ->
  unmatched (st_tcp st) ip sp dp flags -> unmatched (st_tcp st) ip sp dp RST_ACK -> unmatched (st_tcp st) ip dp sp RST_ACK ->
  receive_loop fuel ticks p (Poll (set_net (Net nic (set_queue q (n_dev (st_net st))) (n_arp (st_net st)) id) st) [] frame k) = None.
Proof.
  induction fuel as [|fuel IH]; intros ticks p mac ip st q id0 id sp dp seq ack flags pl frame k H Ha Hq Hf Hsp Hdp Hseq Hl Hu Hu1 Hu2; [done |].
  destruct (storm_step fuel ticks p mac ip st q id0 id sp dp seq ack flags pl frame k H Ha Hq Hf Hsp Hdp Hseq Hl Hu)
    as (q' & frame' & Hq' & Hf' & ->).
  by apply (IH ticks p mac ip st q' id (u16 (id + 1)) dp sp 0 (u32 (seq + 1)) RST_ACK []); try (done || (cbn; lia)).
Qed.

Lemma interface_loop_none fuel ticks p s k i :
  active (get_if (n_dev (st_net (pl_stack s))) p) = true -> quiet (n_dev (st_net (pl_stack s))) ->
  lo_table (n_dev (st_net (pl_stack s))) p k i -> receive_loop fuel ticks p s = None ->
  interface_loop fuel ticks k i s = None.
Proof.
  intros Hact Hq Ht Hr. revert i Ht. induction k as [|k IH]; intros i [(a & Ha & Hia) Ho]; [lia |].
  cbn [interface_loop].
  assert (Hrest : i <> a -> lo_table (n_dev (st_net (pl_stack s))) p k (S i)) by (intros Hne; split; [exists a; split; [lia | done] | done]).
  destruct (interfaces (n_dev (st_net (pl_stack s))) !! i) as [[q|]|] eqn:E; cbn [default from_option id].
  2, 3: apply IH, Hrest; intros ->; congruence.
  destruct (decide (q = p)) as [->|Hne]; [by rewrite Hact, Hr |].
  destruct (negb (active (get_if (n_dev (st_net (pl_stack s))) q))); [apply IH, Hrest; intros ->; congruence |].
  destruct fuel as [|fuel]; [done |].
  rewrite receive_loop_other by (done || by eapply Ho). apply IH, Hrest. intros ->. congruence.
Qed.

(** C15. The reset storm.  [tcp_process_packet] answers a segment that belongs
    to no connection by a reset, and a reset too.  On a stack at rest that
    resolves its own address, a segment sent from one port of the loopback
    address to another, neither of them that of a connection with the other -
    for instance the SYN of a connection closed before the next poll - makes
    the stack answer itself for ever: [network_process_packets] does not return,
    whatever the fuel. *)
Theorem tcp_reset_storm fuel ticks frame k st p mac ip sp dp seq ack flags pl :
  lo_ready st p mac ip -> arp_lookup (n_arp (st_net st)) ip true = Some mac ->
  0 <= sp < 0x10000 -> 0 <= dp < 0x10000 -> 0 <= seq < 0x100000000 -> (length pl <= 1460)%nat ->
  unmatched (st_tcp st) ip sp dp flags -> unmatched (st_tcp st) ip sp dp RST_ACK -> unmatched (st_tcp st) ip dp sp RST_ACK ->
  exists n1,
    tcp_send_packet (Some p) ip sp dp seq ack flags (Some pl) (st_net st) = (NET_SUCCESS, n1) /\
    network_process_packets fuel ticks frame k (set_net n1 st) = None.
Proof.
  intros H Ha Hsp Hdp Hseq Hl Hu Hu1 Hu2. destruct (lr_host _ _ _ _ H) as (Hs & Em & Hm & Ei & Hi).
  assert (Er : resolve (st_net st) ip = Some mac).
  { unfold resolve. destruct (Z.eqb_spec ip 0xFFFFFFFF); [by destruct (lr_ip _ _ _ _ H) | exact Ha]. }
  rewrite (tcp_send_packet_ok p Loopback mac) by (done || (cbn [default from_option id]; unfold TCP_MAX_PAYLOAD, IP_PACKET_SIZE, IP_HEADER_LEN, TCP_HEADER_LEN; lia)).
  eexists. split; [done |].
  assert (Ef : tcp_sent p Loopback mac ip sp dp seq ack flags pl (st_net st) =
    sent Loopback (own_segment mac ip (ip_identification (st_net st)) sp dp seq ack flags pl) (st_net st)).
  { unfold tcp_sent, ip_frame, own_segment. by rewrite Ei, Em. }
  cbn [default from_option id]. rewrite Ef.
  destruct (sent_lo st p mac ip (own_segment mac ip (ip_identification (st_net st)) sp dp seq ack flags pl) H) as (q & Hq & Hf & ->).
  { unfold own_segment. rewrite length_eth_frame by done. rewrite length_app, length_ip_header, length_tcp_segment. lia. }
  unfold network_process_packets. apply (interface_loop_none fuel ticks p); cbn [pl_stack set_net st_net n_dev].
  - exact (proj1 Hs).
  - exact (lr_quiet _ _ _ _ H).
  - destruct (lr_table _ _ _ _ H) as [Ht Ho]. by split.
  - by eapply storm_forever.
Qed.

End storm.

(** ** Ping on the loopback interface *)

Section ping.
Context {nic : Type} {NIC : Nic nic}.
Implicit Types (st : stack nic) (n : net nic).

(** An echo message of the interface to itself. *)
Definition own_echo (mac : list Z) (ip id type identifier sequence : Z) : list Z :=
  let pk := icmp_packet type 0 (be16 identifier ++ be16 sequence) [] in
  eth_frame mac mac ETH_TYPE_IP (ip_header id (Z.of_nat (length pk)) IP_PROTOCOL_ICMP ip ip ++ pk).

Lemma length_own_echo mac ip id type identifier sequence :
  length mac = 6%nat -> (0 < length (own_echo mac ip id type identifier sequence) <= 1514)%nat.
Proof.
  intros Hm. unfold own_echo. rewrite length_eth_frame by done.
  rewrite length_app, length_ip_header, length_icmp_packet by (by rewrite length_app, !length_be16). cbn [length]. lia.
Qed.

(** A lone echo packet, as the IP layer processes it. *)
Lemma process_echo now p id type identifier sequence rest ip st :
  ip_address (get_if (n_dev (st_net st)) p) = ip -> 0 <= ip < 0x100000000 ->
  0 <= identifier < 0x10000 -> 0 <= sequence < 0x10000 -> type = ICMP_ECHO_REQUEST \/ type = ICMP_ECHO_REPLY ->
  let pk := icmp_packet type 0 (be16 identifier ++ be16 sequence) [] in
  exists pk',
    ip_process_packet now (Some p) (Some (ip_header id (Z.of_nat (length pk)) IP_PROTOCOL_ICMP ip ip ++ pk ++ rest)) st =
      (if type =? ICMP_ECHO_REQUEST
       then set_net (icmp_send_echo_reply (Some p) ip identifier sequence (Some []) (st_net st)).2 st
       else set_icmp (Icmp true ip sequence (ping_send_time (st_icmp st)) now) st, [], Some pk').
Proof.
  intros Ei Hip Hid Hseq Ht pk. unfold ip_process_packet.
  destruct (ip_header_fields id (Z.of_nat (length pk)) IP_PROTOCOL_ICMP ip ip (pk ++ rest) Hip Hip) as (F1 & F2 & F3 & F4 & F5 & F6).
  rewrite F1, F2, F3, F4, F5, F6, Z.eqb_refl. cbn [negb].
  assert (ip_accepts (get_if (n_dev (st_net st)) p) ip = true) as -> by (unfold ip_accepts; by rewrite Ei, Z.eqb_refl).
  cbn [negb]. change (IP_PROTOCOL_ICMP =? IP_PROTOCOL_ICMP) with true. cbv iota.
  assert (Hrest : length (be16 identifier ++ be16 sequence) = 4%nat) by (by rewrite length_app, !length_be16).
  assert (Epk : pk ++ rest = [type; 0] ++ le_bytes 2 (icmp_checksum ([type; 0] ++ [0; 0] ++ be16 identifier ++ be16 sequence) ICMP_HEADER_LEN) ++
    (be16 identifier ++ be16 sequence) ++ rest).
  { unfold pk. rewrite icmp_packet_eq. cbn [length]. rewrite app_nil_r.
    replace (ICMP_HEADER_LEN + Z.of_nat 0) with ICMP_HEADER_LEN by lia. by rewrite <- !app_assoc. }
  rewrite Epk, icmp_process_short by done. cbv zeta.
  assert (Hf : let pk' := [type; 0] ++ [0; 0] ++ (be16 identifier ++ be16 sequence) ++ rest in
    bswap16 (get16 pk' 4) = identifier /\ bswap16 (get16 pk' 6) = sequence).
  { cbv zeta. rewrite <- !app_assoc. split; rdfield; by apply le_val_be16. }
  cbv zeta in Hf. destruct Hf as [-> ->].
  destruct Ht as [-> | ->]; (eexists; reflexivity).
Qed.

(** One turn of the loop on a lone echo message. *)
Lemma receive_own_echo fuel ticks p mac ip st q id0 id type identifier sequence frame k c :
  lo_ready st p mac ip -> arp_lookup (n_arp (st_net st)) ip true = Some mac ->
  queue_ok q -> frames q = [own_echo mac ip id0 type identifier sequence] ->
  0 <= identifier < 0x10000 -> 0 <= sequence < 0x10000 -> type = ICMP_ECHO_REQUEST \/ type = ICMP_ECHO_REPLY ->
  let st0 id q c := set_icmp c (set_net (Net nic (set_queue q (n_dev (st_net st))) (n_arp (st_net st)) id) st) in
  exists q' frame', queue_ok q' /\
    frames q' = (if type =? ICMP_ECHO_REQUEST then [own_echo mac ip id ICMP_ECHO_REPLY identifier sequence] else []) /\
    receive_loop (S fuel) ticks p (Poll (st0 id q c) [] frame k) =
    receive_loop fuel ticks p
      (Poll (if type =? ICMP_ECHO_REQUEST then st0 (u16 (id + 1)) q' c
             else st0 id q' (Icmp true ip sequence (ping_send_time c) (ticks k))) [] frame' (S k)).
Proof.
  intros H Ha Hq Hf Hid Hseq Ht st0. destruct (lr_host _ _ _ _ H) as (Hs & Em & Hm & Ei & Hi).
  unfold own_echo in Hf. cbv zeta in Hf.
  destruct (receive_loop_step fuel ticks p (Poll (st0 id q c) [] frame k) mac mac ETH_TYPE_IP _ []
    ltac:(cbn; apply lo_dev_set_queue; [done | apply H]) Hf) as (q1 & rest & Hq1 & Hf1 & E); try done.
  { rewrite length_app, length_ip_header, length_icmp_packet by (by rewrite length_app, !length_be16). cbn [length]. lia. }
  rewrite (process_ip_frame _ p mac mac mac) in E by (done || by left). rewrite <- app_assoc in E.
  cbn [pl_stack pl_time pl_events] in E. set (st1 := set_stack_dev _ (st0 id q c)) in E.
  destruct (process_echo (ticks k) p id0 type identifier sequence rest ip st1 Ei Hi Hid Hseq Ht) as (pk' & E1).
  rewrite E1 in E. clear E1. destruct Ht as [-> | ->].
  - change (ICMP_ECHO_REQUEST =? ICMP_ECHO_REQUEST) with true in *. cbv iota in *.
    assert (Er : resolve (st_net st1) ip = Some mac).
    { unfold resolve. destruct (Z.eqb_spec ip 0xFFFFFFFF); [by destruct (lr_ip _ _ _ _ H) | exact Ha]. }
    assert (Hs1 : can_send (n_dev (st_net st1)) p Loopback) by exact Hs.
    unfold icmp_send_echo_reply in E. rewrite (ip_send_resolved _ p Loopback ip IP_PROTOCOL_ICMP _ mac Hs1) in E; [| | exact Er].
    2: { rewrite length_icmp_packet by (by rewrite length_app, !length_be16). cbn [icmp_data take length]. rewrite ?take_nil. cbn [length]. lia. }
    assert (Ef : ip_frame (st_net st1) p mac ip IP_PROTOCOL_ICMP (icmp_packet ICMP_ECHO_REPLY 0 (be16 identifier ++ be16 sequence) (icmp_data (Some []))) =
      own_echo mac ip id ICMP_ECHO_REPLY identifier sequence).
    { unfold ip_frame, own_echo. replace (ip_address (get_if (n_dev (st_net st1)) p)) with ip by done.
      replace (mac_address (get_if (n_dev (st_net st1)) p)) with mac by done. done. }
    rewrite Ef in E. cbn [snd] in E.
    destruct (lo_send (n_dev (st_net st1)) (own_echo mac ip id ICMP_ECHO_REPLY identifier sequence)) as (q2 & Hq2 & Hf2 & E2).
    + exact Hq1.
    + by apply length_own_echo.
    + unfold queued. change (loopback_queue (n_dev (st_net st1))) with q1. rewrite Hf1. cbn. lia.
    + unfold queued in Hf2. change (loopback_queue (n_dev (st_net st1))) with q1 in Hf2. rewrite Hf1 in Hf2.
      eexists q2, _. split; [done |]. split; [done |]. rewrite E. unfold sent. rewrite E2. reflexivity.
  - change (ICMP_ECHO_REPLY =? ICMP_ECHO_REQUEST) with false in *. cbv iota in *.
    eexists q1, _. split; [done |]. split; [done |]. exact E.
Qed.

(** The state between two requests: at rest, resolving its own address. *)
Definition ping_ready st (p : nat) (mac : list Z) (ip : Z) : Prop :=
  lo_ready st p mac ip /\ arp_lookup (n_arp (st_net st)) ip true = Some mac.

Lemma lo_ready_icmp st p mac ip c : lo_ready st p mac ip -> lo_ready (set_icmp c st) p mac ip.
Proof. intros [H1 H2 H3 H4 H5 H6 H7 H8]. by split. Qed.

(** Polling a stack at rest. *)
Lemma poll_idle fuel ticks frame k st p mac ip :
  lo_ready st p mac ip -> network_process_packets (S fuel) ticks frame k st = Some (Poll st [] frame k).
Proof.
  intros [H1 H2 H3 H4 H5 H6 H7 H8]. unfold network_process_packets. apply (interface_loop_idle _ _ _ _ _ p); try done. apply H3.
Qed.

(** The request, and one round of polling, which answers it. *)
Lemma echo_round fuel ticks frame k st p mac ip identifier sequence :
  ping_ready st p mac ip -> 0 <= identifier < 0x10000 -> 0 <= sequence < 0x10000 ->
  exists n1 st2 frame',
    icmp_send_echo_request (Some p) ip identifier sequence None (st_net st) = (NET_SUCCESS, n1) /\
    network_process_packets (S (S (S fuel))) ticks frame k (set_net n1 st) = Some (Poll st2 [] frame' (S (S k))) /\
    ping_ready st2 p mac ip /\ st_icmp st2 = Icmp true ip sequence (ping_send_time (st_icmp st)) (ticks (S k)).
Proof.
  intros [H Ha] Hid Hseq. destruct (lr_host _ _ _ _ H) as (Hs & Em & Hm & Ei & Hi).
  assert (Er : resolve (st_net st) ip = Some mac).
  { unfold resolve. destruct (Z.eqb_spec ip 0xFFFFFFFF); [by destruct (lr_ip _ _ _ _ H) | exact Ha]. }
  set (id := ip_identification (st_net st)).
  assert (Es : exists q, queue_ok q /\ frames q = [own_echo mac ip id ICMP_ECHO_REQUEST identifier sequence] /\
    icmp_send_echo_request (Some p) ip identifier sequence None (st_net st) =
      (NET_SUCCESS, Net nic (set_queue q (n_dev (st_net st))) (n_arp (st_net st)) (u16 (id + 1)))).
  { unfold icmp_send_echo_request. rewrite (ip_send_resolved _ p Loopback ip IP_PROTOCOL_ICMP _ mac Hs); [| | exact Er].
    2: { rewrite length_icmp_packet by (by rewrite length_app, !length_be16). cbn [icmp_data take length]. rewrite ?take_nil. cbn [length]. lia. }
    unfold ip_frame. rewrite Ei, Em. fold id. cbn [icmp_data]. fold (own_echo mac ip id ICMP_ECHO_REQUEST identifier sequence).
    destruct (sent_lo st p mac ip (own_echo mac ip id ICMP_ECHO_REQUEST identifier sequence) H (length_own_echo _ _ _ _ _ _ Hm))
      as (q & Hq & Hf & E). exists q. split; [done |]. split; [done |]. by rewrite E. }
  destruct Es as (q & Hq & Hf & Es).
  destruct (receive_own_echo (S (S fuel)) ticks p mac ip st q id (u16 (id + 1)) ICMP_ECHO_REQUEST identifier sequence frame k (st_icmp st))
    as (q2 & frame2 & Hq2 & Hf2 & E2); try done; [by left |]. cbv zeta in E2.
  change (ICMP_ECHO_REQUEST =? ICMP_ECHO_REQUEST) with true in *. cbv iota in *.
  destruct (receive_own_echo (S fuel) ticks p mac ip st q2 (u16 (id + 1)) (u16 (u16 (id + 1) + 1)) ICMP_ECHO_REPLY identifier sequence frame2 (S k) (st_icmp st))
    as (q3 & frame3 & Hq3 & Hf3 & E3); try done; [by right |]. cbv zeta in E3.
  change (ICMP_ECHO_REPLY =? ICMP_ECHO_REQUEST) with false in *. cbv iota in *.
  set (c := Icmp true ip sequence (ping_send_time (st_icmp st)) (ticks (S k))) in *.
  set (st2 := set_net (Net nic (set_queue q3 (n_dev (st_net st))) (n_arp (st_net st)) (u16 (u16 (id + 1) + 1))) (set_icmp c st)).
  exists (Net nic (set_queue q (n_dev (st_net st))) (n_arp (st_net st)) (u16 (id + 1))), st2, frame3. split; [exact Es |].
  assert (Hrc : lo_ready (set_icmp c st) p mac ip) by (by apply lo_ready_icmp).
  assert (H2 : lo_ready st2 p mac ip) by (apply (lo_ready_queue (set_icmp c st)); [done | done | done | apply H]).
  split; [|by split].
  destruct H2 as [G1 G2 G3 G4 G5 G6 G7 G8]. unfold network_process_packets.
  apply (interface_loop_drains (S (S fuel)) ticks p); cbn [pl_stack]; try done.
  { apply lo_dev_set_queue; [done | apply H]. } { destruct (lr_table _ _ _ _ H) as [Ht Ho]. by split. }
  assert (Est : set_net (Net nic (set_queue q (n_dev (st_net st))) (n_arp (st_net st)) (u16 (id + 1))) st =
    set_icmp (st_icmp st) (set_net (Net nic (set_queue q (n_dev (st_net st))) (n_arp (st_net st)) (u16 (id + 1))) st)).
  { by destruct st. }
  rewrite Est. etransitivity; [exact E2 |]. etransitivity; [exact E3 |].
  apply (receive_loop_empty fuel ticks p); [exact G1 | exact G5].
Qed.

(** *** Time *)

(** Between two readings the timer advances by at most one tick, it reaches
    [T] at reading [J] at the latest, and nothing near [T] overflows. *)
Record clock (ticks : nat -> Z) (T : Z) (J : nat) : Prop := {
  ck_slow : forall k, ticks k <= ticks (S k) <= ticks k + 1;
  ck_start : 0 <= ticks 0%nat;
  ck_reach : T <= ticks J;
  ck_bound : T + 2000 < 0x10000000000000000
}.

Lemma clock_mono ticks T J : clock ticks T J -> forall k j, (k <= j)%nat -> ticks k <= ticks j.
Proof.
  intros [H _ _ _] k j Hkj. induction Hkj as [|j _ IH]; [lia |]. specialize (H j). lia.
Qed.
Lemma clock_nonneg ticks T J k : clock ticks T J -> 0 <= ticks k.
Proof. intros H. pose proof (clock_mono _ _ _ H 0 k ltac:(lia)). pose proof (ck_start _ _ _ H). lia. Qed.
Lemma clock_before ticks T J k : clock ticks T J -> ticks k < T -> (k < J)%nat.
Proof.
  intros H Hk. destruct (decide (k < J)%nat) as [|Hn]; [done |]. pose proof (clock_mono _ _ _ H J k ltac:(lia)).
  pose proof (ck_reach _ _ _ H). lia.
Qed.

(** Waiting at rest until a time before [T]. *)
Lemma delay_idle ticks T J e p mac ip : clock ticks T J -> e <= T ->
  forall fuel s, lo_ready (pl_stack s) p mac ip -> (J < pl_time s + fuel)%nat -> (pl_time s <= J)%nat ->
  exists k, delay_loop fuel ticks e s = Some (Poll (pl_stack s) (pl_events s) (pl_frame s) (S k)) /\
    (pl_time s <= k <= J)%nat /\ (k = pl_time s \/ ticks k <= e).
Proof.
  intros C He fuel. induction fuel as [|fuel IH]; intros s Hr HJ Hk; [lia |]. cbn [delay_loop].
  destruct (Z.ltb_spec (ticks (pl_time s)) e) as [Hlt|Hge]; cbn [negb].
  2: { exists (pl_time s). split; [done |]. split; [lia | by left]. }
  rewrite (poll_idle fuel ticks _ _ _ p mac ip Hr). cbn [mbind option_bind pl_stack pl_events pl_frame pl_time].
  rewrite app_nil_r. pose proof (clock_before _ _ _ _ C (Z.lt_le_trans _ _ _ Hlt He)) as Hb.
  destruct (IH (Poll (pl_stack s) (pl_events s) (pl_frame s) (S (pl_time s)))) as (k & -> & Hk1 & Hk2);
    cbn [pl_stack pl_events pl_frame pl_time] in *; [done | lia | lia |].
  exists k. split; [done |]. split; [lia |]. right. destruct Hk2 as [-> | Hk2]; [|lia].
  pose proof (ck_slow _ _ _ C (pl_time s)). lia.
Qed.

Lemma set_icmp_send st c n : set_net n (set_icmp c st) = set_icmp c (set_net n st).
Proof. done. Qed.

(** One request: it is answered in at most 3 ticks, and the next one starts at
    most 505 ticks later. *)
Lemma ping_once_ok ticks T J fuel p mac ip identifier i last r s :
  clock ticks T J -> ping_ready (pl_stack s) p mac ip -> 0 <= identifier < 0x10000 ->
  ticks (pl_time s) + 510 <= T -> (J + 4 <= fuel)%nat ->
  exists rtt s', 0 <= rtt <= 3 /\
    ping_once fuel ticks p ip identifier i last r s =
      Some (Ping (sent_count r + 1) (received_count r + 1) (if rtt <? min_time r then rtt else min_time r)
                 (if max_time r <? rtt then rtt else max_time r) (u32 (total_time r + rtt)), s') /\
    ping_ready (pl_stack s') p mac ip /\ ticks (pl_time s') <= ticks (pl_time s) + 510.
Proof.
  destruct s as [st evs fr k]. cbn [pl_stack pl_time]. intros C [Hr Ha] Hid HT Hfuel. unfold ping_once, tick, set_poll. cbv beta zeta.
  cbn [pl_stack pl_time pl_events pl_frame].
  set (c := Icmp false (ping_reply_src_ip (st_icmp st)) (ping_reply_seq (st_icmp st)) (ticks k) (ping_reply_time (st_icmp st))).
  assert (Hslow := ck_slow _ _ _ C). assert (Hpos := clock_nonneg _ _ _ k C). assert (Hbd := ck_bound _ _ _ C).
  destruct fuel as [|[|[|[|fuel]]]]; try lia.
  destruct (echo_round (S fuel) ticks fr (S (S k)) (set_icmp c st) p mac ip identifier (u16 i))
    as (n1 & st2 & frame2 & E1 & E2 & Hp2 & Ec2); [split; [by apply lo_ready_icmp | done] | done | apply u16_range |].
  assert (S1 := Hslow k). assert (S2 := Hslow (S k)). assert (S3 := Hslow (S (S k))). assert (S4 := Hslow (S (S (S k)))).
  assert (S5 := Hslow (S (S (S (S k))))).
  set (rtt := ticks (S (S (S k))) - ticks k). assert (Hrtt : 0 <= rtt <= 3) by (unfold rtt; lia).
  fold c. rewrite E1. cbn [pl_stack pl_time pl_events pl_frame]. change (negb (NET_SUCCESS =? NET_SUCCESS)) with false. cbv iota zeta.
  rewrite (u64_small (ticks k + 1000)) by lia.
  (* the first turn of the loop polls, the second sees the reply *)
  remember (S (S (S fuel))) as f3 eqn:Ef3. cbn [reply_loop set_poll tick pl_stack pl_time pl_events pl_frame].
  change (ping_reply_received (st_icmp (set_net n1 (set_icmp c st)))) with false. cbv iota.
  destruct (Z.ltb_spec (ticks (S k)) (ticks k + 1000)) as [_|Hx]; [|lia]. cbn [negb].
  rewrite E2. cbn [mbind option_bind pl_stack pl_time pl_events pl_frame].
  assert (Hrl : forall t s, ping_reply_received (st_icmp (pl_stack s)) = true -> reply_loop f3 ticks t s = Some s).
  { intros t s Hs. rewrite Ef3. cbn [reply_loop]. by rewrite Hs. }
  rewrite Hrl by (cbn [pl_stack]; by rewrite Ec2). clear Hrl. cbn [mbind option_bind pl_stack pl_time pl_events pl_frame].
  assert (Er : count_reply ip (st_icmp st2) (Ping (sent_count r + 1) (received_count r) (min_time r) (max_time r) (total_time r)) =
    Ping (sent_count r + 1) (received_count r + 1) (if rtt <? min_time r then rtt else min_time r)
         (if max_time r <? rtt then rtt else max_time r) (u32 (total_time r + rtt))).
  { unfold count_reply. rewrite Ec2. cbn [ping_reply_received ping_reply_src_ip ping_reply_time ping_send_time st_icmp set_icmp c].
    rewrite Z.eqb_refl. cbn [andb]. fold rtt. by rewrite (u32_small rtt) by lia. }
  rewrite Er. clear Er. destruct last.
  - eexists rtt, _. split; [done |]. split; [reflexivity |]. split; [exact Hp2 |]. cbn [pl_time]. lia.
  - cbn [tick pl_stack pl_time pl_events pl_frame]. rewrite (u64_small (ticks (S (S (S (S k)))) + 500)) by lia.
    assert (Hb := clock_before _ _ _ (S (S (S (S (S k))))) C ltac:(lia)).
    destruct (delay_idle ticks T J (ticks (S (S (S (S k)))) + 500) p mac ip C ltac:(lia) (S f3)
      (Poll st2 (evs ++ []) frame2 (S (S (S (S (S k))))))) as (k' & -> & Hk1 & Hk2);
      cbn [pl_stack pl_time pl_events pl_frame] in *; [exact (proj1 Hp2) | lia | lia |].
    cbn [mbind option_bind]. eexists rtt, _. split; [done |]. split; [reflexivity |]. split; [exact Hp2 |]. cbn [pl_time].
    pose proof (Hslow k'). destruct Hk2 as [-> | Hk2]; lia.
Qed.

Lemma ping_loop_ok ticks T J fuel p mac ip identifier count : clock ticks T J -> (J + 4 <= fuel)%nat -> 0 <= identifier < 0x10000 ->
  forall m i r s, ping_ready (pl_stack s) p mac ip -> ticks (pl_time s) + 510 * Z.of_nat m <= T -> max_time r <= 3 ->
  exists r' s', ping_loop m fuel ticks p ip identifier i count r s = Some (r', s') /\
    sent_count r' = sent_count r + Z.of_nat m /\ received_count r' = received_count r + Z.of_nat m /\ max_time r' <= 3.
Proof.
  intros C Hfuel Hid m. induction m as [|m IH]; intros i r s Hs HT Hmax.
  { exists r, s. split; [done |]. split_and!; [lia | lia | done]. }
  cbn [ping_loop]. destruct (ping_once_ok ticks T J fuel p mac ip identifier i (negb (i <? count - 1)) r s) as (rtt & s1 & Hrtt & -> & Hs1 & Ht1);
    try done; [lia |]. cbn [mbind option_bind].
  set (r1 := Ping _ _ _ _ _).
  destruct (IH (i + 1) r1 s1) as (r' & s' & E & E1 & E2 & E3); [done | lia | subst r1; cbn [max_time]; case_match; lia |].
  exists r', s'. split; [exact E |]. subst r1. cbn [sent_count received_count] in *. split_and!; [lia | lia | done].
Qed.


End ping.

(** ** Witnesses *)


Lemma tcp_reset_storm_witness :
  exists n1,
    tcp_send_packet (NIC := wire_nic) (Some 0%nat) 0x7F000001 40000 80 1000 0 TCP_FLAG_SYN (Some []) (st_net (demo_stack demo_cache demo_sockets)) = (NET_SUCCESS, n1) /\
    network_process_packets (NIC := wire_nic) 1000 Z.of_nat [] 6 (set_net n1 (demo_stack demo_cache demo_sockets)) = None.
Proof.
  apply (tcp_reset_storm (NIC := wire_nic) 1000 Z.of_nat [] 6 (demo_stack demo_cache demo_sockets) 0 [0; 0; 0; 0; 0; 1] 0x7F000001
    40000 80 1000 0 TCP_FLAG_SYN []); [apply demo_ready, demo_cache_ok | vm_compute; reflexivity | lia | lia | lia | cbn; lia
    | vm_compute; reflexivity | vm_compute; reflexivity | vm_compute; reflexivity].
Defined.

