(* ===== verification/Vmm.v ===== *)
(** * Virtual memory ([src/src/memory/vmm.c])

    The page tables are 64-bit words in physical memory: [words a] is the word
    at physical address [a], which the code reads and writes through the direct
    map of the boot loader, at [a + hhdm_offset].  A table is the physical
    address of its page and entry [i] the word at [table + 8 * i].  A context
    pointer is an index in [contexts], of which number 0 is [kernel_context].
    Control registers are fields; [flushed] lists the addresses given to
    [invlpg].

    The page allocator is the interface [PageAllocator], with the laws the page
    tables rely on; the physical memory manager (file Pmm) is an instance.

    The specification is the translation of the x86-64 MMU, [mmu], 4-level
    paging with 4 KiB, 2 MiB and 1 GiB pages.  [get_or_create_table] and
    [map_kernel_space] are called by nobody and are not modelled. *)

From S2P Require Import Prelude Bitmap Pmm.

(** ** The page allocator *)

Class PageAllocator (A : Type) : Type := alloc_page : A -> option (Z * A).

(** [pa_free a t]: page [t] may be handed out.  A page handed out is whole, not
    NULL, below 2^52, and never handed out again. *)
Class PageAllocatorLaws (A : Type) `{PageAllocator A} : Type := {
  pa_ok : A -> Prop;
  pa_free : A -> Z -> Prop;
  pa_alloc a : pa_ok a -> exists t a', alloc_page a = Some (t, a') /\ pa_ok a' /\
    ((t = NULL /\ forall u, pa_free a' u <-> pa_free a u) \/
     (t mod 4096 = 0 /\ 0 < t < 2 ^ 52 /\ pa_free a t /\ ~ pa_free a' t /\ forall u, pa_free a' u -> pa_free a u))
}.

(** ** Constants and indices ([vmm.h]) *)

Definition PAGE_SIZE : Z := 4096.
Definition PAGE_MASK : Z := PAGE_SIZE - 1.
(** [addr & ~PAGE_MASK], where [~PAGE_MASK] is extended to 64 bits. *)
Definition PAGE_ALIGN (addr : Z) : Z := Z.land addr 0xFFFFFFFFFFFFF000.
Definition PAGE_ALIGN_UP (addr : Z) : Z := PAGE_ALIGN (u64 (addr + PAGE_MASK)).
Definition MMIO_VIRTUAL_BASE : Z := 0xFFFFFFFFC0000000.

Definition PAGE_PRESENT : Z := 1.
Definition PAGE_WRITABLE : Z := 2.
Definition PAGE_USER : Z := 4.
Definition PAGE_PWT : Z := 8.
Definition PAGE_PCD : Z := 16.
Definition PAGE_HUGE : Z := 128.

Definition PML4_INDEX (addr : Z) : Z := Z.land (Z.shiftr addr 39) 0x1FF.
Definition PDP_INDEX (addr : Z) : Z := Z.land (Z.shiftr addr 30) 0x1FF.
Definition PD_INDEX (addr : Z) : Z := Z.land (Z.shiftr addr 21) 0x1FF.
Definition PT_INDEX (addr : Z) : Z := Z.land (Z.shiftr addr 12) 0x1FF.

(** The test of a flag in an entry. *)
Definition has (e flag : Z) : bool := negb (Z.land e flag =? 0).

(** ** State *)

Record vmm_context := Ctx { pml4 : Z; cr3_value : Z }.
#[export] Instance vmm_context_inhabited : Inhabited vmm_context := populate (Ctx 0 0).

Record vmm {A : Type} := Vmm {
  words : Z -> Z;
  contexts : list vmm_context;
  current_context : nat;
  next_mmio_vaddr : Z;
  hhdm_offset : Z;
  cr0 : Z;
  cr3 : Z;
  cr4 : Z;
  flushed : list Z;
  pages : A
}.
Arguments vmm : clear implicits.

Section vmm.
Context {A : Type} `{PageAllocator A}.
Implicit Types s : vmm A.

Definition set_words (w : Z -> Z) s : vmm A :=
  Vmm A w (contexts s) (current_context s) (next_mmio_vaddr s) (hhdm_offset s) (cr0 s) (cr3 s) (cr4 s) (flushed s) (pages s).
Definition set_pages (a : A) s : vmm A :=
  Vmm A (words s) (contexts s) (current_context s) (next_mmio_vaddr s) (hhdm_offset s) (cr0 s) (cr3 s) (cr4 s) (flushed s) a.
Definition set_next_mmio (x : Z) s : vmm A :=
  Vmm A (words s) (contexts s) (current_context s) x (hhdm_offset s) (cr0 s) (cr3 s) (cr4 s) (flushed s) (pages s).
Definition invlpg (addr : Z) s : vmm A :=
  Vmm A (words s) (contexts s) (current_context s) (next_mmio_vaddr s) (hhdm_offset s) (cr0 s) (cr3 s) (cr4 s) (addr :: flushed s) (pages s).

(** Writing the word at [a]; clearing the page at [t]. *)
Definition write (a x : Z) s : vmm A := set_words (fun b => if b =? a then x else words s b) s.
Definition memset_page (t : Z) s : vmm A := set_words (fun b => if (t <=? b) && (b <? t + PAGE_SIZE) then 0 else words s b) s.

Definition kernel_context s : vmm_context := contexts s !!! 0%nat.
(** [context->cr3_value & ~0xFFF] *)
Definition root (c : vmm_context) : Z := Z.land (cr3_value c) 0xFFFFFFFFFFFFF000.

Definition vmm_get_hhdm_offset s : Z := hhdm_offset s.
Definition vmm_set_hhdm_offset (offset : Z) s : vmm A :=
  Vmm A (words s) (contexts s) (current_context s) (next_mmio_vaddr s) offset (cr0 s) (cr3 s) (cr4 s) (flushed s) (pages s).

Definition vmm_init s : Z * vmm A :=
  (0, Vmm A (words s) (<[0%nat := Ctx (Z.land (cr3 s) 0xFFFFFFFFFFFFF000) (cr3 s)]> (contexts s)) (current_context s)
        (next_mmio_vaddr s) (hhdm_offset s) (cr0 s) (cr3 s) (cr4 s) (flushed s) (pages s)).

(** ** Mapping *)

(** One level of the walk, creating the table when there is none: the table,
    [None] when no page is left. *)
Definition next_table (table index : Z) s : option (option Z * vmm A) :=
  let e := words s (table + 8 * index) in
  if has e PAGE_PRESENT then Some (Some (PAGE_ALIGN e), s)
  else
    '(new_page, a) ← alloc_page (pages s);
    let s := set_pages a s in
    if new_page =? NULL then Some (None, s)
    else
      let s := memset_page new_page s in
      Some (Some new_page, write (table + 8 * index) (Z.lor (Z.lor new_page PAGE_PRESENT) PAGE_WRITABLE) s).

(** The page table of [virtual_addr], from the root [pml4]. *)
Definition walk_create (pml4 virtual_addr : Z) s : option (option Z * vmm A) :=
  '(pdp, s) ← next_table pml4 (PML4_INDEX virtual_addr) s;
  match pdp with
  | None => Some (None, s)
  | Some pdp =>
      '(pd, s) ← next_table pdp (PDP_INDEX virtual_addr) s;
      match pd with
      | None => Some (None, s)
      | Some pd => next_table pd (PD_INDEX virtual_addr) s
      end
  end.

Definition vmm_map_page (physical_addr virtual_addr flags : Z) s : option (Z * vmm A) :=
  if hhdm_offset s =? 0 then Some (NULL, s)
  else
    '(pt, s) ← walk_create (root (kernel_context s)) virtual_addr s;
    match pt with
    | None => Some (NULL, s)
    | Some pt =>
        let page_flags := Z.lor PAGE_PRESENT
          (Z.land flags (Z.lor (Z.lor (Z.lor PAGE_WRITABLE PAGE_USER) PAGE_PCD) PAGE_PWT)) in
        Some (virtual_addr,
              invlpg virtual_addr (write (pt + 8 * PT_INDEX virtual_addr) (Z.lor physical_addr page_flags) s))
    end.

(** The loop of [vmm_map_mmio] over the pages [i, .. i + n - 1]; false when it
    returns NULL. *)
Fixpoint mmio_loop (n : nat) (i pml4 physical_addr vaddr : Z) s : option (bool * vmm A) :=
  match n with
  | O => Some (true, s)
  | S n' =>
      let paddr := u64 (physical_addr + i * PAGE_SIZE) in
      let this_vaddr := u64 (vaddr + i * PAGE_SIZE) in
      '(pt, s) ← walk_create pml4 this_vaddr s;
      match pt with
      | None => Some (false, s)
      | Some pt =>
          let page_flags := Z.lor (Z.lor (Z.lor PAGE_PRESENT PAGE_WRITABLE) PAGE_PCD) PAGE_PWT in
          mmio_loop n' (i + 1) pml4 physical_addr vaddr (write (pt + 8 * PT_INDEX this_vaddr) (Z.lor paddr page_flags) s)
      end
  end.

Fixpoint flush_loop (n : nat) (i vaddr : Z) s : vmm A :=
  match n with
  | O => s
  | S n' => flush_loop n' (i + 1) vaddr (invlpg (u64 (vaddr + i * PAGE_SIZE)) s)
  end.

Definition vmm_map_mmio (physical_addr size : Z) s : option (Z * vmm A) :=
  if hhdm_offset s =? 0 then Some (NULL, s)
  else
    let vaddr := next_mmio_vaddr s in
    let n := u64 (size + PAGE_SIZE - 1) / PAGE_SIZE in
    let s := set_next_mmio (u64 (vaddr + n * PAGE_SIZE)) s in
    '(ok, s) ← mmio_loop (Z.to_nat n) 0 (root (kernel_context s)) physical_addr vaddr s;
    if negb ok then Some (NULL, s) else Some (vaddr, flush_loop (Z.to_nat n) 0 vaddr s).

(** ** Unmapping and lookup, in the current context *)

(** The page table of [virtual_addr], if all levels are present. *)
Definition find_table s (virtual_addr : Z) : option Z :=
  let pml4 := root (contexts s !!! current_context s) in
  let e := words s (pml4 + 8 * PML4_INDEX virtual_addr) in
  if negb (has e PAGE_PRESENT) then None
  else
    let pdp := PAGE_ALIGN e in
    let e := words s (pdp + 8 * PDP_INDEX virtual_addr) in
    if negb (has e PAGE_PRESENT) then None
    else
      let pd := PAGE_ALIGN e in
      let e := words s (pd + 8 * PD_INDEX virtual_addr) in
      if negb (has e PAGE_PRESENT) then None else Some (PAGE_ALIGN e).

Definition vmm_unmap_page (virtual_addr : Z) s : vmm A :=
  if hhdm_offset s =? 0 then s
  else
    match find_table s virtual_addr with
    | None => s
    | Some pt => invlpg virtual_addr (write (pt + 8 * PT_INDEX virtual_addr) 0 s)
    end.

(** [for (vaddr = virt_start; vaddr < virt_end; vaddr += PAGE_SIZE)], both
    bounds multiples of the page size. *)
Fixpoint unmap_loop (n : nat) (vaddr virt_end : Z) s : vmm A :=
  match n with
  | O => s
  | S n' => if vaddr <? virt_end then unmap_loop n' (u64 (vaddr + PAGE_SIZE)) virt_end (vmm_unmap_page vaddr s) else s
  end.

Definition vmm_unmap (virtual_addr size : Z) s : vmm A :=
  let virt_start := PAGE_ALIGN virtual_addr in
  let virt_end := PAGE_ALIGN_UP (u64 (virtual_addr + size)) in
  unmap_loop (Z.to_nat ((virt_end - virt_start) / PAGE_SIZE)) virt_start virt_end s.

Definition vmm_get_physical_addr (virtual_addr : Z) s : Z :=
  if hhdm_offset s =? 0 then 0
  else
    match find_table s virtual_addr with
    | None => 0
    | Some pt =>
        let e := words s (pt + 8 * PT_INDEX virtual_addr) in
        if negb (has e PAGE_PRESENT) then 0
        else u64 (PAGE_ALIGN e + Z.land virtual_addr PAGE_MASK)
    end.

(** ** Contexts and registers *)

Definition vmm_get_current_context s : nat := current_context s.

Definition vmm_switch_context (context : option nat) s : vmm A :=
  match context with
  | Some c =>
      if bool_decide (c = current_context s) then s
      else Vmm A (words s) (contexts s) c (next_mmio_vaddr s) (hhdm_offset s) (cr0 s) (cr3_value (contexts s !!! c)) (cr4 s)
             (flushed s) (pages s)
  | None => s
  end.

Definition vmm_enable_paging s : vmm A :=
  Vmm A (words s) (contexts s) (current_context s) (next_mmio_vaddr s) (hhdm_offset s)
    (Z.lor (cr0 s) 0x80000000) (cr3_value (kernel_context s)) (Z.lor (cr4 s) 0xA0) (flushed s) (pages s).

End vmm.

(** ** The MMU *)

(** The indices of the four levels. *)
Definition path (v : Z) : list Z := [PML4_INDEX v; PDP_INDEX v; PD_INDEX v; PT_INDEX v].

(** Bits 12 to 51 of an entry. *)
Definition frame (e : Z) : Z := Z.land e 0xFFFFFFFFFF000.

(** Translation of [v] by table [t], of which the indices left are [l].  The
    page of a huge entry at the level of [k] more indices has 2^(12+9k) bytes;
    there is none at the first level. *)
Fixpoint translate (w : Z -> Z) (l : list Z) (t v : Z) : option Z :=
  match l with
  | [] => None
  | i :: l' =>
      let e := w (t + 8 * i) in
      if negb (has e PAGE_PRESENT) then None
      else
        match l' with
        | [] => Some (frame e + v mod 4096)
        | _ :: _ =>
            if has e PAGE_HUGE then
              let size := 2 ^ (12 + 9 * Z.of_nat (length l')) in
              if (length l' =? 3)%nat then None else Some (Z.land (frame e) (Z.lnot (size - 1)) + v mod size)
            else translate w l' (frame e) v
        end
  end.

Definition mmu (w : Z -> Z) (root v : Z) : option Z := translate w (path v) root v.

(** The table reached from [t] by the indices [l], through no huge page. *)
Fixpoint walk (w : Z -> Z) (t : Z) (l : list Z) : option Z :=
  match l with
  | [] => Some t
  | i :: l' =>
      let e := w (t + 8 * i) in
      if has e PAGE_PRESENT && negb (has e PAGE_HUGE) then walk w (frame e) l' else None
  end.

(** ** Arithmetic of entries and indices *)

(** Bit [k] of the mask of [a] ones from bit [n]. *)
Lemma mask_testbit a n k : 0 <= a -> 0 <= n -> 0 <= k -> Z.testbit (Z.shiftl (Z.ones a) n) k = (n <=? k) && (k <? n + a).
Proof.
  intros Ha Hn Hk. rewrite Z.shiftl_spec by lia. destruct (Z.leb_spec n k); cbn [andb]; [|apply Z.testbit_neg_r; lia].
  destruct (Z.ltb_spec k (n + a)); [apply Z.ones_spec_low; lia | apply Z.ones_spec_high; lia].
Qed.

Lemma testbit_above x n k : 0 <= x < 2 ^ n -> n <= k -> Z.testbit x k = false.
Proof.
  intros Hx Hk. destruct (decide (0 <= n)) as [Hn|Hn].
  - rewrite <- (Z.mod_small x (2 ^ n)) by done. apply Z.mod_pow2_bits_high. lia.
  - rewrite Z.pow_neg_r in Hx by lia. lia.
Qed.

(** Clearing the low 12 bits. *)
Lemma clear_low x a : 0 <= a -> 0 <= x < 2 ^ (12 + a) -> Z.land x (Z.shiftl (Z.ones a) 12) = x - x mod 4096.
Proof.
  intros Ha Hx. assert (E : Z.land x (Z.shiftl (Z.ones a) 12) = Z.ldiff x (Z.ones 12)).
  { apply Z.bits_inj'. intros k Hk. rewrite Z.land_spec, Z.ldiff_spec, mask_testbit by lia.
    destruct (Z.ltb_spec k 12).
    - rewrite Z.ones_spec_low by lia. destruct (Z.leb_spec 12 k); [lia | done].
    - rewrite (Z.ones_spec_high 12) by lia. destruct (Z.leb_spec 12 k); [|lia]. cbn [andb negb].
      destruct (Z.ltb_spec k (12 + a)); [done |]. by rewrite (testbit_above x (12 + a) k) by lia. }
  rewrite E, Z.ldiff_ones_r by lia. rewrite Z.shiftr_div_pow2, Z.shiftl_mul_pow2 by lia. change (2 ^ 12) with 4096. clear. zlia.
Qed.

Lemma PAGE_ALIGN_eq x : 0 <= x < 0x10000000000000000 -> PAGE_ALIGN x = x - x mod 4096.
Proof. intros Hx. unfold PAGE_ALIGN. change 0xFFFFFFFFFFFFF000 with (Z.shiftl (Z.ones 52) 12). by apply clear_low. Qed.

Lemma frame_eq e : 0 <= e < 2 ^ 52 -> frame e = e - e mod 4096.
Proof. intros He. unfold frame. change 0xFFFFFFFFFF000 with (Z.shiftl (Z.ones 40) 12). by apply clear_low. Qed.

Lemma frame_aligned e : frame e mod 4096 = 0 /\ 0 <= frame e < 2 ^ 52.
Proof.
  unfold frame. change 4096 with (2 ^ 12). split.
  - rewrite <- Z.land_ones by lia. rewrite <- Z.land_assoc. change (Z.land 0xFFFFFFFFFF000 (Z.ones 12)) with 0. apply Z.land_0_r.
  - split; [apply Z.land_nonneg; right; lia |]. change 0xFFFFFFFFFF000 with (Z.land 0xFFFFFFFFFF000 (Z.ones 52)).
    rewrite Z.land_assoc, Z.land_ones by lia. apply Z.mod_pos_bound. lia.
Qed.

(** An entry made of a page address and flags in the low 12 bits. *)
Lemma entry_lor t f : t mod 4096 = 0 -> 0 <= f < 4096 -> Z.lor t f = t + f.
Proof.
  intros Ht Hf. replace t with (Z.shiftl (t / 4096) 12) by (rewrite Z.shiftl_mul_pow2 by lia; change (2 ^ 12) with 4096; zlia).
  rewrite <- Z.add_lor_land. assert (Z.land (Z.shiftl (t / 4096) 12) f = 0) as ->; [|lia].
  apply Z.bits_inj'. intros k Hk. rewrite Z.land_spec, Z.bits_0. destruct (Z.ltb_spec k 12).
  - by rewrite Z.shiftl_spec_low.
  - rewrite (testbit_above f 12 k) by lia. apply andb_false_r.
Qed.

Lemma has_add t f flag : t mod 4096 = 0 -> 0 <= f < 4096 -> 0 <= flag < 4096 -> has (t + f) flag = has f flag.
Proof.
  intros Ht Hf Hg. unfold has. do 2 f_equal.
  apply Z.bits_inj'. intros k Hk. rewrite !Z.land_spec. destruct (Z.ltb_spec k 12).
  - f_equal. rewrite <- (Z.mod_pow2_bits_low (t + f) 12), <- (Z.mod_pow2_bits_low f 12) by lia.
    f_equal. change (2 ^ 12) with 4096. zlia.
  - rewrite (testbit_above flag 12 k) by lia. by rewrite !andb_false_r.
Qed.

Lemma has_0 flag : has 0 flag = false.
Proof. unfold has. by rewrite Z.land_0_l. Qed.

Lemma index_eq v k : 0 <= k -> Z.land (Z.shiftr v k) 0x1FF = v / 2 ^ k mod 512.
Proof. intros Hk. change 0x1FF with (Z.ones 9). rewrite Z.land_ones, Z.shiftr_div_pow2 by lia. done. Qed.

(** Two addresses have the same indices when they agree on bits 12 to 47. *)
Definition page_number (v : Z) : Z := v / 4096 mod 2 ^ 36.

Lemma path_eq v v' : path v = path v' <-> page_number v = page_number v'.
Proof.
  unfold path, PML4_INDEX, PDP_INDEX, PD_INDEX, PT_INDEX, page_number. rewrite !index_eq by lia.
  replace (2 ^ 39) with (4096 * 2 ^ 27) by lia. replace (2 ^ 30) with (4096 * 2 ^ 18) by lia.
  replace (2 ^ 21) with (4096 * 2 ^ 9) by lia. change (2 ^ 12) with 4096. rewrite <- !Z.div_div by lia.
  set (a := v / 4096). set (b := v' / 4096). clearbody a b.
  change (2 ^ 36) with 0x1000000000. change (2 ^ 27) with 0x8000000. change (2 ^ 18) with 0x40000. change (2 ^ 9) with 0x200. split.
  - intros [= E1 E2 E3 E4]. zlia.
  - intros E. f_equal; [zlia |]. f_equal; [zlia |]. f_equal; [zlia |]. f_equal. zlia.
Qed.

Definition index_range (i : Z) : Prop := 0 <= i < 512.

Lemma path_range v : Forall index_range (path v).
Proof.
  unfold path, PML4_INDEX, PDP_INDEX, PD_INDEX, PT_INDEX, index_range. rewrite !index_eq by lia. repeat constructor; zlia.
Qed.

Lemma word_address t i t' i' :
  t mod 4096 = 0 -> t' mod 4096 = 0 -> index_range i -> index_range i' -> t + 8 * i = t' + 8 * i' -> t = t' /\ i = i'.
Proof. unfold index_range. intros. zlia. Qed.

(** ** Walks *)

Lemma walk_app w t p q : walk w t (p ++ q) = match walk w t p with Some t' => walk w t' q | None => None end.
Proof.
  revert t. induction p as [|i p IH]; intros t; [done |]. cbn [walk app]. cbv zeta.
  destruct (has (w (t + 8 * i)) PAGE_PRESENT && negb (has (w (t + 8 * i)) PAGE_HUGE)); [apply IH | done].
Qed.

Lemma walk_snoc w t p i :
  walk w t (p ++ [i]) =
    match walk w t p with
    | Some t' => let e := w (t' + 8 * i) in if has e PAGE_PRESENT && negb (has e PAGE_HUGE) then Some (frame e) else None
    | None => None
    end.
Proof. rewrite walk_app. by destruct (walk w t p). Qed.

Lemma walk_prefix w t p q t' : walk w t (p ++ q) = Some t' -> exists u, walk w t p = Some u.
Proof. rewrite walk_app. destruct (walk w t p); [by eexists | done]. Qed.

Lemma walk_aligned w t p t' : t mod 4096 = 0 -> walk w t p = Some t' -> t' mod 4096 = 0.
Proof.
  intros Ht. induction p as [|i p _] using rev_ind; [by intros [= <-] |].
  rewrite walk_snoc. destruct (walk w t p); [|done]. cbv zeta. case_match; [|done]. intros [= <-]. apply frame_aligned.
Qed.

(** Translation depends on the words on the path only. *)
Lemma translate_ext w w' r v l : forall pre t,
  walk w r pre = Some t ->
  (forall p i q t', l = p ++ i :: q -> walk w r (pre ++ p) = Some t' -> w' (t' + 8 * i) = w (t' + 8 * i)) ->
  translate w' l t v = translate w l t v.
Proof.
  induction l as [|i l IH]; intros pre t Hpre Hw; [done |]. cbn [translate]. cbv zeta.
  rewrite (Hw [] i l t eq_refl) by (by rewrite app_nil_r). destruct (has (w (t + 8 * i)) PAGE_PRESENT) eqn:Ep; [|done]. cbn [negb].
  destruct l as [|j l]; [done |]. destruct (has (w (t + 8 * i)) PAGE_HUGE) eqn:Eh; [done |].
  apply (IH (pre ++ [i])).
  - rewrite walk_snoc, Hpre. cbv zeta. by rewrite Ep, Eh.
  - intros p j' q t' E Hp. apply (Hw (i :: p) j' q t'); [by rewrite E |]. by rewrite <- app_assoc in Hp.
Qed.

Lemma translate_app w r v p l t : walk w r p = Some t -> l <> [] -> translate w (p ++ l) r v = translate w l t v.
Proof.
  revert r. induction p as [|i p IH]; intros r Hp Hl; [by injection Hp as -> |]. cbn [walk app translate] in *. cbv zeta in *.
  destruct (has (w (r + 8 * i)) PAGE_PRESENT); [|done]. cbn [andb negb] in *.
  destruct (has (w (r + 8 * i)) PAGE_HUGE); [done |]. cbn [negb] in Hp.
  destruct (p ++ l) as [|j q] eqn:E; [by destruct p, l |]. by apply IH.
Qed.

(** ** The invariant *)

(** The page tables below [r]: no table is reached in two ways, and the entries
    for tables have no bits above the address ([PAGE_ALIGN] keeps them). *)
Record tables_ok (w : Z -> Z) (r : Z) : Prop := {
  tb_root : r mod 4096 = 0 /\ 0 <= r < 2 ^ 52;
  tb_inj : forall p q t, Forall index_range p -> Forall index_range q -> (length p <= 3)%nat -> (length q <= 3)%nat ->
    walk w r p = Some t -> walk w r q = Some t -> p = q;
  tb_range : forall p t i, Forall index_range p -> index_range i -> (length p <= 2)%nat -> walk w r p = Some t ->
    has (w (t + 8 * i)) PAGE_PRESENT = true -> has (w (t + 8 * i)) PAGE_HUGE = false -> 0 <= w (t + 8 * i) < 2 ^ 52
}.

(** [t] is a table. *)
Definition table (w : Z -> Z) (r t : Z) : Prop := exists p, Forall index_range p /\ (length p <= 3)%nat /\ walk w r p = Some t.

(** No huge page on the way to the page table of [v]. *)
Definition clear_path (w : Z -> Z) (r v : Z) : Prop :=
  forall p i q t, path v = p ++ i :: q -> q <> [] -> walk w r p = Some t ->
    has (w (t + 8 * i)) PAGE_PRESENT = true -> has (w (t + 8 * i)) PAGE_HUGE = false.

(** [w'] is [w] but for the entry [i0] of the table at [p0] and addresses in [N]
    that belong to no table. *)
Record changed (w w' : Z -> Z) (r : Z) (p0 : list Z) (t0 i0 : Z) (N : Z -> Prop) : Prop := {
  ch_table : walk w r p0 = Some t0;
  ch_path : Forall index_range p0 /\ index_range i0 /\ (length p0 <= 3)%nat;
  ch_same : forall a, a <> t0 + 8 * i0 -> ~ N a -> w' a = w a;
  ch_out : forall t i, table w r t -> index_range i -> ~ N (t + 8 * i)
}.

Section changes.
Context (w w' : Z -> Z) (r : Z) (p0 : list Z) (t0 i0 : Z) (N : Z -> Prop).
Hypothesis (Hok : tables_ok w r) (Hch : changed w w' r p0 t0 i0 N).

Lemma word_same p i t :
  Forall index_range p -> index_range i -> (length p <= 3)%nat -> walk w r p = Some t -> (p, i) <> (p0, i0) -> w' (t + 8 * i) = w (t + 8 * i).
Proof.
  intros Hp Hi Hl Hw Hne. destruct Hch as [Ht0 (Hp0 & Hi0 & Hl0) Hs Ho]. destruct (tb_root _ _ Hok) as [Hr _]. apply Hs.
  - intros E. apply word_address in E as [-> ->]; [| by eapply walk_aligned | by eapply walk_aligned | done | done].
    apply Hne. f_equal. by eapply (tb_inj _ _ Hok).
  - apply Ho; [by exists p | done].
Qed.

(** Walks that do not go through the changed entry are the same. *)
Lemma walk_same p : Forall index_range p -> (length p <= 4)%nat -> ~ (p0 ++ [i0]) `prefix_of` p -> walk w' r p = walk w r p.
Proof.
  induction p as [|i p IH] using rev_ind; intros Hp Hl Hn; [done |].
  apply Forall_app in Hp as [Hp Hi]. rewrite Forall_singleton in Hi. rewrite length_app in Hl. cbn [length] in Hl.
  rewrite !walk_snoc, IH; [| done | lia | intros Hx; apply Hn; by apply prefix_app_r].
  destruct (walk w r p) as [t|] eqn:E; [|done]. cbv zeta. rewrite (word_same p i t); try done; [lia |].
  intros [= -> ->]. by apply Hn.
Qed.

(** Translations too. *)
Lemma mmu_same v : ~ (p0 ++ [i0]) `prefix_of` path v -> mmu w' r v = mmu w r v.
Proof.
  intros Hn. unfold mmu. apply (translate_ext w w' r v (path v) [] r); [done |]. cbn [app].
  intros p i q t E Hw. pose proof (path_range v) as Hr. rewrite E in Hr. apply Forall_app in Hr as [Hp Hr].
  inversion Hr as [|? ? Hi _]; subst. assert (Hl : length (path v) = 4%nat) by done. rewrite E, length_app in Hl. cbn [length] in Hl.
  apply (word_same p i t); [done | done | lia | done |]. intros [= -> ->]. apply Hn. rewrite E. exists q. by rewrite <- app_assoc.
Qed.

End changes.

Lemma not_prefix_longer {X} (p q : list X) : (length q < length p)%nat -> ~ p `prefix_of` q.
Proof. intros H Hp. apply prefix_length in Hp. lia. Qed.

Lemma prefix_snoc (p0 : list Z) i0 p : (p0 ++ [i0]) `prefix_of` p -> exists q, p = p0 ++ i0 :: q.
Proof. intros [q ->]. exists q. by rewrite <- app_assoc. Qed.

(** ** Writing a page table *)

Lemma leaf_ok w w' r p0 t0 i0 :
  tables_ok w r -> changed w w' r p0 t0 i0 (fun _ => False) -> length p0 = 3%nat ->
  tables_ok w' r /\ (forall p, Forall index_range p -> (length p <= 3)%nat -> walk w' r p = walk w r p) /\
  (forall v, clear_path w r v -> clear_path w' r v).
Proof.
  intros Hok Hch Hl. assert (Hwalk : forall p, Forall index_range p -> (length p <= 3)%nat -> walk w' r p = walk w r p).
  { intros p Hp Hl'. eapply walk_same; [exact Hok | exact Hch | done | lia |]. apply not_prefix_longer. rewrite length_app. cbn. lia. }
  split; [|split; [exact Hwalk |]].
  - split; [apply Hok | |].
    + intros p q t Hp Hq Hlp Hlq. rewrite !Hwalk by done. by apply (tb_inj _ _ Hok).
    + intros p t i Hp Hi Hlp. rewrite Hwalk by (done || lia). intros Hw.
      rewrite (word_same w w' r p0 t0 i0 _ Hok Hch p i t) by (done || lia || (intros [= -> ->]; lia)).
      by apply (tb_range _ _ Hok p t i).
  - intros v Hc p i q t E Hq. pose proof (path_range v) as Hr. rewrite E in Hr. apply Forall_app in Hr as [Hp Hr].
    inversion Hr as [|? ? Hi _]; subst. assert (Hlv : length (path v) = 4%nat) by done. rewrite E, length_app in Hlv. cbn [length] in Hlv.
    assert (length q <> 0%nat) by (by destruct q). rewrite Hwalk by (done || lia). intros Hw.
    rewrite (word_same w w' r p0 t0 i0 _ Hok Hch p i t) by (done || lia || (intros [= -> ->]; lia)).
    by apply (Hc p i q t E Hq).
Qed.

(** What the translations become: those of the page of [v0] are given by the
    new entry. *)
Lemma leaf_mmu w w' r p0 t0 i0 v0 :
  tables_ok w r -> changed w w' r p0 t0 i0 (fun _ => False) -> path v0 = p0 ++ [i0] -> length p0 = 3%nat ->
  forall v, mmu w' r v =
    if decide (path v = path v0)
    then (if has (w' (t0 + 8 * i0)) PAGE_PRESENT then Some (frame (w' (t0 + 8 * i0)) + v mod 4096) else None)
    else mmu w r v.
Proof.
  intros Hok Hch Ep Hl v. destruct (decide (path v = path v0)) as [E|Hne].
  - destruct (leaf_ok w w' r p0 t0 i0 Hok Hch Hl) as (_ & Hwalk & _).
    unfold mmu. rewrite E, Ep. rewrite (translate_app w' r v p0 [i0] t0); [| |done].
    + cbn [translate]. cbv zeta. by destruct (has (w' (t0 + 8 * i0)) PAGE_PRESENT).
    + rewrite Hwalk; [apply Hch | apply Hch | lia].
  - eapply mmu_same; [exact Hok | exact Hch |]. intros [q Hq]. apply Hne. rewrite Ep, Hq.
    assert (Hlv : length (path v) = 4%nat) by done. rewrite Hq, !length_app in Hlv. cbn in Hlv.
    destruct q; [by rewrite app_nil_r | cbn in Hlv; lia].
Qed.

(** ** Adding a table *)

(** The entry at [p0], [i0], not present before, points to the cleared page [n]. *)
Record added (w w' : Z -> Z) (r : Z) (p0 : list Z) (t0 i0 n : Z) : Prop := {
  ad_changed : changed w w' r p0 t0 i0 (fun a => n <= a < n + 4096);
  ad_level : (length p0 <= 2)%nat;
  ad_absent : has (w (t0 + 8 * i0)) PAGE_PRESENT = false;
  ad_page : n mod 4096 = 0 /\ 0 < n < 2 ^ 52;
  ad_fresh : ~ table w r n;
  ad_entry : w' (t0 + 8 * i0) = n + 3;
  ad_clear : forall i, index_range i -> w' (n + 8 * i) = 0
}.

Section adding.
Context (w w' : Z -> Z) (r : Z) (p0 : list Z) (t0 i0 n : Z).
Hypothesis (Hok : tables_ok w r) (Had : added w w' r p0 t0 i0 n).
Let Hch := ad_changed _ _ _ _ _ _ _ Had.

Lemma new_entry_facts : has (n + 3) PAGE_PRESENT = true /\ has (n + 3) PAGE_HUGE = false /\ frame (n + 3) = n /\ 0 <= n + 3 < 2 ^ 52.
Proof.
  destruct (ad_page _ _ _ _ _ _ _ Had) as [Hn Hn']. assert (n + 3 < 2 ^ 52) by (change (2 ^ 52) with 0x10000000000000 in *; clear - Hn Hn'; zlia).
  split_and!; [by rewrite has_add by (done || lia) | by rewrite has_add by (done || lia) | | lia | done].
  rewrite frame_eq by lia. clear - Hn. zlia.
Qed.

Lemma added_walk_new : walk w' r (p0 ++ [i0]) = Some n.
Proof.
  destruct (ch_path _ _ _ _ _ _ _ Hch) as (Hp0 & Hi0 & Hl0). destruct new_entry_facts as (E1 & E2 & E3 & _).
  rewrite walk_snoc. rewrite (walk_same w w' r p0 t0 i0 _ Hok Hch p0); [| done | lia | apply not_prefix_longer; rewrite length_app; cbn; lia].
  rewrite (ch_table _ _ _ _ _ _ _ Hch). cbv zeta. rewrite (ad_entry _ _ _ _ _ _ _ Had), E1, E2. cbn. by rewrite E3.
Qed.

Lemma added_walk p : Forall index_range p -> (length p <= 3)%nat ->
  walk w' r p = if decide (p = p0 ++ [i0]) then Some n else walk w r p.
Proof.
  intros Hp Hl. destruct (decide (p = p0 ++ [i0])) as [->|Hne]; [apply added_walk_new |].
  destruct (decide ((p0 ++ [i0]) `prefix_of` p)) as [[q ->]|Hn].
  - destruct q as [|j q]; [by rewrite app_nil_r in Hne |]. rewrite (walk_app w').
    rewrite added_walk_new. apply Forall_app in Hp as [_ Hq]. inversion Hq as [|? ? Hj _]; subst.
    assert (walk w' n (j :: q) = None) as ->.
    { cbn [walk]. cbv zeta. by rewrite (ad_clear _ _ _ _ _ _ _ Had j Hj), has_0. }
    rewrite walk_app, walk_snoc, (ch_table _ _ _ _ _ _ _ Hch). cbv zeta. by rewrite (ad_absent _ _ _ _ _ _ _ Had).
  - eapply walk_same; [exact Hok | exact Hch | done | lia | done].
Qed.

Lemma added_tables_ok : tables_ok w' r.
Proof.
  destruct new_entry_facts as (E1 & E2 & E3 & E4). split; [apply Hok | |].
  - intros p q t Hp Hq Hlp Hlq. rewrite !added_walk by done.
    destruct (decide (p = _)) as [->|Hpn], (decide (q = _)) as [->|Hqn]; [done | | |].
    + intros [= <-] Hw. exfalso. apply (ad_fresh _ _ _ _ _ _ _ Had). by exists q.
    + intros Hw [= <-]. exfalso. apply (ad_fresh _ _ _ _ _ _ _ Had). by exists p.
    + by apply (tb_inj _ _ Hok).
  - intros p t i Hp Hi Hlp. rewrite added_walk by (done || lia). destruct (decide (p = _)) as [->|Hpn].
    + intros [= <-]. by rewrite (ad_clear _ _ _ _ _ _ _ Had i Hi), has_0.
    + intros Hw. destruct (decide ((p, i) = (p0, i0))) as [[= -> ->]|Hne].
      * rewrite (ch_table _ _ _ _ _ _ _ Hch) in Hw. injection Hw as <-. by rewrite (ad_entry _ _ _ _ _ _ _ Had).
      * rewrite (word_same w w' r p0 t0 i0 _ Hok Hch p i t) by (done || lia). by apply (tb_range _ _ Hok p t i).
Qed.

Lemma added_table u : table w' r u -> u = n \/ table w r u.
Proof.
  intros (p & Hp & Hl & Hw). rewrite added_walk in Hw by done. destruct (decide _); [left; congruence | right; by exists p].
Qed.

Lemma added_clear v : clear_path w r v -> clear_path w' r v.
Proof.
  intros Hc p i q t E Hq. pose proof (path_range v) as Hr. rewrite E in Hr. apply Forall_app in Hr as [Hp Hr].
  inversion Hr as [|? ? Hi _]; subst. assert (Hlv : length (path v) = 4%nat) by done. rewrite E, length_app in Hlv. cbn [length] in Hlv.
  rewrite added_walk by (done || lia). destruct (decide (p = _)) as [->|Hpn].
  - intros [= <-]. by rewrite (ad_clear _ _ _ _ _ _ _ Had i Hi), has_0.
  - intros Hw. destruct (decide ((p, i) = (p0, i0))) as [[= -> ->]|Hne].
    + rewrite (ch_table _ _ _ _ _ _ _ Hch) in Hw. injection Hw as <-. rewrite (ad_entry _ _ _ _ _ _ _ Had). intros _. apply new_entry_facts.
    + rewrite (word_same w w' r p0 t0 i0 _ Hok Hch p i t) by (done || lia). by apply (Hc p i q t E Hq).
Qed.

Lemma added_mmu v : mmu w' r v = mmu w r v.
Proof.
  destruct (decide ((p0 ++ [i0]) `prefix_of` path v)) as [[q Eq]|Hn]; [|eapply mmu_same; [exact Hok | exact Hch | done]].
  assert (Hlv : length (path v) = 4%nat) by done. pose proof (path_range v) as Hr. rewrite Eq in Hr. apply Forall_app in Hr as [_ Hq].
  rewrite Eq, !length_app in Hlv. cbn in Hlv. pose proof (ad_level _ _ _ _ _ _ _ Had).
  destruct q as [|j q]; [cbn in Hlv; lia |]. inversion Hq as [|? ? Hj _]; subst.
  unfold mmu. rewrite Eq. rewrite (translate_app w' r v (p0 ++ [i0]) (j :: q) n added_walk_new) by done.
  rewrite <- app_assoc. rewrite (translate_app w r v p0 ([i0] ++ j :: q) t0 (ch_table _ _ _ _ _ _ _ Hch)) by done.
  cbn [translate app]. cbv zeta. by rewrite (ad_clear _ _ _ _ _ _ _ Had j Hj), has_0, (ad_absent _ _ _ _ _ _ _ Had).
Qed.

End adding.

(** ** The operations *)

Section operations.
Context {A : Type} `{PageAllocatorLaws A}.
Implicit Types s : vmm A.

(** The tables below [r] are in order and none of their pages can be handed out. *)
Record vm_ok (r : Z) s : Prop := {
  vo_tables : tables_ok (words s) r;
  vo_pages : pa_ok (pages s);
  vo_taken : forall t, table (words s) r t -> ~ pa_free (pages s) t
}.

(** Only the memory and the allocator differ. *)
Definition same_rest s s' : Prop := s' = set_words (words s') (set_pages (pages s') s).

Lemma same_rest_refl s : same_rest s s.
Proof. by destruct s. Qed.
Lemma same_rest_trans s1 s2 s3 : same_rest s1 s2 -> same_rest s2 s3 -> same_rest s1 s3.
Proof. unfold same_rest. intros E1 E2. rewrite E2. cbn [words pages set_words set_pages]. by rewrite E1. Qed.
Lemma same_rest_fields s s' : same_rest s s' ->
  contexts s' = contexts s /\ current_context s' = current_context s /\ next_mmio_vaddr s' = next_mmio_vaddr s /\
  hhdm_offset s' = hhdm_offset s /\ flushed s' = flushed s.
Proof. intros ->. done. Qed.

(** The state after [s], with the same translations. *)
Record quiet_step (r : Z) s s' : Prop := {
  qs_ok : vm_ok r s';
  qs_mmu : forall v, mmu (words s') r v = mmu (words s) r v;
  qs_clear : forall v, clear_path (words s) r v -> clear_path (words s') r v;
  qs_rest : same_rest s s'
}.

Lemma quiet_refl r s : vm_ok r s -> quiet_step r s s.
Proof. intros Hs. split; [done | done | done | apply same_rest_refl]. Qed.
Lemma quiet_trans r s1 s2 s3 : quiet_step r s1 s2 -> quiet_step r s2 s3 -> quiet_step r s1 s3.
Proof.
  intros [A1 A2 A3 A4] [B1 B2 B3 B4]. split; [done | intros v; by rewrite B2 | auto | by eapply same_rest_trans].
Qed.

(** One level: the table is found, or added, or no page is left. *)
Lemma next_table_ok r s p0 i0 t0 v q :
  vm_ok r s -> walk (words s) r p0 = Some t0 -> path v = p0 ++ i0 :: q -> q <> [] -> clear_path (words s) r v ->
  exists o s', next_table t0 i0 s = Some (o, s') /\ quiet_step r s s' /\
    match o with Some t1 => walk (words s') r (p0 ++ [i0]) = Some t1 | None => True end.
Proof.
  intros Hs Hw E Hq Hc. assert (Hlv : length (path v) = 4%nat) by done.
  pose proof (path_range v) as Hr. rewrite E in Hr. apply Forall_app in Hr as [Hp Hi]. inversion Hi as [|? ? Hi0 _]; subst.
  rewrite E, length_app in Hlv. cbn in Hlv. assert (length q <> 0%nat) by (by destruct q).
  unfold next_table. destruct (has (words s (t0 + 8 * i0)) PAGE_PRESENT) eqn:Ep.
  - pose proof (Hc p0 i0 q t0 E Hq Hw Ep) as Eh. eexists _, s. split; [done |]. split; [by apply quiet_refl |].
    rewrite walk_snoc, Hw. cbv zeta. rewrite Ep, Eh. cbn. f_equal.
    pose proof (tb_range _ _ (vo_tables _ _ Hs) p0 t0 i0 Hp Hi0 ltac:(lia) Hw Ep Eh) as Hrange.
    rewrite frame_eq by done. by rewrite PAGE_ALIGN_eq by lia.
  - destruct (pa_alloc (pages s) (vo_pages _ _ Hs)) as (n & a & -> & Ha & Hn). cbn [mbind option_bind].
    destruct Hn as [[-> Hn]|(Hal & Hn & Hfree & Hnot & Hmono)].
    + cbn. eexists None, _. split; [done |]. split; [|done]. split; [|done | done | done].
      split; [apply Hs | exact Ha |]. intros t Ht Hft. apply (vo_taken _ _ Hs t Ht), Hn, Hft.
    + destruct (Z.eqb_spec n NULL) as [->|_]; [by unfold NULL in Hn; lia |].
      assert (Z.lor (Z.lor n PAGE_PRESENT) PAGE_WRITABLE = n + 3) as ->.
      { rewrite <- Z.lor_assoc. change (Z.lor PAGE_PRESENT PAGE_WRITABLE) with 3. by rewrite entry_lor by (done || lia). }
      set (s' := write _ _ _).
      assert (Hfresh : ~ table (words s) r n) by (intros Ht; by apply (vo_taken _ _ Hs n Ht)).
      assert (Hal0 : t0 mod 4096 = 0) by (eapply walk_aligned; [|exact Hw]; apply (tb_root _ _ (vo_tables _ _ Hs))).
      assert (Hout : forall t i, table (words s) r t -> index_range i -> ~ (n <= t + 8 * i < n + 4096)).
      { intros t i Ht Hi' Hx. assert (t mod 4096 = 0) by (destruct Ht as (p & _ & _ & Hp'); eapply walk_aligned; [|exact Hp']; apply (tb_root _ _ (vo_tables _ _ Hs))).
        assert (t = n) as -> by (unfold index_range in Hi'; clear -Hi' Hx Hal H2; zlia). done. }
      assert (Ht0 : table (words s) r t0) by (exists p0; split_and!; [done | lia | done]).
      assert (Had : added (words s) (words s') r p0 t0 i0 n).
      { split; [split; [done | split_and!; [done | done | lia] | | exact Hout] | lia | done | by split | done | |].
        - intros b Hb Hb'. subst s'. cbn. destruct (Z.eqb_spec b (t0 + 8 * i0)); [done |].
          unfold PAGE_SIZE. destruct (Z.leb_spec n b), (Z.ltb_spec b (n + 4096)); cbn; try done. exfalso. apply Hb'. lia.
        - subst s'. cbn. by rewrite Z.eqb_refl.
        - intros i Hi'. subst s'. cbn. destruct (Z.eqb_spec (n + 8 * i) (t0 + 8 * i0)) as [Ex|_].
          + exfalso. apply (Hout t0 i0 Ht0 Hi0). unfold index_range in Hi'. lia.
          + unfold PAGE_SIZE. unfold index_range in Hi'. destruct (Z.leb_spec n (n + 8 * i)), (Z.ltb_spec (n + 8 * i) (n + 4096)); cbn; try done; lia. }
      eexists (Some n), s'. split; [done |]. pose proof (vo_tables _ _ Hs) as Htb. split; [split |].
      * split; [by eapply added_tables_ok | exact Ha |]. intros t Ht Hft.
        destruct (added_table _ _ _ _ _ _ _ Htb Had t Ht) as [->|Ht']; [done |]. by apply (vo_taken _ _ Hs t Ht'), Hmono.
      * intros v'. by eapply added_mmu.
      * intros v'. by eapply added_clear.
      * done.
      * by eapply added_walk_new.
Qed.

(** The walk of the mapping functions. *)
Lemma walk_create_ok r s v :
  vm_ok r s -> clear_path (words s) r v ->
  exists o s', walk_create r v s = Some (o, s') /\ quiet_step r s s' /\
    match o with Some pt => walk (words s') r [PML4_INDEX v; PDP_INDEX v; PD_INDEX v] = Some pt | None => True end.
Proof.
  intros Hs Hc. unfold walk_create.
  destruct (next_table_ok r s [] (PML4_INDEX v) r v [PDP_INDEX v; PD_INDEX v; PT_INDEX v] Hs eq_refl eq_refl ltac:(done) Hc)
    as (o1 & s1 & -> & Q1 & W1). cbn [mbind option_bind]. destruct o1 as [t1|]; [|by exists None, s1].
  destruct (next_table_ok r s1 [PML4_INDEX v] (PDP_INDEX v) t1 v [PD_INDEX v; PT_INDEX v] (qs_ok _ _ _ Q1) W1 eq_refl ltac:(done) (qs_clear _ _ _ Q1 v Hc))
    as (o2 & s2 & -> & Q2 & W2). cbn [mbind option_bind]. pose proof (quiet_trans _ _ _ _ Q1 Q2) as Q12.
  destruct o2 as [t2|]; [|by exists None, s2].
  destruct (next_table_ok r s2 [PML4_INDEX v; PDP_INDEX v] (PD_INDEX v) t2 v [PT_INDEX v] (qs_ok _ _ _ Q2) W2 eq_refl ltac:(done) (qs_clear _ _ _ Q12 v Hc))
    as (o3 & s3 & -> & Q3 & W3). pose proof (quiet_trans _ _ _ _ Q12 Q3) as Q123. by exists o3, s3.
Qed.

(** Writing the entry of [v] in its page table. *)
Lemma write_leaf_ok r s v pt x :
  vm_ok r s -> walk (words s) r [PML4_INDEX v; PDP_INDEX v; PD_INDEX v] = Some pt ->
  let s' := write (pt + 8 * PT_INDEX v) x s in
  vm_ok r s' /\ (forall v', clear_path (words s) r v' -> clear_path (words s') r v') /\
  walk (words s') r [PML4_INDEX v; PDP_INDEX v; PD_INDEX v] = Some pt /\
  forall v', mmu (words s') r v' =
    if decide (path v' = path v) then (if has x PAGE_PRESENT then Some (frame x + v' mod 4096) else None) else mmu (words s) r v'.
Proof.
  intros Hs Hw s'. set (p0 := [PML4_INDEX v; PDP_INDEX v; PD_INDEX v]) in *.
  assert (Ep : path v = p0 ++ [PT_INDEX v]) by done. pose proof (path_range v) as Hr. rewrite Ep in Hr. apply Forall_app in Hr as [Hp Hi].
  rewrite Forall_singleton in Hi. pose proof (vo_tables _ _ Hs) as Htb.
  assert (Hch : changed (words s) (words s') r p0 pt (PT_INDEX v) (fun _ => False)).
  { split; [done | by split_and! | | by intros ? ? ? ? []]. intros b Hb _. subst s'. cbn. by destruct (Z.eqb_spec b (pt + 8 * PT_INDEX v)). }
  destruct (leaf_ok _ _ _ _ _ _ Htb Hch eq_refl) as (H1' & H2' & H3').
  split; [|split; [exact H3' |]]; [|split; [by rewrite H2' |]].
  - split; [done | apply Hs |]. intros t (p & Hp' & Hl & Hwt). rewrite H2' in Hwt by done.
    apply (vo_taken _ _ Hs). by exists p.
  - intros v'. rewrite (leaf_mmu _ _ _ _ _ _ v Htb Hch Ep eq_refl v').
    assert (words s' (pt + 8 * PT_INDEX v) = x) as -> by (subst s'; cbn; by rewrite Z.eqb_refl). done.
Qed.

(** A page address with the flags of a mapping. *)
Lemma leaf_entry phys f :
  phys mod 4096 = 0 -> 0 <= phys < 2 ^ 52 -> 0 <= f < 4096 -> Z.odd f = true ->
  has (Z.lor phys f) PAGE_PRESENT = true /\ frame (Z.lor phys f) = phys /\ 0 <= Z.lor phys f < 2 ^ 52.
Proof.
  intros Ha Hp Hf Ho. rewrite entry_lor by done.
  assert (phys + f < 2 ^ 52) by (change (2 ^ 52) with 0x10000000000000 in *; clear - Ha Hp Hf; zlia).
  split; [|split; [|lia]].
  - rewrite has_add; [|done|done|done]. unfold has, PAGE_PRESENT. change 1 with (Z.ones 1). rewrite Z.land_ones by lia.
    change (2 ^ 1) with 2. rewrite Zmod_odd, Ho. done.
  - rewrite frame_eq by lia. clear - Ha Hf. zlia.
Qed.

(** *** Lookup *)

Lemma mmu_leaf w r v :
  clear_path w r v ->
  mmu w r v =
    match walk w r [PML4_INDEX v; PDP_INDEX v; PD_INDEX v] with
    | Some pt => let e := w (pt + 8 * PT_INDEX v) in if has e PAGE_PRESENT then Some (frame e + v mod 4096) else None
    | None => None
    end.
Proof.
  intros Hc. unfold mmu, path. cbn [translate walk]. cbv zeta.
  destruct (has (w (r + 8 * PML4_INDEX v)) PAGE_PRESENT) eqn:E1; [|done]. cbn [negb andb].
  assert (W1 : has (w (r + 8 * PML4_INDEX v)) PAGE_HUGE = false) by (by apply (Hc [] (PML4_INDEX v) [PDP_INDEX v; PD_INDEX v; PT_INDEX v] r)).
  rewrite W1. cbn [negb]. set (t1 := frame _).
  destruct (has (w (t1 + 8 * PDP_INDEX v)) PAGE_PRESENT) eqn:E2; [|done]. cbn [negb andb].
  assert (Hw1 : walk w r [PML4_INDEX v] = Some t1) by (cbn [walk]; cbv zeta; by rewrite E1, W1).
  assert (W2 : has (w (t1 + 8 * PDP_INDEX v)) PAGE_HUGE = false) by (by apply (Hc [PML4_INDEX v] (PDP_INDEX v) [PD_INDEX v; PT_INDEX v] t1)).
  rewrite W2. cbn [negb]. set (t2 := frame (w (t1 + 8 * PDP_INDEX v))).
  destruct (has (w (t2 + 8 * PD_INDEX v)) PAGE_PRESENT) eqn:E3; [|done]. cbn [negb andb].
  assert (Hw2 : walk w r [PML4_INDEX v; PDP_INDEX v] = Some t2).
  { change [PML4_INDEX v; PDP_INDEX v] with ([PML4_INDEX v] ++ [PDP_INDEX v]). rewrite walk_snoc, Hw1. cbv zeta. by rewrite E2, W2. }
  assert (W3 : has (w (t2 + 8 * PD_INDEX v)) PAGE_HUGE = false) by (by apply (Hc [PML4_INDEX v; PDP_INDEX v] (PD_INDEX v) [PT_INDEX v] t2)).
  rewrite W3. cbn [negb]. by destruct (has (w (frame (w (t2 + 8 * PD_INDEX v)) + 8 * PT_INDEX v)) PAGE_PRESENT).
Qed.

(** The root of the current context. *)
Definition current_root s : Z := root (contexts s !!! current_context s).

(** One level of [find_table]. *)
Lemma level_step w r p i q t v :
  tables_ok w r -> clear_path w r v -> path v = p ++ i :: q -> q <> [] -> walk w r p = Some t ->
  walk w r (p ++ [i]) = (if has (w (t + 8 * i)) PAGE_PRESENT then Some (PAGE_ALIGN (w (t + 8 * i))) else None).
Proof.
  intros Hok Hc E Hq Hw. rewrite walk_snoc, Hw. cbv zeta. destruct (has (w (t + 8 * i)) PAGE_PRESENT) eqn:Ep; [|done].
  pose proof (Hc p i q t E Hq Hw Ep) as Eh. rewrite Eh. cbn. f_equal.
  pose proof (path_range v) as Hr. rewrite E in Hr. apply Forall_app in Hr as [Hp Hi]. inversion Hi as [|? ? Hi0 _]; subst.
  assert (Hlv : length (path v) = 4%nat) by done. rewrite E, length_app in Hlv. cbn in Hlv. assert (length q <> 0%nat) by (by destruct q).
  pose proof (tb_range _ _ Hok p t i Hp Hi0 ltac:(lia) Hw Ep Eh). by rewrite frame_eq, PAGE_ALIGN_eq by lia.
Qed.

Lemma find_table_eq s v :
  tables_ok (words s) (current_root s) -> clear_path (words s) (current_root s) v ->
  find_table s v = walk (words s) (current_root s) [PML4_INDEX v; PDP_INDEX v; PD_INDEX v].
Proof.
  intros Hok Hc. unfold find_table. fold (current_root s). set (r := current_root s) in *. set (w := words s) in *.
  change [PML4_INDEX v; PDP_INDEX v; PD_INDEX v] with ([PML4_INDEX v; PDP_INDEX v] ++ [PD_INDEX v]).
  pose proof (level_step w r [] (PML4_INDEX v) _ r v Hok Hc eq_refl ltac:(done) eq_refl) as L1. cbn [app] in L1.
  destruct (has (w (r + 8 * PML4_INDEX v)) PAGE_PRESENT); cbn [negb].
  2: { change ([PML4_INDEX v; PDP_INDEX v] ++ [PD_INDEX v]) with ([PML4_INDEX v] ++ [PDP_INDEX v; PD_INDEX v]). by rewrite walk_app, L1. }
  pose proof (level_step w r [PML4_INDEX v] (PDP_INDEX v) _ _ v Hok Hc eq_refl ltac:(done) L1) as L2. cbn [app] in L2.
  destruct (has (w (_ + 8 * PDP_INDEX v)) PAGE_PRESENT); cbn [negb].
  2: { by rewrite (walk_app w r [PML4_INDEX v; PDP_INDEX v] [PD_INDEX v]), L2. }
  rewrite (level_step w r [PML4_INDEX v; PDP_INDEX v] (PD_INDEX v) [PT_INDEX v] _ v Hok Hc eq_refl ltac:(done) L2).
  by destruct (has (w (_ + 8 * PD_INDEX v)) PAGE_PRESENT).
Qed.

(** The entry of [v] has no bits above the address, when there is one. *)
Definition plain_entry s v : Prop :=
  forall pt, walk (words s) (current_root s) [PML4_INDEX v; PDP_INDEX v; PD_INDEX v] = Some pt ->
    has (words s (pt + 8 * PT_INDEX v)) PAGE_PRESENT = true -> 0 <= words s (pt + 8 * PT_INDEX v) < 2 ^ 52.

Lemma get_physical_eq s v :
  vm_ok (current_root s) s -> hhdm_offset s <> 0 -> clear_path (words s) (current_root s) v -> plain_entry s v -> 0 <= v ->
  vmm_get_physical_addr v s = default 0 (mmu (words s) (current_root s) v).
Proof.
  intros Hs Hh Hc Hp Hv. unfold vmm_get_physical_addr. destruct (Z.eqb_spec (hhdm_offset s) 0); [done |].
  rewrite (find_table_eq s v (vo_tables _ _ Hs) Hc), (mmu_leaf _ _ _ Hc).
  destruct (walk (words s) (current_root s) [PML4_INDEX v; PDP_INDEX v; PD_INDEX v]) as [pt|] eqn:Ew; [|done]. cbv zeta.
  destruct (has (words s (pt + 8 * PT_INDEX v)) PAGE_PRESENT) eqn:Ep; [|done]. cbn [negb default from_option].
  specialize (Hp pt Ew Ep). rewrite frame_eq, PAGE_ALIGN_eq by lia.
  assert (Z.land v PAGE_MASK = v mod 4096) as ->.
  { change PAGE_MASK with (Z.ones 12). rewrite Z.land_ones by lia. done. }
  unfold id. change (2 ^ 52) with 0x10000000000000 in Hp. apply u64_small. set (e := words s _) in *. clearbody e. clear - Hp. zlia.
Qed.

(** *** Mapping a page *)

(** The flags [vmm_map_page] puts in an entry. *)
Lemma flags_range flags :
  0 <= Z.lor PAGE_PRESENT (Z.land flags 0x1E) < 4096 /\ Z.odd (Z.lor PAGE_PRESENT (Z.land flags 0x1E)) = true.
Proof.
  assert (Hfl : 0 <= Z.land flags 0x1E < 32).
  { change 0x1E with (Z.land 0x1E (Z.ones 5)). rewrite Z.land_assoc, Z.land_ones by lia. apply Z.mod_pos_bound. lia. }
  split; [|by rewrite <- Z.bit0_odd, Z.lor_spec].
  split; [apply Z.lor_nonneg; split; [done | lia] |]. destruct (decide (Z.lor PAGE_PRESENT (Z.land flags 0x1E) = 0)); [lia |].
  apply Z.log2_lt_cancel. change (Z.log2 4096) with 12. rewrite Z.log2_lor by (done || lia).
  pose proof (Z.log2_le_mono (Z.land flags 0x1E) 31 ltac:(lia)) as Hlog. change (Z.log2 31) with 4 in Hlog.
  change (Z.log2 PAGE_PRESENT) with 0. lia.
Qed.

Lemma map_page_ok s phys v flags :
  let r := root (kernel_context s) in
  vm_ok r s -> hhdm_offset s <> 0 -> clear_path (words s) r v -> phys mod 4096 = 0 -> 0 <= phys < 2 ^ 52 ->
  exists res s', vmm_map_page phys v flags s = Some (res, s') /\ vm_ok r s' /\
    contexts s' = contexts s /\ current_context s' = current_context s /\ hhdm_offset s' = hhdm_offset s /\
    (forall v', clear_path (words s) r v' -> clear_path (words s') r v') /\
    ((res = NULL /\ flushed s' = flushed s /\ forall v', mmu (words s') r v' = mmu (words s) r v') \/
     (res = v /\ flushed s' = v :: flushed s /\
      (forall v', mmu (words s') r v' = if decide (path v' = path v) then Some (phys + v' mod 4096) else mmu (words s) r v') /\
      exists pt, walk (words s') r [PML4_INDEX v; PDP_INDEX v; PD_INDEX v] = Some pt /\
        words s' (pt + 8 * PT_INDEX v) = Z.lor phys (Z.lor PAGE_PRESENT (Z.land flags 0x1E)))).
Proof.
  intros r Hs Hh Hc Hal Hp. unfold vmm_map_page. destruct (Z.eqb_spec (hhdm_offset s) 0); [done |]. fold r.
  destruct (walk_create_ok r s v Hs Hc) as (o & s1 & -> & Q & W). cbn [mbind option_bind].
  destruct (same_rest_fields _ _ (qs_rest _ _ _ Q)) as (R1 & R2 & R3 & R4 & R5).
  destruct o as [pt|].
  - change (Z.lor (Z.lor (Z.lor PAGE_WRITABLE PAGE_USER) PAGE_PCD) PAGE_PWT) with 0x1E.
    set (f := Z.lor PAGE_PRESENT (Z.land flags 0x1E)).
    assert (Hf := flags_range flags : 0 <= f < 4096 /\ Z.odd f = true).
    destruct (leaf_entry phys f Hal Hp (proj1 Hf) (proj2 Hf)) as (E1 & E2 & E3).
    destruct (write_leaf_ok r s1 v pt (Z.lor phys f) (qs_ok _ _ _ Q) W) as (G1 & G2 & G4 & G3). cbv zeta in *.
    eexists _, _. split; [done |]. split; [destruct G1; by split |]. cbn [contexts current_context hhdm_offset flushed words invlpg write set_words].
    split_and!; try done; [intros v' Hv'; apply G2, (qs_clear _ _ _ Q), Hv' |]. right. split; [done |]. split; [by rewrite R5 |]. split.
    + intros v'. rewrite G3, E1, E2. by destruct (decide _); [|apply (qs_mmu _ _ _ Q)].
    + exists pt. split; [exact G4 | by rewrite Z.eqb_refl].
  - eexists _, s1. split; [done |]. split; [apply Q |]. split_and!; try done; [apply Q |]. left. split; [done |]. split; [done | apply Q].
Qed.

(** *** Unmapping *)

Lemma clear_path_ext w r v v' : path v = path v' -> clear_path w r v -> clear_path w r v'.
Proof. intros E Hc p i q t Ep. apply Hc. congruence. Qed.

(** The parts of the state an operation on the tables leaves alone. *)
Definition same_config s s' : Prop :=
  contexts s' = contexts s /\ current_context s' = current_context s /\ hhdm_offset s' = hhdm_offset s /\
  next_mmio_vaddr s' = next_mmio_vaddr s.

Lemma unmap_page_ok s v :
  let r := current_root s in
  vm_ok r s -> hhdm_offset s <> 0 -> clear_path (words s) r v ->
  let s' := vmm_unmap_page v s in
  vm_ok r s' /\ same_config s s' /\ (forall v', clear_path (words s) r v' -> clear_path (words s') r v') /\
  forall v', mmu (words s') r v' = if decide (path v' = path v) then None else mmu (words s) r v'.
Proof.
  intros r Hs Hh Hc s'. subst s'. unfold vmm_unmap_page. destruct (Z.eqb_spec (hhdm_offset s) 0); [done |].
  rewrite (find_table_eq s v (vo_tables _ _ Hs) Hc). fold r.
  destruct (walk (words s) r [PML4_INDEX v; PDP_INDEX v; PD_INDEX v]) as [pt|] eqn:Ew.
  - destruct (write_leaf_ok r s v pt 0 Hs Ew) as (G1 & G2 & _ & G3). cbv zeta in *.
    split; [destruct G1; by split |]. split; [done |]. split; [exact G2 |]. intros v'. cbn [words invlpg]. rewrite G3, has_0. done.
  - split; [done |]. split; [done |]. split; [done |]. intros v'. destruct (decide (path v' = path v)) as [E|]; [|done].
    rewrite (mmu_leaf _ _ v' (clear_path_ext _ _ v v' (eq_sym E) Hc)).
    unfold path in E. injection E as E1 E2 E3 E4. by rewrite E1, E2, E3, Ew.
Qed.

(** [v] is in a page of [n] from [a], up to the bits the MMU ignores. *)
Definition in_pages (v a n : Z) : Prop := exists u, a <= u < a + n * 4096 /\ path v = path u.

Lemma in_pages_first v a n : a mod 4096 = 0 -> path v = path a -> 0 < n -> in_pages v a n.
Proof. intros _ E Hn. exists a. split; [lia | done]. Qed.

Lemma page_of u a : a mod 4096 = 0 -> a <= u < a + 4096 -> path u = path a.
Proof. intros Ha Hu. apply path_eq. unfold page_number. f_equal. zlia. Qed.

Lemma in_pages_split v a n : a mod 4096 = 0 -> 0 <= n -> in_pages v a (n + 1) <-> path v = path a \/ in_pages v (a + 4096) n.
Proof.
  intros Ha Hn. split.
  - intros (u & Hu & E). destruct (decide (u < a + 4096)).
    + left. rewrite E. apply page_of; [done | lia].
    + right. exists u. split; [lia | done].
  - intros [E|(u & Hu & E)]; [exists a; split; [lia | done] | exists u; split; [lia | done]].
Qed.

Lemma unmap_loop_ok n : forall a s,
  let r := current_root s in
  vm_ok r s -> hhdm_offset s <> 0 -> a mod 4096 = 0 -> 0 <= a -> a + Z.of_nat n * 4096 < 0x10000000000000000 ->
  (forall u, a <= u < a + Z.of_nat n * 4096 -> clear_path (words s) r u) ->
  let s' := unmap_loop n a (a + Z.of_nat n * 4096) s in
  vm_ok r s' /\ same_config s s' /\
  (forall v, in_pages v a (Z.of_nat n) \/ mmu (words s) r v = None -> mmu (words s') r v = None) /\
  (forall v, ~ in_pages v a (Z.of_nat n) -> mmu (words s') r v = mmu (words s) r v).
Proof.
  induction n as [|n IH]; intros a s r Hs Hh Ha Ha0 Hend Hc; cbn [unmap_loop].
  { split; [done |]. split; [done |]. split; [|done]. intros v [(u & Hu & _)|Hv]; [lia | done]. }
  destruct (Z.ltb_spec a (a + Z.of_nat (S n) * 4096)); [|lia]. unfold PAGE_SIZE. rewrite (u64_small (a + 4096)) by lia.
  destruct (unmap_page_ok s a Hs Hh (Hc a ltac:(lia))) as (G1 & G2 & G3 & G4). fold r in G1, G3, G4.
  set (s1 := vmm_unmap_page a s) in *. destruct G2 as (C1 & C2 & C3 & C4).
  assert (Er : current_root s1 = r) by (unfold current_root; by rewrite C1, C2).
  replace (a + Z.of_nat (S n) * 4096) with (a + 4096 + Z.of_nat n * 4096) by lia.
  destruct (IH (a + 4096) s1) as (I1 & I2 & I3 & I4); rewrite ?Er; [done | by rewrite C3 | zlia | lia | lia | |].
  { intros u Hu. apply G3, Hc. lia. }
  rewrite Er in *. destruct I2 as (D1 & D2 & D3 & D4).
  split; [done |]. split; [split_and!; congruence |].
  assert (Hn : forall v, in_pages v a (Z.of_nat (S n)) <-> path v = path a \/ in_pages v (a + 4096) (Z.of_nat n)).
  { intros v. rewrite Nat2Z.inj_succ, <- Z.add_1_r. apply in_pages_split; [done | lia]. }
  split.
  - intros v [Hv%Hn|Hv]; apply I3; [destruct Hv as [E|Hv]; [right; rewrite G4; by rewrite decide_True | by left] |].
    right. rewrite G4. by destruct (decide _).
  - intros v Hv. rewrite I4 by (intros Hx; apply Hv, Hn; by right). rewrite G4. apply decide_False. intros E. apply Hv, Hn. by left.
Qed.

(** *** Mapping device memory *)

Lemma path_pages a i j : 0 <= i < 2 ^ 36 -> 0 <= j < 2 ^ 36 -> a mod 4096 = 0 -> path (a + i * 4096) = path (a + j * 4096) -> i = j.
Proof.
  intros Hi Hj Ha E%path_eq. unfold page_number in E. rewrite !Z.div_add in E by lia.
  change (2 ^ 36) with 0x1000000000 in *. clear Ha. set (b := a / 4096) in *. clearbody b. zlia.
Qed.

Lemma path_offset a off : a mod 4096 = 0 -> 0 <= off -> path (a + off) = path (a + off / 4096 * 4096).
Proof.
  intros Ha Ho. apply page_of; [by rewrite Z.mod_add by lia |].
  pose proof (Z.div_mod off 4096 ltac:(lia)). pose proof (Z.mod_pos_bound off 4096 ltac:(lia)). lia.
Qed.

(** The loop over the [n] pages from number [i]. *)
Lemma mmio_loop_ok n : forall r phys vaddr i s,
  vm_ok r s -> phys mod 4096 = 0 -> vaddr mod 4096 = 0 -> 0 <= phys -> 0 <= vaddr -> 0 <= i -> i + Z.of_nat n <= 2 ^ 36 ->
  phys + (i + Z.of_nat n) * 4096 <= 2 ^ 52 -> vaddr + (i + Z.of_nat n) * 4096 <= 0x10000000000000000 ->
  (forall off, i * 4096 <= off < (i + Z.of_nat n) * 4096 -> clear_path (words s) r (vaddr + off)) ->
  exists ok s', mmio_loop n i r phys vaddr s = Some (ok, s') /\ vm_ok r s' /\ same_rest s s' /\
    (forall v, (forall off, i * 4096 <= off < (i + Z.of_nat n) * 4096 -> path v <> path (vaddr + off)) -> mmu (words s') r v = mmu (words s) r v) /\
    (ok = true -> forall off, i * 4096 <= off < (i + Z.of_nat n) * 4096 -> mmu (words s') r (vaddr + off) = Some (phys + off)).
Proof.
  induction n as [|n IH]; intros r phys vaddr i s Hs Hpa Hva Hp0 Hv0 Hi Hn Hpe Hve Hc; cbn [mmio_loop].
  { exists true, s. split; [done |]. split; [done |]. split; [apply same_rest_refl |]. split; [done |]. intros _ off Ho. lia. }
  rewrite Nat2Z.inj_succ in Hn, Hpe, Hve, Hc. change (2 ^ 36) with 0x1000000000 in *. change (2 ^ 52) with 0x10000000000000 in *. unfold PAGE_SIZE.
  rewrite (u64_small (phys + i * 4096)), (u64_small (vaddr + i * 4096)) by lia.
  destruct (walk_create_ok r s (vaddr + i * 4096) Hs) as (o & s1 & -> & Q & W); [apply Hc; lia |]. cbn [mbind option_bind].
  destruct o as [pt|].
  2: { exists false, s1. split; [done |]. split; [apply Q |]. split; [apply Q |]. split; [intros v _; apply Q | done]. }
  change (Z.lor (Z.lor (Z.lor PAGE_PRESENT PAGE_WRITABLE) PAGE_PCD) PAGE_PWT) with 27.
  destruct (leaf_entry (phys + i * 4096) 27) as (E1 & E2 & E3); [zlia | change (2 ^ 52) with 0x10000000000000; lia | lia | done |].
  destruct (write_leaf_ok r s1 (vaddr + i * 4096) pt (Z.lor (phys + i * 4096) 27) (qs_ok _ _ _ Q) W) as (G1 & G2 & _ & G3). cbv zeta in *.
  set (s2 := write _ _ _) in *.
  destruct (IH r phys vaddr (i + 1) s2) as (ok & s' & E & I1 & I2 & I3 & I4); try done; try lia.
  { intros off Ho. apply G2, (qs_clear _ _ _ Q), Hc. lia. }
  exists ok, s'. split; [exact E |]. split; [exact I1 |]. split.
  { eapply same_rest_trans; [apply Q |]. exact I2. }
  split.
  - intros v Hv. rewrite I3 by (intros off Ho; apply Hv; lia). rewrite G3, decide_False by (apply Hv; lia). apply Q.
  - intros Hok off Ho. destruct (decide (off < (i + 1) * 4096)) as [Hlt|Hge]; [|apply I4; [done | lia]].
    assert (Ed : off / 4096 = i) by zlia. rewrite I3.
    + rewrite G3, decide_True by (rewrite (path_offset vaddr off) by (done || lia); by rewrite Ed).
      rewrite E1, E2. f_equal. zlia.
    + intros off' Ho'. rewrite (path_offset vaddr off), (path_offset vaddr off') by (done || lia). rewrite Ed.
      intros Ep%path_pages; [zlia | change (2 ^ 36) with 0x1000000000; lia | change (2 ^ 36) with 0x1000000000; zlia | done].
Qed.

Lemma flush_loop_rest n i a s : words (flush_loop n i a s) = words s /\ pages (flush_loop n i a s) = pages s /\
  contexts (flush_loop n i a s) = contexts s /\ current_context (flush_loop n i a s) = current_context s /\
  hhdm_offset (flush_loop n i a s) = hhdm_offset s /\ next_mmio_vaddr (flush_loop n i a s) = next_mmio_vaddr s.
Proof. revert i s. induction n as [|n IH]; intros i s; [done |]. cbn [flush_loop]. destruct (IH (i + 1) (invlpg (u64 (a + i * PAGE_SIZE)) s)) as (-> & -> & -> & -> & -> & ->). done. Qed.

(** ** The properties *)


(** [vmm_get_physical_addr] computes the translation of the MMU, 0 when
    there is none, wherever no huge page is on the way and the entry of the page
    has no bits above the address (it does not mask the no-execute bit). *)
Theorem vmm_get_physical_addr_spec s v :
  vm_ok (current_root s) s -> hhdm_offset s <> 0 -> clear_path (words s) (current_root s) v -> plain_entry s v -> 0 <= v ->
  vmm_get_physical_addr v s = default 0 (mmu (words s) (current_root s) v).
Proof. apply get_physical_eq. Qed.

(** Unmapping a range.  [vmm_unmap] takes away the translations of the pages
    that contain a byte of the range, and leaves every other one; but a range
    whose end rounds up to 2^64 is not unmapped at all: the end wraps to 0. *)
Theorem vmm_unmap_spec s v size :
  let r := current_root s in
  let lo := v - v mod 4096 in
  let n := (v + size + 4095) / 4096 - v / 4096 in
  vm_ok r s -> hhdm_offset s <> 0 -> 0 <= v -> 0 <= size -> v + size < 0x10000000000000000 ->
  (forall u, lo <= u < lo + n * 4096 -> clear_path (words s) r u) ->
  let s' := vmm_unmap v size s in
  if decide (v + size + 4095 < 0x10000000000000000) then
    vm_ok r s' /\ (forall u, in_pages u lo n -> mmu (words s') r u = None) /\
    (forall u, ~ in_pages u lo n -> mmu (words s') r u = mmu (words s) r u)
  else s' = s.
Proof.
  intros r lo n Hs Hh Hv Hsize Hend Hc s'. subst s'. unfold vmm_unmap.
  rewrite (u64_small (v + size)) by lia. rewrite (PAGE_ALIGN_eq v) by lia. fold lo.
  unfold PAGE_ALIGN_UP. change PAGE_MASK with 4095. unfold PAGE_SIZE. destruct (decide _) as [Hlt|Hge].
  - rewrite (u64_small (v + size + 4095)) by lia. rewrite PAGE_ALIGN_eq by lia.
    assert (Hn : v + size + 4095 - (v + size + 4095) mod 4096 = lo + n * 4096) by (subst lo n; clear; zlia).
    assert (Hn0 : 0 <= n) by (subst n; clear - Hsize; zlia). clearbody n.
    rewrite Hn. replace ((lo + n * 4096 - lo) / 4096) with n by (clear; zlia).
    assert (Hlo : lo mod 4096 = 0 /\ 0 <= lo) by (subst lo; clear - Hv; zlia). clearbody lo.
    assert (E : n = Z.of_nat (Z.to_nat n)) by lia. rewrite E in Hn, Hc |- *. rewrite Nat2Z.id. set (k := Z.to_nat n) in *. clearbody k. subst n.
    destruct (unmap_loop_ok k lo s Hs Hh (proj1 Hlo) (proj2 Hlo)) as (I1 & _ & I3 & I4); [zlia | done |].
    split; [done |]. split; [intros u Hu; apply I3; by left | done].
  - assert (u64 (v + size + 4095) < 4096) by (unfold u64; clear - Hge Hend Hv Hsize; zlia).
    assert (0 <= u64 (v + size + 4095)) by apply u64_range.
    rewrite PAGE_ALIGN_eq by lia.
    replace (Z.to_nat _) with 0%nat by (subst lo; clear - H1 H2 Hv; zlia). done.
Qed.


End operations.

(** ** The physical memory manager as the page allocator *)

#[export] Instance pmm_allocator : PageAllocator pmm := physical_alloc_page.

(** The manager is in order, its region page-aligned and below 2^52. *)
Definition pmm_pages_ok (p : pmm) : Prop :=
  wf (phys_mem p) /\ memory_base (phys_mem p) mod 4096 = 0 /\
  memory_base (phys_mem p) + total_blocks (phys_mem p) * 4096 <= 2 ^ 52.

Definition pmm_page_free (p : pmm) (t : Z) : Prop :=
  exists i, 0 <= i < total_blocks (phys_mem p) /\ used (bitmap (phys_mem p)) i = false /\ t = block_addr (phys_mem p) i.

Lemma pmm_alloc_page_law p : pmm_pages_ok p ->
  exists t p', physical_alloc_page p = Some (t, p') /\ pmm_pages_ok p' /\
    ((t = NULL /\ forall u, pmm_page_free p' u <-> pmm_page_free p u) \/
     (t mod 4096 = 0 /\ 0 < t < 2 ^ 52 /\ pmm_page_free p t /\ ~ pmm_page_free p' t /\ forall u, pmm_page_free p' u -> pmm_page_free p u)).
Proof.
  intros (W & Hb & He). unfold physical_alloc_page. destruct (bitmap_alloc_block_spec _ W) as ([t m'] & -> & Hspec). cbn [mbind option_bind].
  change (2 ^ 52) with 0x10000000000000 in *.
  destruct Hspec as [(E & Em & _)|(i & (Hi & Hle & Hrun & _) & E & M)]; cbn [fst snd] in *.
  - subst. change (negb (NULL =? NULL)) with false. eexists _, _. split; [done |]. split; [by destruct p |]. left. split; [done |]. by destruct p.
  - pose proof (wf_base _ W) as Hb0. assert (Ht : t <> NULL) by (rewrite E; unfold block_addr, NULL, BITMAP_BLOCK_SIZE; lia).
    destruct (Z.eqb_spec t NULL); [done |]. cbn [negb]. eexists _, _. split; [done |].
    destruct (mk_region _ _ _ _ M) as (R1 & R2 & R3 & R4). split.
    + split_and!; cbn [phys_mem set_phys set_used]; rewrite ?R1, ?R2; [by apply (marked_wf (phys_mem p) m' i 1) | done | done].
    + right. assert (Hblock : forall j, block_addr m' j = block_addr (phys_mem p) j) by (intros j; unfold block_addr; by rewrite R1).
      split_and!.
      * rewrite E. unfold block_addr, BITMAP_BLOCK_SIZE. by rewrite Z.mod_add by lia.
      * rewrite E. unfold block_addr, BITMAP_BLOCK_SIZE. lia.
      * rewrite E. unfold block_addr, BITMAP_BLOCK_SIZE. lia.
      * exists i. split; [lia |]. split; [apply Hrun; lia | done].
      * intros (j & Hj & Hu & Ej). cbn [phys_mem set_phys set_used] in *. rewrite Hblock, E in Ej.
        unfold block_addr, BITMAP_BLOCK_SIZE in Ej. assert (j = i) as -> by lia.
        rewrite (mk_used _ _ _ _ M) in Hu by lia. destruct (in_range_spec i i 1); [done | lia].
      * intros u (j & Hj & Hu & Ej). cbn [phys_mem set_phys set_used] in *. exists j. rewrite R2 in Hj. split; [done |].
        rewrite (mk_used _ _ _ _ M) in Hu by lia. apply orb_false_iff in Hu as [_ Hu]. split; [done |]. by rewrite <- Hblock.
Qed.

#[export] Instance pmm_allocator_laws : PageAllocatorLaws pmm :=
  { pa_ok := pmm_pages_ok; pa_free := pmm_page_free; pa_alloc := pmm_alloc_page_law }.

(** ** Examples *)

(** Empty tables below 0x1000, four free pages. *)
Definition demo_vmm : vmm pmm :=
  Vmm pmm (fun _ => 0) [Ctx 0x1000 0x1000] 0 MMIO_VIRTUAL_BASE 0xFFFF800000000000 0 0x1000 0 [] demo_pmm.

Lemma demo_walk p t : walk (fun _ => 0) 0x1000 p = Some t -> p = [] /\ t = 0x1000.
Proof. destruct p as [|i p]; [by intros [= <-] | cbn [walk]; cbv zeta; rewrite has_0; done]. Qed.

Lemma demo_vmm_ok : vm_ok 0x1000 demo_vmm.
Proof.
  split.
  - split; [done | |].
    + intros p q t _ _ _ _ [-> _]%demo_walk [-> _]%demo_walk. done.
    + intros p t i _ _ _ _ Hp. exfalso. cbn [words demo_vmm] in Hp. by rewrite has_0 in Hp.
  - split_and!; [exact demo_wf | reflexivity | vm_compute; discriminate].
  - intros t (p & _ & _ & [-> ->]%demo_walk) (i & Hi & _ & E). unfold block_addr, BITMAP_BLOCK_SIZE in E. cbn [pages demo_vmm demo_pmm phys_mem demo memory_base] in E. lia.
Qed.

Lemma demo_clear v : clear_path (words demo_vmm) 0x1000 v.
Proof. intros p i q t _ _ _ Hp. exfalso. cbn [words demo_vmm] in Hp. by rewrite has_0 in Hp. Qed.


Lemma vmm_get_physical_addr_spec_witness :
  vmm_get_physical_addr 0x400123 demo_vmm = 0.
Proof.
  rewrite (vmm_get_physical_addr_spec demo_vmm 0x400123 demo_vmm_ok ltac:(discriminate) (demo_clear _)); [reflexivity | | lia].
  intros pt Hw. exfalso. apply demo_walk in Hw as [Hw _]. discriminate.
Defined.

Lemma vmm_unmap_spec_witness :
  vm_ok 0x1000 (vmm_unmap 0x400123 0x2000 demo_vmm) /\ mmu (words (vmm_unmap 0x400123 0x2000 demo_vmm)) 0x1000 0x402122 = None.
Proof.
  pose proof (vmm_unmap_spec demo_vmm 0x400123 0x2000 demo_vmm_ok ltac:(discriminate) ltac:(lia) ltac:(lia) ltac:(lia) (fun u _ => demo_clear u)) as H.
  rewrite decide_True in H by lia. destruct H as (H1 & H2 & _). split; [exact H1 | apply H2].
  exists 0x402122. split; [vm_compute; split; congruence | reflexivity].
Defined.


(** A huge page read as a page table: the table at 0x4000 has a 2 MiB page at
    index 2, whose first word happens to be 7.  The MMU translates 0x400123 to
    the page, [vmm_get_physical_addr] takes the word for an entry. *)
Definition huge_vmm : vmm pmm :=
  Vmm pmm (fun a => if a =? 0x1000 then 0x3003 else if a =? 0x3000 then 0x4003 else if a =? 0x4000 + 8 * 2 then 0x600083
                    else if a =? 0x600000 then 7 else 0)
    [Ctx 0x1000 0x1000] 0 MMIO_VIRTUAL_BASE 0xFFFF800000000000 0 0x1000 0 [] demo_pmm.

Lemma huge_page_misread : mmu (words huge_vmm) 0x1000 0x400123 = Some 0x600123 /\ vmm_get_physical_addr 0x400123 huge_vmm = 0x123.
Proof. split; vm_compute; reflexivity. Qed.
