(* ===== verification/Ports.v ===== *)
(** * Port input and output

    [pci/pci.h] defines [inb], [outb], [inw], [outw], [inl] and [outl] as one
    instruction of inline assembly each.  The devices behind the ports are
    hardware: the drivers are modelled over any type [hw] of hardware states
    that has these six operations, and a driver's theorem assumes of its device
    the documented behaviour that the driver relies on.  Such an assumption is
    a class whose fields relate [hw] to a state machine of the device (a
    [view]): each access to a port of the device is a transition of it. *)

From S2P Require Import Prelude.

Class Ports (hw : Type) := {
  inb : Z -> hw -> Z * hw;
  outb : Z -> Z -> hw -> hw;
  inw : Z -> hw -> Z * hw;
  outw : Z -> Z -> hw -> hw;
  inl : Z -> hw -> Z * hw;
  outl : Z -> Z -> hw -> hw;
}.

Section ports.
Context {hw : Type} {PORTS : Ports hw}.

(** [io_wait] of [timer/timer.h]: a write to an unused port, as a delay. *)
Definition io_wait (h : hw) : hw := outb 0x80 0 h.

(** [n] reads of a port whose values are dropped. *)
Fixpoint discard (n : nat) (port : Z) (h : hw) : hw :=
  match n with O => h | S n' => discard n' port (inb port h).2 end.

End ports.
