(* ===== verification/Digits.v ===== *)
(** * Numbers as strings of digits

    What the two formatters, [debug/debug.c] and [graphic/graphic.c], share: the
    digits of a number, the loop that reverses a string in place, and the
    arguments of a variadic call.  Strings are lists of characters without the
    terminating zero. *)

From S2P Require Import Prelude.
From stdpp Require Import strings.
#[local] Open Scope Z_scope.

Implicit Types (l : list Z) (base v : Z).

(** The characters of a string literal. *)
Definition chars (s : string) : list Z := (fun a => Z.of_N (Ascii.N_of_ascii a)) <$> String.list_ascii_of_string s.

(** Signed integers of 64 bits. *)
Definition i64 (x : Z) : Z := (x + 0x8000000000000000) mod 0x10000000000000000 - 0x8000000000000000.

(** ["0123456789abcdef"]; an index out of range is None. *)
Definition digit_chars : list Z := [48; 49; 50; 51; 52; 53; 54; 55; 56; 57; 97; 98; 99; 100; 101; 102].
Definition digit_char (d : Z) : option Z := if d <? 0 then None else digit_chars !! Z.to_nat d.

(** The in-place reversal between the positions [i] and [j]: [n] swaps at most. *)
Fixpoint reverse_loop (n i j : nat) l : list Z :=
  match n with
  | O => l
  | S n' =>
      if (i <? j)%nat then
        reverse_loop n' (S i) (pred j) (<[i := nth j l 0]> (<[j := nth i l 0]> l))
      else l
  end.

(** The arguments of a variadic call: an [int] or [unsigned int] by its 32 bits,
    a [long], [long long] or [size_t] by its 64 bits, a pointer, a string or NULL. *)
Inductive va := VInt (x : Z) | VLong (x : Z) | VPtr (x : Z) | VStr (s : option (list Z)).

Definition va_int (args : list va) : option (Z * list va) :=
  match args with VInt x :: rest => Some (u32 x, rest) | _ => None end.
Definition va_long (args : list va) : option (Z * list va) :=
  match args with VLong x :: rest => Some (u64 x, rest) | _ => None end.
Definition va_ptr (args : list va) : option (Z * list va) :=
  match args with VPtr x :: rest => Some (u64 x, rest) | _ => None end.
Definition va_str (args : list va) : option (option (list Z) * list va) :=
  match args with VStr s :: rest => Some (s, rest) | _ => None end.

(** ** Digits *)

(** The digits of [v], least significant first, at least one. *)
Fixpoint digits (n : nat) base v : list Z :=
  match n with
  | O => []
  | S n' => v mod base :: (if v / base =? 0 then [] else digits n' base (v / base))
  end.

(** The number that a string of digits stands for, most significant first, of the
    digits and of the characters 0 to 9 and a to f. *)
Definition number base l : Z := fold_left (fun x d => x * base + d) l 0.
Definition char_digit (c : Z) : Z := if c <? 58 then c - 48 else c - 87.

Lemma fold_number base l x : fold_left (fun x d => x * base + d) l x = x * base ^ Z.of_nat (length l) + number base l.
Proof.
  unfold number. revert x. induction l as [|d l IH]; intros x; [cbn; lia |]. cbn [fold_left length].
  rewrite IH, (IH (0 * base + d)), Nat2Z.inj_succ, Z.pow_succ_r by lia. lia.
Qed.

Lemma number_snoc base l d : number base (l ++ [d]) = number base l * base + d.
Proof. unfold number. by rewrite fold_left_app. Qed.

Lemma number_cons base d l : number base (d :: l) = d * base ^ Z.of_nat (length l) + number base l.
Proof. unfold number at 1. cbn [fold_left]. by rewrite fold_number. Qed.

Lemma number_range base l : 2 <= base -> Forall (fun d => 0 <= d < base) l -> 0 <= number base l < base ^ Z.of_nat (length l).
Proof.
  intros Hb. induction 1 as [|d l Hd _ IH]; [cbn; lia |]. rewrite number_cons. cbn [length].
  rewrite Nat2Z.inj_succ, Z.pow_succ_r by lia. pose proof (Z.mul_le_mono_nonneg_r d (base - 1) (base ^ Z.of_nat (length l)) ltac:(lia) ltac:(lia)). lia.
Qed.

Lemma div_base base v n : 2 <= base -> 0 <= v < base ^ Z.of_nat (S n) -> 0 <= v / base < base ^ Z.of_nat n.
Proof.
  intros Hb Hv. rewrite Nat2Z.inj_succ, Z.pow_succ_r in Hv by lia. split; [apply Z.div_pos; lia |]. apply Z.div_lt_upper_bound; lia.
Qed.

Lemma digits_ok n : forall base v, 2 <= base -> 0 <= v < base ^ Z.of_nat n -> (0 < n)%nat ->
  number base (rev (digits n base v)) = v /\ Forall (fun d => 0 <= d < base) (digits n base v) /\
  (0 < length (digits n base v) <= n)%nat /\ (v <> 0 -> head (rev (digits n base v)) <> Some 0).
Proof.
  induction n as [|n IH]; intros base v Hb Hv Hn; [lia |]. cbn [digits].
  pose proof (Z.mod_pos_bound v base ltac:(lia)) as Hm. pose proof (Z.div_mod v base ltac:(lia)) as Hdm.
  destruct (Z.eqb_spec (v / base) 0) as [E|E].
  - rewrite E in Hdm. cbn. split_and!; [lia | constructor; [lia | constructor] | lia | lia |]. intros Hv0 [= H]. lia.
  - pose proof (div_base base v n Hb Hv) as Hv'. assert (0 < n)%nat as Hn' by (destruct n; [cbn in Hv'; lia | lia]).
    destruct (IH base (v / base) Hb Hv' Hn') as (H1 & H2 & H3 & H4). cbn [rev length].
    split_and!; [rewrite number_snoc, H1; lia | by constructor | lia | lia |].
    intros _. specialize (H4 E). destruct (rev (digits n base (v / base))) as [|d l] eqn:El; [| done].
    apply (f_equal length) in El. rewrite length_rev in El. cbn in El. lia.
Qed.

(** More fuel than digits changes nothing. *)
Lemma digits_fuel n m : forall base v, 2 <= base -> 0 <= v < base ^ Z.of_nat n -> (0 < n <= m)%nat -> digits m base v = digits n base v.
Proof.
  revert m. induction n as [|n IH]; intros m base v Hb Hv Hn; [lia |]. destruct m as [|m]; [lia |]. cbn [digits].
  destruct (Z.eqb_spec (v / base) 0) as [E|E]; [done |]. f_equal.
  pose proof (div_base base v n Hb Hv) as Hv'. apply IH; [done | done |]. destruct n; [cbn in Hv'; lia | lia].
Qed.

Lemma digit_char_ok d : 0 <= d < 16 -> exists c, digit_char d = Some c /\ char_digit c = d /\ (48 <= c <= 57 \/ 97 <= c <= 102).
Proof.
  intros Hd. assert (d ∈ seqZ 0 16) as H by (apply elem_of_seqZ; lia).
  assert (Forall (fun d => exists c, digit_char d = Some c /\ char_digit c = d /\ (48 <= c <= 57 \/ 97 <= c <= 102)) (seqZ 0 16)) as HF.
  { repeat (constructor; [eexists; split; [reflexivity |]; split; [reflexivity | lia] |]). constructor. }
  rewrite Forall_forall in HF. exact (HF d H).
Qed.

(** ** Reversal in place *)

Lemma insert_split (q t : list Z) z z' : <[length q := z']> (q ++ z :: t) = q ++ z' :: t.
Proof. induction q as [|c q IH]; cbn; [done | by f_equal]. Qed.

Lemma reverse_middle n : forall p m s, (length m <= 2 * n + 1)%nat ->
  reverse_loop n (length p) (length p + length m - 1) (p ++ m ++ s) = p ++ rev m ++ s.
Proof.
  induction n as [|n IH]; intros p m s Hm; cbn [reverse_loop].
  - destruct m as [|x [|y m]]; [done | done | cbn in Hm; lia].
  - destruct m as [|x m]; [by rewrite (proj2 (Nat.ltb_ge _ _)) by (cbn; lia) |].
    destruct m as [|y' m'] using rev_ind; [by rewrite (proj2 (Nat.ltb_ge _ _)) by (cbn; lia) |]. rename y' into y, m' into m. clear IHm'.
    cbn [length] in *. rewrite length_app in *. cbn [length] in *. rewrite (proj2 (Nat.ltb_lt _ _)) by lia.
    assert (nth (length p + S (length m + 1) - 1) (p ++ (x :: m ++ [y]) ++ s) 0 = y) as ->.
    { rewrite app_nth2 by lia. replace (length p + S (length m + 1) - 1 - length p)%nat with (S (length m)) by lia.
      cbn. rewrite <- (assoc_L (++)), app_nth2, Nat.sub_diag by lia. done. }
    assert (nth (length p) (p ++ (x :: m ++ [y]) ++ s) 0 = x) as -> by (rewrite app_nth2, Nat.sub_diag by lia; done).
    assert (<[length p := y]> (<[(length p + S (length m + 1) - 1)%nat := x]> (p ++ (x :: m ++ [y]) ++ s)) = (p ++ [y]) ++ m ++ ([x] ++ s)) as ->.
    { replace (p ++ (x :: m ++ [y]) ++ s) with ((p ++ x :: m) ++ y :: s) by (cbn; by rewrite <- !(assoc_L (++))).
      replace (length p + S (length m + 1) - 1)%nat with (length (p ++ x :: m)) by (rewrite length_app; cbn; lia).
      rewrite insert_split, <- (assoc_L (++)). cbn [app]. rewrite insert_split. by rewrite <- (assoc_L (++)). }
    replace (S (length p)) with (length (p ++ [y])) by (rewrite length_app; cbn; lia).
    replace (pred (length p + S (length m + 1) - 1)) with (length (p ++ [y]) + length m - 1)%nat by (rewrite length_app; cbn; lia).
    rewrite IH by lia. cbn [rev]. rewrite rev_app_distr. cbn. by rewrite <- !(assoc_L (++)).
Qed.

Lemma reverse_loop_ok n p m : (length m <= 2 * n + 1)%nat -> reverse_loop n (length p) (length p + length m - 1) (p ++ m) = p ++ rev m.
Proof. intros Hm. pose proof (reverse_middle n p m [] Hm) as E. by rewrite !app_nil_r in E. Qed.

Lemma reverse_all m : reverse_loop (length m) 0 (length m - 1) m = rev m.
Proof. exact (reverse_loop_ok (length m) [] m ltac:(lia)). Qed.
