(* ===== verification/Debug.v ===== *)
(** * The debug console

    [debug/debug.c]: formatted output on the port of the emulator's console.  The
    functions return the characters that they give to [debug_putchar], which
    [emit] writes to the port; an access outside a string or to a missing argument
    is None.  [debug_log] repeats the text of [debug_printf] after its test of the
    level. *)

From S2P Require Import Prelude Ports Digits.
From stdpp Require Import strings.
#[local] Open Scope Z_scope.

Implicit Types (str fmt : list Z) (args : list va).

Definition DEBUGCON_PORT := 0xe9.
Definition DEBUG_LEVEL_ERROR := 0.
Definition DEBUG_LEVEL_WARN := 1.
Definition DEBUG_LEVEL_INFO := 2.
Definition DEBUG_LEVEL_DEBUG := 3.
Definition DEBUG_LEVEL_TRACE := 4.

Definition current_debug_level := DEBUG_LEVEL_INFO.

(** ** Characters *)

Definition debug_putchar (c : Z) : list Z := [u8 c].
Definition debug_puts (str : option (list Z)) : list Z := concat (debug_putchar <$> default [] str).
Definition emit {hw} `{Ports hw} (out : list Z) (h : hw) : hw := fold_left (fun h c => outb DEBUGCON_PORT c h) out h.

Definition debug_init : list Z := debug_puts (Some (chars "Debug console initialized" ++ [10])).

(** ** Numbers *)

(** The [do] loop, from the last digit on; 64 iterations are enough for 64 bits. *)
Fixpoint ltoa_loop (n : nat) (base value : Z) : option (list Z) :=
  match n with
  | O => None
  | S n' =>
      let q := Z.quot value base in
      c ← digit_char (value - q * base);
      rest ← (if q =? 0 then Some [] else ltoa_loop n' base q);
      Some (c :: rest)
  end.

(** The negation of the smallest number is that number again. *)
Definition debug_ltoa (value base : Z) : option (list Z) :=
  let negative := (value <? 0) && (base =? 10) in
  let value := if negative then i64 (- value) else value in
  cs ← ltoa_loop 64 base value;
  let str := (if negative then [45] else []) ++ cs in
  let start := match str with 45 :: _ => 1%nat | _ => 0%nat end in
  Some (reverse_loop (length str) start (length str - 1) str).

Fixpoint ultoa_loop (n : nat) (base value : Z) : option (list Z) :=
  match n with
  | O => None
  | S n' =>
      let q := value / base in
      c ← digit_char (value - q * base);
      rest ← (if q =? 0 then Some [] else ultoa_loop n' base q);
      Some (c :: rest)
  end.

Definition debug_ultoa (value base : Z) : option (list Z) :=
  str ← ultoa_loop 64 base value;
  Some (reverse_loop (length str) 0 (length str - 1) str).

Definition debug_strlen str : Z := Z.of_nat (length str).

Definition debug_print_padded str (width pad_char : Z) (left_align : bool) : list Z :=
  let len := debug_strlen str in
  let padding := Z.to_nat (if width >? len then width - len else 0) in
  (if left_align then [] else concat (replicate padding (debug_putchar pad_char))) ++ debug_puts (Some str) ++
  (if left_align then concat (replicate padding (debug_putchar 32)) else []).

Definition debug_to_upper str : list Z := (fun c => if (97 <=? c) && (c <=? 102) then c - 97 + 65 else c) <$> str.

(** ** Formats *)

Fixpoint parse_flags (left_align zero_pad : bool) fmt : bool * bool * list Z :=
  match fmt with
  | c :: rest =>
      if (c =? 45) || (c =? 48) || (c =? 43) || (c =? 32) || (c =? 35) then
        parse_flags (left_align || (c =? 45)) (zero_pad || (c =? 48)) rest
      else (left_align, zero_pad, fmt)
  | [] => (left_align, zero_pad, fmt)
  end.

Fixpoint parse_width (width : Z) fmt : Z * list Z :=
  match fmt with
  | c :: rest => if (48 <=? c) && (c <=? 57) then parse_width (i32 (width * 10 + (c - 48))) rest else (width, fmt)
  | [] => (width, fmt)
  end.

(** [is_long], [is_size_t] and the rest. *)
Definition parse_length fmt : Z * bool * list Z :=
  match fmt with
  | 108 :: 108 :: rest => (2, false, rest)
  | 108 :: rest => (1, false, rest)
  | 122 :: rest => (0, true, rest)
  | 104 :: 104 :: rest => (0, false, rest)
  | 104 :: rest => (0, false, rest)
  | _ => (0, false, fmt)
  end.

Definition get_signed (is_long : Z) (is_size_t : bool) args : option (Z * list va) :=
  if (is_long =? 2) || (is_long =? 1) || is_size_t then '(x, args) ← va_long args; Some (i64 x, args)
  else '(x, args) ← va_int args; Some (i32 x, args).
Definition get_unsigned (is_long : Z) (is_size_t : bool) args : option (Z * list va) :=
  if (is_long =? 2) || (is_long =? 1) || is_size_t then va_long args else va_int args.

(** The [switch]: what it prints and the arguments left. *)
Definition convert (c width is_long : Z) (is_size_t left_align zero_pad : bool) args : option (list Z * list va) :=
  let pad_char := if zero_pad && negb left_align then 48 else 32 in
  if (c =? 100) || (c =? 105) then
    '(val, args) ← get_signed is_long is_size_t args;
    buffer ← debug_ltoa val 10;
    Some (debug_print_padded buffer width pad_char left_align, args)
  else if c =? 117 then
    '(val, args) ← get_unsigned is_long is_size_t args;
    buffer ← debug_ultoa val 10;
    Some (debug_print_padded buffer width pad_char left_align, args)
  else if c =? 120 then
    '(val, args) ← get_unsigned is_long is_size_t args;
    buffer ← debug_ultoa val 16;
    Some (debug_print_padded buffer width pad_char left_align, args)
  else if c =? 88 then
    '(val, args) ← get_unsigned is_long is_size_t args;
    buffer ← debug_ultoa val 16;
    Some (debug_print_padded (debug_to_upper buffer) width pad_char left_align, args)
  else if c =? 112 then
    '(val, args) ← va_ptr args;
    buffer ← debug_ultoa val 16;
    Some (debug_puts (Some (chars "0x")) ++ debug_print_padded buffer (if width >? 2 then width - 2 else 0) 48 false, args)
  else if c =? 115 then
    '(val, args) ← va_str args;
    Some (debug_print_padded (default (chars "(null)") val) width 32 left_align, args)
  else if c =? 99 then
    '(val, args) ← va_int args;
    Some (debug_putchar val, args)
  else if c =? 37 then Some (debug_putchar 37, args)
  else Some (debug_putchar 37 ++ debug_putchar c, args).

(** The loop over the format.  A format that ends within a conversion is read
    past its end. *)
Fixpoint format_loop (n : nat) fmt args : option (list Z) :=
  match n with
  | O => None
  | S n' =>
      match fmt with
      | [] => Some []
      | c :: rest =>
          if negb (c =? 37) then out ← format_loop n' rest args; Some (debug_putchar c ++ out)
          else
            match rest with
            | [] => Some []
            | _ =>
                let '(left_align, zero_pad, f) := parse_flags false false rest in
                let '(width, f) := parse_width 0 f in
                let '(is_long, is_size_t, f) := parse_length f in
                match f with
                | [] => None
                | c :: f =>
                    '(out, args) ← convert c width is_long is_size_t left_align zero_pad args;
                    out' ← format_loop n' f args;
                    Some (out ++ out')
                end
            end
      end
  end.

Definition debug_printf fmt args : option (list Z) := format_loop (S (length fmt)) fmt args.

Definition debug_log (level : Z) fmt args : option (list Z) :=
  if level >? current_debug_level then Some [] else format_loop (S (length fmt)) fmt args.

(** ** Hex dumps *)

(** The 16 columns of the line at [i], and its characters. *)
Definition dump_hex (data : list Z) (i : nat) : option (list Z) :=
  cols ← mapM (fun j =>
    col ← match data !! (i + j)%nat with
          | Some b => debug_printf (chars "%02x ") [VInt b]
          | None => Some (debug_puts (Some (chars "   ")))
          end;
    Some (col ++ if (j =? 7)%nat then debug_putchar 32 else [])) (seq 0 16);
  Some (concat cols).

Definition dump_ascii (data : list Z) (i : nat) : list Z :=
  concat ((fun b => if (32 <=? b) && (b <=? 126) then debug_putchar b else debug_putchar 46) <$> take 16 (drop i data)).

Definition dump_line (data : list Z) (prefix : option (list Z)) (i : nat) : option (list Z) :=
  head ← debug_printf (chars "%08x: ") [VInt (Z.of_nat i)];
  hex ← dump_hex data i;
  Some (debug_puts prefix ++ head ++ hex ++ debug_puts (Some (chars " |")) ++ dump_ascii data i ++ debug_puts (Some (chars "|" ++ [10]))).

(** The lines from [i] on; [n] bounds their number. *)
Fixpoint dump_loop (n i : nat) (data : list Z) (prefix : option (list Z)) : option (list Z) :=
  match n with
  | O => None
  | S n' =>
      if (i <? length data)%nat then
        line ← dump_line data prefix i;
        rest ← dump_loop n' (i + 16) data prefix;
        Some (line ++ rest)
      else Some []
  end.

Definition debug_hexdump (data : list Z) (prefix : option (list Z)) : option (list Z) :=
  dump_loop (S (length data)) 0 data prefix.

(** ** Messages *)

(** [DEBUG_ERROR] and [DEBUG_INFO] of a format that ends a line. *)
Definition DEBUG_ERROR (fmt : string) (args : list va) : option (list Z) :=
  debug_log DEBUG_LEVEL_ERROR (chars "[ERROR] " ++ chars fmt ++ [10]) args.
Definition DEBUG_INFO (fmt : string) (args : list va) : option (list Z) :=
  debug_log DEBUG_LEVEL_INFO (chars "[INFO]  " ++ chars fmt ++ [10]) args.

(** The text that a sequence of calls prints. *)
Definition printed (l : list (option (list Z))) : option (list Z) := (fun ls => concat ls) <$> mapM id l.

Example printf_1 : debug_printf (chars "a %-4d|%4u|%#06lx|%s%c%%") [VInt (-7); VInt 42; VLong 0xbeef; VStr (Some (chars "ok")); VInt 33]
  = Some (chars "a -7  |  42|00beef|ok!%").
Proof. vm_compute. reflexivity. Qed.

(** Zeros are put before the sign. *)
Example printf_negative_padded : debug_printf (chars "%05d") [VInt (-42)] = Some (chars "00-42").
Proof. vm_compute. reflexivity. Qed.

Example hexdump_1 : debug_hexdump (chars "Hello, world!") (Some (chars "> ")) =
  Some (chars "> 00000000: 48 65 6c 6c 6f 2c 20 77  6f 72 6c 64 21           |Hello, world!|" ++ [10]).
Proof. vm_compute. reflexivity. Qed.

(** ** Numbers and back *)

Definition digit_of (base c : Z) : Prop := (48 <= c <= 57 \/ 97 <= c <= 102) /\ 0 <= char_digit c < base.

Lemma ultoa_loop_ok n : forall base v, 2 <= base <= 16 -> 0 <= v < base ^ Z.of_nat n -> (0 < n)%nat ->
  exists s, ultoa_loop n base v = Some s /\ char_digit <$> s = digits n base v /\ Forall (digit_of base) s.
Proof.
  induction n as [|n IH]; intros base v Hb Hv Hn; [lia |]. cbn [ultoa_loop digits].
  assert (v - v / base * base = v mod base) as -> by (pose proof (Z.div_mod v base ltac:(lia)); lia).
  pose proof (Z.mod_pos_bound v base ltac:(lia)) as Hm.
  destruct (digit_char_ok (v mod base) ltac:(lia)) as (c & -> & Hc & Hr). cbn [mbind option_bind].
  assert (digit_of base c) as Hd by (split; [done | by rewrite Hc]).
  destruct (Z.eqb_spec (v / base) 0) as [E|E]; cbn [mbind option_bind].
  - exists [c]. cbn. rewrite Hc. split_and!; [done | done | constructor; [done | constructor]].
  - pose proof (div_base base v n ltac:(lia) Hv) as Hv'.
    destruct (IH base (v / base) Hb Hv') as (s & -> & Hs & Hf); [destruct n; [cbn in Hv'; lia | lia] |]. cbn [mbind option_bind].
    exists (c :: s). rewrite fmap_cons, Hc, Hs. split_and!; [done | done | by constructor].
Qed.

(** The loop of [debug_ltoa] is the same on numbers that are not negative. *)
Lemma ltoa_loop_eq n : forall base v, 2 <= base -> 0 <= v -> ltoa_loop n base v = ultoa_loop n base v.
Proof.
  induction n as [|n IH]; intros base v Hb Hv; [done |]. cbn [ltoa_loop ultoa_loop]. rewrite Z.quot_div_nonneg by lia.
  by rewrite IH by (done || (apply Z.div_pos; lia)).
Qed.

(** A string of digits of the base, without leading zeros, that stands for [v]. *)
Definition numeral (base v : Z) (s : list Z) : Prop :=
  number base (char_digit <$> s) = v /\ Forall (digit_of base) s /\ (0 < length s)%nat /\ (v <> 0 -> head s <> Some 48).

Lemma numeral_digits base v n s : 2 <= base <= 16 -> 0 <= v < base ^ Z.of_nat n -> (0 < n <= 64)%nat ->
  char_digit <$> s = digits 64 base v -> Forall (digit_of base) s -> numeral base v (rev s) /\ (length s <= n)%nat.
Proof.
  intros Hb Hv Hn Hs Hf. rewrite (digits_fuel n 64) in Hs by lia. destruct (digits_ok n base v ltac:(lia) Hv ltac:(lia)) as (H1 & _ & H3 & H4).
  assert (char_digit <$> rev s = rev (digits n base v)) as Er by (rewrite <- Hs; apply map_rev).
  apply (f_equal length) in Hs as Hl. rewrite length_fmap in Hl. split; [split_and! |]; [by rewrite Er | | rewrite length_rev; lia | | lia].
  - apply Forall_forall. intros c Hc. rewrite Forall_forall in Hf. by apply Hf, list_elem_of_In, in_rev, list_elem_of_In.
  - intros Hv0 Hh. apply (H4 Hv0). rewrite <- Er. destruct (rev s) as [|c l]; [done |]. by injection Hh as ->.
Qed.

Definition max_digits (base : Z) : nat := if base =? 10 then 20%nat else 16%nat.

Lemma debug_ultoa_ok v base : base = 10 \/ base = 16 -> 0 <= v < 0x10000000000000000 ->
  exists s, debug_ultoa v base = Some s /\ numeral base v s /\ (length s <= max_digits base)%nat.
Proof.
  intros Hb Hv. unfold debug_ultoa. destruct (ultoa_loop_ok 64 base v) as (s & -> & Hs & Hf); [lia | destruct Hb as [-> | ->]; lia | lia |].
  cbn [mbind option_bind]. exists (rev s). rewrite reverse_all. split; [done |].
  destruct (numeral_digits base v (max_digits base) s) as [H1 H2]; try done; [lia | destruct Hb as [-> | ->]; cbn; lia | destruct Hb as [-> | ->]; cbn; lia |].
  rewrite length_rev. done.
Qed.

Lemma debug_ltoa_ok v : - 0x8000000000000000 < v < 0x8000000000000000 ->
  exists s, debug_ltoa v 10 = Some ((if v <? 0 then [45] else []) ++ s) /\ numeral 10 (Z.abs v) s /\ (length s <= 19)%nat.
Proof.
  intros Hv. unfold debug_ltoa. rewrite andb_true_r.
  assert ((if v <? 0 then i64 (- v) else v) = Z.abs v) as ->.
  { destruct (Z.ltb_spec v 0); [| lia]. unfold i64. rewrite Z.mod_small by lia. lia. }
  rewrite ltoa_loop_eq by lia. destruct (ultoa_loop_ok 64 10 (Z.abs v)) as (s & -> & Hs & Hf); [lia | lia | lia |].
  cbn [mbind option_bind]. exists (rev s). destruct (numeral_digits 10 (Z.abs v) 19 s) as [H1 H2]; [lia | lia | lia | done | done |].
  rewrite length_rev. split; [| done]. destruct (Z.ltb_spec v 0).
  - cbn [app length]. f_equal. apply (reverse_loop_ok (S (length s)) [45] s). lia.
  - cbn [app]. destruct s as [|c s]; [done |]. apply Forall_cons in Hf as [Hc _]. f_equal.
    assert (match c :: s with 45 :: _ => 1%nat | _ => 0%nat end = 0%nat) as ->.
    { destruct (Z.eq_dec c 45) as [->|]; [destruct Hc; lia |]. repeat case_match; congruence. }
    apply reverse_all.
Qed.

(** ** The types of the arguments *)

(** A conversion needs an [int], a [long] (the smallest one cannot be printed in
    decimal), a 64-bit number of any sign, a pointer or a string. *)
Inductive ty := TInt | TSLong | TULong | TPtr | TStr.

Definition arg_ok (t : ty) (a : va) : bool :=
  match t, a with
  | TInt, VInt _ | TULong, VLong _ | TPtr, VPtr _ | TStr, VStr _ => true
  | TSLong, VLong x => negb (u64 x =? 0x8000000000000000)
  | _, _ => false
  end.

Fixpoint args_ok (ts : list ty) args : bool :=
  match ts, args with
  | [], _ => true
  | t :: ts, a :: args => arg_ok t a && args_ok ts args
  | _ :: _, [] => false
  end.

(** The argument of a conversion, if it takes one. *)
Definition conversion_type (c is_long : Z) (is_size_t : bool) : list ty :=
  let long := (is_long =? 2) || (is_long =? 1) || is_size_t in
  if (c =? 100) || (c =? 105) then [if long then TSLong else TInt]
  else if (c =? 117) || (c =? 120) || (c =? 88) then [if long then TULong else TInt]
  else if c =? 112 then [TPtr] else if c =? 115 then [TStr] else if c =? 99 then [TInt] else [].

(** The arguments that a format takes; None when it ends within a conversion. *)
Fixpoint format_types (n : nat) fmt : option (list ty) :=
  match n with
  | O => None
  | S n' =>
      match fmt with
      | [] => Some []
      | c :: rest =>
          if negb (c =? 37) then format_types n' rest
          else
            match rest with
            | [] => Some []
            | _ =>
                let '(_, _, f) := parse_flags false false rest in
                let '(_, f) := parse_width 0 f in
                let '(is_long, is_size_t, f) := parse_length f in
                match f with
                | [] => None
                | c :: f => ts ← format_types n' f; Some (conversion_type c is_long is_size_t ++ ts)
                end
            end
      end
  end.

Definition printf_ok fmt args : bool :=
  match format_types (S (length fmt)) fmt with Some ts => args_ok ts args | None => false end.

Lemma parse_flags_length fmt : forall left zero, (length (parse_flags left zero fmt).2 <= length fmt)%nat.
Proof. induction fmt as [|c fmt IH]; intros left zero; cbn; [done |]. destruct (_ || _); [| done]. specialize (IH (left || (c =? 45)) (zero || (c =? 48))). lia. Qed.
Lemma parse_width_length fmt : forall w, (length (parse_width w fmt).2 <= length fmt)%nat.
Proof. induction fmt as [|c fmt IH]; intros w; cbn; [done |]. destruct (_ && _); [| done]. specialize (IH (i32 (w * 10 + (c - 48)))). lia. Qed.
Lemma parse_length_length fmt : (length (parse_length fmt).2 <= length fmt)%nat.
Proof. unfold parse_length. repeat case_match; cbn; lia. Qed.

Lemma debug_ltoa_least : debug_ltoa (- 0x8000000000000000) 10 = None.
Proof. vm_compute. reflexivity. Qed.

(** What the conversion [c] does with the arguments of its type. *)
Lemma convert_ok c width is_long is_size_t left zero args :
  if args_ok (conversion_type c is_long is_size_t) args
  then exists out, convert c width is_long is_size_t left zero args =
    Some (out, drop (length (conversion_type c is_long is_size_t)) args)
  else convert c width is_long is_size_t left zero args = None.
Proof.
  unfold conversion_type, convert. set (long := (is_long =? 2) || (is_long =? 1) || is_size_t).
  destruct ((c =? 100) || (c =? 105)).
  { unfold get_signed. fold long. destruct long; destruct args as [|[x|x|x|s] args]; cbn -[debug_ltoa u64 u32 i64 i32]; try done.
    - unfold u64, i64. destruct (Z.eqb_spec (x mod 0x10000000000000000) 0x8000000000000000) as [E|E]; cbn -[debug_ltoa].
      + rewrite E. change ((_ + _) mod _ - _) with (- 0x8000000000000000). by rewrite debug_ltoa_least.
      + destruct (debug_ltoa_ok (((x mod 0x10000000000000000) + 0x8000000000000000) mod 0x10000000000000000 - 0x8000000000000000)) as (s & -> & _); [| by eexists].
        zlia.
    - destruct (debug_ltoa_ok (i32 (u32 x))) as (s & -> & _); [unfold i32; zlia | by eexists]. }
  assert (forall base, base = 10 \/ base = 16 -> forall x args' F, get_unsigned is_long is_size_t args = Some (x, args') ->
    exists out, ('(val, args) ← get_unsigned is_long is_size_t args; buffer ← debug_ultoa val base; Some (F buffer : list Z, args : list va)) = Some (out, args')) as Hu.
  { intros base Hb x args' F E. rewrite E. cbn [mbind option_bind]. destruct (debug_ultoa_ok x base Hb) as (s & -> & _); [| by eexists].
    unfold get_unsigned in E. destruct (_ || _); destruct args as [|[y|y|y|s] args]; cbn in E; try done; injection E as <- _; [apply u64_range |].
    pose proof (u32_range y). lia. }
  assert (forall base F, base = 10 \/ base = 16 ->
    if args_ok [if long then TULong else TInt] args
    then exists out, ('(val, args) ← get_unsigned is_long is_size_t args; buffer ← debug_ultoa val base; Some (F buffer : list Z, args : list va)) = Some (out, drop 1 args)
    else ('(val, args) ← get_unsigned is_long is_size_t args; buffer ← debug_ultoa val base; Some (F buffer : list Z, args : list va)) = None) as Hu'.
  { intros base F Hb. specialize (Hu base Hb). unfold get_unsigned in *. fold long in Hu |- *. destruct long; destruct args as [|[x|x|x|s] args]; try done; by eapply Hu. }
  clear Hu. destruct (Z.eqb_spec c 117); [by apply Hu'; left |]. destruct (Z.eqb_spec c 120); [by apply Hu'; right |].
  destruct (Z.eqb_spec c 88); [apply (Hu' 16 (fun b => debug_print_padded (debug_to_upper b) _ _ _)); by right |]. cbn [orb].
  destruct (Z.eqb_spec c 112).
  { destruct args as [|[x|x|x|s] args]; try done. cbn -[debug_ultoa u64]. destruct (debug_ultoa_ok (u64 x) 16) as (s & -> & _); [by right | apply u64_range | by eexists]. }
  destruct (Z.eqb_spec c 115); [destruct args as [|[x|x|x|s] args]; try done; by eexists |].
  destruct (Z.eqb_spec c 99); [destruct args as [|[x|x|x|s] args]; try done; by eexists |].
  destruct (Z.eqb_spec c 37); by eexists.
Qed.

Lemma args_ok_app ts ts' args : args_ok (ts ++ ts') args = args_ok ts args && args_ok ts' (drop (length ts) args).
Proof.
  revert args. induction ts as [|t ts IH]; intros args; cbn [app args_ok]; [done |]. destruct args as [|a args]; [done |].
  cbn. by rewrite IH, andb_assoc.
Qed.

Lemma format_loop_ok n : forall fmt args, (length fmt < n)%nat ->
  is_Some (format_loop n fmt args) <-> match format_types n fmt with Some ts => args_ok ts args = true | None => False end.
Proof.
  induction n as [|n IH]; intros fmt args Hl; [lia |]. cbn [format_loop format_types].
  destruct fmt as [|c rest]; [split; [done | by eexists] |]. cbn [length] in Hl. destruct (negb (c =? 37)).
  - rewrite <- (IH rest args) by lia. destruct (format_loop n rest args); cbn; [by split; [| eexists] | split; [by intros [? ?] | done || by intros [? ?]]].
  - destruct rest as [|c2 rest']; [split; [done | by eexists] |]. set (r := c2 :: rest') in *. assert (S (length rest') < n)%nat as Hr by (subst r; cbn [length] in *; lia).
    pose proof (parse_flags_length r false false) as Hl1. destruct (parse_flags false false r) as [[left zero] f1]. cbn in Hl1.
    pose proof (parse_width_length f1 0) as Hl2. destruct (parse_width 0 f1) as [width f2]. cbn in Hl2.
    pose proof (parse_length_length f2) as Hl3. destruct (parse_length f2) as [[is_long is_size_t] f3]. cbn in Hl3.
    destruct f3 as [|c3 f]; [split; [by intros [] | done] |]. cbn in Hl3.
    pose proof (convert_ok c3 width is_long is_size_t left zero args) as Hc.
    set (ts := conversion_type c3 is_long is_size_t) in *. specialize (IH f (drop (length ts) args) ltac:(lia)).
    destruct (format_types n f) as [ts'|]; cbn [mbind option_bind].
    + rewrite args_ok_app. destruct (args_ok ts args); [| rewrite Hc; split; [by intros [? ?] | done]].
      destruct Hc as (out & ->). cbn [mbind option_bind andb]. rewrite <- IH. destruct (format_loop n f _); cbn; [by split; [| eexists] | split; [by intros [? ?] | done || by intros [? ?]]].
    + destruct (args_ok ts args); [| rewrite Hc; split; [by intros [? ?] | done]]. destruct Hc as (out & ->). cbn [mbind option_bind].
      destruct (format_loop n f _); cbn; [| split; [by intros [? ?] | done || by intros [? ?]]]. split; [intros _; apply IH; by eexists | done].
Qed.

(** C30. The formats are typed: [debug_printf] runs, without reading past the
    format, taking an argument that is not there or of another type, or looking for a
    digit outside the table, exactly when the format does not end within a
    conversion and its conversions match the arguments, and no argument of
    a signed long conversion is the smallest number. *)
Theorem debug_printf_typed fmt args : is_Some (debug_printf fmt args) <-> printf_ok fmt args = true.
Proof.
  unfold debug_printf, printf_ok. rewrite format_loop_ok by lia. by destruct (format_types _ _).
Qed.

(** C31. The numbers printed are the numbers given: [debug_ultoa] prints every
    unsigned 64-bit number in base 10 and 16, and [debug_ltoa] every signed one in
    decimal but the smallest, as digits without leading zeros that stand for it,
    in at most 20 characters, which fit in the buffer of 32; for the smallest
    number it looks for a digit before the table. *)
Theorem debug_numbers :
  (forall v base, base = 10 \/ base = 16 -> 0 <= v < 0x10000000000000000 ->
     exists s, debug_ultoa v base = Some s /\ numeral base v s /\ (length s <= 20)%nat) /\
  (forall v, - 0x8000000000000000 < v < 0x8000000000000000 ->
     exists s, debug_ltoa v 10 = Some ((if v <? 0 then [45] else []) ++ s) /\ numeral 10 (Z.abs v) s /\ (length s <= 19)%nat) /\
  debug_ltoa (- 0x8000000000000000) 10 = None.
Proof.
  split_and!; [| apply debug_ltoa_ok | apply debug_ltoa_least]. intros v base Hb Hv.
  destruct (debug_ultoa_ok v base Hb Hv) as (s & E & Hn & Hl). exists s. split_and!; [done | done |].
  destruct Hb as [-> | ->]; cbn in Hl; lia.
Qed.

Lemma debug_numbers_witness : exists s, debug_ultoa 48879 16 = Some s /\ numeral 16 48879 s.
Proof. destruct (proj1 debug_numbers 48879 16 (or_intror eq_refl) ltac:(lia)) as (s & E & Hn & _). exists s. split; [exact E | exact Hn]. Defined.

Example printf_untyped : printf_ok (chars "%d %s") [VInt 1; VInt 2] = false /\ printf_ok (chars "100%-") [] = false /\
  printf_ok (chars "%lu of %s") [VLong 1; VStr None] = true.
Proof. vm_compute. split_and!; reflexivity. Qed.

(** ** Messages print *)

Lemma debug_log_ok level fmt args : level <= current_debug_level -> printf_ok fmt args = true -> is_Some (debug_log level fmt args).
Proof.
  intros Hl Hp. unfold debug_log. destruct (Z.gtb_spec level current_debug_level); [lia |]. apply format_loop_ok; [lia |].
  unfold printf_ok in Hp. by destruct (format_types _ _).
Qed.

Lemma DEBUG_ERROR_ok (fmt : string) args : printf_ok (chars "[ERROR] " ++ chars fmt ++ [10]) args = true -> is_Some (DEBUG_ERROR fmt args).
Proof. intros H. by apply debug_log_ok. Qed.
Lemma DEBUG_INFO_ok (fmt : string) args : printf_ok (chars "[INFO]  " ++ chars fmt ++ [10]) args = true -> is_Some (DEBUG_INFO fmt args).
Proof. intros H. by apply debug_log_ok. Qed.

Lemma printed_ok l : Forall is_Some l -> is_Some (printed l).
Proof.
  intros H. unfold printed. apply fmap_is_Some, mapM_is_Some_2. exact H.
Qed.

(** Messages whose format fits the types of the arguments print whatever the numbers are. *)
Ltac prints :=
  lazymatch goal with
  | |- is_Some (DEBUG_ERROR _ _) => apply DEBUG_ERROR_ok; vm_compute; reflexivity
  | |- is_Some (DEBUG_INFO _ _) => apply DEBUG_INFO_ok; vm_compute; reflexivity
  | |- is_Some (if ?b then _ else _) => destruct b; prints
  | |- is_Some (Some _) => eexists; reflexivity
  end.
Ltac print_all := apply printed_ok; repeat (constructor; [prints |]); constructor.

