(* ===== verification/Graphic.v ===== *)
(** * The screen

    [graphic/graphic.c]: the framebuffer, the font, the formatter of [kprintf] and
    the drawing of characters, lines, rectangles and circles.  The framebuffer is
    a list of 32-bit words; an access outside it, and an [int] that overflows,
    is None.  The theorems about the shapes are in [Shapes]. *)

From S2P Require Import Prelude Digits.
From stdpp Require Import strings.
#[local] Open Scope Z_scope.

(** ** The state *)

Record limine_framebuffer := Fb { words : list Z; fb_width : Z; fb_height : Z; fb_pitch : Z }.
Record graphic := Graphic { framebuffer : option limine_framebuffer; width : Z; height : Z }.

Definition graphic_init : graphic := Graphic None 0 0.

(** The response of the boot loader: None, or its framebuffers. *)
Definition setup_graphic (response : option (list limine_framebuffer)) (g : graphic) : graphic :=
  match response with
  | Some (fb :: _) => Graphic (Some fb) (fb_width fb) (fb_height fb)
  | _ => g
  end.

(** An [int]: None on overflow. *)
Definition int (x : Z) : option Z := if (- 0x80000000 <=? x) && (x <? 0x80000000) then Some x else None.

(** The word at an index of the framebuffer. *)
Definition put (idx color : Z) (g : graphic) : option graphic :=
  fb ← framebuffer g;
  if (0 <=? idx) && (idx <? Z.of_nat (length (words fb))) then
    Some (Graphic (Some (Fb (<[Z.to_nat idx := u32 color]> (words fb)) (fb_width fb) (fb_height fb) (fb_pitch fb))) (width g) (height g))
  else None.

(** [n] rounds of a [for] loop from [i] on. *)
Fixpoint for_loop (n : nat) (i : Z) (body : Z -> graphic -> option graphic) (g : graphic) : option graphic :=
  match n with
  | O => Some g
  | S n' => g ← body i g; for_loop n' (i + 1) body g
  end.
Definition for_range (a b : Z) := for_loop (Z.to_nat (b - a + 1)) a.

(** ** The font *)

(** The initializers in order; a later one of the same character wins. *)
Definition font_rows : list (Z * list Z) := [
  (65, [0x18; 0x24; 0x42; 0x7E; 0x42; 0x42; 0x42; 0x00]);
  (66, [0x7C; 0x42; 0x42; 0x7C; 0x42; 0x42; 0x7C; 0x00]);
  (67, [0x3C; 0x42; 0x40; 0x40; 0x40; 0x42; 0x3C; 0x00]);
  (68, [0x78; 0x44; 0x42; 0x42; 0x42; 0x44; 0x78; 0x00]);
  (69, [0x7E; 0x40; 0x40; 0x7C; 0x40; 0x40; 0x7E; 0x00]);
  (70, [0x7E; 0x40; 0x40; 0x7C; 0x40; 0x40; 0x40; 0x00]);
  (71, [0x3C; 0x42; 0x40; 0x4E; 0x42; 0x42; 0x3C; 0x00]);
  (72, [0x42; 0x42; 0x42; 0x7E; 0x42; 0x42; 0x42; 0x00]);
  (73, [0x3C; 0x18; 0x18; 0x18; 0x18; 0x18; 0x3C; 0x00]);
  (74, [0x1E; 0x08; 0x08; 0x08; 0x08; 0x48; 0x30; 0x00]);
  (75, [0x42; 0x44; 0x48; 0x70; 0x48; 0x44; 0x42; 0x00]);
  (76, [0x40; 0x40; 0x40; 0x40; 0x40; 0x40; 0x7E; 0x00]);
  (77, [0x42; 0x66; 0x5A; 0x5A; 0x42; 0x42; 0x42; 0x00]);
  (78, [0x42; 0x62; 0x52; 0x4A; 0x46; 0x42; 0x42; 0x00]);
  (79, [0x3C; 0x42; 0x42; 0x42; 0x42; 0x42; 0x3C; 0x00]);
  (80, [0x7C; 0x42; 0x42; 0x7C; 0x40; 0x40; 0x40; 0x00]);
  (81, [0x3C; 0x42; 0x42; 0x42; 0x4A; 0x44; 0x3A; 0x00]);
  (82, [0x7C; 0x42; 0x42; 0x7C; 0x48; 0x44; 0x42; 0x00]);
  (83, [0x3C; 0x42; 0x40; 0x3C; 0x02; 0x42; 0x3C; 0x00]);
  (84, [0x7E; 0x18; 0x18; 0x18; 0x18; 0x18; 0x18; 0x00]);
  (85, [0x42; 0x42; 0x42; 0x42; 0x42; 0x42; 0x3C; 0x00]);
  (86, [0x42; 0x42; 0x42; 0x42; 0x42; 0x24; 0x18; 0x00]);
  (87, [0x42; 0x42; 0x42; 0x5A; 0x5A; 0x66; 0x42; 0x00]);
  (88, [0x42; 0x42; 0x24; 0x18; 0x24; 0x42; 0x42; 0x00]);
  (89, [0x42; 0x42; 0x42; 0x24; 0x18; 0x18; 0x18; 0x00]);
  (90, [0x7E; 0x02; 0x04; 0x18; 0x20; 0x40; 0x7E; 0x00]);
  (32, [0x00; 0x00; 0x00; 0x00; 0x00; 0x00; 0x00; 0x00]);
  (33, [0x18; 0x18; 0x18; 0x18; 0x00; 0x00; 0x18; 0x00]);
  (46, [0x00; 0x00; 0x00; 0x00; 0x00; 0x18; 0x18; 0x00]);
  (48, [0x3C; 0x42; 0x46; 0x4A; 0x52; 0x62; 0x3C; 0x00]);
  (49, [0x18; 0x28; 0x48; 0x08; 0x08; 0x08; 0x3E; 0x00]);
  (50, [0x3C; 0x42; 0x02; 0x1C; 0x20; 0x40; 0x7E; 0x00]);
  (51, [0x3C; 0x42; 0x02; 0x1C; 0x02; 0x42; 0x3C; 0x00]);
  (52, [0x08; 0x18; 0x28; 0x48; 0x7E; 0x08; 0x08; 0x00]);
  (53, [0x7E; 0x40; 0x7C; 0x02; 0x02; 0x42; 0x3C; 0x00]);
  (54, [0x3C; 0x40; 0x7C; 0x42; 0x42; 0x42; 0x3C; 0x00]);
  (55, [0x7E; 0x02; 0x04; 0x08; 0x10; 0x10; 0x10; 0x00]);
  (56, [0x3C; 0x42; 0x42; 0x3C; 0x42; 0x42; 0x3C; 0x00]);
  (57, [0x3C; 0x42; 0x42; 0x3E; 0x02; 0x42; 0x3C; 0x00]);
  (58, [0x00; 0x18; 0x18; 0x00; 0x00; 0x18; 0x18; 0x00]);
  (59, [0x00; 0x18; 0x18; 0x00; 0x00; 0x18; 0x18; 0x10]);
  (45, [0x00; 0x00; 0x00; 0x7E; 0x00; 0x00; 0x00; 0x00]);
  (95, [0x00; 0x00; 0x00; 0x00; 0x00; 0x00; 0x00; 0xFF]);
  (61, [0x00; 0x00; 0x7E; 0x00; 0x7E; 0x00; 0x00; 0x00]);
  (43, [0x00; 0x18; 0x18; 0x7E; 0x18; 0x18; 0x00; 0x00]);
  (42, [0x00; 0x18; 0x7E; 0x3C; 0x7E; 0x18; 0x00; 0x00]);
  (47, [0x00; 0x02; 0x04; 0x08; 0x10; 0x20; 0x40; 0x00]);
  (92, [0x00; 0x40; 0x20; 0x10; 0x08; 0x04; 0x02; 0x00]);
  (91, [0x1C; 0x10; 0x10; 0x10; 0x10; 0x10; 0x1C; 0x00]);
  (93, [0x38; 0x08; 0x08; 0x08; 0x08; 0x08; 0x38; 0x00]);
  (123, [0x0E; 0x08; 0x08; 0x30; 0x08; 0x08; 0x0E; 0x00]);
  (125, [0x70; 0x10; 0x10; 0x0C; 0x10; 0x10; 0x70; 0x00]);
  (40, [0x0C; 0x10; 0x20; 0x20; 0x20; 0x10; 0x0C; 0x00]);
  (41, [0x30; 0x08; 0x04; 0x04; 0x04; 0x08; 0x30; 0x00]);
  (60, [0x00; 0x0C; 0x30; 0xC0; 0x30; 0x0C; 0x00; 0x00]);
  (62, [0x00; 0x30; 0x0C; 0x03; 0x0C; 0x30; 0x00; 0x00]);
  (63, [0x3C; 0x42; 0x02; 0x0C; 0x10; 0x00; 0x10; 0x00]);
  (64, [0x3C; 0x42; 0x5A; 0x5A; 0x5C; 0x40; 0x3E; 0x00]);
  (35, [0x14; 0x14; 0x7F; 0x14; 0x7F; 0x14; 0x14; 0x00]);
  (36, [0x08; 0x3E; 0x48; 0x3C; 0x12; 0x7C; 0x10; 0x00]);
  (37, [0x62; 0x64; 0x08; 0x10; 0x26; 0x46; 0x00; 0x00]);
  (94, [0x10; 0x28; 0x44; 0x00; 0x00; 0x00; 0x00; 0x00]);
  (38, [0x30; 0x48; 0x30; 0x4A; 0x44; 0x3A; 0x00; 0x00]);
  (34, [0x18; 0x18; 0x00; 0x00; 0x00; 0x00; 0x00; 0x00]);
  (39, [0x18; 0x18; 0x00; 0x00; 0x00; 0x00; 0x00; 0x00]);
  (96, [0x10; 0x08; 0x00; 0x00; 0x00; 0x00; 0x00; 0x00]);
  (126, [0x00; 0x00; 0x34; 0x4C; 0x00; 0x00; 0x00; 0x00]);
  (97, [0x00; 0x00; 0x3C; 0x02; 0x3E; 0x42; 0x3E; 0x00]);
  (98, [0x40; 0x40; 0x5C; 0x62; 0x42; 0x62; 0x5C; 0x00]);
  (99, [0x00; 0x00; 0x3C; 0x42; 0x40; 0x42; 0x3C; 0x00]);
  (100, [0x02; 0x02; 0x3A; 0x46; 0x42; 0x46; 0x3A; 0x00]);
  (101, [0x00; 0x00; 0x3C; 0x42; 0x7E; 0x40; 0x3C; 0x00]);
  (102, [0x0C; 0x10; 0x3E; 0x10; 0x10; 0x10; 0x10; 0x00]);
  (103, [0x00; 0x00; 0x3A; 0x46; 0x46; 0x3A; 0x02; 0x3C]);
  (104, [0x40; 0x40; 0x5C; 0x62; 0x42; 0x42; 0x42; 0x00]);
  (105, [0x18; 0x00; 0x38; 0x18; 0x18; 0x18; 0x3C; 0x00]);
  (106, [0x06; 0x00; 0x0E; 0x06; 0x06; 0x46; 0x46; 0x3C]);
  (107, [0x40; 0x40; 0x46; 0x48; 0x70; 0x48; 0x46; 0x00]);
  (108, [0x38; 0x18; 0x18; 0x18; 0x18; 0x18; 0x3C; 0x00]);
  (109, [0x00; 0x00; 0x66; 0x5A; 0x5A; 0x42; 0x42; 0x00]);
  (110, [0x00; 0x00; 0x5C; 0x62; 0x42; 0x42; 0x42; 0x00]);
  (111, [0x00; 0x00; 0x3C; 0x42; 0x42; 0x42; 0x3C; 0x00]);
  (112, [0x00; 0x00; 0x5C; 0x62; 0x62; 0x5C; 0x40; 0x40]);
  (113, [0x00; 0x00; 0x3A; 0x46; 0x46; 0x3A; 0x02; 0x02]);
  (114, [0x00; 0x00; 0x5C; 0x62; 0x40; 0x40; 0x40; 0x00]);
  (115, [0x00; 0x00; 0x3E; 0x40; 0x3C; 0x02; 0x7C; 0x00]);
  (116, [0x10; 0x10; 0x3E; 0x10; 0x10; 0x10; 0x0C; 0x00]);
  (117, [0x00; 0x00; 0x42; 0x42; 0x42; 0x46; 0x3A; 0x00]);
  (118, [0x00; 0x00; 0x42; 0x42; 0x42; 0x24; 0x18; 0x00]);
  (119, [0x00; 0x00; 0x42; 0x42; 0x5A; 0x5A; 0x24; 0x00]);
  (120, [0x00; 0x00; 0x42; 0x24; 0x18; 0x24; 0x42; 0x00]);
  (121, [0x00; 0x00; 0x42; 0x42; 0x46; 0x3A; 0x02; 0x3C]);
  (122, [0x00; 0x00; 0x7E; 0x04; 0x18; 0x20; 0x7E; 0x00])].

Definition font : list (list Z) :=
  fold_left (fun f '(c, rows) => <[Z.to_nat c := rows]> f) font_rows (replicate 128 (replicate 8 0x00)).

(** ** Characters *)

Definition draw_char (x y c color : Z) (g : graphic) : option graphic :=
  glyph ← font !! Z.to_nat (u8 c);
  for_range 0 7 (fun i => for_range 0 7 (fun j g =>
    row ← glyph !! Z.to_nat i;
    if Z.land row (Z.shiftl 1 (7 - j)) =? 0 then Some g
    else
      yi ← int (y + i); xj ← int (x + j);
      fb ← framebuffer g;
      put (u64 (yi * (fb_pitch fb / 4) + xj)) color g)) g.

Fixpoint draw_string (x y : Z) (str : list Z) (color : Z) (g : graphic) : option graphic :=
  match str with
  | [] => Some g
  | c :: str => g ← draw_char x y c color g; x ← int (x + 8); draw_string x y str color g
  end.

(** ** The formatter *)

(** Not used by the kernel. *)
Fixpoint itoa_loop (n : nat) (base value : Z) : option (list Z) :=
  match n with
  | O => None
  | S n' =>
      c ← digit_char (Z.rem value base);
      rest ← (if Z.quot value base =? 0 then Some [] else itoa_loop n' base (Z.quot value base));
      Some (c :: rest)
  end.
Definition itoa (value base : Z) : option (list Z) :=
  let negative := (value <? 0) && (base =? 10) in
  cs ← itoa_loop 32 base (if negative then i32 (- value) else value);
  Some ((if negative then [45] else []) ++ reverse_loop (length cs) 0 (length cs - 1) cs).

Fixpoint utoa_loop (n : nat) (base value : Z) : option (list Z) :=
  match n with
  | O => None
  | S n' =>
      if 0 <? value then
        let digit := value mod base in
        rest ← utoa_loop n' base (value / base);
        Some ((if digit <? 10 then 48 + digit else 97 + digit - 10) :: rest)
      else Some []
  end.

(** [temp] and the buffer of every caller have 32 characters. *)
Definition utoa_padded (value base width pad : Z) : option (list Z) :=
  let value := u32 value in
  temp ← (if value =? 0 then Some [48] else utoa_loop 33 base value);
  let temp := temp ++ replicate (Z.to_nat (width - Z.of_nat (length temp))) pad in
  if (length temp <=? 31)%nat then Some (rev temp) else None.

Fixpoint format_width (width : Z) (format : list Z) : Z * list Z :=
  match format with
  | c :: rest => if (48 <=? c) && (c <=? 57) then format_width (i32 (width * 10 + (c - 48))) rest else (width, format)
  | [] => (width, format)
  end.

(** The [switch]: what it prints, the arguments and the format left. *)
Definition format_switch (width pad c : Z) (format : list Z) (args : list va) : option (list Z * list va * list Z) :=
  if c =? 100 then
    '(x, args) ← va_int args;
    let value := i32 x in
    buffer ← utoa_padded (if value <? 0 then - value else value) 10 width pad;
    Some ((if value <? 0 then [45] else []) ++ buffer, args, format)
  else if c =? 117 then
    '(value, args) ← va_int args; buffer ← utoa_padded value 10 width pad; Some (buffer, args, format)
  else if c =? 120 then
    '(value, args) ← va_int args; buffer ← utoa_padded value 16 width pad; Some (buffer, args, format)
  else if c =? 112 then
    '(value, args) ← va_ptr args; buffer ← utoa_padded value 16 16 48; Some ([48; 120] ++ buffer, args, format)
  else if c =? 115 then
    '(value, args) ← va_str args; Some (default [] value, args, format)
  else if c =? 99 then
    '(value, args) ← va_int args; Some ([u8 value], args, format)
  else if c =? 108 then
    match format with
    | [] => None
    | c :: format =>
        if c =? 120 then '(value, args) ← va_long args; buffer ← utoa_padded value 16 width pad; Some (buffer, args, format)
        else if c =? 117 then '(value, args) ← va_long args; buffer ← utoa_padded value 10 width pad; Some (buffer, args, format)
        else Some ([37; 108; c], args, format)
    end
  else if c =? 37 then Some ([37], args, format)
  else Some ([37; c], args, format).

(** A format that ends after a percent sign is read past its end. *)
Fixpoint vsprintf_loop (n : nat) (format : list Z) (args : list va) : option (list Z) :=
  match n with
  | O => None
  | S n' =>
      match format with
      | [] => Some []
      | c :: format =>
          if c =? 37 then
            let '(pad, format) := match format with 48 :: rest => (48, rest) | _ => (32, format) end in
            let '(width, format) := format_width 0 format in
            match format with
            | [] => None
            | c :: format =>
                '(out, args, format) ← format_switch width pad c format args;
                rest ← vsprintf_loop n' format args;
                Some (out ++ rest)
            end
          else rest ← vsprintf_loop n' format args; Some (c :: rest)
      end
  end.
Definition vsprintf (format : list Z) (args : list va) : option (list Z) := vsprintf_loop (S (length format)) format args.

(** A C string in memory ends at the first zero. *)
Fixpoint c_string (l : list Z) : list Z :=
  match l with
  | [] => []
  | c :: l => if c =? 0 then [] else c :: c_string l
  end.

Definition kprintf (x y : Z) (format : list Z) (args : list va) (g : graphic) : option graphic :=
  buffer ← vsprintf format args;
  if (length buffer <? 1024)%nat then draw_string x y (c_string buffer) 0xFFFFFF g else None.

(** What is written to [buf], without its terminating zero, and the result; the
    size is not looked at. *)
Definition kprintf_to_buffer (size : Z) (format : list Z) (args : list va) : option (list Z * Z) :=
  buf ← vsprintf format args;
  Some (buf, Z.of_nat (length buf)).

(** ** Shapes *)

Definition abs (x : Z) : option Z := if x <? 0 then int (- x) else Some x.

Definition draw_pixel (x y color : Z) (g : graphic) : option graphic :=
  if (x >=? 0) && (x <? width g) && (y >=? 0) && (y <? height g) then
    fb ← framebuffer g;
    put (u64 (y * (fb_pitch fb / 4) + x)) color g
  else Some g.

Definition draw_at (x y color : Z) (g : graphic) : option graphic :=
  x ← int x; y ← int y; draw_pixel x y color g.

(** The square of pixels at a point of a line. *)
Definition brush (x0 y0 half_thickness color : Z) : graphic -> option graphic :=
  for_range (- half_thickness) half_thickness (fun i => for_range (- half_thickness) half_thickness (fun j g =>
    l ← int (i * i + j * j); r ← int (half_thickness * half_thickness + half_thickness);
    if l <=? r then draw_at (x0 + i) (y0 + j) color g else Some g)).

Fixpoint line_loop (n : nat) (x0 y0 x1 y1 dx dy sx sy err half_thickness color : Z) (g : graphic) : option graphic :=
  match n with
  | O => None
  | S n' =>
      g ← brush x0 y0 half_thickness color g;
      if (x0 =? x1) && (y0 =? y1) then Some g
      else
        e2 ← int (err * 2);
        '(err, x0) ← (if e2 >? - dy then err ← int (err - dy); x0 ← int (x0 + sx); Some (err, x0) else Some (err, x0));
        '(err, y0) ← (if e2 <? dx then err ← int (err + dx); y0 ← int (y0 + sy); Some (err, y0) else Some (err, y0));
        line_loop n' x0 y0 x1 y1 dx dy sx sy err half_thickness color g
  end.

Definition draw_line (x0 y0 x1 y1 thickness color : Z) (g : graphic) : option graphic :=
  dx ← (d ← int (x1 - x0); abs d);
  dy ← (d ← int (y1 - y0); abs d);
  let sx := if x0 <? x1 then 1 else -1 in
  let sy := if y0 <? y1 then 1 else -1 in
  err ← int (dx - dy);
  let half_thickness := Z.quot thickness 2 in
  line_loop (S (Z.to_nat (dx + dy))) x0 y0 x1 y1 dx dy sx sy err half_thickness color g.

Definition clear_screen (color : Z) (g : graphic) : option graphic :=
  fb ← framebuffer g;
  for_loop (Z.to_nat (u64 (width g * height g))) 0 (fun i => put i color) g.

Definition draw_rect (x y w h thickness color : Z) (filled : bool) (g : graphic) : option graphic :=
  if filled then
    for_range 0 (h - 1) (fun i => for_range 0 (w - 1) (fun j => draw_at (x + j) (y + i) color)) g
  else
    for_range 0 (thickness - 1) (fun t g =>
      top ← int (y - t); bottom ← int (y + h - 1 + t); left ← int (x - t); right ← int (x + w - 1 + t);
      x_end ← int (x + w - 1); y_end ← int (y + h - 1);
      g ← draw_line x top x_end top 1 color g;
      g ← draw_line x bottom x_end bottom 1 color g;
      g ← draw_line left y left y_end 1 color g;
      draw_line right y right y_end 1 color g) g.

(** One round of the midpoint algorithm. *)
Definition filled_columns (x y x0 y0 thickness color : Z) : graphic -> option graphic :=
  for_range (- y0) y0 (fun i => for_range (Z.quot (- thickness) 2) (Z.quot thickness 2) (fun t g =>
    g ← draw_at (x + x0 + t) (y + i) color g;
    draw_at (x - x0 + t) (y + i) color g)).
Definition outline_points (x y x0 y0 thickness color : Z) : graphic -> option graphic :=
  for_range (Z.quot (- thickness) 2) (Z.quot thickness 2) (fun t g =>
    g ← draw_at (x + x0 + t) (y + y0) color g;
    g ← draw_at (x - x0 + t) (y + y0) color g;
    g ← draw_at (x + x0 + t) (y - y0) color g;
    g ← draw_at (x - x0 + t) (y - y0) color g;
    g ← draw_at (x + y0 + t) (y + x0) color g;
    g ← draw_at (x - y0 + t) (y + x0) color g;
    g ← draw_at (x + y0 + t) (y - x0) color g;
    draw_at (x - y0 + t) (y - x0) color g).

Fixpoint circle_loop (n : nat) (x y x0 y0 d thickness color : Z) (filled : bool) (g : graphic) : option graphic :=
  match n with
  | O => None
  | S n' =>
      if x0 <=? y0 then
        g ← (if filled then filled_columns x y x0 y0 thickness color g else outline_points x y x0 y0 thickness color g);
        if d <? 0 then
          d ← int (d + (2 * x0 + 3)); circle_loop n' x y (x0 + 1) y0 d thickness color filled g
        else
          d ← int (d + (2 * (x0 - y0) + 5)); circle_loop n' x y (x0 + 1) (y0 - 1) d thickness color filled g
      else Some g
  end.
Definition draw_circle (x y radius thickness color : Z) (filled : bool) (g : graphic) : option graphic :=
  d ← int (1 - radius);
  circle_loop (S (Z.to_nat (radius + 1))) x y 0 radius d thickness color filled g.

Definition draw_triangle (x0 y0 x1 y1 x2 y2 thickness color : Z) (filled : bool) (g : graphic) : option graphic :=
  if filled then Some g
  else
    g ← draw_line x0 y0 x1 y1 thickness color g;
    g ← draw_line x1 y1 x2 y2 thickness color g;
    draw_line x2 y2 x0 y0 thickness color g.

(** ** Examples *)

(** A screen of [w] by [h] black pixels without padding. *)
Definition blank (w h : Z) : graphic := setup_graphic (Some [Fb (replicate (Z.to_nat (w * h)) 0) w h (4 * w)]) graphic_init.
Definition screen (g : graphic) : list Z := match framebuffer g with Some fb => words fb | None => [] end.

(** The high half of a long or of a pointer is lost; a wide field overflows the
    buffer; an unknown conversion is printed. *)
Example vsprintf_examples :
  vsprintf (chars "%d|%04x|%lx|%p|%s|%c%%|%ld") [VInt (-42); VInt 0xab; VLong 0x1234567890; VPtr 0xFFFF800000001000; VStr (Some (chars "ok")); VInt 33]
    = Some (chars "-42|00ab|34567890|0x0000000000001000|ok|!%|%ld") /\
  vsprintf (chars "%32u") [VInt 1] = None /\ vsprintf (chars "100%") [] = None.
Proof. vm_compute. split_and!; reflexivity. Qed.

Example draw_char_example : screen <$> draw_char 0 0 45 7 (blank 8 8) = Some (replicate 25 0 ++ replicate 6 7 ++ replicate 33 0).
Proof. vm_compute. reflexivity. Qed.

(** A character that does not fit on the screen is written past the framebuffer,
    and a character above 127 is looked up past the font. *)
Example draw_char_out : draw_char 0 4 65 7 (blank 8 8) = None /\ draw_char 0 0 200 7 (blank 8 8) = None.
Proof. vm_compute. split; reflexivity. Qed.

(** A line of 3 by 1 pixels, and a disc of radius 3 whose sides are missing. *)
Example draw_line_example : screen <$> draw_line 0 0 3 1 1 1 (blank 4 2) = Some [1; 1; 0; 0; 0; 0; 1; 1].
Proof. vm_compute. reflexivity. Qed.
Example draw_disc_example : screen <$> draw_circle 3 3 3 1 1 true (blank 7 7) = Some
  [0; 0; 1; 1; 1; 0; 0;
   0; 1; 1; 1; 1; 1; 0;
   0; 1; 1; 1; 1; 1; 0;
   0; 1; 1; 1; 1; 1; 0;
   0; 1; 1; 1; 1; 1; 0;
   0; 1; 1; 1; 1; 1; 0;
   0; 0; 1; 1; 1; 0; 0].
Proof. vm_compute. reflexivity. Qed.
