(* ===== verification/Shapes.v ===== *)
(** * What the shapes of the screen are

    The drawing functions of [Graphic] by the set of points that they paint:
    [paints f S c] says that [f] runs and gives the points of [S] that are on the
    screen the colour [c] and leaves all others.  Lines are equal to the nearest
    points of the ideal line, circles to the nearest points of the ideal circle. *)

From S2P Require Import Prelude Digits Graphic.
From stdpp Require Import strings.
#[local] Open Scope Z_scope.

Implicit Types (g : graphic).

(** ** Sets of points *)

Definition points := Z -> Z -> Prop.
Implicit Types (S : points).

(** Words in a line of the framebuffer, and the word of a point. *)
Definition stride g : Z := match framebuffer g with Some fb => fb_pitch fb / 4 | None => 0 end.
Definition pixel g (x y : Z) : option Z := fb ← framebuffer g; words fb !! Z.to_nat (y * stride g + x).

(** A framebuffer as the boot loader gives it: lines at least as long as the
    screen is wide, all of them mapped. *)
Definition fb_ok g : Prop := exists fb, framebuffer g = Some fb /\ 0 <= width g <= stride g /\ 0 <= height g /\
  Z.of_nat (length (words fb)) = height g * stride g /\ height g * stride g < 0x10000000000000000.

Definition same_screen g g' : Prop := width g' = width g /\ height g' = height g /\ stride g' = stride g.

(** Points of the framebuffer, also those beside the screen. *)
Definition in_fb g (x y : Z) : Prop := 0 <= x < stride g /\ 0 <= y < height g.

Definition paints (f : graphic -> option graphic) S (c : Z) : Prop :=
  forall g, fb_ok g -> exists g', f g = Some g' /\ fb_ok g' /\ same_screen g g' /\
    forall x y, in_fb g x y ->
      (x < width g -> S x y -> pixel g' x y = Some c) /\
      (~ (x < width g /\ S x y) -> pixel g' x y = pixel g x y).

Lemma paints_ext f f' S S' c : (forall g, f g = f' g) -> (forall x y, S x y <-> S' x y) -> paints f S c -> paints f' S' c.
Proof.
  intros Ef ES H g Hg. destruct (H g Hg) as (g' & E & H1 & H2 & H3). exists g'. rewrite <- Ef. split_and!; [done | done | done |].
  intros x y Hxy. rewrite <- ES. by apply H3.
Qed.

Lemma paints_eq f f' S c : (forall g, f g = f' g) -> paints f S c -> paints f' S c.
Proof. intros Ef. by apply paints_ext. Qed.

Lemma paints_none c : paints Some (fun _ _ => False) c.
Proof. intros g Hg. exists g. split_and!; [done | done | done |]. intros x y _. split; [done | done]. Qed.

Lemma paints_seq f1 f2 S1 S2 c : paints f1 S1 c -> paints f2 S2 c ->
  paints (fun g => g ← f1 g; f2 g) (fun x y => S1 x y \/ S2 x y) c.
Proof.
  intros H1 H2 g Hg. destruct (H1 g Hg) as (g1 & E1 & Hg1 & (Ew & Eh & Es) & P1). destruct (H2 g1 Hg1) as (g2 & E2 & Hg2 & (Ew2 & Eh2 & Es2) & P2).
  exists g2. rewrite E1. cbn [mbind option_bind]. split_and!; [done | done | by unfold same_screen; rewrite Ew2, Eh2, Es2 |].
  intros x y Hxy. destruct (P1 x y Hxy) as [A1 B1].
  assert (in_fb g1 x y) as Hxy1 by (unfold in_fb in *; rewrite Es, Eh; done). destruct (P2 x y Hxy1) as [A2 B2]. rewrite Ew in A2, B2.
  split.
  - intros Hx HS. destruct (decide (pixel g2 x y = Some c)) as [|Hne]; [done |]. rewrite B2.
    + apply A1; [done |]. destruct HS; [done |]. by destruct Hne; apply A2.
    + intros [_ HS2]. by apply Hne, A2.
  - intros Hn. rewrite B2, B1; [done | |]; intros [Hx HS]; apply Hn; tauto.
Qed.

Lemma paints_loop n : forall i body (S : Z -> points) c, (forall k, i <= k < i + Z.of_nat n -> paints (body k) (S k) c) ->
  paints (for_loop n i body) (fun x y => exists k, i <= k < i + Z.of_nat n /\ S k x y) c.
Proof.
  induction n as [|n IH]; intros i body S c H.
  - eapply paints_ext; [by intros g | | apply paints_none]. intros x y. split; [done |]. intros (k & Hk & _). lia.
  - eapply paints_ext; [by intros g | | apply (paints_seq _ _ (S i)); [apply H; lia | apply IH; intros k Hk; apply H; lia]].
    intros x y. cbn beta. split.
    + intros [HS | (k & Hk & HS)]; [exists i; split; [lia | done] | exists k; split; [lia | done]].
    + intros (k & Hk & HS). destruct (Z.eq_dec k i) as [->|]; [by left |]. right. exists k. split; [lia | done].
Qed.

Lemma paints_range a b body (S : Z -> points) c : (forall k, a <= k <= b -> paints (body k) (S k) c) ->
  paints (for_range a b body) (fun x y => exists k, a <= k <= b /\ S k x y) c.
Proof.
  intros H. eapply paints_ext; [by intros g | | apply paints_loop; intros k Hk; apply H; lia].
  intros x y. cbn beta. split; intros (k & Hk & HS); exists k; (split; [lia | done]).
Qed.

Lemma paints_if (b : bool) f1 f2 S1 S2 c : paints f1 S1 c -> paints f2 S2 c ->
  paints (fun g => if b then f1 g else f2 g) (fun x y => if b then S1 x y else S2 x y) c.
Proof. by destruct b. Qed.

(** ** Pixels *)

Lemma int_ok x : - 0x80000000 <= x < 0x80000000 -> int x = Some x.
Proof. intros H. unfold int. destruct (Z.leb_spec (- 0x80000000) x); [| lia]. destruct (Z.ltb_spec x 0x80000000); [done | lia]. Qed.

Lemma draw_pixel_paints x y color : paints (draw_pixel x y color) (fun x' y' => x' = x /\ y' = y) (u32 color).
Proof.
  intros g (fb & Ef & Hw & Hh & Hl & Hmax). unfold draw_pixel. rewrite !Z.geb_leb.
  destruct ((0 <=? x) && (x <? width g) && (0 <=? y) && (y <? height g)) eqn:Eb.
  2: { exists g. split_and!; [done | by exists fb | done |]. intros x' y' [Hx' Hy']. split; [| done]. intros Hx (-> & ->).
       apply andb_false_iff in Eb. rewrite andb_false_iff, andb_false_iff, !Z.leb_gt, !Z.ltb_ge in Eb. lia. }
  repeat (apply andb_true_iff in Eb as [Eb ?]). zbool. rewrite Ef. cbn [mbind option_bind].
  unfold stride in *. rewrite Ef in *. set (s := fb_pitch fb / 4) in *.
  assert (y * s + s <= height g * s) as Hle by (rewrite <- Z.mul_succ_l; apply Z.mul_le_mono_nonneg_r; lia).
  assert (0 <= y * s) by (apply Z.mul_nonneg_nonneg; lia). rewrite u64_small by lia. unfold put. rewrite Ef. cbn [mbind option_bind].
  destruct (Z.leb_spec 0 (y * s + x)); [| lia]. destruct (Z.ltb_spec (y * s + x) (Z.of_nat (length (words fb)))); [| lia]. cbn [andb].
  eexists. split; [done |]. split; [| split; [by unfold same_screen, stride; cbn; rewrite Ef |]].
  { eexists. split; [done |]. unfold stride. cbn. rewrite length_insert. split_and!; done || lia. }
  intros x' y' [Hx' Hy']. unfold stride in Hx'. rewrite Ef in Hx'. fold s in Hx'. unfold pixel, stride. cbn. rewrite Ef. cbn. fold s.
  assert (0 <= y' * s) by (apply Z.mul_nonneg_nonneg; lia).
  assert (y' * s + s <= height g * s) as Hle' by (rewrite <- Z.mul_succ_l; apply Z.mul_le_mono_nonneg_r; lia).
  split.
  - intros _ (-> & ->). apply list_lookup_insert_eq. lia.
  - intros Hn. apply list_lookup_insert_ne. intros E. apply Z2Nat.inj in E; [| lia | lia].
    destruct (Z.lt_trichotomy y y') as [Hlt | [-> | Hlt]].
    + assert (y * s + s <= y' * s) by (rewrite <- Z.mul_succ_l; apply Z.mul_le_mono_nonneg_r; lia). lia.
    + apply Hn. split_and!; lia.
    + assert (y' * s + s <= y * s) by (rewrite <- Z.mul_succ_l; apply Z.mul_le_mono_nonneg_r; lia). lia.
Qed.

Lemma draw_at_paints x y color : - 0x80000000 <= x < 0x80000000 -> - 0x80000000 <= y < 0x80000000 ->
  paints (draw_at x y color) (fun x' y' => x' = x /\ y' = y) (u32 color).
Proof.
  intros Hx Hy. eapply paints_eq; [| apply draw_pixel_paints]. intros g. unfold draw_at. by rewrite !int_ok by done.
Qed.

(** ** Lines *)

Definition near (n x : Z) : Prop := - n <= x <= n.

(** The brush of a half thickness at a point. *)
Definition brush_set (x0 y0 h : Z) : points := fun x y =>
  near h (x - x0) /\ near h (y - y0) /\ (x - x0) * (x - x0) + (y - y0) * (y - y0) <= h * h + h.

Lemma near_square h i : near h i -> 0 <= i * i <= h * h.
Proof. intros [H1 H2]. split; [apply Z.square_nonneg |]. rewrite <- (Z.abs_square i). apply Z.square_le_mono_nonneg; lia. Qed.

Lemma brush_paints x0 y0 h color : h <= 0x2000 -> near 0x20000000 x0 -> near 0x20000000 y0 ->
  paints (brush x0 y0 h color) (brush_set x0 y0 h) (u32 color).
Proof.
  intros Hh Hx Hy. eapply paints_ext; [by intros g | | apply (paints_range _ _ _ (fun i x y => exists j, - h <= j <= h /\
    if i * i + j * j <=? h * h + h then x = x0 + i /\ y = y0 + j else False)); intros i Hi; apply (paints_range _ _ _ (fun j x y => if i * i + j * j <=? h * h + h then x = x0 + i /\ y = y0 + j else False)); intros j Hj].
  - intros x y. unfold brush_set. split.
    + intros (i & Hi & j & Hj & HS). destruct (Z.leb_spec (i * i + j * j) (h * h + h)); [| done]. destruct HS as [-> ->].
      replace (x0 + i - x0) with i by lia. replace (y0 + j - y0) with j by lia. done.
    + intros (Hi & Hj & Hl). exists (x - x0). split; [done |]. exists (y - y0). split; [done |].
      destruct (Z.leb_spec ((x - x0) * (x - x0) + (y - y0) * (y - y0)) (h * h + h)); [split; lia | lia].
  - pose proof (near_square h i Hi). pose proof (near_square h j Hj).
    pose proof (Z.mul_le_mono_nonneg h 0x2000 h 0x2000 ltac:(lia) Hh ltac:(lia) Hh) as Hhh. unfold near in *.
    eapply (paints_eq (fun g => if i * i + j * j <=? h * h + h then draw_at (x0 + i) (y0 + j) color g else Some g)); [intros g; by rewrite !int_ok by lia |]. apply (paints_if _ _ _ _ (fun _ _ => False)); [apply draw_at_paints; lia | apply paints_none].
Qed.

(** The steps along the axes of the [i]-th point of a line of [dx] by [dy]: the
    point nearest to the ideal line, and of two such points the nearer to the start. *)
Definition line_point (dx dy i : Z) : Z * Z :=
  if dy <=? dx then (i, (2 * (i * dy) + dx - 1) / (2 * dx)) else ((2 * (i * dx) + dy - 1) / (2 * dy), i).

Lemma round_bounds dx dy i : 0 < dx -> let q := (2 * (i * dy) + dx - 1) / (2 * dx) in
  2 * (q * dx) <= 2 * (i * dy) + dx - 1 < 2 * (q * dx) + 2 * dx.
Proof.
  intros Hd q. pose proof (Z.div_mod (2 * (i * dy) + dx - 1) (2 * dx) ltac:(lia)) as E. fold q in E.
  pose proof (Z.mod_pos_bound (2 * (i * dy) + dx - 1) (2 * dx) ltac:(lia)). lia.
Qed.

Lemma round_unique dx dy i q : 0 < dx -> 2 * (q * dx) <= 2 * (i * dy) + dx - 1 < 2 * (q * dx) + 2 * dx ->
  (2 * (i * dy) + dx - 1) / (2 * dx) = q.
Proof. intros Hd H. symmetry. apply (Z.div_unique _ _ _ (2 * (i * dy) + dx - 1 - 2 * (q * dx))); lia. Qed.

(** The step to the next point on the longer axis and on the other one. *)
Lemma round_step dx dy i : 0 <= dy <= dx -> 0 < dx -> let q := (2 * (i * dy) + dx - 1) / (2 * dx) in
  2 * ((q + 1) * dx - (i + 1) * dy) > - dy /\
  (2 * ((i + 1) * dy) + dx - 1) / (2 * dx) = q + (if 2 * ((q + 1) * dx - (i + 1) * dy) <? dx then 1 else 0).
Proof.
  intros Hd Hd0 q. pose proof (round_bounds dx dy i Hd0) as Hq. cbn zeta in Hq. fold q in Hq. split.
  - destruct (Z.eq_dec dx dy) as [<- | Hne]; [| clearbody q; lia]. assert (q = i) as -> by (apply round_unique; lia). lia.
  - apply round_unique; [done |]. clearbody q. destruct (Z.ltb_spec (2 * ((q + 1) * dx - (i + 1) * dy)) dx); lia.
Qed.

Definition line_err (dx dy : Z) (p : Z * Z) : Z := (p.2 + 1) * dx - (p.1 + 1) * dy.

Lemma line_point_step dx dy i : 0 <= dx -> 0 <= dy -> 0 <= i < Z.max dx dy -> let p := line_point dx dy i in
  line_point dx dy (i + 1) = (p.1 + (if 2 * line_err dx dy p >? - dy then 1 else 0), p.2 + (if 2 * line_err dx dy p <? dx then 1 else 0)).
Proof.
  intros Hx Hy Hi p. subst p. unfold line_point, line_err. rewrite Z.gtb_ltb. destruct (Z.leb_spec dy dx); cbn [fst snd].
  - destruct (round_step dx dy i ltac:(lia) ltac:(lia)) as [H1 ->]. destruct (Z.ltb_spec (- dy) (2 * (((2 * (i * dy) + dx - 1) / (2 * dx) + 1) * dx - (i + 1) * dy))); [done | lia].
  - destruct (round_step dy dx i ltac:(lia) ltac:(lia)) as [H1 ->]. set (q := (2 * (i * dx) + dy - 1) / (2 * dy)) in *.
    f_equal; [f_equal | f_equal].
    + destruct (Z.ltb_spec (2 * ((q + 1) * dy - (i + 1) * dx)) dy), (Z.ltb_spec (- dy) (2 * ((i + 1) * dx - (q + 1) * dy))); lia.
    + destruct (Z.ltb_spec (2 * ((i + 1) * dx - (q + 1) * dy)) dx); lia.
Qed.

Lemma line_point_near dx dy i : 0 <= dx -> 0 <= dy -> 0 <= i <= Z.max dx dy ->
  2 * Z.abs ((line_point dx dy i).1 * dy - (line_point dx dy i).2 * dx) <= Z.max dx dy /\
  0 <= (line_point dx dy i).1 <= dx /\ 0 <= (line_point dx dy i).2 <= dy.
Proof.
  intros Hx Hy Hi. unfold line_point. destruct (Z.leb_spec dy dx); cbn [fst snd].
  - destruct (Z.eq_dec dx 0) as [->|]; [assert (dy = 0) as -> by lia; assert (i = 0) as -> by lia; split_and!; vm_compute; congruence |].
    pose proof (round_bounds dx dy i ltac:(lia)) as Hq. cbn zeta in Hq. set (q := (2 * (i * dy) + dx - 1) / (2 * dx)) in *.
    assert (0 <= i * dy <= dx * dy) by (clear Hq q; split; [apply Z.mul_nonneg_nonneg; lia | apply Z.mul_le_mono_nonneg_r; lia]).
    split; [lia |]. split; [lia |]. split; [apply Z.div_pos; lia |]. clearbody q. apply Z.lt_succ_r, (Z.mul_lt_mono_pos_r (2 * dx)); lia.
  - pose proof (round_bounds dy dx i ltac:(lia)) as Hq. cbn zeta in Hq. set (q := (2 * (i * dx) + dy - 1) / (2 * dy)) in *.
    assert (0 <= i * dx <= dy * dx) by (clear Hq q; split; [apply Z.mul_nonneg_nonneg; lia | apply Z.mul_le_mono_nonneg_r; lia]).
    split; [lia |]. split; [| lia]. split; [apply Z.div_pos; lia |]. clearbody q. apply Z.lt_succ_r, (Z.mul_lt_mono_pos_r (2 * dy)); lia.
Qed.

Lemma line_point_ends dx dy : 0 <= dx -> 0 <= dy -> line_point dx dy 0 = (0, 0) /\ line_point dx dy (Z.max dx dy) = (dx, dy).
Proof.
  intros Hx Hy. unfold line_point. destruct (Z.leb_spec dy dx).
  - rewrite Z.max_l by lia. destruct (Z.eq_dec dx 0) as [->|]; [assert (dy = 0) as -> by lia; done |].
    split; f_equal; apply round_unique; lia.
  - rewrite Z.max_r by lia. split; f_equal; apply round_unique; lia.
Qed.

(** Where the line is at its [i]-th point. *)
Definition line_at (x0 y0 x1 y1 i : Z) : Z * Z :=
  let p := line_point (Z.abs (x1 - x0)) (Z.abs (y1 - y0)) i in
  (x0 + (if x0 <? x1 then 1 else -1) * p.1, y0 + (if y0 <? y1 then 1 else -1) * p.2).
Definition line_length (x0 y0 x1 y1 : Z) : Z := Z.max (Z.abs (x1 - x0)) (Z.abs (y1 - y0)).

(** The brush at every point of the line. *)
Definition line_set (x0 y0 x1 y1 thickness : Z) : points := fun x y =>
  exists i, 0 <= i <= line_length x0 y0 x1 y1 /\ brush_set (line_at x0 y0 x1 y1 i).1 (line_at x0 y0 x1 y1 i).2 (Z.quot thickness 2) x y.

Section line.
Context (x0 y0 x1 y1 h color : Z) (Hx0 : near 0x10000000 x0) (Hy0 : near 0x10000000 y0) (Hx1 : near 0x10000000 x1) (Hy1 : near 0x10000000 y1) (Hh : h <= 0x2000).
Let dx := Z.abs (x1 - x0).
Let dy := Z.abs (y1 - y0).
Let sx := if x0 <? x1 then 1 else -1.
Let sy := if y0 <? y1 then 1 else -1.
Let at_x i := x0 + sx * (line_point dx dy i).1.
Let at_y i := y0 + sy * (line_point dx dy i).2.

Lemma line_bounds i : 0 <= i <= Z.max dx dy -> near 0x10000000 (at_x i) /\ near 0x10000000 (at_y i) /\ near 0x30000000 (line_err dx dy (line_point dx dy i)).
Proof using Hx0 Hy0 Hx1 Hy1.
  intros Hi. destruct (line_point_near dx dy i ltac:(lia) ltac:(lia) Hi) as (H1 & H2 & H3). unfold at_x, at_y, line_err, near in *.
  destruct (line_point dx dy i) as [a b]. cbn [fst snd] in *. split_and!.
  1-4: subst sx sy dx dy; destruct (Z.ltb_spec x0 x1), (Z.ltb_spec y0 y1); lia.
  all: lia.
Qed.

Lemma line_at_end i : 0 <= i <= Z.max dx dy -> (at_x i =? x1) && (at_y i =? y1) = (i =? Z.max dx dy).
Proof using Type.
  intros Hi. destruct (line_point_ends dx dy ltac:(lia) ltac:(lia)) as [_ He]. destruct (Z.eqb_spec i (Z.max dx dy)) as [->|Hne].
  - unfold at_x, at_y. rewrite He. cbn [fst snd]. apply andb_true_iff. rewrite !Z.eqb_eq.
    subst sx sy dx dy. destruct (Z.ltb_spec x0 x1), (Z.ltb_spec y0 y1); lia.
  - apply andb_false_iff. rewrite !Z.eqb_neq. unfold at_x, at_y, line_point. subst sx sy dx dy.
    destruct (Z.leb_spec (Z.abs (y1 - y0)) (Z.abs (x1 - x0))); cbn [fst snd]; [left | right]; destruct (Z.ltb_spec x0 x1), (Z.ltb_spec y0 y1); lia.
Qed.

Lemma line_step i : 0 <= i < Z.max dx dy -> let e := line_err dx dy (line_point dx dy i) in
  at_x (i + 1) = (if e * 2 >? - dy then at_x i + sx else at_x i) /\
  at_y (i + 1) = (if e * 2 <? dx then at_y i + sy else at_y i) /\
  line_err dx dy (line_point dx dy (i + 1)) = e - (if e * 2 >? - dy then dy else 0) + (if e * 2 <? dx then dx else 0).
Proof using Type.
  intros Hi e. unfold at_x, at_y. rewrite (line_point_step dx dy i) by (done || lia). fold e. rewrite (Z.mul_comm 2 e).
  assert (e = ((line_point dx dy i).2 + 1) * dx - ((line_point dx dy i).1 + 1) * dy) as Ee by done. clearbody e.
  unfold line_err. destruct (line_point dx dy i) as [a b]. cbn [fst snd] in *. clear Hi at_x at_y.
  clearbody sx sy dx dy. destruct (e * 2 >? - dy), (e * 2 <? dx); split_and!; lia.
Qed.

Lemma line_loop_paints n : forall i, 0 <= i <= Z.max dx dy -> (Z.to_nat (Z.max dx dy - i) < n)%nat ->
  paints (line_loop n (at_x i) (at_y i) x1 y1 dx dy sx sy (line_err dx dy (line_point dx dy i)) h color)
    (fun x y => exists k, i <= k <= Z.max dx dy /\ brush_set (at_x k) (at_y k) h x y) (u32 color).
Proof using Hx0 Hy0 Hx1 Hy1 Hh.
  induction n as [|n IH]; intros i Hi Hn; [lia |]. destruct (line_bounds i Hi) as (Bx & By & Be).
  assert (paints (brush (at_x i) (at_y i) h color) (brush_set (at_x i) (at_y i) h) (u32 color)) as Hb by (apply brush_paints; [done | unfold near in *; lia | unfold near in *; lia]).
  destruct (Z.eq_dec i (Z.max dx dy)) as [Ei|Hne].
  - eapply paints_ext; [| | exact Hb].
    + intros g. cbn [line_loop]. rewrite line_at_end by done. destruct (Z.eqb_spec i (Z.max dx dy)); [| done]. by destruct (brush _ _ _ _ g).
    + intros x y. split; [intros HS; exists i; split; [lia | done] |]. intros (k & Hk & HS). by replace i with k by lia.
  - eapply paints_ext; [| | exact (paints_seq _ _ _ _ _ Hb (IH (i + 1) ltac:(lia) ltac:(lia)))].
    + intros g. cbn [line_loop]. rewrite line_at_end by done. destruct (Z.eqb_spec i (Z.max dx dy)); [done |].
      destruct (brush _ _ _ _ g) as [g1|]; [| done]. cbn [mbind option_bind].
      destruct (line_step i ltac:(lia)) as (E1 & E2 & E3). destruct (line_bounds (i + 1) ltac:(lia)) as (Bx' & By' & Be').
      rewrite E1 in Bx' |- *. rewrite E2 in By' |- *. rewrite E3 in Be' |- *.
      set (e := line_err dx dy (line_point dx dy i)) in *. unfold near in *. rewrite (int_ok (e * 2)) by lia. cbn [mbind option_bind].
      assert (0 <= dx <= 0x20000000 /\ 0 <= dy <= 0x20000000) by lia. clearbody e. clear Hb E1 E2 E3.
      destruct (e * 2 >? - dy); cbn [mbind option_bind]; rewrite ?(int_ok (e - dy)), ?(int_ok (at_x i + sx)) by lia; cbn [mbind option_bind];
        destruct (e * 2 <? dx); cbn [mbind option_bind]; rewrite ?int_ok by lia; cbn [mbind option_bind]; rewrite ?Z.add_0_r, ?Z.sub_0_r; done.
    + intros x y. cbn beta. split.
      * intros [HS | (k & Hk & HS)]; [exists i; split; [lia | done] | exists k; split; [lia | done]].
      * intros (k & Hk & HS). destruct (Z.eq_dec k i) as [->|]; [by left |]. right. exists k. split; [lia | done].
Qed.
End line.

Lemma draw_line_paints x0 y0 x1 y1 thickness color :
  near 0x10000000 x0 -> near 0x10000000 y0 -> near 0x10000000 x1 -> near 0x10000000 y1 -> thickness <= 0x4000 ->
  paints (draw_line x0 y0 x1 y1 thickness color) (line_set x0 y0 x1 y1 thickness) (u32 color).
Proof.
  intros Hx0 Hy0 Hx1 Hy1 Ht. assert (Z.quot thickness 2 <= 0x2000) as Hh by (destruct (Z.leb_spec 0 thickness); [rewrite Z.quot_div_nonneg by lia; apply Z.div_le_upper_bound; lia | pose proof (Z.quot_le_mono thickness 0 2 ltac:(lia) ltac:(lia)) as Hq; change (0 ÷ 2) with 0 in Hq; lia]).
  destruct (line_point_ends (Z.abs (x1 - x0)) (Z.abs (y1 - y0)) ltac:(lia) ltac:(lia)) as [E0 _].
  pose proof (line_loop_paints x0 y0 x1 y1 (Z.quot thickness 2) color Hx0 Hy0 Hx1 Hy1 Hh (S (Z.to_nat (Z.abs (x1 - x0) + Z.abs (y1 - y0)))) 0 ltac:(lia) ltac:(lia)) as H.
  unfold line_err in H. cbn zeta in H. rewrite !E0 in H. cbn [fst snd] in H. rewrite !Z.mul_0_r, !Z.add_0_r, !Z.add_0_l, !Z.mul_1_l in H.
  eapply paints_ext; [| | exact H].
  - intros g. unfold draw_line, near in *. rewrite (int_ok (x1 - x0)), (int_ok (y1 - y0)) by lia. cbn [mbind option_bind]. unfold abs.
    assert (forall d, near 0x20000000 d -> (if d <? 0 then int (- d) else Some d) = Some (Z.abs d)) as Ha.
    { intros d Hd. destruct (Z.ltb_spec d 0); [rewrite int_ok; [f_equal; lia | unfold near in Hd; lia] | f_equal; lia]. }
    rewrite !Ha by (unfold near; lia). cbn [mbind option_bind]. rewrite int_ok by lia. cbn [mbind option_bind].
    reflexivity.
  - done.
Qed.

(** ** Circles *)

(** The points of the second octant nearest to the circle: with a step of [a] from
    the centre on one axis, [b] on the other is the root of r² - a², rounded. *)
Definition octant (r a b : Z) : Prop := 0 <= a <= b /\ b * b - b < r * r - a * a <= b * b + b.

(** The pixels of a round for the point [(a, b)]. *)
Definition outline_set (x y thickness a b : Z) : points := fun x' y' =>
  exists t, Z.quot (- thickness) 2 <= t <= Z.quot thickness 2 /\
    ((Z.abs (x' - t - x) = a /\ Z.abs (y' - y) = b) \/ (Z.abs (x' - t - x) = b /\ Z.abs (y' - y) = a)).
Definition columns_set (x y thickness a b : Z) : points := fun x' y' =>
  exists t, Z.quot (- thickness) 2 <= t <= Z.quot thickness 2 /\ Z.abs (x' - t - x) = a /\ Z.abs (y' - y) <= b.

Definition circle_set (x y r thickness : Z) (filled : bool) : points := fun x' y' =>
  exists a b, octant r a b /\ (if filled then columns_set x y thickness a b x' y' else outline_set x y thickness a b x' y').

Lemma quot_near n t : near n t -> near n (Z.quot t 2).
Proof.
  unfold near. intros [H1 H2]. Z.to_euclidean_division_equations. lia.
Qed.

Section circle.
Context (x y r thickness color : Z) (Hx : near 0x10000000 x) (Hy : near 0x10000000 y) (Hr : 0 < r <= 0x10000000) (Ht : near 0x10000000 thickness).

Lemma shift_bounds t : Z.quot (- thickness) 2 <= t <= Z.quot thickness 2 -> near 0x10000000 t.
Proof using Ht.
  intros H. pose proof (quot_near 0x10000000 thickness Ht). pose proof (quot_near 0x10000000 (- thickness)) as H'. unfold near in *. lia.
Qed.

Lemma outline_paints a b : 0 <= a <= r -> 0 <= b <= r -> paints (outline_points x y a b thickness color) (outline_set x y thickness a b) (u32 color).
Proof using Hx Hy Hr Ht.
  intros Ha Hb. eapply paints_ext; [by intros g | | apply paints_range; intros t Htt; pose proof (shift_bounds t Htt); unfold near in *;
    do 7 (apply paints_seq; [apply draw_at_paints; lia |]); apply draw_at_paints; lia].
  assert (forall z z0 t0 c, 0 <= c -> Z.abs (z - t0 - z0) = c -> z = z0 + c + t0 \/ z = z0 - c + t0) as Hax by lia.
  assert (forall z z0 c, 0 <= c -> Z.abs (z - z0) = c -> z = z0 + c \/ z = z0 - c) as Hay by lia.
  intros x' y'. unfold outline_set. cbn beta. split; intros (t & Htt & H); exists t; (split; [done |]).
  - repeat destruct H as [H|H]; destruct H as [-> ->]; solve [left; split; lia | right; split; lia].
  - destruct H as [[H1 H2]|[H1 H2]]; apply Hax in H1; try tauto; apply Hay in H2; tauto.
Qed.

Lemma columns_paints a b : 0 <= a <= r -> 0 <= b <= r -> paints (filled_columns x y a b thickness color) (columns_set x y thickness a b) (u32 color).
Proof using Hx Hy Hr Ht.
  intros Ha Hb. eapply paints_ext; [by intros g | | apply (paints_range _ _ _ (fun i x' y' => exists t, Z.quot (- thickness) 2 <= t <= Z.quot thickness 2 /\ ((x' = x + a + t /\ y' = y + i) \/ (x' = x - a + t /\ y' = y + i))));
    intros i Hi; apply paints_range; intros t Htt; pose proof (shift_bounds t Htt); unfold near in *; apply paints_seq; apply draw_at_paints; lia].
  intros x' y'. unfold columns_set. cbn beta. split.
  - intros (i & Hi & t & Htt & H). exists t. split; [done | lia].
  - intros (t & Htt & H). exists (y' - y). split; [lia |]. exists t. split; [done | lia].
Qed.

(** One column has one nearest point, and the columns further out have lower ones. *)
Lemma octant_le a b a' b' : 0 <= a <= a' -> 0 <= b -> r * r - a * a <= b * b + b -> octant r a' b' -> b' <= b.
Proof using Type.
  intros Ha Hb Hu [[H1 H2] [H3 H4]]. destruct (Z.leb_spec b' b) as [|Hlt]; [done |]. exfalso.
  assert (a * a <= a' * a') by (apply Z.mul_le_mono_nonneg; lia).
  assert ((b + 1) * b <= b' * (b' - 1)) by (apply Z.mul_le_mono_nonneg; lia). lia.
Qed.

Lemma octant_eq a b b' : octant r a b -> octant r a b' -> b' = b.
Proof using Type.
  intros H H'. assert (b' <= b) by (destruct H as [? [? ?]]; apply (octant_le a b a b'); (done || lia)).
  assert (b <= b') by (destruct H' as [? [? ?]]; apply (octant_le a b' a b); (done || lia)). lia.
Qed.

(** The state of the midpoint algorithm. *)
Definition midpoint (a b d : Z) : Prop :=
  0 <= a /\ 0 <= b <= r /\ d = (a + 1) * (a + 1) + b * b - b - r * r /\ r * r <= a * a + b * b + b /\
  (a <= b -> a * a + b * b - b < r * r).

Lemma midpoint_start : midpoint 0 r (1 - r).
Proof using Hr. unfold midpoint. split_and!; [lia | lia | lia | lia | lia | lia]. Qed.

Lemma midpoint_next a b d : midpoint a b d -> a <= b ->
  octant r a b /\ near 0x30000000 d /\
  if d <? 0 then midpoint (a + 1) b (d + (2 * a + 3)) else midpoint (a + 1) (b - 1) (d + (2 * (a - b) + 5)).
Proof using Hr.
  intros (Ha & Hb & Hd & Hu & Hl) Hab. specialize (Hl Hab). assert (0 < b) as Hb0.
  { destruct (Z.eq_dec b 0) as [->|]; [assert (a = 0) as -> by lia; lia | lia]. }
  split; [unfold octant; lia |]. split; [unfold near; lia |]. destruct (Z.ltb_spec d 0); unfold midpoint; split_and!; lia.
Qed.

Lemma circle_loop_paints filled n : forall a b d, midpoint a b d -> (Z.to_nat (b - a + 1) < n)%nat ->
  paints (circle_loop n x y a b d thickness color filled)
    (fun x' y' => exists a' b', a <= a' /\ octant r a' b' /\ (if filled then columns_set x y thickness a' b' x' y' else outline_set x y thickness a' b' x' y')) (u32 color).
Proof using Hx Hy Hr Ht.
  induction n as [|n IH]; intros a b d Hm Hn; [lia |]. destruct (Z.leb_spec a b) as [Hab|Hab].
  - destruct (midpoint_next a b d Hm Hab) as (Ho & Hd & Hm'). destruct Hm as (Ha & Hb & _).
    assert (paints (fun g => if filled then filled_columns x y a b thickness color g else outline_points x y a b thickness color g)
      (fun x' y' => if filled then columns_set x y thickness a b x' y' else outline_set x y thickness a b x' y') (u32 color)) as Hp
      by (apply paints_if; [apply columns_paints; lia | apply outline_paints; lia]).
    set (S' := fun x' y' => exists a' b', a + 1 <= a' /\ octant r a' b' /\ (if filled then columns_set x y thickness a' b' x' y' else outline_set x y thickness a' b' x' y')) in *.
    assert (forall x' y', ((if filled then columns_set x y thickness a b x' y' else outline_set x y thickness a b x' y') \/ S' x' y') <->
      exists a' b', a <= a' /\ octant r a' b' /\ (if filled then columns_set x y thickness a' b' x' y' else outline_set x y thickness a' b' x' y')) as HS.
    { intros x' y'. split.
      - intros [H | (a' & b' & H1 & H2)]; [exists a, b; split; [lia | done] | exists a', b'; split; [lia | done]].
      - intros (a' & b' & H1 & H2 & H3). destruct (Z.eq_dec a' a) as [->|]; [left; by rewrite <- (octant_eq a b b') | right; exists a', b'; split; [lia | done]]. }
    destruct (Z.ltb_spec d 0).
    + eapply paints_ext; [| exact HS | exact (paints_seq _ _ _ _ _ Hp (IH _ _ _ Hm' ltac:(lia)))].
      intros g. cbn [circle_loop]. destruct (Z.leb_spec a b); [| lia]. destruct (Z.ltb_spec d 0); [| lia]. by rewrite int_ok by (unfold near in *; lia).
    + eapply paints_ext; [| exact HS | exact (paints_seq _ _ _ _ _ Hp (IH _ _ _ Hm' ltac:(lia)))].
      intros g. cbn [circle_loop]. destruct (Z.leb_spec a b); [| lia]. destruct (Z.ltb_spec d 0); [lia |]. by rewrite int_ok by (unfold near in *; lia).
  - eapply paints_ext; [| | apply paints_none]; [intros g; cbn [circle_loop]; by destruct (Z.leb_spec a b); [lia |] |].
    intros x' y'. split; [done |]. intros (a' & b' & H1 & H2 & _). destruct Hm as (Ha & Hb & _ & Hu & _).
    pose proof (octant_le a b a' b' ltac:(lia) ltac:(lia) ltac:(lia) H2). destruct H2 as [? _]. lia.
Qed.

Lemma draw_circle_paints filled : paints (draw_circle x y r thickness color filled) (circle_set x y r thickness filled) (u32 color).
Proof using Hx Hy Hr Ht.
  eapply paints_ext; [| | apply (circle_loop_paints filled (S (Z.to_nat (r + 1))) 0 r (1 - r) midpoint_start); lia].
  - intros g. unfold draw_circle. by rewrite int_ok by lia.
  - intros x' y'. unfold circle_set. split; [intros (a & b & _ & H); by exists a, b |]. intros (a & b & H & H'). exists a, b. split; [destruct H; lia | done].
Qed.
End circle.

(** ** Rectangles *)

#[local] Ltac nearby := unfold near in *; lia.

Lemma line_set_flat x0 x1 y : x0 <= x1 -> forall x' y', line_set x0 y x1 y 1 x' y' <-> x0 <= x' <= x1 /\ y' = y.
Proof.
  intros Hx x' y'. unfold line_set, line_length, line_at, line_point, brush_set, near. rewrite Z.sub_diag, Z.ltb_irrefl. change (Z.abs 0) with 0. change (1 ÷ 2) with 0.
  destruct (Z.leb_spec 0 (Z.abs (x1 - x0))); [| lia]. cbn [fst snd].
  assert (forall i, (2 * (i * 0) + Z.abs (x1 - x0) - 1) / (2 * Z.abs (x1 - x0)) = 0) as E.
  { intros i. destruct (Z.eq_dec x0 x1) as [->|]; [by rewrite Z.sub_diag, !Z.mul_0_r, Zdiv_0_r |]. apply Z.div_small. lia. }
  split.
  - intros (i & Hi & H'). rewrite E in H'. destruct (Z.ltb_spec x0 x1); lia.
  - intros [H' ->]. exists (x' - x0). rewrite E. destruct (Z.ltb_spec x0 x1); split; [lia | | lia |].
    + replace (x' - (x0 + 1 * (x' - x0))) with 0 by lia. lia.
    + replace (x' - (x0 + -1 * (x' - x0))) with 0 by lia. lia.
Qed.

Lemma line_set_upright x y0 y1 : y0 <= y1 -> forall x' y', line_set x y0 x y1 1 x' y' <-> x' = x /\ y0 <= y' <= y1.
Proof.
  intros Hy x' y'. unfold line_set, line_length, line_at, line_point, brush_set, near. rewrite Z.sub_diag, Z.ltb_irrefl. change (Z.abs 0) with 0. change (1 ÷ 2) with 0.
  destruct (Z.leb_spec (Z.abs (y1 - y0)) 0); cbn [fst snd].
  { assert (y0 = y1) as -> by lia. rewrite Z.sub_diag, Z.ltb_irrefl. change (Z.abs 0) with 0. split.
    - intros (i & Hi & H'). assert (i = 0) as -> by lia. change ((2 * (0 * 0) + 0 - 1) / (2 * 0)) with 0 in H'. lia.
    - intros [-> H']. exists 0. split; [lia |]. change ((2 * (0 * 0) + 0 - 1) / (2 * 0)) with 0. replace (y' - (y1 + -1 * 0)) with 0 by lia. lia. }
  assert (forall i, (2 * (i * 0) + Z.abs (y1 - y0) - 1) / (2 * Z.abs (y1 - y0)) = 0) as E by (intros i; apply Z.div_small; lia).
  split.
  - intros (i & Hi & H'). rewrite E in H'. destruct (Z.ltb_spec y0 y1); lia.
  - intros [-> H']. exists (y' - y0). rewrite E. destruct (Z.ltb_spec y0 y1); [| lia]. split; [lia |].
    replace (y' - (y0 + 1 * (y' - y0))) with 0 by lia. lia.
Qed.

(** A filled rectangle is its points; a frame grows outwards by its thickness and
    leaves the corners out. *)
Definition rect_set (x y w h thickness : Z) (filled : bool) : points := fun x' y' =>
  if filled then x <= x' < x + w /\ y <= y' < y + h
  else (x <= x' < x + w /\ (y - thickness < y' <= y \/ y + h <= y' + 1 < y + h + thickness)) \/
       (y <= y' < y + h /\ (x - thickness < x' <= x \/ x + w <= x' + 1 < x + w + thickness)).

Lemma draw_rect_paints x y w h thickness color filled :
  near 0x8000000 x -> near 0x8000000 y -> 0 < w <= 0x4000000 -> 0 < h <= 0x4000000 -> thickness <= 0x4000000 ->
  paints (draw_rect x y w h thickness color filled) (rect_set x y w h thickness filled) (u32 color).
Proof.
  intros Hx Hy Hw Hh Ht. unfold near in *. destruct filled.
  - eapply paints_ext; [by intros g | | apply (paints_range _ _ _ (fun i x' y' => exists j, 0 <= j <= w - 1 /\ x' = x + j /\ y' = y + i)); intros i Hi;
      apply paints_range; intros j Hj; apply draw_at_paints; lia].
    intros x' y'. unfold rect_set. cbn beta. split; [intros (i & Hi & j & Hj & -> & ->); lia |].
    intros H. exists (y' - y). split; [lia |]. exists (x' - x). lia.
  - eapply paints_ext; [by intros g | | apply (paints_range _ _ _ (fun t x' y' => (x <= x' <= x + w - 1 /\ y' = y - t) \/ (x <= x' <= x + w - 1 /\ y' = y + h - 1 + t) \/
      (x' = x - t /\ y <= y' <= y + h - 1) \/ (x' = x + w - 1 + t /\ y <= y' <= y + h - 1))); intros t Htt].
    { intros x' y'. unfold rect_set. cbn beta. split.
      - intros (t & Htt & H). lia.
      - intros [[H1 [H2 | H2]] | [H1 [H2 | H2]]]; [exists (y - y') | exists (y' - (y + h - 1)) | exists (x - x') | exists (x' - (x + w - 1))]; (split; [lia |]); lia. }
    assert (forall x0 y0 x1 y1, near 0x10000000 x0 -> near 0x10000000 y0 -> near 0x10000000 x1 -> near 0x10000000 y1 ->
      paints (draw_line x0 y0 x1 y1 1 color) (line_set x0 y0 x1 y1 1) (u32 color)) as HL by (intros; apply draw_line_paints; (done || lia)).
    pose proof (HL x (y - t) (x + w - 1) (y - t) ltac:(nearby) ltac:(nearby) ltac:(nearby) ltac:(nearby)) as L1.
    pose proof (HL x (y + h - 1 + t) (x + w - 1) (y + h - 1 + t) ltac:(nearby) ltac:(nearby) ltac:(nearby) ltac:(nearby)) as L2.
    pose proof (HL (x - t) y (x - t) (y + h - 1) ltac:(nearby) ltac:(nearby) ltac:(nearby) ltac:(nearby)) as L3.
    pose proof (HL (x + w - 1 + t) y (x + w - 1 + t) (y + h - 1) ltac:(nearby) ltac:(nearby) ltac:(nearby) ltac:(nearby)) as L4.
    eapply paints_ext; [| | exact (paints_seq _ _ _ _ _ L1 (paints_seq _ _ _ _ _ L2 (paints_seq _ _ _ _ _ L3 L4)))].
    + intros g. by rewrite !int_ok by lia.
    + intros x' y'. cbn beta. rewrite !line_set_flat, !line_set_upright by lia. done.
Qed.

(** ** The theorems *)

(** C32. Lines: [draw_line] ends, and paints the brush of its thickness at the
    points nearest to the ideal line and nothing else: as many as the longer side
    has, from the first end to the second, one step of the longer axis apart, each
    within half a pixel of the line, and of two points as near the one nearer to
    the start. *)
Theorem draw_line_spec x0 y0 x1 y1 thickness color
  (Hx0 : near 0x10000000 x0) (Hy0 : near 0x10000000 y0) (Hx1 : near 0x10000000 x1) (Hy1 : near 0x10000000 y1) (Ht : thickness <= 0x4000) :
  paints (draw_line x0 y0 x1 y1 thickness color) (line_set x0 y0 x1 y1 thickness) (u32 color) /\
  line_at x0 y0 x1 y1 0 = (x0, y0) /\ line_at x0 y0 x1 y1 (line_length x0 y0 x1 y1) = (x1, y1) /\
  (forall i, 0 <= i <= line_length x0 y0 x1 y1 -> let (x, y) := line_at x0 y0 x1 y1 i in
     2 * Z.abs ((x - x0) * (y1 - y0) - (y - y0) * (x1 - x0)) <= line_length x0 y0 x1 y1 /\
     (if Z.abs (y1 - y0) <=? Z.abs (x1 - x0) then Z.abs (x - x0) else Z.abs (y - y0)) = i).
Proof.
  split; [by apply draw_line_paints |]. set (dx := Z.abs (x1 - x0)). set (dy := Z.abs (y1 - y0)).
  destruct (line_point_ends dx dy ltac:(lia) ltac:(lia)) as [E0 E1]. unfold line_at, line_length. fold dx dy. rewrite E0, E1. cbn [fst snd].
  split_and!; [by rewrite !Z.mul_0_r, !Z.add_0_r | subst dx dy; destruct (Z.ltb_spec x0 x1), (Z.ltb_spec y0 y1); f_equal; lia |].
  intros i Hi. destruct (line_point_near dx dy i ltac:(lia) ltac:(lia) Hi) as (H1 & H2 & H3).
  assert ((if dy <=? dx then (line_point dx dy i).1 else (line_point dx dy i).2) = i) as Hi' by (unfold line_point; by destruct (dy <=? dx)).
  destruct (line_point dx dy i) as [a b]. cbn [fst snd] in *.
  assert (x1 - x0 = (if x0 <? x1 then 1 else -1) * dx) as -> by (subst dx; destruct (Z.ltb_spec x0 x1); lia).
  assert (y1 - y0 = (if y0 <? y1 then 1 else -1) * dy) as -> by (subst dy; destruct (Z.ltb_spec y0 y1); lia).
  clearbody dx dy. split; [| destruct (dy <=? dx)]; destruct (x0 <? x1), (y0 <? y1); lia.
Qed.

Lemma blank_ok w h : 0 <= w <= 0x10000 -> 0 <= h <= 0x10000 -> fb_ok (blank w h).
Proof.
  intros Hw Hh. eexists. split; [done |]. unfold stride. cbn. rewrite (Z.mul_comm 4 w), Z.div_mul, length_replicate by lia.
  assert (0 <= h * w <= 0x10000 * 0x10000) by (split; [apply Z.mul_nonneg_nonneg; lia | apply Z.mul_le_mono_nonneg; lia]).
  split_and!; lia.
Qed.

Lemma draw_line_spec_witness : fb_ok (blank 4 2) /\ exists g', draw_line 0 0 3 1 1 7 (blank 4 2) = Some g' /\ pixel g' 2 1 = Some 7 /\ pixel g' 2 0 = Some 0.
Proof.
  split; [exact (blank_ok 4 2 ltac:(lia) ltac:(lia)) |].
  destruct (draw_line_spec 0 0 3 1 1 7) as [H _]; [nearby | nearby | nearby | nearby | lia |].
  destruct (H (blank 4 2) (blank_ok 4 2 ltac:(lia) ltac:(lia))) as (g' & E & _). exists g'. split; [exact E |]. vm_compute in E. injection E as <-.
  split; vm_compute; reflexivity.
Defined.

(** C33. Circles: [draw_circle] ends for every positive radius, and paints, for every
    step [a] from the centre for which the nearest point [b] of the circle is not
    nearer to the axis, the eight mirror images of (a, b), each widened by the thickness,
    and nothing else; a filled circle is only the columns through these points,
    at most [b] above and below the centre. *)
Theorem draw_circle_spec x y r thickness color filled
  (Hx : near 0x10000000 x) (Hy : near 0x10000000 y) (Hr : 0 < r <= 0x10000000) (Ht : near 0x10000000 thickness) :
  paints (draw_circle x y r thickness color filled) (circle_set x y r thickness filled) (u32 color).
Proof. by apply draw_circle_paints. Qed.

Lemma draw_circle_spec_witness : fb_ok (blank 7 7) /\ exists g', draw_circle 3 3 3 1 7 true (blank 7 7) = Some g' /\ pixel g' 5 2 = Some 7 /\ pixel g' 6 3 = Some 0.
Proof.
  split; [exact (blank_ok 7 7 ltac:(lia) ltac:(lia)) |].
  destruct (draw_circle_spec 3 3 3 1 7 true ltac:(nearby) ltac:(nearby) ltac:(lia) ltac:(nearby) (blank 7 7) (blank_ok 7 7 ltac:(lia) ltac:(lia))) as (g' & E & _).
  exists g'. split; [exact E |]. vm_compute in E. injection E as <-. split; vm_compute; reflexivity.
Defined.
