(* ===== verification/Interrupts.v ===== *)
(** * Segments and interrupts

    [gdt/gdt.c] and [interrupt/interrupt.c]: the tables that the processor reads,
    as they are in memory, and the handlers of the exceptions.  The addresses of
    the tables and of the assembly stubs are the linker's.  The specification is
    how the processor finds the code of an interrupt in the two tables. *)

From S2P Require Import Prelude Bitmap Pmm Vmm Digits Debug.
From stdpp Require Import strings.
#[local] Open Scope Z_scope.

(** ** Segments ([gdt.c]) *)

Definition GDT_KERNEL_CODE := 0x08.
Definition GDT_KERNEL_DATA := 0x10.
Definition GDT_USER_CODE := 0x18.
Definition GDT_USER_DATA := 0x20.
Definition GDT_TSS := 0x28.
Definition GDT_ACCESS_PRESENT := Z.shiftl 1 7.
Definition GDT_ACCESS_DPL0 := Z.shiftl 0 5.
Definition GDT_ACCESS_DPL3 := Z.shiftl 3 5.
Definition GDT_ACCESS_SEGMENT := Z.shiftl 1 4.
Definition GDT_ACCESS_EXECUTABLE := Z.shiftl 1 3.
Definition GDT_ACCESS_RW := Z.shiftl 1 1.
Definition GDT_FLAG_GRANULARITY := Z.shiftl 1 7.
Definition GDT_FLAG_LONG := Z.shiftl 1 5.
Definition TSS_ACCESS_PRESENT := Z.shiftl 1 7.
Definition TSS_ACCESS_DPL0 := Z.shiftl 0 5.
Definition TSS_ACCESS_TYPE_TSS := 0x09.

Record gdt_entry := GdtEntry { limit_low : Z; base_low : Z; base_mid : Z; access : Z; flags_limit_high : Z; base_high : Z }.
(** The two reserved words at the end are [base_upper] and [reserved]. *)
Record tss_descriptor := TssDescriptor { tss_entry : gdt_entry; base_upper : Z; tss_reserved : Z }.
Record tss := Tss {
  reserved0 : Z; rsp0 : Z; rsp1 : Z; rsp2 : Z; reserved1 : Z;
  ist1 : Z; ist2 : Z; ist3 : Z; ist4 : Z; ist5 : Z; ist6 : Z; ist7 : Z;
  reserved2 : Z; reserved3 : Z; iopb_offset : Z }.

Definition sizeof_tss := 104.
Definition sizeof_gdt := 5 * 8 + 16.

(** The registers that the two initializations load; a table register is the limit
    and the address. *)
Record cpu := Cpu { gdtr : Z * Z; idtr : Z * Z; cs : Z; ds : Z; tr : Z }.

Record segments := Segments { gdt_entries : list gdt_entry; tss_desc : tss_descriptor; tss_state : tss }.

Definition gdt_set_entry (index base limit access flags : Z) (g : segments) : segments :=
  Segments (<[Z.to_nat index := GdtEntry (u16 (Z.land limit 0xFFFF)) (u16 (Z.land base 0xFFFF)) (u8 (Z.land (Z.shiftr base 16) 0xFF)) access
      (u8 (Z.lor (Z.land (Z.shiftr limit 16) 0x0F) (Z.land flags 0xF0))) (u8 (Z.land (Z.shiftr base 24) 0xFF))]> (gdt_entries g))
    (tss_desc g) (tss_state g).

Definition gdt_set_tss (tss_addr tss_size : Z) (g : segments) : segments :=
  Segments (gdt_entries g)
    (TssDescriptor (GdtEntry (u16 (Z.land tss_size 0xFFFF)) (u16 (Z.land tss_addr 0xFFFF)) (u8 (Z.land (Z.shiftr tss_addr 16) 0xFF))
      (Z.lor (Z.lor TSS_ACCESS_PRESENT TSS_ACCESS_DPL0) TSS_ACCESS_TYPE_TSS) (u8 (Z.land (Z.shiftr tss_size 16) 0x0F)) (u8 (Z.land (Z.shiftr tss_addr 24) 0xFF)))
      (u32 (Z.land (Z.shiftr tss_addr 32) 0xFFFFFFFF)) 0)
    (tss_state g).

Definition segments_clear : segments :=
  Segments (replicate 5 (GdtEntry 0 0 0 0 0 0)) (TssDescriptor (GdtEntry 0 0 0 0 0 0) 0 0) (Tss 0 0 0 0 0 0 0 0 0 0 0 0 0 0 0).

Definition set_iopb_offset (v : Z) (t : tss) : tss :=
  Tss (reserved0 t) (rsp0 t) (rsp1 t) (rsp2 t) (reserved1 t) (ist1 t) (ist2 t) (ist3 t) (ist4 t) (ist5 t) (ist6 t) (ist7 t) (reserved2 t) (reserved3 t) v.
Definition set_rsp0 (v : Z) (t : tss) : tss :=
  Tss (reserved0 t) v (rsp1 t) (rsp2 t) (reserved1 t) (ist1 t) (ist2 t) (ist3 t) (ist4 t) (ist5 t) (ist6 t) (ist7 t) (reserved2 t) (reserved3 t) (iopb_offset t).

(** [gdt_load] of [gdt_asm.s]. *)
Definition gdt_load (limit base code_selector data_selector : Z) (c : cpu) : cpu :=
  Cpu (limit, base) (idtr c) code_selector data_selector (tr c).
Definition ltr (selector : Z) (c : cpu) : cpu := Cpu (gdtr c) (idtr c) (cs c) (ds c) selector.

Definition gdt_init (gdt_addr tss_addr : Z) (c : cpu) : segments * cpu :=
  let g := gdt_set_entry 0 0 0 0 0 segments_clear in
  let g := gdt_set_entry 1 0 0xFFFFF
    (Z.lor (Z.lor (Z.lor (Z.lor GDT_ACCESS_PRESENT GDT_ACCESS_DPL0) GDT_ACCESS_SEGMENT) GDT_ACCESS_EXECUTABLE) GDT_ACCESS_RW)
    (Z.lor GDT_FLAG_LONG GDT_FLAG_GRANULARITY) g in
  let g := gdt_set_entry 2 0 0xFFFFF
    (Z.lor (Z.lor (Z.lor GDT_ACCESS_PRESENT GDT_ACCESS_DPL0) GDT_ACCESS_SEGMENT) GDT_ACCESS_RW) GDT_FLAG_GRANULARITY g in
  let g := gdt_set_entry 3 0 0xFFFFF
    (Z.lor (Z.lor (Z.lor (Z.lor GDT_ACCESS_PRESENT GDT_ACCESS_DPL3) GDT_ACCESS_SEGMENT) GDT_ACCESS_EXECUTABLE) GDT_ACCESS_RW)
    (Z.lor GDT_FLAG_LONG GDT_FLAG_GRANULARITY) g in
  let g := gdt_set_entry 4 0 0xFFFFF
    (Z.lor (Z.lor (Z.lor GDT_ACCESS_PRESENT GDT_ACCESS_DPL3) GDT_ACCESS_SEGMENT) GDT_ACCESS_RW) GDT_FLAG_GRANULARITY g in
  let g := Segments (gdt_entries g) (tss_desc g) (set_iopb_offset sizeof_tss (tss_state g)) in
  let g := gdt_set_tss tss_addr (sizeof_tss - 1) g in
  let c := gdt_load (u16 (sizeof_gdt - 1)) gdt_addr GDT_KERNEL_CODE GDT_KERNEL_DATA c in
  (g, ltr GDT_TSS c).

Definition gdt_set_kernel_stack (stack : Z) (g : segments) : segments := Segments (gdt_entries g) (tss_desc g) (set_rsp0 stack (tss_state g)).
Definition gdt_get_tss (g : segments) : tss := tss_state g.

(** The packed structures in memory. *)
Definition gdt_entry_bytes (e : gdt_entry) : list Z :=
  le_bytes 2 (limit_low e) ++ le_bytes 2 (base_low e) ++ [base_mid e; access e; flags_limit_high e; base_high e].
Definition gdt_bytes (g : segments) : list Z :=
  concat (gdt_entry_bytes <$> gdt_entries g) ++
  gdt_entry_bytes (tss_entry (tss_desc g)) ++ le_bytes 4 (base_upper (tss_desc g)) ++ le_bytes 4 (tss_reserved (tss_desc g)).

(** ** The interrupt table ([interrupt.c]) *)

Definition EXCEPTION_DIVIDE_ERROR := 0.
Definition EXCEPTION_DEBUG := 1.
Definition EXCEPTION_NMI := 2.
Definition EXCEPTION_BREAKPOINT := 3.
Definition EXCEPTION_OVERFLOW := 4.
Definition EXCEPTION_BOUND_RANGE := 5.
Definition EXCEPTION_INVALID_OPCODE := 6.
Definition EXCEPTION_DEVICE_NOT_AVAILABLE := 7.
Definition EXCEPTION_DOUBLE_FAULT := 8.
Definition EXCEPTION_INVALID_TSS := 10.
Definition EXCEPTION_SEGMENT_NOT_PRESENT := 11.
Definition EXCEPTION_STACK_FAULT := 12.
Definition EXCEPTION_GENERAL_PROTECTION := 13.
Definition EXCEPTION_PAGE_FAULT := 14.
Definition EXCEPTION_FLOATING_POINT := 16.
Definition EXCEPTION_ALIGNMENT_CHECK := 17.
Definition EXCEPTION_MACHINE_CHECK := 18.
Definition EXCEPTION_SIMD_FLOATING_POINT := 19.
Definition IDT_TYPE_INTERRUPT_GATE := 0x8E.

Record idt_entry := IdtEntry {
  offset_low : Z; selector : Z; ist : Z; type_attr : Z; offset_mid : Z; offset_high : Z; idt_reserved : Z }.

(** None outside the table. *)
Definition idt_set_gate (num handler selector type_attr : Z) (idt : list idt_entry) : option (list idt_entry) :=
  if (0 <=? num) && (num <? Z.of_nat (length idt)) then
    Some (<[Z.to_nat num := IdtEntry (Z.land handler 0xFFFF) selector 0 type_attr (Z.land (Z.shiftr handler 16) 0xFFFF)
      (Z.land (Z.shiftr handler 32) 0xFFFFFFFF) 0]> idt)
  else None.

Definition lidt (limit base : Z) (c : cpu) : cpu := Cpu (gdtr c) (limit, base) (cs c) (ds c) (tr c).

(** The stubs [exception_handler_n] and [irq_handler_n] by their numbers. *)
Definition interrupt_init (idt_addr : Z) (exception_handler irq_handler : Z -> Z) (c : cpu) : option (list idt_entry * cpu) :=
  let idt := replicate 256 (IdtEntry 0 0 0 0 0 0 0) in
  let gate num := idt_set_gate num (exception_handler num) GDT_KERNEL_CODE IDT_TYPE_INTERRUPT_GATE in
  idt ← gate EXCEPTION_DIVIDE_ERROR idt;
  idt ← gate EXCEPTION_DEBUG idt;
  idt ← gate EXCEPTION_NMI idt;
  idt ← gate EXCEPTION_BREAKPOINT idt;
  idt ← gate EXCEPTION_OVERFLOW idt;
  idt ← gate EXCEPTION_BOUND_RANGE idt;
  idt ← gate EXCEPTION_INVALID_OPCODE idt;
  idt ← gate EXCEPTION_DEVICE_NOT_AVAILABLE idt;
  idt ← gate EXCEPTION_DOUBLE_FAULT idt;
  idt ← gate EXCEPTION_INVALID_TSS idt;
  idt ← gate EXCEPTION_SEGMENT_NOT_PRESENT idt;
  idt ← gate EXCEPTION_STACK_FAULT idt;
  idt ← gate EXCEPTION_GENERAL_PROTECTION idt;
  idt ← gate EXCEPTION_PAGE_FAULT idt;
  idt ← gate EXCEPTION_FLOATING_POINT idt;
  idt ← gate EXCEPTION_ALIGNMENT_CHECK idt;
  idt ← gate EXCEPTION_MACHINE_CHECK idt;
  idt ← gate EXCEPTION_SIMD_FLOATING_POINT idt;
  idt ← idt_set_gate 32 (irq_handler 0) GDT_KERNEL_CODE IDT_TYPE_INTERRUPT_GATE idt;
  idt ← idt_set_gate 33 (irq_handler 1) GDT_KERNEL_CODE IDT_TYPE_INTERRUPT_GATE idt;
  Some (idt, lidt (u16 (256 * 16 - 1)) idt_addr c).

Definition idt_entry_bytes (e : idt_entry) : list Z :=
  le_bytes 2 (offset_low e) ++ le_bytes 2 (selector e) ++ [ist e; type_attr e] ++ le_bytes 2 (offset_mid e) ++
  le_bytes 4 (offset_high e) ++ le_bytes 4 (idt_reserved e).
Definition idt_bytes (idt : list idt_entry) : list Z := concat (idt_entry_bytes <$> idt).

(** ** Exceptions ([interrupt.c], [exception_stubs.s]) *)

Definition PAGE_FAULT_PRESENT := Z.shiftl 1 0.
Definition PAGE_FAULT_WRITE := Z.shiftl 1 1.
Definition PAGE_FAULT_USER := Z.shiftl 1 2.
Definition PAGE_FAULT_RESERVED := Z.shiftl 1 3.
Definition PAGE_FAULT_INSTRUCTION := Z.shiftl 1 4.

Record interrupt_frame := Frame { f_rip : Z; f_cs : Z; f_rflags : Z; f_rsp : Z; f_ss : Z }.
Record interrupt_frame_with_error := FrameError { f_error_code : Z; f_frame : interrupt_frame }.

(** The handlers that do not return, by what they print before they halt. *)
Definition generic_exception_handler (exception_num : Z) (frame : interrupt_frame) : option (list Z) :=
  printed [DEBUG_ERROR "Exception %d occurred!" [VInt exception_num];
    DEBUG_ERROR "  RIP: 0x%lx" [VLong (f_rip frame)];
    DEBUG_ERROR "  CS: 0x%lx" [VLong (f_cs frame)];
    DEBUG_ERROR "  RFLAGS: 0x%lx" [VLong (f_rflags frame)];
    DEBUG_ERROR "  RSP: 0x%lx" [VLong (f_rsp frame)];
    DEBUG_ERROR "  SS: 0x%lx" [VLong (f_ss frame)];
    DEBUG_ERROR "Unhandled exception - halting system" []].

(** The words from [off] on of the stack, its top first, as a frame. *)
Definition frame_at (off : nat) (stack : list Z) : interrupt_frame :=
  Frame (nth off stack 0) (nth (off + 1) stack 0) (nth (off + 2) stack 0) (nth (off + 3) stack 0) (nth (off + 4) stack 0).

(** [exception_handler_n] and [exception_common_stub], on the stack that the
    processor leaves: the registers and the exception number are above the
    address that the stub gives as the frame's. *)
Definition exception_common_stub (num : Z) (registers stack : list Z) : option (list Z) :=
  let stack := registers ++ [num; 0] ++ stack in
  generic_exception_handler (nth 15 stack 0) (frame_at 16 stack).

Section page_faults.
Context {A : Type} `{PageAllocator A}.
Implicit Type s : vmm A.

Definition handle_mmio_page_fault (fault_addr error_code : Z) s : option (list Z * bool * vmm A) :=
  if (fault_addr >=? 0xE0000000) && (fault_addr <? 0x100000000) then
    out1 ← DEBUG_INFO "Attempting to map MMIO page at 0x%lx" [VLong fault_addr];
    let page_addr := PAGE_ALIGN fault_addr in
    let flags := Z.lor PAGE_PRESENT PAGE_WRITABLE in
    let flags := if Z.land error_code PAGE_FAULT_USER =? 0 then flags else Z.lor flags PAGE_USER in
    let flags := Z.lor flags (Z.lor PAGE_PCD PAGE_PWT) in
    '(mapped, s) ← vmm_map_page page_addr page_addr flags s;
    if negb (mapped =? NULL) then
      out2 ← DEBUG_INFO "Successfully mapped MMIO page at 0x%lx" [VLong page_addr];
      Some (out1 ++ out2, true, s)
    else
      out2 ← DEBUG_ERROR "Failed to map MMIO page at 0x%lx" [VLong page_addr];
      Some (out1 ++ out2, false, s)
  else Some ([], false, s).

(** What is printed, whether the handler returns, and the page tables; [cr2] is
    the faulting address. *)
Definition page_fault_handler (cr2 : Z) (frame : interrupt_frame_with_error) s : option (list Z * bool * vmm A) :=
  let error_code := f_error_code frame in
  let bit b := negb (Z.land error_code b =? 0) in
  out ← printed [DEBUG_ERROR "Page Fault!" [];
    DEBUG_ERROR "  Fault Address: 0x%lx" [VLong cr2];
    DEBUG_ERROR "  Error Code: 0x%lx" [VLong error_code];
    DEBUG_ERROR "  RIP: 0x%lx" [VLong (f_rip (f_frame frame))];
    DEBUG_ERROR "  RSP: 0x%lx" [VLong (f_rsp (f_frame frame))];
    DEBUG_ERROR "  Fault Type:" [];
    if bit PAGE_FAULT_PRESENT then DEBUG_ERROR "    - Page protection violation" [] else DEBUG_ERROR "    - Page not present" [];
    if bit PAGE_FAULT_WRITE then DEBUG_ERROR "    - Write access" [] else DEBUG_ERROR "    - Read access" [];
    if bit PAGE_FAULT_USER then DEBUG_ERROR "    - User mode access" [] else DEBUG_ERROR "    - Kernel mode access" [];
    if bit PAGE_FAULT_RESERVED then DEBUG_ERROR "    - Reserved bit violation" [] else Some [];
    if bit PAGE_FAULT_INSTRUCTION then DEBUG_ERROR "    - Instruction fetch" [] else Some []];
  '(out2, handled, s) ← handle_mmio_page_fault cr2 error_code s;
  if negb handled then
    out3 ← DEBUG_ERROR "Failed to handle page fault - halting system" [];
    Some (out ++ out2 ++ out3, false, s)
  else Some (out ++ out2, true, s).

Definition generic_exception_handler_with_error (exception_num cr2 : Z) (frame : interrupt_frame_with_error) s : option (list Z * bool * vmm A) :=
  if exception_num =? EXCEPTION_PAGE_FAULT then page_fault_handler cr2 frame s
  else
    out ← printed [DEBUG_ERROR "Exception %d occurred!" [VInt exception_num];
      DEBUG_ERROR "  Error Code: 0x%lx" [VLong (f_error_code frame)];
      DEBUG_ERROR "  RIP: 0x%lx" [VLong (f_rip (f_frame frame))];
      DEBUG_ERROR "  CS: 0x%lx" [VLong (f_cs (f_frame frame))];
      DEBUG_ERROR "  RFLAGS: 0x%lx" [VLong (f_rflags (f_frame frame))];
      DEBUG_ERROR "  RSP: 0x%lx" [VLong (f_rsp (f_frame frame))];
      DEBUG_ERROR "  SS: 0x%lx" [VLong (f_ss (f_frame frame))];
      DEBUG_ERROR "Unhandled exception - halting system" []];
    Some (out, false, s).
End page_faults.

(** The stub gives the address of the word 0 that it pushed in place of an error
    code as the frame's: what is printed as RIP is always 0, and each of the other
    lines shows the field before its own. *)
Lemma stub_frame_shifted num registers rip code_segment rflags rsp ss rest : length registers = 15%nat ->
  exception_common_stub num registers ([rip; code_segment; rflags; rsp; ss] ++ rest) =
  generic_exception_handler num (Frame 0 rip code_segment rflags rsp).
Proof. intros Hl. do 15 (destruct registers as [|? registers]; [done |]). by destruct registers. Qed.

(** ** How the processor reads the tables *)

Definition byte_at (mem : list Z) (i : Z) : Z := nth (Z.to_nat i) mem 0.

(** A segment descriptor: base, limit, access byte and flags; None beyond the limit
    of the table. *)
Record descriptor := Descriptor { d_base : Z; d_limit : Z; d_access : Z; d_flags : Z }.
Definition segment (mem : list Z) (limit sel : Z) : option descriptor :=
  let i := 8 * (sel / 8) in
  let b k := byte_at mem (i + k) in
  if i + 7 <=? limit then Some (Descriptor (le_val [b 2; b 3; b 4; b 7]) (le_val [b 0; b 1] + 0x10000 * (b 6 mod 16)) (b 5) (b 6 / 16))
  else None.
(** The upper half of the base of a system segment. *)
Definition system_base (mem : list Z) (sel : Z) : Z :=
  let i := 8 * (sel / 8) in le_val [byte_at mem (i + 8); byte_at mem (i + 9); byte_at mem (i + 10); byte_at mem (i + 11)].

(** The interrupt [v]: the address where it is handled and the code segment, when
    the table has a present gate that disables interrupts and leads to a present
    64-bit code segment of the kernel. *)
Definition deliver (gdt idt : list Z) (c : cpu) (v : Z) : option (Z * Z) :=
  let b k := byte_at idt (16 * v + k) in
  if 16 * v + 15 <=? (idtr c).1 then
    if b 5 =? 0x8E then
      let sel := le_val [b 2; b 3] in
      d ← segment gdt (gdtr c).1 sel;
      if (Z.land (d_access d) 0xF8 =? 0x98) && (Z.land (d_flags d) 6 =? 2) then
        Some (le_val [b 0; b 1; b 6; b 7; b 8; b 9; b 10; b 11], sel)
      else None
    else None
  else None.

(** The handlers of the kernel. *)
Definition handler_of (exception_handler irq_handler : Z -> Z) (v : Z) : option Z :=
  if in_range v 0 9 || in_range v 10 5 || in_range v 16 4 then Some (exception_handler v)
  else if in_range v 32 2 then Some (irq_handler (v - 32)) else None.

(** *** The interrupt table *)

Definition gates (exception_handler irq_handler : Z -> Z) : list (Z * Z) :=
  ((fun n => (n, exception_handler n)) <$> [0; 1; 2; 3; 4; 5; 6; 7; 8; 10; 11; 12; 13; 14; 16; 17; 18; 19]) ++
  [(32, irq_handler 0); (33, irq_handler 1)].

Fixpoint set_gates (l : list (Z * Z)) (idt : list idt_entry) : option (list idt_entry) :=
  match l with
  | [] => Some idt
  | (n, h) :: l => idt ← idt_set_gate n h GDT_KERNEL_CODE IDT_TYPE_INTERRUPT_GATE idt; set_gates l idt
  end.

Fixpoint gate_of (l : list (Z * Z)) (v : Z) : option Z :=
  match l with
  | [] => None
  | (n, h) :: l => match gate_of l v with Some h' => Some h' | None => if v =? n then Some h else None end
  end.

Lemma interrupt_init_gates idt_addr exc irq c :
  interrupt_init idt_addr exc irq c =
  (idt ← set_gates (gates exc irq) (replicate 256 (IdtEntry 0 0 0 0 0 0 0)); Some (idt, lidt 4095 idt_addr c)).
Proof.
  unfold interrupt_init, gates. cbn [set_gates app fmap list_fmap]. 
  repeat match goal with |- context [idt_set_gate ?n ?h ?a ?b ?i] => destruct (idt_set_gate n h a b i); [cbn [mbind option_bind] | done] end. done.
Qed.

Definition gate_entry (h : Z) : idt_entry :=
  IdtEntry (Z.land h 0xFFFF) GDT_KERNEL_CODE 0 IDT_TYPE_INTERRUPT_GATE (Z.land (Z.shiftr h 16) 0xFFFF) (Z.land (Z.shiftr h 32) 0xFFFFFFFF) 0.

Lemma set_gates_ok l : forall idt, length idt = 256%nat -> Forall (fun p => 0 <= p.1 < 256) l ->
  exists idt', set_gates l idt = Some idt' /\ length idt' = 256%nat /\
    forall v, 0 <= v < 256 -> idt' !! Z.to_nat v = match gate_of l v with Some h => Some (gate_entry h) | None => idt !! Z.to_nat v end.
Proof.
  induction l as [|[n h] l IH]; intros idt Hl HF; [by exists idt |]. apply Forall_cons in HF as [Hn HF]. cbn [fst] in Hn. cbn [set_gates gate_of].
  unfold idt_set_gate. destruct (Z.leb_spec 0 n); [| lia]. destruct (Z.ltb_spec n (Z.of_nat (length idt))); [| lia]. cbn [andb mbind option_bind].
  destruct (IH (<[Z.to_nat n := gate_entry h]> idt)) as (idt' & E & Hl' & HL); [by rewrite length_insert | done |].
  exists idt'. split_and!; [exact E | done |]. intros v Hv. rewrite HL by done. destruct (gate_of l v); [done |].
  destruct (Z.eqb_spec v n) as [->|Hne]; [apply list_lookup_insert_eq; lia | apply list_lookup_insert_ne; lia].
Qed.

Lemma gate_of_gates exc irq v : gate_of (gates exc irq) v = handler_of exc irq v.
Proof.
  unfold handler_of, gates. cbn [gate_of app fmap list_fmap].
  destruct (in_range_spec v 0 9), (in_range_spec v 10 5), (in_range_spec v 16 4), (in_range_spec v 32 2); cbn [orb]; try lia;
    repeat match goal with |- context [v =? ?n] => destruct (Z.eqb_spec v n); [try (exfalso; lia) | try (exfalso; lia)] end; subst; done.
Qed.

(** The parts of an address, in the bytes of the tables. *)
Lemma address_bytes h :
  le_bytes 2 (Z.land h 0xFFFF) ++ le_bytes 2 (Z.land (Z.shiftr h 16) 0xFFFF) ++ le_bytes 4 (Z.land (Z.shiftr h 32) 0xFFFFFFFF) = le_bytes 8 h.
Proof.
  change 8%nat with (2 + (2 + 4))%nat. rewrite !le_bytes_add, !Z.div_div by done.
  change 0xFFFF with (Z.ones 16). change 0xFFFFFFFF with (Z.ones 32). rewrite !Z.land_ones, !Z.shiftr_div_pow2 by lia.
  rewrite <- (le_bytes_mod 2 h), <- (le_bytes_mod 2 (h / _)), <- (le_bytes_mod 4 (h / _)). reflexivity.
Qed.

Lemma length_gate_bytes e : length (idt_entry_bytes e) = 16%nat.
Proof. done. Qed.

Lemma length_idt_bytes idt : length (idt_bytes idt) = (16 * length idt)%nat.
Proof.
  induction idt as [|e idt IH]; [done |]. change (idt_bytes (e :: idt)) with (idt_entry_bytes e ++ idt_bytes idt).
  rewrite length_app, IH, length_gate_bytes. cbn [length]. lia.
Qed.

Lemma idt_byte idt v e k : 0 <= v -> idt !! Z.to_nat v = Some e -> 0 <= k < 16 -> byte_at (idt_bytes idt) (16 * v + k) = nth (Z.to_nat k) (idt_entry_bytes e) 0.
Proof.
  intros Hv He Hk. unfold byte_at, idt_bytes. rewrite Z2Nat.inj_add, Z2Nat.inj_mul by lia. change (Z.to_nat 16) with 16%nat.
  revert He. generalize (Z.to_nat v) as m. assert (Z.to_nat k < 16)%nat as Hk' by lia. revert Hk'. generalize (Z.to_nat k) as j. clear. intros j Hj.
  induction idt as [|e0 idt IH]; intros [|m]; try done; cbn [fmap list_fmap concat].
  - intros [= ->]. rewrite Nat.mul_0_r. by rewrite app_nth1.
  - intros He. rewrite app_nth2; rewrite length_gate_bytes; [| lia]. replace (16 * S m + j - 16)%nat with (16 * m + j)%nat by lia. by apply IH.
Qed.

Lemma gate_decodes idt v h : 0 <= v -> 0 <= h < 0x10000000000000000 -> idt !! Z.to_nat v = Some (gate_entry h) ->
  let b k := byte_at (idt_bytes idt) (16 * v + k) in
  b 5 = 0x8E /\ le_val [b 2; b 3] = GDT_KERNEL_CODE /\ le_val [b 0; b 1; b 6; b 7; b 8; b 9; b 10; b 11] = h.
Proof.
  intros Hv Hh He b. unfold b. rewrite !(idt_byte idt v _ _ Hv He) by lia.
  pose proof (address_bytes h) as Ha. unfold gate_entry, idt_entry_bytes. cbn [offset_low selector ist type_attr offset_mid offset_high idt_reserved].
  split_and!; [done | done |]. 
  transitivity (le_val (le_bytes 8 h)); [rewrite <- Ha; reflexivity | by rewrite le_val_le_bytes, Z.mod_small].
Qed.

Lemma empty_gate idt v : 0 <= v -> idt !! Z.to_nat v = Some (IdtEntry 0 0 0 0 0 0 0) -> byte_at (idt_bytes idt) (16 * v + 5) = 0.
Proof. intros Hv He. by rewrite (idt_byte idt v _ _ Hv He) by lia. Qed.

(** C34. Every interrupt is delivered: after [gdt_init] and [interrupt_init] the
    processor, reading the two tables byte by byte, enters for each of the 18
    exceptions with a handler and the two interrupts of the timer and the keyboard
    the code of its own stub, in the kernel's 64-bit code segment and with
    interrupts disabled, wherever the linker puts tables and stubs; every other
    vector has no gate. *)
Theorem interrupt_delivery gdt_addr tss_addr idt_addr exc irq c :
  (forall n, 0 <= exc n < 0x10000000000000000) -> (forall n, 0 <= irq n < 0x10000000000000000) ->
  let (g, c1) := gdt_init gdt_addr tss_addr c in
  exists idt c2, interrupt_init idt_addr exc irq c1 = Some (idt, c2) /\
    gdtr c2 = (Z.of_nat (length (gdt_bytes g)) - 1, gdt_addr) /\ idtr c2 = (Z.of_nat (length (idt_bytes idt)) - 1, idt_addr) /\
    cs c2 = GDT_KERNEL_CODE /\ ds c2 = GDT_KERNEL_DATA /\
    forall v, 0 <= v < 256 -> deliver (gdt_bytes g) (idt_bytes idt) c2 v =
      match handler_of exc irq v with Some h => Some (h, GDT_KERNEL_CODE) | None => None end.
Proof.
  intros He Hi. destruct (gdt_init gdt_addr tss_addr c) as [g c1] eqn:Eg.
  assert (length (gdt_bytes g) = 56%nat /\ gdtr c1 = (55, gdt_addr) /\ cs c1 = GDT_KERNEL_CODE /\ ds c1 = GDT_KERNEL_DATA /\
    segment (gdt_bytes g) 55 GDT_KERNEL_CODE = Some (Descriptor 0 0xFFFFF 0x9A 0xA)) as (Hlen & Hg & Hcs & Hds & Hseg).
  { injection Eg as <- <-. split_and!; reflexivity. }
  rewrite interrupt_init_gates.
  destruct (set_gates_ok (gates exc irq) (replicate 256 (IdtEntry 0 0 0 0 0 0 0))) as (idt & -> & Hl & HL).
  { done. }
  { unfold gates. apply Forall_app. split; [apply Forall_fmap |]; repeat (constructor; [cbn; lia |]); constructor. }
  cbn [mbind option_bind]. exists idt, (lidt 4095 idt_addr c1).
  assert (length (idt_bytes idt) = 4096%nat) as Hlb.
  { rewrite length_idt_bytes, Hl. done. }
  split_and!; [done | by rewrite Hlen; exact Hg | by rewrite Hlb | done | done |].
  intros v Hv. specialize (HL v Hv). rewrite gate_of_gates in HL. unfold deliver. cbn [idtr lidt fst gdtr]. rewrite Hg. cbn [fst].
  destruct (Z.leb_spec (16 * v + 15) 4095); [| lia]. destruct (handler_of exc irq v) as [h|] eqn:Eh.
  - assert (0 <= h < 0x10000000000000000) as Hh by (unfold handler_of in Eh; repeat case_match; congruence || (injection Eh as <-; apply He || apply Hi)).
    destruct (gate_decodes idt v h ltac:(lia) Hh HL) as (E1 & E2 & E3). cbn zeta in E1, E2, E3. rewrite E1, E2, E3, Hseg. reflexivity.
  - rewrite lookup_replicate_2 in HL by lia. by rewrite (empty_gate idt v ltac:(lia) HL).
Qed.

Lemma interrupt_delivery_witness : exists g c1 idt c2, gdt_init 0x1000 0x2000 (Cpu (0, 0) (0, 0) 0 0 0) = (g, c1) /\
  interrupt_init 0x3000 (fun n => 0xFFFFFFFF80001000 + 16 * (n mod 32)) (fun n => 0xFFFFFFFF80002000 + 16 * (n mod 2)) c1 = Some (idt, c2) /\
  deliver (gdt_bytes g) (idt_bytes idt) c2 14 = Some (0xFFFFFFFF800010E0, 8) /\ deliver (gdt_bytes g) (idt_bytes idt) c2 39 = None.
Proof.
  pose proof (interrupt_delivery 0x1000 0x2000 0x3000 (fun n => 0xFFFFFFFF80001000 + 16 * (n mod 32)) (fun n => 0xFFFFFFFF80002000 + 16 * (n mod 2)) (Cpu (0, 0) (0, 0) 0 0 0)
    ltac:(intros n; pose proof (Z.mod_pos_bound n 32 ltac:(lia)); lia) ltac:(intros n; pose proof (Z.mod_pos_bound n 2 ltac:(lia)); lia)) as H.
  destruct (gdt_init 0x1000 0x2000 (Cpu (0, 0) (0, 0) 0 0 0)) as [g c1]. destruct H as (idt & c2 & E & _ & _ & _ & _ & H).
  exists g, c1, idt, c2. split; [reflexivity |]. split; [exact E |]. split; [exact (H 14 ltac:(lia)) | exact (H 39 ltac:(lia))].
Defined.

(** ** Page faults *)

Section page_fault.
Context {A : Type} `{PageAllocatorLaws A}.
Implicit Type s : vmm A.

Definition mmio_address (v : Z) : Prop := 0xE0000000 <= v < 0x100000000.

(** The page of [v] mapped to the frame of the same address, uncached and writable,
    and for the user when the access was the user's. *)
Definition identity_mapped (r v error_code : Z) s s' : Prop :=
  (forall v', mmu (words s') r v' = if decide (path v' = path v) then Some (PAGE_ALIGN v + v' mod 4096) else mmu (words s) r v') /\
  exists pt, walk (words s') r [PML4_INDEX v; PDP_INDEX v; PD_INDEX v] = Some pt /\
    words s' (pt + 8 * PT_INDEX v) = PAGE_ALIGN v + 0x1B + (if Z.land error_code 4 =? 0 then 0 else 4).

Lemma page_align_path v : 0 <= v < 0x10000000000000000 -> path (PAGE_ALIGN v) = path v.
Proof. intros Hv. apply path_eq. rewrite PAGE_ALIGN_eq by done. unfold page_number. f_equal. zlia. Qed.

Lemma mmio_fault_ok v error_code s :
  let r := root (kernel_context s) in
  vm_ok r s -> hhdm_offset s <> 0 -> (forall v', path v' = path v -> clear_path (words s) r v') ->
  exists out handled s', handle_mmio_page_fault v error_code s = Some (out, handled, s') /\ vm_ok r s' /\
    (handled = true -> mmio_address v /\ identity_mapped r v error_code s s') /\
    (handled = false -> forall v', mmu (words s') r v' = mmu (words s) r v').
Proof.
  intros r Hs Hh Hc. unfold handle_mmio_page_fault. rewrite Z.geb_leb.
  destruct ((0xE0000000 <=? v) && (v <? 0x100000000)) eqn:Eb; [| by exists [], false, s].
  apply andb_true_iff in Eb as [E1 E2]. zbool. assert (0 <= v < 0x10000000000000000) as Hv by lia.
  assert (is_Some (DEBUG_INFO "Attempting to map MMIO page at 0x%lx" [VLong v])) as [out1 ->]; [prints |]. cbn [mbind option_bind].
  set (flags := Z.lor (if Z.land error_code PAGE_FAULT_USER =? 0 then _ else _) _).
  pose proof (page_align_path v Hv) as Hpath. assert (PAGE_ALIGN v mod 4096 = 0 /\ 0 <= PAGE_ALIGN v < 2 ^ 52 /\ 0 < PAGE_ALIGN v) as (Ha & Hr & Hpos).
  { rewrite PAGE_ALIGN_eq by done. change (2 ^ 52) with 0x10000000000000. clear - E1 E2. zlia. }
  destruct (map_page_ok s (PAGE_ALIGN v) (PAGE_ALIGN v) flags Hs Hh (Hc _ Hpath) Ha Hr) as (res & s' & -> & Hs' & _ & _ & _ & _ & Hres). cbn [mbind option_bind].
  destruct Hres as [(-> & _ & Hm) | (-> & _ & Hm & pt & Hw & Hpt)].
  - cbn [negb]. change (NULL =? NULL) with true. cbn [negb].
    assert (is_Some (DEBUG_ERROR "Failed to map MMIO page at 0x%lx" [VLong (PAGE_ALIGN v)])) as [out2 ->]; [prints |].
    eexists _, false, s'. by split_and!.
  - destruct (Z.eqb_spec (PAGE_ALIGN v) NULL) as [E|_]; [unfold NULL in E; lia |]. cbn [negb].
    assert (is_Some (DEBUG_INFO "Successfully mapped MMIO page at 0x%lx" [VLong (PAGE_ALIGN v)])) as [out2 ->]; [prints |].
    eexists _, true, s'. split_and!; [done | done | | done]. intros _. split; [done |]. split; [intros v'; by rewrite Hm, Hpath |].
    injection Hpath as P1 P2 P3 P4. rewrite P1, P2, P3 in Hw. rewrite P4 in Hpt. exists pt. split; [exact Hw |]. rewrite Hpt.
    unfold flags. change PAGE_FAULT_USER with 4. fold r.
    assert (forall f, 0 <= f < 4096 -> Z.lor (PAGE_ALIGN v) f = PAGE_ALIGN v + f) as Hlor.
    { intros f Hf. pose proof (lor_add (PAGE_ALIGN v / 4096) 12 f ltac:(lia) Hf) as HL. rewrite Z.shiftl_mul_pow2 in HL by lia. change (2 ^ 12) with 4096 in HL.
      replace (PAGE_ALIGN v / 4096 * 4096) with (PAGE_ALIGN v) in HL; [exact HL |]. pose proof (Z.div_mod (PAGE_ALIGN v) 4096 ltac:(lia)). lia. }
    destruct (Z.land error_code 4 =? 0);
      [change (Z.lor PAGE_PRESENT (Z.land _ 0x1E)) with 0x1B | change (Z.lor PAGE_PRESENT (Z.land _ 0x1E)) with 0x1F]; rewrite Hlor; lia.
Qed.

(** C35. Page faults: on page tables in order the handler either maps the faulting
    page to the frame of the same address, uncached, writable and for the user when
    the user's access faulted, and returns, which it does only in the range of
    memory-mapped devices, or halts with every translation as it was. *)
Theorem page_fault_spec cr2 frame s :
  let r := root (kernel_context s) in
  vm_ok r s -> hhdm_offset s <> 0 -> (forall v', path v' = path cr2 -> clear_path (words s) r v') ->
  exists out returns s', page_fault_handler cr2 frame s = Some (out, returns, s') /\ vm_ok r s' /\
    (returns = true -> mmio_address cr2 /\ identity_mapped r cr2 (f_error_code frame) s s') /\
    (returns = false -> forall v', mmu (words s') r v' = mmu (words s) r v').
Proof.
  intros r Hs Hh Hc. unfold page_fault_handler.
  match goal with |- context [printed ?l] => assert (is_Some (printed l)) as [out ->]; [print_all |] end. cbn [mbind option_bind].
  destruct (mmio_fault_ok cr2 (f_error_code frame) s Hs Hh Hc) as (out2 & handled & s' & -> & Hs' & H1 & H2). cbn [mbind option_bind].
  destruct handled; cbn [negb]; [by eexists _, true, s' |].
  assert (is_Some (DEBUG_ERROR "Failed to handle page fault - halting system" [])) as [out3 ->]; [prints |]. by eexists _, false, s'.
Qed.
End page_fault.

Lemma page_fault_spec_witness :
  exists out returns s', page_fault_handler 0xFEE00123 (FrameError 2 (Frame 0 8 0 0 0)) demo_vmm = Some (out, returns, s') /\ vm_ok 0x1000 s' /\
    returns = true /\ mmu (words s') 0x1000 0xFEE00FFF = Some 0xFEE00FFF.
Proof.
  destruct (page_fault_spec 0xFEE00123 (FrameError 2 (Frame 0 8 0 0 0)) demo_vmm demo_vmm_ok ltac:(discriminate) (fun v' _ => demo_clear v'))
    as (out & returns & s' & E & Hs & H1 & _).
  exists out, returns, s'. split; [exact E |]. split; [exact Hs |].
  assert (returns = true) as -> by (apply (f_equal (fun o => match o with Some (_, b, _) => b | None => false end)) in E; rewrite <- E; vm_compute; reflexivity).
  split; [reflexivity |]. destruct (H1 eq_refl) as (_ & Hm & _). rewrite Hm. vm_compute. reflexivity.
Defined.

Lemma tss_address_bytes a :
  le_bytes 2 (u16 (Z.land a 0xFFFF)) ++ [u8 (Z.land (Z.shiftr a 16) 0xFF); u8 (Z.land (Z.shiftr a 24) 0xFF)] ++ le_bytes 4 (u32 (Z.land (Z.shiftr a 32) 0xFFFFFFFF)) = le_bytes 8 a.
Proof.
  change 8%nat with (2 + (1 + (1 + 4)))%nat. rewrite !le_bytes_add, !Z.div_div by done. cbn [app].
  change 0xFFFF with (Z.ones 16). change 0xFFFFFFFF with (Z.ones 32). change 0xFF with (Z.ones 8). rewrite !Z.land_ones, !Z.shiftr_div_pow2 by lia.
  unfold u8, u16, u32. rewrite !Z.mod_mod by lia.
  rewrite <- (le_bytes_mod 2 a), <- (le_bytes_mod 4 (a / _)). reflexivity.
Qed.

(** The segments: after [gdt_init] the selectors lead to the present descriptors
    of the kernel's 64-bit code and writable data and of the user's, all of 4 GiB from
    address 0, and to an available 64-bit task state at the address of the TSS, of its
    104 bytes, so that there is no table of permitted ports; the task register
    holds its selector. *)
Theorem gdt_init_spec gdt_addr tss_addr c (Ht : 0 <= tss_addr < 0x10000000000000000) :
  let (g, c') := gdt_init gdt_addr tss_addr c in
  let seg sel := segment (gdt_bytes g) (gdtr c').1 sel in
  seg GDT_KERNEL_CODE = Some (Descriptor 0 0xFFFFF 0x9A 0xA) /\ seg GDT_KERNEL_DATA = Some (Descriptor 0 0xFFFFF 0x92 0x8) /\
  seg GDT_USER_CODE = Some (Descriptor 0 0xFFFFF 0xFA 0xA) /\ seg GDT_USER_DATA = Some (Descriptor 0 0xFFFFF 0xF2 0x8) /\
  (exists d, seg GDT_TSS = Some d /\ d_base d + 0x100000000 * system_base (gdt_bytes g) GDT_TSS = tss_addr /\
     d_limit d = 103 /\ d_access d = 0x89 /\ d_flags d = 0) /\
  GDT_TSS + 15 <= (gdtr c').1 /\ iopb_offset (gdt_get_tss g) > 103 /\ tr c' = GDT_TSS /\ gdtr c' = (55, gdt_addr).
Proof.
  destruct (gdt_init gdt_addr tss_addr c) as [g c'] eqn:Eg. injection Eg as <- <-. cbn zeta.
  split_and!; [reflexivity | reflexivity | reflexivity | reflexivity | | vm_compute; congruence | reflexivity | reflexivity | reflexivity].
  eexists. split; [reflexivity |]. split_and!; [| reflexivity | reflexivity | reflexivity].
  set (l1 := le_bytes 2 (u16 (Z.land tss_addr 0xFFFF)) ++ [u8 (Z.land (Z.shiftr tss_addr 16) 0xFF); u8 (Z.land (Z.shiftr tss_addr 24) 0xFF)]).
  set (l2 := le_bytes 4 (u32 (Z.land (Z.shiftr tss_addr 32) 0xFFFFFFFF))).
  change (le_val l1 + 0x100 ^ Z.of_nat (length l1) * le_val l2 = tss_addr).
  rewrite <- le_val_app. unfold l1, l2. rewrite <- app_assoc, tss_address_bytes, le_val_le_bytes. by apply Z.mod_small.
Qed.

Lemma gdt_init_spec_witness : (gdt_init 0x1000 0xFFFFFFFF80012345 (Cpu (0, 0) (0, 0) 0 0 0)).2 = Cpu (55, 0x1000) (0, 0) 8 16 40 /\
  exists d, segment (gdt_bytes (gdt_init 0x1000 0xFFFFFFFF80012345 (Cpu (0, 0) (0, 0) 0 0 0)).1) 55 GDT_TSS = Some d /\ d_limit d = 103.
Proof.
  split; [reflexivity |].
  destruct (gdt_init_spec 0x1000 0xFFFFFFFF80012345 (Cpu (0, 0) (0, 0) 0 0 0) ltac:(lia)) as (_ & _ & _ & _ & (d & E & _ & Hl & _) & _).
  exists d. split; [exact E | exact Hl].
Defined.
