(* ===== verification/Pci.v ===== *)
(** * The PCI bus

    [pci/pci.c]: access to the configuration space through two ports, and the
    scan that fills the static table of devices.  The bus is hardware, any [hw]
    with ports in which the data port reads and writes the double word of the
    configuration space that was addressed.  [pci_print_devices] is in the file Reports. *)

From S2P Require Import Prelude Ports.

Definition PCI_CONFIG_ADDRESS := 0xCF8.
Definition PCI_CONFIG_DATA := 0xCFC.
Definition PCI_VENDOR_ID := 0x00.
Definition PCI_DEVICE_ID := 0x02.
Definition PCI_COMMAND := 0x04.
Definition PCI_REVISION_ID := 0x08.
Definition PCI_PROG_IF := 0x09.
Definition PCI_SUBCLASS := 0x0A.
Definition PCI_CLASS_CODE := 0x0B.
Definition PCI_HEADER_TYPE := 0x0E.
Definition PCI_BAR0 := 0x10.
Definition PCI_INTERRUPT_LINE := 0x3C.
Definition PCI_INTERRUPT_PIN := 0x3D.
Definition PCI_COMMAND_MEMORY := 0x02.
Definition PCI_COMMAND_MASTER := 0x04.
Definition MAX_PCI_DEVICES := 256.

Record pci_device := PciDevice {
  bus : Z;
  device : Z;
  function : Z;
  vendor_id : Z;
  device_id : Z;
  class_code : Z;
  subclass : Z;
  prog_if : Z;
  revision_id : Z;
  bar : list Z;
  interrupt_line : Z;
  interrupt_pin : Z;
}.

(** The static array of 256 entries; a pointer to a device is its index. *)
Record pci := Pci { pci_devices : list pci_device; pci_device_count : Z }.

Definition config_address (b d f offset : Z) : Z :=
  u32 (Z.lor (Z.lor (Z.lor (Z.lor (Z.shiftl 1 31) (Z.shiftl b 16)) (Z.shiftl d 11)) (Z.shiftl f 8)) (Z.land offset 0xFC)).

Section driver.
Context {hw : Type} {PORTS : Ports hw}.
Implicit Types (h : hw) (p : pci) (b d f offset : Z).

(** ** The configuration space *)

Definition pci_config_read32 b d f offset h : Z * hw :=
  inl PCI_CONFIG_DATA (outl PCI_CONFIG_ADDRESS (config_address b d f offset) h).

Definition pci_config_read16 b d f offset h : Z * hw :=
  let '(data, h) := inl PCI_CONFIG_DATA (outl PCI_CONFIG_ADDRESS (config_address b d f offset) h) in
  (Z.land (Z.shiftr data (Z.land offset 2 * 8)) 0xFFFF, h).

Definition pci_config_read8 b d f offset h : Z * hw :=
  let '(data, h) := inl PCI_CONFIG_DATA (outl PCI_CONFIG_ADDRESS (config_address b d f offset) h) in
  (Z.land (Z.shiftr data (Z.land offset 3 * 8)) 0xFF, h).

Definition pci_config_write32 b d f offset (value : Z) h : hw :=
  outl PCI_CONFIG_DATA value (outl PCI_CONFIG_ADDRESS (config_address b d f offset) h).

Definition pci_config_write16 b d f offset (value : Z) h : hw :=
  let '(data, h) := inl PCI_CONFIG_DATA (outl PCI_CONFIG_ADDRESS (config_address b d f offset) h) in
  let data := Z.land data (u32 (Z.lnot (Z.shiftl 0xFFFF (Z.land offset 2 * 8)))) in
  let data := u32 (Z.lor data (Z.shiftl value (Z.land offset 2 * 8))) in
  outl PCI_CONFIG_DATA data h.

Definition pci_config_write8 b d f offset (value : Z) h : hw :=
  let '(data, h) := inl PCI_CONFIG_DATA (outl PCI_CONFIG_ADDRESS (config_address b d f offset) h) in
  let data := Z.land data (u32 (Z.lnot (Z.shiftl 0xFF (Z.land offset 3 * 8)))) in
  let data := u32 (Z.lor data (Z.shiftl value (Z.land offset 3 * 8))) in
  outl PCI_CONFIG_DATA data h.

(** ** The scan *)

Fixpoint read_bars (n : nat) b d f (i : Z) h : list Z * hw :=
  match n with
  | O => ([], h)
  | S n' =>
      let '(x, h) := pci_config_read32 b d f (PCI_BAR0 + i * 4) h in
      let '(l, h) := read_bars n' b d f (i + 1) h in (x :: l, h)
  end.

Definition read_device b d f (vendor_id : Z) h : pci_device * hw :=
  let '(device_id, h) := pci_config_read16 b d f PCI_DEVICE_ID h in
  let '(class_code, h) := pci_config_read8 b d f PCI_CLASS_CODE h in
  let '(subclass, h) := pci_config_read8 b d f PCI_SUBCLASS h in
  let '(prog_if, h) := pci_config_read8 b d f PCI_PROG_IF h in
  let '(revision_id, h) := pci_config_read8 b d f PCI_REVISION_ID h in
  let '(interrupt_line, h) := pci_config_read8 b d f PCI_INTERRUPT_LINE h in
  let '(interrupt_pin, h) := pci_config_read8 b d f PCI_INTERRUPT_PIN h in
  let '(bars, h) := read_bars 6 b d f 0 h in
  (PciDevice b d f vendor_id device_id class_code subclass prog_if revision_id bars interrupt_line interrupt_pin, h).

Definition add_device (dev : pci_device) p : pci :=
  Pci (<[Z.to_nat (pci_device_count p) := dev]> (pci_devices p)) (pci_device_count p + 1).

(** The three loops, with the iterations left; true when the table is full and the
    function returns. *)
Fixpoint scan_functions (n : nat) b d f p h : bool * pci * hw :=
  match n with
  | O => (false, p, h)
  | S n' =>
      let '(vendor_id, h) := pci_config_read16 b d f PCI_VENDOR_ID h in
      if vendor_id =? 0xFFFF then
        if f =? 0 then (false, p, h) else scan_functions n' b d (f + 1) p h
      else if pci_device_count p >=? MAX_PCI_DEVICES then (true, p, h)
      else
        let '(dev, h) := read_device b d f vendor_id h in
        let p := add_device dev p in
        if f =? 0 then
          let '(header_type, h) := pci_config_read8 b d f PCI_HEADER_TYPE h in
          if Z.land header_type 0x80 =? 0 then (false, p, h) else scan_functions n' b d (f + 1) p h
        else scan_functions n' b d (f + 1) p h
  end.

Fixpoint scan_bus (n : nat) b d p h : bool * pci * hw :=
  match n with
  | O => (false, p, h)
  | S n' =>
      let '(stop, p, h) := scan_functions 8 b d 0 p h in
      if (stop : bool) then (true, p, h) else scan_bus n' b (d + 1) p h
  end.

Fixpoint scan_buses (n : nat) b p h : bool * pci * hw :=
  match n with
  | O => (false, p, h)
  | S n' =>
      let '(stop, p, h) := scan_bus 32 b 0 p h in
      if (stop : bool) then (true, p, h) else scan_buses n' (b + 1) p h
  end.

Definition pci_scan_devices p h : Z * pci * hw :=
  let '(_, p, h) := scan_buses 256 0 (Pci (pci_devices p) 0) h in (pci_device_count p, p, h).

Definition pci_init p h : pci * hw :=
  let '(_, p, h) := pci_scan_devices (Pci (pci_devices p) 0) h in (p, h).

End driver.

(** ** The table *)

Fixpoint find_loop (n : nat) (i : Z) (vendor dev_id : Z) (p : pci) : option Z :=
  match n with
  | O => None
  | S n' =>
      match pci_devices p !! Z.to_nat i with
      | Some x => if (vendor_id x =? vendor) && (device_id x =? dev_id) then Some i else find_loop n' (i + 1) vendor dev_id p
      | None => None
      end
  end.
Definition pci_find_device (vendor dev_id : Z) (p : pci) : option Z :=
  find_loop (Z.to_nat (pci_device_count p)) 0 vendor dev_id p.

Definition pci_get_device (index : Z) (p : pci) : option Z :=
  if (index <? 0) || (index >=? pci_device_count p) then None else Some index.

Definition pci_get_device_count (p : pci) : Z := pci_device_count p.

(** ** The bus *)

(** What the driver relies on: the data port stands for the double word that was
    addressed last; what writing does to it is up to the device. *)
Class PciLaws (hw : Type) `{Ports hw} := {
  config : hw -> Z -> Z;
  addressed : hw -> Z;
  pci_select : forall a h, config (outl PCI_CONFIG_ADDRESS a h) = config h /\ addressed (outl PCI_CONFIG_ADDRESS a h) = a;
  pci_data_in : forall h, (inl PCI_CONFIG_DATA h).1 = config h (addressed h) /\
    config (inl PCI_CONFIG_DATA h).2 = config h /\ addressed (inl PCI_CONFIG_DATA h).2 = addressed h;
  pci_data_out : forall v h a, a <> addressed h -> config (outl PCI_CONFIG_DATA v h) a = config h a;
  pci_config_range : forall h a, 0 <= config h a < 0x100000000;
}.

(** A bus whose double words hold what is written to them. *)
Record pci_bus := PciBus { bus_config : Z -> Z; bus_addressed : Z }.

#[export] Instance pci_bus_ports : Ports pci_bus := {|
  inb _ s := (0, s); outb _ _ s := s; inw _ s := (0, s); outw _ _ s := s;
  inl _ s := (u32 (bus_config s (bus_addressed s)), s);
  outl port v s :=
    if port =? PCI_CONFIG_ADDRESS then PciBus (bus_config s) v
    else PciBus (fun a => if a =? bus_addressed s then v else bus_config s a) (bus_addressed s);
|}.

#[export] Instance pci_bus_laws : PciLaws pci_bus.
Proof.
  refine {| config s a := u32 (bus_config s a); addressed := bus_addressed |}; try done.
  - intros v h a Ha. cbn. by rewrite (proj2 (Z.eqb_neq _ _) Ha).
  - intros h a. apply u32_range.
Defined.

(** ** The accessors on the bus *)

Section laws.
Context {hw : Type} {PORTS : Ports hw} {LAWS : PciLaws hw}.
Implicit Types (h : hw) (p : pci) (b d f offset : Z).

(** The bytes of the configuration space: [n] bytes at an offset, as the accessors read them. *)
Definition field8 (cfg : Z -> Z) b d f offset : Z := (cfg (config_address b d f offset) / 2 ^ (8 * (offset mod 4))) mod 0x100.
Definition field16 (cfg : Z -> Z) b d f offset : Z := (cfg (config_address b d f offset) / 2 ^ (8 * (offset mod 4))) mod 0x10000.

(** A device as the configuration space describes it. *)
Definition described (cfg : Z -> Z) b d f : pci_device :=
  PciDevice b d f (field16 cfg b d f PCI_VENDOR_ID) (field16 cfg b d f PCI_DEVICE_ID) (field8 cfg b d f PCI_CLASS_CODE)
    (field8 cfg b d f PCI_SUBCLASS) (field8 cfg b d f PCI_PROG_IF) (field8 cfg b d f PCI_REVISION_ID)
    ((fun i => cfg (config_address b d f (PCI_BAR0 + i * 4))) <$> [0; 1; 2; 3; 4; 5])
    (field8 cfg b d f PCI_INTERRUPT_LINE) (field8 cfg b d f PCI_INTERRUPT_PIN).

(** The functions of a device: none when function 0 is missing, function 0 alone
    when its header does not say that there are more. *)
Definition exists_function (cfg : Z -> Z) b d f : bool := negb (field16 cfg b d f PCI_VENDOR_ID =? 0xFFFF).
Definition functions_of (cfg : Z -> Z) b d : list Z :=
  if exists_function cfg b d 0 then
    if Z.land (field8 cfg b d 0 PCI_HEADER_TYPE) 0x80 =? 0 then [0]
    else List.filter (exists_function cfg b d) (seqZ 0 8)
  else [].
Definition device_functions (cfg : Z -> Z) b d : list pci_device := described cfg b d <$> functions_of cfg b d.
Definition bus_functions (cfg : Z -> Z) b : list pci_device := concat (device_functions cfg b <$> seqZ 0 32).
Definition all_functions (cfg : Z -> Z) : list pci_device := concat (bus_functions cfg <$> seqZ 0 256).

Lemma read32_ok b d f offset h :
  exists h', pci_config_read32 b d f offset h = (config h (config_address b d f offset), h') /\ config h' = config h.
Proof.
  unfold pci_config_read32. set (a := config_address _ _ _ _). destruct (pci_select a h) as [Ec Ea].
  destruct (pci_data_in (outl PCI_CONFIG_ADDRESS a h)) as (E & Ec' & _). exists (inl PCI_CONFIG_DATA (outl PCI_CONFIG_ADDRESS a h)).2.
  split; [| by rewrite Ec', Ec]. rewrite Ec, Ea in E. rewrite <- E. apply surjective_pairing.
Qed.

Lemma read16_ok b d f offset h : offset mod 4 = 0 \/ offset mod 4 = 2 ->
  exists h', pci_config_read16 b d f offset h = (field16 (config h) b d f offset, h') /\ config h' = config h.
Proof.
  intros Ho. destruct (read32_ok b d f offset h) as (h' & E & Ec). exists h'. split; [| done]. unfold pci_config_read32 in E.
  unfold pci_config_read16. rewrite E. f_equal. unfold field16. change 0xFFFF with (Z.ones 16). rewrite Z.land_ones by lia.
  change (2 ^ 16) with 0x10000. f_equal. assert (Z.land offset 2 = offset mod 4) as ->.
  { assert (Z.land offset 3 = offset mod 4) as E4 by (change 3 with (Z.ones 2); by rewrite Z.land_ones).
    transitivity (Z.land (Z.land offset 3) 2); [by rewrite <- Z.land_assoc |]. rewrite E4. by destruct Ho as [-> | ->]. }
  rewrite Z.shiftr_div_pow2 by lia. do 2 f_equal; lia.
Qed.

Lemma read8_ok b d f offset h :
  exists h', pci_config_read8 b d f offset h = (field8 (config h) b d f offset, h') /\ config h' = config h.
Proof.
  destruct (read32_ok b d f offset h) as (h' & E & Ec). exists h'. split; [| done]. unfold pci_config_read32 in E.
  unfold pci_config_read8. rewrite E. f_equal. unfold field8. change 0xFF with (Z.ones 8). change 3 with (Z.ones 2).
  rewrite !Z.land_ones by lia. change (2 ^ 8) with 0x100. change (2 ^ 2) with 4. f_equal.
  rewrite Z.shiftr_div_pow2 by zlia. do 2 f_equal. lia.
Qed.

(** ** The scan *)

(** The table holds the devices [l] in its first entries. *)
Definition holds p (l : list pci_device) : Prop :=
  pci_device_count p = Z.of_nat (length l) /\ length (pci_devices p) = 256%nat /\ take (length l) (pci_devices p) = l.

Lemma holds_length p l : holds p l -> (length l <= 256)%nat.
Proof. intros (_ & Hl & E). rewrite <- E, length_take. lia. Qed.

Lemma holds_add p l x : holds p l -> (length l < 256)%nat -> holds (add_device x p) (l ++ [x]).
Proof.
  intros (Hc & Hl & E) Hlt. unfold add_device, holds. cbn [pci_devices pci_device_count]. rewrite Hc, Nat2Z.id, length_app, length_insert.
  cbn [length]. split_and!; [lia | done |]. rewrite Nat.add_1_r, (take_S_r _ _ x) by (apply list_lookup_insert_eq; lia).
  by rewrite take_insert_ge, E by lia.
Qed.

(** The outcome of a part of the scan that comes across the devices [k], from a
    table that holds [l]: at most 256 are kept, and the scan stops when there is one more. *)
Definition scanned (cfg : Z -> Z) (l k : list pci_device) (r : bool * pci * hw) : Prop :=
  let '(stop, p, h) := r in
  config h = cfg /\ holds p (take 256 (l ++ k)) /\ (stop = true <-> (256 < length (l ++ k))%nat).

Lemma scanned_nil p l h : holds p l -> scanned (config h) l [] (false, p, h).
Proof.
  intros Hp. pose proof (holds_length _ _ Hp). unfold scanned. rewrite app_nil_r, take_ge by lia. split_and!; [done | done |].
  split; [done | intros; lia].
Qed.

Lemma scanned_full p l x k h : holds p l -> (256 <= length l)%nat -> scanned (config h) l (x :: k) (true, p, h).
Proof.
  intros Hp Hl. pose proof (holds_length _ _ Hp). unfold scanned. rewrite take_app_le, take_ge, length_app by lia. cbn [length].
  split_and!; [done | done |]. split; [lia | done].
Qed.

Lemma scanned_bind cfg l k k' stop p h r :
  scanned cfg l k (stop, p, h) -> (config h = cfg -> holds p (l ++ k) -> scanned cfg (l ++ k) k' r) ->
  scanned cfg l (k ++ k') (if stop then (true, p, h) else r).
Proof.
  intros (Ec & Hp & Hs) Hr. rewrite length_app in Hs. destruct stop.
  - assert (256 < length l + length k)%nat as Hlen by tauto. unfold scanned. rewrite (assoc_L (++)), take_app_le by (rewrite length_app; lia).
    split_and!; [done | done |]. rewrite length_app. rewrite length_app. split; [lia | done].
  - assert (length l + length k <= 256)%nat as Hlen by (destruct (decide (256 < length l + length k)%nat); [by apply Hs in l0 | lia]).
    rewrite take_ge in Hp by (rewrite length_app; lia). specialize (Hr Ec Hp). unfold scanned in *. by rewrite (assoc_L (++)).
Qed.

Lemma read_bars_ok n b d f : forall i h,
  exists h', read_bars n b d f i h = ((fun j => config h (config_address b d f (PCI_BAR0 + j * 4))) <$> seqZ i (Z.of_nat n), h') /\
    config h' = config h.
Proof.
  induction n as [|n IH]; intros i h; [by exists h |]. cbn [read_bars].
  destruct (read32_ok b d f (PCI_BAR0 + i * 4) h) as (h1 & -> & E1). destruct (IH (i + 1) h1) as (h2 & -> & E2).
  exists h2. rewrite (seqZ_cons i) by lia. rewrite fmap_cons, E2, E1. replace (Z.pred (Z.of_nat (S n))) with (Z.of_nat n) by lia. done.
Qed.

Ltac read_field L := let h := fresh "h" in let E := fresh "E" in destruct L as (h & -> & E).

Lemma read_device_ok b d f h :
  exists h', read_device b d f (field16 (config h) b d f PCI_VENDOR_ID) h = (described (config h) b d f, h') /\ config h' = config h.
Proof.
  unfold read_device, described. read_field (read16_ok b d f PCI_DEVICE_ID h (or_intror eq_refl)).
  read_field (read8_ok b d f PCI_CLASS_CODE h0). read_field (read8_ok b d f PCI_SUBCLASS h1). read_field (read8_ok b d f PCI_PROG_IF h2).
  read_field (read8_ok b d f PCI_REVISION_ID h3). read_field (read8_ok b d f PCI_INTERRUPT_LINE h4).
  read_field (read8_ok b d f PCI_INTERRUPT_PIN h5). read_field (read_bars_ok 6 b d f 0 h6).
  exists h7. split; [| congruence]. rewrite E5, E4, E3, E2, E1, E0, E. reflexivity.
Qed.

(** One step of the innermost loop; [go] are the functions that follow. *)
Lemma scan_functions_ok n b d : forall f p l h, 0 < f -> holds p l ->
  scanned (config h) l (described (config h) b d <$> List.filter (exists_function (config h) b d) (seqZ f (Z.of_nat n)))
    (scan_functions n b d f p h).
Proof.
  induction n as [|n IH]; intros f p l h Hf Hp; [by apply scanned_nil |]. cbn [scan_functions].
  read_field (read16_ok b d f PCI_VENDOR_ID h (or_introl eq_refl)). rewrite (proj2 (Z.eqb_neq f 0)) by lia.
  rewrite (seqZ_cons f) by lia. replace (Z.pred (Z.of_nat (S n))) with (Z.of_nat n) by lia. cbn [List.filter].
  change (Z.succ f) with (f + 1). unfold exists_function at 1.
  destruct (Z.eqb_spec (field16 (config h) b d f PCI_VENDOR_ID) 0xFFFF) as [Ev|Ev]; cbn [negb].
  - rewrite <- E. apply IH; [lia | done].
  - rewrite fmap_cons. pose proof Hp as (Hc & _). rewrite Hc. destruct (Z.geb_spec (Z.of_nat (length l)) MAX_PCI_DEVICES) as [Hm|Hm]; unfold MAX_PCI_DEVICES in Hm.
    + rewrite <- E. apply scanned_full; [done | lia].
    + rewrite <- E. destruct (read_device_ok b d f h0) as (h1 & -> & E1).
      apply (scanned_bind (config h0) l [described (config h0) b d f] _ false (add_device (described (config h0) b d f) p) h1).
      * unfold scanned. rewrite take_ge, length_app by (rewrite length_app; cbn; lia). cbn [length].
        split_and!; [congruence | apply holds_add; [done | lia] |]. split; [done | intros; lia].
      * intros _ Hp1. pose proof (IH (f + 1) _ _ h1 ltac:(lia) Hp1) as H. by rewrite E1 in H.
Qed.

Lemma scan_device_ok' n b d p l h : Z.of_nat n = 7 -> holds p l ->
  scanned (config h) l (device_functions (config h) b d) (scan_functions (S n) b d 0 p h).
Proof.
  intros Hn Hp. cbn [scan_functions]. read_field (read16_ok b d 0 PCI_VENDOR_ID h (or_introl eq_refl)).
  unfold device_functions, functions_of, exists_function. 
  destruct (Z.eqb_spec (field16 (config h) b d 0 PCI_VENDOR_ID) 0xFFFF) as [Ev|Ev]; cbn [negb Z.eqb].
  - rewrite <- E. by apply scanned_nil.
  - pose proof Hp as (Hc & _). rewrite Hc. destruct (Z.geb_spec (Z.of_nat (length l)) MAX_PCI_DEVICES) as [Hm|Hm]; unfold MAX_PCI_DEVICES in Hm.
    + rewrite <- E. destruct (Z.land _ _ =? 0); [by apply scanned_full; [| lia] |].
      change (seqZ 0 8) with (0 :: seqZ 1 7). cbn [List.filter]. rewrite E, (proj2 (Z.eqb_neq _ _) Ev). cbn [negb]. rewrite <- E.
      apply scanned_full; [done | lia].
    + rewrite <- E. rewrite <- E in Ev. destruct (read_device_ok b d 0 h0) as (h1 & -> & E1). read_field (read8_ok b d 0 PCI_HEADER_TYPE h1). rewrite E1.
      assert (scanned (config h0) l [described (config h0) b d 0] (false, add_device (described (config h0) b d 0) p, h2)) as H1.
      { unfold scanned. rewrite take_ge, length_app by (rewrite length_app; cbn; lia). cbn [length].
        split_and!; [congruence | apply holds_add; [done | lia] |]. split; [done | intros; lia]. }
      destruct (Z.land _ _ =? 0); [done |].
      change (seqZ 0 8) with (0 :: seqZ 1 7). rewrite <- Hn. cbn [List.filter]. rewrite (proj2 (Z.eqb_neq _ _) Ev). cbn [negb]. rewrite fmap_cons.
      apply (scanned_bind _ _ [_] _ false _ _ _ H1). intros Ec Hp1. pose proof (scan_functions_ok n b d 1 _ _ h2 ltac:(lia) Hp1) as H. by rewrite Ec in H.
Qed.

Lemma scan_device_ok b d p l h : holds p l ->
  scanned (config h) l (device_functions (config h) b d) (scan_functions 8 b d 0 p h).
Proof. by apply scan_device_ok'. Qed.

Lemma scan_bus_ok n b : forall d p l h, holds p l ->
  scanned (config h) l (concat (device_functions (config h) b <$> seqZ d (Z.of_nat n))) (scan_bus n b d p h).
Proof.
  induction n as [|n IH]; intros d p l h Hp; [by apply scanned_nil |]. cbn [scan_bus].
  rewrite (seqZ_cons d) by lia. replace (Z.pred (Z.of_nat (S n))) with (Z.of_nat n) by lia. rewrite fmap_cons. cbn [concat].
  pose proof (scan_device_ok b d p l h Hp) as H1. destruct (scan_functions 8 b d 0 p h) as [[stop p1] h1].
  apply (scanned_bind _ _ _ _ _ _ _ _ H1). intros Ec Hp1. pose proof (IH (d + 1) _ _ h1 Hp1) as H. rewrite Ec in H. exact H.
Qed.

Lemma scan_buses_ok n : forall b p l h, holds p l ->
  scanned (config h) l (concat (bus_functions (config h) <$> seqZ b (Z.of_nat n))) (scan_buses n b p h).
Proof.
  induction n as [|n IH]; intros b p l h Hp; [by apply scanned_nil |]. cbn [scan_buses].
  rewrite (seqZ_cons b) by lia. replace (Z.pred (Z.of_nat (S n))) with (Z.of_nat n) by lia. rewrite fmap_cons. cbn [concat].
  pose proof (scan_bus_ok 32 b 0 p l h Hp) as H1. destruct (scan_bus 32 b 0 p h) as [[stop p1] h1].
  apply (scanned_bind _ _ _ _ _ _ _ _ H1). intros Ec Hp1. pose proof (IH (b + 1) _ _ h1 Hp1) as H. rewrite Ec in H. exact H.
Qed.

Lemma pci_scan_ok p h : length (pci_devices p) = 256%nat ->
  exists p' h', pci_scan_devices p h = (pci_device_count p', p', h') /\ config h' = config h /\
    holds p' (take 256 (all_functions (config h))).
Proof.
  intros Hl. unfold pci_scan_devices.
  assert (holds (Pci (pci_devices p) 0) []) as Hp by done.
  pose proof (scan_buses_ok 256 0 _ [] h Hp) as H. change (seqZ 0 (Z.of_nat 256)) with (seqZ 0 256) in H. fold (all_functions (config h)) in H.
  destruct (scan_buses 256 0 _ h) as [[stop p'] h']. exists p', h'. destruct H as (Hc & Hh & _). done.
Qed.

(** C29. The scan of the bus finds the functions of the bus: starting from any
    table, [pci_scan_devices] fills it with what the configuration space says of
    every function that exists, in the order of their addresses and with the
    functions of a device that does not say it has several left out, the first 256
    of them, and changes nothing on the bus. *)
Theorem pci_scan_devices_spec p h :
  length (pci_devices p) = 256%nat ->
  let found := take 256 (all_functions (config h)) in
  exists p' h', pci_scan_devices p h = (Z.of_nat (length found), p', h') /\ config h' = config h /\
    pci_get_device_count p' = Z.of_nat (length found) /\ take (length found) (pci_devices p') = found /\
    (forall i, pci_get_device i p' = if in_range i 0 (Z.of_nat (length found)) then Some i else None).
Proof.
  intros Hl found. destruct (pci_scan_ok p h Hl) as (p' & h' & E & Ec & Hc & _ & Ht). fold found in Hc, Ht. rewrite Hc in E.
  exists p', h'. split_and!; try done. intros i. unfold pci_get_device. rewrite Hc.
  destruct (in_range_spec i 0 (Z.of_nat (length found))) as [Hi|Hi].
  - by rewrite (proj2 (Z.ltb_ge _ _)), Z.geb_leb, (proj2 (Z.leb_gt _ _)) by lia.
  - rewrite Z.geb_leb. destruct (Z.ltb_spec i 0); [done |]. by rewrite (proj2 (Z.leb_le _ _)) by lia.
Qed.

Lemma pci_find_loop_ok n vendor dev_id p l : forall i, holds p l -> (Z.to_nat i + n)%nat = length l -> 0 <= i ->
  match find_loop n i vendor dev_id p with
  | Some k => exists x, i <= k < Z.of_nat (length l) /\ l !! Z.to_nat k = Some x /\ vendor_id x = vendor /\ device_id x = dev_id
  | None => forall k x, i <= k -> l !! Z.to_nat k = Some x -> ~ (vendor_id x = vendor /\ device_id x = dev_id)
  end.
Proof.
  induction n as [|n IH]; intros i Hp Hn Hi; cbn [find_loop].
  - intros k x Hk Hx. apply lookup_lt_Some in Hx. lia.
  - pose proof Hp as (_ & _ & Ht). destruct (lookup_lt_is_Some_2 l (Z.to_nat i) ltac:(lia)) as [x Ex].
    assert (pci_devices p !! Z.to_nat i = Some x) as ->.
    { rewrite <- Ht in Ex. apply lookup_take_Some in Ex. tauto. }
    destruct ((vendor_id x =? vendor) && (device_id x =? dev_id)) eqn:Eb.
    + zbool. exists x. split_and!; try done; lia.
    + specialize (IH (i + 1) Hp ltac:(lia) ltac:(lia)). destruct (find_loop n (i + 1) vendor dev_id p) as [k|].
      * destruct IH as (y & Hk & H). exists y. split; [lia | done].
      * intros k y Hk Hy. destruct (Z.eq_dec k i) as [->|]; [| apply (IH k y); [lia | done]].
        rewrite Ex in Hy. injection Hy as <-. intros [Hv Hd]. rewrite Hv, Hd, !Z.eqb_refl in Eb. done.
Qed.

(** The search returns a device with the identifiers exactly when there is one. *)
Lemma pci_find_device_ok p l vendor dev_id : holds p l ->
  match pci_find_device vendor dev_id p with
  | Some k => exists x, 0 <= k < Z.of_nat (length l) /\ l !! Z.to_nat k = Some x /\ vendor_id x = vendor /\ device_id x = dev_id
  | None => forall x, x ∈ l -> ~ (vendor_id x = vendor /\ device_id x = dev_id)
  end.
Proof.
  intros Hp. unfold pci_find_device. pose proof Hp as (Hc & _). rewrite Hc, Nat2Z.id.
  pose proof (pci_find_loop_ok (length l) vendor dev_id p l 0 Hp ltac:(lia) ltac:(lia)) as H.
  destruct (find_loop _ _ _ _ _); [done |]. intros x Hx. apply list_elem_of_lookup in Hx as [i Hi].
  apply (H (Z.of_nat i)); [lia | by rewrite Nat2Z.id].
Qed.

(** A write of 16 bits addresses one double word and puts the value in its half. *)
Lemma write16_ok b d f offset value h :
  offset mod 4 = 0 -> 0 <= value < 0x10000 ->
  exists h' v, pci_config_write16 b d f offset value h = outl PCI_CONFIG_DATA v h' /\ config h' = config h /\
    addressed h' = config_address b d f offset /\
    v mod 0x10000 = value /\ v / 0x10000 = config h (config_address b d f offset) / 0x10000.
Proof.
  intros Ho Hv. unfold pci_config_write16. set (a := config_address b d f offset).
  destruct (pci_select a h) as [Ec Ea]. destruct (pci_data_in (outl PCI_CONFIG_ADDRESS a h)) as (E & Ec' & Ea').
  rewrite (surjective_pairing (inl _ _)), E, Ea, Ec. set (h' := (inl _ _).2) in *. set (x := config h a).
  pose proof (pci_config_range h a) as Hx. fold x in Hx.
  assert (Z.land offset 2 = 0) as ->.
  { assert (Z.land offset 3 = offset mod 4) as E4 by (change 3 with (Z.ones 2); by rewrite Z.land_ones).
    transitivity (Z.land (Z.land offset 3) 2); [by rewrite <- Z.land_assoc |]. by rewrite E4, Ho. }
  change (Z.shiftl 0xFFFF (0 * 8)) with 0xFFFF. change (0 * 8) with 0. rewrite Z.shiftl_0_r.
  change (u32 (Z.lnot 0xFFFF)) with (Z.shiftl 0xFFFF 16).
  assert (Z.land x (Z.shiftl 0xFFFF 16) = Z.shiftl (Z.shiftr x 16) 16) as ->.
  { apply Z.bits_inj'. intros k Hk. rewrite Z.land_spec. destruct (Z.ltb_spec k 16).
    - rewrite !Z.shiftl_spec_low, andb_false_r by lia. done.
    - rewrite !Z.shiftl_spec, Z.shiftr_spec by lia. replace (k - 16 + 16) with k by lia.
      change 0xFFFF with (Z.ones 16). destruct (Z.ltb_spec k 32).
      + rewrite Z.ones_spec_low, andb_true_r by lia. done.
      + rewrite Z.ones_spec_high, andb_false_r by lia. symmetry. destruct (Z.eq_dec x 0) as [->|]; [apply Z.testbit_0_l |].
        apply Z.bits_above_log2; [lia |]. apply Z.log2_lt_pow2; [lia |]. apply Z.lt_le_trans with (2 ^ 32); [lia | apply Z.pow_le_mono_r; lia]. }
  exists h', (u32 (Z.lor (Z.shiftl (Z.shiftr x 16) 16) value)). split_and!; [done | by rewrite Ec', Ec | by rewrite Ea', Ea | |].
  all: assert (Z.lor (Z.shiftl (Z.shiftr x 16) 16) value = x / 0x10000 * 0x10000 + value) as ->
    by (rewrite lor_add by (change (2 ^ 16) with 0x10000; lia); rewrite Z.shiftr_div_pow2 by lia; done).
  all: rewrite u32_small by zlia; zlia.
Qed.

End laws.

(** ** A bus with a bridge of two functions and a network card *)

Definition demo_config (a : Z) : Z :=
  if a =? config_address 0 0 0 0 then 0x12378086
  else if a =? config_address 0 0 0 0x0C then 0x00800000
  else if a =? config_address 0 0 3 0 then 0x71138086
  else if a =? config_address 0 3 0 0 then 0x100E8086
  else if a =? config_address 0 3 0 0x10 then 0xFEBC0000
  else if a =? config_address 0 3 1 0 then 0x100E8086
  else if Z.land a 0xFC =? 0 then 0xFFFFFFFF else 0.
Definition demo_bus : pci_bus := PciBus demo_config 0.
Definition no_device : pci_device := PciDevice 0 0 0 0 0 0 0 0 0 [0; 0; 0; 0; 0; 0] 0 0.
Definition empty_table : pci := Pci (replicate 256 no_device) 0.

Definition demo_found : list pci_device := take 256 (all_functions (config demo_bus)).
Example demo_found_length : length demo_found = 3%nat.
Proof. vm_compute. reflexivity. Qed.
Example demo_found_ids : (fun x => (device x, function x, device_id x)) <$> demo_found = [(0, 0, 0x1237); (0, 3, 0x7113); (3, 0, 0x100E)].
Proof. vm_compute. reflexivity. Qed.

Lemma pci_scan_devices_spec_witness :
  exists p h, pci_scan_devices empty_table demo_bus = (3, p, h) /\
    (fun x => (device x, function x, device_id x)) <$> take 3 (pci_devices p) = [(0, 0, 0x1237); (0, 3, 0x7113); (3, 0, 0x100E)].
Proof.
  destruct (pci_scan_devices_spec empty_table demo_bus (length_replicate 256 _)) as (p & h & E & _ & _ & Ht & _).
  fold demo_found in E, Ht. rewrite demo_found_length in E, Ht. exists p, h. rewrite Ht. split; [exact E | exact demo_found_ids].
Defined.
