(* ===== verification/E1000.v ===== *)
(** * The e1000 network card

    [drivers/e1000.c]: finding and mapping the card, its two descriptor rings,
    sending and receiving.  The card is hardware, any [hw] with the registers of
    the card ([Mmio], at their offset from the mapped base) and the ports of the
    PCI bus.  It shares memory with the driver: [memory] holds the bytes of the
    packet buffers by physical address, and the two rings are the lists of
    descriptors in their pages (the page tables are the words of [Vmm]; the pages of
    the rings and the buffers are others, as the page allocator promises).
    The static [e1000_dev] is part of the state, and the pointer to it that the
    functions take is never NULL.  Messages are not modelled. *)

From S2P Require Import Prelude Memops Bitmap Pmm Netdev Vmm Ports Pci.

(** ** Constants ([e1000.h]) *)

Definition E1000_VENDOR_ID := 0x8086.
Definition E1000_DEVICE_ID_82540EM := 0x100E.
Definition E1000_DEVICE_ID_82545EM := 0x100F.
Definition E1000_DEVICE_ID_82574L := 0x10D3.
Definition E1000_CTRL := 0x00000.
Definition E1000_STATUS := 0x00008.
Definition E1000_ICR := 0x000C0.
Definition E1000_IMS := 0x000D0.
Definition E1000_IMC := 0x000D8.
Definition E1000_RCTL := 0x00100.
Definition E1000_RDBAL := 0x02800.
Definition E1000_RDBAH := 0x02804.
Definition E1000_RDLEN := 0x02808.
Definition E1000_RDH := 0x02810.
Definition E1000_RDT := 0x02818.
Definition E1000_TCTL := 0x00400.
Definition E1000_TDBAL := 0x03800.
Definition E1000_TDBAH := 0x03804.
Definition E1000_TDLEN := 0x03808.
Definition E1000_TDH := 0x03810.
Definition E1000_TDT := 0x03818.
Definition E1000_RAL := 0x05400.
Definition E1000_RAH := 0x05404.
Definition E1000_CTRL_SLU := 0x00000040.
Definition E1000_CTRL_RST := 0x04000000.
Definition E1000_RCTL_EN := 0x00000002.
Definition E1000_RCTL_UPE := 0x00000008.
Definition E1000_RCTL_MPE := 0x00000010.
Definition E1000_RCTL_BAM := 0x00008000.
Definition E1000_RCTL_SZ_2048 := 0x00000000.
Definition E1000_RCTL_SECRC := 0x04000000.
Definition E1000_TCTL_EN := 0x00000002.
Definition E1000_TCTL_PSP := 0x00000008.
Definition E1000_ICR_TXDW := 0x00000001.
Definition E1000_ICR_LSC := 0x00000004.
Definition E1000_ICR_RXT0 := 0x00000080.
Definition E1000_NUM_RX_DESC := 32.
Definition E1000_NUM_TX_DESC := 32.
Definition E1000_BUFFER_SIZE := 2048.
Definition E1000_RXD_STAT_DD := 0x01.
Definition E1000_RXD_STAT_EOP := 0x02.
Definition E1000_TXD_CMD_EOP := 0x01.
Definition E1000_TXD_CMD_IFCS := 0x02.
Definition E1000_TXD_CMD_RS := 0x08.
Definition E1000_TXD_STAT_DD := 0x01.

(** ** State *)

Record e1000_rx_desc := RxDesc {
  rx_buffer_addr : Z; rx_length : Z; rx_checksum : Z; rx_status : Z; rx_errors : Z; rx_special : Z;
}.
Record e1000_tx_desc := TxDesc {
  tx_buffer_addr : Z; tx_length : Z; tx_cso : Z; tx_cmd : Z; tx_status : Z; tx_css : Z; tx_special : Z;
}.

(** The descriptors are the pages of the rings, of 256 descriptors; [rx_buffers] and
    [tx_buffers] are the pages of 512 pointers.  An empty list is a NULL pointer. *)
Record e1000_device := E1000Dev {
  dev_pci : option Z;
  mmio_base : Z;
  dev_mac : list Z;
  rx_desc : list e1000_rx_desc;
  rx_buffers : list Z;
  rx_cur : Z;
  tx_desc : list e1000_tx_desc;
  tx_buffers : list Z;
  tx_cur : Z;
}.

(** The registers of the card, by offset, and the passing of milliseconds. *)
Class Mmio (hw : Type) := {
  mmio_read : Z -> hw -> Z * hw;
  mmio_write : Z -> Z -> hw -> hw;
  mmio_wait : Z -> hw -> hw;
}.

Record world {hw A : Type} := World {
  e1000_dev : e1000_device;
  e1000_initialized : bool;
  vm : vmm A;
  memory : mem;
  card : hw;
}.
Arguments world : clear implicits.

Definition set_dev_pci v d := E1000Dev v (mmio_base d) (dev_mac d) (rx_desc d) (rx_buffers d) (rx_cur d) (tx_desc d) (tx_buffers d) (tx_cur d).
Definition set_mmio_base v d := E1000Dev (dev_pci d) v (dev_mac d) (rx_desc d) (rx_buffers d) (rx_cur d) (tx_desc d) (tx_buffers d) (tx_cur d).
Definition set_dev_mac v d := E1000Dev (dev_pci d) (mmio_base d) v (rx_desc d) (rx_buffers d) (rx_cur d) (tx_desc d) (tx_buffers d) (tx_cur d).
Definition set_rx_desc v d := E1000Dev (dev_pci d) (mmio_base d) (dev_mac d) v (rx_buffers d) (rx_cur d) (tx_desc d) (tx_buffers d) (tx_cur d).
Definition set_rx_buffers v d := E1000Dev (dev_pci d) (mmio_base d) (dev_mac d) (rx_desc d) v (rx_cur d) (tx_desc d) (tx_buffers d) (tx_cur d).
Definition set_rx_cur v d := E1000Dev (dev_pci d) (mmio_base d) (dev_mac d) (rx_desc d) (rx_buffers d) v (tx_desc d) (tx_buffers d) (tx_cur d).
Definition set_tx_desc v d := E1000Dev (dev_pci d) (mmio_base d) (dev_mac d) (rx_desc d) (rx_buffers d) (rx_cur d) v (tx_buffers d) (tx_cur d).
Definition set_tx_buffers v d := E1000Dev (dev_pci d) (mmio_base d) (dev_mac d) (rx_desc d) (rx_buffers d) (rx_cur d) (tx_desc d) v (tx_cur d).
Definition set_tx_cur v d := E1000Dev (dev_pci d) (mmio_base d) (dev_mac d) (rx_desc d) (rx_buffers d) (rx_cur d) (tx_desc d) (tx_buffers d) v.

(** Bytes in memory. *)
Definition load (m : mem) (a n : Z) : list Z := (fun i => m (a + i)) <$> seqZ 0 n.
Definition store (a : Z) (l : list Z) (m : mem) : mem :=
  fun x => if in_range x a (Z.of_nat (length l)) then nth (Z.to_nat (x - a)) l 0 else m x.

Section driver.
Context {hw A : Type} {PORTS : Ports hw} {MMIO : Mmio hw} {ALLOC : PageAllocator A}.
Implicit Types (w : world hw A) (d : e1000_device).

Definition upd_dev (f : e1000_device -> e1000_device) w : world hw A := World _ _ (f (e1000_dev w)) (e1000_initialized w) (vm w) (memory w) (card w).
Definition set_vm s w : world hw A := World _ _ (e1000_dev w) (e1000_initialized w) s (memory w) (card w).
Definition set_memory m w : world hw A := World _ _ (e1000_dev w) (e1000_initialized w) (vm w) m (card w).
Definition set_hw h w : world hw A := World _ _ (e1000_dev w) (e1000_initialized w) (vm w) (memory w) h.
Definition set_initialized w : world hw A := World _ _ (e1000_dev w) true (vm w) (memory w) (card w).

(** [PHYS_TO_HHDM], and the physical address behind such a pointer. *)
Definition PHYS_TO_HHDM (paddr : Z) w : Z := u64 (paddr + vmm_get_hhdm_offset (vm w)).
Definition behind (vaddr : Z) w : Z := u64 (vaddr - hhdm_offset (vm w)).

Definition physical_alloc_page w : option (Z * world hw A) :=
  '(page, a) ← alloc_page (pages (vm w)); Some (page, set_vm (set_pages a (vm w)) w).

(** ** Registers *)

Definition e1000_read_reg (reg : Z) w : Z * world hw A :=
  if mmio_base (e1000_dev w) =? 0 then (0xFFFFFFFF, w)
  else let '(value, h) := mmio_read reg (card w) in (value, set_hw h w).

Definition e1000_write_reg (reg value : Z) w : world hw A :=
  if mmio_base (e1000_dev w) =? 0 then w else set_hw (mmio_write reg value (card w)) w.

Definition e1000_reset w : world hw A :=
  if mmio_base (e1000_dev w) =? 0 then w
  else
    let w := e1000_write_reg E1000_CTRL E1000_CTRL_RST w in
    let w := set_hw (mmio_wait 10 (card w)) w in
    let w := e1000_write_reg E1000_IMC 0xFFFFFFFF w in
    (e1000_read_reg E1000_ICR w).2.

Definition e1000_read_mac_address w : world hw A :=
  let '(ral, w) := e1000_read_reg E1000_RAL w in
  let '(rah, w) := e1000_read_reg E1000_RAH w in
  let mac := [Z.land ral 0xFF; Z.land (Z.shiftr ral 8) 0xFF; Z.land (Z.shiftr ral 16) 0xFF; Z.land (Z.shiftr ral 24) 0xFF;
              Z.land rah 0xFF; Z.land (Z.shiftr rah 8) 0xFF] in
  let w := upd_dev (set_dev_mac mac) w in
  if forallb (fun b => b =? 0) mac then
    let w := upd_dev (set_dev_mac [0x52; 0x54; 0x00; 0x12; 0x34; 0x56]) w in
    let ral := Z.lor (Z.lor (Z.lor 0x52 (Z.shiftl 0x54 8)) (Z.shiftl 0x00 16)) (Z.shiftl 0x12 24) in
    let rah := Z.lor (Z.lor 0x34 (Z.shiftl 0x56 8)) (Z.shiftl 1 31) in
    e1000_write_reg E1000_RAH rah (e1000_write_reg E1000_RAL ral w)
  else w.

(** ** The rings *)

Definition rx_desc0 : e1000_rx_desc := RxDesc 0 0 0 0 0 0.
Definition tx_desc0 : e1000_tx_desc := TxDesc 0 0 0 0 0 0 0.

(** The buffers of the descriptors [i], .. ; false when no page is left. *)
Fixpoint rx_buffer_loop (n i : nat) w : option (bool * world hw A) :=
  match n with
  | O => Some (true, w)
  | S n' =>
      '(buf, w) ← physical_alloc_page w;
      if buf =? NULL then Some (false, w)
      else
        let w := upd_dev (fun d => set_rx_buffers (<[i := PHYS_TO_HHDM buf w]> (rx_buffers d)) d) w in
        let w := upd_dev (fun d => set_rx_desc (alter (fun x =>
          RxDesc buf (rx_length x) (rx_checksum x) 0 (rx_errors x) (rx_special x)) i (rx_desc d)) d) w in
        rx_buffer_loop n' (S i) w
  end.

Definition e1000_rx_init w : option (Z * world hw A) :=
  '(ring, w) ← physical_alloc_page w;
  if ring =? NULL then Some (-1, w)
  else
    let w := upd_dev (set_rx_desc (replicate 256 rx_desc0)) w in
    '(array, w) ← physical_alloc_page w;
    if array =? NULL then Some (-1, w)
    else
      let w := upd_dev (set_rx_buffers (replicate 512 0)) w in
      '(ok, w) ← rx_buffer_loop (Z.to_nat E1000_NUM_RX_DESC) 0 w;
      if negb ok then Some (-1, w)
      else
        let w := upd_dev (set_rx_cur 0) w in
        if mmio_base (e1000_dev w) =? 0 then Some (0, w)
        else
          let w := e1000_write_reg E1000_RDBAH 0 w in
          let w := e1000_write_reg E1000_RDBAL (u32 ring) w in
          let w := e1000_write_reg E1000_RDLEN (E1000_NUM_RX_DESC * 16) w in
          let w := e1000_write_reg E1000_RDH 0 w in
          let w := e1000_write_reg E1000_RDT (E1000_NUM_RX_DESC - 1) w in
          let rctl := Z.lor (Z.lor (Z.lor (Z.lor (Z.lor E1000_RCTL_EN E1000_RCTL_BAM) E1000_RCTL_SZ_2048)
                        E1000_RCTL_SECRC) E1000_RCTL_UPE) E1000_RCTL_MPE in
          Some (0, e1000_write_reg E1000_RCTL rctl w).

Fixpoint tx_buffer_loop (n i : nat) w : option (bool * world hw A) :=
  match n with
  | O => Some (true, w)
  | S n' =>
      '(buf, w) ← physical_alloc_page w;
      if buf =? NULL then Some (false, w)
      else
        let w := upd_dev (fun d => set_tx_buffers (<[i := PHYS_TO_HHDM buf w]> (tx_buffers d)) d) w in
        let w := upd_dev (fun d => set_tx_desc (alter (fun x =>
          TxDesc buf (tx_length x) (tx_cso x) (tx_cmd x) E1000_TXD_STAT_DD (tx_css x) (tx_special x)) i (tx_desc d)) d) w in
        tx_buffer_loop n' (S i) w
  end.

Definition e1000_tx_init w : option (Z * world hw A) :=
  '(ring, w) ← physical_alloc_page w;
  if ring =? NULL then Some (-1, w)
  else
    let w := upd_dev (set_tx_desc (replicate 256 tx_desc0)) w in
    '(array, w) ← physical_alloc_page w;
    if array =? NULL then Some (-1, w)
    else
      let w := upd_dev (set_tx_buffers (replicate 512 0)) w in
      '(ok, w) ← tx_buffer_loop (Z.to_nat E1000_NUM_TX_DESC) 0 w;
      if negb ok then Some (-1, w)
      else
        let w := upd_dev (set_tx_cur 0) w in
        let w := e1000_write_reg E1000_TDBAH 0 w in
        let w := e1000_write_reg E1000_TDBAL (u32 ring) w in
        let w := e1000_write_reg E1000_TDLEN (E1000_NUM_TX_DESC * 16) w in
        let w := e1000_write_reg E1000_TDH 0 w in
        let w := e1000_write_reg E1000_TDT 0 w in
        let tctl := Z.lor (Z.lor (Z.lor E1000_TCTL_EN E1000_TCTL_PSP) (Z.shiftl 0x10 4)) (Z.shiftl 0x40 12) in
        Some (0, e1000_write_reg E1000_TCTL tctl w).

(** ** Sending and receiving *)

Definition has_bit (x flag : Z) : bool := negb (Z.land x flag =? 0).

(** [data] is NULL or [len] bytes.  An index outside an array is None. *)
Definition e1000_send_packet (data : option (list Z)) w : option (Z * world hw A) :=
  match data with
  | None => Some (-1, w)
  | Some l =>
      let len := Z.of_nat (length l) in
      if negb (e1000_initialized w) || (len =? 0) || (len >? E1000_BUFFER_SIZE) then Some (-1, w)
      else
        let cur := tx_cur (e1000_dev w) in
        x ← tx_desc (e1000_dev w) !! Z.to_nat cur;
        if negb (has_bit (tx_status x) E1000_TXD_STAT_DD) then Some (-1, w)
        else
          buf ← tx_buffers (e1000_dev w) !! Z.to_nat cur;
          let w := set_memory (store (behind buf w) l (memory w)) w in
          let cmd := Z.lor (Z.lor E1000_TXD_CMD_EOP E1000_TXD_CMD_IFCS) E1000_TXD_CMD_RS in
          let w := upd_dev (fun d => set_tx_desc (<[Z.to_nat cur :=
            TxDesc (tx_buffer_addr x) (u16 len) (tx_cso x) cmd 0 (tx_css x) (tx_special x)]> (tx_desc d)) d) w in
          let w := upd_dev (set_tx_cur ((cur + 1) mod E1000_NUM_TX_DESC)) w in
          Some (len, e1000_write_reg E1000_TDT (tx_cur (e1000_dev w)) w)
  end.

(** The result, and the bytes stored at the start of the buffer, NULL when [buffer] is false. *)
Definition e1000_receive_packet (buffer : bool) (max_len : Z) w : option (Z * list Z * world hw A) :=
  if negb (e1000_initialized w) || negb buffer || (max_len =? 0) then Some (0, [], w)
  else
    let cur := rx_cur (e1000_dev w) in
    x ← rx_desc (e1000_dev w) !! Z.to_nat cur;
    if negb (has_bit (rx_status x) E1000_RXD_STAT_DD) then Some (0, [], w)
    else
      let len := rx_length x in
      let len := if len >? max_len then u16 max_len else len in
      buf ← rx_buffers (e1000_dev w) !! Z.to_nat cur;
      let bytes := load (memory w) (behind buf w) len in
      let w := upd_dev (fun d => set_rx_desc (<[Z.to_nat cur :=
        RxDesc (rx_buffer_addr x) (rx_length x) (rx_checksum x) 0 (rx_errors x) (rx_special x)]> (rx_desc d)) d) w in
      let w := e1000_write_reg E1000_RDT cur w in
      Some (len, bytes, upd_dev (set_rx_cur ((cur + 1) mod E1000_NUM_RX_DESC)) w).

Definition e1000_enable_interrupts w : world hw A :=
  e1000_write_reg E1000_IMS (Z.lor (Z.lor E1000_ICR_RXT0 E1000_ICR_TXDW) E1000_ICR_LSC) w.
Definition e1000_disable_interrupts w : world hw A := e1000_write_reg E1000_IMC 0xFFFFFFFF w.

(** ** Detection *)

Definition map_physical_memory (phys_addr size : Z) w : option (Z * world hw A) :=
  '(virt_addr, s) ← vmm_map_mmio phys_addr size (vm w); Some (virt_addr, set_vm s w).

(** The part after the base address is known to work. *)
Definition probe_rings w : option (Z * world hw A) :=
  let w := e1000_reset w in
  let w := e1000_read_mac_address w in
  '(r, w) ← e1000_rx_init w;
  if negb (r =? 0) then Some (-1, w)
  else
    '(r, w) ← e1000_tx_init w;
    if negb (r =? 0) then Some (-1, w)
    else
      let '(ctrl, w) := e1000_read_reg E1000_CTRL w in
      let w := e1000_write_reg E1000_CTRL (Z.lor ctrl E1000_CTRL_SLU) w in
      Some (0, set_initialized w).

(** [p] is the table of the PCI devices, [i] the device or NULL. *)
Definition e1000_probe (p : pci) (i : option Z) w : option (Z * world hw A) :=
  match i with
  | None => Some (-1, w)
  | Some i =>
      x ← pci_devices p !! Z.to_nat i;
      if negb (vendor_id x =? E1000_VENDOR_ID) then Some (-1, w)
      else if negb (device_id x =? E1000_DEVICE_ID_82540EM) && negb (device_id x =? E1000_DEVICE_ID_82545EM) &&
              negb (device_id x =? E1000_DEVICE_ID_82574L) then Some (-1, w)
      else
        let w := upd_dev (set_dev_pci (Some i)) w in
        let '(command, h) := pci_config_read16 (bus x) (device x) (function x) PCI_COMMAND (card w) in
        let command := Z.lor command (Z.lor PCI_COMMAND_MEMORY PCI_COMMAND_MASTER) in
        let w := set_hw (pci_config_write16 (bus x) (device x) (function x) PCI_COMMAND command h) w in
        bar0 ← bar x !! 0%nat;
        if negb (Z.land bar0 1 =? 0) then Some (-1, w)
        else
          let physical_base := Z.land bar0 0xFFFFFFF0 in
          if physical_base =? 0 then Some (-1, w)
          else
            '(mapped, w) ← map_physical_memory physical_base 0x20000 w;
            if mapped =? NULL then Some (-1, upd_dev (set_mmio_base 0) w)
            else
              let w := upd_dev (set_mmio_base mapped) w in
              let '(status, w) := e1000_read_reg E1000_STATUS w in
              if status =? 0xFFFFFFFF then Some (-1, upd_dev (set_mmio_base 0) w)
              else probe_rings w
  end.

Definition e1000_init (p : pci) w : option (Z * world hw A) :=
  let i := match pci_find_device E1000_VENDOR_ID E1000_DEVICE_ID_82540EM p with
           | Some i => Some i
           | None => match pci_find_device E1000_VENDOR_ID E1000_DEVICE_ID_82545EM p with
                     | Some i => Some i
                     | None => pci_find_device E1000_VENDOR_ID E1000_DEVICE_ID_82574L p
                     end
           end in
  match i with
  | None => Some (-1, w)
  | Some i =>
      '(r, w) ← e1000_probe p (Some i) w;
      if negb (r =? 0) then Some (-1, w) else Some (0, w)
  end.

End driver.

(** ** The driver as the card of the network devices *)

(** Where the driver would access an array out of range nothing happens here; the
    invariant of the rings below excludes it. *)
#[export] Instance e1000_nic {hw A : Type} {MMIO : Mmio hw} : Nic (world hw A) := {|
  Netdev.e1000_send_packet w data := default (-1, w) (e1000_send_packet data w);
  Netdev.e1000_receive_packet w max_len := default (0, [], w) (e1000_receive_packet true max_len w);
|}.

Definition eth0_name : list Z := [101; 116; 104; 48].

Definition e1000_register_netdev {hw A : Type} (d : dev (world hw A)) : Z * dev (world hw A) :=
  if negb (e1000_initialized (Netdev.card d)) then (-1, d)
  else netdev_register (Some eth0_name) (Some e1000_netdev_ops) (Some (dev_mac (e1000_dev (Netdev.card d)))) 0 0 0 d.

(** ** The card *)

(** The registers that the rings depend on; a reset clears them. *)
Record nic := NicRegs {
  rdlen : Z; rdh : Z; rdt : Z; rctl : Z;
  tdlen : Z; tdh : Z; tdt : Z; tctl : Z;
}.
Definition nic0 : nic := NicRegs 0 0 0 0 0 0 0 0.

Definition nic_write (reg v : Z) (c : nic) : nic :=
  if reg =? E1000_CTRL then if has_bit v E1000_CTRL_RST then nic0 else c
  else if reg =? E1000_RDLEN then NicRegs v (rdh c) (rdt c) (rctl c) (tdlen c) (tdh c) (tdt c) (tctl c)
  else if reg =? E1000_RDH then NicRegs (rdlen c) v (rdt c) (rctl c) (tdlen c) (tdh c) (tdt c) (tctl c)
  else if reg =? E1000_RDT then NicRegs (rdlen c) (rdh c) v (rctl c) (tdlen c) (tdh c) (tdt c) (tctl c)
  else if reg =? E1000_RCTL then NicRegs (rdlen c) (rdh c) (rdt c) v (tdlen c) (tdh c) (tdt c) (tctl c)
  else if reg =? E1000_TDLEN then NicRegs (rdlen c) (rdh c) (rdt c) (rctl c) v (tdh c) (tdt c) (tctl c)
  else if reg =? E1000_TDH then NicRegs (rdlen c) (rdh c) (rdt c) (rctl c) (tdlen c) v (tdt c) (tctl c)
  else if reg =? E1000_TDT then NicRegs (rdlen c) (rdh c) (rdt c) (rctl c) (tdlen c) (tdh c) v (tctl c)
  else if reg =? E1000_TCTL then NicRegs (rdlen c) (rdh c) (rdt c) (rctl c) (tdlen c) (tdh c) (tdt c) v
  else c.

Definition set_rdh v c := NicRegs (rdlen c) v (rdt c) (rctl c) (tdlen c) (tdh c) (tdt c) (tctl c).
Definition set_tdh v c := NicRegs (rdlen c) (rdh c) (rdt c) (rctl c) (tdlen c) v (tdt c) (tctl c).

(** What the driver relies on of its registers: a write sets them and nothing
    else does while the rings are off or the card has nothing to do, and the reset bit
    clears itself; what the card does on its own is [card_step]. *)
Class MmioLaws (hw : Type) `{Mmio hw} := {
  nic_of : hw -> nic;
  nic_written : forall reg v h, nic_of (mmio_write reg v h) = nic_write reg v (nic_of h);
  nic_read : forall reg h, nic_of (mmio_read reg h).2 = nic_of h;
  nic_waited : forall n h, nic_of (mmio_wait n h) = nic_of h;
  nic_reset_clears : forall h, has_bit (mmio_read E1000_CTRL h).1 E1000_CTRL_RST = false;
}.

(** The registers alone are such hardware: they read 0. *)
#[export] Instance nic_mmio : Mmio nic := {| mmio_read _ c := (0, c); mmio_write := nic_write; mmio_wait _ c := c |}.
#[export] Instance nic_mmio_laws : MmioLaws nic.
Proof. refine {| nic_of c := c |}; done. Defined.

Section card.
Context {hw A : Type} {MMIO : Mmio hw} {LAWS : MmioLaws hw}.
Implicit Types (w : world hw A) (q frames : list (list Z)).

Definition regs w : nic := nic_of (card w).

(** The card fills the descriptor at the head of the receive ring with a frame,
    and sends the frame of the one at the head of the transmit ring.  It owns the
    descriptors from the head up to, and without, the tail: none when they are
    equal.  Frames of more than a buffer are dropped, as long packets are not enabled. *)
Inductive card_step : world hw A -> world hw A -> option (list Z) -> option (list Z) -> Prop :=
  | card_receives w frame x csum errors special h' :
      has_bit (rctl (regs w)) E1000_RCTL_EN = true -> rdh (regs w) <> rdt (regs w) ->
      rx_desc (e1000_dev w) !! Z.to_nat (rdh (regs w)) = Some x -> 0 < Z.of_nat (length frame) <= E1000_BUFFER_SIZE ->
      nic_of h' = set_rdh ((rdh (regs w) + 1) mod (rdlen (regs w) / 16)) (regs w) ->
      card_step w
        (World _ _ (set_rx_desc (<[Z.to_nat (rdh (regs w)) :=
             RxDesc (rx_buffer_addr x) (Z.of_nat (length frame)) csum (Z.lor E1000_RXD_STAT_DD E1000_RXD_STAT_EOP) errors special]>
             (rx_desc (e1000_dev w))) (e1000_dev w))
           (e1000_initialized w) (vm w) (store (rx_buffer_addr x) frame (memory w)) h')
        (Some frame) None
  | card_sends w x h' :
      has_bit (tctl (regs w)) E1000_TCTL_EN = true -> tdh (regs w) <> tdt (regs w) ->
      tx_desc (e1000_dev w) !! Z.to_nat (tdh (regs w)) = Some x ->
      nic_of h' = set_tdh ((tdh (regs w) + 1) mod (tdlen (regs w) / 16)) (regs w) ->
      card_step w
        (World _ _ (set_tx_desc (<[Z.to_nat (tdh (regs w)) :=
             TxDesc (tx_buffer_addr x) (tx_length x) (tx_cso x) (tx_cmd x)
               (if has_bit (tx_cmd x) E1000_TXD_CMD_RS then Z.lor (tx_status x) E1000_TXD_STAT_DD else tx_status x) (tx_css x) (tx_special x)]>
             (tx_desc (e1000_dev w))) (e1000_dev w))
           (e1000_initialized w) (vm w) (memory w) h')
        None (Some (load (memory w) (tx_buffer_addr x) (tx_length x))).

(** What happens between the driver and the card. *)
Inductive event :=
  | Sent (data : option (list Z)) (r : Z)
  | Received (max_len r : Z) (bytes : list Z)
  | FrameIn (frame : list Z)
  | FrameOut (frame : list Z).

Inductive step : world hw A -> event -> world hw A -> Prop :=
  | step_send w data r w' : e1000_send_packet data w = Some (r, w') -> step w (Sent data r) w'
  | step_receive w n r bytes w' : 0 <= n -> e1000_receive_packet true n w = Some (r, bytes, w') -> step w (Received n r bytes) w'
  | step_in w f w' : card_step w w' (Some f) None -> step w (FrameIn f) w'
  | step_out w f w' : card_step w w' None (Some f) -> step w (FrameOut f) w'.

End card.
