(* ===== verification/E1000Rings.v ===== *)
(** * The rings of the e1000 card

    The invariant of the two descriptor rings that [E1000] shares with the card:
    together they are two queues of frames.  Setting the card up makes the empty
    rings; every step of the driver and of the card keeps them. *)

From S2P Require Import Prelude Memops Bitmap Pmm Netdev Vmm Ports Pci E1000.

Section card.
Context {hw A : Type} {MMIO : Mmio hw} {LAWS : MmioLaws hw}.
Implicit Types (w : world hw A) (q frames : list (list Z)).

(** ** Rings *)

(** Slot [k] of a ring of 32 that starts at [b]. *)
Definition slot (b : Z) (k : nat) : nat := Z.to_nat ((b + Z.of_nat k) mod 32).

Lemma slot_lt b k : (slot b k < 32)%nat.
Proof. unfold slot. zlia. Qed.
Lemma slot_inj b k j : (k < 32)%nat -> (j < 32)%nat -> slot b k = slot b j -> k = j.
Proof. unfold slot. intros Hk Hj H. apply (f_equal Z.of_nat) in H. rewrite !Z2Nat.id in H by zlia. zlia. Qed.
Lemma slot_next b k : slot ((b + 1) mod 32) k = slot b (S k).
Proof. unfold slot. f_equal. zlia. Qed.
Lemma slot_wrap b k : slot b (k + 32) = slot b k.
Proof. unfold slot. f_equal. zlia. Qed.
Lemma slot_add b n k : slot ((b + Z.of_nat n) mod 32) k = slot b (n + k).
Proof. unfold slot. f_equal. rewrite Zplus_mod_idemp_l. f_equal. lia. Qed.
Lemma slot_self b : 0 <= b < 32 -> slot b 0 = Z.to_nat b.
Proof. intros H. unfold slot. f_equal. zlia. Qed.

(** The first slots from [b] hold the frames [q], the others are empty. *)
Definition ring (P : nat -> list Z -> Prop) (E : nat -> Prop) (b : Z) q : Prop :=
  (length q <= 32)%nat /\ (forall k f, q !! k = Some f -> P (slot b k) f) /\
  (forall k, (length q <= k < 32)%nat -> E (slot b k)).

Lemma ring_push P E P' E' b q f : ring P E b q -> (length q < 32)%nat -> P' (slot b (length q)) f ->
  (forall i g, i <> slot b (length q) -> (i < 32)%nat -> (P i g -> P' i g) /\ (E i -> E' i)) -> ring P' E' b (q ++ [f]).
Proof.
  intros (Hl & HP & HE) Hq Hf Hother. split_and!.
  - rewrite length_app. cbn. lia.
  - intros k g Hk. apply lookup_app_Some in Hk as [Hk|[Hk Hg]].
    + apply lookup_lt_Some in Hk as Hk'. apply (Hother (slot b k) g); [| apply slot_lt | by apply HP].
      intros Es. apply slot_inj in Es; lia.
    + destruct (k - length q)%nat eqn:En; [| done]. injection Hg as <-. by replace k with (length q) by lia.
  - intros k Hk. rewrite length_app in Hk. cbn in Hk. apply (Hother (slot b k) []); [| apply slot_lt | apply HE; lia].
    intros Es. apply slot_inj in Es; lia.
Qed.

Lemma ring_pop P E P' E' b q f : ring P E b (f :: q) -> E' (slot b 0) ->
  (forall i g, i <> slot b 0 -> (i < 32)%nat -> (P i g -> P' i g) /\ (E i -> E' i)) -> ring P' E' ((b + 1) mod 32) q.
Proof.
  intros (Hl & HP & HE) Hf Hother. cbn in Hl. split_and!; [lia | |].
  - intros k g Hk. apply lookup_lt_Some in Hk as Hk'. rewrite slot_next. apply (Hother _ g); [| apply slot_lt | by apply HP].
    intros Es. apply slot_inj in Es; lia.
  - intros k Hk. rewrite slot_next. destruct (Nat.eq_dec k 31%nat) as [->|]; [change (E' (slot b (0 + 32))); by rewrite slot_wrap |].
    apply (Hother _ []); [| apply slot_lt | apply HE; cbn; lia]. intros Es. apply slot_inj in Es; lia.
Qed.

Lemma ring_mono P E (P' : nat -> list Z -> Prop) (E' : nat -> Prop) b q : ring P E b q ->
  (forall i g, (i < 32)%nat -> (P i g -> P' i g) /\ (E i -> E' i)) -> ring P' E' b q.
Proof.
  intros (Hl & HP & HE) H. split_and!; [done | |]; intros k; [intros g Hg; apply (H _ g) | intros Hk; apply (H _ [])];
    auto using slot_lt.
Qed.

(** ** The invariant *)

Lemma load_store a l m : load (store a l m) a (Z.of_nat (length l)) = l.
Proof.
  apply list_eq_same_length with (length l); [done | unfold load; rewrite length_fmap, length_seqZ; lia |].
  intros i x y Hi Hx Hy. unfold load in Hx. rewrite list_lookup_fmap, lookup_seqZ_lt in Hx by lia. cbn in Hx. injection Hx as <-.
  unfold store. destruct (in_range_spec (a + (0 + Z.of_nat i)) a (Z.of_nat (length l))); [| lia].
  replace (Z.to_nat (a + (0 + Z.of_nat i) - a)) with i by lia. by rewrite nth_lookup, Hy.
Qed.

(** Buffers are pages, at different addresses. *)
Lemma load_store_other a b l m n : a mod 4096 = 0 -> b mod 4096 = 0 -> a <> b ->
  Z.of_nat (length l) <= E1000_BUFFER_SIZE -> n <= E1000_BUFFER_SIZE -> load (store a l m) b n = load m b n.
Proof.
  unfold E1000_BUFFER_SIZE. intros Ha Hb Hne Hl Hn. unfold load. apply list_fmap_ext. intros i x Hx. apply lookup_seqZ in Hx as [-> Hi].
  unfold store. destruct (in_range_spec (b + (0 + Z.of_nat i)) a (Z.of_nat (length l))); [| done]. exfalso. zlia.
Qed.

Lemma length_load m a n : 0 <= n -> Z.of_nat (length (load m a n)) = n.
Proof. intros H. unfold load. rewrite length_fmap, length_seqZ. lia. Qed.

Lemma take_load m a n k : 0 <= k <= n -> load m a k = take (Z.to_nat k) (load m a n).
Proof.
  intros H. unfold load. rewrite <- fmap_take. f_equal. unfold seqZ. rewrite <- fmap_take. f_equal.
  rewrite take_seq. f_equal. lia.
Qed.

Lemma behind_hhdm b w : 0 <= b < 2 ^ 52 -> behind (u64 (b + hhdm_offset (vm w))) w = b.
Proof.
  change (2 ^ 52) with 0x10000000000000. intros H. unfold behind, u64. rewrite Zminus_mod_idemp_l.
  replace (b + hhdm_offset (vm w) - hhdm_offset (vm w)) with b by lia. apply Z.mod_small. lia.
Qed.

Section inv.
(** The pages of the buffers: of the receive ring, and from 32 on of the transmit ring. *)
Context (bufs : nat -> Z).

Definition distinct_pages : Prop :=
  (forall i, (i < 64)%nat -> bufs i mod 4096 = 0 /\ 0 <= bufs i < 2 ^ 52) /\
  (forall i j, (i < 64)%nat -> (j < 64)%nat -> bufs i = bufs j -> i = j).

Record laid_out w : Prop := {
  lo_initialized : e1000_initialized w = true;
  lo_mmio : mmio_base (e1000_dev w) <> 0;
  lo_rx : forall i, (i < 32)%nat -> exists x, rx_desc (e1000_dev w) !! i = Some x /\ rx_buffer_addr x = bufs i /\
    rx_buffers (e1000_dev w) !! i = Some (u64 (bufs i + hhdm_offset (vm w)));
  lo_tx : forall i, (i < 32)%nat -> exists x, tx_desc (e1000_dev w) !! i = Some x /\ tx_buffer_addr x = bufs (32 + i)%nat /\
    tx_buffers (e1000_dev w) !! i = Some (u64 (bufs (32 + i)%nat + hhdm_offset (vm w)));
  lo_lengths : rdlen (regs w) = 512 /\ tdlen (regs w) = 512;
  lo_enabled : has_bit (rctl (regs w)) E1000_RCTL_EN = true /\ has_bit (tctl (regs w)) E1000_TCTL_EN = true;
}.

Definition frame_ok (f : list Z) : Prop := 0 < Z.of_nat (length f) <= E1000_BUFFER_SIZE.

Definition rx_full w (i : nat) (f : list Z) : Prop :=
  frame_ok f /\ load (memory w) (bufs i) (Z.of_nat (length f)) = f /\
  exists x, rx_desc (e1000_dev w) !! i = Some x /\ has_bit (rx_status x) E1000_RXD_STAT_DD = true /\ rx_length x = Z.of_nat (length f).
Definition rx_free w (i : nat) : Prop :=
  exists x, rx_desc (e1000_dev w) !! i = Some x /\ has_bit (rx_status x) E1000_RXD_STAT_DD = false.
Definition tx_full w (i : nat) (f : list Z) : Prop :=
  frame_ok f /\ load (memory w) (bufs (32 + i)%nat) (Z.of_nat (length f)) = f /\
  exists x, tx_desc (e1000_dev w) !! i = Some x /\ has_bit (tx_status x) E1000_TXD_STAT_DD = false /\
    has_bit (tx_cmd x) E1000_TXD_CMD_RS = true /\ tx_length x = Z.of_nat (length f).
Definition tx_free w (i : nat) : Prop :=
  exists x, tx_desc (e1000_dev w) !! i = Some x /\ has_bit (tx_status x) E1000_TXD_STAT_DD = true.

(** The receive ring holds the frames [rq], at most 31, from the driver's position
    on; the transmit ring the frames [tq], at most 32, from the card's. *)
Record rings w rq tq : Prop := {
  rg_layout : laid_out w;
  rg_cur : 0 <= rx_cur (e1000_dev w) < 32;
  rg_tdh : 0 <= tdh (regs w) < 32;
  rg_rq : (length rq <= 31)%nat;
  rg_rdh : rdh (regs w) = (rx_cur (e1000_dev w) + Z.of_nat (length rq)) mod 32;
  rg_rdt : rdt (regs w) = (rx_cur (e1000_dev w) + 31) mod 32;
  rg_tdt : tdt (regs w) = tx_cur (e1000_dev w);
  rg_tx_cur : tx_cur (e1000_dev w) = (tdh (regs w) + Z.of_nat (length tq)) mod 32;
  rg_rx : ring (rx_full w) (rx_free w) (rx_cur (e1000_dev w)) rq;
  rg_tx : ring (tx_full w) (tx_free w) (tdh (regs w)) tq;
}.

(** Two queues: what the driver promises. *)
Inductive queue_step : list (list Z) * list (list Z) -> event -> list (list Z) * list (list Z) -> Prop :=
  | queue_send rq tq l : frame_ok l -> (length tq < 32)%nat ->
      queue_step (rq, tq) (Sent (Some l) (Z.of_nat (length l))) (rq, tq ++ [l])
  | queue_refused rq tq data :
      (forall l, data = Some l -> frame_ok l -> length tq = 32%nat) -> queue_step (rq, tq) (Sent data (-1)) (rq, tq)
  | queue_none rq tq n : n = 0 \/ rq = [] -> queue_step (rq, tq) (Received n 0 []) (rq, tq)
  | queue_receive f rq tq n : 0 < n ->
      queue_step (f :: rq, tq) (Received n (Z.min n (Z.of_nat (length f))) (take (Z.to_nat n) f)) (rq, tq)
  | queue_in rq tq f : frame_ok f -> (length rq < 31)%nat -> queue_step (rq, tq) (FrameIn f) (rq ++ [f], tq)
  | queue_out rq tq f : (length tq < 31)%nat -> queue_step (rq, f :: tq) (FrameOut f) (rq, tq).

(** ** Every step keeps the invariant *)

Lemma insert_same_addr {D} (addr : D -> Z) (l : list D) j x y : l !! j = Some x -> addr y = addr x ->
  forall i z, l !! i = Some z -> exists z', <[j := y]> l !! i = Some z' /\ addr z' = addr z.
Proof.
  intros Hj Ha i z Hi. destruct (decide (i = j)) as [->|Hne].
  - exists y. rewrite list_lookup_insert_eq by (by apply lookup_lt_Some in Hj). split; [done |]. by rewrite Hj in Hi; injection Hi as <-.
  - exists z. by rewrite list_lookup_insert_ne.
Qed.

Lemma laid_out_mono w w' : laid_out w ->
  e1000_initialized w' = e1000_initialized w -> mmio_base (e1000_dev w') = mmio_base (e1000_dev w) -> vm w' = vm w ->
  rx_buffers (e1000_dev w') = rx_buffers (e1000_dev w) -> tx_buffers (e1000_dev w') = tx_buffers (e1000_dev w) ->
  (rdlen (regs w') = rdlen (regs w) /\ tdlen (regs w') = tdlen (regs w)) ->
  (rctl (regs w') = rctl (regs w) /\ tctl (regs w') = tctl (regs w)) ->
  (forall i z, rx_desc (e1000_dev w) !! i = Some z -> exists z', rx_desc (e1000_dev w') !! i = Some z' /\ rx_buffer_addr z' = rx_buffer_addr z) ->
  (forall i z, tx_desc (e1000_dev w) !! i = Some z -> exists z', tx_desc (e1000_dev w') !! i = Some z' /\ tx_buffer_addr z' = tx_buffer_addr z) ->
  laid_out w'.
Proof.
  intros [L1 L2 L3 L4 L5 L6] E1 E2 E3 E4 E5 [E6 E6'] [E7 E7'] Hr Ht. split.
  - by rewrite E1.
  - by rewrite E2.
  - intros i Hi. destruct (L3 i Hi) as (x & Hx & Ha & Hb). destruct (Hr i x Hx) as (x' & Hx' & Ha'). exists x'. by rewrite E3, E4, Ha'.
  - intros i Hi. destruct (L4 i Hi) as (x & Hx & Ha & Hb). destruct (Ht i x Hx) as (x' & Hx' & Ha'). exists x'. by rewrite E3, E5, Ha'.
  - by rewrite E6, E6'.
  - by rewrite E7, E7'.
Qed.

Lemma regs_written reg v w : mmio_base (e1000_dev w) <> 0 ->
  e1000_write_reg reg v w = set_hw (mmio_write reg v (card w)) w /\ regs (set_hw (mmio_write reg v (card w)) w) = nic_write reg v (regs w).
Proof. intros H. unfold e1000_write_reg, regs. rewrite (proj2 (Z.eqb_neq _ _) H). split; [done |]. apply nic_written. Qed.

Lemma frame_ok_spec l : (Z.of_nat (length l) =? 0) || (Z.of_nat (length l) >? E1000_BUFFER_SIZE) = false <-> frame_ok l.
Proof.
  unfold frame_ok, E1000_BUFFER_SIZE. rewrite orb_false_iff, Z.gtb_ltb, Z.ltb_ge, Z.eqb_neq. lia.
Qed.

Context (PAGES : distinct_pages).

Lemma send_ok w rq tq data : rings w rq tq ->
  exists r w' tq', e1000_send_packet data w = Some (r, w') /\ queue_step (rq, tq) (Sent data r) (rq, tq') /\ rings w' rq tq'.
Proof.
  intros R. pose proof R as [L Hcur Htdh Hrq Erdh Erdt Etdt Ecur Hrx Htx]. unfold e1000_send_packet.
  destruct data as [l|]; [| exists (-1), w, tq; split_and!; [done | by apply queue_refused | done]].
  rewrite (lo_initialized _ L). cbn [negb orb].
  destruct ((Z.of_nat (length l) =? 0) || (Z.of_nat (length l) >? E1000_BUFFER_SIZE)) eqn:Ef.
  { exists (-1), w, tq. split_and!; [done | | done]. apply queue_refused. intros l' [= <-] Hf. apply frame_ok_spec in Hf. congruence. }
  apply frame_ok_spec in Ef. destruct Htx as (Htl & HP & HE).
  assert (Z.to_nat (tx_cur (e1000_dev w)) = slot (tdh (regs w)) (length tq)) as Es by by rewrite Ecur.
  rewrite Es. destruct (decide (length tq = 32%nat)) as [Hfull|Hroom].
  - destruct (lookup_lt_is_Some_2 tq 0 ltac:(lia)) as [f Hf]. destruct (HP 0%nat f Hf) as (_ & _ & x & Hx & Hd & _).
    replace (length tq) with (0 + 32)%nat by lia. rewrite slot_wrap, Hx. cbn [mbind option_bind]. rewrite Hd. cbn [negb].
    exists (-1), w, tq. split_and!; [done | by apply queue_refused | done].
  - destruct (HE (length tq) ltac:(lia)) as (x & Hx & Hd).
    assert (slot (tdh (regs w)) (length tq) < 32)%nat as Hlt by apply slot_lt. set (i := slot (tdh (regs w)) (length tq)) in *.
    destruct (lo_tx _ L i Hlt) as (x' & Hx' & Ha & Hb). rewrite Hx in Hx'. injection Hx' as <-. rewrite Hx, Hb. cbn [mbind option_bind].
    rewrite Hd. cbn [negb]. rewrite behind_hhdm by (apply PAGES; lia).
    match goal with |- context [e1000_write_reg _ _ ?s] => set (w1 := s) end. set (v1 := tx_cur (e1000_dev w1)).
    destruct (regs_written E1000_TDT v1 w1) as [-> Eregs]; [exact (lo_mmio _ L) |].
    set (w' := set_hw _ w1). fold w' in Eregs.
    change (nic_write E1000_TDT v1 (regs w1)) with (NicRegs (rdlen (regs w)) (rdh (regs w)) (rdt (regs w)) (rctl (regs w)) (tdlen (regs w)) (tdh (regs w)) v1 (tctl (regs w))) in Eregs.
    exists (Z.of_nat (length l)), w', (tq ++ [l]). split; [done |]. split; [apply queue_send; [done | lia] |].
    assert (tx_desc (e1000_dev w') = <[i := TxDesc (tx_buffer_addr x) (u16 (Z.of_nat (length l))) (tx_cso x)
      (Z.lor (Z.lor E1000_TXD_CMD_EOP E1000_TXD_CMD_IFCS) E1000_TXD_CMD_RS) 0 (tx_css x) (tx_special x)]> (tx_desc (e1000_dev w))) as Edesc by done.
    assert (memory w' = store (bufs (32 + i)%nat) l (memory w)) as Emem by done.
    assert (i < length (tx_desc (e1000_dev w)))%nat as Hil by by apply lookup_lt_Some in Hx.
    split; try (rewrite ?Eregs; done).
    + apply (laid_out_mono w w' L); rewrite ?Eregs; try done; [by eauto |]. rewrite Edesc. by apply insert_same_addr with (x := x).
    + rewrite Eregs. cbn [tdh]. change (tx_cur (e1000_dev w')) with ((tx_cur (e1000_dev w) + 1) mod 32).
      rewrite Ecur, length_app, Zplus_mod_idemp_l. f_equal. cbn. lia.
    + apply (ring_mono _ _ _ _ _ _ Hrx). intros j g Hj. split; [| done]. intros (Hg & Hm & y & Hy). split; [done |]. split; [| by exists y].
      rewrite Emem, load_store_other; [done | apply PAGES; lia | apply PAGES; lia | | apply Ef | apply Hg].
      intros Eb. apply PAGES in Eb; lia.
    + rewrite Eregs. cbn [tdh]. apply ring_push with (P := tx_full w) (E := tx_free w); [done | lia | |].
      * fold i. split; [done |]. rewrite Emem. split; [apply load_store |]. rewrite Edesc.
        eexists. split; [by rewrite list_lookup_insert_eq |]. split; [done |]. split; [done |]. apply u16_small. unfold frame_ok, E1000_BUFFER_SIZE in Ef. lia.
      * intros j g Hne Hj. fold i in Hne. split.
        -- intros (Hg & Hm & y & Hy). split; [done |]. split; [| exists y; by rewrite Edesc, list_lookup_insert_ne].
           rewrite Emem, load_store_other; [done | apply PAGES; lia | apply PAGES; lia | | apply Ef | apply Hg].
           intros Eb. apply PAGES in Eb; lia.
        -- intros (y & Hy). exists y. by rewrite Edesc, list_lookup_insert_ne.
Qed.

Lemma receive_ok w rq tq n : rings w rq tq -> 0 <= n ->
  exists r bytes w' rq', e1000_receive_packet true n w = Some (r, bytes, w') /\
    queue_step (rq, tq) (Received n r bytes) (rq', tq) /\ rings w' rq' tq.
Proof.
  intros R Hn. pose proof R as [L Hcur Htdh Hrq Erdh Erdt Etdt Ecur Hrx Htx]. unfold e1000_receive_packet.
  rewrite (lo_initialized _ L). cbn [negb orb]. destruct (Z.eqb_spec n 0) as [->|Hn0].
  { exists 0, [], w, rq. split_and!; [done | apply queue_none; by left | done]. }
  destruct Hrx as (Hrl & HP & HE). rewrite <- (slot_self _ Hcur). set (i := slot (rx_cur (e1000_dev w)) 0) in *.
  destruct rq as [|f rq].
  - destruct (HE 0%nat ltac:(cbn; lia)) as (x & Hx & Hd). fold i in Hx. rewrite Hx. cbn [mbind option_bind]. rewrite Hd. cbn [negb].
    exists 0, [], w, []. split_and!; [done | apply queue_none; by right | done].
  - destruct (HP 0%nat f eq_refl) as (Hf & Hm & x & Hx & Hd & Hlen). fold i in Hm, Hx. rewrite Hx. cbn [mbind option_bind]. rewrite Hd. cbn [negb].
    assert (i < 32)%nat as Hi by apply slot_lt. destruct (lo_rx _ L i Hi) as (x' & Hx' & Ha & Hb). rewrite Hx in Hx'. injection Hx' as <-.
    rewrite Hb. cbn [mbind option_bind]. rewrite behind_hhdm by (apply PAGES; lia). rewrite Hlen.
    assert ((if Z.of_nat (length f) >? n then u16 n else Z.of_nat (length f)) = Z.min n (Z.of_nat (length f))) as ->.
    { unfold frame_ok, E1000_BUFFER_SIZE in Hf. rewrite Z.gtb_ltb. destruct (Z.ltb_spec n (Z.of_nat (length f))); [rewrite u16_small by lia |]; lia. }
    match goal with |- context [e1000_write_reg _ _ ?s] => set (w1 := s) end.
    destruct (regs_written E1000_RDT (rx_cur (e1000_dev w)) w1) as [-> Eregs]; [exact (lo_mmio _ L) |].
    set (w2 := set_hw _ w1) in *. set (w' := upd_dev _ w2). change (regs w2) with (regs w') in Eregs.
    change (nic_write E1000_RDT (rx_cur (e1000_dev w)) (regs w1)) with (NicRegs (rdlen (regs w)) (rdh (regs w)) (rx_cur (e1000_dev w)) (rctl (regs w)) (tdlen (regs w)) (tdh (regs w)) (tdt (regs w)) (tctl (regs w))) in Eregs.
    exists (Z.min n (Z.of_nat (length f))), (load (memory w) (bufs i) (Z.min n (Z.of_nat (length f)))), w', rq. split; [done |]. split.
    + rewrite take_load with (n := Z.of_nat (length f)) by lia. rewrite Hm.
      replace (take (Z.to_nat (Z.min n (Z.of_nat (length f)))) f) with (take (Z.to_nat n) f); [apply queue_receive; lia |].
      destruct (Z.min_spec n (Z.of_nat (length f))) as [[_ ->]|[? ->]]; [done |]. rewrite !take_ge by lia. done.
    + assert (rx_desc (e1000_dev w') = <[i := RxDesc (rx_buffer_addr x) (Z.of_nat (length f)) (rx_checksum x) 0 (rx_errors x) (rx_special x)]>
        (rx_desc (e1000_dev w))) as Edesc by done.
      assert (i < length (rx_desc (e1000_dev w)))%nat as Hil by by apply lookup_lt_Some in Hx.
      assert (rx_cur (e1000_dev w') = (rx_cur (e1000_dev w) + 1) mod 32) as Ecur' by done. cbn [length] in *.
      split; try (rewrite ?Eregs; done).
      * apply (laid_out_mono w w' L); rewrite ?Eregs; try done; [| by eauto]. rewrite Edesc. by apply insert_same_addr with (x := x).
      * rewrite Ecur'. clear. zlia.
      * lia.
      * rewrite Eregs, Ecur', Erdh. cbn [rdh]. clear. zlia.
      * rewrite Eregs, Ecur'. cbn [rdt]. clear - Hcur. zlia.
      * rewrite Ecur'. apply ring_pop with (P := rx_full w) (E := rx_free w) (f := f); [done | |].
        -- fold i. eexists. rewrite Edesc. split; [by rewrite list_lookup_insert_eq | done].
        -- intros j g Hne Hj. fold i in Hne. split.
           ++ intros (Hg & Hmg & y & Hy). split; [done |]. split; [done |]. exists y. by rewrite Edesc, list_lookup_insert_ne.
           ++ intros (y & Hy). exists y. by rewrite Edesc, list_lookup_insert_ne.
Qed.

Lemma in_ok w rq tq f w' : rings w rq tq -> card_step w w' (Some f) None ->
  queue_step (rq, tq) (FrameIn f) (rq ++ [f], tq) /\ rings w' (rq ++ [f]) tq.
Proof.
  intros R Hs. pose proof R as [L Hcur Htdh Hrq Erdh Erdt Etdt Ecur Hrx Htx]. inversion Hs as [w0 f0 x csum errors special h' Hen Hne Hx Hf Eh E1 E2 E3 |]; subst w0 f0.
  destruct (lo_lengths _ L) as [El _]. rewrite El in Eh. change (512 / 16) with 32 in Eh.
  assert (length rq < 31)%nat as Hroom.
  { destruct (decide (length rq = 31%nat)) as [E|]; [| lia]. rewrite Erdh, Erdt, E in Hne. by destruct Hne. }
  split; [by apply queue_in |].
  assert (Z.to_nat (rdh (regs w)) = slot (rx_cur (e1000_dev w)) (length rq)) as Es by by rewrite Erdh.
  rewrite Es in *. assert (slot (rx_cur (e1000_dev w)) (length rq) < 32)%nat as Hi by apply slot_lt. set (i := slot _ (length rq)) in *.
  destruct (lo_rx _ L i Hi) as (x' & Hx' & Ha & _). rewrite Hx in Hx'. injection Hx' as <-.
  set (w1 := World _ _ _ _ _ _ h') in *. assert (regs w1 = set_rdh ((rdh (regs w) + 1) mod 32) (regs w)) as Eregs by exact Eh.
  assert (i < length (rx_desc (e1000_dev w)))%nat as Hil by by apply lookup_lt_Some in Hx.
  assert (rx_desc (e1000_dev w1) = <[i := RxDesc (rx_buffer_addr x) (Z.of_nat (length f)) csum (Z.lor E1000_RXD_STAT_DD E1000_RXD_STAT_EOP) errors special]>
    (rx_desc (e1000_dev w))) as Edesc by (cbn; by rewrite Ha).
  assert (memory w1 = store (bufs i) f (memory w)) as Emem by (cbn; by rewrite Ha). change (rings w1 (rq ++ [f]) tq).
  assert (forall g j, (j < 64)%nat -> j <> i -> frame_ok g -> load (memory w) (bufs j) (Z.of_nat (length g)) = g ->
    load (memory w1) (bufs j) (Z.of_nat (length g)) = g) as Hother.
  { intros g j Hj Hji Hg Hm. rewrite Emem, load_store_other; [done | apply PAGES; lia | apply PAGES; lia | | apply Hf | apply Hg].
    intros Eb. apply PAGES in Eb; lia. }
  split; try (rewrite ?Eregs; done).
  - apply (laid_out_mono w w1 L); rewrite ?Eregs; try done; [| by eauto]. rewrite Edesc. by apply insert_same_addr with (x := x).
  - rewrite length_app. cbn. lia.
  - rewrite Eregs. cbn [rdh set_rdh]. rewrite Erdh, length_app. change (rx_cur (e1000_dev w1)) with (rx_cur (e1000_dev w)). cbn [length]. clear. zlia.
  - apply ring_push with (P := rx_full w) (E := rx_free w); [done | lia | |].
    + fold i. split; [done |]. split; [rewrite Emem; apply load_store |]. eexists. rewrite Edesc. split; [by rewrite list_lookup_insert_eq | done].
    + intros j g Hne' Hj. change (rx_cur (e1000_dev w1)) with (rx_cur (e1000_dev w)) in Hne'. fold i in Hne'. split.
      * intros (Hg & Hm & y & Hy). split; [done |]. split; [by apply Hother; [lia | ..] |]. exists y. by rewrite Edesc, list_lookup_insert_ne.
      * intros (y & Hy). exists y. by rewrite Edesc, list_lookup_insert_ne.
  - rewrite Eregs. cbn [tdh set_rdh]. apply (ring_mono _ _ _ _ _ _ Htx). intros j g Hj. split; [| done].
    intros (Hg & Hm & y & Hy). split; [done |]. split; [apply Hother; [lia | lia | done | done] | by exists y].
Qed.

Lemma out_ok w rq tq f w' : rings w rq tq -> card_step w w' None (Some f) ->
  exists tq', tq = f :: tq' /\ queue_step (rq, tq) (FrameOut f) (rq, tq') /\ rings w' rq tq'.
Proof.
  intros R Hs. pose proof R as [L Hcur Htdh Hrq Erdh Erdt Etdt Ecur Hrx Htx]. inversion Hs as [| w0 x h' Hen Hne Hx Eh E1 E2 E3]; subst w0.
  destruct (lo_lengths _ L) as [_ El]. rewrite El in Eh. change (512 / 16) with 32 in Eh. rewrite Etdt, Ecur in Hne.
  rewrite <- (slot_self _ Htdh) in *. destruct Htx as (Htl & HP & HE). set (i := slot (tdh (regs w)) 0) in *.
  destruct tq as [|g tq]; [exfalso; apply Hne; cbn; clear - Htdh; zlia |].
  destruct (HP 0%nat g eq_refl) as (Hg & Hm & y & Hy & Hd & Hrs & Hlen). fold i in Hm, Hy. rewrite Hx in Hy. injection Hy as <-.
  assert (i < 32)%nat as Hi by apply slot_lt. destruct (lo_tx _ L i Hi) as (x' & Hx' & Ha & _). rewrite Hx in Hx'. injection Hx' as <-.
  assert (load (memory w) (tx_buffer_addr x) (tx_length x) = g) as Ef by by rewrite Ha, Hlen, Hm.
  rewrite Ef. exists tq. split; [done |]. cbn [length] in *.
  assert (length tq < 31)%nat as Hroom.
  { destruct (decide (length tq = 31%nat)) as [E|]; [| lia]. exfalso. apply Hne. rewrite E. clear - Htdh. zlia. }
  split; [by apply queue_out |]. set (w1 := World _ _ _ _ _ _ h') in *.
  assert (regs w1 = set_tdh ((tdh (regs w) + 1) mod 32) (regs w)) as Eregs by exact Eh.
  assert (i < length (tx_desc (e1000_dev w)))%nat as Hil by by apply lookup_lt_Some in Hx.
  assert (tx_desc (e1000_dev w1) = <[i := TxDesc (tx_buffer_addr x) (tx_length x) (tx_cso x) (tx_cmd x)
    (Z.lor (tx_status x) E1000_TXD_STAT_DD) (tx_css x) (tx_special x)]> (tx_desc (e1000_dev w))) as Edesc by (cbn; by rewrite Hrs).
  change (rings w1 rq tq). split; try (rewrite ?Eregs; done).
  - apply (laid_out_mono w w1 L); rewrite ?Eregs; try done; [by eauto |]. rewrite Edesc. by apply insert_same_addr with (x := x).
  - rewrite Eregs. cbn [tdh set_tdh]. clear. zlia.
  - rewrite Eregs. cbn [tdh set_tdh]. change (tx_cur (e1000_dev w1)) with (tx_cur (e1000_dev w)). rewrite Ecur. clear. zlia.
  - rewrite Eregs. cbn [tdh set_tdh]. apply ring_pop with (P := tx_full w) (E := tx_free w) (f := g); [done | |].
    + fold i. eexists. rewrite Edesc. split; [by rewrite list_lookup_insert_eq |]. cbn [tx_status]. unfold has_bit, E1000_TXD_STAT_DD.
      rewrite Z.land_lor_distr_l. destruct (Z.eqb_spec (Z.lor (Z.land (tx_status x) 1) (Z.land 1 1)) 0) as [E|]; [| done].
      apply Z.lor_eq_0_iff in E as [_ E]. done.
    + intros j g' Hne' Hj. fold i in Hne'. split.
      * intros (Hg' & Hm' & y & Hy). split; [done |]. split; [done |]. exists y. by rewrite Edesc, list_lookup_insert_ne.
      * intros (y & Hy). exists y. by rewrite Edesc, list_lookup_insert_ne.
Qed.

(** ** Runs *)

Inductive steps : world hw A -> list event -> world hw A -> Prop :=
  | steps_nil w : steps w [] w
  | steps_cons w e w1 es w' : step w e w1 -> steps w1 es w' -> steps w (e :: es) w'.

Lemma step_ok w rq tq e w' : rings w rq tq -> step w e w' ->
  exists rq' tq', queue_step (rq, tq) e (rq', tq') /\ rings w' rq' tq'.
Proof.
  intros R Hs. destruct Hs as [w data r w' E|w n r bytes w' Hn E|w f w' Hs|w f w' Hs].
  - destruct (send_ok w rq tq data R) as (r1 & w1 & tq' & E1 & Q & R'). rewrite E in E1. injection E1 as <- <-. eauto.
  - destruct (receive_ok w rq tq n R Hn) as (r1 & b1 & w1 & rq' & E1 & Q & R'). rewrite E in E1. injection E1 as <- <- <-. eauto.
  - exists (rq ++ [f]), tq. by apply in_ok with (w := w).
  - destruct (out_ok w rq tq f w' R Hs) as (tq' & -> & Q & R'). eauto.
Qed.

Definition accepted (es : list event) : list (list Z) :=
  omap (fun e => match e with Sent (Some l) r => if r =? -1 then None else Some l | _ => None end) es.
Definition frames_in (es : list event) : list (list Z) := omap (fun e => match e with FrameIn f => Some f | _ => None end) es.
Definition frames_out (es : list event) : list (list Z) := omap (fun e => match e with FrameOut f => Some f | _ => None end) es.
(** The sizes of the buffers and the bytes delivered. *)
Definition deliveries (es : list event) : list (Z * list Z) :=
  omap (fun e => match e with Received n r bytes => if r =? 0 then None else Some (n, bytes) | _ => None end) es.
Definition delivered_from (f : list Z) (d : Z * list Z) : Prop := d.2 = take (Z.to_nat d.1) f.

Lemma fifo_step rq tq e rq' tq' : (forall f, f ∈ rq -> frame_ok f) -> queue_step (rq, tq) e (rq', tq') ->
  (forall f, f ∈ rq' -> frame_ok f) /\ tq ++ accepted [e] = frames_out [e] ++ tq' /\
  exists taken, rq ++ frames_in [e] = taken ++ rq' /\ Forall2 delivered_from taken (deliveries [e]).
Proof.
  intros Hok Q. inversion Q as [? ? l Hf Hl|? ? data Hr|? ? n Hn|f ? ? n Hn|? ? f Hf Hl|? ? f Hl]; subst; cbn.
  - destruct (Z.eqb_spec (Z.of_nat (length l)) (-1)); [lia |]. split_and!; [done | done |]. exists []. rewrite app_nil_r. by split.
  - split_and!; [done | by destruct data; cbn; rewrite app_nil_r |]. exists []. rewrite app_nil_r. by split.
  - split_and!; [done | by rewrite app_nil_r |]. exists []. rewrite app_nil_r. by split.
  - assert (frame_ok f) as Hf by (apply Hok; set_solver). unfold frame_ok in Hf.
    destruct (Z.eqb_spec (Z.min n (Z.of_nat (length f))) 0); [lia |].
    split_and!; [set_solver | by rewrite app_nil_r |]. exists [f]. rewrite app_nil_r. split; [done |]. by repeat constructor.
  - split_and!; [set_solver | by rewrite app_nil_r |]. exists []. split; [done | constructor].
  - split_and!; [done | by rewrite app_nil_r |]. exists []. rewrite app_nil_r. by split.
Qed.

Lemma rings_frames w rq tq : rings w rq tq -> forall f, f ∈ rq -> frame_ok f.
Proof. intros R f Hf. apply list_elem_of_lookup in Hf as [k Hk]. apply (rg_rx _ _ _ R) in Hk. apply Hk. Qed.

Lemma fifo_ok w es w' : steps w es w' -> forall rq tq, rings w rq tq ->
  exists taken rq' tq', rings w' rq' tq' /\ rq ++ frames_in es = taken ++ rq' /\ tq ++ accepted es = frames_out es ++ tq' /\
    Forall2 delivered_from taken (deliveries es).
Proof.
  induction 1 as [w|w e w1 es w' Hs Hss IH]; intros rq tq R.
  - exists [], rq, tq. cbn. rewrite !app_nil_r. split_and!; [done | done | done | constructor].
  - destruct (step_ok w rq tq e w1 R Hs) as (rq1 & tq1 & Q & R1).
    destruct (fifo_step _ _ _ _ _ (rings_frames _ _ _ R) Q) as (_ & Ea & taken1 & Ef & Hd).
    destruct (IH _ _ R1) as (taken & rq' & tq' & R' & Ef' & Ea' & Hd'). exists (taken1 ++ taken), rq', tq'.
    change (e :: es) with ([e] ++ es). unfold frames_in, frames_out, accepted, deliveries in *. rewrite !omap_app.
    split_and!; [done | | |].
    + by rewrite (assoc_L (++)), Ef, <- (assoc_L (++)), Ef', (assoc_L (++)).
    + by rewrite (assoc_L (++)), Ea, <- (assoc_L (++)), Ea', (assoc_L (++)).
    + by apply Forall2_app.
Qed.

(** C27. The driver and the card are two queues: when both rings are empty and
    whatever the driver and the card then do in whatever order, the frames that
    left the card are the ones that [e1000_send_packet] accepted, in order and
    unchanged, up to those still in the ring, and the bytes that
    [e1000_receive_packet] delivered are the frames that arrived, in order, each cut
    to the size of the buffer, up to those still waiting; neither function ever
    leaves its arrays, and at most 31 frames wait and 32 are being sent. *)
Theorem e1000_fifo w es w' :
  rings w [] [] -> steps w es w' ->
  (exists taken waiting sending, frames_in es = taken ++ waiting /\ Forall2 delivered_from taken (deliveries es) /\
    accepted es = frames_out es ++ sending /\ (length waiting <= 31)%nat /\ (length sending <= 32)%nat) /\
  (forall data, is_Some (e1000_send_packet data w')) /\
  (forall n, 0 <= n -> is_Some (e1000_receive_packet true n w')).
Proof.
  intros R Hs. destruct (fifo_ok w es w' Hs [] [] R) as (taken & rq & tq & R' & Ef & Ea & Hd). split_and!.
  - exists taken, rq, tq. split_and!; try done; [apply (rg_rq _ _ _ R') | apply (rg_tx _ _ _ R')].
  - intros data. destruct (send_ok w' rq tq data R') as (r & w2 & tq' & -> & _). by eexists.
  - intros n Hn. destruct (receive_ok w' rq tq n R' Hn) as (r & bytes & w2 & rq' & -> & _). by eexists.
Qed.

(** ** The transmit ring when it is full *)

Lemma full_stays w es w' : steps w es w' -> forall rq tq, rings w rq tq -> length tq = 32%nat ->
  accepted es = [] /\ frames_out es = [].
Proof.
  induction 1 as [w|w e w1 es w' Hs Hss IH]; intros rq tq R Hl; [done |].
  destruct (step_ok w rq tq e w1 R Hs) as (rq1 & tq1 & Q & R1).
  assert (tq1 = tq /\ accepted [e] = [] /\ frames_out [e] = []) as (-> & Ea & Ef).
  { inversion Q; subst; try done; [lia | by destruct data | cbn in Hl; lia]. }
  destruct (IH _ _ R1 Hl) as [Ea' Ef']. change (e :: es) with ([e] ++ es). unfold frames_out, accepted in *.
  by rewrite !omap_app, Ea, Ea', Ef, Ef'.
Qed.

Lemma fill_ok frames : forall w rq tq, rings w rq tq -> Forall frame_ok frames -> (length tq + length frames <= 32)%nat ->
  exists es w', steps w es w' /\ accepted es = frames /\ frames_out es = [] /\ rings w' rq (tq ++ frames).
Proof.
  induction frames as [|f frames IH]; intros w rq tq R Hf Hl.
  - exists [], w. rewrite app_nil_r. split_and!; [constructor | done | done | done].
  - inversion Hf as [|? ? Hf1 Hf2]; subst. cbn [length] in Hl. destruct (send_ok w rq tq (Some f) R) as (r & w1 & tq1 & E & Q & R1).
    inversion Q as [? ? ? _ _|? ? ? Hr| | | |]; subst; [| specialize (Hr f eq_refl Hf1); lia].
    destruct (IH w1 rq (tq ++ [f]) R1 Hf2) as (es & w' & Hs & Ea & Eo & R'); [rewrite length_app; cbn; lia |].
    exists (Sent (Some f) (Z.of_nat (length f)) :: es), w'. split_and!.
    + econstructor; [by constructor | done].
    + unfold accepted in *. cbn. by rewrite (proj2 (Z.eqb_neq (Z.of_nat (length f)) (-1))), Ea by lia.
    + done.
    + by rewrite <- (assoc_L (++)) in R'.
Qed.

(** C28. The transmit ring stops for good when it is filled: 32 frames are
    accepted although the card has sent none, its tail then equals its head, which
    the card takes for an empty ring, and from then on no frame ever leaves and
    every send is refused. *)
Theorem e1000_tx_stops w frames :
  rings w [] [] -> length frames = 32%nat -> Forall frame_ok frames ->
  exists es w', steps w es w' /\ accepted es = frames /\
    forall es' w'', steps w' es' w'' -> frames_out es' = [] /\ accepted es' = [].
Proof.
  intros R Hl Hf. destruct (fill_ok frames w [] [] R Hf ltac:(cbn; lia)) as (es & w' & Hs & Ea & _ & R').
  exists es, w'. split_and!; [done | done |]. intros es' w'' Hs'. by destruct (full_stays w' es' w'' Hs' [] frames R' Hl).
Qed.
End inv.
End card.

(** ** Setting the rings up *)

Section init.
Context {hw A : Type} {PORTS : Ports hw} {MMIO : Mmio hw} {LAWS : MmioLaws hw} `{PageAllocatorLaws A}.
Implicit Types (w : world hw A) (used l : list Z).

Definition page_ok (t : Z) : Prop := t mod 4096 = 0 /\ 0 <= t < 2 ^ 52.

(** The allocator is in order and will not hand out the pages [used]. *)
Definition alloc_ok (a : A) used : Prop := pa_ok a /\ forall t, t ∈ used -> ~ pa_free a t.

Lemma take_page_ok w used : alloc_ok (pages (vm w)) used ->
  exists t a, physical_alloc_page w = Some (t, set_vm (set_pages a (vm w)) w) /\
    (t = NULL \/ t <> NULL /\ page_ok t /\ t ∉ used /\ alloc_ok a (t :: used)).
Proof.
  intros [Hok Hu]. destruct (pa_alloc (pages (vm w)) Hok) as (t & a & E & Hok' & Ht). unfold physical_alloc_page. rewrite E.
  exists t, a. split; [done |]. destruct Ht as [[-> _]|(Hm & Hr & Hf & Hnf & Hsub)]; [by left |]. right.
  split_and!; [unfold NULL; lia | split; [done | lia] | by intros Ht%Hu |].
  split; [done |]. intros u [->|Hu']%elem_of_cons; [done |]. intros Hfu. by apply (Hu u Hu'), Hsub.
Qed.

(** The arrays hold the pages [l] from index [i] on, and below it what they held. *)
Definition filled {D} (addr : D -> Z) (fresh : D -> Prop) (hhdm : Z) (i : nat) l (ds ds' : list D) (bs bs' : list Z) : Prop :=
  length ds' = length ds /\ length bs' = length bs /\
  (forall k t, l !! k = Some t -> (exists x, ds' !! (i + k)%nat = Some x /\ addr x = t /\ fresh x) /\ bs' !! (i + k)%nat = Some (u64 (t + hhdm))) /\
  (forall j, (j < i)%nat -> ds' !! j = ds !! j /\ bs' !! j = bs !! j).

Lemma filled_nil {D} (addr : D -> Z) fresh hhdm i ds bs : filled addr fresh hhdm i [] ds ds bs bs.
Proof. by split_and!. Qed.

Lemma filled_cons {D} (addr : D -> Z) fresh hhdm i t l (f : D -> D) ds ds' bs bs' :
  (i < length ds)%nat -> (i < length bs)%nat -> (forall x, addr (f x) = t /\ fresh (f x)) ->
  filled addr fresh hhdm (S i) l (alter f i ds) ds' (<[i := u64 (t + hhdm)]> bs) bs' -> filled addr fresh hhdm i (t :: l) ds ds' bs bs'.
Proof.
  intros Hd Hb Hf (El & Eb & Hk & Hj). rewrite length_alter in El. rewrite length_insert in Eb. split_and!; [done | done | |].
  - intros [|k] u Hu.
    + injection Hu as <-. rewrite Nat.add_0_r. destruct (Hj i ltac:(lia)) as [-> ->]. rewrite list_lookup_alter, decide_True by done.
      destruct (lookup_lt_is_Some_2 ds i Hd) as [x ->]. rewrite list_lookup_insert_eq by done. split; [| done]. by exists (f x).
    + rewrite <- Nat.add_succ_comm. by apply Hk.
  - intros j Hlt. destruct (Hj j ltac:(lia)) as [-> ->]. by rewrite list_lookup_alter, decide_False, list_lookup_insert_ne by lia.
Qed.

Definition new_pages used l : Prop := NoDup l /\ Forall page_ok l /\ (forall t, t ∈ l -> t ∉ used).

Lemma new_pages_nil used : new_pages used [].
Proof. split; [apply NoDup_nil_2 | split; [constructor | set_solver]]. Qed.

Lemma new_pages_cons used t l : page_ok t -> t ∉ used -> new_pages (t :: used) l -> new_pages used (t :: l).
Proof. intros Hp Hu (Hn & Hf & Hd). split_and!; [constructor; [intros Ht%Hd; set_solver | done] | by constructor | set_solver]. Qed.

Lemma rx_loop_ok n : forall i w used, alloc_ok (pages (vm w)) used ->
  (i + n <= length (rx_desc (e1000_dev w)))%nat -> (i + n <= length (rx_buffers (e1000_dev w)))%nat ->
  exists ok w', rx_buffer_loop n i w = Some (ok, w') /\ (ok = true -> exists l a ds bs,
    w' = World _ _ (set_rx_desc ds (set_rx_buffers bs (e1000_dev w))) (e1000_initialized w) (set_pages a (vm w)) (memory w) (card w) /\
    length l = n /\ new_pages used l /\ alloc_ok a (l ++ used) /\
    filled rx_buffer_addr (fun x => rx_status x = 0) (hhdm_offset (vm w)) i l (rx_desc (e1000_dev w)) ds (rx_buffers (e1000_dev w)) bs).
Proof.
  induction n as [|n IH]; intros i w used Ha Hd Hb; cbn [rx_buffer_loop].
  - exists true, w. split; [done |]. intros _. exists [], (pages (vm w)), (rx_desc (e1000_dev w)), (rx_buffers (e1000_dev w)).
    split_and!; [by destruct w as [[] ? [] ? ?] | done | apply new_pages_nil | done | apply filled_nil].
  - destruct (take_page_ok w used Ha) as (t & a & -> & Ht). cbn [mbind option_bind]. destruct (Z.eqb_spec t NULL) as [|Hnn].
    { eexists false, _. by split. }
    destruct Ht as [|(_ & Hp & Hu & Ha')]; [done |].
    set (w1 := upd_dev _ _). destruct (IH (S i) w1 (t :: used)) as (ok & w' & E & Hok).
    { exact Ha'. }
    { cbn. rewrite length_alter. lia. }
    { cbn. rewrite length_insert. lia. }
    exists ok, w'. split; [exact E |]. intros ->. destruct (Hok eq_refl) as (l & a' & ds & bs & -> & Hl & Hn & Ha2 & Hfl).
    exists (t :: l), a', ds, bs. split_and!; [done | cbn; lia | by apply new_pages_cons | | ].
    + destruct Ha2 as [H1 H2]. split; [done |]. intros u Hu'. apply H2. set_solver.
    + eapply filled_cons; [lia | lia | | exact Hfl]. done.
Qed.

Lemma tx_loop_ok n : forall i w used, alloc_ok (pages (vm w)) used ->
  (i + n <= length (tx_desc (e1000_dev w)))%nat -> (i + n <= length (tx_buffers (e1000_dev w)))%nat ->
  exists ok w', tx_buffer_loop n i w = Some (ok, w') /\ (ok = true -> exists l a ds bs,
    w' = World _ _ (set_tx_desc ds (set_tx_buffers bs (e1000_dev w))) (e1000_initialized w) (set_pages a (vm w)) (memory w) (card w) /\
    length l = n /\ new_pages used l /\ alloc_ok a (l ++ used) /\
    filled tx_buffer_addr (fun x => tx_status x = E1000_TXD_STAT_DD) (hhdm_offset (vm w)) i l (tx_desc (e1000_dev w)) ds (tx_buffers (e1000_dev w)) bs).
Proof.
  induction n as [|n IH]; intros i w used Ha Hd Hb; cbn [tx_buffer_loop].
  - exists true, w. split; [done |]. intros _. exists [], (pages (vm w)), (tx_desc (e1000_dev w)), (tx_buffers (e1000_dev w)).
    split_and!; [by destruct w as [[] ? [] ? ?] | done | apply new_pages_nil | done | apply filled_nil].
  - destruct (take_page_ok w used Ha) as (t & a & -> & Ht). cbn [mbind option_bind]. destruct (Z.eqb_spec t NULL) as [|Hnn].
    { eexists false, _. by split. }
    destruct Ht as [|(_ & Hp & Hu & Ha')]; [done |].
    set (w1 := upd_dev _ _). destruct (IH (S i) w1 (t :: used)) as (ok & w' & E & Hok).
    { exact Ha'. }
    { cbn. rewrite length_alter. lia. }
    { cbn. rewrite length_insert. lia. }
    exists ok, w'. split; [exact E |]. intros ->. destruct (Hok eq_refl) as (l & a' & ds & bs & -> & Hl & Hn & Ha2 & Hfl).
    exists (t :: l), a', ds, bs. split_and!; [done | cbn; lia | by apply new_pages_cons | | ].
    + destruct Ha2 as [H1 H2]. split; [done |]. intros u Hu'. apply H2. set_solver.
    + eapply filled_cons; [lia | lia | | exact Hfl]. done.
Qed.

Lemma sub_two t t2 used (u : Z) : u ∈ used -> u ∈ t2 :: t :: used.
Proof. set_solver. Qed.
Lemma sub_two_app l t t2 used (u : Z) : u ∈ l ++ used -> u ∈ l ++ t2 :: t :: used.
Proof. set_solver. Qed.

Lemma alloc_ok_sub a used used' : (forall t, t ∈ used' -> t ∈ used) -> alloc_ok a used -> alloc_ok a used'.
Proof. intros Hs [Hok Hu]. split; [done |]. intros t Ht. apply Hu, Hs, Ht. Qed.

Lemma new_pages_sub used used' l : (forall t, t ∈ used' -> t ∈ used) -> new_pages used l -> new_pages used' l.
Proof. intros Hs (Hn & Hf & Hu). split; [done | split; [done |]]. intros t Ht Ht'. by apply (Hu t Ht), Hs. Qed.

Lemma write_reg_on w reg v : mmio_base (e1000_dev w) <> 0 -> e1000_write_reg reg v w = set_hw (mmio_write reg v (card w)) w.
Proof. intros Hm. unfold e1000_write_reg. by rewrite (proj2 (Z.eqb_neq _ _) Hm). Qed.

Lemma base_written w reg v : mmio_base (e1000_dev (e1000_write_reg reg v w)) = mmio_base (e1000_dev w).
Proof. unfold e1000_write_reg. by destruct (_ =? 0). Qed.

Lemma base_set_hw w h : mmio_base (e1000_dev (set_hw h w)) = mmio_base (e1000_dev w).
Proof. done. Qed.

Definition rctl_value : Z := 0x04008018 + E1000_RCTL_EN.
Definition tctl_value : Z := 0x00040108 + E1000_TCTL_EN.

Lemma rx_init_ok w used : alloc_ok (pages (vm w)) used -> mmio_base (e1000_dev w) <> 0 ->
  exists r w', e1000_rx_init w = Some (r, w') /\ (r = -1 \/ r = 0 /\ exists l a ds bs h,
    w' = World _ _ (set_rx_cur 0 (set_rx_desc ds (set_rx_buffers bs (e1000_dev w)))) (e1000_initialized w) (set_pages a (vm w)) (memory w) h /\
    length l = 32%nat /\ new_pages used l /\ alloc_ok a (l ++ used) /\
    filled rx_buffer_addr (fun x => rx_status x = 0) (hhdm_offset (vm w)) 0 l (replicate 256 rx_desc0) ds (replicate 512 0) bs /\
    nic_of h = NicRegs 512 0 31 rctl_value (tdlen (regs w)) (tdh (regs w)) (tdt (regs w)) (tctl (regs w))).
Proof.
  intros Ha Hm. unfold e1000_rx_init. destruct (take_page_ok w used Ha) as (t & a & -> & Ht). cbn [mbind option_bind].
  destruct (Z.eqb_spec t NULL) as [|Hnn]; [eexists (-1), _; split; [done | by left] |]. destruct Ht as [|(_ & _ & _ & Ha1)]; [done |].
  set (w1 := upd_dev (set_rx_desc _) _). destruct (take_page_ok w1 _ Ha1) as (t2 & a2 & -> & Ht). cbn [mbind option_bind].
  destruct (Z.eqb_spec t2 NULL) as [|Hnn2]; [eexists (-1), _; split; [done | by left] |]. destruct Ht as [|(_ & _ & _ & Ha2)]; [done |].
  set (w2 := upd_dev (set_rx_buffers _) _).   destruct (rx_loop_ok 32 0 w2 _ Ha2) as (ok & w3 & E & Hok);
    [change (length _) with 256%nat; lia | change (length _) with 512%nat; lia |].
  change (Z.to_nat E1000_NUM_RX_DESC) with 32%nat. rewrite E. cbn [mbind option_bind]. destruct ok; [| eexists (-1), _; split; [done | by left]].
  destruct (Hok eq_refl) as (l & a3 & ds & bs & -> & Hl & Hn & Ha3 & Hf). cbn [negb].
  change (mmio_base (e1000_dev (upd_dev _ (World _ _ ?d _ _ _ _)))) with (mmio_base (e1000_dev w)). rewrite (proj2 (Z.eqb_neq _ _) Hm).
  eexists 0, _. split; [done |]. right. split; [done |]. rewrite !write_reg_on by (rewrite ?base_written, ?base_set_hw, ?base_written; exact Hm). eexists l, a3, ds, bs, _. split; [reflexivity |].
  split; [done |]. split; [exact (new_pages_sub _ _ _ (sub_two t t2 used) Hn) |]. split; [| split; [exact Hf |]].
  - exact (alloc_ok_sub _ _ _ (sub_two_app l t t2 used) Ha3).
  - cbn [set_hw card]. rewrite !nic_written. reflexivity.
Qed.

Lemma tx_init_ok w used : alloc_ok (pages (vm w)) used -> mmio_base (e1000_dev w) <> 0 ->
  exists r w', e1000_tx_init w = Some (r, w') /\ (r = -1 \/ r = 0 /\ exists l a ds bs h,
    w' = World _ _ (set_tx_cur 0 (set_tx_desc ds (set_tx_buffers bs (e1000_dev w)))) (e1000_initialized w) (set_pages a (vm w)) (memory w) h /\
    length l = 32%nat /\ new_pages used l /\ alloc_ok a (l ++ used) /\
    filled tx_buffer_addr (fun x => tx_status x = E1000_TXD_STAT_DD) (hhdm_offset (vm w)) 0 l (replicate 256 tx_desc0) ds (replicate 512 0) bs /\
    nic_of h = NicRegs (rdlen (regs w)) (rdh (regs w)) (rdt (regs w)) (rctl (regs w)) 512 0 0 tctl_value).
Proof.
  intros Ha Hm. unfold e1000_tx_init. destruct (take_page_ok w used Ha) as (t & a & -> & Ht). cbn [mbind option_bind].
  destruct (Z.eqb_spec t NULL) as [|Hnn]; [eexists (-1), _; split; [done | by left] |]. destruct Ht as [|(_ & _ & _ & Ha1)]; [done |].
  set (w1 := upd_dev (set_tx_desc _) _). destruct (take_page_ok w1 _ Ha1) as (t2 & a2 & -> & Ht). cbn [mbind option_bind].
  destruct (Z.eqb_spec t2 NULL) as [|Hnn2]; [eexists (-1), _; split; [done | by left] |]. destruct Ht as [|(_ & _ & _ & Ha2)]; [done |].
  set (w2 := upd_dev (set_tx_buffers _) _).   destruct (tx_loop_ok 32 0 w2 _ Ha2) as (ok & w3 & E & Hok);
    [change (length _) with 256%nat; lia | change (length _) with 512%nat; lia |].
  change (Z.to_nat E1000_NUM_TX_DESC) with 32%nat. rewrite E. cbn [mbind option_bind]. destruct ok; [| eexists (-1), _; split; [done | by left]].
  destruct (Hok eq_refl) as (l & a3 & ds & bs & -> & Hl & Hn & Ha3 & Hf). cbn [negb].
  eexists 0, _. split; [done |]. right. split; [done |]. rewrite !write_reg_on by (rewrite ?base_written, ?base_set_hw, ?base_written; exact Hm). eexists l, a3, ds, bs, _. split; [reflexivity |].
  split; [done |]. split; [exact (new_pages_sub _ _ _ (sub_two t t2 used) Hn) |]. split; [| split; [exact Hf |]].
  - exact (alloc_ok_sub _ _ _ (sub_two_app l t t2 used) Ha3).
  - cbn [set_hw card]. rewrite !nic_written. reflexivity.
Qed.

(** What [probe_rings] keeps until the rings are set up. *)
Lemma reset_ok w : mmio_base (e1000_dev w) <> 0 ->
  exists h, e1000_reset w = set_hw h w.
Proof.
  intros Hm. unfold e1000_reset. rewrite (proj2 (Z.eqb_neq _ _) Hm), !write_reg_on by (rewrite ?base_written, ?base_set_hw, ?base_written; exact Hm). unfold e1000_read_reg.
  change (mmio_base (e1000_dev (set_hw _ _))) with (mmio_base (e1000_dev w)). rewrite (proj2 (Z.eqb_neq _ _) Hm).
  destruct (mmio_read _ _) as [v h]. by exists h.
Qed.

Lemma read_mac_ok w : mmio_base (e1000_dev w) <> 0 ->
  exists h mac, e1000_read_mac_address w = set_hw h (upd_dev (set_dev_mac mac) w) /\ length mac = 6%nat /\ Exists (fun b => b <> 0) mac.
Proof.
  intros Hm. unfold e1000_read_mac_address. unfold e1000_read_reg. rewrite (proj2 (Z.eqb_neq _ _) Hm). destruct (mmio_read E1000_RAL (card w)) as [ral h1].
  change (mmio_base (e1000_dev (set_hw h1 w))) with (mmio_base (e1000_dev w)). rewrite (proj2 (Z.eqb_neq _ _) Hm).
  destruct (mmio_read E1000_RAH _) as [rah h2]. set (mac := [_; _; _; _; _; _]). destruct (forallb _ mac) eqn:Ef.
  - rewrite !write_reg_on by (rewrite ?base_written, ?base_set_hw, ?base_written; exact Hm). eexists _, [0x52; 0x54; 0x00; 0x12; 0x34; 0x56]. split; [reflexivity |]. split; [done | by left].
  - exists h2, mac. split; [done |]. split; [done |]. apply Exists_exists. clear - Ef. induction mac as [|b l IH]; [done |]. cbn in Ef.
    destruct (Z.eqb_spec b 0); [| exists b; split; [by left | done]].
    destruct (IH Ef) as (x & Hx & Hne). exists x. split; [by right | done].
Qed.

Lemma lookup_pages l1 l2 i t : length l1 = 32%nat -> l1 !! i = Some t -> nth i (l1 ++ l2) 0 = t.
Proof. intros Hl Hi. rewrite nth_lookup, lookup_app_l by (apply lookup_lt_Some in Hi; lia). by rewrite Hi. Qed.

(** The buffers as one function of 64 indices. *)
Lemma distinct_ok l1 l2 : length l1 = 32%nat -> length l2 = 32%nat -> new_pages [] l1 -> new_pages l1 l2 ->
  distinct_pages (fun i => nth i (l1 ++ l2) 0).
Proof.
  intros H1 H2 (N1 & P1 & _) (N2 & P2 & D). assert (NoDup (l1 ++ l2)) as N.
  { apply list.NoDup_app. split_and!; [done | | done]. intros t Ht Ht'. by apply (D t). }
  assert (length (l1 ++ l2) = 64%nat) as Hl by (rewrite length_app; lia). split.
  - intros i Hi. destruct (lookup_lt_is_Some_2 (l1 ++ l2) i ltac:(lia)) as [t Ht]. rewrite nth_lookup, Ht. cbn.
    assert (Forall page_ok (l1 ++ l2)) as P by by apply Forall_app. exact (Forall_lookup_1 _ _ _ _ P Ht).
  - intros i j Hi Hj E. destruct (lookup_lt_is_Some_2 (l1 ++ l2) i ltac:(lia)) as [t Ht]. destruct (lookup_lt_is_Some_2 (l1 ++ l2) j ltac:(lia)) as [u Hu].
    rewrite !nth_lookup, Ht, Hu in E. cbn in E. subst u. by apply (NoDup_lookup _ _ _ _ N Ht).
Qed.

Lemma ring_empty (P : nat -> list Z -> Prop) (E : nat -> Prop) b : (forall i, (i < 32)%nat -> E i) -> ring P E b [].
Proof. intros HE. split_and!; [cbn; lia | done |]. intros k _. apply HE, slot_lt. Qed.

Lemma probe_rings_ok w :
  pa_ok (pages (vm w)) -> mmio_base (e1000_dev w) <> 0 ->
  exists r w', probe_rings w = Some (r, w') /\ (r = -1 \/
    r = 0 /\ Exists (fun b => b <> 0) (dev_mac (e1000_dev w')) /\ exists bufs, distinct_pages bufs /\ rings bufs w' [] []).
Proof.
  intros Hpa Hm. unfold probe_rings. destruct (reset_ok w Hm) as [h0 ->]. set (w0 := set_hw h0 w).
  destruct (read_mac_ok w0 Hm) as (h1 & mac & -> & _ & Hmac). set (w1 := set_hw h1 _).
  assert (alloc_ok (pages (vm w1)) []) as Ha by (split; [done |]; intros t Ht; by apply elem_of_nil in Ht).
  destruct (rx_init_ok w1 [] Ha Hm) as (r & w2 & -> & Hr). cbn [mbind option_bind].
  destruct Hr as [->|(-> & l1 & a1 & ds1 & bs1 & h2 & Ew2 & Hl1 & Hn1 & Ha1 & Hf1 & Hh2)]; [by eexists _, _; split; [| left] |].
  change (negb (0 =? 0)) with false. cbv iota. rewrite app_nil_r in Ha1.
  assert (alloc_ok (pages (vm w2)) l1) as Ha1' by by rewrite Ew2. assert (mmio_base (e1000_dev w2) <> 0) as Hm2 by by rewrite Ew2.
  destruct (tx_init_ok w2 l1 Ha1' Hm2) as (r & w3 & -> & Hr). cbn [mbind option_bind].
  destruct Hr as [->|(-> & l2 & a2 & ds2 & bs2 & h3 & Ew3 & Hl2 & Hn2 & _ & Hf2 & Hh3)]; [by eexists _, _; split; [| left] |].
  change (negb (0 =? 0)) with false. cbv iota. unfold e1000_read_reg.
  assert (mmio_base (e1000_dev w3) <> 0) as Hm3 by by rewrite Ew3. rewrite (proj2 (Z.eqb_neq _ _) Hm3).
  pose proof (nic_reset_clears (card w3)) as Hrst. pose proof (nic_read E1000_CTRL (card w3)) as Hrd.
  destruct (mmio_read E1000_CTRL (card w3)) as [ctrl h4]. cbn [fst snd] in *. rewrite write_reg_on by exact Hm3.
  eexists 0, _. split; [reflexivity |]. right. split; [done |].
  assert (nic_of (mmio_write E1000_CTRL (Z.lor ctrl E1000_CTRL_SLU) h4) = NicRegs 512 0 31 rctl_value 512 0 0 tctl_value) as Hnic.
  { rewrite nic_written, Hrd. unfold nic_write. change (E1000_CTRL =? E1000_CTRL) with true. cbv iota.
    assert (has_bit (Z.lor ctrl E1000_CTRL_SLU) E1000_CTRL_RST = false) as ->.
    { unfold has_bit in *. rewrite Z.land_lor_distr_l. change (Z.land E1000_CTRL_SLU E1000_CTRL_RST) with 0. by rewrite Z.lor_0_r. }
    rewrite Ew3. cbn [card]. rewrite Hh3. unfold regs. rewrite Ew2. cbn [card]. by rewrite Hh2. }
  set (w4 := set_initialized _). split.
  { assert (dev_mac (e1000_dev w4) = mac) as -> by (subst w4; cbn -[e1000_write_reg]; rewrite Ew3, Ew2; done). exact Hmac. }
  exists (fun i => nth i (l1 ++ l2) 0). split; [by apply distinct_ok |].
  assert (regs w4 = NicRegs 512 0 31 rctl_value 512 0 0 tctl_value) as Eregs by exact Hnic.
  destruct Hf1 as (_ & _ & Hf1 & _), Hf2 as (_ & _ & Hf2 & _).
  assert (e1000_dev w4 = set_tx_cur 0 (set_tx_desc ds2 (set_tx_buffers bs2 (set_rx_cur 0 (set_rx_desc ds1 (set_rx_buffers bs1 (e1000_dev w1))))))) as Ed
    by (subst w4; cbn -[set_tx_cur set_rx_cur]; rewrite Ew3, Ew2; done).
  assert (hhdm_offset (vm w4) = hhdm_offset (vm w)) as Eh by (subst w4; cbn; rewrite Ew3, Ew2; done).
  assert (hhdm_offset (vm w2) = hhdm_offset (vm w)) as Eh2 by by rewrite Ew2. rewrite Eh2 in Hf2.
  assert (e1000_initialized w4 = true) as Ei by done. clearbody w4.
  assert (forall i, (i < 32)%nat -> exists x, ds1 !! i = Some x /\ rx_status x = 0 /\ rx_buffer_addr x = nth i (l1 ++ l2) 0 /\
    bs1 !! i = Some (u64 (nth i (l1 ++ l2) 0 + hhdm_offset (vm w)))) as H1.
  { intros i Hi. destruct (lookup_lt_is_Some_2 l1 i ltac:(lia)) as [t Ht]. destruct (Hf1 i t Ht) as ((x & Hx & Hax & Hs) & Hb).
    exists x. rewrite (lookup_pages l1 l2 i t Hl1 Ht). done. }
  assert (forall i, (i < 32)%nat -> exists x, ds2 !! i = Some x /\ tx_status x = E1000_TXD_STAT_DD /\ tx_buffer_addr x = nth (32 + i) (l1 ++ l2) 0 /\
    bs2 !! i = Some (u64 (nth (32 + i) (l1 ++ l2) 0 + hhdm_offset (vm w)))) as H2.
  { intros i Hi. destruct (lookup_lt_is_Some_2 l2 i ltac:(lia)) as [t Ht]. destruct (Hf2 i t Ht) as ((x & Hx & Hax & Hs) & Hb).
    exists x. rewrite app_nth2 by lia. rewrite Hl1. replace (32 + i - 32)%nat with i by lia. rewrite nth_lookup, Ht. done. }
  split; rewrite ?Eregs, ?Ed; try done; try exact (Nat.le_0_l 31).
  - split; rewrite ?Eregs, ?Ed, ?Eh; try done.
    + intros i Hi. destruct (H1 i Hi) as (x & Hx & _ & Hax & Hb). by exists x.
    + intros i Hi. destruct (H2 i Hi) as (x & Hx & _ & Hax & Hb). by exists x.
  - apply ring_empty. intros i Hi. destruct (H1 i Hi) as (x & Hx & Hs & _). exists x. rewrite Ed, Hs. done.
  - apply ring_empty. intros i Hi. destruct (H2 i Hi) as (x & Hx & Hs & _). exists x. rewrite Ed, Hs. done.
Qed.

(** Setting the card up makes the two empty rings: when the registers are
    mapped, the part of [e1000_probe] from the reset on returns -1, when there are
    not enough pages, or 0; and then the driver is initialised, has a MAC address
    that is not all zeros, and the rings and the registers of the card satisfy the
    invariant of the two queues, with 64 buffers in different pages. *)
Theorem probe_rings_spec w :
  pa_ok (pages (vm w)) -> mmio_base (e1000_dev w) <> 0 ->
  exists r w', probe_rings w = Some (r, w') /\ (r = -1 \/
    r = 0 /\ Exists (fun b => b <> 0) (dev_mac (e1000_dev w')) /\ exists bufs, distinct_pages bufs /\ rings bufs w' [] []).
Proof. apply probe_rings_ok. Qed.

End init.

(** What the network devices rely on of a card. *)
#[export] Instance e1000_nic_laws {hw A : Type} {MMIO : Mmio hw} : NicLaws (world hw A).
Proof.
  split. intros w n r l w' Hn E. cbn in E. unfold e1000_receive_packet in E.
  destruct (negb (e1000_initialized w) || negb true || (n =? 0)) eqn:E0; [injection E as <- <- <-; cbn; split_and!; [lia | lia | done] |].
  destruct (rx_desc (e1000_dev w) !! _) as [x|]; [| injection E as <- <- <-; cbn; split_and!; [lia | lia | done]].
  cbn [mbind option_bind default] in E. destruct (negb (has_bit _ _)); [injection E as <- <- <-; cbn; split_and!; [lia | lia | done] |].
  destruct (rx_buffers (e1000_dev w) !! _) as [b|]; [| injection E as <- <- <-; cbn; split_and!; [lia | lia | done]].
  cbn [mbind option_bind default] in E. injection E as <- <- _. unfold load. rewrite length_fmap, length_seqZ.
  assert ((if rx_length x >? n then u16 n else rx_length x) <= n) as Hle.
  { rewrite Z.gtb_ltb. destruct (Z.ltb_spec n (rx_length x)); [| lia]. unfold u16. apply Z.mod_le; lia. }
  split_and!; [lia | lia |]. intros Hr. by rewrite seqZ_nil by lia.
Qed.

(** ** A card just set up *)

(** 512 KiB of free memory, a mapped card whose registers read 0. *)
Definition demo_pages : pmm := Pmm (Manager (replicate 16 0) 0x100000 128 128 16) 0x80000 0 0.
Definition demo_vm : vmm pmm :=
  Vmm pmm (fun _ => 0) [Ctx 0x1000 0x1000] 0 MMIO_VIRTUAL_BASE 0xFFFF800000000000 0 0x1000 0 [] demo_pages.
Definition demo_card : world nic pmm :=
  World _ _ (E1000Dev (Some 0) MMIO_VIRTUAL_BASE (replicate 6 0) [] [] 0 [] [] 0) false demo_vm (fun _ => 0) nic0.

Lemma demo_pages_ok : pmm_pages_ok demo_pages.
Proof. split_and!; [split; vm_compute; done || (split; discriminate) | done | vm_compute; discriminate]. Qed.

Definition result_of {W} (x : option (Z * W)) : Z := match x with Some (r, _) => r | None => -2 end.

Example demo_probe : result_of (probe_rings demo_card) = 0.
Proof. vm_compute. reflexivity. Qed.

Lemma probe_rings_spec_witness :
  exists w' bufs, probe_rings demo_card = Some (0, w') /\ rings bufs w' [] [].
Proof.
  destruct (probe_rings_spec demo_card) as (r & w' & E & Hr); [exact demo_pages_ok | discriminate |].
  pose proof demo_probe as H0. rewrite E in H0. cbn in H0. subst r. destruct Hr as [Hr|(_ & _ & bufs & _ & R)]; [discriminate Hr |].
  exists w', bufs. split; [exact E | exact R].
Defined.

Lemma demo_rings : exists (w : world nic pmm) bufs, distinct_pages bufs /\ rings bufs w [] [].
Proof.
  destruct (probe_rings_ok demo_card) as (r & w' & E & Hr); [exact demo_pages_ok | discriminate |].
  pose proof demo_probe as H0. rewrite E in H0. cbn in H0. subst r. destruct Hr as [Hr|(_ & _ & bufs & Hd & R)]; [discriminate Hr |].
  exists w', bufs. split; [exact Hd | exact R].
Qed.

Lemma frame_ok_small l : (0 < length l <= 2048)%nat -> frame_ok l.
Proof. unfold frame_ok, E1000_BUFFER_SIZE. lia. Qed.

Lemma e1000_fifo_witness :
  exists (w w' : world nic pmm) es, steps w es w' /\ accepted es = [[1; 2; 3]] /\
    exists sending, accepted es = frames_out es ++ sending /\ (length sending <= 32)%nat.
Proof.
  destruct demo_rings as (w & bufs & Hd & R).
  destruct (fill_ok bufs Hd [[1; 2; 3]] w [] [] R) as (es & w' & Hs & Ea & _); [repeat constructor; vm_compute; discriminate | cbn; lia |].
  destruct (e1000_fifo bufs Hd w es w' R Hs) as ((taken & waiting & sending & _ & _ & E & _ & Hl) & _).
  exists w, w', es. split; [exact Hs |]. split; [exact Ea |]. exists sending. split; [exact E | exact Hl].
Defined.

Lemma e1000_tx_stops_witness :
  exists (w w' : world nic pmm) es, steps w es w' /\ accepted es = replicate 32 [1] /\
    forall es' w'', steps w' es' w'' -> frames_out es' = [].
Proof.
  destruct demo_rings as (w & bufs & Hd & R).
  destruct (e1000_tx_stops bufs Hd w (replicate 32 [1]) R) as (es & w' & Hs & Ea & H);
    [reflexivity | apply Forall_replicate, frame_ok_small; cbn; lia |].
  exists w, w', es. split; [exact Hs |]. split; [exact Ea |]. intros es' w'' Hs'. exact (proj1 (H es' w'' Hs')).
Defined.
