(* ===== verification/Timer.v ===== *)
(** * The interrupt controllers, the interval timer and the tick counter

    [timer/timer.c]: the pair of 8259 controllers ([pic_init], the masks and
    the end of interrupt), the programming of the 8254 timer and the busy wait
    [timer_sleep_ms].  The tick counter and the call of [scheduler_tick] are in
    [Sched]; [timer_interrupt] adds the end of interrupt. *)

From S2P Require Import Prelude Ports.
From S2P Require Thread Sched.

Definition PIT_CHANNEL0_DATA := 0x40.
Definition PIT_COMMAND := 0x43.
Definition PIT_CMD_CHANNEL0 := 0x00.
Definition PIT_CMD_ACCESS_LOHI := 0x30.
Definition PIT_CMD_MODE_SQUARE := 0x06.
Definition PIT_CMD_BINARY := 0x00.
Definition PIC1_COMMAND := 0x20.
Definition PIC1_DATA := 0x21.
Definition PIC2_COMMAND := 0xA0.
Definition PIC2_DATA := 0xA1.
Definition PIC_EOI := 0x20.
Definition ICW1_ICW4 := 0x01.
Definition ICW1_INIT := 0x10.
Definition ICW4_8086 := 0x01.
Definition PIT_FREQUENCY := 1193182.
Definition TIMER_FREQUENCY_HZ := 1000.
Definition IRQ_TIMER := 0.
Definition IRQ_KEYBOARD := 1.

Section timer.
Context {hw : Type} {PORTS : Ports hw}.
Implicit Type h : hw.

(** ** The controllers *)

Definition pic_init h : hw :=
  let '(mask1, h) := inb PIC1_DATA h in
  let '(mask2, h) := inb PIC2_DATA h in
  let h := io_wait (outb PIC1_COMMAND (Z.lor ICW1_INIT ICW1_ICW4) h) in
  let h := io_wait (outb PIC2_COMMAND (Z.lor ICW1_INIT ICW1_ICW4) h) in
  let h := io_wait (outb PIC1_DATA 0x20 h) in
  let h := io_wait (outb PIC2_DATA 0x28 h) in
  let h := io_wait (outb PIC1_DATA 0x04 h) in
  let h := io_wait (outb PIC2_DATA 0x02 h) in
  let h := io_wait (outb PIC1_DATA ICW4_8086 h) in
  let h := io_wait (outb PIC2_DATA ICW4_8086 h) in
  let h := outb PIC1_DATA mask1 h in
  outb PIC2_DATA mask2 h.

Definition pic_send_eoi (irq : Z) h : hw :=
  let h := if irq >=? 8 then outb PIC2_COMMAND PIC_EOI h else h in
  outb PIC1_COMMAND PIC_EOI h.

(** The port and the bit number both mask functions start with. *)
Definition mask_port (irq : Z) : Z := if irq <? 8 then PIC1_DATA else PIC2_DATA.
Definition mask_irq (irq : Z) : Z := if irq <? 8 then irq else u8 (irq - 8).

(** A shift of the [int] 1 by 31 or more is undefined. *)
Definition pic_set_mask (irq : Z) h : option hw :=
  if mask_irq irq >=? 31 then None else
  let '(m, h) := inb (mask_port irq) h in
  Some (outb (mask_port irq) (u8 (Z.lor m (Z.shiftl 1 (mask_irq irq)))) h).

Definition pic_clear_mask (irq : Z) h : option hw :=
  if mask_irq irq >=? 31 then None else
  let '(m, h) := inb (mask_port irq) h in
  Some (outb (mask_port irq) (u8 (Z.land m (Z.lnot (Z.shiftl 1 (mask_irq irq))))) h).

(** ** The timer *)

Definition timer_interrupt (s : Sched.sched) h : option (Sched.sched * hw) :=
  s ← Sched.timer_irq_handler s;
  Some (s, outb PIC1_COMMAND PIC_EOI h).

Definition timer_divisor : Z := u16 (PIT_FREQUENCY / TIMER_FREQUENCY_HZ).

(** The [sti] at the end is the result's flag. *)
Definition timer_init h : option (bool * hw) :=
  let h := pic_init h in
  let divisor := timer_divisor in
  let h := outb PIT_COMMAND
    (Z.lor (Z.lor (Z.lor PIT_CMD_CHANNEL0 PIT_CMD_ACCESS_LOHI) PIT_CMD_MODE_SQUARE) PIT_CMD_BINARY) h in
  let h := io_wait (outb PIT_CHANNEL0_DATA (u8 (Z.land divisor 0xFF)) h) in
  let h := outb PIT_CHANNEL0_DATA (u8 (Z.land (Z.shiftr divisor 8) 0xFF)) h in
  h ← pic_clear_mask IRQ_TIMER h;
  Some (true, h).

End timer.

(** [clock k] is the value of [ticks] at its [k]-th read; the interrupt changes
    it behind the loop.  The result is the number of reads done. *)
Fixpoint sleep_loop (fuel : nat) (clock : nat -> Z) (target : Z) (k : nat) : option nat :=
  match fuel with
  | O => None
  | S fuel' => if clock k <? target then sleep_loop fuel' clock target (S k) else Some (S k)
  end.

Definition timer_sleep_ms (fuel : nat) (clock : nat -> Z) (ms : Z) (k : nat) : option nat :=
  sleep_loop fuel clock (u64 (clock k + ms)) (S k).

(** ** The devices *)

(** An 8259: the mask, the vector offset, the requests in service, and the
    initialisation word it expects next (0 when it is initialised). *)
Record chip := Chip { imr : Z; offset : Z; cascade : Z; in_service : Z; icw : Z }.

(** The in-service request of highest priority: the lowest bit set. *)
Definition lowest_bit (x : Z) : Z := Z.land x (- x).

Definition chip_command (v : Z) (c : chip) : chip :=
  if Z.testbit v 4 then Chip 0 (offset c) (cascade c) 0 2
  else if v =? PIC_EOI then Chip (imr c) (offset c) (cascade c) (in_service c - lowest_bit (in_service c)) (icw c)
  else c.

Definition chip_data (v : Z) (c : chip) : chip :=
  if icw c =? 2 then Chip (imr c) (Z.land v 0xF8) (cascade c) (in_service c) 3
  else if icw c =? 3 then Chip (imr c) (offset c) v (in_service c) 4
  else if icw c =? 4 then Chip (imr c) (offset c) (cascade c) (in_service c) 0
  else Chip v (offset c) (cascade c) (in_service c) 0.

(** Channel 0 of an 8254 with both bytes accessed: the mode, the reload value
    and, after the first byte, that byte. *)
Record pit := Pit { pit_mode : Z; pit_reload : Z; pit_low : option Z }.

Definition pit_command (v : Z) (p : pit) : pit :=
  if Z.land v 0xF0 =? 0x30 then Pit (Z.land v 0x0F) (pit_reload p) None else p.

Definition pit_data (v : Z) (p : pit) : pit :=
  match pit_low p with
  | None => Pit (pit_mode p) (pit_reload p) (Some v)
  | Some lo => Pit (pit_mode p) (lo + 0x100 * v) None
  end.

Record board := Board { pic1 : chip; pic2 : chip; pit0 : pit }.

Definition board_outb (port v : Z) (b : board) : board :=
  if port =? PIC1_COMMAND then Board (chip_command v (pic1 b)) (pic2 b) (pit0 b)
  else if port =? PIC1_DATA then Board (chip_data v (pic1 b)) (pic2 b) (pit0 b)
  else if port =? PIC2_COMMAND then Board (pic1 b) (chip_command v (pic2 b)) (pit0 b)
  else if port =? PIC2_DATA then Board (pic1 b) (chip_data v (pic2 b)) (pit0 b)
  else if port =? PIT_COMMAND then Board (pic1 b) (pic2 b) (pit_command v (pit0 b))
  else if port =? PIT_CHANNEL0_DATA then Board (pic1 b) (pic2 b) (pit_data v (pit0 b))
  else b.

(** What the functions rely on: writes act on the board as above, reads do not
    change it, and the data port of an initialised controller reads its mask. *)
Class BoardLaws (hw : Type) `{Ports hw} := {
  board_of : hw -> board;
  board_out : forall port v h, board_of (outb port v h) = board_outb port v (board_of h);
  board_in : forall port h, board_of (inb port h).2 = board_of h;
  board_mask1 : forall h, icw (pic1 (board_of h)) = 0 -> (inb PIC1_DATA h).1 = imr (pic1 (board_of h));
  board_mask2 : forall h, icw (pic2 (board_of h)) = 0 -> (inb PIC2_DATA h).1 = imr (pic2 (board_of h));
}.

(** A board alone is such hardware; the other ports read 0. *)
#[export] Instance board_ports : Ports board := {|
  inb port b := ((if port =? PIC1_DATA then imr (pic1 b) else if port =? PIC2_DATA then imr (pic2 b) else 0), b);
  outb := board_outb;
  inw _ b := (0, b); outw _ _ b := b; inl _ b := (0, b); outl _ _ b := b;
|}.

#[export] Instance board_laws : BoardLaws board.
Proof. refine {| board_of b := b |}; done. Defined.

(** ** The masks as a set of interrupts *)

(** The interrupts 0 to 15 that the controllers do not pass on. *)
Definition masked (b : board) (irq : Z) : bool :=
  if irq <? 8 then Z.testbit (imr (pic1 b)) irq else Z.testbit (imr (pic2 b)) (irq - 8).

Record board_ready (b : board) : Prop := {
  br_icw1 : icw (pic1 b) = 0;
  br_icw2 : icw (pic2 b) = 0;
  br_imr1 : 0 <= imr (pic1 b) < 0x100;
  br_imr2 : 0 <= imr (pic2 b) < 0x100;
}.

Section timer_laws.
Context {hw : Type} {PORTS : Ports hw} {LAWS : BoardLaws hw}.
Implicit Types (h : hw) (b : board).

Lemma mask_irq_range irq : 0 <= irq < 16 -> 0 <= mask_irq irq < 8.
Proof. intros. unfold mask_irq. destruct (Z.ltb_spec irq 8); [lia | rewrite u8_small; lia]. Qed.

(** The register of [irq] and the rest of the board after a write [v] to it. *)
Lemma board_mask_write irq v h :
  0 <= irq < 16 -> board_ready (board_of h) -> 0 <= v < 0x100 ->
  let b := board_of h in
  let b' := board_of (outb (mask_port irq) v h) in
  board_ready b' /\ pit0 b' = pit0 b /\
  (forall i, 0 <= i < 16 -> masked b' i =
     if Bool.eqb (i <? 8) (irq <? 8) then Z.testbit v (mask_irq i) else masked b i) /\
  offset (pic1 b') = offset (pic1 b) /\ offset (pic2 b') = offset (pic2 b).
Proof.
  intros Hi [I1 I2 R1 R2] Hv. cbn zeta. rewrite board_out. destruct (board_of h) as [[] [] p].
  cbn in *. subst. unfold mask_port, masked, mask_irq. destruct (Z.ltb_spec irq 8); cbn.
  all: split_and!; try done.
  all: intros i ?; destruct (Z.ltb_spec i 8); try done. all: cbn; rewrite ?u8_small by lia; done.
Qed.

Lemma board_mask_read irq h :
  0 <= irq < 16 -> board_ready (board_of h) ->
  let m := (inb (mask_port irq) h).1 in
  0 <= m < 0x100 /\
  (forall i, 0 <= i < 16 -> (i <? 8) = (irq <? 8) -> Z.testbit m (mask_irq i) = masked (board_of h) i).
Proof.
  intros Hi [I1 I2 R1 R2]. unfold mask_port, masked, mask_irq.
  destruct (Z.ltb_spec irq 8); rewrite ?board_mask1, ?board_mask2 by done.
  all: split; [done |]. all: intros i ? E; rewrite E; try done. rewrite u8_small; [done|].
  destruct (Z.ltb_spec i 8); [done | lia].
Qed.

Lemma mask_irq_inj i irq :
  0 <= i < 16 -> 0 <= irq < 16 -> (i <? 8) = (irq <? 8) -> (mask_irq i =? mask_irq irq) = (i =? irq).
Proof.
  intros ? ? E. unfold mask_irq. rewrite E.
  destruct (Z.ltb_spec irq 8); [done |]. destruct (Z.ltb_spec i 8); [done|]. rewrite !u8_small by lia.
  destruct (Z.eqb_spec i irq); [subst; apply Z.eqb_refl | apply Z.eqb_neq; lia].
Qed.

(** Both mask functions write the register with one bit changed. *)
Lemma mask_change_ok irq (f : Z -> Z) (g : bool -> bool) h :
  0 <= irq < 16 -> board_ready (board_of h) ->
  (forall m k, 0 <= k < 8 -> Z.testbit (u8 (f m)) k = if k =? mask_irq irq then g (Z.testbit m k) else Z.testbit m k) ->
  let '(m, h1) := inb (mask_port irq) h in
  let b' := board_of (outb (mask_port irq) (u8 (f m)) h1) in
  board_ready b' /\ pit0 b' = pit0 (board_of h) /\
  offset (pic1 b') = offset (pic1 (board_of h)) /\ offset (pic2 b') = offset (pic2 (board_of h)) /\
  forall i, 0 <= i < 16 -> masked b' i = if i =? irq then g (masked (board_of h) irq) else masked (board_of h) i.
Proof.
  intros Hi Hb Hf. destruct (board_mask_read irq h Hi Hb) as [_ Hm].
  pose proof (board_in (mask_port irq) h) as Hin. destruct (inb (mask_port irq) h) as [m h1]. cbn in Hm, Hin.
  rewrite <- Hin in Hb.
  destruct (board_mask_write irq (u8 (f m)) h1 Hi Hb ltac:(apply u8_range)) as (B & P & M & O1 & O2).
  rewrite Hin in *. split_and!; try done. intros i Hi'. rewrite M by done.
  destruct (Bool.eqb (i <? 8) (irq <? 8)) eqn:E.
  - apply Bool.eqb_prop in E. rewrite Hf by (by apply mask_irq_range). rewrite mask_irq_inj, Hm by done.
    destruct (Z.eqb_spec i irq); [by subst | done].
  - destruct (Z.eqb_spec i irq); [subst; by rewrite Bool.eqb_reflx in E | done].
Qed.

Lemma pic_clear_mask_ok irq h :
  0 <= irq < 16 -> board_ready (board_of h) ->
  exists h', pic_clear_mask irq h = Some h' /\ board_ready (board_of h') /\ pit0 (board_of h') = pit0 (board_of h) /\
    offset (pic1 (board_of h')) = offset (pic1 (board_of h)) /\
    offset (pic2 (board_of h')) = offset (pic2 (board_of h)) /\
    forall i, 0 <= i < 16 -> masked (board_of h') i = if i =? irq then false else masked (board_of h) i.
Proof.
  intros Hi Hb. unfold pic_clear_mask. pose proof (mask_irq_range irq Hi).
  destruct (Z.geb_spec (mask_irq irq) 31); [lia |].
  pose proof (mask_change_ok irq (fun m => Z.land m (Z.lnot (Z.shiftl 1 (mask_irq irq)))) (fun _ => false) h Hi Hb) as H1.
  destruct (inb (mask_port irq) h) as [m h1]. eexists. split; [done |]. apply H1. intros x k Hk.
  rewrite u8_testbit, Z.land_spec, Z.lnot_spec, shiftl_1_testbit by lia.
  destruct (k =? mask_irq irq); cbn; by rewrite ?andb_false_r, ?andb_true_r.
Qed.

Lemma pic_set_mask_ok irq h :
  0 <= irq < 16 -> board_ready (board_of h) ->
  exists h', pic_set_mask irq h = Some h' /\ board_ready (board_of h') /\ pit0 (board_of h') = pit0 (board_of h) /\
    offset (pic1 (board_of h')) = offset (pic1 (board_of h)) /\
    offset (pic2 (board_of h')) = offset (pic2 (board_of h)) /\
    forall i, 0 <= i < 16 -> masked (board_of h') i = if i =? irq then true else masked (board_of h) i.
Proof.
  intros Hi Hb. unfold pic_set_mask. pose proof (mask_irq_range irq Hi).
  destruct (Z.geb_spec (mask_irq irq) 31); [lia |].
  pose proof (mask_change_ok irq (fun m => Z.lor m (Z.shiftl 1 (mask_irq irq))) (fun _ => true) h Hi Hb) as H1.
  destruct (inb (mask_port irq) h) as [m h1]. eexists. split; [done |]. apply H1. intros x k Hk.
  rewrite u8_testbit, Z.lor_spec, shiftl_1_testbit by lia.
  destruct (k =? mask_irq irq); cbn; by rewrite ?orb_false_r, ?orb_true_r.
Qed.

Lemma board_io_wait h : board_of (io_wait h) = board_of h.
Proof. unfold io_wait. by rewrite board_out. Qed.

(** The initialisation sequence leaves the masks as they were and moves the
    vectors to 32 and 40. *)
Lemma pic_init_ok h :
  board_ready (board_of h) ->
  board_of (pic_init h) =
    Board (Chip (imr (pic1 (board_of h))) 32 4 0 0) (Chip (imr (pic2 (board_of h))) 40 2 0 0) (pit0 (board_of h)).
Proof.
  intros [I1 I2 _ _]. unfold pic_init. pose proof (board_in PIC1_DATA h) as E1. pose proof (board_mask1 h I1) as M1.
  destruct (inb PIC1_DATA h) as [m1 h1]. cbn in E1, M1. rewrite <- E1 in I2.
  pose proof (board_in PIC2_DATA h1) as E2. pose proof (board_mask2 h1 I2) as M2.
  destruct (inb PIC2_DATA h1) as [m2 h2]. cbn in E2, M2.
  repeat rewrite ?board_io_wait, ?board_out. rewrite E2. subst m1 m2. rewrite <- E1.
  destruct (board_of h1) as [[] [] p]. reflexivity.
Qed.

(** [timer_init] initialises both controllers, with the interrupts 0 to 15
    on the vectors 32 to 47 and every mask as it was except that the timer is
    unmasked; channel 0 of the interval timer is a square wave with the divisor
    1193, within one part in a thousand of 1000 interrupts a second; and
    interrupts are enabled. *)
Theorem timer_init_spec h :
  board_ready (board_of h) ->
  exists h', timer_init h = Some (true, h') /\ board_ready (board_of h') /\
    offset (pic1 (board_of h')) = 32 /\ offset (pic2 (board_of h')) = 40 /\
    (forall i, 0 <= i < 16 -> masked (board_of h') i = negb (i =? IRQ_TIMER) && masked (board_of h) i) /\
    pit0 (board_of h') = Pit PIT_CMD_MODE_SQUARE 1193 None /\
    999 * 1193 < PIT_FREQUENCY < 1001 * 1193.
Proof.
  intros Hb. unfold timer_init. set (h3 := outb PIT_CHANNEL0_DATA _ _).
  assert (board_of h3 = Board (Chip (imr (pic1 (board_of h))) 32 4 0 0) (Chip (imr (pic2 (board_of h))) 40 2 0 0)
    (Pit PIT_CMD_MODE_SQUARE 1193 None)) as E3.
  { subst h3. repeat rewrite ?board_io_wait, ?board_out. by rewrite pic_init_ok. }
  clearbody h3. destruct Hb as [_ _ R1 R2].
  destruct (pic_clear_mask_ok IRQ_TIMER h3) as (h' & -> & Hb' & P & O1 & O2 & M); [done | by rewrite E3 |].
  exists h'. rewrite E3 in *. split_and!; try done.
  intros i Hi. rewrite M by done. by destruct (i =? IRQ_TIMER).
Qed.

End timer_laws.

(** A board as the firmware leaves it: every interrupt but the cascade masked. *)
Definition firmware_board : board := Board (Chip 0xFB 8 4 0 0) (Chip 0xFF 0x70 2 0 0) (Pit 6 0 None).

Lemma timer_init_spec_witness :
  exists h', timer_init firmware_board = Some (true, h') /\
    masked h' 0 = false /\ masked h' 1 = true /\ masked h' 2 = false /\ pit_reload (pit0 h') = 1193.
Proof.
  destruct (timer_init_spec (hw := board) firmware_board ltac:(split; cbn; lia)) as (h' & E & B & _ & _ & M & P & _).
  exists h'. cbn [board_of board_laws] in *. rewrite P. split_and!; try done; by rewrite M by lia.
Defined.

(** ** The busy wait *)

Lemma sleep_loop_ok clock target n fuel k :
  (forall i, (i < n)%nat -> clock (k + i)%nat < target) -> target <= clock (k + n)%nat -> (n < fuel)%nat ->
  sleep_loop fuel clock target k = Some (S (k + n)).
Proof.
  revert fuel k. induction n as [|n IH]; intros [|fuel] k Hlt Hge Hf; try lia; cbn [sleep_loop].
  - rewrite Nat.add_0_r in *. by destruct (Z.ltb_spec (clock k) target); [lia |].
  - pose proof (Hlt 0%nat ltac:(lia)) as H0. rewrite Nat.add_0_r in H0.
    destruct (Z.ltb_spec (clock k) target); [| lia].
    rewrite (IH fuel (S k)); [f_equal; lia | | by replace (S k + n)%nat with (k + S n)%nat by lia | lia].
    intros i Hi. replace (S k + i)%nat with (k + S i)%nat by lia. apply Hlt. lia.
Qed.

(** [timer_sleep_ms] returns at the first read at which at least [ms] ticks
    have passed, on any clock that gets there, and never while the clock stands
    still (interrupts disabled), unless [ms] is 0. *)
Theorem timer_sleep_ms_spec clock ms k :
  0 <= ms < 0x100000000 -> 0 <= clock k < 0x8000000000000000 ->
  (forall n, (forall i, (i < n)%nat -> clock (S k + i)%nat < clock k + ms) -> clock k + ms <= clock (S k + n)%nat ->
   forall fuel, (n < fuel)%nat -> timer_sleep_ms fuel clock ms k = Some (S (S k + n))) /\
  (0 < ms -> (forall i, clock i = clock k) -> forall fuel, timer_sleep_ms fuel clock ms k = None).
Proof.
  intros Hms Hc. unfold timer_sleep_ms. rewrite u64_small by lia. split.
  - intros n Hlt Hge fuel Hf. by apply sleep_loop_ok.
  - intros Hpos Hst fuel. generalize (S k). induction fuel as [|fuel IH]; intros j; [done |].
    cbn [sleep_loop]. rewrite (Hst j). destruct (Z.ltb_spec (clock k) (clock k + ms)); [apply IH | lia].
Qed.

Lemma timer_sleep_ms_spec_witness :
  timer_sleep_ms 100 (fun k => Z.of_nat k / 5) 10 0 = Some 51%nat.
Proof.
  destruct (timer_sleep_ms_spec (fun k => Z.of_nat k / 5) 10 0 ltac:(lia) ltac:(done)) as [H _].
  rewrite (H 49%nat); [done | intros i Hi; cbn; zlia | done | lia].
Defined.
