(* ===== verification/Keyboard.v ===== *)
(** * The PS/2 keyboard

    [drivers/keyboard.c]: the interrupt handler decodes scan codes (set 1) into
    characters and puts them in a ring of 64; [keyboard_get_char] takes them
    out, and an interrupt may come between any two of its accesses.  A [char]
    is signed on x86-64: the arrow keys 0x80 to 0x83 are stored as negative. *)

From S2P Require Import Prelude Ports Timer.

Definition KEYBOARD_DATA_PORT := 0x60.
Definition KEYBOARD_STATUS_PORT := 0x64.
Definition KEYBOARD_STATUS_OUTPUT_FULL := 0x01.
Definition KEY_LCTRL := 0x1D.
Definition KEY_LSHIFT := 0x2A.
Definition KEY_RSHIFT := 0x36.
Definition KEY_LALT := 0x38.
Definition KEY_CAPSLOCK := 0x3A.
Definition KEY_BUFFER_SIZE := 64.
Definition MOD_SHIFT := 0x01.
Definition MOD_CTRL := 0x02.
Definition MOD_ALT := 0x04.
Definition MOD_CAPS := 0x08.
Definition SPECIAL_KEY_UP := 0x80.
Definition SPECIAL_KEY_DOWN := 0x81.
Definition SPECIAL_KEY_LEFT := 0x82.
Definition SPECIAL_KEY_RIGHT := 0x83.

Definition schar (x : Z) : Z := (x + 128) mod 256 - 128.

(** The tables, as character codes. *)
Definition scancode_to_ascii : list Z := [
  0;    0x1B; 49; 50; 51; 52; 53; 54; 55; 56; 57; 48; 45; 61; 8;
  9;    113; 119; 101; 114; 116; 121; 117; 105; 111; 112; 91; 93; 10;
  0;    97; 115; 100; 102; 103; 104; 106; 107; 108; 59; 39; 96;
  0;    92; 122; 120; 99; 118; 98; 110; 109; 44; 46; 47; 0;
  42;   0;   32].

Definition scancode_to_ascii_shift : list Z := [
  0;    0x1B; 33; 64; 35; 36; 37; 94; 38; 42; 40; 41; 95; 43; 8;
  9;    81; 87; 69; 82; 84; 89; 85; 73; 79; 80; 123; 125; 10;
  0;    65; 83; 68; 70; 71; 72; 74; 75; 76; 58; 34; 126;
  0;    124; 90; 88; 67; 86; 66; 78; 77; 60; 62; 63; 0;
  42;   0;   32].

Record keyboard := Keyboard {
  key_buffer : list Z;
  buffer_head : Z;
  buffer_tail : Z;
  modifier_state : Z;
  extended_key : bool;
}.
Implicit Type k : keyboard.

Definition set_buffer v k := Keyboard v (buffer_head k) (buffer_tail k) (modifier_state k) (extended_key k).
Definition set_buffer_head v k := Keyboard (key_buffer k) v (buffer_tail k) (modifier_state k) (extended_key k).
Definition set_buffer_tail v k := Keyboard (key_buffer k) (buffer_head k) v (modifier_state k) (extended_key k).
Definition set_modifiers v k := Keyboard (key_buffer k) (buffer_head k) (buffer_tail k) v (extended_key k).
Definition set_extended v k := Keyboard (key_buffer k) (buffer_head k) (buffer_tail k) (modifier_state k) v.

(** Static storage is zero. *)
Definition keyboard_zero : keyboard := Keyboard (replicate 64 0) 0 0 0 false.

(** ** The ring *)

(** None: an index outside the array. *)
Definition buffer_put (c : Z) k : option keyboard :=
  let next := Z.rem (buffer_head k + 1) KEY_BUFFER_SIZE in
  if next =? buffer_tail k then Some k else
  _ ← key_buffer k !! Z.to_nat (buffer_head k);
  Some (set_buffer_head next (set_buffer (<[Z.to_nat (buffer_head k) := schar c]> (key_buffer k)) k)).

Definition buffer_get k : option (Z * keyboard) :=
  if buffer_tail k =? buffer_head k then Some (0, k) else
  c ← key_buffer k !! Z.to_nat (buffer_tail k);
  Some (c, set_buffer_tail (Z.rem (buffer_tail k + 1) KEY_BUFFER_SIZE) k).

Definition keyboard_has_key k : bool := negb (buffer_head k =? buffer_tail k).
Definition keyboard_get_modifiers k : Z := modifier_state k.

(** ** The interrupt handler *)

(** The four arrows after the prefix 0xE0. *)
Definition extended_code (key : Z) : option Z :=
  if key =? 0x48 then Some SPECIAL_KEY_UP
  else if key =? 0x50 then Some SPECIAL_KEY_DOWN
  else if key =? 0x4B then Some SPECIAL_KEY_LEFT
  else if key =? 0x4D then Some SPECIAL_KEY_RIGHT
  else None.

Definition set_or_clear (released : bool) (bit m : Z) : Z :=
  if released then u8 (Z.land m (Z.lnot bit)) else u8 (Z.lor m bit).

Definition to_ascii (m key : Z) : option Z :=
  if key <? Z.of_nat (length scancode_to_ascii) then
    let shift := negb (Z.land m MOD_SHIFT =? 0) in
    let caps := negb (Z.land m MOD_CAPS =? 0) in
    let shift := if caps && (key >=? 0x10) && (key <=? 0x32) then negb shift else shift in
    if shift then scancode_to_ascii_shift !! Z.to_nat key else scancode_to_ascii !! Z.to_nat key
  else Some 0.

(** The handler between the read of the scan code and the label [done]. *)
Definition handle_scancode (scancode : Z) k : option keyboard :=
  if scancode =? 0xE0 then Some (set_extended true k) else
  let released := negb (Z.land scancode 0x80 =? 0) in
  let key := Z.land scancode 0x7F in
  if extended_key k then
    let k := set_extended false k in
    if negb released then
      match extended_code key with Some c => buffer_put c k | None => Some k end
    else Some k
  else if (key =? KEY_LSHIFT) || (key =? KEY_RSHIFT) then
    Some (set_modifiers (set_or_clear released MOD_SHIFT (modifier_state k)) k)
  else if key =? KEY_LCTRL then
    Some (set_modifiers (set_or_clear released MOD_CTRL (modifier_state k)) k)
  else if key =? KEY_LALT then
    Some (set_modifiers (set_or_clear released MOD_ALT (modifier_state k)) k)
  else if key =? KEY_CAPSLOCK then
    Some (if negb released then set_modifiers (Z.lxor (modifier_state k) MOD_CAPS) k else k)
  else if released then Some k
  else
    ascii ← to_ascii (modifier_state k) key;
    if negb (ascii =? 0) then buffer_put ascii k else Some k.

Section handler.
Context {hw : Type} {PORTS : Ports hw}.
Implicit Type h : hw.

(** The count of interrupts is for the debug log only and left out. *)
Definition keyboard_irq_handler k h : option (keyboard * hw) :=
  let '(scancode, h) := inb KEYBOARD_DATA_PORT h in
  k ← handle_scancode scancode k;
  Some (k, pic_send_eoi IRQ_KEYBOARD h).

Fixpoint drain (fuel : nat) h : option hw :=
  match fuel with
  | O => None
  | S fuel' =>
      let '(status, h) := inb KEYBOARD_STATUS_PORT h in
      if negb (Z.land status KEYBOARD_STATUS_OUTPUT_FULL =? 0)
      then drain fuel' (inb KEYBOARD_DATA_PORT h).2 else Some h
  end.

Definition keyboard_init (fuel : nat) h : option hw :=
  h ← drain fuel h;
  pic_clear_mask IRQ_KEYBOARD h.

End handler.

(** ** The reader

    The statements of [keyboard_get_char] and [buffer_get] that access the
    shared variables: the test of the loop, the test of [buffer_get], the load
    of the character and the store of the tail.  A step is one of them or a
    whole interrupt. *)

Inductive reader := Idle | Testing | Getting | Loading | Loaded (c : Z).

Inductive event := Key (scancode : Z) | Returned (c : Z).

Inductive kstep : keyboard * reader -> option event -> keyboard * reader -> Prop :=
  | step_irq scancode k k' r : 0 <= scancode < 0x100 ->
      handle_scancode scancode k = Some k' -> kstep (k, r) (Some (Key scancode)) (k', r)
  | step_call k : kstep (k, Idle) None (k, Testing)
  | step_wait k : keyboard_has_key k = false -> kstep (k, Testing) None (k, Testing)
  | step_ready k : keyboard_has_key k = true -> kstep (k, Testing) None (k, Getting)
  | step_empty k : buffer_tail k = buffer_head k -> kstep (k, Getting) (Some (Returned 0)) (k, Idle)
  | step_nonempty k : buffer_tail k <> buffer_head k -> kstep (k, Getting) None (k, Loading)
  | step_load k c : key_buffer k !! Z.to_nat (buffer_tail k) = Some c -> kstep (k, Loading) None (k, Loaded c)
  | step_return k c :
      kstep (k, Loaded c) (Some (Returned c))
        (set_buffer_tail (Z.rem (buffer_tail k + 1) KEY_BUFFER_SIZE) k, Idle).

(** Runs with the events they show. *)
Inductive kruns : keyboard * reader -> list event -> keyboard * reader -> Prop :=
  | kruns_refl s : kruns s [] s
  | kruns_step s1 s2 s3 e l : kruns s1 l s2 -> kstep s2 e s3 -> kruns s1 (l ++ option_list e) s3.

(** ** Specification: a queue of at most 63 characters and the decoder *)

Record decoder := Decoder { shift : bool; ctrl : bool; alt : bool; caps : bool; prefix : bool }.

(** The US layout of the unextended keys: two characters per key, without and
    with shift; None for the keys without a character. *)
Definition layout (shifted : bool) (key : Z) : option Z :=
  match (if shifted then scancode_to_ascii_shift else scancode_to_ascii) !! Z.to_nat key with
  | Some 0 | None => None
  | Some c => Some c
  end.

(** Decoding one scan code: the decoder after it and the character typed. *)
Definition decode (sc : Z) (d : decoder) : decoder * option Z :=
  if sc =? 0xE0 then (Decoder (shift d) (ctrl d) (alt d) (caps d) true, None) else
  let down := sc <? 0x80 in
  let key := sc mod 0x80 in
  if prefix d then
    (Decoder (shift d) (ctrl d) (alt d) (caps d) false, if down then schar <$> extended_code key else None)
  else if bool_decide (key = 0x2A \/ key = 0x36) then (Decoder down (ctrl d) (alt d) (caps d) false, None)
  else if key =? 0x1D then (Decoder (shift d) down (alt d) (caps d) false, None)
  else if key =? 0x38 then (Decoder (shift d) (ctrl d) down (caps d) false, None)
  else if key =? 0x3A then (Decoder (shift d) (ctrl d) (alt d) (xorb down (caps d)) false, None)
  else (d, if down then layout (xorb (shift d) (caps d && bool_decide (0x10 <= key <= 0x32))) key else None).

Record typed := Typed { pending : list Z; dec : decoder }.

(** What an event does to the queue: None when the queue does not allow it. *)
Definition spec_step (e : event) (a : typed) : option typed :=
  match e with
  | Key sc =>
      let '(d, c) := decode sc (dec a) in
      Some (Typed (pending a ++ if (length (pending a) <? 63)%nat then option_list c else []) d)
  | Returned c =>
      match pending a with
      | c' :: l => if c =? c' then Some (Typed l (dec a)) else None
      | [] => None
      end
  end.

Fixpoint spec_run (l : list event) (a : typed) : option typed :=
  match l with [] => Some a | e :: l' => a ← spec_step e a; spec_run l' a end.

Definition modifier_byte (d : decoder) : Z :=
  Z.b2z (shift d) + 2 * Z.b2z (ctrl d) + 4 * Z.b2z (alt d) + 8 * Z.b2z (caps d).

(** The characters of the ring from [t] on. *)
Definition ring (buf : list Z) (t : Z) (n : nat) : list Z :=
  (fun i => default 0 (buf !! Z.to_nat ((t + Z.of_nat i) mod 64))) <$> seq 0 n.

Record represents (k : keyboard) (a : typed) : Prop := {
  rp_buffer : length (key_buffer k) = 64%nat;
  rp_tail : 0 <= buffer_tail k < 64;
  rp_head : buffer_head k = (buffer_tail k + Z.of_nat (length (pending a))) mod 64;
  rp_length : (length (pending a) < 64)%nat;
  rp_pending : pending a = ring (key_buffer k) (buffer_tail k) (length (pending a));
  rp_modifiers : modifier_state k = modifier_byte (dec a);
  rp_prefix : extended_key k = prefix (dec a);
}.

(** ** The decoder, key by key *)

Lemma forall_bytes (f : Z -> bool) n :
  forallb f (seqZ 0 n) = true -> forall x, 0 <= x < n -> f x = true.
Proof. rewrite forallb_forall. intros H x Hx. apply H, list_elem_of_In, elem_of_seqZ. lia. Qed.

Definition down_key_ok (sc : Z) : bool :=
  bool_decide (negb (Z.land sc 0x80 =? 0) = negb (sc <? 0x80) /\ Z.land sc 0x7F = sc mod 0x80).

Lemma scancode_split sc : 0 <= sc < 0x100 ->
  negb (Z.land sc 0x80 =? 0) = negb (sc <? 0x80) /\ Z.land sc 0x7F = sc mod 0x80.
Proof.
  intros H. apply (bool_decide_eq_true_1 _ ), (forall_bytes down_key_ok 0x100); [by vm_compute | done].
Qed.

Definition translate_ok (d : decoder) (key : Z) : bool :=
  bool_decide (to_ascii (modifier_byte d) key =
    Some (default 0 (layout (xorb (shift d) (caps d && bool_decide (0x10 <= key <= 0x32))) key))).

Lemma translate_correct d key : 0 <= key < 0x80 ->
  to_ascii (modifier_byte d) key =
    Some (default 0 (layout (xorb (shift d) (caps d && bool_decide (0x10 <= key <= 0x32))) key)).
Proof.
  intros H. apply (bool_decide_eq_true_1 _ ), (forall_bytes (translate_ok d) 0x80); [| done].
  by destruct d as [[] [] [] [] []]; vm_compute.
Qed.

Definition layout_char_ok (shifted : bool) (key : Z) : bool :=
  match layout shifted key with Some c => negb (c =? 0) && (schar c =? c) | None => true end.

Lemma layout_char shifted key c : 0 <= key < 0x80 -> layout shifted key = Some c -> c <> 0 /\ schar c = c.
Proof.
  intros H E. assert (layout_char_ok shifted key = true) as Hb.
  { apply (forall_bytes (layout_char_ok shifted) 0x80); [by destruct shifted; vm_compute | done]. }
  unfold layout_char_ok in Hb. rewrite E in Hb. zbool. done.
Qed.

Lemma modifier_set_or_clear d down :
  set_or_clear (negb down) MOD_SHIFT (modifier_byte d) = modifier_byte (Decoder down (ctrl d) (alt d) (caps d) false) /\
  set_or_clear (negb down) MOD_CTRL (modifier_byte d) = modifier_byte (Decoder (shift d) down (alt d) (caps d) false) /\
  set_or_clear (negb down) MOD_ALT (modifier_byte d) = modifier_byte (Decoder (shift d) (ctrl d) down (caps d) false) /\
  Z.lxor (modifier_byte d) MOD_CAPS = modifier_byte (Decoder (shift d) (ctrl d) (alt d) (negb (caps d)) false).
Proof. by destruct d as [[] [] [] [] []], down; vm_compute. Qed.

(** ** The ring *)

Lemma length_ring buf t n : length (ring buf t n) = n.
Proof. unfold ring. by rewrite length_fmap, length_seq. Qed.

Lemma ring_snoc buf t n c :
  length buf = 64%nat -> (n < 64)%nat ->
  ring (<[Z.to_nat ((t + Z.of_nat n) mod 64) := c]> buf) t (S n) = ring buf t n ++ [c].
Proof.
  intros Hl Hn. unfold ring. rewrite seq_S, fmap_app. cbn [Nat.add fmap list_fmap]. f_equal.
  - apply list_fmap_ext. intros i j Hj. apply lookup_seq in Hj as [-> Hi]. cbn.
    rewrite list_lookup_insert_ne; [done | zlia].
  - rewrite list_lookup_insert_eq by (rewrite Hl; zlia). done.
Qed.

Lemma ring_cons buf t n :
  length buf = 64%nat -> 0 <= t < 64 -> ring buf t (S n) = default 0 (buf !! Z.to_nat t) :: ring buf ((t + 1) mod 64) n.
Proof.
  intros Hl Ht. unfold ring. cbn [seq fmap list_fmap]. f_equal.
  - rewrite Z.add_0_r, Z.mod_small by lia. done.
  - rewrite <- (fmap_S_seq 0 n), <- list_fmap_compose. apply list_fmap_ext. intros i j _. cbn.
    rewrite Zplus_mod_idemp_l. do 3 f_equal. f_equal. lia.
Qed.

Lemma buffer_put_ok c k a :
  represents k a ->
  exists k', buffer_put c k = Some k' /\
    represents k' (Typed (pending a ++ if (length (pending a) <? 63)%nat then [schar c] else []) (dec a)).
Proof.
  intros [Hb Ht Hh Hl Hp Hm He]. unfold buffer_put, KEY_BUFFER_SIZE. set (n := length (pending a)) in *.
  assert (0 <= buffer_head k < 64) as Hhr by (rewrite Hh; zlia).
  rewrite Z.rem_mod_nonneg by lia.
  assert (((buffer_head k + 1) mod 64 =? buffer_tail k) = negb (n <? 63)%nat) as ->.
  { rewrite Hh. destruct (Nat.ltb_spec n 63); [apply Z.eqb_neq | apply Z.eqb_eq]; zlia. }
  destruct (Nat.ltb_spec n 63) as [Hlt|]; cbn [negb].
  - destruct (lookup_lt_is_Some_2 (key_buffer k) (Z.to_nat (buffer_head k))) as [x Ex]; [lia |].
    rewrite Ex. cbn [mbind option_bind]. eexists. split; [done |].
    split; cbn [key_buffer set_buffer set_buffer_head buffer_head buffer_tail pending dec modifier_state extended_key];
      try done.
    + by rewrite length_insert.
    + rewrite length_app. fold n. cbn. rewrite Hh. zlia.
    + rewrite length_app. fold n. cbn. lia.
    + rewrite length_app. fold n. cbn [length]. rewrite Nat.add_1_r, Hh, ring_snoc by (done || lia).
      by rewrite Hp at 1.
  - exists k. rewrite app_nil_r. split; [done |]. by split.
Qed.

Lemma represents_dec k k' a d :
  represents k a ->
  key_buffer k' = key_buffer k -> buffer_head k' = buffer_head k -> buffer_tail k' = buffer_tail k ->
  modifier_state k' = modifier_byte d -> extended_key k' = prefix d ->
  represents k' (Typed (pending a) d).
Proof. intros [] Eb Eh Et Em Ee. split; cbn; rewrite ?Eb, ?Eh, ?Et; done. Qed.


(** The specification of a scan code that types [c] and leaves the decoder [d]. *)
Lemma spec_put sc a d c : decode sc (dec a) = (d, c) ->
  spec_step (Key sc) a = Some (Typed (pending a ++ if (length (pending a) <? 63)%nat then option_list c else []) d).
Proof. unfold spec_step. by intros ->. Qed.

Lemma spec_quiet sc a d : decode sc (dec a) = (d, None) -> spec_step (Key sc) a = Some (Typed (pending a) d).
Proof. intros E. rewrite (spec_put _ _ _ _ E). destruct (_ <? _)%nat; cbn; by rewrite app_nil_r. Qed.

(** The handler refines the decoder and the queue: a scan code that types
    nothing, and one that types [c]. *)
Lemma handled_quiet sc k k' a d :
  represents k a -> decode sc (dec a) = (d, None) ->
  k' = set_extended (prefix d) (set_modifiers (modifier_byte d) k) ->
  exists a', spec_step (Key sc) a = Some a' /\ represents k' a'.
Proof.
  intros R E ->. eexists. split; [by apply spec_quiet |]. by apply (represents_dec k).
Qed.

Lemma handled_char sc k k0 a d c :
  represents k a -> decode sc (dec a) = (d, Some (schar c)) ->
  k0 = set_extended (prefix d) (set_modifiers (modifier_byte d) k) ->
  exists k' a', buffer_put c k0 = Some k' /\ spec_step (Key sc) a = Some a' /\ represents k' a'.
Proof.
  intros R E ->. assert (represents (set_extended (prefix d) (set_modifiers (modifier_byte d) k)) (Typed (pending a) d)) as R'.
  { by apply (represents_dec k). }
  destruct (buffer_put_ok c _ _ R') as (k' & Ek & R2). do 2 eexists. split_and!; [done | by apply spec_put | done].
Qed.

Lemma set_same k d : modifier_state k = modifier_byte d -> extended_key k = prefix d ->
  k = set_extended (prefix d) (set_modifiers (modifier_byte d) k).
Proof. destruct k. cbn. by intros -> ->. Qed.

Lemma handle_scancode_ok sc k a :
  0 <= sc < 0x100 -> represents k a ->
  exists k' a', handle_scancode sc k = Some k' /\ spec_step (Key sc) a = Some a' /\ represents k' a'.
Proof.
  intros Hsc R. pose proof (rp_modifiers _ _ R) as Hm. pose proof (rp_prefix _ _ R) as He.
  assert (forall k' d, decode sc (dec a) = (d, None) -> k' = set_extended (prefix d) (set_modifiers (modifier_byte d) k) ->
    exists k'' a', Some k' = Some k'' /\ spec_step (Key sc) a = Some a' /\ represents k'' a') as Hquiet.
  { intros k' d E Ek. destruct (handled_quiet sc k k' a d R E Ek) as (a' & ? & ?). by exists k', a'. }
  pose proof (fun k0 d c => handled_char sc k k0 a d c R) as Hchar.
  unfold handle_scancode. unfold decode in Hquiet, Hchar. destruct (Z.eqb_spec sc 0xE0) as [|_].
  { eapply Hquiet; [done |]. destruct k. cbn in *. by subst. }
  destruct (scancode_split sc Hsc) as [-> ->]. rewrite He, negb_involutive.
  set (down := sc <? 0x80) in *. set (key := sc mod 0x80) in *.
  assert (0 <= key < 0x80) as Hkey by (subst key; zlia).
  clearbody down key. destruct (modifier_set_or_clear (dec a) down) as (Es & Ec & Ea & Ex).
  destruct (prefix (dec a)) eqn:Epre.
  { destruct down.
    - destruct (extended_code key) as [c|].
      + eapply (Hchar _ _ _ eq_refl). destruct k. cbn in *. by subst.
      + eapply Hquiet; [done |]. destruct k. cbn in *. by subst.
    - eapply Hquiet; [done |]. destruct k. cbn in *. by subst. }

  destruct (decide (key = 0x2A \/ key = 0x36)) as [Hs|Hs].
  { rewrite bool_decide_true in Hquiet by done.
    assert ((key =? KEY_LSHIFT) || (key =? KEY_RSHIFT) = true) as -> by (by destruct Hs as [-> | ->]).
    eapply Hquiet; [done |]. rewrite Hm, Es. destruct k. cbn in *. by subst. }
  rewrite bool_decide_false in Hquiet, Hchar by done.
  assert ((key =? KEY_LSHIFT) || (key =? KEY_RSHIFT) = false) as ->.
  { unfold KEY_LSHIFT, KEY_RSHIFT. apply orb_false_iff. rewrite !Z.eqb_neq. lia. }
  unfold KEY_LCTRL, KEY_LALT, KEY_CAPSLOCK.
  destruct (key =? 0x1D); [eapply Hquiet; [done |]; rewrite Hm, Ec; destruct k; cbn in *; by subst |].
  destruct (key =? 0x38); [eapply Hquiet; [done |]; rewrite Hm, Ea; destruct k; cbn in *; by subst |].
  destruct (key =? 0x3A).
  { eapply Hquiet; [done |]. destruct down; cbn [negb xorb]; rewrite ?Hm, ?Ex; destruct k; cbn in *; by subst. }
  destruct down; cbn [negb]; [| eapply Hquiet; [done | by apply set_same; congruence]].
  rewrite Hm, translate_correct by done. cbn [mbind option_bind].
  destruct (layout _ key) as [c|] eqn:El; cbn [default].
  - destruct (layout_char _ _ _ Hkey El) as [Hc Hs']. unfold id. rewrite (proj2 (Z.eqb_neq c 0) Hc). cbn [negb].
    eapply (Hchar _ _ _); [by rewrite Hs' | by apply set_same; congruence].
  - eapply Hquiet; [done | by apply set_same; congruence].
Qed.

Lemma buffer_get_ok k a :
  represents k a ->
  match pending a with
  | [] => buffer_tail k = buffer_head k
  | c :: l => buffer_tail k <> buffer_head k /\ key_buffer k !! Z.to_nat (buffer_tail k) = Some c /\
      represents (set_buffer_tail (Z.rem (buffer_tail k + 1) KEY_BUFFER_SIZE) k) (Typed l (dec a))
  end.
Proof.
  intros [Hb Ht Hh Hl Hp Hm He]. destruct a as [[|c l] d]; cbn [pending dec length] in *; [zlia |].
  rewrite ring_cons in Hp by done. injection Hp as Hc Hp.
  destruct (lookup_lt_is_Some_2 (key_buffer k) (Z.to_nat (buffer_tail k))) as [x Ex]; [lia |].
  split_and!; [zlia | by rewrite Ex in Hc |- *; cbn in Hc; rewrite Hc |].
  unfold KEY_BUFFER_SIZE. rewrite Z.rem_mod_nonneg by lia.
  split; cbn [key_buffer set_buffer_tail buffer_head buffer_tail pending dec modifier_state extended_key]; try done; zlia.
Qed.

Lemma has_key_pending k a : represents k a -> keyboard_has_key k = bool_decide (pending a <> []).
Proof.
  intros R. pose proof (buffer_get_ok k a R) as H. unfold keyboard_has_key.
  destruct (pending a); [by rewrite H, Z.eqb_refl |]. destruct H as [H _].
  apply not_eq_sym in H. by rewrite (proj2 (Z.eqb_neq _ _) H).
Qed.

(** ** The reader between interrupts *)

(** What the reader knows of the queue at each of its points. *)
Definition reader_ok (r : reader) (a : typed) : Prop :=
  match r with
  | Idle | Testing => True
  | Getting | Loading => pending a <> []
  | Loaded c => head (pending a) = Some c
  end.

Definition related (s : keyboard * reader) (a : typed) : Prop := represents s.1 a /\ reader_ok s.2 a.

(** A scan code does not change the front of the queue. *)
Lemma reader_ok_key r sc a a' : spec_step (Key sc) a = Some a' -> reader_ok r a -> reader_ok r a'.
Proof.
  cbn [spec_step]. destruct (decode sc (dec a)) as [d c]. intros [= <-].
  destruct r; cbn [reader_ok pending]; try done; destruct (pending a); done.
Qed.

Lemma kstep_sim s e s' a :
  kstep s e s' -> related s a ->
  exists a', spec_run (option_list e) a = Some a' /\ related s' a'.
Proof.
  intros Hs [R Hr]. destruct Hs; cbn [fst snd reader_ok option_list option_rect spec_run] in *.
  - destruct (handle_scancode_ok scancode k a H R) as (k1 & a' & E & Ea & R').
    rewrite H0 in E. injection E as <-. rewrite Ea. exists a'. split; [done |]. split; [done |].
    by eapply reader_ok_key.
  - by exists a.
  - by exists a.
  - exists a. split; [done |]. split; [done |]. rewrite (has_key_pending _ _ R) in H. by apply bool_decide_eq_true in H.
  - pose proof (buffer_get_ok k a R). destruct (pending a); [done |]. naive_solver.
  - by exists a.
  - pose proof (buffer_get_ok k a R) as G. exists a. split; [done |]. split; [done |]. cbn.
    destruct (pending a); [done |]. destruct G as (_ & G & _). rewrite H in G. by injection G as ->.
  - pose proof (buffer_get_ok k a R) as G. cbn [spec_step]. destruct (pending a) as [|c' l]; [done |].
    cbn in Hr. injection Hr as ->. rewrite Z.eqb_refl. cbn. eexists. split; [done |]. split; [apply G | done].
Qed.

Lemma spec_run_app l1 l2 a : spec_run (l1 ++ l2) a = spec_run l1 a ≫= spec_run l2.
Proof.
  revert a. induction l1 as [|e l1 IH]; intros a; [done |]. cbn [app spec_run].
  destruct (spec_step e a); cbn [mbind option_bind]; [apply IH | done].
Qed.

Definition keyboard_start : keyboard * reader := (keyboard_zero, Idle).
Definition typed_start : typed := Typed [] (Decoder false false false false false).

(** C19. The driver is a bounded queue behind a scan code decoder: in every run
    of the interrupt handler and of one reader of [keyboard_get_char], an
    interrupt coming between any two accesses of the reader, the characters
    returned are those typed, in order, none lost or read twice, except those
    typed while 63 are waiting; and no index leaves the ring. *)
Theorem keyboard_refines_queue l s :
  kruns keyboard_start l s -> exists a, spec_run l typed_start = Some a /\ related s a.
Proof.
  intros Hr. remember keyboard_start as s0. induction Hr as [|s1 s2 s3 e l Hr IH Hs]; subst.
  - exists typed_start. split; [done |]. split; [split; cbn; (done || lia) | done].
  - destruct (IH eq_refl) as (a & E & R). destruct (kstep_sim _ _ _ _ Hs R) as (a' & E' & R').
    exists a'. split; [| done]. by rewrite spec_run_app, E.
Qed.

(** A run: shift, [h], an interrupt while the reader holds the character. *)
Lemma keyboard_refines_queue_witness :
  exists s a, spec_run [Key 0x2A; Key 0x23; Key 0xAA; Key 0x17; Returned 72] typed_start = Some a /\
    pending a = [105] /\ related s a.
Proof.
  assert (exists s, kruns keyboard_start [Key 0x2A; Key 0x23; Key 0xAA; Key 0x17; Returned 72] s) as [s Hr].
  { eexists.
    eapply (kruns_step _ _ _ (Some (Returned 72)) [Key 0x2A; Key 0x23; Key 0xAA; Key 0x17]); [eapply (kruns_step _ _ _ (Some (Key 0x17)) [Key 0x2A; Key 0x23; Key 0xAA]); [eapply (kruns_step _ _ _ None [Key 0x2A; Key 0x23; Key 0xAA]); [eapply (kruns_step _ _ _ None [Key 0x2A; Key 0x23; Key 0xAA]); [eapply (kruns_step _ _ _ None [Key 0x2A; Key 0x23; Key 0xAA]); [eapply (kruns_step _ _ _ (Some (Key 0xAA)) [Key 0x2A; Key 0x23]); [eapply (kruns_step _ _ _ (Some (Key 0x23)) [Key 0x2A]); [eapply (kruns_step _ _ _ (Some (Key 0x2A)) []); [eapply (kruns_step _ _ _ None []); [apply kruns_refl
     | apply step_call]
     | apply step_irq; [lia | by vm_compute]]
     | apply step_irq; [lia | by vm_compute]]
     | apply step_irq; [lia | by vm_compute]]
     | by apply step_ready; vm_compute]
     | by apply step_nonempty; vm_compute]
     | by apply step_load; vm_compute]
     | apply step_irq; [lia | by vm_compute]]
     | apply step_return]. }
  destruct (keyboard_refines_queue _ _ Hr) as (a & E & R). exists s, a. split_and!; [done | | done].
  vm_compute in E. by injection E as <-.
Defined.

(** ** Caps lock

    The comment at the range test says that caps lock only affects letters; the
    range 0x10 to 0x32 holds the keys [ ] ; ' ` and \ as well. *)
Lemma caps_lock_shifts_punctuation :
  let m := MOD_CAPS in
  to_ascii m 0x1A = Some 123 /\ to_ascii m 0x1B = Some 125 /\ to_ascii m 0x27 = Some 58 /\
  to_ascii m 0x28 = Some 34 /\ to_ascii m 0x29 = Some 126 /\ to_ascii m 0x2B = Some 124.
Proof. done. Qed.

(** ** Initialisation *)

(** The controller of the keyboard, an 8042: its output buffer as a queue. *)
Class KeyboardLaws (hw : Type) `{BoardLaws hw} := {
  kbd_bytes : hw -> list Z;
  kbd_status : forall h, Z.land (inb KEYBOARD_STATUS_PORT h).1 KEYBOARD_STATUS_OUTPUT_FULL =
    match kbd_bytes h with [] => 0 | _ => 1 end;
  kbd_status_keeps : forall h, kbd_bytes (inb KEYBOARD_STATUS_PORT h).2 = kbd_bytes h;
  kbd_data : forall h, kbd_bytes (inb KEYBOARD_DATA_PORT h).2 = tail (kbd_bytes h);
}.

Section init.
Context {hw : Type} {PORTS : Ports hw} {BOARD : BoardLaws hw} {KBD : KeyboardLaws hw}.
Implicit Type h : hw.

Lemma drain_ok fuel h :
  (length (kbd_bytes h) < fuel)%nat ->
  exists h', drain fuel h = Some h' /\ kbd_bytes h' = [] /\ board_of h' = board_of h.
Proof.
  revert h. induction fuel as [|fuel IH]; intros h Hf; [lia |]. cbn [drain].
  pose proof (kbd_status h) as Es. pose proof (kbd_status_keeps h) as Ek. pose proof (board_in KEYBOARD_STATUS_PORT h) as Eb.
  destruct (inb KEYBOARD_STATUS_PORT h) as [v h1]. cbn [fst snd] in *. rewrite Es.
  destruct (kbd_bytes h) as [|x l] eqn:E; cbn [Z.eqb negb]; [by exists h1 |].
  destruct (IH (inb KEYBOARD_DATA_PORT h1).2) as (h' & -> & E1 & E2).
  - rewrite kbd_data, Ek. cbn in *. lia.
  - exists h'. split_and!; [done | done |]. by rewrite E2, board_in.
Qed.

(** [keyboard_init] returns with the output buffer of the controller empty, and
    unmasks interrupt 1 alone. *)
Lemma keyboard_init_ok fuel h :
  board_ready (board_of h) -> (length (kbd_bytes h) < fuel)%nat ->
  exists h', keyboard_init fuel h = Some h' /\
    forall i, 0 <= i < 16 -> masked (board_of h') i = if i =? IRQ_KEYBOARD then false else masked (board_of h) i.
Proof.
  intros Hb Hf. unfold keyboard_init. destruct (drain_ok fuel h Hf) as (h1 & -> & _ & E1). cbn [mbind option_bind].
  destruct (pic_clear_mask_ok IRQ_KEYBOARD h1) as (h' & -> & _ & _ & _ & _ & M); [done | by rewrite E1 |].
  exists h'. split; [done |]. by rewrite <- E1.
Qed.

End init.
