(* ===== verification/Buffers.v ===== *)
(** * Bytes of a buffer

    The accessors of [Checksum] byte by byte: a field is determined by its
    bytes, and [put] changes the bytes it covers. *)

From S2P Require Import Prelude Checksum.

Implicit Types (buf l : list Z) (o i : nat).

(** Equality of two buffers at a byte, as the default byte is read. *)
Lemma list_eq_get8 l k : length l = length k -> (forall i, (i < length l)%nat -> get8 l i = get8 k i) -> l = k.
Proof.
  intros Hl H. apply list_eq_same_length with (length l); [done | done |]. intros i x y Hi Hx Hy.
  specialize (H i Hi). unfold get8 in H. rewrite Hx, Hy in H. done.
Qed.

Lemma get8_beyond l i : (length l <= i)%nat -> get8 l i = 0.
Proof. intros H. unfold get8. by rewrite lookup_ge_None_2. Qed.

Lemma get8_range buf i : bytes buf -> 0 <= get8 buf i < 0x100.
Proof.
  intros Hb. unfold get8. destruct (buf !! i) as [x|] eqn:E; [| done]. exact (Forall_lookup_1 _ _ _ _ Hb E).
Qed.

Lemma get16_get8 buf o : get16 buf o = get8 buf o + 0x100 * get8 buf (S o).
Proof.
  unfold get16, get8. revert buf. induction o as [|o IH]; intros buf.
  - destruct buf as [|a [|b l]]; cbn; unfold id; rewrite ?take_0; cbn; lia.
  - destruct buf as [|a buf]; [by destruct o | apply (IH buf)].
Qed.

Lemma get32_get16 buf o : get32 buf o = get16 buf o + 0x10000 * get16 buf (o + 2).
Proof.
  unfold get32, get16. rewrite <- drop_drop.
  destruct (drop o buf) as [|a [|b [|c [|d l]]]]; cbn [take drop le_val]; lia.
Qed.

Lemma get16_range buf o : bytes buf -> 0 <= get16 buf o < 0x10000.
Proof. intros H. rewrite get16_get8. pose proof (get8_range buf o H). pose proof (get8_range buf (S o) H). lia. Qed.
Lemma get32_range buf o : bytes buf -> 0 <= get32 buf o < 0x100000000.
Proof. intros H. rewrite get32_get16. pose proof (get16_range buf o H). pose proof (get16_range buf (o + 2) H). lia. Qed.

Section put.
Context (o : nat) (l buf : list Z) (Hfit : (o + length l <= length buf)%nat).

Lemma put_length : length (put o l buf) = length buf.
Proof. unfold put. rewrite !length_app, length_take, length_drop. lia. Qed.

Lemma get8_put i : get8 (put o l buf) i = if decide (o <= i < o + length l)%nat then get8 l (i - o) else get8 buf i.
Proof.
  unfold get8, put. destruct (decide _) as [H|H].
  - rewrite lookup_app_r, length_take by (rewrite length_take; lia). rewrite lookup_app_l by lia.
    by replace (i - o `min` length buf)%nat with (i - o)%nat by lia.
  - destruct (decide (i < o)%nat).
    + rewrite lookup_app_l by (rewrite length_take; lia). by rewrite lookup_take_lt.
    + rewrite lookup_app_r, length_take, lookup_app_r, lookup_drop by (rewrite ?length_take; lia).
      do 2 f_equal. lia.
Qed.

Lemma bytes_put : bytes l -> bytes buf -> bytes (put o l buf).
Proof. intros Hl Hb. unfold put. apply bytes_app. split; [auto with words |]. apply bytes_app. auto with words. Qed.

End put.

Lemma get8_le_bytes2 x i : get8 (le_bytes 2 x) i = match i with 0%nat => x mod 0x100 | 1%nat => (x / 0x100) mod 0x100 | _ => 0 end.
Proof. by destruct i as [|[|[|i]]]. Qed.

Lemma put16_length o x buf : (o + 2 <= length buf)%nat -> length (put16 o x buf) = length buf.
Proof. intros. apply put_length. by rewrite length_le_bytes. Qed.

Lemma bytes_put16 o x buf : bytes buf -> bytes (put16 o x buf).
Proof. intros. apply bytes_put; [apply le_bytes_bytes | done]. Qed.

Lemma get8_put16 o x buf i : (o + 2 <= length buf)%nat ->
  get8 (put16 o x buf) i = if decide (i = o) then x mod 0x100 else if decide (i = S o) then (x / 0x100) mod 0x100 else get8 buf i.
Proof.
  intros H. unfold put16. rewrite get8_put, length_le_bytes, get8_le_bytes2 by (rewrite length_le_bytes; lia).
  repeat case_decide; try lia; subst; rewrite ?Nat.sub_diag, ?Nat.sub_succ_l, ?Nat.sub_diag by lia; done.
Qed.

Lemma get16_put16_eq o x buf : (o + 2 <= length buf)%nat -> 0 <= x < 0x10000 -> get16 (put16 o x buf) o = x.
Proof.
  intros H Hx. rewrite get16_get8, !get8_put16 by done. repeat case_decide; try lia. zlia.
Qed.

Lemma get16_put16_ne o o' x buf : (o + 2 <= length buf)%nat -> (o' + 2 <= o \/ o + 2 <= o')%nat ->
  get16 (put16 o x buf) o' = get16 buf o'.
Proof. intros H Ho. rewrite !get16_get8, !get8_put16 by done. repeat case_decide; try lia. Qed.

#[export] Hint Rewrite put_length put16_length using lia : words.
#[export] Hint Resolve bytes_put bytes_put16 get8_range get16_range : words.
