(* ===== verification/Block.v ===== *)
(** * The interface of a disk driver

    The operations that [fs/fat16.c] uses of [drivers/ata.c], for one sector of
    512 bytes at a time, and what a driver promises of them.  [Ata] implements
    the interface; [ramdisk] is a disk in memory on which the file system's
    definitions are evaluated. *)

From S2P Require Import Prelude.

Class BlockDevice (dev : Type) := {
  (** [ata_drive_present] *)
  drive_present : Z -> dev -> bool;
  (** [ata_get_drive_info(drive)->size_sectors] *)
  drive_sectors : Z -> dev -> Z;
  (** [ata_read_sectors(drive, lba, 1, buffer)]: the sector, or None for a
      negative result. *)
  read_block : Z -> Z -> dev -> option (list Z) * dev;
  (** [ata_write_sectors(drive, lba, 1, buffer)]: whether the result is not negative. *)
  write_block : Z -> Z -> list Z -> dev -> bool * dev;
}.

Definition sector (b : list Z) : Prop := length b = 512%nat /\ bytes b.

Class BlockLaws (dev : Type) `{BlockDevice dev} := {
  (** The contents, by drive and sector, and the states in which the drive works. *)
  block : dev -> Z -> Z -> list Z;
  works : dev -> Prop;
  drive_sectors_range : forall dr d, works d -> 0 <= drive_sectors dr d < 0x100000000;
  block_sector : forall dr lba d, works d -> drive_present dr d = true -> 0 <= lba < drive_sectors dr d ->
    sector (block d dr lba);
  read_block_ok : forall dr lba d, works d -> drive_present dr d = true -> 0 <= lba < drive_sectors dr d ->
    exists d', read_block dr lba d = (Some (block d dr lba), d') /\ works d' /\
      (forall dr', drive_present dr' d' = drive_present dr' d /\ drive_sectors dr' d' = drive_sectors dr' d) /\
      (forall dr' lba', block d' dr' lba' = block d dr' lba');
  write_block_ok : forall dr lba b d, works d -> drive_present dr d = true -> 0 <= lba < drive_sectors dr d -> sector b ->
    exists d', write_block dr lba b d = (true, d') /\ works d' /\
      (forall dr', drive_present dr' d' = drive_present dr' d /\ drive_sectors dr' d' = drive_sectors dr' d) /\
      (forall dr' lba', block d' dr' lba' = if (dr' =? dr) && (lba' =? lba) then b else block d dr' lba');
}.

(** ** A disk in memory: drive 0, the sectors that were never written zero *)

Record ramdisk := Ramdisk { rd_size : Z; rd_sectors : gmap Z (list Z) }.

Definition rd_block (d : ramdisk) (dr lba : Z) : list Z :=
  if dr =? 0 then default (replicate 512 0) (rd_sectors d !! lba) else replicate 512 0.

Definition rd_inside (dr lba : Z) (d : ramdisk) : bool := (dr =? 0) && (0 <=? lba) && (lba <? rd_size d).

#[export] Instance ramdisk_device : BlockDevice ramdisk := {|
  drive_present dr d := dr =? 0;
  drive_sectors dr d := rd_size d;
  read_block dr lba d := ((if rd_inside dr lba d then Some (rd_block d dr lba) else None), d);
  write_block dr lba b d :=
    if rd_inside dr lba d then (true, Ramdisk (rd_size d) (<[lba := b]> (rd_sectors d))) else (false, d);
|}.

Definition rd_works (d : ramdisk) : Prop :=
  0 <= rd_size d < 0x100000000 /\ map_Forall (fun _ b => sector b) (rd_sectors d).

Lemma sector_zero : sector (replicate 512 0).
Proof. split; [done | by apply bytes_replicate]. Qed.

Lemma rd_inside_true dr lba d : dr = 0 -> 0 <= lba < rd_size d -> rd_inside dr lba d = true.
Proof. intros -> [? ?]. unfold rd_inside. apply andb_true_iff. rewrite andb_true_iff, Z.leb_le, Z.ltb_lt. done. Qed.

#[export] Program Instance ramdisk_laws : BlockLaws ramdisk := {| block := rd_block; works := rd_works |}.
Next Obligation. by intros dr d []. Qed.
Next Obligation.
  intros dr lba d [_ Hs] _ _. unfold rd_block. destruct (dr =? 0); [| apply sector_zero].
  destruct (rd_sectors d !! lba) as [b|] eqn:E; [exact (Hs _ _ E) | apply sector_zero].
Qed.
Next Obligation.
  intros dr lba d Hw Hp Hl. cbn in *. apply Z.eqb_eq in Hp. rewrite rd_inside_true by done. by eexists.
Qed.
Next Obligation.
  intros dr lba b d [Hr Hw] Hp Hl Hb. cbn in *. apply Z.eqb_eq in Hp. subst dr. rewrite rd_inside_true by done.
  eexists. split_and!; [done | split; [done | by apply map_Forall_insert_2] | done |].
  intros dr' lba'. unfold rd_block. destruct (dr' =? 0); [| done]. cbn.
  destruct (Z.eqb_spec lba' lba) as [->|]; [by rewrite lookup_insert_eq | by rewrite lookup_insert_ne].
Qed.
