(* ===== verification/Ata.v ===== *)
(** * The ATA driver

    [drivers/ata.c]: detection of the two drives of the primary channel and
    transfers of sectors with programmed input and output.  The drives are
    hardware, any [hw] with ports whose accesses are transitions of the device
    [ata] below; how long it stays busy is up to the hardware.  The driver
    implements the interface [BlockDevice] of the file system. *)

From S2P Require Import Prelude Checksum Buffers Ports Block.

Definition ATA_PRIMARY_DATA := 0x1F0.
Definition ATA_PRIMARY_SECCOUNT := 0x1F2.
Definition ATA_PRIMARY_LBA_LO := 0x1F3.
Definition ATA_PRIMARY_LBA_MID := 0x1F4.
Definition ATA_PRIMARY_LBA_HI := 0x1F5.
Definition ATA_PRIMARY_DRIVE := 0x1F6.
Definition ATA_PRIMARY_STATUS := 0x1F7.
Definition ATA_PRIMARY_COMMAND := 0x1F7.
Definition ATA_PRIMARY_CONTROL := 0x3F6.
Definition ATA_CMD_READ_SECTORS := 0x20.
Definition ATA_CMD_WRITE_SECTORS := 0x30.
Definition ATA_CMD_IDENTIFY := 0xEC.
Definition ATA_CMD_FLUSH := 0xE7.
Definition ATA_SR_BSY := 0x80.
Definition ATA_SR_DRQ := 0x08.
Definition ATA_SR_ERR := 0x01.

(** [model] and [serial] are the 41 and 21 bytes of the arrays. *)
Record ata_drive := AtaDrive {
  present : bool;
  is_ata : bool;
  size_sectors : Z;
  model : list Z;
  serial : list Z;
}.

Definition set_is_ata v d := AtaDrive (present d) v (size_sectors d) (model d) (serial d).

Definition ATA_TIMEOUT : nat := Z.to_nat 100000.

Section driver.
Context {hw : Type} {PORTS : Ports hw}.
Implicit Types (h : hw) (drives : list ata_drive).

(** ** Waiting *)

(** [n]: the iterations left. *)
Fixpoint wait_ready_loop (n : nat) h : bool * hw :=
  match n with
  | O => (false, h)
  | S n' =>
      let '(status, h) := inb ATA_PRIMARY_STATUS h in
      if Z.land status ATA_SR_BSY =? 0 then (true, h) else wait_ready_loop n' h
  end.
Definition ata_wait_ready h : bool * hw := wait_ready_loop ATA_TIMEOUT h.

Fixpoint wait_drq_loop (n : nat) h : bool * hw :=
  match n with
  | O => (false, h)
  | S n' =>
      let '(status, h) := inb ATA_PRIMARY_STATUS h in
      if negb (Z.land status ATA_SR_ERR =? 0) then (false, h)
      else if (Z.land status ATA_SR_BSY =? 0) && negb (Z.land status ATA_SR_DRQ =? 0) then (true, h)
      else wait_drq_loop n' h
  end.
Definition ata_wait_drq h : bool * hw := wait_drq_loop ATA_TIMEOUT h.

Definition ata_select_drive (drive : Z) h : hw :=
  discard 15 ATA_PRIMARY_STATUS (outb ATA_PRIMARY_DRIVE (u8 (Z.lor 0xA0 (Z.shiftl (Z.land drive 1) 4))) h).

(** [n] words from the data port, and [words] to it. *)
Fixpoint read_words (n : nat) h : list Z * hw :=
  match n with
  | O => ([], h)
  | S n' => let '(w, h) := inw ATA_PRIMARY_DATA h in let '(l, h) := read_words n' h in (w :: l, h)
  end.
Fixpoint write_words (words : list Z) h : hw :=
  match words with [] => h | w :: l => write_words l (outw ATA_PRIMARY_DATA w h) end.

(** ** Detection *)

(** The characters of [n] words from word [i] on, high byte first. *)
Definition word_chars (identify : list Z) (i n : nat) : list Z :=
  concat ((fun w => [Z.land (Z.shiftr w 8) 0xFF; Z.land w 0xFF]) <$> take n (drop i identify)).

(** The loop from the last character back: spaces become zero bytes. *)
Fixpoint trim (rev_chars : list Z) : list Z :=
  match rev_chars with
  | c :: l => if c =? 0x20 then 0 :: trim l else rev_chars
  | [] => []
  end.

(** The parse of the identify data; an array access out of range is None. *)
Definition parse_identify (identify : list Z) : option ata_drive :=
  lo ← identify !! 60%nat;
  hi ← identify !! 61%nat;
  Some (AtaDrive true true (u32 (Z.lor lo (Z.shiftl hi 16)))
    (rev (trim (rev (word_chars identify 27 20))) ++ [0]) (word_chars identify 10 10 ++ [0])).

Definition ata_identify (drive : Z) drives h : option (bool * list ata_drive * hw) :=
  let h := ata_select_drive drive h in
  let h := outb ATA_PRIMARY_SECCOUNT 0 h in
  let h := outb ATA_PRIMARY_LBA_LO 0 h in
  let h := outb ATA_PRIMARY_LBA_MID 0 h in
  let h := outb ATA_PRIMARY_LBA_HI 0 h in
  let h := outb ATA_PRIMARY_COMMAND ATA_CMD_IDENTIFY h in
  let '(status, h) := inb ATA_PRIMARY_STATUS h in
  if status =? 0 then Some (false, drives, h) else
  let '(ok, h) := ata_wait_ready h in
  if negb ok then Some (false, drives, h) else
  let '(lba_mid, h) := inb ATA_PRIMARY_LBA_MID h in
  let '(lba_hi, h) := inb ATA_PRIMARY_LBA_HI h in
  if negb (lba_mid =? 0) || negb (lba_hi =? 0) then
    d ← drives !! Z.to_nat drive;
    Some (false, <[Z.to_nat drive := set_is_ata false d]> drives, h)
  else
  let '(ok, h) := ata_wait_drq h in
  if negb ok then Some (false, drives, h) else
  let '(identify, h) := read_words 256 h in
  _ ← drives !! Z.to_nat drive;
  d ← parse_identify identify;
  Some (true, <[Z.to_nat drive := d]> drives, h).

Definition ata_drive_present (drive : Z) drives : bool :=
  if (drive <? 0) || (drive >? 1) then false else
  match drives !! Z.to_nat drive with Some d => present d && is_ata d | None => false end.

Definition ata_get_drive_info (drive : Z) drives : option ata_drive :=
  if (drive <? 0) || (drive >? 1) then None else drives !! Z.to_nat drive.

(** The reset of one drive: the first byte of each text is zeroed. *)
Definition reset_drive (d : ata_drive) : ata_drive :=
  AtaDrive false false 0 (<[0%nat := 0]> (model d)) (<[0%nat := 0]> (serial d)).

Definition ata_init drives h : option (Z * list ata_drive * hw) :=
  let h := outb ATA_PRIMARY_CONTROL 0x02 h in
  let drives := reset_drive <$> drives in
  '(_, drives, h) ← ata_identify 0 drives h;
  '(_, drives, h) ← ata_identify 1 drives h;
  d0 ← drives !! 0%nat;
  d1 ← drives !! 1%nat;
  if negb (present d0) && negb (present d1) then Some (-1, drives, h) else Some (0, drives, h).

(** ** Transfers *)

(** The registers of a command on [count] sectors from [lba] on. *)
Definition ata_command (drive lba count command : Z) h : hw :=
  let drv_sel := u8 (Z.lor (Z.lor 0xE0 (Z.shiftl (Z.land drive 1) 4)) (Z.land (Z.shiftr lba 24) 0x0F)) in
  let h := outb ATA_PRIMARY_DRIVE drv_sel h in
  let h := outb ATA_PRIMARY_SECCOUNT count h in
  let h := outb ATA_PRIMARY_LBA_LO (Z.land lba 0xFF) h in
  let h := outb ATA_PRIMARY_LBA_MID (Z.land (Z.shiftr lba 8) 0xFF) h in
  let h := outb ATA_PRIMARY_LBA_HI (Z.land (Z.shiftr lba 16) 0xFF) h in
  outb ATA_PRIMARY_COMMAND command h.

(** The sectors read: whether all were, and the words stored. *)
Fixpoint read_loop (n : nat) h : bool * list Z * hw :=
  match n with
  | O => (true, [], h)
  | S n' =>
      let '(ok, h) := ata_wait_drq h in
      if negb ok then (false, [], h) else
      let '(l, h) := read_words 256 h in
      let '(ok, l', h) := read_loop n' h in (ok, l ++ l', h)
  end.

(** The result and the bytes stored from the start of the buffer on. *)
Definition ata_read_sectors (drive lba count : Z) drives h : Z * list Z * hw :=
  if negb (ata_drive_present drive drives) then (-1, [], h) else
  if count =? 0 then (0, [], h) else
  let '(ok, h) := ata_wait_ready h in
  if negb ok then (-1, [], h) else
  let h := ata_command drive lba count ATA_CMD_READ_SECTORS h in
  let '(ok, words, h) := read_loop (Z.to_nat count) h in
  (if ok then count else -1, concat (le_bytes 2 <$> words), h).

(** The words of a sector of the buffer. *)
Definition buffer_words (buf : list Z) (sector : nat) : list Z :=
  (fun i => get16 buf (512 * sector + 2 * i)) <$> seq 0 256.

Fixpoint write_loop (n sector : nat) (buf : list Z) h : bool * hw :=
  match n with
  | O => (true, h)
  | S n' =>
      let '(ok, h) := ata_wait_drq h in
      if negb ok then (false, h) else write_loop n' (S sector) buf (write_words (buffer_words buf sector) h)
  end.

(** The wait after the flush is not checked. *)
Definition ata_write_sectors (drive lba count : Z) (buf : list Z) drives h : Z * hw :=
  if negb (ata_drive_present drive drives) then (-1, h) else
  if count =? 0 then (0, h) else
  let '(ok, h) := ata_wait_ready h in
  if negb ok then (-1, h) else
  let h := ata_command drive lba count ATA_CMD_WRITE_SECTORS h in
  let '(ok, h) := write_loop (Z.to_nat count) 0 buf h in
  if negb ok then (-1, h) else
  let h := outb ATA_PRIMARY_COMMAND ATA_CMD_FLUSH h in
  let '(_, h) := ata_wait_ready h in
  (count, h).

End driver.

(** ** The device *)

(** A drive: its identify data and its sectors, of 256 words. *)
Record unit := Unit { u_identify : list Z; u_sectors : Z -> list Z }.

(** What the data port does: [words] left of a sector to read, then [more]
    sectors from [next] on; or the words received of sector [cur]. *)
Inductive phase :=
  | NoData
  | DataIn (words : list Z) (next : Z) (more : nat)
  | DataOut (words : list Z) (cur : Z) (more : nat).

(** [a_busy]: the reads of the status that still show it busy. *)
Record ata := Ata {
  a_units : Z -> option unit;
  a_drive : Z; a_count : Z; a_lo : Z; a_mid : Z; a_hi : Z;
  a_phase : phase;
  a_busy : nat;
}.
Implicit Type a : ata.

Definition set_phase p b a := Ata (a_units a) (a_drive a) (a_count a) (a_lo a) (a_mid a) (a_hi a) p b.
Definition set_sectors dr f a :=
  Ata (fun d => if d =? dr then f <$> a_units a d else a_units a d) (a_drive a) (a_count a) (a_lo a) (a_mid a) (a_hi a)
    (a_phase a) (a_busy a).

Definition selected a : Z := Z.land (Z.shiftr (a_drive a) 4) 1.
Definition address a : Z := (a_drive a mod 16) * 0x1000000 + a_hi a * 0x10000 + a_mid a * 0x100 + a_lo a.
Definition sector_count a : nat := if a_count a =? 0 then 256%nat else Z.to_nat (a_count a).
Definition sector_of a (l : Z) : list Z := match a_units a (selected a) with Some u => u_sectors u l | None => [] end.

Definition dev_status a : Z :=
  match a_units a (selected a) with
  | None => 0
  | Some _ => match a_busy a with S _ => 0x80 | O => match a_phase a with NoData => 0x50 | _ => 0x58 end end
  end.
Definition dev_tick a : ata := set_phase (a_phase a) (pred (a_busy a)) a.

(** A command on the selected drive, after which the device is busy for [b] reads. *)
Definition dev_command (b : nat) (v : Z) a : ata :=
  match a_units a (selected a) with
  | None => a
  | Some u =>
      if v =? ATA_CMD_READ_SECTORS then
        set_phase (DataIn (u_sectors u (address a)) (address a + 1) (pred (sector_count a))) b a
      else if v =? ATA_CMD_WRITE_SECTORS then set_phase (DataOut [] (address a) (pred (sector_count a))) b a
      else if v =? ATA_CMD_IDENTIFY then set_phase (DataIn (u_identify u) 0 0) b a
      else set_phase NoData b a
  end.

Definition dev_outb (b : nat) (port v : Z) a : ata :=
  if port =? ATA_PRIMARY_COMMAND then dev_command b v a
  else if port =? ATA_PRIMARY_DRIVE then Ata (a_units a) v (a_count a) (a_lo a) (a_mid a) (a_hi a) (a_phase a) (a_busy a)
  else if port =? ATA_PRIMARY_SECCOUNT then Ata (a_units a) (a_drive a) v (a_lo a) (a_mid a) (a_hi a) (a_phase a) (a_busy a)
  else if port =? ATA_PRIMARY_LBA_LO then Ata (a_units a) (a_drive a) (a_count a) v (a_mid a) (a_hi a) (a_phase a) (a_busy a)
  else if port =? ATA_PRIMARY_LBA_MID then Ata (a_units a) (a_drive a) (a_count a) (a_lo a) v (a_hi a) (a_phase a) (a_busy a)
  else if port =? ATA_PRIMARY_LBA_HI then Ata (a_units a) (a_drive a) (a_count a) (a_lo a) (a_mid a) v (a_phase a) (a_busy a)
  else a.

(** A word read; after the last word of a sector the device fetches the next. *)
Definition dev_inw (b : nat) a : Z * ata :=
  match a_phase a with
  | DataIn [w] next (S more) => (w, set_phase (DataIn (sector_of a next) (next + 1) more) b a)
  | DataIn [w] next O => (w, set_phase NoData b a)
  | DataIn (w :: ws) next more => (w, set_phase (DataIn ws next more) (a_busy a) a)
  | _ => (0, a)
  end.

(** A word written; with the 256th the sector is stored. *)
Definition dev_outw (b : nat) (v : Z) a : ata :=
  match a_phase a with
  | DataOut ws cur more =>
      let ws := ws ++ [v] in
      if (length ws =? 256)%nat then
        let a := set_sectors (selected a) (fun u => Unit (u_identify u) (fun l => if l =? cur then ws else u_sectors u l)) a in
        match more with
        | O => set_phase NoData b a
        | S more' => set_phase (DataOut [] (cur + 1) more') b a
        end
      else set_phase (DataOut ws cur more) (a_busy a) a
  | _ => a
  end.

(** What the driver relies on: the accesses to the ports are transitions of the
    device, which is never busy for as many as 100000 reads of its status. *)
Class AtaLaws (hw : Type) `{Ports hw} := {
  ata_of : hw -> ata;
  ata_out : forall port v h, exists b, (b < ATA_TIMEOUT)%nat /\ ata_of (outb port v h) = dev_outb b port v (ata_of h);
  ata_status : forall h, inb ATA_PRIMARY_STATUS h = (dev_status (ata_of h), (inb ATA_PRIMARY_STATUS h).2) /\
    ata_of (inb ATA_PRIMARY_STATUS h).2 = dev_tick (ata_of h);
  ata_mid : forall h, inb ATA_PRIMARY_LBA_MID h = (a_mid (ata_of h), (inb ATA_PRIMARY_LBA_MID h).2) /\
    ata_of (inb ATA_PRIMARY_LBA_MID h).2 = ata_of h;
  ata_hi : forall h, inb ATA_PRIMARY_LBA_HI h = (a_hi (ata_of h), (inb ATA_PRIMARY_LBA_HI h).2) /\
    ata_of (inb ATA_PRIMARY_LBA_HI h).2 = ata_of h;
  ata_in_data : forall h, exists b, (b < ATA_TIMEOUT)%nat /\ (inw ATA_PRIMARY_DATA h).1 = (dev_inw b (ata_of h)).1 /\
    ata_of (inw ATA_PRIMARY_DATA h).2 = (dev_inw b (ata_of h)).2;
  ata_out_data : forall v h, exists b, (b < ATA_TIMEOUT)%nat /\ ata_of (outw ATA_PRIMARY_DATA v h) = dev_outw b v (ata_of h);
}.

(** The device itself is such hardware, here busy for 3 reads each time. *)
#[export] Instance ata_ports : Ports ata := {|
  inb port a :=
    if port =? ATA_PRIMARY_STATUS then (dev_status a, dev_tick a)
    else ((if port =? ATA_PRIMARY_LBA_MID then a_mid a else if port =? ATA_PRIMARY_LBA_HI then a_hi a else 0), a);
  outb := dev_outb 3;
  inw _ := dev_inw 3; outw _ := dev_outw 3; inl _ a := (0, a); outl _ _ a := a;
|}.

#[export] Program Instance ata_laws : AtaLaws ata := {| ata_of a := a |}.
Next Obligation. intros. exists 3%nat. split; [unfold ATA_TIMEOUT; lia | done]. Qed.
Next Obligation. done. Qed.
Next Obligation. done. Qed.
Next Obligation. done. Qed.
Next Obligation. intros. exists 3%nat. split; [unfold ATA_TIMEOUT; lia | done]. Qed.
Next Obligation. intros. exists 3%nat. split; [unfold ATA_TIMEOUT; lia | done]. Qed.

(** ** The driver on the device *)

Section laws.
Context {hw : Type} {PORTS : Ports hw} {LAWS : AtaLaws hw}.
Implicit Types (h : hw) (words : list Z) (n : nat) (b : nat).

(** The state [set_phase p b a]: the device [a] in the phase [p], busy for [b] reads. *)
Lemma set_phase_twice p b q c a : set_phase p b (set_phase q c a) = set_phase p b a.
Proof. done. Qed.
Lemma set_phase_self a : set_phase (a_phase a) (a_busy a) a = a.
Proof. by destruct a. Qed.

Definition idle a : Prop := a_phase a = NoData /\ (a_busy a < ATA_TIMEOUT)%nat.

Lemma out_register port v h : port <> ATA_PRIMARY_COMMAND -> ata_of (outb port v h) = dev_outb 0 port v (ata_of h).
Proof.
  intros Hp. destruct (ata_out port v h) as (b & _ & ->). unfold dev_outb. by rewrite (proj2 (Z.eqb_neq _ _) Hp).
Qed.

(** The waits end when the device is no longer busy. *)
Lemma wait_ready_ok n h u :
  a_units (ata_of h) (selected (ata_of h)) = Some u -> (a_busy (ata_of h) < n)%nat ->
  exists h', wait_ready_loop n h = (true, h') /\ ata_of h' = set_phase (a_phase (ata_of h)) 0 (ata_of h).
Proof.
  revert h. induction n as [|n IH]; intros h Hu Hb; [lia |]. cbn [wait_ready_loop].
  destruct (ata_status h) as [Es Et]. rewrite Es. unfold dev_status. rewrite Hu.
  destruct (a_busy (ata_of h)) as [|b] eqn:Eb.
  - exists (inb ATA_PRIMARY_STATUS h).2. split; [by destruct (a_phase (ata_of h)) |]. rewrite Et. unfold dev_tick. by rewrite Eb.
  - destruct (IH (inb ATA_PRIMARY_STATUS h).2) as (h' & E & E'); rewrite ?Et; [done | cbn; rewrite Eb; cbn; lia |].
    exists h'. split; [done |]. rewrite E', Et. done.
Qed.

Lemma wait_drq_ok n h u :
  a_units (ata_of h) (selected (ata_of h)) = Some u -> (a_busy (ata_of h) < n)%nat -> a_phase (ata_of h) <> NoData ->
  exists h', wait_drq_loop n h = (true, h') /\ ata_of h' = set_phase (a_phase (ata_of h)) 0 (ata_of h).
Proof.
  revert h. induction n as [|n IH]; intros h Hu Hb Hp; [lia |]. cbn [wait_drq_loop].
  destruct (ata_status h) as [Es Et]. rewrite Es. unfold dev_status. rewrite Hu.
  destruct (a_busy (ata_of h)) as [|b] eqn:Eb.
  - exists (inb ATA_PRIMARY_STATUS h).2. split; [by destruct (a_phase (ata_of h)) |]. rewrite Et. unfold dev_tick. by rewrite Eb.
  - destruct (IH (inb ATA_PRIMARY_STATUS h).2) as (h' & E & E'); rewrite ?Et; [done | cbn; rewrite Eb; cbn; lia | done |].
    exists h'. split; [done |]. rewrite E', Et. done.
Qed.

(** ** The registers of a command *)

Definition drive_byte_ok (d x : Z) : bool :=
  let v := u8 (Z.lor (Z.lor 0xE0 (Z.shiftl (Z.land d 1) 4)) x) in
  (v mod 16 =? x) && (Z.land (Z.shiftr v 4) 1 =? d).

Lemma drive_byte d x : 0 <= d <= 1 -> 0 <= x < 16 -> drive_byte_ok d x = true.
Proof.
  intros Hd Hx. assert (forallb (fun d => forallb (drive_byte_ok d) (seqZ 0 16)) (seqZ 0 2) = true) as H by by vm_compute.
  rewrite forallb_forall in H. specialize (H d). rewrite forallb_forall in H. apply H; apply list_elem_of_In, elem_of_seqZ; lia.
Qed.

Lemma land_byte x : Z.land x 0xFF = x mod 0x100.
Proof. change 0xFF with (Z.ones 8). by rewrite Z.land_ones. Qed.

(** The device before the command byte: the registers select the drive and hold
    the low 28 bits of the sector number. *)
Lemma command_ok drive lba count command h u :
  0 <= drive <= 1 -> 0 <= lba -> a_units (ata_of h) drive = Some u ->
  exists a1 b, ata_of (ata_command drive lba count command h) = dev_command b command a1 /\ (b < ATA_TIMEOUT)%nat /\
    a_units a1 = a_units (ata_of h) /\ selected a1 = drive /\ address a1 = lba mod 0x10000000 /\ a_count a1 = count.
Proof.
  intros Hd Hl Hu. unfold ata_command. set (drv := u8 _). set (h4 := outb ATA_PRIMARY_LBA_HI _ _).
  destruct (ata_out ATA_PRIMARY_COMMAND command h4) as (b & Hb & E).
  exists (ata_of h4), b. split; [exact E |]. subst h4. rewrite !out_register by done.
  assert (0 <= Z.land (Z.shiftr lba 24) 0x0F < 16) as Hx.
  { change 0x0F with (Z.ones 4). rewrite Z.land_ones by lia. change (2 ^ 4) with 16. zlia. }
  pose proof (drive_byte drive _ Hd Hx) as Hv. unfold drive_byte_ok in Hv. fold drv in Hv. zbool.
  split_and!; try done.
  transitivity (drv mod 16 * 0x1000000 + Z.land (Z.shiftr lba 16) 0xFF * 0x10000 + Z.land (Z.shiftr lba 8) 0xFF * 0x100 + Z.land lba 0xFF); [done |].
  rewrite H. change 0x0F with (Z.ones 4). rewrite Z.land_ones, !land_byte, !Z.shiftr_div_pow2 by lia.
  change (2 ^ 24) with 0x1000000. change (2 ^ 16) with 0x10000. change (2 ^ 8) with 0x100. change (2 ^ 4) with 16. zlia.
Qed.

(** ** Sectors in *)

Definition next_in a (next : Z) (more : nat) : phase :=
  match more with O => NoData | S m => DataIn (sector_of a next) (next + 1) m end.

Lemma read_words_ok ws next more h b a :
  ws <> [] -> ata_of h = set_phase (DataIn ws next more) b a ->
  exists h' b', read_words (length ws) h = (ws, h') /\ ata_of h' = set_phase (next_in a next more) b' a /\ (b' < ATA_TIMEOUT)%nat.
Proof.
  revert h b. induction ws as [|w ws IH]; intros h b Hne Ea; [done |]. cbn [read_words length].
  destruct (ata_in_data h) as (b1 & Hb1 & Ew & E1). rewrite (surjective_pairing (inw _ h)), Ew.
  rewrite Ea in E1 |- *. destruct ws as [|w' ws].
  - exists (inw ATA_PRIMARY_DATA h).2, b1. rewrite E1. unfold dev_inw. by destruct more.
  - destruct (IH (inw ATA_PRIMARY_DATA h).2 b) as (h' & b' & -> & E' & Hb'); [done | by rewrite E1 |]. by exists h', b'.
Qed.

Lemma read_loop_ok u n : forall l h b a,
  a_units a (selected a) = Some u -> (forall k, length (u_sectors u k) = 256%nat) ->
  ata_of h = set_phase (DataIn (u_sectors u l) (l + 1) n) b a -> (b < ATA_TIMEOUT)%nat ->
  exists h' b', read_loop (S n) h = (true, concat (u_sectors u <$> seqZ l (Z.of_nat (S n))), h') /\
    ata_of h' = set_phase NoData b' a /\ (b' < ATA_TIMEOUT)%nat.
Proof.
  induction n as [|n IH]; intros l h b a Hu Hlen Ea Hb.
  all: assert (u_sectors u l <> []) as Hne by (intros E; specialize (Hlen l); by rewrite E in Hlen).
  all: destruct (wait_drq_ok ATA_TIMEOUT h u) as (h1 & E1 & Ea1); rewrite ?Ea; try done.
  all: rewrite Ea in Ea1; rewrite set_phase_twice in Ea1.
  all: destruct (read_words_ok _ _ _ _ _ _ Hne Ea1) as (h2 & b2 & E2 & Ea2 & Hb2); rewrite Hlen in E2.
  all: rewrite (seqZ_cons l) by lia; rewrite fmap_cons; cbn [concat].
  all: cbn [read_loop]; unfold ata_wait_drq; rewrite E1; cbn [negb]; rewrite E2.
  - exists h2, b2. by cbn.
  - cbn [next_in] in Ea2. unfold sector_of in Ea2. rewrite Hu in Ea2.
    destruct (IH (l + 1) h2 b2 a Hu Hlen Ea2 Hb2) as (h' & b' & E' & Ea' & Hb').
    exists h', b'. cbn [read_loop] in E'. unfold ata_wait_drq in E'. rewrite E'.
    replace (Z.pred (Z.of_nat (S (S n)))) with (Z.of_nat (S n)) by lia. done.
Qed.

(** ** Sectors out *)

(** The device with sector [l] of the selected drive replaced. *)
Definition stored (l : Z) (ws : list Z) a : ata :=
  set_sectors (selected a) (fun u => Unit (u_identify u) (fun k => if k =? l then ws else u_sectors u k)) a.
(** The device with the sectors [secs] stored from [l] on. *)
Fixpoint stored_all (l : Z) (secs : list (list Z)) a : ata :=
  match secs with [] => a | ws :: rest => stored_all (l + 1) rest (stored l ws a) end.

Definition next_out (cur : Z) (more : nat) : phase := match more with O => NoData | S m => DataOut [] (cur + 1) m end.

Lemma write_words_ok ws pre cur more h b a :
  ws <> [] -> (length pre + length ws = 256)%nat -> ata_of h = set_phase (DataOut pre cur more) b a ->
  exists b', ata_of (write_words ws h) = set_phase (next_out cur more) b' (stored cur (pre ++ ws) a) /\ (b' < ATA_TIMEOUT)%nat.
Proof.
  revert pre h b. induction ws as [|w ws IH]; intros pre h b Hne Hl Ea; [done |]. cbn [write_words].
  destruct (ata_out_data w h) as (b1 & Hb1 & E1). rewrite Ea in E1. cbn [length] in Hl.
  unfold dev_outw in E1. cbn [a_phase set_phase] in E1. destruct ws as [|w' ws].
  - exists b1. cbn [write_words]. rewrite E1, (proj2 (Nat.eqb_eq _ _)) by (rewrite length_app; cbn in *; lia). by destruct more.
  - rewrite (proj2 (Nat.eqb_neq _ _)) in E1 by (rewrite length_app; cbn in *; lia).
    destruct (IH (pre ++ [w]) (outw ATA_PRIMARY_DATA w h) b) as (b' & E' & Hb');
      [done | rewrite length_app; cbn in *; lia | by rewrite E1 |].
    exists b'. rewrite E'. by rewrite <- (assoc_L (++)).
Qed.

Lemma stored_unit l ws a u : a_units a (selected a) = Some u ->
  a_units (stored l ws a) (selected a) = Some (Unit (u_identify u) (fun k => if k =? l then ws else u_sectors u k)).
Proof. intros Hu. cbn. by rewrite Z.eqb_refl, Hu. Qed.

Lemma length_buffer_words buf sector : length (buffer_words buf sector) = 256%nat.
Proof. done. Qed.

Lemma write_loop_ok buf n : forall s l h b a u,
  a_units a (selected a) = Some u -> ata_of h = set_phase (DataOut [] l n) b a -> (b < ATA_TIMEOUT)%nat ->
  exists h' b', write_loop (S n) s buf h = (true, h') /\ (b' < ATA_TIMEOUT)%nat /\
    ata_of h' = set_phase NoData b' (stored_all l (buffer_words buf <$> seq s (S n)) a).
Proof.
  induction n as [|n IH]; intros s l h b a u Hu Ea Hb.
  all: destruct (wait_drq_ok ATA_TIMEOUT h u) as (h1 & E1 & Ea1); rewrite ?Ea; try done.
  all: rewrite Ea in Ea1; rewrite set_phase_twice in Ea1.
  all: destruct (write_words_ok (buffer_words buf s) [] _ _ _ _ _ ltac:(done) (length_buffer_words buf s) Ea1) as (b2 & Ea2 & Hb2).
  all: cbn [write_loop seq]; unfold ata_wait_drq; rewrite E1; cbn [negb].
  - eexists _, b2. done.
  - destruct (IH (S s) (l + 1) (write_words (buffer_words buf s) h1) b2 _ _ (stored_unit l (buffer_words buf s) a u Hu) Ea2 Hb2)
      as (h' & b' & E' & Hb' & Ea').
    exists h', b'. done.
Qed.

Definition sectors_after (l : Z) (secs : list (list Z)) (u : unit) (k : Z) : list Z :=
  if in_range k l (Z.of_nat (length secs)) then nth (Z.to_nat (k - l)) secs [] else u_sectors u k.

Lemma stored_all_unit secs : forall l a u, a_units a (selected a) = Some u ->
  selected (stored_all l secs a) = selected a /\
  (exists u', a_units (stored_all l secs a) (selected a) = Some u' /\ u_identify u' = u_identify u /\
    (forall k, u_sectors u' k = sectors_after l secs u k)) /\
  (forall d, d <> selected a -> a_units (stored_all l secs a) d = a_units a d).
Proof.
  induction secs as [|ws secs IH]; intros l a u Hu.
  - split_and!; [done | | done]. exists u. split_and!; [done | done |]. intros k. unfold sectors_after.
    by destruct (in_range_spec k l (Z.of_nat (length ([] : list (list Z))))); [cbn in *; lia |].
  - destruct (IH (l + 1) (stored l ws a) _ (stored_unit l ws a u Hu)) as (Es & (u' & Eu & Ei & Ek) & Ed).
    change (selected (stored l ws a)) with (selected a) in *. split_and!; [done | |].
    + exists u'. split_and!; [done | done |]. intros k. rewrite Ek. unfold sectors_after. cbn [length u_sectors].
      destruct (in_range_spec k (l + 1) (Z.of_nat (length secs))), (in_range_spec k l (Z.of_nat (S (length secs)))); try lia.
      * replace (Z.to_nat (k - l)) with (S (Z.to_nat (k - (l + 1)))) by lia. done.
      * replace k with l by lia. by rewrite Z.eqb_refl, Z.sub_diag.
      * by rewrite (proj2 (Z.eqb_neq k l)) by lia.
    + intros d Hd. cbn [stored_all]. rewrite Ed by done. cbn. by rewrite (proj2 (Z.eqb_neq _ _) Hd).
Qed.

(** ** Transfers *)

(** [u] is the unit of the drive [dr], whose detection succeeded; the device is idle. *)
Definition unit_ready drives h (dr : Z) (u : unit) : Prop :=
  ata_drive_present dr drives = true /\ a_units (ata_of h) dr = Some u /\ (forall k, length (u_sectors u k) = 256%nat) /\
  idle (ata_of h).

(** The ready wait also ends when no drive is selected: the status is then 0. *)
Lemma wait_ready_idle h : idle (ata_of h) ->
  exists h' b, ata_wait_ready h = (true, h') /\ ata_of h' = set_phase NoData b (ata_of h) /\ (b < ATA_TIMEOUT)%nat.
Proof.
  intros [Hp Hb]. unfold ata_wait_ready. destruct (a_units (ata_of h) (selected (ata_of h))) as [u|] eqn:Hu.
  - destruct (wait_ready_ok ATA_TIMEOUT h u Hu Hb) as (h' & E & E'). exists h', 0%nat. rewrite <- Hp. split_and!; [done | done |].
    unfold ATA_TIMEOUT. lia.
  - unfold ATA_TIMEOUT in *. destruct (Z.to_nat 100000) as [|n] eqn:En; [lia |]. cbn [wait_ready_loop].
    destruct (ata_status h) as [Es Et]. rewrite Es. unfold dev_status. rewrite Hu. cbn.
    exists (inb ATA_PRIMARY_STATUS h).2, (pred (a_busy (ata_of h))). rewrite Et. unfold dev_tick. rewrite Hp. split_and!; [done | done | lia].
Qed.

Lemma drive_present_range dr drives : ata_drive_present dr drives = true -> 0 <= dr <= 1.
Proof. unfold ata_drive_present. intros H. zbool. destruct (_ || _) eqn:E; [done | zbool; lia]. Qed.

Lemma sector_count_ok a c : a_count a = c -> 0 < c < 256 -> sector_count a = S (pred (Z.to_nat c)).
Proof. intros E Hc. unfold sector_count. rewrite E, (proj2 (Z.eqb_neq c 0)) by lia. lia. Qed.

Lemma read_sectors_ok drives h dr u lba count :
  unit_ready drives h dr u -> 0 <= lba -> 0 < count < 256 ->
  exists h', ata_read_sectors dr lba count drives h =
      (count, concat (le_bytes 2 <$> concat (u_sectors u <$> seqZ (lba mod 0x10000000) count)), h') /\
    idle (ata_of h') /\ a_units (ata_of h') = a_units (ata_of h).
Proof.
  intros (Hp & Hu & Hlen & Hi) Hl Hc. pose proof (drive_present_range _ _ Hp) as Hd.
  destruct (wait_ready_idle h Hi) as (h1 & b1 & E1 & Ea1 & _).
  assert (a_units (ata_of h1) = a_units (ata_of h)) as Eu1 by by rewrite Ea1.
  destruct (command_ok dr lba count ATA_CMD_READ_SECTORS h1 u Hd Hl) as (a1 & b & E & Hb & Eu & Es & El & Ec); [by rewrite Eu1 |].
  unfold dev_command in E. rewrite Es, Eu, Eu1, Hu in E. cbn -[u8 ata_command Nat.pred] in E.
  rewrite El, (sector_count_ok a1 count Ec Hc) in E. cbn [Nat.pred] in E.
  assert (a_units a1 (selected a1) = Some u) as Hua by by rewrite Es, Eu, Eu1.
  destruct (read_loop_ok u (pred (Z.to_nat count)) _ _ _ _ Hua Hlen E Hb) as (h' & b' & Er & Ea' & Hb').
  exists h'. split_and!; [| by rewrite Ea' | by rewrite Ea', <- Eu1, <- Eu].
  unfold ata_read_sectors. rewrite Hp, (proj2 (Z.eqb_neq count 0)), E1 by lia. cbn [negb].
  replace (Z.to_nat count) with (S (pred (Z.to_nat count))) by lia. rewrite Er.
  by replace (Z.of_nat (S (pred (Z.to_nat count)))) with count by lia.
Qed.

Lemma write_sectors_ok drives h dr u lba count buf :
  unit_ready drives h dr u -> 0 <= lba -> 0 < count < 256 ->
  exists h' u', ata_write_sectors dr lba count buf drives h = (count, h') /\ idle (ata_of h') /\
    a_units (ata_of h') dr = Some u' /\ u_identify u' = u_identify u /\
    (forall k, u_sectors u' k = sectors_after (lba mod 0x10000000) (buffer_words buf <$> seq 0 (Z.to_nat count)) u k) /\
    (forall dr', dr' <> dr -> a_units (ata_of h') dr' = a_units (ata_of h) dr').
Proof.
  intros (Hp & Hu & Hlen & Hi) Hl Hc. pose proof (drive_present_range _ _ Hp) as Hd.
  destruct (wait_ready_idle h Hi) as (h1 & b1 & E1 & Ea1 & _).
  assert (a_units (ata_of h1) = a_units (ata_of h)) as Eu1 by by rewrite Ea1.
  destruct (command_ok dr lba count ATA_CMD_WRITE_SECTORS h1 u Hd Hl) as (a1 & b & E & Hb & Eu & Es & El & Ec); [by rewrite Eu1 |].
  unfold dev_command in E. rewrite Es, Eu, Eu1, Hu in E. cbn -[u8 ata_command Nat.pred] in E.
  rewrite El, (sector_count_ok a1 count Ec Hc) in E. cbn [Nat.pred] in E.
  assert (a_units a1 (selected a1) = Some u) as Hua by by rewrite Es, Eu, Eu1.
  destruct (write_loop_ok buf (pred (Z.to_nat count)) 0 _ _ _ _ u Hua E Hb) as (h2 & b2 & Er & Hb2 & Ea2).
  replace (S (pred (Z.to_nat count))) with (Z.to_nat count) in * by lia.
  destruct (stored_all_unit (buffer_words buf <$> seq 0 (Z.to_nat count)) (lba mod 0x10000000) a1 u Hua)
    as (Ess & (u' & Eu' & Ei' & Ek') & Ed').
  destruct (ata_out ATA_PRIMARY_COMMAND ATA_CMD_FLUSH h2) as (b3 & Hb3 & E3).
  assert (ata_of (outb ATA_PRIMARY_COMMAND ATA_CMD_FLUSH h2) =
    set_phase NoData b3 (stored_all (lba mod 0x10000000) (buffer_words buf <$> seq 0 (Z.to_nat count)) a1)) as E3'.
  { rewrite E3, Ea2. cbn -[stored_all u8]. unfold dev_command. cbn -[stored_all u8]. 
    change (selected (set_phase NoData b2 ?a)) with (selected a). rewrite Ess, Eu'. done. }
  destruct (wait_ready_idle (outb ATA_PRIMARY_COMMAND ATA_CMD_FLUSH h2)) as (h' & b' & E4 & Ea4 & Hb4); [by rewrite E3' |].
  rewrite E3', set_phase_twice in Ea4. exists h', u'. rewrite Es in *.
  split_and!; rewrite ?Ea4; try done.
  - unfold ata_write_sectors. rewrite Hp, (proj2 (Z.eqb_neq count 0)), E1 by lia. cbn [negb]. rewrite Er. cbn [negb]. by rewrite E4.
  - intros dr' Hne. rewrite <- Eu1, <- Eu. by apply Ed'.
Qed.

(** ** The bytes of a buffer as words, and back *)

Lemma le_bytes_get16 buf o : bytes buf -> (o + 2 <= length buf)%nat -> le_bytes 2 (get16 buf o) = take 2 (drop o buf).
Proof.
  intros Hb Ho. unfold get16. rewrite <- (le_bytes_le_val (take 2 (drop o buf))) at 2 by auto with words.
  by rewrite length_take, length_drop, Nat.min_l by lia.
Qed.

Lemma words_bytes buf o n : forall j, bytes buf -> (o + 2 * (j + n) <= length buf)%nat ->
  concat (le_bytes 2 <$> ((fun i => get16 buf (o + 2 * i)) <$> seq j n)) = take (2 * n) (drop (o + 2 * j) buf).
Proof.
  induction n as [|n IH]; intros j Hb Hl; [done |]. cbn [seq]. rewrite !fmap_cons. cbn [concat].
  rewrite IH, le_bytes_get16 by (done || lia). replace (2 * S n)%nat with (2 + 2 * n)%nat by lia.
  replace (o + 2 * S j)%nat with (o + 2 * j + 2)%nat by lia. rewrite <- (drop_drop buf 2 (o + 2 * j)). by rewrite take_take_drop.
Qed.

Lemma buffer_words_bytes buf s : bytes buf -> (512 * S s <= length buf)%nat ->
  concat (le_bytes 2 <$> buffer_words buf s) = take 512 (drop (512 * s) buf).
Proof. intros Hb Hl. unfold buffer_words. rewrite words_bytes by (done || lia). f_equal. f_equal. lia. Qed.

#[local] Opaque buffer_words.

Lemma buffer_bytes buf n : forall s, bytes buf -> (512 * (s + n) <= length buf)%nat ->
  concat (le_bytes 2 <$> concat (buffer_words buf <$> seq s n)) = take (512 * n) (drop (512 * s) buf).
Proof.
  induction n as [|n IH]; intros s Hb Hl; [done |]. cbn [seq]. rewrite fmap_cons. cbn [concat].
  rewrite fmap_app, concat_app, IH, buffer_words_bytes by (done || lia).
  replace (512 * S n)%nat with (512 + 512 * n)%nat by lia.
  replace (512 * S s)%nat with (512 * s + 512)%nat by lia. rewrite <- (drop_drop buf 512 (512 * s)). by rewrite take_take_drop.
Qed.

Lemma sectors_written l buf u n :
  (sectors_after l (buffer_words buf <$> seq 0 n) u) <$> seqZ l (Z.of_nat n) = buffer_words buf <$> seq 0 n.
Proof.
  unfold seqZ. rewrite Nat2Z.id, <- list_fmap_compose. apply list_fmap_ext. intros i s Hi.
  apply lookup_seq in Hi as [-> Hi]. unfold sectors_after, compose. cbn beta. rewrite length_fmap, length_seq, Nat.add_0_l.
  destruct (in_range_spec (Z.of_nat i + l) l (Z.of_nat n)); [| lia].
  replace (Z.to_nat (Z.of_nat i + l - l)) with i by lia. by rewrite nth_lookup, list_lookup_fmap, lookup_seq_lt by lia.
Qed.

Lemma length_sectors_after l buf n u k : (forall k, length (u_sectors u k) = 256%nat) ->
  length (sectors_after l (buffer_words buf <$> seq 0 n) u k) = 256%nat.
Proof.
  intros H. unfold sectors_after. rewrite length_fmap, length_seq. destruct (in_range_spec k l (Z.of_nat n)) as [Hk|]; [| done].
  rewrite nth_lookup, list_lookup_fmap, lookup_seq_lt by lia. apply length_buffer_words.
Qed.

(** C25. Sectors written are read back: on a drive that was detected and hardware
    that behaves as the device above, whatever time each command takes, a write of
    1 to 255 sectors below sector 2^28 returns the count, leaves every other
    sector and the other drive as they were, and leaves the device ready; a read of
    the same sectors then returns the count and the bytes of the buffer. *)
Theorem ata_write_read_roundtrip drives h dr u lba count buf :
  unit_ready drives h dr u -> 0 <= lba -> lba + count <= 0x10000000 -> 0 < count < 256 ->
  bytes buf -> Z.of_nat (length buf) = 512 * count ->
  exists h1 h2 u1, ata_write_sectors dr lba count buf drives h = (count, h1) /\ unit_ready drives h1 dr u1 /\
    (forall k, ~ lba <= k < lba + count -> u_sectors u1 k = u_sectors u k) /\
    (forall dr', dr' <> dr -> a_units (ata_of h1) dr' = a_units (ata_of h) dr') /\
    ata_read_sectors dr lba count drives h1 = (count, buf, h2) /\ unit_ready drives h2 dr u1.
Proof.
  intros Hr Hl Hlc Hc Hb Hlen.
  destruct (write_sectors_ok drives h dr u lba count buf Hr Hl Hc) as (h1 & u1 & Ew & Hi & Hu1 & _ & Hk & Hd).
  rewrite Z.mod_small in Hk by lia.
  assert (unit_ready drives h1 dr u1) as Hr1.
  { split_and!; [apply Hr | done | | done]. intros k. rewrite Hk. apply length_sectors_after, Hr. }
  destruct (read_sectors_ok drives h1 dr u1 lba count Hr1 Hl Hc) as (h2 & Er & Hi2 & Eu2). rewrite Z.mod_small in Er by lia.
  exists h1, h2, u1. split_and!; [done | done | | done | | ].
  - intros k Hk'. rewrite Hk. unfold sectors_after. rewrite length_fmap, length_seq. by destruct (in_range_spec k lba (Z.of_nat (Z.to_nat count))); [lia |].
  - rewrite Er. repeat f_equal. rewrite (list_fmap_ext (u_sectors u1) _ (seqZ lba count) (fun _ k _ => Hk k)).
    replace (seqZ lba count) with (seqZ lba (Z.of_nat (Z.to_nat count))) by (f_equal; lia).
    rewrite sectors_written, buffer_bytes, drop_0 by (done || lia). apply take_ge. lia.
  - destruct Hr1 as (? & ? & ? & ?). split_and!; [done | by rewrite Eu2 | done | done].
Qed.

(** ** The driver as the file system's disk *)

#[export] Instance ata_device : BlockDevice (list ata_drive * hw) := {|
  drive_present dr d := ata_drive_present dr d.1;
  drive_sectors dr d := match ata_get_drive_info dr d.1 with Some x => size_sectors x | None => 0 end;
  read_block dr lba d :=
    let '(r, l, h) := ata_read_sectors dr lba 1 d.1 d.2 in (if r <? 0 then None else Some l, (d.1, h));
  write_block dr lba buf d :=
    let '(r, h) := ata_write_sectors dr lba 1 buf d.1 d.2 in (negb (r <? 0), (d.1, h));
|}.

(** The device is idle, the drives that were detected have sectors of 256 words
    and no drive has more sectors than 28 bits address. *)
Definition ata_works (d : list ata_drive * hw) : Prop :=
  idle (ata_of d.2) /\ Forall (fun x => 0 <= size_sectors x <= 0x10000000) d.1 /\
  (forall dr, ata_drive_present dr d.1 = true ->
    exists u, a_units (ata_of d.2) dr = Some u /\ (forall k, length (u_sectors u k) = 256%nat)).

Definition ata_block (d : list ata_drive * hw) (dr lba : Z) : list Z :=
  match a_units (ata_of d.2) dr with Some u => concat (le_bytes 2 <$> u_sectors u lba) | None => [] end.

Lemma words_sector ws : length ws = 256%nat -> sector (concat (le_bytes 2 <$> ws)).
Proof.
  intros Hl. assert (length (concat (le_bytes 2 <$> ws)) = (2 * length ws)%nat /\ bytes (concat (le_bytes 2 <$> ws))) as [E Hb].
  { clear Hl. induction ws as [|w ws [IH Hb]]; [by split; [| constructor] |]. rewrite fmap_cons. cbn [concat]. split.
    - rewrite length_app, length_le_bytes, IH. cbn [length]. lia.
    - apply bytes_app. auto using le_bytes_bytes. }
  split; [rewrite E; lia | done].
Qed.

Lemma drive_sectors_bound dr (d : list ata_drive * hw) : ata_works d -> 0 <= drive_sectors dr d <= 0x10000000.
Proof.
  intros (_ & Hf & _). cbn. unfold ata_get_drive_info. destruct (_ || _); [lia |].
  destruct (d.1 !! Z.to_nat dr) as [x|] eqn:E; [| lia]. by apply (Forall_lookup_1 _ _ _ _ Hf E).
Qed.

Lemma ata_works_ready dr d : ata_works d -> ata_drive_present dr d.1 = true -> exists u, unit_ready d.1 d.2 dr u.
Proof. intros (Hi & _ & Hu) Hp. destruct (Hu dr Hp) as (u & ? & ?). by exists u. Qed.

(** What the file system relies on of its disk. *)
#[export] Program Instance ata_block_laws : BlockLaws (list ata_drive * hw) := {| block := ata_block; works := ata_works |}.
Next Obligation. intros dr d Hw. pose proof (drive_sectors_bound dr d Hw). lia. Qed.
Next Obligation.
  intros dr lba d Hw Hp _. destruct (ata_works_ready dr d Hw Hp) as (u & _ & Hu & Hl & _).
  unfold ata_block. rewrite Hu. by apply words_sector.
Qed.
Next Obligation.
  intros dr lba d Hw Hp Hlba. pose proof (drive_sectors_bound dr d Hw) as Hs.
  destruct (ata_works_ready dr d Hw Hp) as (u & Hr). pose proof Hr as (_ & Hu & Hl & _). destruct Hw as (_ & Hf & Hwu).
  destruct (read_sectors_ok d.1 d.2 dr u lba 1 Hr ltac:(lia) ltac:(lia)) as (h' & E & Hi & Eu).
  rewrite Z.mod_small in E by lia.
  exists (d.1, h'). split_and!; [| split_and!; [done | done | cbn; by rewrite Eu] | done |].
  - cbn [read_block ata_device]. rewrite E. unfold ata_block. rewrite Hu.
    change (concat (u_sectors u <$> seqZ lba 1)) with (u_sectors u lba ++ []). by rewrite app_nil_r.
  - intros dr' lba'. unfold ata_block. cbn [snd]. by rewrite Eu.
Qed.
Next Obligation.
  intros dr lba b d Hw Hp Hlba [Hbl Hbb]. pose proof (drive_sectors_bound dr d Hw) as Hs.
  destruct (ata_works_ready dr d Hw Hp) as (u & Hr). pose proof Hr as (_ & Hu & Hl & _). destruct Hw as (_ & Hf & Hwu).
  destruct (write_sectors_ok d.1 d.2 dr u lba 1 b Hr ltac:(lia) ltac:(lia)) as (h' & u' & E & Hi & Eu & _ & Hk & Hd).
  rewrite Z.mod_small in Hk by lia. change (seq 0 (Z.to_nat 1)) with [0%nat] in Hk.
  exists (d.1, h'). split_and!; [| split_and!; [done | done |] | done |].
  - cbn [write_block ata_device]. by rewrite E.
  - cbn [fst snd]. intros dr' Hp'. destruct (Z.eq_dec dr' dr) as [->|Hne]; [| rewrite Hd by done; auto].
    exists u'. split; [done |]. intros k. rewrite Hk. by apply (length_sectors_after lba b 1 u k).
  - intros dr' lba'. unfold ata_block. cbn [snd]. destruct (Z.eqb_spec dr' dr) as [->|Hne]; [| by rewrite Hd].
    rewrite Eu, Hu, Hk. unfold sectors_after. cbn -[le_bytes concat in_range nth].
    destruct (in_range_spec lba' lba (Z.of_nat 1)), (Z.eqb_spec lba' lba); try lia; [| done]. subst lba'.
    rewrite Z.sub_diag. change (concat (le_bytes 2 <$> buffer_words b 0) = b). rewrite buffer_words_bytes, drop_0 by (done || lia). apply take_ge. lia.
Qed.

(** ** Detection *)

Lemma discard_ok n h : exists b, ata_of (discard n ATA_PRIMARY_STATUS h) = set_phase (a_phase (ata_of h)) b (ata_of h) /\
  (b <= a_busy (ata_of h))%nat.
Proof.
  revert h. induction n as [|n IH]; intros h.
  - exists (a_busy (ata_of h)). by rewrite set_phase_self.
  - destruct (ata_status h) as [_ Et]. destruct (IH (inb ATA_PRIMARY_STATUS h).2) as (b & E & Hb). exists b. cbn [discard].
    rewrite E, Et. split; [done |]. rewrite Et in Hb. cbn in Hb. lia.
Qed.

(** The device once the registers of the identify command are written. *)
Lemma identify_registers dr h :
  0 <= dr <= 1 -> idle (ata_of h) ->
  exists a1, ata_of (outb ATA_PRIMARY_LBA_HI 0 (outb ATA_PRIMARY_LBA_MID 0 (outb ATA_PRIMARY_LBA_LO 0
      (outb ATA_PRIMARY_SECCOUNT 0 (ata_select_drive dr h))))) = a1 /\
    selected a1 = dr /\ a_units a1 = a_units (ata_of h) /\ a_mid a1 = 0 /\ a_hi a1 = 0 /\ idle a1.
Proof.
  intros Hd [Hp Hb]. rewrite !out_register by done. unfold ata_select_drive.
  set (drv := u8 _). destruct (discard_ok 15 (outb ATA_PRIMARY_DRIVE drv h)) as (b & E & Hb'). rewrite E.
  rewrite !out_register in * by done. eexists. split; [done |]. split_and!; [| done | done | done |].
  - change (Z.land (Z.shiftr drv 4) 1 = dr). subst drv. by destruct (decide (dr = 0)) as [->|]; [| replace dr with 1 by lia].
  - split; [done |]. cbn in *. lia.
Qed.

Definition detected (u : unit) : ata_drive :=
  default (AtaDrive false false 0 [] []) (parse_identify (u_identify u)).

Lemma parse_detected u : length (u_identify u) = 256%nat -> parse_identify (u_identify u) = Some (detected u).
Proof.
  intros Hl. unfold detected, parse_identify.
  destruct (lookup_lt_is_Some_2 (u_identify u) 60 ltac:(lia)) as [lo ->].
  destruct (lookup_lt_is_Some_2 (u_identify u) 61 ltac:(lia)) as [hi ->]. done.
Qed.

Lemma detected_present u : length (u_identify u) = 256%nat -> present (detected u) = true /\ is_ata (detected u) = true.
Proof.
  intros Hl. pose proof (parse_detected u Hl) as E. unfold parse_identify in E.
  destruct (u_identify u !! 60%nat); [| done]. destruct (u_identify u !! 61%nat); [| done]. cbn in E. by injection E as <-.
Qed.

(** One drive: its entry becomes what its identify data says when it has a unit. *)
Lemma identify_ok dr drives h :
  0 <= dr <= 1 -> length drives = 2%nat -> idle (ata_of h) ->
  (forall u, a_units (ata_of h) dr = Some u -> length (u_identify u) = 256%nat) ->
  exists h', idle (ata_of h') /\ a_units (ata_of h') = a_units (ata_of h) /\
    ata_identify dr drives h = Some (match a_units (ata_of h) dr with
      | Some u => (true, <[Z.to_nat dr := detected u]> drives, h') | None => (false, drives, h') end).
Proof.
  intros Hd Hl Hi Hid. destruct (identify_registers dr h Hd Hi) as (a1 & E1 & Es & Eu & Em & Eh & Hi1).
  unfold ata_identify. set (h5 := outb ATA_PRIMARY_LBA_HI 0 _) in *.
  destruct (ata_out ATA_PRIMARY_COMMAND ATA_CMD_IDENTIFY h5) as (b & Hb & E2).
  set (h6 := outb ATA_PRIMARY_COMMAND ATA_CMD_IDENTIFY h5) in *. rewrite E1 in E2.
  change (dev_outb b ATA_PRIMARY_COMMAND ATA_CMD_IDENTIFY a1) with (dev_command b ATA_CMD_IDENTIFY a1) in E2.
  destruct (ata_status h6) as [E3 E3']. rewrite E3. unfold dev_command in E2. rewrite Es, Eu in E2.
  destruct (a_units (ata_of h) dr) as [u|] eqn:Hu.
  - cbn in E2. set (h7 := (inb ATA_PRIMARY_STATUS h6).2) in *.
    assert (dev_status (ata_of h6) =? 0 = false) as -> by (rewrite E2; unfold dev_status; change (selected (set_phase _ _ a1)) with (selected a1); cbn [a_units set_phase]; rewrite Es, Eu, Hu; by destruct b).
    assert (a_units a1 (selected a1) = Some u) as Hua by by rewrite Es, Eu.
    rewrite E2 in E3'. unfold dev_tick in E3'. rewrite set_phase_twice in E3'. cbn [a_phase a_busy set_phase] in E3'.
    destruct (wait_ready_ok ATA_TIMEOUT h7 u) as (h8 & E8 & E8'); rewrite ?E3'; [done | cbn; lia |].
    unfold ata_wait_ready. rewrite E8. cbn [negb]. rewrite E3', set_phase_twice in E8'. cbn [a_phase set_phase] in E8'.
    destruct (ata_mid h8) as [E9 E9']. rewrite E9, E8'. cbn [a_mid set_phase]. rewrite Em.
    set (h9 := (inb ATA_PRIMARY_LBA_MID h8).2) in *. rewrite E8' in E9'.
    destruct (ata_hi h9) as [E10 E10']. rewrite E10, E9'. cbn [a_hi set_phase]. rewrite Eh.
    change (negb (0 =? 0) || negb (0 =? 0)) with false. cbv iota. set (h10 := (inb ATA_PRIMARY_LBA_HI h9).2) in *.
    rewrite E9' in E10'.
    destruct (wait_drq_ok ATA_TIMEOUT h10 u) as (h11 & E11 & E11'); rewrite ?E10'; [done | cbn; lia | done |].
    unfold ata_wait_drq. rewrite E11. cbn [negb]. rewrite E10', set_phase_twice in E11'. cbn [a_phase set_phase] in E11'.
    specialize (Hid u eq_refl).
    destruct (read_words_ok (u_identify u) 0 0 h11 0 a1) as (h' & b' & Er & Ea' & Hb');
      [intros E; by rewrite E in Hid | done |].
    rewrite Hid in Er. rewrite Er. exists h'. split_and!; [by rewrite Ea' | by rewrite Ea' |].
    destruct (lookup_lt_is_Some_2 drives (Z.to_nat dr) ltac:(lia)) as [d ->]. cbn. by rewrite parse_detected.
  - exists (inb ATA_PRIMARY_STATUS h6).2. rewrite E3', E2.
    assert (dev_status a1 = 0) as -> by (unfold dev_status; by rewrite Es, Eu, Hu).
    split_and!; [| done | done]. destruct Hi1 as [Hp1 Hb1]. split; [done |]. cbn. lia.
Qed.

#[local] Opaque detected.
Definition entry_after (units : Z -> option unit) (dr : Z) (old : ata_drive) : ata_drive :=
  match units dr with Some u => detected u | None => reset_drive old end.

(** The identify data of a unit: 256 words, of at most 2^28 sectors of 256 words. *)
Definition unit_ok (u : unit) : Prop :=
  length (u_identify u) = 256%nat /\ (forall k, length (u_sectors u k) = 256%nat) /\
  0 <= size_sectors (detected u) <= 0x10000000.

(** C26. Detection makes the driver a disk the file system can work with: on an
    idle channel, [ata_init] sets the entry of each drive to what its identify
    data says and resets the entry of a missing one, returns -1 exactly when both
    are missing, finds exactly the drives that exist, and leaves the driver in a state
    in which the laws of the block interface hold ([ata_block_laws]). *)
Theorem ata_init_spec d0 d1 h :
  idle (ata_of h) -> (forall dr u, a_units (ata_of h) dr = Some u -> unit_ok u) ->
  let units := a_units (ata_of h) in let drives' := [entry_after units 0 d0; entry_after units 1 d1] in
  exists h', ata_init [d0; d1] h =
      Some (if bool_decide (units 0 = None /\ units 1 = None) then -1 else 0, drives', h') /\
    (forall dr, 0 <= dr <= 1 -> (ata_drive_present dr drives' = true <-> is_Some (units dr))) /\
    ata_works (drives', h').
Proof.
  intros Hi Hok units drives'. assert (a_units (ata_of h) = units) as Eu by done. rewrite Eu in Hok. clearbody units. unfold ata_init. set (h0 := outb ATA_PRIMARY_CONTROL 2 h).
  assert (ata_of h0 = ata_of h) as E0 by (subst h0; by rewrite out_register).
  destruct (identify_ok 0 (reset_drive <$> [d0; d1]) h0) as (h1 & Hi1 & Eu1 & E1); rewrite ?E0, ?Eu in *; [lia | done | done | by intros u Hu; apply (Hok 0 u) |].
  assert (exists ok, match units 0 with Some u => (true, <[Z.to_nat 0 := detected u]> (reset_drive <$> [d0; d1]), h1)
    | None => (false, reset_drive <$> [d0; d1], h1) end = (ok, [entry_after units 0 d0; reset_drive d1], h1)) as [ok1 Eq1]
    by (unfold entry_after; destruct (units 0); eauto).
  rewrite Eq1 in E1. rewrite E1. clear E1 Eq1. cbn [mbind option_bind].
  destruct (identify_ok 1 [entry_after units 0 d0; reset_drive d1] h1) as (h2 & Hi2 & Eu2 & E2);
    [lia | done | done | rewrite Eu1; by intros u Hu; apply (Hok 1 u) |].
  rewrite Eu1 in E2.
  assert (exists ok, match units 1 with Some u => (true, <[Z.to_nat 1 := detected u]> [entry_after units 0 d0; reset_drive d1], h2)
    | None => (false, [entry_after units 0 d0; reset_drive d1], h2) end = (ok, drives', h2)) as [ok2 Eq2]
    by (unfold drives', entry_after; destruct (units 1); eauto).
  rewrite Eq2 in E2. rewrite E2. clear E2 Eq2. cbn [mbind option_bind]. exists h2.
  assert (forall u, units 0 = Some u \/ units 1 = Some u -> present (detected u) = true /\ is_ata (detected u) = true) as Hpr.
  { intros u [Hu|Hu]; apply detected_present; [apply (Hok 0 u Hu) | apply (Hok 1 u Hu)]. }
  assert (forall dr, 0 <= dr <= 1 -> (ata_drive_present dr drives' = true <-> is_Some (units dr))) as Hp.
  { intros dr Hd. assert (dr = 0 \/ dr = 1) as [-> | ->] by lia; unfold ata_drive_present, drives', entry_after; change (Z.to_nat 0) with 0%nat; change (Z.to_nat 1) with 1%nat; cbn.
    - destruct (units 0) as [u|] eqn:E; [destruct (Hpr u (or_introl eq_refl)) as [-> ->]; split; eauto | split; [done | by intros []]].
    - destruct (units 1) as [u|] eqn:E; [destruct (Hpr u (or_intror eq_refl)) as [-> ->]; split; eauto | split; [done | by intros []]]. }
  split_and!; [| exact Hp | split_and!].
  - subst drives'. change ([?a; ?b] !! 0%nat) with (Some a). change ([?a; ?b] !! 1%nat) with (Some b). cbn [mbind option_bind].
    unfold entry_after. destruct (units 0) as [u0|] eqn:Eq0; [by rewrite (proj1 (Hpr u0 (or_introl eq_refl))) |].
    destruct (units 1) as [u1|] eqn:Eq1; [by rewrite (proj1 (Hpr u1 (or_intror eq_refl))) | done].
  - exact Hi2.
  - assert (forall dr old, 0 <= size_sectors (entry_after units dr old) <= 0x10000000) as Hs.
    { intros dr old. unfold entry_after. destruct (units dr) as [u|] eqn:E; [apply (Hok _ u E) | cbn; lia]. }
    constructor; [apply Hs |]. constructor; [apply Hs | constructor].
  - intros dr Hdp. cbn [fst snd] in *. pose proof (drive_present_range _ _ Hdp) as Hd. apply (Hp dr Hd) in Hdp as [u Hu]. rewrite Eu2, Eu1. exists u.
    split; [done | apply (Hok dr u Hu)].
Qed.

End laws.

(** ** A channel with one drive of 64 sectors, and its driver *)

#[local] Transparent detected.

Definition demo_unit : unit :=
  Unit (<[60%nat := 64]> (<[61%nat := 0]> (<[27%nat := 0x4320]> (replicate 256 0x2020)))) (fun k => replicate 256 (u16 k)).
Definition demo_ata : ata := Ata (fun dr => if dr =? 0 then Some demo_unit else None) 0xA0 0 0 0 0 NoData 2.
Definition no_drive : ata_drive := AtaDrive false false 0 (replicate 41 0) (replicate 21 0).
Definition demo_drives : list ata_drive := [detected demo_unit; no_drive].

Example demo_model : take 4 (model (detected demo_unit)) = [0x43; 0; 0; 0] /\ size_sectors (detected demo_unit) = 64.
Proof. vm_compute. done. Qed.

Lemma demo_idle : idle demo_ata.
Proof. split; [done | unfold ATA_TIMEOUT; cbn; lia]. Qed.

Lemma ata_write_read_roundtrip_witness :
  unit_ready demo_drives demo_ata 0 demo_unit /\
  exists h1 h2 u1, ata_write_sectors 0 5 2 (replicate 1024 7) demo_drives demo_ata = (2, h1) /\ unit_ready demo_drives h1 0 u1 /\
    (forall k, ~ 5 <= k < 5 + 2 -> u_sectors u1 k = u_sectors demo_unit k) /\
    (forall dr', dr' <> 0 -> a_units (ata_of h1) dr' = a_units (ata_of demo_ata) dr') /\
    ata_read_sectors 0 5 2 demo_drives h1 = (2, replicate 1024 7, h2) /\ unit_ready demo_drives h2 0 u1.
Proof.
  assert (unit_ready demo_drives demo_ata 0 demo_unit) as Hr.
  { split; [done |]. split; [done |]. split; [| exact demo_idle]. intros k. apply length_replicate. }
  split; [exact Hr |].
  apply (ata_write_read_roundtrip demo_drives demo_ata 0 demo_unit 5 2 (replicate 1024 7) Hr);
    [lia | lia | lia | apply bytes_replicate; lia | rewrite length_replicate; lia].
Defined.

Lemma ata_init_spec_witness :
  exists h', ata_init [no_drive; no_drive] demo_ata = Some (0, demo_drives, h') /\ ata_works (demo_drives, h').
Proof.
  destruct (ata_init_spec no_drive no_drive demo_ata) as (h' & E & _ & Hw); [exact demo_idle | |].
  { intros dr u Hu. cbn in Hu. destruct (dr =? 0); [| done]. injection Hu as <-.
    split; [apply length_insert |]. split; [intros k; apply length_replicate | vm_compute; split; discriminate]. }
  exists h'. split; [exact E | exact Hw].
Defined.
