(* ===== verification/Fat16.v ===== *)
(** * The FAT16 file system

    [fs/fat16.c] over the interface [BlockDevice].  One sector buffer is shared
    by every operation, as in the code: what it holds between two statements is
    part of the state.  Directory entries are the 32 bytes of the buffer at
    their offset; names are lists of characters without the final zero.
    None is a loop that does not end or a division by zero. *)

From S2P Require Import Prelude Checksum Buffers Block.

Definition FAT_ATTR_VOLUME_ID := 0x08.
Definition FAT_ATTR_DIRECTORY := 0x10.
Definition FAT_ATTR_ARCHIVE := 0x20.
Definition FAT_ATTR_LFN := 0x0F.
Definition FAT16_FREE := 0x0000.
Definition FAT16_BAD_CLUSTER := 0xFFF7.
Definition FAT16_END_OF_CHAIN := 0xFFF8.
Definition NO_SECTOR := 0xFFFFFFFF.

Record fat16_fs := Fs {
  mounted : bool;
  drive : Z;
  bytes_per_sector : Z;
  sectors_per_cluster : Z;
  reserved_sectors : Z;
  num_fats : Z;
  root_entry_count : Z;
  fat_size : Z;
  total_sectors : Z;
  fat_start_sector : Z;
  root_dir_start : Z;
  root_dir_sectors : Z;
  data_start_sector : Z;
  total_clusters : Z;
}.

Definition set_mounted v f := Fs v (drive f) (bytes_per_sector f) (sectors_per_cluster f) (reserved_sectors f)
  (num_fats f) (root_entry_count f) (fat_size f) (total_sectors f) (fat_start_sector f) (root_dir_start f)
  (root_dir_sectors f) (data_start_sector f) (total_clusters f).
Definition set_drive v f := Fs (mounted f) v (bytes_per_sector f) (sectors_per_cluster f) (reserved_sectors f)
  (num_fats f) (root_entry_count f) (fat_size f) (total_sectors f) (fat_start_sector f) (root_dir_start f)
  (root_dir_sectors f) (data_start_sector f) (total_clusters f).

(** ** Names *)

Definition SPACE := 0x20.
Definition DOT := 0x2E.

Definition upper (c : Z) : Z := if (97 <=? c) && (c <=? 122) then c - 32 else c.

(** The characters up to the first one that satisfies [p]. *)
Fixpoint until (p : Z -> bool) (l : list Z) : list Z :=
  match l with [] => [] | c :: l' => if p c then [] else c :: until p l' end.
Definition is_space (c : Z) : bool := c =? SPACE.
Definition is_nul (c : Z) : bool := c =? 0.

(** The text of a name of 8 and an extension of 3 characters. *)
Definition entry_name (name ext : list Z) : list Z :=
  until is_space name ++ if get8 ext 0 =? SPACE then [] else DOT :: until is_space ext.

Fixpoint name_equal (a b : list Z) : bool :=
  match a, b with
  | [], [] => true
  | ca :: a', cb :: b' => if upper ca =? upper cb then name_equal a' b' else false
  | _, _ => false
  end.

(** [name_matches], of the first 11 bytes of an entry; a zero byte ends the text. *)
Definition name_matches (entry : list Z) (name : list Z) : bool :=
  name_equal (until is_nul (entry_name (take 8 entry) (take 3 (drop 8 entry)))) name.

(** The rest of the name after its first dot; nothing without a dot. *)
Fixpoint extension (name : list Z) : list Z :=
  match name with [] => [] | c :: l => if c =? DOT then l else extension l end.
Definition is_dot (c : Z) : bool := c =? DOT.

(** At most [n] characters, padded with spaces. *)
Definition padded (n : nat) (l : list Z) : list Z :=
  take n l ++ replicate (n - length (take n l)) SPACE.

Definition name_to_83 (name : list Z) : list Z :=
  padded 8 (upper <$> until is_dot name) ++ padded 3 (upper <$> extension name).

Section fat16.
Context {dev : Type} {DEV : BlockDevice dev}.

(** ** The state *)

Record fat16 := Fat16 {
  fs : fat16_fs;
  sector_buffer : list Z;
  fat_cache : list Z;
  fat_cache_sector : Z;
  disk : dev;
}.
Implicit Type s : fat16.

Definition set_fs v s := Fat16 v (sector_buffer s) (fat_cache s) (fat_cache_sector s) (disk s).
Definition set_sector_buffer v s := Fat16 (fs s) v (fat_cache s) (fat_cache_sector s) (disk s).
Definition set_cache c n s := Fat16 (fs s) (sector_buffer s) c n (disk s).
Definition set_cache_sector n s := Fat16 (fs s) (sector_buffer s) (fat_cache s) n (disk s).
Definition set_disk v s := Fat16 (fs s) (sector_buffer s) (fat_cache s) (fat_cache_sector s) v.

(** [read_sector(lba, sector_buffer)], [read_sector(lba, fat_cache)] and
    [write_sector(lba, sector_buffer)]: whether the result is not negative. *)
Definition read_sector (lba : Z) s : bool * fat16 :=
  match read_block (drive (fs s)) (u32 lba) (disk s) with
  | (Some b, d) => (true, set_sector_buffer b (set_disk d s))
  | (None, d) => (false, set_disk d s)
  end.

Definition read_cache (lba : Z) s : bool * fat16 :=
  match read_block (drive (fs s)) (u32 lba) (disk s) with
  | (Some b, d) => (true, set_cache b (fat_cache_sector s) (set_disk d s))
  | (None, d) => (false, set_disk d s)
  end.

Definition write_to (dr lba : Z) s : bool * fat16 :=
  let '(ok, d) := write_block dr (u32 lba) (sector_buffer s) (disk s) in (ok, set_disk d s).

Definition write_sector (lba : Z) s : bool * fat16 := write_to (drive (fs s)) lba s.

(** ** The file allocation table *)

Definition cluster_to_sector (cluster : Z) s : Z :=
  u32 (data_start_sector (fs s) + (cluster - 2) * sectors_per_cluster (fs s)).

Definition fat_sector (cluster : Z) s : Z := u32 (fat_start_sector (fs s) + cluster * 2 / 512).
Definition entry_offset (cluster : Z) : nat := Z.to_nat (cluster * 2 mod 512).

Definition fat_read_entry (cluster : Z) s : Z * fat16 :=
  let sec := fat_sector cluster s in
  if negb (sec =? fat_cache_sector s) then
    let '(ok, s) := read_cache sec s in
    if negb ok then (FAT16_BAD_CLUSTER, s) else
    let s := set_cache_sector sec s in
    (get16 (fat_cache s) (entry_offset cluster), s)
  else (get16 (fat_cache s) (entry_offset cluster), s).

(** The loop over the copies of the table, [n] of them from the [i]-th on. *)
Fixpoint write_copies (n : nat) (i sec : Z) s : bool * fat16 :=
  match n with
  | O => (true, s)
  | S n' =>
      let '(ok, s) := write_sector (sec + i * fat_size (fs s)) s in
      if negb ok then (false, s) else write_copies n' (i + 1) sec s
  end.

Definition fat_write_entry (cluster value : Z) s : bool * fat16 :=
  let sec := fat_sector cluster s in
  let '(ok, s) := read_sector sec s in
  if negb ok then (false, s) else
  let s := set_sector_buffer (put16 (entry_offset cluster) value (sector_buffer s)) s in
  let '(ok, s) := write_copies (Z.to_nat (num_fats (fs s))) 0 sec s in
  if negb ok then (false, s) else
  (true, set_cache_sector NO_SECTOR s).

(** The search goes through at most 65536 values of the [uint16_t] cluster. *)
Fixpoint find_free_loop (fuel : nat) (cluster : Z) s : option (Z * fat16) :=
  match fuel with
  | O => None
  | S fuel' =>
      if cluster <? u32 (total_clusters (fs s) + 2) then
        let '(v, s) := fat_read_entry cluster s in
        if v =? FAT16_FREE then Some (cluster, s) else find_free_loop fuel' (u16 (cluster + 1)) s
      else Some (0, s)
  end.

Definition chain_fuel : nat := Z.to_nat 0x10001.

Definition fat_find_free_cluster s : option (Z * fat16) := find_free_loop chain_fuel 2 s.

(** [while (cluster >= 2 && cluster < FAT16_END_OF_CHAIN)] *)
Definition in_chain (cluster : Z) : bool := (cluster >=? 2) && (cluster <? FAT16_END_OF_CHAIN).

Fixpoint free_chain (fuel : nat) (cluster : Z) s : option fat16 :=
  match fuel with
  | O => None
  | S fuel' =>
      if in_chain cluster then
        let '(next, s) := fat_read_entry cluster s in
        let '(_, s) := fat_write_entry cluster FAT16_FREE s in
        free_chain fuel' next s
      else Some s
  end.

(** ** Directory entries in the sector buffer *)

Definition entry_at (j : Z) (buf : list Z) : list Z := getn 32 buf (Z.to_nat (32 * j)).
Definition e_name (e : list Z) : list Z := take 8 e.
Definition e_ext (e : list Z) : list Z := take 3 (drop 8 e).
Definition e_attr (e : list Z) : Z := get8 e 11.
Definition e_cluster_lo (e : list Z) : Z := get16 e 26.
Definition e_file_size (e : list Z) : Z := get32 e 28.

(** What the loops over a directory do with an entry.  [fat16_delete_file] does
    not skip volume labels. *)
Inductive probe := EndOfDirectory | Skip | Candidate.

Definition probe_entry (skip_volume : bool) (e : list Z) : probe :=
  if get8 e 0 =? 0 then EndOfDirectory
  else if get8 e 0 =? 0xE5 then Skip
  else if e_attr e =? FAT_ATTR_LFN then Skip
  else if skip_volume && negb (Z.land (e_attr e) FAT_ATTR_VOLUME_ID =? 0) then Skip
  else Candidate.

Inductive found := AtEntry (j : Z) | AtEnd | NotHere.

(** The entries [j] to 15 of the sector buffer, [n] of them. *)
Fixpoint find_in_sector (skip_volume : bool) (name : list Z) (n : nat) (j : Z) (buf : list Z) : found :=
  match n with
  | O => NotHere
  | S n' =>
      let e := entry_at j buf in
      match probe_entry skip_volume e with
      | EndOfDirectory => AtEnd
      | Skip => find_in_sector skip_volume name n' (j + 1) buf
      | Candidate => if name_matches e name then AtEntry j else find_in_sector skip_volume name n' (j + 1) buf
      end
  end.

(** The sectors of the directory from [i] on, [n] of them: where the file is,
    with its sector in the buffer. *)
Fixpoint find_loop (skip_volume : bool) (name : list Z) (n : nat) (i : Z) s : option (Z * Z) * fat16 :=
  match n with
  | O => (None, s)
  | S n' =>
      let '(ok, s) := read_sector (root_dir_start (fs s) + i) s in
      if negb ok then (None, s) else
      match find_in_sector skip_volume name 16 0 (sector_buffer s) with
      | AtEntry j => (Some (i, j), s)
      | AtEnd => (None, s)
      | NotHere => find_loop skip_volume name n' (i + 1) s
      end
  end.

Definition find_entry (skip_volume : bool) (name : list Z) s : option (Z * Z) * fat16 :=
  find_loop skip_volume name (Z.to_nat (root_dir_sectors (fs s))) 0 s.

(** ** Mounting *)

Definition fat16_is_mounted s : bool := mounted (fs s).
Definition fat16_get_fs s : fat16_fs := fs s.
Definition fat16_unmount s : fat16 := set_cache_sector NO_SECTOR (set_fs (set_mounted false (fs s)) s).

(** The values of the boot sector and those derived from them. *)
Definition read_bpb (buf : list Z) (f : fat16_fs) : option fat16_fs :=
  let spc := get8 buf 13 in
  let reserved := get16 buf 14 in
  let fats := get8 buf 16 in
  let entries := get16 buf 17 in
  let size := get16 buf 22 in
  let total := if negb (get16 buf 19 =? 0) then get16 buf 19 else get32 buf 32 in
  let root := u32 (reserved + fats * size) in
  let root_sectors := (entries * 32 + 511) / 512 in
  let data := u32 (root + root_sectors) in
  if spc =? 0 then None else
  Some (Fs (mounted f) (drive f) (get16 buf 11) spc reserved fats entries size total
    reserved root root_sectors data (u32 (total - data) / spc)).

Definition fat16_mount (drv : Z) s : option (Z * fat16) :=
  let s := if mounted (fs s) then fat16_unmount s else s in
  if negb (drive_present drv (disk s)) then Some (-1, s) else
  let s := set_fs (set_drive drv (fs s)) s in
  let '(ok, s) := read_sector 0 s in
  if negb ok then Some (-1, s) else
  let buf := sector_buffer s in
  if negb (get8 buf 510 =? 0x55) || negb (get8 buf 511 =? 0xAA) then Some (-1, s) else
  if negb (get16 buf 11 =? 512) then Some (-1, s) else
  f ← read_bpb buf (fs s);
  let s := set_fs f s in
  if (total_clusters f <? 4085) || (total_clusters f >=? 65525) then Some (-1, s) else
  Some (0, set_cache_sector NO_SECTOR (set_fs (set_mounted true f) s)).

(** ** Directory operations *)

(** The callback is called with a name, a size and whether it is a directory. *)
Record listing := Listing { l_name : list Z; l_size : Z; l_is_dir : bool }.

Definition listed (e : list Z) : listing :=
  Listing (until is_nul (entry_name (e_name e) (e_ext e))) (e_file_size e)
    (negb (Z.land (e_attr e) FAT_ATTR_DIRECTORY =? 0)).

(** The calls for one sector, and whether the end of the directory is in it. *)
Fixpoint list_sector (n : nat) (j : Z) (buf : list Z) : list listing * bool :=
  match n with
  | O => ([], false)
  | S n' =>
      let e := entry_at j buf in
      match probe_entry true e with
      | EndOfDirectory => ([], true)
      | Skip => list_sector n' (j + 1) buf
      | Candidate => let '(l, stop) := list_sector n' (j + 1) buf in (listed e :: l, stop)
      end
  end.

Fixpoint list_loop (n : nat) (i : Z) s : Z * list listing * fat16 :=
  match n with
  | O => (0, [], s)
  | S n' =>
      let '(ok, s) := read_sector (root_dir_start (fs s) + i) s in
      if negb ok then (-1, [], s) else
      let '(l, stop) := list_sector 16 0 (sector_buffer s) in
      if stop then (0, l, s) else
      let '(r, l', s) := list_loop n' (i + 1) s in (r, l ++ l', s)
  end.

Definition fat16_list_root s : Z * list listing * fat16 :=
  if negb (mounted (fs s)) then (-1, [], s) else list_loop (Z.to_nat (root_dir_sectors (fs s))) 0 s.

(** The entry is what is copied to [out_entry]. *)
Definition fat16_find_file (name : list Z) s : Z * option (list Z) * fat16 :=
  if negb (mounted (fs s)) then (-1, None, s) else
  match find_entry true name s with
  | (Some (_, j), s) => (0, Some (entry_at j (sector_buffer s)), s)
  | (None, s) => (-1, None, s)
  end.

(** ** Reading *)

(** The sectors of one cluster, [n] of them from [sec] on: whether every read
    succeeded, the bytes copied and the bytes still to read. *)
Fixpoint read_cluster (n : nat) (sec remaining : Z) s : bool * list Z * Z * fat16 :=
  match n with
  | O => (true, [], remaining, s)
  | S n' =>
      if remaining >? 0 then
        let '(ok, s) := read_sector sec s in
        if negb ok then (false, [], remaining, s) else
        let copy := if remaining >? 512 then 512 else remaining in
        let chunk := take (Z.to_nat copy) (sector_buffer s) in
        let '(ok, l, remaining, s) := read_cluster n' (sec + 1) (remaining - copy) s in
        (ok, chunk ++ l, remaining, s)
      else (true, [], remaining, s)
  end.

(** The chain from [cluster] on: whether every read succeeded and the bytes copied. *)
Fixpoint read_chain (fuel : nat) (cluster remaining : Z) s : option (bool * list Z * fat16) :=
  match fuel with
  | O => None
  | S fuel' =>
      if (remaining >? 0) && in_chain cluster then
        let '(ok, l, remaining, s) :=
          read_cluster (Z.to_nat (sectors_per_cluster (fs s))) (cluster_to_sector cluster s) remaining s in
        if negb ok then Some (false, l, s) else
        let '(next, s) := fat_read_entry cluster s in
        '(ok, l', s) ← read_chain fuel' next remaining s;
        Some (ok, l ++ l', s)
      else Some (true, [], s)
  end.

(** Each iteration reads a sector at least. *)
Definition data_fuel (size : Z) : nat := Z.to_nat (size / 512 + 2).

(** The result, and the bytes stored at the start of the buffer. *)
Definition fat16_read_file (name : list Z) (max_size : Z) s : option (Z * list Z * fat16) :=
  if negb (mounted (fs s)) then Some (-1, [], s) else
  let '(r, entry, s) := fat16_find_file name s in
  match entry with
  | None => Some (-1, [], s)
  | Some e =>
      if negb (Z.land (e_attr e) FAT_ATTR_DIRECTORY =? 0) then Some (-1, [], s) else
      let size := if e_file_size e >? max_size then max_size else e_file_size e in
      '(ok, l, s) ← read_chain (data_fuel size) (e_cluster_lo e) size s;
      Some (if (ok : bool) then i32 size else -1, l, s)
  end.

(** ** Creating *)

(** The first unused entry of the sector buffer. *)
Fixpoint free_slot (n : nat) (j : Z) (buf : list Z) : option Z :=
  match n with
  | O => None
  | S n' =>
      let b := get8 (entry_at j buf) 0 in
      if (b =? 0x00) || (b =? 0xE5) then Some j else free_slot n' (j + 1) buf
  end.

Definition new_entry (name : list Z) : list Z :=
  name_to_83 name ++ [FAT_ATTR_ARCHIVE] ++ replicate 20 0.

Definition put_entry (j : Z) (e buf : list Z) : list Z := put (Z.to_nat (32 * j)) e buf.

Fixpoint create_loop (name : list Z) (n : nat) (i : Z) s : Z * fat16 :=
  match n with
  | O => (-1, s)
  | S n' =>
      let '(ok, s) := read_sector (root_dir_start (fs s) + i) s in
      if negb ok then (-1, s) else
      match free_slot 16 0 (sector_buffer s) with
      | Some j =>
          let s := set_sector_buffer (put_entry j (new_entry name) (sector_buffer s)) s in
          let '(ok, s) := write_sector (root_dir_start (fs s) + i) s in
          (if ok then 0 else -1, s)
      | None => create_loop name n' (i + 1) s
      end
  end.

Definition fat16_create_file (name : list Z) s : Z * fat16 :=
  if negb (mounted (fs s)) then (-1, s) else
  let '(r, _, s) := fat16_find_file name s in
  if r =? 0 then (-1, s) else
  create_loop name (Z.to_nat (root_dir_sectors (fs s))) 0 s.

(** ** Writing *)

(** The sectors of one cluster: whether every write succeeded and the bytes
    still to write. *)
Fixpoint write_cluster (n : nat) (sec : Z) (src : list Z) s : bool * list Z * fat16 :=
  match n with
  | O => (true, src, s)
  | S n' =>
      if Z.of_nat (length src) >? 0 then
        let s := set_sector_buffer (put 0 (take 512 src) (replicate 512 0)) s in
        let '(ok, s) := write_sector sec s in
        if negb ok then (false, src, s) else write_cluster n' (sec + 1) (drop 512 src) s
      else (true, src, s)
  end.

(** The allocation of the new chain: whether it succeeded, and its first cluster. *)
Fixpoint write_chain (fuel : nat) (first prev : Z) (src : list Z) s : option (bool * Z * fat16) :=
  match fuel with
  | O => None
  | S fuel' =>
      if Z.of_nat (length src) >? 0 then
        '(cluster, s) ← fat_find_free_cluster s;
        if cluster =? 0 then Some (false, first, s) else
        let first := if first =? 0 then cluster else first in
        let '(_, s) := if negb (prev =? 0) then fat_write_entry prev cluster s else (true, s) in
        let '(_, s) := fat_write_entry cluster FAT16_END_OF_CHAIN s in
        let '(ok, src, s) :=
          write_cluster (Z.to_nat (sectors_per_cluster (fs s))) (cluster_to_sector cluster s) src s in
        if negb ok then Some (false, first, s) else write_chain fuel' first cluster src s
      else Some (true, first, s)
  end.

Definition update_entry (j cluster size : Z) (buf : list Z) : list Z :=
  put (Z.to_nat (32 * j + 28)) (le_bytes 4 size) (put16 (Z.to_nat (32 * j + 26)) cluster buf).

Definition fat16_write_file (name data : list Z) s : option (Z * fat16) :=
  if negb (mounted (fs s)) then Some (-1, s) else
  match find_entry true name s with
  | (None, s) => Some (-1, s)
  | (Some (i, j), s) =>
      let e := entry_at j (sector_buffer s) in
      let entry_sector := i32 (root_dir_start (fs s) + i) in
      s ← (if e_cluster_lo e >=? 2 then free_chain chain_fuel (e_cluster_lo e) s else Some s);
      '(ok, first, s) ← write_chain (data_fuel (Z.of_nat (length data))) 0 0 data s;
      if negb ok then Some (-1, s) else
      let '(ok, s) := read_sector entry_sector s in
      if negb ok then Some (-1, s) else
      let s := set_sector_buffer (update_entry j first (Z.of_nat (length data)) (sector_buffer s)) s in
      let '(ok, s) := write_sector entry_sector s in
      if negb ok then Some (-1, s) else Some (i32 (Z.of_nat (length data)), s)
  end.

(** ** Deleting *)

(** The result of [write_sector] is the count of sectors, 1, or -1. *)
Definition fat16_delete_file (name : list Z) s : option (Z * fat16) :=
  if negb (mounted (fs s)) then Some (-1, s) else
  match find_entry false name s with
  | (None, s) => Some (-1, s)
  | (Some (i, j), s) =>
      let e := entry_at j (sector_buffer s) in
      s ← free_chain chain_fuel (e_cluster_lo e) s;
      let s := set_sector_buffer (put (Z.to_nat (32 * j)) [0xE5] (sector_buffer s)) s in
      let '(ok, s) := write_sector (root_dir_start (fs s) + i) s in
      Some (if ok then 1 else -1, s)
  end.

(** ** Formatting *)

(** [n] sectors from [sec] on, written with the sector buffer. *)
Fixpoint write_range (n : nat) (dr sec : Z) s : bool * fat16 :=
  match n with
  | O => (true, s)
  | S n' =>
      let '(ok, s) := write_to dr sec s in
      if negb ok then (false, s) else write_range n' dr (sec + 1) s
  end.

Definition zero_sector : list Z := replicate 512 0.

(** The copies of the table: the first sector is written as the buffer is, the
    others after the buffer has been cleared. *)
Fixpoint format_fats (n : nat) (f dr reserved size : Z) s : bool * fat16 :=
  match n with
  | O => (true, s)
  | S n' =>
      let fat_start := u32 (reserved + f * size) in
      let '(ok, s) := write_to dr fat_start s in
      if negb ok then (false, s) else
      let s := set_sector_buffer zero_sector s in
      let '(ok, s) := write_range (Z.to_nat (size - 1)) dr (fat_start + 1) s in
      if negb ok then (false, s) else format_fats n' (f + 1) dr reserved size s
  end.

(** A volume label of at most 11 characters in upper case, padded with spaces. *)
Definition bpb_label (volume_label : option (list Z)) : list Z :=
  match volume_label with
  | Some l => padded 11 (upper <$> l)
  | None => [78; 79; 32; 78; 65; 77; 69; 32; 32; 32; 32]   (* "NO NAME    " *)
  end.

Definition boot_sector (total size : Z) (volume_label : option (list Z)) : list Z :=
  put 510 [0x55; 0xAA]
  (put 54 [70; 65; 84; 49; 54; 32; 32; 32]                 (* "FAT16   " *)
  (put 43 (bpb_label volume_label)
  (put 39 (le_bytes 4 0x12345678)
  (put 38 [0x29]
  (put 36 [0x80]
  (put 32 (le_bytes 4 (if total >? 65535 then total else 0))
  (put 28 (le_bytes 4 0)
  (put16 26 16
  (put16 24 63
  (put16 22 size
  (put 21 [0xF8]
  (put16 19 (if total <=? 65535 then total else 0)
  (put16 17 512
  (put 16 [2]
  (put16 14 1
  (put 13 [4]
  (put16 11 512
  (put 3 [67; 71; 79; 83; 32; 32; 32; 32]                  (* "CGOS    " *)
  (put 0 [0xEB; 0x3C; 0x90] zero_sector))))))))))))))))))).

(** The entry of the label: up to 11 characters from the name on, then spaces up
    to 8, then the extension is overwritten with spaces. *)
Definition label_entry (label : list Z) : list Z :=
  padded 8 (upper <$> label) ++ replicate 3 SPACE ++ [FAT_ATTR_VOLUME_ID] ++ replicate 20 0.

(** The geometry: the size of a table and the count of clusters. *)
Definition format_fat_size (total : Z) : Z :=
  let clusters := u32 (total - 1 - 32) / 4 in u16 (u32 (clusters * 2 + 511) / 512).
Definition format_clusters (total : Z) : Z :=
  u32 (total - 1 - 2 * format_fat_size total - 32) / 4.

Definition fat16_format (dr : Z) (volume_label : option (list Z)) s : Z * fat16 :=
  if negb (drive_present dr (disk s)) then (-1, s) else
  let total := drive_sectors dr (disk s) in
  if total <? 8192 then (-1, s) else
  let size := format_fat_size total in
  let clusters := format_clusters total in
  if (clusters <? 4085) || (clusters >=? 65525) then (-1, s) else
  let s := set_sector_buffer (boot_sector total size volume_label) s in
  let '(ok, s) := write_to dr 0 s in
  if negb ok then (-1, s) else
  let s := set_sector_buffer (put16 2 0xFFFF (put16 0 0xFFF8 zero_sector)) s in
  let '(ok, s) := format_fats 2 0 dr 1 size s in
  if negb ok then (-1, s) else
  let s := set_sector_buffer zero_sector s in
  let root_start := u32 (1 + 2 * size) in
  let '(ok, s) := write_range 32 dr root_start s in
  if negb ok then (-1, s) else
  match volume_label with
  | None => (0, s)
  | Some label =>
      let s := set_sector_buffer (put_entry 0 (label_entry label) (sector_buffer s)) s in
      let '(ok, s) := write_to dr root_start s in
      (if ok then 0 else -1, s)
  end.

End fat16.

Arguments fat16 : clear implicits.

(** ** Names: round trip *)

Section names.
Implicit Types (l name : list Z) (p : Z -> bool).

Lemma until_length p l : (length (until p l) <= length l)%nat.
Proof. induction l as [|c l IH]; cbn; [lia |]. destruct (p c); cbn; lia. Qed.

Lemma until_none p l : Forall (fun c => p c = false) l -> until p l = l.
Proof. induction 1 as [|c l Hc _ IH]; [done |]. cbn. by rewrite Hc, IH. Qed.

Lemma until_all p l : Forall (fun c => p c = false) (until p l).
Proof. induction l as [|c l IH]; cbn; [constructor |]. destruct (p c) eqn:E; by constructor. Qed.

Lemma until_app p l k : Forall (fun c => p c = false) l -> until p (l ++ k) = l ++ until p k.
Proof. induction 1 as [|c l Hc _ IH]; [done |]. cbn. by rewrite Hc, IH. Qed.

Lemma until_padded n l : until is_space (padded n l) = until is_space (take n l).
Proof.
  unfold padded. induction (take n l) as [|c k IH] in n |- *; cbn [app until length].
  - rewrite Nat.sub_0_r. by destruct n.
  - destruct (is_space c); [done |]. f_equal. destruct n; [apply (IH 0%nat) | apply (IH n)].
Qed.

(** A name, cut at its first dot. *)
Lemma name_split name :
  name = until is_dot name ++ if existsb is_dot name then DOT :: extension name else [].
Proof.
  induction name as [|c l IH]; [done |]. cbn [until existsb extension]. change (is_dot c) with (c =? DOT).
  destruct (Z.eqb_spec c DOT) as [->|]; [done |]. cbn [orb app]. f_equal. exact IH.
Qed.

Lemma upper_upper c : upper (upper c) = upper c.
Proof.
  unfold upper. destruct ((97 <=? c) && (c <=? 122)) eqn:E; [| by rewrite E]. zbool.
  destruct (Z.leb_spec 97 (c - 32)); [lia | done].
Qed.
Lemma upper_other c x : x < 65 -> (upper c =? x) = (c =? x).
Proof.
  intros. unfold upper. destruct ((97 <=? c) && (c <=? 122)) eqn:E; [| done]. zbool.
  rewrite !(proj2 (Z.eqb_neq _ _)) by lia. done.
Qed.
Lemma upper_map l : upper <$> (upper <$> l) = upper <$> l.
Proof. rewrite <- list_fmap_compose. apply list_fmap_ext. intros i c _. apply upper_upper. Qed.

Lemma upper_until p l : (forall c, p (upper c) = p c) -> until p (upper <$> l) = upper <$> until p l.
Proof. intros H. induction l as [|c l IH]; [done |]. cbn. rewrite H. destruct (p c); cbn; by rewrite ?IH. Qed.

Lemma name_equal_upper a b : name_equal a b = true <-> upper <$> a = upper <$> b.
Proof.
  revert b. induction a as [|ca a IH]; intros [|cb b]; cbn; [done | done | done |].
  destruct (Z.eqb_spec (upper ca) (upper cb)) as [E|E]; [rewrite IH, E | split; [done | congruence]].
  split; [by intros -> | by intros [= ->]].
Qed.

(** A name fits when its base has at most 8 characters and, after a dot, its
    extension has 1 to 3, without spaces. *)
Definition fits_83 (name : list Z) : bool :=
  let base := until is_dot name in
  let ext := extension name in
  (length base <=? 8)%nat && forallb (fun c => negb (is_space c)) base &&
  (if existsb is_dot name
   then (1 <=? length ext)%nat && (length ext <=? 3)%nat && forallb (fun c => negb (is_space c)) ext
   else true).

(** The text of the entry that [name_to_83] makes. *)
Definition text_83 (name : list Z) : list Z :=
  let base := upper <$> until is_dot name in
  let ext := upper <$> extension name in
  until is_space (take 8 base) ++ if get8 (padded 3 ext) 0 =? SPACE then [] else DOT :: until is_space (take 3 ext).

Lemma length_padded n l : length (padded n l) = n.
Proof. unfold padded. rewrite length_app, length_replicate, length_take. lia. Qed.

Lemma entry_name_83 name k : entry_name (take 8 (name_to_83 name ++ k)) (take 3 (drop 8 (name_to_83 name ++ k))) = text_83 name.
Proof.
  unfold name_to_83, entry_name, text_83. rewrite <- !app_assoc.
  rewrite take_app_length' by (by rewrite length_padded). rewrite drop_app_length' by (by rewrite length_padded).
  rewrite take_app_length' by (by rewrite length_padded). by rewrite !until_padded.
Qed.

Lemma upper_nonzero l : Forall (fun c => c <> 0) l -> Forall (fun c => is_nul c = false) (upper <$> l).
Proof.
  intros H. apply Forall_fmap. eapply Forall_impl; [| exact H]. intros c Hc. cbn. unfold is_nul.
  rewrite upper_other by done. by apply Z.eqb_neq.
Qed.

Lemma Forall_until (P : Z -> Prop) p l : Forall P l -> Forall P (until p l).
Proof. induction 1 as [|c l]; cbn; [constructor |]. destruct (p c); by constructor. Qed.
Lemma Forall_extension (P : Z -> Prop) l : Forall P l -> Forall P (extension l).
Proof. induction 1 as [|c l]; cbn; [constructor |]. by destruct (c =? DOT). Qed.

Lemma text_83_nonzero name : Forall (fun c => c <> 0) name -> until is_nul (text_83 name) = text_83 name.
Proof.
  intros H. apply until_none. unfold text_83. apply Forall_app. split.
  - by apply Forall_until, Forall_take, upper_nonzero, Forall_until.
  - destruct (_ =? SPACE); [constructor |]. constructor; [done |].
    by apply Forall_until, Forall_take, upper_nonzero, Forall_extension.
Qed.

Lemma text_83_upper name : upper <$> text_83 name = text_83 name.
Proof.
  unfold text_83. rewrite fmap_app, <- upper_until by (intros c; by apply upper_other). rewrite fmap_take, upper_map.
  f_equal. destruct (_ =? SPACE); [done |]. rewrite fmap_cons, <- upper_until by (intros c; by apply upper_other).
  by rewrite fmap_take, upper_map.
Qed.

Lemma extension_no_dot name : existsb is_dot name = false -> extension name = [].
Proof.
  induction name as [|c l IH]; [done |]. cbn [existsb extension]. change (is_dot c) with (c =? DOT).
  destruct (c =? DOT); [done | exact IH].
Qed.

(** Two texts cut at their first dots. *)
Lemma dot_inj (a b x y : list Z) (p q : bool) :
  Forall (fun c => is_dot c = false) a -> Forall (fun c => is_dot c = false) b ->
  a ++ (if p then DOT :: x else []) = b ++ (if q then DOT :: y else []) ->
  a = b /\ p = q /\ (p = true -> x = y).
Proof.
  intros Ha. revert b. induction Ha as [|c a Hc _ IH]; intros b Hb E.
  - destruct Hb as [|c b Hc _]; cbn in E; [destruct p, q; naive_solver |].
    destruct p; [injection E as <- _; done | done].
  - destruct Hb as [|c' b Hc' Hb]; cbn in E.
    + destruct q; [injection E as -> _; done | done].
    + injection E as -> E. destruct (IH b Hb E) as (-> & -> & H). done.
Qed.

Lemma until_take_id n l :
  until is_space (take n l) = l <-> (length l <= n)%nat /\ forallb (fun c => negb (is_space c)) l = true.
Proof.
  split.
  - intros E. split.
    + rewrite <- E. etransitivity; [apply until_length |]. rewrite length_take. lia.
    + rewrite <- E. apply forallb_forall. intros x Hx.
      pose proof (until_all is_space (take n l)) as H. rewrite Forall_forall in H.
      by rewrite (H x).
  - intros [Hl Hs]. rewrite take_ge by lia. apply until_none, Forall_forall. intros x Hx.
    rewrite forallb_forall in Hs. by apply negb_true_iff, Hs.
Qed.

Lemma forallb_upper l : forallb (fun c => negb (is_space c)) (upper <$> l) = forallb (fun c => negb (is_space c)) l.
Proof. induction l as [|c l IH]; [done |]. cbn. unfold is_space at 1. by rewrite upper_other, IH. Qed.

Lemma text_83_fits name : text_83 name = upper <$> name <-> fits_83 name = true.
Proof.
  unfold fits_83. rewrite (name_split name) at 2. unfold text_83.
  set (base := until is_dot name). set (ext := extension name). set (dot := existsb is_dot name).
  rewrite fmap_app. assert (Forall (fun c => is_dot c = false) (upper <$> base)) as Hb.
  { apply Forall_fmap. eapply Forall_impl; [| apply until_all]. intros c Hc. cbn. unfold is_dot. by rewrite upper_other. }
  assert (forall b : bool, (if b then [] else DOT :: until is_space (take 3 (upper <$> ext)))
    = if negb b then DOT :: until is_space (take 3 (upper <$> ext)) else []) as Eif by by intros [].
  assert (upper <$> (if dot then DOT :: ext else []) = if dot then DOT :: (upper <$> ext) else []) as -> by by destruct dot.
  rewrite Eif. set (sp := get8 (padded 3 (upper <$> ext)) 0 =? SPACE).
  assert (until is_space (take 3 (upper <$> ext)) = upper <$> ext -> negb sp = (1 <=? length ext)%nat) as Hsp.
  { intros E. subst sp. apply until_take_id in E as [_ E]. destruct ext as [|c k]; [done |]. cbn in E |- *.
    apply andb_true_iff in E as [E _]. unfold is_space in E. by rewrite E. }
  split.
  - intros E. apply dot_inj in E as (E1 & E2 & E3); [| by apply Forall_until, Forall_take | done].
    apply until_take_id in E1 as [El Es]. rewrite length_fmap in El. rewrite forallb_upper in Es.
    rewrite Es, (proj2 (Nat.leb_le _ _) El). cbn [andb]. destruct dot; [| done].
    specialize (E3 E2). rewrite (Hsp E3) in E2. rewrite E2. apply until_take_id in E3 as [Hl Hs].
    rewrite length_fmap in Hl. rewrite forallb_upper in Hs. by rewrite Hs, (proj2 (Nat.leb_le _ _) Hl).
  - intros E. apply andb_true_iff in E as [E Ee]. apply andb_true_iff in E as [El Es]. apply Nat.leb_le in El.
    rewrite (proj2 (until_take_id 8 (upper <$> base))) by (rewrite length_fmap, forallb_upper; done). f_equal.
    destruct dot eqn:Ed.
    + apply andb_true_iff in Ee as [Ee Es']. apply andb_true_iff in Ee as [E1 E3]. apply Nat.leb_le in E3.
      assert (until is_space (take 3 (upper <$> ext)) = upper <$> ext) as Et.
      { apply until_take_id. by rewrite length_fmap, forallb_upper. }
      by rewrite (Hsp Et), E1, Et.
    + subst sp. by replace ext with ([] : list Z) by (symmetry; by apply extension_no_dot).
Qed.

Lemma name_83_ok name rest :
  Forall (fun c => c <> 0) name ->
  name_matches (name_to_83 name ++ rest) name = fits_83 name.
Proof.
  intros H. unfold name_matches. rewrite entry_name_83, text_83_nonzero by done.
  apply eq_true_iff_eq. by rewrite name_equal_upper, text_83_upper, text_83_fits.
Qed.

(** C24. A name survives the conversion to the 8.3 form: the entry that
    [name_to_83] makes is found again under the name it was made from exactly
    when the base has at most 8 characters and the extension, if there is a dot,
    1 to 3, with no spaces.  For any other name [fat16_create_file] makes an
    entry that does not match that name. *)
Theorem name_83_roundtrip name rest :
  Forall (fun c => c <> 0) name ->
  name_matches (name_to_83 name ++ rest) name = fits_83 name.
Proof. apply name_83_ok. Qed.

Lemma name_83_roundtrip_witness :
  Forall (fun c => c <> 0) [110; 111; 116; 101; 46; 116; 120; 116] /\
  name_matches (name_to_83 [110; 111; 116; 101; 46; 116; 120; 116] ++ []) [110; 111; 116; 101; 46; 116; 120; 116] = true.
Proof. split; [by repeat constructor |]. by rewrite name_83_roundtrip by by repeat constructor. Defined.

End names.
