(* ===== verification/FatTable.v ===== *)
(** * The file allocation table of a mounted FAT16 file system

    The theorems on [Fat16] are about a disk that works, with a volume whose
    regions lie on it in order ([volume]): the boot sector, the copies of the
    table, the root directory, the clusters.  The state of the volume is what
    is on the disk: [fat s c], the entry of cluster [c] in the first copy of the
    table, and the sectors outside the table.  The cache of the table is coherent
    between operations. *)

From S2P Require Import Prelude Checksum Buffers Block Fat16.

Section table.
Context {dev : Type} {DEV : BlockDevice dev} {LAWS : BlockLaws dev}.
Implicit Types (s : fat16 dev) (c v lba : Z).

(** The sector [lba] of the mounted drive, and the table. *)
Definition blk s lba : list Z := block (disk s) (drive (fs s)) lba.
Definition fat s c : Z := get16 (blk s (fat_start_sector (fs s) + c * 2 / 512)) (entry_offset c).

(** The first sector after the clusters. *)
Definition volume_end (f : fat16_fs) : Z := data_start_sector f + total_clusters f * sectors_per_cluster f.
Definition in_table (f : fat16_fs) lba : Prop := fat_start_sector f <= lba < root_dir_start f.
Definition valid_cluster (f : fat16_fs) c : Prop := 2 <= c < total_clusters f + 2.

Record geometry (f : fat16_fs) : Prop := {
  g_spc : 0 < sectors_per_cluster f < 0x100;
  g_fats : 0 < num_fats f < 0x100;
  g_fat_size : 0 < fat_size f < 0x10000;
  g_reserved : 0 < fat_start_sector f < 0x10000;
  g_root : root_dir_start f = fat_start_sector f + num_fats f * fat_size f;
  g_root_sectors : 0 <= root_dir_sectors f <= 0x1000;
  g_data : data_start_sector f = root_dir_start f + root_dir_sectors f;
  g_clusters : 4085 <= total_clusters f < 65525;
  g_table : total_clusters f + 2 <= fat_size f * 256;
}.

Record volume s : Prop := {
  v_mounted : mounted (fs s) = true;
  v_geometry : geometry (fs s);
  v_present : drive_present (drive (fs s)) (disk s) = true;
  v_works : works (disk s);
  v_fits : volume_end (fs s) <= drive_sectors (drive (fs s)) (disk s);
  v_buffer : sector (sector_buffer s);
}.

(** The cache holds nothing or a sector of the first copy as it is on the disk. *)
Definition coherent s : Prop :=
  fat_cache_sector s = NO_SECTOR \/
  (fat_start_sector (fs s) <= fat_cache_sector s < fat_start_sector (fs s) + fat_size (fs s) /\
   fat_cache s = blk s (fat_cache_sector s)).

Lemma volume_bounds s : volume s ->
  0 < fat_start_sector (fs s) < 0x10000 /\
  0 < fat_start_sector (fs s) + fat_size (fs s) <= root_dir_start (fs s) /\
  root_dir_start (fs s) <= data_start_sector (fs s) <= volume_end (fs s) /\
  data_start_sector (fs s) < 0x1100000 /\ volume_end (fs s) < 0x100000000.
Proof.
  intros [_ [] _ Hw Hf _]. pose proof (drive_sectors_range (drive (fs s)) _ Hw). unfold volume_end in *.
  pose proof (Z.mul_nonneg_nonneg (total_clusters (fs s)) (sectors_per_cluster (fs s))).
  pose proof (Z.mul_le_mono_nonneg 1 (num_fats (fs s)) 1 (fat_size (fs s))).
  pose proof (Z.mul_le_mono_nonneg (num_fats (fs s)) 0xFF (fat_size (fs s)) 0xFFFF).
  pose proof (Z.mul_le_mono_nonneg_r 1 (num_fats (fs s)) (fat_size (fs s))). lia.
Qed.

(** The copies of a sector of the table lie in the table. *)
Lemma copy_in_table f i sec :
  geometry f -> 0 <= i < num_fats f -> fat_start_sector f <= sec < fat_start_sector f + fat_size f ->
  in_table f (sec + i * fat_size f).
Proof.
  intros [] Hi Hs. unfold in_table. pose proof (Z.mul_nonneg_nonneg i (fat_size f)).
  pose proof (Z.mul_le_mono_nonneg_r (i + 1) (num_fats f) (fat_size f)).
  pose proof (Z.mul_add_distr_r i 1 (fat_size f)). lia.
Qed.

Lemma blk_sector s lba : volume s -> 0 <= lba < volume_end (fs s) -> sector (blk s lba).
Proof. intros H Hl. apply block_sector; [apply H | apply H | pose proof (v_fits _ H); lia]. Qed.

(** ** One sector *)

(** What a step leaves alone: the mounted file system and the laws of the disk;
    with the contents given by [content]. *)
Record after s (content : Z -> list Z) s' : Prop := {
  af_fs : fs s' = fs s;
  af_volume : volume s';
  af_blk : forall lba, blk s' lba = content lba;
}.

Lemma read_sector_ok s lba :
  volume s -> 0 <= lba < volume_end (fs s) ->
  exists s', read_sector lba s = (true, s') /\ after s (blk s) s' /\ sector_buffer s' = blk s lba /\
    fat_cache s' = fat_cache s /\ fat_cache_sector s' = fat_cache_sector s.
Proof.
  intros V Hl. pose proof (volume_bounds s V). unfold read_sector. rewrite u32_small by lia.
  destruct V as [V1 V2 V3 V4 V5 V6].
  destruct (read_block_ok (drive (fs s)) lba (disk s) V4 V3 ltac:(lia)) as (d' & -> & Hw & Hp & Hb).
  eexists. split; [done |]. split; [| done]. split; [done | | intros l; apply Hb].
  split; cbn; try done; [by rewrite (proj1 (Hp _)) | by rewrite (proj2 (Hp _)) |].
  apply block_sector; [done | done | lia].
Qed.

Lemma read_cache_ok s lba :
  volume s -> 0 <= lba < volume_end (fs s) ->
  exists s', read_cache lba s = (true, s') /\ after s (blk s) s' /\ fat_cache s' = blk s lba /\
    sector_buffer s' = sector_buffer s.
Proof.
  intros V Hl. pose proof (volume_bounds s V). unfold read_cache. rewrite u32_small by lia.
  destruct V as [V1 V2 V3 V4 V5 V6].
  destruct (read_block_ok (drive (fs s)) lba (disk s) V4 V3 ltac:(lia)) as (d' & -> & Hw & Hp & Hb).
  eexists. split; [done |]. split; [| done]. split; [done | | intros l; apply Hb].
  split; cbn; try done; [by rewrite (proj1 (Hp _)) | by rewrite (proj2 (Hp _))].
Qed.

Lemma write_sector_ok s lba :
  volume s -> 0 <= lba < volume_end (fs s) ->
  exists s', write_sector lba s = (true, s') /\
    after s (fun l => if l =? lba then sector_buffer s else blk s l) s' /\
    sector_buffer s' = sector_buffer s /\ fat_cache s' = fat_cache s /\ fat_cache_sector s' = fat_cache_sector s.
Proof.
  intros V Hl. pose proof (volume_bounds s V). unfold write_sector, write_to. rewrite u32_small by lia.
  destruct V as [V1 V2 V3 V4 V5 V6].
  destruct (write_block_ok (drive (fs s)) lba (sector_buffer s) (disk s) V4 V3 ltac:(lia) V6) as (d' & -> & Hw & Hp & Hb).
  eexists. split; [done |]. split; [| done]. split; [done | |].
  - split; cbn; try done; [by rewrite (proj1 (Hp _)) | by rewrite (proj2 (Hp _))].
  - intros l. unfold blk. cbn. by rewrite Hb, Z.eqb_refl.
Qed.

Lemma volume_set_buffer s b : volume s -> sector b -> volume (set_sector_buffer b s).
Proof. intros [] Hb. by split. Qed.
Lemma volume_set_cache_sector s n : volume s -> volume (set_cache_sector n s).
Proof. intros []. by split. Qed.

Lemma after_trans s f s1 g s2 : after s f s1 -> after s1 g s2 -> after s g s2.
Proof. intros [F1 V1 _] [F2 V2 B2]. split; [by rewrite F2 | done | done]. Qed.
Lemma after_ext s f g s' : after s f s' -> (forall l, f l = g l) -> after s g s'.
Proof. intros [F V B] H. split; [done | done |]. intros l. by rewrite B. Qed.
Lemma after_refl s : volume s -> after s (blk s) s.
Proof. by split. Qed.

(** ** Entries *)

Lemma valid_cluster_bounds s c : volume s -> 0 <= c < fat_size (fs s) * 256 -> c < 0x10000 ->
  fat_sector c s = fat_start_sector (fs s) + c * 2 / 512 /\
  fat_start_sector (fs s) <= fat_start_sector (fs s) + c * 2 / 512 < fat_start_sector (fs s) + fat_size (fs s) /\
  (entry_offset c + 2 <= 512)%nat.
Proof.
  intros V Hc Hc'. pose proof (volume_bounds s V). destruct (v_geometry s V). unfold fat_sector, entry_offset.
  assert (0 <= c * 2 / 512 < fat_size (fs s)) by zlia. rewrite u32_small by lia. split_and!; try lia. zlia.
Qed.

Lemma valid_in_table f c : geometry f -> valid_cluster f c -> 0 <= c < fat_size f * 256 /\ c < 0x10000.
Proof. intros [] []. lia. Qed.

(** Two entries are in different sectors or at offsets apart. *)
Lemma entries_apart c c' : 0 <= c -> 0 <= c' -> c * 2 / 512 = c' * 2 / 512 -> c <> c' ->
  (entry_offset c' + 2 <= entry_offset c \/ entry_offset c + 2 <= entry_offset c')%nat.
Proof. unfold entry_offset. intros. zlia. Qed.

Lemma fat_read_entry_ok s c :
  volume s -> coherent s -> 0 <= c < fat_size (fs s) * 256 -> c < 0x10000 ->
  exists s', fat_read_entry c s = (fat s c, s') /\ after s (blk s) s' /\ coherent s' /\ sector_buffer s' = sector_buffer s.
Proof.
  intros V C Hc Hc'. destruct (valid_cluster_bounds s c V Hc Hc') as (Es & Hs & _). unfold fat_read_entry. cbn zeta.
  rewrite Es. set (sec := fat_start_sector (fs s) + c * 2 / 512) in *. unfold fat. fold sec.
  destruct (Z.eqb_spec sec (fat_cache_sector s)) as [E|E]; cbn [negb].
  - exists s. destruct C as [C|[_ C]].
    + pose proof (volume_bounds s V). rewrite C in E. unfold NO_SECTOR in E. lia.
    + rewrite C, <- E. split_and!; [done | by apply after_refl | | done]. right. by rewrite <- E, C, <- E.
  - pose proof (volume_bounds s V). destruct (read_cache_ok s sec V ltac:(lia)) as (s1 & -> & A & Ec & Eb). cbn [negb].
    cbv zeta. cbn [fat_cache set_cache_sector]. rewrite Ec. eexists. split; [done |]. destruct A as [F V' B]. split.
    + split; [done | by apply volume_set_cache_sector | done].
    + split; [| done]. right. cbn. rewrite F. split; [done |]. rewrite Ec. symmetry. apply B.
Qed.

(** ** Writing an entry *)

(** [l] is one of the copies [i], ..., [i + n - 1] of the sector [sec] of the table. *)
Definition is_copy (n i sec size l : Z) : bool :=
  ((l - sec) mod size =? 0) && (i <=? (l - sec) / size) && ((l - sec) / size <? i + n).

Lemma is_copy_spec n i sec size l : 0 < size ->
  reflect (exists k, i <= k < i + n /\ l = sec + k * size) (is_copy n i sec size l).
Proof.
  intros Hs. unfold is_copy. apply iff_reflect. rewrite !andb_true_iff, Z.eqb_eq, Z.leb_le, Z.ltb_lt. split.
  - intros (k & Hk & ->). replace (sec + k * size - sec) with (k * size) by lia.
    rewrite Z.mod_mul, Z.div_mul by lia. lia.
  - intros [[Hm H1] H2]. exists ((l - sec) / size). split; [lia |].
    pose proof (Z.div_mod (l - sec) size ltac:(lia)). lia.
Qed.

Lemma write_copies_ok n i sec s :
  volume s -> 0 <= i -> i + Z.of_nat n <= num_fats (fs s) ->
  fat_start_sector (fs s) <= sec < fat_start_sector (fs s) + fat_size (fs s) ->
  exists s', write_copies n i sec s = (true, s') /\
    after s (fun l => if is_copy (Z.of_nat n) i sec (fat_size (fs s)) l then sector_buffer s else blk s l) s' /\
    sector_buffer s' = sector_buffer s.
Proof.
  revert i s. induction n as [|n IH]; intros i s V Hi Hn Hs; cbn [write_copies].
  - exists s. split_and!; [done | | done]. apply (after_ext _ (blk s)); [by apply after_refl |]. intros l.
    destruct (is_copy_spec (Z.of_nat 0) i sec (fat_size (fs s)) l) as [(k & ? & _) |]; [apply (v_geometry s V) | lia | done].
  - pose proof (volume_bounds s V). pose proof (v_geometry s V) as G.
    assert (0 <= sec + i * fat_size (fs s) < volume_end (fs s)) as Hl.
    { destruct (copy_in_table _ i sec G); lia. }
    destruct (write_sector_ok s _ V Hl) as (s1 & -> & A & Eb & _). cbn [negb]. pose proof (af_fs _ _ _ A) as Ef.
    destruct (IH (i + 1) s1) as (s2 & -> & A2 & Eb2); [apply A | lia | rewrite Ef; lia | by rewrite Ef |].
    exists s2. split_and!; [done | | by rewrite Eb2]. rewrite Ef in A2.
    apply (after_ext _ _ _ _ (after_trans _ _ _ _ _ A A2)). intros l. rewrite Eb, (af_blk _ _ _ A l).
    pose proof (g_fat_size _ G) as Gs.
    destruct (is_copy_spec (Z.of_nat n) (i + 1) sec (fat_size (fs s)) l) as [(k & Hk & El) | Hno]; [lia | |].
    + destruct (is_copy_spec (Z.of_nat (S n)) i sec (fat_size (fs s)) l) as [_ | Hno]; [lia | done |].
      destruct Hno. exists k. split; [lia | done].
    + destruct (Z.eqb_spec l (sec + i * fat_size (fs s))) as [El | Hne];
        destruct (is_copy_spec (Z.of_nat (S n)) i sec (fat_size (fs s)) l) as [(k & Hk & El') | Hno']; try lia; try done.
      * destruct Hno'. exists i. split; [lia | done].
      * destruct (decide (k = i)) as [->|]; [done |]. destruct Hno. exists k. split; [lia | done].
Qed.

Lemma sector_put16 o v b : sector b -> (o + 2 <= 512)%nat -> sector (put16 o v b).
Proof. intros [Hl Hb] Ho. split; [rewrite put16_length by lia; done | by apply bytes_put16]. Qed.

(** [fat_write_entry] changes the entry of [c] and, outside the table, nothing;
    the sector buffer holds the sector of the table written. *)
Lemma fat_write_entry_ok s c v :
  volume s -> 0 <= c < fat_size (fs s) * 256 -> c < 0x10000 -> 0 <= v < 0x10000 ->
  exists s', fat_write_entry c v s = (true, s') /\ after s (blk s') s' /\ coherent s' /\
    (forall c', 0 <= c' < fat_size (fs s) * 256 -> c' < 0x10000 -> fat s' c' = if c' =? c then v else fat s c') /\
    (forall l, ~ in_table (fs s) l -> blk s' l = blk s l) /\
    sector_buffer s' = blk s' (fat_sector c s).
Proof.
  intros V Hc Hc' Hv. destruct (valid_cluster_bounds s c V Hc Hc') as (Es & Hs & Ho). unfold fat_write_entry. cbn zeta.
  rewrite Es. set (sec := fat_start_sector (fs s) + c * 2 / 512) in *. pose proof (volume_bounds s V) as Hb.
  destruct (read_sector_ok s sec V ltac:(lia)) as (s1 & -> & A & Eb & _). cbn [negb].
  set (s2 := set_sector_buffer _ s1). pose proof (af_fs _ _ _ A) as Ef.
  assert (volume s2) as V2.
  { apply volume_set_buffer; [apply A |]. apply sector_put16; [|done]. rewrite Eb. by apply blk_sector; [| lia]. }
  pose proof (v_geometry s V) as G. pose proof (g_fats _ G). pose proof (g_fat_size _ G) as Gs.
  assert (fs s2 = fs s) as Ef2 by done.
  destruct (write_copies_ok (Z.to_nat (num_fats (fs s2))) 0 sec s2 V2) as (s3 & -> & A3 & Eb3);
    [lia | rewrite Ef2; lia | by rewrite Ef2 |]. cbn [negb]. rewrite Ef2, Z2Nat.id in A3 by lia.
  assert (sector_buffer s2 = put16 (entry_offset c) v (blk s sec)) as Eb2 by (cbn; by rewrite Eb).
  assert (forall l, blk s2 l = blk s l) as B2 by (intros l; apply (af_blk _ _ _ A)).
  assert (forall l, blk s3 l = if is_copy (num_fats (fs s)) 0 sec (fat_size (fs s)) l
    then put16 (entry_offset c) v (blk s sec) else blk s l) as B3.
  { intros l. rewrite (af_blk _ _ _ A3), Eb2, B2. done. }
  assert (fs s3 = fs s) as Ef3 by (by rewrite (af_fs _ _ _ A3)).
  eexists. split; [done |]. split_and!.
  - split; [done | apply volume_set_cache_sector; apply A3 | done].
  - by left.
  - intros c' H1 H2. unfold fat. change (fs (set_cache_sector _ s3)) with (fs s3). change (blk (set_cache_sector _ s3)) with (blk s3).
    rewrite Ef3, B3. set (sec' := fat_start_sector (fs s) + c' * 2 / 512).
    assert (fat_start_sector (fs s) <= sec' < fat_start_sector (fs s) + fat_size (fs s)) as Hs'.
    { apply (valid_cluster_bounds s c' V H1 H2). }
    destruct (is_copy_spec (num_fats (fs s)) 0 sec (fat_size (fs s)) sec') as [(k & Hk & El) | Hno]; [lia | |].
    + assert (k = 0) as -> by (pose proof (Z.mul_le_mono_nonneg_r 1 k (fat_size (fs s))); lia). assert (sec' = sec) as E' by lia.
      destruct (blk_sector s sec V ltac:(lia)) as [Hlen _].
      destruct (Z.eqb_spec c' c) as [->|Hne]; [apply get16_put16_eq; [by rewrite Hlen | done] |].
      rewrite get16_put16_ne; [by rewrite E' | by rewrite Hlen |]. apply entries_apart; [lia | lia | | done].
      unfold sec, sec' in E'. lia.
    + destruct (Z.eqb_spec c' c) as [->|]; [| done]. destruct Hno. exists 0. split; [lia |]. unfold sec'. fold sec. lia.
  - intros l Hl. change (blk (set_cache_sector _ s3)) with (blk s3). rewrite B3.
    destruct (is_copy_spec (num_fats (fs s)) 0 sec (fat_size (fs s)) l) as [(k & Hk & El) |]; [lia | | done].
    destruct Hl. subst l. by apply copy_in_table; [| lia |].
  - change (blk (set_cache_sector _ s3)) with (blk s3). cbn [sector_buffer set_cache_sector]. rewrite Eb3, Eb2, B3.
    destruct (is_copy_spec (num_fats (fs s)) 0 sec (fat_size (fs s)) sec) as [| Hno]; [lia | done |].
    destruct Hno. exists 0. split; [lia |]. lia.
Qed.

End table.

(** ** Free clusters *)

Section chains.
Context {dev : Type} {DEV : BlockDevice dev} {LAWS : BlockLaws dev}.
Implicit Types (s : fat16 dev) (c v lba : Z).

Definition is_free (F : Z -> Z) (c : Z) : bool := F c =? FAT16_FREE.
Definition free_clusters s : list Z := List.filter (is_free (fat s)) (seqZ 2 (total_clusters (fs s))).

Lemma fat_same s s' c : fs s' = fs s -> (forall l, blk s' l = blk s l) -> fat s' c = fat s c.
Proof. intros Ef Eb. unfold fat. by rewrite Ef, Eb. Qed.

Lemma after_fat s s' c : after s (blk s) s' -> fat s' c = fat s c.
Proof. intros []. by apply fat_same. Qed.

Lemma find_free_loop_ok n fuel c s :
  volume s -> coherent s -> 2 <= c -> c + Z.of_nat n = total_clusters (fs s) + 2 -> (n < fuel)%nat ->
  exists s', find_free_loop fuel c s =
      Some (default 0 (head (List.filter (is_free (fat s)) (seqZ c (Z.of_nat n)))), s') /\
    after s (blk s) s' /\ coherent s' /\ sector_buffer s' = sector_buffer s.
Proof.
  revert fuel c s. induction n as [|n IH]; intros [|fuel] c s V C Hc Hn Hf; try lia; cbn [find_free_loop].
  - pose proof (g_clusters _ (v_geometry s V)). rewrite u32_small by lia.
    destruct (Z.ltb_spec c (total_clusters (fs s) + 2)); [lia |]. exists s. split_and!; [done | by apply after_refl | done..].
  - pose proof (v_geometry s V) as G. pose proof (g_clusters _ G). pose proof (g_table _ G). rewrite u32_small by lia.
    destruct (Z.ltb_spec c (total_clusters (fs s) + 2)); [| lia].
    destruct (fat_read_entry_ok s c V C) as (s1 & -> & A & C1 & E1); [lia | lia |].
    rewrite seqZ_cons by lia. cbn [List.filter]. unfold is_free at 1.
    destruct (fat s c =? FAT16_FREE); [by exists s1 |]. rewrite u16_small by lia.
    destruct (IH fuel (c + 1) s1) as (s2 & -> & A2 & C2 & E2); [apply A | done | lia | rewrite (af_fs _ _ _ A); lia | lia |].
    exists s2. split_and!; [| | done | by rewrite E2].
    + do 4 f_equal. replace (Z.pred (Z.of_nat (S n))) with (Z.of_nat n) by lia. rewrite Z.add_1_r.
      apply filter_ext. intros x. unfold is_free. by rewrite (after_fat _ _ _ A).
    + apply (after_ext _ _ _ _ (after_trans _ _ _ _ _ A A2)), A.
Qed.

Lemma fat_find_free_cluster_ok s :
  volume s -> coherent s ->
  exists s', fat_find_free_cluster s = Some (default 0 (head (free_clusters s)), s') /\
    after s (blk s) s' /\ coherent s' /\ sector_buffer s' = sector_buffer s.
Proof.
  intros V C. pose proof (g_clusters _ (v_geometry s V)).
  destruct (find_free_loop_ok (Z.to_nat (total_clusters (fs s))) chain_fuel 2 s V C) as (s' & E & H');
    [lia | lia | unfold chain_fuel; lia |]. rewrite Z2Nat.id in E by lia. by exists s'.
Qed.

Lemma free_clusters_spec s c : c ∈ free_clusters s <-> valid_cluster (fs s) c /\ fat s c = 0.
Proof.
  unfold free_clusters, valid_cluster. rewrite list_elem_of_In, filter_In, <- list_elem_of_In, elem_of_seqZ.
  unfold is_free. rewrite Z.eqb_eq. change FAT16_FREE with 0. lia.
Qed.

Lemma free_clusters_nodup s : NoDup (free_clusters s).
Proof. unfold free_clusters. apply NoDup_ListNoDup, NoDup_filter, NoDup_ListNoDup, NoDup_seqZ. Qed.

(** ** Chains *)

(** From [c] on, the table [F] links the clusters [l], and the entry of the last
    one ends a chain. *)
Fixpoint chain (F : Z -> Z) (c : Z) (l : list Z) : Prop :=
  match l with
  | [] => in_chain c = false
  | x :: l' => c = x /\ chain F (F x) l'
  end.

Lemma chain_ext F G c l : (forall x, x ∈ l -> F x = G x) -> chain F c l -> chain G c l.
Proof.
  revert c. induction l as [|x l IH]; intros c H; [done |]. intros [-> Hc]. split; [done |].
  rewrite <- (H x) by set_solver. apply IH; [set_solver | done].
Qed.

Lemma valid_in_chain f c : geometry f -> valid_cluster f c -> in_chain c = true.
Proof.
  intros [] []. unfold in_chain, FAT16_END_OF_CHAIN. rewrite Z.geb_leb.
  apply andb_true_iff. rewrite Z.leb_le, Z.ltb_lt. lia.
Qed.

(** Writing an entry, seen on the table as a function. *)
Definition upd (F : Z -> Z) (c v : Z) : Z -> Z := fun x => if x =? c then v else F x.

(** The table of [s] is [F] on the entries that exist. *)
Definition table_is s (F : Z -> Z) : Prop :=
  forall c, 0 <= c < fat_size (fs s) * 256 -> c < 0x10000 -> fat s c = F c.

(** The steps that change the table: the rest of the disk stays. *)
Record retable s (F : Z -> Z) s' : Prop := {
  rt_after : after s (blk s') s';
  rt_coherent : coherent s';
  rt_table : table_is s' F;
  rt_rest : forall l, ~ in_table (fs s) l -> blk s' l = blk s l;
}.

Lemma retable_ext s F G s' : retable s F s' ->
  (forall c, 0 <= c < fat_size (fs s) * 256 -> c < 0x10000 -> F c = G c) -> retable s G s'.
Proof.
  intros [A C T R] H. split; [done | done | | done]. intros c H1 H2. rewrite (af_fs _ _ _ A) in H1.
  rewrite <- H by done. apply T; [| done]. by rewrite (af_fs _ _ _ A).
Qed.

Lemma retable_trans s1 F s2 G s3 : retable s1 F s2 -> retable s2 G s3 -> retable s1 G s3.
Proof.
  intros [A1 C1 T1 R1] [A2 C2 T2 R2]. split; [by eapply after_trans | done | done |].
  intros l Hl. rewrite R2, R1; [done | done |]. by rewrite (af_fs _ _ _ A1).
Qed.

Lemma retable_same s s' : after s (blk s) s' -> coherent s' -> retable s (fat s) s'.
Proof.
  intros A C. split; [| done | intros c _ _; by apply after_fat | intros l _; apply A].
  apply (after_ext _ _ _ _ A). intros l. symmetry. apply A.
Qed.

Lemma write_entry_retable s c v :
  volume s -> valid_cluster (fs s) c -> 0 <= v < 0x10000 ->
  exists s', fat_write_entry c v s = (true, s') /\ retable s (upd (fat s) c v) s' /\
    sector_buffer s' = blk s' (fat_sector c s).
Proof.
  intros V Hc Hv. destruct (valid_in_table _ _ (v_geometry s V) Hc) as [H1 H2].
  destruct (fat_write_entry_ok s c v V H1 H2 Hv) as (s' & E & A & C & T & R & B).
  exists s'. split; [done |]. split; [| done]. split; [done | done | | done].
  intros x. rewrite (af_fs _ _ _ A). apply T.
Qed.

(** ** Freeing a chain *)

Definition freed (F : Z -> Z) (l : list Z) (c : Z) : Z := if bool_decide (c ∈ l) then 0 else F c.

Lemma free_chain_ok fuel c l s :
  volume s -> coherent s -> chain (fat s) c l -> Forall (valid_cluster (fs s)) l -> NoDup l -> (length l < fuel)%nat ->
  exists s', free_chain fuel c s = Some s' /\ retable s (freed (fat s) l) s' /\
    match list.last l with
    | Some x => sector_buffer s' = blk s' (fat_sector x s)
    | None => s' = s
    end.
Proof.
  revert c l s. induction fuel as [|fuel IH]; intros c l s V C Hc Hv Hn Hf; [lia |]. cbn [free_chain].
  destruct l as [|x l].
  { cbn [chain] in Hc. rewrite Hc. exists s. split_and!; [done | | done].
    apply (retable_ext _ (fat s)); [apply retable_same; [by apply after_refl | done] | done]. }
  destruct Hc as [-> Hc]. inversion Hv as [|? ? Hx Hl]; subst. inversion Hn as [|? ? Hnx Hnl]; subst.
  pose proof (v_geometry s V) as G. rewrite (valid_in_chain _ _ G Hx). destruct (valid_in_table _ _ G Hx) as [H1 H2].
  destruct (fat_read_entry_ok s x V C H1 H2) as (s1 & -> & A1 & C1 & _).
  pose proof (retable_same _ _ A1 C1) as R1. pose proof (af_fs _ _ _ A1) as Ef1.
  destruct (write_entry_retable s1 x FAT16_FREE) as (s2 & -> & R2 & B2); [apply A1 | by rewrite Ef1 | done |].
  pose proof (af_fs _ _ _ (rt_after _ _ _ R2)) as Ef2. rewrite Ef1 in Ef2.
  assert (forall y, valid_cluster (fs s) y -> y <> x -> fat s2 y = fat s y) as Hsame.
  { intros y Hy Hne. destruct (valid_in_table _ _ G Hy). rewrite (rt_table _ _ _ R2) by (rewrite ?Ef2; done).
    unfold upd. rewrite (proj2 (Z.eqb_neq _ _) Hne). by apply after_fat. }
  destruct (IH (fat s x) l s2) as (s3 & -> & R3 & B3).
  - apply R2.
  - apply R2.
  - apply (chain_ext (fat s)); [| done]. intros y Hy. symmetry. apply Hsame; [| set_solver].
    rewrite Forall_forall in Hl. by apply Hl, list_elem_of_In.
  - by rewrite Ef2.
  - done.
  - cbn in Hf. lia.
  - exists s3. split; [done |]. split.
    + apply (retable_ext _ (freed (fat s2) l)); [by eapply retable_trans; [eapply retable_trans |] |].
      intros y Hy1 Hy2. unfold freed. rewrite (rt_table _ _ _ R2) by (rewrite ?Ef2; done). unfold upd.
      rewrite (after_fat _ _ _ A1). destruct (Z.eqb_spec y x) as [->|Hne].
      * rewrite (bool_decide_true (x ∈ x :: l)) by set_solver. by rewrite bool_decide_false.
      * by rewrite (bool_decide_ext (y ∈ x :: l) (y ∈ l)) by set_solver.
    + destruct l as [|y l].
      * cbn in *. subst s3. rewrite B2. unfold fat_sector. by rewrite Ef1.
      * change (list.last (x :: y :: l)) with (list.last (y :: l)). destruct (list.last (y :: l)) eqn:El; [| by apply list.last_None in El].
        rewrite B3. unfold fat_sector. by rewrite Ef2.
Qed.
End chains.
