(* ===== verification/FatFiles.v ===== *)
(** * Files of a FAT16 volume

    What [fat16_find_file], [fat16_read_file], [fat16_write_file] and
    [fat16_delete_file] do to a volume as [FatTable] describes it: the contents
    of a file are the sectors of its chain of clusters, up to its size. *)

From S2P Require Import Prelude Checksum Buffers Block Fat16 FatTable.

Section data.
Context {dev : Type} {DEV : BlockDevice dev} {LAWS : BlockLaws dev}.
Implicit Types (s : fat16 dev) (c v lba rem : Z) (n k : nat).

(** ** Contents of clusters *)

Definition first_sector (f : fat16_fs) c : Z := data_start_sector f + (c - 2) * sectors_per_cluster f.

(** The bytes of [n] sectors from [sec] on. *)
Fixpoint sectors s (sec : Z) (n : nat) : list Z :=
  match n with O => [] | S n' => blk s sec ++ sectors s (sec + 1) n' end.

Definition cluster_bytes s c : list Z := sectors s (first_sector (fs s) c) (Z.to_nat (sectors_per_cluster (fs s))).
Definition chain_bytes s (l : list Z) : list Z := concat (cluster_bytes s <$> l).

Lemma cluster_bounds s c : volume s -> valid_cluster (fs s) c ->
  data_start_sector (fs s) <= first_sector (fs s) c /\
  first_sector (fs s) c + sectors_per_cluster (fs s) <= volume_end (fs s).
Proof.
  intros V [H1 H2]. pose proof (g_spc _ (v_geometry s V)). unfold first_sector, volume_end.
  pose proof (Z.mul_nonneg_nonneg (c - 2) (sectors_per_cluster (fs s))).
  pose proof (Z.mul_le_mono_nonneg_r (c - 2 + 1) (total_clusters (fs s)) (sectors_per_cluster (fs s))).
  pose proof (Z.mul_add_distr_r (c - 2) 1 (sectors_per_cluster (fs s))). lia.
Qed.

(** The sectors of different clusters are different. *)
Lemma clusters_disjoint f c c' l :
  0 < sectors_per_cluster f -> c <> c' ->
  first_sector f c <= l < first_sector f c + sectors_per_cluster f ->
  ~ (first_sector f c' <= l < first_sector f c' + sectors_per_cluster f).
Proof.
  unfold first_sector. intros Hs Hne H1 H2. destruct (Z.lt_total c c') as [Hlt | [? | Hlt]]; [| done |].
  - pose proof (Z.mul_le_mono_nonneg_r (c - 2 + 1) (c' - 2) (sectors_per_cluster f)).
    pose proof (Z.mul_add_distr_r (c - 2) 1 (sectors_per_cluster f)). lia.
  - pose proof (Z.mul_le_mono_nonneg_r (c' - 2 + 1) (c - 2) (sectors_per_cluster f)).
    pose proof (Z.mul_add_distr_r (c' - 2) 1 (sectors_per_cluster f)). lia.
Qed.

Lemma cluster_to_sector_ok s c : volume s -> valid_cluster (fs s) c -> cluster_to_sector c s = first_sector (fs s) c.
Proof.
  intros V Hc. pose proof (cluster_bounds s c V Hc). pose proof (volume_bounds s V).
  pose proof (g_spc _ (v_geometry s V)). unfold cluster_to_sector. fold (first_sector (fs s) c). apply u32_small. lia.
Qed.

Lemma sectors_ext s s' sec n :
  (forall l, sec <= l < sec + Z.of_nat n -> blk s' l = blk s l) -> sectors s' sec n = sectors s sec n.
Proof.
  revert sec. induction n as [|n IH]; intros sec H; [done |]. cbn [sectors].
  rewrite H by lia. f_equal. apply IH. intros l Hl. apply H. lia.
Qed.

Lemma length_sectors s sec n :
  volume s -> 0 <= sec -> sec + Z.of_nat n <= volume_end (fs s) -> length (sectors s sec n) = (512 * n)%nat.
Proof.
  intros V. revert sec. induction n as [|n IH]; intros sec H1 H2; [done |]. cbn [sectors].
  rewrite length_app, IH by lia. destruct (blk_sector s sec V ltac:(lia)) as [-> _]. lia.
Qed.

Lemma length_cluster s c : volume s -> valid_cluster (fs s) c ->
  length (cluster_bytes s c) = (512 * Z.to_nat (sectors_per_cluster (fs s)))%nat.
Proof.
  intros V Hc. pose proof (cluster_bounds s c V Hc). pose proof (volume_bounds s V).
  pose proof (g_spc _ (v_geometry s V)). apply length_sectors; [done | lia | lia].
Qed.

Lemma chain_bytes_ext s s' l :
  fs s' = fs s -> (forall c, c ∈ l -> cluster_bytes s' c = cluster_bytes s c) -> chain_bytes s' l = chain_bytes s l.
Proof.
  intros Ef H. unfold chain_bytes. f_equal. apply list_fmap_ext. intros i c Hc. apply H. by eapply list_elem_of_lookup_2.
Qed.

Lemma after_cluster_bytes s s' c : after s (blk s) s' -> cluster_bytes s' c = cluster_bytes s c.
Proof. intros [Ef _ Eb]. unfold cluster_bytes. rewrite Ef. apply sectors_ext. intros l _. apply Eb. Qed.

Lemma coherent_keep s s' :
  coherent s -> fs s' = fs s -> fat_cache s' = fat_cache s -> fat_cache_sector s' = fat_cache_sector s ->
  (forall l, in_table (fs s) l -> blk s' l = blk s l) -> geometry (fs s) -> coherent s'.
Proof.
  intros [C | [H C]] Ef E1 E2 Eb G; [left; by rewrite E2 |]. right. rewrite Ef, E1, E2. split; [done |].
  rewrite Eb; [done |]. unfold in_table. pose proof (g_root _ G). pose proof (g_fats _ G). pose proof (g_fat_size _ G).
  pose proof (Z.mul_le_mono_nonneg_r 1 (num_fats (fs s)) (fat_size (fs s))). lia.
Qed.

(** ** Reading a chain *)

Lemma read_cluster_ok n sec rem s :
  volume s -> coherent s -> 0 <= rem -> 0 <= sec -> sec + Z.of_nat n <= volume_end (fs s) ->
  exists s', read_cluster n sec rem s =
      (true, take (Z.to_nat rem) (sectors s sec n), Z.max 0 (rem - 512 * Z.of_nat n), s') /\
    after s (blk s) s' /\ coherent s'.
Proof.
  revert sec rem s. induction n as [|n IH]; intros sec rem s V C Hr H1 H2; cbn [read_cluster].
  { exists s. cbn [sectors]. rewrite take_nil. split_and!; [| by apply after_refl | done]. do 2 f_equal; lia. }
  destruct (Z.gtb_spec rem 0) as [Hpos|].
  - destruct (read_sector_ok s sec V ltac:(lia)) as (s1 & -> & A & Eb & Ec & Es). cbn [negb].
    pose proof (af_fs _ _ _ A) as Ef. set (copy := if rem >? 512 then 512 else rem).
    assert (copy = Z.min rem 512) as Ecopy by (subst copy; destruct (Z.gtb_spec rem 512); lia). clearbody copy.
    assert (coherent s1) as C1 by (apply (coherent_keep s); try done; [intros l _; apply A | apply (v_geometry s V)]).
    destruct (IH (sec + 1) (rem - copy) s1) as (s2 & -> & A2 & C2); [apply A | done | lia | lia | rewrite Ef; lia |].
    exists s2. split_and!; [| by apply (after_ext _ _ _ _ (after_trans _ _ _ _ _ A A2)), A | done].
    rewrite Eb, (sectors_ext s s1) by (intros l _; apply A). cbn [sectors].
    destruct (blk_sector s sec V ltac:(lia)) as [Hlen _]. rewrite take_app, Hlen.
    assert (Z.max 0 (rem - copy - 512 * Z.of_nat n) = Z.max 0 (rem - 512 * Z.of_nat (S n))) as -> by lia.
    do 3 f_equal. destruct (decide (rem <= 512)).
    + f_equal; f_equal; lia. 
    + rewrite !(take_ge (blk s sec)) by lia. f_equal. f_equal. lia.
  - assert (rem = 0) as -> by lia. exists s. rewrite take_0. split_and!; [| by apply after_refl | done].
    do 2 f_equal; lia.
Qed.

Lemma read_chain_ok fuel c l rem s :
  volume s -> coherent s -> chain (fat s) c l -> Forall (valid_cluster (fs s)) l -> 0 <= rem ->
  (Z.to_nat ((rem + 511) / 512) < fuel)%nat ->
  exists s', read_chain fuel c rem s = Some (true, take (Z.to_nat rem) (chain_bytes s l), s') /\
    after s (blk s) s' /\ coherent s'.
Proof.
  revert c l rem s. induction fuel as [|fuel IH]; intros c l rem s V C Hc Hv Hr Hf; [lia |]. cbn [read_chain].
  destruct (Z.gtb_spec rem 0) as [Hpos|].
  2: { assert (rem = 0) as -> by lia. exists s. rewrite take_0. split_and!; [done | by apply after_refl | done]. }
  destruct l as [|x l].
  { cbn [chain] in Hc. rewrite Hc. exists s. cbn. rewrite take_nil. split_and!; [done | by apply after_refl | done]. }
  destruct Hc as [-> Hc]. inversion Hv as [|? ? Hx Hl]; subst. pose proof (v_geometry s V) as G.
  rewrite (valid_in_chain _ _ G Hx), cluster_to_sector_ok by done. cbn [andb].
  pose proof (g_spc _ G). pose proof (cluster_bounds s x V Hx). pose proof (volume_bounds s V).
  destruct (read_cluster_ok (Z.to_nat (sectors_per_cluster (fs s))) (first_sector (fs s) x) rem s V C)
    as (s1 & -> & A1 & C1); [lia | lia | lia |]. cbn [negb]. pose proof (af_fs _ _ _ A1) as Ef1.
  destruct (valid_in_table _ _ G Hx) as [Hx1 Hx2].
  destruct (fat_read_entry_ok s1 x) as (s2 & -> & A2 & C2 & _); [apply A1 | done | by rewrite Ef1 | done |].
  pose proof (after_ext _ _ _ _ (after_trans _ _ _ _ _ A1 A2) (af_blk _ _ _ A1)) as A.
  rewrite Z2Nat.id by lia. set (rem' := Z.max 0 (rem - 512 * sectors_per_cluster (fs s))).
  destruct (IH (fat s1 x) l rem' s2) as (s3 & -> & A3 & C3).
  - apply A.
  - done.
  - rewrite (after_fat _ _ x A1). apply (chain_ext (fat s)); [| done]. intros y _. symmetry. by apply after_fat.
  - by rewrite (af_fs _ _ _ A).
  - lia.
  - assert (0 <= (rem' + 511) / 512 < (rem + 511) / 512) by (subst rem'; clear - H Hpos; zlia). lia.
  - exists s3. cbn [mbind option_bind]. split_and!; [| by apply (after_ext _ _ _ _ (after_trans _ _ _ _ _ A A3)), A | done].
    change (chain_bytes s (x :: l)) with (cluster_bytes s x ++ chain_bytes s l).
    rewrite take_app, (length_cluster s x) by done. do 3 f_equal.
    assert (chain_bytes s2 l = chain_bytes s l) as <-.
    { apply chain_bytes_ext; [apply A |]. intros y _. by apply after_cluster_bytes. }
    do 2 f_equal. lia.
Qed.

(** ** Writing the sectors of a cluster *)

Lemma sector_chunk (src : list Z) : bytes src -> sector (put 0 (take 512 src) (replicate 512 0)).
Proof.
  intros Hb. split; [rewrite put_length; [done | rewrite length_take, length_replicate; lia] |].
  apply bytes_put; [by apply bytes_take | by apply bytes_replicate].
Qed.

Lemma chunk_eq (src : list Z) :
  put 0 (take 512 src) (replicate 512 0) = take 512 src ++ replicate (512 - length src) 0.
Proof.
  unfold put. rewrite take_0. cbn [app]. f_equal. rewrite drop_replicate, length_take. f_equal. lia.
Qed.

Lemma write_cluster_ok n sec src s :
  volume s -> coherent s -> bytes src -> data_start_sector (fs s) <= sec -> sec + Z.of_nat n <= volume_end (fs s) ->
  exists s', write_cluster n sec src s = (true, drop (512 * n) src, s') /\
    after s (blk s') s' /\ coherent s' /\
    take (length src) (sectors s' sec n) = take (512 * n) src /\
    (forall l, ~ (sec <= l < sec + Z.of_nat n) -> blk s' l = blk s l).
Proof.
  revert sec src s. induction n as [|n IH]; intros sec src s V C Hb H1 H2; cbn [write_cluster].
  { exists s. rewrite Nat.mul_0_r, drop_0, take_0. cbn [sectors]. rewrite take_nil. split_and!; try done; by apply after_refl. }
  pose proof (volume_bounds s V) as Hvb. pose proof (v_geometry s V) as G.
  destruct (Z.gtb_spec (Z.of_nat (length src)) 0) as [Hpos|].
  2: { destruct src; [| cbn in *; lia]. exists s. split_and!; try done; by apply after_refl. }
  set (s0 := set_sector_buffer _ s). assert (volume s0) as V0 by (by apply volume_set_buffer; [| apply sector_chunk]).
  destruct (write_sector_ok s0 sec V0) as (s1 & -> & A & _ & Ec & Es); [cbn; lia |]. cbn [negb].
  pose proof (af_fs _ _ _ A : fs s1 = fs s) as Ef. pose proof (af_blk _ _ _ A) as B.
  assert (forall l, l <> sec -> blk s1 l = blk s l) as Bne.
  { intros l Hl. rewrite B. by destruct (Z.eqb_spec l sec). }
  assert (coherent s1) as C1.
  { apply (coherent_keep s); try done. intros l Hl. apply Bne. unfold in_table in Hl. lia. }
  destruct (IH (sec + 1) (drop 512 src) s1) as (s2 & -> & A2 & C2 & Hd & Bo);
    [apply A | done | by apply bytes_drop | rewrite Ef; lia | rewrite Ef; lia |].
  exists s2. rewrite drop_drop. split_and!; [do 3 f_equal; lia | split; [by rewrite (af_fs _ _ _ A2) | apply A2 | done] | done | |].
  - cbn [sectors]. rewrite Bo by lia. rewrite B, Z.eqb_refl. change (sector_buffer s0) with (put 0 (take 512 src) (replicate 512 0)).
    rewrite chunk_eq. rewrite <- app_assoc. replace (512 * S n)%nat with (512 + 512 * n)%nat by lia.
    rewrite <- take_take_drop. rewrite length_drop in Hd.
    destruct (decide (512 <= length src)%nat).
    + replace (512 - length src)%nat with 0%nat by lia. cbn [replicate app].
      rewrite take_app, length_take. replace (512 `min` length src)%nat with 512%nat by lia.
      rewrite Hd. f_equal. apply take_ge. rewrite length_take. lia.
    + rewrite (take_ge src) by lia. rewrite (drop_ge src) by lia. rewrite take_nil, app_nil_r. by rewrite take_app_length.
  - intros l Hl. rewrite Bo by lia. apply Bne. lia.
Qed.

(** ** Allocating a chain *)

(** The table after the clusters [l] have been linked behind [prev] (0: none). *)
Fixpoint link (F : Z -> Z) (prev : Z) (l : list Z) : Z -> Z :=
  match l with
  | [] => F
  | c :: l' => link (upd (if prev =? 0 then F else upd F prev c) c FAT16_END_OF_CHAIN) c l'
  end.

Lemma link_ext F G prev l x : F x = G x -> link F prev l x = link G prev l x.
Proof.
  revert F G prev. induction l as [|c l IH]; intros F G prev H; [done |]. cbn [link]. apply IH.
  unfold upd. destruct (x =? c); [done |]. by destruct (prev =? 0); rewrite H.
Qed.

Lemma link_outside F prev l c : c ∉ l -> c <> prev \/ l = [] -> link F prev l c = F c.
Proof.
  revert F prev. induction l as [|x l IH]; intros F prev Hc Hp; [done |]. cbn [link]. rewrite not_elem_of_cons in Hc.
  rewrite IH; [| by apply Hc | left; apply Hc]. unfold upd. destruct (Z.eqb_spec c x); [by destruct Hc |].
  destruct (prev =? 0); [done |]. destruct (Z.eqb_spec c prev); [| done]. by destruct Hp.
Qed.

Lemma link_prev F prev x l : prev <> 0 -> prev ∉ x :: l -> link F prev (x :: l) prev = x.
Proof.
  intros H0 Hp. rewrite not_elem_of_cons in Hp. cbn [link]. rewrite link_outside; [| by apply Hp | left; apply Hp].
  unfold upd. rewrite (proj2 (Z.eqb_neq prev x)), (proj2 (Z.eqb_neq prev 0)), Z.eqb_refl by (done || apply Hp). done.
Qed.

(** The clusters linked form a chain. *)
Lemma link_chain F prev l :
  NoDup l -> prev ∉ l -> 0 ∉ l -> chain (link F prev l) (default FAT16_END_OF_CHAIN (head l)) l.
Proof.
  revert F prev. induction l as [|c l IH]; intros F prev Hn Hp H0; [done |].
  inversion Hn as [|? ? Hc Hl]; subst. rewrite not_elem_of_cons in Hp, H0. cbn [head default from_option id link chain].
  split; [done |]. set (F1 := upd _ c _). assert (link F1 c l c = default FAT16_END_OF_CHAIN (head l)) as ->.
  { destruct l as [|d l]; [cbn; unfold F1, upd; by rewrite Z.eqb_refl |]. rewrite link_prev; [done | naive_solver | done]. }
  apply IH; naive_solver.
Qed.

(** The number of clusters of [sz] bytes that [n] bytes take. *)
Definition clusters_for (sz n : nat) : nat := ((n + sz - 1) / sz)%nat.

Lemma clusters_for_0 sz : (0 < sz)%nat -> clusters_for sz 0 = 0%nat.
Proof. intros. unfold clusters_for. apply Nat.div_small. lia. Qed.

Lemma clusters_for_S sz n : (0 < sz)%nat -> (0 < n)%nat -> clusters_for sz n = S (clusters_for sz (n - sz)).
Proof.
  intros Hs Hn. unfold clusters_for. destruct (decide (sz <= n)%nat).
  - replace (n + sz - 1)%nat with ((n - sz + sz - 1) + 1 * sz)%nat by lia. rewrite Nat.div_add by lia. lia.
  - replace (n - sz)%nat with 0%nat by lia. rewrite (Nat.div_small (0 + sz - 1)) by lia.
    symmetry. apply (Nat.div_unique _ _ 1 (n - 1)); lia.
Qed.

Lemma filter_twice {A} (f g : A -> bool) l :
  List.filter (fun x => f x && g x) l = List.filter g (List.filter f l).
Proof. induction l as [|x l IH]; [done |]. cbn. destruct (f x); cbn; [destruct (g x); by rewrite IH | done]. Qed.

Lemma filter_drop_head c l : NoDup (c :: l) -> List.filter (fun x => negb (x =? c)) (c :: l) = l.
Proof.
  intros H. inversion H as [|? ? Hc _]; subst. cbn [List.filter]. rewrite Z.eqb_refl. cbn [negb].
  clear H. induction l as [|x l IH]; [done |]. rewrite not_elem_of_cons in Hc. cbn [List.filter].
  destruct (Z.eqb_spec x c); [naive_solver |]. cbn [negb]. f_equal. apply IH, Hc.
Qed.

(** The free clusters after the first of them has been taken. *)
Lemma free_clusters_taken s s' c rest :
  fs s' = fs s -> free_clusters s = c :: rest ->
  (forall x, valid_cluster (fs s) x -> is_free (fat s') x = is_free (fat s) x && negb (x =? c)) ->
  free_clusters s' = rest.
Proof.
  intros Ef E H. unfold free_clusters in *. rewrite Ef.
  rewrite (filter_ext_in _ (fun x => is_free (fat s) x && negb (x =? c))).
  - rewrite filter_twice, E. apply filter_drop_head. rewrite <- E. apply free_clusters_nodup.
  - intros x Hx. apply H. apply list_elem_of_In, elem_of_seqZ in Hx. unfold valid_cluster. lia.
Qed.

(** One iteration of the loop up to the data: the cluster [c] linked behind [prev]. *)
Lemma link_one_ok s prev c :
  volume s -> coherent s -> valid_cluster (fs s) c -> prev = 0 \/ valid_cluster (fs s) prev ->
  exists s1 s2, (if negb (prev =? 0) then fat_write_entry prev c s else (true, s)) = (true, s1) /\
    fat_write_entry c FAT16_END_OF_CHAIN s1 = (true, s2) /\ retable s (link (fat s) prev [c]) s2.
Proof.
  intros V C Hc Hp. pose proof (v_geometry s V) as G. destruct (valid_in_table _ _ G Hc) as [H1 H2].
  assert (exists s1, (if negb (prev =? 0) then fat_write_entry prev c s else (true, s)) = (true, s1) /\
    retable s (if prev =? 0 then fat s else upd (fat s) prev c) s1) as (s1 & E1 & R1).
  { destruct (Z.eqb_spec prev 0); cbn [negb].
    - exists s. split; [done |]. by apply retable_same; [apply after_refl |].
    - destruct Hp as [|Hp]; [done |]. destruct (write_entry_retable s prev c V Hp) as (s1 & E & R & _); [lia |].
      by exists s1. }
  pose proof (af_fs _ _ _ (rt_after _ _ _ R1)) as Ef.
  destruct (write_entry_retable s1 c FAT16_END_OF_CHAIN) as (s2 & E2 & R2 & _); [apply R1 | by rewrite Ef | done |].
  exists s1, s2. split_and!; [done | done |]. cbn [link].
  apply (retable_ext _ (upd (fat s1) c FAT16_END_OF_CHAIN)); [by eapply retable_trans |].
  intros x Hx1 Hx2. unfold upd at 1 2. destruct (x =? c); [done |].
  apply (rt_table _ _ _ R1); [by rewrite Ef | done].
Qed.

Lemma table_is_keep s s' F :
  table_is s F -> geometry (fs s) -> fs s' = fs s -> (forall l, in_table (fs s) l -> blk s' l = blk s l) -> table_is s' F.
Proof.
  intros T G Ef Eb c H1 H2. rewrite Ef in H1. rewrite <- T by done. unfold fat. rewrite Ef, Eb; [done |].
  unfold in_table. pose proof (g_root _ G). pose proof (g_fats _ G). pose proof (g_fat_size _ G).
  pose proof (Z.mul_le_mono_nonneg_r 1 (num_fats (fs s)) (fat_size (fs s))). zlia.
Qed.

Definition cluster_size s : nat := (512 * Z.to_nat (sectors_per_cluster (fs s)))%nat.

(** [l] is a sector of the cluster [c]. *)
Definition in_cluster (f : fat16_fs) l c : Prop := first_sector f c <= l < first_sector f c + sectors_per_cluster f.

Lemma write_chain_ok fuel first prev src s :
  volume s -> coherent s -> bytes src -> (clusters_for (cluster_size s) (length src) < fuel)%nat ->
  prev = 0 \/ (valid_cluster (fs s) prev /\ fat s prev <> 0) ->
  let k := clusters_for (cluster_size s) (length src) in
  let new := take k (free_clusters s) in
  exists s', write_chain fuel first prev src s =
      Some (bool_decide (k <= length (free_clusters s))%nat, (if first =? 0 then default 0 (head new) else first), s') /\
    after s (blk s') s' /\ coherent s' /\ table_is s' (link (fat s) prev new) /\
    ((k <= length (free_clusters s))%nat -> take (length src) (chain_bytes s' new) = src) /\
    (forall l, ~ in_table (fs s) l -> (forall c, c ∈ new -> ~ in_cluster (fs s) l c) -> blk s' l = blk s l).
Proof.
  revert first prev src s. induction fuel as [|fuel IH]; intros first prev src s V C Hb Hf Hp k new; [lia |].
  cbn [write_chain]. pose proof (v_geometry s V) as G. pose proof (g_spc _ G) as Gs. pose proof (volume_bounds s V) as Hvb.
  assert (0 < cluster_size s)%nat as Hsz by (unfold cluster_size; lia).
  destruct (Z.gtb_spec (Z.of_nat (length src)) 0) as [Hpos|].
  2: { destruct src; [| cbn in *; lia]. subst new k. cbn [length]. rewrite clusters_for_0 by done.
    exists s. rewrite bool_decide_true by lia. cbn [take head default from_option].
    split_and!; [by destruct (Z.eqb_spec first 0); subst | by apply after_refl | done | by intros ? | done | done]. }
  assert (k = S (clusters_for (cluster_size s) (length src - cluster_size s))) as Ek by (apply clusters_for_S; lia).
  destruct (fat_find_free_cluster_ok s V C) as (s1 & E1 & A1 & C1 & _). rewrite E1. cbn [mbind option_bind].
  destruct (free_clusters s) as [|c rest] eqn:Efree.
  { exists s1. subst new. rewrite take_nil. cbn [head default from_option Z.eqb length].
    rewrite bool_decide_false by lia. split_and!; try done.
    - by destruct (Z.eqb_spec first 0); subst.
    - apply (after_ext _ _ _ _ A1). intros l. symmetry. apply A1.
    - intros x _ _. by apply after_fat.
    - lia.
    - intros l _ _. apply A1. }
  assert (c ∈ free_clusters s) as Hin by (rewrite Efree; set_solver).
  apply free_clusters_spec in Hin as [Hc Hfc]. assert (c <> 0) as Hc0 by (destruct Hc; lia).
  cbn [head default from_option id]. unfold id. rewrite (proj2 (Z.eqb_neq c 0) Hc0).
  pose proof (af_fs _ _ _ A1) as Ef1. destruct A1 as [_ V1 B1].
  assert (forall x, fat s1 x = fat s x) as T1 by (intros x; by apply fat_same).
  destruct (link_one_ok s1 prev c V1 C1) as (s2 & s3 & E2 & E3 & R3);
    [by rewrite Ef1 | rewrite Ef1; naive_solver |]. rewrite E2, E3.
  pose proof (af_fs _ _ _ (rt_after _ _ _ R3)) as Ef3. rewrite Ef1 in Ef3. pose proof (af_volume _ _ _ (rt_after _ _ _ R3)) as V3.
  assert (valid_cluster (fs s3) c) as Hc3 by (by rewrite Ef3). pose proof (cluster_bounds s3 c V3 Hc3) as Hcb. rewrite Ef3 in Hcb.
  rewrite cluster_to_sector_ok, Ef3 by done.
  destruct (write_cluster_ok (Z.to_nat (sectors_per_cluster (fs s))) (first_sector (fs s) c) src s3 V3 (rt_coherent _ _ _ R3) Hb)
    as (s4 & -> & A4 & C4 & D4 & B4); [rewrite Ef3; lia | rewrite Ef3; lia |]. cbn [negb].
  pose proof (af_fs _ _ _ A4) as Ef4. rewrite Ef3 in Ef4. rewrite Z2Nat.id in B4 by lia.
  fold (cluster_size s). assert (cluster_size s4 = cluster_size s) as Esz by (unfold cluster_size; by rewrite Ef4).
  assert (table_is s4 (link (fat s) prev [c])) as T4.
  { apply (table_is_keep s3); [| by rewrite Ef3 | by rewrite Ef3, Ef4 |].
    - intros x Hx1 Hx2. rewrite (rt_table _ _ _ R3) by done. by apply link_ext.
    - intros l Hl. apply B4. unfold in_table in Hl. rewrite Ef3 in Hl. lia. }
  pose proof (free_clusters_nodup s) as Hnd. rewrite Efree in Hnd. inversion Hnd as [|? ? Hcr Hndr]; subst x l.
  assert (free_clusters s4 = rest) as Er.
  { apply (free_clusters_taken s _ c); [done | done |]. intros x Hx. destruct (valid_in_table _ _ G Hx) as [Hx1 Hx2].
    unfold is_free. rewrite T4 by (rewrite ?Ef4; done). cbn [link]. unfold upd.
    destruct (Z.eqb_spec x c) as [->|]; [by rewrite andb_false_r |]. rewrite andb_true_r.
    destruct (Z.eqb_spec prev 0); [done |]. destruct (Z.eqb_spec x prev) as [->|]; [| done].
    destruct Hp as [|[_ Hp]]; [done |]. rewrite (proj2 (Z.eqb_neq c FAT16_FREE) Hc0).
    symmetry. by apply Z.eqb_neq. }
  destruct (IH (if first =? 0 then c else first) c (drop (cluster_size s) src) s4) as (s5 & -> & A5 & C5 & T5 & D5 & B5).
  { apply A4. } { done. } { by apply bytes_drop. } { rewrite Esz, length_drop. lia. }
  { right. rewrite Ef4. split; [done |]. destruct (valid_in_table _ _ G Hc). rewrite T4 by (rewrite ?Ef4; done).
    cbn [link]. unfold upd. by rewrite Z.eqb_refl. }
  rewrite Esz, length_drop, Er in T5, D5, B5 |- *. set (k' := clusters_for (cluster_size s) (length src - cluster_size s)) in *. rewrite Ef4 in B5.
  assert (new = c :: take k' rest) as Enew by (subst new; by rewrite Ek).
  clearbody new k. subst k new.
  pose proof (af_fs _ _ _ A5) as Ef5. rewrite Ef4 in Ef5.
  assert (forall l, in_cluster (fs s) l c -> blk s5 l = blk s4 l) as Bc.
  { intros l Hl. apply B5.
    - unfold in_table. destruct Hl. lia.
    - intros c' Hc'. apply (clusters_disjoint _ c); [lia | | done]. intros ->.
      apply Hcr. apply elem_of_take in Hc' as (i & Hi & _). by eapply list_elem_of_lookup_2. }
  exists s5. split_and!.
  - cbn [length]. rewrite (bool_decide_ext (k' <= length rest)%nat (S k' <= S (length rest))%nat) by lia.
    destruct (Z.eqb_spec first 0) as [->|Hf0]; [by rewrite (proj2 (Z.eqb_neq c 0)) |].
    by rewrite (proj2 (Z.eqb_neq first 0)).
  - split; [done | apply A5 | done].
  - done.
  - intros x Hx1 Hx2. rewrite T5 by done. cbn [link]. apply link_ext. apply T4; [by rewrite Ef4, <- Ef5 | done].
  - cbn [length]. intros Hk. change (chain_bytes s5 (c :: take k' rest)) with (cluster_bytes s5 c ++ chain_bytes s5 (take k' rest)).
    assert (cluster_bytes s5 c = sectors s4 (first_sector (fs s) c) (Z.to_nat (sectors_per_cluster (fs s)))) as Ecb.
    { unfold cluster_bytes. rewrite Ef5. apply sectors_ext. intros l Hl. apply Bc. unfold in_cluster. lia. }
    rewrite take_app, length_cluster by (rewrite ?Ef5; done || apply A5). rewrite Ef5. fold (cluster_size s).
    rewrite D5 by lia. rewrite Ecb, D4. apply take_drop.
  - intros l Hl Hnew. rewrite B5; [| done | intros c' Hc'; apply Hnew; by apply list_elem_of_further].
    rewrite B4; [| specialize (Hnew c (list_elem_of_here _ _)); unfold in_cluster in Hnew; lia].
    rewrite (rt_rest _ _ _ R3) by (by rewrite Ef1). apply B1.
Qed.

(** ** The root directory *)

Definition dir s (i : Z) : list Z := blk s (root_dir_start (fs s) + i).
Definition dir_entry s (i j : Z) : list Z := entry_at j (dir s i).

(** The search over the contents [d] of the directory, without the disk. *)
Fixpoint dir_find (skip_volume : bool) (name : list Z) (n : nat) (i : Z) (d : Z -> list Z) : option (Z * Z) :=
  match n with
  | O => None
  | S n' =>
      match find_in_sector skip_volume name 16 0 (d i) with
      | AtEntry j => Some (i, j)
      | AtEnd => None
      | NotHere => dir_find skip_volume name n' (i + 1) d
      end
  end.

(** The entry of a name, by sector of the directory and index. *)
Definition dir_lookup (skip_volume : bool) s (name : list Z) : option (Z * Z) :=
  dir_find skip_volume name (Z.to_nat (root_dir_sectors (fs s))) 0 (dir s).

Lemma find_in_sector_range skip name n j buf j' :
  find_in_sector skip name n j buf = AtEntry j' -> j <= j' < j + Z.of_nat n.
Proof.
  revert j. induction n as [|n IH]; intros j; [done |]. cbn [find_in_sector].
  destruct (probe_entry _ _); [done | intros H; apply IH in H; lia |].
  destruct (name_matches _ _); [intros [= ->]; lia | intros H; apply IH in H; lia].
Qed.

Lemma find_loop_ok skip name n i s :
  volume s -> coherent s -> 0 <= i -> i + Z.of_nat n <= root_dir_sectors (fs s) ->
  exists s', find_loop skip name n i s = (dir_find skip name n i (dir s), s') /\ after s (blk s) s' /\ coherent s' /\
    match dir_find skip name n i (dir s) with
    | Some (i', j) => sector_buffer s' = dir s i' /\ i <= i' < i + Z.of_nat n /\ 0 <= j < 16
    | None => True
    end.
Proof.
  revert i s. induction n as [|n IH]; intros i s V C H1 H2; cbn [find_loop dir_find].
  { exists s. split_and!; done || by apply after_refl. }
  pose proof (volume_bounds s V) as Hvb. pose proof (v_geometry s V) as G. pose proof (g_data _ G).
  destruct (read_sector_ok s (root_dir_start (fs s) + i) V ltac:(lia)) as (s1 & -> & A & Eb & Ec & Es). cbn [negb].
  pose proof (af_fs _ _ _ A) as Ef.
  assert (coherent s1) as C1 by (apply (coherent_keep s); try done; intros l _; apply A).
  rewrite Eb. change (blk s (root_dir_start (fs s) + i)) with (dir s i).
  destruct (find_in_sector skip name 16 0 (dir s i)) as [j| |] eqn:E.
  - exists s1. split_and!; try done; try lia. all: apply find_in_sector_range in E; lia.
  - by exists s1.
  - destruct (IH (i + 1) s1) as (s2 & E2 & A2 & C2 & F2); [apply A | done | lia | rewrite Ef; lia |].
    assert (dir_find skip name n (i + 1) (dir s1) = dir_find skip name n (i + 1) (dir s)) as Ed.
    { generalize (i + 1). clear - A Ef. induction n as [|n IH]; intros i; [done |]. cbn [dir_find].
      assert (dir s1 i = dir s i) as -> by (unfold dir; rewrite Ef; apply A). by rewrite IH. }
    rewrite E2, Ed in *. exists s2. split_and!; [done | | done |].
    + apply (after_ext _ _ _ _ (after_trans _ _ _ _ _ A A2)), A.
    + destruct (dir_find _ _ _ _ _) as [[i' j]|]; [| done]. destruct F2 as (F2 & ? & ?). split_and!; try lia.
      rewrite F2. unfold dir. rewrite Ef. apply A.
Qed.

Lemma find_entry_ok skip name s :
  volume s -> coherent s ->
  exists s', find_entry skip name s = (dir_lookup skip s name, s') /\ after s (blk s) s' /\ coherent s' /\
    match dir_lookup skip s name with
    | Some (i, j) => sector_buffer s' = dir s i /\ 0 <= i < root_dir_sectors (fs s) /\ 0 <= j < 16
    | None => True
    end.
Proof.
  intros V C. pose proof (g_root_sectors _ (v_geometry s V)).
  destruct (find_loop_ok skip name (Z.to_nat (root_dir_sectors (fs s))) 0 s V C) as (s' & E & A & C' & H');
    [lia | lia |]. rewrite Z2Nat.id in H' by lia. exists s'. split_and!; [done | done | done |].
  unfold dir_lookup. destruct (dir_find _ _ _ _ _) as [[i j]|]; [| done]. naive_solver.
Qed.

Lemma dir_bounds s i : volume s -> 0 <= i < root_dir_sectors (fs s) ->
  0 <= root_dir_start (fs s) + i < volume_end (fs s) /\ ~ in_table (fs s) (root_dir_start (fs s) + i) /\
  root_dir_start (fs s) + i < data_start_sector (fs s).
Proof.
  intros V Hi. pose proof (volume_bounds s V). pose proof (g_data _ (v_geometry s V)). unfold in_table. lia.
Qed.

Lemma dir_sector s i : volume s -> 0 <= i < root_dir_sectors (fs s) -> sector (dir s i).
Proof. intros V Hi. by apply blk_sector, dir_bounds. Qed.

Lemma dir_entry_bytes s i j : volume s -> 0 <= i < root_dir_sectors (fs s) -> bytes (dir_entry s i j).
Proof. intros V Hi. unfold dir_entry, entry_at, getn. apply bytes_take, bytes_drop. by apply dir_sector. Qed.

(** A search depends on the first 12 bytes of the entries: name, extension and
    attributes. *)
Lemma probe_entry_key skip e e' : take 12 e = take 12 e' -> probe_entry skip e = probe_entry skip e'.
Proof.
  intros E. assert (forall i, (i < 12)%nat -> get8 e i = get8 e' i) as H.
  { intros i Hi. unfold get8. by rewrite <- (lookup_take_lt e 12), E, lookup_take_lt. }
  unfold probe_entry, e_attr. by rewrite !(H 0%nat), !(H 11%nat) by lia.
Qed.

Lemma name_matches_key e e' name : take 12 e = take 12 e' -> name_matches e name = name_matches e' name.
Proof.
  intros E. unfold name_matches.
  assert (take 8 e = take 8 e') as -> by (apply (f_equal (take 8)) in E; by rewrite !take_take in E).
  assert (take 3 (drop 8 e) = take 3 (drop 8 e')) as -> by (apply (f_equal (fun x => take 3 (drop 8 x))) in E; cbv beta in E; by rewrite !skipn_firstn_comm, !take_take in E).
  done.
Qed.

Lemma dir_find_key skip name n i d d' :
  (forall i' j, i <= i' < i + Z.of_nat n -> 0 <= j < 16 -> take 12 (entry_at j (d' i')) = take 12 (entry_at j (d i'))) ->
  dir_find skip name n i d' = dir_find skip name n i d.
Proof.
  revert i. induction n as [|n IH]; intros i H; [done |]. cbn [dir_find].
  assert (forall m j, 0 <= j -> j + Z.of_nat m <= 16 ->
    find_in_sector skip name m j (d' i) = find_in_sector skip name m j (d i)) as Hf.
  { induction m as [|m IHm]; intros j H1 H2; [done |]. cbn [find_in_sector].
    pose proof (H i j ltac:(lia) ltac:(lia)) as Hk.
    by rewrite (probe_entry_key _ _ _ Hk), (name_matches_key _ _ _ Hk), IHm by lia. }
  rewrite Hf by lia. by rewrite IH by (intros; apply H; lia).
Qed.

(** ** Reading a file *)

Lemma read_file_ok s name max i j l :
  volume s -> coherent s -> 0 <= max < 0x80000000 -> dir_lookup true s name = Some (i, j) ->
  let e := dir_entry s i j in
  Z.land (e_attr e) FAT_ATTR_DIRECTORY = 0 ->
  chain (fat s) (e_cluster_lo e) l -> Forall (valid_cluster (fs s)) l ->
  let size := Z.min (e_file_size e) max in
  exists s', fat16_read_file name max s = Some (size, take (Z.to_nat size) (chain_bytes s l), s') /\
    after s (blk s) s' /\ coherent s'.
Proof.
  intros V C Hm Hl e Ha Hc Hv size. unfold fat16_read_file, fat16_find_file. rewrite (v_mounted s V). cbn [negb].
  destruct (find_entry_ok true name s V C) as (s1 & E1 & A1 & C1 & F1). rewrite E1, Hl in *.
  destruct F1 as (-> & Hi & Hj). change (entry_at j (dir s i)) with e. rewrite Ha. cbn [Z.eqb negb].
  assert (bytes e) as Hb by (by apply dir_entry_bytes).
  pose proof (get32_range e 28 Hb) as Hs. fold (e_file_size e) in Hs.
  assert ((if e_file_size e >? max then max else e_file_size e) = size) as ->.
  { subst size. destruct (Z.gtb_spec (e_file_size e) max); lia. }
  destruct (read_chain_ok (data_fuel size) (e_cluster_lo e) l size s1) as (s2 & -> & A2 & C2).
  { apply A1. } { done. } { eapply chain_ext; [| exact Hc]. intros x _. symmetry. by apply after_fat. }
  { by rewrite (af_fs _ _ _ A1). } { lia. } { unfold data_fuel. zlia. }
  exists s2. cbn [mbind option_bind]. split_and!; [| by apply (after_ext _ _ _ _ (after_trans _ _ _ _ _ A1 A2)), A1 | done].
  do 2 f_equal. f_equal; [unfold i32; zlia |]. f_equal. apply chain_bytes_ext; [apply A1 |].
  intros c _. by apply after_cluster_bytes.
Qed.

(** [fat16_read_file] of a file that exists and is not a directory returns
    the smaller of its size and of the size of the buffer, and fills the buffer
    with the first bytes of the file's clusters, in the order of the chain;
    nothing on the disk changes. *)
Theorem fat16_read_file_spec s name max i j l :
  volume s -> coherent s -> 0 <= max < 0x80000000 -> dir_lookup true s name = Some (i, j) ->
  let e := dir_entry s i j in
  Z.land (e_attr e) FAT_ATTR_DIRECTORY = 0 ->
  chain (fat s) (e_cluster_lo e) l -> Forall (valid_cluster (fs s)) l ->
  let size := Z.min (e_file_size e) max in
  exists s', fat16_read_file name max s = Some (size, take (Z.to_nat size) (chain_bytes s l), s') /\
    after s (blk s) s' /\ coherent s'.
Proof. exact (read_file_ok s name max i j l). Qed.

(** ** Entries of a sector of the directory *)

Lemma get8_entry j buf k : 0 <= j -> (k < 32)%nat -> get8 (entry_at j buf) k = get8 buf (Z.to_nat (32 * j) + k).
Proof. intros Hj Hk. unfold entry_at, getn, get8. rewrite lookup_take_lt by done. by rewrite lookup_drop. Qed.

Lemma length_entry j buf : length buf = 512%nat -> 0 <= j < 16 -> length (entry_at j buf) = 32%nat.
Proof. intros Hl Hj. unfold entry_at, getn. rewrite length_take, length_drop. lia. Qed.

Lemma get8_take n l k : (k < n)%nat -> get8 (take n l) k = get8 l k.
Proof. intros H. unfold get8. by rewrite lookup_take_lt. Qed.

Lemma le_bytes4_val x : 0 <= x < 0x100000000 ->
  get8 (le_bytes 4 x) 0 + 0x100 * get8 (le_bytes 4 x) 1 + 0x10000 * (get8 (le_bytes 4 x) 2 + 0x100 * get8 (le_bytes 4 x) 3) = x.
Proof.
  intros H. pose proof (le_val_le_bytes 4 x) as E. rewrite Z.mod_small in E by done.
  cbn [le_bytes le_val] in E. unfold get8. cbn [le_bytes lookup list_lookup default from_option]. unfold id. lia.
Qed.

Lemma get8_update j j' cluster size buf k :
  length buf = 512%nat -> 0 <= j < 16 -> 0 <= j' -> (k < 32)%nat ->
  get8 (entry_at j' (update_entry j cluster size buf)) k =
    if decide (j' = j) then
      if decide (28 <= k)%nat then get8 (le_bytes 4 size) (k - 28)
      else if decide (k = 26)%nat then cluster mod 0x100
      else if decide (k = 27)%nat then (cluster / 0x100) mod 0x100
      else get8 (entry_at j' buf) k
    else get8 (entry_at j' buf) k.
Proof.
  intros Hl Hj Hj' Hk. rewrite !get8_entry by done. unfold update_entry.
  rewrite get8_put by (rewrite length_le_bytes, put16_length; lia). rewrite length_le_bytes.
  rewrite get8_put16 by lia. repeat case_decide; try lia; subst; try done; try (f_equal; lia).
Qed.

Lemma update_entry_sector j cluster size buf :
  sector buf -> 0 <= j < 16 -> sector (update_entry j cluster size buf).
Proof.
  intros [Hl Hb] Hj. unfold update_entry. split.
  - rewrite put_length; [rewrite put16_length; lia | rewrite length_le_bytes, put16_length; lia].
  - apply bytes_put; [apply le_bytes_bytes | by apply bytes_put16].
Qed.

(** The entry [j] of an updated sector, and the others. *)
Lemma update_entry_ok j cluster size buf :
  sector buf -> 0 <= j < 16 -> 0 <= cluster < 0x10000 -> 0 <= size < 0x100000000 ->
  let e' := entry_at j (update_entry j cluster size buf) in
  e_cluster_lo e' = cluster /\ e_file_size e' = size /\ take 26 e' = take 26 (entry_at j buf) /\
  forall j', 0 <= j' < 16 -> j' <> j -> entry_at j' (update_entry j cluster size buf) = entry_at j' buf.
Proof.
  intros Hs Hj Hc Hz e'. pose proof (update_entry_sector j cluster size buf Hs Hj) as [Hl' _]. destruct Hs as [Hl _].
  subst e'. split_and!.
  - unfold e_cluster_lo. rewrite get16_get8, !get8_update by (done || lia). repeat case_decide; try lia. zlia.
  - unfold e_file_size. rewrite get32_get16, !get16_get8, !get8_update by (done || lia). rewrite !decide_True by lia.
    by apply le_bytes4_val.
  - apply list_eq_get8; [rewrite !length_take, !length_entry by done; done |]. intros k Hk.
    rewrite length_take, length_entry in Hk by done. rewrite !get8_take, get8_update by (done || lia).
    repeat case_decide; done || lia.
  - intros j' Hj' Hne. apply list_eq_get8; [by rewrite !length_entry |]. intros k Hk. rewrite length_entry in Hk by done.
    rewrite get8_update by (done || lia). by rewrite decide_False.
Qed.

End data.
