(* ===== verification/FatWrite.v ===== *)
(** * Writing and deleting files of a FAT16 volume

    The theorems on [fat16_write_file], the round trip with
    [fat16_read_file], the full disk, and [fat16_delete_file]. *)

From S2P Require Import Prelude Checksum Buffers Block Fat16 FatTable FatFiles.

Section data.
Context {dev : Type} {DEV : BlockDevice dev} {LAWS : BlockLaws dev}.
Implicit Types (s : fat16 dev) (c v lba : Z) (n : nat).

(** ** Writing a file *)

(** The clusters free once the chain [l] has been freed. *)
Definition available s (l : list Z) : list Z := List.filter (is_free (freed (fat s) l)) (seqZ 2 (total_clusters (fs s))).

(** The clusters that [n] bytes take. *)
Definition needed s (n : nat) : nat := clusters_for (cluster_size s) n.

Lemma chain_length s l : volume s -> Forall (valid_cluster (fs s)) l -> NoDup l -> (length l < chain_fuel)%nat.
Proof.
  intros V Hv Hn. pose proof (g_clusters _ (v_geometry s V)).
  assert (length l <= length (seqZ 2 (total_clusters (fs s))))%nat.
  { apply submseteq_length, NoDup_submseteq; [done |]. intros c Hc. rewrite Forall_forall in Hv.
    apply list_elem_of_In, Hv in Hc. apply elem_of_seqZ. destruct Hc. lia. }
  rewrite length_seqZ in *. unfold chain_fuel. lia.
Qed.

Lemma available_ok s s' l : volume s -> retable s (freed (fat s) l) s' -> free_clusters s' = available s l.
Proof.
  intros V [A _ T _]. unfold free_clusters, available. rewrite (af_fs _ _ _ A). apply filter_ext_in. intros x Hx.
  apply list_elem_of_In, elem_of_seqZ in Hx. destruct (valid_in_table (fs s) x (v_geometry s V)) as [H1 H2]; [split; lia |].
  unfold is_free. by rewrite T by (rewrite ?(af_fs _ _ _ A); done).
Qed.

(** The old chain is freed whether or not there is one. *)
Lemma free_step_ok s c l :
  volume s -> coherent s -> chain (fat s) c l -> Forall (valid_cluster (fs s)) l -> NoDup l ->
  exists s', (if c >=? 2 then free_chain chain_fuel c s else Some s) = Some s' /\ retable s (freed (fat s) l) s'.
Proof.
  intros V C Hc Hv Hn. rewrite Z.geb_leb. destruct (Z.leb_spec 2 c).
  - destruct (free_chain_ok chain_fuel c l s V C Hc Hv Hn (chain_length s l V Hv Hn)) as (s' & E & R & _). by exists s'.
  - destruct l as [|x l].
    + exists s. split; [done |]. apply (retable_ext _ (fat s)); [apply retable_same; [by apply after_refl | done] | done].
    + destruct Hc as [-> _]. inversion Hv as [|? ? [? ?] _]; subst. lia.
Qed.

Lemma data_fuel_ok s n : volume s -> (needed s n < data_fuel (Z.of_nat n))%nat.
Proof.
  intros V. pose proof (g_spc _ (v_geometry s V)). unfold needed, clusters_for, data_fuel, cluster_size.
  set (sz := (512 * Z.to_nat (sectors_per_cluster (fs s)))%nat). assert (512 <= sz)%nat by (subst sz; lia). clearbody sz.
  assert ((n + sz - 1) / sz < n / 512 + 2)%nat.
  { apply Nat.Div0.div_lt_upper_bound. pose proof (Nat.div_mod_eq n 512). pose proof (Nat.mod_upper_bound n 512 ltac:(lia)).
    pose proof (Nat.mul_le_mono_r 512 sz (n / 512) ltac:(lia)). rewrite Nat.mul_add_distr_l. lia. }
  rewrite Z2Nat.inj_add, Z2Nat.inj_div, Nat2Z.id by (try lia; zlia). exact H1.
Qed.

(** The clusters that [n] bytes get after the chain [l] has been freed. *)
Definition new_chain s (l : list Z) (n : nat) : list Z := take (needed s n) (available s l).

Lemma new_chain_spec s l n :
  NoDup (new_chain s l n) /\ forall c, c ∈ new_chain s l n -> valid_cluster (fs s) c /\ (fat s c = 0 \/ c ∈ l).
Proof.
  split.
  - unfold new_chain, available. eapply sublist_NoDup; [| apply sublist_take].
    apply NoDup_ListNoDup, NoDup_filter, NoDup_ListNoDup, NoDup_seqZ.
  - intros c Hc. apply elem_of_take in Hc as (p & Hc & _). apply list_elem_of_lookup_2 in Hc.
    unfold available in Hc. rewrite list_elem_of_In, filter_In, <- list_elem_of_In, elem_of_seqZ in Hc.
    unfold is_free, freed in Hc. destruct Hc as [Hc1 Hc2]. split; [unfold valid_cluster; lia |].
    apply Z.eqb_eq in Hc2. case_bool_decide; [by right | by left].
Qed.

(** The update of the entry at the end of [fat16_write_file]. *)
Lemma entry_update_ok s i j cluster size :
  volume s -> coherent s -> 0 <= i < root_dir_sectors (fs s) -> 0 <= j < 16 ->
  exists s1 s2, read_sector (i32 (root_dir_start (fs s) + i)) s = (true, s1) /\
    write_sector (i32 (root_dir_start (fs s) + i)) (set_sector_buffer (update_entry j cluster size (sector_buffer s1)) s1) = (true, s2) /\
    after s (fun l => if l =? root_dir_start (fs s) + i then update_entry j cluster size (dir s i) else blk s l) s2 /\
    coherent s2.
Proof.
  intros V C Hi Hj. destruct (dir_bounds s i V Hi) as (Hb1 & Hb2 & Hb3). pose proof (volume_bounds s V) as Hvb.
  assert (i32 (root_dir_start (fs s) + i) = root_dir_start (fs s) + i) as -> by (unfold i32; zlia).
  destruct (read_sector_ok s _ V Hb1) as (s1 & E1 & A1 & Eb & Ec & Es). pose proof (af_fs _ _ _ A1) as Ef.
  set (s1' := set_sector_buffer (update_entry j cluster size (sector_buffer s1)) s1).
  assert (volume s1') as V1.
  { apply volume_set_buffer; [apply A1 |]. apply update_entry_sector; [rewrite Eb; by apply dir_sector | done]. }
  destruct (write_sector_ok s1' (root_dir_start (fs s) + i) V1) as (s2 & E2 & A2 & _ & Ec2 & Es2); [cbn; by rewrite Ef |].
  exists s1, s2. split_and!; [done | done | |].
  - split; [rewrite (af_fs _ _ _ A2); done | apply A2 |]. intros lba. rewrite (af_blk _ _ _ A2). cbn [sector_buffer s1' set_sector_buffer].
    rewrite Eb. destruct (lba =? _); [done |]. apply (af_blk _ _ _ A1).
  - apply (coherent_keep s); [done | by rewrite (af_fs _ _ _ A2) | by rewrite Ec2 | by rewrite Es2 | | apply (v_geometry s V)].
    intros lba Hlba. rewrite (af_blk _ _ _ A2). destruct (Z.eqb_spec lba (root_dir_start (fs s) + i)) as [->|]; [done |].
    apply (af_blk _ _ _ A1).
Qed.

Lemma link_nonzero F prev nl c : Forall (fun x => x <> 0) nl -> c ∈ nl -> link F prev nl c <> 0.
Proof.
  revert F prev. induction nl as [|x nl IH]; intros F prev Hz Hc; [by apply not_elem_of_nil in Hc |].
  inversion Hz as [|? ? Hx Hnl]; subst. cbn [link]. destruct (decide (c ∈ nl)); [by apply IH |].
  apply elem_of_cons in Hc as [->|]; [| done]. destruct nl as [|y nl].
  - cbn [link]. unfold upd. by rewrite Z.eqb_refl.
  - rewrite link_prev by done. by inversion Hnl.
Qed.

Section write.
Context (s : fat16 dev) (name data : list Z) (i j : Z) (l : list Z).
Context (V : volume s) (C : coherent s) (Hdata : bytes data) (Hsize : Z.of_nat (length data) < 0x80000000).
Context (Hl : dir_lookup true s name = Some (i, j)).
Context (Hc : chain (fat s) (e_cluster_lo (dir_entry s i j)) l) (Hv : Forall (valid_cluster (fs s)) l) (Hn : NoDup l).

#[local] Notation k := (needed s (length data)).
#[local] Notation new := (new_chain s l (length data)).

Lemma write_chain_run :
  exists s1 s2, find_entry true name s = (Some (i, j), s1) /\ fs s1 = fs s /\ sector_buffer s1 = dir s i /\
    0 <= i < root_dir_sectors (fs s) /\ 0 <= j < 16 /\
    (s2 ← (if e_cluster_lo (dir_entry s i j) >=? 2 then free_chain chain_fuel (e_cluster_lo (dir_entry s i j)) s1 else Some s1);
     write_chain (data_fuel (Z.of_nat (length data))) 0 0 data s2) =
      Some (bool_decide (k <= length (available s l))%nat, default 0 (head new), s2) /\
    after s (blk s2) s2 /\ coherent s2 /\ table_is s2 (link (freed (fat s) l) 0 new) /\
    ((k <= length (available s l))%nat -> take (length data) (chain_bytes s2 new) = data) /\
    (forall lba, ~ in_table (fs s) lba -> (forall c, c ∈ new -> ~ in_cluster (fs s) lba c) -> blk s2 lba = blk s lba).
Proof.
  destruct (find_entry_ok true name s V C) as (s1 & E1 & A1 & C1 & F1). rewrite Hl in *. destruct F1 as (Eb & Hi & Hj).
  assert (forall x, fat s1 x = fat s x) as T1 by (intros x; by apply after_fat).
  destruct (free_step_ok s1 (e_cluster_lo (dir_entry s i j)) l) as (s2 & E2 & R2).
  { apply A1. } { done. } { by eapply chain_ext; [| exact Hc]. } { by rewrite (af_fs _ _ _ A1). } { done. }
  pose proof (af_fs _ _ _ A1) as Ef1. pose proof (af_fs _ _ _ (rt_after _ _ _ R2)) as Ef2. rewrite Ef1 in Ef2.
  assert (free_clusters s2 = available s l) as Efree.
  { rewrite (available_ok s1 s2 l) by (apply A1 || done). unfold available. rewrite Ef1. apply filter_ext.
    intros x. unfold is_free, freed. by rewrite T1. }
  assert (cluster_size s2 = cluster_size s) as Esz by (unfold cluster_size; by rewrite Ef2).
  destruct (write_chain_ok (data_fuel (Z.of_nat (length data))) 0 0 data s2) as (s3 & E3 & A3 & C3 & T3 & D3 & B3).
  { apply R2. } { apply R2. } { done. } { rewrite Esz. by apply data_fuel_ok. } { by left. }
  rewrite Esz, Efree in E3, T3, D3, B3. change (clusters_for (cluster_size s) (length data)) with k in E3, T3, D3, B3.
  change (take k (available s l)) with new in E3, T3, D3, B3.
  exists s1, s3. split_and!; try done; try lia.
  - rewrite E2. cbn [mbind option_bind]. rewrite E3. done.
  - eapply after_trans; [exact A1 |]. by eapply after_trans; [apply R2 |].
  - intros x Hx1 Hx2. rewrite T3 by done. apply link_ext. rewrite (rt_table _ _ _ R2); [| | done].
    + unfold freed. by rewrite T1.
    + by rewrite Ef2, <- Ef2, <- (af_fs _ _ _ A3).
  - intros lba H1 H2. rewrite Ef2 in B3. rewrite B3 by done. rewrite (rt_rest _ _ _ R2) by (by rewrite Ef1). apply A1.
Qed.

Lemma new_chain_is_chain F : chain (link F 0 new) (default 0 (head new)) new.
Proof.
  destruct (new_chain_spec s l (length data)) as [Hnd Hnew].
  assert (0 ∉ new) as H0 by (intros H; apply Hnew in H as [[? ?] _]; lia).
  pose proof (link_chain F 0 new Hnd H0 H0) as H. by destruct new.
Qed.

Lemma write_file_ok :
  (k <= length (available s l))%nat ->
  exists s', fat16_write_file name data s = Some (Z.of_nat (length data), s') /\ after s (blk s') s' /\ coherent s' /\
    e_file_size (dir_entry s' i j) = Z.of_nat (length data) /\
    take 26 (dir_entry s' i j) = take 26 (dir_entry s i j) /\
    chain (fat s') (e_cluster_lo (dir_entry s' i j)) new /\
    take (length data) (chain_bytes s' new) = data /\
    (forall name', dir_lookup true s' name' = dir_lookup true s name') /\
    (forall i' j', 0 <= i' < root_dir_sectors (fs s) -> 0 <= j' < 16 -> (i', j') <> (i, j) ->
      dir_entry s' i' j' = dir_entry s i' j') /\
    (forall c, valid_cluster (fs s) c -> c ∉ l -> fat s c <> 0 ->
      fat s' c = fat s c /\ cluster_bytes s' c = cluster_bytes s c).
Proof.
  intros Hk. destruct write_chain_run as (s1 & s3 & E1 & Ef1 & Eb1 & Hi & Hj & E3 & A3 & C3 & T3 & D3 & B3).
  destruct (new_chain_spec s l (length data)) as [Hnd Hnew].
  unfold fat16_write_file. rewrite (v_mounted s V). cbn [negb]. rewrite E1, Eb1, Ef1. change (entry_at j (dir s i)) with (dir_entry s i j).
  destruct (if e_cluster_lo (dir_entry s i j) >=? 2 then _ else _) as [s2|]; [| done]. cbn [mbind option_bind] in E3 |- *.
  rewrite E3. cbn [mbind option_bind]. rewrite bool_decide_true by done. cbn [negb]. clear E3 s2.
  destruct (dir_bounds s i V Hi) as (Hb1 & Hb2 & Hb3). pose proof (volume_bounds s V) as Hvb. pose proof (v_geometry s V) as G.
  pose proof (af_fs _ _ _ A3) as Ef3.
  assert (forall i', 0 <= i' < root_dir_sectors (fs s) -> dir s3 i' = dir s i') as Hdir3.
  { intros i' Hi'. unfold dir. rewrite Ef3. destruct (dir_bounds s i' V Hi') as (? & ? & ?). apply B3; [done |].
    intros c Hcn [? _]. apply Hnew in Hcn as [Hcv _]. pose proof (cluster_bounds s c V Hcv). lia. }
  destruct (entry_update_ok s3 i j (default 0 (head new)) (Z.of_nat (length data))) as (s4 & s5 & E4 & E5 & A5 & C5);
    [apply A3 | done | by rewrite Ef3 | done |]. rewrite Ef3 in E4, E5, A5. rewrite E4. cbn [negb]. rewrite E5. cbn [negb].
  rewrite Hdir3 in A5 by done. pose proof (af_fs _ _ _ A5) as Ef5. rewrite Ef3 in Ef5. pose proof (af_blk _ _ _ A5) as B5. cbv beta in B5.
  assert (forall lba, lba <> root_dir_start (fs s) + i -> blk s5 lba = blk s3 lba) as B5'.
  { intros lba Hlba. rewrite B5. by rewrite (proj2 (Z.eqb_neq _ _) Hlba). }
  assert (table_is s5 (link (freed (fat s) l) 0 new)) as T5.
  { apply (table_is_keep s3); [done | by rewrite Ef3 | by rewrite Ef5, Ef3 |]. intros lba Hlba. apply B5'.
    intros ->. rewrite Ef3 in Hlba. done. }
  assert (forall c, valid_cluster (fs s) c -> cluster_bytes s5 c = cluster_bytes s3 c) as Hcb.
  { intros c Hcv. unfold cluster_bytes. rewrite Ef5, Ef3. apply sectors_ext. intros lba Hlba. apply B5'.
    pose proof (cluster_bounds s c V Hcv). lia. }
  assert (0 <= default 0 (head new) < 0x10000) as Hhead.
  { destruct new as [|c nl] eqn:En; [done |]. destruct (Hnew c) as [Hcv _]; [set_solver |].
    destruct (valid_in_table _ _ G Hcv). cbn. lia. }
  destruct (update_entry_ok j (default 0 (head new)) (Z.of_nat (length data)) (dir s i)) as (U1 & U2 & U3 & U4);
    [by apply dir_sector | done | done | lia |].
  assert (forall i', 0 <= i' < root_dir_sectors (fs s) -> i' <> i -> dir s5 i' = dir s i') as Hdir5.
  { intros i' Hi' Hne. rewrite <- Hdir3 by done. unfold dir. rewrite Ef5, Ef3. apply B5'. lia. }
  assert (dir s5 i = update_entry j (default 0 (head new)) (Z.of_nat (length data)) (dir s i)) as Hdiri.
  { unfold dir at 1. rewrite Ef5, B5, Z.eqb_refl. done. }
  assert (dir_entry s5 i j = entry_at j (update_entry j (default 0 (head new)) (Z.of_nat (length data)) (dir s i))) as Eij
    by (unfold dir_entry; by rewrite Hdiri).
  exists s5. rewrite Eij, U1, U2.
  assert (forall i' j', 0 <= i' < root_dir_sectors (fs s) -> 0 <= j' < 16 -> (i', j') <> (i, j) ->
    dir_entry s5 i' j' = dir_entry s i' j') as Hother.
  { intros i' j' Hi' Hj' Hne. unfold dir_entry. destruct (decide (i' = i)) as [->|]; [| by rewrite Hdir5].
    rewrite Hdiri. apply U4; [done | congruence]. }
  split_and!.
  - do 2 f_equal. unfold i32. zlia.
  - split; [done | apply A5 | done].
  - done.
  - done.
  - by rewrite U3.
  - apply (chain_ext (link (freed (fat s) l) 0 new)); [| apply new_chain_is_chain]. intros x Hx. symmetry.
    destruct (Hnew x Hx) as [Hxv _]. destruct (valid_in_table _ _ G Hxv). apply T5; [by rewrite Ef5 | done].
  - rewrite (chain_bytes_ext s3 s5); [by apply D3 | by rewrite Ef5, Ef3 |]. intros c Hcn. by apply Hcb, Hnew.
  - intros name'. unfold dir_lookup. rewrite Ef5. apply dir_find_key. intros i' j' Hi' Hj'.
    pose proof (g_root_sectors _ G). change (take 12 (dir_entry s5 i' j') = take 12 (dir_entry s i' j')).
    destruct (decide ((i', j') = (i, j))) as [[= -> ->]|Hne]; [| by rewrite Hother by (done || lia)].
    rewrite Eij. apply (f_equal (take 12)) in U3. by rewrite !take_take in U3.
  - done.
  - intros c Hcv Hcl Hcf. destruct (valid_in_table _ _ G Hcv) as [Hc1 Hc2].
    assert (c ∉ new) as Hcn by (intros H; apply Hnew in H as [_ [H|H]]; done).
    split.
    + rewrite T5 by (rewrite ?Ef5; done). rewrite link_outside; [| done | left; destruct Hcv; lia].
      unfold freed. by rewrite bool_decide_false.
    + rewrite Hcb by done. unfold cluster_bytes. rewrite Ef3. apply sectors_ext. intros lba Hlba.
      pose proof (g_spc _ G). pose proof (cluster_bounds s c V Hcv). apply B3; [unfold in_table; lia |].
      intros c' Hc'. apply (clusters_disjoint _ c); [lia | by intros -> | unfold in_cluster; lia].
Qed.

(** C21. Writing a file.  When the clusters free after the old chain has been
    freed suffice, [fat16_write_file] returns the size; the file's entry then
    has the new size and the first of the lowest-numbered free clusters, linked
    in ascending order into a chain whose first bytes are the data.  Every name
    is found where it was, every other entry is as it was, and so are the links
    and the contents of the clusters in use by other files. *)
Theorem fat16_write_file_spec :
  (k <= length (available s l))%nat ->
  exists s', fat16_write_file name data s = Some (Z.of_nat (length data), s') /\ after s (blk s') s' /\ coherent s' /\
    e_file_size (dir_entry s' i j) = Z.of_nat (length data) /\
    take 26 (dir_entry s' i j) = take 26 (dir_entry s i j) /\
    chain (fat s') (e_cluster_lo (dir_entry s' i j)) new /\
    take (length data) (chain_bytes s' new) = data /\
    (forall name', dir_lookup true s' name' = dir_lookup true s name') /\
    (forall i' j', 0 <= i' < root_dir_sectors (fs s) -> 0 <= j' < 16 -> (i', j') <> (i, j) ->
      dir_entry s' i' j' = dir_entry s i' j') /\
    (forall c, valid_cluster (fs s) c -> c ∉ l -> fat s c <> 0 ->
      fat s' c = fat s c /\ cluster_bytes s' c = cluster_bytes s c).
Proof. exact write_file_ok. Qed.

(** C20. What [fat16_write_file] has written [fat16_read_file] reads back: after
    a write that succeeds, reading the file into a buffer that is large enough
    returns the size and the data. *)
Theorem fat16_write_read_roundtrip max :
  (k <= length (available s l))%nat -> Z.land (e_attr (dir_entry s i j)) FAT_ATTR_DIRECTORY = 0 ->
  Z.of_nat (length data) <= max < 0x80000000 ->
  exists s1 s2, fat16_write_file name data s = Some (Z.of_nat (length data), s1) /\
    fat16_read_file name max s1 = Some (Z.of_nat (length data), data, s2).
Proof.
  intros Hk Ha Hm. destruct write_file_ok as (s1 & E & A & C1 & Hsz & H26 & Hch & Hdat & Hlk & _); [done |].
  pose proof (af_fs _ _ _ A) as Ef. destruct (new_chain_spec s l (length data)) as [_ Hnew].
  assert (e_attr (dir_entry s1 i j) = e_attr (dir_entry s i j)) as Eattr.
  { unfold e_attr. rewrite <- (get8_take 26), H26, get8_take by lia. done. }
  destruct (read_file_ok s1 name max i j new) as (s2 & E2 & _); [apply A | done | lia | by rewrite Hlk | by rewrite Eattr | done | |].
  - apply Forall_forall. intros c Hcn. rewrite Ef. by apply Hnew, list_elem_of_In.
  - exists s1, s2. split; [done |]. rewrite E2, Hsz, Z.min_l by lia. by rewrite Nat2Z.id, Hdat.
Qed.

(** The full disk.  When there are not enough clusters, [fat16_write_file]
    returns -1 with the directory as it was - the file's entry has its old size
    and its old first cluster, which is no longer its own - and with every free
    cluster of the volume, and those of the file, allocated: no cluster is free
    any more. *)
Theorem fat16_write_disk_full :
  (length (available s l) < k)%nat ->
  exists s', fat16_write_file name data s = Some (-1, s') /\ after s (blk s') s' /\ coherent s' /\
    (forall i', 0 <= i' < root_dir_sectors (fs s) -> dir s' i' = dir s i') /\
    free_clusters s' = [].
Proof.
  intros Hk. destruct write_chain_run as (s1 & s3 & E1 & Ef1 & Eb1 & Hi & Hj & E3 & A3 & C3 & T3 & _ & B3).
  destruct (new_chain_spec s l (length data)) as [Hnd Hnew]. pose proof (v_geometry s V) as G.
  unfold fat16_write_file. rewrite (v_mounted s V). cbn [negb]. rewrite E1, Eb1, Ef1.
  change (entry_at j (dir s i)) with (dir_entry s i j).
  destruct (if e_cluster_lo (dir_entry s i j) >=? 2 then _ else _) as [s2|]; [| done]. cbn [mbind option_bind] in E3 |- *.
  rewrite E3. cbn [mbind option_bind]. rewrite bool_decide_false by lia. cbn [negb]. clear E3 s2.
  pose proof (af_fs _ _ _ A3) as Ef3. exists s3. split_and!; [done | done | done | |].
  - intros i' Hi'. unfold dir. rewrite Ef3. destruct (dir_bounds s i' V Hi') as (? & ? & ?). apply B3; [done |].
    intros c Hcn [? _]. apply Hnew in Hcn as [Hcv _]. pose proof (cluster_bounds s c V Hcv). lia.
  - assert (new = available s l) as En by (apply take_ge; lia). rewrite En in *.
    destruct (free_clusters s3) as [|c rest] eqn:Efree; [done |]. exfalso.
    assert (c ∈ free_clusters s3) as Hcf by (rewrite Efree; set_solver). apply free_clusters_spec in Hcf as [Hcv Hc0].
    rewrite Ef3 in Hcv. destruct (valid_in_table _ _ G Hcv) as [H1 H2]. rewrite T3 in Hc0 by (rewrite ?Ef3; done).
    destruct (decide (c ∈ available s l)) as [Hca|Hca].
    + apply (link_nonzero (freed (fat s) l) 0 (available s l) c); [| done | done].
      apply Forall_forall. intros x Hx. apply list_elem_of_In, Hnew in Hx as [[? ?] _]. lia.
    + rewrite link_outside in Hc0; [| done | left; destruct Hcv; lia]. apply Hca. unfold available.
      rewrite list_elem_of_In, filter_In, <- list_elem_of_In, elem_of_seqZ. split; [destruct Hcv; lia |].
      unfold is_free. by rewrite Hc0.
Qed.

End write.

(** ** Deleting a file *)

(** The contents of a sector after its byte for the mark of entry [j] is set. *)
Definition mark_deleted (j : Z) (buf : list Z) : list Z := put (Z.to_nat (32 * j)) [0xE5] buf.

Lemma mark_deleted_sector j buf : sector buf -> 0 <= j < 16 -> sector (mark_deleted j buf).
Proof.
  intros [Hl Hb] Hj. split; [unfold mark_deleted; rewrite put_length; cbn; lia |].
  apply bytes_put; [by constructor | done].
Qed.

(** C22. Deleting a file.  [fat16_delete_file] frees the clusters of the file and
    writes one sector of the root directory, with the deletion mark at the
    file's entry.  For a file without clusters this is the directory's own
    sector.  For any other file it is the sector of the allocation table that
    holds the last link of the chain, left in the buffer by [fat_write_entry]:
    the 16 entries of that sector of the directory are lost. *)
Theorem fat16_delete_file_spec s name i j l :
  volume s -> coherent s -> dir_lookup false s name = Some (i, j) ->
  chain (fat s) (e_cluster_lo (dir_entry s i j)) l -> Forall (valid_cluster (fs s)) l -> NoDup l ->
  exists s', fat16_delete_file name s = Some (1, s') /\ after s (blk s') s' /\ coherent s' /\
    table_is s' (freed (fat s) l) /\
    dir s' i = match list.last l with
               | None => mark_deleted j (dir s i)
               | Some x => mark_deleted j (blk s' (fat_sector x s))
               end /\
    (forall lba, ~ in_table (fs s) lba -> lba <> root_dir_start (fs s) + i -> blk s' lba = blk s lba).
Proof.
  intros V C Hl Hc Hv Hn. unfold fat16_delete_file. rewrite (v_mounted s V). cbn [negb].
  destruct (find_entry_ok false name s V C) as (s1 & E1 & A1 & C1 & F1). rewrite E1, Hl in *. destruct F1 as (Eb & Hi & Hj).
  pose proof (af_fs _ _ _ A1) as Ef1. rewrite Eb. change (entry_at j (dir s i)) with (dir_entry s i j).
  destruct (free_chain_ok chain_fuel (e_cluster_lo (dir_entry s i j)) l s1) as (s2 & -> & R2 & Hlast).
  { apply A1. } { done. } { eapply chain_ext; [| exact Hc]. intros x _. symmetry. by apply after_fat. }
  { by rewrite Ef1. } { done. } { apply (chain_length s); done. }
  cbn [mbind option_bind]. pose proof (af_fs _ _ _ (rt_after _ _ _ R2)) as Ef2. rewrite Ef1 in Ef2.
  pose proof (af_volume _ _ _ (rt_after _ _ _ R2)) as V2. destruct (dir_bounds s i V Hi) as (Hb1 & Hb2 & Hb3).
  fold (mark_deleted j (sector_buffer s2)). set (s3 := set_sector_buffer _ s2).
  assert (volume s3) as V3 by (apply volume_set_buffer; [done | apply mark_deleted_sector; [apply V2 | done]]).
  assert (root_dir_start (fs s3) = root_dir_start (fs s)) as Er by (cbn; by rewrite Ef2). rewrite Er.
  destruct (write_sector_ok s3 (root_dir_start (fs s) + i) V3) as (s4 & -> & A4 & _ & Ec4 & Es4); [cbn; by rewrite Ef2 |].
  pose proof (af_fs _ _ _ A4) as Ef4. change (fs s3) with (fs s2) in Ef4. rewrite Ef2 in Ef4.
  assert (forall lba, lba <> root_dir_start (fs s) + i -> blk s4 lba = blk s2 lba) as B4.
  { intros lba Hlba. rewrite (af_blk _ _ _ A4), (proj2 (Z.eqb_neq _ _) Hlba). done. }
  assert (forall lba, in_table (fs s) lba -> blk s4 lba = blk s2 lba) as Bt by (intros lba Hlba; apply B4; by intros ->).
  exists s4. split_and!.
  - done.
  - split; [done | apply A4 | done].
  - apply (coherent_keep s2); [apply R2 | by rewrite Ef4 | by rewrite Ec4 | by rewrite Es4 | | apply (v_geometry s2 V2)].
    by rewrite Ef2.
  - apply (table_is_keep s2); [| apply (v_geometry s2 V2) | by rewrite Ef4 | by rewrite Ef2].
    intros x Hx1 Hx2. rewrite (rt_table _ _ _ R2) by done. unfold freed. case_bool_decide; [done |]. by apply after_fat.
  - unfold dir at 1. rewrite Ef4, (af_blk _ _ _ A4), Z.eqb_refl. cbn [sector_buffer s3 set_sector_buffer].
    destruct (list.last l) as [x|] eqn:El; [| subst s2; by rewrite Eb]. f_equal. rewrite Hlast.
    assert (fat_sector x s1 = fat_sector x s) as -> by (unfold fat_sector; by rewrite Ef1). symmetry. apply Bt.
    apply list.last_Some in El as [l' ->]. apply Forall_app in Hv as [_ Hx]. inversion Hx as [|? ? Hxv _]; subst.
    destruct (valid_in_table _ _ (v_geometry s V) Hxv) as [H1 H2].
    destruct (valid_cluster_bounds s x V H1 H2) as (-> & ? & _). pose proof (volume_bounds s V). unfold in_table. lia.
  - intros lba H1 H2. rewrite B4 by done. rewrite (rt_rest _ _ _ R2) by (by rewrite Ef1). apply A1.
Qed.

End data.

(** ** Creating a file *)

Section create.
Context {dev : Type} {DEV : BlockDevice dev} {LAWS : BlockLaws dev}.
Implicit Types (s : fat16 dev) (name buf : list Z) (n : nat).

(** The first unused entry of the directory [d]. *)
Fixpoint dir_slot n (i : Z) (d : Z -> list Z) : option (Z * Z) :=
  match n with
  | O => None
  | S n' => match free_slot 16 0 (d i) with Some j => Some (i, j) | None => dir_slot n' (i + 1) d end
  end.
Lemma dir_slot_ext n i d d' : (forall i, d' i = d i) -> dir_slot n i d' = dir_slot n i d.
Proof. intros H. revert i. induction n as [|n IH]; intros i; [done |]. cbn [dir_slot]. by rewrite H, IH. Qed.

Definition first_slot s : option (Z * Z) := dir_slot (Z.to_nat (root_dir_sectors (fs s))) 0 (dir s).

Lemma length_new_entry name : length (new_entry name) = 32%nat.
Proof. unfold new_entry, name_to_83. by rewrite !length_app, !length_padded. Qed.

Lemma bytes_new_entry name : bytes name -> bytes (new_entry name).
Proof.
  intros H. unfold new_entry, name_to_83.
  assert (forall l, bytes l -> bytes (upper <$> l)) as Hu.
  { intros l Hl. apply Forall_fmap. eapply Forall_impl; [| exact Hl]. intros c Hc. cbn in *. unfold upper.
    destruct ((97 <=? c) && (c <=? 122)) eqn:E; zbool; lia. }
  assert (forall k l, bytes l -> bytes (padded k l)) as Hp.
  { intros k l Hl. unfold padded. apply bytes_app. split; [by apply bytes_take | by apply bytes_replicate]. }
  apply bytes_app. split; [apply bytes_app; split; apply Hp, Hu; [by apply Forall_until | by apply Forall_extension] |].
  apply bytes_app. split; [by repeat constructor | by apply bytes_replicate].
Qed.

Lemma free_slot_range n j buf j' : free_slot n j buf = Some j' -> j <= j' < j + Z.of_nat n.
Proof.
  revert j. induction n as [|n IH]; intros j; [done |]. cbn [free_slot]. destruct (_ || _); [intros [= ->]; lia |].
  intros H. apply IH in H. lia.
Qed.

(** The search in a sector whose unused entry [j] has become an entry of [name]. *)
Lemma find_after_create n j0 j buf buf' name :
  0 <= j0 -> free_slot n j0 buf = Some j -> (forall j', find_in_sector true name n j0 buf <> AtEntry j') ->
  (forall j', 0 <= j' -> j' < j -> entry_at j' buf' = entry_at j' buf) ->
  probe_entry true (entry_at j buf') = Candidate -> name_matches (entry_at j buf') name = true ->
  find_in_sector true name n j0 buf' = AtEntry j.
Proof.
  revert j0. induction n as [|n IH]; intros j0 H0 Hs Hf Hb Hp Hm; [done |]. cbn [free_slot find_in_sector] in *.
  destruct ((get8 (entry_at j0 buf) 0 =? 0) || (get8 (entry_at j0 buf) 0 =? 0xE5)) eqn:E.
  { injection Hs as ->. by rewrite Hp, Hm. }
  apply orb_false_iff in E as [E1 E2]. pose proof (free_slot_range _ _ _ _ Hs). rewrite Hb by lia.
  destruct (probe_entry true (entry_at j0 buf)) eqn:Ep.
  - unfold probe_entry in Ep. rewrite E1, E2 in Ep. by repeat case_match.
  - apply IH; try done. lia.
  - destruct (name_matches (entry_at j0 buf) name); [by destruct (Hf j0) |]. apply IH; try done. lia.
Qed.

Lemma no_slot_no_end n j buf name : free_slot n j buf = None -> find_in_sector true name n j buf <> AtEnd.
Proof.
  revert j. induction n as [|n IH]; intros j; [done |]. cbn [free_slot find_in_sector].
  destruct ((get8 (entry_at j buf) 0 =? 0) || (get8 (entry_at j buf) 0 =? 0xE5)) eqn:E; [done |].
  apply orb_false_iff in E as [E1 E2]. intros H. destruct (probe_entry true (entry_at j buf)) eqn:Ep; [| by apply IH |].
  - unfold probe_entry in Ep. rewrite E1, E2 in Ep. by repeat case_match.
  - destruct (name_matches _ _); [done | by apply IH].
Qed.

Lemma dir_find_after_create n i0 i j d d' name :
  0 <= i0 -> dir_slot n i0 d = Some (i, j) -> dir_find true name n i0 d = None ->
  (forall i', i0 <= i' < i -> d' i' = d i') ->
  (forall j', 0 <= j' -> j' < j -> entry_at j' (d' i) = entry_at j' (d i)) ->
  probe_entry true (entry_at j (d' i)) = Candidate -> name_matches (entry_at j (d' i)) name = true ->
  dir_find true name n i0 d' = Some (i, j).
Proof.
  revert i0. induction n as [|n IH]; intros i0 H0 Hs Hf Hd Hb Hp Hm; [done |]. cbn [dir_slot dir_find] in *.
  destruct (free_slot 16 0 (d i0)) as [j'|] eqn:Es.
  - injection Hs as -> ->. rewrite (find_after_create 16 0 j (d i) (d' i) name); try done.
    intros j' Ej. by rewrite Ej in Hf.
  - assert (forall n i0, dir_slot n i0 d = Some (i, j) -> i0 <= i) as Hrange.
    { clear. induction n as [|n IH]; intros i0; [done |]. cbn [dir_slot]. destruct (free_slot _ _ _); [intros [= ->]; lia |].
      intros H. apply IH in H. lia. }
    pose proof (Hrange _ _ Hs). rewrite Hd by lia. pose proof (no_slot_no_end 16 0 (d i0) name Es) as Hne.
    destruct (find_in_sector true name 16 0 (d i0)); [done | done |]. apply IH; try done; [lia |].
    intros i' Hi'. apply Hd. lia.
Qed.

Lemma create_loop_ok name n i s :
  volume s -> coherent s -> bytes name -> 0 <= i -> i + Z.of_nat n <= root_dir_sectors (fs s) ->
  match dir_slot n i (dir s) with
  | Some (i', j) => exists s', create_loop name n i s = (0, s') /\ coherent s' /\ i <= i' < i + Z.of_nat n /\ 0 <= j < 16 /\
      after s (fun l => if l =? root_dir_start (fs s) + i' then put_entry j (new_entry name) (dir s i') else blk s l) s'
  | None => exists s', create_loop name n i s = (-1, s') /\ coherent s' /\ after s (blk s) s'
  end.
Proof.
  revert i s. induction n as [|n IH]; intros i s V C Hb H1 H2; cbn [create_loop dir_slot].
  { exists s. split_and!; [done | done | by apply after_refl]. }
  destruct (dir_bounds s i V ltac:(lia)) as (Hl & Ht & _).
  destruct (read_sector_ok s (root_dir_start (fs s) + i) V Hl) as (s1 & -> & A & Eb & Ec & Es). cbn [negb].
  pose proof (af_fs _ _ _ A) as Ef. pose proof (v_geometry s V) as G.
  assert (coherent s1) as C1 by (apply (coherent_keep s); try done; intros l _; apply A).
  rewrite Eb. change (blk s (root_dir_start (fs s) + i)) with (dir s i).
  destruct (free_slot 16 0 (dir s i)) as [j|] eqn:Ej.
  - apply free_slot_range in Ej. set (s2 := set_sector_buffer _ s1).
    destruct (dir_sector s i V ltac:(lia)) as [Hlen Hby].
    assert (volume s2) as V2.
    { apply volume_set_buffer; [apply A |]. unfold put_entry. split.
      - rewrite put_length; [done |]. rewrite length_new_entry. lia.
      - apply bytes_put; [by apply bytes_new_entry | done]. }
    change (fs s2) with (fs s1). rewrite Ef.
    destruct (write_sector_ok s2 (root_dir_start (fs s) + i) V2) as (s3 & -> & A3 & _ & Ec3 & Es3); [cbn; by rewrite Ef |].
    pose proof (af_fs _ _ _ A3) as Ef3. change (fs s2) with (fs s1) in Ef3. rewrite Ef in Ef3.
    assert (forall l, blk s2 l = blk s l) as B2 by apply A.
    exists s3. split_and!; try done; try lia.
    + apply (coherent_keep s); [done | done | by rewrite Ec3 | by rewrite Es3 | | done]. intros l Hlt.
      rewrite (af_blk _ _ _ A3). destruct (Z.eqb_spec l (root_dir_start (fs s) + i)) as [->|]; [done | apply B2].
    + split; [done | apply A3 |]. intros l. rewrite (af_blk _ _ _ A3). destruct (l =? _); [done | apply B2].
  - assert (dir_slot n (i + 1) (dir s1) = dir_slot n (i + 1) (dir s)) as Ed.
    { apply dir_slot_ext. intros i0. unfold dir. rewrite Ef. apply A. }
    specialize (IH (i + 1) s1 (af_volume _ _ _ A) C1 Hb ltac:(lia) ltac:(rewrite Ef; lia)). rewrite Ed in IH.
    destruct (dir_slot n (i + 1) (dir s)) as [[i' j]|].
    + destruct IH as (s2 & E2 & C2 & ? & ? & A2). exists s2. split_and!; try done; try lia.
      apply (after_ext _ _ _ _ (after_trans _ _ _ _ _ A A2)). intros l. rewrite Ef. unfold dir. rewrite Ef, !(af_blk _ _ _ A). done.
    + destruct IH as (s2 & E2 & C2 & A2). exists s2. split_and!; try done.
      apply (after_ext _ _ _ _ (after_trans _ _ _ _ _ A A2)), A.
Qed.

(** Creating a file whose name is not in the directory: the first unused entry
    becomes the file's, empty; nothing else on the disk changes; and a name
    that fits is then found there. *)
Lemma create_file_ok s name i j :
  volume s -> coherent s -> bytes name -> Forall (fun c => c <> 0) name ->
  dir_lookup true s name = None -> first_slot s = Some (i, j) ->
  exists s', fat16_create_file name s = (0, s') /\ coherent s' /\ 0 <= i < root_dir_sectors (fs s) /\ 0 <= j < 16 /\
    after s (fun l => if l =? root_dir_start (fs s) + i then put_entry j (new_entry name) (dir s i) else blk s l) s' /\
    dir_entry s' i j = new_entry name /\
    (fits_83 name = true -> get8 (new_entry name) 0 <> 0 -> get8 (new_entry name) 0 <> 0xE5 -> dir_lookup true s' name = Some (i, j)).
Proof.
  intros V C Hb Hz Hl Hs. pose proof (g_root_sectors _ (v_geometry s V)).
  unfold fat16_create_file, fat16_find_file. rewrite (v_mounted s V). cbn [negb].
  destruct (find_entry_ok true name s V C) as (s1 & -> & A1 & C1 & _). rewrite Hl. cbn [Z.eqb].
  pose proof (af_fs _ _ _ A1) as Ef1. rewrite Ef1.
  pose proof (create_loop_ok name (Z.to_nat (root_dir_sectors (fs s))) 0 s1 (af_volume _ _ _ A1) C1 Hb ltac:(lia) ltac:(rewrite Ef1; lia)) as HC.
  assert (dir_slot (Z.to_nat (root_dir_sectors (fs s))) 0 (dir s1) = Some (i, j)) as Es.
  { rewrite <- Hs. apply dir_slot_ext. intros i0. unfold dir. rewrite Ef1. apply A1. }
  rewrite Es in HC. destruct HC as (s2 & E2 & C2 & Hi & Hj & A2). rewrite Z2Nat.id in Hi by lia.
  assert (after s (fun l => if l =? root_dir_start (fs s) + i then put_entry j (new_entry name) (dir s i) else blk s l) s2) as A.
  { apply (after_ext _ _ _ _ (after_trans _ _ _ _ _ A1 A2)). intros l. unfold dir. rewrite Ef1, !(af_blk _ _ _ A1). done. }
  destruct (dir_sector s i V Hi) as [Hlen _].
  assert (forall j' k, 0 <= j' < 16 -> (k < 32)%nat -> get8 (entry_at j' (put_entry j (new_entry name) (dir s i))) k =
    if decide (j' = j) then get8 (new_entry name) k else get8 (entry_at j' (dir s i)) k) as Hput.
  { intros j' k Hj' Hk. rewrite !get8_entry by lia. unfold put_entry. rewrite get8_put by (rewrite length_new_entry; lia).
    rewrite length_new_entry. repeat case_decide; try lia; f_equal; lia. }
  assert (dir s2 i = put_entry j (new_entry name) (dir s i)) as Ed.
  { unfold dir at 1. rewrite (af_fs _ _ _ A), (af_blk _ _ _ A), Z.eqb_refl. done. }
  assert (length (dir s2 i) = 512%nat) as Hlen2.
  { rewrite Ed. unfold put_entry. rewrite put_length; [done |]. rewrite length_new_entry. lia. }
  assert (entry_at j (dir s2 i) = new_entry name) as Ee.
  { apply list_eq_get8; [by rewrite length_entry, length_new_entry |]. intros k Hk. rewrite length_entry in Hk by done.
    rewrite Ed, Hput by done. by rewrite decide_True. }
  exists s2. split_and!; try done; try lia. intros Hfit H0 HE5.
  unfold dir_lookup. rewrite (af_fs _ _ _ A). apply (dir_find_after_create _ _ _ _ (dir s)); try done.
  - intros i' Hi'. unfold dir. rewrite (af_fs _ _ _ A), (af_blk _ _ _ A). by rewrite (proj2 (Z.eqb_neq _ _)) by lia.
  - intros j' Hj' Hlt. apply list_eq_get8; [rewrite !length_entry by (done || lia); done |]. intros k Hk.
    rewrite length_entry in Hk by (done || lia). rewrite Ed, Hput by lia. by rewrite decide_False by lia.
  - rewrite Ee. unfold probe_entry. rewrite (proj2 (Z.eqb_neq _ _) H0), (proj2 (Z.eqb_neq _ _) HE5).
    assert (e_attr (new_entry name) = FAT_ATTR_ARCHIVE) as ->; [| done].
    unfold e_attr, new_entry, get8. assert (length (name_to_83 name) = 11%nat) as H11 by (unfold name_to_83; by rewrite length_app, !length_padded).
    rewrite lookup_app_r by lia. by rewrite H11.
  - rewrite Ee. unfold new_entry. by rewrite name_83_ok.
Qed.

End create.
