(* ===== verification/FatFormat.v ===== *)
(** * Formatting and mounting a FAT16 volume

    [fat16_format] makes a volume that [fat16_mount] accepts: every cluster is
    free and the root directory is empty, except for the volume label. *)

From S2P Require Import Prelude Checksum Buffers Block Fat16 FatTable FatFiles.

Section format.
Context {dev : Type} {DEV : BlockDevice dev} {LAWS : BlockLaws dev}.
Context (dr : Z).
Implicit Types (s : fat16 dev) (lba sec : Z).

(** The state after writes to the drive [dr], whose contents are then [content]. *)
Record written s (content : Z -> list Z) s' : Prop := {
  wr_fs : fs s' = fs s;
  wr_works : works (disk s');
  wr_present : drive_present dr (disk s') = drive_present dr (disk s);
  wr_size : drive_sectors dr (disk s') = drive_sectors dr (disk s);
  wr_block : forall l, block (disk s') dr l = content l;
  wr_buffer : sector_buffer s' = sector_buffer s;
}.

Record ready s : Prop := {
  rd_works' : works (disk s);
  rd_present : drive_present dr (disk s) = true;
  rd_buffer : sector (sector_buffer s);
}.

Lemma written_ready s f s' : ready s -> written s f s' -> ready s'.
Proof. intros [] []. split; congruence. Qed.

Lemma write_to_ok s lba : ready s -> 0 <= lba < drive_sectors dr (disk s) ->
  exists s', write_to dr lba s = (true, s') /\
    written s (fun l => if l =? lba then sector_buffer s else block (disk s) dr l) s'.
Proof.
  intros [Hw Hp Hb] Hl. pose proof (drive_sectors_range dr _ Hw). unfold write_to. rewrite u32_small by lia.
  destruct (write_block_ok dr lba (sector_buffer s) (disk s) Hw Hp Hl Hb) as (d' & -> & Hw' & Hp' & Hb').
  eexists. split; [done |]. split; cbn; try done; [apply Hp' | apply Hp' |]. intros l. by rewrite Hb', Z.eqb_refl.
Qed.

Lemma write_range_ok n sec s : ready s -> 0 <= sec -> sec + Z.of_nat n <= drive_sectors dr (disk s) ->
  exists s', write_range n dr sec s = (true, s') /\
    written s (fun l => if in_range l sec (Z.of_nat n) then sector_buffer s else block (disk s) dr l) s'.
Proof.
  revert sec s. induction n as [|n IH]; intros sec s R H1 H2; cbn [write_range].
  - exists s. split; [done |]. destruct R. split; try done. intros l. zinr; [lia | done].
  - destruct (write_to_ok s sec R) as (s1 & -> & W1); [lia |]. cbn [negb].
    destruct (IH (sec + 1) s1) as (s2 & -> & W2); [by eapply written_ready | lia | rewrite (wr_size _ _ _ W1); lia |].
    exists s2. split; [done |]. destruct W1 as [F1 _ P1 S1 B1 U1], W2 as [F2 W2 P2 S2 B2 U2].
    split; try congruence. intros l. rewrite B2, U1, B1. zinr; destruct (Z.eqb_spec l sec); try done; lia.
Qed.

(** Replacing the sector buffer between the writes. *)
Lemma ready_buffer s b : ready s -> sector b -> ready (set_sector_buffer b s).
Proof. intros [] ?. by split. Qed.

Lemma zero_sector_ok : sector zero_sector.
Proof. apply sector_zero. Qed.

(** ** The sectors written *)

Definition first_fat : list Z := put16 2 0xFFFF (put16 0 0xFFF8 zero_sector).

Lemma first_fat_ok : sector first_fat.
Proof. split; [done |]. apply bytes_put16, bytes_put16, zero_sector_ok. Qed.

Lemma length_bpb_label label : length (bpb_label label) = 11%nat.
Proof. destruct label as [l|]; [apply length_padded | done]. Qed.

Lemma bytes_padded n l : bytes l -> bytes (padded n l).
Proof. intros H. unfold padded. apply bytes_app. split; [by apply bytes_take | apply bytes_replicate; done]. Qed.

Lemma bytes_upper l : bytes l -> bytes (upper <$> l).
Proof.
  intros H. apply Forall_fmap. eapply Forall_impl; [| exact H]. intros c Hc. cbn in *. unfold upper.
  destruct ((97 <=? c) && (c <=? 122)) eqn:E; zbool; lia.
Qed.

Lemma bytes_bpb_label label : (forall l, label = Some l -> bytes l) -> bytes (bpb_label label).
Proof.
  intros H. destruct label as [l|]; [by apply bytes_padded, bytes_upper, H |]. by repeat constructor.
Qed.

(** The fields of the boot sector that [fat16_mount] reads. *)
Lemma boot_sector_fields total size label :
  (forall l, label = Some l -> bytes l) -> 0 <= total < 0x100000000 -> 0 <= size < 0x10000 ->
  let b := boot_sector total size label in
  sector b /\ get8 b 510 = 0x55 /\ get8 b 511 = 0xAA /\ get16 b 11 = 512 /\ get8 b 13 = 4 /\ get16 b 14 = 1 /\
  get8 b 16 = 2 /\ get16 b 17 = 512 /\ get16 b 22 = size /\
  (if negb (get16 b 19 =? 0) then get16 b 19 else get32 b 32) = total.
Proof.
  intros Hl Ht Hs b. subst b. pose proof (length_bpb_label label) as Hlen. pose proof (bytes_bpb_label label Hl) as Hby.
  unfold boot_sector. destruct (bpb_label label) as [|a0 [|a1 [|a2 [|a3 [|a4 [|a5 [|a6 [|a7 [|a8 [|a9 [|a10 [|]]]]]]]]]]]]; try done.
  assert (forall x, 0 <= x < 0x10000 -> le_val (le_bytes 2 x) = x) as H2 by (intros; rewrite le_val_le_bytes; by apply Z.mod_small).
  assert (forall x, 0 <= x < 0x100000000 -> le_val (le_bytes 4 x) = x) as H4 by (intros; rewrite le_val_le_bytes; by apply Z.mod_small).
  split_and!; try reflexivity.
  - split; [reflexivity |].
    repeat first [apply bytes_put | apply bytes_put16]; try (by repeat constructor); auto with words; apply zero_sector_ok.
  - change (le_val (le_bytes 2 size) = size). by apply H2.
  - match goal with |- (if negb (get16 ?b 19 =? 0) then _ else get32 ?b 32) = _ =>
      assert (get16 b 19 = le_val (le_bytes 2 (if total <=? 65535 then total else 0))) as -> by reflexivity;
      assert (get32 b 32 = le_val (le_bytes 4 (if total >? 65535 then total else 0))) as -> by reflexivity end.
    rewrite Z.gtb_ltb. destruct (Z.leb_spec total 65535), (Z.ltb_spec 65535 total); try lia; rewrite H2, H4 by lia.
    + by destruct (Z.eqb_spec total 0).
    + done.
Qed.

(** ** The geometry that [fat16_format] chooses *)

Lemma format_geometry total :
  8192 <= total < 0x100000000 -> 4085 <= format_clusters total < 65525 ->
  let size := format_fat_size total in
  0 < size < 0x1000 /\ format_clusters total = (total - (33 + 2 * size)) / 4 /\
  format_clusters total + 2 <= size * 256 /\ 33 + 2 * size + 4 * format_clusters total <= total.
Proof.
  intros Ht Hc. cbn zeta. unfold format_clusters in *. set (size := format_fat_size total) in *.
  assert (0 <= size < 0x10000) as Hs by (unfold size, format_fat_size; apply u16_range).
  assert (u32 (total - 1 - 2 * size - 32) = total - (33 + 2 * size)) as Eu.
  { destruct (decide (total - 1 - 2 * size - 32 < 0)); [| rewrite u32_small by lia; lia].
    exfalso. unfold u32 in Hc. zlia. }
  rewrite Eu in *. assert (total < 500000) as Hsmall by zlia.
  assert (size = ((total - 33) / 4 * 2 + 511) / 512) as Esz.
  { unfold size, format_fat_size. rewrite (u32_small (total - 1 - 32)) by lia.
    replace (total - 1 - 32) with (total - 33) by lia. rewrite u32_small by zlia. apply u16_small. zlia. }
  clearbody size. split_and!; zlia.
Qed.

(** The contents of the drive after [fat16_format]. *)
Definition formatted (total : Z) (label : option (list Z)) (old : Z -> list Z) (l : Z) : list Z :=
  let size := format_fat_size total in
  if l =? 0 then boot_sector total size label
  else if l =? 1 then first_fat
  else if l =? 1 + 2 * size then
    match label with Some n => put_entry 0 (label_entry n) zero_sector | None => zero_sector end
  else if in_range l 0 (33 + 2 * size) then zero_sector
  else old l.

Lemma format_fats_ok size s :
  ready s -> 0 < size < 0x1000 -> 33 + 2 * size <= drive_sectors dr (disk s) ->
  exists s', format_fats 2 0 dr 1 size s = (true, s') /\ ready s' /\ fs s' = fs s /\
    drive_sectors dr (disk s') = drive_sectors dr (disk s) /\
    forall l, block (disk s') dr l =
      if l =? 1 then sector_buffer s else if in_range l 2 (2 * size - 1) then zero_sector else block (disk s) dr l.
Proof.
  intros R Hs Hl. cbn [format_fats]. rewrite !u32_small by lia. rewrite Z.mul_0_l, Z.add_0_r, Z.mul_1_l.
  destruct (write_to_ok s 1 R) as (s1 & -> & W1); [lia |]. cbn [negb].
  pose proof (ready_buffer s1 _ (written_ready _ _ _ R W1) zero_sector_ok) as R1. set (s1' := set_sector_buffer _ s1) in *.
  pose proof (wr_size _ _ _ W1 : drive_sectors dr (disk s1') = _) as S1.
  destruct (write_range_ok (Z.to_nat (size - 1)) (1 + 1) s1' R1) as (s2 & -> & W2); [lia | lia |]. cbn [negb].
  pose proof (written_ready _ _ _ R1 W2) as R2. pose proof (wr_size _ _ _ W2) as S2.
  destruct (write_to_ok s2 (1 + size) R2) as (s3 & -> & W3); [lia |]. cbn [negb].
  pose proof (ready_buffer s3 _ (written_ready _ _ _ R2 W3) zero_sector_ok) as R3. set (s3' := set_sector_buffer _ s3) in *.
  pose proof (wr_size _ _ _ W3 : drive_sectors dr (disk s3') = _) as S3.
  destruct (write_range_ok (Z.to_nat (size - 1)) (1 + size + 1) s3' R3) as (s4 & -> & W4); [lia | lia |]. cbn [negb].
  exists s4. split_and!; [done | by eapply written_ready | | rewrite (wr_size _ _ _ W4); lia |].
  - rewrite (wr_fs _ _ _ W4). change (fs s3') with (fs s3). rewrite (wr_fs _ _ _ W3), (wr_fs _ _ _ W2).
    change (fs s1') with (fs s1). apply (wr_fs _ _ _ W1).
  - intros l. rewrite (wr_block _ _ _ W4). change (block (disk s3')) with (block (disk s3)).
    rewrite (wr_block _ _ _ W3), (wr_block _ _ _ W2). change (block (disk s1')) with (block (disk s1)).
    rewrite (wr_block _ _ _ W1), (wr_buffer _ _ _ W2). rewrite Z2Nat.id by lia. cbn [sector_buffer s1' s3' set_sector_buffer].
    zinr; destruct (Z.eqb_spec l 1), (Z.eqb_spec l (1 + size)); try done; lia.
Qed.

Lemma label_sector n : bytes n -> sector (put_entry 0 (label_entry n) zero_sector).
Proof.
  intros Hb. unfold put_entry, label_entry.
  assert (length (padded 8 (upper <$> n) ++ replicate 3 SPACE ++ [FAT_ATTR_VOLUME_ID] ++ replicate 20 0) = 32%nat) as Hl.
  { rewrite !length_app, length_padded. done. }
  split; [rewrite put_length by (rewrite Hl; cbn; lia); done |].
  apply bytes_put; [| apply zero_sector_ok].
  apply bytes_app. split; [by apply bytes_padded, bytes_upper |]. apply bytes_app. split; [by apply bytes_replicate |].
  apply bytes_app. split; [by repeat constructor | by apply bytes_replicate].
Qed.

Lemma format_ok s label total :
  works (disk s) -> drive_present dr (disk s) = true -> drive_sectors dr (disk s) = total -> 8192 <= total ->
  4085 <= format_clusters total < 65525 -> (forall n, label = Some n -> bytes n) ->
  exists s', fat16_format dr label s = (0, s') /\ ready s' /\ fs s' = fs s /\ drive_sectors dr (disk s') = total /\
    forall l, 0 <= l -> block (disk s') dr l = formatted total label (block (disk s) dr) l.
Proof.
  intros Hw Hp Ht H8 Hc Hlab. pose proof (drive_sectors_range dr _ Hw) as Hr. rewrite Ht in Hr.
  destruct (format_geometry total) as (Gs & _ & _ & Gf); [lia | done |]. set (size := format_fat_size total) in *.
  destruct (boot_sector_fields total size label Hlab ltac:(lia) ltac:(lia)) as (Hboot & _).
  unfold fat16_format. rewrite Hp, Ht. cbn [negb]. fold size. set (clusters := format_clusters total) in *.
  destruct (Z.ltb_spec total 8192); [lia |]. destruct (Z.ltb_spec clusters 4085); [lia |].
  rewrite Z.geb_leb. destruct (Z.leb_spec 65525 clusters); [lia |]. cbn [orb]. clearbody clusters.
  set (s0 := set_sector_buffer _ s). assert (ready s0) as R0 by by split.
  destruct (write_to_ok s0 0 R0) as (s1 & -> & W1); [cbn; lia |]. cbn [negb].
  pose proof (ready_buffer s1 _ (written_ready _ _ _ R0 W1) first_fat_ok) as R1.
  pose proof (wr_size _ _ _ W1) as S1. change (disk s0) with (disk s) in S1.
  fold first_fat. set (s1' := set_sector_buffer first_fat s1) in *.
  destruct (format_fats_ok size s1' R1 Gs) as (s2 & -> & R2 & F2 & S2 & B2); [cbn; lia |]. cbn [negb].
  change (disk s1') with (disk s1) in *.
  pose proof (ready_buffer s2 _ R2 zero_sector_ok) as R2'. set (s2' := set_sector_buffer zero_sector s2) in *.
  rewrite (u32_small (1 + 2 * size)) by lia.
  destruct (write_range_ok 32 (1 + 2 * size) s2' R2') as (s3 & -> & W3); [lia | cbn; lia |]. cbn [negb].
  pose proof (written_ready _ _ _ R2' W3) as R3. pose proof (wr_size _ _ _ W3) as S3. change (disk s2') with (disk s2) in *.
  assert (fs s3 = fs s) as F3.
  { rewrite (wr_fs _ _ _ W3). change (fs s2') with (fs s2). rewrite F2. apply (wr_fs _ _ _ W1). }
  assert (forall l, 0 <= l -> block (disk s3) dr l = if l =? 0 then boot_sector total size label else if l =? 1 then first_fat
    else if in_range l 0 (33 + 2 * size) then zero_sector else block (disk s) dr l) as B3.
  { intros l Hl. rewrite (wr_block _ _ _ W3), B2, (wr_block _ _ _ W1). cbn [sector_buffer s0 s1' s2' set_sector_buffer].
    zinr; destruct (Z.eqb_spec l 0), (Z.eqb_spec l 1); try done; lia. }
  unfold formatted. fold size. destruct label as [n|].
  - rewrite (wr_buffer _ _ _ W3). cbn [sector_buffer s2' set_sector_buffer].
    pose proof (label_sector n (Hlab n eq_refl)) as Hls. pose proof (ready_buffer s3 _ R3 Hls) as R3'.
    set (s3' := set_sector_buffer _ s3) in *. destruct (write_to_ok s3' (1 + 2 * size) R3') as (s4 & -> & W4); [cbn; lia |].
    exists s4. split_and!; [done | by eapply written_ready | by rewrite (wr_fs _ _ _ W4) | rewrite (wr_size _ _ _ W4); cbn; lia |].
    intros l Hl. rewrite (wr_block _ _ _ W4). change (disk s3') with (disk s3). rewrite B3 by done.
    cbn [sector_buffer s3' set_sector_buffer].
    destruct (Z.eqb_spec l (1 + 2 * size)); [| done]. by rewrite !(proj2 (Z.eqb_neq _ _)) by lia.
  - exists s3. split_and!; [done | done | done | lia |]. intros l Hl. rewrite B3 by done.
    destruct (Z.eqb_spec l 0); [done |]. destruct (Z.eqb_spec l 1); [done |].
    destruct (Z.eqb_spec l (1 + 2 * size)) as [->|]; [| done]. zinr; [done | lia].
Qed.

(** ** Mounting *)

(** The values that mounting a formatted drive of [total] sectors gives. *)
Definition formatted_fs (total : Z) : fat16_fs :=
  let size := format_fat_size total in
  Fs true dr 512 4 1 2 512 size total 1 (1 + 2 * size) 32 (33 + 2 * size) (format_clusters total).

Lemma mount_ok s total label :
  ready s -> 8192 <= total -> drive_sectors dr (disk s) = total -> 4085 <= format_clusters total < 65525 ->
  (forall n, label = Some n -> bytes n) -> block (disk s) dr 0 = boot_sector total (format_fat_size total) label ->
  exists s', fat16_mount dr s = Some (0, s') /\ volume s' /\ coherent s' /\ fs s' = formatted_fs total /\
    forall l, blk s' l = block (disk s) dr l.
Proof.
  intros [Hw Hp Hb] H8 Ht Hc Hlab H0. pose proof (drive_sectors_range dr _ Hw) as Hr. rewrite Ht in Hr.
  destruct (format_geometry total) as (Gs & Gc & Gt & Gf); [lia | done |].
  destruct (boot_sector_fields total (format_fat_size total) label Hlab ltac:(lia) ltac:(lia))
    as (_ & F510 & F511 & F11 & F13 & F14 & F16 & F17 & F22 & Ftot). rewrite <- H0 in F510, F511, F11, F13, F14, F16, F17, F22, Ftot.
  unfold fat16_mount. set (s0 := if mounted (fs s) then fat16_unmount s else s).
  assert (disk s0 = disk s) as Ed by (subst s0; by destruct (mounted (fs s))).
  rewrite Ed, Hp. cbn [negb]. unfold read_sector. cbn [fs set_fs drive set_drive disk]. rewrite Ed. change (u32 0) with 0.
  destruct (read_block_ok dr 0 (disk s) Hw Hp) as (d' & -> & Hw' & Hp' & Hb'); [lia |]. cbn [negb].
  cbn [sector_buffer set_sector_buffer]. rewrite F510, F511, F11. cbn [Z.eqb negb orb].
  assert (read_bpb (block (disk s) dr 0) (fs (set_sector_buffer (block (disk s) dr 0) (set_disk d' (set_fs (set_drive dr (fs s0)) s0))))
    = Some (set_mounted (mounted (fs s0)) (formatted_fs total))) as ->.
  { unfold read_bpb. rewrite Ftot, F11, F13, F14, F16, F17, F22. cbn [Z.eqb].
    unfold formatted_fs, set_mounted. cbn [mounted drive bytes_per_sector sectors_per_cluster reserved_sectors num_fats
      root_entry_count fat_size total_sectors fat_start_sector root_dir_start root_dir_sectors data_start_sector total_clusters
      fs set_sector_buffer set_disk set_fs set_drive].
    change ((512 * 32 + 511) / 512) with 32. rewrite !(u32_small (1 + 2 * format_fat_size total)) by lia.
    rewrite (u32_small (1 + 2 * format_fat_size total + 32)) by lia.
    replace (1 + 2 * format_fat_size total + 32) with (33 + 2 * format_fat_size total) by lia.
    rewrite u32_small by lia. by rewrite Gc. }
  cbn [mbind option_bind]. cbn [total_clusters set_mounted formatted_fs].
  destruct (Z.ltb_spec (format_clusters total) 4085); [lia |]. rewrite Z.geb_leb.
  destruct (Z.leb_spec 65525 (format_clusters total)); [lia |]. cbn [orb].
  eexists. split; [done |]. split_and!; [| by left | done | intros l; unfold blk; cbn; apply Hb'].
  split; cbn; try done; [split; cbn; lia | by rewrite (proj1 (Hp' dr)) | rewrite (proj2 (Hp' dr)); unfold volume_end; cbn; lia |].
  apply block_sector; [done | done | lia].
Qed.

Lemma get8_zero o : get8 zero_sector o = 0.
Proof.
  unfold get8, zero_sector. destruct (decide (o < 512)%nat); [by rewrite lookup_replicate_2 |].
  rewrite lookup_ge_None_2; [done |]. rewrite length_replicate. lia.
Qed.

Lemma find_second_end name n buf :
  probe_entry true (entry_at 0 buf) <> Candidate -> probe_entry true (entry_at 1 buf) = EndOfDirectory ->
  find_in_sector true name (S (S n)) 0 buf = AtEnd.
Proof. intros H0 H1. cbn [find_in_sector]. change (0 + 1) with 1. rewrite H1. by destruct (probe_entry true (entry_at 0 buf)). Qed.

Lemma filter_all (f : Z -> bool) a n : (forall c, a <= c < a + n -> f c = true) -> List.filter f (seqZ a n) = seqZ a n.
Proof.
  intros H. assert (Forall (fun c => f c = true) (seqZ a n)) as Hf.
  { apply Forall_forall. intros c Hc. apply H. apply list_elem_of_In, elem_of_seqZ in Hc. lia. }
  induction Hf as [|c l Hc _ IH]; [done |]. cbn [List.filter]. by rewrite Hc, IH.
Qed.

(** The end of the directory is at its first entry, or after the label. *)
Lemma formatted_lookup total label n i d name :
  d i = formatted total label (fun _ => []) (1 + 2 * format_fat_size total) -> 0 < format_fat_size total -> (0 < n)%nat ->
  dir_find true name n i d = None.
Proof.
  intros Hd Hs Hn. destruct n as [|n]; [lia |]. cbn [dir_find]. rewrite Hd. unfold formatted.
  rewrite !(proj2 (Z.eqb_neq (1 + 2 * format_fat_size total) _)) by lia. rewrite Z.eqb_refl.
  destruct label as [t|]; [| done].
  set (buf := put_entry 0 (label_entry t) zero_sector).
  assert (length (label_entry t) = 32%nat) as Hlen by (unfold label_entry; rewrite !length_app, length_padded; done).
  assert (get8 (entry_at 1 buf) 0 = 0) as H1.
  { rewrite get8_entry by lia. unfold buf, put_entry. rewrite get8_put by (rewrite Hlen; cbn; lia). rewrite Hlen.
    rewrite decide_False by (cbn; lia). apply get8_zero. }
  assert (e_attr (entry_at 0 buf) = FAT_ATTR_VOLUME_ID) as Ha.
  { unfold e_attr. rewrite get8_entry by lia. unfold buf, put_entry. rewrite get8_put by (rewrite Hlen; cbn; lia). rewrite Hlen.
    rewrite decide_True by (cbn; lia). unfold label_entry, get8. rewrite lookup_app_r; rewrite length_padded; [done | cbn; lia]. }
  assert (find_in_sector true name 16 0 buf = AtEnd) as ->; [| done]. apply (find_second_end name 14).
  - unfold probe_entry. rewrite Ha. destruct (get8 _ 0 =? 0); [done |]. by destruct (get8 _ 0 =? 0xE5).
  - unfold probe_entry. by rewrite H1.
Qed.

(** C23. Formatting and mounting.  On a drive of at least 8192 sectors for which
    the chosen geometry has 4085 to 65524 clusters, [fat16_format] succeeds and
    [fat16_mount] then accepts the volume: every region lies on the drive in
    order, the two reserved entries of the table are set, every cluster is free
    and no name is found.  The second copy of the table starts with zeros: it
    lacks the reserved entries. *)
Theorem fat16_format_mount s label total :
  works (disk s) -> drive_present dr (disk s) = true -> drive_sectors dr (disk s) = total -> 8192 <= total ->
  4085 <= format_clusters total < 65525 -> (forall n, label = Some n -> bytes n) ->
  exists s1 s2, fat16_format dr label s = (0, s1) /\ fat16_mount dr s1 = Some (0, s2) /\
    volume s2 /\ coherent s2 /\ fs s2 = formatted_fs total /\
    fat s2 0 = 0xFFF8 /\ fat s2 1 = 0xFFFF /\ free_clusters s2 = seqZ 2 (total_clusters (fs s2)) /\
    (forall name, dir_lookup true s2 name = None) /\
    blk s2 (fat_start_sector (fs s2) + fat_size (fs s2)) = zero_sector.
Proof.
  intros Hw Hp Ht H8 Hc Hlab. pose proof (drive_sectors_range dr _ Hw) as Hr. rewrite Ht in Hr.
  destruct (format_geometry total) as (Gs & Gc & Gt & Gf); [lia | done |].
  destruct (format_ok s label total Hw Hp Ht H8 Hc Hlab) as (s1 & E1 & R1 & F1 & S1 & B1).
  destruct (mount_ok s1 total label R1 H8 S1 Hc Hlab) as (s2 & E2 & V2 & C2 & F2 & B2); [by rewrite B1 |].
  assert (forall l, 0 <= l -> blk s2 l = formatted total label (block (disk s) dr) l) as B by (intros; rewrite B2; by apply B1).
  exists s1, s2. split; [done |]. split; [done |]. split; [done |]. split; [done |].
  assert (forall c, 0 <= c < 0x10000 -> c < format_fat_size total * 256 -> 
    fat s2 c = get16 (if (c * 2 / 512 =? 0)%Z then first_fat else zero_sector) (entry_offset c)) as Hfat.
  { intros c H1 H2. unfold fat. rewrite F2. cbn [formatted_fs fat_start_sector]. rewrite B by zlia. unfold formatted.
    rewrite (proj2 (Z.eqb_neq (1 + c * 2 / 512) 0)) by zlia. destruct (Z.eqb_spec (c * 2 / 512) 0) as [->|]; [done |].
    rewrite (proj2 (Z.eqb_neq (1 + c * 2 / 512) 1)) by lia. rewrite (proj2 (Z.eqb_neq (1 + c * 2 / 512) (1 + 2 * format_fat_size total))) by zlia.
    rewrite (proj2 (in_range_true (1 + c * 2 / 512) 0 (33 + 2 * format_fat_size total))) by zlia. done. }
  rewrite F2. cbn [formatted_fs total_clusters fat_start_sector fat_size]. split_and!.
  - done.
  - rewrite Hfat by lia. reflexivity.
  - rewrite Hfat by lia. reflexivity.
  - unfold free_clusters. rewrite F2. cbn [formatted_fs total_clusters]. apply filter_all. intros c Hcl.
    unfold is_free. rewrite Hfat by lia. apply Z.eqb_eq. rewrite get16_get8.
    assert (forall o, (4 <= o)%nat -> get8 first_fat o = 0) as Hff.
    { intros o Ho. unfold first_fat. rewrite get8_put16, get8_put16 by (cbn; lia). repeat case_decide; try lia. apply get8_zero. }
    destruct (Z.eqb_spec (c * 2 / 512) 0) as [E|]; [| by rewrite !get8_zero].
    rewrite !Hff; [done | |]; unfold entry_offset; zlia.
  - intros name. unfold dir_lookup. rewrite F2. cbn [formatted_fs root_dir_sectors].
    apply (formatted_lookup total label); [| lia | lia]. unfold dir. rewrite F2. cbn [formatted_fs root_dir_start].
    rewrite Z.add_0_r, B by lia. unfold formatted. rewrite (proj2 (Z.eqb_neq _ 0)), (proj2 (Z.eqb_neq _ 1)), Z.eqb_refl by lia. done.
  - rewrite B by lia. unfold formatted. rewrite (proj2 (Z.eqb_neq (1 + format_fat_size total) 0)), (proj2 (Z.eqb_neq (1 + format_fat_size total) 1)),
      (proj2 (Z.eqb_neq (1 + format_fat_size total) (1 + 2 * format_fat_size total))) by lia.
    by rewrite (proj2 (in_range_true (1 + format_fat_size total) 0 (33 + 2 * format_fat_size total))) by lia.
Qed.

End format.
