(* ===== verification/FatDemo.v ===== *)
(** * A FAT16 volume on a disk in memory

    The theorems on FAT16 applied to a volume that the definitions themselves
    make: a disk of 20000 sectors, formatted and mounted, with a file created
    and written. *)

From S2P Require Import Prelude Checksum Buffers Block Fat16 FatTable FatFiles FatWrite FatFormat.

(** ** Checking that a state is a volume *)

Definition sector_b (b : list Z) : bool :=
  (length b =? 512)%nat && forallb (fun x => (0 <=? x) && (x <? 0x100)) b.

Definition geometry_b (f : fat16_fs) : bool :=
  (0 <? sectors_per_cluster f) && (sectors_per_cluster f <? 0x100) && (0 <? num_fats f) && (num_fats f <? 0x100) &&
  (0 <? fat_size f) && (fat_size f <? 0x10000) && (0 <? fat_start_sector f) && (fat_start_sector f <? 0x10000) &&
  (root_dir_start f =? fat_start_sector f + num_fats f * fat_size f) &&
  (0 <=? root_dir_sectors f) && (root_dir_sectors f <=? 0x1000) &&
  (data_start_sector f =? root_dir_start f + root_dir_sectors f) &&
  (4085 <=? total_clusters f) && (total_clusters f <? 65525) && (total_clusters f + 2 <=? fat_size f * 256).

Definition volume_b (s : fat16 ramdisk) : bool :=
  mounted (fs s) && geometry_b (fs s) && (drive (fs s) =? 0) && (volume_end (fs s) <=? rd_size (disk s)) &&
  (rd_size (disk s) <? 0x100000000) && forallb (fun p => sector_b p.2) (map_to_list (rd_sectors (disk s))) &&
  sector_b (sector_buffer s).

Lemma sector_b_ok b : sector_b b = true -> sector b.
Proof.
  intros H. apply andb_true_iff in H as [Hl Hb]. split; [by apply Nat.eqb_eq |].
  apply Forall_forall. intros x Hx. rewrite forallb_forall in Hb. apply Hb in Hx. zbool. lia.
Qed.

Lemma geometry_b_ok f : geometry_b f = true -> geometry f.
Proof. unfold geometry_b. intros H. zbool. by split. Qed.

Lemma volume_b_ok s : volume_b s = true -> volume s.
Proof.
  unfold volume_b. rewrite !andb_true_iff. intros [[[[[[Hm Hg] Hd] He] Hr] Hs] Hb].
  pose proof (geometry_b_ok _ Hg) as G. apply Z.leb_le in He. apply Z.ltb_lt in Hr. split; try done.
  - split.
    + pose proof (g_clusters _ G). pose proof (g_spc _ G). pose proof (g_data _ G). pose proof (g_root_sectors _ G).
      pose proof (g_root _ G). pose proof (g_reserved _ G). pose proof (g_fats _ G). pose proof (g_fat_size _ G).
      pose proof (Z.mul_nonneg_nonneg (total_clusters (fs s)) (sectors_per_cluster (fs s))).
      pose proof (Z.mul_nonneg_nonneg (num_fats (fs s)) (fat_size (fs s))). unfold volume_end in *. lia.
    + intros l b Hlb. apply sector_b_ok. rewrite forallb_forall in Hs.
      apply (Hs (l, b)). by apply list_elem_of_In, elem_of_map_to_list.
  - by apply sector_b_ok.
Qed.

(** ** The volume *)

Definition blank : fat16 ramdisk :=
  Fat16 (Fs false 0 0 0 0 0 0 0 0 0 0 0 0 0) zero_sector zero_sector NO_SECTOR (Ramdisk 20000 ∅).

Definition cgos : list Z := [67; 71; 79; 83].                       (* "CGOS" *)
Definition note_txt : list Z := [110; 111; 116; 101; 46; 116; 120; 116].   (* "note.txt" *)

(** Formatted, mounted, with the empty file note.txt. *)
Definition demo : fat16 ramdisk :=
  match fat16_mount 0 (fat16_format 0 (Some cgos) blank).2 with
  | Some (_, s) => (fat16_create_file note_txt s).2
  | None => blank
  end.

Definition text : list Z := replicate 5000 65.

(** With 5000 bytes in note.txt. *)
Definition demo_written : fat16 ramdisk :=
  match fat16_write_file note_txt text demo with Some (_, s) => s | None => demo end.

Lemma demo_volume : volume demo /\ coherent demo /\ dir_lookup true demo note_txt = Some (0, 1) /\
  chain (fat demo) (e_cluster_lo (dir_entry demo 0 1)) [].
Proof.
  split; [apply volume_b_ok; by vm_compute |]. split; [left; by vm_compute |]. split; by vm_compute.
Qed.

Lemma demo_text : bytes text /\ Z.of_nat (length text) < 0x80000000.
Proof. split; [by apply bytes_replicate | done]. Qed.

(** ** The theorems on it *)

Lemma fat16_format_mount_witness :
  exists s1 s2, fat16_format 0 (Some cgos) blank = (0, s1) /\ fat16_mount 0 s1 = Some (0, s2) /\
    total_clusters (fs s2) = 4981 /\ fat s2 0 = 0xFFF8.
Proof.
  destruct (fat16_format_mount 0 blank (Some cgos) 20000) as (s1 & s2 & E1 & E2 & _ & _ & Et & Ef & _).
  - split; [done | by apply map_Forall_empty].
  - done.
  - done.
  - done.
  - by vm_compute.
  - intros n [= <-]. by repeat constructor.
  - exists s1, s2. split; [exact E1 |]. split; [exact E2 |]. split; [rewrite Et; vm_compute; reflexivity | exact Ef].
Defined.

Lemma fat16_write_file_spec_witness :
  exists s', fat16_write_file note_txt text demo = Some (5000, s') /\ chain (fat s') (e_cluster_lo (dir_entry s' 0 1)) [2; 3; 4].
Proof.
  destruct demo_volume as (V & C & Hl & Hc). destruct demo_text as [Hb Hs].
  destruct (fat16_write_file_spec demo note_txt text 0 1 [] V C Hb Hs Hl Hc) as (s' & E & _ & _ & _ & _ & Hch & _).
  - constructor.
  - constructor.
  - apply Nat.leb_le. by vm_compute.
  - replace (Z.of_nat (length text)) with 5000 in E by (by vm_compute). exists s'. split; [exact E |]. replace [2; 3; 4] with (new_chain demo [] (length text)) by (by vm_compute). exact Hch.
Defined.

Lemma fat16_write_read_roundtrip_witness :
  exists s1 s2, fat16_write_file note_txt text demo = Some (5000, s1) /\
    fat16_read_file note_txt 8192 s1 = Some (5000, text, s2).
Proof.
  destruct demo_volume as (V & C & Hl & Hc). destruct demo_text as [Hb Hs].
  destruct (fat16_write_read_roundtrip demo note_txt text 0 1 [] V C Hb Hs Hl Hc) with (max := 8192) as (s1 & s2 & E1 & E2).
  - constructor.
  - constructor.
  - apply Nat.leb_le. by vm_compute.
  - by vm_compute.
  - split; [apply Z.leb_le; by vm_compute | done].
  - replace (Z.of_nat (length text)) with 5000 in E1, E2 by (by vm_compute). exists s1, s2. split; [exact E1 | exact E2].
Defined.

(** 10500000 bytes are more than the volume holds. *)
Lemma big_data : exists data, length data = Z.to_nat 10500000 /\ bytes data.
Proof. exists (replicate (Z.to_nat 10500000) 65). split; [apply length_replicate | by apply bytes_replicate]. Qed.

Lemma demo_too_small : (length (available demo []) < needed demo (Z.to_nat 10500000))%nat.
Proof.
  assert (length (available demo []) = Z.to_nat 4981) as -> by (by vm_compute).
  unfold needed, clusters_for. assert (cluster_size demo = Z.to_nat 2048) as -> by (by vm_compute).
  apply (Nat.lt_le_trans _ (Z.to_nat 4982)); [lia |]. apply Nat.div_le_lower_bound; lia.
Qed.

Lemma fat16_write_disk_full_witness :
  exists data s', fat16_write_file note_txt data demo = Some (-1, s') /\ free_clusters s' = [].
Proof.
  destruct demo_volume as (V & C & Hl & Hc). destruct big_data as (data & Hlen & Hb). exists data.
  destruct (fat16_write_disk_full demo note_txt data 0 1 [] V C Hb) as (s' & E & _ & _ & _ & Hf).
  - rewrite Hlen, Z2Nat.id; done.
  - exact Hl.
  - exact Hc.
  - constructor.
  - constructor.
  - rewrite Hlen. apply demo_too_small.
  - exists s'. split; [exact E | exact Hf].
Defined.

(** The directory's sector becomes that of the table, with the mark of entry 1. *)
Lemma fat16_delete_file_spec_witness :
  exists s', fat16_delete_file note_txt demo_written = Some (1, s') /\
    dir s' 0 = mark_deleted 1 (blk s' 1) /\ fat s' 0 = 0xFFF8.
Proof.
  destruct (fat16_delete_file_spec demo_written note_txt 0 1 [2; 3; 4]) as (s' & E & A & _ & T & Hd & _).
  - apply volume_b_ok. by vm_compute.
  - left. by vm_compute.
  - by vm_compute.
  - by vm_compute.
  - repeat constructor; by vm_compute.
  - repeat constructor; set_solver.
  - exists s'. split; [exact E |]. split; [exact Hd |]. rewrite T; [vm_compute; reflexivity | | reflexivity].
    rewrite (af_fs _ _ _ A). split; [discriminate | vm_compute; reflexivity].
Defined.
