(* ===== verification/Acpi.v ===== *)
(** * Power management

    [acpi/acpi.c]: shutting down and resetting by the ports of the emulator.  The
    functions do not return: the result is the hardware when they halt. *)

From S2P Require Import Prelude Ports.

Section acpi.
Context {hw : Type} {PORTS : Ports hw}.
Implicit Type h : hw.

(** [acpi_available]; the result is the return value and the variable. *)
Definition acpi_init : Z * bool := (0, true).
Definition acpi_is_available (acpi_available : bool) : bool := acpi_available.

Definition acpi_shutdown h : hw := outw 0xB004 0x2000 (outw 0x604 0x2000 h).

(** [while (val & 0x02) val = inb(0x64);] without a limit: None when [fuel] reads
    found the input buffer of the controller full. *)
Fixpoint input_buffer_loop (fuel : nat) (val : Z) h : option hw :=
  match fuel with
  | O => None
  | S fuel' =>
      if Z.land val 0x02 =? 0 then Some h
      else let '(val, h) := inb 0x64 h in input_buffer_loop fuel' val h
  end.

(** The triple fault after the two requests is the end of the model. *)
Definition acpi_reboot (fuel : nat) h : option hw :=
  h ← input_buffer_loop fuel 0x02 h;
  Some (outb 0x92 0x01 (outb 0x64 0xFE h)).

End acpi.
