(* ===== verification/Shell.v ===== *)
(** * The shell

    [shell/shell.c]: the output on the screen, the commands, the line editor with
    its history, and the loop of the shell's thread.  The commands call the other
    components, whose states are in [sys]; the disk is the ATA driver.  None is an
    access outside an array or the screen.  The theorems are in [ShellEditor]. *)

From S2P Require Import Prelude Ports Digits Graphic.
From S2P Require Pmm Pci Netdev Icmp Dhcp Stack Ata Block Fat16 Keyboard Acpi.
From stdpp Require Import strings.
#[local] Open Scope Z_scope.

Definition SHELL_BUFFER_SIZE := 256.
Definition SHELL_PROMPT : list Z := chars "cgos> ".
Definition HISTORY_SIZE := 16.
Definition shell_start_y := 50.
Definition line_height := 15.
Definition max_y := 750.

(** ** Strings *)

(** Strings are lists of characters; the end of the list is the terminating zero. *)
Fixpoint shell_strcmp (s1 s2 : list Z) : Z :=
  match s1, s2 with
  | c1 :: s1', c2 :: s2' => if c1 =? c2 then shell_strcmp s1' s2' else c1 - c2
  | _, _ => hd 0 s1 - hd 0 s2
  end.
Fixpoint shell_strncmp (s1 s2 : list Z) (n : nat) : Z :=
  match n with
  | O => 0
  | S n' =>
      match s1, s2 with
      | c1 :: s1', c2 :: s2' => if c1 =? c2 then shell_strncmp s1' s2' n' else c1 - c2
      | _, _ => hd 0 s1 - hd 0 s2
      end
  end.

(** The string in an array; None without a zero. *)
Fixpoint string_in (a : list Z) : option (list Z) :=
  match a with
  | [] => None
  | c :: a => if c =? 0 then Some [] else s ← string_in a; Some (c :: s)
  end.
(** The array [dest] after [shell_strcpy(dest, src)]; None when it is too short. *)
Definition shell_strcpy (dest src : list Z) : option (list Z) :=
  s ← string_in src;
  if (length s <? length dest)%nat then Some (s ++ [0] ++ drop (S (length s)) dest) else None.
Definition shell_strlen (a : list Z) : option Z := s ← string_in a; Some (Z.of_nat (length s)).

Definition is_blank (c : Z) : bool := c =? 32.
Definition is_quote (c : Z) : bool := (c =? 39) || (c =? 34).
Fixpoint skip (p : Z -> bool) (s : list Z) : list Z :=
  match s with c :: s' => if p c then skip p s' else s | [] => [] end.

(** ** Output *)

Record term := Term { shell_x : Z; shell_y : Z; scr : graphic }.
Implicit Type t : term.

Definition term_init : term := Term 10 50 graphic_init.

Definition draw (f : graphic -> option graphic) t : option term := g ← f (scr t); Some (Term (shell_x t) (shell_y t) g).
Definition set_xy (x y : Z) t : term := Term x y (scr t).

Definition print_char (c : Z) t : option term :=
  if c =? 10 then
    let t := set_xy 10 (shell_y t + line_height) t in
    if shell_y t >=? max_y then
      let t := set_xy (shell_x t) shell_start_y t in
      draw (draw_rect 10 (shell_y t) 780 line_height 0 0x6495ED true) t
    else Some t
  else
    t ← draw (draw_char (shell_x t) (shell_y t) c 0xFFFFFF) t;
    x ← int (shell_x t + 8);
    Some (set_xy x (shell_y t) t).
Fixpoint shell_print (str : list Z) t : option term :=
  match str with
  | [] => Some t
  | c :: str => t ← print_char c t; shell_print str t
  end.
Definition shell_println (str : list Z) t : option term := t ← shell_print str t; shell_print [10] t.

(** The lines of a command, each with [shell_println]. *)
Fixpoint print_lines (lines : list (list Z)) t : option term :=
  match lines with [] => Some t | l :: lines => t ← shell_println l t; print_lines lines t end.

Definition shell_clear_line t : option term :=
  t ← draw (draw_rect 10 (shell_y t) 780 line_height 0 0x6495ED true) t;
  Some (set_xy 10 (shell_y t) t).
Definition shell_prompt t : option term := shell_print SHELL_PROMPT t.
Definition shell_newline t : option term :=
  let t := set_xy 10 (shell_y t + line_height) t in
  let t := if shell_y t >=? max_y then set_xy (shell_x t) shell_start_y t else t in
  shell_clear_line t.

(** [kprintf_to_buffer] into an array of [size] characters, as the string in it. *)
Definition to_buffer (size : Z) (format : list Z) (args : list va) : option (list Z) :=
  '(buf, len) ← kprintf_to_buffer size format args;
  if len <? size then Some (c_string buf) else None.

(** ** Addresses *)

(** [octet] wraps around as an [int]; the bytes of the address are not compared
    with 255. *)
Fixpoint parse_ip_loop (str : list Z) (ip octet count : Z) : Z * Z * Z :=
  match str with
  | [] => (ip, octet, count)
  | c :: str =>
      if count <? 4 then
        if (48 <=? c) && (c <=? 57) then parse_ip_loop str ip (i32 (octet * 10 + (c - 48))) count
        else if c =? 46 then parse_ip_loop str (u32 (Z.lor (Z.shiftl ip 8) (Z.land octet 0xFF))) 0 (count + 1)
        else (ip, octet, count)
      else (ip, octet, count)
  end.
Definition parse_ip (str : list Z) : Z :=
  let '(ip, octet, count) := parse_ip_loop str 0 0 0 in
  if count =? 3 then u32 (Z.lor (Z.shiftl ip 8) (Z.land octet 0xFF)) else ip.

(** The four numbers that the commands print of an address. *)
Definition ip_args (ip : Z) : list va :=
  [VInt (Z.land (Z.shiftr ip 24) 0xFF); VInt (Z.land (Z.shiftr ip 16) 0xFF); VInt (Z.land (Z.shiftr ip 8) 0xFF); VInt (Z.land ip 0xFF)].

(** ** Files *)

(** The lines of a file, cut to 255 characters, from the state [line] on. *)
Fixpoint cat_lines (str line : list Z) : list (list Z) :=
  match str with
  | [] => match line with [] => [] | _ => [line] end
  | c :: str =>
      if (c =? 10) || (c =? 13) then
        let rest := match str with 10 :: str' => if c =? 13 then cat_lines str' [] else cat_lines str [] | _ => cat_lines str [] end in
        match line with [] => rest | _ => line :: rest end
      else cat_lines str (if (length line <? 255)%nat then line ++ [c] else line)
  end.

(** The name that [cmd_write] takes, at most [n] characters. *)
Fixpoint take_name (n : nat) (args : list Z) : list Z * list Z :=
  match n, args with
  | S n', c :: args' =>
      if is_blank c || is_quote c then ([], args) else let '(name, rest) := take_name n' args' in (c :: name, rest)
  | _, _ => ([], args)
  end.
Fixpoint until_char (q : Z) (s : list Z) : list Z :=
  match s with [] => [] | c :: s => if c =? q then [] else c :: until_char q s end.

(** The name and the text of a [write]; None without a text. *)
Definition parse_write (args : list Z) : option (list Z * list Z) :=
  let args := match args with c :: rest => if is_quote c then rest else args | [] => args end in
  let '(filename, args) := take_name 12 args in
  let args := skip (fun c => is_quote c || is_blank c) args in
  match args with
  | [] => None
  | c :: content => Some (filename, if is_quote c then until_char c content else args)
  end.

(** ** The commands *)

Section commands.
Context {hw : Type} {PORTS : Ports hw} {nic : Type} {NIC : Netdev.Nic nic}.
#[local] Existing Instance Ata.ata_device.

(** The values of the tick counter at its reads; the fuel bounds the waits of
    [icmp_ping] and of the reset. *)
Context (ticks : nat -> Z) (fuel : nat).

(** What the shell uses of the other components; [file_buf] is the static buffer
    of [cmd_cat], the hardware behind the ports is part of the disk. *)
Record sys := Sys {
  y_pmm : Pmm.pmm;
  y_pci : Pci.pci;
  y_net : @Stack.poll nic;
  y_fs : @Fat16.fat16 (list Ata.ata_drive * hw);
  y_file_buf : list Z;
}.
Implicit Type y : sys.

Definition set_net (n : @Stack.poll nic) y := Sys (y_pmm y) (y_pci y) n (y_fs y) (y_file_buf y).
Definition set_fs (f : @Fat16.fat16 (list Ata.ata_drive * hw)) y := Sys (y_pmm y) (y_pci y) (y_net y) f (y_file_buf y).
Definition set_file_buf (b : list Z) y := Sys (y_pmm y) (y_pci y) (y_net y) (y_fs y) b.
Definition drives y : list Ata.ata_drive := (Fat16.disk (y_fs y)).1.
Definition set_hw (h : hw) y := set_fs (Fat16.set_disk (drives y, h) (y_fs y)) y.
Definition netdev y : Netdev.dev nic := Ip.n_dev (Stack.st_net (Stack.pl_stack (y_net y))).

Definition result := option (term * sys).

(** A command that prints these lines and changes nothing else. *)
Definition say (lines : list (list Z)) t y : result := t ← print_lines lines t; Some (t, y).

Definition cmd_help t y : result := say [
  chars "Available commands:"; chars "  help    - Show this help"; chars "  clear   - Clear screen"; chars "  mem     - Show memory stats";
  chars "  pci     - List PCI devices"; chars "  net     - Show network info"; chars "  arp     - Show ARP table"; chars "  uptime  - Show system uptime";
  chars "  ping    - Ping an IP address"; chars "  ls      - List files"; chars "  cat     - Display file contents"; chars "  shutdown- Power off";
  chars "  reboot  - Restart system"; chars "  disk    - List disk drives"; chars "  format  - Format a drive with FAT16"; chars "  write   - Write text to file"] t y.

Definition cmd_clear t y : result :=
  t ← draw (draw_rect 0 (shell_start_y - 20) 800 400 0 0x6495ED true) t;
  Some (set_xy 10 shell_start_y t, y).

Definition cmd_mem t y : result :=
  let total := Pmm.physical_get_total_memory (y_pmm y) in
  let used := Pmm.physical_get_used_memory (y_pmm y) in
  let free := u64 (total - used) in
  total_kb ← to_buffer 64 (chars "%u KB") [VInt (u32 (total / 1024))];
  used_kb ← to_buffer 64 (chars "%u KB") [VInt (u32 (used / 1024))];
  free_kb ← to_buffer 64 (chars "%u KB") [VInt (u32 (free / 1024))];
  say [chars "Memory Statistics:"; chars "  Total: " ++ total_kb; chars "  Used:  " ++ used_kb; chars "  Free:  " ++ free_kb] t y.

Definition pci_line (p : Pci.pci) (i : Z) : option (list (list Z)) :=
  match Pci.pci_get_device i p with
  | None => Some []
  | Some k =>
      d ← Pci.pci_devices p !! Z.to_nat k;
      l ← to_buffer 80 (chars "  %d:%d.%d - %04x:%04x class=%02x") [VInt (Pci.bus d); VInt (Pci.device d); VInt (Pci.function d);
            VInt (Pci.vendor_id d); VInt (Pci.device_id d); VInt (Pci.class_code d)];
      Some [l]
  end.
Definition cmd_pci t y : result :=
  let count := Z.min (Pci.pci_get_device_count (y_pci y)) 6 in
  lines ← mapM (pci_line (y_pci y)) (seqZ 0 count);
  say (chars "PCI Devices:" :: concat lines) t y.

Definition net_lines (d : Netdev.dev nic) (i : Z) : option (list (list Z)) :=
  match Netdev.network_get_interface d i with
  | None => Some []
  | Some p =>
      let f := Netdev.get_if d p in
      if negb (Netdev.active f) then Some []
      else
        mac ← mapM (fun k => b ← Netdev.mac_address f !! k; Some (VInt b)) (seq 0 6);
        l1 ← to_buffer 80 (chars "  %s: %02x:%02x:%02x:%02x:%02x:%02x") (VStr (Some (c_string (Netdev.name f))) :: mac);
        l2 ← to_buffer 80 (chars "    IP: %d.%d.%d.%d") (ip_args (Netdev.ip_address f));
        Some [l1; l2]
  end.
Definition cmd_net t y : result :=
  lines ← mapM (net_lines (netdev y)) (seqZ 0 Netdev.MAX_NETWORK_INTERFACES);
  say (chars "Network Interfaces:" :: concat lines) t y.

(** [arp_print_table] prints on the debug console and is left out. *)
Definition cmd_arp t y : result := say [chars "ARP Table:"; chars "  (ARP entries stored in memory)"] t y.

Definition ls_callback (l : Fat16.listing) : option (list Z) :=
  if Fat16.l_is_dir l then to_buffer 80 (chars "  [DIR] %s") [VStr (Some (Fat16.l_name l))]
  else to_buffer 80 (chars "  %s (%u bytes)") [VStr (Some (Fat16.l_name l)); VInt (Fat16.l_size l)].
Definition cmd_ls t y : result :=
  if negb (Fat16.fat16_is_mounted (y_fs y)) then say [chars "No filesystem mounted"] t y
  else
    t ← shell_println (chars "Files:") t;
    let '(r, l, f) := Fat16.fat16_list_root (y_fs y) in
    lines ← mapM ls_callback l;
    t ← print_lines lines t;
    say (if r <? 0 then [chars "Error reading directory"] else []) t (set_fs f y).

(** The bytes stored by [fat16_read_file] stay in [file_buf] when it fails. *)
Definition cmd_cat (args : list Z) t y : result :=
  let args := skip is_blank args in
  if bool_decide (args = []) then say [chars "Usage: cat <filename>"] t y
  else if negb (Fat16.fat16_is_mounted (y_fs y)) then say [chars "No filesystem mounted"] t y
  else
    '(size, data, f) ← Fat16.fat16_read_file args 4095 (y_fs y);
    let buf := data ++ drop (length data) (y_file_buf y) in
    let y := set_file_buf buf (set_fs f y) in
    if size <? 0 then say [chars "File not found"] t y
    else
      let buf := <[Z.to_nat size := 0]> buf in
      text ← string_in buf;
      say (cat_lines text []) t (set_file_buf buf y).

Definition cmd_write (args : list Z) t y : result :=
  let args := skip is_blank args in
  if bool_decide (args = []) then
    say [chars "Usage: write <filename> <text>"; chars "Example: write test.txt Hello World"] t y
  else if negb (Fat16.fat16_is_mounted (y_fs y)) then say [chars "No filesystem mounted"] t y
  else
    match parse_write args with
    | None => say [chars "Usage: write <filename> <text>"] t y
    | Some (filename, content) =>
        let '(r, _, f) := Fat16.fat16_find_file filename (y_fs y) in
        let '(created, f) := if r <? 0 then let '(r, f) := Fat16.fat16_create_file filename f in (negb (r <? 0), f) else (true, f) in
        if negb created then say [chars "Failed to create file"] t (set_fs f y)
        else
          '(r, f) ← Fat16.fat16_write_file filename content f;
          if r <? 0 then say [chars "Failed to write file"] t (set_fs f y)
          else
            l ← to_buffer 64 (chars "Wrote %u bytes to %s") [VInt (Z.of_nat (length content)); VStr (Some filename)];
            say [l] t (set_fs f y)
    end.

Definition disk_line y (i : Z) : option (list (list Z)) :=
  match Ata.ata_get_drive_info i (drives y) with
  | Some d =>
      if Ata.present d then
        l ← to_buffer 80 (chars "  Drive %d (%s): %s (%u MB)")
          [VInt i; VStr (Some (if i =? 0 then chars "Master" else chars "Slave")); VStr (Some (c_string (Ata.model d))); VInt (Ata.size_sectors d / 2048)];
        Some [l]
      else Some []
  | None => Some []
  end.
Definition cmd_disk t y : result :=
  lines ← mapM (disk_line y) [0; 1];
  say (chars "ATA Drives:" :: (if bool_decide (concat lines = []) then [chars "  No drives detected"] else concat lines) ++
    [if Fat16.fat16_is_mounted (y_fs y) then chars "Mounted: FAT16 filesystem" else chars "No filesystem mounted"]) t y.

(** The drive that [cmd_format] takes. *)
Definition format_drive (args : list Z) y : Z :=
  match args with
  | c :: _ => if (48 <=? c) && (c <=? 49) then c - 48
              else if Ata.ata_drive_present 0 (drives y) then 0 else if Ata.ata_drive_present 1 (drives y) then 1 else -1
  | [] => if Ata.ata_drive_present 0 (drives y) then 0 else if Ata.ata_drive_present 1 (drives y) then 1 else -1
  end.
Definition cmd_format (args : list Z) t y : result :=
  let drive := format_drive (skip is_blank args) y in
  if drive <? 0 then say [chars "Usage: format [0|1]"; chars "No drives available"] t y
  else
    l ← to_buffer 64 (chars "Formatting drive %d with FAT16...") [VInt drive];
    t ← shell_println l t;
    let f := Fat16.fat16_unmount (y_fs y) in
    let '(r, f) := Fat16.fat16_format drive (Some (chars "CGOS")) f in
    if r =? 0 then
      t ← shell_println (chars "Format complete!") t;
      '(r, f) ← Fat16.fat16_mount drive f;
      say (if r =? 0 then [chars "Filesystem mounted"] else []) t (set_fs f y)
    else say [chars "Format failed"] t (set_fs f y).

(** [timer_get_seconds], at the next read of the counter. *)
Definition cmd_uptime t y : result :=
  let n := y_net y in
  let seconds := u32 (ticks (Stack.pl_time n) / 1000) in
  let minutes := seconds / 60 in
  let hours := minutes / 60 in
  l ← to_buffer 64 (chars "Uptime: %u:%02u:%02u") [VInt hours; VInt (minutes mod 60); VInt (seconds mod 60)];
  say [l] t (set_net (Stack.tick n) y).

Definition cmd_ping (args : list Z) t y : result :=
  let args := skip is_blank args in
  if bool_decide (args = []) then say [chars "Usage: ping <ip>"; chars "Example: ping 10.0.2.2"] t y
  else
    let dest_ip := parse_ip args in
    if dest_ip =? 0 then say [chars "Invalid IP address"] t y
    else
      l ← to_buffer 80 (chars "Pinging %d.%d.%d.%d...") (ip_args dest_ip);
      t ← shell_println l t;
      match Netdev.network_get_interface (netdev y) 1 with
      | None => say [chars "No network interface"] t y
      | Some p =>
          '(_, r, n) ← Stack.icmp_ping fuel ticks (Some p) dest_ip 4 true (y_net y);
          r ← r;
          let y := set_net n y in
          l ← to_buffer 80 (chars "Sent: %d, Received: %d") [VInt (Stack.sent_count r); VInt (Stack.received_count r)];
          if Stack.received_count r >? 0 then
            let avg := Stack.total_time r / Stack.received_count r in
            l2 ← to_buffer 80 (chars "RTT: min=%u avg=%u max=%u ms") [VInt (Stack.min_time r); VInt avg; VInt (Stack.max_time r)];
            say [[]; l; l2] t y
          else say [[]; l; chars "No reply received"] t y
      end.

(** False when the machine was turned off or reset. *)
Definition shell_execute (cmd : list Z) t y : option (bool * term * sys) :=
  let cmd := skip is_blank cmd in
  let same (s : list Z) := shell_strcmp cmd s =? 0 in
  let starts (s : list Z) := shell_strncmp cmd s (length s) =? 0 in
  let run (r : result) : option (bool * term * sys) := '(t, y) ← r; Some (true, t, y) in
  if bool_decide (cmd = []) then Some (true, t, y)
  else if same (chars "help") then run (cmd_help t y)
  else if same (chars "clear") then run (cmd_clear t y)
  else if same (chars "mem") then run (cmd_mem t y)
  else if same (chars "pci") then run (cmd_pci t y)
  else if same (chars "net") then run (cmd_net t y)
  else if same (chars "arp") then run (cmd_arp t y)
  else if same (chars "uptime") then run (cmd_uptime t y)
  else if starts (chars "ping ") || same (chars "ping") then run (cmd_ping (drop 4 cmd) t y)
  else if same (chars "ls") then run (cmd_ls t y)
  else if same (chars "cat") || starts (chars "cat ") then run (cmd_cat (drop 3 cmd) t y)
  else if same (chars "write") || starts (chars "write ") then run (cmd_write (drop 5 cmd) t y)
  else if same (chars "shutdown") then
    t ← shell_println (chars "Shutting down...") t;
    Some (false, t, set_hw (Acpi.acpi_shutdown (Fat16.disk (y_fs y)).2) y)
  else if same (chars "reboot") then
    t ← shell_println (chars "Rebooting...") t;
    h ← Acpi.acpi_reboot fuel (Fat16.disk (y_fs y)).2;
    Some (false, t, set_hw h y)
  else if same (chars "disk") then run (cmd_disk t y)
  else if same (chars "format") || starts (chars "format ") then run (cmd_format (drop 6 cmd) t y)
  else
    t ← shell_print (chars "Unknown command: ") t;
    t ← shell_println cmd t;
    run (say [chars "Type 'help' for available commands"] t y).

(** ** The line editor *)

(** [cmd_buffer] is an array of 256 characters, [history] one of 16 such arrays. *)
Record editor := Editor {
  cmd_buffer : list Z;
  cmd_pos : Z;
  history : list (list Z);
  history_count : Z;
  history_pos : Z;
}.
Implicit Type e : editor.

(** Static storage is zero. *)
Definition editor_init : editor := Editor (replicate 256 0) 0 (replicate 16 (replicate 256 0)) 0 0.

Definition set_cmd (b : list Z) (pos : Z) e := Editor b pos (history e) (history_count e) (history_pos e).
Definition set_history_pos (p : Z) e := Editor (cmd_buffer e) (cmd_pos e) (history e) (history_count e) p.

(** [a[i] = c;], None outside the array. *)
Definition store {X} (i : Z) (c : X) (a : list X) : option (list X) :=
  if (0 <=? i) && (i <? Z.of_nat (length a)) then Some (<[Z.to_nat i := c]> a) else None.
Definition fetch {X} (i : Z) (a : list X) : option X := if i <? 0 then None else a !! Z.to_nat i.

(** [shell_strcpy(history[i], src);] *)
Definition history_strcpy (i : Z) (src : list Z) (h : list (list Z)) : option (list (list Z)) :=
  dest ← fetch i h; a ← shell_strcpy dest src; store i a h.

(** The shift of the entries [i, .., i + n - 1]. *)
Fixpoint shift_loop (n : nat) (i : Z) (h : list (list Z)) : option (list (list Z)) :=
  match n with
  | O => Some h
  | S n' => src ← fetch (i + 1) h; h ← history_strcpy i src h; shift_loop n' (i + 1) h
  end.

(** Enter, up to the execution: the terminated buffer and the history. *)
Definition save_command e : option editor :=
  b ← store (cmd_pos e) 0 (cmd_buffer e);
  let e := set_cmd b (cmd_pos e) e in
  e ← (if cmd_pos e >? 0 then
         if history_count e <? HISTORY_SIZE then
           h ← history_strcpy (history_count e) (cmd_buffer e) (history e);
           Some (Editor (cmd_buffer e) (cmd_pos e) h (history_count e + 1) (history_pos e))
         else
           h ← shift_loop (Z.to_nat (HISTORY_SIZE - 1)) 0 (history e);
           h ← history_strcpy (HISTORY_SIZE - 1) (cmd_buffer e) h;
           Some (Editor (cmd_buffer e) (cmd_pos e) h (history_count e) (history_pos e))
       else Some e);
  Some (set_history_pos (history_count e) e).

(** The entry [i] of the history in the command buffer. *)
Definition recall (i : Z) e : option editor :=
  let e := set_history_pos i e in
  src ← fetch i (history e);
  b ← shell_strcpy (cmd_buffer e) src;
  pos ← shell_strlen b;
  Some (set_cmd b pos e).

(** [cmd_pos = 0; cmd_buffer[0] = 0;] *)
Definition clear_command e : option editor := b ← store 0 0 (cmd_buffer e); Some (set_cmd b 0 e).

(** [n] characters of the buffer from [i] on. *)
Fixpoint redraw_loop (n : nat) (i : Z) (b : list Z) t : option term :=
  match n with
  | O => Some t
  | S n' =>
      c ← fetch i b;
      t ← draw (draw_char (shell_x t) (shell_y t) c 0xFFFFFF) t;
      redraw_loop n' (i + 1) b (set_xy (shell_x t + 8) (shell_y t) t)
  end.
Definition shell_redraw_cmd e t : option term :=
  let prompt_len := 6 in
  let t := set_xy (10 + prompt_len * 8) (shell_y t) t in
  t ← draw (draw_rect (shell_x t) (shell_y t) (780 - shell_x t) line_height 0 0x6495ED true) t;
  redraw_loop (Z.to_nat (cmd_pos e)) 0 (cmd_buffer e) t.

Record machine := Machine { m_editor : editor; m_term : term; m_sys : sys }.

(** The result is false when the machine was turned off or reset. *)
Definition shell_process_char (c : Z) (m : machine) : option (bool * machine) :=
  let e := m_editor m in
  let t := m_term m in
  let y := m_sys m in
  if (c =? 10) || (c =? 13) then
    e ← save_command e;
    t ← shell_newline t;
    cmd ← string_in (cmd_buffer e);
    '(running, t, y) ← shell_execute cmd t y;
    if negb running then Some (false, Machine e t y)
    else
      let e := set_cmd (cmd_buffer e) 0 e in
      t ← shell_prompt t;
      Some (true, Machine e t y)
  else if c =? 8 then
    if cmd_pos e >? 0 then
      let e := set_cmd (cmd_buffer e) (cmd_pos e - 1) e in
      let t := set_xy (shell_x t - 8) (shell_y t) t in
      t ← draw (draw_rect (shell_x t) (shell_y t) 8 15 0 0x6495ED true) t;
      Some (true, Machine e t y)
    else Some (true, m)
  else if c =? 0x1B then
    e ← clear_command e;
    t ← shell_redraw_cmd e t;
    Some (true, Machine e t y)
  else if c =? Keyboard.SPECIAL_KEY_UP then
    if history_pos e >? 0 then
      e ← recall (history_pos e - 1) e;
      t ← shell_redraw_cmd e t;
      Some (true, Machine e t y)
    else Some (true, m)
  else if c =? Keyboard.SPECIAL_KEY_DOWN then
    if history_pos e <? history_count e - 1 then
      e ← recall (history_pos e + 1) e;
      t ← shell_redraw_cmd e t;
      Some (true, Machine e t y)
    else if history_pos e <? history_count e then
      e ← clear_command (set_history_pos (history_count e) e);
      t ← shell_redraw_cmd e t;
      Some (true, Machine e t y)
    else Some (true, m)
  else if (c >=? 32) && (c <? 127) then
    if cmd_pos e <? SHELL_BUFFER_SIZE - 1 then
      b ← store (cmd_pos e) c (cmd_buffer e);
      let e := set_cmd b (cmd_pos e + 1) e in
      t ← draw (draw_char (shell_x t) (shell_y t) c 0xFFFFFF) t;
      Some (true, Machine e (set_xy (shell_x t + 8) (shell_y t) t) y)
    else Some (true, m)
  else Some (true, m).

Definition shell_init e t : option (editor * term) :=
  let e := set_cmd (cmd_buffer e) 0 e in
  let t := set_xy 10 shell_start_y t in
  t ← draw (clear_screen 0x6495ED) t;
  t ← draw (draw_rect 0 0 800 30 0 0x4169E1 true) t;
  t ← draw (draw_string 10 8 (chars "CGOS Shell - Type 'help' for commands") 0xFFFFFF) t;
  t ← shell_prompt t;
  Some (e, t).

(** One round of [shell_run], with the ring of the keyboard and the DHCP client of
    the card: a key or a yield (which leaves this state alone), the packets that
    arrived, the lease.  The debug output every 100 rounds is left out; [frame] is
    the frame buffer's contents at the start. *)
Definition shell_round (dhcp : option nat) (frame : list Z) (k : Keyboard.keyboard) (m : machine) : option (bool * Keyboard.keyboard * machine) :=
  '(running, k, m) ←
    (if Keyboard.keyboard_has_key k then
       '(c, k) ← Keyboard.buffer_get k;
       '(running, m) ← shell_process_char (u8 c) m;
       Some (running, k, m)
     else Some (true, k, m));
  if negb running then Some (false, k, m)
  else
    let n := y_net (m_sys m) in
    n' ← Stack.network_process_packets fuel ticks frame (Stack.pl_time n) (Stack.pl_stack n);
    let n' := Stack.Poll (Stack.pl_stack n') (Stack.pl_events n ++ Stack.pl_events n') (Stack.pl_frame n') (Stack.pl_time n') in
    let st := Stack.pl_stack n' in
    let '(h, net) := Dhcp.dhcp_client_update (u32 (ticks (Stack.pl_time n') / 1000)) dhcp (Stack.st_dhcp st) (Stack.st_net st) in
    let st := Stack.Stack nic net (Stack.st_icmp st) (Stack.st_udp st) (Stack.st_tcp st) h in
    let n' := Stack.tick (Stack.Poll st (Stack.pl_events n') (Stack.pl_frame n') (Stack.pl_time n')) in
    Some (true, k, Machine (m_editor m) (m_term m) (set_net n' (m_sys m))).

(** The client that [shell_run] updates. *)
Definition shell_dhcp y : option nat :=
  match Netdev.network_get_interface (netdev y) 1 with
  | Some eth => Dhcp.dhcp_get_client (Some eth) (Stack.st_dhcp (Stack.pl_stack (y_net y)))
  | None => None
  end.

End commands.
