(* ===== verification/ShellEditor.v ===== *)
(** * The line editor of the shell

    [shell_process_char] refines an editor on lists: the line typed, the last 16
    lines and the position among them, with what each key shows or runs.  The arrays
    of the code hold these lists as strings. *)

From S2P Require Import Prelude Ports Digits Graphic Shell.
From S2P Require Netdev Keyboard.
From stdpp Require Import strings.
#[local] Open Scope Z_scope.

Implicit Types (e : editor) (s : list Z) (h : list (list Z)).

(** ** The editor on lists *)

Record line_editor := Line { line : list Z; past : list (list Z); at_ : nat }.
Implicit Type a : line_editor.

Inductive effect := Nothing | Erase | Redraw | Echo (c : Z) | Run (cmd : list Z).

Definition printable (c : Z) : bool := (32 <=? c) && (c <? 127).

(** The last 16 lines. *)
Definition recent (l : list (list Z)) : list (list Z) := drop (length l - 16) l.

Definition key (c : Z) a : line_editor * effect :=
  if (c =? 10) || (c =? 13) then
    let past' := match line a with [] => past a | _ => recent (past a ++ [line a]) end in
    (Line [] past' (length past'), Run (line a))
  else if c =? 8 then
    match line a with [] => (a, Nothing) | _ => (Line (removelast (line a)) (past a) (at_ a), Erase) end
  else if c =? 0x1B then (Line [] (past a) (at_ a), Redraw)
  else if c =? 0x80 then
    match at_ a with
    | O => (a, Nothing)
    | S i => (Line (past a !!! i) (past a) i, Redraw)
    end
  else if c =? 0x81 then
    if (S (at_ a) <? length (past a))%nat then (Line (past a !!! S (at_ a)) (past a) (S (at_ a)), Redraw)
    else if (at_ a <? length (past a))%nat then (Line [] (past a) (length (past a)), Redraw)
    else (a, Nothing)
  else if printable c then
    if (length (line a) <? 255)%nat then (Line (line a ++ [c]) (past a) (at_ a), Echo c) else (a, Nothing)
  else (a, Nothing).

(** ** Strings in arrays *)

Definition text (b : list Z) s : Prop := string_in b = Some s /\ length b = 256%nat.

Lemma printable_nonzero s : Forall (fun c => printable c = true) s -> Forall (fun c => c <> 0) s.
Proof. intros H. eapply List.Forall_impl; [| exact H]. intros c Hc. unfold printable in Hc. zbool. lia. Qed.

Lemma string_in_app s r : Forall (fun c => c <> 0) s -> string_in (s ++ 0 :: r) = Some s.
Proof.
  induction 1 as [|c s Hc _ IH]; [done |]. cbn [app string_in]. destruct (Z.eqb_spec c 0); [done |]. by rewrite IH.
Qed.

Lemma string_in_split b s : string_in b = Some s -> exists r, b = s ++ 0 :: r /\ Forall (fun c => c <> 0) s.
Proof.
  revert s. induction b as [|c b IH]; intros s; [done |]. cbn [string_in]. destruct (Z.eqb_spec c 0) as [->|].
  - intros [= <-]. by exists b.
  - destruct (string_in b) as [s'|]; [| done]. intros [= <-]. destruct (IH s' eq_refl) as (r & -> & Hf). exists r. split; [done | by constructor].
Qed.

Lemma strcpy_ok dest src s : length dest = 256%nat -> text src s -> exists b, shell_strcpy dest src = Some b /\ text b s /\ take (length s) b = s.
Proof.
  intros Hd [Hs Hl]. unfold shell_strcpy. rewrite Hs. cbn [mbind option_bind]. destruct (string_in_split _ _ Hs) as (r & -> & Hf).
  rewrite length_app in Hl. cbn [length] in Hl. destruct (Nat.ltb_spec (length s) (length dest)); [| lia].
  eexists. split; [done |]. split; [split |].
  - by apply string_in_app.
  - rewrite length_app. cbn [app length]. rewrite length_drop. lia.
  - by rewrite take_app_length.
Qed.

Lemma store_ok {X} (i : nat) (x : X) l : (i < length l)%nat -> store (Z.of_nat i) x l = Some (<[i := x]> l).
Proof. intros Hi. unfold store. destruct (Z.leb_spec 0 (Z.of_nat i)); [| lia]. destruct (Z.ltb_spec (Z.of_nat i) (Z.of_nat (length l))); [| lia]. by rewrite Nat2Z.id. Qed.
Lemma fetch_ok {X} (i : nat) (l : list X) : fetch (Z.of_nat i) l = l !! i.
Proof. unfold fetch. destruct (Z.ltb_spec (Z.of_nat i) 0); [lia |]. by rewrite Nat2Z.id. Qed.

(** ** The history *)

(** The array [j] of the history holds the string [s]. *)
Definition entry h (j : nat) s : Prop := exists b, h !! j = Some b /\ text b s.
Definition arrays h : Prop := length h = 16%nat /\ Forall (fun b => length b = 256%nat) h.

Lemma history_strcpy_ok h (j : nat) src s : arrays h -> (j < 16)%nat -> text src s ->
  exists h', history_strcpy (Z.of_nat j) src h = Some h' /\ arrays h' /\ entry h' j s /\ forall k, k <> j -> h' !! k = h !! k.
Proof.
  intros [Hl Hf] Hj Hs. unfold history_strcpy. rewrite fetch_ok.
  destruct (lookup_lt_is_Some_2 h j ltac:(lia)) as [d Ed]. rewrite Ed. cbn [mbind option_bind].
  destruct (strcpy_ok d src s (Forall_lookup_1 _ _ _ _ Hf Ed) Hs) as (b & -> & Hb & _). cbn [mbind option_bind].
  rewrite store_ok by lia. eexists. split; [done |]. split; [split; [by rewrite length_insert | apply Forall_insert; [done | apply Hb]] |].
  split; [exists b; split; [apply list_lookup_insert_eq; lia | done] |]. intros k Hk. by apply list_lookup_insert_ne.
Qed.

Lemma entry_same h h' j s : h' !! j = h !! j -> entry h j s -> entry h' j s.
Proof. intros E (b & Hb & Ht). exists b. by rewrite E. Qed.

Lemma shift_loop_ok (p : nat -> list Z) n : forall (i : nat) h, arrays h -> (i + n < 16)%nat ->
  (forall j, (i < j <= i + n)%nat -> entry h j (p j)) ->
  exists h', shift_loop n (Z.of_nat i) h = Some h' /\ arrays h' /\ (forall j, (i <= j < i + n)%nat -> entry h' j (p (S j))) /\
    forall j, (j < i)%nat -> h' !! j = h !! j.
Proof.
  induction n as [|n IH]; intros i h Ha Hi Hp; [exists h; split; [done |]; split; [exact Ha |]; split; [intros j Hj; lia | done] |]. cbn [shift_loop].
  replace (Z.of_nat i + 1) with (Z.of_nat (S i)) by lia. rewrite fetch_ok. destruct (Hp (S i) ltac:(lia)) as (src & -> & Hs). cbn [mbind option_bind].
  destruct (history_strcpy_ok h i src _ Ha ltac:(lia) Hs) as (h1 & -> & Ha1 & He & Hk). cbn [mbind option_bind].
  destruct (IH (S i) h1 Ha1 ltac:(lia)) as (h' & E & Ha' & Hj & Hi').
  { intros j Hj. apply (entry_same h); [apply Hk; lia | apply Hp; lia]. }
  exists h'. split; [exact E |]. split; [exact Ha' |]. split.
  - intros j Hj'. destruct (decide (j = i)) as [->|]; [apply (entry_same h1); [apply Hi'; lia | done] | apply Hj; lia].
  - intros j Hj'. rewrite Hi', Hk by lia. done.
Qed.

(** ** The refinement *)

Record editor_ok e a : Prop := {
  eo_buffer : length (cmd_buffer e) = 256%nat;
  eo_line : cmd_pos e = Z.of_nat (length (line a)) /\ take (length (line a)) (cmd_buffer e) = line a;
  eo_printable : Forall (fun c => printable c = true) (line a) /\ (length (line a) <= 255)%nat;
  eo_arrays : arrays (history e);
  eo_past : history_count e = Z.of_nat (length (past a)) /\ (length (past a) <= 16)%nat /\
    forall i s, past a !! i = Some s -> entry (history e) i s /\ Forall (fun c => printable c = true) s;
  eo_at : history_pos e = Z.of_nat (at_ a) /\ (at_ a <= length (past a))%nat
}.

Lemma editor_init_ok : editor_ok editor_init (Line [] [] 0).
Proof.
  split; [done | done | split; [constructor | cbn; lia] | | split; [done | split; [cbn; lia | done]] | done].
  split; [done |]. by apply Forall_replicate.
Qed.

(** The buffer with its line terminated. *)
Lemma terminated_ok e a : editor_ok e a -> exists b, store (cmd_pos e) 0 (cmd_buffer e) = Some b /\ text b (line a) /\ take (length (line a)) b = line a.
Proof.
  intros [Hb [Hp Ht] [Hc Hl] _ _ _]. rewrite Hp, store_ok by lia. eexists. split; [done |].
  assert (<[length (line a) := 0]> (cmd_buffer e) = line a ++ 0 :: drop (S (length (line a))) (cmd_buffer e)) as E.
  { rewrite <- (take_drop (length (line a)) (cmd_buffer e)) at 1. rewrite Ht. rewrite insert_app_r_alt by lia. rewrite Nat.sub_diag.
    destruct (drop (length (line a)) (cmd_buffer e)) as [|c r] eqn:Ed.
    - apply (f_equal length) in Ed. rewrite length_drop in Ed. cbn in Ed. lia.
    - cbn. do 2 f_equal. change (drop (S (length (line a))) (cmd_buffer e)) with (drop (1 + length (line a)) (cmd_buffer e)).
      rewrite Nat.add_comm, <- drop_drop, Ed. done. }
  rewrite E. split; [split; [apply string_in_app, printable_nonzero, Hc |] |].
  - rewrite <- E, length_insert. done.
  - by rewrite take_app_length.
Qed.

Lemma save_command_ok e a : editor_ok e a ->
  let past' := match line a with [] => past a | _ => recent (past a ++ [line a]) end in
  exists e', save_command e = Some e' /\ text (cmd_buffer e') (line a) /\ editor_ok (set_cmd (cmd_buffer e') 0 e') (Line [] past' (length past')).
Proof.
  intros He past'. unfold save_command. destruct (terminated_ok e a He) as (b & -> & Hb & Ht). cbn [mbind option_bind set_cmd cmd_pos history history_count cmd_buffer].
  destruct He as [Hbuf [Hp Htake] [Hc Hlen] Ha (Hcount & Hpast & Hent) [Hpos Hat]]. rewrite Hp, Hcount, Z.gtb_ltb.
  destruct (line a) as [|c0 l0] eqn:El.
  - cbn [length]. destruct (Z.ltb_spec 0 (Z.of_nat 0)); [lia |]. cbn [mbind option_bind]. eexists. split; [done |]. cbn. split; [done |].
    split; cbn; [apply Hb | done | split; [constructor | lia] | done | by rewrite Hcount | done].
  - rewrite <- El in *. assert (0 < length (line a))%nat as Hl0 by (rewrite El; cbn; lia).
    assert (past' = recent (past a ++ [line a])) as Ep by (subst past'; by rewrite El). clearbody past'. subst past'. clear El.
    destruct (Z.ltb_spec 0 (Z.of_nat (length (line a)))); [| lia]. unfold HISTORY_SIZE.
    destruct (Z.ltb_spec (Z.of_nat (length (past a))) 16).
    + destruct (history_strcpy_ok (history e) (length (past a)) b (line a) Ha ltac:(lia) Hb) as (h' & -> & Ha' & He' & Hk). cbn [mbind option_bind].
      eexists. split; [done |]. cbn. split; [done |]. assert (recent (past a ++ [line a]) = past a ++ [line a]) as ->.
      { unfold recent. rewrite length_app. cbn [length]. replace (length (past a) + 1 - 16)%nat with 0%nat by lia. done. }
      rewrite length_app. cbn [length]. split; cbn; [apply Hb | done | split; [constructor | lia] | done | | rewrite length_app; cbn; split; lia].
      rewrite length_app. cbn [length]. split_and!; [lia | lia |]. intros i s Hi. destruct (decide (i = length (past a))) as [->|Hne].
      * rewrite lookup_app_r, Nat.sub_diag in Hi by lia. injection Hi as <-. by split.
      * rewrite lookup_app_l in Hi by (apply lookup_lt_Some in Hi; rewrite length_app in Hi; cbn in Hi; lia).
        destruct (Hent i s Hi). split; [apply (entry_same (history e)); [by apply Hk | done] | done].
    + assert (length (past a) = 16%nat) as H16 by lia.
      assert (forall j, (j < 16)%nat -> past a !! j = Some (past a !!! j)) as Htot by (intros j Hj; apply list_lookup_lookup_total_lt; lia).
      change (shift_loop (Z.to_nat (16 - 1)) 0) with (shift_loop 15 (Z.of_nat 0)).
      destruct (shift_loop_ok (fun j => past a !!! j) 15 0 (history e) Ha ltac:(lia)) as (h1 & -> & Ha1 & Hj1 & _).
      { intros j Hj. apply (Hent j), Htot. lia. }
      cbn [mbind option_bind]. destruct (history_strcpy_ok h1 15 b (line a) Ha1 ltac:(lia) Hb) as (h' & E' & Ha' & He' & Hk). change (16 - 1) with (Z.of_nat 15). rewrite E'.
      cbn [mbind option_bind]. eexists. split; [done |]. cbn. split; [done |].
      assert (recent (past a ++ [line a]) = drop 1 (past a) ++ [line a]) as ->.
      { unfold recent. rewrite length_app, H16. change (16 + length [line a] - 16)%nat with 1%nat. apply drop_app_le. lia. }
      rewrite length_app, length_drop, H16. cbn [length]. split; cbn; [apply Hb | done | split; [constructor | lia] | done | | rewrite length_app, length_drop, H16; cbn; split; lia].
      rewrite length_app, length_drop, H16. cbn [length]. split_and!; [lia | lia |]. intros i s Hi. destruct (decide (i = 15%nat)) as [->|Hne].
      * rewrite lookup_app_r in Hi by (rewrite length_drop; lia). rewrite length_drop, H16 in Hi. injection Hi as <-. by split.
      * assert (i < 15)%nat as Hi15 by (apply lookup_lt_Some in Hi; rewrite length_app, length_drop, H16 in Hi; cbn in Hi; lia).
        rewrite lookup_app_l, lookup_drop in Hi by (rewrite length_drop; lia). cbn [Nat.add] in Hi. rewrite Htot in Hi by lia. injection Hi as <-.
        split; [apply (entry_same h1); [by apply Hk | apply Hj1; lia] | apply (Hent (S i)), Htot; lia].
Qed.

Lemma text_length b s : text b s -> (length s <= 255)%nat.
Proof. intros [Hs Hl]. destruct (string_in_split _ _ Hs) as (r & -> & _). rewrite length_app in Hl. cbn in Hl. lia. Qed.

Lemma recall_ok e a (i : nat) : editor_ok e a -> (i < length (past a))%nat ->
  exists e', recall (Z.of_nat i) e = Some e' /\ editor_ok e' (Line (past a !!! i) (past a) i).
Proof.
  intros [Hbuf _ _ Ha (Hcount & Hpast & Hent) _] Hi. destruct (Hent i (past a !!! i) (list_lookup_lookup_total_lt _ _ Hi)) as [(src & Es & Hs) Hpr].
  unfold recall. cbn [set_history_pos history cmd_buffer]. rewrite fetch_ok, Es. cbn [mbind option_bind].
  destruct (strcpy_ok (cmd_buffer e) src _ Hbuf Hs) as (b & -> & Hb & Ht). cbn [mbind option_bind]. unfold shell_strlen. rewrite (proj1 Hb). cbn [mbind option_bind].
  eexists. split; [done |]. split; cbn; [apply Hb | done | split; [done | by eapply text_length] | done | done | split; [done | lia]].
Qed.

Lemma clear_command_ok e a (p : nat) : editor_ok e a -> (p <= length (past a))%nat ->
  exists e', clear_command (set_history_pos (Z.of_nat p) e) = Some e' /\ editor_ok e' (Line [] (past a) p).
Proof.
  intros [Hbuf _ _ Ha Hpast _] Hp. unfold clear_command. cbn [set_history_pos cmd_buffer].
  change 0 with (Z.of_nat 0). rewrite store_ok by lia. cbn [mbind option_bind]. eexists. split; [done |].
  split; cbn; [by rewrite length_insert | done | split; [constructor | lia] | done | done | done].
Qed.

Section refinement.
Context {hw : Type} {PORTS : Ports hw} {nic : Type} {NIC : Netdev.Nic nic} (ticks : nat -> Z) (fuel : nat).
Implicit Types (t : term) (y : sys (hw := hw) (nic := nic)).

(** What the effects do on the screen and to the system; [l] is the line. *)
Fixpoint draw_text (l : list Z) t : option term :=
  match l with
  | [] => Some t
  | c :: l => t ← draw (draw_char (shell_x t) (shell_y t) c 0xFFFFFF) t; draw_text l (set_xy (shell_x t + 8) (shell_y t) t)
  end.

Definition perform (f : effect) (l : list Z) t y : option (bool * term * sys) :=
  match f with
  | Nothing => Some (true, t, y)
  | Erase => let t := set_xy (shell_x t - 8) (shell_y t) t in t ← draw (draw_rect (shell_x t) (shell_y t) 8 15 0 0x6495ED true) t; Some (true, t, y)
  | Redraw =>
      let t := set_xy 58 (shell_y t) t in
      t ← draw (draw_rect (shell_x t) (shell_y t) (780 - shell_x t) line_height 0 0x6495ED true) t;
      t ← draw_text l t;
      Some (true, t, y)
  | Echo c => t ← draw (draw_char (shell_x t) (shell_y t) c 0xFFFFFF) t; Some (true, set_xy (shell_x t + 8) (shell_y t) t, y)
  | Run cmd =>
      t ← shell_newline t;
      '(running, t, y) ← shell_execute ticks fuel cmd t y;
      if negb running then Some (false, t, y) else t ← shell_prompt t; Some (true, t, y)
  end.

Lemma redraw_loop_eq n : forall (i : nat) b t, (i + n <= length b)%nat -> redraw_loop n (Z.of_nat i) b t = draw_text (take n (drop i b)) t.
Proof.
  induction n as [|n IH]; intros i b t Hl; [done |]. cbn [redraw_loop]. rewrite fetch_ok.
  destruct (lookup_lt_is_Some_2 b i ltac:(lia)) as [c Ec]. rewrite Ec, (drop_S _ _ _ Ec). cbn [mbind option_bind take draw_text].
  destruct (draw _ t) as [t1|]; [| done]. cbn [mbind option_bind]. replace (Z.of_nat i + 1) with (Z.of_nat (S i)) by lia. by rewrite IH by lia.
Qed.

Lemma redraw_ok e a t y : editor_ok e a -> (t ← shell_redraw_cmd e t; Some (true, t, y)) = perform Redraw (line a) t y.
Proof.
  intros [Hbuf [Hp Ht] [_ Hl] _ _ _]. unfold shell_redraw_cmd, perform. rewrite Hp, Nat2Z.id. cbn [mbind option_bind].
  change (10 + 6 * 8) with 58. destruct (draw _ _) as [t1|]; [| done]. cbn [mbind option_bind].
  rewrite (redraw_loop_eq (length (line a)) 0) by lia. by rewrite drop_0, Ht.
Qed.

(** The machine after an effect; a stopped machine keeps the editor [stopped]. *)
Definition finish e stopped (r : option (bool * term * sys)) : option (bool * machine (hw := hw) (nic := nic)) :=
  '(running, t, y) ← r; Some (running, Machine (if running : bool then e else stopped) t y).

Lemma process_char_ok c e a t y : editor_ok e a ->
  exists e' stopped, editor_ok e' (key c a).1 /\
    shell_process_char ticks fuel c (Machine e t y) = finish e' stopped (perform (key c a).2 (line (key c a).1) t y).
Proof.
  intros He. unfold shell_process_char, key. cbn [m_editor m_term m_sys]. change Keyboard.SPECIAL_KEY_UP with 0x80. change Keyboard.SPECIAL_KEY_DOWN with 0x81.
  destruct ((c =? 10) || (c =? 13)).
  { destruct (save_command_ok e a He) as (e1 & -> & [Hs _] & He'). cbn [fst snd mbind option_bind perform]. exists (set_cmd (cmd_buffer e1) 0 e1), e1. split; [exact He' |].
    destruct (shell_newline t) as [t1|]; [| done]. cbn [mbind option_bind]. rewrite Hs. cbn [mbind option_bind].
    destruct (shell_execute ticks fuel (line a) t1 y) as [[[running t2] y2]|]; [| done]. cbn [mbind option_bind].
    destruct running; cbn [negb]; [| done]. by destruct (shell_prompt t2). }
  pose proof He as [Hbuf [Hp Ht] [Hc Hl] Ha (Hcount & Hpast & Hent) [Hpos Hat]].
  assert (forall e' a' f, editor_ok e' a' -> (t ← shell_redraw_cmd e' t; Some (true, Machine e' t y)) = finish e' f (perform Redraw (line a') t y)) as HR.
  { intros e' a' f He'. rewrite <- (redraw_ok e' a' t y He'). by destruct (shell_redraw_cmd e' t). }
  destruct (c =? 8).
  { rewrite Hp, Z.gtb_ltb. destruct (line a) as [|c0 l0] eqn:El; cbn [length].
    - exists e, e. by split.
    - destruct (Z.ltb_spec 0 (Z.of_nat (S (length l0)))); [| lia]. rewrite <- El. cbn [fst snd perform].
      exists (set_cmd (cmd_buffer e) (Z.of_nat (S (length l0)) - 1) e), e. split.
      + assert (removelast (line a) = take (length l0) (line a)) as Er.
        { rewrite El. clear. revert c0. induction l0 as [|c1 l0 IH]; intros c0; [done |]. change (c0 :: removelast (c1 :: l0) = c0 :: take (length l0) (c1 :: l0)). by rewrite <- IH. }
        assert (length (removelast (line a)) = length l0) as Hrl by (rewrite Er, length_take, El; cbn; lia).
        split; cbn [cmd_buffer cmd_pos history history_count history_pos set_cmd line past at_]; [done | rewrite Hrl; split; [lia |] | | done | done | done].
        * rewrite Er, El, <- Ht, take_take. f_equal. cbn. lia.
        * split; [rewrite Er, El; by apply Forall_take | rewrite Hrl; cbn in Hl; lia].
      + by destruct (draw _ _). }
  destruct (c =? 0x1B).
  { destruct (clear_command_ok e a (at_ a) He Hat) as (e' & E & He'). rewrite <- Hpos in E. replace (set_history_pos (history_pos e) e) with e in E by (by destruct e).
    rewrite E. cbn [fst snd mbind option_bind]. exists e', e. split; [done | by apply (HR e' (Line [] (past a) (at_ a)))]. }
  destruct (c =? 0x80).
  { rewrite Hpos, Z.gtb_ltb. destruct (at_ a) as [|i] eqn:Ei; [by exists e, e |]. destruct (Z.ltb_spec 0 (Z.of_nat (S i))); [| lia].
    replace (Z.of_nat (S i) - 1) with (Z.of_nat i) by lia. destruct (recall_ok e a i He ltac:(lia)) as (e' & -> & He'). cbn [fst snd mbind option_bind].
    exists e', e. split; [done | by apply HR]. }
  destruct (c =? 0x81).
  { rewrite Hpos, Hcount. destruct (Nat.ltb_spec (S (at_ a)) (length (past a))).
    - destruct (Z.ltb_spec (Z.of_nat (at_ a)) (Z.of_nat (length (past a)) - 1)); [| lia]. replace (Z.of_nat (at_ a) + 1) with (Z.of_nat (S (at_ a))) by lia.
      destruct (recall_ok e a (S (at_ a)) He ltac:(lia)) as (e' & -> & He'). cbn [fst snd mbind option_bind]. exists e', e. split; [done | by apply HR].
    - destruct (Z.ltb_spec (Z.of_nat (at_ a)) (Z.of_nat (length (past a)) - 1)); [lia |]. destruct (Nat.ltb_spec (at_ a) (length (past a))).
      + destruct (Z.ltb_spec (Z.of_nat (at_ a)) (Z.of_nat (length (past a)))); [| lia].
        destruct (clear_command_ok e a (length (past a)) He ltac:(lia)) as (e' & -> & He'). cbn [fst snd mbind option_bind]. exists e', e. split; [done | by apply (HR e' (Line [] (past a) (length (past a))))].
      + destruct (Z.ltb_spec (Z.of_nat (at_ a)) (Z.of_nat (length (past a)))); [lia |]. by exists e, e. }
  rewrite Z.geb_leb. fold (printable c). destruct (printable c) eqn:Epr; [| by exists e, e]. rewrite Hp. change (SHELL_BUFFER_SIZE - 1) with 255.
  destruct (Nat.ltb_spec (length (line a)) 255); [| by destruct (Z.ltb_spec (Z.of_nat (length (line a))) 255); [lia | exists e, e]].
  destruct (Z.ltb_spec (Z.of_nat (length (line a))) 255); [| lia]. rewrite store_ok by lia. cbn [fst snd mbind option_bind perform].
  eexists (set_cmd (<[length (line a) := c]> (cmd_buffer e)) (Z.of_nat (length (line a)) + 1) e), e. split; [| by destruct (draw _ _)].
  split; cbn [cmd_buffer cmd_pos history history_count history_pos set_cmd line past at_]; [by rewrite length_insert | | | done | done | done].
  - rewrite length_app. cbn [length]. split; [lia |]. rewrite Nat.add_1_r, (take_S_r _ _ c) by (apply list_lookup_insert_eq; lia).
    by rewrite take_insert_ge, Ht by lia.
  - rewrite length_app. cbn [length]. split; [apply Forall_app; split; [done | by constructor] | lia].
Qed.

(** A run of keys, up to the first that stops the machine. *)
Fixpoint shell_keys (cs : list Z) (m : machine (hw := hw) (nic := nic)) : option (bool * machine (hw := hw) (nic := nic)) :=
  match cs with
  | [] => Some (true, m)
  | c :: cs => '(running, m) ← shell_process_char ticks fuel c m; if running : bool then shell_keys cs m else Some (false, m)
  end.
Fixpoint editor_keys (cs : list Z) a t y : option (bool * line_editor * term * sys (hw := hw) (nic := nic)) :=
  match cs with
  | [] => Some (true, a, t, y)
  | c :: cs =>
      let (a', f) := key c a in
      '(running, t, y) ← perform f (line a') t y;
      if running : bool then editor_keys cs a' t y else Some (false, a', t, y)
  end.

Lemma shell_keys_ok cs : forall e a t y, editor_ok e a ->
  match editor_keys cs a t y with
  | Some (running, a', t', y') => exists e', shell_keys cs (Machine e t y) = Some (running, Machine e' t' y') /\ (running = true -> editor_ok e' a')
  | None => shell_keys cs (Machine e t y) = None
  end.
Proof.
  induction cs as [|c cs IH]; intros e a t y He; [by exists e |]. cbn [shell_keys editor_keys].
  destruct (process_char_ok c e a t y He) as (e' & stopped & He' & ->). destruct (key c a) as [a' f]. cbn [fst snd] in He' |- *. unfold finish.
  destruct (perform f (line a') t y) as [[[running t1] y1]|]; [| done]. cbn [mbind option_bind]. destruct running; [by apply IH |]. by exists stopped.
Qed.

(** C36. The line editor: whatever keys are typed, in whatever order, the shell does
    what an editor on lists does that keeps the line typed, the last 16 lines and the
    position among them: it runs exactly the lines entered and shows exactly the
    changes of the line, its buffers of 256 characters always hold these
    lines as strings, and no key writes or reads outside them. *)
Theorem shell_refines_editor cs t y :
  match editor_keys cs (Line [] [] 0) t y with
  | Some (running, a, t', y') => exists e, shell_keys cs (Machine editor_init t y) = Some (running, Machine e t' y') /\ (running = true -> editor_ok e a)
  | None => shell_keys cs (Machine editor_init t y) = None
  end.
Proof. apply shell_keys_ok, editor_init_ok. Qed.
End refinement.

(** A line, another one recalled with the arrow and shortened. *)
Example key_example :
  let go cs := fold_left (fun '(a, fs) c => let (a', f) := key c a in (a', fs ++ [f])) cs (Line [] [] 0, []) in
  go [108; 115; 10; 0x80; 8; 13] = (Line [] [[108; 115]; [108]] 2,
    [Echo 108; Echo 115; Run [108; 115]; Redraw; Erase; Run [108]]).
Proof. reflexivity. Qed.

(** ** Addresses *)

Definition is_digit (c : Z) : bool := (48 <=? c) && (c <=? 57).

(** The value that the parser gives to digits. *)
Definition octet_of s (o : Z) : Z := fold_left (fun o c => i32 (o * 10 + (c - 48))) s o.

Lemma parse_digits s rest ip o count : forallb is_digit s = true -> count < 4 ->
  parse_ip_loop (s ++ rest) ip o count = parse_ip_loop rest ip (octet_of s o) count.
Proof.
  intros Hs Hc. revert o. induction s as [|c s IH]; intros o; [done |]. cbn [forallb] in Hs. apply andb_true_iff in Hs as [Hd Hs].
  cbn [app parse_ip_loop octet_of fold_left]. destruct (Z.ltb_spec count 4); [| lia]. unfold is_digit in Hd. rewrite Hd. by apply IH.
Qed.

(** The decimal numeral of a byte, and back. *)
Definition octet_ok (v : Z) : bool :=
  match utoa_padded v 10 0 32 with Some s => forallb is_digit s && (octet_of s 0 =? v) && (length s <=? 3)%nat | None => false end.
Lemma octets_ok : forallb octet_ok (seqZ 0 256) = true.
Proof. vm_compute. reflexivity. Qed.

Lemma octet_string v : 0 <= v < 256 ->
  exists s, utoa_padded v 10 0 32 = Some s /\ forallb is_digit s = true /\ octet_of s 0 = v /\ (length s <= 3)%nat.
Proof.
  intros Hv. pose proof octets_ok as H. rewrite forallb_forall in H. specialize (H v). unfold octet_ok in H.
  destruct (utoa_padded v 10 0 32) as [s|]; [| by assert (false = true) by (apply H, list_elem_of_In, elem_of_seqZ; lia)].
  assert (forallb is_digit s && (octet_of s 0 =? v) && (length s <=? 3)%nat = true) as E by (apply H, list_elem_of_In, elem_of_seqZ; lia).
  apply andb_true_iff in E as [E E3]. apply andb_true_iff in E as [E1 E2]. apply Z.eqb_eq in E2. apply Nat.leb_le in E3. by exists s.
Qed.

Lemma vsprintf_octet n fmt v args s : 0 <= v < 256 -> utoa_padded v 10 0 32 = Some s ->
  vsprintf_loop (S n) (37 :: 100 :: fmt) (VInt v :: args) = (rest ← vsprintf_loop n fmt args; Some (s ++ rest)).
Proof.
  intros Hv Hs. cbn [vsprintf_loop]. change (37 =? 37) with true. cbn [format_width]. change ((48 <=? 100) && (100 <=? 57)) with false. cbv iota beta.
  unfold format_switch. change (100 =? 100) with true. cbn [va_int mbind option_bind]. cbv iota. rewrite (u32_small v) by lia.
  assert (i32 v = v) as -> by (unfold i32; rewrite Z.mod_small; lia). destruct (Z.ltb_spec v 0); [lia |]. rewrite Hs. done.
Qed.

(** C37. Addresses are read as they are printed: for every IPv4 address the four
    decimal numbers that the shell's commands print with [kprintf_to_buffer] are
    at most 15 characters, all of them digits and dots, and [parse_ip] reads the same
    address from them. *)
Theorem parse_ip_roundtrip ip : 0 <= ip < 0x100000000 ->
  exists s, kprintf_to_buffer 80 (chars "%d.%d.%d.%d") (ip_args ip) = Some (s, Z.of_nat (length s)) /\ (length s <= 15)%nat /\
    forallb (fun c => is_digit c || (c =? 46)) s = true /\ parse_ip s = ip.
Proof.
  intros Hip. unfold ip_args. change 0xFF with (Z.ones 8). rewrite !Z.land_ones, !Z.shiftr_div_pow2 by lia.
  change (2 ^ 24) with 0x1000000. change (2 ^ 16) with 0x10000. change (2 ^ 8) with 0x100.
  set (a := ip / 0x1000000 mod 0x100). set (b := ip / 0x10000 mod 0x100). set (c := ip / 0x100 mod 0x100). set (d := ip mod 0x100).
  assert (0 <= a < 256 /\ 0 <= b < 256 /\ 0 <= c < 256 /\ 0 <= d < 256) as (Ha & Hb & Hc & Hd) by (repeat split; apply Z.mod_pos_bound; lia).
  assert (ip = ((a * 0x100 + b) * 0x100 + c) * 0x100 + d) as Eip by (subst a b c d; zlia). clearbody a b c d.
  destruct (octet_string a Ha) as (sa & Ea & Da & Oa & La), (octet_string b Hb) as (sb & Eb & Db & Ob & Lb),
    (octet_string c Hc) as (sc & Ec & Dc & Oc & Lc), (octet_string d Hd) as (sd & Ed & Dd & Od & Ld).
  exists (sa ++ 46 :: sb ++ 46 :: sc ++ 46 :: sd). split; [| split; [| split]].
  - unfold kprintf_to_buffer, vsprintf. change (chars "%d.%d.%d.%d") with [37; 100; 46; 37; 100; 46; 37; 100; 46; 37; 100]. cbn [length].
    assert (forall n fmt args, vsprintf_loop (S n) (46 :: fmt) args = (rest ← vsprintf_loop n fmt args; Some (46 :: rest))) as Hdot by done.
    rewrite (vsprintf_octet _ _ a _ sa Ha Ea), Hdot, (vsprintf_octet _ _ b _ sb Hb Eb), Hdot, (vsprintf_octet _ _ c _ sc Hc Ec), Hdot, (vsprintf_octet _ _ d _ sd Hd Ed).
    cbn [vsprintf_loop mbind option_bind]. by rewrite app_nil_r.
  - rewrite !length_app. cbn [length]. rewrite !length_app. cbn [length]. rewrite !length_app. cbn [length]. lia.
  - assert (forall s, forallb is_digit s = true -> forallb (fun c => is_digit c || (c =? 46)) s = true) as Hdd.
    { intros s Hs. rewrite forallb_forall in *. intros c0 Hc0. by rewrite (Hs c0 Hc0). }
    repeat (rewrite forallb_app, Hdd by done; cbn [forallb]; change (is_digit 46 || (46 =? 46)) with true; cbn [andb]). by apply Hdd.
  - assert (forall r x o n, n < 4 -> parse_ip_loop (46 :: r) x o n = parse_ip_loop r (u32 (Z.lor (Z.shiftl x 8) (Z.land o 0xFF))) 0 (n + 1)) as Hdot.
    { intros r x o n Hn. cbn [parse_ip_loop]. by destruct (Z.ltb_spec n 4); [| lia]. }
    assert (forall x o, 0 <= x < 0x1000000 -> 0 <= o < 256 -> u32 (Z.lor (Z.shiftl x 8) (Z.land o 0xFF)) = x * 0x100 + o) as Hlor.
    { intros x o Hx Ho. change 0xFF with (Z.ones 8). rewrite Z.land_ones, (Z.mod_small o) by lia. rewrite lor_add by lia. apply u32_small. lia. }
    unfold parse_ip. rewrite parse_digits, Oa, (Hdot _ 0 a 0), (Hlor 0 a), parse_digits, Ob, (Hdot _ _ b), Hlor, parse_digits, Oc, (Hdot _ _ c), Hlor by (done || lia).
    rewrite <- (app_nil_r sd), parse_digits, Od by (done || lia). cbn [parse_ip_loop]. change (0 + 1 + 1 + 1 =? 3) with true. cbv iota. rewrite Hlor by lia. lia.
Qed.

Lemma parse_ip_roundtrip_witness : exists s, kprintf_to_buffer 80 (chars "%d.%d.%d.%d") (ip_args 0x0A000202) = Some (s, Z.of_nat (length s)) /\ parse_ip s = 0x0A000202.
Proof. destruct (parse_ip_roundtrip 0x0A000202 ltac:(lia)) as (s & E & _ & _ & H). exists s. split; [exact E | exact H]. Defined.

(** Numbers above 255 are reduced, and a fifth part is ignored. *)
Example parse_ip_lax : parse_ip (chars "1.2.3.260") = 0x01020304 /\ parse_ip (chars "1.2.3.4.5") = 0x01020304.
Proof. split; reflexivity. Qed.

(** ** The arguments of write *)

(** The quotes at the start of the text are skipped before the test for them: the
    closing one is written to the file. *)
Lemma parse_write_quotes args name content : parse_write args = Some (name, content) -> hd 0 content <> 34 /\ hd 0 content <> 39.
Proof.
  unfold parse_write. destruct (take_name 12 _) as [filename args'].
  assert (forall l c r, skip (fun c => is_quote c || is_blank c) l = c :: r -> is_quote c = false) as Hs.
  { intros l. induction l as [|c0 l IH]; intros c r; [done |]. cbn [skip]. destruct (is_quote c0 || is_blank c0) eqn:E; [apply IH |].
    intros [= -> _]. by apply orb_false_iff in E as [E _]. }
  destruct (skip _ args') as [|c r] eqn:E; [done |]. pose proof (Hs _ _ _ E) as Hq. rewrite Hq. intros [= _ <-]. cbn [hd].
  unfold is_quote in Hq. zbool. lia.
Qed.
Example parse_write_example : parse_write (chars "a.txt 'b c'") = Some (chars "a.txt", chars "b c'").
Proof. reflexivity. Qed.
