(* ===== verification/Reports.v ===== *)
(** * Reports

    The functions that print the state of a component, on the debug console or on the
    screen: [scheduler_print_threads] ([scheduler.c]), [physical_print_stats] and
    [draw_memory_bitmap] ([pmm.c]), [malloc_print_stats] ([memory.c]),
    [pci_print_devices] ([pci.c]), [netdev_list] ([netdev.c]) and
    [arp_print_table] ([arp.c]).  They change nothing but the screen.  Where a
    format asks for an [int] and the argument has 64 bits, the low half is
    printed, as on x86-64. *)

From S2P Require Import Prelude Links Digits Debug Graphic.
From S2P Require Bitmap Pmm Heap Thread Sched Pci Netdev Arp.
From stdpp Require Import strings.
#[local] Open Scope Z_scope.

(** ** Threads *)

Section threads.
Implicit Type s : Sched.sched.

(** The threads from [t] on along [next]; [fuel] bounds their number. *)
Fixpoint thread_lines (fuel : nat) (line : Thread.thread -> option (list Z)) (t : Z) s : option (list (option (list Z))) :=
  match fuel with
  | O => None
  | S fuel' =>
      if t =? 0 then Some []
      else
        th ← Sched.load t s;
        rest ← thread_lines fuel' line (Thread.next th) s;
        Some (line th :: rest)
  end.

Definition ready_line (th : Thread.thread) : option (list Z) :=
  DEBUG_INFO "    - %s (TID=%d, CPU=%d%%)" [VStr (Some (c_string (Thread.name th))); VInt (Thread.tid th); VInt (Thread.avg_cpu_usage th)].
Definition sleep_line (th : Thread.thread) : option (list Z) :=
  DEBUG_INFO "  - %s (TID=%d, wake@%lu)" [VStr (Some (c_string (Thread.name th))); VInt (Thread.tid th); VLong (Thread.wake_time th)].

Definition queue_lines (fuel : nat) (p : Z) s : option (list (option (list Z))) :=
  h ← Sched.head_at p s;
  if negb (h =? 0) then
    l ← thread_lines fuel ready_line h s;
    Some (DEBUG_INFO "  Priority %d:" [VInt p] :: l)
  else Some [].

(** The name and the number printed for the current thread. *)
Definition current_of s : option (list Z * Z) :=
  if Sched.current_thread s =? 0 then Some (chars "none", 0)
  else th ← Sched.load (Sched.current_thread s) s; Some (c_string (Thread.name th), Thread.tid th).

Definition scheduler_print_threads (fuel : nat) s : option (list Z) :=
  current ← current_of s;
  ready ← mapM (fun p => queue_lines fuel p s) (seqZ 0 Thread.PRIORITY_LEVELS);
  sleeping ← (if negb (Sched.sleep_queue s =? 0) then
                l ← thread_lines fuel sleep_line (Sched.sleep_queue s) s; Some (DEBUG_INFO "Sleep queue:" [] :: l)
              else Some []);
  printed ([DEBUG_INFO "=== Thread List ===" []; DEBUG_INFO "Current: %s (TID=%d)" [VStr (Some current.1); VInt current.2]; DEBUG_INFO "Ready queues:" []] ++
    concat ready ++ sleeping ++
    [DEBUG_INFO "Stats: switches=%u, boosts=%u, demotes=%u" [VInt (Sched.total_switches (Sched.stats s)); VInt (Sched.priority_boosts (Sched.stats s)); VInt (Sched.priority_demotions (Sched.stats s))]]).
End threads.

(** ** Memory *)

Definition physical_print_stats (x y : Z) (p : Pmm.pmm) (g : graphic) : option graphic :=
  let total_kb := Pmm.total_memory p / 1024 in
  let used_kb := Pmm.physical_get_used_memory p / 1024 in
  let free_kb := Pmm.physical_get_free_memory p / 1024 in
  let line i fmt args := kprintf (i32 x) (i32 (u64 (y + 15 * i))) (chars fmt) args in
  g ← line 0 "Memory Stats:" [] g;
  g ← line 1 "Total: %d KB (%d MB)" [VInt total_kb; VInt (total_kb / 1024)] g;
  g ← line 2 "Used: %d KB (%d MB)" [VInt used_kb; VInt (used_kb / 1024)] g;
  g ← line 3 "Free: %d KB (%d MB)" [VInt free_kb; VInt (free_kb / 1024)] g;
  g ← line 4 "Managed blocks: %d" [VInt (Bitmap.total_blocks (Pmm.phys_mem p))] g;
  line 5 "Free blocks: %d" [VInt (Bitmap.bitmap_get_free_blocks (Pmm.phys_mem p))] g.

Definition malloc_print_stats (x y : Z) (h : Heap.heap) (g : graphic) : option graphic :=
  let line i fmt args := kprintf (i32 x) (i32 (u64 (y + 15 * i))) (chars fmt) args in
  g ← line 0 "Malloc Stats:" [] g;
  g ← line 1 "Total allocated: %d KB" [VInt (Heap.total_allocated h / 1024)] g;
  g ← line 2 "Active allocations: %d" [VInt (Heap.allocation_count h)] g;
  line 3 "Free memory: %d KB" [VInt (Heap.malloc_get_free_memory h / 1024)] g.

(** The side of a square and the blocks drawn in a row and in all: an area in pixels
    is taken for the side. *)
Definition bitmap_layout (blocks width height : Z) : Z * Z * Z :=
  let pixels_per_bit := u64 (width * height) / blocks in
  let pixels_per_bit := if pixels_per_bit <? 1 then 1 else pixels_per_bit in
  let bits_per_row := width / pixels_per_bit in
  let bits_per_row := if bits_per_row =? 0 then 1 else bits_per_row in
  let rows := (blocks + bits_per_row - 1) / bits_per_row in
  let rows := if rows >? height / pixels_per_bit then height / pixels_per_bit else rows in
  (pixels_per_bit, bits_per_row, Z.min blocks (bits_per_row * rows)).

Definition draw_block (x y pixels_per_bit bits_per_row : Z) (bm : list Z) (i : Z) (g : graphic) : option graphic :=
  let px := x + i mod bits_per_row * pixels_per_bit in
  let py := y + i / bits_per_row * pixels_per_bit in
  is_used ← Bitmap.bitmap_test_bit bm i;
  draw_rect (i32 px) (i32 py) (i32 pixels_per_bit) (i32 pixels_per_bit) 1 (if is_used : bool then 0xFF0000 else 0x00FF00) true g.

(** [set] says whether [bitmap_init] has set the pointer [phys_mem.bitmap], which is
    NULL before.  A manager without blocks makes the function divide by zero. *)
Definition draw_memory_bitmap (set : bool) (x y width height : Z) (p : Pmm.pmm) (g : graphic) : option graphic :=
  let m := Pmm.phys_mem p in
  if negb set then Some g
  else if Bitmap.total_blocks m =? 0 then None
  else
    let '(pixels_per_bit, bits_per_row, drawn) := bitmap_layout (Bitmap.total_blocks m) width height in
    g ← for_loop (Z.to_nat drawn) 0 (draw_block x y pixels_per_bit bits_per_row (Bitmap.bitmap m)) g;
    g ← draw_rect (i32 (x - 1)) (i32 (y - 1)) (i32 (width + 2)) (i32 (height + 2)) 1 0xFFFFFF false g;
    g ← draw_rect (i32 x) (i32 (y + height + 5)) 10 10 1 0x00FF00 true g;
    g ← draw_string (i32 (x + 15)) (i32 (y + height + 5)) (chars "Free") 0xFFFFFF g;
    g ← draw_rect (i32 x) (i32 (y + height + 20)) 10 10 1 0xFF0000 true g;
    draw_string (i32 (x + 15)) (i32 (y + height + 20)) (chars "Used") 0xFFFFFF g.

(** ** Devices *)

Definition class_name (class_code : Z) : list Z :=
  if class_code =? 0x00 then chars "Legacy" else if class_code =? 0x01 then chars "Storage"
  else if class_code =? 0x02 then chars "Network" else if class_code =? 0x03 then chars "Display"
  else if class_code =? 0x04 then chars "Multimedia" else if class_code =? 0x05 then chars "Memory"
  else if class_code =? 0x06 then chars "Bridge" else if class_code =? 0x0C then chars "Serial Bus" else chars "Unknown".

Definition device_lines (i : Z) (d : Pci.pci_device) : list (option (list Z)) :=
  [DEBUG_INFO "Device %d: %x:%x.%x - Vendor: %x Device: %x"
     [VInt i; VInt (Pci.bus d); VInt (Pci.device d); VInt (Pci.function d); VInt (Pci.vendor_id d); VInt (Pci.device_id d)];
   DEBUG_INFO "  Class: %x (%s) Subclass: %x" [VInt (Pci.class_code d); VStr (Some (class_name (Pci.class_code d))); VInt (Pci.subclass d)];
   if Pci.vendor_id d =? 0x8086 then
     if Pci.device_id d =? 0x100E then DEBUG_INFO "  Intel 82540EM Gigabit Ethernet" []
     else if Pci.device_id d =? 0x100F then DEBUG_INFO "  Intel 82545EM Gigabit Ethernet" []
     else DEBUG_INFO "  Intel Device" []
   else if Pci.vendor_id d =? 0x1234 then DEBUG_INFO "  QEMU Device" []
   else DEBUG_INFO "  Unknown Vendor" []].

Definition pci_print_devices (p : Pci.pci) : option (list Z) :=
  devices ← mapM (fun i => d ← Pci.pci_devices p !! Z.to_nat i; Some (device_lines i d)) (seqZ 0 (Pci.pci_device_count p));
  printed ([DEBUG_INFO "=== PCI Device List ===" []; DEBUG_INFO "PCI Devices Found: %d" [VInt (Pci.pci_device_count p)]] ++
    concat devices ++ [DEBUG_INFO "=== End PCI Device List ===" []]).

Section network.
Context {nic : Type} {NIC : Netdev.Nic nic}.

(** The bytes of a MAC address and the parts of an IP address. *)
Definition mac_args (mac : list Z) : option (list va) := mapM (fun k => b ← mac !! k; Some (VInt b)) (seq 0 6).
Definition ip_parts (ip : Z) : list va :=
  [VInt (Z.land (Z.shiftr ip 24) 0xFF); VInt (Z.land (Z.shiftr ip 16) 0xFF); VInt (Z.land (Z.shiftr ip 8) 0xFF); VInt (Z.land ip 0xFF)].

Definition netdev_line (d : Netdev.dev nic) (i : Z) : option (list (option (list Z))) :=
  match Netdev.network_get_interface d i with
  | None => Some []
  | Some p =>
      let f := Netdev.get_if d p in
      c ← Netdev.name f !! 0%nat;
      if c =? 0 then Some []
      else
        mac ← mac_args (Netdev.mac_address f);
        Some [DEBUG_INFO "  %s: %s MAC=%02x:%02x:%02x:%02x:%02x:%02x IP=%d.%d.%d.%d"
                ([VStr (Some (c_string (Netdev.name f))); VStr (Some (if Netdev.active f then chars "UP" else chars "DOWN"))] ++ mac ++ ip_parts (Netdev.ip_address f))]
  end.
Definition netdev_list (d : Netdev.dev nic) : option (list Z) :=
  l ← mapM (netdev_line d) (seqZ 0 Netdev.MAX_NETWORK_INTERFACES);
  printed ([DEBUG_INFO "=== Network Interfaces ===" []] ++ concat l ++ [DEBUG_INFO "=== End Network Interfaces ===" []]).
End network.

Definition arp_line (now : Z) (e : Arp.arp_entry) : option (list (option (list Z))) :=
  if Arp.e_valid e then
    mac ← mac_args (Arp.e_mac_address e);
    Some [DEBUG_INFO "  %d.%d.%d.%d -> %02x:%02x:%02x:%02x:%02x:%02x (age: %u)"
            (ip_parts (Arp.e_ip_address e) ++ mac ++ [VInt (u32 (Arp.arp_get_time now - Arp.e_timestamp e))])]
  else Some [].
Definition arp_print_table (now : Z) (a : Arp.arp) : option (list Z) :=
  l ← mapM (arp_line now) (Arp.arp_table a);
  printed ([DEBUG_INFO "=== ARP Table ===" []; DEBUG_INFO "Entries: %d" [VInt (Arp.arp_table_entries a)]] ++ concat l ++ [DEBUG_INFO "=== End ARP Table ===" []]).

(** Of 1000 blocks 6 are drawn in 600 by 150 pixels. *)
Example bitmap_layout_1000 : bitmap_layout 1000 600 150 = (90, 6, 6).
Proof. reflexivity. Qed.

(** ** The thread list is complete *)

(** The threads of a list, in its order. *)
Definition threads_of s (l : list Z) : list Thread.thread := omap (fun t => Sched.load t s) l.

Lemma thread_lines_ok line s l : forall fuel h, sll (Sched.tnext (Thread.threads (Sched.sys s))) h l -> (length l < fuel)%nat ->
  thread_lines fuel line h s = Some (line <$> threads_of s l) /\ length (threads_of s l) = length l.
Proof.
  unfold threads_of. induction l as [|t l IH]; intros fuel h Hs Hf; (destruct fuel as [|fuel]; [cbn in Hf; lia |]); cbn [thread_lines].
  - cbn in Hs. subst h. done.
  - destruct Hs as (-> & Ht & n & Hn & Hs). destruct (Z.eqb_spec t 0); [done |].
    apply fmap_Some in Hn as (th & Hth & ->). change (Sched.load t s = Some th) in Hth.
    cbn [length] in Hf. destruct (IH fuel _ Hs ltac:(lia)) as [Hl Hn]. cbn [omap list_omap]. rewrite Hth. cbn [mbind option_bind]. rewrite Hl.
    cbn. cbn in Hn. by rewrite Hn.
Qed.

Lemma dseg_sll m l : m !! 0 = None -> forall p, dseg (Sched.tlinks m) p l 0 -> sll (Sched.tnext m) (head_or 0 l) l.
Proof.
  intros H0. induction l as [|a l IH]; intros p; cbn; [done |].
  intros [Ha Hs]. unfold Sched.tlinks in Ha. split; [done |]. split; [intros ->; by rewrite H0 in Ha |].
  unfold Sched.tnext. destruct (m !! a) as [th|]; [| done]. injection Ha as _ Hn. exists (Thread.next th). split; [done |]. rewrite Hn. by eapply IH.
Qed.

Lemma queue_lines_ok fuel p h s l : Sched.head_at p s = Some h -> sll (Sched.tnext (Thread.threads (Sched.sys s))) h l -> (length l < fuel)%nat ->
  queue_lines fuel p s = Some (match l with [] => [] | _ => DEBUG_INFO "  Priority %d:" [VInt p] :: (ready_line <$> threads_of s l) end).
Proof.
  intros Hh Hs Hf. unfold queue_lines. rewrite Hh. cbn [mbind option_bind].
  destruct (thread_lines_ok ready_line s l fuel h Hs Hf) as [-> _]. destruct l as [|t l]; [cbn in Hs; by subst h |].
  destruct Hs as (-> & Ht & _). destruct (Z.eqb_spec t 0); done.
Qed.

(** What is printed of the ready queue [l] of priority [p]. *)
Definition ready_report s (p : Z) (l : list Z) : list (option (list Z)) :=
  match l with [] => [] | _ => DEBUG_INFO "  Priority %d:" [VInt p] :: (ready_line <$> threads_of s l) end.
Definition sleep_report s (l : list Z) : list (option (list Z)) :=
  match l with [] => [] | _ => DEBUG_INFO "Sleep queue:" [] :: (sleep_line <$> threads_of s l) end.

(** With the queues [Q] and [S] of a scheduler, [scheduler_print_threads] ends and
    prints the current thread, every ready thread from the highest priority to the
    lowest, in queue order, and every sleeping thread in the order of waking. *)
Theorem scheduler_print_threads_spec fuel s Q S current : Sched.squeues s Q S ->
  (forall p, (length (Q p) < fuel)%nat) -> (length S < fuel)%nat -> current_of s = Some current ->
  scheduler_print_threads fuel s = printed
    ([DEBUG_INFO "=== Thread List ===" []; DEBUG_INFO "Current: %s (TID=%d)" [VStr (Some current.1); VInt current.2]; DEBUG_INFO "Ready queues:" []] ++
     concat ((fun p => ready_report s p (Q p)) <$> (seqZ 0 Thread.PRIORITY_LEVELS)) ++ sleep_report s S ++
     [DEBUG_INFO "Stats: switches=%u, boosts=%u, demotes=%u" [VInt (Sched.total_switches (Sched.stats s)); VInt (Sched.priority_boosts (Sched.stats s)); VInt (Sched.priority_demotions (Sched.stats s))]]).
Proof.
  intros [H0 Hq _ [Hsl _] _ _] Hf HS Hc. unfold scheduler_print_threads. rewrite Hc. cbn [mbind option_bind].
  assert (mapM (fun p => queue_lines fuel p s) (seqZ 0 Thread.PRIORITY_LEVELS) = Some ((fun p => ready_report s p (Q p)) <$> (seqZ 0 Thread.PRIORITY_LEVELS))) as ->.
  { apply mapM_Some, Forall2_fmap_r. assert (forall p, 0 <= p < Thread.PRIORITY_LEVELS -> queue_lines fuel p s = Some (ready_report s p (Q p))) as Hp.
    { intros p Hp. destruct (Hq p Hp) as (h & t & Hh & _ & [Hd -> _ _ _]). eapply queue_lines_ok; [exact Hh | | apply Hf].
      eapply dseg_sll; [exact H0 | exact Hd]. }
    apply Forall2_same_length_lookup_2; [done |]. intros i p p' Hi Hi'. rewrite Hi in Hi'. injection Hi' as <-. apply lookup_seqZ in Hi as [-> ?]. apply Hp. lia. }
  cbn [mbind option_bind]. destruct (thread_lines_ok sleep_line s S fuel _ Hsl HS) as [-> _]. destruct S as [|t S]; [cbn in Hsl; by rewrite Hsl |].
  destruct Hsl as (-> & Ht & _). destruct (Z.eqb_spec t 0); done.
Qed.
