(* ===== verification/Text.v ===== *)
(** * Text on the screen

    When [kprintf] and [draw_string] of [graphic.c] stay inside the framebuffer.
    [format_bound] bounds the text that a format prints from the kinds of its
    arguments; [safe] says that an operation is defined on every screen that is
    large enough and keeps its size. *)

From S2P Require Import Prelude Digits Graphic Shapes.
From stdpp Require Import strings.
#[local] Open Scope Z_scope.

(** ** Operations that stay inside the framebuffer *)

(** On a framebuffer with lines of at least [W] words and [H] lines. *)
Definition safe (W H : Z) (f : graphic -> option graphic) : Prop := forall g, fb_ok g -> W <= stride g -> H <= height g ->
  exists g', f g = Some g' /\ fb_ok g' /\ same_screen g g'.

Lemma safe_some W H : safe W H Some.
Proof. intros g Hg _ _. by exists g. Qed.

Lemma safe_seq W H f1 f2 : safe W H f1 -> safe W H f2 -> safe W H (fun g => g ← f1 g; f2 g).
Proof.
  intros H1 H2 g Hg HW HH. destruct (H1 g Hg HW HH) as (g1 & -> & Hg1 & Ew & Eh & Es).
  destruct (H2 g1 Hg1 ltac:(lia) ltac:(lia)) as (g2 & E2 & Hg2 & Ew2 & Eh2 & Es2). exists g2. cbn. split_and!; [done | done |].
  unfold same_screen. by rewrite Ew2, Eh2, Es2.
Qed.

Lemma safe_eq W H f f' : (forall g, f g = f' g) -> safe W H f -> safe W H f'.
Proof. intros E Hf g. rewrite <- E. apply Hf. Qed.

Lemma safe_loop W H n : forall i body, (forall k, i <= k < i + Z.of_nat n -> safe W H (body k)) -> safe W H (for_loop n i body).
Proof.
  induction n as [|n IH]; intros i body Hb; [apply safe_some |].
  apply (safe_seq W H (body i)); [apply Hb; lia | apply IH; intros k Hk; apply Hb; lia].
Qed.

Lemma safe_range W H a b body : (forall k, a <= k <= b -> safe W H (body k)) -> safe W H (for_range a b body).
Proof. intros Hb. apply safe_loop. intros k Hk. apply Hb. lia. Qed.

Lemma safe_paints W H f S c : paints f S c -> safe W H f.
Proof. intros Hf g Hg _ _. destruct (Hf g Hg) as (g' & ? & ? & ? & _). by exists g'. Qed.

Lemma safe_weaken W H W' H' f : W <= W' -> H <= H' -> safe W H f -> safe W' H' f.
Proof. intros ? ? Hf g Hg HW HH. apply Hf; [done | lia | lia]. Qed.

(** ** Characters *)

Lemma put_safe W H idx color g : fb_ok g -> W <= stride g -> H <= height g -> 0 <= idx < height g * stride g ->
  exists g', put idx color g = Some g' /\ fb_ok g' /\ same_screen g g'.
Proof.
  intros (fb & Ef & Hw & Hh & Hl & Hmax) _ _ Hi. unfold put. rewrite Ef. cbn [mbind option_bind].
  destruct (Z.leb_spec 0 idx); [| lia]. destruct (Z.ltb_spec idx (Z.of_nat (length (words fb)))); [| lia]. cbn [andb].
  eexists. split; [done |]. unfold stride in *. rewrite Ef in *. split; [| by unfold same_screen, stride; rewrite Ef].
  eexists. split; [done |]. unfold stride. cbn in *. rewrite length_insert. split_and!; lia.
Qed.

Lemma font_complete : forallb (fun rows => (length rows =? 8)%nat) font && (length font =? 128)%nat = true.
Proof. vm_compute. reflexivity. Qed.

Lemma font_row c i : 0 <= c < 128 -> 0 <= i < 8 -> exists glyph row, font !! Z.to_nat c = Some glyph /\ glyph !! Z.to_nat i = Some row.
Proof.
  intros Hc Hi. destruct (andb_prop _ _ font_complete) as [H1 H2]. apply Nat.eqb_eq in H2.
  destruct (lookup_lt_is_Some_2 font (Z.to_nat c)) as (glyph & Eg); [lia |]. rewrite forallb_forall in H1.
  specialize (H1 glyph (proj1 (list_elem_of_In _ _) (list_elem_of_lookup_2 _ _ _ Eg))). apply Nat.eqb_eq in H1.
  destruct (lookup_lt_is_Some_2 glyph (Z.to_nat i)) as (row & Er); [lia |]. eauto.
Qed.

Lemma draw_char_safe x y c color : 0 <= x < 0x40000000 -> 0 <= y < 0x40000000 -> 0 <= c < 128 -> safe (x + 8) (y + 8) (draw_char x y c color).
Proof.
  intros Hx Hy Hc. unfold draw_char. rewrite u8_small by lia.
  destruct (font_row c 0 Hc ltac:(lia)) as (glyph & ? & Eg & _). rewrite Eg. cbn [mbind option_bind].
  apply safe_range. intros i Hi. apply safe_range. intros j Hj g Hg HW HH.
  destruct (font_row c i Hc ltac:(lia)) as (gl & row & Eg' & Er). assert (gl = glyph) as -> by congruence. rewrite Er. cbn [mbind option_bind].
  destruct (_ =? 0); [by exists g |]. rewrite !int_ok by lia. cbn [mbind option_bind].
  assert (Hgd := Hg). destruct Hg as (fb & Ef & Hw & Hh & Hl & Hmax). rewrite Ef. cbn [mbind option_bind].
  unfold stride in HW, Hw, Hl, Hmax. rewrite Ef in HW, Hw, Hl, Hmax. set (s := fb_pitch fb / 4) in *.
  assert (0 <= (y + i) * s /\ (y + i) * s + s <= height g * s) as [? ?].
  { split; [apply Z.mul_nonneg_nonneg; lia |]. replace ((y + i) * s + s) with ((y + i + 1) * s) by lia. apply Z.mul_le_mono_nonneg_r; lia. }
  apply (put_safe (x + 8) (y + 8)); [done | unfold stride; by rewrite Ef | done |]. unfold stride. rewrite Ef. fold s. clearbody s. rewrite u64_small by lia. lia.
Qed.

(** Characters that the font has, other than the one that ends a string. *)
Definition printable (l : list Z) : bool := forallb (fun c => (0 <? c) && (c <? 128)) l.

Lemma draw_string_safe color l : forall x y, 0 <= x -> x + 8 * Z.of_nat (length l) < 0x40000000 -> 0 <= y < 0x40000000 -> printable l = true ->
  safe (x + 8 * Z.of_nat (length l)) (y + 8) (draw_string x y l color).
Proof.
  induction l as [|c l IH]; intros x y Hx Hm Hy Hl; cbn [draw_string]; [apply safe_some |]. cbn [length] in *.
  unfold printable in Hl. cbn [forallb] in Hl. apply andb_true_iff in Hl as [Hc Hl]. apply andb_true_iff in Hc as [? ?]. zbool.
  apply (safe_seq _ _ (draw_char x y c color)); [eapply safe_weaken; [| | apply draw_char_safe]; lia |].
  intros g. rewrite int_ok by lia. cbn [mbind option_bind]. revert g. eapply safe_weaken; [| | apply IH]; [lia.. | done].
Qed.

(** ** Numbers *)

Definition digit_text (base value : Z) (n : nat) : Prop := 2 <= base <= 16 /\ 0 <= value < base ^ Z.of_nat n.

Lemma utoa_loop_text base n : forall m value, digit_text base value n -> (n < m)%nat ->
  exists l, utoa_loop m base value = Some l /\ (length l <= n)%nat /\ printable l = true.
Proof.
  induction n as [|n IH]; intros m value [Hb Hv] Hm; (destruct m as [|m]; [lia |]); cbn [utoa_loop].
  { cbn in Hv. destruct (Z.ltb_spec 0 value); [lia |]. by exists []. }
  destruct (Z.ltb_spec 0 value); [| exists []; cbn; split_and!; [done | lia | done]].
  destruct (IH m (value / base)) as (l & -> & Hl & Hp); [split; [done | apply div_base; [lia | done]] | lia |].
  eexists. split; [reflexivity |]. split; [cbn; lia |]. unfold printable in *. cbn [forallb]. rewrite Hp, andb_true_r.
  pose proof (Z.mod_pos_bound value base ltac:(lia)). destruct (Z.ltb_spec (value mod base) 10); apply andb_true_intro; split; apply Z.ltb_lt; lia.
Qed.

Lemma printable_app l k : printable (l ++ k) = printable l && printable k.
Proof. apply forallb_app. Qed.

Lemma printable_replicate n c : printable [c] = true -> printable (replicate n c) = true.
Proof. intros Hc. unfold printable in *. cbn [forallb] in Hc. rewrite andb_true_r in Hc. induction n; cbn; [done | by rewrite Hc]. Qed.

Lemma printable_rev l : printable l = true -> printable (rev l) = true.
Proof. unfold printable. rewrite !forallb_forall. intros Hl c Hc. apply Hl. by apply in_rev. Qed.

(** A 32-bit number has at most 10 digits. *)
Lemma utoa_padded_text value base width pad : base = 10 \/ base = 16 -> width <= 31 -> printable [pad] = true ->
  exists l, utoa_padded value base width pad = Some l /\ (length l <= Nat.max 10 (Z.to_nat width))%nat /\ printable l = true.
Proof.
  intros Hb Hw Hpad. unfold utoa_padded. pose proof (u32_range value) as Hr. set (v := u32 value) in *. clearbody v.
  assert (exists t, (if v =? 0 then Some [48] else utoa_loop 33 base v) = Some t /\ (length t <= 10)%nat /\ printable t = true) as (t & -> & Ht & Hp).
  { destruct (v =? 0); [exists [48]; split_and!; [done | cbn; lia | done] |]. apply utoa_loop_text; [| lia]. split; [lia |]. destruct Hb as [-> | ->]; cbn; lia. }
  cbn [mbind option_bind]. set (k := Z.to_nat (width - Z.of_nat (length t))).
  destruct (Nat.leb_spec (length (t ++ replicate k pad)) 31) as [Hl|Hl]; rewrite length_app, length_replicate in Hl; [| subst k; lia].
  eexists. split; [done |]. rewrite length_rev, length_app, length_replicate. split; [subst k; lia |].
  apply printable_rev. by rewrite printable_app, Hp, printable_replicate.
Qed.

(** ** Formats *)

(** What [format_switch] prints at most, from the kinds of the arguments; None for
    what is not used on the screen. *)
Definition switch_bound (width c : Z) (format : list Z) (args : list va) : option (nat * list va * list Z) :=
  let number := if width <=? 31 then Some (Nat.max 10 (Z.to_nat width)) else None in
  if c =? 100 then match args with VInt _ :: args => n ← number; Some (S n, args, format) | _ => None end
  else if (c =? 117) || (c =? 120) then match args with VInt _ :: args => n ← number; Some (n, args, format) | _ => None end
  else if c =? 112 then match args with VPtr _ :: args => Some (18%nat, args, format) | _ => None end
  else if c =? 115 then match args with VStr (Some s) :: args => if printable s then Some (length s, args, format) else None | _ => None end
  else if c =? 37 then Some (1%nat, args, format)
  else None.

Fixpoint bound_loop (n : nat) (format : list Z) (args : list va) : option nat :=
  match n with
  | O => None
  | S n' =>
      match format with
      | [] => Some 0%nat
      | c :: format =>
          if c =? 37 then
            let '(pad, format) := match format with 48 :: rest => (48, rest) | _ => (32, format) end in
            let '(width, format) := format_width 0 format in
            match format with
            | [] => None
            | c :: format =>
                '(k, args, format) ← switch_bound width c format args;
                rest ← bound_loop n' format args;
                Some (k + rest)%nat
            end
          else if printable [c] then rest ← bound_loop n' format args; Some (S rest) else None
      end
  end.
Definition format_bound (format : list Z) (args : list va) : option nat := bound_loop (S (length format)) format args.

Lemma switch_bound_ok width pad c format args k args' format' : switch_bound width c format args = Some (k, args', format') -> printable [pad] = true ->
  exists l, format_switch width pad c format args = Some (l, args', format') /\ (length l <= k)%nat /\ printable l = true.
Proof.
  intros Hb Hpad. unfold switch_bound in Hb. unfold format_switch.
  set (number := if width <=? 31 then _ else None) in Hb.
  assert (forall n value base, number = Some n -> base = 10 \/ base = 16 ->
    exists l, utoa_padded value base width pad = Some l /\ (length l <= n)%nat /\ printable l = true) as Hn.
  { intros n value base. unfold number. destruct (Z.leb_spec width 31); [| done]. intros [= <-] Hbase. by apply utoa_padded_text. }
  clearbody number. destruct (Z.eqb_spec c 100) as [->|_].
  { destruct args as [|[x|x|x|x] args]; try done. destruct number as [n|]; [| done]. injection Hb as <- <- <-. cbn [va_int mbind option_bind].
    destruct (Hn n (if i32 (u32 x) <? 0 then - i32 (u32 x) else i32 (u32 x)) 10 eq_refl ltac:(by left)) as (l & -> & Hl & Hp).
    eexists. split; [reflexivity |]. destruct (i32 (u32 x) <? 0); cbn; (split; [lia | done]). }
  destruct (Z.eqb_spec c 117) as [->|_].
  { destruct args as [|[x|x|x|x] args]; try done. cbn in Hb. destruct number as [n|]; [| done]. injection Hb as <- <- <-. cbn [va_int mbind option_bind].
    destruct (Hn n (u32 x) 10 eq_refl ltac:(by left)) as (l & -> & Hl & Hp). by eexists. }
  destruct (Z.eqb_spec c 120) as [->|_].
  { destruct args as [|[x|x|x|x] args]; try done. cbn in Hb. destruct number as [n|]; [| done]. injection Hb as <- <- <-. cbn [va_int mbind option_bind].
    destruct (Hn n (u32 x) 16 eq_refl ltac:(by right)) as (l & -> & Hl & Hp). by eexists. }
  cbn [orb] in Hb. destruct (Z.eqb_spec c 112) as [->|_].
  { destruct args as [|[x|x|x|x] args]; try done. injection Hb as <- <- <-. cbn [va_ptr mbind option_bind].
    destruct (utoa_padded_text (u64 x) 16 16 48 ltac:(by right) ltac:(lia) eq_refl) as (l & -> & Hl & Hp).
    eexists. split; [reflexivity |]. cbn in *. split; [lia | done]. }
  destruct (Z.eqb_spec c 115) as [->|_].
  { destruct args as [|[x|x|x|[s|]] args]; try done. destruct (printable s) eqn:E; [| done]. injection Hb as <- <- <-.
    exists s. split_and!; [done | lia | done]. }
  destruct (Z.eqb_spec c 37) as [->|_]; [| done]. injection Hb as <- <- <-. by eexists.
Qed.

(** Formats whose arguments have the right kinds print a text of this length at most,
    without a character that the font lacks. *)
Lemma format_bound_ok format args n : format_bound format args = Some n ->
  exists l, vsprintf format args = Some l /\ (length l <= n)%nat /\ printable l = true.
Proof.
  unfold format_bound, vsprintf. generalize (S (length format)) as m. intros m. revert format args n.
  induction m as [|m IH]; intros format args n Hb; [done |]. cbn [bound_loop vsprintf_loop] in *.
  destruct format as [|c format]; [injection Hb as <-; by exists [] |].
  destruct (c =? 37).
  - set (pf := match format with 48 :: rest => (48, rest) | _ => (32, format) end) in *.
    assert (printable [pf.1] = true) as Hpad by (subst pf; destruct format as [|z l]; [done | by destruct (decide (z = 48)) as [->|]; [| destruct z as [|p|p]; try done; do 6 (destruct p; try done)]]).
    destruct pf as [pad format1]. destruct (format_width 0 format1) as [width format2]. destruct format2 as [|c2 format2]; [done |].
    destruct (switch_bound width c2 format2 args) as [[[k args'] format3]|] eqn:Es; [| done]. cbn [mbind option_bind] in Hb.
    destruct (switch_bound_ok width pad c2 format2 args k args' format3 Es Hpad) as (l & -> & Hl & Hp). cbn [mbind option_bind].
    destruct (bound_loop m format3 args') as [r|] eqn:Er; [| done]. injection Hb as <-.
    destruct (IH _ _ _ Er) as (rest & -> & Hr & Hpr). cbn [mbind option_bind]. eexists. split; [reflexivity |].
    rewrite length_app, printable_app, Hp, Hpr. split; [lia | done].
  - destruct (printable [c]) eqn:Ec; [| done]. destruct (bound_loop m format args) as [r|] eqn:Er; [| done]. injection Hb as <-.
    destruct (IH _ _ _ Er) as (rest & -> & Hr & Hpr). cbn [mbind option_bind]. eexists. split; [reflexivity |].
    cbn [length]. split; [lia |]. change (c :: rest) with ([c] ++ rest). by rewrite printable_app, Ec, Hpr.
Qed.

Lemma c_string_printable l : printable l = true -> c_string l = l.
Proof.
  induction l as [|c l IH]; [done |]. unfold printable. cbn [forallb c_string]. intros [Hc Hl]%andb_true_iff.
  apply andb_true_iff in Hc as [? ?]. zbool. destruct (Z.eqb_spec c 0); [lia |]. by rewrite IH.
Qed.

Lemma kprintf_safe x y format args n : format_bound format args = Some n -> (n < 1024)%nat -> 0 <= x < 0x10000 -> 0 <= y < 0x10000 ->
  safe (x + 8 * Z.of_nat n) (y + 8) (kprintf x y format args).
Proof.
  intros Hb Hn Hx Hy. destruct (format_bound_ok _ _ _ Hb) as (l & El & Hl & Hp).
  apply (safe_eq _ _ (draw_string x y l 0xFFFFFF)).
  - intros g. unfold kprintf. rewrite El. cbn [mbind option_bind]. destruct (Nat.ltb_spec (length l) 1024); [| lia]. by rewrite c_string_printable.
  - eapply safe_weaken; [| | apply draw_string_safe]; try done; lia.
Qed.
