(* ===== verification/Boot.v ===== *)
(** * The entry point

    [main.c]: [kmain], which initialises the components in turn, shows what it
    does on the screen and on the debug console, creates the first threads and
    starts the scheduler; the entry functions of the threads; [rand] and [srand].

    The state is that of all the components.  The memory manager is the one of
    the thread table and the hardware the one of the network card: [on_world] and
    [on_hw] lend them to the other components.  [Halted] is the result of [hcf].
    Interrupts are off until [scheduler_add] turns them on; from there to the start
    of the scheduler an interrupt only counts a tick ([irq_before_start]) or stores
    a key, and the steps are those of [kmain] alone.  What the components write on the debug console themselves is
    not in [k_log]. *)

From S2P Require Import Prelude Digits Debug Graphic.
From S2P Require Bitmap Pmm Vmm Thread Sched Ports Interrupts Timer Pci E1000 Netdev Ip Dhcp Stack Block Ata Fat16 Acpi Keyboard Shell Reports.
From stdpp Require Import strings.
#[local] Open Scope Z_scope.

(** ** Random numbers *)

Definition rand (next : Z) : Z * Z :=
  let next := u64 (next * 1103515245 + 12345) in
  (u32 (next / 65536) mod 32768, next).

Definition srand (seed : Z) : Z := u32 seed.

(** The characters of [__TIME__], "hh:mm:ss". *)
Definition time_seed (t : list Z) : Z :=
  let c k := nth k t 0 in
  c 7%nat + c 6%nat * 10 + c 4%nat * 60 + c 3%nat * 600 + c 1%nat * 3600 + c 0%nat * 36000.

Definition random_color (next : Z) : Z * Z :=
  let '(r, next) := rand next in
  let '(g, next) := rand next in
  let '(b, next) := rand next in
  (Z.lor (Z.lor (Z.shiftl (Z.land r 0xFF) 16) (Z.shiftl (Z.land g 0xFF) 8)) (Z.land b 0xFF), next).

(** ** What the boot loader and the linker provide *)

Record loader := Loader {
  base_revision_supported : bool;
  framebuffers : option (list limine_framebuffer);
  memmap : option (list Pmm.memmap_entry);
  hhdm : option Z;
  LIMINE_MEMMAP_USABLE : Z;
  bitmap_storage_address : Z;
  gdt_address : Z;
  tss_address : Z;
  idt_address : Z;
  exception_handlers : Z -> Z;
  irq_handlers : Z -> Z;
  thread_entry_wrapper : Z;
  idle_entry : Z;
  shell_thread : Z;
  worker_thread : Z;
  cpu_worker : Z;
  TIME : list Z;
}.

Section kernel.
Context {hw : Type} {PORTS : Ports.Ports hw} {MMIO : E1000.Mmio hw}.
#[local] Existing Instance Ata.ata_device.
#[local] Existing Instance Vmm.pmm_allocator.
#[local] Existing Instance E1000.e1000_nic.

Notation world := (E1000.world hw Pmm.pmm).
Notation disk := (list Ata.ata_drive * hw)%type.

Record kernel := Kernel {
  k_graphic : graphic;
  k_log : list Z;
  k_next : Z;
  k_sched : Sched.sched;
  k_segments : option Interrupts.segments;
  k_idt : list Interrupts.idt_entry;
  k_cpu : Interrupts.cpu;
  k_pci : Pci.pci;
  k_stack : Stack.stack world;
  k_fs : @Fat16.fat16 disk;
  k_acpi : bool;
}.
Implicit Type k : kernel.

Definition set_graphic g k := Kernel g (k_log k) (k_next k) (k_sched k) (k_segments k) (k_idt k) (k_cpu k) (k_pci k) (k_stack k) (k_fs k) (k_acpi k).
Definition set_log l k := Kernel (k_graphic k) l (k_next k) (k_sched k) (k_segments k) (k_idt k) (k_cpu k) (k_pci k) (k_stack k) (k_fs k) (k_acpi k).
Definition set_next n k := Kernel (k_graphic k) (k_log k) n (k_sched k) (k_segments k) (k_idt k) (k_cpu k) (k_pci k) (k_stack k) (k_fs k) (k_acpi k).
Definition set_sched s k := Kernel (k_graphic k) (k_log k) (k_next k) s (k_segments k) (k_idt k) (k_cpu k) (k_pci k) (k_stack k) (k_fs k) (k_acpi k).
Definition set_tables seg idt c k := Kernel (k_graphic k) (k_log k) (k_next k) (k_sched k) seg idt c (k_pci k) (k_stack k) (k_fs k) (k_acpi k).
Definition set_pci p k := Kernel (k_graphic k) (k_log k) (k_next k) (k_sched k) (k_segments k) (k_idt k) (k_cpu k) p (k_stack k) (k_fs k) (k_acpi k).
Definition set_stack st k := Kernel (k_graphic k) (k_log k) (k_next k) (k_sched k) (k_segments k) (k_idt k) (k_cpu k) (k_pci k) st (k_fs k) (k_acpi k).
Definition set_fs f k := Kernel (k_graphic k) (k_log k) (k_next k) (k_sched k) (k_segments k) (k_idt k) (k_cpu k) (k_pci k) (k_stack k) f (k_acpi k).
Definition set_acpi b k := Kernel (k_graphic k) (k_log k) (k_next k) (k_sched k) (k_segments k) (k_idt k) (k_cpu k) (k_pci k) (k_stack k) (k_fs k) b.

Definition k_pmm k : Pmm.pmm := Thread.t_pmm (Sched.sys (k_sched k)).
Definition set_pmm p k := set_sched (Sched.set_sys (Thread.set_t_pmm p (Sched.sys (k_sched k))) (k_sched k)) k.
Definition k_dev k : Netdev.dev world := Ip.n_dev (Stack.st_net (k_stack k)).
Definition k_world k : world := E1000.set_vm (Vmm.set_pages (k_pmm k) (E1000.vm (Netdev.card (k_dev k)))) (Netdev.card (k_dev k)).
Definition set_world w k := set_pmm (Vmm.pages (E1000.vm w)) (set_stack (Stack.set_stack_dev (Netdev.set_card w (k_dev k)) (k_stack k)) k).

(** ** Actions *)

Inductive outcome (A : Type) := Halted (k : kernel) | Running (a : A) (k : kernel).
Arguments Halted {A} k.
Arguments Running {A} a k.

Definition boot (A : Type) : Type := kernel -> option (outcome A).

#[global] Instance boot_ret : MRet boot := fun A a k => Some (Running a k).
#[global] Instance boot_bind : MBind boot := fun A B f m k =>
  match m k with
  | None => None
  | Some (Halted k) => Some (Halted k)
  | Some (Running a k) => f a k
  end.

Definition hcf {A} : boot A := fun k => Some (Halted k).
Definition get : boot kernel := fun k => Some (Running k k).
(** A value that is computed from the state. *)
Definition read {A} (f : kernel -> option A) : boot A := fun k => a ← f k; Some (Running a k).
Definition modify (f : kernel -> kernel) : boot () := fun k => Some (Running () (f k)).
Definition on {S R} (proj : kernel -> S) (set : S -> kernel -> kernel) (f : S -> option (R * S)) : boot R :=
  fun k => '(r, s) ← f (proj k); Some (Running r (set s k)).
Definition on_ {S} (proj : kernel -> S) (set : S -> kernel -> kernel) (f : S -> option S) : boot () :=
  on proj set (fun s => s ← f s; Some ((), s)).

Definition on_graphic := on_ k_graphic set_graphic.
Definition on_sched {R} := @on Sched.sched R k_sched set_sched.
Definition on_pmm {R} := @on Pmm.pmm R k_pmm set_pmm.
Definition on_world {R} := @on world R k_world set_world.
Definition on_hw {R} (f : hw -> option (R * hw)) : boot R :=
  on_world (fun w => '(r, h) ← f (E1000.card w); Some (r, E1000.set_hw h w)).
(** The file system, with the drives on the hardware of [k]. *)
Definition on_fs {R} (f : @Fat16.fat16 disk -> option (R * @Fat16.fat16 disk)) : boot R := fun k =>
  '(r, s) ← f (Fat16.set_disk ((Fat16.disk (k_fs k)).1, E1000.card (k_world k)) (k_fs k));
  Some (Running r (set_world (E1000.set_hw (Fat16.disk s).2 (k_world k)) (set_fs s k))).

Definition print_at (y : Z) (fmt : string) (args : list va) : boot () := on_graphic (kprintf 10 y (chars fmt) args).
Definition console (text : option (list Z)) : boot () := fun k => t ← text; Some (Running () (set_log (k_log k ++ t) k)).
Definition info (fmt : string) (args : list va) : boot () := console (DEBUG_INFO fmt args).
Definition error (fmt : string) (args : list va) : boot () := console (DEBUG_ERROR fmt args).

(** ** kmain *)

Context (ld : loader).

(** The pages that are allocated, shown and freed again. *)
Definition memory_demo : boot () :=
  page1 ← on_pmm Pmm.physical_alloc_page;
  page2 ← on_pmm Pmm.physical_alloc_page;
  pages ← on_pmm (Pmm.physical_alloc_pages 4);
  print_at 185 "Allocated page 1 at: %p" [VPtr page1];;
  print_at 200 "Allocated page 2 at: %p" [VPtr page2];;
  print_at 215 "Allocated 4 contiguous pages at: %p" [VPtr pages];;
  k ← get;
  on_graphic (Reports.physical_print_stats 10 230 (k_pmm k));;
  print_at 325 "Memory Bitmap Visualization:" [];;
  on_graphic (Reports.draw_memory_bitmap true 10 340 600 150 (k_pmm k));;
  on_ k_pmm set_pmm (Pmm.physical_free_page page1);;
  on_ k_pmm set_pmm (Pmm.physical_free_page page2);;
  on_ k_pmm set_pmm (Pmm.physical_free_pages pages 4);;
  on_graphic (kprintf 130 230 (chars "Freed all allocated pages") []).

(** With the memory manager: the direct map, paging, the descriptor tables, the timer
    and the scheduler. *)
Definition boot_core : boot () :=
  print_at 110 "Physical memory manager initialized successfully" [];;
  match hhdm ld with
  | None =>
      print_at 125 "ERROR: HHDM not available from bootloader" [];;
      error "HHDM response is NULL - cannot continue" [];;
      hcf
  | Some offset =>
      on_world (fun w => Some ((), E1000.set_vm (Vmm.vmm_set_hhdm_offset offset (E1000.vm w)) w));;
      print_at 125 "HHDM initialized successfully" [];;
      print_at 140 "Initializing virtual memory manager..." [];;
      info "Starting virtual memory manager initialization" [];;
      r ← on_world (fun w => let '(r, s) := Vmm.vmm_init (E1000.vm w) in Some (r, E1000.set_vm s w));
      (if r =? 0 then
         print_at 155 "Virtual memory manager initialized successfully" [];;
         info "Virtual memory manager initialization completed" []
       else
         print_at 155 "ERROR: Failed to initialize virtual memory manager" [];;
         error "Virtual memory manager initialization failed" [];;
         hcf);;
      print_at 155 "Initializing GDT and TSS..." [];;
      info "Starting GDT/TSS initialization" [];;
      modify (fun k => let '(g, c) := Interrupts.gdt_init (gdt_address ld) (tss_address ld) (k_cpu k) in set_tables (Some g) (k_idt k) c k);;
      print_at 170 "GDT/TSS initialized successfully" [];;
      info "GDT/TSS initialization completed" [];;
      print_at 185 "Initializing interrupt system..." [];;
      info "Starting interrupt system initialization" [];;
      on k_cpu (fun c k => set_tables (k_segments k) (k_idt k) c k) (fun c =>
        '(idt, c) ← Interrupts.interrupt_init (idt_address ld) (exception_handlers ld) (irq_handlers ld) c; Some (idt, c)) ≫=
        (fun idt => modify (fun k => set_tables (k_segments k) idt (k_cpu k) k));;
      print_at 200 "Interrupt system initialized successfully" [];;
      info "Interrupt system initialization completed" [];;
      print_at 215 "Initializing timer system..." [];;
      on_hw Timer.timer_init;;
      print_at 230 "Timer system initialized successfully" [];;
      print_at 245 "Initializing scheduler..." [];;
      info "Initializing scheduler" [];;
      k ← get;
      on_ k_sched set_sched (Sched.scheduler_init (Vmm.vmm_get_hhdm_offset (E1000.vm (k_world k))) (thread_entry_wrapper ld) (idle_entry ld));;
      print_at 260 "Scheduler initialized successfully" [];;
      info "Scheduler initialization completed" [];;
      memory_demo
  end.

(** Ten pixels of a random colour in the row [i]. *)
Definition color_line (i : Z) : boot () :=
  k ← get;
  let '(color, next) := random_color (k_next k) in
  modify (set_next next);;
  on_graphic (for_loop 10 0 (fun j g => fb ← framebuffer g; put (i * (fb_pitch fb / 4) + (i + j + 300)) color g)).

Definition draw_screen (width height : Z) : boot () :=
  foldr (fun i rest => color_line i;; rest) (mret ()) (seqZ 0 100);;
  on_graphic (draw_string 10 10 (chars "Hello, World!") 0xff00000);;
  on_graphic (draw_string 10 25 (chars "Hello, World!") 0x00ff00);;
  on_graphic (draw_string 10 40 (chars "Hello, World!") 0x0000ff);;
  on_graphic (draw_string 10 55 (chars "Hello, World!") 0xffff00);;
  print_at 70 " height: %d, width: %d." [VInt height; VInt width];;
  print_at 90 " height: %d, width: %d." [VInt height; VInt width];;
  on_graphic (draw_rect 0 0 (i32 width) (i32 height) 1 0xf080FF false).

(** The address of an interface on the screen. *)
Definition show_ip (y : Z) (f : Netdev.iface) : boot () :=
  print_at y "IP: %d.%d.%d.%d" (Reports.ip_parts (Netdev.ip_address f)).

Definition dhcp_init (p : option nat) : boot Z := fun k =>
  let '(r, h) := Dhcp.dhcp_client_init p (Stack.st_dhcp (k_stack k)) in
  Some (Running r (set_stack (Stack.Stack world (Stack.st_net (k_stack k)) (Stack.st_icmp (k_stack k)) (Stack.st_udp (k_stack k)) (Stack.st_tcp (k_stack k)) h) k)).
Definition dhcp_start (c : option nat) : boot Z := fun k =>
  let '(r, h, n) := Dhcp.dhcp_client_start c (Stack.st_dhcp (k_stack k)) (Stack.st_net (k_stack k)) in
  Some (Running r (set_stack (Stack.Stack world n (Stack.st_icmp (k_stack k)) (Stack.st_udp (k_stack k)) (Stack.st_tcp (k_stack k)) h) k)).

Definition dhcp_demo (eth : nat) : boot () :=
  print_at 615 "Initializing DHCP client..." [];;
  r ← dhcp_init (Some eth);
  if negb (r =? 0) then print_at 630 "Failed to initialize DHCP client" []
  else
    k ← get;
    match Dhcp.dhcp_get_client (Some eth) (Stack.st_dhcp (k_stack k)) with
    | None => print_at 645 "Failed to get DHCP client instance" []
    | Some c =>
        print_at 630 "DHCP client initialized successfully" [];;
        print_at 645 "Sending DHCP DISCOVER to network..." [];;
        r ← dhcp_start (Some c);
        if negb (r =? 0) then print_at 645 "Failed to start DHCP client" []
        else
          print_at 660 "DHCP DISCOVER packet prepared" [];;
          print_at 675 "Network demo completed successfully" [];;
          k ← get;
          let f := Netdev.get_if (k_dev k) eth in
          (if Netdev.ip_address f =? 0 then
             print_at 690 "Interface status: No IP address assigned" [];;
             print_at 705 "IP: 0.0.0.0 (waiting for DHCP response)" []
           else
             print_at 690 "Interface status: IP address configured" [];;
             show_ip 705 f);;
          print_at 720 "Real network packets transmitted to QEMU" []
    end.

Definition ethernet_demo (eth : nat) : boot () :=
  k ← get;
  let f := Netdev.get_if (k_dev k) eth in
  print_at 585 "Found ethernet interface: %s" [VStr (Some (c_string (Netdev.name f)))];;
  mac ← read (fun _ => Reports.mac_args (Netdev.mac_address f));
  print_at 600 "MAC Address: %x:%x:%x:%x:%x:%x" mac;;
  (if (nth 0 (Netdev.mac_address f) 0 =? 0x52) && (nth 1 (Netdev.mac_address f) 0 =? 0x54) then
     print_at 615 "E1000 hardware driver active" [];;
     print_at 630 "Real network hardware detected" []
   else
     print_at 615 "Using stub ethernet interface" [];;
     print_at 600 "E1000 MMIO now enabled (virtual memory active)" []);;
  dhcp_demo eth.

Definition loopback_demo : boot () :=
  print_at 555 "No ethernet interface found" [];;
  k ← get;
  match Netdev.network_get_interface (k_dev k) 0 with
  | Some lo =>
      let f := Netdev.get_if (k_dev k) lo in
      print_at 570 "Using loopback interface: %s" [VStr (Some (c_string (Netdev.name f)))];;
      show_ip 585 f;;
      print_at 600 "Status: Active (software-only)" []
  | None => print_at 570 "No network interfaces available" []
  end.

(** [network_init], with the probe of the card that [ethernet_init] makes. *)
Definition network_init : boot Z :=
  k ← get;
  r ← on_world (E1000.e1000_init (k_pci k));
  k ← get;
  let '(r, st) := Stack.network_init r (E1000.dev_mac (E1000.e1000_dev (k_world k))) (k_stack k) in
  modify (set_stack st);;
  mret r.

Definition boot_network : boot () :=
  print_at 525 "=== Network Stack Demo ===" [];;
  print_at 540 "Initializing PCI subsystem..." [];;
  info "Starting PCI subsystem initialization" [];;
  k ← get;
  p ← on_hw (fun h => Some (Pci.pci_init (k_pci k) h));
  modify (set_pci p);;
  info "PCI subsystem initialization completed" [];;
  print_at 555 "PCI bus scan completed" [];;
  console (Reports.pci_print_devices p);;
  print_at 570 "Initializing network stack..." [];;
  info "Starting network stack initialization" [];;
  r ← network_init;
  if r =? 0 then
    print_at 585 "Network stack initialized successfully" [];;
    info "Network stack initialization completed successfully" [];;
    print_at 600 "Checking network interfaces..." [];;
    k ← get;
    match Netdev.network_get_interface (k_dev k) 1 with
    | Some eth => ethernet_demo eth
    | None => loopback_demo
    end;;
    print_at 735 "Network initialization completed" []
  else
    print_at 525 "ERROR: Network stack initialization failed!" [];;
    print_at 540 "System continuing without network support" [].

(** The drives, the file system on the first drive that has one, and the keyboard;
    [fuel] bounds the bytes waiting in the keyboard controller. *)
Definition boot_devices (fuel : nat) : boot () :=
  info "Initializing ATA driver..." [];;
  on_fs (fun s => let '(drives, h) := Fat16.disk s in
    '(r, drives, h) ← Ata.ata_init drives h; Some (r, Fat16.set_disk (drives, h) s));;
  info "Attempting to mount FAT16..." [];;
  r ← on_fs (Fat16.fat16_mount 0);
  (if r =? 0 then info "FAT16 filesystem mounted on drive 0" []
   else
     r ← on_fs (Fat16.fat16_mount 1);
     if r =? 0 then info "FAT16 filesystem mounted on drive 1" []
     else info "No FAT16 filesystem found" []);;
  info "Initializing ACPI..." [];;
  modify (set_acpi Acpi.acpi_init.2);;
  print_at 750 "Initializing keyboard..." [];;
  info "Initializing keyboard driver..." [];;
  on_hw (fun h => h ← Keyboard.keyboard_init fuel h; Some ((), h)).

(** [thread_create_priority] and [scheduler_add] with the report. *)
Definition create_thread (name : string) (entry arg priority : Z) : boot Z :=
  k ← get;
  on_sched (fun s =>
    '(t, y) ← Thread.thread_create_priority (Vmm.vmm_get_hhdm_offset (E1000.vm (k_world k))) (thread_entry_wrapper ld) (chars name) entry arg priority (Sched.sys s);
    Some (t, Sched.set_sys y s)).
Definition add_thread (text : string) (t : Z) : boot () :=
  if t =? 0 then mret ()
  else
    on_ k_sched set_sched (Sched.scheduler_add t);;
    tid ← read (fun k => th ← Sched.load t (k_sched k); Some (Thread.tid th));
    info text [VInt tid].

Definition create_threads : boot (list Z) :=
  print_at 765 "Creating kernel threads..." [];;
  info "Creating kernel threads..." [];;
  shell ← create_thread "shell" (shell_thread ld) 0 Thread.PRIORITY_HIGH;
  add_thread "Created shell thread (TID=%d, priority=HIGH)" shell;;
  worker1 ← create_thread "worker1" (worker_thread ld) 1 Thread.PRIORITY_NORMAL;
  worker2 ← create_thread "worker2" (worker_thread ld) 2 Thread.PRIORITY_NORMAL;
  add_thread "Created worker1 thread (TID=%d)" worker1;;
  add_thread "Created worker2 thread (TID=%d)" worker2;;
  cpu_hog ← create_thread "cpu_hog" (cpu_worker ld) 1 Thread.PRIORITY_NORMAL;
  add_thread "Created cpu_hog thread (TID=%d)" cpu_hog;;
  mret [shell; worker1; worker2; cpu_hog].

(** [scheduler_start] runs the first thread and does not return. *)
Definition boot_threads : boot (list Z) :=
  l ← create_threads;
  print_at 780 "Starting multi-threaded scheduler..." [];;
  info "Starting scheduler with threads..." [];;
  on_ k_sched set_sched Sched.scheduler_start;;
  mret l.

Definition kmain (fuel : nat) : boot (list Z) :=
  if negb (base_revision_supported ld) then hcf else
  match framebuffers ld with
  | None | Some [] => hcf
  | Some (fb :: _) =>
      modify (set_next (srand (time_seed (TIME ld))));;
      on_graphic (fun g => Some (setup_graphic (framebuffers ld) g));;
      on_graphic (clear_screen 0x6495ed);;
      modify (fun k => set_log (k_log k ++ debug_init) k);;
      ok ← on_pmm (Pmm.physical_memory_init (LIMINE_MEMMAP_USABLE ld) (bitmap_storage_address ld) (memmap ld));
      (if ok : bool then boot_core else print_at 350 "Failed to initialize physical memory manager" []);;
      draw_screen (fb_width fb) (fb_height fb);;
      boot_network;;
      boot_devices fuel;;
      boot_threads
  end.

(** ** The threads *)

(** [thread_entry] of the shell: the start of [shell_run] is in [Shell.shell_round]. *)
Definition shell_thread_entry (e : Shell.editor) (t : Shell.term) : option (list Z * (Shell.editor * Shell.term)) :=
  text ← DEBUG_INFO "Shell thread started" [];
  '(e, t) ← Shell.shell_init e t;
  Some (text, (e, t)).

(** What the workers print first. *)
Definition worker_started (id : Z) : option (list Z) := DEBUG_INFO "Worker %d started" [VInt id].
Definition cpu_worker_started (id : Z) : option (list Z) := DEBUG_INFO "CPU Worker %d started (will be demoted due to high CPU usage)" [VInt id].

(** One round of a worker, up to [thread_sleep_ms]; the counter is an [int]. *)
Definition worker_round (id count : Z) (s : Sched.sched) : option (list Z * Z * Sched.sched) :=
  count ← int (count + 1);
  text ← (if Z.rem count 5000 =? 0 then DEBUG_INFO "Worker %d: tick %d" [VInt id; VInt (Z.quot count 1000)] else Some []);
  s ← Sched.thread_sleep_ms 1 s;
  Some (text, count, s).
(** One round of the busy worker. *)
Definition cpu_round (id iterations : Z) (s : Sched.sched) : option (list Z * Z) :=
  let iterations := u64 (iterations + 100000) in
  if (iterations mod 50000000 =? 0) && negb (Sched.thread_current s =? 0) then
    self ← Sched.load (Sched.thread_current s) s;
    text ← DEBUG_INFO "CPU Worker %d: %lu iterations, priority=%d, CPU=%d%%" [VInt id; VLong iterations; VInt (Thread.priority self); VInt (Thread.avg_cpu_usage self)];
    Some (text, iterations)
  else Some ([], iterations).
End kernel.
Arguments Halted {hw A} k.
Arguments Running {hw A} a k.
