(* ===== verification/BootSpec.v ===== *)
(** * The start of the kernel

    Theorems about [Boot]: the random numbers, the pages of the demonstration, the
    outcomes of [kmain], and the threads that run when the scheduler starts. *)

From S2P Require Import Prelude Links Digits Debug Graphic Shapes Text Bitmap Pmm Boot.
From S2P Require Vmm Thread Sched Ports Interrupts Timer Pci E1000 Netdev Arp Ip Icmp Udp Tcp Dhcp Stack Fat16 Reports.
From stdpp Require Import strings.
#[local] Open Scope Z_scope.

(** ** Random numbers *)

Fixpoint iterate (f : Z -> Z * Z) (n : nat) (next : Z) : list Z :=
  match n with O => [] | S n' => let '(r, next) := f next in r :: iterate f n' next end.

(** [rand] with the 32-bit counter that its comment assumes. *)
Definition rand32 (next : Z) : Z * Z :=
  let next := u32 (next * 1103515245 + 12345) in
  ((next / 65536) mod 32768, next).

Lemma rand_rand32 next : (rand next).1 = (rand32 (u32 next)).1 /\ u32 (rand next).2 = (rand32 (u32 next)).2.
Proof.
  unfold rand, rand32, u32, u64. cbn [fst snd]. set (x := next * 1103515245 + 12345).
  assert ((next mod 0x100000000 * 1103515245 + 12345) mod 0x100000000 = x mod 0x100000000) as ->.
  { subst x. rewrite <- (Z.add_mod_idemp_l (next mod _ * _)), <- (Z.add_mod_idemp_l (next * _)) by done. by rewrite Z.mul_mod_idemp_l. }
  clearbody x. split; zlia.
Qed.

(** The numbers of [rand] are between 0 and 32767, and they are those of the 32-bit
    counter that the comment assumes, although the counter has 64 bits. *)
Theorem rand_32_bits n next : iterate rand n next = iterate rand32 n (u32 next) /\ Forall (fun r => 0 <= r <= 32767) (iterate rand n next).
Proof.
  revert next. induction n as [|n IH]; intros next; cbn [iterate]; [done |].
  destruct (rand_rand32 next) as [H1 H2]. assert (0 <= (rand next).1 <= 32767) as Hr by (unfold rand; cbn [fst]; zlia).
  destruct (rand next) as [r m], (rand32 (u32 next)) as [r' m']. cbn [fst snd] in *. subst r' m'. destruct (IH m) as [-> IH2].
  split; [done | by constructor].
Qed.

(** ** What is drawn stays on the screen *)

Lemma draw_rect_safe W H x y w h thickness color filled :
  near 0x8000000 x -> near 0x8000000 y -> 0 < w <= 0x4000000 -> 0 < h <= 0x4000000 -> thickness <= 0x4000000 ->
  safe W H (draw_rect x y w h thickness color filled).
Proof. intros. eapply safe_paints, draw_rect_paints; done. Qed.

Lemma text_safe W H x y format args n : format_bound (chars format) args = Some n -> (n < 1024)%nat -> 0 <= x < 0x10000 -> 0 <= y < 0x10000 ->
  x + 8 * Z.of_nat n <= W -> y + 8 <= H -> safe W H (kprintf x y (chars format) args).
Proof. intros Hb Hn Hx Hy HW HH. eapply safe_weaken; [exact HW | exact HH | by apply kprintf_safe]. Qed.

(** Text whose format and position are known; strings of the arguments stay as they are. *)
Ltac text := eapply text_safe; [vm_compute; reflexivity | first [lia | vm_compute; split; congruence | vm_compute; congruence] ..].

Lemma physical_print_stats_safe p : safe 640 400 (Reports.physical_print_stats 10 230 p).
Proof.
  unfold Reports.physical_print_stats. cbn zeta.
  repeat (apply safe_seq; [text |]). text.
Qed.

(** ** The pages of the demonstration *)

Lemma bitmap_layout_range blocks : 0 < blocks <= 0x8000 -> let '(side, row, n) := Reports.bitmap_layout blocks 600 150 in
  0 < side <= 90000 /\ 0 < row /\ n <= blocks /\ (row = 1 \/ row * side <= 600) /\ forall i, 0 <= i < n -> i / row * side <= 150.
Proof.
  intros Hb. unfold Reports.bitmap_layout. rewrite u64_small by (vm_compute; split; congruence). change (600 * 150) with 90000.
  set (side0 := 90000 / blocks). assert (2 <= side0 <= 90000) as Hs by (subst side0; split; [apply Z.div_le_lower_bound; lia | apply Z.div_le_upper_bound; lia]).
  destruct (Z.ltb_spec side0 1); [lia |]. set (row0 := 600 / side0). assert (0 <= row0 * side0 <= 600 /\ 0 <= row0) as Hr.
  { pose proof (Z.mul_div_le 600 side0 ltac:(lia)). pose proof (Z.div_pos 600 side0 ltac:(lia) ltac:(lia)). subst row0. split; [| done]. split; [apply Z.mul_nonneg_nonneg; lia | lia]. }
  set (row := if row0 =? 0 then 1 else row0). assert (0 < row /\ (row = 1 \/ row * side0 <= 600)) as [Hrow Hw] by (subst row; destruct (Z.eqb_spec row0 0); lia).
  clearbody row. clear row0 Hr. set (rows0 := (blocks + row - 1) / row). set (rows := if rows0 >? 150 / side0 then 150 / side0 else rows0).
  assert (rows <= 150 / side0) as Hrows by (subst rows; rewrite Z.gtb_ltb; destruct (Z.ltb_spec (150 / side0) rows0); lia).
  split_and!; [lia | lia | done | lia | done |]. intros i Hi.
  assert (i / row < rows) as Hq by (apply Z.div_lt_upper_bound; lia).
  assert (i / row * side0 <= 150 / side0 * side0) by (apply Z.mul_le_mono_nonneg_r; lia). pose proof (Z.mul_div_le 150 side0 ltac:(lia)). lia.
Qed.

Lemma i32_small x : - 0x80000000 <= x < 0x80000000 -> i32 x = x.
Proof. intros H. unfold i32. rewrite Z.mod_small; lia. Qed.

Lemma draw_memory_bitmap_safe p : wf (phys_mem p) -> 0 < total_blocks (phys_mem p) -> safe 640 520 (Reports.draw_memory_bitmap true 10 340 600 150 p).
Proof.
  intros W Ht. unfold Reports.draw_memory_bitmap. cbn [negb]. destruct (Z.eqb_spec (total_blocks (phys_mem p)) 0); [lia |].
  pose proof (wf_total _ W). unfold BITMAP_MAX_BLOCKS in *.
  pose proof (bitmap_layout_range (total_blocks (phys_mem p)) ltac:(lia)) as Hl. destruct (Reports.bitmap_layout _ _ _) as [[side row] n0].
  destruct Hl as (Hside & Hrow & Hn & Hcol & Hline).
  apply safe_seq; [apply safe_loop; intros i Hi |].
  { unfold Reports.draw_block. destruct (bitmap_test_bit (bitmap (phys_mem p)) i) as [u|] eqn:E.
    2: { exfalso. destruct (BITMAP_TEST_BIT_spec (bitmap (phys_mem p)) i (wf_index _ i W ltac:(lia))) as (b & Eb & _). unfold bitmap_test_bit in E. by rewrite Eb in E. }
    cbn [mbind option_bind].
    assert (0 <= i mod row * side <= 600).
    { pose proof (Z.mod_pos_bound i row ltac:(lia)). destruct Hcol as [->|Hcol]; [rewrite Z.mod_1_r; lia |].
      split; [apply Z.mul_nonneg_nonneg; lia |]. transitivity (row * side); [apply Z.mul_le_mono_nonneg_r; lia | done]. }
    pose proof (Hline i ltac:(lia)). assert (0 <= i / row * side) by (apply Z.mul_nonneg_nonneg; [apply Z.div_pos; lia | lia]).
    rewrite !i32_small by lia. apply draw_rect_safe; unfold near; lia. }
  rewrite !i32_small by lia.
  apply safe_seq; [apply draw_rect_safe; unfold near; lia |]. apply safe_seq; [apply draw_rect_safe; unfold near; lia |].
  apply safe_seq; [eapply safe_weaken; [| | apply draw_string_safe]; first [vm_compute; congruence | vm_compute; split; congruence] |].
  apply safe_seq; [apply draw_rect_safe; unfold near; lia |].
  eapply safe_weaken; [| | apply draw_string_safe]; first [vm_compute; congruence | vm_compute; split; congruence].
Qed.

(** ** Total correctness of the actions

    [triple W H P m Q]: on a screen of at least [W] by [H] points, the action [m]
    from a state that satisfies [P] ends, without halting and without undefined
    behaviour, in one that satisfies [Q].  The assertions are about the scheduler,
    with the memory manager, and the offset of the direct map. *)

Section actions.
Context {hw : Type} {PORTS : Ports.Ports hw} {MMIO : E1000.Mmio hw}.
Notation kernel := (@kernel hw).
Notation core_state := (Sched.sched * Z)%type.

Definition offset (k : kernel) : Z := Vmm.hhdm_offset (E1000.vm (Netdev.card (k_dev k))).
Definition core (k : kernel) : core_state := (k_sched k, offset k).
Definition core_pmm (c : core_state) : pmm := Thread.t_pmm (Sched.sys c.1).
Definition core_set_pmm (p : pmm) (c : core_state) : core_state := (Sched.set_sys (Thread.set_t_pmm p (Sched.sys c.1)) c.1, c.2).

Definition screen_ok (W H : Z) (k : kernel) : Prop := fb_ok (k_graphic k) /\ W <= stride (k_graphic k) /\ H <= height (k_graphic k).

Definition triple (W H : Z) {A} (P : core_state -> Prop) (m : boot A) (Q : A -> core_state -> Prop) : Prop :=
  forall k, screen_ok W H k -> P (core k) -> exists a k', m k = Some (Running a k') /\ screen_ok W H k' /\ Q a (core k').

Context (W H : Z).
Implicit Types (P : core_state -> Prop).

Lemma triple_ret {A} P (a : A) : triple W H P (mret a) (fun b c => b = a /\ P c).
Proof. intros k Hk HP. by exists a, k. Qed.

Lemma triple_bind {A B} P (m : boot A) (f : A -> boot B) R Q : triple W H P m R -> (forall a, triple W H (R a) (f a) Q) -> triple W H P (m ≫= f) Q.
Proof.
  intros Hm Hf k Hk HP. destruct (Hm k Hk HP) as (a & k1 & E & Hk1 & HR). destruct (Hf a k1 Hk1 HR) as (b & k2 & E2 & H2).
  exists b, k2. split; [| done]. unfold mbind, boot_bind. by rewrite E.
Qed.

(** Statements in sequence that keep the assertion. *)
Lemma triple_then {B} P (m : boot ()) (f : boot B) Q : triple W H P m (fun _ => P) -> triple W H P f Q -> triple W H P (m;; f) Q.
Proof. intros Hm Hf. eapply triple_bind; [exact Hm | done]. Qed.

Lemma triple_conseq {A} P P' (m : boot A) Q Q' : (forall c, P c -> P' c) -> (forall a c, Q' a c -> Q a c) -> triple W H P' m Q' -> triple W H P m Q.
Proof. intros HP HQ Hm k Hk Hp. destruct (Hm k Hk (HP _ Hp)) as (a & k' & E & ? & ?). exists a, k'. auto. Qed.

Lemma triple_pure {A} P (phi : Prop) (m : boot A) Q : (phi -> triple W H P m Q) -> triple W H (fun c => phi /\ P c) m Q.
Proof. intros Hm k Hk [Hphi HP]. by apply Hm. Qed.

Lemma triple_get P : triple W H P get (fun k c => c = core k /\ P c).
Proof. intros k Hk HP. by exists k, k. Qed.

Lemma triple_graphic P f : safe W H f -> triple W H P (on_graphic f) (fun _ => P).
Proof.
  intros Hf k (Hg & HW & HH) HP. destruct (Hf _ Hg HW HH) as (g' & E & Hg' & Ew & Eh & Es). exists (), (set_graphic g' k).
  unfold on_graphic, on_, on. rewrite E. split; [done |]. split; [| done]. unfold screen_ok. cbn. split_and!; [done | lia | lia].
Qed.

Lemma triple_console P text : is_Some text -> triple W H P (console text) (fun _ => P).
Proof. intros [t ->] k Hk HP. by exists (), (set_log (k_log k ++ t) k). Qed.

Lemma triple_pmm {R} P (f : pmm -> option (R * pmm)) Q :
  (forall c, P c -> exists r p', f (core_pmm c) = Some (r, p') /\ Q r (core_set_pmm p' c)) -> triple W H P (on_pmm f) Q.
Proof.
  intros Hf k Hk HP. destruct (Hf _ HP) as (r & p' & E & HQ). exists r, (set_pmm p' k). unfold on_pmm, on. rewrite (E : f (k_pmm k) = _). done.
Qed.

Lemma triple_sched {R} P (f : Sched.sched -> option (R * Sched.sched)) Q :
  (forall c, P c -> exists r s', f c.1 = Some (r, s') /\ Q r (s', c.2)) -> triple W H P (on_sched f) Q.
Proof.
  intros Hf k Hk HP. destruct (Hf _ HP) as (r & s' & E & HQ). exists r, (set_sched s' k). unfold on_sched, on. rewrite (E : f (k_sched k) = _). done.
Qed.
End actions.

(** ** The pages of the demonstration are all freed *)

(** The allocations with one of [count] pages at [page] that may have failed. *)
Definition held (page count : Z) (live : list (Z * Z)) : list (Z * Z) := if page =? NULL then live else (page, count) :: live.

Lemma null_outside p : wf (phys_mem p) -> bitmap_contains_address (phys_mem p) NULL = false.
Proof.
  intros W. rewrite contains_address_spec by done. pose proof (wf_base _ W). unfold in_range, NULL.
  destruct (Z.leb_spec (memory_base (phys_mem p)) 0); [lia | done].
Qed.

Lemma alloc_page_held p0 p live : client_inv p0 p live -> exists a p', physical_alloc_page p = Some (a, p') /\ client_inv p0 p' (held a 1 live).
Proof.
  intros I. destruct (physical_alloc_page_total _ _ _ I) as (a & p' & E). exists a, p'. split; [done |].
  pose proof (client_inv_alloc_page _ _ _ _ _ I E) as I'. unfold held. destruct (a =? NULL); [by subst p' | done].
Qed.
Lemma alloc_pages_held p0 p live count : client_inv p0 p live -> 0 < count ->
  exists a p', physical_alloc_pages count p = Some (a, p') /\ client_inv p0 p' (held a count live).
Proof.
  intros I Hc. destruct (physical_alloc_pages_total _ _ _ count I ltac:(lia)) as (a & p' & E). exists a, p'. split; [done |].
  pose proof (client_inv_alloc _ _ _ _ _ _ I Hc E) as I'. unfold held. destruct (a =? NULL); [by subst p' | done].
Qed.
Lemma free_page_held p0 p l1 a l2 : client_inv p0 p (l1 ++ held a 1 l2) -> exists p', physical_free_page a p = Some p' /\ client_inv p0 p' (l1 ++ l2).
Proof.
  intros I. unfold held in I. destruct (Z.eqb_spec a NULL) as [->|Ha].
  - exists p. split; [| done]. unfold physical_free_page. by rewrite null_outside by apply I.
  - destruct (physical_free_page_total _ _ _ _ _ I) as (p' & E). exists p'. split; [done |]. by eapply client_inv_free_page.
Qed.
Lemma free_pages_held p0 p l1 a count l2 : client_inv p0 p (l1 ++ held a count l2) -> exists p', physical_free_pages a count p = Some p' /\ client_inv p0 p' (l1 ++ l2).
Proof.
  intros I. unfold held in I. destruct (Z.eqb_spec a NULL) as [->|Ha].
  - exists p. split; [| done]. unfold physical_free_pages. by rewrite null_outside by apply I.
  - destruct (physical_free_pages_total _ _ _ _ _ _ I) as (p' & E). exists p'. split; [done |]. by eapply client_inv_free.
Qed.

Section boot.
Context {hw : Type} {PORTS : Ports.Ports hw} {MMIO : E1000.Mmio hw}.
Notation kernel := (@kernel hw).
Notation core_state := (Sched.sched * Z)%type.
Implicit Types (P : core_state -> Prop) (W H : Z).

Lemma triple_print W H P y format args n : format_bound (chars format) args = Some n -> (n < 1024)%nat -> 0 <= y < 0x10000 ->
  10 + 8 * Z.of_nat n <= W -> y + 8 <= H -> triple (hw := hw) W H P (print_at y format args) (fun _ => P).
Proof. intros. apply triple_graphic. eapply text_safe; done || lia. Qed.

Lemma triple_free W H P f (Q : core_state -> Prop) : (forall c, P c -> exists p', f (core_pmm c) = Some p' /\ Q (core_set_pmm p' c)) ->
  triple (hw := hw) W H P (on_ k_pmm set_pmm f) (fun _ => Q).
Proof.
  intros Hf. apply (triple_pmm W H P (fun s => s ← f s; Some ((), s))). intros c HP. destruct (Hf c HP) as (p' & -> & HQ). by exists (), p'.
Qed.

(** The state [c0] with other pages, of which [live] are allocated. *)
Definition with_pages (p0 : pmm) (c0 : core_state) (live : list (Z * Z)) (c : core_state) : Prop :=
  exists p, c = core_set_pmm p c0 /\ client_inv p0 p live.

Lemma memory_demo_triple W H p0 c0 live : 640 <= W -> 520 <= H -> 0 < total_blocks (phys_mem p0) ->
  triple (hw := hw) W H (with_pages p0 c0 live) memory_demo (fun _ => with_pages p0 c0 live).
Proof.
  intros HW HH Ht. unfold memory_demo.
  eapply triple_bind; [apply (triple_pmm _ _ _ _ (fun a => with_pages p0 c0 (held a 1 live))) |].
  { intros c (p & -> & I). destruct (alloc_page_held _ _ _ I) as (a & p' & E & I'). exists a, p'. split; [exact E |]. by exists p'. }
  intros page1. eapply triple_bind; [apply (triple_pmm _ _ _ _ (fun a => with_pages p0 c0 (held a 1 (held page1 1 live)))) |].
  { intros c (p & -> & I). destruct (alloc_page_held _ _ _ I) as (a & p' & E & I'). exists a, p'. split; [exact E |]. by exists p'. }
  intros page2. eapply triple_bind; [apply (triple_pmm _ _ _ _ (fun a => with_pages p0 c0 (held a 4 (held page2 1 (held page1 1 live))))) |].
  { intros c (p & -> & I). destruct (alloc_pages_held _ _ _ 4 I ltac:(lia)) as (a & p' & E & I'). exists a, p'. split; [exact E |]. by exists p'. }
  intros pages. do 3 (apply triple_then; [eapply triple_print; [vm_compute; reflexivity | lia..] |]).
  eapply triple_bind; [apply triple_get |]. intros k. apply triple_then; [apply triple_graphic; eapply safe_weaken; [| | apply physical_print_stats_safe]; lia |].
  apply triple_then; [eapply triple_print; [vm_compute; reflexivity | lia..] |].
  eapply triple_conseq with (P' := fun c => wf (phys_mem (k_pmm k)) /\ 0 < total_blocks (phys_mem (k_pmm k)) /\ with_pages p0 c0 (held pages 4 (held page2 1 (held page1 1 live))) c); [| intros a c; exact (fun h => h) |].
  { intros c (Ec & p & E & I). rewrite Ec in E |- *. assert (k_pmm k = p) as -> by (change (k_pmm k) with (core_pmm (core k)); by rewrite E).
    split; [apply I |]. destruct (ci_region _ _ _ I) as (_ & -> & _). split; [done |]. exists p. split; [exact E | exact I]. }
  apply triple_pure. intros Wf. apply triple_pure. intros Ht'.
  apply triple_then; [apply triple_graphic; eapply safe_weaken; [| | by apply draw_memory_bitmap_safe]; lia |].
  eapply triple_bind; [apply (triple_free _ _ _ _ (with_pages p0 c0 (held pages 4 (held page2 1 live)))) | intros []; cbn beta].
  { intros c (p & -> & I). unfold held at 1 in I. destruct (free_page_held p0 p (held pages 4 (held page2 1 [])) page1 live) as (p' & E & I').
    - unfold held in *. by destruct (pages =? NULL), (page2 =? NULL).
    - exists p'. split; [exact E |]. exists p'. split; [done |]. revert I'. unfold held. by destruct (pages =? NULL), (page2 =? NULL). }
  eapply triple_bind; [apply (triple_free _ _ _ _ (with_pages p0 c0 (held pages 4 live))) | intros []; cbn beta].
  { intros c (p & -> & I). destruct (free_page_held p0 p (held pages 4 []) page2 live) as (p' & E & I').
    - unfold held in *. by destruct (pages =? NULL).
    - exists p'. split; [exact E |]. exists p'. split; [done |]. revert I'. unfold held. by destruct (pages =? NULL). }
  eapply triple_bind; [apply (triple_free _ _ _ _ (with_pages p0 c0 live)) | intros []; cbn beta].
  { intros c (p & -> & I). destruct (free_pages_held p0 p [] pages 4 live I) as (p' & E & I'). exists p'. split; [exact E |]. by exists p'. }
  apply triple_graphic. eapply text_safe; [vm_compute; reflexivity | lia..].
Qed.
End boot.

(** ** The threads before the start *)

Section threads.
Context (p0 : pmm) (idle wrapper : Z).
Notation core_state := (Sched.sched * Z)%type.
Implicit Types (c : core_state) (Q : Z -> list Z) (L : list (Z * Z)).

(** The addresses of the idle thread, of the queued ones and of the created ones. *)
Definition known Q L c (u : Z) : Prop := u = Sched.idle_thread c.1 \/ (exists p, u ∈ Q p) \/ (exists pr, (u, pr) ∈ L).

(** The scheduler has not started, its ready queues are [Q], nothing sleeps, and
    the threads [L], with their priorities, are created and not yet added. *)
Record ready Q L c : Prop := {
  rd_stopped : Sched.scheduler_running c.1 = false;
  rd_queues : Sched.squeues c.1 Q [];
  rd_threads : Sched.threads_ok c.1;
  rd_idle : Sched.idle_thread c.1 = idle /\ is_Some (Sched.load (Sched.idle_thread c.1) c.1);
  rd_created : forall t pr, (t, pr) ∈ L -> (exists th, Sched.load t c.1 = Some th /\ Thread.state th = Thread.THREAD_STATE_CREATED /\ Thread.priority th = pr);
  rd_distinct : NoDup (L.*1);
  rd_offset : 0 <= c.2 /\ c.2 + memory_base (phys_mem p0) + total_blocks (phys_mem p0) * BITMAP_BLOCK_SIZE < 0x10000000000000000;
  rd_pages : exists live, client_inv p0 (core_pmm c) live /\ forall u, known Q L c u -> exists page n, (page, n) ∈ live /\ u = page + c.2;
}.

Lemma created_unqueued Q L c t pr : ready Q L c -> (t, pr) ∈ L -> ~ Sched.queued Q [] t.
Proof.
  intros R Ht. destruct (rd_created _ _ _ R t pr Ht) as (th & Hl & Hs & _).
  eapply Sched.squeues_created; [apply R | exact Hl | by rewrite Hs | by rewrite Hs].
Qed.

(** A page of a new allocation is not that of a known thread. *)
Lemma page_fresh live page stk p' page' n : client_inv p0 p' ((stk, 2) :: (page, 1) :: live) -> (page', n) ∈ live -> page' <> page.
Proof.
  intros I (i & Hi)%list_elem_of_lookup ->.
  pose proof (client_disjoint_lt _ _ _ 1 (S (S i)) (page, 1) (page, n) I ltac:(lia) eq_refl Hi) as Hd.
  destruct (client_bounds _ _ _ page n I) as (_ & Hc & _); [right; right; by eapply list_elem_of_lookup_2 |].
  unfold BITMAP_BLOCK_SIZE in Hd. cbn in Hd. lia.
Qed.

Lemma create_thread_ok Q L c nm entry arg prio : ready Q L c -> 0 <= prio < Thread.PRIORITY_LEVELS ->
  exists t s', ('(t, y) ← Thread.thread_create_priority c.2 wrapper nm entry arg prio (Sched.sys c.1); Some (t, Sched.set_sys y c.1)) = Some (t, s') /\
    ready Q (if t =? 0 then L else (t, prio) :: L) (s', c.2).
Proof.
  intros R Hp. destruct c as [s o]. cbn [fst snd] in *. assert (R0 := R). destruct R as [Hrun Hq Hth [Hi Hidle] Hcr Hnd [Ho Hlim] (live & I & Hk)]. cbn [fst snd] in *.
  destruct (Thread.thread_create_priority_ok o wrapper nm entry arg prio (Sched.sys s) p0 live I ltac:(lia) Ho Hlim) as (t & y & -> & H).
  cbn [mbind option_bind]. exists t, (Sched.set_sys y s). split; [done |].
  assert (Hkeep : forall u, known Q L (s, o) u -> exists page n, (page, n) ∈ live /\ u = page + o) by done.
  destruct H as [(-> & I' & _ & _ & _ & Hk1 & Hk2)|(th & page & stk & -> & I' & _ & F)].
  - change (NULL =? 0) with true. cbv iota.
    assert (Hload : forall u, known Q L (s, o) u -> Sched.load u (Sched.set_sys y s) = Sched.load u s).
    { intros u (pg & n & Hpg & ->)%Hkeep. unfold Sched.load. cbn. by eapply Hk1. }
    split; cbn [fst snd]; try done.
    + eapply Sched.queues_frame; [exact Hq | | ].
      * destruct (Thread.threads y !! 0) as [th|] eqn:E; [| done]. apply Hk2 in E. by rewrite (Sched.q_null _ _ _ _ _ _ Hq) in E.
      * intros u [Hu | (p & Hu)]; [by apply elem_of_nil in Hu |]. apply Hload. right; left. by exists p.
    + intros u th Hu. apply (Hth u). by apply Hk2.
    + split; [exact Hi |]. change (Sched.idle_thread (Sched.set_sys y s)) with (Sched.idle_thread s). rewrite Hload by by left. done.
    + intros u pr Hu. rewrite Hload by (right; right; by exists pr). by apply Hcr.
    + exists live. split; [exact I' | done].
  - destruct F as [F1 F2 F3 F4 [F5 F5'] [F6 F6'] (F7 & F7' & F7'') F8 F9 F10 F11 F12].
    destruct (client_bounds _ _ _ page 1 I' ltac:(right; left)) as (Hpage & _).
    destruct (Z.eqb_spec (page + o) 0); [lia |].
    destruct (Z.ltb_spec prio Thread.PRIORITY_LEVELS); [| lia].
    assert (Hfresh : forall u, known Q L (s, o) u -> u <> page + o).
    { intros u (pg & n0 & Hpg & ->)%Hkeep. pose proof (page_fresh _ _ _ _ _ _ I' Hpg). lia. }
    assert (Hload : forall u, u <> page + o -> Sched.load u (Sched.set_sys y s) = Sched.load u s).
    { intros u Hu. unfold Sched.load. cbn. rewrite F1. by rewrite lookup_insert_ne. }
    assert (Hnew : Sched.load (page + o) (Sched.set_sys y s) = Some th) by (unfold Sched.load; cbn; rewrite F1; apply lookup_insert_eq).
    split; cbn [fst snd]; try done.
    + eapply Sched.queues_frame; [exact Hq | |].
      * cbn. rewrite F1, lookup_insert_ne by done. apply (Sched.q_null _ _ _ _ _ _ Hq).
      * intros u [Hu | (p & Hu)]; [by apply elem_of_nil in Hu |]. apply Hload, Hfresh. right; left. by exists p.
    + intros u thu Hu. destruct (decide (u = page + o)) as [->|Hne]; [| by apply (Hth u); rewrite <- Hload].
      rewrite Hnew in Hu. injection Hu as <-. split; rewrite ?F5, ?F5', ?F6, ?F7', ?F7''; done.
    + split; [exact Hi |]. change (Sched.idle_thread (Sched.set_sys y s)) with (Sched.idle_thread s). rewrite Hload by (apply Hfresh; by left). done.
    + intros u pr [[= -> ->]|Hu]%elem_of_cons; [by exists th |]. rewrite Hload by (apply Hfresh; right; right; by exists pr). by apply Hcr.
    + cbn. constructor; [| done]. intros (x & Ex & Hx)%list_elem_of_fmap. destruct x as [u pr]. cbn in Ex. apply (Hfresh u); [right; right; by exists pr | done].
    + exists ((stk, 2) :: (page, 1) :: live). split; [exact I' |]. intros u Hu.
      destruct (decide (u = page + o)) as [->|Hne]; [exists page, 1; split; [right; left | done] |].
      destruct (Hkeep u) as (pg & n0 & Hpg & ->); [| exists pg, n0; split; [by right; right | done]].
      destruct Hu as [Hu | [Hu | (pr & Hu)]]; [by left | by right; left |]. apply elem_of_cons in Hu as [Hu|Hu]; [by injection Hu | right; right; by exists pr].
Qed.

Lemma store_pmm t f s s' : Sched.store t f s = Some s' -> Thread.t_pmm (Sched.sys s') = Thread.t_pmm (Sched.sys s).
Proof.
  unfold Sched.store, Thread.upd_thread. destruct (Thread.threads (Sched.sys s) !! t); [| done]. intros E. cbn in E. by injection E as <-.
Qed.

Lemma enqueue_ready_pmm t s s' : Sched.enqueue_ready t s = Some s' -> Thread.t_pmm (Sched.sys s') = Thread.t_pmm (Sched.sys s).
Proof.
  unfold Sched.enqueue_ready, Sched.set_head, Sched.set_tail. intros E.
  apply bind_Some in E as (th & _ & E). apply bind_Some in E as (s1 & E1 & E). apply bind_Some in E as (tl & _ & E).
  apply bind_Some in E as (s2 & E2 & E). apply bind_Some in E as (s3 & E3 & E). apply bind_Some in E as (s4 & E4 & E).
  apply bind_Some in E as (s5 & E5 & E). injection E as <-. apply store_pmm in E1, E2, E5. cbn. rewrite E5.
  apply bind_Some in E4 as (h & _ & E4). injection E4 as <-. cbn.
  rewrite <- E1, <- E2. destruct (tl =? NULL); cbn in E3; [apply bind_Some in E3 as (h' & _ & E3); by injection E3 as <- | by apply store_pmm in E3].
Qed.

Lemma add_ok Q L1 L2 c t pr : ready Q (L1 ++ (t, pr) :: L2) c ->
  exists s' th, Sched.scheduler_add t c.1 = Some s' /\ Sched.load t s' = Some th /\ ready (Sched.upd_queue pr (Q pr ++ [t]) Q) (L1 ++ L2) (s', c.2).
Proof.
  intros R. assert (Hin : (t, pr) ∈ L1 ++ (t, pr) :: L2) by (apply elem_of_app; right; left).
  pose proof (created_unqueued _ _ _ _ _ R Hin) as Hnq. destruct (rd_created _ _ _ R t pr Hin) as (th & Hl & Hst & Hpr).
  destruct R as [Hrun Hq Hth [Hi Hidle] Hcr Hnd [Ho Hlim] (live & I & Hk)]. destruct c as [s o]. cbn [fst snd] in *.
  pose proof (Hth t th Hl) as Hw. pose proof (Sched.tw_priority _ Hw) as Hrange.
  assert (t <> 0) as Ht by (intros ->; pose proof (Sched.q_null _ _ _ _ _ _ Hq) as H0; unfold Sched.load in Hl; congruence).
  destruct (Sched.enqueue_ready_ok s Q [] t th Hq Hl Hnq Hrange) as (s' & E & Hq' & [C1 C2 C3 C4 C5] & _ & (th' & Hl' & Hu') & Hs).
  rewrite Hpr in Hq'. exists s', th'. unfold Sched.scheduler_add. destruct (Z.eqb_spec t NULL); [done |]. split; [exact E |]. split; [exact Hl' |].
  rewrite fmap_app in Hnd. cbn in Hnd. apply NoDup_app in Hnd as (N1 & N2 & N3). apply NoDup_cons in N3 as [N3 N4].
  assert (Hother : forall u q, (u, q) ∈ L1 ++ L2 -> u <> t).
  { intros u q Hu ->. apply elem_of_app in Hu as [Hu|Hu]; apply (list_elem_of_fmap_2 fst) in Hu; cbn in Hu; [by apply (N2 t Hu); left | done]. }
  split; cbn [fst snd]; try done.
  - by rewrite C3.
  - apply (Sched.threads_ok_same s s' t); [done | | done]. intros th2 Hth2. assert (th2 = th') as -> by congruence.
    apply (Sched.thread_wf_unlinked (Thread.set_state Thread.THREAD_STATE_READY th)); [done |]. destruct Hw; by split.
  - rewrite C1. split; [done |]. destruct (decide (Sched.idle_thread s = t)) as [->|Hne]; [by exists th' |].
    specialize (Hs _ Hne). unfold Sched.same_threads in Hs. destruct Hidle as (a & Ha). rewrite Ha in Hs.
    destruct (Sched.load (Sched.idle_thread s) s'); [by eexists | done].
  - intros u q Hu. destruct (Hcr u q) as (thu & Hlu & Hsu & Hpu); [apply elem_of_app in Hu as [?|?]; apply elem_of_app; [by left | by right; right] |].
    specialize (Hs u (Hother u q Hu)). unfold Sched.same_threads in Hs. rewrite Hlu in Hs. destruct (Sched.load u s') as [thu'|]; [| done].
    apply (inj Some) in Hs. exists thu'. split; [done |]. split.
    + change (Thread.state thu') with (Thread.state (Sched.unlinked thu')). rewrite Hs. done.
    + change (Thread.priority thu') with (Thread.priority (Sched.unlinked thu')). rewrite Hs. done.
  - rewrite fmap_app. apply NoDup_app. split_and!; [done | | done]. intros x Hx Hx2. apply (N2 x Hx). by right.
  - exists live. split; [unfold core_pmm; cbn; by rewrite (enqueue_ready_pmm _ _ _ E) |].
    intros u Hu. apply Hk. destruct Hu as [Hu | [(p & Hu) | (q & Hu)]].
    + left. cbn in *. by rewrite <- C1.
    + unfold Sched.upd_queue in Hu. destruct (Z.eqb_spec p pr) as [Ep|].
      * apply elem_of_app in Hu as [Hu | Hu]; [right; left; by exists pr |]. apply elem_of_cons in Hu as [Hu | Hu]; [| by apply elem_of_nil in Hu].
        right; right. exists pr. by rewrite Hu.
      * right; left. by eexists.
    + right; right. exists q. apply elem_of_app in Hu as [?|?]; apply elem_of_app; [by left | by right; right].
Qed.
End threads.

(** [t] at the end of the queue of its priority, and among the created threads,
    unless it is NULL. *)
Definition put_ready (t pr : Z) (Q : Z -> list Z) : Z -> list Z := if t =? 0 then Q else Sched.upd_queue pr (Q pr ++ [t]) Q.
Definition put_created (t pr : Z) (L : list (Z * Z)) : list (Z * Z) := if t =? 0 then L else (t, pr) :: L.

(** The threads that [kmain] creates, from the highest priority to the lowest. *)
Definition created (l : list Z) : list Z := List.filter (fun t => negb (t =? 0)) l.

Lemma selected_created idle shell w1 w2 hog :
  let '(t, Q') := Sched.selected idle (put_ready hog 3 (put_ready w2 3 (put_ready w1 3 (put_ready shell 1 (fun _ => []))))) in
  t = head_or idle (created [shell; w1; w2; hog]) /\ Q' 1 ++ Q' 3 = tl (created [shell; w1; w2; hog]) /\ (forall p, p <> 1 -> p <> 3 -> Q' p = []).
Proof.
  unfold put_ready, created, Sched.selected. cbn [List.filter]. change (Z.to_nat Thread.PRIORITY_LEVELS) with 7%nat.
  destruct (shell =? 0), (w1 =? 0), (w2 =? 0), (hog =? 0); cbn; (split; [done |]; split; [done |]; intros p Hp1 Hp3; unfold Sched.upd_queue;
    destruct p as [|[[q|q|]|q|]|q]; done).
Qed.

Lemma put_created_app t pr L : put_created t pr L = put_created t pr [] ++ L.
Proof. unfold put_created. by destruct (t =? 0). Qed.

Section start.
Context {hw : Type} {PORTS : Ports.Ports hw} {MMIO : E1000.Mmio hw} (ld : loader) (p0 : pmm) (idle W H : Z).
Notation ready := (ready p0 idle).

Lemma create_thread_triple name entry arg prio Q L : 0 <= prio < Thread.PRIORITY_LEVELS ->
  triple (hw := hw) W H (ready Q L) (create_thread ld name entry arg prio) (fun t => ready Q (put_created t prio L)).
Proof.
  intros Hp. eapply triple_bind; [apply triple_get |]. intros k. apply triple_sched. intros c [-> HR].
  destruct (create_thread_ok p0 idle (thread_entry_wrapper ld) Q L (core k) (chars name) entry arg prio HR Hp) as (t & s' & E & HR').
  exists t, s'. split; [exact E | done].
Qed.

Lemma add_thread_triple text t pr Q L1 L2 : (forall tid, is_Some (DEBUG_INFO text [VInt tid])) ->
  triple (hw := hw) W H (ready Q (L1 ++ put_created t pr L2)) (add_thread text t) (fun _ => ready (put_ready t pr Q) (L1 ++ L2)).
Proof.
  intros Ht. unfold add_thread, put_created, put_ready. destruct (t =? 0).
  { intros k Hk HR. by exists (), k. }
  eapply triple_bind; [apply (triple_sched _ _ _ (fun s => s ← Sched.scheduler_add t s; Some ((), s)) (fun _ c => ready (Sched.upd_queue pr (Q pr ++ [t]) Q) (L1 ++ L2) c /\ is_Some (Sched.load t c.1))) |].
  { intros c HR. destruct (add_ok p0 idle Q L1 L2 c t pr HR) as (s' & th & E & El & HR'). exists (), s'. rewrite E. by split; [| split; [| exists th]]. }
  intros []. eapply triple_bind; [| intros tid; apply triple_console, Ht].
  intros k Hk [HR [th El]]. exists (Thread.tid th), k. split; [| done]. unfold read. by rewrite (El : Sched.load t (k_sched k) = _).
Qed.

Lemma create_threads_triple : 640 <= W -> 790 <= H ->
  triple (hw := hw) W H (ready (fun _ => []) []) (create_threads ld) (fun l c => exists shell w1 w2 hog, l = [shell; w1; w2; hog] /\
    ready (put_ready hog 3 (put_ready w2 3 (put_ready w1 3 (put_ready shell 1 (fun _ => []))))) [] c).
Proof.
  intros HW HH. unfold create_threads. apply triple_then; [eapply triple_print; [vm_compute; reflexivity | lia..] |].
  apply triple_then; [apply triple_console; prints |].
  eapply triple_bind; [apply create_thread_triple; done | intros shell; cbn beta].
  eapply triple_bind; [apply (add_thread_triple _ _ 1 _ [] []); intros; prints | intros []; cbn beta].
  eapply triple_bind; [apply create_thread_triple; done | intros w1; cbn beta].
  eapply triple_bind; [apply create_thread_triple; done | intros w2; cbn beta].
  rewrite (put_created_app w2). eapply triple_bind; [apply (add_thread_triple _ w1 3 _ (put_created w2 3 []) []); intros; prints | intros []; cbn beta].
  rewrite app_nil_r. eapply triple_bind; [apply (add_thread_triple _ w2 3 _ [] []); intros; prints | intros []; cbn beta].
  eapply triple_bind; [apply create_thread_triple; done | intros hog; cbn beta].
  eapply triple_bind; [apply (add_thread_triple _ hog 3 _ [] []); intros; prints | intros []; cbn beta].
  eapply triple_conseq; [| | apply triple_ret]; [intros c Hc; exact Hc |]. intros l c [-> HR]. by exists shell, w1, w2, hog.
Qed.

(** The scheduler runs the first of the threads [l], or the idle thread when all are
    NULL; the others wait in their order. *)
Definition started (l : list Z) (c : Sched.sched * Z) : Prop := exists Q,
  Sched.sched_ok c.1 Q [] /\ Sched.scheduler_running c.1 = true /\ Sched.current_thread c.1 = head_or idle (created l) /\
  Q 1 ++ Q 3 = tl (created l) /\ (forall p, p <> 1 -> p <> 3 -> Q p = []) /\
  exists th, Sched.load (Sched.current_thread c.1) c.1 = Some th /\ Thread.state th = Thread.THREAD_STATE_RUNNING.

Lemma boot_threads_triple : 640 <= W -> 790 <= H ->
  triple (hw := hw) W H (fun c => ready (fun _ => []) [] c) (boot_threads ld) (fun l c => length l = 4%nat /\ started l c).
Proof.
  intros HW HH. unfold boot_threads. eapply triple_bind; [by apply create_threads_triple | intros l; cbn beta].
  apply triple_then; [eapply triple_print; [vm_compute; reflexivity | lia..] |]. apply triple_then; [apply triple_console; prints |].
  eapply triple_bind; [apply (triple_sched _ _ _ (fun s => s ← Sched.scheduler_start s; Some ((), s)) (fun _ c => length l = 4%nat /\ started l c)) |].
  2: { intros []. eapply triple_conseq; [intros c Hc; exact Hc | | apply triple_ret]. by intros l' c [-> HP]. }
  intros c (shell & w1 & w2 & hog & -> & [_ Hq Hth [Hi Hidle] _ _ _ _]).
  pose proof (Sched.scheduler_start_ok _ _ _ Hq Hth Hidle ltac:(apply not_elem_of_nil)) as Hs.
  pose proof (selected_created (Sched.idle_thread c.1) shell w1 w2 hog) as Hsel. rewrite Hi in Hs, Hsel. unfold Thread.PRIORITY_NORMAL, Thread.PRIORITY_HIGH in *.
  destruct (Sched.selected idle _) as [t Q']. destruct Hs as (s' & th & E & Hok & Hrun & Hcur & Hl & Hst & _). destruct Hsel as (-> & HQ & HQ').
  exists (), s'. rewrite E. split; [done |]. split; [done |]. exists Q'. split_and!; try done. cbn [fst]. rewrite Hcur. by exists th.
Qed.
End start.

(** ** The core of the kernel *)

Section core.
Context {hw : Type} {PORTS : Ports.Ports hw} {MMIO : E1000.Mmio hw} (ld : loader) (p0 : pmm) (W H : Z).
Notation kernel := (@kernel hw).
Notation world := (E1000.world hw pmm).
Implicit Types (P : Sched.sched * Z -> Prop).

Lemma triple_modify P f : (forall k : kernel, k_graphic (f k) = k_graphic k /\ core (f k) = core k) -> triple (hw := hw) W H P (modify f) (fun _ => P).
Proof.
  intros Hf k Hk HP. destruct (Hf k) as [Eg Ec]. exists (), (f k). split; [done |]. unfold screen_ok in *. rewrite Eg, Ec. done.
Qed.

(** An operation on the card's world that leaves the pages alone. *)
Lemma triple_world {R} P (f : world -> option (R * world)) (Q : R -> Sched.sched * Z -> Prop) :
  (forall c w, P c -> c.2 = Vmm.hhdm_offset (E1000.vm w) -> exists r w', f w = Some (r, w') /\ Vmm.pages (E1000.vm w') = Vmm.pages (E1000.vm w) /\
     Q r (c.1, Vmm.hhdm_offset (E1000.vm w'))) -> triple (hw := hw) W H P (on_world f) Q.
Proof.
  intros Hf k Hk HP. destruct (Hf (core k) (k_world k) HP eq_refl) as (r & w' & E & Ep & HQ). exists r, (set_world w' k).
  unfold on_world, on. rewrite E. split; [done |]. split; [done |].
  replace (core (set_world w' k)) with ((core k).1, Vmm.hhdm_offset (E1000.vm w')); [done |].
  unfold core, offset, set_world, set_pmm, k_dev. rewrite Ep. cbn. f_equal.
  unfold k_pmm. by destruct (k_sched k) as [[] ].
Qed.

Lemma triple_hw {R} P (f : hw -> option (R * hw)) : (forall h, is_Some (f h)) -> triple (hw := hw) W H P (on_hw f) (fun _ => P).
Proof.
  intros Hf. apply triple_world. intros c w HP Ho. destruct (Hf (E1000.card w)) as [[r h] ->]. cbn [mbind option_bind].
  exists r, (E1000.set_hw h w). split; [done |]. split; [done |]. cbn. rewrite <- Ho. by destruct c.
Qed.

Lemma timer_init_total (h : hw) : is_Some (Timer.timer_init h).
Proof.
  unfold Timer.timer_init, Timer.pic_clear_mask. change (Timer.mask_irq Timer.IRQ_TIMER >=? 31) with false. cbv iota zeta.
  destruct (Ports.inb _ _) as [m h']. by eexists.
Qed.

(** The scheduler as it is before [scheduler_init], with no page allocated. *)
Definition untouched (c : Sched.sched * Z) : Prop :=
  Thread.threads (Sched.sys c.1) = ∅ /\ Sched.scheduler_running c.1 = false /\ client_inv p0 (core_pmm c) [].

(** [scheduler_init] has made the idle thread, on three pages, or has failed; no other
    page is allocated. *)
Definition initialised (o : Z) (c : Sched.sched * Z) : Prop := c.2 = o /\
  (Sched.idle_thread c.1 = NULL /\ client_inv p0 (core_pmm c) [] \/
   ready p0 (Sched.idle_thread c.1) (fun _ => []) [] c /\ exists page stk, Sched.idle_thread c.1 = page + o /\ client_inv p0 (core_pmm c) [(stk, 2); (page, 1)]).

Lemma scheduler_init_initialised c : untouched c -> 0 <= c.2 ->
  c.2 + memory_base (phys_mem p0) + total_blocks (phys_mem p0) * BITMAP_BLOCK_SIZE < 0x10000000000000000 ->
  exists s', Sched.scheduler_init c.2 (thread_entry_wrapper ld) (idle_entry ld) c.1 = Some s' /\ initialised c.2 (s', c.2).
Proof.
  intros (Hm & Hr & I) Ho Hlim.
  destruct (Sched.scheduler_init_ok c.2 (thread_entry_wrapper ld) (idle_entry ld) c.1 p0 [] Hm Hr I Ho Hlim) as (s' & E & Hr' & _ & Hs).
  exists s'. split; [exact E |]. split; [done |].
  destruct Hs as [[Hs I'] | (Hq & Hth & _ & th & Hl & _ & _ & page & stk & Hi & I')]; [by left | right; split; [| exists page, stk; by split]].
  split; cbn [fst snd].
  - done.
  - exact Hq.
  - exact Hth.
  - split; [done | by exists th].
  - intros t pr Ht. by apply elem_of_nil in Ht.
  - apply NoDup_nil_2.
  - done.
  - exists [(stk, 2); (page, 1)]. split; [exact I' |]. intros u [-> | [(p & Hu) | (pr & Hu)]]; [| by apply elem_of_nil in Hu..].
    exists page, 1. split; [right; left | done].
Qed.

Lemma scheduler_init_triple P offset : (forall c, P c -> untouched c /\ c.2 = offset) -> 0 <= offset ->
  offset + memory_base (phys_mem p0) + total_blocks (phys_mem p0) * BITMAP_BLOCK_SIZE < 0x10000000000000000 ->
  triple (hw := hw) W H P (on_ k_sched set_sched (Sched.scheduler_init offset (thread_entry_wrapper ld) (idle_entry ld))) (fun _ => initialised offset).
Proof.
  intros HP Ho Hlim. apply (triple_sched _ _ _ (fun s => s ← Sched.scheduler_init offset (thread_entry_wrapper ld) (idle_entry ld) s; Some ((), s))).
  intros c [Hu <-]%HP. destruct (scheduler_init_initialised c Hu Ho Hlim) as (s' & E & Hi). exists (), s'. by rewrite E.
Qed.

Lemma memory_demo_initialised o : 640 <= W -> 520 <= H -> 0 < total_blocks (phys_mem p0) -> triple (hw := hw) W H (initialised o) memory_demo (fun _ => initialised o).
Proof.
  intros HW HH Ht k Hk [Ho Hi].
  assert (exists live, client_inv p0 (core_pmm (core k)) live /\ forall p, client_inv p0 p live -> initialised o (core_set_pmm p (core k))) as (live & I & Hp).
  { destruct Hi as [[Hn I] | [[Hrun Hq Hth Hidle Hcr Hnd Ho' (live0 & I0 & Hkn)] (page & stk & Hpg & I)]].
    - exists []. split; [exact I |]. intros p Ip. split; [exact Ho |]. by left.
    - exists [(stk, 2); (page, 1)]. split; [exact I |]. intros p Ip. split; [exact Ho |]. right. split; [| by exists page, stk].
      split; [exact Hrun | exact Hq | exact Hth | exact Hidle | exact Hcr | exact Hnd | exact Ho' |]. exists [(stk, 2); (page, 1)]. split; [exact Ip |].
      intros u [Hu | [(q & Hu) | (pr & Hu)]]; [| by apply elem_of_nil in Hu..]. exists page, 1. split; [right; left |].
      rewrite Hu. change (Sched.idle_thread (core_set_pmm p (core k)).1) with (Sched.idle_thread (core k).1). rewrite Hpg. cbn [core_set_pmm snd]. by rewrite Ho. }
  destruct (memory_demo_triple (hw := hw) W H p0 (core k) live HW HH Ht k Hk) as (a & k' & E & Hk' & p & Ec & Ip).
  { exists (core_pmm (core k)). split; [| done]. unfold core_set_pmm, core_pmm, core. cbn. by destruct (k_sched k) as [[]]. }
  exists a, k'. split; [done |]. split; [done |]. rewrite Ec. by apply Hp.
Qed.

Lemma interrupts_triple P : triple (hw := hw) W H P
  (on k_cpu (fun c k => set_tables (k_segments k) (k_idt k) c k) (fun c =>
     '(idt, c) ← Interrupts.interrupt_init (idt_address ld) (exception_handlers ld) (irq_handlers ld) c; Some (idt, c)) ≫=
   (fun idt => modify (fun k => set_tables (k_segments k) idt (k_cpu k) k))) (fun _ => P).
Proof.
  eapply triple_bind; [| intros idt; apply triple_modify; done].
  intros k Hk HP. unfold on. rewrite Interrupts.interrupt_init_gates. cbn [mbind option_bind]. by eexists _, _.
Qed.

(** The lines that report on the screen and on the console. *)
Ltac report := apply triple_then; [first [eapply triple_print; [vm_compute; reflexivity | lia..] | apply triple_console; prints] |].

(** With the memory manager [p0] in place the core is initialised on any screen of
    at least 640 by 520 points. *)
Lemma boot_core_triple o : hhdm ld = Some o -> 0 <= o -> o + memory_base (phys_mem p0) + total_blocks (phys_mem p0) * BITMAP_BLOCK_SIZE < 0x10000000000000000 ->
  640 <= W -> 520 <= H -> 0 < total_blocks (phys_mem p0) ->
  triple (hw := hw) W H untouched (boot_core ld) (fun _ => initialised o).
Proof.
  intros Eo Ho Hlim HW HH Ht. unfold boot_core. rewrite Eo.
  report. eapply triple_bind; [apply (triple_world untouched _ (fun _ c => untouched c /\ c.2 = o)) | intros []; cbn beta].
  { intros c w HP Hc. eexists (), _. split; [reflexivity |]. done. }
  do 3 report. eapply triple_bind; [apply (triple_world _ _ (fun r c => r = 0 /\ untouched c /\ c.2 = o)) | intros r; cbn beta].
  { intros c w [HP Hc] Hw. eexists 0, _. split; [reflexivity |]. split; [done |]. split; [done |]. cbn. by rewrite <- Hw, Hc. }
  apply triple_pure. intros ->. change (0 =? 0) with true. cbv iota.
  apply triple_then; [report; apply triple_console; prints |].
  do 2 report. apply triple_then; [apply triple_modify; intros k; by destruct (Interrupts.gdt_init _ _ _) |].
  do 4 report. apply triple_then; [apply interrupts_triple |].
  do 3 report. eapply triple_bind; [apply triple_hw, timer_init_total | intros r; cbn beta].
  do 3 report. eapply triple_bind; [apply triple_get | intros k; cbn beta].
  eapply (triple_bind _ _ _ _ _ (fun _ => initialised o)); [| intros []; cbn beta; do 2 report; by apply memory_demo_initialised].
  intros k' Hk' (Ec & Hu & Eo').
  change (Vmm.vmm_get_hhdm_offset (E1000.vm (k_world k))) with (core k).2. rewrite <- Ec, Eo'.
  apply (scheduler_init_triple (fun c => untouched c /\ c.2 = o)); done.
Qed.
End core.

(** ** The outcomes of kmain *)

Section outcomes.
Context {hw : Type} {PORTS : Ports.Ports hw} {MMIO : E1000.Mmio hw} (ld : loader).
Notation kernel := (@kernel hw).

(** An action that never stops the machine. *)
Definition continues {A} (m : boot (hw := hw) A) : Prop := forall k k', m k <> Some (Halted k').

Lemma continues_ret {A} (a : A) : continues (mret a).
Proof. done. Qed.
Lemma continues_bind {A B} (m : boot A) (f : A -> boot B) : continues m -> (forall a, continues (f a)) -> continues (m ≫= f).
Proof.
  intros Hm Hf k k'. unfold mbind, boot_bind. destruct (m k) as [[k1|a k1]|] eqn:E; [by destruct (Hm k k1) | apply Hf | done].
Qed.
(** With what is known of the values of the first action. *)
Lemma continues_bind_post {A B} (m : boot A) (f : A -> boot B) (phi : A -> Prop) : continues m -> (forall k a k', m k = Some (Running a k') -> phi a) ->
  (forall a, phi a -> continues (f a)) -> continues (m ≫= f).
Proof.
  intros Hm Hv Hf k k'. unfold mbind, boot_bind. destruct (m k) as [[k1|a k1]|] eqn:E; [by destruct (Hm k k1) | eapply Hf, Hv, E | done].
Qed.
Lemma continues_on {S R} proj set (f : S -> option (R * S)) : continues (on proj set f).
Proof. intros k k'. unfold on. destruct (f (proj k)) as [[r s]|]; done. Qed.
Lemma continues_fs {R} f : continues (@on_fs hw R f).
Proof. intros k k'. unfold on_fs. destruct (f _) as [[r s]|]; done. Qed.
Lemma continues_console text : continues (console text).
Proof. intros k k'. unfold console. by destruct text. Qed.
Lemma continues_modify f : continues (modify f).
Proof. done. Qed.
Lemma continues_get : continues get.
Proof. done. Qed.
Lemma continues_read {A} (f : kernel -> option A) : continues (read f).
Proof. intros k k'. unfold read. by destruct (f k). Qed.
Lemma continues_if {A} (b : bool) (m n : boot A) : continues m -> continues n -> continues (if b then m else n).
Proof. by destruct b. Qed.

Lemma continues_on_ {S} proj set (f : S -> option S) : continues (on_ proj set f).
Proof. apply continues_on. Qed.

Ltac goes_on := repeat (cbn beta; lazymatch goal with
  | |- continues (mret _) => apply continues_ret
  | |- continues get => apply continues_get
  | |- continues (modify _) => apply continues_modify
  | |- continues (read _) => apply continues_read
  | |- continues (console _) => apply continues_console
  | |- continues (info _ _) => apply continues_console
  | |- continues (error _ _) => apply continues_console
  | |- continues (on _ _ _) => apply continues_on
  | |- continues (on_ _ _ _) => apply continues_on_
  | |- continues (on_graphic _) => apply continues_on_
  | |- continues (print_at _ _ _) => apply continues_on_
  | |- continues (show_ip _ _) => apply continues_on_
  | |- continues (on_sched _) => apply continues_on
  | |- continues (on_pmm _) => apply continues_on
  | |- continues (on_world _) => apply continues_on
  | |- continues (on_hw _) => apply continues_on
  | |- continues (on_fs _) => apply continues_fs
  | |- continues (mbind _ _) => apply continues_bind; [| intros ?]
  | |- continues (match ?x with _ => _ end) => destruct x
  end).

Lemma draw_screen_continues w h : continues (draw_screen w h).
Proof.
  unfold draw_screen. apply continues_bind; [| intros ?; goes_on].
  induction (seqZ 0 100) as [|i l IH]; [apply continues_ret |]. cbn [foldr]. apply continues_bind; [| intros ?; exact IH].
  unfold color_line. goes_on.
Qed.

Lemma dhcp_init_continues p : continues (dhcp_init p).
Proof. intros k k'. unfold dhcp_init. by destruct (Dhcp.dhcp_client_init _ _). Qed.
Lemma dhcp_start_continues c : continues (dhcp_start c).
Proof. intros k k'. unfold dhcp_start. by destruct (Dhcp.dhcp_client_start _ _ _) as [[? ?] ?]. Qed.

Lemma dhcp_demo_continues eth : continues (dhcp_demo eth).
Proof. unfold dhcp_demo. goes_on; [apply dhcp_init_continues | apply dhcp_start_continues]. Qed.

Lemma ethernet_demo_continues eth : continues (ethernet_demo eth).
Proof. unfold ethernet_demo. goes_on. apply dhcp_demo_continues. Qed.

Lemma boot_network_continues : continues boot_network.
Proof.
  unfold boot_network, network_init, loopback_demo. goes_on. apply ethernet_demo_continues.
Qed.

Lemma boot_devices_continues fuel : continues (boot_devices fuel).
Proof. unfold boot_devices. goes_on. Qed.

Lemma boot_threads_continues : continues (boot_threads ld).
Proof. unfold boot_threads, create_threads, add_thread, create_thread. goes_on. Qed.

(** The core stops the machine only when the boot loader gives no direct map:
    [vmm_init] never fails. *)
Lemma boot_core_continues o : hhdm ld = Some o -> continues (boot_core ld).
Proof.
  intros Eo. unfold boot_core, memory_demo. rewrite Eo.
  do 5 (apply continues_bind; [goes_on | intros ?]).
  apply (continues_bind_post _ _ (fun r => r = 0)); [goes_on | by intros k r k' [= <- _] |]. intros r ->. change (0 =? 0) with true. goes_on.
Qed.

Lemma kmain_halts_ok fuel k :
  (base_revision_supported ld = false \/ framebuffers ld = None \/ framebuffers ld = Some [] -> kmain ld fuel k = Some (Halted k)) /\
  (forall k', kmain ld fuel k = Some (Halted k') -> base_revision_supported ld = false \/ framebuffers ld = None \/ framebuffers ld = Some [] \/ hhdm ld = None).
Proof.
  unfold kmain. split.
  - intros [-> | [-> | ->]]; [done | by destruct (base_revision_supported ld)..].
  - destruct (base_revision_supported ld); [| auto]. destruct (framebuffers ld) as [[|fb fbs]|]; [auto | | auto]. cbn [negb].
    destruct (hhdm ld) as [o|] eqn:Eo; [| auto]. intros k' E. exfalso. revert k k' E. match goal with |- forall k k', ?m k = _ -> _ => change (continues m) end.
    goes_on; [by eapply boot_core_continues | apply draw_screen_continues | apply boot_network_continues | apply boot_devices_continues | apply boot_threads_continues].
Qed.
End outcomes.

(** ** Theorems *)



(** The boot loader is too old or gives no framebuffer. *)
Definition unsupported (ld : loader) : Prop := base_revision_supported ld = false \/ framebuffers ld = None \/ framebuffers ld = Some [].


(** Without an idle thread, as when the memory manager could not be initialised, the
    start of the scheduler goes through a null pointer. *)
Theorem start_without_idle s : Sched.ready_queue_heads s = replicate 7 0 -> Sched.idle_thread s = 0 -> Thread.threads (Sched.sys s) !! 0 = None ->
  Sched.scheduler_start s = None.
Proof.
  destruct s as [[m tbl nt pm sw] hs ts sq bq idl cur st run nr tk tss]. cbn. intros -> -> H0.
  unfold Sched.scheduler_start. match goal with |- context [Sched.pick_next_thread ?s] => change (Sched.pick_next_thread s) with (Some (0, s)) end.
  cbn [mbind option_bind]. unfold Sched.store, Thread.upd_thread. cbn. by rewrite H0.
Qed.

(** Before the start an interrupt of the timer only counts. *)
Theorem irq_before_start s : Sched.scheduler_running s = false -> Sched.timer_irq_handler s = Some (Sched.set_ticks (u64 (Sched.ticks s + 1)) s).
Proof. intros H. unfold Sched.timer_irq_handler, Sched.scheduler_tick. cbn. by rewrite H. Qed.

(** ** Concrete instances *)

(** Hardware of which every register reads 0, and a network card without state. *)
#[local] Instance quiet_ports : Ports.Ports unit := {|
  Ports.inb _ h := (0, h); Ports.outb _ _ h := h; Ports.inw _ h := (0, h); Ports.outw _ _ h := h; Ports.inl _ h := (0, h); Ports.outl _ _ h := h |}.
#[local] Instance quiet_mmio : E1000.Mmio unit := {| E1000.mmio_read _ h := (0, h); E1000.mmio_write _ _ h := h; E1000.mmio_wait _ h := h |}.

(** 512 KiB of memory. *)
Definition demo_memory : pmm := Pmm (Manager (replicate 16 0) 0x100000 128 128 16) 0x80000 0 0.
Definition demo_loader : loader :=
  Loader true None None (Some 0xFFFF800000000000) 0 0xFFFFFFFF80010000 0xFFFFFFFF80011000 0xFFFFFFFF80012000 0xFFFFFFFF80013000
    (fun n => 0xFFFFFFFF80001000 + n) (fun n => 0xFFFFFFFF80002000 + n) 0xFFFFFFFF80003000 0xFFFFFFFF80004000 0xFFFFFFFF80005000 0xFFFFFFFF80006000 0xFFFFFFFF80007000 [].

Definition demo_world : E1000.world unit pmm :=
  E1000.World _ _ (E1000.E1000Dev None 0 (replicate 6 0) [] [] 0 [] [] 0) false
    (Vmm.Vmm pmm (fun _ => 0) [Vmm.Ctx 0x1000 0x1000] 0 0 0 0 0x1000 0 [] demo_memory) (fun _ => 0) ().
Definition demo_kernel (w h : Z) : kernel (hw := unit) :=
  Kernel (blank w h) [] 1
    (Sched.Sched (Thread.ThreadSys ∅ [] 1 demo_memory (fun _ => 0)) [] [] 0 0 0 0 Sched.zero_stats false false 0 0)
    None [] (Interrupts.Cpu (0, 0) (0, 0) 0 0 0) (Pci.Pci [] 0)
    (Stack.Stack _ (Ip.Net _ (Netdev.dev0 demo_world) Arp.arp_init.2 1) (Icmp.Icmp false 0 0 0 0) Udp.udp_init.2 Tcp.tcp0 Dhcp.dhcp0)
    (Fat16.Fat16 (Fat16.Fs false 0 0 0 0 0 0 0 0 0 0 0 0 0) [] [] 0 ([], ())) false.

Lemma demo_screen W H w h : 0 <= w <= 0x10000 -> 0 <= h <= 0x10000 -> W <= w -> H <= h -> screen_ok W H (demo_kernel w h).
Proof.
  intros Hw Hh HW HH. split; [by apply (blank_ok w h) |]. split; [| done]. unfold stride. cbn [k_graphic demo_kernel blank setup_graphic framebuffer fb_pitch].
  rewrite Z.mul_comm, Z.div_mul; done.
Qed.

Lemma demo_memory_wf : wf (phys_mem demo_memory).
Proof. split; vm_compute; done || (split; discriminate). Qed.

Lemma demo_untouched w h : untouched demo_memory (core (demo_kernel w h)).
Proof. split; [done |]. split; [done |]. apply client_inv_init; [exact demo_memory_wf | done]. Qed.


(** The scheduler of [demo_kernel] initialised. *)
Definition demo_sched : Sched.sched := default (k_sched (demo_kernel 0 0)) (Sched.scheduler_init 0 0xFFFFFFFF80003000 0xFFFFFFFF80004000 (k_sched (demo_kernel 0 0))).
Definition demo_booted : kernel (hw := unit) := set_sched demo_sched (demo_kernel 640 790).

Lemma demo_booted_ready : ready demo_memory (Sched.idle_thread demo_sched) (fun _ => []) [] (core demo_booted).
Proof.
  destruct (scheduler_init_initialised demo_loader demo_memory (core (demo_kernel 0 0)) (demo_untouched 0 0) ltac:(done) ltac:(vm_compute; reflexivity)) as (s' & E & _ & Hi).
  change (core (demo_kernel 0 0)).2 with 0 in *.
  assert (demo_sched = s') as <- by (unfold demo_sched; change (core (demo_kernel 0 0)).1 with (k_sched (demo_kernel 0 0)) in E; cbn [thread_entry_wrapper idle_entry demo_loader] in E; by rewrite E).
  destruct Hi as [[Hn _] | [Hr _]]; [exfalso; revert Hn; vm_compute; discriminate | exact Hr].
Qed.


